(* ===== verification/_CoqProject ===== *)
-Q . S2P
Prelude.v
RustStr.v
AppViews.v
Database.v
AppData.v
SyncObjects.v
SyncStore.v
Membership.v
MembershipLaws.v
ProfileTables.v
TrustedOpen.v
Snapshots.v
SyncSecrets.v
Sealing.v
HandoffLaws.v
Pulls.v
AppOps.v
AppKinds.v
SyncLww.v
AppDataLaws.v
AppHistory.v
SyncCursor.v
SnapshotLaws.v
PullLaws.v
Routing.v
SocketText.v
Broadwebd.v
Http.v
Downloads.v
StrLaws.v
DownloadLaws.v
Daemon.v
Rendering.v
Protocols.v
UrlReference.v
DaemonLaws.v
ServiceFrames.v
ServiceFrameLaws.v
PeerDiscovery.v
Network.v
SyncHealth.v
Endpoints.v
Retention.v
RetentionLaws.v
ProfileSyncService.v
Kubo.v
IpnsDiscovery.v
DiscoveryTrust.v
DiscoveryLaws.v
DiscoveryTrustLaws.v
Gateway.v
Tor.v
BrowserCore.v
AddressLaws.v
BrowserLaws.v
DefaultDaemon.v
TorLaws.v
TransportLaws.v
GatewayLaws.v
ProfileSyncLaws.v
SyncClient.v
Publisher.v
MembershipLog.v
SyncRunner.v
SyncErrors.v
Scheduler.v
SchedulerLaws.v
Readiness.v
KeyBindings.v
KeyBindingLaws.v
LocationBar.v
ShellResponses.v
ChromeSettings.v
ProfileSyncPages.v
SlatePages.v
SlateLaws.v
ChromeSettingsLaws.v
PublisherLaws.v
PendingLaws.v
Exchange.v
