(* ===== verification/Prelude.v ===== *)
(** * Slate: verification library

    Slate is a browser whose profile (settings, bookmarks, downloads, calendar, chat,
    contacts, files) is a SQLite database on each device, kept in step with the user's other
    devices through broadwebd, a service inside the browser that fetches pages over HTTP,
    IPFS and Tor and stores encrypted objects and named roots. This library models the Rust
    crates that decide what a profile contains after changes travel between devices, what
    broadwebd fetches and keeps, and what the browser and its internal pages load and show.

    A Rust function has a definition of the same name; a method takes [self] first; a value
    the code reads from the clock is the argument [now], bytes of the random generator are
    the argument [random]. A function that reads and writes a database, a store or a network
    is a [state_result]: it takes the state and answers the new state with a [result], so a
    failing step keeps what was written before it and only [transaction] rolls back.

    ** Files

    Shared ground
    - [Prelude]: Rust results and options, the error and the state-and-error monad, [reads]
      for steps that change no state, [Ord] with its laws, [BTreeMap] order, automation.
    - [RustStr], [StrLaws]: the [str] methods the program calls, on bytes; their laws.

    The profile database (crates/storage/src/lib.rs)
    - [AppViews]: tables of the applications; how a received change is decoded, validated
      and written to the table of its domain. [AppData]: rows and JSON of the applications.
    - [Database]: rows, the database as a record of tables, statements and transactions.
    - [SyncObjects], [TrustedOpen]: envelopes, their verification and opening.
    - [SyncStore], [SyncLww]: the change log, local writes and received changes, the event
      log; the specification (a last-writer-wins register) and the refinement.
    - [Membership], [MembershipLaws]: the roster and the signed records that change it.
    - [ProfileTables]: cookies, blobs, sync domains, content keys.
    - [Snapshots], [SnapshotLaws]: snapshots, compaction, manifests.
    - [SyncSecrets], [Sealing], [HandoffLaws]: secrets, signers, sealing, enrollment and the
      secret handoff; the laws of the codecs; the handoff enrolls.
    - [Pulls], [PullLaws]: pulls of published state from an object source.
    - [AppOps], [AppKinds], [AppDataLaws], [AppHistory]: operations on application data, the
      interface of a keyed table, and the histories of a database.
    - [SyncCursor]: cursors, polls, [AppSyncDomainWatcher].
    - [Readiness]: the preview provider and the readiness report.

    broadwebd (crates/broadwebd, crates/routing)
    - [Routing], [SocketText]: multiaddresses and plans; the text of socket addresses.
    - [Broadwebd], [Http], [Downloads], [DownloadLaws], [Daemon], [DaemonLaws]: errors and
      budgets, requests and responses, the state directory, registry and dispatch.
    - [ServiceFrames], [ServiceFrameLaws]: service frames over in-process and TCP streams.
    - [PeerDiscovery], [IpnsDiscovery], [DiscoveryTrust], [DiscoveryLaws],
      [DiscoveryTrustLaws]: advertisements, their collection and which of them are trusted.
    - [Network], [Kubo], [Gateway], [GatewayLaws], [Tor], [TorLaws], [DefaultDaemon],
      [TransportLaws], [UrlReference]: the transports, the daemon as it is installed, and a
      reference instance of the URL parser for concrete runs.
    - [ProfileSyncService], [ProfileSyncLaws]: the profile-sync service.

    Profile sync (crates/profile-sync)
    - [SyncHealth], [Endpoints], [Retention], [RetentionLaws]: health policy, endpoints,
      selection and materialisation of retention providers.
    - [SyncClient], [Publisher], [PublisherLaws], [PendingLaws]: publication of settings.
    - [MembershipLog], [SyncRunner], [SyncErrors]: the published roster, a cycle, its errors.
    - [Scheduler], [SchedulerLaws]: the planning and running of cycles.
    - [Exchange]: from a publisher to a receiver.

    The browser (crates/rendering, apps, protocols, net, privacy, browser-core, chrome)
    - [Rendering], [Protocols], [BrowserCore], [AddressLaws], [BrowserLaws]: surfaces and
      pages, scheme plans, tabs and navigation, typed addresses.
    - [KeyBindings], [KeyBindingLaws], [LocationBar]: shortcuts, the location bar.
    - [ShellResponses] (protocols/broadweb.rs), [ChromeSettings] (the settings in use, the
      zoom in 32-bit floats, settings_watcher.rs), [ProfileSyncPages], [SlatePages]
      (protocols/slate.rs), [SlateLaws], [ChromeSettingsLaws].

    ** How the parts interact

    A local write of [SyncStore] (a setting, or an operation of [AppOps]) appends a change
    and a revision. [Publisher] seals the pending changes, or a snapshot and the changes
    after it, with [SyncSecrets], lists them in a manifest and publishes the manifest as a
    root and as the head of the device, through a [BroadwebdClient]; the service behind it is
    [ProfileSyncService], reached through [Daemon] or through [ServiceFrames]. A receiver
    resolves the root ([Pulls]), opens the objects with the roster ([TrustedOpen]) and applies
    the manifest ([Snapshots]), which applies each change with [SyncStore]; applications, and
    the shell through [ChromeSettings], learn the applied changes from [SyncCursor]. Who may
    publish is decided by [Membership]; [MembershipLog] carries its records. [SyncRunner]
    runs one cycle; [Scheduler] chooses the retention providers ([Retention]) a cycle uses,
    stored ones or those [DiscoveryTrust] accepts, and runs it when its plan is admitted.
    A page is loaded by [BrowserCore] through [Rendering], which asks [Daemon] for the
    addresses of broadwebd; the text of the location bar becomes an address in [LocationBar];
    slate:// addresses are answered by [SlatePages].

    ** What is proved

    - Convergence: the settings store is the last-writer-wins register of the changes made
      and received (C1), so replicas with the same changes agree (C2); the same for the rows
      of the applications (C3, C4); the invariant and the event log of every history (C23,
      C24); a snapshot gives a new device the values of the included domains (C5); a manifest
      is applied as a whole or not at all, with the changes it carries and no others (C21); a
      compaction covers as much of the log as it may (C40).
    - Trust: a signed record changes the roster exactly as specified (C6), through every
      history (C7); opened objects are signed by trusted devices that are no providers (C8);
      what is sealed opens under its own labels only (C15); a pull applies what the source
      answered, signed by trusted devices (C12), and arrives when the source answers, unless
      the root is the one already applied (C13). Content keys stay well formed (C22); a
      handoff enrolls (C14).
    - Exchange: settings reach a new device (C9), pending changes settle in one run (C10) and
      a receiver gets exactly the published tail (C11); watchers deliver at least once (C20).
    - Retention and scheduling: only authorised stored providers are used (C29), and enabled
      and healthy ones in a run, which refines a run of the cycle (C30); the readiness report
      names those a scheduler selects and, after them, those it leaves unread (C37).
    - Service: a failed call changes nothing (C38), capacities hold (C39); frames implement
      their specification (C18) over any stream (C28).
    - Discovery: trusted peers are authentic (C19), collecting ends (C31).
    - Transports: onion URLs stay in Tor unless the request names the direct transport (C16),
      gateways are tried once each and a healthy one is found (C25), a fetch is contained
      (C26), a response of a Tor stream is read back (C27), a download is stored safely (C35).
    - Browser and shell: a load is a page Slate makes up, one the daemon answers, or an
      address without a private name, and tabs and surfaces keep in step (C17); a bare onion
      name and an HTTP URL of an onion host are loaded through Tor (C34); the enrollment key is
      shown on request only (C32); a loaded secret is not lost and stays usable, with the
      exception the theorem names (C33); saved settings survive a restart (C36).

    ** Interfaces and assumptions

    Code that is not in the repository is a parameter: serde_json ([PayloadDecoders],
    [PayloadEncoders], [SyncCodec], [MembershipLogCodec], [FrameJson], [KuboJson],
    [DiscoveryJson], [IpnsRecordJson], [DownloadIndexJson]), the cryptography of ring and
    chacha20poly1305 ([SyncCodec], [SyncSealer] with [SealerLaws]), the url crate ([UrlCrate],
    [ShellUrls], [query_pairs]), reqwest ([HttpNetwork]), the Tor client ([TorNetwork]), TCP
    and UDP sockets with their clock ([UdpNetwork]), Servo ([ServoEngine]). Laws of
    an interface are separate classes that concrete instances discharge. The file system is a
    map of files and directories whose calls may fail. A materializer of provider handles is
    a function. The three local preview cycles the settings page runs are [LocalCycles].

    ** Bounds and fuel

    - Row ids and revisions are not bounded: SQLite fails the insert after 2^63 - 1 rows.
      Logical clocks, device sequences and stored revisions are bounded as the code and
      SQLite bound them; the sequences of the service wrap at 2^64. Event queries keep their
      limit of 2^32 - 1 rows.
    - Loops over a text ([trim], [replace], the UTF-8 decoders, [decode_chunks], the splits,
      [encode_query]) take its length as fuel, since every step consumes a byte; partial reads
      and writes take the number of bytes left. [drain] takes one more than the number of
      events; the stream of a Tor response is read with fuel, C27 gives enough of it, and
      redirects are followed at most six times as in the code. [collect_loop] takes fuel:
      C31 shows that more than the datagrams that arrive before the deadline is enough.
    - 32-bit floating point numbers are those of [SpecFloat], with 24 bits of precision; the
      zoom is checked at each of its 41 percentages.
    - The clock is read once per operation; the code reads it again in some helpers, where the
      value only fills time columns. A poisoned lock is not modelled, nor the interleaving of
      two requests that hold the lock of the settings page in turns.
    - The JSON column [included_domains] of the snapshot table is kept decoded.

    ** Not modelled

    The window, toolbar and dialogs of the chrome crate, its preferences and its WebDriver
    server (user interface and calls to Servo); the launcher and platform crates; the opening
    of the database file with its device-id file, and browsing history; the in-process
    fixtures for tests (HTTP, Kubo, local preview) and the cycles built on them; the
    command-line probes in src/bin; the vendored engine, build tasks and scripts.
*)
From Stdlib Require Export ZArith Lia Ascii String.
From stdpp Require Export base tactics list gmap strings sorting pretty.

#[global] Open Scope Z_scope.

(** ** Results and the error monad *)

(** Rust's [Result<A, E>]. *)
Inductive result (E A : Type) : Type :=
  | Ok (a : A)
  | Err (e : E).
Arguments Ok {E A} a.
Arguments Err {E A} e.

Declare Scope slate_scope.
Delimit Scope slate_scope with slate.
#[global] Open Scope slate_scope.

(** [let? x := c in k] is Rust's [let x = c?; k]. *)
Notation "'let?' x ':=' c 'in' k" :=
  (match c with Ok x => k | Err e => Err e end)
  (at level 10, x name, c at level 100, k at level 200) : slate_scope.

(** [check? c in k] is Rust's [c?; k] for a call run for its error only. *)
Notation "'check?' c 'in' k" :=
  (match c with Ok _ => k | Err e => Err e end)
  (at level 10, c at level 100, k at level 200) : slate_scope.

Definition is_ok {E A} (r : result E A) : bool :=
  match r with Ok _ => true | Err _ => false end.

Definition result_map {E A B} (f : A -> B) (r : result E A) : result E B :=
  match r with Ok a => Ok (f a) | Err e => Err e end.

Definition map_err {E F A} (f : E -> F) (r : result E A) : result F A :=
  match r with Ok a => Ok a | Err e => Err (f e) end.

(** [Option::ok_or]. *)
Definition ok_or {E A} (o : option A) (e : E) : result E A :=
  match o with Some a => Ok a | None => Err e end.

(** [iter.map(f).collect::<Result<Vec<_>, _>>()]: the first error wins. *)
Fixpoint collect_results {E A B} (f : A -> result E B) (l : list A) : result E (list B) :=
  match l with
  | [] => Ok []
  | a :: l => let? b := f a in let? bs := collect_results f l in Ok (b :: bs)
  end.

(** [for x in xs { f(x)?; }]. *)
Fixpoint check_all {E A} (f : A -> result E unit) (l : list A) : result E unit :=
  match l with
  | [] => Ok tt
  | a :: l => check? f a in check_all f l
  end.

#[export] Instance result_eq_dec {E A} `{EqDecision E, EqDecision A} : EqDecision (result E A).
Proof. solve_decision. Defined.

(** Computations over a mutable store that can fail.  The store is returned on
    the error path too, so that a partial update before an error is visible. *)
Definition state_result (S E A : Type) : Type := S -> S * result E A.

Definition sr_ret {S E A} (a : A) : state_result S E A := fun s => (s, Ok a).
Definition sr_err {S E A} (e : E) : state_result S E A := fun s => (s, Err e).
Definition sr_get {S E} : state_result S E S := fun s => (s, Ok s).
Definition sr_put {S E} (s' : S) : state_result S E unit := fun _ => (s', Ok tt).
Definition sr_lift {S E A} (r : result E A) : state_result S E A := fun s => (s, r).
Definition sr_bind {S E A B} (m : state_result S E A) (k : A -> state_result S E B) :
    state_result S E B :=
  fun s => match m s with
           | (s', Ok a) => k a s'
           | (s', Err e) => (s', Err e)
           end.

Notation "'let*' x ':=' c 'in' k" := (sr_bind c (fun x => k))
  (at level 10, x name, c at level 100, k at level 200) : slate_scope.
Notation "'do*' c 'in' k" := (sr_bind c (fun _ => k))
  (at level 10, c at level 100, k at level 200) : slate_scope.

(** [m.map_err(f)?]. *)
Definition sr_map_err {S E F A} (f : E -> F) (m : state_result S E A) : state_result S F A :=
  fun s => let '(s', r) := m s in (s', map_err f r).

(** A [rusqlite] transaction: committed on success, rolled back when dropped
    after an error. *)
Definition transaction {S E A} (m : state_result S E A) : state_result S E A :=
  fun s => match m s with
           | (s', Ok a) => (s', Ok a)
           | (_, Err e) => (s, Err e)
           end.

Lemma transaction_err {S E A} (m : state_result S E A) s s' e :
  transaction m s = (s', Err e) -> s' = s.
Proof. unfold transaction. destruct (m s) as [s1 [a|e1]]; congruence. Qed.

Lemma transaction_ok {S E A} (m : state_result S E A) s s' a :
  transaction m s = (s', Ok a) <-> m s = (s', Ok a).
Proof. unfold transaction. destruct (m s) as [s1 [a1|e1]]; split; congruence. Qed.

(** A computation that leaves the state as it is. *)
Definition reads {S E A} (m : state_result S E A) : Prop := forall s, (m s).1 = s.

Lemma reads_lift {S E A} (r : result E A) : reads (S := S) (sr_lift r).
Proof. done. Qed.
Lemma reads_ret {S E A} (a : A) : reads (S := S) (E := E) (sr_ret a).
Proof. done. Qed.
Lemma reads_err {S E A} (e : E) : reads (S := S) (A := A) (sr_err e).
Proof. done. Qed.
Lemma reads_bind {S E A B} (m : state_result S E A) (k : A -> state_result S E B) :
  reads m -> (forall a, reads (k a)) -> reads (sr_bind m k).
Proof.
  intros Hm Hk s. unfold sr_bind. specialize (Hm s). destruct (m s) as [s1 [a|e]]; [|done].
  simpl in Hm. subst. apply Hk.
Qed.
Lemma reads_map_err {S E F A} (f : E -> F) (m : state_result S E A) :
  reads m -> reads (sr_map_err f m).
Proof. intros Hm s. unfold sr_map_err. specialize (Hm s). by destruct (m s). Qed.

Lemma sr_bind_run {S E A B} (m : state_result S E A) (k : A -> state_result S E B) s s' r :
  m s = (s', r) ->
  sr_bind m k s = match r with Ok a => k a s' | Err e => (s', Err e) end.
Proof. unfold sr_bind. by intros ->. Qed.

Lemma sr_bind_ok {S E A B} (m : state_result S E A) (k : A -> state_result S E B) s s' b :
  sr_bind m k s = (s', Ok b) <->
  exists s1 a, m s = (s1, Ok a) /\ k a s1 = (s', Ok b).
Proof.
  unfold sr_bind. destruct (m s) as [s1 [a|e]]; split; naive_solver.
Qed.

(** ** Machine integers *)

Definition u16_max : Z := 2 ^ 16 - 1.
Definition u32_max : Z := 2 ^ 32 - 1.
Definition u64_max : Z := 2 ^ 64 - 1.
Definition i64_min : Z := - 2 ^ 63.
Definition i64_max : Z := 2 ^ 63 - 1.

(** [u64::saturating_add] and [usize::saturating_add] on a 64-bit target. *)
Definition saturating_add_u64 (a b : Z) : Z := Z.min u64_max (a + b).
(** [u64::wrapping_mul]. *)
Definition wrapping_mul_u64 (a b : Z) : Z := (a * b) mod 2 ^ 64.
(** [i64::saturating_sub]. *)
Definition saturating_sub_i64 (a b : Z) : Z := Z.max i64_min (Z.min i64_max (a - b)).

(** ** Rust's [Ord] and the iteration order of [BTreeMap] and [BTreeSet] *)

Class RustOrd (A : Type) := rust_cmp : A -> A -> comparison.

Class RustOrdLaws (A : Type) `{RustOrd A} : Prop := {
  rust_cmp_eq x y : rust_cmp x y = Eq <-> x = y;
  rust_cmp_flip x y : rust_cmp y x = CompOpp (rust_cmp x y);
  rust_cmp_lt_trans x y z : rust_cmp x y = Lt -> rust_cmp y z = Lt -> rust_cmp x z = Lt
}.

(** [Ordering::then_with]. *)
Definition then_cmp (c d : comparison) : comparison :=
  match c with Eq => d | _ => c end.

Definition rust_le {A} `{RustOrd A} (x y : A) : Prop := rust_cmp x y <> Gt.
Definition rust_ltb {A} `{RustOrd A} (x y : A) : bool :=
  match rust_cmp x y with Lt => true | _ => false end.
Definition rust_gtb {A} `{RustOrd A} (x y : A) : bool := rust_ltb y x.
Definition rust_geb {A} `{RustOrd A} (x y : A) : bool := negb (rust_ltb x y).

#[export] Instance rust_le_dec {A} `{RustOrd A} (x y : A) : Decision (rust_le x y).
Proof. unfold rust_le. apply _. Defined.

#[export] Instance RustOrd_Z : RustOrd Z := Z.compare.
#[export] Instance RustOrdLaws_Z : RustOrdLaws Z.
Proof.
  split; unfold rust_cmp, RustOrd_Z.
  - apply Z.compare_eq_iff.
  - intros. apply Z.compare_antisym.
  - intros x y z. rewrite !Z.compare_lt_iff. lia.
Qed.

(** [str]'s [Ord]: bytewise lexicographic. *)
Definition byte_cmp (a b : ascii) : comparison := N.compare (N_of_ascii a) (N_of_ascii b).

Fixpoint str_cmp (s t : string) : comparison :=
  match s, t with
  | EmptyString, EmptyString => Eq
  | EmptyString, String _ _ => Lt
  | String _ _, EmptyString => Gt
  | String a s', String b t' => then_cmp (byte_cmp a b) (str_cmp s' t')
  end.

#[export] Instance RustOrd_string : RustOrd string := str_cmp.

Lemma byte_cmp_eq a b : byte_cmp a b = Eq <-> a = b.
Proof.
  unfold byte_cmp. rewrite N.compare_eq_iff. split; [|congruence].
  intros E. rewrite <-(ascii_N_embedding a), <-(ascii_N_embedding b). congruence.
Qed.

#[export] Instance RustOrdLaws_string : RustOrdLaws string.
Proof.
  split; unfold rust_cmp, RustOrd_string.
  - induction x as [|a s IH]; intros [|b t]; simpl; try (split; congruence).
    unfold then_cmp. destruct (byte_cmp a b) eqn:E.
    + apply byte_cmp_eq in E. rewrite IH. split; congruence.
    + split; [congruence|]. intros [= -> ->].
      assert (byte_cmp b b = Eq) by by apply byte_cmp_eq. congruence.
    + split; [congruence|]. intros [= -> ->].
      assert (byte_cmp b b = Eq) by by apply byte_cmp_eq. congruence.
  - induction x as [|a s IH]; intros [|b t]; simpl; try done.
    unfold byte_cmp. rewrite (N.compare_antisym (N_of_ascii a)).
    destruct (N_of_ascii a ?= N_of_ascii b)%N; simpl; auto.
  - induction x as [|a s IH]; intros [|b t] [|c u]; simpl; try done.
    unfold then_cmp. destruct (byte_cmp a b) eqn:E1; try done;
      destruct (byte_cmp b c) eqn:E2; try done.
    + apply byte_cmp_eq in E1 as ->. rewrite E2. eauto.
    + apply byte_cmp_eq in E1 as ->. by rewrite E2.
    + apply byte_cmp_eq in E2 as ->. by rewrite E1.
    + assert (byte_cmp a c = Lt) as ->; [|done].
      unfold byte_cmp in *. rewrite N.compare_lt_iff in *. lia.
Qed.

(** Tuples compare lexicographically. *)
#[export] Instance RustOrd_prod {A B} `{RustOrd A, RustOrd B} : RustOrd (A * B) :=
  fun p q => then_cmp (rust_cmp p.1 q.1) (rust_cmp p.2 q.2).

Lemma rust_cmp_pair {A B} `{RustOrd A, RustOrd B} (a c : A) (b d : B) :
  rust_cmp (a, b) (c, d) = then_cmp (rust_cmp a c) (rust_cmp b d).
Proof. done. Qed.

Lemma rust_cmp_refl {A} `{RustOrdLaws A} (x : A) : rust_cmp x x = Eq.
Proof. by apply rust_cmp_eq. Qed.

#[export] Instance RustOrdLaws_prod {A B} `{RustOrdLaws A, RustOrdLaws B} : RustOrdLaws (A * B).
Proof.
  split.
  - intros [a b] [c d]. rewrite rust_cmp_pair. unfold then_cmp.
    destruct (rust_cmp a c) eqn:E.
    + apply rust_cmp_eq in E as ->. rewrite rust_cmp_eq. naive_solver.
    + split; [done|]. intros [= -> ->]. by rewrite rust_cmp_refl in E.
    + split; [done|]. intros [= -> ->]. by rewrite rust_cmp_refl in E.
  - intros [a b] [c d]. rewrite !rust_cmp_pair. unfold then_cmp.
    rewrite (rust_cmp_flip a c), (rust_cmp_flip b d). by destruct (rust_cmp a c).
  - intros [a b] [c d] [e f]. rewrite !rust_cmp_pair. unfold then_cmp.
    destruct (rust_cmp a c) eqn:E1; try done; destruct (rust_cmp c e) eqn:E2; try done.
    + apply rust_cmp_eq in E1 as ->. rewrite E2. apply rust_cmp_lt_trans.
    + apply rust_cmp_eq in E1 as ->. by rewrite E2.
    + apply rust_cmp_eq in E2 as ->. by rewrite E1.
    + by rewrite (rust_cmp_lt_trans _ _ _ E1 E2).
Qed.

(** [Option]'s [Ord]: [None] is below every [Some]. *)
#[export] Instance RustOrd_option {A} `{RustOrd A} : RustOrd (option A) :=
  fun x y => match x, y with
             | None, None => Eq
             | None, Some _ => Lt
             | Some _, None => Gt
             | Some a, Some b => rust_cmp a b
             end.

#[export] Instance RustOrdLaws_option {A} `{RustOrdLaws A} : RustOrdLaws (option A).
Proof.
  split.
  - intros [a|] [b|]; unfold rust_cmp at 1, RustOrd_option; try (split; congruence).
    rewrite rust_cmp_eq. naive_solver.
  - intros [a|] [b|]; try done. apply (rust_cmp_flip a b).
  - intros [a|] [b|] [c|]; try done. apply (rust_cmp_lt_trans a b c).
Qed.

Section OrdFacts.
Context {A : Type} `{RustOrdLaws A}.
Implicit Types x y z : A.

Lemma rust_ltb_spec x y : rust_ltb x y = true <-> rust_cmp x y = Lt.
Proof. unfold rust_ltb. destruct (rust_cmp x y); naive_solver. Qed.

Lemma rust_cmp_gt_lt x y : rust_cmp x y = Gt <-> rust_cmp y x = Lt.
Proof. rewrite (rust_cmp_flip x y). destruct (rust_cmp x y); simpl; naive_solver. Qed.

Lemma rust_ltb_irrefl x : rust_ltb x x = false.
Proof. unfold rust_ltb. by rewrite rust_cmp_refl. Qed.

Lemma rust_ltb_trans x y z : rust_ltb x y = true -> rust_ltb y z = true -> rust_ltb x z = true.
Proof. rewrite !rust_ltb_spec. apply rust_cmp_lt_trans. Qed.

Lemma rust_ltb_asym x y : rust_ltb x y = true -> rust_ltb y x = false.
Proof.
  rewrite rust_ltb_spec. unfold rust_ltb. rewrite (rust_cmp_flip x y).
  by intros ->.
Qed.

Lemma rust_ltb_total x y : rust_ltb x y = false -> x <> y -> rust_ltb y x = true.
Proof.
  unfold rust_ltb. rewrite (rust_cmp_flip x y).
  destruct (rust_cmp x y) eqn:E; try done. by apply rust_cmp_eq in E.
Qed.

#[export] Instance rust_le_total : Total (@rust_le A _).
Proof.
  intros x y. unfold rust_le. rewrite (rust_cmp_flip x y).
  destruct (rust_cmp x y); simpl; auto; left; congruence.
Qed.

Lemma rust_le_cases x y : rust_le x y <-> x = y \/ rust_cmp x y = Lt.
Proof.
  unfold rust_le. rewrite <-rust_cmp_eq. destruct (rust_cmp x y); naive_solver.
Qed.

#[export] Instance rust_le_trans : Transitive (@rust_le A _).
Proof.
  intros x y z. rewrite !rust_le_cases. intros [->|H1] [->|H2]; eauto using rust_cmp_lt_trans.
Qed.

#[export] Instance rust_le_antisymm : AntiSymm (=) (@rust_le A _).
Proof.
  intros x y. rewrite !rust_le_cases. intros [->|H1] [H2|H2]; try done.
  rewrite (rust_cmp_flip x y), H1 in H2. done.
Qed.

Lemma rust_le_ltb x y : rust_le x y <-> rust_ltb y x = false.
Proof.
  unfold rust_le, rust_ltb. rewrite (rust_cmp_flip x y).
  destruct (rust_cmp x y); simpl; naive_solver.
Qed.
End OrdFacts.

(** [slice::sort_by]: a stable merge sort. *)
Definition cmp_le {A} (cmp : A -> A -> comparison) (x y : A) : Prop := cmp x y <> Gt.
#[export] Instance cmp_le_dec {A} (cmp : A -> A -> comparison) x y : Decision (cmp_le cmp x y).
Proof. unfold cmp_le. apply _. Defined.

Definition sort_by {A} (cmp : A -> A -> comparison) (l : list A) : list A :=
  merge_sort (cmp_le cmp) l.

(** The comparison of two elements by a key. *)
Definition key_cmp {A K} `{RustOrd K} (f : A -> K) (x y : A) : comparison :=
  rust_cmp (f x) (f y).

Section SortBy.
Context {A K : Type} `{RustOrdLaws K} (f : A -> K) (cmp : A -> A -> comparison).
Hypothesis cmp_key : forall x y, cmp x y = key_cmp f x y.

Lemma sort_by_Permutation l : Permutation (sort_by cmp l) l.
Proof. apply merge_sort_Permutation. Qed.

Lemma sort_by_StronglySorted l :
  StronglySorted (fun x y => rust_le (f x) (f y)) (sort_by cmp l).
Proof.
  assert (Hw : forall x y, cmp_le cmp x y <-> rust_le (f x) (f y)).
  { intros. unfold cmp_le, rust_le. by rewrite cmp_key. }
  assert (StronglySorted (cmp_le cmp) (sort_by cmp l)) as HS.
  { apply StronglySorted_merge_sort.
    - intros x y z. rewrite !Hw. apply rust_le_trans.
    - intros x y. rewrite !Hw. apply rust_le_total. }
  induction HS as [|x xs HS IH HF]; constructor; [done|].
  eapply Forall_impl; [exact HF|]. intros y. apply Hw.
Qed.

Lemma elem_of_sort_by x l : x ∈ sort_by cmp l <-> x ∈ l.
Proof. by rewrite sort_by_Permutation. Qed.

Lemma sort_by_length l : length (sort_by cmp l) = length l.
Proof. by rewrite sort_by_Permutation. Qed.
End SortBy.

(** Iteration over a [BTreeMap] visits the entries in key order. *)
Section BTree.
Context {K : Type} `{Countable K} `{!RustOrd K, !RustOrdLaws K}.

Definition btree_iter {V} (m : gmap K V) : list (K * V) :=
  sort_by (key_cmp fst) (map_to_list m).
Definition btree_values {V} (m : gmap K V) : list V := (btree_iter m).*2.
Definition btree_elems (s : gset K) : list K := sort_by rust_cmp (elements s).

Lemma elem_of_btree_iter {V} (m : gmap K V) k v : (k, v) ∈ btree_iter m <-> m !! k = Some v.
Proof.
  unfold btree_iter. rewrite elem_of_sort_by. apply elem_of_map_to_list.
Qed.

Lemma elem_of_btree_elems (s : gset K) k : k ∈ btree_elems s <-> k ∈ s.
Proof. unfold btree_elems. rewrite elem_of_sort_by. apply elem_of_elements. Qed.

Lemma NoDup_btree_elems (s : gset K) : NoDup (btree_elems s).
Proof. unfold btree_elems. rewrite sort_by_Permutation. apply NoDup_elements. Qed.

Lemma NoDup_btree_iter_fst {V} (m : gmap K V) : NoDup (btree_iter m).*1.
Proof. unfold btree_iter. rewrite sort_by_Permutation. apply NoDup_fst_map_to_list. Qed.

Lemma btree_iter_length {V} (m : gmap K V) : length (btree_iter m) = size m.
Proof.
  unfold btree_iter. rewrite sort_by_length. apply length_map_to_list.
Qed.

Lemma btree_iter_sorted {V} (m : gmap K V) :
  StronglySorted (fun p q => rust_le p.1 q.1) (btree_iter m).
Proof. by apply sort_by_StronglySorted. Qed.
End BTree.

(** ** List lemmas shared by the components *)

(** [Iterator::find]. *)
Fixpoint list_find_bool {A} (p : A -> bool) (l : list A) : option A :=
  match l with
  | [] => None
  | a :: l => if p a then Some a else list_find_bool p l
  end.

Definition count_if {A} (p : A -> bool) (l : list A) : nat := length (List.filter p l).

Lemma list_find_bool_Some {A} (p : A -> bool) l a :
  list_find_bool p l = Some a -> a ∈ l /\ p a = true.
Proof.
  induction l as [|b l IH]; simpl; [done|]. destruct (p b) eqn:E.
  - intros [= ->]. split; [left|done].
  - intros [? ?]%IH. split; [by right|done].
Qed.

Lemma list_find_bool_None {A} (p : A -> bool) l :
  list_find_bool p l = None <-> forall a, a ∈ l -> p a = false.
Proof.
  induction l as [|b l IH]; simpl.
  - split; [|done]. intros _ a Ha. by apply elem_of_nil in Ha.
  - destruct (p b) eqn:E.
    + split; [done|]. intros Hall. rewrite Hall in E; [done|left].
    + rewrite IH. split.
      * intros Hall a [->|Ha]%elem_of_cons; auto.
      * intros Hall a Ha. apply Hall. by right.
Qed.

Lemma list_find_bool_is_Some {A} (p : A -> bool) l a :
  a ∈ l -> p a = true -> is_Some (list_find_bool p l).
Proof.
  intros Ha Hp. destruct (list_find_bool p l) eqn:E; [done|].
  rewrite list_find_bool_None in E. rewrite (E a Ha) in Hp. done.
Qed.

Lemma elem_of_filter_bool {A} (p : A -> bool) (l : list A) x :
  x ∈ List.filter p l <-> p x = true /\ x ∈ l.
Proof. rewrite !list_elem_of_In, List.filter_In. naive_solver. Qed.

Lemma filter_bool_app {A} (p : A -> bool) (l k : list A) :
  List.filter p (l ++ k) = List.filter p l ++ List.filter p k.
Proof. induction l as [|a l IH]; simpl; [done|]. by destruct (p a); rewrite IH. Qed.

Lemma filter_bool_none {A} (p : A -> bool) l :
  (forall x, x ∈ l -> p x = false) -> List.filter p l = [].
Proof.
  induction l as [|a l IH]; intros H; simpl; [done|].
  rewrite (H a) by left. apply IH. intros x Hx. apply H. by right.
Qed.

Lemma filter_bool_all {A} (p : A -> bool) l :
  (forall x, x ∈ l -> p x = true) -> List.filter p l = l.
Proof.
  induction l as [|a l IH]; intros H; simpl; [done|].
  rewrite (H a) by left. f_equal. apply IH. intros x Hx. apply H. by right.
Qed.

Lemma filter_bool_filter {A} (p q : A -> bool) l :
  List.filter p (List.filter q l) = List.filter (fun x => q x && p x) l.
Proof.
  induction l as [|a l IH]; simpl; [done|].
  destruct (q a); simpl; [destruct (p a)|]; by rewrite IH.
Qed.

Lemma filter_bool_ext {A} (p q : A -> bool) l :
  (forall x, x ∈ l -> p x = q x) -> List.filter p l = List.filter q l.
Proof.
  induction l as [|a l IH]; intros H; simpl; [done|].
  rewrite (H a) by left. rewrite IH; [done|]. intros x Hx. apply H. by right.
Qed.

Lemma check_all_ok {E A} (f : A -> result E unit) l :
  check_all f l = Ok tt <-> Forall (fun a => f a = Ok tt) l.
Proof.
  induction l as [|a l IH]; simpl; [done|].
  rewrite Forall_cons, <-IH. destruct (f a) as [[]|e]; naive_solver.
Qed.

(** ** Automation *)

(** Case analysis on the scrutinee of the first match of the goal or of a
    hypothesis, with its equation. *)
Ltac case_result :=
  match goal with
  | |- context [match ?c with Ok _ => _ | Err _ => _ end] => destruct c eqn:?
  | H : context [match ?c with Ok _ => _ | Err _ => _ end] |- _ => destruct c eqn:?
  end.

(** Unfold the results of a chain of [let?]. *)
Ltac destruct_results := repeat (case_result; simplify_eq/=; try done).

Ltac case_if :=
  match goal with
  | |- context [if ?c then _ else _] => destruct c eqn:?
  | H : context [if ?c then _ else _] |- _ => destruct c eqn:?
  end.

Create HintDb slate discriminated.
#[export] Hint Resolve rust_ltb_trans rust_ltb_asym rust_ltb_total : slate.
Create Rewrite HintDb slate_rw.
#[export] Hint Rewrite @elem_of_btree_elems @rust_ltb_irrefl using typeclasses eauto : slate_rw.
