(* ===== verification/RustStr.v ===== *)
(** * Rust's [str] as a byte string

    A Rust [&str] is a UTF-8 byte sequence; here it is Stdlib's [string], one
    [ascii] per byte.  The operations below are the ones the modelled code
    calls, at the granularity Rust documents: [len], [starts_with], [bytes] and
    [to_ascii_lowercase] work on bytes; [chars().all(p)] for an ASCII-only [p]
    is [all_bytes p], since every byte of a non-ASCII character fails [p] just
    as the character does; [trim] and [char::is_whitespace] know the 25
    characters of Unicode's White_Space property by their UTF-8 encodings,
    which can only match at a character boundary. *)
From S2P Require Import Prelude.

(** ** Bytes *)

Definition byte_val (c : ascii) : Z := Z.of_N (N_of_ascii c).
Definition byte_of (z : Z) : ascii := ascii_of_N (Z.to_N z).
Definition in_range (lo hi c : ascii) : bool :=
  (byte_val lo <=? byte_val c) && (byte_val c <=? byte_val hi).

Definition is_ascii_digit (c : ascii) : bool := in_range "0" "9" c.
Definition is_ascii_lowercase (c : ascii) : bool := in_range "a" "z" c.
Definition is_ascii_uppercase (c : ascii) : bool := in_range "A" "Z" c.
Definition is_ascii_alphanumeric (c : ascii) : bool :=
  is_ascii_digit c || is_ascii_lowercase c || is_ascii_uppercase c.
(** [u8::is_ascii_graphic]: ['!'..='~']. *)
Definition is_ascii_graphic (c : ascii) : bool := in_range "!" "~" c.
Definition one_of (s : string) (c : ascii) : bool :=
  existsb (Ascii.eqb c) (list_ascii_of_string s).

(** [char::to_digit(radix)] for radix 10 and 16. *)
Definition to_digit (radix : Z) (c : ascii) : option Z :=
  let d := if is_ascii_digit c then Some (byte_val c - 48)
           else if is_ascii_lowercase c then Some (byte_val c - 87)
           else if is_ascii_uppercase c then Some (byte_val c - 55)
           else None in
  match d with
  | Some d => if d <? radix then Some d else None
  | None => None
  end.

Definition byte_to_ascii_lowercase (c : ascii) : ascii :=
  if is_ascii_uppercase c then byte_of (byte_val c + 32) else c.

(** ** Strings *)

Definition str_len (s : string) : Z := Z.of_nat (String.length s).
Definition is_empty (s : string) : bool :=
  match s with EmptyString => true | _ => false end.
(** Named, so that [vm_compute] and rewriting see one equality test. *)
Definition str_eqb (s t : string) : bool := String.eqb s t.

Fixpoint str_map (f : ascii -> ascii) (s : string) : string :=
  match s with
  | EmptyString => EmptyString
  | String c s => String (f c) (str_map f s)
  end.

Definition to_ascii_lowercase (s : string) : string := str_map byte_to_ascii_lowercase s.
Definition eq_ignore_ascii_case (s t : string) : bool :=
  str_eqb (to_ascii_lowercase s) (to_ascii_lowercase t).

Fixpoint all_bytes (p : ascii -> bool) (s : string) : bool :=
  match s with
  | EmptyString => true
  | String c s => p c && all_bytes p s
  end.

(** [str::strip_prefix]. *)
Fixpoint strip_prefix (p s : string) : option string :=
  match p, s with
  | EmptyString, _ => Some s
  | String a p, String b s => if Ascii.eqb a b then strip_prefix p s else None
  | String _ _, EmptyString => None
  end.

Definition starts_with (p s : string) : bool :=
  match strip_prefix p s with Some _ => true | None => false end.

Fixpoint str_rev_append (s acc : string) : string :=
  match s with
  | EmptyString => acc
  | String c s => str_rev_append s (String c acc)
  end.
Definition str_rev (s : string) : string := str_rev_append s EmptyString.

(** [str::strip_suffix], [str::ends_with]. *)
Definition strip_suffix (p s : string) : option string :=
  option_map str_rev (strip_prefix (str_rev p) (str_rev s)).
Definition ends_with (p s : string) : bool := starts_with (str_rev p) (str_rev s).

(** [str::contains] of a pattern string. *)
Fixpoint str_contains (p s : string) : bool :=
  starts_with p s ||
  match s with
  | EmptyString => false
  | String _ s => str_contains p s
  end.

(** [s.find(p)] for an ASCII predicate, as the two halves [&s[..i]] and
    [&s[i..]]; [unwrap_or(s.len())] makes the second half empty. *)
Fixpoint split_at_first (p : ascii -> bool) (s : string) : string * string :=
  match s with
  | EmptyString => (EmptyString, EmptyString)
  | String c s' =>
      if p c then (EmptyString, s)
      else let '(a, b) := split_at_first p s' in (String c a, b)
  end.

(** [str::split(c)]: never empty. *)
Fixpoint str_split (sep : ascii) (s : string) : list string :=
  match s with
  | EmptyString => [EmptyString]
  | String c s =>
      if Ascii.eqb c sep then EmptyString :: str_split sep s
      else match str_split sep s with
           | [] => [String c EmptyString]
           | h :: t => String c h :: t
           end
  end.

(** [str::split_once] with a string separator. *)
Fixpoint split_once (sep s : string) : option (string * string) :=
  match strip_prefix sep s with
  | Some rest => Some (EmptyString, rest)
  | None =>
      match s with
      | EmptyString => None
      | String c s =>
          match split_once sep s with
          | Some (a, b) => Some (String c a, b)
          | None => None
          end
      end
  end.

(** [[String]::join]. *)
Fixpoint str_join (sep : string) (l : list string) : string :=
  match l with
  | [] => EmptyString
  | [s] => s
  | s :: l => s +:+ sep +:+ str_join sep l
  end.

(** ** Unicode white space *)

Definition bytes_str (l : list Z) : string := string_of_list_ascii (map byte_of l).

(** The UTF-8 encodings of the characters for which [char::is_whitespace]. *)
Definition whitespace_chars : list string :=
  map bytes_str
    ([[9]; [10]; [11]; [12]; [13]; [32]; [194; 133]; [194; 160]; [225; 154; 128]]
     ++ map (fun b => [226; 128; b]) [128; 129; 130; 131; 132; 133; 134; 135; 136; 137; 138;
                                      168; 169; 175]
     ++ [[226; 129; 159]; [227; 128; 128]]).

(** The rest of [s] after a white-space character, when it starts with one. *)
Definition strip_whitespace_char (s : string) : option string :=
  match list_find_bool (fun w => starts_with w s) whitespace_chars with
  | Some w => strip_prefix w s
  | None => None
  end.

Fixpoint trim_start_fuel (fuel : nat) (s : string) : string :=
  match fuel with
  | O => s
  | S fuel =>
      match strip_whitespace_char s with
      | Some s => trim_start_fuel fuel s
      | None => s
      end
  end.
(** Each step consumes at least one byte, so the length is enough fuel. *)
Definition trim_start (s : string) : string := trim_start_fuel (String.length s) s.

Definition strip_whitespace_char_end (s : string) : option string :=
  match list_find_bool (fun w => ends_with w s) whitespace_chars with
  | Some w => strip_suffix w s
  | None => None
  end.
Fixpoint trim_end_fuel (fuel : nat) (s : string) : string :=
  match fuel with
  | O => s
  | S fuel =>
      match strip_whitespace_char_end s with
      | Some s => trim_end_fuel fuel s
      | None => s
      end
  end.
Definition trim_end (s : string) : string := trim_end_fuel (String.length s) s.
Definition trim (s : string) : string := trim_end (trim_start s).

(** [s.chars().any(char::is_whitespace)]. *)
Fixpoint has_whitespace (s : string) : bool :=
  match strip_whitespace_char s with
  | Some _ => true
  | None => match s with EmptyString => false | String _ s => has_whitespace s end
  end.

(** [str::trim_end_matches(c)], [str::trim_matches] for one ASCII character. *)
Fixpoint drop_leading (c : ascii) (s : string) : string :=
  match s with
  | EmptyString => EmptyString
  | String a s' => if Ascii.eqb a c then drop_leading c s' else s
  end.
Definition trim_end_matches (c : ascii) (s : string) : string :=
  str_rev (drop_leading c (str_rev s)).

(** ** Formatting *)

(** [Display] of an integer. *)
Definition show (z : Z) : string := pretty z.

Definition hex_upper (d : Z) : ascii :=
  if d <? 10 then byte_of (48 + d) else byte_of (55 + d).
Definition hex_lower (d : Z) : ascii :=
  if d <? 10 then byte_of (48 + d) else byte_of (87 + d).

(** [{:0nx}]: [n] lower-case hexadecimal digits, for values below [16^n]. *)
Fixpoint hex_digits (n : nat) (z : Z) : string :=
  match n with
  | O => EmptyString
  | S n => String (hex_lower ((z / 16 ^ Z.of_nat n) mod 16)) (hex_digits n z)
  end.

(** [{:x}]: no leading zeros. *)
Fixpoint trim_zeros (s : string) : string :=
  match s with
  | String "0" (String _ _ as s') => trim_zeros s'
  | _ => s
  end.
Definition hex_u16 (z : Z) : string := trim_zeros (hex_digits 4 z).

(** [Debug] of a [str]: quoted, with Rust's escapes for the ASCII controls, the
    quote and the backslash.  Non-ASCII characters are printed as they are,
    which is what Rust does for the printable ones. *)
Definition debug_byte (c : ascii) : string :=
  let z := byte_val c in
  if z =? 0 then "\0"
  else if z =? 9 then "\t"
  else if z =? 10 then "\n"
  else if z =? 13 then "\r"
  else if z =? 34 then String (byte_of 92) (String c EmptyString)
  else if z =? 92 then String c (String c EmptyString)
  else if (z <? 32) || (z =? 127) then "\u{" +:+ trim_zeros (hex_digits 2 z) +:+ "}"
  else String c EmptyString.
Fixpoint debug_bytes (s : string) : string :=
  match s with
  | EmptyString => EmptyString
  | String c s => debug_byte c +:+ debug_bytes s
  end.
Definition quote : string := String (byte_of 34) EmptyString.
Definition debug_str (s : string) : string := quote +:+ debug_bytes s +:+ quote.
(** [{:?}] of an [Option]. *)
Definition debug_option {A} (debug : A -> string) (o : option A) : string :=
  match o with Some a => "Some(" +:+ debug a +:+ ")" | None => "None" end.

(** ** Integers *)

Definition parse_error_empty : string := "cannot parse integer from empty string".
Definition parse_error_digit : string := "invalid digit found in string".
Definition parse_error_large : string := "number too large to fit in target type".
Definition parse_error_small : string := "number too small to fit in target type".

(** [<i64 as FromStr>::from_str], digit by digit with its overflow checks. *)
Fixpoint parse_digits (negative : bool) (acc : Z) (s : string) : result string Z :=
  match s with
  | EmptyString => Ok acc
  | String c s =>
      match to_digit 10 c with
      | None => Err parse_error_digit
      | Some d =>
          let acc := if negative then acc * 10 - d else acc * 10 + d in
          if acc <? i64_min then Err parse_error_small
          else if i64_max <? acc then Err parse_error_large
          else parse_digits negative acc s
      end
  end.

Definition parse_i64 (s : string) : result string Z :=
  match s with
  | EmptyString => Err parse_error_empty
  | String c rest =>
      if (Ascii.eqb c "-" || Ascii.eqb c "+") then
        if is_empty rest then Err parse_error_digit
        else parse_digits (Ascii.eqb c "-") 0 rest
      else parse_digits false 0 s
  end.

(** ** Lemmas *)

Lemma str_eqb_eq s t : str_eqb s t = true <-> s = t.
Proof. apply String.eqb_eq. Qed.

Lemma str_eqb_refl s : str_eqb s s = true.
Proof. by apply str_eqb_eq. Qed.

Lemma str_eqb_neq s t : str_eqb s t = false <-> s <> t.
Proof. rewrite <-not_true_iff_false. by rewrite str_eqb_eq. Qed.

Lemma pretty_N_char_digit n :
  (n < 10)%N -> to_digit 10 (pretty_N_char n) = Some (Z.of_N n) /\
  Ascii.eqb (pretty_N_char n) "-" = false /\ Ascii.eqb (pretty_N_char n) "+" = false.
Proof.
  intros Hn. destruct n as [|p]; [by split_and!|].
  destruct p as [p|p|]; try destruct p as [p|p|]; try destruct p as [p|p|];
    try destruct p as [p|p|]; try lia; by split_and!.
Qed.

(** Printing prefixes the digits that parsing consumes. *)
Lemma parse_digits_pretty (negative : bool) n s :
  (if negative then - Z.of_N n >= i64_min else Z.of_N n <= i64_max) ->
  parse_digits negative 0 (pretty_N_go n s)
  = parse_digits negative (if negative then - Z.of_N n else Z.of_N n) s.
Proof.
  revert s. induction (N.lt_wf_0 n) as [n _ IH]. intros s Hr.
  destruct (decide (n = 0)%N) as [->|Hn].
  { rewrite pretty_N_go_0. by destruct negative. }
  rewrite pretty_N_go_step by lia.
  assert (Hdiv : (n / 10 < n)%N) by (apply N.div_lt; lia).
  assert (Hmod : (n = 10 * (n / 10) + n mod 10)%N) by (apply N.div_mod; lia).
  assert (Hlt : (n mod 10 < 10)%N) by (apply N.mod_lt; lia).
  rewrite IH; [|done|destruct negative; unfold i64_min, i64_max in *; lia].
  simpl. destruct (pretty_N_char_digit _ Hlt) as [-> _].
  assert ((if negative then (if negative then - Z.of_N (n / 10) else Z.of_N (n / 10)) * 10
                            - Z.of_N (n mod 10)
           else (if negative then - Z.of_N (n / 10) else Z.of_N (n / 10)) * 10
                + Z.of_N (n mod 10))
          = if negative then - Z.of_N n else Z.of_N n) as ->.
  { destruct negative; lia. }
  destruct negative; unfold i64_min, i64_max in *;
    repeat case_match; first [done | lia].
Qed.

Lemma pretty_N_go_head n s :
  (0 < n)%N -> exists d r, (d < 10)%N /\ pretty_N_go n s = String (pretty_N_char d) r.
Proof.
  revert s. induction (N.lt_wf_0 n) as [n _ IH]. intros s Hn.
  rewrite pretty_N_go_step by lia. destruct (decide (n / 10 = 0)%N) as [->|Hd].
  - rewrite pretty_N_go_0. do 2 eexists. split; [|done]. apply N.mod_lt. lia.
  - apply IH; [apply N.div_lt; lia|by apply N.neq_0_lt_0].
Qed.

Lemma str_app_assoc (a b c : string) : (a +:+ b) +:+ c = a +:+ b +:+ c.
Proof. induction a as [|x a IH]; [done|]. exact (f_equal (String x) IH). Qed.

Lemma strip_prefix_app p s : strip_prefix p (p +:+ s) = Some s.
Proof. induction p as [|a p IH]; [done|]. simpl. by rewrite Ascii.eqb_refl. Qed.

Lemma strip_prefix_Some p s rest : strip_prefix p s = Some rest <-> s = p +:+ rest.
Proof.
  split; [|intros ->; apply strip_prefix_app].
  revert s. induction p as [|a p IH]; intros s; simpl; [by intros [= ->]|].
  destruct s as [|b s]; [done|]. destruct (Ascii.eqb_spec a b) as [<-|]; [|done].
  intros H%IH. by rewrite H.
Qed.

Lemma prefix_inj p a b : p +:+ a = p +:+ b -> a = b.
Proof. intros H. apply (f_equal (strip_prefix p)) in H. rewrite !strip_prefix_app in H. congruence. Qed.

Lemma starts_with_spec p s : starts_with p s = true <-> exists rest, s = p +:+ rest.
Proof.
  unfold starts_with. setoid_rewrite <-strip_prefix_Some.
  destruct (strip_prefix p s); naive_solver.
Qed.

(** [z.to_string().parse::<i64>()] is [z]. *)
Lemma parse_i64_show z : i64_min <= z <= i64_max -> parse_i64 (show z) = Ok z.
Proof.
  intros Hz. destruct z as [|p|p]; [reflexivity| |].
  - change (show (Z.pos p)) with (pretty_N_go (N.pos p) "").
    destruct (pretty_N_go_head (N.pos p) "" ltac:(lia)) as (d & r & Hd & E).
    rewrite E. simpl. destruct (pretty_N_char_digit d Hd) as (_ & -> & ->). simpl.
    change (parse_digits false 0 (String (pretty_N_char d) r) = Ok (Z.pos p)).
    rewrite <-E. rewrite parse_digits_pretty; [done|lia].
  - change (show (Z.neg p)) with (String "-" (pretty_N_go (N.pos p) "")).
    destruct (pretty_N_go_head (N.pos p) "" ltac:(lia)) as (d & r & Hd & E).
    unfold parse_i64. simpl. rewrite E. simpl.
    change (parse_digits true 0 (String (pretty_N_char d) r) = Ok (Z.neg p)).
    rewrite <-E. rewrite parse_digits_pretty; [done|]. lia.
Qed.

Lemma all_bytes_app p a b : all_bytes p (a +:+ b) = all_bytes p a && all_bytes p b.
Proof. induction a as [|c a IH]; simpl; [done|]. by rewrite IH, andb_assoc. Qed.

Lemma pretty_N_go_all_bytes p n s :
  (forall d, (d < 10)%nat -> p (pretty_N_char (N.of_nat d)) = true) -> all_bytes p s = true ->
  all_bytes p (pretty_N_go n s) = true.
Proof.
  intros Hp. revert s. induction n as [n IH] using (well_founded_induction N.lt_wf_0).
  intros s Hs. destruct (decide (n = 0)%N) as [->|Hn]; [done|].
  rewrite pretty_N_go_step by lia. apply IH; [apply N.div_lt; lia|]. simpl.
  rewrite Hs, andb_true_r. rewrite <-(N2Nat.id (n mod 10)). apply Hp.
  pose proof (N.mod_lt n 10). lia.
Qed.

(** A number that is not negative prints as digits. *)
Lemma show_all_bytes p z :
  0 <= z -> (forall d, (d < 10)%nat -> p (pretty_N_char (N.of_nat d)) = true) ->
  all_bytes p (show z) = true.
Proof.
  intros Hz Hp. destruct z as [|n|]; [|by apply pretty_N_go_all_bytes|lia].
  change (p "0"%char && true = true).
  by rewrite (Hp 0%nat ltac:(lia) : p "0"%char = true).
Qed.

Lemma show_not_empty z : is_empty (show z) = false.
Proof.
  destruct z as [|n|n]; [done| |done].
  change (show (Z.pos n)) with (pretty_N_go (N.pos n) "").
  by destruct (pretty_N_go_head (N.pos n) "" ltac:(lia)) as (d & r & _ & ->).
Qed.
