(* ===== verification/AppViews.v ===== *)
(** * Materialised application views of synchronised settings

    Models the per-domain views of [crates/storage/src/lib.rs]: the sync
    payloads ([BookmarkSlotSyncPayload], [CalendarEventSyncPayload], ...), their
    validation, the SQL statements that apply them to the application tables,
    and [apply_sync_setting_materialized_view_in_transaction], which selects the
    view of an incoming change.  [serde_json] is third-party code: the decoder
    of each payload type is a parameter ([PayloadDecoders]). *)
From S2P Require Import Prelude RustStr.

(** The SQLite column types named by [rusqlite::types::Type]. *)
Inductive SqlType := TypeText | TypeInteger.
#[export] Instance SqlType_eq_dec : EqDecision SqlType.
Proof. solve_decision. Defined.

(** The [rusqlite::Error] values the modelled code can meet. *)
Inductive SqlError :=
  | FromSqlConversionFailure (column : Z) (type : SqlType) (source : string)
  | InvalidColumnType (column : Z)
  | ConstraintViolation (index : string)
  | QueryReturnedNoRows.
#[export] Instance SqlError_eq_dec : EqDecision SqlError.
Proof. solve_decision. Defined.

(** ** Domains and key prefixes *)

Definition DEFAULT_PROFILE_ID : string := "default".
Definition SYNC_DOMAIN_BOOKMARKS : string := "bookmarks".
Definition SYNC_DOMAIN_CALENDAR : string := "calendar".
Definition SYNC_DOMAIN_CHAT : string := "chat".
Definition SYNC_DOMAIN_CONTACTS : string := "contacts".
Definition SYNC_DOMAIN_DOWNLOADS : string := "downloads".
Definition SYNC_DOMAIN_FILES : string := "files".
Definition SYNC_DOMAIN_SETTINGS : string := "settings".
Definition SYNC_DOMAIN_STORAGE : string := "storage".

Definition BOOKMARK_HOME_SLOT_SYNC_KEY_PREFIX : string := "home.slot.".
Definition CALENDAR_EVENT_SYNC_KEY_PREFIX : string := "event.".
Definition CHAT_CONVERSATION_SYNC_KEY_PREFIX : string := "conversation.".
Definition CONTACT_CARD_SYNC_KEY_PREFIX : string := "contact.".
Definition DOWNLOAD_METADATA_SYNC_KEY_PREFIX : string := "download.".
Definition FILE_ENTRY_SYNC_KEY_PREFIX : string := "entry.".
Definition STORAGE_PROVIDER_SYNC_KEY_PREFIX : string := "provider.".

Definition bookmark_home_slot_sync_key (position : Z) : string :=
  BOOKMARK_HOME_SLOT_SYNC_KEY_PREFIX +:+ show position.
Definition calendar_event_sync_key (event_id : string) : string :=
  CALENDAR_EVENT_SYNC_KEY_PREFIX +:+ event_id.
Definition chat_conversation_sync_key (conversation_id : string) : string :=
  CHAT_CONVERSATION_SYNC_KEY_PREFIX +:+ conversation_id.
Definition contact_card_sync_key (contact_id : string) : string :=
  CONTACT_CARD_SYNC_KEY_PREFIX +:+ contact_id.
Definition download_metadata_sync_key (download_id : string) : string :=
  DOWNLOAD_METADATA_SYNC_KEY_PREFIX +:+ download_id.
Definition file_entry_sync_key (entry_id : string) : string :=
  FILE_ENTRY_SYNC_KEY_PREFIX +:+ entry_id.
Definition storage_provider_sync_key (provider_id : string) : string :=
  STORAGE_PROVIDER_SYNC_KEY_PREFIX +:+ provider_id.

Definition is_valid_sync_identifier (value : string) : bool :=
  negb (is_empty value)
  && all_bytes (fun byte => is_ascii_alphanumeric byte || one_of "-_" byte) value.

(** ** Payloads *)

Record BookmarkSlotSyncPayload := {
  bs_url : string;
  bs_title : option string;
  bs_folder : option string;
  bs_position : Z;
  bs_favicon_key : option string;
  bs_replaced_url : option string;
  bs_deleted : bool
}.

Record CalendarEventSyncPayload := {
  ce_event_id : string;
  ce_calendar_id : option string;
  ce_title : string;
  ce_starts_at : Z;
  ce_ends_at : option Z;
  ce_time_zone : option string;
  ce_location : option string;
  ce_notes : option string;
  ce_recurrence_rule : option string;
  ce_reminder_minutes : option Z;
  ce_deleted : bool
}.

Record ChatConversationSyncPayload := {
  cc_conversation_id : string;
  cc_provider_id : option string;
  cc_external_thread_id : option string;
  cc_display_name : string;
  cc_avatar_key : option string;
  cc_last_message_at : option Z;
  cc_unread_count : Z;
  cc_archived : bool;
  cc_muted : bool;
  cc_deleted : bool
}.

Record ContactCardSyncPayload := {
  ct_contact_id : string;
  ct_display_name : string;
  ct_given_name : option string;
  ct_family_name : option string;
  ct_organization : option string;
  ct_primary_email : option string;
  ct_primary_phone : option string;
  ct_notes : option string;
  ct_avatar_key : option string;
  ct_deleted : bool
}.

Record DownloadMetadataSyncPayload := {
  dm_download_id : string;
  dm_source_url : string;
  dm_final_url : string;
  dm_route : option string;
  dm_transport_id : option string;
  dm_filename : string;
  dm_content_type : option string;
  dm_size_bytes : Z;
  dm_integrity : option string;
  dm_deleted : bool
}.

Record FileEntrySyncPayload := {
  fe_entry_id : string;
  fe_sync_set_id : option string;
  fe_parent_id : option string;
  fe_name : string;
  fe_entry_kind : string;
  fe_content_ref : option string;
  fe_mime_type : option string;
  fe_size_bytes : option Z;
  fe_modified_at : option Z;
  fe_integrity : option string;
  fe_retention_policy : option string;
  fe_deleted : bool
}.

Record StorageProviderSyncPayload := {
  sp_provider_id : string;
  sp_provider_kind : string;
  sp_display_name : string;
  sp_endpoint_ref : option string;
  sp_discovery : bool;
  sp_connectivity : bool;
  sp_object_transfer : bool;
  sp_availability : bool;
  sp_mutable_roots : bool;
  sp_quota_bytes : option Z;
  sp_max_retained_objects : option Z;
  sp_pinning_policy : option string;
  sp_enabled : bool;
  sp_deleted : bool
}.

(** ** Tables *)

(** A row of one of the application tables keyed by [(profile, id)]: the
    payload columns as the [INSERT] writes them, and the two timestamps. *)
Record AppRow (P : Type) := {
  row_payload : P;
  row_created_at : Z;
  row_updated_at : Z
}.
Arguments row_payload {P}.
Arguments row_created_at {P}.
Arguments row_updated_at {P}.
Arguments Build_AppRow {P}.

(** A row of [bookmarks], which has a surrogate key and [UNIQUE(profile, url)]. *)
Record BookmarkRow := {
  bm_profile : string;
  bm_url : string;
  bm_title : option string;
  bm_folder : option string;
  bm_position : Z;
  bm_favicon_key : option string;
  bm_created_at : Z;
  bm_updated_at : Z
}.

(** The materialised tables: [settings] and the seven application tables. *)
Record AppTables := {
  tbl_settings : gmap string (string * Z);
  tbl_bookmarks : list BookmarkRow;
  tbl_calendar_events : gmap (string * string) (AppRow CalendarEventSyncPayload);
  tbl_chat_conversations : gmap (string * string) (AppRow ChatConversationSyncPayload);
  tbl_contact_cards : gmap (string * string) (AppRow ContactCardSyncPayload);
  tbl_downloads : gmap (string * string) (AppRow DownloadMetadataSyncPayload);
  tbl_file_entries : gmap (string * string) (AppRow FileEntrySyncPayload);
  tbl_storage_providers : gmap (string * string) (AppRow StorageProviderSyncPayload)
}.

Definition empty_app_tables : AppTables := {|
  tbl_settings := ∅; tbl_bookmarks := []; tbl_calendar_events := ∅;
  tbl_chat_conversations := ∅; tbl_contact_cards := ∅; tbl_downloads := ∅;
  tbl_file_entries := ∅; tbl_storage_providers := ∅
|}.

Definition set_tbl_settings v t := {|
  tbl_settings := v; tbl_bookmarks := tbl_bookmarks t;
  tbl_calendar_events := tbl_calendar_events t;
  tbl_chat_conversations := tbl_chat_conversations t;
  tbl_contact_cards := tbl_contact_cards t; tbl_downloads := tbl_downloads t;
  tbl_file_entries := tbl_file_entries t; tbl_storage_providers := tbl_storage_providers t |}.
Definition set_tbl_bookmarks v t := {|
  tbl_settings := tbl_settings t; tbl_bookmarks := v;
  tbl_calendar_events := tbl_calendar_events t;
  tbl_chat_conversations := tbl_chat_conversations t;
  tbl_contact_cards := tbl_contact_cards t; tbl_downloads := tbl_downloads t;
  tbl_file_entries := tbl_file_entries t; tbl_storage_providers := tbl_storage_providers t |}.
Definition set_tbl_calendar_events v t := {|
  tbl_settings := tbl_settings t; tbl_bookmarks := tbl_bookmarks t;
  tbl_calendar_events := v;
  tbl_chat_conversations := tbl_chat_conversations t;
  tbl_contact_cards := tbl_contact_cards t; tbl_downloads := tbl_downloads t;
  tbl_file_entries := tbl_file_entries t; tbl_storage_providers := tbl_storage_providers t |}.
Definition set_tbl_chat_conversations v t := {|
  tbl_settings := tbl_settings t; tbl_bookmarks := tbl_bookmarks t;
  tbl_calendar_events := tbl_calendar_events t;
  tbl_chat_conversations := v;
  tbl_contact_cards := tbl_contact_cards t; tbl_downloads := tbl_downloads t;
  tbl_file_entries := tbl_file_entries t; tbl_storage_providers := tbl_storage_providers t |}.
Definition set_tbl_contact_cards v t := {|
  tbl_settings := tbl_settings t; tbl_bookmarks := tbl_bookmarks t;
  tbl_calendar_events := tbl_calendar_events t;
  tbl_chat_conversations := tbl_chat_conversations t;
  tbl_contact_cards := v; tbl_downloads := tbl_downloads t;
  tbl_file_entries := tbl_file_entries t; tbl_storage_providers := tbl_storage_providers t |}.
Definition set_tbl_downloads v t := {|
  tbl_settings := tbl_settings t; tbl_bookmarks := tbl_bookmarks t;
  tbl_calendar_events := tbl_calendar_events t;
  tbl_chat_conversations := tbl_chat_conversations t;
  tbl_contact_cards := tbl_contact_cards t; tbl_downloads := v;
  tbl_file_entries := tbl_file_entries t; tbl_storage_providers := tbl_storage_providers t |}.
Definition set_tbl_file_entries v t := {|
  tbl_settings := tbl_settings t; tbl_bookmarks := tbl_bookmarks t;
  tbl_calendar_events := tbl_calendar_events t;
  tbl_chat_conversations := tbl_chat_conversations t;
  tbl_contact_cards := tbl_contact_cards t; tbl_downloads := tbl_downloads t;
  tbl_file_entries := v; tbl_storage_providers := tbl_storage_providers t |}.
Definition set_tbl_storage_providers v t := {|
  tbl_settings := tbl_settings t; tbl_bookmarks := tbl_bookmarks t;
  tbl_calendar_events := tbl_calendar_events t;
  tbl_chat_conversations := tbl_chat_conversations t;
  tbl_contact_cards := tbl_contact_cards t; tbl_downloads := tbl_downloads t;
  tbl_file_entries := tbl_file_entries t; tbl_storage_providers := v |}.

(** [INSERT ... ON CONFLICT(profile, id) DO UPDATE SET]: every column but
    [created_at] is replaced. *)
Definition upsert_row {P} (tbl : gmap (string * string) (AppRow P))
    (key : string * string) (payload : P) (now : Z) : gmap (string * string) (AppRow P) :=
  let created_at := match tbl !! key with Some old => row_created_at old | None => now end in
  <[key := Build_AppRow payload created_at now]> tbl.

(** ** SQL-side validation *)

(** The [invalid_*_sync_payload_error] constructors. *)
Definition invalid_sync_payload_error (message : string) : SqlError :=
  FromSqlConversionFailure 3 TypeText message.

Definition check_or {E} (b : bool) (e : E) : result E unit := if b then Ok tt else Err e.

(** [if let Some(x) = o && !p(x) { return Err(f(x)) }]. *)
Definition check_option {E A} (o : option A) (p : A -> bool) (f : A -> E) : result E unit :=
  match o with Some a => check_or (p a) (f a) | None => Ok tt end.

Definition file_size_to_sql_i64 (size_bytes : Z) : result SqlError Z :=
  if size_bytes <=? i64_max then Ok size_bytes
  else Err (invalid_sync_payload_error
              ("file size exceeds SQLite integer range: " +:+ show size_bytes)).
Definition download_size_to_sql_i64 (size_bytes : Z) : result SqlError Z :=
  if size_bytes <=? i64_max then Ok size_bytes
  else Err (invalid_sync_payload_error
              ("download size exceeds SQLite integer range: " +:+ show size_bytes)).
Definition storage_quota_to_sql_i64 (quota_bytes : Z) : result SqlError Z :=
  if quota_bytes <=? i64_max then Ok quota_bytes
  else Err (invalid_sync_payload_error
              ("storage provider quota exceeds SQLite integer range: " +:+ show quota_bytes)).

(** [match o { Some(x) => Some(f(x)?), None => None }]. *)
Definition option_try {E A B} (f : A -> result E B) (o : option A) : result E (option B) :=
  match o with
  | Some a => let? b := f a in Ok (Some b)
  | None => Ok None
  end.

Definition validate_chat_conversation_sync_payload_for_sql
    (payload : ChatConversationSyncPayload) : result SqlError unit :=
  check? check_or (is_valid_sync_identifier (cc_conversation_id payload))
    (invalid_sync_payload_error
       ("invalid chat conversation id: " +:+ cc_conversation_id payload)) in
  check_option (cc_provider_id payload) is_valid_sync_identifier
    (fun provider_id => invalid_sync_payload_error ("invalid chat provider id: " +:+ provider_id)).

Definition validate_file_entry_sync_payload_for_sql
    (payload : FileEntrySyncPayload) : result SqlError unit :=
  check? check_or (is_valid_sync_identifier (fe_entry_id payload))
    (invalid_sync_payload_error ("invalid file entry id: " +:+ fe_entry_id payload)) in
  check? check_option (fe_parent_id payload) is_valid_sync_identifier
    (fun parent_id => invalid_sync_payload_error ("invalid file parent id: " +:+ parent_id)) in
  check? check_or (str_eqb (fe_entry_kind payload) "file"
                   || str_eqb (fe_entry_kind payload) "directory")
    (invalid_sync_payload_error ("invalid file entry kind: " +:+ fe_entry_kind payload)) in
  check? option_try file_size_to_sql_i64 (fe_size_bytes payload) in
  Ok tt.

Definition validate_storage_provider_sync_payload_for_sql
    (payload : StorageProviderSyncPayload) : result SqlError unit :=
  check? check_or (is_valid_sync_identifier (sp_provider_id payload))
    (invalid_sync_payload_error ("invalid storage provider id: " +:+ sp_provider_id payload)) in
  check? check_or (is_valid_sync_identifier (sp_provider_kind payload))
    (invalid_sync_payload_error
       ("invalid storage provider kind: " +:+ sp_provider_kind payload)) in
  check? option_try storage_quota_to_sql_i64 (sp_quota_bytes payload) in
  check_option (sp_pinning_policy payload)
    (fun p => str_eqb p "disabled" || str_eqb p "manual" || str_eqb p "auto"
              || str_eqb p "required")
    (fun p => invalid_sync_payload_error
                ("invalid storage provider pinning policy: " +:+ p)).

Definition validate_download_metadata_sync_payload_for_sql
    (payload : DownloadMetadataSyncPayload) : result SqlError unit :=
  check? check_or (is_valid_sync_identifier (dm_download_id payload))
    (invalid_sync_payload_error ("invalid download id: " +:+ dm_download_id payload)) in
  check? download_size_to_sql_i64 (dm_size_bytes payload) in
  Ok tt.

(** ** Applying a payload to its table *)

(** [DELETE FROM bookmarks WHERE profile = ?1 AND (position = ?2 OR url = ?3 OR
    (?4 IS NOT NULL AND url = ?4))], with the condition negated: the rows kept. *)
Definition bookmark_slot_kept (profile : string) (payload : BookmarkSlotSyncPayload)
    (row : BookmarkRow) : bool :=
  negb (str_eqb (bm_profile row) profile
        && ((bm_position row =? bs_position payload)
            || str_eqb (bm_url row) (bs_url payload)
            || match bs_replaced_url payload with
               | Some url => str_eqb (bm_url row) url
               | None => false
               end)).

Definition apply_bookmark_slot_sync_payload_in_transaction (profile : string)
    (payload : BookmarkSlotSyncPayload) (now : Z) (t : AppTables) : result SqlError AppTables :=
  let kept := List.filter (bookmark_slot_kept profile payload) (tbl_bookmarks t) in
  if bs_deleted payload then Ok (set_tbl_bookmarks kept t)
  else if existsb (fun row => str_eqb (bm_profile row) profile
                              && str_eqb (bm_url row) (bs_url payload)) kept
  then Err (ConstraintViolation "bookmarks.profile, bookmarks.url")
  else Ok (set_tbl_bookmarks
             (kept ++ [{| bm_profile := profile; bm_url := bs_url payload;
                          bm_title := bs_title payload; bm_folder := bs_folder payload;
                          bm_position := bs_position payload;
                          bm_favicon_key := bs_favicon_key payload;
                          bm_created_at := now; bm_updated_at := now |}]) t).

Definition upsert_calendar_event_in_transaction (profile : string)
    (payload : CalendarEventSyncPayload) (now : Z) (t : AppTables) : result SqlError AppTables :=
  Ok (set_tbl_calendar_events
        (upsert_row (tbl_calendar_events t) (profile, ce_event_id payload) payload now) t).

Definition apply_calendar_event_sync_payload_in_transaction (profile : string)
    (payload : CalendarEventSyncPayload) (now : Z) (t : AppTables) : result SqlError AppTables :=
  if ce_deleted payload
  then Ok (set_tbl_calendar_events
             (delete (profile, ce_event_id payload) (tbl_calendar_events t)) t)
  else upsert_calendar_event_in_transaction profile payload now t.

Definition upsert_chat_conversation_in_transaction (profile : string)
    (payload : ChatConversationSyncPayload) (now : Z) (t : AppTables) : result SqlError AppTables :=
  Ok (set_tbl_chat_conversations
        (upsert_row (tbl_chat_conversations t)
           (profile, cc_conversation_id payload) payload now) t).

Definition apply_chat_conversation_sync_payload_in_transaction (profile : string)
    (payload : ChatConversationSyncPayload) (now : Z) (t : AppTables) : result SqlError AppTables :=
  if cc_deleted payload
  then Ok (set_tbl_chat_conversations
             (delete (profile, cc_conversation_id payload) (tbl_chat_conversations t)) t)
  else upsert_chat_conversation_in_transaction profile payload now t.

Definition upsert_contact_card_in_transaction (profile : string)
    (payload : ContactCardSyncPayload) (now : Z) (t : AppTables) : result SqlError AppTables :=
  Ok (set_tbl_contact_cards
        (upsert_row (tbl_contact_cards t) (profile, ct_contact_id payload) payload now) t).

Definition apply_contact_card_sync_payload_in_transaction (profile : string)
    (payload : ContactCardSyncPayload) (now : Z) (t : AppTables) : result SqlError AppTables :=
  if ct_deleted payload
  then Ok (set_tbl_contact_cards
             (delete (profile, ct_contact_id payload) (tbl_contact_cards t)) t)
  else upsert_contact_card_in_transaction profile payload now t.

Definition upsert_file_entry_in_transaction (profile : string)
    (payload : FileEntrySyncPayload) (now : Z) (t : AppTables) : result SqlError AppTables :=
  check? option_try file_size_to_sql_i64 (fe_size_bytes payload) in
  Ok (set_tbl_file_entries
        (upsert_row (tbl_file_entries t) (profile, fe_entry_id payload) payload now) t).

Definition apply_file_entry_sync_payload_in_transaction (profile : string)
    (payload : FileEntrySyncPayload) (now : Z) (t : AppTables) : result SqlError AppTables :=
  if fe_deleted payload
  then Ok (set_tbl_file_entries
             (delete (profile, fe_entry_id payload) (tbl_file_entries t)) t)
  else upsert_file_entry_in_transaction profile payload now t.

Definition upsert_storage_provider_in_transaction (profile : string)
    (payload : StorageProviderSyncPayload) (now : Z) (t : AppTables) : result SqlError AppTables :=
  check? option_try storage_quota_to_sql_i64 (sp_quota_bytes payload) in
  Ok (set_tbl_storage_providers
        (upsert_row (tbl_storage_providers t) (profile, sp_provider_id payload) payload now) t).

Definition apply_storage_provider_sync_payload_in_transaction (profile : string)
    (payload : StorageProviderSyncPayload) (now : Z) (t : AppTables) : result SqlError AppTables :=
  if sp_deleted payload
  then Ok (set_tbl_storage_providers
             (delete (profile, sp_provider_id payload) (tbl_storage_providers t)) t)
  else upsert_storage_provider_in_transaction profile payload now t.

Definition upsert_download_metadata_in_transaction (profile : string)
    (payload : DownloadMetadataSyncPayload) (now : Z) (t : AppTables) : result SqlError AppTables :=
  check? download_size_to_sql_i64 (dm_size_bytes payload) in
  Ok (set_tbl_downloads
        (upsert_row (tbl_downloads t) (profile, dm_download_id payload) payload now) t).

Definition apply_download_metadata_sync_payload_in_transaction (profile : string)
    (payload : DownloadMetadataSyncPayload) (now : Z) (t : AppTables) : result SqlError AppTables :=
  if dm_deleted payload
  then Ok (set_tbl_downloads
             (delete (profile, dm_download_id payload) (tbl_downloads t)) t)
  else upsert_download_metadata_in_transaction profile payload now t.

(** ** The view of a change *)

(** A change received from another device: [IncomingSyncSettingText]. *)
Record IncomingSyncSettingText := {
  in_profile : string;
  in_domain : string;
  in_key : string;
  in_value : string;
  in_device_id : string;
  in_device_sequence : Z;
  in_logical_clock : Z
}.
#[export] Instance IncomingSyncSettingText_eq_dec : EqDecision IncomingSyncSettingText.
Proof. solve_decision. Defined.

(** [serde_json::from_str] at the seven payload types, as the
    [*_sync_payload_from_text] functions call it. *)
Record PayloadDecoders := {
  bookmark_home_slot_sync_payload_from_text : string -> result SqlError BookmarkSlotSyncPayload;
  calendar_event_sync_payload_from_text : string -> result SqlError CalendarEventSyncPayload;
  chat_conversation_sync_payload_from_text : string -> result SqlError ChatConversationSyncPayload;
  contact_card_sync_payload_from_text : string -> result SqlError ContactCardSyncPayload;
  download_metadata_sync_payload_from_text : string -> result SqlError DownloadMetadataSyncPayload;
  file_entry_sync_payload_from_text : string -> result SqlError FileEntrySyncPayload;
  storage_provider_sync_payload_from_text : string -> result SqlError StorageProviderSyncPayload
}.

(** [if change.domain == domain && change.key.starts_with(prefix) { f(t)? }]. *)
Definition view_when (domain prefix : string) (change : IncomingSyncSettingText)
    (f : AppTables -> result SqlError AppTables) (t : AppTables) : result SqlError AppTables :=
  if str_eqb (in_domain change) domain && starts_with prefix (in_key change)
  then f t else Ok t.

(** The check that the key names the entity of the payload. *)
Definition check_key (expected_key : string) (change : IncomingSyncSettingText)
    (message : string) : result SqlError unit :=
  check_or (str_eqb (in_key change) expected_key) (invalid_sync_payload_error message).

Definition apply_sync_setting_materialized_view_in_transaction (d : PayloadDecoders)
    (change : IncomingSyncSettingText) (now : Z) (t : AppTables) : result SqlError AppTables :=
  let t :=
    if str_eqb (in_profile change) DEFAULT_PROFILE_ID
       && str_eqb (in_domain change) SYNC_DOMAIN_SETTINGS
    then set_tbl_settings (<[in_key change := (in_value change, now)]> (tbl_settings t)) t
    else t in
  let? t := view_when SYNC_DOMAIN_BOOKMARKS BOOKMARK_HOME_SLOT_SYNC_KEY_PREFIX change (fun t =>
    let? payload := bookmark_home_slot_sync_payload_from_text d (in_value change) in
    check? check_key (bookmark_home_slot_sync_key (bs_position payload)) change
      ("bookmark slot sync key " +:+ in_key change +:+ " does not match payload position "
       +:+ show (bs_position payload)) in
    apply_bookmark_slot_sync_payload_in_transaction (in_profile change) payload now t) t in
  let? t := view_when SYNC_DOMAIN_CALENDAR CALENDAR_EVENT_SYNC_KEY_PREFIX change (fun t =>
    let? payload := calendar_event_sync_payload_from_text d (in_value change) in
    check? check_or (is_valid_sync_identifier (ce_event_id payload))
      (invalid_sync_payload_error ("invalid calendar event id: " +:+ ce_event_id payload)) in
    check? check_key (calendar_event_sync_key (ce_event_id payload)) change
      ("calendar event sync key " +:+ in_key change +:+ " does not match payload id "
       +:+ ce_event_id payload) in
    apply_calendar_event_sync_payload_in_transaction (in_profile change) payload now t) t in
  let? t := view_when SYNC_DOMAIN_CHAT CHAT_CONVERSATION_SYNC_KEY_PREFIX change (fun t =>
    let? payload := chat_conversation_sync_payload_from_text d (in_value change) in
    check? validate_chat_conversation_sync_payload_for_sql payload in
    check? check_key (chat_conversation_sync_key (cc_conversation_id payload)) change
      ("chat conversation sync key " +:+ in_key change +:+ " does not match payload id "
       +:+ cc_conversation_id payload) in
    apply_chat_conversation_sync_payload_in_transaction (in_profile change) payload now t) t in
  let? t := view_when SYNC_DOMAIN_CONTACTS CONTACT_CARD_SYNC_KEY_PREFIX change (fun t =>
    let? payload := contact_card_sync_payload_from_text d (in_value change) in
    check? check_or (is_valid_sync_identifier (ct_contact_id payload))
      (invalid_sync_payload_error ("invalid contact id: " +:+ ct_contact_id payload)) in
    check? check_key (contact_card_sync_key (ct_contact_id payload)) change
      ("contact sync key " +:+ in_key change +:+ " does not match payload id "
       +:+ ct_contact_id payload) in
    apply_contact_card_sync_payload_in_transaction (in_profile change) payload now t) t in
  let? t := view_when SYNC_DOMAIN_DOWNLOADS DOWNLOAD_METADATA_SYNC_KEY_PREFIX change (fun t =>
    let? payload := download_metadata_sync_payload_from_text d (in_value change) in
    check? validate_download_metadata_sync_payload_for_sql payload in
    check? check_key (download_metadata_sync_key (dm_download_id payload)) change
      ("download metadata sync key " +:+ in_key change +:+ " does not match payload id "
       +:+ dm_download_id payload) in
    apply_download_metadata_sync_payload_in_transaction (in_profile change) payload now t) t in
  let? t := view_when SYNC_DOMAIN_FILES FILE_ENTRY_SYNC_KEY_PREFIX change (fun t =>
    let? payload := file_entry_sync_payload_from_text d (in_value change) in
    check? validate_file_entry_sync_payload_for_sql payload in
    check? check_key (file_entry_sync_key (fe_entry_id payload)) change
      ("file entry sync key " +:+ in_key change +:+ " does not match payload id "
       +:+ fe_entry_id payload) in
    apply_file_entry_sync_payload_in_transaction (in_profile change) payload now t) t in
  view_when SYNC_DOMAIN_STORAGE STORAGE_PROVIDER_SYNC_KEY_PREFIX change (fun t =>
    let? payload := storage_provider_sync_payload_from_text d (in_value change) in
    check? validate_storage_provider_sync_payload_for_sql payload in
    check? check_key (storage_provider_sync_key (sp_provider_id payload)) change
      ("storage provider sync key " +:+ in_key change +:+ " does not match payload id "
       +:+ sp_provider_id payload) in
    apply_storage_provider_sync_payload_in_transaction (in_profile change) payload now t) t.

(** Whether the view of a change accepts it: the outcome on empty tables, which
    [view_accepts_spec] shows is the outcome on any tables at any time. *)
Definition view_accepts (d : PayloadDecoders) (change : IncomingSyncSettingText) : bool :=
  is_ok (apply_sync_setting_materialized_view_in_transaction d change 0 empty_app_tables).

(** ** Lemmas *)

(** The slot's [DELETE] removes every row that the [INSERT] could conflict with. *)
Lemma bookmark_slot_kept_no_url profile payload rows :
  existsb (fun row => str_eqb (bm_profile row) profile && str_eqb (bm_url row) (bs_url payload))
    (List.filter (bookmark_slot_kept profile payload) rows) = false.
Proof.
  induction rows as [|row rows IH]; simpl; [done|].
  destruct (bookmark_slot_kept profile payload row) eqn:E; [|done].
  simpl. rewrite IH. unfold bookmark_slot_kept in E.
  destruct (str_eqb (bm_profile row) profile); [|done]. simpl in *.
  destruct (str_eqb (bm_url row) (bs_url payload)); [|done].
  destruct (bm_position row =? bs_position payload); done.
Qed.

Lemma apply_bookmark_slot_ok profile payload now t :
  is_ok (apply_bookmark_slot_sync_payload_in_transaction profile payload now t) = true.
Proof.
  unfold apply_bookmark_slot_sync_payload_in_transaction.
  destruct (bs_deleted payload); [done|]. by rewrite bookmark_slot_kept_no_url.
Qed.

(** Two table updates that succeed on the same terms, whatever the tables. *)
Definition same_outcome (f g : AppTables -> result SqlError AppTables) : Prop :=
  forall t t', is_ok (f t) = is_ok (g t').

Section SameOutcome.
Implicit Types f g : AppTables -> result SqlError AppTables.

Lemma same_outcome_bind f g f' g' :
  same_outcome f g -> same_outcome f' g' ->
  same_outcome (fun t => let? t := f t in f' t) (fun t => let? t := g t in g' t).
Proof.
  intros Hf Hg t t'. specialize (Hf t t').
  destruct (f t), (g t'); simpl in *; first [done | apply Hg].
Qed.

Lemma same_outcome_check {A} (r : result SqlError A) f g :
  same_outcome f g -> same_outcome (fun t => check? r in f t) (fun t => check? r in g t).
Proof. intros Hf t t'. destruct r; [apply Hf|done]. Qed.

Lemma same_outcome_let {A} (r : result SqlError A) (f g : A -> _) :
  (forall a, same_outcome (f a) (g a)) ->
  same_outcome (fun t => let? a := r in f a t) (fun t => let? a := r in g a t).
Proof. intros Hf t t'. destruct r; [apply Hf|done]. Qed.

Lemma same_outcome_if (b : bool) f g f' g' :
  same_outcome f g -> same_outcome f' g' ->
  same_outcome (fun t => if b then f t else f' t) (fun t => if b then g t else g' t).
Proof. intros ?? t t'. destruct b; auto. Qed.

Lemma same_outcome_Ok (f g : AppTables -> AppTables) :
  same_outcome (fun t => Ok (f t)) (fun t => Ok (g t)).
Proof. done. Qed.

Lemma same_outcome_when domain prefix change f g :
  same_outcome f g ->
  same_outcome (view_when domain prefix change f) (view_when domain prefix change g).
Proof. intros ? t t'. unfold view_when. by case_match. Qed.
End SameOutcome.

#[export] Hint Resolve same_outcome_bind same_outcome_check same_outcome_let same_outcome_if
  same_outcome_Ok same_outcome_when : slate.

(** Split the chain of views into one goal per domain. *)
Ltac split_views :=
  first [ apply same_outcome_when
        | apply same_outcome_bind; [apply same_outcome_when | split_views] ].

Lemma view_same_outcome d change now now' :
  same_outcome (apply_sync_setting_materialized_view_in_transaction d change now)
               (apply_sync_setting_materialized_view_in_transaction d change now').
Proof.
  unfold apply_sync_setting_materialized_view_in_transaction. intros t t'. cbv zeta.
  generalize (if str_eqb (in_profile change) DEFAULT_PROFILE_ID
      && str_eqb (in_domain change) SYNC_DOMAIN_SETTINGS
   then set_tbl_settings (<[in_key change := (in_value change, now)]> (tbl_settings t)) t else t).
  generalize (if str_eqb (in_profile change) DEFAULT_PROFILE_ID
      && str_eqb (in_domain change) SYNC_DOMAIN_SETTINGS
   then set_tbl_settings (<[in_key change := (in_value change, now')]> (tbl_settings t')) t'
   else t').
  intros u' u. clear t t'. revert u u'.
  split_views.
  - apply same_outcome_let; intros payload. apply same_outcome_check.
    intros t t'. by rewrite !apply_bookmark_slot_ok.
  - apply same_outcome_let; intros payload.
    do 2 apply same_outcome_check. apply same_outcome_if; done.
  - apply same_outcome_let; intros payload.
    do 2 apply same_outcome_check. apply same_outcome_if; done.
  - apply same_outcome_let; intros payload.
    do 2 apply same_outcome_check. apply same_outcome_if; done.
  - apply same_outcome_let; intros payload.
    do 2 apply same_outcome_check. apply same_outcome_if; [done|].
    by apply same_outcome_check.
  - apply same_outcome_let; intros payload.
    do 2 apply same_outcome_check. apply same_outcome_if; [done|].
    by apply same_outcome_check.
  - apply same_outcome_let; intros payload.
    do 2 apply same_outcome_check. apply same_outcome_if; [done|].
    by apply same_outcome_check.
Qed.

(** Acceptance is a property of the change alone. *)
Lemma view_accepts_spec d change now t :
  is_ok (apply_sync_setting_materialized_view_in_transaction d change now t)
  = view_accepts d change.
Proof. apply view_same_outcome. Qed.
