(* ===== verification/Database.v ===== *)
(** * The profile database

    The tables of [SlateProfileDatabase] ([crates/storage/src/lib.rs]) that the
    profile-sync core reads and writes, as one record.  A table keyed by its
    primary key is a [gmap]; [settings_changes] and [settings_revisions], which
    have an [AUTOINCREMENT] row id, are lists in row-id order beside the counter
    SQLite keeps in [sqlite_sequence].  A [BLOB] or a [Vec<u8>] is a byte
    string; row ids are unbounded integers (the 2^63 row limit of SQLite is not
    modelled), every other integer is an [i64].

    The clock is an argument [now] of each operation: one reading of
    [unix_time_seconds] per call. *)
From S2P Require Import Prelude RustStr AppViews.

(** ** Errors *)

(** The [StorageError] variants the modelled code returns.  [Database] carries
    the [rusqlite] error; the database path it also carries is constant. *)
Inductive StorageError :=
  | Database (source : SqlError)
  | DecodeSyncPayload (source : string)
  | EncodeSyncPayload (source : string)
  | EncodeSnapshotDomains (source : string)
  | InvalidSyncDeviceId (device_id : string)
  | InvalidSyncMembershipRecordId (record_id : string)
  | InvalidSyncMembershipRecordKind (record_kind : string)
  | InvalidSyncMembershipEpoch (membership_epoch : Z)
  | InvalidProfileSyncMembershipRecord (message : string)
  | InvalidProfileSyncEnrollmentBundle (message : string)
  | UntrustedSyncMembershipSigner (profile device_id : string)
  | InvalidSyncContentKeyId (key_id : string)
  | MissingActiveSyncContentKey (profile : string)
  | UnsupportedSyncContentKeyAlgorithm (key_id algorithm : string)
  | UnauthorizedSyncContentKeyEpoch (profile key_id : string)
      (key_membership_epoch manifest_membership_epoch : Z)
  | InvalidProfileSyncSecretHandoffBundle (message : string)
  | UnsupportedProfileSyncSecretHandoffBundleSchema (version : Z)
  | InvalidProfileSyncDeviceEnrollmentRequest (message : string)
  | UnsupportedProfileSyncDeviceEnrollmentRequestSchema (version : Z)
  | InvalidSyncDomain (domain : string)
  | InvalidSyncRevision (revision : Z)
  | InvalidCalendarEventId (event_id : string)
  | InvalidChatConversationId (conversation_id : string)
  | InvalidChatProviderId (provider_id : string)
  | InvalidContactId (contact_id : string)
  | InvalidDownloadId (download_id : string)
  | InvalidDownloadSize (size_bytes : Z)
  | InvalidFileEntryId (entry_id : string)
  | InvalidFileEntryKind (entry_kind : string)
  | InvalidFileSize (size_bytes : Z)
  | InvalidStorageProviderId (provider_id : string)
  | InvalidStorageProviderKind (provider_kind : string)
  | InvalidStorageProviderQuota (quota_bytes : Z)
  | InvalidStoragePinningPolicy (pinning_policy : string)
  | InvalidSyncRootId (root_id : string)
  | InvalidProfileSyncManifest (message : string)
  | UnsupportedProfileSyncManifestSchema (version : Z)
  | UnsupportedProfileSyncMembershipRecordSchema (version : Z)
  | UnsupportedProfileSyncEnrollmentBundleSchema (version : Z)
  | UnsupportedSyncSnapshotSchema (version : Z).
#[export] Instance StorageError_eq_dec : EqDecision StorageError.
Proof. solve_decision. Defined.

(** ** Rows *)

(** A row of [settings_changes]. *)
Record SyncChangeRecord := {
  ch_id : Z;
  ch_profile : string;
  ch_domain : string;
  ch_entity_key : string;
  ch_operation : string;
  ch_payload : string;
  ch_device_id : string;
  ch_device_sequence : Z;
  ch_logical_clock : Z;
  ch_created_at : Z;
  ch_applied_at : option Z
}.
#[export] Instance SyncChangeRecord_eq_dec : EqDecision SyncChangeRecord.
Proof. solve_decision. Defined.

(** A row of [settings_revisions]. *)
Record SyncRevisionRecord := {
  rv_revision : Z;
  rv_profile : string;
  rv_domain : string;
  rv_change_id : Z;
  rv_created_at : Z
}.

(** A row of [settings_values]. *)
Record SyncSettingValueRecord := {
  sv_profile : string;
  sv_domain : string;
  sv_key : string;
  sv_value : string;
  sv_value_kind : string;
  sv_revision : Z;
  sv_updated_at : Z
}.

(** A row of [sync_devices]. *)
Record SyncDeviceRecord := {
  sd_profile : string;
  sd_device_id : string;
  sd_label : option string;
  sd_membership_epoch : Z;
  sd_provider_authority : bool;
  sd_created_at : Z;
  sd_last_seen_at : Z
}.

Record ProfileSyncDevicePublicKey := { pk_device_id : string; pk_bytes : string }.
#[export] Instance ProfileSyncDevicePublicKey_eq_dec : EqDecision ProfileSyncDevicePublicKey.
Proof. solve_decision. Defined.

(** A row of [sync_device_public_keys]. *)
Record SyncDevicePublicKeyRecord := {
  sk_profile : string;
  sk_public_key : ProfileSyncDevicePublicKey;
  sk_membership_epoch : Z;
  sk_trusted : bool;
  sk_created_at : Z;
  sk_updated_at : Z
}.

(** A row of [sync_account_membership_records]. *)
Record SyncAccountMembershipRecord := {
  sm_profile : string;
  sm_record_id : string;
  sm_membership_epoch : Z;
  sm_record_kind : string;
  sm_device_id : string;
  sm_signer_device_id : string;
  sm_signed_record : string;
  sm_created_at : Z;
  sm_applied_at : option Z
}.

(** A row of [settings_snapshots]. *)
Record SyncSnapshotRecord := {
  sn_profile : string;
  sn_snapshot_id : string;
  sn_backend_object_id : option string;
  sn_covers_revision : Z;
  sn_included_domains : list string;
  sn_created_at : Z
}.

(** A row of [sync_content_key_epochs]. *)
Record SyncContentKeyEpochRecord := {
  ke_profile : string;
  ke_key_id : string;
  ke_membership_epoch : Z;
  ke_algorithm : string;
  ke_active : bool;
  ke_created_at : Z;
  ke_updated_at : Z
}.

(** A row of [app_sync_domains]. *)
Record AppSyncDomainRecord := {
  ad_profile : string;
  ad_domain : string;
  ad_schema_version : Z;
  ad_enabled : bool;
  ad_privacy_classification : string;
  ad_sync_content : bool;
  ad_created_at : Z;
  ad_updated_at : Z
}.

(** A row of [cookies]. *)
Record CookieRecord := {
  ck_profile : string;
  ck_domain : string;
  ck_path : string;
  ck_name : string;
  ck_value : string;
  ck_expires_at : option Z;
  ck_is_secure : bool;
  ck_is_http_only : bool;
  ck_same_site : option string;
  ck_created_at : Z;
  ck_updated_at : Z
}.

(** A row of [binary_blobs]. *)
Record BinaryBlobRecord := {
  bb_profile : string;
  bb_key : string;
  bb_media_type : option string;
  bb_data : string;
  bb_created_at : Z;
  bb_updated_at : Z
}.

(** ** The database *)

Record ProfileDb := {
  db_app : AppTables;
  db_changes : list SyncChangeRecord;
  db_change_seq : Z;
  db_revisions : list SyncRevisionRecord;
  db_revision_seq : Z;
  db_values : gmap (string * string * string) SyncSettingValueRecord;
  db_devices : gmap (string * string) SyncDeviceRecord;
  db_public_keys : gmap (string * string) SyncDevicePublicKeyRecord;
  db_membership : gmap (string * string) SyncAccountMembershipRecord;
  db_snapshots : gmap (string * string) SyncSnapshotRecord;
  db_state : gmap (string * string) (string * Z);
  db_key_epochs : gmap (string * string) SyncContentKeyEpochRecord;
  db_app_domains : gmap (string * string) AppSyncDomainRecord;
  db_cookies : gmap (string * string * string * string) CookieRecord;
  db_blobs : gmap (string * string) BinaryBlobRecord
}.

Definition set_db_app v db := {|
  db_app := v; db_changes := db_changes db; db_change_seq := db_change_seq db;
  db_revisions := db_revisions db; db_revision_seq := db_revision_seq db;
  db_values := db_values db; db_devices := db_devices db; db_public_keys := db_public_keys db;
  db_membership := db_membership db; db_snapshots := db_snapshots db; db_state := db_state db;
  db_key_epochs := db_key_epochs db; db_app_domains := db_app_domains db;
  db_cookies := db_cookies db; db_blobs := db_blobs db |}.
Definition set_db_changes v db := {|
  db_app := db_app db; db_changes := v; db_change_seq := db_change_seq db;
  db_revisions := db_revisions db; db_revision_seq := db_revision_seq db;
  db_values := db_values db; db_devices := db_devices db; db_public_keys := db_public_keys db;
  db_membership := db_membership db; db_snapshots := db_snapshots db; db_state := db_state db;
  db_key_epochs := db_key_epochs db; db_app_domains := db_app_domains db;
  db_cookies := db_cookies db; db_blobs := db_blobs db |}.
Definition set_db_change_seq v db := {|
  db_app := db_app db; db_changes := db_changes db; db_change_seq := v;
  db_revisions := db_revisions db; db_revision_seq := db_revision_seq db;
  db_values := db_values db; db_devices := db_devices db; db_public_keys := db_public_keys db;
  db_membership := db_membership db; db_snapshots := db_snapshots db; db_state := db_state db;
  db_key_epochs := db_key_epochs db; db_app_domains := db_app_domains db;
  db_cookies := db_cookies db; db_blobs := db_blobs db |}.
Definition set_db_revisions v db := {|
  db_app := db_app db; db_changes := db_changes db; db_change_seq := db_change_seq db;
  db_revisions := v; db_revision_seq := db_revision_seq db; db_values := db_values db;
  db_devices := db_devices db; db_public_keys := db_public_keys db;
  db_membership := db_membership db; db_snapshots := db_snapshots db; db_state := db_state db;
  db_key_epochs := db_key_epochs db; db_app_domains := db_app_domains db;
  db_cookies := db_cookies db; db_blobs := db_blobs db |}.
Definition set_db_revision_seq v db := {|
  db_app := db_app db; db_changes := db_changes db; db_change_seq := db_change_seq db;
  db_revisions := db_revisions db; db_revision_seq := v; db_values := db_values db;
  db_devices := db_devices db; db_public_keys := db_public_keys db;
  db_membership := db_membership db; db_snapshots := db_snapshots db; db_state := db_state db;
  db_key_epochs := db_key_epochs db; db_app_domains := db_app_domains db;
  db_cookies := db_cookies db; db_blobs := db_blobs db |}.
Definition set_db_values v db := {|
  db_app := db_app db; db_changes := db_changes db; db_change_seq := db_change_seq db;
  db_revisions := db_revisions db; db_revision_seq := db_revision_seq db; db_values := v;
  db_devices := db_devices db; db_public_keys := db_public_keys db;
  db_membership := db_membership db; db_snapshots := db_snapshots db; db_state := db_state db;
  db_key_epochs := db_key_epochs db; db_app_domains := db_app_domains db;
  db_cookies := db_cookies db; db_blobs := db_blobs db |}.
Definition set_db_devices v db := {|
  db_app := db_app db; db_changes := db_changes db; db_change_seq := db_change_seq db;
  db_revisions := db_revisions db; db_revision_seq := db_revision_seq db;
  db_values := db_values db; db_devices := v; db_public_keys := db_public_keys db;
  db_membership := db_membership db; db_snapshots := db_snapshots db; db_state := db_state db;
  db_key_epochs := db_key_epochs db; db_app_domains := db_app_domains db;
  db_cookies := db_cookies db; db_blobs := db_blobs db |}.
Definition set_db_public_keys v db := {|
  db_app := db_app db; db_changes := db_changes db; db_change_seq := db_change_seq db;
  db_revisions := db_revisions db; db_revision_seq := db_revision_seq db;
  db_values := db_values db; db_devices := db_devices db; db_public_keys := v;
  db_membership := db_membership db; db_snapshots := db_snapshots db; db_state := db_state db;
  db_key_epochs := db_key_epochs db; db_app_domains := db_app_domains db;
  db_cookies := db_cookies db; db_blobs := db_blobs db |}.
Definition set_db_membership v db := {|
  db_app := db_app db; db_changes := db_changes db; db_change_seq := db_change_seq db;
  db_revisions := db_revisions db; db_revision_seq := db_revision_seq db;
  db_values := db_values db; db_devices := db_devices db; db_public_keys := db_public_keys db;
  db_membership := v; db_snapshots := db_snapshots db; db_state := db_state db;
  db_key_epochs := db_key_epochs db; db_app_domains := db_app_domains db;
  db_cookies := db_cookies db; db_blobs := db_blobs db |}.
Definition set_db_snapshots v db := {|
  db_app := db_app db; db_changes := db_changes db; db_change_seq := db_change_seq db;
  db_revisions := db_revisions db; db_revision_seq := db_revision_seq db;
  db_values := db_values db; db_devices := db_devices db; db_public_keys := db_public_keys db;
  db_membership := db_membership db; db_snapshots := v; db_state := db_state db;
  db_key_epochs := db_key_epochs db; db_app_domains := db_app_domains db;
  db_cookies := db_cookies db; db_blobs := db_blobs db |}.
Definition set_db_state v db := {|
  db_app := db_app db; db_changes := db_changes db; db_change_seq := db_change_seq db;
  db_revisions := db_revisions db; db_revision_seq := db_revision_seq db;
  db_values := db_values db; db_devices := db_devices db; db_public_keys := db_public_keys db;
  db_membership := db_membership db; db_snapshots := db_snapshots db; db_state := v;
  db_key_epochs := db_key_epochs db; db_app_domains := db_app_domains db;
  db_cookies := db_cookies db; db_blobs := db_blobs db |}.
Definition set_db_key_epochs v db := {|
  db_app := db_app db; db_changes := db_changes db; db_change_seq := db_change_seq db;
  db_revisions := db_revisions db; db_revision_seq := db_revision_seq db;
  db_values := db_values db; db_devices := db_devices db; db_public_keys := db_public_keys db;
  db_membership := db_membership db; db_snapshots := db_snapshots db; db_state := db_state db;
  db_key_epochs := v; db_app_domains := db_app_domains db; db_cookies := db_cookies db;
  db_blobs := db_blobs db |}.
Definition set_db_app_domains v db := {|
  db_app := db_app db; db_changes := db_changes db; db_change_seq := db_change_seq db;
  db_revisions := db_revisions db; db_revision_seq := db_revision_seq db;
  db_values := db_values db; db_devices := db_devices db; db_public_keys := db_public_keys db;
  db_membership := db_membership db; db_snapshots := db_snapshots db; db_state := db_state db;
  db_key_epochs := db_key_epochs db; db_app_domains := v; db_cookies := db_cookies db;
  db_blobs := db_blobs db |}.
Definition set_db_cookies v db := {|
  db_app := db_app db; db_changes := db_changes db; db_change_seq := db_change_seq db;
  db_revisions := db_revisions db; db_revision_seq := db_revision_seq db;
  db_values := db_values db; db_devices := db_devices db; db_public_keys := db_public_keys db;
  db_membership := db_membership db; db_snapshots := db_snapshots db; db_state := db_state db;
  db_key_epochs := db_key_epochs db; db_app_domains := db_app_domains db; db_cookies := v;
  db_blobs := db_blobs db |}.
Definition set_db_blobs v db := {|
  db_app := db_app db; db_changes := db_changes db; db_change_seq := db_change_seq db;
  db_revisions := db_revisions db; db_revision_seq := db_revision_seq db;
  db_values := db_values db; db_devices := db_devices db; db_public_keys := db_public_keys db;
  db_membership := db_membership db; db_snapshots := db_snapshots db; db_state := db_state db;
  db_key_epochs := db_key_epochs db; db_app_domains := db_app_domains db;
  db_cookies := db_cookies db; db_blobs := v |}.

Definition empty_db : ProfileDb := {|
  db_app := empty_app_tables; db_changes := []; db_change_seq := 0; db_revisions := [];
  db_revision_seq := 0; db_values := ∅; db_devices := ∅; db_public_keys := ∅;
  db_membership := ∅; db_snapshots := ∅; db_state := ∅; db_key_epochs := ∅;
  db_app_domains := ∅; db_cookies := ∅; db_blobs := ∅ |}.

(** A statement or a sequence of statements over the database. *)
Definition sql (A : Type) : Type := state_result ProfileDb SqlError A.
Definition storage (A : Type) : Type := state_result ProfileDb StorageError A.

(** [.map_err(|source| self.database_error(source))]. *)
Definition database_error {A} (m : sql A) : storage A :=
  fun db => let '(db', r) := m db in (db', map_err Database r).

(** A read-only query, and a statement that cannot fail. *)
Definition query {E A} (f : ProfileDb -> A) : state_result ProfileDb E A :=
  fun db => (db, Ok (f db)).
Definition execute {E} (f : ProfileDb -> ProfileDb) : state_result ProfileDb E unit :=
  fun db => (f db, Ok tt).

(** ** SQL aggregates *)

(** [SELECT MAX(x)]: [NULL] on no rows. *)
Definition sql_max (l : list Z) : option Z :=
  match l with
  | [] => None
  | x :: l => Some (fold_left Z.max l x)
  end.

(** [SELECT COALESCE(MAX(x), 0) + 1], read as an [i64]: past the largest
    integer SQLite answers a [REAL], which [row.get::<_, i64>] refuses. *)
Definition sql_next (l : list Z) : result SqlError Z :=
  let m := default 0 (sql_max l) in
  if m =? i64_max then Err (InvalidColumnType 0) else Ok (m + 1).

(** [ORDER BY f DESC LIMIT 1]. *)
Fixpoint select_max {A K} `{RustOrd K} (f : A -> K) (l : list A) : option A :=
  match l with
  | [] => None
  | x :: l =>
      match select_max f l with
      | None => Some x
      | Some y => if rust_ltb (f x) (f y) then Some y else Some x
      end
  end.

(** ** Lemmas *)

Lemma fold_left_max_spec l x :
  fold_left Z.max l x ∈ x :: l /\ forall y, y ∈ x :: l -> y <= fold_left Z.max l x.
Proof.
  revert x. induction l as [|a l IH]; intros x; simpl.
  - split; [left|]. intros y ->%list_elem_of_singleton. lia.
  - destruct (IH (Z.max x a)) as [Hin Hle]. split.
    + apply elem_of_cons in Hin as [->|Hin].
      * destruct (Z.max_spec x a) as [[_ ->]|[_ ->]]; set_solver.
      * set_solver.
    + intros y Hy. apply elem_of_cons in Hy as [->|[->|Hy]%elem_of_cons].
      * etransitivity; [apply Z.le_max_l|]. apply Hle. left.
      * etransitivity; [apply (Z.le_max_r x)|]. apply Hle. left.
      * apply Hle. by right.
Qed.

Lemma sql_max_Some l m : sql_max l = Some m -> m ∈ l /\ forall y, y ∈ l -> y <= m.
Proof. destruct l; simpl; [done|]. intros [= <-]. apply fold_left_max_spec. Qed.

Lemma sql_max_None l : sql_max l = None <-> l = [].
Proof. by destruct l. Qed.

Lemma sql_max_upper l y : y ∈ l -> y <= default 0 (sql_max l).
Proof.
  intros Hy. destruct (sql_max l) eqn:E; simpl.
  - by apply (sql_max_Some l).
  - apply sql_max_None in E as ->. by apply elem_of_nil in Hy.
Qed.

(** The next value is above every stored one. *)
Lemma sql_next_above l n y : sql_next l = Ok n -> y ∈ l -> y < n.
Proof.
  unfold sql_next. case_match; [done|]. intros [= <-] Hy%sql_max_upper. lia.
Qed.

Lemma sql_next_ok l : sql_max l <> Some i64_max -> exists n, sql_next l = Ok n.
Proof.
  unfold sql_next. intros Hm. case_match eqn:E; [|eauto].
  apply Z.eqb_eq in E. destruct (sql_max l); simpl in *; [congruence|done].
Qed.

Section SelectMax.
Context {A K : Type} `{RustOrdLaws K} (f : A -> K).

Lemma select_max_None l : select_max f l = None <-> l = [].
Proof.
  destruct l as [|x l]; simpl; [done|]. by destruct (select_max f l); try case_if.
Qed.

Lemma select_max_Some l x :
  select_max f l = Some x -> x ∈ l /\ forall y, y ∈ l -> rust_le (f y) (f x).
Proof.
  revert x. induction l as [|a l IH]; intros x; simpl; [done|].
  destruct (select_max f l) as [y|] eqn:E.
  - destruct (IH y eq_refl) as [Hin Hle].
    destruct (rust_ltb (f a) (f y)) eqn:Elt; intros [= <-].
    + split; [by right|]. intros z [->|Hz]%elem_of_cons; [|auto].
      apply rust_le_cases. right. by apply rust_ltb_spec.
    + split; [left|]. intros z [->|Hz]%elem_of_cons.
      * apply rust_le_cases. by left.
      * etransitivity; [by apply Hle|]. by apply rust_le_ltb.
  - apply select_max_None in E as ->. intros [= <-]. split; [left|].
    intros z ->%list_elem_of_singleton. apply rust_le_cases. by left.
Qed.

Lemma select_max_is_Some l y : y ∈ l -> is_Some (select_max f l).
Proof.
  intros Hy. destruct (select_max f l) eqn:E; [done|].
  apply select_max_None in E as ->. by apply elem_of_nil in Hy.
Qed.
End SelectMax.

(** A transaction that fails leaves the database as it was. *)
Lemma database_error_transaction_err {A} (m : sql A) db db' e :
  database_error (transaction m) db = (db', Err e) -> db' = db.
Proof.
  unfold database_error. destruct (transaction m db) as [db1 [a|e1]] eqn:E; [done|].
  intros [= <- _]. by eapply transaction_err.
Qed.

Lemma database_error_ok {A} (m : sql A) db db' a :
  database_error m db = (db', Ok a) <-> m db = (db', Ok a).
Proof. unfold database_error. destruct (m db) as [db1 [a1|e1]]; split; simpl; congruence. Qed.

(** ** Preservation of a predicate of the database *)

(** [m] keeps [P], on its error paths too. *)
Definition preserves {S E A} (P : S -> Prop) (m : state_result S E A) : Prop :=
  forall s, P s -> P (m s).1.

Section Preserves.
Context {S : Type} (P : S -> Prop).

Lemma preserves_bind {E A B} (m : state_result S E A) (k : A -> state_result S E B) :
  preserves P m -> (forall a, preserves P (k a)) -> preserves P (sr_bind m k).
Proof.
  intros Hm Hk s Hs. specialize (Hm s Hs). unfold sr_bind.
  destruct (m s) as [s1 [a|e]]; [by apply Hk|done].
Qed.

Lemma preserves_transaction {E A} (m : state_result S E A) :
  preserves P m -> preserves P (transaction m).
Proof.
  intros Hm s Hs. specialize (Hm s Hs). unfold transaction.
  by destruct (m s) as [s1 [a|e]].
Qed.

Lemma preserves_ret {E A} (a : A) : preserves P (sr_ret (E := E) a).
Proof. by intros s Hs. Qed.
Lemma preserves_err {E A} (e : E) : preserves P (sr_err (A := A) e).
Proof. by intros s Hs. Qed.
Lemma preserves_lift {E A} (r : result E A) : preserves P (sr_lift r).
Proof. by intros s Hs. Qed.
Lemma preserves_map_err {E F A} (f : E -> F) (m : state_result S E A) :
  preserves P m -> preserves P (sr_map_err f m).
Proof. intros Hm s Hs. specialize (Hm s Hs). unfold sr_map_err. by destruct (m s). Qed.
Lemma preserves_if {E A} (b : bool) (m m' : state_result S E A) :
  preserves P m -> preserves P m' -> preserves P (if b then m else m').
Proof. intros. by destruct b. Qed.
End Preserves.

Lemma preserves_database_error {A} (P : ProfileDb -> Prop) (m : sql A) :
  preserves P m -> preserves P (database_error m).
Proof.
  intros Hm s Hs. specialize (Hm s Hs). unfold database_error.
  by destruct (m s) as [s1 [a|e]].
Qed.

Lemma preserves_query {E A} (P : ProfileDb -> Prop) (f : ProfileDb -> A) :
  preserves P (query (E := E) f).
Proof. by intros s Hs. Qed.

(** Reduce preservation by an operation to preservation by its statements. *)
Ltac preserves_step :=
  match goal with
  | |- preserves _ (database_error _) => apply preserves_database_error
  | |- preserves _ (transaction _) => apply preserves_transaction
  | |- preserves _ (sr_bind _ _) => apply preserves_bind; [|intros ?]
  | |- preserves _ (sr_ret _) => apply preserves_ret
  | |- preserves _ (sr_err _) => apply preserves_err
  | |- preserves _ (sr_lift _) => apply preserves_lift
  | |- preserves _ (sr_map_err _ _) => apply preserves_map_err
  | |- preserves _ (query _) => apply preserves_query
  | |- preserves _ (match ?c with _ => _ end) => destruct c
  end.
Ltac solve_preserves := repeat preserves_step.
