(* ===== verification/AppData.v ===== *)
(** * Application data

    The updates and records of the applications in [crates/storage/src/lib.rs], the
    payloads an update and a removal send to the other devices, the validation of
    updates, and the reading of rows.  [serde_json::to_string] at each payload type is
    a parameter ([PayloadEncoders]). *)
From S2P Require Import Prelude RustStr AppViews Database.

(** ** Updates and records

    [profile] and the columns of the payload; a record adds the timestamps. *)

Record CalendarEventUpdate := {
  ceu_profile : string;
  ceu_event_id : string;
  ceu_calendar_id : option string;
  ceu_title : string;
  ceu_starts_at : Z;
  ceu_ends_at : option Z;
  ceu_time_zone : option string;
  ceu_location : option string;
  ceu_notes : option string;
  ceu_recurrence_rule : option string;
  ceu_reminder_minutes : option Z
}.

Record CalendarEventRecord := {
  cer_profile : string;
  cer_event_id : string;
  cer_calendar_id : option string;
  cer_title : string;
  cer_starts_at : Z;
  cer_ends_at : option Z;
  cer_time_zone : option string;
  cer_location : option string;
  cer_notes : option string;
  cer_recurrence_rule : option string;
  cer_reminder_minutes : option Z;
  cer_created_at : Z;
  cer_updated_at : Z
}.

Record ChatConversationUpdate := {
  ccu_profile : string;
  ccu_conversation_id : string;
  ccu_provider_id : option string;
  ccu_external_thread_id : option string;
  ccu_display_name : string;
  ccu_avatar_key : option string;
  ccu_last_message_at : option Z;
  ccu_unread_count : Z;
  ccu_archived : bool;
  ccu_muted : bool
}.

Record ChatConversationRecord := {
  ccr_profile : string;
  ccr_conversation_id : string;
  ccr_provider_id : option string;
  ccr_external_thread_id : option string;
  ccr_display_name : string;
  ccr_avatar_key : option string;
  ccr_last_message_at : option Z;
  ccr_unread_count : Z;
  ccr_archived : bool;
  ccr_muted : bool;
  ccr_created_at : Z;
  ccr_updated_at : Z
}.

Record ContactCardUpdate := {
  ctu_profile : string;
  ctu_contact_id : string;
  ctu_display_name : string;
  ctu_given_name : option string;
  ctu_family_name : option string;
  ctu_organization : option string;
  ctu_primary_email : option string;
  ctu_primary_phone : option string;
  ctu_notes : option string;
  ctu_avatar_key : option string
}.

Record ContactCardRecord := {
  ctr_profile : string;
  ctr_contact_id : string;
  ctr_display_name : string;
  ctr_given_name : option string;
  ctr_family_name : option string;
  ctr_organization : option string;
  ctr_primary_email : option string;
  ctr_primary_phone : option string;
  ctr_notes : option string;
  ctr_avatar_key : option string;
  ctr_created_at : Z;
  ctr_updated_at : Z
}.

Record DownloadMetadataUpdate := {
  dmu_profile : string;
  dmu_download_id : string;
  dmu_source_url : string;
  dmu_final_url : string;
  dmu_route : option string;
  dmu_transport_id : option string;
  dmu_filename : string;
  dmu_content_type : option string;
  dmu_size_bytes : Z;
  dmu_integrity : option string
}.

Record DownloadMetadataRecord := {
  dmr_profile : string;
  dmr_download_id : string;
  dmr_source_url : string;
  dmr_final_url : string;
  dmr_route : option string;
  dmr_transport_id : option string;
  dmr_filename : string;
  dmr_content_type : option string;
  dmr_size_bytes : Z;
  dmr_integrity : option string;
  dmr_created_at : Z;
  dmr_updated_at : Z
}.

Record FileEntryUpdate := {
  feu_profile : string;
  feu_entry_id : string;
  feu_sync_set_id : option string;
  feu_parent_id : option string;
  feu_name : string;
  feu_entry_kind : string;
  feu_content_ref : option string;
  feu_mime_type : option string;
  feu_size_bytes : option Z;
  feu_modified_at : option Z;
  feu_integrity : option string;
  feu_retention_policy : option string
}.

Record FileEntryRecord := {
  fer_profile : string;
  fer_entry_id : string;
  fer_sync_set_id : option string;
  fer_parent_id : option string;
  fer_name : string;
  fer_entry_kind : string;
  fer_content_ref : option string;
  fer_mime_type : option string;
  fer_size_bytes : option Z;
  fer_modified_at : option Z;
  fer_integrity : option string;
  fer_retention_policy : option string;
  fer_created_at : Z;
  fer_updated_at : Z
}.

Record StorageProviderUpdate := {
  spu_profile : string;
  spu_provider_id : string;
  spu_provider_kind : string;
  spu_display_name : string;
  spu_endpoint_ref : option string;
  spu_discovery : bool;
  spu_connectivity : bool;
  spu_object_transfer : bool;
  spu_availability : bool;
  spu_mutable_roots : bool;
  spu_quota_bytes : option Z;
  spu_max_retained_objects : option Z;
  spu_pinning_policy : option string;
  spu_enabled : bool
}.

Record StorageProviderRecord := {
  spr_profile : string;
  spr_provider_id : string;
  spr_provider_kind : string;
  spr_display_name : string;
  spr_endpoint_ref : option string;
  spr_discovery : bool;
  spr_connectivity : bool;
  spr_object_transfer : bool;
  spr_availability : bool;
  spr_mutable_roots : bool;
  spr_quota_bytes : option Z;
  spr_max_retained_objects : option Z;
  spr_pinning_policy : option string;
  spr_enabled : bool;
  spr_created_at : Z;
  spr_updated_at : Z
}.

Record BookmarkUpdate := {
  bmu_profile : string;
  bmu_url : string;
  bmu_title : option string;
  bmu_folder : option string;
  bmu_position : Z;
  bmu_favicon_key : option string
}.

(** [BookmarkRecord] is the row of the table. *)
Definition BookmarkRecord : Type := BookmarkRow.

(** ** Payloads

    The payload of an update and the tombstone of a record. *)

Definition calendar_event_update_payload (event : CalendarEventUpdate) :
    CalendarEventSyncPayload :=
  {| ce_event_id := ceu_event_id event; ce_calendar_id := ceu_calendar_id event;
     ce_title := ceu_title event; ce_starts_at := ceu_starts_at event;
     ce_ends_at := ceu_ends_at event; ce_time_zone := ceu_time_zone event;
     ce_location := ceu_location event; ce_notes := ceu_notes event;
     ce_recurrence_rule := ceu_recurrence_rule event;
     ce_reminder_minutes := ceu_reminder_minutes event; ce_deleted := false |}.

Definition calendar_event_tombstone_payload (event : CalendarEventRecord) :
    CalendarEventSyncPayload :=
  {| ce_event_id := cer_event_id event; ce_calendar_id := cer_calendar_id event;
     ce_title := cer_title event; ce_starts_at := cer_starts_at event;
     ce_ends_at := cer_ends_at event; ce_time_zone := cer_time_zone event;
     ce_location := cer_location event; ce_notes := cer_notes event;
     ce_recurrence_rule := cer_recurrence_rule event;
     ce_reminder_minutes := cer_reminder_minutes event; ce_deleted := true |}.

Definition chat_conversation_update_payload (conversation : ChatConversationUpdate) :
    ChatConversationSyncPayload :=
  {| cc_conversation_id := ccu_conversation_id conversation;
     cc_provider_id := ccu_provider_id conversation;
     cc_external_thread_id := ccu_external_thread_id conversation;
     cc_display_name := ccu_display_name conversation; cc_avatar_key := ccu_avatar_key conversation;
     cc_last_message_at := ccu_last_message_at conversation;
     cc_unread_count := ccu_unread_count conversation; cc_archived := ccu_archived conversation;
     cc_muted := ccu_muted conversation; cc_deleted := false |}.

Definition chat_conversation_tombstone_payload (conversation : ChatConversationRecord) :
    ChatConversationSyncPayload :=
  {| cc_conversation_id := ccr_conversation_id conversation;
     cc_provider_id := ccr_provider_id conversation;
     cc_external_thread_id := ccr_external_thread_id conversation;
     cc_display_name := ccr_display_name conversation; cc_avatar_key := ccr_avatar_key conversation;
     cc_last_message_at := ccr_last_message_at conversation;
     cc_unread_count := ccr_unread_count conversation; cc_archived := ccr_archived conversation;
     cc_muted := ccr_muted conversation; cc_deleted := true |}.

Definition contact_card_update_payload (contact : ContactCardUpdate) :
    ContactCardSyncPayload :=
  {| ct_contact_id := ctu_contact_id contact; ct_display_name := ctu_display_name contact;
     ct_given_name := ctu_given_name contact; ct_family_name := ctu_family_name contact;
     ct_organization := ctu_organization contact; ct_primary_email := ctu_primary_email contact;
     ct_primary_phone := ctu_primary_phone contact; ct_notes := ctu_notes contact;
     ct_avatar_key := ctu_avatar_key contact; ct_deleted := false |}.

Definition contact_card_tombstone_payload (contact : ContactCardRecord) :
    ContactCardSyncPayload :=
  {| ct_contact_id := ctr_contact_id contact; ct_display_name := ctr_display_name contact;
     ct_given_name := ctr_given_name contact; ct_family_name := ctr_family_name contact;
     ct_organization := ctr_organization contact; ct_primary_email := ctr_primary_email contact;
     ct_primary_phone := ctr_primary_phone contact; ct_notes := ctr_notes contact;
     ct_avatar_key := ctr_avatar_key contact; ct_deleted := true |}.

Definition download_metadata_update_payload (download : DownloadMetadataUpdate) :
    DownloadMetadataSyncPayload :=
  {| dm_download_id := dmu_download_id download; dm_source_url := dmu_source_url download;
     dm_final_url := dmu_final_url download; dm_route := dmu_route download;
     dm_transport_id := dmu_transport_id download; dm_filename := dmu_filename download;
     dm_content_type := dmu_content_type download; dm_size_bytes := dmu_size_bytes download;
     dm_integrity := dmu_integrity download; dm_deleted := false |}.

Definition download_metadata_tombstone_payload (download : DownloadMetadataRecord) :
    DownloadMetadataSyncPayload :=
  {| dm_download_id := dmr_download_id download; dm_source_url := dmr_source_url download;
     dm_final_url := dmr_final_url download; dm_route := dmr_route download;
     dm_transport_id := dmr_transport_id download; dm_filename := dmr_filename download;
     dm_content_type := dmr_content_type download; dm_size_bytes := dmr_size_bytes download;
     dm_integrity := dmr_integrity download; dm_deleted := true |}.

Definition file_entry_update_payload (entry : FileEntryUpdate) :
    FileEntrySyncPayload :=
  {| fe_entry_id := feu_entry_id entry; fe_sync_set_id := feu_sync_set_id entry;
     fe_parent_id := feu_parent_id entry; fe_name := feu_name entry;
     fe_entry_kind := feu_entry_kind entry; fe_content_ref := feu_content_ref entry;
     fe_mime_type := feu_mime_type entry; fe_size_bytes := feu_size_bytes entry;
     fe_modified_at := feu_modified_at entry; fe_integrity := feu_integrity entry;
     fe_retention_policy := feu_retention_policy entry; fe_deleted := false |}.

Definition file_entry_tombstone_payload (entry : FileEntryRecord) :
    FileEntrySyncPayload :=
  {| fe_entry_id := fer_entry_id entry; fe_sync_set_id := fer_sync_set_id entry;
     fe_parent_id := fer_parent_id entry; fe_name := fer_name entry;
     fe_entry_kind := fer_entry_kind entry; fe_content_ref := fer_content_ref entry;
     fe_mime_type := fer_mime_type entry; fe_size_bytes := fer_size_bytes entry;
     fe_modified_at := fer_modified_at entry; fe_integrity := fer_integrity entry;
     fe_retention_policy := fer_retention_policy entry; fe_deleted := true |}.

Definition storage_provider_update_payload (provider : StorageProviderUpdate) :
    StorageProviderSyncPayload :=
  {| sp_provider_id := spu_provider_id provider; sp_provider_kind := spu_provider_kind provider;
     sp_display_name := spu_display_name provider; sp_endpoint_ref := spu_endpoint_ref provider;
     sp_discovery := spu_discovery provider; sp_connectivity := spu_connectivity provider;
     sp_object_transfer := spu_object_transfer provider;
     sp_availability := spu_availability provider; sp_mutable_roots := spu_mutable_roots provider;
     sp_quota_bytes := spu_quota_bytes provider;
     sp_max_retained_objects := spu_max_retained_objects provider;
     sp_pinning_policy := spu_pinning_policy provider; sp_enabled := spu_enabled provider;
     sp_deleted := false |}.

Definition storage_provider_tombstone_payload (provider : StorageProviderRecord) :
    StorageProviderSyncPayload :=
  {| sp_provider_id := spr_provider_id provider; sp_provider_kind := spr_provider_kind provider;
     sp_display_name := spr_display_name provider; sp_endpoint_ref := spr_endpoint_ref provider;
     sp_discovery := spr_discovery provider; sp_connectivity := spr_connectivity provider;
     sp_object_transfer := spr_object_transfer provider;
     sp_availability := spr_availability provider; sp_mutable_roots := spr_mutable_roots provider;
     sp_quota_bytes := spr_quota_bytes provider;
     sp_max_retained_objects := spr_max_retained_objects provider;
     sp_pinning_policy := spr_pinning_policy provider; sp_enabled := spr_enabled provider;
     sp_deleted := true |}.

(** ** Encoding

    [serde_json::to_string] answers a text or the text of an error. *)
Record PayloadEncoders := {
  bookmark_slot_to_string : BookmarkSlotSyncPayload -> result string string;
  calendar_event_to_string : CalendarEventSyncPayload -> result string string;
  chat_conversation_to_string : ChatConversationSyncPayload -> result string string;
  contact_card_to_string : ContactCardSyncPayload -> result string string;
  download_metadata_to_string : DownloadMetadataSyncPayload -> result string string;
  file_entry_to_string : FileEntrySyncPayload -> result string string;
  storage_provider_to_string : StorageProviderSyncPayload -> result string string
}.

Section Encoding.
Context (enc : PayloadEncoders).

Definition bookmark_home_slot_payload (bookmark : BookmarkUpdate)
    (replaced_url : option string) : BookmarkSlotSyncPayload :=
  {| bs_url := bmu_url bookmark; bs_title := bmu_title bookmark;
     bs_folder := bmu_folder bookmark; bs_position := bmu_position bookmark;
     bs_favicon_key := bmu_favicon_key bookmark; bs_replaced_url := replaced_url;
     bs_deleted := false |}.

Definition bookmark_home_slot_sync_payload (bookmark : BookmarkUpdate)
    (replaced_url : option string) : result StorageError string :=
  map_err EncodeSyncPayload
    (bookmark_slot_to_string enc (bookmark_home_slot_payload bookmark replaced_url)).

Definition calendar_event_sync_payload (event : CalendarEventUpdate) :
    result StorageError string :=
  map_err EncodeSyncPayload (calendar_event_to_string enc (calendar_event_update_payload event)).
Definition calendar_event_tombstone_sync_payload (event : CalendarEventRecord) :
    result StorageError string :=
  map_err EncodeSyncPayload
    (calendar_event_to_string enc (calendar_event_tombstone_payload event)).

Definition chat_conversation_sync_payload (conversation : ChatConversationUpdate) :
    result StorageError string :=
  map_err EncodeSyncPayload
    (chat_conversation_to_string enc (chat_conversation_update_payload conversation)).
Definition chat_conversation_tombstone_sync_payload (conversation : ChatConversationRecord) :
    result StorageError string :=
  map_err EncodeSyncPayload
    (chat_conversation_to_string enc (chat_conversation_tombstone_payload conversation)).

Definition contact_card_sync_payload (contact : ContactCardUpdate) :
    result StorageError string :=
  map_err EncodeSyncPayload (contact_card_to_string enc (contact_card_update_payload contact)).
Definition contact_card_tombstone_sync_payload (contact : ContactCardRecord) :
    result StorageError string :=
  map_err EncodeSyncPayload (contact_card_to_string enc (contact_card_tombstone_payload contact)).

Definition download_metadata_sync_payload (download : DownloadMetadataUpdate) :
    result StorageError string :=
  map_err EncodeSyncPayload
    (download_metadata_to_string enc (download_metadata_update_payload download)).
Definition download_metadata_tombstone_sync_payload (download : DownloadMetadataRecord) :
    result StorageError string :=
  map_err EncodeSyncPayload
    (download_metadata_to_string enc (download_metadata_tombstone_payload download)).

Definition file_entry_sync_payload (entry : FileEntryUpdate) :
    result StorageError string :=
  map_err EncodeSyncPayload (file_entry_to_string enc (file_entry_update_payload entry)).
Definition file_entry_tombstone_sync_payload (entry : FileEntryRecord) :
    result StorageError string :=
  map_err EncodeSyncPayload (file_entry_to_string enc (file_entry_tombstone_payload entry)).

Definition storage_provider_sync_payload (provider : StorageProviderUpdate) :
    result StorageError string :=
  map_err EncodeSyncPayload
    (storage_provider_to_string enc (storage_provider_update_payload provider)).
Definition storage_provider_tombstone_sync_payload (provider : StorageProviderRecord) :
    result StorageError string :=
  map_err EncodeSyncPayload
    (storage_provider_to_string enc (storage_provider_tombstone_payload provider)).

End Encoding.

(** ** Validation *)

Definition validate_identifier (error : string -> StorageError) (id : string) :
    result StorageError unit :=
  if is_valid_sync_identifier id then Ok tt else Err (error id).

Definition validate_calendar_event_id := validate_identifier InvalidCalendarEventId.
Definition validate_chat_conversation_id := validate_identifier InvalidChatConversationId.
Definition validate_chat_provider_id := validate_identifier InvalidChatProviderId.
Definition validate_contact_id := validate_identifier InvalidContactId.
Definition validate_download_id := validate_identifier InvalidDownloadId.
Definition validate_file_entry_id := validate_identifier InvalidFileEntryId.
Definition validate_storage_provider_id := validate_identifier InvalidStorageProviderId.
Definition validate_storage_provider_kind := validate_identifier InvalidStorageProviderKind.

(** [i64::try_from(size_bytes)] of a [u64]. *)
Definition file_size_to_i64 (size_bytes : Z) : result StorageError Z :=
  if size_bytes <=? i64_max then Ok size_bytes else Err (InvalidFileSize size_bytes).
Definition download_size_to_i64 (size_bytes : Z) : result StorageError Z :=
  if size_bytes <=? i64_max then Ok size_bytes else Err (InvalidDownloadSize size_bytes).
Definition storage_quota_to_i64 (quota_bytes : Z) : result StorageError Z :=
  if quota_bytes <=? i64_max then Ok quota_bytes else Err (InvalidStorageProviderQuota quota_bytes).

(** [if let Some(x) = o { f(x)?; }]. *)
Definition validate_option {A B} (f : A -> result StorageError B) (o : option A) :
    result StorageError unit :=
  match o with Some a => check? f a in Ok tt | None => Ok tt end.

Definition validate_chat_conversation_update (conversation : ChatConversationUpdate) :
    result StorageError unit :=
  check? validate_chat_conversation_id (ccu_conversation_id conversation) in
  validate_option validate_chat_provider_id (ccu_provider_id conversation).

Definition validate_download_metadata_update (download : DownloadMetadataUpdate) :
    result StorageError unit :=
  check? validate_download_id (dmu_download_id download) in
  check? download_size_to_i64 (dmu_size_bytes download) in
  Ok tt.

Definition validate_file_entry_kind (entry_kind : string) : result StorageError unit :=
  if str_eqb entry_kind "file" || str_eqb entry_kind "directory" then Ok tt
  else Err (InvalidFileEntryKind entry_kind).

Definition validate_file_entry_update (entry : FileEntryUpdate) : result StorageError unit :=
  check? validate_file_entry_id (feu_entry_id entry) in
  check? validate_option validate_file_entry_id (feu_parent_id entry) in
  check? validate_file_entry_kind (feu_entry_kind entry) in
  validate_option file_size_to_i64 (feu_size_bytes entry).

Definition validate_storage_pinning_policy (pinning_policy : string) :
    result StorageError unit :=
  if str_eqb pinning_policy "disabled" || str_eqb pinning_policy "manual"
     || str_eqb pinning_policy "auto" || str_eqb pinning_policy "required" then Ok tt
  else Err (InvalidStoragePinningPolicy pinning_policy).

Definition validate_storage_provider_update (provider : StorageProviderUpdate) :
    result StorageError unit :=
  check? validate_storage_provider_id (spu_provider_id provider) in
  check? validate_storage_provider_kind (spu_provider_kind provider) in
  check? validate_option storage_quota_to_i64 (spu_quota_bytes provider) in
  validate_option validate_storage_pinning_policy (spu_pinning_policy provider).

(** ** Reading rows *)

Definition out_of_range (column : Z) : SqlError :=
  FromSqlConversionFailure column TypeInteger
    "out of range integral type conversion attempted".

(** [u64::try_from] of a stored [i64]; the column is the one of the query. *)
Definition file_size_from_sql_i64 (size_bytes : Z) : result SqlError Z :=
  if size_bytes <? 0 then Err (out_of_range 8) else Ok size_bytes.
Definition download_size_from_sql_i64 (size_bytes : Z) : result SqlError Z :=
  if size_bytes <? 0 then Err (out_of_range 8) else Ok size_bytes.
Definition storage_quota_from_sql_i64 (quota_bytes : Z) : result SqlError Z :=
  if quota_bytes <? 0 then Err (out_of_range 10) else Ok quota_bytes.

(** [u32::try_from] of a stored [i64]. *)
Definition u32_from_sql_i64 (column n : Z) : result SqlError Z :=
  if (n <? 0) || (u32_max <? n) then Err (out_of_range column) else Ok n.

Definition calendar_event_record_from_row (profile : string)
    (row : AppRow CalendarEventSyncPayload) :
    result SqlError CalendarEventRecord :=
  let p := row_payload row in
  Ok {| cer_profile := profile; cer_event_id := ce_event_id p; cer_calendar_id := ce_calendar_id p;
        cer_title := ce_title p; cer_starts_at := ce_starts_at p; cer_ends_at := ce_ends_at p;
        cer_time_zone := ce_time_zone p; cer_location := ce_location p; cer_notes := ce_notes p;
        cer_recurrence_rule := ce_recurrence_rule p; cer_reminder_minutes := ce_reminder_minutes p;
        cer_created_at := row_created_at row; cer_updated_at := row_updated_at row |}.

Definition chat_conversation_record_from_row (profile : string)
    (row : AppRow ChatConversationSyncPayload) :
    result SqlError ChatConversationRecord :=
  let p := row_payload row in
  let? unread_count := u32_from_sql_i64 7 (cc_unread_count p) in
  Ok {| ccr_profile := profile; ccr_conversation_id := cc_conversation_id p;
        ccr_provider_id := cc_provider_id p; ccr_external_thread_id := cc_external_thread_id p;
        ccr_display_name := cc_display_name p; ccr_avatar_key := cc_avatar_key p;
        ccr_last_message_at := cc_last_message_at p; ccr_unread_count := unread_count;
        ccr_archived := cc_archived p; ccr_muted := cc_muted p;
        ccr_created_at := row_created_at row; ccr_updated_at := row_updated_at row |}.

Definition contact_card_record_from_row (profile : string) (row : AppRow ContactCardSyncPayload) :
    result SqlError ContactCardRecord :=
  let p := row_payload row in
  Ok {| ctr_profile := profile; ctr_contact_id := ct_contact_id p;
        ctr_display_name := ct_display_name p; ctr_given_name := ct_given_name p;
        ctr_family_name := ct_family_name p; ctr_organization := ct_organization p;
        ctr_primary_email := ct_primary_email p; ctr_primary_phone := ct_primary_phone p;
        ctr_notes := ct_notes p; ctr_avatar_key := ct_avatar_key p;
        ctr_created_at := row_created_at row; ctr_updated_at := row_updated_at row |}.

Definition download_metadata_record_from_row (profile : string)
    (row : AppRow DownloadMetadataSyncPayload) :
    result SqlError DownloadMetadataRecord :=
  let p := row_payload row in
  let? size_bytes := download_size_from_sql_i64 (dm_size_bytes p) in
  Ok {| dmr_profile := profile; dmr_download_id := dm_download_id p;
        dmr_source_url := dm_source_url p; dmr_final_url := dm_final_url p; dmr_route := dm_route p;
        dmr_transport_id := dm_transport_id p; dmr_filename := dm_filename p;
        dmr_content_type := dm_content_type p; dmr_size_bytes := size_bytes;
        dmr_integrity := dm_integrity p; dmr_created_at := row_created_at row;
        dmr_updated_at := row_updated_at row |}.

Definition file_entry_record_from_row (profile : string) (row : AppRow FileEntrySyncPayload) :
    result SqlError FileEntryRecord :=
  let p := row_payload row in
  let? size_bytes := option_try file_size_from_sql_i64 (fe_size_bytes p) in
  Ok {| fer_profile := profile; fer_entry_id := fe_entry_id p; fer_sync_set_id := fe_sync_set_id p;
        fer_parent_id := fe_parent_id p; fer_name := fe_name p; fer_entry_kind := fe_entry_kind p;
        fer_content_ref := fe_content_ref p; fer_mime_type := fe_mime_type p;
        fer_size_bytes := size_bytes; fer_modified_at := fe_modified_at p;
        fer_integrity := fe_integrity p; fer_retention_policy := fe_retention_policy p;
        fer_created_at := row_created_at row; fer_updated_at := row_updated_at row |}.

Definition storage_provider_record_from_row (profile : string)
    (row : AppRow StorageProviderSyncPayload) :
    result SqlError StorageProviderRecord :=
  let p := row_payload row in
  let? quota_bytes := option_try storage_quota_from_sql_i64 (sp_quota_bytes p) in
  let? max_retained_objects :=
    option_try (u32_from_sql_i64 11) (sp_max_retained_objects p) in
  Ok {| spr_profile := profile; spr_provider_id := sp_provider_id p;
        spr_provider_kind := sp_provider_kind p; spr_display_name := sp_display_name p;
        spr_endpoint_ref := sp_endpoint_ref p; spr_discovery := sp_discovery p;
        spr_connectivity := sp_connectivity p; spr_object_transfer := sp_object_transfer p;
        spr_availability := sp_availability p; spr_mutable_roots := sp_mutable_roots p;
        spr_quota_bytes := quota_bytes; spr_max_retained_objects := max_retained_objects;
        spr_pinning_policy := sp_pinning_policy p; spr_enabled := sp_enabled p;
        spr_created_at := row_created_at row; spr_updated_at := row_updated_at row |}.
