(* ===== verification/SyncObjects.v ===== *)
(** * Signed and encrypted sync objects

    The envelopes of [crates/storage/src/lib.rs] in which profile data leaves a
    device: [SignedSyncObject] carries a payload with the device key it was
    signed with, [EncryptedSyncObject] a ciphertext bound to its profile, domain,
    kind and key by the associated data of the cipher.

    [serde_json], Ed25519 and ChaCha20-Poly1305 are not part of the program:
    their entry points are the functions of [SyncCodec]. *)
From S2P Require Import Prelude RustStr AppViews Database.

Definition SYNC_OBJECT_VERSION : Z := 1.
Definition PROFILE_SYNC_NONCE_BYTES : Z := 12.
Definition PROFILE_SYNC_DEVICE_HEAD_SCHEMA_VERSION : Z := 1.
Definition PROFILE_SYNC_SETTING_CHANGE_OBJECT_KIND : string := "setting-change".
Definition PROFILE_SYNC_SETTINGS_SNAPSHOT_OBJECT_KIND : string := "settings-snapshot".
Definition PROFILE_SYNC_MANIFEST_OBJECT_KIND : string := "manifest".
Definition PROFILE_SYNC_DEVICE_HEAD_OBJECT_KIND : string := "device-head".

(** ** Data *)

Record SignedSyncObject := {
  so_version : Z;
  so_device_id : string;
  so_public_key : string;
  so_payload : string;
  so_signature : string
}.

Record EncryptedSyncObject := {
  eo_version : Z;
  eo_profile : string;
  eo_domain : string;
  eo_object_kind : string;
  eo_key_id : string;
  eo_nonce : string;
  eo_ciphertext : string
}.

Record ProfileSyncMembershipRecord := {
  mr_profile : string;
  mr_record_id : string;
  mr_schema_version : Z;
  mr_membership_epoch : Z;
  mr_record_kind : string;
  mr_device_id : string;
  mr_device_public_key : option ProfileSyncDevicePublicKey;
  mr_created_at : Z
}.

Record ProfileSyncDeviceHead := {
  dh_profile : string;
  dh_device_id : string;
  dh_root_id : string;
  dh_schema_version : Z;
  dh_membership_epoch : Z;
  dh_latest_manifest_object_id : string;
  dh_latest_change_object_id : option string;
  dh_device_sequence : Z;
  dh_logical_clock : Z;
  dh_created_at : Z
}.

Record ProfileSyncRetentionPolicy := {
  rp_min_tail_change_count : Z;
  rp_change_retention_seconds : Z;
  rp_inactive_device_grace_seconds : Z
}.

Record ProfileSyncDeviceFrontier := {
  df_device_id : string;
  df_latest_sequence : Z;
  df_latest_change_object_id : option string
}.

Record ProfileSyncManifest := {
  mf_profile : string;
  mf_root_id : string;
  mf_schema_version : Z;
  mf_membership_epoch : Z;
  mf_current_snapshot_object_id : option string;
  mf_tail_change_object_ids : list string;
  mf_included_domains : list string;
  mf_device_frontiers : list ProfileSyncDeviceFrontier;
  mf_retention_policy : ProfileSyncRetentionPolicy;
  mf_created_at : Z
}.

Record ProfileSyncSettingsSnapshotValue := {
  ss_domain : string;
  ss_key : string;
  ss_value : string;
  ss_value_kind : string;
  ss_revision : Z
}.

Record ProfileSyncSettingsSnapshot := {
  sp_profile : string;
  sp_schema_version : Z;
  sp_covers_revision : Z;
  sp_included_domains : list string;
  sp_values : list ProfileSyncSettingsSnapshotValue;
  sp_created_at : Z
}.

Record ProfileSyncObjectBytes := { ob_object_id : string; ob_bytes : string }.

Record VerifiedProfileSyncSettingsSnapshot := {
  vs_object_id : string;
  vs_snapshot : ProfileSyncSettingsSnapshot
}.

Record VerifiedProfileSyncSettingsTailChange := {
  vt_object_id : string;
  vt_change : IncomingSyncSettingText
}.

Record VerifiedProfileSyncSettingsManifestObjects := {
  vm_manifest_object_id : string;
  vm_manifest : ProfileSyncManifest;
  vm_snapshot : option VerifiedProfileSyncSettingsSnapshot;
  vm_tail_changes : list VerifiedProfileSyncSettingsTailChange
}.

Inductive ProfileSyncDerivedSecretPurpose :=
  | AccountRecovery
  | ManifestSigning
  | MutableRootPublishing
  | DeviceEnrollment
  | DeviceBootstrap.
#[export] Instance ProfileSyncDerivedSecretPurpose_eq_dec :
  EqDecision ProfileSyncDerivedSecretPurpose.
Proof. solve_decision. Defined.

Definition debug_purpose (purpose : ProfileSyncDerivedSecretPurpose) : string :=
  match purpose with
  | AccountRecovery => "AccountRecovery"
  | ManifestSigning => "ManifestSigning"
  | MutableRootPublishing => "MutableRootPublishing"
  | DeviceEnrollment => "DeviceEnrollment"
  | DeviceBootstrap => "DeviceBootstrap"
  end.

(** [Encode] and [Decode] carry the text of the [serde_json] error. *)
Inductive SyncObjectError :=
  | Random
  | Key
  | Encrypt
  | Decrypt
  | Verify
  | UnsupportedVersion (version : Z)
  | UnsupportedSchema (object_kind : string) (schema_version : Z)
  | InvalidDeviceId (device_id : string)
  | DeviceKeyMismatch (expected_device_id actual_device_id : string)
  | InvalidNonceLength (actual : Z)
  | UnexpectedProfile (expected actual : string)
  | UnexpectedDomain (expected actual : string)
  | UnexpectedObjectKind (expected actual : string)
  | UnexpectedKeyId (expected actual : string)
  | UnexpectedDerivedSecretPurpose (expected actual : ProfileSyncDerivedSecretPurpose)
  | UnexpectedRootId (expected actual : string)
  | UnexpectedDeviceFrontier (device_id : string) (expected_sequence : Z)
      (actual_sequence : option Z) (expected_change_object_id actual_change_object_id : option string)
  | UnexpectedDeviceHeadManifestEpoch (device_id : string)
      (head_membership_epoch manifest_membership_epoch : Z)
  | Encode (error : string)
  | Decode (error : string).

(** [impl fmt::Display for SyncObjectError]. *)
Definition sync_object_error_to_string (error : SyncObjectError) : string :=
  match error with
  | Random => "failed to generate sync object nonce"
  | Key => "invalid profile sync signing key"
  | Encrypt => "failed to encrypt sync object"
  | Decrypt => "failed to decrypt sync object"
  | Verify => "failed to verify sync object signature"
  | UnsupportedVersion version => "unsupported sync object version: " +:+ show version
  | UnsupportedSchema object_kind schema_version =>
      "unsupported " +:+ object_kind +:+ " sync object schema version: " +:+ show schema_version
  | InvalidDeviceId device_id => "invalid sync object device id: " +:+ device_id
  | DeviceKeyMismatch expected actual =>
      "sync object device key mismatch: expected " +:+ expected +:+ ", got " +:+ actual
  | InvalidNonceLength actual => "invalid sync object nonce length: " +:+ show actual
  | UnexpectedProfile expected actual =>
      "unexpected sync object profile: expected " +:+ expected +:+ ", got " +:+ actual
  | UnexpectedDomain expected actual =>
      "unexpected sync object domain: expected " +:+ expected +:+ ", got " +:+ actual
  | UnexpectedObjectKind expected actual =>
      "unexpected sync object kind: expected " +:+ expected +:+ ", got " +:+ actual
  | UnexpectedKeyId expected actual =>
      "unexpected sync object key id: expected " +:+ expected +:+ ", got " +:+ actual
  | UnexpectedDerivedSecretPurpose expected actual =>
      "unexpected profile sync derived secret purpose: expected " +:+ debug_purpose expected
      +:+ ", got " +:+ debug_purpose actual
  | UnexpectedRootId expected actual =>
      "unexpected sync object root id: expected " +:+ expected +:+ ", got " +:+ actual
  | UnexpectedDeviceFrontier device_id expected_sequence actual_sequence expected_id actual_id =>
      "unexpected sync manifest frontier for device " +:+ device_id +:+ ": expected sequence "
      +:+ show expected_sequence +:+ " and change " +:+ debug_option debug_str expected_id
      +:+ ", got sequence " +:+ debug_option show actual_sequence +:+ " and change "
      +:+ debug_option debug_str actual_id
  | UnexpectedDeviceHeadManifestEpoch device_id head_epoch manifest_epoch =>
      "unexpected sync manifest membership epoch for device " +:+ device_id
      +:+ ": expected head epoch " +:+ show head_epoch +:+ ", got manifest epoch "
      +:+ show manifest_epoch
  | Encode error => "failed to encode sync object: " +:+ error
  | Decode error => "failed to decode sync object: " +:+ error
  end.

(** The functions of [serde_json] and [ring] the envelopes rely on: decoding a
    JSON document answers a value or the text of an error; a signature verifies
    or not; a ciphertext opens under a key, associated data and nonce or not. *)
Record SyncCodec := {
  signed_object_from_slice : string -> result string SignedSyncObject;
  encrypted_object_from_slice : string -> result string EncryptedSyncObject;
  membership_record_from_slice : string -> result string ProfileSyncMembershipRecord;
  device_head_from_slice : string -> result string ProfileSyncDeviceHead;
  manifest_from_slice : string -> result string ProfileSyncManifest;
  settings_snapshot_from_slice : string -> result string ProfileSyncSettingsSnapshot;
  setting_change_from_slice : string -> result string IncomingSyncSettingText;
  ed25519_verify : string -> string -> string -> bool;
  chacha20_poly1305_open : string -> string -> string -> string -> option string
}.

(** ** Signed objects *)

Section Objects.
Context (codec : SyncCodec).

Definition signed_from_bytes (bytes : string) : result SyncObjectError SignedSyncObject :=
  map_err Decode (signed_object_from_slice codec bytes).

Definition verify_with (self : SignedSyncObject) (public_key : ProfileSyncDevicePublicKey) :
    result SyncObjectError string :=
  if negb (so_version self =? SYNC_OBJECT_VERSION)
  then Err (UnsupportedVersion (so_version self))
  else if negb (str_eqb (so_device_id self) (pk_device_id public_key))
          || negb (str_eqb (so_public_key self) (pk_bytes public_key))
  then Err (DeviceKeyMismatch (pk_device_id public_key) (so_device_id self))
  else if ed25519_verify codec (pk_bytes public_key) (so_payload self) (so_signature self)
  then Ok (so_payload self)
  else Err Verify.

Definition membership_from_bytes (bytes : string) :
    result SyncObjectError ProfileSyncMembershipRecord :=
  map_err Decode (membership_record_from_slice codec bytes).

(** ** Encrypted objects *)

Definition encrypted_from_bytes (bytes : string) : result SyncObjectError EncryptedSyncObject :=
  map_err Decode (encrypted_object_from_slice codec bytes).

Definition associated_data (self : EncryptedSyncObject) : string :=
  "slate-profile-sync:v" +:+ show (eo_version self) +:+ ":" +:+ eo_profile self +:+ ":"
  +:+ eo_domain self +:+ ":" +:+ eo_object_kind self +:+ ":" +:+ eo_key_id self.

Definition open_sync_payload (associated_data ciphertext content_key nonce : string) :
    result SyncObjectError string :=
  ok_or (chacha20_poly1305_open codec content_key associated_data nonce ciphertext) Decrypt.

Definition open (self : EncryptedSyncObject) (content_key : string) :
    result SyncObjectError string :=
  if negb (eo_version self =? SYNC_OBJECT_VERSION)
  then Err (UnsupportedVersion (eo_version self))
  else if negb (str_len (eo_nonce self) =? PROFILE_SYNC_NONCE_BYTES)
  then Err (InvalidNonceLength (str_len (eo_nonce self)))
  else open_sync_payload (associated_data self) (eo_ciphertext self) content_key (eo_nonce self).

Definition validate_expected (self : EncryptedSyncObject)
    (expected_profile expected_domain expected_object_kind expected_key_id : string) :
    result SyncObjectError unit :=
  if negb (str_eqb (eo_profile self) expected_profile)
  then Err (UnexpectedProfile expected_profile (eo_profile self))
  else if negb (str_eqb (eo_domain self) expected_domain)
  then Err (UnexpectedDomain expected_domain (eo_domain self))
  else if negb (str_eqb (eo_object_kind self) expected_object_kind)
  then Err (UnexpectedObjectKind expected_object_kind (eo_object_kind self))
  else if negb (str_eqb (eo_key_id self) expected_key_id)
  then Err (UnexpectedKeyId expected_key_id (eo_key_id self))
  else Ok tt.

Definition open_expected (self : EncryptedSyncObject) (content_key expected_profile
    expected_domain expected_object_kind expected_key_id : string) :
    result SyncObjectError string :=
  check? validate_expected self expected_profile expected_domain expected_object_kind
           expected_key_id in
  open self content_key.

Definition open_signed_encrypted_sync_payload (bytes content_key : string)
    (public_key : ProfileSyncDevicePublicKey)
    (expected_profile expected_domain expected_object_kind expected_key_id : string) :
    result SyncObjectError string :=
  let? signed_object := signed_from_bytes bytes in
  let? encrypted_bytes := verify_with signed_object public_key in
  let? encrypted_object := encrypted_from_bytes encrypted_bytes in
  open_expected encrypted_object content_key expected_profile expected_domain
    expected_object_kind expected_key_id.

Definition open_signed_profile_sync_device_head (bytes content_key : string)
    (public_key : ProfileSyncDevicePublicKey) (profile key_id : string) :
    result SyncObjectError ProfileSyncDeviceHead :=
  let? payload := open_signed_encrypted_sync_payload bytes content_key public_key profile
                    SYNC_DOMAIN_SETTINGS PROFILE_SYNC_DEVICE_HEAD_OBJECT_KIND key_id in
  let? device_head := map_err Decode (device_head_from_slice codec payload) in
  if negb (dh_schema_version device_head =? PROFILE_SYNC_DEVICE_HEAD_SCHEMA_VERSION)
  then Err (UnsupportedSchema PROFILE_SYNC_DEVICE_HEAD_OBJECT_KIND
              (dh_schema_version device_head))
  else if negb (str_eqb (dh_profile device_head) profile)
  then Err (UnexpectedProfile profile (dh_profile device_head))
  else if negb (str_eqb (dh_device_id device_head) (pk_device_id public_key))
  then Err (DeviceKeyMismatch (pk_device_id public_key) (dh_device_id device_head))
  else Ok device_head.

Definition open_signed_profile_sync_manifest (bytes content_key : string)
    (public_key : ProfileSyncDevicePublicKey) (profile key_id : string) :
    result SyncObjectError ProfileSyncManifest :=
  let? payload := open_signed_encrypted_sync_payload bytes content_key public_key profile
                    SYNC_DOMAIN_SETTINGS PROFILE_SYNC_MANIFEST_OBJECT_KIND key_id in
  map_err Decode (manifest_from_slice codec payload).

Definition open_signed_profile_sync_settings_snapshot (bytes content_key : string)
    (public_key : ProfileSyncDevicePublicKey) (profile key_id : string) :
    result SyncObjectError ProfileSyncSettingsSnapshot :=
  let? payload := open_signed_encrypted_sync_payload bytes content_key public_key profile
                    SYNC_DOMAIN_SETTINGS PROFILE_SYNC_SETTINGS_SNAPSHOT_OBJECT_KIND key_id in
  map_err Decode (settings_snapshot_from_slice codec payload).

Definition open_signed_sync_setting_text (bytes content_key : string)
    (public_key : ProfileSyncDevicePublicKey) (profile domain key_id : string) :
    result SyncObjectError IncomingSyncSettingText :=
  let? payload := open_signed_encrypted_sync_payload bytes content_key public_key profile
                    domain PROFILE_SYNC_SETTING_CHANGE_OBJECT_KIND key_id in
  map_err Decode (setting_change_from_slice codec payload).

(** The change of an encrypted object of any domain: the labels of the envelope and
    of the change must agree. *)
Definition open_setting_change (encrypted_object : EncryptedSyncObject)
    (content_key profile key_id : string) : result SyncObjectError IncomingSyncSettingText :=
  if negb (str_eqb (eo_profile encrypted_object) profile)
  then Err (UnexpectedProfile profile (eo_profile encrypted_object))
  else if negb (str_eqb (eo_object_kind encrypted_object) PROFILE_SYNC_SETTING_CHANGE_OBJECT_KIND)
  then Err (UnexpectedObjectKind PROFILE_SYNC_SETTING_CHANGE_OBJECT_KIND
              (eo_object_kind encrypted_object))
  else if negb (str_eqb (eo_key_id encrypted_object) key_id)
  then Err (UnexpectedKeyId key_id (eo_key_id encrypted_object))
  else
  let? payload := open encrypted_object content_key in
  let? change := map_err Decode (setting_change_from_slice codec payload) in
  if negb (str_eqb (in_profile change) (eo_profile encrypted_object))
  then Err (UnexpectedProfile (eo_profile encrypted_object) (in_profile change))
  else if negb (str_eqb (in_domain change) (eo_domain encrypted_object))
  then Err (UnexpectedDomain (eo_domain encrypted_object) (in_domain change))
  else Ok change.

Definition open_signed_sync_setting_text_for_profile (bytes content_key : string)
    (public_key : ProfileSyncDevicePublicKey) (profile key_id : string) :
    result SyncObjectError IncomingSyncSettingText :=
  let? signed_object := signed_from_bytes bytes in
  let? encrypted_bytes := verify_with signed_object public_key in
  let? encrypted_object := encrypted_from_bytes encrypted_bytes in
  open_setting_change encrypted_object content_key profile key_id.

Definition open_signed_profile_sync_settings_manifest_objects
    (manifest_object : ProfileSyncObjectBytes) (snapshot_object : option ProfileSyncObjectBytes)
    (tail_change_objects : list ProfileSyncObjectBytes) (content_key : string)
    (public_key : ProfileSyncDevicePublicKey) (profile key_id : string) :
    result SyncObjectError VerifiedProfileSyncSettingsManifestObjects :=
  let? manifest := open_signed_profile_sync_manifest (ob_bytes manifest_object) content_key
                     public_key profile key_id in
  let? snapshot := match snapshot_object with
                   | None => Ok None
                   | Some snapshot_object =>
                       let? snapshot := open_signed_profile_sync_settings_snapshot
                                          (ob_bytes snapshot_object) content_key public_key
                                          profile key_id in
                       Ok (Some {| vs_object_id := ob_object_id snapshot_object;
                                   vs_snapshot := snapshot |})
                   end in
  let? tail_changes := collect_results (fun tail_object =>
         let? change := open_signed_sync_setting_text_for_profile (ob_bytes tail_object)
                          content_key public_key profile key_id in
         Ok {| vt_object_id := ob_object_id tail_object; vt_change := change |})
       tail_change_objects in
  Ok {| vm_manifest_object_id := ob_object_id manifest_object; vm_manifest := manifest;
        vm_snapshot := snapshot; vm_tail_changes := tail_changes |}.

(** ** Lemmas *)

Lemma verify_with_Ok self pk payload :
  verify_with self pk = Ok payload <->
  so_version self = SYNC_OBJECT_VERSION /\ pk_device_id pk = so_device_id self /\
  pk_bytes pk = so_public_key self /\ payload = so_payload self /\
  ed25519_verify codec (so_public_key self) (so_payload self) (so_signature self) = true.
Proof.
  unfold verify_with. destruct (Z.eqb_spec (so_version self) SYNC_OBJECT_VERSION); simpl;
    [|naive_solver].
  destruct (str_eqb (so_device_id self) _) eqn:H1; simpl;
    [apply str_eqb_eq in H1|apply str_eqb_neq in H1; naive_solver].
  destruct (str_eqb (so_public_key self) _) eqn:H2; simpl;
    [apply str_eqb_eq in H2|apply str_eqb_neq in H2; naive_solver].
  rewrite <-H2. destruct (ed25519_verify _ _ _ _) eqn:H3; naive_solver.
Qed.

Lemma validate_expected_Ok self profile domain kind key_id u :
  validate_expected self profile domain kind key_id = Ok u <->
  eo_profile self = profile /\ eo_domain self = domain /\ eo_object_kind self = kind /\
  eo_key_id self = key_id.
Proof.
  unfold validate_expected.
  destruct (str_eqb (eo_profile self) profile) eqn:H1; simpl;
    [apply str_eqb_eq in H1|apply str_eqb_neq in H1; naive_solver].
  destruct (str_eqb (eo_domain self) domain) eqn:H2; simpl;
    [apply str_eqb_eq in H2|apply str_eqb_neq in H2; naive_solver].
  destruct (str_eqb (eo_object_kind self) kind) eqn:H3; simpl;
    [apply str_eqb_eq in H3|apply str_eqb_neq in H3; naive_solver].
  destruct (str_eqb (eo_key_id self) key_id) eqn:H4; simpl;
    [apply str_eqb_eq in H4|apply str_eqb_neq in H4; naive_solver].
  destruct u. naive_solver.
Qed.

Lemma open_Ok self content_key payload :
  open self content_key = Ok payload <->
  eo_version self = SYNC_OBJECT_VERSION /\ str_len (eo_nonce self) = PROFILE_SYNC_NONCE_BYTES /\
  chacha20_poly1305_open codec content_key (associated_data self) (eo_nonce self)
    (eo_ciphertext self) = Some payload.
Proof.
  unfold open, open_sync_payload. destruct (Z.eqb_spec (eo_version self) SYNC_OBJECT_VERSION);
    simpl; [|naive_solver].
  destruct (Z.eqb_spec (str_len (eo_nonce self)) PROFILE_SYNC_NONCE_BYTES); simpl; [|naive_solver].
  destruct (chacha20_poly1305_open _ _ _ _ _); naive_solver.
Qed.
End Objects.
