(* ===== verification/SyncStore.v ===== *)
(** * The settings synchronisation store

    Models the last-writer-wins store of [crates/storage/src/lib.rs]: local
    writes ([set_setting_text], [set_sync_setting_text]) and the application of
    the changes of other devices ([apply_sync_setting_text]), with the change
    log ([settings_changes]), the revision log ([settings_revisions]) and the
    current values ([settings_values]) they maintain; the queries over the
    logs; and the per-application cursors and domain watcher built on them. *)
From S2P Require Import Prelude RustStr AppViews Database.

(** ** Queries over the change log *)

Definition sync_change_by_device_sequence_in_transaction
    (profile device_id : string) (device_sequence : Z) (db : ProfileDb) :
    option SyncChangeRecord :=
  list_find_bool (fun r => str_eqb (ch_profile r) profile && str_eqb (ch_device_id r) device_id
                           && (ch_device_sequence r =? device_sequence)) (db_changes db).

(** The columns of [ORDER BY logical_clock DESC, device_id DESC, device_sequence
    DESC, id DESC]. *)
Definition change_order (r : SyncChangeRecord) : Z * string * Z * Z :=
  (ch_logical_clock r, ch_device_id r, ch_device_sequence r, ch_id r).

(** The rows the winner of an entity is chosen from. *)
Definition winner_candidate (profile domain key : string) (r : SyncChangeRecord) : bool :=
  str_eqb (ch_profile r) profile && str_eqb (ch_domain r) domain
  && str_eqb (ch_entity_key r) key && str_eqb (ch_operation r) "set_text"
  && match ch_applied_at r with Some _ => true | None => false end.

Definition sync_setting_winner_in_transaction (profile domain key : string) (db : ProfileDb) :
    option SyncChangeRecord :=
  select_max change_order (List.filter (winner_candidate profile domain key) (db_changes db)).

(** The last-writer-wins stamp of a change. *)
Definition change_stamp (r : SyncChangeRecord) : Z * string * Z :=
  (ch_logical_clock r, ch_device_id r, ch_device_sequence r).
Definition incoming_stamp (c : IncomingSyncSettingText) : Z * string * Z :=
  (in_logical_clock c, in_device_id c, in_device_sequence c).

Definition setting_change_wins (incoming : IncomingSyncSettingText)
    (existing : option SyncChangeRecord) : bool :=
  match existing with
  | None => true
  | Some existing => rust_gtb (incoming_stamp incoming) (change_stamp existing)
  end.

(** ** Statements *)

Definition record_sync_device_seen_in_transaction (profile device_id : string) (now : Z) :
    sql unit :=
  execute (fun db =>
    let row := match db_devices db !! (profile, device_id) with
               | Some d => {| sd_profile := profile; sd_device_id := device_id;
                              sd_label := sd_label d;
                              sd_membership_epoch := sd_membership_epoch d;
                              sd_provider_authority := sd_provider_authority d;
                              sd_created_at := sd_created_at d; sd_last_seen_at := now |}
               | None => {| sd_profile := profile; sd_device_id := device_id;
                            sd_label := None; sd_membership_epoch := 1;
                            sd_provider_authority := false;
                            sd_created_at := now; sd_last_seen_at := now |}
               end in
    set_db_devices (<[(profile, device_id) := row]> (db_devices db)) db).

(** [UNIQUE(profile, device_id, device_sequence)] of [settings_changes]. *)
Definition insert_sync_setting_text_change_record_in_transaction
    (profile domain key value device_id : string) (device_sequence logical_clock now : Z)
    (applied_at : option Z) : sql SyncChangeRecord :=
  fun db =>
    match sync_change_by_device_sequence_in_transaction profile device_id device_sequence db with
    | Some _ => (db, Err (ConstraintViolation
                            "settings_changes.profile, device_id, device_sequence"))
    | None =>
        let change_id := db_change_seq db + 1 in
        let record := {|
          ch_id := change_id; ch_profile := profile; ch_domain := domain;
          ch_entity_key := key; ch_operation := "set_text"; ch_payload := value;
          ch_device_id := device_id; ch_device_sequence := device_sequence;
          ch_logical_clock := logical_clock; ch_created_at := now;
          ch_applied_at := applied_at |} in
        (set_db_change_seq change_id (set_db_changes (db_changes db ++ [record]) db), Ok record)
    end.

(** [INSERT INTO settings_revisions], answering [last_insert_rowid()]. *)
Definition insert_revision (profile domain : string) (change_id now : Z) : sql Z :=
  fun db =>
    let revision := db_revision_seq db + 1 in
    let row := {| rv_revision := revision; rv_profile := profile; rv_domain := domain;
                  rv_change_id := change_id; rv_created_at := now |} in
    (set_db_revision_seq revision (set_db_revisions (db_revisions db ++ [row]) db), Ok revision).

(** [INSERT INTO settings_values ... ON CONFLICT(profile, domain, key) DO UPDATE]. *)
Definition upsert_value (profile domain key value : string) (revision now : Z) : sql unit :=
  execute (fun db =>
    let row := {| sv_profile := profile; sv_domain := domain; sv_key := key;
                  sv_value := value; sv_value_kind := "text"; sv_revision := revision;
                  sv_updated_at := now |} in
    set_db_values (<[(profile, domain, key) := row]> (db_values db)) db).

Definition insert_sync_setting_text_change_in_transaction
    (profile domain key value device_id : string) (device_sequence logical_clock now : Z) :
    sql SyncChangeRecord :=
  let* change := insert_sync_setting_text_change_record_in_transaction
                   profile domain key value device_id device_sequence logical_clock now
                   (Some now) in
  let* revision := insert_revision profile domain (ch_id change) now in
  do* upsert_value profile domain key value revision now in
  sr_ret change.

Definition device_sequences (profile device_id : string) (db : ProfileDb) : list Z :=
  map ch_device_sequence
    (List.filter (fun r => str_eqb (ch_profile r) profile && str_eqb (ch_device_id r) device_id)
       (db_changes db)).
Definition logical_clocks (profile : string) (db : ProfileDb) : list Z :=
  map ch_logical_clock (List.filter (fun r => str_eqb (ch_profile r) profile) (db_changes db)).

Definition record_sync_setting_text_in_transaction
    (profile domain key value device_id : string) (now : Z) : sql SyncChangeRecord :=
  let* sequences := query (device_sequences profile device_id) in
  let* device_sequence := sr_lift (sql_next sequences) in
  let* clocks := query (logical_clocks profile) in
  let* logical_clock := sr_lift (sql_next clocks) in
  insert_sync_setting_text_change_in_transaction
    profile domain key value device_id device_sequence logical_clock now.

(** [apply_sync_setting_materialized_view_in_transaction] as a statement of the
    transaction; its partial updates are rolled back with the transaction. *)
Definition apply_view (d : PayloadDecoders) (change : IncomingSyncSettingText) (now : Z) :
    sql unit :=
  fun db =>
    match apply_sync_setting_materialized_view_in_transaction d change now (db_app db) with
    | Ok t => (set_db_app t db, Ok tt)
    | Err e => (db, Err e)
    end.

Definition apply_sync_setting_text_in_transaction (d : PayloadDecoders)
    (change : IncomingSyncSettingText) (now : Z) : sql SyncChangeRecord :=
  do* record_sync_device_seen_in_transaction (in_profile change) (in_device_id change) now in
  let* existing := query (sync_change_by_device_sequence_in_transaction
                            (in_profile change) (in_device_id change)
                            (in_device_sequence change)) in
  match existing with
  | Some existing => sr_ret existing
  | None =>
      let* existing_winner := query (sync_setting_winner_in_transaction
                                       (in_profile change) (in_domain change) (in_key change)) in
      if setting_change_wins change existing_winner then
        do* apply_view d change now in
        insert_sync_setting_text_change_in_transaction
          (in_profile change) (in_domain change) (in_key change) (in_value change)
          (in_device_id change) (in_device_sequence change) (in_logical_clock change) now
      else
        insert_sync_setting_text_change_record_in_transaction
          (in_profile change) (in_domain change) (in_key change) (in_value change)
          (in_device_id change) (in_device_sequence change) (in_logical_clock change) now None
  end.

(** ** Public operations *)

(** [INSERT INTO settings ... ON CONFLICT(key) DO UPDATE]. *)
Definition upsert_setting (key value : string) (now : Z) : sql unit :=
  execute (fun db =>
    set_db_app (set_tbl_settings (<[key := (value, now)]> (tbl_settings (db_app db))) (db_app db))
      db).

Definition set_sync_setting_text (local_device profile domain key value : string) (now : Z) :
    storage SyncChangeRecord :=
  database_error (transaction (
    do* (if str_eqb profile DEFAULT_PROFILE_ID && str_eqb domain SYNC_DOMAIN_SETTINGS
         then upsert_setting key value now else sr_ret tt) in
    record_sync_setting_text_in_transaction profile domain key value local_device now)).

Definition set_setting_text (local_device key value : string) (now : Z) : storage unit :=
  database_error (transaction (
    do* upsert_setting key value now in
    do* record_sync_setting_text_in_transaction DEFAULT_PROFILE_ID SYNC_DOMAIN_SETTINGS
          key value local_device now in
    sr_ret tt)).

Definition get_setting_text (key : string) (db : ProfileDb) : option string :=
  option_map fst (tbl_settings (db_app db) !! key).

Definition ensure_setting_text (local_device key value : string) (now : Z) : storage string :=
  let* existing := query (get_setting_text key) in
  match existing with
  | Some existing => sr_ret existing
  | None => do* set_setting_text local_device key value now in sr_ret value
  end.

Definition get_setting_text_or_default (key value : string) (db : ProfileDb) : string :=
  default value (get_setting_text key db).

Definition apply_sync_setting_text (d : PayloadDecoders) (change : IncomingSyncSettingText)
    (now : Z) : storage SyncChangeRecord :=
  database_error (transaction (apply_sync_setting_text_in_transaction d change now)).

Definition get_sync_setting_text (profile domain key : string) (db : ProfileDb) :
    option SyncSettingValueRecord :=
  db_values db !! (profile, domain, key).

(** [LIMIT ?n] with an unsigned argument (bounded by the number of rows before it is
    turned into a [nat]). *)
Definition sql_limit {A} (limit : Z) (l : list A) : list A :=
  take (Z.to_nat (Z.min limit (Z.of_nat (length l)))) l.

Definition sync_changes_after (profile : string) (after_change_id limit : Z) (db : ProfileDb) :
    list SyncChangeRecord :=
  sql_limit limit
    (List.filter (fun r => str_eqb (ch_profile r) profile && (after_change_id <? ch_id r))
       (db_changes db)).

Definition latest_sync_device_sequence (profile device_id : string) (db : ProfileDb) : option Z :=
  sql_max (device_sequences profile device_id db).

Definition sync_revisions_after (profile : string) (after_revision : Z) (db : ProfileDb) :
    list SyncRevisionRecord :=
  List.filter (fun r => str_eqb (rv_profile r) profile && (after_revision <? rv_revision r))
    (db_revisions db).

Definition latest_sync_revision (profile : string) (db : ProfileDb) : Z :=
  default 0 (sql_max (map rv_revision
    (List.filter (fun r => str_eqb (rv_profile r) profile) (db_revisions db)))).

Definition latest_sync_revision_for_domain (profile domain : string) (db : ProfileDb) : Z :=
  default 0 (sql_max (map rv_revision
    (List.filter (fun r => str_eqb (rv_profile r) profile && str_eqb (rv_domain r) domain)
       (db_revisions db)))).

(** ** Events *)

Record SyncSettingTextEvent := {
  ev_revision : SyncRevisionRecord;
  ev_change : SyncChangeRecord
}.

Record SyncSettingTextDomainPoll := {
  poll_profile : string;
  poll_domain : string;
  poll_previous_revision : Z;
  poll_latest_revision : Z;
  poll_events : list SyncSettingTextEvent
}.

Definition advanced (poll : SyncSettingTextDomainPoll) : bool :=
  poll_previous_revision poll <? poll_latest_revision poll.
Definition event_count (poll : SyncSettingTextDomainPoll) : Z :=
  Z.of_nat (length (poll_events poll)).

(** [settings_revisions JOIN settings_changes ON changes.id = revisions.change_id
    AND changes.profile = revisions.profile], in revision order. *)
Definition joined_events (db : ProfileDb) : list SyncSettingTextEvent :=
  flat_map (fun revision =>
    map (Build_SyncSettingTextEvent revision)
      (List.filter (fun change => (ch_id change =? rv_change_id revision)
                                  && str_eqb (ch_profile change) (rv_profile revision))
         (db_changes db))) (db_revisions db).

(** [changes.operation = 'set_text' AND changes.applied_at IS NOT NULL]. *)
Definition applied_text (change : SyncChangeRecord) : bool :=
  str_eqb (ch_operation change) "set_text"
  && match ch_applied_at change with Some _ => true | None => false end.

Definition sync_setting_text_events_after (profile : string) (after_revision limit : Z)
    (db : ProfileDb) : list SyncSettingTextEvent :=
  sql_limit limit
    (List.filter (fun e => str_eqb (rv_profile (ev_revision e)) profile
                           && (after_revision <? rv_revision (ev_revision e))
                           && applied_text (ev_change e)) (joined_events db)).

(** The [WHERE] clause of the per-domain query. *)
Definition domain_event (profile domain : string) (after_revision : Z)
    (e : SyncSettingTextEvent) : bool :=
  str_eqb (rv_profile (ev_revision e)) profile && str_eqb (rv_domain (ev_revision e)) domain
  && str_eqb (ch_domain (ev_change e)) domain
  && (after_revision <? rv_revision (ev_revision e)) && applied_text (ev_change e).

Definition sync_setting_text_events_after_for_domain (profile domain : string)
    (after_revision limit : Z) (db : ProfileDb) : list SyncSettingTextEvent :=
  sql_limit limit (List.filter (domain_event profile domain after_revision) (joined_events db)).

Definition poll_sync_setting_text_events_for_domain (profile domain : string)
    (after_revision limit : Z) (db : ProfileDb) : SyncSettingTextDomainPoll :=
  let events := sync_setting_text_events_after_for_domain profile domain after_revision limit db in
  let latest_revision := match last events with
                         | Some event => rv_revision (ev_revision event)
                         | None => after_revision
                         end in
  {| poll_profile := profile; poll_domain := domain; poll_previous_revision := after_revision;
     poll_latest_revision := latest_revision; poll_events := events |}.

(** ** Lemmas *)

Lemma sql_limit_take {A} limit (l : list A) : sql_limit limit l = take (Z.to_nat limit) l.
Proof.
  unfold sql_limit. destruct (Z.le_ge_cases limit (Z.of_nat (length l))) as [H|H].
  - by rewrite Z.min_l.
  - rewrite Z.min_r, Nat2Z.id by done. rewrite !take_ge; [done|lia|lia].
Qed.
