(* ===== verification/Membership.v ===== *)
(** * Account membership

    The device roster of [crates/storage/src/lib.rs]: signed membership records
    enroll, rotate and revoke the devices of an account.  A record is decoded and
    checked against its own key, authorised against the roster as it stands,
    refused when it is stale or not a permitted transition, stored once, and then
    changes the public keys ([sync_device_public_keys]) and the device table
    ([sync_devices]).  Also the roots of [sync_state] written in the same
    transaction, and enrollment bundles. *)
From S2P Require Import Prelude RustStr AppViews Database SyncObjects SyncStore.

Definition PROFILE_SYNC_MEMBERSHIP_RECORD_SCHEMA_VERSION : Z := 1.
Definition PROFILE_SYNC_ENROLLMENT_BUNDLE_SCHEMA_VERSION : Z := 1.
Definition DEFAULT_PROFILE_SYNC_ENROLLMENT_BUNDLE_MAX_RECORDS : Z := 128.
Definition PROFILE_SYNC_MEMBERSHIP_RECORD_KIND_ENROLL_DEVICE : string := "enroll-device".
Definition PROFILE_SYNC_MEMBERSHIP_RECORD_KIND_ENROLL_PROVIDER : string := "enroll-provider".
Definition PROFILE_SYNC_MEMBERSHIP_RECORD_KIND_REVOKE_DEVICE : string := "revoke-device".
Definition PROFILE_SYNC_MEMBERSHIP_RECORD_KIND_ROTATE_DEVICE_KEY : string := "rotate-device-key".
Abbreviation ENROLL_DEVICE := PROFILE_SYNC_MEMBERSHIP_RECORD_KIND_ENROLL_DEVICE.
Abbreviation ENROLL_PROVIDER := PROFILE_SYNC_MEMBERSHIP_RECORD_KIND_ENROLL_PROVIDER.
Abbreviation REVOKE_DEVICE := PROFILE_SYNC_MEMBERSHIP_RECORD_KIND_REVOKE_DEVICE.
Abbreviation ROTATE_DEVICE_KEY := PROFILE_SYNC_MEMBERSHIP_RECORD_KIND_ROTATE_DEVICE_KEY.

(** ** Data *)

Record SyncDeviceRegistration := {
  sdr_profile : string;
  sdr_device_id : string;
  sdr_label : option string;
  sdr_membership_epoch : Z;
  sdr_provider_authority : bool
}.

Record SyncDevicePublicKeyRegistration := {
  skr_profile : string;
  skr_public_key : ProfileSyncDevicePublicKey;
  skr_membership_epoch : Z
}.

Record SyncAccountMembershipRecordRegistration := {
  smr_profile : string;
  smr_record_id : string;
  smr_membership_epoch : Z;
  smr_record_kind : string;
  smr_device_id : string;
  smr_signer_device_id : string;
  smr_signed_record : string
}.

Record SyncAccountMembershipRecordApplication := {
  ma_membership_record : SyncAccountMembershipRecord;
  ma_device_key : option SyncDevicePublicKeyRecord;
  ma_bootstrapped : bool;
  ma_applied : bool
}.

Record ProfileSyncEnrollmentBundle := {
  eb_profile : string;
  eb_schema_version : Z;
  eb_target_device_id : string;
  eb_created_at : Z;
  eb_signed_membership_records : list string
}.

Record ProfileSyncRootRecord := {
  pr_profile : string;
  pr_root_id : string;
  pr_object_id : string;
  pr_updated_at : Z
}.

(** ** Validation *)

Definition is_valid_profile_sync_membership_record_kind (record_kind : string) : bool :=
  str_eqb record_kind ENROLL_DEVICE || str_eqb record_kind ENROLL_PROVIDER
  || str_eqb record_kind REVOKE_DEVICE || str_eqb record_kind ROTATE_DEVICE_KEY.

(** The arm [ENROLL_DEVICE | ENROLL_PROVIDER | ROTATE_DEVICE_KEY] of the matches. *)
Definition carries_public_key (record_kind : string) : bool :=
  str_eqb record_kind ENROLL_DEVICE || str_eqb record_kind ENROLL_PROVIDER
  || str_eqb record_kind ROTATE_DEVICE_KEY.

Definition invalid_record {A} (message : string) : result StorageError A :=
  Err (InvalidProfileSyncMembershipRecord message).

Definition validate_membership_record_public_key (record : ProfileSyncMembershipRecord)
    (public_key : ProfileSyncDevicePublicKey) : result StorageError unit :=
  if negb (is_valid_sync_identifier (pk_device_id public_key))
  then Err (InvalidSyncDeviceId (pk_device_id public_key))
  else if negb (str_eqb (pk_device_id public_key) (mr_device_id record))
  then invalid_record ("membership public key device id " +:+ pk_device_id public_key
         +:+ " does not match target device " +:+ mr_device_id record)
  else if is_empty (pk_bytes public_key)
  then invalid_record ("membership record " +:+ mr_record_id record
         +:+ " has an empty device public key")
  else Ok tt.

Definition validate_profile_sync_membership_record (record : ProfileSyncMembershipRecord) :
    result StorageError unit :=
  if negb (mr_schema_version record =? PROFILE_SYNC_MEMBERSHIP_RECORD_SCHEMA_VERSION)
  then Err (UnsupportedProfileSyncMembershipRecordSchema (mr_schema_version record))
  else if mr_membership_epoch record <? 1
  then Err (InvalidSyncMembershipEpoch (mr_membership_epoch record))
  else if negb (is_valid_sync_identifier (mr_record_id record))
  then Err (InvalidSyncMembershipRecordId (mr_record_id record))
  else if negb (is_valid_sync_identifier (mr_device_id record))
  then Err (InvalidSyncDeviceId (mr_device_id record))
  else if negb (is_valid_profile_sync_membership_record_kind (mr_record_kind record))
  then Err (InvalidSyncMembershipRecordKind (mr_record_kind record))
  else if carries_public_key (mr_record_kind record)
  then match mr_device_public_key record with
       | None => invalid_record (mr_record_kind record +:+ " requires a device public key")
       | Some public_key => validate_membership_record_public_key record public_key
       end
  else if str_eqb (mr_record_kind record) REVOKE_DEVICE
  then match mr_device_public_key record with
       | Some _ =>
           invalid_record "revoke-device records must not carry a replacement public key"
       | None => Ok tt
       end
  else Err (InvalidSyncMembershipRecordKind (mr_record_kind record)).

Definition validate_sync_account_membership_registration
    (registration : SyncAccountMembershipRecordRegistration) : result StorageError unit :=
  if smr_membership_epoch registration <? 1
  then Err (InvalidSyncMembershipEpoch (smr_membership_epoch registration))
  else if negb (is_valid_sync_identifier (smr_record_id registration))
  then Err (InvalidSyncMembershipRecordId (smr_record_id registration))
  else if negb (is_valid_profile_sync_membership_record_kind (smr_record_kind registration))
  then Err (InvalidSyncMembershipRecordKind (smr_record_kind registration))
  else if negb (is_valid_sync_identifier (smr_device_id registration))
  then Err (InvalidSyncDeviceId (smr_device_id registration))
  else if negb (is_valid_sync_identifier (smr_signer_device_id registration))
  then Err (InvalidSyncDeviceId (smr_signer_device_id registration))
  else if is_empty (smr_signed_record registration)
  then invalid_record "membership record signed bytes are empty"
  else Ok tt.

(** ** The roster tables *)

Definition register_sync_device (device : SyncDeviceRegistration) (now : Z) : storage unit :=
  execute (fun db =>
    let key := (sdr_profile device, sdr_device_id device) in
    let created_at := match db_devices db !! key with
                      | Some d => sd_created_at d
                      | None => now
                      end in
    set_db_devices (<[key := {| sd_profile := sdr_profile device;
                                sd_device_id := sdr_device_id device;
                                sd_label := sdr_label device;
                                sd_membership_epoch := sdr_membership_epoch device;
                                sd_provider_authority := sdr_provider_authority device;
                                sd_created_at := created_at; sd_last_seen_at := now |}]>
                      (db_devices db)) db).

Definition sync_devices (profile : string) (db : ProfileDb) : list SyncDeviceRecord :=
  btree_values (filter (fun kv => kv.1.1 = profile) (db_devices db)).

(** The row of a device after the upserts of the roster: the epoch is replaced,
    the authority only when it is given. *)
Definition roster_row (profile device_id : string) (membership_epoch : Z)
    (provider_authority : option bool) (now : Z) (existing : option SyncDeviceRecord) :
    SyncDeviceRecord :=
  match existing with
  | Some d => {| sd_profile := profile; sd_device_id := device_id; sd_label := sd_label d;
                 sd_membership_epoch := membership_epoch;
                 sd_provider_authority := default (sd_provider_authority d) provider_authority;
                 sd_created_at := sd_created_at d; sd_last_seen_at := now |}
  | None => {| sd_profile := profile; sd_device_id := device_id; sd_label := None;
               sd_membership_epoch := membership_epoch;
               sd_provider_authority := default false provider_authority;
               sd_created_at := now; sd_last_seen_at := now |}
  end.

Definition record_sync_device_roster_entry_in_transaction
    (profile device_id : string) (membership_epoch now : Z) : storage unit :=
  execute (fun db =>
    set_db_devices (<[(profile, device_id) :=
      roster_row profile device_id membership_epoch None now
        (db_devices db !! (profile, device_id))]> (db_devices db)) db).

Definition record_sync_device_roster_entry_with_provider_authority_in_transaction
    (profile device_id : string) (membership_epoch : Z) (provider_authority : bool) (now : Z) :
    storage unit :=
  execute (fun db =>
    set_db_devices (<[(profile, device_id) :=
      roster_row profile device_id membership_epoch (Some provider_authority) now
        (db_devices db !! (profile, device_id))]> (db_devices db)) db).

Definition sync_device_public_key_in_transaction (profile device_id : string) :
    storage (option SyncDevicePublicKeyRecord) :=
  if negb (is_valid_sync_identifier device_id) then sr_err (InvalidSyncDeviceId device_id)
  else query (fun db => db_public_keys db !! (profile, device_id)).

Definition sync_device_public_keys_in_transaction (profile : string) (db : ProfileDb) :
    list SyncDevicePublicKeyRecord :=
  btree_values (filter (fun kv => kv.1.1 = profile) (db_public_keys db)).

Definition sync_device_provider_authority_in_transaction (profile device_id : string) :
    storage bool :=
  if negb (is_valid_sync_identifier device_id) then sr_err (InvalidSyncDeviceId device_id)
  else query (fun db => match db_devices db !! (profile, device_id) with
                        | Some d => sd_provider_authority d
                        | None => false
                        end).

(** [.optional()?.ok_or_else(|| QueryReturnedNoRows)]. *)
Definition required_row {A} (row : option A) : storage A :=
  sr_lift (ok_or row (Database QueryReturnedNoRows)).

Definition register_sync_device_public_key_in_transaction
    (registration : SyncDevicePublicKeyRegistration) (now : Z) :
    storage SyncDevicePublicKeyRecord :=
  let profile := skr_profile registration in
  let device_id := pk_device_id (skr_public_key registration) in
  if negb (is_valid_sync_identifier device_id) then sr_err (InvalidSyncDeviceId device_id) else
  do* execute (fun db =>
    let created_at := match db_public_keys db !! (profile, device_id) with
                      | Some k => sk_created_at k
                      | None => now
                      end in
    set_db_public_keys (<[(profile, device_id) :=
      {| sk_profile := profile; sk_public_key := skr_public_key registration;
         sk_membership_epoch := skr_membership_epoch registration; sk_trusted := true;
         sk_created_at := created_at; sk_updated_at := now |}]> (db_public_keys db)) db) in
  do* record_sync_device_roster_entry_in_transaction profile device_id
        (skr_membership_epoch registration) now in
  let* row := sync_device_public_key_in_transaction profile device_id in
  required_row row.

Definition set_trusted (trusted : bool) (now : Z) (k : SyncDevicePublicKeyRecord) :
    SyncDevicePublicKeyRecord :=
  {| sk_profile := sk_profile k; sk_public_key := sk_public_key k;
     sk_membership_epoch := sk_membership_epoch k; sk_trusted := trusted;
     sk_created_at := sk_created_at k; sk_updated_at := now |}.

(** [UPDATE ... WHERE] updates no row when there is none, and the answer is
    [None]. *)
Definition set_sync_device_public_key_trusted_in_transaction
    (profile device_id : string) (trusted : bool) (now : Z) :
    storage (option SyncDevicePublicKeyRecord) :=
  if negb (is_valid_sync_identifier device_id) then sr_err (InvalidSyncDeviceId device_id) else
  let* row := query (fun db => db_public_keys db !! (profile, device_id)) in
  match row with
  | None => sr_ret None
  | Some _ =>
      do* execute (fun db =>
        set_db_public_keys
          (alter (set_trusted trusted now) (profile, device_id) (db_public_keys db)) db) in
      sync_device_public_key_in_transaction profile device_id
  end.

Definition register_sync_device_public_key (registration : SyncDevicePublicKeyRegistration)
    (now : Z) : storage SyncDevicePublicKeyRecord :=
  transaction (register_sync_device_public_key_in_transaction registration now).

Definition set_sync_device_public_key_trusted (profile device_id : string) (trusted : bool)
    (now : Z) : storage (option SyncDevicePublicKeyRecord) :=
  set_sync_device_public_key_trusted_in_transaction profile device_id trusted now.

Definition sync_device_public_key (profile device_id : string) :
    storage (option SyncDevicePublicKeyRecord) :=
  sync_device_public_key_in_transaction profile device_id.

Definition sync_device_public_keys (profile : string) (db : ProfileDb) :
    list SyncDevicePublicKeyRecord :=
  sync_device_public_keys_in_transaction profile db.

Definition sync_device_provider_authority (profile device_id : string) : storage bool :=
  sync_device_provider_authority_in_transaction profile device_id.

(** ** The record table *)

Definition sync_account_membership_record_in_transaction (profile record_id : string) :
    storage (option SyncAccountMembershipRecord) :=
  if negb (is_valid_sync_identifier record_id)
  then sr_err (InvalidSyncMembershipRecordId record_id)
  else query (fun db => db_membership db !! (profile, record_id)).

Definition sync_account_membership_record (profile record_id : string) :
    storage (option SyncAccountMembershipRecord) :=
  sync_account_membership_record_in_transaction profile record_id.

Definition sync_account_membership_record_count (profile : string) (db : ProfileDb) : Z :=
  Z.of_nat (size (filter (fun kv => kv.1.1 = profile) (db_membership db))).

(** [ORDER BY membership_epoch, record_id]. *)
Definition sync_account_membership_records (profile : string) (db : ProfileDb) :
    list SyncAccountMembershipRecord :=
  sort_by (key_cmp (fun r => (sm_membership_epoch r, sm_record_id r)))
    (btree_values (filter (fun kv => kv.1.1 = profile) (db_membership db))).

(** [INSERT OR IGNORE], then the row is read back and its bytes compared. *)
Definition record_sync_account_membership_record_in_transaction
    (registration : SyncAccountMembershipRecordRegistration) (now : Z) :
    storage SyncAccountMembershipRecord :=
  do* sr_lift (validate_sync_account_membership_registration registration) in
  let key := (smr_profile registration, smr_record_id registration) in
  do* execute (fun db =>
    match db_membership db !! key with
    | Some _ => db
    | None =>
        set_db_membership (<[key := {|
          sm_profile := smr_profile registration; sm_record_id := smr_record_id registration;
          sm_membership_epoch := smr_membership_epoch registration;
          sm_record_kind := smr_record_kind registration;
          sm_device_id := smr_device_id registration;
          sm_signer_device_id := smr_signer_device_id registration;
          sm_signed_record := smr_signed_record registration;
          sm_created_at := now; sm_applied_at := None |}]> (db_membership db)) db
    end) in
  let* row := sync_account_membership_record_in_transaction (smr_profile registration)
                (smr_record_id registration) in
  let* record := required_row row in
  if negb (str_eqb (sm_signed_record record) (smr_signed_record registration))
  then sr_lift (invalid_record ("membership record " +:+ smr_record_id registration
                                +:+ " already exists with different signed bytes"))
  else sr_ret record.

Definition record_sync_account_membership_record
    (registration : SyncAccountMembershipRecordRegistration) (now : Z) :
    storage SyncAccountMembershipRecord :=
  record_sync_account_membership_record_in_transaction registration now.

(** [SET applied_at = COALESCE(applied_at, now)]. *)
Definition set_applied (now : Z) (r : SyncAccountMembershipRecord) :
    SyncAccountMembershipRecord :=
  {| sm_profile := sm_profile r; sm_record_id := sm_record_id r;
     sm_membership_epoch := sm_membership_epoch r; sm_record_kind := sm_record_kind r;
     sm_device_id := sm_device_id r; sm_signer_device_id := sm_signer_device_id r;
     sm_signed_record := sm_signed_record r; sm_created_at := sm_created_at r;
     sm_applied_at := Some (default now (sm_applied_at r)) |}.

Definition mark_sync_account_membership_record_applied_in_transaction
    (profile record_id : string) (now : Z) : storage SyncAccountMembershipRecord :=
  let* row := query (fun db => db_membership db !! (profile, record_id)) in
  match row with
  | None => sr_err (Database QueryReturnedNoRows)
  | Some _ =>
      do* execute (fun db =>
        set_db_membership (alter (set_applied now) (profile, record_id) (db_membership db)) db) in
      let* row := sync_account_membership_record_in_transaction profile record_id in
      required_row row
  end.

(** [profile = ?1 AND device_id = ?2 AND applied_at IS NOT NULL]. *)
Definition applied_for (profile device_id : string) (r : SyncAccountMembershipRecord) : bool :=
  str_eqb (sm_profile r) profile && str_eqb (sm_device_id r) device_id
  && match sm_applied_at r with Some _ => true | None => false end.

Definition latest_applied_sync_account_membership_epoch_in_transaction
    (profile device_id : string) : storage (option Z) :=
  if negb (is_valid_sync_identifier device_id) then sr_err (InvalidSyncDeviceId device_id)
  else query (fun db => sql_max (map sm_membership_epoch
         (List.filter (applied_for profile device_id) (btree_values (db_membership db))))).

(** The rows come in [record_id] order: the first is the one of [LIMIT 1]. *)
Definition applied_sync_account_membership_record_for_device_epoch_in_transaction
    (profile device_id : string) (membership_epoch : Z) :
    storage (option SyncAccountMembershipRecord) :=
  if negb (is_valid_sync_identifier device_id) then sr_err (InvalidSyncDeviceId device_id)
  else query (fun db => list_find_bool (fun r => applied_for profile device_id r
                                                 && (sm_membership_epoch r =? membership_epoch))
         (btree_values (db_membership db))).

(** ** Guards *)

Definition reject_stale_sync_account_membership_record_in_transaction
    (record : ProfileSyncMembershipRecord) : storage unit :=
  let* latest := latest_applied_sync_account_membership_epoch_in_transaction
                   (mr_profile record) (mr_device_id record) in
  match latest with
  | None => sr_ret tt
  | Some latest_epoch =>
      if mr_membership_epoch record <? latest_epoch
      then sr_lift (invalid_record
             ("membership record " +:+ mr_record_id record +:+ " at epoch "
              +:+ show (mr_membership_epoch record) +:+ " is older than latest applied epoch "
              +:+ show latest_epoch +:+ " for device " +:+ mr_device_id record))
      else if mr_membership_epoch record =? latest_epoch
      then let* applied := applied_sync_account_membership_record_for_device_epoch_in_transaction
                             (mr_profile record) (mr_device_id record)
                             (mr_membership_epoch record) in
           match applied with
           | Some applied_record =>
               sr_lift (invalid_record
                 ("membership record " +:+ mr_record_id record
                  +:+ " conflicts with already-applied record " +:+ sm_record_id applied_record
                  +:+ " at epoch " +:+ show (mr_membership_epoch record) +:+ " for device "
                  +:+ mr_device_id record))
           | None => sr_ret tt
           end
      else sr_ret tt
  end.

Definition reject_invalid_sync_account_membership_transition_in_transaction
    (record : ProfileSyncMembershipRecord) : storage unit :=
  if str_eqb (mr_record_kind record) ENROLL_DEVICE
     || str_eqb (mr_record_kind record) ENROLL_PROVIDER
  then let* existing := sync_device_public_key_in_transaction (mr_profile record)
                          (mr_device_id record) in
       match existing with
       | Some existing_key =>
           if sk_trusted existing_key
           then sr_lift (invalid_record
                  (mr_record_kind record +:+ " record " +:+ mr_record_id record
                   +:+ " cannot replace already trusted device " +:+ mr_device_id record
                   +:+ "; use rotate-device-key"))
           else sr_ret tt
       | None => sr_ret tt
       end
  else if str_eqb (mr_record_kind record) ROTATE_DEVICE_KEY
  then let* existing := sync_device_public_key_in_transaction (mr_profile record)
                          (mr_device_id record) in
       match existing with
       | None => sr_lift (invalid_record
                   ("rotate-device-key record " +:+ mr_record_id record
                    +:+ " requires an existing trusted key for device " +:+ mr_device_id record))
       | Some existing_key =>
           if negb (sk_trusted existing_key)
           then sr_lift (invalid_record
                  ("rotate-device-key record " +:+ mr_record_id record
                   +:+ " cannot re-trust revoked device " +:+ mr_device_id record
                   +:+ "; use enroll-device"))
           else sr_ret tt
       end
  else sr_ret tt.

(** The first device of an account enrolls itself. *)
Definition bootstraps (known_keys : list SyncDevicePublicKeyRecord)
    (signed_object : SignedSyncObject) (record : ProfileSyncMembershipRecord) : bool :=
  match known_keys with [] => true | _ => false end
  && str_eqb (mr_record_kind record) ENROLL_DEVICE
  && str_eqb (mr_device_id record) (so_device_id signed_object)
  && match mr_device_public_key record with
     | Some public_key => str_eqb (pk_device_id public_key) (so_device_id signed_object)
                          && str_eqb (pk_bytes public_key) (so_public_key signed_object)
     | None => false
     end.

Definition record_sync_membership_device_in_transaction (record : ProfileSyncMembershipRecord)
    (now : Z) : storage unit :=
  if str_eqb (mr_record_kind record) ENROLL_DEVICE
  then record_sync_device_roster_entry_with_provider_authority_in_transaction
         (mr_profile record) (mr_device_id record) (mr_membership_epoch record) false now
  else if str_eqb (mr_record_kind record) ENROLL_PROVIDER
  then record_sync_device_roster_entry_with_provider_authority_in_transaction
         (mr_profile record) (mr_device_id record) (mr_membership_epoch record) true now
  else record_sync_device_roster_entry_in_transaction
         (mr_profile record) (mr_device_id record) (mr_membership_epoch record) now.

(** ** Roots *)

Definition PROFILE_SYNC_ROOT_KEY_PREFIX : string := "profile_sync.root.".

Record ProfileSyncRootRegistration := {
  prr_profile : string;
  prr_root_id : string;
  prr_object_id : string
}.

Definition profile_sync_root_key (root_id : string) : string :=
  PROFILE_SYNC_ROOT_KEY_PREFIX +:+ root_id.

Definition profile_sync_root_id_from_key (key : string) : result SqlError string :=
  match strip_prefix PROFILE_SYNC_ROOT_KEY_PREFIX key with
  | Some root_id =>
      if is_empty root_id
      then Err (FromSqlConversionFailure 1 TypeText "malformed profile sync root key")
      else Ok root_id
  | None => Err (FromSqlConversionFailure 1 TypeText "malformed profile sync root key")
  end.

Definition profile_sync_root_record_from_row (row : string * string * (string * Z)) :
    result SqlError ProfileSyncRootRecord :=
  let '(profile, key, (value, updated_at)) := row in
  let? root_id := profile_sync_root_id_from_key key in
  Ok {| pr_profile := profile; pr_root_id := root_id; pr_object_id := value;
        pr_updated_at := updated_at |}.

Definition set_profile_sync_root_in_transaction (profile root_id object_id : string) (now : Z) :
    storage ProfileSyncRootRecord :=
  if is_empty root_id then sr_err (InvalidSyncRootId root_id) else
  do* execute (fun db =>
        set_db_state (<[(profile, profile_sync_root_key root_id) := (object_id, now)]>
                        (db_state db)) db) in
  sr_ret {| pr_profile := profile; pr_root_id := root_id; pr_object_id := object_id;
            pr_updated_at := now |}.

Definition set_profile_sync_root (profile root_id object_id : string) (now : Z) :
    storage ProfileSyncRootRecord :=
  transaction (set_profile_sync_root_in_transaction profile root_id object_id now).

Fixpoint set_profile_sync_roots_in_transaction (roots : list ProfileSyncRootRegistration)
    (now : Z) : storage (list ProfileSyncRootRecord) :=
  match roots with
  | [] => sr_ret []
  | root :: roots =>
      let* record := set_profile_sync_root_in_transaction (prr_profile root) (prr_root_id root)
                       (prr_object_id root) now in
      let* records := set_profile_sync_roots_in_transaction roots now in
      sr_ret (record :: records)
  end.

Definition set_profile_sync_roots (roots : list ProfileSyncRootRegistration) (now : Z) :
    storage (list ProfileSyncRootRecord) :=
  transaction (set_profile_sync_roots_in_transaction roots now).

Definition profile_sync_root (profile root_id : string) :
    storage (option ProfileSyncRootRecord) :=
  if is_empty root_id then sr_err (InvalidSyncRootId root_id) else
  let key := profile_sync_root_key root_id in
  let* row := query (fun db => db_state db !! (profile, key)) in
  match row with
  | None => sr_ret None
  | Some row =>
      let* record := sr_lift (map_err Database
                       (profile_sync_root_record_from_row (profile, key, row))) in
      sr_ret (Some record)
  end.

(** [key LIKE 'prefix%']: ASCII letters match in either case, and [_] matches any
    character (the prefix holds no [%]). *)
Fixpoint like_prefix (pattern s : string) : bool :=
  match pattern, s with
  | EmptyString, _ => true
  | String p pattern, String c s =>
      (Ascii.eqb p "_" || Ascii.eqb (byte_to_ascii_lowercase p) (byte_to_ascii_lowercase c))
      && like_prefix pattern s
  | String _ _, EmptyString => false
  end.

Definition profile_sync_roots (profile : string) : storage (list ProfileSyncRootRecord) :=
  let* rows := query (fun db =>
    btree_iter (filter (fun kv => kv.1.1 = profile
                                  /\ like_prefix PROFILE_SYNC_ROOT_KEY_PREFIX kv.1.2 = true)
                  (db_state db))) in
  sr_lift (map_err Database (collect_results profile_sync_root_record_from_row rows)).

(** ** Application *)

Section Application.
Context (codec : SyncCodec).

Definition sync_object_record {A} (r : result SyncObjectError A) : result StorageError A :=
  map_err (fun error => InvalidProfileSyncMembershipRecord (sync_object_error_to_string error)) r.

Definition decode_signed_profile_sync_membership_record (signed_record : string) :
    result StorageError (SignedSyncObject * ProfileSyncMembershipRecord) :=
  let? signed_object := sync_object_record (signed_from_bytes codec signed_record) in
  if negb (is_valid_sync_identifier (so_device_id signed_object))
  then Err (InvalidSyncDeviceId (so_device_id signed_object)) else
  let signer_public_key := {| pk_device_id := so_device_id signed_object;
                              pk_bytes := so_public_key signed_object |} in
  let? payload := sync_object_record (verify_with codec signed_object signer_public_key) in
  let? membership_record := sync_object_record (membership_from_bytes codec payload) in
  check? validate_profile_sync_membership_record membership_record in
  Ok (signed_object, membership_record).

Definition authorize_sync_account_membership_record_in_transaction
    (signed_object : SignedSyncObject) (record : ProfileSyncMembershipRecord) : storage bool :=
  let* known_keys := query (sync_device_public_keys_in_transaction (mr_profile record)) in
  if bootstraps known_keys signed_object record then sr_ret true else
  let* key := sync_device_public_key_in_transaction (mr_profile record)
                (so_device_id signed_object) in
  match key with
  | Some trusted_signer =>
      if negb (sk_trusted trusted_signer)
      then sr_err (UntrustedSyncMembershipSigner (mr_profile record) (so_device_id signed_object))
      else
      let* provider_authority := sync_device_provider_authority_in_transaction
                                   (mr_profile record) (so_device_id signed_object) in
      if provider_authority : bool
      then sr_lift (invalid_record
             ("membership signer " +:+ so_device_id signed_object +:+ " is marked as provider "
              +:+ "authority and cannot authorize account membership records"))
      else if mr_membership_epoch record <? sk_membership_epoch trusted_signer
      then sr_lift (invalid_record
             ("membership signer " +:+ so_device_id signed_object +:+ " was trusted at epoch "
              +:+ show (sk_membership_epoch trusted_signer) +:+ ", after membership record epoch "
              +:+ show (mr_membership_epoch record)))
      else
      do* sr_lift (sync_object_record
                     (verify_with codec signed_object (sk_public_key trusted_signer))) in
      sr_ret false
  | None => sr_err (UntrustedSyncMembershipSigner (mr_profile record) (so_device_id signed_object))
  end.

Definition registration_of (signed_object : SignedSyncObject)
    (record : ProfileSyncMembershipRecord) (signed_record : string) :
    SyncAccountMembershipRecordRegistration :=
  {| smr_profile := mr_profile record; smr_record_id := mr_record_id record;
     smr_membership_epoch := mr_membership_epoch record; smr_record_kind := mr_record_kind record;
     smr_device_id := mr_device_id record; smr_signer_device_id := so_device_id signed_object;
     smr_signed_record := signed_record |}.

(** The match of the application on the kind of the record. *)
Definition apply_record_kind (record : ProfileSyncMembershipRecord) (now : Z) :
    storage (option SyncDevicePublicKeyRecord) :=
  if carries_public_key (mr_record_kind record)
  then let* public_key := sr_lift (ok_or (mr_device_public_key record)
         (InvalidProfileSyncMembershipRecord
            (mr_record_kind record +:+ " requires a device public key"))) in
       let* key := register_sync_device_public_key_in_transaction
         {| skr_profile := mr_profile record; skr_public_key := public_key;
            skr_membership_epoch := mr_membership_epoch record |} now in
       sr_ret (Some key)
  else if str_eqb (mr_record_kind record) REVOKE_DEVICE
  then set_sync_device_public_key_trusted_in_transaction (mr_profile record)
         (mr_device_id record) false now
  else sr_err (InvalidSyncMembershipRecordKind (mr_record_kind record)).

(** From the stale check on: the record is new, or stored and not applied. *)
Definition apply_new_membership_record (signed_object : SignedSyncObject)
    (record : ProfileSyncMembershipRecord) (signed_record : string) (bootstrapped : bool)
    (now : Z) : storage SyncAccountMembershipRecordApplication :=
  do* reject_stale_sync_account_membership_record_in_transaction record in
  do* reject_invalid_sync_account_membership_transition_in_transaction record in
  let* stored_record := record_sync_account_membership_record_in_transaction
                          (registration_of signed_object record signed_record) now in
  let* device_key := apply_record_kind record now in
  do* record_sync_membership_device_in_transaction record now in
  let* applied_record := mark_sync_account_membership_record_applied_in_transaction
                           (sm_profile stored_record) (sm_record_id stored_record) now in
  sr_ret {| ma_membership_record := applied_record; ma_device_key := device_key;
            ma_bootstrapped := bootstrapped; ma_applied := true |}.

Definition apply_decoded_sync_account_membership_record_in_transaction
    (signed_object : SignedSyncObject) (record : ProfileSyncMembershipRecord)
    (signed_record : string) (now : Z) : storage SyncAccountMembershipRecordApplication :=
  let* bootstrapped := authorize_sync_account_membership_record_in_transaction
                         signed_object record in
  let* existing := sync_account_membership_record_in_transaction (mr_profile record)
                     (mr_record_id record) in
  match existing with
  | Some existing_record =>
      if negb (str_eqb (sm_signed_record existing_record) signed_record)
      then sr_lift (invalid_record ("membership record " +:+ mr_record_id record
                                    +:+ " already exists with different signed bytes"))
      else match sm_applied_at existing_record with
           | Some _ =>
               let* device_key := sync_device_public_key_in_transaction
                 (sm_profile existing_record) (sm_device_id existing_record) in
               sr_ret {| ma_membership_record := existing_record; ma_device_key := device_key;
                         ma_bootstrapped := bootstrapped; ma_applied := false |}
           | None => apply_new_membership_record signed_object record signed_record
                       bootstrapped now
           end
  | None => apply_new_membership_record signed_object record signed_record bootstrapped now
  end.

(** The loop of the batch over the decoded records. *)
Fixpoint apply_decoded_records
    (records : list (string * (SignedSyncObject * ProfileSyncMembershipRecord))) (now : Z) :
    storage (list SyncAccountMembershipRecordApplication) :=
  match records with
  | [] => sr_ret []
  | (signed_record, (signed_object, record)) :: records =>
      let* application := apply_decoded_sync_account_membership_record_in_transaction
                            signed_object record signed_record now in
      let* applications := apply_decoded_records records now in
      sr_ret (application :: applications)
  end.

Definition apply_signed_sync_account_membership_records (signed_records : list string)
    (now : Z) : storage (list SyncAccountMembershipRecordApplication) :=
  let* decoded_records := sr_lift
    (collect_results decode_signed_profile_sync_membership_record signed_records) in
  transaction (apply_decoded_records (zip signed_records decoded_records) now).

(** [Vec::pop] of the applications. *)
Definition pop_application (applications : list SyncAccountMembershipRecordApplication) :
    storage SyncAccountMembershipRecordApplication :=
  required_row (last applications).

Definition apply_signed_sync_account_membership_record (signed_record : string) (now : Z) :
    storage SyncAccountMembershipRecordApplication :=
  let* applications := apply_signed_sync_account_membership_records [signed_record] now in
  pop_application applications.

Definition record_signed_sync_account_membership_record (signed_record : string) (now : Z) :
    storage SyncAccountMembershipRecord :=
  let* decoded := sr_lift (decode_signed_profile_sync_membership_record signed_record) in
  record_sync_account_membership_record
    (registration_of (fst decoded) (snd decoded) signed_record) now.

Definition apply_signed_sync_account_membership_records_and_set_profile_sync_root
    (profile root_id object_id : string) (signed_records : list string) (now : Z) :
    storage (ProfileSyncRootRecord * list SyncAccountMembershipRecordApplication) :=
  let* decoded_records := sr_lift
    (collect_results decode_signed_profile_sync_membership_record signed_records) in
  transaction
    (let* applications := apply_decoded_records (zip signed_records decoded_records) now in
     let* root := set_profile_sync_root_in_transaction profile root_id object_id now in
     sr_ret (root, applications)).

Definition apply_signed_sync_account_membership_record_and_set_profile_sync_root
    (profile root_id object_id signed_record : string) (now : Z) :
    storage (ProfileSyncRootRecord * SyncAccountMembershipRecordApplication) :=
  let* applied := apply_signed_sync_account_membership_records_and_set_profile_sync_root
                    profile root_id object_id [signed_record] now in
  let* application := pop_application (snd applied) in
  sr_ret (fst applied, application).

(** ** Enrollment bundles *)

(** The loop over the records of a bundle: whether one of them enrolls or rotates
    the target. *)
Fixpoint check_bundle_records (bundle : ProfileSyncEnrollmentBundle)
    (signed_records : list string) (target_record_seen : bool) : result StorageError bool :=
  match signed_records with
  | [] => Ok target_record_seen
  | signed_record :: signed_records =>
      let? decoded := decode_signed_profile_sync_membership_record signed_record in
      let membership_record := snd decoded in
      if negb (str_eqb (mr_profile membership_record) (eb_profile bundle))
      then Err (InvalidProfileSyncEnrollmentBundle
                  ("membership record " +:+ mr_record_id membership_record
                   +:+ " belongs to profile " +:+ mr_profile membership_record
                   +:+ ", not bundle profile " +:+ eb_profile bundle))
      else check_bundle_records bundle signed_records
             (target_record_seen
              || (str_eqb (mr_device_id membership_record) (eb_target_device_id bundle)
                  && (str_eqb (mr_record_kind membership_record) ENROLL_DEVICE
                      || str_eqb (mr_record_kind membership_record) ROTATE_DEVICE_KEY)))
  end.

Definition validate_profile_sync_enrollment_bundle (bundle : ProfileSyncEnrollmentBundle) :
    result StorageError unit :=
  if negb (eb_schema_version bundle =? PROFILE_SYNC_ENROLLMENT_BUNDLE_SCHEMA_VERSION)
  then Err (UnsupportedProfileSyncEnrollmentBundleSchema (eb_schema_version bundle))
  else if is_empty (eb_profile bundle)
  then Err (InvalidProfileSyncEnrollmentBundle "bundle profile must not be empty")
  else if negb (is_valid_sync_identifier (eb_target_device_id bundle))
  then Err (InvalidSyncDeviceId (eb_target_device_id bundle))
  else
  let records := eb_signed_membership_records bundle in
  let count := Z.of_nat (length records) in
  if count =? 0
  then Err (InvalidProfileSyncEnrollmentBundle
              "bundle must contain at least one signed membership record")
  else if DEFAULT_PROFILE_SYNC_ENROLLMENT_BUNDLE_MAX_RECORDS <? count
  then Err (InvalidProfileSyncEnrollmentBundle
              ("bundle has " +:+ show count +:+ " signed membership records, exceeding max "
               +:+ show DEFAULT_PROFILE_SYNC_ENROLLMENT_BUNDLE_MAX_RECORDS))
  else
  let? target_record_seen := check_bundle_records bundle records false in
  if negb target_record_seen
  then Err (InvalidProfileSyncEnrollmentBundle
              ("bundle does not include an enrollment or key-rotation record for target device "
               +:+ eb_target_device_id bundle))
  else Ok tt.

Definition new_device_enrollment (profile target_device_id : string)
    (signed_membership_records : list string) (created_at : Z) :
    result StorageError ProfileSyncEnrollmentBundle :=
  let bundle := {| eb_profile := profile;
                   eb_schema_version := PROFILE_SYNC_ENROLLMENT_BUNDLE_SCHEMA_VERSION;
                   eb_target_device_id := target_device_id; eb_created_at := created_at;
                   eb_signed_membership_records := signed_membership_records |} in
  check? validate_profile_sync_enrollment_bundle bundle in
  Ok bundle.

Definition apply_profile_sync_enrollment_bundle (local_device : string)
    (bundle : ProfileSyncEnrollmentBundle) (now : Z) :
    storage (list SyncAccountMembershipRecordApplication) :=
  do* sr_lift (validate_profile_sync_enrollment_bundle bundle) in
  if negb (str_eqb (eb_target_device_id bundle) local_device)
  then sr_err (InvalidProfileSyncEnrollmentBundle
                 ("bundle targets device " +:+ eb_target_device_id bundle
                  +:+ ", but this database is for device " +:+ local_device))
  else apply_signed_sync_account_membership_records (eb_signed_membership_records bundle) now.
End Application.
