(* ===== verification/MembershipLaws.v ===== *)
(** * The laws of account membership

    What a membership record needs to be applied, what applying it changes, and
    the invariant that ties the roster of device keys to the stored records: the
    key a device is trusted with is the one of the latest record applied to it. *)
From S2P Require Import Prelude RustStr AppViews Database SyncObjects SyncStore Membership.

(** ** The stored records *)

(** [r] is a stored record, applied, of a device. *)
Definition applied_row (db : ProfileDb) (profile device_id : string)
    (r : SyncAccountMembershipRecord) : Prop :=
  (exists key, db_membership db !! key = Some r) /\ applied_for profile device_id r = true.

(** Nothing as recent was applied to the device of [record]. *)
Definition fresh (db : ProfileDb) (record : ProfileSyncMembershipRecord) : Prop :=
  forall r, applied_row db (mr_profile record) (mr_device_id record) r ->
    sm_membership_epoch r < mr_membership_epoch record.

(** The key of a device, when it is trusted. *)
Definition trusted_key (db : ProfileDb) (profile device_id : string) :
    option SyncDevicePublicKeyRecord :=
  match db_public_keys db !! (profile, device_id) with
  | Some k => if sk_trusted k then Some k else None
  | None => None
  end.

(** Enrolling needs a device without a trusted key, rotating one with. *)
Definition permitted (db : ProfileDb) (record : ProfileSyncMembershipRecord) : Prop :=
  ((mr_record_kind record = ENROLL_DEVICE \/ mr_record_kind record = ENROLL_PROVIDER) ->
     trusted_key db (mr_profile record) (mr_device_id record) = None) /\
  (mr_record_kind record = ROTATE_DEVICE_KEY ->
     is_Some (trusted_key db (mr_profile record) (mr_device_id record))).

Definition provider_authority_of (db : ProfileDb) (profile device_id : string) : bool :=
  match db_devices db !! (profile, device_id) with
  | Some d => sd_provider_authority d
  | None => false
  end.

(** A record that enrolls the first device of a profile, signed with its own key. *)
Definition bootstrap_record (db : ProfileDb) (signed_object : SignedSyncObject)
    (record : ProfileSyncMembershipRecord) : Prop :=
  (forall device_id, db_public_keys db !! (mr_profile record, device_id) = None) /\
  mr_record_kind record = ENROLL_DEVICE /\ mr_device_id record = so_device_id signed_object /\
  mr_device_public_key record = Some {| pk_device_id := so_device_id signed_object;
                                        pk_bytes := so_public_key signed_object |}.

(** The signer holds a trusted key, no younger than the record, and is no storage
    provider. *)
Definition trusted_signer (db : ProfileDb) (signed_object : SignedSyncObject)
    (record : ProfileSyncMembershipRecord) : Prop :=
  exists k, trusted_key db (mr_profile record) (so_device_id signed_object) = Some k /\
    sk_public_key k = {| pk_device_id := so_device_id signed_object;
                         pk_bytes := so_public_key signed_object |} /\
    sk_membership_epoch k <= mr_membership_epoch record /\
    provider_authority_of db (mr_profile record) (so_device_id signed_object) = false.

Definition authorised (db : ProfileDb) (signed_object : SignedSyncObject)
    (record : ProfileSyncMembershipRecord) (bootstrapped : bool) : Prop :=
  if bootstrapped then bootstrap_record db signed_object record
  else ~ bootstrap_record db signed_object record /\ trusted_signer db signed_object record.

(** ** Reading the tables *)

Lemma elem_of_btree_values {K V} `{Countable K} `{!RustOrd K, !RustOrdLaws K}
    (m : gmap K V) v : v ∈ btree_values m <-> exists k, m !! k = Some v.
Proof.
  unfold btree_values. rewrite list_elem_of_fmap. split.
  - intros ([k v'] & -> & Hin). exists k. by apply elem_of_btree_iter.
  - intros [k Hk]. exists (k, v). by rewrite elem_of_btree_iter.
Qed.

Lemma applied_for_spec profile device_id r :
  applied_for profile device_id r = true <->
  sm_profile r = profile /\ sm_device_id r = device_id /\ is_Some (sm_applied_at r).
Proof.
  unfold applied_for. rewrite !andb_true_iff, !str_eqb_eq.
  destruct (sm_applied_at r); naive_solver.
Qed.

Lemma elem_of_applied db profile device_id r :
  In r (List.filter (applied_for profile device_id) (btree_values (db_membership db))) <->
  applied_row db profile device_id r.
Proof.
  unfold applied_row. rewrite filter_In, <-list_elem_of_In, elem_of_btree_values. done.
Qed.

Lemma profile_keys_nil db profile :
  sync_device_public_keys_in_transaction profile db = [] <->
  forall device_id, db_public_keys db !! (profile, device_id) = None.
Proof.
  unfold sync_device_public_keys_in_transaction. split.
  - intros Hnil device_id. apply eq_None_not_Some. intros [k Hk].
    assert (k ∈ btree_values (filter (fun kv => kv.1.1 = profile) (db_public_keys db))) as Hin.
    { apply elem_of_btree_values. exists (profile, device_id). by apply map_lookup_filter_Some. }
    rewrite Hnil in Hin. by apply not_elem_of_nil in Hin.
  - intros Hnone. destruct (btree_values _) as [|k l] eqn:E; [reflexivity|].
    assert (k ∈ btree_values (filter (fun kv => kv.1.1 = profile) (db_public_keys db))) as Hin.
    { rewrite E. left. }
    apply elem_of_btree_values in Hin as [[p d] Hk].
    apply map_lookup_filter_Some in Hk as [Hk Hp]. simpl in Hp. subst p. by rewrite Hnone in Hk.
Qed.

Lemma trusted_key_Some db profile device_id k :
  trusted_key db profile device_id = Some k <->
  db_public_keys db !! (profile, device_id) = Some k /\ sk_trusted k = true.
Proof.
  unfold trusted_key. destruct (db_public_keys db !! _) as [k'|]; [|by split; [|intros []]].
  destruct (sk_trusted k') eqn:E; split; [by intros [= <-]|by intros [[= <-] _]|done|].
  intros [[= <-] Ht]. congruence.
Qed.

(** ** Decoding *)

(** What [validate_profile_sync_membership_record] establishes. *)
Definition valid_record (record : ProfileSyncMembershipRecord) : Prop :=
  1 <= mr_membership_epoch record /\ is_valid_sync_identifier (mr_record_id record) = true /\
  is_valid_sync_identifier (mr_device_id record) = true /\
  is_valid_profile_sync_membership_record_kind (mr_record_kind record) = true /\
  if carries_public_key (mr_record_kind record)
  then exists pk, mr_device_public_key record = Some pk /\ pk_device_id pk = mr_device_id record
  else mr_record_kind record = REVOKE_DEVICE.

Lemma validate_record_Ok record u :
  validate_profile_sync_membership_record record = Ok u -> valid_record record.
Proof.
  unfold validate_profile_sync_membership_record, validate_membership_record_public_key,
    valid_record, invalid_record.
  destruct (negb _); [done|]. destruct (Z.ltb_spec (mr_membership_epoch record) 1); [done|].
  destruct (is_valid_sync_identifier (mr_record_id record)); [|done].
  destruct (is_valid_sync_identifier (mr_device_id record)); [|done].
  destruct (is_valid_profile_sync_membership_record_kind _); [|done]. simpl.
  destruct (carries_public_key _).
  - destruct (mr_device_public_key record) as [pk|]; [|done].
    destruct (is_valid_sync_identifier (pk_device_id pk)); [|done].
    destruct (str_eqb (pk_device_id pk) _) eqn:E; [|done]. apply str_eqb_eq in E.
    intros _. eauto 10.
  - destruct (str_eqb _ _) eqn:E; [|done]. apply str_eqb_eq in E. done.
Qed.

Lemma decode_Ok codec s so record :
  decode_signed_profile_sync_membership_record codec s = Ok (so, record) ->
  valid_record record /\ is_valid_sync_identifier (so_device_id so) = true /\
  so_version so = SYNC_OBJECT_VERSION /\
  ed25519_verify codec (so_public_key so) (so_payload so) (so_signature so) = true /\
  membership_record_from_slice codec (so_payload so) = Ok record.
Proof.
  unfold decode_signed_profile_sync_membership_record, sync_object_record, membership_from_bytes.
  destruct (signed_from_bytes codec s) as [so'|]; simpl; [|done].
  destruct (is_valid_sync_identifier (so_device_id so')) eqn:Hid; simpl; [|done].
  destruct (verify_with codec so' _) as [payload|] eqn:Hv; simpl; [|done].
  apply verify_with_Ok in Hv as (Hver & _ & _ & -> & Hsig).
  destruct (membership_record_from_slice codec _) as [record'|] eqn:Hr; simpl; [|done].
  destruct (validate_profile_sync_membership_record record') eqn:Hval; [|done].
  intros [= -> ->]. eauto 10 using validate_record_Ok.
Qed.

(** ** The guards *)

Lemma bootstraps_spec db so record :
  bootstraps (sync_device_public_keys_in_transaction (mr_profile record) db) so record = true <->
  bootstrap_record db so record.
Proof.
  unfold bootstraps, bootstrap_record. rewrite !andb_true_iff, !str_eqb_eq, <-profile_keys_nil.
  assert (match mr_device_public_key record with
          | Some pk => str_eqb (pk_device_id pk) (so_device_id so)
                       && str_eqb (pk_bytes pk) (so_public_key so)
          | None => false end = true <->
          mr_device_public_key record = Some {| pk_device_id := so_device_id so;
                                                pk_bytes := so_public_key so |}) as ->.
  { destruct (mr_device_public_key record) as [[d b]|]; [|naive_solver].
    rewrite andb_true_iff, !str_eqb_eq. simpl. naive_solver. }
  destruct (sync_device_public_keys_in_transaction _ _); naive_solver.
Qed.

(** The authorisation only reads the database. *)
Lemma authorize_spec codec s so record db db' b :
  decode_signed_profile_sync_membership_record codec s = Ok (so, record) ->
  authorize_sync_account_membership_record_in_transaction codec so record db = (db', Ok b) <->
  db' = db /\ authorised db so record b.
Proof.
  intros (_ & Hid & Hver & Hsig & _)%decode_Ok. unfold authorised.
  unfold authorize_sync_account_membership_record_in_transaction, sr_bind, query.
  destruct (bootstraps _ _ _) eqn:Hb.
  { apply bootstraps_spec in Hb. unfold sr_ret. destruct b; naive_solver. }
  assert (~ bootstrap_record db so record) as Hnb by (rewrite <-bootstraps_spec, Hb; done).
  unfold sync_device_public_key_in_transaction, sync_device_provider_authority_in_transaction,
    trusted_signer, trusted_key, provider_authority_of.
  rewrite Hid. simpl. unfold query.
  destruct (db_public_keys db !! (mr_profile record, so_device_id so)) as [k|];
    [|unfold sr_err; destruct b; naive_solver].
  destruct (sk_trusted k) eqn:Ht; simpl; [|unfold sr_err; destruct b; naive_solver].
  destruct (match db_devices db !! _ with Some d => _ | None => false end) eqn:Hp.
  { unfold sr_lift, invalid_record. destruct b; naive_solver. }
  destruct (Z.ltb_spec (mr_membership_epoch record) (sk_membership_epoch k)).
  { unfold sr_lift, invalid_record. destruct b; [naive_solver|].
    split; [done|]. intros (_ & _ & k' & [= <-] & _ & ? & _). lia. }
  unfold sr_lift, sync_object_record.
  destruct (verify_with codec so (sk_public_key k)) as [payload|e] eqn:Hv; simpl.
  - apply verify_with_Ok in Hv as (_ & Hpd & Hpb & _). unfold sr_ret.
    assert (sk_public_key k = {| pk_device_id := so_device_id so; pk_bytes := so_public_key so |})
      by (destruct (sk_public_key k); simpl in *; congruence).
    destruct b; [naive_solver|]. split; [|naive_solver].
    intros [= <-]. split; [done|]. split; [done|]. by exists k.
  - split; [done|]. intros [-> Ha]. destruct b; [naive_solver|].
    destruct Ha as (_ & k' & [= <-] & Hk & _). exfalso.
    assert (verify_with codec so (sk_public_key k) = Ok (so_payload so)) as H'.
    { apply verify_with_Ok. rewrite Hk. simpl. done. }
    congruence.
Qed.

(** [MAX(membership_epoch)] is below the record exactly when it is fresh. *)
Lemma stale_spec db db' record u :
  is_valid_sync_identifier (mr_device_id record) = true ->
  reject_stale_sync_account_membership_record_in_transaction record db = (db', Ok u) <->
  db' = db /\ fresh db record.
Proof.
  intros Hid. unfold reject_stale_sync_account_membership_record_in_transaction,
    latest_applied_sync_account_membership_epoch_in_transaction,
    applied_sync_account_membership_record_for_device_epoch_in_transaction, sr_bind.
  rewrite Hid. simpl. unfold query. destruct u.
  set (l := List.filter _ _). destruct (sql_max (map sm_membership_epoch l)) as [latest|] eqn:Hm.
  - apply sql_max_Some in Hm as [Hin Hle]. apply list_elem_of_fmap in Hin as (r & -> & Hr).
    assert (applied_row db (mr_profile record) (mr_device_id record) r) as Hrow
      by (apply elem_of_applied; by apply list_elem_of_In).
    destruct (Z.ltb_spec (mr_membership_epoch record) (sm_membership_epoch r)).
    { split; [done|]. intros [_ Hf]. specialize (Hf r Hrow). lia. }
    destruct (Z.eqb_spec (mr_membership_epoch record) (sm_membership_epoch r)) as [He|He].
    + split; [|intros [_ Hf]; specialize (Hf r Hrow); lia].
      destruct (list_find_bool _ _) eqn:Hfind; [done|]. exfalso.
      rewrite list_find_bool_None in Hfind.
      assert (r ∈ btree_values (db_membership db)) as Hr' by (apply elem_of_btree_values, Hrow).
      specialize (Hfind r Hr'). simpl in Hfind.
      rewrite (proj2 Hrow), He, Z.eqb_refl in Hfind. done.
    + unfold sr_ret. split; [|by intros [-> _]]. intros [= <-]. split; [done|].
      intros r' Hr'. enough (sm_membership_epoch r' <= sm_membership_epoch r) by lia.
      apply Hle, list_elem_of_fmap. exists r'. split; [done|].
      by apply list_elem_of_In, elem_of_applied.
  - apply sql_max_None, map_eq_nil in Hm. unfold sr_ret.
    split; [|by intros [-> _]]. intros [= <-]. split; [done|].
    intros r Hr%elem_of_applied. fold l in Hr. by rewrite Hm in Hr.
Qed.

Lemma kind_cases record :
  is_valid_profile_sync_membership_record_kind (mr_record_kind record) = true ->
  (mr_record_kind record = ENROLL_DEVICE /\ carries_public_key (mr_record_kind record) = true) \/
  (mr_record_kind record = ENROLL_PROVIDER /\ carries_public_key (mr_record_kind record) = true) \/
  (mr_record_kind record = REVOKE_DEVICE /\ carries_public_key (mr_record_kind record) = false) \/
  (mr_record_kind record = ROTATE_DEVICE_KEY /\ carries_public_key (mr_record_kind record) = true).
Proof.
  unfold is_valid_profile_sync_membership_record_kind. rewrite !orb_true_iff, !str_eqb_eq.
  intros [[[->| ->]| ->]| ->]; auto 10.
Qed.

Lemma transition_spec db db' record u :
  valid_record record ->
  reject_invalid_sync_account_membership_transition_in_transaction record db = (db', Ok u) <->
  db' = db /\ permitted db record.
Proof.
  intros (_ & _ & Hid & Hk & _). destruct u.
  unfold reject_invalid_sync_account_membership_transition_in_transaction, permitted,
    sync_device_public_key_in_transaction, sr_bind, trusted_key.
  rewrite Hid. simpl. unfold query, sr_ret, sr_lift, invalid_record.
  destruct (kind_cases record Hk) as [[-> _]|[[-> _]|[[-> _]|[-> _]]]]; simpl.
  3: { split; [intros [= <-]|by intros [-> _]]. split; [done|]. split; [by intros []|done]. }
  all: destruct (db_public_keys db !! _) as [k|]; [destruct (sk_trusted k)|].
  all: try (split; [discriminate|]; intros [_ [H1 H2]]; exfalso;
            first [by destruct (H2 eq_refl) | by specialize (H1 ltac:(auto))]).
  all: try (split; [|by intros [-> _]]; intros [= <-]; split; [done|]; split;
           [by intros []|first [discriminate|by eauto]]).
Qed.

(** ** The writes *)

(** The row [INSERT OR IGNORE] leaves for a registration. *)
Definition new_row (registration : SyncAccountMembershipRecordRegistration) (now : Z) :
    SyncAccountMembershipRecord :=
  {| sm_profile := smr_profile registration; sm_record_id := smr_record_id registration;
     sm_membership_epoch := smr_membership_epoch registration;
     sm_record_kind := smr_record_kind registration; sm_device_id := smr_device_id registration;
     sm_signer_device_id := smr_signer_device_id registration;
     sm_signed_record := smr_signed_record registration; sm_created_at := now;
     sm_applied_at := None |}.

Definition stored_row (db : ProfileDb) (registration : SyncAccountMembershipRecordRegistration)
    (now : Z) : SyncAccountMembershipRecord :=
  default (new_row registration now)
    (db_membership db !! (smr_profile registration, smr_record_id registration)).

Lemma record_spec db db' registration now r :
  validate_sync_account_membership_registration registration = Ok tt ->
  record_sync_account_membership_record_in_transaction registration now db = (db', Ok r) <->
  r = stored_row db registration now /\ sm_signed_record r = smr_signed_record registration /\
  db' = set_db_membership
          (<[(smr_profile registration, smr_record_id registration) := r]> (db_membership db)) db.
Proof.
  intros Hval. unfold record_sync_account_membership_record_in_transaction, sr_bind at 1, sr_lift.
  rewrite Hval. unfold sr_bind, execute.
  assert (is_valid_sync_identifier (smr_record_id registration) = true) as Hid.
  { revert Hval. unfold validate_sync_account_membership_registration.
    destruct (_ <? _); [done|]. by destruct (is_valid_sync_identifier _). }
  unfold sync_account_membership_record_in_transaction. rewrite Hid. simpl.
  unfold query, required_row, sr_lift, stored_row, invalid_record, sr_ret.
  set (key := (smr_profile registration, smr_record_id registration)).
  destruct (db_membership db !! key) as [r0|] eqn:E; simpl.
  - rewrite E. simpl. destruct (str_eqb _ _) eqn:Hs; simpl;
      [apply str_eqb_eq in Hs|apply str_eqb_neq in Hs; naive_solver].
    assert (set_db_membership (<[key := r0]> (db_membership db)) db = db) as Heq.
    { rewrite insert_id by done. by destruct db. }
    split; [intros [= <- <-]; by rewrite Heq|]. intros (-> & _ & ->). by rewrite Heq.
  - fold (new_row registration now). rewrite lookup_insert_eq. simpl.
    rewrite str_eqb_refl. simpl. naive_solver.
Qed.

(** ** What an applied record changes *)

(** The key of the device after a record: replaced and trusted, or revoked. *)
Definition keys_after (db : ProfileDb) (record : ProfileSyncMembershipRecord) (now : Z) :
    gmap (string * string) SyncDevicePublicKeyRecord :=
  let key := (mr_profile record, mr_device_id record) in
  match mr_device_public_key record with
  | Some public_key =>
      if carries_public_key (mr_record_kind record)
      then <[key := {| sk_profile := mr_profile record; sk_public_key := public_key;
                       sk_membership_epoch := mr_membership_epoch record; sk_trusted := true;
                       sk_created_at := match db_public_keys db !! key with
                                        | Some k => sk_created_at k
                                        | None => now
                                        end;
                       sk_updated_at := now |}]> (db_public_keys db)
      else alter (set_trusted false now) key (db_public_keys db)
  | None => alter (set_trusted false now) key (db_public_keys db)
  end.

(** The authority a record sets: enrollments do, the other kinds keep it. *)
Definition authority_set (record_kind : string) : option bool :=
  if str_eqb record_kind ENROLL_DEVICE then Some false
  else if str_eqb record_kind ENROLL_PROVIDER then Some true
  else None.

Definition devices_after (db : ProfileDb) (record : ProfileSyncMembershipRecord) (now : Z) :
    gmap (string * string) SyncDeviceRecord :=
  let key := (mr_profile record, mr_device_id record) in
  let row authority := roster_row (mr_profile record) (mr_device_id record)
                         (mr_membership_epoch record) authority now in
  let existing := db_devices db !! key in
  <[key := row (authority_set (mr_record_kind record))
             (if carries_public_key (mr_record_kind record)
              then Some (row None existing) else existing)]> (db_devices db).

Definition applied_db (db : ProfileDb) (signed_object : SignedSyncObject)
    (record : ProfileSyncMembershipRecord) (signed_record : string) (now : Z) : ProfileDb :=
  set_db_membership
    (<[(mr_profile record, mr_record_id record) :=
        set_applied now (stored_row db (registration_of signed_object record signed_record) now)]>
       (db_membership db))
    (set_db_devices (devices_after db record now)
      (set_db_public_keys (keys_after db record now) db)).

Lemma apply_kind_spec db record now :
  valid_record record ->
  exists db', apply_record_kind record now db
    = (db', Ok (keys_after db record now !! (mr_profile record, mr_device_id record))) /\
    record_sync_membership_device_in_transaction record now db'
    = (set_db_devices (devices_after db record now)
         (set_db_public_keys (keys_after db record now) db), Ok tt).
Proof.
  intros (_ & _ & Hid & Hk & Hc). unfold apply_record_kind, keys_after, devices_after.
  set (key := (mr_profile record, mr_device_id record)).
  destruct (kind_cases record Hk) as [[E Hcar]|[[E Hcar]|[[E Hcar]|[E Hcar]]]];
    rewrite Hcar in *.
  3: { rewrite E. simpl. unfold set_sync_device_public_key_trusted_in_transaction,
         sync_device_public_key_in_transaction. rewrite Hid. unfold sr_bind, query, execute. simpl.
       assert (match mr_device_public_key record with
               | Some _ => alter (set_trusted false now) key (db_public_keys db)
               | None => alter (set_trusted false now) key (db_public_keys db)
               end = alter (set_trusted false now) key (db_public_keys db)) as ->
         by (by destruct (mr_device_public_key record)).
       destruct (db_public_keys db !! key) as [k|] eqn:Hl; fold key; rewrite Hl.
       - eexists. split; [done|]. unfold record_sync_membership_device_in_transaction.
         rewrite E. done.
       - exists db. rewrite lookup_alter, decide_True, Hl by done. split; [done|].
         unfold record_sync_membership_device_in_transaction. rewrite E. simpl.
         unfold record_sync_device_roster_entry_in_transaction, execute. fold key.
         rewrite alter_id by (intros ? ?; congruence). by destruct db. }
  all: destruct Hc as (pk & Hpk & Hd); rewrite Hpk; simpl;
    unfold register_sync_device_public_key_in_transaction, sync_device_public_key_in_transaction;
    unfold sr_bind, sr_lift; simpl; rewrite Hd, Hid; unfold execute, query, required_row; simpl;
    fold key; rewrite lookup_insert_eq; simpl; eexists; (split; [done|]);
    unfold record_sync_membership_device_in_transaction; rewrite E; simpl;
    unfold record_sync_device_roster_entry_with_provider_authority_in_transaction,
      record_sync_device_roster_entry_in_transaction, execute; simpl; fold key;
    rewrite lookup_insert_eq, insert_insert_eq; done.
Qed.

(** Rows are stored under their own profile and record id. *)
Definition rows_keyed (db : ProfileDb) : Prop :=
  forall key r, db_membership db !! key = Some r -> (sm_profile r, sm_record_id r) = key.

Lemma mark_spec db key r now :
  is_valid_sync_identifier key.2 = true -> db_membership db !! key = Some r ->
  mark_sync_account_membership_record_applied_in_transaction key.1 key.2 now db
  = (set_db_membership (<[key := set_applied now r]> (db_membership db)) db,
     Ok (set_applied now r)).
Proof.
  intros Hid Hr. destruct key as [p i]. simpl in *.
  unfold mark_sync_account_membership_record_applied_in_transaction,
    sync_account_membership_record_in_transaction, sr_bind, query, execute.
  rewrite Hid, Hr. simpl. rewrite lookup_alter, decide_True, Hr by done. simpl.
  unfold required_row, sr_lift. simpl. do 3 f_equal. apply map_eq. intros k.
  destruct (decide (k = (p, i))) as [->|Hne].
  - by rewrite lookup_alter, decide_True, Hr, lookup_insert_eq.
  - by rewrite lookup_alter_ne, lookup_insert_ne.
Qed.

(** The answer for an applied record. *)
Definition application_of (db : ProfileDb) (signed_object : SignedSyncObject)
    (record : ProfileSyncMembershipRecord) (signed_record : string) (bootstrapped : bool)
    (now : Z) : SyncAccountMembershipRecordApplication :=
  {| ma_membership_record :=
       set_applied now (stored_row db (registration_of signed_object record signed_record) now);
     ma_device_key := keys_after db record now !! (mr_profile record, mr_device_id record);
     ma_bootstrapped := bootstrapped; ma_applied := true |}.

Lemma registration_valid codec s so record :
  decode_signed_profile_sync_membership_record codec s = Ok (so, record) ->
  validate_sync_account_membership_registration (registration_of so record s)
  = if is_empty s then invalid_record "membership record signed bytes are empty" else Ok tt.
Proof.
  intros ((He & Hr & Hd & Hk & _) & Hso & _)%decode_Ok.
  unfold validate_sync_account_membership_registration, registration_of. simpl.
  rewrite Hr, Hd, Hk, Hso. simpl. destruct (Z.ltb_spec (mr_membership_epoch record) 1); [lia|].
  done.
Qed.

(** The stored bytes of a record that is not new are the record's. *)
Definition same_bytes (db : ProfileDb) (record : ProfileSyncMembershipRecord) (s : string) :
    Prop :=
  forall r, db_membership db !! (mr_profile record, mr_record_id record) = Some r ->
    sm_signed_record r = s.

Lemma stored_row_bytes db so record s now :
  sm_signed_record (stored_row db (registration_of so record s) now) = s <->
  same_bytes db record s.
Proof.
  unfold stored_row, same_bytes. simpl.
  destruct (db_membership db !! _) as [r|]; simpl; naive_solver.
Qed.

Lemma apply_new_spec codec s so record db db' b now a :
  decode_signed_profile_sync_membership_record codec s = Ok (so, record) ->
  rows_keyed db ->
  apply_new_membership_record so record s b now db = (db', Ok a) <->
  fresh db record /\ permitted db record /\ is_empty s = false /\ same_bytes db record s /\
  db' = applied_db db so record s now /\ a = application_of db so record s b now.
Proof.
  intros Hdec Hkeyed. pose proof Hdec as (Hv & _)%decode_Ok.
  pose proof (registration_valid _ _ _ _ Hdec) as Hreg. pose proof Hv as (_ & Hid & Hd & _).
  unfold apply_new_membership_record. rewrite sr_bind_ok.
  setoid_rewrite stale_spec; [|done]. setoid_rewrite sr_bind_ok.
  setoid_rewrite transition_spec; [|done].
  destruct (is_empty s) eqn:Hs.
  { split; [|naive_solver]. intros (? & ? & [-> _] & ? & ? & [-> _] & Hr). exfalso.
    unfold sr_bind, record_sync_account_membership_record_in_transaction in Hr.
    unfold sr_bind at 1, sr_lift in Hr. by rewrite Hreg in Hr. }
  setoid_rewrite sr_bind_ok. setoid_rewrite (record_spec _ _ _ _ _ Hreg).
  set (row := stored_row db (registration_of so record s) now).
  set (key := (mr_profile record, mr_record_id record)).
  set (db1 := set_db_membership (<[key := row]> (db_membership db)) db).
  assert (sm_profile row = mr_profile record /\ sm_record_id row = mr_record_id record)
    as [Hp Hi].
  { subst row. unfold stored_row. simpl. destruct (db_membership db !! _) as [r|] eqn:E; [|done].
    apply Hkeyed in E. simpl. by simplify_eq. }
  assert (forall db2 a2,
    (let* device_key := apply_record_kind record now in
     do* record_sync_membership_device_in_transaction record now in
     let* applied_record := mark_sync_account_membership_record_applied_in_transaction
                              (sm_profile row) (sm_record_id row) now in
     sr_ret {| ma_membership_record := applied_record; ma_device_key := device_key;
               ma_bootstrapped := b; ma_applied := true |})%slate db1 = (db2, Ok a2) <->
    db2 = applied_db db so record s now /\ a2 = application_of db so record s b now) as Hrest.
  { intros db2 a2. destruct (apply_kind_spec db1 record now Hv) as (db3 & H1 & H2).
    unfold sr_bind. rewrite H1, H2, Hp, Hi.
    erewrite (mark_spec _ key); [|done|by apply lookup_insert_eq].
    unfold sr_ret, applied_db, application_of. simpl. rewrite insert_insert_eq.
    fold row key. split; [by intros [= <- <-]|by intros [-> ->]]. }
  split.
  - intros (? & ? & [-> Hf] & ? & ? & [-> Hperm] & ? & ? & (-> & Hb & ->) & Hr).
    apply Hrest in Hr as [-> ->]. split_and!; try done. by apply (stored_row_bytes db so _ _ now).
  - intros (Hf & Hperm & _ & Hb & -> & ->). exists db, tt. split; [done|]. exists db, tt.
    split; [done|]. exists db1, row. split; [|by apply Hrest]. split_and!; try done.
    by apply stored_row_bytes.
Qed.

(** The stored record of [record], when it was applied. *)
Definition applied_already (db : ProfileDb) (record : ProfileSyncMembershipRecord) :
    option SyncAccountMembershipRecord :=
  match db_membership db !! (mr_profile record, mr_record_id record) with
  | Some r => match sm_applied_at r with Some _ => Some r | None => None end
  | None => None
  end.

(** The application of one decoded record, completely. *)
Lemma apply_decoded_spec codec s so record db db' now a :
  decode_signed_profile_sync_membership_record codec s = Ok (so, record) ->
  rows_keyed db ->
  apply_decoded_sync_account_membership_record_in_transaction codec so record s now db
    = (db', Ok a) <->
  exists b, authorised db so record b /\ same_bytes db record s /\
    match applied_already db record with
    | Some r => db' = db /\
        a = {| ma_membership_record := r;
               ma_device_key := db_public_keys db !! (mr_profile record, sm_device_id r);
               ma_bootstrapped := b; ma_applied := false |} /\
        is_valid_sync_identifier (sm_device_id r) = true
    | None => fresh db record /\ permitted db record /\ is_empty s = false /\
        db' = applied_db db so record s now /\ a = application_of db so record s b now
    end.
Proof.
  intros Hdec Hkeyed. pose proof Hdec as ((_ & Hid & _) & _)%decode_Ok.
  unfold apply_decoded_sync_account_membership_record_in_transaction. rewrite sr_bind_ok.
  setoid_rewrite authorize_spec; [|done].
  assert (forall P : ProfileDb -> bool -> Prop,
    (exists s1 b, (s1 = db /\ authorised db so record b) /\ P s1 b) <->
    exists b, authorised db so record b /\ P db b) as -> by naive_solver.
  apply exist_proper. intros b. apply and_iff_compat_l.
  unfold sync_account_membership_record_in_transaction, sr_bind at 1. rewrite Hid. simpl.
  unfold query, applied_already, same_bytes.
  destruct (db_membership db !! _) as [r|] eqn:E.
  - destruct (str_eqb (sm_signed_record r) s) eqn:Hb; simpl;
      [apply str_eqb_eq in Hb|apply str_eqb_neq in Hb; naive_solver].
    destruct (sm_applied_at r).
    + pose proof (Hkeyed _ _ E) as [= Hp _]. unfold sr_bind, sync_device_public_key_in_transaction.
      rewrite Hp. destruct (is_valid_sync_identifier (sm_device_id r)); simpl; [|naive_solver].
      unfold query, sr_ret. naive_solver.
    + rewrite apply_new_spec by done. unfold same_bytes. rewrite E. naive_solver.
  - rewrite apply_new_spec by done. unfold same_bytes. rewrite E. naive_solver.
Qed.

(** ** The roster follows the records *)

Definition row_registration (r : SyncAccountMembershipRecord) :
    SyncAccountMembershipRecordRegistration :=
  {| smr_profile := sm_profile r; smr_record_id := sm_record_id r;
     smr_membership_epoch := sm_membership_epoch r; smr_record_kind := sm_record_kind r;
     smr_device_id := sm_device_id r; smr_signer_device_id := sm_signer_device_id r;
     smr_signed_record := sm_signed_record r |}.

(** The record applied to a device at the highest epoch. *)
Definition is_latest (db : ProfileDb) (profile device_id : string)
    (r : SyncAccountMembershipRecord) : Prop :=
  applied_row db profile device_id r /\
  forall r', applied_row db profile device_id r' ->
    sm_membership_epoch r' <= sm_membership_epoch r.

(** The key the latest record leaves a device with. *)
Definition key_matches (trusted : option SyncDevicePublicKeyRecord)
    (record : ProfileSyncMembershipRecord) : Prop :=
  if carries_public_key (mr_record_kind record)
  then exists k, trusted = Some k /\ mr_device_public_key record = Some (sk_public_key k) /\
         sk_membership_epoch k = mr_membership_epoch record
  else trusted = None.

Record roster_ok (codec : SyncCodec) (db : ProfileDb) : Prop := {
  (** every row is the decoding of its signed bytes *)
  ro_rows key r : db_membership db !! key = Some r ->
    key = (sm_profile r, sm_record_id r) /\
    exists so record,
      decode_signed_profile_sync_membership_record codec (sm_signed_record r) = Ok (so, record) /\
      row_registration r = registration_of so record (sm_signed_record r);
  (** at most one record is applied to a device at an epoch *)
  ro_unique profile device_id r r' :
    applied_row db profile device_id r -> applied_row db profile device_id r' ->
    sm_membership_epoch r = sm_membership_epoch r' -> r = r';
  (** the trusted key of a device is the one of its latest record *)
  ro_key profile device_id r so record :
    is_latest db profile device_id r ->
    decode_signed_profile_sync_membership_record codec (sm_signed_record r) = Ok (so, record) ->
    key_matches (trusted_key db profile device_id) record;
  (** a key comes from a record *)
  ro_covered profile device_id k :
    db_public_keys db !! (profile, device_id) = Some k ->
    exists r, applied_row db profile device_id r
}.

Lemma roster_rows_keyed codec db : roster_ok codec db -> rows_keyed db.
Proof. intros Hok key r Hr. by apply (ro_rows _ _ Hok) in Hr as [-> _]. Qed.

(** Neither table changed. *)
Lemma roster_ok_same codec db db' :
  db_membership db' = db_membership db -> db_public_keys db' = db_public_keys db ->
  roster_ok codec db -> roster_ok codec db'.
Proof.
  intros Hm Hk [H1 H2 H3 H4].
  assert (forall p d r, applied_row db' p d r <-> applied_row db p d r) as Ha
    by (intros; unfold applied_row; by rewrite Hm).
  split.
  - by rewrite Hm.
  - intros p d r r' ?%Ha ?%Ha. eauto.
  - intros p d r so record [Hr%Ha Hmax]. unfold trusted_key. rewrite Hk. apply H3.
    split; [done|]. intros r' ?%Ha. auto.
  - intros p d k. rewrite Hk. intros [r Hr]%H4. exists r. by apply Ha.
Qed.

(** A stored row with the bytes of a record has its fields. *)
Lemma stored_row_registration codec db so record s now :
  roster_ok codec db ->
  decode_signed_profile_sync_membership_record codec s = Ok (so, record) ->
  same_bytes db record s ->
  row_registration (stored_row db (registration_of so record s) now)
  = registration_of so record s.
Proof.
  intros Hok Hdec Hsame. unfold stored_row, same_bytes in *. simpl.
  destruct (db_membership db !! _) as [r|] eqn:E; simpl; [|done].
  specialize (Hsame r eq_refl).
  apply (ro_rows _ _ Hok) in E as (_ & so' & record' & Hdec' & Heq).
  rewrite Hsame in *. rewrite Heq. congruence.
Qed.

Lemma applied_db_rows codec db so record s now profile device_id r :
  roster_ok codec db ->
  decode_signed_profile_sync_membership_record codec s = Ok (so, record) ->
  same_bytes db record s -> applied_already db record = None ->
  applied_row (applied_db db so record s now) profile device_id r <->
  (r = set_applied now (stored_row db (registration_of so record s) now) /\
   profile = mr_profile record /\ device_id = mr_device_id record) \/
  applied_row db profile device_id r.
Proof.
  intros Hok Hdec Hsame Hnew.
  pose proof (stored_row_registration _ _ _ _ _ now Hok Hdec Hsame) as Hreg.
  set (row := stored_row db (registration_of so record s) now) in *.
  assert (forall p d, applied_for p d (set_applied now row) = true <->
                      p = mr_profile record /\ d = mr_device_id record) as Hfor.
  { intros p d. rewrite applied_for_spec. injection Hreg as Hp _ _ _ Hd _ _. simpl.
    rewrite Hp, Hd. naive_solver. }
  unfold applied_row, applied_db. simpl. split.
  - intros [[key Hk] Ha]. destruct (decide (key = (mr_profile record, mr_record_id record)))
      as [->|Hne].
    + rewrite lookup_insert_eq in Hk. injection Hk as <-. apply Hfor in Ha. by left.
    + rewrite lookup_insert_ne in Hk by done. right. split; [by exists key|done].
  - intros [(-> & Hpd)|[[key Hk] Ha]].
    + split; [|by apply Hfor]. eexists. apply lookup_insert_eq.
    + split; [|done]. exists key. rewrite lookup_insert_ne; [done|]. intros <-.
      unfold applied_already in Hnew. rewrite Hk in Hnew.
      apply applied_for_spec in Ha as (_ & _ & [t Ht]). by rewrite Ht in Hnew.
Qed.

Lemma keys_after_other db record now profile device_id :
  (profile, device_id) <> (mr_profile record, mr_device_id record) ->
  keys_after db record now !! (profile, device_id) = db_public_keys db !! (profile, device_id).
Proof.
  intros Hne. unfold keys_after.
  destruct (mr_device_public_key record); [destruct (carries_public_key _)|].
  all: by rewrite ?lookup_insert_ne, ?lookup_alter_ne.
Qed.

Lemma keys_after_self db db' record now :
  valid_record record -> db_public_keys db' = keys_after db record now ->
  key_matches (trusted_key db' (mr_profile record) (mr_device_id record)) record.
Proof.
  intros (_ & _ & _ & _ & Hc) Hk. unfold key_matches, trusted_key. rewrite Hk. unfold keys_after.
  destruct (carries_public_key _) eqn:Hcar.
  - destruct Hc as (pk & -> & _). rewrite lookup_insert_eq. simpl. eauto.
  - assert (match mr_device_public_key record with
            | Some _ => alter (set_trusted false now) (mr_profile record, mr_device_id record)
                          (db_public_keys db)
            | None => alter (set_trusted false now) (mr_profile record, mr_device_id record)
                        (db_public_keys db)
            end = alter (set_trusted false now) (mr_profile record, mr_device_id record)
                    (db_public_keys db)) as -> by (by destruct (mr_device_public_key record)).
    rewrite lookup_alter, decide_True by done. by destruct (db_public_keys db !! _).
Qed.

Lemma applied_db_ok codec db so record s now :
  roster_ok codec db ->
  decode_signed_profile_sync_membership_record codec s = Ok (so, record) ->
  fresh db record -> same_bytes db record s -> applied_already db record = None ->
  roster_ok codec (applied_db db so record s now).
Proof.
  intros Hok Hdec Hfresh Hsame Hnew. pose proof Hdec as (Hv & _)%decode_Ok.
  pose proof (stored_row_registration _ _ _ _ _ now Hok Hdec Hsame) as Hreg.
  set (row := stored_row db (registration_of so record s) now) in *.
  assert (sm_membership_epoch row = mr_membership_epoch record /\ sm_signed_record row = s)
    as [He Hs] by (injection Hreg as _ _ ? _ _ _ ?; done).
  set (db' := applied_db db so record s now).
  assert (forall p d r, applied_row db' p d r <->
    (r = set_applied now row /\ p = mr_profile record /\ d = mr_device_id record) \/
    applied_row db p d r) as Hrows by (intros; by apply applied_db_rows with codec).
  split.
  - intros key r. unfold db', applied_db. simpl. fold row. intros Hl.
    destruct (decide (key = (mr_profile record, mr_record_id record))) as [->|Hne].
    + rewrite lookup_insert_eq in Hl. injection Hl as <-. simpl.
      injection Hreg as Hp Hi _ _ _ _ _. rewrite Hp, Hi. split; [done|].
      exists so, record. rewrite Hs. split; [done|].
      transitivity (row_registration row); [done|].
      unfold row. by apply stored_row_registration with codec.
    + rewrite lookup_insert_ne in Hl by done. by apply (ro_rows _ _ Hok) in Hl.
  - intros p d r r' Hr%Hrows Hr'%Hrows Heq.
    destruct Hr as [(-> & Hp & Hd)|Hr], Hr' as [(-> & Hp' & Hd')|Hr']; [done| | |].
    + subst p d. specialize (Hfresh _ Hr'). simpl in Heq. lia.
    + subst p d. specialize (Hfresh _ Hr). simpl in Heq. lia.
    + by apply (ro_unique _ _ Hok p d).
  - intros p d r so' record' [Hr Hmax] Hdec'.
    destruct (decide ((p, d) = (mr_profile record, mr_device_id record))) as [[= -> ->]|Hne].
    + assert (r = set_applied now row) as ->.
      { apply Hrows in Hr as [[-> _]|Hr]; [done|]. specialize (Hfresh _ Hr).
        assert (sm_membership_epoch (set_applied now row) <= sm_membership_epoch r)
          by (apply Hmax, Hrows; auto).
        simpl in *. lia. }
      simpl in Hdec'. rewrite Hs, Hdec in Hdec'. injection Hdec' as <- <-.
      by apply keys_after_self with db now.
    + assert (is_latest db p d r) as Hl.
      { apply Hrows in Hr as [(_ & -> & ->)|Hr]; [done|]. split; [done|].
        intros r' Hr'. apply Hmax, Hrows. auto. }
      pose proof (ro_key _ _ Hok p d r so' record' Hl Hdec') as Hm.
      unfold trusted_key in *. unfold db', applied_db. simpl.
      by rewrite keys_after_other.
  - intros p d k Hk.
    destruct (decide ((p, d) = (mr_profile record, mr_device_id record))) as [[= -> ->]|Hne].
    + exists (set_applied now row). apply Hrows. auto.
    + unfold db', applied_db in Hk. simpl in Hk. rewrite keys_after_other in Hk by done.
      apply (ro_covered _ _ Hok) in Hk as [r Hr]. exists r. apply Hrows. auto.
Qed.

Lemma apply_decoded_roster_ok codec db db' so record s now a :
  roster_ok codec db ->
  decode_signed_profile_sync_membership_record codec s = Ok (so, record) ->
  apply_decoded_sync_account_membership_record_in_transaction codec so record s now db
    = (db', Ok a) ->
  roster_ok codec db'.
Proof.
  intros Hok Hdec Ha. apply apply_decoded_spec in Ha as (b & _ & Hsame & Hcase);
    [|done|by apply roster_rows_keyed with codec].
  destruct (applied_already db record) eqn:Hnew.
  - by destruct Hcase as (-> & _).
  - destruct Hcase as (Hf & _ & _ & -> & _). by apply applied_db_ok.
Qed.

Lemma collect_results_Forall2 {E A B} (f : A -> result E B) l bs :
  collect_results f l = Ok bs <-> Forall2 (fun a b => f a = Ok b) l bs.
Proof.
  revert bs. induction l as [|a l IH]; intros bs; simpl.
  - split; [by intros [= <-]|]. by intros ->%Forall2_nil_inv_l.
  - destruct (f a) as [b|e] eqn:Hf; simpl.
    + destruct (collect_results f l) as [bs'|e]; simpl.
      * split; [intros [= <-]; constructor; [done|by apply IH]|].
        intros (b' & bs2 & Hb & Hbs & ->)%Forall2_cons_inv_l. rewrite Hf in Hb.
        apply IH in Hbs. congruence.
      * split; [done|]. intros (b' & bs2 & _ & Hbs & _)%Forall2_cons_inv_l.
        by apply IH in Hbs.
    + split; [done|]. intros (b' & bs2 & Hb & _)%Forall2_cons_inv_l. congruence.
Qed.

(** The records of a batch applied one after the other. *)
Inductive applied_in_order (codec : SyncCodec) (now : Z) :
    list string -> ProfileDb -> ProfileDb -> list SyncAccountMembershipRecordApplication ->
    Prop :=
  | applied_none db : applied_in_order codec now [] db db []
  | applied_next s l db db1 db2 a applications :
      apply_signed_sync_account_membership_record codec s now db = (db1, Ok a) ->
      applied_in_order codec now l db1 db2 applications ->
      applied_in_order codec now (s :: l) db db2 (a :: applications).

Lemma apply_one_spec codec s now db db' a :
  apply_signed_sync_account_membership_record codec s now db = (db', Ok a) <->
  exists so record,
    decode_signed_profile_sync_membership_record codec s = Ok (so, record) /\
    apply_decoded_sync_account_membership_record_in_transaction codec so record s now db
      = (db', Ok a).
Proof.
  unfold apply_signed_sync_account_membership_record,
    apply_signed_sync_account_membership_records, sr_bind, sr_lift. simpl.
  destruct (decode_signed_profile_sync_membership_record codec s) as [[so record]|e]; simpl;
    [|naive_solver].
  unfold transaction, sr_bind. simpl. split.
  - destruct (apply_decoded_sync_account_membership_record_in_transaction _ _ _ _ _ _)
      as [db1 [a1|e]] eqn:E; [|done]. simpl. unfold pop_application, required_row, sr_lift. simpl.
    intros [= <- <-]. eauto.
  - intros (? & ? & [= <- <-] & ->). simpl. done.
Qed.

Lemma apply_decoded_records_spec codec l ds now db db' applications :
  Forall2 (fun s d => decode_signed_profile_sync_membership_record codec s = Ok d) l ds ->
  apply_decoded_records codec (zip l ds) now db = (db', Ok applications) <->
  applied_in_order codec now l db db' applications.
Proof.
  intros HF. revert db db' applications.
  induction HF as [|s [so record] l ds Hd HF IH]; intros db db' applications; simpl.
  - unfold sr_ret. split; [intros [= <- <-]; constructor|]. by inversion 1.
  - rewrite sr_bind_ok. split.
    + intros (db1 & a & Ha & (db2 & applications' & Happ & [= <- <-])%sr_bind_ok).
      apply IH in Happ. eapply applied_next; [|exact Happ]. apply apply_one_spec.
      by exists so, record.
    + inversion 1; subst.
      match goal with H : apply_signed_sync_account_membership_record _ _ _ _ = _ |- _ =>
        apply apply_one_spec in H as (so' & record' & Hd' & Ha) end.
      rewrite Hd in Hd'. injection Hd' as <- <-. eexists _, _. split; [exact Ha|].
      apply sr_bind_ok. eexists _, _. split; [by apply IH|done].
Qed.

Lemma applied_in_order_decodes codec now l db db' applications :
  applied_in_order codec now l db db' applications ->
  exists ds,
    Forall2 (fun s d => decode_signed_profile_sync_membership_record codec s = Ok d) l ds.
Proof.
  induction 1 as [|s l db db1 db2 a applications Ha _ [ds Hds]]; [by exists []|].
  apply apply_one_spec in Ha as (so & record & Hd & _). exists ((so, record) :: ds).
  by constructor.
Qed.

Lemma applied_in_order_roster_ok codec now l db db' applications :
  applied_in_order codec now l db db' applications -> roster_ok codec db -> roster_ok codec db'.
Proof.
  induction 1 as [|s l db db1 db2 a applications Ha _ IH]; [done|]. intros Hok. apply IH.
  apply apply_one_spec in Ha as (so & record & Hd & Ha). by eapply apply_decoded_roster_ok.
Qed.

Lemma apply_records_spec codec l now db db' applications :
  apply_signed_sync_account_membership_records codec l now db = (db', Ok applications) <->
  applied_in_order codec now l db db' applications.
Proof.
  unfold apply_signed_sync_account_membership_records. rewrite sr_bind_ok. split.
  - intros (db1 & ds & [= <- Hds] & Happ). apply collect_results_Forall2 in Hds.
    rewrite transaction_ok in Happ. by apply (apply_decoded_records_spec codec l ds).
  - intros Happ. pose proof (applied_in_order_decodes _ _ _ _ _ _ Happ) as [ds Hds].
    exists db, ds. apply collect_results_Forall2 in Hds as Hc. unfold sr_lift. rewrite Hc.
    split; [done|].
    rewrite transaction_ok. by apply (apply_decoded_records_spec codec l ds).
Qed.

Lemma apply_records_err codec l now db db' e :
  apply_signed_sync_account_membership_records codec l now db = (db', Err e) -> db' = db.
Proof.
  unfold apply_signed_sync_account_membership_records, sr_bind, sr_lift.
  destruct (collect_results _ l); [apply transaction_err|congruence].
Qed.

Lemma apply_records_with_root codec profile root_id object_id l now db db' root applications :
  apply_signed_sync_account_membership_records_and_set_profile_sync_root codec profile root_id
    object_id l now db = (db', Ok (root, applications)) ->
  exists db1, applied_in_order codec now l db db1 applications /\
    db' = set_db_state (<[(profile, profile_sync_root_key root_id) := (object_id, now)]>
                          (db_state db1)) db1.
Proof.
  unfold apply_signed_sync_account_membership_records_and_set_profile_sync_root.
  intros (db1 & ds & [= <- Hds] & Happ)%sr_bind_ok. rewrite transaction_ok in Happ.
  apply sr_bind_ok in Happ as (db2 & applications' & Happ & Hroot).
  apply sr_bind_ok in Hroot as (db3 & root' & Hroot & [= <- <- <-]).
  apply collect_results_Forall2 in Hds.
  apply (apply_decoded_records_spec codec l ds) in Happ; [|done]. exists db2. split; [done|].
  unfold set_profile_sync_root_in_transaction in Hroot. destruct (is_empty root_id); [done|].
  by injection Hroot as <- <-.
Qed.

Lemma apply_records_with_root_err codec profile root_id object_id l now db db' e :
  apply_signed_sync_account_membership_records_and_set_profile_sync_root codec profile root_id
    object_id l now db = (db', Err e) -> db' = db.
Proof.
  unfold apply_signed_sync_account_membership_records_and_set_profile_sync_root, sr_bind at 1,
    sr_lift.
  destruct (collect_results _ l); [apply transaction_err|congruence].
Qed.

(** Storing a signed record without applying it. *)
Lemma record_signed_roster_ok codec s now db db' r :
  roster_ok codec db ->
  record_signed_sync_account_membership_record codec s now db = (db', Ok r) ->
  roster_ok codec db'.
Proof.
  intros Hok. unfold record_signed_sync_account_membership_record,
    record_sync_account_membership_record.
  intros (db1 & [so record] & [= <- Hdec] & Hr)%sr_bind_ok. simpl in Hr.
  pose proof (registration_valid _ _ _ _ Hdec) as Hval. destruct (is_empty s).
  { unfold record_sync_account_membership_record_in_transaction, sr_bind at 1, sr_lift in Hr.
    by rewrite Hval in Hr. }
  apply record_spec in Hr as (-> & Hs & ->); [|done]. apply stored_row_bytes in Hs.
  destruct (db_membership db !! (mr_profile record, mr_record_id record)) as [r|] eqn:E.
  { assert (stored_row db (registration_of so record s) now = r) as -> by
      (unfold stored_row; simpl; by rewrite E).
    simpl. rewrite insert_id by done. by apply (roster_ok_same codec db). }
  assert (stored_row db (registration_of so record s) now
          = new_row (registration_of so record s) now) as -> by
    (unfold stored_row; simpl; by rewrite E).
  set (key := (mr_profile record, mr_record_id record)) in *.
  set (db' := set_db_membership _ db).
  assert (forall p d r, applied_row db' p d r <-> applied_row db p d r) as Ha.
  { intros p d r. unfold applied_row, db'. simpl. split; intros [[k Hk] Hf].
    - destruct (decide (k = key)) as [->|Hne].
      + rewrite lookup_insert_eq in Hk. injection Hk as <-. apply applied_for_spec in Hf.
        by destruct Hf as (_ & _ & [? ?]).
      + rewrite lookup_insert_ne in Hk by done. eauto.
    - split; [|done]. exists k. rewrite lookup_insert_ne; [done|]. intros <-. unfold key in E. congruence. }
  destruct Hok as [H1 H2 H3 H4]. split.
  - intros k r. unfold db'. simpl. destruct (decide (k = key)) as [->|Hne].
    + rewrite lookup_insert_eq. intros [= <-]. split; [done|]. by exists so, record.
    + rewrite lookup_insert_ne by done. apply H1.
  - intros p d r r' ?%Ha ?%Ha. eauto.
  - intros p d r so' record' [Hr%Ha Hmax]. apply H3. split; [done|]. intros r' ?%Ha. auto.
  - intros p d k [r Hr]%H4. exists r. by apply Ha.
Qed.

Lemma local_setting_keeps_roster codec dev profile domain key value now :
  preserves (roster_ok codec) (set_sync_setting_text dev profile domain key value now).
Proof.
  unfold set_sync_setting_text, record_sync_setting_text_in_transaction,
    insert_sync_setting_text_change_in_transaction.
  solve_preserves; intros db Hdb;
    try (unfold insert_sync_setting_text_change_record_in_transaction; case_match);
    done || by apply (roster_ok_same codec db).
Qed.

Lemma received_setting_keeps_roster codec d c now :
  preserves (roster_ok codec) (apply_sync_setting_text d c now).
Proof.
  unfold apply_sync_setting_text, apply_sync_setting_text_in_transaction,
    insert_sync_setting_text_change_in_transaction.
  solve_preserves; intros db Hdb;
    try (unfold insert_sync_setting_text_change_record_in_transaction; case_match);
    try (unfold apply_view; case_match);
    done || by apply (roster_ok_same codec db).
Qed.

(** A history of a device's database in which the roster changes by signed
    records only; failed calls are covered, since they change nothing. *)
Inductive membership_step (codec : SyncCodec) (db : ProfileDb) : ProfileDb -> Prop :=
  | step_records l now :
      membership_step codec db (apply_signed_sync_account_membership_records codec l now db).1
  | step_bundle device bundle now :
      membership_step codec db (apply_profile_sync_enrollment_bundle codec device bundle now db).1
  | step_records_and_root profile root_id object_id l now :
      membership_step codec db
        (apply_signed_sync_account_membership_records_and_set_profile_sync_root codec
           profile root_id object_id l now db).1
  | step_stored s now db' r :
      record_signed_sync_account_membership_record codec s now db = (db', Ok r) ->
      membership_step codec db db'
  | step_local_setting dev profile domain key value now :
      membership_step codec db (set_sync_setting_text dev profile domain key value now db).1
  | step_received_setting d c now :
      membership_step codec db (apply_sync_setting_text d c now db).1.

Definition membership_history (codec : SyncCodec) : ProfileDb -> Prop :=
  rtc (membership_step codec) empty_db.

Lemma apply_records_roster_ok codec l now db :
  roster_ok codec db ->
  roster_ok codec (apply_signed_sync_account_membership_records codec l now db).1.
Proof.
  intros Hok. destruct (apply_signed_sync_account_membership_records codec l now db)
    as [db' [a|e]] eqn:E.
  - apply apply_records_spec in E. by eapply applied_in_order_roster_ok.
  - by apply apply_records_err in E as ->.
Qed.

Lemma membership_step_roster_ok codec db db' :
  roster_ok codec db -> membership_step codec db db' -> roster_ok codec db'.
Proof.
  intros Hok [l now|device bundle now|profile root_id object_id l now|s now db2 r Hr
             |dev profile domain key value now|d c now].
  - by apply apply_records_roster_ok.
  - unfold apply_profile_sync_enrollment_bundle, sr_bind, sr_lift.
    destruct (validate_profile_sync_enrollment_bundle codec bundle); [|done].
    destruct (negb _); [done|]. by apply apply_records_roster_ok.
  - destruct (apply_signed_sync_account_membership_records_and_set_profile_sync_root _ _ _ _ _ _ _)
      as [db1 [[root a]|e]] eqn:E; simpl.
    + apply apply_records_with_root in E as (db2 & Ha & ->).
      apply (roster_ok_same codec db2); [done|done|].
      by eapply applied_in_order_roster_ok.
    + by apply apply_records_with_root_err in E as ->.
  - by eapply record_signed_roster_ok.
  - by apply local_setting_keeps_roster.
  - by apply received_setting_keeps_roster.
Qed.

Lemma empty_roster_ok codec : roster_ok codec empty_db.
Proof.
  assert (forall p d r, ~ applied_row empty_db p d r) as Ha.
  { intros p d r [[k Hk] _]. done. }
  split; try done.
  - intros p d r r' Hr. by apply Ha in Hr.
  - intros p d r so record [Hr _]. by apply Ha in Hr.
Qed.

Lemma membership_history_roster_ok codec db : membership_history codec db -> roster_ok codec db.
Proof.
  intros Hh. unfold membership_history in Hh.
  assert (roster_ok codec empty_db) as Hok by apply empty_roster_ok. revert Hok.
  induction Hh as [|db1 db2 db3 Hs _ IH]; [done|]. intros Hok.
  apply IH. by apply (membership_step_roster_ok codec db1).
Qed.

(** A device with an applied record has a latest one. *)
Lemma latest_exists db profile device_id r :
  applied_row db profile device_id r -> exists r', is_latest db profile device_id r'.
Proof.
  intros Hr. set (l := List.filter (applied_for profile device_id)
                         (btree_values (db_membership db))).
  assert (forall r, r ∈ l <-> applied_row db profile device_id r) as Hl
    by (intros; rewrite list_elem_of_In; apply elem_of_applied).
  destruct (sql_max (map sm_membership_epoch l)) as [m|] eqn:Hm.
  - apply sql_max_Some in Hm as [Hin Hle]. apply list_elem_of_fmap in Hin as (r' & -> & Hr').
    exists r'. split; [by apply Hl|]. intros r2 Hr2%Hl. apply Hle, list_elem_of_fmap. eauto.
  - apply sql_max_None, map_eq_nil in Hm. apply Hl in Hr. rewrite Hm in Hr.
    by apply not_elem_of_nil in Hr.
Qed.

(** ** Theorems *)

(** When one record is applied, and to what effect. *)
Lemma membership_record_facts codec s so record now db db' a :
  roster_ok codec db ->
  decode_signed_profile_sync_membership_record codec s = Ok (so, record) ->
  apply_signed_sync_account_membership_record codec s now db = (db', Ok a) /\
    ma_applied a = true <->
  exists b, authorised db so record b /\ fresh db record /\ permitted db record /\
    same_bytes db record s /\ applied_already db record = None /\ is_empty s = false /\
    db' = applied_db db so record s now /\ a = application_of db so record s b now.
Proof.
  intros Hok Hdec. rewrite apply_one_spec. pose proof (roster_rows_keyed _ _ Hok) as Hkeyed.
  split.
  - intros [(so' & record' & Hdec' & Ha) Happ]. rewrite Hdec in Hdec'. injection Hdec' as <- <-.
    apply apply_decoded_spec in Ha as (b & Hauth & Hsame & Hcase); [|done..].
    exists b. destruct (applied_already db record); [|naive_solver].
    by destruct Hcase as (_ & -> & _).
  - intros (b & Hauth & Hf & Hp & Hs & Hnew & He & -> & ->). split; [|done].
    exists so, record. split; [done|]. apply apply_decoded_spec; [done..|].
    exists b. by rewrite Hnew.
Qed.

(** C6: (safety) A signed record changes the roster exactly when it is authorised
    (the first device of the profile enrolling itself, or a signer whose trusted key is
    the one the record is signed with, no younger than the record and no storage
    provider's), newer than every record applied to its device, a permitted transition,
    and not applied before; the change is then the one its kind prescribes. *)
Theorem membership_record_applied codec s so record now db db' a :
  roster_ok codec db ->
  decode_signed_profile_sync_membership_record codec s = Ok (so, record) ->
  apply_signed_sync_account_membership_record codec s now db = (db', Ok a) /\
    ma_applied a = true <->
  exists b, authorised db so record b /\ fresh db record /\ permitted db record /\
    same_bytes db record s /\ applied_already db record = None /\ is_empty s = false /\
    db' = applied_db db so record s now /\ a = application_of db so record s b now.
Proof. apply membership_record_facts. Qed.

(** C7: (refinement) In every history of a database whose roster changes by signed
    records only, a device is trusted with a key exactly when the latest record applied
    to it enrolls it with that key or rotates to it; so a replayed enrollment never
    undoes a later revocation. *)
Theorem roster_follows_records codec db profile device_id pk epoch :
  membership_history codec db ->
  (exists k, trusted_key db profile device_id = Some k /\ sk_public_key k = pk /\
     sk_membership_epoch k = epoch) <->
  (exists r so record, is_latest db profile device_id r /\
     decode_signed_profile_sync_membership_record codec (sm_signed_record r) = Ok (so, record) /\
     carries_public_key (mr_record_kind record) = true /\
     mr_device_public_key record = Some pk /\ mr_membership_epoch record = epoch).
Proof.
  intros Hok%membership_history_roster_ok. split.
  - intros (k & Hk & <- & <-). pose proof Hk as [Hl _]%trusted_key_Some.
    apply (ro_covered _ _ Hok) in Hl as [r0 Hr0].
    apply latest_exists in Hr0 as [r Hr]. pose proof Hr as [[[key Hrow] _] _].
    apply (ro_rows _ _ Hok) in Hrow as (_ & so & record & Hdec & _).
    pose proof (ro_key _ _ Hok _ _ _ _ _ Hr Hdec) as Hm. unfold key_matches in Hm.
    exists r, so, record. destruct (carries_public_key _); [|congruence].
    destruct Hm as (k' & Hk' & Hpk & He). assert (k' = k) as -> by congruence. done.
  - intros (r & so & record & Hr & Hdec & Hc & Hpk & He).
    pose proof (ro_key _ _ Hok _ _ _ _ _ Hr Hdec) as Hm. unfold key_matches in Hm.
    rewrite Hc in Hm. destruct Hm as (k & Hk & Hpk' & He'). exists k. split_and!; congruence.
Qed.

(** A batch of signed records is applied as its records one after the
    other would be, each against the roster the previous ones left, and a refused record
    undoes the whole batch. *)
Theorem batch_in_order codec l now db :
  (forall db' applications,
     apply_signed_sync_account_membership_records codec l now db = (db', Ok applications) <->
     applied_in_order codec now l db db' applications) /\
  (forall db' e,
     apply_signed_sync_account_membership_records codec l now db = (db', Err e) -> db' = db).
Proof.
  split; [intros; apply apply_records_spec|intros; by eapply apply_records_err].
Qed.

Lemma devices_after_other db record now profile device_id :
  (profile, device_id) <> (mr_profile record, mr_device_id record) ->
  devices_after db record now !! (profile, device_id) = db_devices db !! (profile, device_id).
Proof. intros Hne. unfold devices_after. by rewrite lookup_insert_ne. Qed.

Lemma applied_db_applied codec db so record s now :
  roster_ok codec db ->
  decode_signed_profile_sync_membership_record codec s = Ok (so, record) ->
  same_bytes db record s ->
  let row := set_applied now (stored_row db (registration_of so record s) now) in
  applied_already (applied_db db so record s now) record = Some row /\
  same_bytes (applied_db db so record s now) record s /\ sm_device_id row = mr_device_id record.
Proof.
  intros Hok Hdec Hsame row.
  pose proof (stored_row_registration _ _ _ _ _ now Hok Hdec Hsame) as Hreg.
  injection Hreg as _ _ _ _ Hd _ Hs.
  unfold applied_already, same_bytes, applied_db. simpl. rewrite lookup_insert_eq. simpl.
  split_and!; [done| |done]. by intros r [= <-].
Qed.

(** The signer's key is untouched by a record about another device. *)
Lemma trusted_signer_kept db so record s now :
  trusted_signer db so record -> mr_device_id record <> so_device_id so ->
  trusted_signer (applied_db db so record s now) so record.
Proof.
  intros (k & Hk & Hpk & He & Hp) Hne. exists k. revert Hk Hp.
  unfold trusted_key, provider_authority_of, applied_db. simpl.
  rewrite keys_after_other, devices_after_other by congruence. done.
Qed.

Lemma trusted_signer_no_bootstrap db so record :
  trusted_signer db so record -> ~ bootstrap_record db so record.
Proof.
  intros (k & [Hk _]%trusted_key_Some & _) [Hnone _]. by rewrite Hnone in Hk.
Qed.

(** A bootstrapped device can sign for itself. *)
Lemma bootstrap_trusted_signer db so record s now :
  valid_record record -> bootstrap_record db so record ->
  trusted_signer (applied_db db so record s now) so record.
Proof.
  intros Hv (_ & Hk & Hd & Hpk).
  pose proof (keys_after_self db (applied_db db so record s now) record now Hv eq_refl) as Hm.
  unfold key_matches in Hm. rewrite Hk in Hm. destruct Hm as (k & Hkey & Hkpk & He).
  exists k. rewrite <-Hd. split; [done|]. split; [congruence|]. split; [lia|].
  unfold provider_authority_of, applied_db, devices_after. simpl.
  by rewrite lookup_insert_eq, Hk.
Qed.

Lemma authorize_untrusted codec s so record db :
  decode_signed_profile_sync_membership_record codec s = Ok (so, record) ->
  ~ bootstrap_record db so record ->
  trusted_key db (mr_profile record) (so_device_id so) = None ->
  authorize_sync_account_membership_record_in_transaction codec so record db
  = (db, Err (UntrustedSyncMembershipSigner (mr_profile record) (so_device_id so))).
Proof.
  intros (_ & Hid & _)%decode_Ok Hnb Hk.
  unfold authorize_sync_account_membership_record_in_transaction, sr_bind, query.
  destruct (bootstraps _ _ _) eqn:Hb; [by apply bootstraps_spec in Hb|].
  unfold sync_device_public_key_in_transaction, trusted_key in *. rewrite Hid. simpl.
  unfold query. destruct (db_public_keys db !! _) as [k|]; [|done].
  by destruct (sk_trusted k).
Qed.

(** An error of a single application is the error of its batch. *)
Lemma apply_one_err codec s so record now db db' e :
  decode_signed_profile_sync_membership_record codec s = Ok (so, record) ->
  apply_decoded_sync_account_membership_record_in_transaction codec so record s now db
    = (db', Err e) ->
  apply_signed_sync_account_membership_record codec s now db = (db, Err e).
Proof.
  intros Hdec Ha. unfold apply_signed_sync_account_membership_record,
    apply_signed_sync_account_membership_records, sr_bind, sr_lift. simpl.
  rewrite Hdec. simpl. unfold transaction, sr_bind. by rewrite Ha.
Qed.

(** Replaying the record that was just applied changes nothing and
    reports the stored record and the same device key, except that a device which revoked
    itself is no longer a trusted signer: its record is then refused. *)
Theorem replay_applied_record codec s so record now now2 db db1 a :
  roster_ok codec db ->
  decode_signed_profile_sync_membership_record codec s = Ok (so, record) ->
  apply_signed_sync_account_membership_record codec s now db = (db1, Ok a) ->
  ma_applied a = true ->
  (mr_device_id record <> so_device_id so \/ ma_bootstrapped a = true ->
   apply_signed_sync_account_membership_record codec s now2 db1
   = (db1, Ok {| ma_membership_record := ma_membership_record a;
                 ma_device_key := ma_device_key a; ma_bootstrapped := false;
                 ma_applied := false |})) /\
  (mr_device_id record = so_device_id so -> mr_record_kind record = REVOKE_DEVICE ->
   apply_signed_sync_account_membership_record codec s now2 db1
   = (db1, Err (UntrustedSyncMembershipSigner (mr_profile record) (so_device_id so)))).
Proof.
  intros Hok Hdec Ha Happ. pose proof Hdec as (Hv & _)%decode_Ok.
  pose proof (conj Ha Happ) as Hboth.
  apply (membership_record_facts codec s so record now db db1 a Hok Hdec) in Hboth
    as (b & Hauth & Hf & _ & Hsame & Hnew & _ & -> & ->).
  pose proof (applied_db_ok codec db so record s now Hok Hdec Hf Hsame Hnew) as Hok1.
  pose proof (applied_db_applied codec db so record s now Hok Hdec Hsame) as (Hal & Hsame1 & Hd).
  set (db1 := applied_db db so record s now) in *. split.
  - intros Hcase. assert (trusted_signer db1 so record) as Hsig.
    { destruct Hcase as [Hne|Hb].
      - destruct b; [by destruct Hauth as (_ & _ & ? & _)|].
        apply trusted_signer_kept; [by apply Hauth|done].
      - simpl in Hb. subst b. by apply bootstrap_trusted_signer. }
    apply apply_one_spec. exists so, record. split; [done|].
    apply apply_decoded_spec; [done|by apply roster_rows_keyed with codec|].
    exists false. split; [split; [by apply trusted_signer_no_bootstrap|done]|].
    split; [done|]. rewrite Hal. split; [done|]. rewrite Hd. split; [done|]. apply Hv.
  - intros Hself Hk. destruct b; [destruct Hauth as (_ & Hk' & _); by rewrite Hk in Hk'|].
    destruct Hauth as [_ (k & [Hkey _]%trusted_key_Some & _)].
    eapply apply_one_err; [done|].
    unfold apply_decoded_sync_account_membership_record_in_transaction, sr_bind at 1.
    erewrite authorize_untrusted; [done|done| |].
    + intros (_ & Hk' & _). by rewrite Hk in Hk'.
    + pose proof (keys_after_self db db1 record now Hv eq_refl) as Hm. unfold key_matches in Hm.
      rewrite Hk in Hm. by rewrite <-Hself.
Qed.

(** ** Witnesses *)

(** Device [a] enrolls itself, enrolls [b], revokes [b] and finally itself. *)
Definition demo_record (payload : string) : result string ProfileSyncMembershipRecord :=
  let record epoch kind device key := Ok
    {| mr_profile := "default"; mr_record_id := payload; mr_schema_version := 1;
       mr_membership_epoch := epoch; mr_record_kind := kind; mr_device_id := device;
       mr_device_public_key := key; mr_created_at := epoch |} in
  if str_eqb payload "enroll-a"
  then record 1 ENROLL_DEVICE "a" (Some {| pk_device_id := "a"; pk_bytes := "key-a" |})
  else if str_eqb payload "enroll-b"
  then record 2 ENROLL_DEVICE "b" (Some {| pk_device_id := "b"; pk_bytes := "key-b" |})
  else if str_eqb payload "revoke-b" then record 3 REVOKE_DEVICE "b" None
  else if str_eqb payload "revoke-a" then record 4 REVOKE_DEVICE "a" None
  else Err "unknown record".

(** Documents are their payloads, all signed by [a]; a signature is the key followed
    by the payload. *)
Definition demo_codec : SyncCodec := {|
  signed_object_from_slice := fun s =>
    Ok {| so_version := 1; so_device_id := "a"; so_public_key := "key-a"; so_payload := s;
          so_signature := "key-a" +:+ s |};
  encrypted_object_from_slice := fun _ => Err "no document";
  membership_record_from_slice := demo_record;
  device_head_from_slice := fun _ => Err "no document";
  manifest_from_slice := fun _ => Err "no document";
  settings_snapshot_from_slice := fun _ => Err "no document";
  setting_change_from_slice := fun _ => Err "no document";
  ed25519_verify := fun key payload signature => str_eqb signature (key +:+ payload);
  chacha20_poly1305_open := fun _ _ _ _ => None
|}.

Definition demo_signed (payload : string) : SignedSyncObject :=
  {| so_version := 1; so_device_id := "a"; so_public_key := "key-a"; so_payload := payload;
     so_signature := "key-a" +:+ payload |}.

Definition enroll_a : ProfileSyncMembershipRecord :=
  {| mr_profile := "default"; mr_record_id := "enroll-a"; mr_schema_version := 1;
     mr_membership_epoch := 1; mr_record_kind := ENROLL_DEVICE; mr_device_id := "a";
     mr_device_public_key := Some {| pk_device_id := "a"; pk_bytes := "key-a" |};
     mr_created_at := 1 |}.

Definition roster_db (l : list string) : ProfileDb :=
  (apply_signed_sync_account_membership_records demo_codec l 50 empty_db).1.

Lemma roster_db_history l : membership_history demo_codec (roster_db l).
Proof. apply rtc_once. apply step_records. Qed.

Lemma membership_record_applied_witness :
  roster_ok demo_codec empty_db /\
  decode_signed_profile_sync_membership_record demo_codec "enroll-a"
    = Ok (demo_signed "enroll-a", enroll_a) /\
  exists b, authorised empty_db (demo_signed "enroll-a") enroll_a b /\ fresh empty_db enroll_a.
Proof.
  assert (roster_ok demo_codec empty_db) as Hok by apply empty_roster_ok.
  assert (decode_signed_profile_sync_membership_record demo_codec "enroll-a"
          = Ok (demo_signed "enroll-a", enroll_a)) as Hdec by (vm_compute; reflexivity).
  split; [exact Hok|]. split; [exact Hdec|].
  destruct (apply_signed_sync_account_membership_record demo_codec "enroll-a" 50 empty_db)
    as [db' [a|e]] eqn:E.
  - destruct (proj1 (membership_record_applied demo_codec "enroll-a" (demo_signed "enroll-a")
                enroll_a 50 empty_db db' a Hok Hdec)) as (b & Hauth & Hf & _).
    + split; [exact E|]. apply (f_equal snd) in E. vm_compute in E. injection E as <-. reflexivity.
    + exists b. split; [exact Hauth|exact Hf].
  - exfalso. apply (f_equal snd) in E. vm_compute in E. discriminate.
Defined.

Lemma roster_follows_records_witness :
  membership_history demo_codec (roster_db ["enroll-a"; "enroll-b"]) /\
  exists r so record, is_latest (roster_db ["enroll-a"; "enroll-b"]) "default" "b" r /\
    decode_signed_profile_sync_membership_record demo_codec (sm_signed_record r)
      = Ok (so, record) /\
    carries_public_key (mr_record_kind record) = true /\
    mr_device_public_key record = Some {| pk_device_id := "b"; pk_bytes := "key-b" |} /\
    mr_membership_epoch record = 2.
Proof.
  split; [apply roster_db_history|].
  apply (roster_follows_records demo_codec (roster_db ["enroll-a"; "enroll-b"]) "default" "b"
           {| pk_device_id := "b"; pk_bytes := "key-b" |} 2); [apply roster_db_history|].
  eexists. split; [vm_compute; reflexivity|]. split; reflexivity.
Defined.

Lemma replay_applied_record_witness :
  exists db1 a,
    apply_signed_sync_account_membership_record demo_codec "enroll-a" 50 empty_db = (db1, Ok a) /\
    apply_signed_sync_account_membership_record demo_codec "enroll-a" 60 db1
    = (db1, Ok {| ma_membership_record := ma_membership_record a;
                  ma_device_key := ma_device_key a; ma_bootstrapped := false;
                  ma_applied := false |}).
Proof.
  assert (roster_ok demo_codec empty_db) as Hok by apply empty_roster_ok.
  assert (decode_signed_profile_sync_membership_record demo_codec "enroll-a"
          = Ok (demo_signed "enroll-a", enroll_a)) as Hdec by (vm_compute; reflexivity).
  destruct (apply_signed_sync_account_membership_record demo_codec "enroll-a" 50 empty_db)
    as [db1 [a|e]] eqn:E.
  - assert (ma_applied a = true /\ ma_bootstrapped a = true) as [Ha Hb].
    { pose proof (f_equal snd E) as E2. vm_compute in E2. injection E2 as <-. done. }
    exists db1, a. split; [done|].
    apply (replay_applied_record demo_codec "enroll-a" (demo_signed "enroll-a") enroll_a 50 60
             empty_db db1 a Hok Hdec E Ha). right. exact Hb.
  - exfalso. apply (f_equal snd) in E. vm_compute in E. discriminate.
Defined.
