(* ===== verification/ProfileTables.v ===== *)
(** * Cookies, blobs, sync domains and content keys

    The tables of [crates/storage/src/lib.rs] beside the change log: cookies, binary
    blobs, the registered sync domains with their defaults, and the content-key epochs, of
    which at most one per profile is active. *)
From S2P Require Import Prelude RustStr AppViews Database SyncObjects SyncStore Membership.

(** ** Cookies *)

Record CookieUpdate := {
  cku_profile : string;
  cku_domain : string;
  cku_path : string;
  cku_name : string;
  cku_value : string;
  cku_expires_at : option Z;
  cku_is_secure : bool;
  cku_is_http_only : bool;
  cku_same_site : option string
}.

Definition upsert_cookie (cookie : CookieUpdate) (now : Z) : storage unit :=
  execute (fun db =>
    let key := (cku_profile cookie, cku_domain cookie, cku_path cookie, cku_name cookie) in
    let created_at := match db_cookies db !! key with
                      | Some c => ck_created_at c
                      | None => now
                      end in
    set_db_cookies (<[key := {| ck_profile := cku_profile cookie;
                                ck_domain := cku_domain cookie; ck_path := cku_path cookie;
                                ck_name := cku_name cookie; ck_value := cku_value cookie;
                                ck_expires_at := cku_expires_at cookie;
                                ck_is_secure := cku_is_secure cookie;
                                ck_is_http_only := cku_is_http_only cookie;
                                ck_same_site := cku_same_site cookie;
                                ck_created_at := created_at; ck_updated_at := now |}]>
                      (db_cookies db)) db).

(** The key of a row is [(profile, domain, path, name)], so the rows of a domain come in
    the order of the paths and names. *)
Definition cookies_for_domain (profile domain : string) (db : ProfileDb) : list CookieRecord :=
  sort_by (key_cmp (fun c => (ck_path c, ck_name c)))
    (map snd (map_to_list (filter (fun kv => kv.1.1.1 = (profile, domain)) (db_cookies db)))).

Definition delete_cookie (profile domain path name : string) : storage unit :=
  execute (fun db =>
    set_db_cookies (delete (profile, domain, path, name) (db_cookies db)) db).

(** ** Blobs *)

Definition set_blob (profile key : string) (media_type : option string) (data : string)
    (now : Z) : storage unit :=
  execute (fun db =>
    let created_at := match db_blobs db !! (profile, key) with
                      | Some b => bb_created_at b
                      | None => now
                      end in
    set_db_blobs (<[(profile, key) := {| bb_profile := profile; bb_key := key;
                                         bb_media_type := media_type; bb_data := data;
                                         bb_created_at := created_at;
                                         bb_updated_at := now |}]> (db_blobs db)) db).

Definition get_blob (profile key : string) (db : ProfileDb) : option BinaryBlobRecord :=
  db_blobs db !! (profile, key).

(** ** Sync domains *)

Record AppSyncDomainRegistration := {
  adr_profile : string;
  adr_domain : string;
  adr_schema_version : Z;
  adr_enabled : bool;
  adr_privacy_classification : string;
  adr_sync_content : bool
}.

Record DefaultAppSyncDomain := {
  dd_domain : string;
  dd_schema_version : Z;
  dd_privacy_classification : string;
  dd_sync_content : bool;
  dd_default_enabled : bool
}.

Definition DEFAULT_APP_SYNC_DOMAINS : list DefaultAppSyncDomain :=
  [ {| dd_domain := SYNC_DOMAIN_SETTINGS; dd_schema_version := 1;
       dd_privacy_classification := "low-risk"; dd_sync_content := false;
       dd_default_enabled := true |};
    {| dd_domain := SYNC_DOMAIN_BOOKMARKS; dd_schema_version := 1;
       dd_privacy_classification := "low-risk"; dd_sync_content := false;
       dd_default_enabled := true |};
    {| dd_domain := SYNC_DOMAIN_CALENDAR; dd_schema_version := 1;
       dd_privacy_classification := "sensitive"; dd_sync_content := false;
       dd_default_enabled := false |};
    {| dd_domain := SYNC_DOMAIN_CONTACTS; dd_schema_version := 1;
       dd_privacy_classification := "sensitive"; dd_sync_content := false;
       dd_default_enabled := false |};
    {| dd_domain := SYNC_DOMAIN_CHAT; dd_schema_version := 1;
       dd_privacy_classification := "sensitive"; dd_sync_content := false;
       dd_default_enabled := false |};
    {| dd_domain := SYNC_DOMAIN_FILES; dd_schema_version := 1;
       dd_privacy_classification := "content"; dd_sync_content := true;
       dd_default_enabled := false |};
    {| dd_domain := SYNC_DOMAIN_DOWNLOADS; dd_schema_version := 1;
       dd_privacy_classification := "metadata"; dd_sync_content := false;
       dd_default_enabled := true |};
    {| dd_domain := SYNC_DOMAIN_STORAGE; dd_schema_version := 1;
       dd_privacy_classification := "sensitive"; dd_sync_content := false;
       dd_default_enabled := false |} ].

(** The row of an upsert: [enabled] of an existing row is replaced by a registration and
    kept by the seeding. *)
Definition register_app_sync_domain (domain : AppSyncDomainRegistration) (now : Z) :
    storage unit :=
  execute (fun db =>
    let key := (adr_profile domain, adr_domain domain) in
    let created_at := match db_app_domains db !! key with
                      | Some d => ad_created_at d
                      | None => now
                      end in
    set_db_app_domains (<[key := {| ad_profile := adr_profile domain;
        ad_domain := adr_domain domain; ad_schema_version := adr_schema_version domain;
        ad_enabled := adr_enabled domain;
        ad_privacy_classification := adr_privacy_classification domain;
        ad_sync_content := adr_sync_content domain; ad_created_at := created_at;
        ad_updated_at := now |}]> (db_app_domains db)) db).

Definition seed_default_app_sync_domain (profile : string) (domain : DefaultAppSyncDomain)
    (now : Z) : storage unit :=
  execute (fun db =>
    let key := (profile, dd_domain domain) in
    let '(enabled, created_at) := match db_app_domains db !! key with
                                  | Some d => (ad_enabled d, ad_created_at d)
                                  | None => (dd_default_enabled domain, now)
                                  end in
    set_db_app_domains (<[key := {| ad_profile := profile; ad_domain := dd_domain domain;
        ad_schema_version := dd_schema_version domain; ad_enabled := enabled;
        ad_privacy_classification := dd_privacy_classification domain;
        ad_sync_content := dd_sync_content domain; ad_created_at := created_at;
        ad_updated_at := now |}]> (db_app_domains db)) db).

Fixpoint seed_app_sync_domains (profile : string) (domains : list DefaultAppSyncDomain)
    (now : Z) : storage unit :=
  match domains with
  | [] => sr_ret tt
  | domain :: domains =>
      do* seed_default_app_sync_domain profile domain now in
      seed_app_sync_domains profile domains now
  end.

Definition ensure_default_app_sync_domains (profile : string) (now : Z) : storage unit :=
  seed_app_sync_domains profile DEFAULT_APP_SYNC_DOMAINS now.

Definition app_sync_domains (profile : string) (db : ProfileDb) : list AppSyncDomainRecord :=
  btree_values (filter (fun kv => kv.1.1 = profile) (db_app_domains db)).

Definition enabled_app_sync_domains (profile : string) (db : ProfileDb) :
    list AppSyncDomainRecord :=
  List.filter ad_enabled (app_sync_domains profile db).

(** ** Content keys *)

Definition PROFILE_SYNC_CONTENT_KEY_ALGORITHM_CHACHA20_POLY1305 : string := "chacha20-poly1305".
Definition DEFAULT_PROFILE_SYNC_CONTENT_KEY_ID : string := "content-key-epoch-1".

Record SyncContentKeyEpochRegistration := {
  ker_profile : string;
  ker_key_id : string;
  ker_membership_epoch : Z;
  ker_algorithm : string;
  ker_active : bool
}.

Definition deactivate_key (profile : string) (now : Z) (key : SyncContentKeyEpochRecord) :
    SyncContentKeyEpochRecord :=
  if str_eqb (ke_profile key) profile && ke_active key
  then {| ke_profile := ke_profile key; ke_key_id := ke_key_id key;
          ke_membership_epoch := ke_membership_epoch key; ke_algorithm := ke_algorithm key;
          ke_active := false; ke_created_at := ke_created_at key; ke_updated_at := now |}
  else key.

(** Another active key of the profile, which the index
    [sync_content_key_epochs_one_active] refuses beside an active one. *)
Definition other_active_key (profile key_id : string) (db : ProfileDb) : bool :=
  existsb (fun '(k, key) => str_eqb k.1 profile && negb (str_eqb k.2 key_id) && ke_active key)
    (map_to_list (db_key_epochs db)).

Definition upsert_content_key_epoch (registration : SyncContentKeyEpochRegistration) (now : Z) :
    sql unit :=
  fun db =>
    let k := (ker_profile registration, ker_key_id registration) in
    if ker_active registration
       && other_active_key (ker_profile registration) (ker_key_id registration) db
    then (db, Err (ConstraintViolation "sync_content_key_epochs_one_active"))
    else
      let created_at := match db_key_epochs db !! k with
                        | Some key => ke_created_at key
                        | None => now
                        end in
      (set_db_key_epochs (<[k := {| ke_profile := ker_profile registration;
           ke_key_id := ker_key_id registration;
           ke_membership_epoch := ker_membership_epoch registration;
           ke_algorithm := ker_algorithm registration; ke_active := ker_active registration;
           ke_created_at := created_at; ke_updated_at := now |}]> (db_key_epochs db)) db,
       Ok tt).

Definition register_sync_content_key_epoch (registration : SyncContentKeyEpochRegistration)
    (now : Z) : storage SyncContentKeyEpochRecord :=
  if negb (is_valid_sync_identifier (ker_key_id registration))
  then sr_err (InvalidSyncContentKeyId (ker_key_id registration))
  else
  transaction (
    do* (if ker_active registration
         then execute (fun db => set_db_key_epochs
                (deactivate_key (ker_profile registration) now <$> db_key_epochs db) db)
         else sr_ret tt) in
    do* database_error (upsert_content_key_epoch registration now) in
    let* row := query (fun db =>
      db_key_epochs db !! (ker_profile registration, ker_key_id registration)) in
    required_row row).

Definition sync_content_key_epoch (profile key_id : string) :
    storage (option SyncContentKeyEpochRecord) :=
  if negb (is_valid_sync_identifier key_id) then sr_err (InvalidSyncContentKeyId key_id)
  else query (fun db => db_key_epochs db !! (profile, key_id)).

Definition sync_content_key_epochs (profile : string) (db : ProfileDb) :
    list SyncContentKeyEpochRecord :=
  sort_by (key_cmp (fun key => (ke_membership_epoch key, ke_key_id key)))
    (btree_values (filter (fun kv => kv.1.1 = profile) (db_key_epochs db))).

(** [ORDER BY membership_epoch DESC, updated_at DESC LIMIT 1]: there is at most one row. *)
Definition active_sync_content_key_epoch (profile : string) (db : ProfileDb) :
    option SyncContentKeyEpochRecord :=
  select_max (fun key => (ke_membership_epoch key, ke_updated_at key))
    (List.filter ke_active
       (btree_values (filter (fun kv => kv.1.1 = profile) (db_key_epochs db)))).

Definition validate_active_sync_content_key_epoch (key : SyncContentKeyEpochRecord) :
    result StorageError unit :=
  if negb (str_eqb (ke_algorithm key) PROFILE_SYNC_CONTENT_KEY_ALGORITHM_CHACHA20_POLY1305)
  then Err (UnsupportedSyncContentKeyAlgorithm (ke_key_id key) (ke_algorithm key))
  else Ok tt.

Definition validate_sync_content_key_epoch_for_manifest (key : SyncContentKeyEpochRecord)
    (manifest : ProfileSyncManifest) : result StorageError unit :=
  if mf_membership_epoch manifest <? ke_membership_epoch key
  then Err (UnauthorizedSyncContentKeyEpoch (mf_profile manifest) (ke_key_id key)
              (ke_membership_epoch key) (mf_membership_epoch manifest))
  else Ok tt.

(** ** Laws of the content keys *)

(** The rows are under their keys and at most one key of a profile is active. *)
Record key_epochs_ok (db : ProfileDb) : Prop := {
  ko_key k key : db_key_epochs db !! k = Some key -> (ke_profile key, ke_key_id key) = k;
  ko_one_active profile k1 k2 key1 key2 :
    db_key_epochs db !! (profile, k1) = Some key1 -> ke_active key1 = true ->
    db_key_epochs db !! (profile, k2) = Some key2 -> ke_active key2 = true -> k1 = k2
}.

Definition is_active_key (profile : string) (db : ProfileDb) (key : SyncContentKeyEpochRecord) :
    Prop :=
  db_key_epochs db !! (profile, ke_key_id key) = Some key /\ ke_active key = true.

Lemma elem_of_active profile db key :
  key_epochs_ok db ->
  key ∈ List.filter ke_active (btree_values (filter (fun kv => kv.1.1 = profile) (db_key_epochs db)))
  <-> is_active_key profile db key.
Proof.
  intros Hok. rewrite elem_of_filter_bool. unfold btree_values.
  split.
  - intros [Ha Hin]. apply list_elem_of_fmap in Hin as ([k key'] & -> & Hin).
    apply elem_of_btree_iter, map_lookup_filter_Some in Hin as [Hk <-].
    destruct k as [p id]. pose proof (ko_key db Hok _ _ Hk) as [= <- <-]. by split.
  - intros [Hk Ha]. split; [done|]. apply list_elem_of_fmap.
    exists ((profile, ke_key_id key), key). split; [done|].
    by apply elem_of_btree_iter, map_lookup_filter_Some.
Qed.

Lemma active_key_spec profile db key :
  key_epochs_ok db ->
  active_sync_content_key_epoch profile db = Some key <-> is_active_key profile db key.
Proof.
  intros Hok. unfold active_sync_content_key_epoch. split.
  - intros [Hin _]%select_max_Some. by apply elem_of_active in Hin.
  - intros Hk. pose proof Hk as Hin%elem_of_active; [|done].
    destruct (select_max_is_Some (fun key => (ke_membership_epoch key, ke_updated_at key)) _ _ Hin)
      as [key' Hs]. rewrite Hs. f_equal.
    apply select_max_Some in Hs as [Hin' _]. apply elem_of_active in Hin'; [|done].
    destruct Hk as [Hk Ha], Hin' as [Hk' Ha'].
    pose proof (ko_one_active db Hok _ _ _ _ _ Hk Ha Hk' Ha') as Hid. rewrite Hid in Hk. congruence.
Qed.

Definition registered_key (registration : SyncContentKeyEpochRegistration) (now : Z)
    (db : ProfileDb) : SyncContentKeyEpochRecord := {|
  ke_profile := ker_profile registration; ke_key_id := ker_key_id registration;
  ke_membership_epoch := ker_membership_epoch registration;
  ke_algorithm := ker_algorithm registration; ke_active := ker_active registration;
  ke_created_at := match db_key_epochs db
                           !! (ker_profile registration, ker_key_id registration) with
                   | Some key => ke_created_at key
                   | None => now
                   end;
  ke_updated_at := now |}.

Lemma existsb_false {A} (p : A -> bool) l : (forall x, x ∈ l -> p x = false) -> existsb p l = false.
Proof.
  intros Hp. apply not_true_iff_false. rewrite existsb_exists. intros (x & Hx & Hpx).
  rewrite Hp in Hpx; [done|]. by apply list_elem_of_In.
Qed.

(** After the deactivation no key of the profile is active. *)
Lemma deactivated_none_active profile now db key_id :
  key_epochs_ok db ->
  other_active_key profile key_id
    (set_db_key_epochs (deactivate_key profile now <$> db_key_epochs db) db) = false.
Proof.
  intros Hok. apply existsb_false. intros [k key] Hin%elem_of_map_to_list. simpl in Hin.
  apply lookup_fmap_Some in Hin as (key' & <- & Hk). pose proof (ko_key db Hok _ _ Hk) as <-.
  simpl. unfold deactivate_key.
  destruct (str_eqb (ke_profile key') profile) eqn:Hp; [|done].
  destruct (ke_active key') eqn:Ha; simpl; by rewrite ?Ha, ?andb_false_r.
Qed.

Lemma lookup_deactivate (profile : string) (now : Z)
    (epochs : gmap (string * string) SyncContentKeyEpochRecord) (k : string * string) key :
  (deactivate_key profile now <$> epochs) !! k = Some key ->
  exists key', epochs !! k = Some key' /\ (ke_profile key, ke_key_id key)
    = (ke_profile key', ke_key_id key') /\
    (ke_active key = true -> key = key' /\ ke_profile key <> profile).
Proof.
  intros (key' & <- & Hk)%lookup_fmap_Some. exists key'. split; [done|].
  unfold deactivate_key. destruct (str_eqb (ke_profile key') profile) eqn:Hp; simpl.
  - destruct (ke_active key') eqn:Ha; simpl; split; try done. congruence.
  - split; [done|]. intros _. split; [done|]. by apply str_eqb_neq.
Qed.

(** The table after a registration. *)
Definition register_epochs (registration : SyncContentKeyEpochRegistration) (now : Z)
    (db : ProfileDb) : gmap (string * string) SyncContentKeyEpochRecord :=
  <[(ker_profile registration, ker_key_id registration) := registered_key registration now db]>
    (if ker_active registration
     then deactivate_key (ker_profile registration) now <$> db_key_epochs db
     else db_key_epochs db).

Lemma register_content_key_outcome registration now db :
  key_epochs_ok db -> is_valid_sync_identifier (ker_key_id registration) = true ->
  register_sync_content_key_epoch registration now db
  = (set_db_key_epochs (register_epochs registration now db) db,
     Ok (registered_key registration now db)).
Proof.
  intros Hok Hid. unfold register_sync_content_key_epoch. rewrite Hid. simpl.
  unfold transaction, sr_bind, database_error, upsert_content_key_epoch, register_epochs.
  destruct (ker_active registration) eqn:Ha; simpl.
  - rewrite deactivated_none_active by done. simpl. unfold query, required_row, sr_lift. simpl.
    assert (Hc : match (deactivate_key (ker_profile registration) now <$> db_key_epochs db)
                   !! (ker_profile registration, ker_key_id registration) with
                 | Some key => ke_created_at key
                 | None => now
                 end = ke_created_at (registered_key registration now db)).
    { rewrite lookup_fmap. simpl. destruct (db_key_epochs db !! _) as [key|]; [|done]. simpl.
      unfold deactivate_key. by destruct (_ && _). }
    rewrite Hc. unfold registered_key in *. simpl. rewrite Ha, lookup_insert_eq. simpl. done.
  - unfold query, required_row, sr_lift. simpl. unfold registered_key. rewrite Ha.
    rewrite lookup_insert_eq. simpl. done.
Qed.

Lemma register_epochs_ok registration now db :
  key_epochs_ok db ->
  key_epochs_ok (set_db_key_epochs (register_epochs registration now db) db).
Proof.
  intros Hok. set (k0 := (ker_profile registration, ker_key_id registration)).
  assert (Hlook : forall k key, register_epochs registration now db !! k = Some key ->
    (k = k0 /\ key = registered_key registration now db) \/
    (k <> k0 /\ exists key', db_key_epochs db !! k = Some key' /\
       (ke_profile key, ke_key_id key) = (ke_profile key', ke_key_id key') /\
       (ke_active key = true -> key = key' /\
          (ker_active registration = true -> ke_profile key <> ker_profile registration)))).
  { intros k key. unfold register_epochs. fold k0.
    rewrite lookup_insert_Some. intros [[<- <-]|[Hne Hk]]; [by left|right].
    split; [done|]. destruct (ker_active registration).
    - apply lookup_deactivate in Hk as (key' & ? & ? & Hact). exists key'.
      split_and!; [done..|]. intros Ha. by destruct (Hact Ha).
    - by exists key. }
  subst k0. split; simpl.
  - intros k key [[-> ->]|[_ (key' & Hk & Heq & _)]]%Hlook; [done|].
    rewrite Heq. by apply (ko_key db Hok).
  - assert (Hnew : forall k key', k <> ker_key_id registration ->
      db_key_epochs db !! (ker_profile registration, k) = Some key' ->
      (ker_active registration = true -> ke_profile key' <> ker_profile registration) ->
      ker_active registration = true -> False).
    { intros k key' _ Hk Hp Ha. apply (Hp Ha). pose proof (ko_key db Hok _ _ Hk). congruence. }
    intros profile k1 k2 key1 key2 H1%Hlook Ha1 H2%Hlook Ha2.
    destruct H1 as [[E1 ->]|[N1 (o1 & L1 & Q1 & A1)]], H2 as [[E2 ->]|[N2 (o2 & L2 & Q2 & A2)]].
    + congruence.
    + exfalso. destruct (A2 Ha2) as [-> Hp]. injection E1 as -> ->.
      apply (Hnew k2 o2); [congruence|done|done|done].
    + exfalso. destruct (A1 Ha1) as [-> Hp]. injection E2 as -> ->.
      apply (Hnew k1 o1); [congruence|done|done|done].
    + destruct (A1 Ha1) as [-> _], (A2 Ha2) as [-> _].
      by apply (ko_one_active db Hok profile k1 k2 o1 o2).
Qed.

(** C22: (type) The table of content keys stays well formed: a registration with a valid
    key id never meets the index of active keys, keeps every row under its own key and at
    most one key of each profile active, answers the registered key, and an active
    registration is the profile's active key from then on. *)
Theorem content_key_registration registration now db :
  key_epochs_ok db -> is_valid_sync_identifier (ker_key_id registration) = true ->
  let '(db', r) := register_sync_content_key_epoch registration now db in
  key_epochs_ok db' /\ r = Ok (registered_key registration now db) /\
  (ker_active registration = true ->
   active_sync_content_key_epoch (ker_profile registration) db'
   = Some (registered_key registration now db)) /\
  (forall profile, profile <> ker_profile registration ->
   active_sync_content_key_epoch profile db' = active_sync_content_key_epoch profile db).
Proof.
  intros Hok Hid. rewrite register_content_key_outcome by done. split_and!.
  - by apply register_epochs_ok.
  - done.
  - intros Ha. apply active_key_spec; [by apply register_epochs_ok|]. split; [|done].
    simpl. unfold register_epochs. by rewrite lookup_insert_eq.
  - intros profile Hp. pose proof (register_epochs_ok registration now db Hok) as Hok'.
    assert (Hsame : forall key, is_active_key profile
      (set_db_key_epochs (register_epochs registration now db) db) key
      <-> is_active_key profile db key).
    { intros key. unfold is_active_key. simpl. unfold register_epochs.
      rewrite lookup_insert_ne by congruence.
      destruct (ker_active registration); [|done]. rewrite lookup_fmap. split.
      - intros [Hk Ha]. destruct (db_key_epochs db !! _) as [key'|] eqn:Hk'; [|done].
        simpl in Hk. injection Hk as Hk. unfold deactivate_key in Hk.
        pose proof (ko_key db Hok _ _ Hk') as Hpk. injection Hpk as Hpk _.
        destruct (str_eqb (ke_profile key') _) eqn:E;
          [apply str_eqb_eq in E; congruence|]. simpl in Hk. by subst.
      - intros [Hk Ha]. rewrite Hk. simpl. split; [|done]. f_equal. unfold deactivate_key.
        pose proof (ko_key db Hok _ _ Hk) as Hpk. injection Hpk as Hpk.
        destruct (str_eqb (ke_profile key) _) eqn:E; [apply str_eqb_eq in E; congruence|done]. }
    destruct (active_sync_content_key_epoch profile db) as [key|] eqn:E.
    + apply active_key_spec; [done|]. apply Hsame. by apply active_key_spec in E.
    + apply eq_None_not_Some. intros [key E'%active_key_spec]; [|done].
      apply Hsame, (active_key_spec _ _ _ Hok) in E'. congruence.
Qed.

(** ** Laws of the sync domains *)

Lemma seed_domain_lookup profile domain now db :
  let db' := (seed_default_app_sync_domain profile domain now db).1 in
  (forall k, k <> (profile, dd_domain domain) -> db_app_domains db' !! k = db_app_domains db !! k) /\
  exists d, db_app_domains db' !! (profile, dd_domain domain) = Some d /\
    ad_schema_version d = dd_schema_version domain /\
    ad_sync_content d = dd_sync_content domain /\
    ad_enabled d = match db_app_domains db !! (profile, dd_domain domain) with
                   | Some old => ad_enabled old
                   | None => dd_default_enabled domain
                   end.
Proof.
  unfold seed_default_app_sync_domain, execute. simpl.
  destruct (db_app_domains db !! (profile, dd_domain domain)) as [old|]; simpl; split;
    [intros k Hk; by rewrite lookup_insert_ne| |intros k Hk; by rewrite lookup_insert_ne|];
    rewrite lookup_insert_eq; eauto.
Qed.

(** The domain a row has after a seeding of the profile. *)
Definition seeded_enabled (domains : list DefaultAppSyncDomain) (old : option AppSyncDomainRecord)
    (name : string) : option bool :=
  match old with
  | Some d => Some (ad_enabled d)
  | None => option_map dd_default_enabled
              (list_find_bool (fun domain => str_eqb (dd_domain domain) name) domains)
  end.

Lemma seed_domains_enabled profile domains now db name :
  NoDup (map dd_domain domains) ->
  ad_enabled <$> db_app_domains (seed_app_sync_domains profile domains now db).1 !! (profile, name)
  = seeded_enabled domains (db_app_domains db !! (profile, name)) name.
Proof.
  revert db. induction domains as [|domain domains IH]; intros db Hnd; simpl.
  - unfold seeded_enabled. by destruct (db_app_domains db !! _).
  - apply NoDup_cons in Hnd as [Hnew Hnd]. unfold sr_bind.
    destruct (seed_domain_lookup profile domain now db) as (Hother & d & Hd & _ & _ & He).
    destruct (seed_default_app_sync_domain profile domain now db) as [db1 r] eqn:Hs.
    assert (r = Ok tt) as ->.
    { unfold seed_default_app_sync_domain, execute in Hs. by injection Hs. }
    simpl in *. rewrite IH by done. unfold seeded_enabled. simpl.
    destruct (str_eqb (dd_domain domain) name) eqn:Hn; simpl.
    + apply str_eqb_eq in Hn as <-. rewrite Hd, He.
      by destruct (db_app_domains db !! _).
    + apply str_eqb_neq in Hn. rewrite Hother by congruence.
      by destruct (db_app_domains db !! _).
Qed.

(** The defaults are seeded once: a domain the user has already registered keeps the
    choice made for it, every other default domain gets its default. *)
Theorem default_domains_seeded profile now db name :
  ad_enabled <$> db_app_domains (ensure_default_app_sync_domains profile now db).1
                   !! (profile, name)
  = seeded_enabled DEFAULT_APP_SYNC_DOMAINS (db_app_domains db !! (profile, name)) name.
Proof.
  apply seed_domains_enabled. apply (bool_decide_eq_true_1 _). vm_compute. reflexivity.
Qed.

(** ** Witnesses *)

Definition demo_key (key_id : string) : SyncContentKeyEpochRegistration := {|
  ker_profile := "default"; ker_key_id := key_id; ker_membership_epoch := 1;
  ker_algorithm := PROFILE_SYNC_CONTENT_KEY_ALGORITHM_CHACHA20_POLY1305; ker_active := true |}.

Lemma key_epochs_ok_empty : key_epochs_ok empty_db.
Proof. split; simpl; intros *; rewrite ?lookup_empty; done. Qed.

Definition db_with_key : ProfileDb :=
  set_db_key_epochs (register_epochs (demo_key "k1") 1 empty_db) empty_db.

Lemma content_key_registration_witness :
  active_sync_content_key_epoch "default"
    (register_sync_content_key_epoch (demo_key "k2") 2 db_with_key).1
  = Some (registered_key (demo_key "k2") 2 db_with_key).
Proof.
  pose proof (content_key_registration (demo_key "k2") 2 db_with_key
    (register_epochs_ok (demo_key "k1") 1 empty_db key_epochs_ok_empty) eq_refl) as H.
  destruct (register_sync_content_key_epoch (demo_key "k2") 2 db_with_key) as [db' r].
  destruct H as (_ & _ & H & _). by apply H.
Defined.
