(* ===== verification/TrustedOpen.v ===== *)
(** * Opening signed objects of trusted devices

    The reading side of [crates/storage/src/lib.rs]: a signed and encrypted object
    is opened only when its signer holds a trusted key in the roster, is not a
    storage provider, and signed with that very key; the objects of a manifest also
    need keys that were trusted at the manifest's membership epoch. *)
From S2P Require Import Prelude RustStr AppViews Database SyncObjects SyncStore.
From S2P Require Import Membership MembershipLaws.

Inductive ProfileSyncTrustedOpenError :=
  | Storage (error : StorageError)
  | SyncObject (error : SyncObjectError)
  | UntrustedDevice (profile device_id : string)
  | ProviderAuthoritySigner (profile device_id : string)
  | UnauthorizedDeviceEpoch (profile device_id : string)
      (key_membership_epoch manifest_membership_epoch : Z).

Definition opening (A : Type) : Type := state_result ProfileDb ProfileSyncTrustedOpenError A.

Definition sync_object {A} (r : result SyncObjectError A) : opening A :=
  sr_lift (map_err SyncObject r).

(** ** Operations *)

Section Opening.
Context (codec : SyncCodec).

Definition trusted_public_key_record_for_signed_object (profile : string)
    (signed_object : SignedSyncObject) : opening SyncDevicePublicKeyRecord :=
  if negb (is_valid_sync_identifier (so_device_id signed_object))
  then sr_err (SyncObject (InvalidDeviceId (so_device_id signed_object)))
  else
  let* record := sr_map_err Storage
                   (sync_device_public_key profile (so_device_id signed_object)) in
  match record with
  | None => sr_err (UntrustedDevice profile (so_device_id signed_object))
  | Some record =>
      if negb (sk_trusted record)
      then sr_err (UntrustedDevice profile (so_device_id signed_object))
      else sr_ret record
  end.

Definition trusted_profile_state_public_key_for_signed_object (profile : string)
    (signed_object : SignedSyncObject) : opening ProfileSyncDevicePublicKey :=
  let* record := trusted_public_key_record_for_signed_object profile signed_object in
  let* provider_authority := sr_map_err Storage
         (sync_device_provider_authority profile (so_device_id signed_object)) in
  if provider_authority : bool
  then sr_err (ProviderAuthoritySigner profile (so_device_id signed_object))
  else sr_ret (sk_public_key record).

Definition validate_signed_object_membership_epoch (bytes profile : string)
    (manifest_membership_epoch : Z) : opening unit :=
  let* signed_object := sync_object (signed_from_bytes codec bytes) in
  let* record := trusted_public_key_record_for_signed_object profile signed_object in
  if manifest_membership_epoch <? sk_membership_epoch record
  then sr_err (UnauthorizedDeviceEpoch profile (so_device_id signed_object)
                 (sk_membership_epoch record) manifest_membership_epoch)
  else sr_ret tt.

Definition open_trusted_signed_encrypted_sync_payload (bytes content_key expected_profile
    expected_domain expected_object_kind expected_key_id : string) : opening string :=
  let* signed_object := sync_object (signed_from_bytes codec bytes) in
  let* public_key := trusted_profile_state_public_key_for_signed_object expected_profile
                       signed_object in
  let* encrypted_bytes := sync_object (verify_with codec signed_object public_key) in
  let* encrypted_object := sync_object (encrypted_from_bytes codec encrypted_bytes) in
  sync_object (open_expected codec encrypted_object content_key expected_profile
                 expected_domain expected_object_kind expected_key_id).

Definition open_trusted_signed_profile_sync_manifest (bytes content_key profile key_id : string) :
    opening ProfileSyncManifest :=
  let* payload := open_trusted_signed_encrypted_sync_payload bytes content_key profile
                    SYNC_DOMAIN_SETTINGS PROFILE_SYNC_MANIFEST_OBJECT_KIND key_id in
  sync_object (map_err Decode (manifest_from_slice codec payload)).

Definition open_trusted_signed_profile_sync_device_head
    (bytes content_key profile key_id : string) : opening ProfileSyncDeviceHead :=
  let* signed_object := sync_object (signed_from_bytes codec bytes) in
  let* public_key := trusted_profile_state_public_key_for_signed_object profile signed_object in
  let* device_head := sync_object (open_signed_profile_sync_device_head codec bytes content_key
                                     public_key profile key_id) in
  do* validate_signed_object_membership_epoch bytes profile (dh_membership_epoch device_head) in
  sr_ret device_head.

Definition open_trusted_signed_profile_sync_settings_snapshot
    (bytes content_key profile key_id : string) : opening ProfileSyncSettingsSnapshot :=
  let* payload := open_trusted_signed_encrypted_sync_payload bytes content_key profile
                    SYNC_DOMAIN_SETTINGS PROFILE_SYNC_SETTINGS_SNAPSHOT_OBJECT_KIND key_id in
  sync_object (map_err Decode (settings_snapshot_from_slice codec payload)).

Definition open_trusted_signed_sync_setting_text_for_profile
    (bytes content_key profile key_id : string) : opening IncomingSyncSettingText :=
  let* signed_object := sync_object (signed_from_bytes codec bytes) in
  let* public_key := trusted_profile_state_public_key_for_signed_object profile signed_object in
  let* encrypted_bytes := sync_object (verify_with codec signed_object public_key) in
  let* encrypted_object := sync_object (encrypted_from_bytes codec encrypted_bytes) in
  sync_object (open_setting_change codec encrypted_object content_key profile key_id).

(** The loop over the tail objects of a manifest. *)
Fixpoint open_tail_changes (tail_change_objects : list ProfileSyncObjectBytes)
    (membership_epoch : Z) (content_key profile key_id : string) :
    opening (list VerifiedProfileSyncSettingsTailChange) :=
  match tail_change_objects with
  | [] => sr_ret []
  | tail_object :: tail_change_objects =>
      do* validate_signed_object_membership_epoch (ob_bytes tail_object) profile
            membership_epoch in
      let* change := open_trusted_signed_sync_setting_text_for_profile (ob_bytes tail_object)
                       content_key profile key_id in
      let* tail_changes := open_tail_changes tail_change_objects membership_epoch content_key
                             profile key_id in
      sr_ret ({| vt_object_id := ob_object_id tail_object; vt_change := change |}
                :: tail_changes)
  end.

Definition open_trusted_signed_profile_sync_settings_manifest_objects
    (manifest_object : ProfileSyncObjectBytes) (snapshot_object : option ProfileSyncObjectBytes)
    (tail_change_objects : list ProfileSyncObjectBytes) (content_key profile key_id : string) :
    opening VerifiedProfileSyncSettingsManifestObjects :=
  let* manifest := open_trusted_signed_profile_sync_manifest (ob_bytes manifest_object)
                     content_key profile key_id in
  do* validate_signed_object_membership_epoch (ob_bytes manifest_object) profile
        (mf_membership_epoch manifest) in
  let* snapshot :=
    match snapshot_object with
    | None => sr_ret None
    | Some snapshot_object =>
        do* validate_signed_object_membership_epoch (ob_bytes snapshot_object) profile
              (mf_membership_epoch manifest) in
        let* snapshot := open_trusted_signed_profile_sync_settings_snapshot
                           (ob_bytes snapshot_object) content_key profile key_id in
        sr_ret (Some {| vs_object_id := ob_object_id snapshot_object; vs_snapshot := snapshot |})
    end in
  let* tail_changes := open_tail_changes tail_change_objects (mf_membership_epoch manifest)
                         content_key profile key_id in
  sr_ret {| vm_manifest_object_id := ob_object_id manifest_object; vm_manifest := manifest;
            vm_snapshot := snapshot; vm_tail_changes := tail_changes |}.

(** ** What an opened object proves *)

(** [bytes] are signed with the trusted key of a device that is no storage provider;
    the signature covers the ciphertext [encrypted] is read from. *)
Definition authentic (db : ProfileDb) (profile bytes : string) (signed_object : SignedSyncObject)
    (key : SyncDevicePublicKeyRecord) (encrypted : EncryptedSyncObject) : Prop :=
  signed_object_from_slice codec bytes = Ok signed_object /\
  trusted_key db profile (so_device_id signed_object) = Some key /\
  sk_public_key key = {| pk_device_id := so_device_id signed_object;
                         pk_bytes := so_public_key signed_object |} /\
  provider_authority_of db profile (so_device_id signed_object) = false /\
  ed25519_verify codec (so_public_key signed_object) (so_payload signed_object)
    (so_signature signed_object) = true /\
  encrypted_object_from_slice codec (so_payload signed_object) = Ok encrypted.

(** The ciphertext opens to [payload] under associated data that names its profile,
    domain, kind and key. *)
Definition decrypts (encrypted : EncryptedSyncObject)
    (content_key profile domain kind key_id payload : string) : Prop :=
  eo_profile encrypted = profile /\ eo_domain encrypted = domain /\
  eo_object_kind encrypted = kind /\ eo_key_id encrypted = key_id /\
  chacha20_poly1305_open codec content_key (associated_data encrypted) (eo_nonce encrypted)
    (eo_ciphertext encrypted) = Some payload.

Lemma trusted_record_spec profile so db db' key :
  trusted_public_key_record_for_signed_object profile so db = (db', Ok key) <->
  db' = db /\ is_valid_sync_identifier (so_device_id so) = true /\
  trusted_key db profile (so_device_id so) = Some key.
Proof.
  unfold trusted_public_key_record_for_signed_object, sync_device_public_key,
    sync_device_public_key_in_transaction, trusted_key.
  destruct (is_valid_sync_identifier (so_device_id so)) eqn:Hid; simpl;
    [|split; [done|by intros (_ & ? & _)]].
  unfold sr_bind, sr_map_err, query. simpl.
  destruct (db_public_keys db !! _) as [k|]; [|split; [done|by intros (_ & _ & ?)]].
  destruct (sk_trusted k); simpl; unfold sr_ret, sr_err.
  - split; [by intros [= <- <-]|by intros (-> & _ & [= <-])].
  - split; [done|by intros (_ & _ & ?)].
Qed.

Lemma trusted_profile_key_spec profile so db db' pk :
  trusted_profile_state_public_key_for_signed_object profile so db = (db', Ok pk) <->
  db' = db /\ is_valid_sync_identifier (so_device_id so) = true /\
  provider_authority_of db profile (so_device_id so) = false /\
  exists key, trusted_key db profile (so_device_id so) = Some key /\ sk_public_key key = pk.
Proof.
  unfold trusted_profile_state_public_key_for_signed_object. rewrite sr_bind_ok.
  setoid_rewrite trusted_record_spec. unfold sync_device_provider_authority,
    sync_device_provider_authority_in_transaction, provider_authority_of. split.
  - intros (db1 & key & (-> & Hid & Hk) & Hr). rewrite Hid in Hr.
    unfold sr_bind, sr_map_err, query in Hr. simpl in Hr.
    destruct (match db_devices db !! _ with Some d => _ | None => _ end); [done|].
    injection Hr as <- <-. split_and!; [done..|]. by exists key.
  - intros (-> & Hid & Hp & key & Hk & <-). exists db, key. split; [done|].
    rewrite Hid. unfold sr_bind, sr_map_err, query. simpl. by rewrite Hp.
Qed.

Lemma sync_object_ok {A} (r : result SyncObjectError A) db db' a :
  sync_object r db = (db', Ok a) <-> db' = db /\ r = Ok a.
Proof. unfold sync_object, sr_lift. destruct r; simpl; naive_solver. Qed.

Lemma open_payload_spec bytes content_key profile domain kind key_id db db' payload :
  open_trusted_signed_encrypted_sync_payload bytes content_key profile domain kind key_id db
    = (db', Ok payload) ->
  db' = db /\ exists so key encrypted, authentic db profile bytes so key encrypted /\
    decrypts encrypted content_key profile domain kind key_id payload.
Proof.
  unfold open_trusted_signed_encrypted_sync_payload.
  intros (db1 & so & [-> Hso]%sync_object_ok & Hr)%sr_bind_ok.
  apply sr_bind_ok in Hr as (db2 & pk & (-> & _ & Hp & key & Hk & <-)%trusted_profile_key_spec & Hr).
  apply sr_bind_ok in Hr as (db3 & bytes' & [-> Hv]%sync_object_ok & Hr).
  apply sr_bind_ok in Hr as (db4 & encrypted & [-> He]%sync_object_ok & Hr).
  apply sync_object_ok in Hr as [-> Hr].
  apply verify_with_Ok in Hv as (_ & Hd & Hb & -> & Hsig).
  unfold open_expected in Hr.
  destruct (validate_expected encrypted profile domain kind key_id) eqn:Hval; [|done].
  apply validate_expected_Ok in Hval as (? & ? & ? & ?).
  apply open_Ok in Hr as (_ & _ & Hopen). split; [done|]. exists so, key, encrypted.
  unfold signed_from_bytes, encrypted_from_bytes in *.
  destruct (signed_object_from_slice codec bytes) eqn:Hs; [|done]. injection Hso as ->.
  destruct (encrypted_object_from_slice codec (so_payload so)) eqn:Hes; [|done].
  injection He as ->. split; [|done]. split_and!; try done.
  destruct (sk_public_key key). simpl in *. congruence.
Qed.

Lemma epoch_spec bytes profile epoch db db' u :
  validate_signed_object_membership_epoch bytes profile epoch db = (db', Ok u) ->
  db' = db /\ exists so key, signed_object_from_slice codec bytes = Ok so /\
    trusted_key db profile (so_device_id so) = Some key /\ sk_membership_epoch key <= epoch.
Proof.
  unfold validate_signed_object_membership_epoch.
  intros (db1 & so & [-> Hso]%sync_object_ok & Hr)%sr_bind_ok.
  apply sr_bind_ok in Hr as (db2 & key & (-> & _ & Hk)%trusted_record_spec & Hr).
  destruct (Z.ltb_spec epoch (sk_membership_epoch key)); [done|]. injection Hr as <- _.
  split; [done|]. exists so, key. unfold signed_from_bytes in Hso.
  destruct (signed_object_from_slice codec bytes); [|done]. by injection Hso as ->.
Qed.

Lemma open_setting_spec bytes content_key profile key_id db db' change :
  open_trusted_signed_sync_setting_text_for_profile bytes content_key profile key_id db
    = (db', Ok change) ->
  db' = db /\ exists so key encrypted payload, authentic db profile bytes so key encrypted /\
    decrypts encrypted content_key profile (in_domain change)
      PROFILE_SYNC_SETTING_CHANGE_OBJECT_KIND key_id payload /\
    setting_change_from_slice codec payload = Ok change /\ in_profile change = profile.
Proof.
  unfold open_trusted_signed_sync_setting_text_for_profile.
  intros (db1 & so & [-> Hso]%sync_object_ok & Hr)%sr_bind_ok.
  apply sr_bind_ok in Hr as (db2 & pk & (-> & _ & Hp & key & Hk & <-)%trusted_profile_key_spec & Hr).
  apply sr_bind_ok in Hr as (db3 & bytes' & [-> Hv]%sync_object_ok & Hr).
  apply sr_bind_ok in Hr as (db4 & encrypted & [-> He]%sync_object_ok & Hr).
  apply sync_object_ok in Hr as [-> Hr]. split; [done|].
  apply verify_with_Ok in Hv as (_ & Hd & Hb & -> & Hsig).
  unfold signed_from_bytes, encrypted_from_bytes in *.
  destruct (signed_object_from_slice codec bytes) eqn:Hs; [|done]. injection Hso as ->.
  destruct (encrypted_object_from_slice codec (so_payload so)) eqn:Hes; [|done].
  injection He as ->. unfold open_setting_change in Hr.
  destruct (str_eqb (eo_profile encrypted) profile) eqn:H1; [|done].
  destruct (str_eqb (eo_object_kind encrypted) _) eqn:H2; [|done].
  destruct (str_eqb (eo_key_id encrypted) key_id) eqn:H3; [|done]. simpl in Hr.
  destruct (open codec encrypted content_key) as [payload|] eqn:Hopen; [|done].
  destruct (setting_change_from_slice codec payload) as [change'|] eqn:Hc; [|done]. simpl in Hr.
  destruct (str_eqb (in_profile change') _) eqn:H4; [|done].
  destruct (str_eqb (in_domain change') _) eqn:H5; [|done]. simpl in Hr. injection Hr as ->.
  apply str_eqb_eq in H1, H2, H3, H4, H5. apply open_Ok in Hopen as (_ & _ & Hopen).
  exists so, key, encrypted, payload. split.
  { split_and!; try done. destruct (sk_public_key key). simpl in *. congruence. }
  split; [split_and!; congruence|]. split; [done|]. congruence.
Qed.

(** Every tail change is the opening of its object by a signer of the epoch. *)
Definition tail_opened (db : ProfileDb) (content_key profile key_id : string)
    (membership_epoch : Z) (object : ProfileSyncObjectBytes)
    (tail : VerifiedProfileSyncSettingsTailChange) : Prop :=
  vt_object_id tail = ob_object_id object /\ in_profile (vt_change tail) = profile /\
  exists so key encrypted payload,
    authentic db profile (ob_bytes object) so key encrypted /\
    sk_membership_epoch key <= membership_epoch /\
    decrypts encrypted content_key profile (in_domain (vt_change tail))
      PROFILE_SYNC_SETTING_CHANGE_OBJECT_KIND key_id payload /\
    setting_change_from_slice codec payload = Ok (vt_change tail).

Lemma open_tail_changes_spec objects epoch content_key profile key_id db db' tails :
  open_tail_changes objects epoch content_key profile key_id db = (db', Ok tails) ->
  db' = db /\ Forall2 (tail_opened db content_key profile key_id epoch) objects tails.
Proof.
  revert tails. induction objects as [|object objects IH]; intros tails; simpl.
  - intros [= <- <-]. by split.
  - intros (db1 & u & (-> & so & key & Hso & Hk & He)%epoch_spec & Hr)%sr_bind_ok.
    apply sr_bind_ok in Hr as (db2 & change & Hopen & Hr).
    apply open_setting_spec in Hopen
      as (-> & so' & key' & encrypted & payload & Hauth & Hdec & Hc & Hp).
    apply sr_bind_ok in Hr as (db3 & tails' & Ht & [= <- <-]).
    apply IH in Ht as [-> HF]. split; [done|]. constructor; [|done].
    split; [done|]. split; [done|]. simpl. exists so', key', encrypted, payload.
    split; [done|]. split; [|done]. destruct Hauth as (Hso' & Hk' & _).
    rewrite Hso in Hso'. injection Hso' as <-. rewrite Hk in Hk'. by injection Hk' as <-.
Qed.
End Opening.

(** ** Theorems *)

(** The object was opened by a trusted signer of the epoch and decodes to [a]. *)
Definition opened_as {A} (codec : SyncCodec) (decode : string -> result string A)
    (kind : string) (db : ProfileDb) (content_key profile key_id : string)
    (membership_epoch : Z) (object : ProfileSyncObjectBytes) (a : A) : Prop :=
  exists so key encrypted payload, authentic codec db profile (ob_bytes object) so key encrypted /\
    sk_membership_epoch key <= membership_epoch /\
    decrypts codec encrypted content_key profile SYNC_DOMAIN_SETTINGS kind key_id payload /\
    decode payload = Ok a.

Lemma payload_opened_as {A} codec (decode : string -> result string A) kind db content_key
    profile key_id epoch object payload a u :
  (exists so key encrypted, authentic codec db profile (ob_bytes object) so key encrypted /\
     decrypts codec encrypted content_key profile SYNC_DOMAIN_SETTINGS kind key_id payload) ->
  validate_signed_object_membership_epoch codec (ob_bytes object) profile epoch db = (db, Ok u) ->
  decode payload = Ok a ->
  opened_as codec decode kind db content_key profile key_id epoch object a.
Proof.
  intros (so & key & encrypted & Hauth & Hdec) (_ & so' & key' & Hso & Hk & He)%epoch_spec Ha.
  exists so, key, encrypted, payload. split; [done|]. split; [|done].
  destruct Hauth as (Hso' & Hk' & _). rewrite Hso in Hso'. injection Hso' as <-.
  rewrite Hk in Hk'. by injection Hk' as <-.
Qed.

Lemma decode_ok {A} (decode : string -> result string A) payload db db' a :
  sync_object (map_err Decode (decode payload)) db = (db', Ok a) ->
  db' = db /\ decode payload = Ok a.
Proof. intros [-> H]%sync_object_ok. split; [done|]. destruct (decode payload); by simplify_eq/=. Qed.

Lemma opened_objects_authentic codec manifest_object snapshot_object tail_objects content_key
    profile key_id db db' objects :
  open_trusted_signed_profile_sync_settings_manifest_objects codec manifest_object
    snapshot_object tail_objects content_key profile key_id db = (db', Ok objects) ->
  let epoch := mf_membership_epoch (vm_manifest objects) in
  db' = db /\ vm_manifest_object_id objects = ob_object_id manifest_object /\
  opened_as codec (manifest_from_slice codec) PROFILE_SYNC_MANIFEST_OBJECT_KIND db content_key
    profile key_id epoch manifest_object (vm_manifest objects) /\
  match snapshot_object, vm_snapshot objects with
  | None, None => True
  | Some object, Some snapshot =>
      vs_object_id snapshot = ob_object_id object /\
      opened_as codec (settings_snapshot_from_slice codec)
        PROFILE_SYNC_SETTINGS_SNAPSHOT_OBJECT_KIND db content_key profile key_id epoch object
        (vs_snapshot snapshot)
  | _, _ => False
  end /\
  Forall2 (tail_opened codec db content_key profile key_id epoch) tail_objects
    (vm_tail_changes objects).
Proof.
  unfold open_trusted_signed_profile_sync_settings_manifest_objects,
    open_trusted_signed_profile_sync_manifest.
  intros (db1 & manifest & Hm & Hr)%sr_bind_ok.
  apply sr_bind_ok in Hm as (db2 & payload & (-> & Hm)%open_payload_spec & Hdec).
  apply decode_ok in Hdec as [-> Hdec].
  apply sr_bind_ok in Hr as (db3 & u & He & Hr).
  pose proof (epoch_spec _ _ _ _ _ _ _ He) as [-> _].
  apply sr_bind_ok in Hr as (db4 & snapshot & Hs & Hr).
  assert (db4 = db /\ match snapshot_object, snapshot with
    | None, None => True
    | Some object, Some snapshot =>
        vs_object_id snapshot = ob_object_id object /\
        opened_as codec (settings_snapshot_from_slice codec)
          PROFILE_SYNC_SETTINGS_SNAPSHOT_OBJECT_KIND db content_key profile key_id
          (mf_membership_epoch manifest) object (vs_snapshot snapshot)
    | _, _ => False
    end) as [-> Hsnap].
  { destruct snapshot_object as [object|]; [|by injection Hs as <- <-].
    apply sr_bind_ok in Hs as (db5 & u2 & He2 & Hs).
    pose proof (epoch_spec _ _ _ _ _ _ _ He2) as [-> _].
    apply sr_bind_ok in Hs as (db6 & s & Ho & [= <- <-]).
    unfold open_trusted_signed_profile_sync_settings_snapshot in Ho.
    apply sr_bind_ok in Ho as (db7 & p2 & (-> & Hp)%open_payload_spec & Hd2).
    apply decode_ok in Hd2 as [-> Hd2]. split; [done|]. split; [done|].
    by eapply payload_opened_as. }
  apply sr_bind_ok in Hr as (db5 & tails & (-> & Ht)%open_tail_changes_spec & [= <- <-]).
  simpl. split; [done|]. split; [done|]. split; [by eapply payload_opened_as|]. done.
Qed.

(** C8: (safety) When the objects of a manifest open, the manifest, its snapshot and each
    of its changes were signed with the trusted key of a device that is not a storage
    provider and whose key is no younger than the manifest's membership epoch, and each was
    decrypted under associated data that names the expected profile, kind and key; opening
    never writes. *)
Theorem manifest_objects_authentic codec manifest_object snapshot_object tail_objects content_key
    profile key_id db db' objects :
  open_trusted_signed_profile_sync_settings_manifest_objects codec manifest_object
    snapshot_object tail_objects content_key profile key_id db = (db', Ok objects) ->
  let epoch := mf_membership_epoch (vm_manifest objects) in
  db' = db /\ vm_manifest_object_id objects = ob_object_id manifest_object /\
  opened_as codec (manifest_from_slice codec) PROFILE_SYNC_MANIFEST_OBJECT_KIND db content_key
    profile key_id epoch manifest_object (vm_manifest objects) /\
  match snapshot_object, vm_snapshot objects with
  | None, None => True
  | Some object, Some snapshot =>
      vs_object_id snapshot = ob_object_id object /\
      opened_as codec (settings_snapshot_from_slice codec)
        PROFILE_SYNC_SETTINGS_SNAPSHOT_OBJECT_KIND db content_key profile key_id epoch object
        (vs_snapshot snapshot)
  | _, _ => False
  end /\
  Forall2 (tail_opened codec db content_key profile key_id epoch) tail_objects
    (vm_tail_changes objects).
Proof. apply opened_objects_authentic. Qed.

Definition no_colon (s : string) : Prop := all_bytes (fun c => negb (Ascii.eqb c ":")) s = true.

Lemma field_injective a b x y :
  no_colon a -> no_colon b -> a +:+ ":" +:+ x = b +:+ ":" +:+ y -> a = b /\ x = y.
Proof.
  unfold no_colon. revert b.
  induction a as [|c a IH]; intros [|c' b]; cbn [all_bytes String.append].
  - intros _ _ Heq. by injection Heq.
  - intros _ Hb Heq. injection Heq as <- _. done.
  - intros Ha _ Heq. injection Heq as -> _. done.
  - intros [_ Ha]%andb_true_iff [_ Hb]%andb_true_iff Heq. injection Heq as -> Heq.
    by destruct (IH b Ha Hb Heq) as [-> ->].
Qed.

(** The associated data a ciphertext is sealed under determines the
    profile, domain and kind when those contain no colon, and then the key: a ciphertext
    cannot be moved to other labels.  With colons it can: profile [a:b] and domain [c] have
    the associated data of profile [a] and domain [b:c]. *)
Theorem associated_data_injective o o' :
  eo_version o = eo_version o' ->
  no_colon (eo_profile o) -> no_colon (eo_profile o') ->
  no_colon (eo_domain o) -> no_colon (eo_domain o') ->
  no_colon (eo_object_kind o) -> no_colon (eo_object_kind o') ->
  associated_data o = associated_data o' ->
  eo_profile o = eo_profile o' /\ eo_domain o = eo_domain o' /\
  eo_object_kind o = eo_object_kind o' /\ eo_key_id o = eo_key_id o'.
Proof.
  intros Hv Hp Hp' Hd Hd' Hk Hk'. unfold associated_data. rewrite Hv.
  intros Heq%(inj _)%(inj _)%(inj _).
  apply field_injective in Heq as [-> Heq]; [|done..].
  apply field_injective in Heq as [-> Heq]; [|done..].
  by apply field_injective in Heq as [-> Heq].
Qed.

(** ** Witnesses *)

Definition demo_manifest : ProfileSyncManifest :=
  {| mf_profile := "default"; mf_root_id := "settings"; mf_schema_version := 1;
     mf_membership_epoch := 1; mf_current_snapshot_object_id := None;
     mf_tail_change_object_ids := ["o2"]; mf_included_domains := ["settings"];
     mf_device_frontiers := [];
     mf_retention_policy := {| rp_min_tail_change_count := 32; rp_change_retention_seconds := 0;
                               rp_inactive_device_grace_seconds := 0 |};
     mf_created_at := 1 |}.

Definition demo_change : IncomingSyncSettingText :=
  {| in_profile := "default"; in_domain := "settings"; in_key := "theme"; in_value := "dark";
     in_device_id := "a"; in_device_sequence := 1; in_logical_clock := 1 |}.

(** Device [a] signs; the signed payload names the kind of the object, and the
    ciphertext is the plain text. *)
Definition demo_open_codec : SyncCodec := {|
  signed_object_from_slice := fun s => Ok (demo_signed s);
  encrypted_object_from_slice := fun s =>
    Ok {| eo_version := 1; eo_profile := "default"; eo_domain := "settings"; eo_object_kind := s;
          eo_key_id := "k1"; eo_nonce := "123456789012"; eo_ciphertext := s |};
  membership_record_from_slice := demo_record;
  device_head_from_slice := fun _ => Err "no document";
  manifest_from_slice := fun _ => Ok demo_manifest;
  settings_snapshot_from_slice := fun _ => Err "no document";
  setting_change_from_slice := fun _ => Ok demo_change;
  ed25519_verify := fun key payload signature => str_eqb signature (key +:+ payload);
  chacha20_poly1305_open := fun _ _ _ ciphertext => Some ciphertext
|}.

Definition demo_objects : VerifiedProfileSyncSettingsManifestObjects :=
  {| vm_manifest_object_id := "o1"; vm_manifest := demo_manifest; vm_snapshot := None;
     vm_tail_changes := [{| vt_object_id := "o2"; vt_change := demo_change |}] |}.

Lemma manifest_objects_authentic_witness :
  let db := roster_db ["enroll-a"] in
  let object := {| ob_object_id := "o1"; ob_bytes := PROFILE_SYNC_MANIFEST_OBJECT_KIND |} in
  opened_as demo_open_codec (manifest_from_slice demo_open_codec)
    PROFILE_SYNC_MANIFEST_OBJECT_KIND db "content key" "default" "k1" 1 object demo_manifest.
Proof.
  intros db object.
  destruct (open_trusted_signed_profile_sync_settings_manifest_objects demo_open_codec object
              None [{| ob_object_id := "o2"; ob_bytes := PROFILE_SYNC_SETTING_CHANGE_OBJECT_KIND |}]
              "content key" "default" "k1" db) as [db' r] eqn:E.
  assert (r = Ok demo_objects) as ->.
  { refine (eq_trans (eq_sym (f_equal snd E)) _). vm_compute. reflexivity. }
  apply (manifest_objects_authentic demo_open_codec object None
           [{| ob_object_id := "o2"; ob_bytes := PROFILE_SYNC_SETTING_CHANGE_OBJECT_KIND |}]
           "content key" "default" "k1" db db' demo_objects E).
Defined.

Definition demo_envelope (profile domain : string) : EncryptedSyncObject :=
  {| eo_version := 1; eo_profile := profile; eo_domain := domain; eo_object_kind := "manifest";
     eo_key_id := "k1"; eo_nonce := ""; eo_ciphertext := "" |}.

(** Colons make the associated data ambiguous. *)
Lemma associated_data_ambiguous :
  associated_data (demo_envelope "a:b" "c") = associated_data (demo_envelope "a" "b:c").
Proof. reflexivity. Qed.

Lemma associated_data_injective_witness :
  eo_profile (demo_envelope "default" "settings") = "default" /\
  eo_key_id (demo_envelope "default" "settings")
  = eo_key_id (demo_envelope "default" "settings").
Proof.
  destruct (associated_data_injective (demo_envelope "default" "settings")
              (demo_envelope "default" "settings")) as (H & _ & _ & Hk);
    [reflexivity..|split; [reflexivity|exact Hk]].
Defined.
