(* ===== verification/Snapshots.v ===== *)
(** * Settings snapshots and manifests

    The compaction side of [crates/storage/src/lib.rs]: which prefix of the event
    log a snapshot may cover, the snapshot of a profile's values, its application as
    changes of the pseudo-device [snapshot], the manifest that publishes a snapshot
    with the changes after it, and the application of a verified manifest.

    The column [included_domains] holds the list as a JSON text that only this code
    writes; here the column holds the list. *)
From S2P Require Import Prelude RustStr AppViews Database SyncObjects SyncStore Membership.

Definition PROFILE_SYNC_SETTINGS_SNAPSHOT_SCHEMA_VERSION : Z := 1.
Definition PROFILE_SYNC_MANIFEST_SCHEMA_VERSION : Z := 1.
Definition DEFAULT_PROFILE_SYNC_MEMBERSHIP_EPOCH : Z := 1.
Definition PROFILE_SYNC_SNAPSHOT_DEVICE_ID : string := "snapshot".

(** ** Data *)

Record SyncSnapshotRegistration := {
  snr_profile : string;
  snr_snapshot_id : string;
  snr_backend_object_id : option string;
  snr_covers_revision : Z;
  snr_included_domains : list string
}.

Record SyncCompactionTarget := {
  ct_profile : string;
  ct_previous_snapshot_covers_revision : Z;
  ct_covers_revision : Z;
  ct_covers_change_id : Z;
  ct_covered_change_count : Z;
  ct_retained_tail_change_count : Z
}.

Record ProfileSyncSettingsTailChangePublication := {
  tp_object_id : string;
  tp_change : SyncChangeRecord
}.

Record ProfileSyncSettingsSnapshotPublication := {
  spp_object_id : string;
  spp_snapshot : ProfileSyncSettingsSnapshot;
  spp_covered_changes : list SyncChangeRecord
}.

Record ProfileSyncSettingsManifestApplication := {
  map_profile : string;
  map_root_id : string;
  map_manifest_object_id : string;
  map_sync_object_ids : list string;
  map_snapshot : option SyncSnapshotRecord;
  map_snapshot_changes : list SyncChangeRecord;
  map_tail_changes : list SyncChangeRecord
}.

(** [ProfileSyncRootCandidate] of the storage crate. *)
Record RootCandidate := {
  cand_publisher_id : string;
  cand_object_id : string;
  cand_publish_sequence : Z
}.

Record VerifiedProfileSyncSettingsManifestCandidate := {
  vc_root_candidate : RootCandidate;
  vc_objects : VerifiedProfileSyncSettingsManifestObjects
}.

Record ProfileSyncSettingsManifestCandidateApplication := {
  ca_root_candidate : RootCandidate;
  ca_application : ProfileSyncSettingsManifestApplication
}.

(** ** Snapshot records *)

Definition str_member (s : string) (l : list string) : bool := existsb (str_eqb s) l.

(** [filter(!is_empty).collect::<BTreeSet<_>>().into_iter().collect()]. *)
Definition normalized_snapshot_domains (domains : list string) : list string :=
  btree_elems (list_to_set (List.filter (fun domain => negb (is_empty domain)) domains)
               : gset string).

Definition settings_sync_snapshot_id (covers_revision : Z) : string :=
  "settings-snapshot-r" +:+ show covers_revision.

Definition record_sync_snapshot_in_transaction (snapshot : SyncSnapshotRegistration) (now : Z) :
    storage SyncSnapshotRecord :=
  let normalized_domains := normalized_snapshot_domains (snr_included_domains snapshot) in
  let key := (snr_profile snapshot, snr_snapshot_id snapshot) in
  do* execute (fun db =>
    let created_at := match db_snapshots db !! key with
                      | Some row => sn_created_at row
                      | None => now
                      end in
    set_db_snapshots (<[key := {|
      sn_profile := snr_profile snapshot; sn_snapshot_id := snr_snapshot_id snapshot;
      sn_backend_object_id := snr_backend_object_id snapshot;
      sn_covers_revision := snr_covers_revision snapshot;
      sn_included_domains := normalized_domains; sn_created_at := created_at |}]>
        (db_snapshots db)) db) in
  let* row := query (fun db => db_snapshots db !! key) in
  required_row row.

Definition record_sync_snapshot (snapshot : SyncSnapshotRegistration) (now : Z) :
    storage SyncSnapshotRecord :=
  transaction (record_sync_snapshot_in_transaction snapshot now).

Definition record_sync_snapshot_and_set_profile_sync_roots (snapshot : SyncSnapshotRegistration)
    (roots : list ProfileSyncRootRegistration) (now : Z) :
    storage (SyncSnapshotRecord * list ProfileSyncRootRecord) :=
  transaction
    (let* snapshot_record := record_sync_snapshot_in_transaction snapshot now in
     let* root_records := set_profile_sync_roots_in_transaction roots now in
     sr_ret (snapshot_record, root_records)).

(** The rows of a profile, in primary-key order. *)
Definition profile_snapshots (profile : string) (db : ProfileDb) : list SyncSnapshotRecord :=
  btree_values (filter (fun kv => kv.1.1 = profile) (db_snapshots db)).

Definition snapshot_order (r : SyncSnapshotRecord) : Z * Z * string :=
  (sn_covers_revision r, sn_created_at r, sn_snapshot_id r).

Definition sync_snapshots_after (profile : string) (after_revision : Z) (db : ProfileDb) :
    list SyncSnapshotRecord :=
  sort_by (key_cmp snapshot_order)
    (List.filter (fun r => after_revision <? sn_covers_revision r) (profile_snapshots profile db)).

Definition latest_sync_snapshot (profile : string) (db : ProfileDb) : option SyncSnapshotRecord :=
  select_max snapshot_order (profile_snapshots profile db).

Definition sync_snapshot (profile snapshot_id : string) (db : ProfileDb) :
    option SyncSnapshotRecord :=
  db_snapshots db !! (profile, snapshot_id).

(** ** Compaction *)

(** [iter().rposition(p)]: the index of the last element that satisfies [p]. *)
Fixpoint rposition {A} (p : A -> bool) (l : list A) : option nat :=
  match l with
  | [] => None
  | x :: l => match rposition p l with
              | Some i => Some (S i)
              | None => if p x then Some O else None
              end
  end.

Definition compaction_target_event_index (events : list SyncSettingTextEvent)
    (retention_policy : ProfileSyncRetentionPolicy) (now : Z) : option nat :=
  let min_tail_change_count := Z.to_nat (rp_min_tail_change_count retention_policy) in
  if (length events <=? min_tail_change_count)%nat then None else
  let retention_seconds := Z.max (rp_change_retention_seconds retention_policy) 0 in
  let retention_cutoff := saturating_sub_i64 now retention_seconds in
  match rposition (fun event => ch_created_at (ev_change event) <=? retention_cutoff) events with
  | None => None
  | Some newest_old_enough =>
      let newest_allowed_by_tail := (length events - min_tail_change_count - 1)%nat in
      Some (Nat.min newest_old_enough newest_allowed_by_tail)
  end.

Definition previous_covers_revision (profile : string) (db : ProfileDb) : Z :=
  match latest_sync_snapshot profile db with
  | Some snapshot => sn_covers_revision snapshot
  | None => 0
  end.

(** The target of the event at the chosen index. *)
Definition compaction_target (profile : string) (previous_snapshot_covers_revision : Z)
    (events : list SyncSettingTextEvent) (retention_policy : ProfileSyncRetentionPolicy)
    (now : Z) : option SyncCompactionTarget :=
  match compaction_target_event_index events retention_policy now with
  | None => None
  | Some target_index =>
      match events !! target_index with
      | None => None
      | Some target => Some
          {| ct_profile := profile;
             ct_previous_snapshot_covers_revision := previous_snapshot_covers_revision;
             ct_covers_revision := rv_revision (ev_revision target);
             ct_covers_change_id := ch_id (ev_change target);
             ct_covered_change_count := Z.of_nat target_index + 1;
             ct_retained_tail_change_count :=
               Z.of_nat (length events) - Z.of_nat target_index - 1 |}
      end
  end.

Definition settings_sync_compaction_target (profile : string)
    (retention_policy : ProfileSyncRetentionPolicy) (now : Z) (db : ProfileDb) :
    option SyncCompactionTarget :=
  let previous := previous_covers_revision profile db in
  let events := sync_setting_text_events_after profile previous u32_max db in
  compaction_target profile previous events retention_policy now.

Definition settings_sync_compaction_target_for_domains (profile : string)
    (retention_policy : ProfileSyncRetentionPolicy) (now : Z) (included_domains : list string)
    (db : ProfileDb) : option SyncCompactionTarget :=
  let included_domains := normalized_snapshot_domains included_domains in
  match included_domains with
  | [] => None
  | _ =>
      let previous := previous_covers_revision profile db in
      let events := List.filter (fun event => str_member (ch_domain (ev_change event))
                                                included_domains)
                      (sync_setting_text_events_after profile previous u32_max db) in
      compaction_target profile previous events retention_policy now
  end.

(** ** Snapshots *)

Definition snapshot_value (event : SyncSettingTextEvent) : ProfileSyncSettingsSnapshotValue :=
  {| ss_domain := ch_domain (ev_change event); ss_key := ch_entity_key (ev_change event);
     ss_value := ch_payload (ev_change event); ss_value_kind := "text";
     ss_revision := rv_revision (ev_revision event) |}.

(** The loop over the events: a later value of a key replaces an earlier one. *)
Fixpoint collect_values (covers_revision : Z) (included_domains : list string)
    (events : list SyncSettingTextEvent)
    (values_by_key : gmap (string * string) ProfileSyncSettingsSnapshotValue) :
    gmap (string * string) ProfileSyncSettingsSnapshotValue :=
  match events with
  | [] => values_by_key
  | event :: events =>
      if covers_revision <? rv_revision (ev_revision event) then values_by_key
      else if negb (str_member (ch_domain (ev_change event)) included_domains)
      then collect_values covers_revision included_domains events values_by_key
      else collect_values covers_revision included_domains events
             (<[(ch_domain (ev_change event), ch_entity_key (ev_change event)) :=
                 snapshot_value event]> values_by_key)
  end.

Definition settings_sync_snapshot_payload (profile : string) (covers_revision : Z)
    (included_domains : list string) (now : Z) (db : ProfileDb) : ProfileSyncSettingsSnapshot :=
  let included_domains := normalized_snapshot_domains included_domains in
  let events := sync_setting_text_events_after profile 0 u32_max db in
  {| sp_profile := profile; sp_schema_version := PROFILE_SYNC_SETTINGS_SNAPSHOT_SCHEMA_VERSION;
     sp_covers_revision := covers_revision; sp_included_domains := included_domains;
     sp_values := btree_values (collect_values covers_revision included_domains events ∅);
     sp_created_at := now |}.

(** The change a value of a snapshot is applied as. *)
Definition snapshot_change (profile : string) (value : ProfileSyncSettingsSnapshotValue) :
    IncomingSyncSettingText :=
  {| in_profile := profile; in_domain := ss_domain value; in_key := ss_key value;
     in_value := ss_value value; in_device_id := PROFILE_SYNC_SNAPSHOT_DEVICE_ID;
     in_device_sequence := ss_revision value; in_logical_clock := ss_revision value |}.

Definition snapshot_value_order (v : ProfileSyncSettingsSnapshotValue) :
    Z * string * string * string :=
  (ss_revision v, ss_domain v, ss_key v, ss_value v).

Definition snapshot_value_applies (included_domains : list string)
    (value : ProfileSyncSettingsSnapshotValue) : bool :=
  str_eqb (ss_value_kind value) "text" && str_member (ss_domain value) included_domains.

(** Received changes applied one after the other, until one is refused. *)
Fixpoint apply_changes (d : PayloadDecoders) (changes : list IncomingSyncSettingText) (now : Z) :
    storage (list SyncChangeRecord) :=
  match changes with
  | [] => sr_ret []
  | change :: changes =>
      let* applied := database_error (apply_sync_setting_text_in_transaction d change now) in
      let* rest := apply_changes d changes now in
      sr_ret (applied :: rest)
  end.

Definition apply_settings_snapshot_in_transaction (d : PayloadDecoders)
    (snapshot : ProfileSyncSettingsSnapshot) (now : Z) : storage (list SyncChangeRecord) :=
  if negb (sp_schema_version snapshot =? PROFILE_SYNC_SETTINGS_SNAPSHOT_SCHEMA_VERSION)
  then sr_err (UnsupportedSyncSnapshotSchema (sp_schema_version snapshot))
  else
  let included_domains := normalized_snapshot_domains (sp_included_domains snapshot) in
  let values := sort_by (key_cmp snapshot_value_order) (sp_values snapshot) in
  apply_changes d (map (snapshot_change (sp_profile snapshot))
                     (List.filter (snapshot_value_applies included_domains) values)) now.

Definition apply_settings_snapshot (d : PayloadDecoders) (snapshot : ProfileSyncSettingsSnapshot)
    (now : Z) : storage (list SyncChangeRecord) :=
  transaction (apply_settings_snapshot_in_transaction d snapshot now).

(** ** Manifests *)

Definition invalid_manifest {A} (message : string) : result StorageError A :=
  Err (InvalidProfileSyncManifest message).

Definition frontier_rank (f : ProfileSyncDeviceFrontier) : Z * option string :=
  (df_latest_sequence f, df_latest_change_object_id f).

Definition upsert_device_frontier (frontiers : gmap string ProfileSyncDeviceFrontier)
    (next : ProfileSyncDeviceFrontier) : gmap string ProfileSyncDeviceFrontier :=
  match frontiers !! df_device_id next with
  | Some existing =>
      if rust_geb (frontier_rank existing) (frontier_rank next) then frontiers
      else <[df_device_id next := next]> frontiers
  | None => <[df_device_id next := next]> frontiers
  end.

Definition change_frontier (change : SyncChangeRecord) (object_id : option string) :
    ProfileSyncDeviceFrontier :=
  {| df_device_id := ch_device_id change; df_latest_sequence := ch_device_sequence change;
     df_latest_change_object_id := object_id |}.

(** The variables of the loops over the changes of a manifest. *)
Record ManifestLoop := {
  ml_included_domains : list string;
  ml_tail_change_object_ids : list string;
  ml_device_frontiers : gmap string ProfileSyncDeviceFrontier;
  ml_created_at : Z
}.

Definition check_tail_change (profile : string) (tail : ProfileSyncSettingsTailChangePublication) :
    result StorageError unit :=
  if is_empty (tp_object_id tail)
  then invalid_manifest "settings manifest tail object id is empty"
  else if negb (str_eqb (ch_profile (tp_change tail)) profile)
  then invalid_manifest ("tail change " +:+ tp_object_id tail +:+ " profile "
         +:+ ch_profile (tp_change tail) +:+ " does not match manifest profile " +:+ profile)
  else if negb (str_eqb (ch_operation (tp_change tail)) "set_text")
  then invalid_manifest ("tail change " +:+ tp_object_id tail +:+ " operation "
         +:+ ch_operation (tp_change tail) +:+ " is not supported by settings manifests")
  else Ok tt.

(** The loop over the tail changes. *)
Fixpoint add_tail_changes (profile : string)
    (tail_changes : list ProfileSyncSettingsTailChangePublication) (s : ManifestLoop) :
    result StorageError ManifestLoop :=
  match tail_changes with
  | [] => Ok s
  | tail :: tail_changes =>
      check? check_tail_change profile tail in
      add_tail_changes profile tail_changes
        {| ml_included_domains := ml_included_domains s ++ [ch_domain (tp_change tail)];
           ml_tail_change_object_ids := ml_tail_change_object_ids s ++ [tp_object_id tail];
           ml_device_frontiers := upsert_device_frontier (ml_device_frontiers s)
             (change_frontier (tp_change tail) (Some (tp_object_id tail)));
           ml_created_at := Z.max (ml_created_at s) (ch_created_at (tp_change tail)) |}
  end.

(** The loop over the changes a snapshot covers. *)
Fixpoint add_covered_changes (profile : string) (included_domains : list string)
    (covered_changes : list SyncChangeRecord)
    (frontiers : gmap string ProfileSyncDeviceFrontier) :
    result StorageError (gmap string ProfileSyncDeviceFrontier) :=
  match covered_changes with
  | [] => Ok frontiers
  | change :: covered_changes =>
      if negb (str_eqb (ch_profile change) profile)
      then invalid_manifest ("snapshot-covered change " +:+ show (ch_id change) +:+ " profile "
             +:+ ch_profile change +:+ " does not match manifest profile " +:+ profile)
      else if negb (str_eqb (ch_operation change) "set_text")
      then invalid_manifest ("snapshot-covered change " +:+ show (ch_id change) +:+ " operation "
             +:+ ch_operation change +:+ " is not supported by settings manifests")
      else if negb (str_member (ch_domain change) included_domains)
      then invalid_manifest ("snapshot-covered change " +:+ show (ch_id change) +:+ " domain "
             +:+ ch_domain change +:+ " is not included in snapshot")
      else add_covered_changes profile included_domains covered_changes
             (upsert_device_frontier frontiers (change_frontier change None))
  end.

(** [Vec::dedup]: of a run of equal elements the first stays. *)
Fixpoint dedup (l : list string) : list string :=
  match l with
  | [] => []
  | x :: l => match dedup l with
              | [] => [x]
              | y :: rest => if str_eqb x y then y :: rest else x :: y :: rest
              end
  end.

(** [included_domains.sort(); included_domains.dedup();]. *)
Definition sort_dedup (l : list string) : list string := dedup (sort_by rust_cmp l).

Definition manifest_of (profile root_id : string) (snapshot_object_id : option string)
    (retention_policy : ProfileSyncRetentionPolicy) (s : ManifestLoop) : ProfileSyncManifest :=
  {| mf_profile := profile; mf_root_id := root_id;
     mf_schema_version := PROFILE_SYNC_MANIFEST_SCHEMA_VERSION;
     mf_membership_epoch := DEFAULT_PROFILE_SYNC_MEMBERSHIP_EPOCH;
     mf_current_snapshot_object_id := snapshot_object_id;
     mf_tail_change_object_ids := ml_tail_change_object_ids s;
     mf_included_domains := sort_dedup (ml_included_domains s);
     mf_device_frontiers := btree_values (ml_device_frontiers s);
     mf_retention_policy := retention_policy; mf_created_at := ml_created_at s |}.

Definition settings_sync_manifest_for_tail_changes (profile root_id : string)
    (tail_changes : list ProfileSyncSettingsTailChangePublication)
    (retention_policy : ProfileSyncRetentionPolicy) : result StorageError ProfileSyncManifest :=
  if is_empty root_id then Err (InvalidSyncRootId root_id) else
  match tail_changes with
  | [] => invalid_manifest "settings manifest tail is empty"
  | _ =>
      let? s := add_tail_changes profile tail_changes
                  {| ml_included_domains := []; ml_tail_change_object_ids := [];
                     ml_device_frontiers := ∅; ml_created_at := 0 |} in
      Ok (manifest_of profile root_id None retention_policy s)
  end.

Definition settings_sync_manifest_for_snapshot_and_tail_changes (profile root_id : string)
    (snapshot : ProfileSyncSettingsSnapshotPublication)
    (tail_changes : list ProfileSyncSettingsTailChangePublication)
    (retention_policy : ProfileSyncRetentionPolicy) : result StorageError ProfileSyncManifest :=
  let payload := spp_snapshot snapshot in
  if is_empty root_id then Err (InvalidSyncRootId root_id)
  else if is_empty (spp_object_id snapshot)
  then invalid_manifest "settings manifest snapshot object id is empty"
  else if negb (str_eqb (sp_profile payload) profile)
  then invalid_manifest ("snapshot profile " +:+ sp_profile payload
                         +:+ " does not match manifest profile " +:+ profile)
  else if negb (sp_schema_version payload =? PROFILE_SYNC_SETTINGS_SNAPSHOT_SCHEMA_VERSION)
  then Err (UnsupportedSyncSnapshotSchema (sp_schema_version payload))
  else
  let included_domains := normalized_snapshot_domains (sp_included_domains payload) in
  let? frontiers := add_covered_changes profile included_domains
                      (spp_covered_changes snapshot) ∅ in
  let? s := add_tail_changes profile tail_changes
              {| ml_included_domains := included_domains; ml_tail_change_object_ids := [];
                 ml_device_frontiers := frontiers; ml_created_at := sp_created_at payload |} in
  Ok (manifest_of profile root_id (Some (spp_object_id snapshot)) retention_policy s).

(** ** Application of verified manifests *)

Definition validate_manifest_snapshot (manifest : ProfileSyncManifest)
    (snapshot : VerifiedProfileSyncSettingsSnapshot) : result StorageError unit :=
  if negb (str_eqb (sp_profile (vs_snapshot snapshot)) (mf_profile manifest))
  then invalid_manifest ("snapshot object " +:+ vs_object_id snapshot +:+ " profile "
         +:+ sp_profile (vs_snapshot snapshot) +:+ " does not match manifest profile "
         +:+ mf_profile manifest)
  else check_all (fun domain =>
         if negb (str_member domain (mf_included_domains manifest))
         then invalid_manifest ("snapshot object " +:+ vs_object_id snapshot +:+ " domain "
                                +:+ domain +:+ " is not included in manifest")
         else Ok tt) (sp_included_domains (vs_snapshot snapshot)).

Definition validate_settings_manifest_application (manifest : ProfileSyncManifest)
    (snapshot : option VerifiedProfileSyncSettingsSnapshot)
    (tail_changes : list VerifiedProfileSyncSettingsTailChange) : result StorageError unit :=
  if negb (mf_schema_version manifest =? PROFILE_SYNC_MANIFEST_SCHEMA_VERSION)
  then Err (UnsupportedProfileSyncManifestSchema (mf_schema_version manifest))
  else if is_empty (mf_profile manifest) then invalid_manifest "manifest profile is empty"
  else if is_empty (mf_root_id manifest) then Err (InvalidSyncRootId (mf_root_id manifest))
  else
  check? match mf_current_snapshot_object_id manifest, snapshot with
         | Some expected_object_id, Some snapshot =>
             if str_eqb expected_object_id (vs_object_id snapshot)
             then validate_manifest_snapshot manifest snapshot
             else invalid_manifest ("manifest current snapshot object " +:+ expected_object_id
                    +:+ " does not match verified snapshot object " +:+ vs_object_id snapshot)
         | Some expected_object_id, None =>
             invalid_manifest ("manifest references missing snapshot object "
                               +:+ expected_object_id)
         | None, Some snapshot =>
             invalid_manifest ("verified snapshot object " +:+ vs_object_id snapshot
                               +:+ " is not referenced by manifest")
         | None, None => Ok tt
         end in
  if negb (bool_decide (map vt_object_id tail_changes = mf_tail_change_object_ids manifest))
  then invalid_manifest "manifest tail object ids do not match verified tail changes"
  else check_all (fun tail =>
         if negb (str_eqb (in_profile (vt_change tail)) (mf_profile manifest))
         then invalid_manifest ("tail change " +:+ vt_object_id tail +:+ " profile "
                +:+ in_profile (vt_change tail) +:+ " does not match manifest profile "
                +:+ mf_profile manifest)
         else if negb (str_member (in_domain (vt_change tail)) (mf_included_domains manifest))
         then invalid_manifest ("tail change " +:+ vt_object_id tail +:+ " domain "
                +:+ in_domain (vt_change tail) +:+ " is not included in manifest")
         else Ok tt) tail_changes.

Definition apply_verified_settings_manifest_in_transaction (d : PayloadDecoders)
    (manifest_object_id : string) (manifest : ProfileSyncManifest)
    (snapshot : option VerifiedProfileSyncSettingsSnapshot)
    (tail_changes : list VerifiedProfileSyncSettingsTailChange) (now : Z) :
    storage ProfileSyncSettingsManifestApplication :=
  do* sr_lift (validate_settings_manifest_application manifest snapshot tail_changes) in
  let* applied_snapshot :=
    match snapshot with
    | None => sr_ret ([], None)
    | Some snapshot =>
        let* snapshot_changes :=
          apply_settings_snapshot_in_transaction d (vs_snapshot snapshot) now in
        let* snapshot_record := record_sync_snapshot_in_transaction
          {| snr_profile := mf_profile manifest;
             snr_snapshot_id :=
               settings_sync_snapshot_id (sp_covers_revision (vs_snapshot snapshot));
             snr_backend_object_id := Some (vs_object_id snapshot);
             snr_covers_revision := sp_covers_revision (vs_snapshot snapshot);
             snr_included_domains := sp_included_domains (vs_snapshot snapshot) |} now in
        sr_ret (snapshot_changes, Some snapshot_record)
    end in
  let* applied_tail_changes := apply_changes d (map vt_change tail_changes) now in
  do* set_profile_sync_root_in_transaction (mf_profile manifest) (mf_root_id manifest)
        manifest_object_id now in
  sr_ret {| map_profile := mf_profile manifest; map_root_id := mf_root_id manifest;
            map_manifest_object_id := manifest_object_id;
            map_sync_object_ids :=
              manifest_object_id :: match snapshot with
                                    | Some snapshot => [vs_object_id snapshot]
                                    | None => []
                                    end ++ map vt_object_id tail_changes;
            map_snapshot := snd applied_snapshot; map_snapshot_changes := fst applied_snapshot;
            map_tail_changes := applied_tail_changes |}.

Definition apply_verified_settings_manifest (d : PayloadDecoders) (manifest_object_id : string)
    (manifest : ProfileSyncManifest) (snapshot : option VerifiedProfileSyncSettingsSnapshot)
    (tail_changes : list VerifiedProfileSyncSettingsTailChange) (now : Z) :
    storage ProfileSyncSettingsManifestApplication :=
  transaction (apply_verified_settings_manifest_in_transaction d manifest_object_id manifest
                 snapshot tail_changes now).

Definition apply_verified_settings_manifest_objects (d : PayloadDecoders)
    (objects : VerifiedProfileSyncSettingsManifestObjects) (now : Z) :
    storage ProfileSyncSettingsManifestApplication :=
  apply_verified_settings_manifest d (vm_manifest_object_id objects) (vm_manifest objects)
    (vm_snapshot objects) (vm_tail_changes objects) now.

Definition apply_verified_settings_manifest_objects_and_set_profile_sync_root
    (d : PayloadDecoders) (objects : VerifiedProfileSyncSettingsManifestObjects)
    (profile root_id object_id : string) (now : Z) :
    storage (ProfileSyncRootRecord * ProfileSyncSettingsManifestApplication) :=
  transaction
    (let* application := apply_verified_settings_manifest_in_transaction d
       (vm_manifest_object_id objects) (vm_manifest objects) (vm_snapshot objects)
       (vm_tail_changes objects) now in
     let* root := set_profile_sync_root_in_transaction profile root_id object_id now in
     sr_ret (root, application)).

Definition candidate_rank (c : RootCandidate) : Z * string * string :=
  (cand_publish_sequence c, cand_publisher_id c, cand_object_id c).

Definition newest_profile_sync_root_candidate (candidates : list RootCandidate) :
    option RootCandidate :=
  select_max candidate_rank candidates.

(** The loop over the ordered candidates: each is applied in a transaction of its
    own, so those before a refused one stay. *)
Fixpoint apply_ordered_candidates (d : PayloadDecoders)
    (candidates : list VerifiedProfileSyncSettingsManifestCandidate) (now : Z) :
    storage (list ProfileSyncSettingsManifestCandidateApplication) :=
  match candidates with
  | [] => sr_ret []
  | candidate :: candidates =>
      let* application := apply_verified_settings_manifest_objects d (vc_objects candidate) now in
      let* applications := apply_ordered_candidates d candidates now in
      sr_ret ({| ca_root_candidate := vc_root_candidate candidate;
                 ca_application := application |} :: applications)
  end.

Definition apply_verified_settings_manifest_candidates (d : PayloadDecoders)
    (candidates : list VerifiedProfileSyncSettingsManifestCandidate) (now : Z) :
    storage (list ProfileSyncSettingsManifestCandidateApplication) :=
  apply_ordered_candidates d
    (sort_by (key_cmp (fun c => candidate_rank (vc_root_candidate c))) candidates) now.
