(* ===== verification/SyncSecrets.v ===== *)
(** * Sync secrets, signers and sealed objects

    The writing side of [crates/storage/src/lib.rs]: the sync secret of an account, the
    keys derived from it, device signers, the sealing of payloads, and the bundles that hand
    the secret over to another device.

    [serde_json], base64, HKDF, Ed25519 and ChaCha20-Poly1305 are not part of the program:
    their entry points are the functions of [SyncSealer], as the opposite ones are of
    [SyncCodec].  Random bytes are arguments; [None] is a failing generator. *)
From S2P Require Import Prelude RustStr AppViews Database SyncObjects SyncStore.
From S2P Require Import Membership ProfileTables Snapshots.

Definition SLATE_SYNC_SECRET_EXPORT_SCHEMA_VERSION : Z := 1.
Definition SLATE_SYNC_SECRET_BYTES : Z := 32.
Definition SLATE_SYNC_SECRET_EXPORT_OBJECT_KIND : string := "slate-sync-secret-export".
Definition PROFILE_SYNC_SECRET_HANDOFF_BUNDLE_SCHEMA_VERSION : Z := 1.
Definition PROFILE_SYNC_SECRET_HANDOFF_BUNDLE_MAX_BYTES : Z := 64 * 1024.
Definition PROFILE_SYNC_DEVICE_ENROLLMENT_REQUEST_SCHEMA_VERSION : Z := 1.
Definition DEFAULT_PROFILE_SYNC_ACCOUNT_AUTHORITY_DEVICE_ID : string := "account-authority".

(** ** Data *)

(** [signature::Ed25519KeyPair]. *)
Record Ed25519KeyPair := { kp_public_key : string; kp_sign : string -> string }.

Record SlateSyncSecret := { secret_bytes : string }.

Record SlateSyncSecretExport := {
  se_profile : string;
  se_schema_version : Z;
  se_secret : string;
  se_created_at : Z
}.

Record ProfileSyncDerivedSecret := {
  ds_purpose : ProfileSyncDerivedSecretPurpose;
  ds_bytes : string
}.

Inductive ProfileSyncDeviceSigningKeyMaterial :=
  | Pkcs8 (pkcs8 : string)
  | Seed (seed : string).

Record ProfileSyncDeviceSigner := {
  sg_device_id : string;
  sg_key_material : ProfileSyncDeviceSigningKeyMaterial
}.

Record ProfileSyncSecretHandoffBundle := {
  hb_profile : string;
  hb_schema_version : Z;
  hb_target_device_id : string;
  hb_created_at : Z;
  hb_sync_secret_export : SlateSyncSecretExport;
  hb_enrollment_bundle : ProfileSyncEnrollmentBundle
}.

Record ProfileSyncDeviceEnrollmentRequest := {
  er_profile : string;
  er_schema_version : Z;
  er_device_id : string;
  er_created_at : Z
}.

(** The functions of the libraries.  An encoder answers a document or the text of an error. *)
Record SyncSealer := {
  signed_object_to_vec : SignedSyncObject -> result string string;
  encrypted_object_to_vec : EncryptedSyncObject -> result string string;
  membership_record_to_vec : ProfileSyncMembershipRecord -> result string string;
  device_head_to_vec : ProfileSyncDeviceHead -> result string string;
  manifest_to_vec : ProfileSyncManifest -> result string string;
  settings_snapshot_to_vec : ProfileSyncSettingsSnapshot -> result string string;
  setting_change_to_vec : IncomingSyncSettingText -> result string string;
  secret_export_to_vec : SlateSyncSecretExport -> result string string;
  secret_export_from_slice : string -> result string SlateSyncSecretExport;
  enrollment_bundle_to_vec : ProfileSyncEnrollmentBundle -> result string string;
  enrollment_bundle_from_slice : string -> result string ProfileSyncEnrollmentBundle;
  handoff_bundle_to_vec : ProfileSyncSecretHandoffBundle -> result string string;
  handoff_bundle_from_slice : string -> result string ProfileSyncSecretHandoffBundle;
  enrollment_request_to_vec : ProfileSyncDeviceEnrollmentRequest -> result string string;
  enrollment_request_from_slice : string -> result string ProfileSyncDeviceEnrollmentRequest;
  chacha20_poly1305_seal : string -> string -> string -> string -> option string;
  hkdf_sha256 : string -> string -> string -> option string;
  ed25519_from_seed : string -> option Ed25519KeyPair;
  ed25519_from_pkcs8 : string -> option Ed25519KeyPair;
  base64_url_encode : string -> string;
  base64_url_decode : string -> option string
}.

Section Secrets.
Context (codec : SyncCodec) (sealer : SyncSealer).

(** ** Exports *)

Definition secret_generate (random : option string) : result SyncObjectError SlateSyncSecret :=
  match random with
  | Some bytes => Ok {| secret_bytes := bytes |}
  | None => Err Random
  end.

Definition secret_export_new (profile : string) (secret : SlateSyncSecret) (created_at : Z) :
    SlateSyncSecretExport :=
  {| se_profile := profile; se_schema_version := SLATE_SYNC_SECRET_EXPORT_SCHEMA_VERSION;
     se_secret := base64_url_encode sealer (secret_bytes secret); se_created_at := created_at |}.

Definition export_for_profile (self : SlateSyncSecret) (profile : string) (created_at : Z) :
    SlateSyncSecretExport := secret_export_new profile self created_at.

Definition validate_export_schema (self : SlateSyncSecretExport) : result SyncObjectError unit :=
  if negb (se_schema_version self =? SLATE_SYNC_SECRET_EXPORT_SCHEMA_VERSION)
  then Err (UnsupportedSchema SLATE_SYNC_SECRET_EXPORT_OBJECT_KIND (se_schema_version self))
  else Ok tt.

Definition validate_expected_profile (self : SlateSyncSecretExport) (expected_profile : string) :
    result SyncObjectError unit :=
  check? validate_export_schema self in
  if negb (str_eqb (se_profile self) expected_profile)
  then Err (UnexpectedProfile expected_profile (se_profile self))
  else Ok tt.

Definition export_to_bytes (self : SlateSyncSecretExport) : result SyncObjectError string :=
  check? validate_export_schema self in
  map_err Encode (secret_export_to_vec sealer self).

Definition export_from_bytes (bytes : string) : result SyncObjectError SlateSyncSecretExport :=
  let? export := map_err Decode (secret_export_from_slice sealer bytes) in
  check? validate_export_schema export in
  Ok export.

Definition to_sync_secret (self : SlateSyncSecretExport) : result SyncObjectError SlateSyncSecret :=
  check? validate_export_schema self in
  let? decoded := ok_or (base64_url_decode sealer (se_secret self)) Key in
  if str_len decoded =? SLATE_SYNC_SECRET_BYTES then Ok {| secret_bytes := decoded |}
  else Err Key.

Definition to_sync_secret_for_profile (self : SlateSyncSecretExport) (expected_profile : string) :
    result SyncObjectError SlateSyncSecret :=
  check? validate_expected_profile self expected_profile in
  to_sync_secret self.

Definition from_export_for_profile (export : SlateSyncSecretExport) (expected_profile : string) :
    result SyncObjectError SlateSyncSecret := to_sync_secret_for_profile export expected_profile.

(** ** Derived secrets *)

Definition derive_profile_sync_secret_bytes (self : SlateSyncSecret) (profile info_label : string) :
    result SyncObjectError string :=
  ok_or (hkdf_sha256 sealer ("slate/profile-sync/" +:+ profile) (secret_bytes self) info_label) Key.

Definition derived (purpose : ProfileSyncDerivedSecretPurpose) (bytes : result SyncObjectError string) :
    result SyncObjectError ProfileSyncDerivedSecret :=
  let? bytes := bytes in
  Ok {| ds_purpose := purpose; ds_bytes := bytes |}.

Definition derive_profile_sync_content_key (self : SlateSyncSecret) (profile key_id : string) :
    result SyncObjectError string :=
  derive_profile_sync_secret_bytes self profile ("content-key/v1/" +:+ key_id).

Definition derive_profile_sync_account_recovery_secret (self : SlateSyncSecret) (profile : string) :
    result SyncObjectError ProfileSyncDerivedSecret :=
  derived AccountRecovery (derive_profile_sync_secret_bytes self profile "account-recovery/v1").

(** The label of a secret of a device at an epoch. *)
Definition device_label (label : string) (membership_epoch : Z) (device_id : string) : string :=
  label +:+ show membership_epoch +:+ "/" +:+ device_id.

Definition derive_profile_sync_manifest_signing_secret (self : SlateSyncSecret)
    (profile device_id : string) (membership_epoch : Z) :
    result SyncObjectError ProfileSyncDerivedSecret :=
  if negb (is_valid_sync_identifier device_id) then Err (InvalidDeviceId device_id)
  else derived ManifestSigning (derive_profile_sync_secret_bytes self profile
         (device_label "manifest-signing/v1/" membership_epoch device_id)).

Definition derive_profile_sync_mutable_root_secret (self : SlateSyncSecret)
    (profile root_id : string) (membership_epoch : Z) :
    result SyncObjectError ProfileSyncDerivedSecret :=
  derived MutableRootPublishing (derive_profile_sync_secret_bytes self profile
    (device_label "mutable-root/v1/" membership_epoch root_id)).

Definition derive_profile_sync_enrollment_secret (self : SlateSyncSecret)
    (profile target_device_id : string) (membership_epoch : Z) :
    result SyncObjectError ProfileSyncDerivedSecret :=
  if negb (is_valid_sync_identifier target_device_id) then Err (InvalidDeviceId target_device_id)
  else derived DeviceEnrollment (derive_profile_sync_secret_bytes self profile
         (device_label "enrollment/v1/" membership_epoch target_device_id)).

Definition derive_profile_sync_device_bootstrap_secret (self : SlateSyncSecret)
    (profile device_id : string) (membership_epoch : Z) :
    result SyncObjectError ProfileSyncDerivedSecret :=
  if negb (is_valid_sync_identifier device_id) then Err (InvalidDeviceId device_id)
  else derived DeviceBootstrap (derive_profile_sync_secret_bytes self profile
         (device_label "device-bootstrap/v1/" membership_epoch device_id)).

(** ** Signers *)

Definition key_pair (self : ProfileSyncDeviceSigner) : result SyncObjectError Ed25519KeyPair :=
  ok_or (match sg_key_material self with
         | Pkcs8 pkcs8 => ed25519_from_pkcs8 sealer pkcs8
         | Seed seed => ed25519_from_seed sealer seed
         end) Key.

(** A signer of key material that yields a key pair. *)
Definition checked_signer (device_id : string)
    (key_material : ProfileSyncDeviceSigningKeyMaterial) :
    result SyncObjectError ProfileSyncDeviceSigner :=
  if negb (is_valid_sync_identifier device_id) then Err (InvalidDeviceId device_id)
  else
  let signer := {| sg_device_id := device_id; sg_key_material := key_material |} in
  check? key_pair signer in
  Ok signer.

Definition signer_generate (device_id : string) (random_pkcs8 : option string) :
    result SyncObjectError ProfileSyncDeviceSigner :=
  if negb (is_valid_sync_identifier device_id) then Err (InvalidDeviceId device_id)
  else match random_pkcs8 with
       | None => Err Random
       | Some pkcs8 => Ok {| sg_device_id := device_id; sg_key_material := Pkcs8 pkcs8 |}
       end.

Definition from_pkcs8 (device_id pkcs8 : string) : result SyncObjectError ProfileSyncDeviceSigner :=
  checked_signer device_id (Pkcs8 pkcs8).

Definition from_seed (device_id seed : string) : result SyncObjectError ProfileSyncDeviceSigner :=
  checked_signer device_id (Seed seed).

Definition from_manifest_signing_secret (device_id : string)
    (signing_secret : ProfileSyncDerivedSecret) : result SyncObjectError ProfileSyncDeviceSigner :=
  if negb (bool_decide (ds_purpose signing_secret = ManifestSigning))
  then Err (UnexpectedDerivedSecretPurpose ManifestSigning (ds_purpose signing_secret))
  else from_seed device_id (ds_bytes signing_secret).

Definition derive_profile_sync_device_signer (self : SlateSyncSecret)
    (profile device_id : string) (membership_epoch : Z) :
    result SyncObjectError ProfileSyncDeviceSigner :=
  let? signing_secret :=
    derive_profile_sync_manifest_signing_secret self profile device_id membership_epoch in
  from_manifest_signing_secret device_id signing_secret.

Definition signer_public_key (self : ProfileSyncDeviceSigner) :
    result SyncObjectError ProfileSyncDevicePublicKey :=
  let? pair := key_pair self in
  Ok {| pk_device_id := sg_device_id self; pk_bytes := kp_public_key pair |}.

Definition sign (self : ProfileSyncDeviceSigner) (payload : string) :
    result SyncObjectError SignedSyncObject :=
  let? pair := key_pair self in
  Ok {| so_version := SYNC_OBJECT_VERSION; so_device_id := sg_device_id self;
        so_public_key := kp_public_key pair; so_payload := payload;
        so_signature := kp_sign pair payload |}.

Definition signed_to_bytes (self : SignedSyncObject) : result SyncObjectError string :=
  map_err Encode (signed_object_to_vec sealer self).

(** ** Sealing *)

Definition seal_sync_payload (associated_data plaintext content_key nonce : string) :
    result SyncObjectError string :=
  ok_or (chacha20_poly1305_seal sealer content_key associated_data nonce plaintext) Encrypt.

Definition seal_with_nonce (profile domain object_kind key_id plaintext content_key nonce : string) :
    result SyncObjectError EncryptedSyncObject :=
  let object := {| eo_version := SYNC_OBJECT_VERSION; eo_profile := profile; eo_domain := domain;
                   eo_object_kind := object_kind; eo_key_id := key_id; eo_nonce := nonce;
                   eo_ciphertext := plaintext |} in
  let? ciphertext := seal_sync_payload (associated_data object) (eo_ciphertext object) content_key
                       nonce in
  Ok {| eo_version := eo_version object; eo_profile := eo_profile object;
        eo_domain := eo_domain object; eo_object_kind := eo_object_kind object;
        eo_key_id := eo_key_id object; eo_nonce := eo_nonce object;
        eo_ciphertext := ciphertext |}.

Definition seal (profile domain object_kind key_id plaintext content_key : string)
    (random_nonce : option string) : result SyncObjectError EncryptedSyncObject :=
  let? nonce := ok_or random_nonce Random in
  seal_with_nonce profile domain object_kind key_id plaintext content_key nonce.

Definition encrypted_to_bytes (self : EncryptedSyncObject) : result SyncObjectError string :=
  map_err Encode (encrypted_object_to_vec sealer self).

(** Of [crates/profile-sync/src/lib.rs]: a payload sealed, then signed. *)
Definition sign_encrypted_json_object (profile domain object_kind key_id payload content_key : string)
    (signer : ProfileSyncDeviceSigner) (random_nonce : option string) :
    result SyncObjectError string :=
  let? encrypted_object := seal profile domain object_kind key_id payload content_key
                             random_nonce in
  let? encrypted_bytes := encrypted_to_bytes encrypted_object in
  let? signed := sign signer encrypted_bytes in
  signed_to_bytes signed.

(** ** Membership records *)

Definition profile_sync_membership_record_error (error : SyncObjectError) : StorageError :=
  InvalidProfileSyncMembershipRecord (sync_object_error_to_string error).

Definition profile_sync_enroll_device_record_id (membership_epoch : Z) (device_id : string) :
    string := "epoch-" +:+ show membership_epoch +:+ "-enroll-" +:+ device_id.

Definition profile_sync_enroll_device_record (profile device_id : string) (membership_epoch : Z)
    (public_key : ProfileSyncDevicePublicKey) : ProfileSyncMembershipRecord :=
  {| mr_profile := profile;
     mr_record_id := profile_sync_enroll_device_record_id membership_epoch device_id;
     mr_schema_version := PROFILE_SYNC_MEMBERSHIP_RECORD_SCHEMA_VERSION;
     mr_membership_epoch := membership_epoch; mr_record_kind := ENROLL_DEVICE;
     mr_device_id := device_id; mr_device_public_key := Some public_key;
     mr_created_at := membership_epoch |}.

Definition profile_sync_enroll_provider_record (profile provider_id : string)
    (membership_epoch : Z) (public_key : ProfileSyncDevicePublicKey) :
    ProfileSyncMembershipRecord :=
  {| mr_profile := profile;
     mr_record_id := profile_sync_enroll_device_record_id membership_epoch provider_id;
     mr_schema_version := PROFILE_SYNC_MEMBERSHIP_RECORD_SCHEMA_VERSION;
     mr_membership_epoch := membership_epoch; mr_record_kind := ENROLL_PROVIDER;
     mr_device_id := provider_id; mr_device_public_key := Some public_key;
     mr_created_at := membership_epoch |}.

Definition membership_to_bytes (self : ProfileSyncMembershipRecord) :
    result SyncObjectError string :=
  map_err Encode (membership_record_to_vec sealer self).

Definition signed_profile_sync_membership_record_bytes (signer : ProfileSyncDeviceSigner)
    (record : ProfileSyncMembershipRecord) : result StorageError string :=
  let? payload := map_err profile_sync_membership_record_error (membership_to_bytes record) in
  map_err profile_sync_membership_record_error
    (let? signed := sign signer payload in signed_to_bytes signed).

(** The signed enrollment of [device_id] with the key of [device_signer]. *)
Definition signed_enrollment (profile : string) (signer : ProfileSyncDeviceSigner)
    (device_id : string) (membership_epoch : Z) (device_signer : ProfileSyncDeviceSigner) :
    result StorageError string :=
  let? public_key := map_err profile_sync_membership_record_error
                       (signer_public_key device_signer) in
  signed_profile_sync_membership_record_bytes signer
    (profile_sync_enroll_device_record profile device_id membership_epoch public_key).

(** ** Bundles *)

Definition enrollment_bundle_to_bytes (self : ProfileSyncEnrollmentBundle) :
    result StorageError string :=
  check? validate_profile_sync_enrollment_bundle codec self in
  map_err EncodeSyncPayload (enrollment_bundle_to_vec sealer self).

Definition enrollment_bundle_from_bytes (bytes : string) :
    result StorageError ProfileSyncEnrollmentBundle :=
  let? bundle := map_err DecodeSyncPayload (enrollment_bundle_from_slice sealer bytes) in
  check? validate_profile_sync_enrollment_bundle codec bundle in
  Ok bundle.

Definition profile_sync_secret_handoff_sync_object_error (error : SyncObjectError) : StorageError :=
  InvalidProfileSyncSecretHandoffBundle (sync_object_error_to_string error).

Definition validate_profile_sync_secret_handoff_bundle (bundle : ProfileSyncSecretHandoffBundle) :
    result StorageError unit :=
  if negb (hb_schema_version bundle =? PROFILE_SYNC_SECRET_HANDOFF_BUNDLE_SCHEMA_VERSION)
  then Err (UnsupportedProfileSyncSecretHandoffBundleSchema (hb_schema_version bundle))
  else if is_empty (trim (hb_profile bundle))
  then Err (InvalidProfileSyncSecretHandoffBundle "missing profile id")
  else if negb (is_valid_sync_identifier (hb_target_device_id bundle))
  then Err (InvalidSyncDeviceId (hb_target_device_id bundle))
  else if negb (str_eqb (se_profile (hb_sync_secret_export bundle)) (hb_profile bundle))
  then Err (InvalidProfileSyncSecretHandoffBundle
              ("secret export profile " +:+ se_profile (hb_sync_secret_export bundle)
               +:+ " does not match handoff profile " +:+ hb_profile bundle))
  else if negb (str_eqb (eb_profile (hb_enrollment_bundle bundle)) (hb_profile bundle))
  then Err (InvalidProfileSyncSecretHandoffBundle
              ("enrollment bundle profile " +:+ eb_profile (hb_enrollment_bundle bundle)
               +:+ " does not match handoff profile " +:+ hb_profile bundle))
  else if negb (str_eqb (eb_target_device_id (hb_enrollment_bundle bundle))
                  (hb_target_device_id bundle))
  then Err (InvalidProfileSyncSecretHandoffBundle
              ("enrollment bundle targets device "
               +:+ eb_target_device_id (hb_enrollment_bundle bundle)
               +:+ ", not handoff target " +:+ hb_target_device_id bundle))
  else
  check? map_err profile_sync_secret_handoff_sync_object_error
           (from_export_for_profile (hb_sync_secret_export bundle) (hb_profile bundle)) in
  validate_profile_sync_enrollment_bundle codec (hb_enrollment_bundle bundle).

Definition validate_profile_sync_secret_handoff_bundle_size (size_bytes : Z) :
    result StorageError unit :=
  if PROFILE_SYNC_SECRET_HANDOFF_BUNDLE_MAX_BYTES <? size_bytes
  then Err (InvalidProfileSyncSecretHandoffBundle
              ("handoff bundle is " +:+ show size_bytes +:+ " bytes, exceeding max "
               +:+ show PROFILE_SYNC_SECRET_HANDOFF_BUNDLE_MAX_BYTES))
  else Ok tt.

Definition handoff_bundle_new (profile target_device_id : string)
    (sync_secret_export : SlateSyncSecretExport) (enrollment_bundle : ProfileSyncEnrollmentBundle)
    (created_at : Z) : result StorageError ProfileSyncSecretHandoffBundle :=
  let bundle := {| hb_profile := profile;
                   hb_schema_version := PROFILE_SYNC_SECRET_HANDOFF_BUNDLE_SCHEMA_VERSION;
                   hb_target_device_id := target_device_id; hb_created_at := created_at;
                   hb_sync_secret_export := sync_secret_export;
                   hb_enrollment_bundle := enrollment_bundle |} in
  check? validate_profile_sync_secret_handoff_bundle bundle in
  Ok bundle.

Definition handoff_bundle_to_bytes (self : ProfileSyncSecretHandoffBundle) :
    result StorageError string :=
  check? validate_profile_sync_secret_handoff_bundle self in
  let? bytes := map_err EncodeSyncPayload (handoff_bundle_to_vec sealer self) in
  check? validate_profile_sync_secret_handoff_bundle_size (str_len bytes) in
  Ok bytes.

Definition handoff_bundle_from_bytes (bytes : string) :
    result StorageError ProfileSyncSecretHandoffBundle :=
  check? validate_profile_sync_secret_handoff_bundle_size (str_len bytes) in
  let? bundle := map_err DecodeSyncPayload (handoff_bundle_from_slice sealer bytes) in
  check? validate_profile_sync_secret_handoff_bundle bundle in
  Ok bundle.

Definition handoff_to_sync_secret (self : ProfileSyncSecretHandoffBundle) :
    result StorageError SlateSyncSecret :=
  check? validate_profile_sync_secret_handoff_bundle self in
  map_err profile_sync_secret_handoff_sync_object_error
    (from_export_for_profile (hb_sync_secret_export self) (hb_profile self)).

(** ** Enrollment requests *)

Definition validate_profile_sync_device_enrollment_request
    (request : ProfileSyncDeviceEnrollmentRequest) : result StorageError unit :=
  if negb (er_schema_version request =? PROFILE_SYNC_DEVICE_ENROLLMENT_REQUEST_SCHEMA_VERSION)
  then Err (UnsupportedProfileSyncDeviceEnrollmentRequestSchema (er_schema_version request))
  else if is_empty (trim (er_profile request))
  then Err (InvalidProfileSyncDeviceEnrollmentRequest "missing profile id")
  else if negb (is_valid_sync_identifier (er_device_id request))
  then Err (InvalidSyncDeviceId (er_device_id request))
  else Ok tt.

Definition enrollment_request_new (profile device_id : string) (created_at : Z) :
    result StorageError ProfileSyncDeviceEnrollmentRequest :=
  let request := {| er_profile := profile;
                    er_schema_version := PROFILE_SYNC_DEVICE_ENROLLMENT_REQUEST_SCHEMA_VERSION;
                    er_device_id := device_id; er_created_at := created_at |} in
  check? validate_profile_sync_device_enrollment_request request in
  Ok request.

Definition enrollment_request_to_bytes (self : ProfileSyncDeviceEnrollmentRequest) :
    result StorageError string :=
  check? validate_profile_sync_device_enrollment_request self in
  map_err EncodeSyncPayload (enrollment_request_to_vec sealer self).

Definition enrollment_request_from_bytes (bytes : string) :
    result StorageError ProfileSyncDeviceEnrollmentRequest :=
  let? request := map_err DecodeSyncPayload (enrollment_request_from_slice sealer bytes) in
  check? validate_profile_sync_device_enrollment_request request in
  Ok request.

Definition enrollment_request_from_bytes_for_profile (bytes expected_profile : string) :
    result StorageError ProfileSyncDeviceEnrollmentRequest :=
  let? request := enrollment_request_from_bytes bytes in
  if negb (str_eqb (er_profile request) expected_profile)
  then Err (InvalidProfileSyncDeviceEnrollmentRequest
              ("expected profile " +:+ expected_profile +:+ ", got " +:+ er_profile request))
  else Ok request.

(** ** Handing the secret over *)

Definition derive_signer (sync_secret : SlateSyncSecret) (profile device_id : string)
    (membership_epoch : Z) : result StorageError ProfileSyncDeviceSigner :=
  map_err profile_sync_membership_record_error
    (derive_profile_sync_device_signer sync_secret profile device_id membership_epoch).

Definition profile_sync_enrollment_bundle_from_secret_with_epoch (profile : string)
    (sync_secret : SlateSyncSecret) (target_device_id : string)
    (membership_epoch created_at : Z) : result StorageError ProfileSyncEnrollmentBundle :=
  let? account_authority_signer := derive_signer sync_secret profile
         DEFAULT_PROFILE_SYNC_ACCOUNT_AUTHORITY_DEVICE_ID membership_epoch in
  let? account_authority_record := signed_enrollment profile account_authority_signer
         DEFAULT_PROFILE_SYNC_ACCOUNT_AUTHORITY_DEVICE_ID membership_epoch
         account_authority_signer in
  let? signed_records :=
    if negb (str_eqb target_device_id DEFAULT_PROFILE_SYNC_ACCOUNT_AUTHORITY_DEVICE_ID)
    then
      let? target_signer := derive_signer sync_secret profile target_device_id
                              membership_epoch in
      let? target_record := signed_enrollment profile account_authority_signer target_device_id
                              membership_epoch target_signer in
      Ok [account_authority_record; target_record]
    else Ok [account_authority_record] in
  new_device_enrollment codec profile target_device_id signed_records created_at.

Definition profile_sync_enrollment_bundle_from_secret (profile : string)
    (sync_secret : SlateSyncSecret) (target_device_id : string) (now : Z) :
    result StorageError ProfileSyncEnrollmentBundle :=
  profile_sync_enrollment_bundle_from_secret_with_epoch profile sync_secret target_device_id
    DEFAULT_PROFILE_SYNC_MEMBERSHIP_EPOCH now.

(** The check of a request against the profile it is answered for. *)
Definition check_request_profile (profile : string) (request : ProfileSyncDeviceEnrollmentRequest) :
    result StorageError unit :=
  if negb (str_eqb (er_profile request) profile)
  then Err (InvalidProfileSyncDeviceEnrollmentRequest
              ("expected profile " +:+ profile +:+ ", got " +:+ er_profile request))
  else Ok tt.

Definition profile_sync_enrollment_bundle_from_device_request (profile : string)
    (sync_secret : SlateSyncSecret) (request : ProfileSyncDeviceEnrollmentRequest) (now : Z) :
    result StorageError ProfileSyncEnrollmentBundle :=
  check? check_request_profile profile request in
  profile_sync_enrollment_bundle_from_secret profile sync_secret (er_device_id request) now.

Definition profile_sync_secret_handoff_bundle_from_secret_with_epoch (profile : string)
    (sync_secret : SlateSyncSecret) (target_device_id : string)
    (membership_epoch created_at : Z) : result StorageError ProfileSyncSecretHandoffBundle :=
  let sync_secret_export := export_for_profile sync_secret profile created_at in
  let? enrollment_bundle := profile_sync_enrollment_bundle_from_secret_with_epoch profile
         sync_secret target_device_id membership_epoch created_at in
  handoff_bundle_new profile target_device_id sync_secret_export enrollment_bundle created_at.

Definition profile_sync_secret_handoff_bundle_from_secret (profile : string)
    (sync_secret : SlateSyncSecret) (target_device_id : string) (now : Z) :
    result StorageError ProfileSyncSecretHandoffBundle :=
  profile_sync_secret_handoff_bundle_from_secret_with_epoch profile sync_secret target_device_id
    DEFAULT_PROFILE_SYNC_MEMBERSHIP_EPOCH now.

Definition profile_sync_secret_handoff_bundle_from_device_request (profile : string)
    (sync_secret : SlateSyncSecret) (request : ProfileSyncDeviceEnrollmentRequest) (now : Z) :
    result StorageError ProfileSyncSecretHandoffBundle :=
  check? check_request_profile profile request in
  profile_sync_secret_handoff_bundle_from_secret profile sync_secret (er_device_id request) now.

(** ** Activation *)

Record ProfileSyncLocalActivationRecord := {
  la_profile : string;
  la_device_id : string;
  la_content_key_epoch : SyncContentKeyEpochRecord
}.

Record ProfileSyncLocalSecretActivationRecord := {
  lsa_activation : ProfileSyncLocalActivationRecord;
  lsa_account_authority_device_id : string;
  lsa_local_device_id : string;
  lsa_membership_applications : list SyncAccountMembershipRecordApplication
}.

Record ProfileSyncSecretHandoffApplication := {
  sha_enrollment_applications : list SyncAccountMembershipRecordApplication;
  sha_activation : ProfileSyncLocalSecretActivationRecord
}.

Context (local_sync_device_id : string).

(** Three operations, each committed on its own. *)
Definition activate_local_profile_sync_metadata_with_key (profile key_id : string)
    (membership_epoch now : Z) : storage ProfileSyncLocalActivationRecord :=
  do* register_sync_device {| sdr_profile := profile; sdr_device_id := local_sync_device_id;
                              sdr_label := Some "Local Device";
                              sdr_membership_epoch := membership_epoch;
                              sdr_provider_authority := false |} now in
  do* ensure_default_app_sync_domains profile now in
  let* content_key_epoch := register_sync_content_key_epoch
    {| ker_profile := profile; ker_key_id := key_id; ker_membership_epoch := membership_epoch;
       ker_algorithm := PROFILE_SYNC_CONTENT_KEY_ALGORITHM_CHACHA20_POLY1305;
       ker_active := true |} now in
  sr_ret {| la_profile := profile; la_device_id := local_sync_device_id;
            la_content_key_epoch := content_key_epoch |}.

Definition activate_local_profile_sync_metadata (profile : string) (now : Z) :
    storage ProfileSyncLocalActivationRecord :=
  activate_local_profile_sync_metadata_with_key profile DEFAULT_PROFILE_SYNC_CONTENT_KEY_ID
    DEFAULT_PROFILE_SYNC_MEMBERSHIP_EPOCH now.

(** The records are signed in turn, each before it is applied. *)
Definition activate_local_profile_sync_from_secret_with_key (profile : string)
    (sync_secret : SlateSyncSecret) (key_id : string) (membership_epoch now : Z) :
    storage ProfileSyncLocalSecretActivationRecord :=
  let* activation := activate_local_profile_sync_metadata_with_key profile key_id
                       membership_epoch now in
  let* account_authority_signer := sr_lift (derive_signer sync_secret profile
         DEFAULT_PROFILE_SYNC_ACCOUNT_AUTHORITY_DEVICE_ID membership_epoch) in
  let* account_authority_record := sr_lift (signed_enrollment profile account_authority_signer
         DEFAULT_PROFILE_SYNC_ACCOUNT_AUTHORITY_DEVICE_ID membership_epoch
         account_authority_signer) in
  let* account_authority_application :=
    apply_signed_sync_account_membership_record codec account_authority_record now in
  let* local_applications :=
    if negb (str_eqb local_sync_device_id DEFAULT_PROFILE_SYNC_ACCOUNT_AUTHORITY_DEVICE_ID)
    then
      let* local_signer := sr_lift (derive_signer sync_secret profile local_sync_device_id
                                      membership_epoch) in
      let* local_record := sr_lift (signed_enrollment profile account_authority_signer
                                      local_sync_device_id membership_epoch local_signer) in
      let* application := apply_signed_sync_account_membership_record codec local_record now in
      sr_ret [application]
    else sr_ret [] in
  sr_ret {| lsa_activation := activation;
            lsa_account_authority_device_id := DEFAULT_PROFILE_SYNC_ACCOUNT_AUTHORITY_DEVICE_ID;
            lsa_local_device_id := local_sync_device_id;
            lsa_membership_applications :=
              account_authority_application :: local_applications |}.

Definition activate_local_profile_sync_from_secret (profile : string)
    (sync_secret : SlateSyncSecret) (now : Z) :
    storage ProfileSyncLocalSecretActivationRecord :=
  activate_local_profile_sync_from_secret_with_key profile sync_secret
    DEFAULT_PROFILE_SYNC_CONTENT_KEY_ID DEFAULT_PROFILE_SYNC_MEMBERSHIP_EPOCH now.

Definition apply_profile_sync_secret_handoff_bundle (bundle : ProfileSyncSecretHandoffBundle)
    (now : Z) : storage ProfileSyncSecretHandoffApplication :=
  do* sr_lift (validate_profile_sync_secret_handoff_bundle bundle) in
  if negb (str_eqb (hb_target_device_id bundle) local_sync_device_id)
  then sr_err (InvalidProfileSyncSecretHandoffBundle
                 ("handoff targets device " +:+ hb_target_device_id bundle
                  +:+ ", but this database is for device " +:+ local_sync_device_id))
  else
  let* sync_secret := sr_lift (handoff_to_sync_secret bundle) in
  let* enrollment_applications := apply_profile_sync_enrollment_bundle codec local_sync_device_id
                                    (hb_enrollment_bundle bundle) now in
  let* activation := activate_local_profile_sync_from_secret (hb_profile bundle) sync_secret now in
  sr_ret {| sha_enrollment_applications := enrollment_applications;
            sha_activation := activation |}.
End Secrets.
