(* ===== verification/Sealing.v ===== *)
(** * The laws of the codecs, and sealed objects that open again

    [SealerLaws] states what the program relies on when it reads back what it wrote: the
    documents of [serde_json] decode to the value they encode, a signature verifies under
    the public key of its pair, a ciphertext opens under its key, nonce and associated
    data.  [reference_codec] and [reference_sealer] satisfy the laws and can be run, so
    that the theorems that assume them have concrete instances. *)
From S2P Require Import Prelude RustStr AppViews Database SyncObjects SyncStore.
From S2P Require Import Membership MembershipLaws TrustedOpen SyncSecrets.

(** ** Laws *)

(** [to_vec] succeeds with a document that is not empty, [from_slice] reads it back. *)
Definition document_laws {A} (to_vec : A -> result string string)
    (from_slice : string -> result string A) : Prop :=
  forall a, exists bytes, to_vec a = Ok bytes /\ is_empty bytes = false /\ from_slice bytes = Ok a.

Record SealerLaws (codec : SyncCodec) (sealer : SyncSealer) : Prop := {
  sl_signed : document_laws (signed_object_to_vec sealer) (signed_object_from_slice codec);
  sl_encrypted :
    document_laws (encrypted_object_to_vec sealer) (encrypted_object_from_slice codec);
  sl_membership :
    document_laws (membership_record_to_vec sealer) (membership_record_from_slice codec);
  sl_device_head : document_laws (device_head_to_vec sealer) (device_head_from_slice codec);
  sl_manifest : document_laws (manifest_to_vec sealer) (manifest_from_slice codec);
  sl_snapshot :
    document_laws (settings_snapshot_to_vec sealer) (settings_snapshot_from_slice codec);
  sl_change : document_laws (setting_change_to_vec sealer) (setting_change_from_slice codec);
  sl_export : document_laws (secret_export_to_vec sealer) (secret_export_from_slice sealer);
  sl_handoff : document_laws (handoff_bundle_to_vec sealer) (handoff_bundle_from_slice sealer);
  sl_seal key ad nonce plaintext ciphertext :
    chacha20_poly1305_seal sealer key ad nonce plaintext = Some ciphertext ->
    chacha20_poly1305_open codec key ad nonce ciphertext = Some plaintext;
  sl_hkdf salt secret info : exists bytes, hkdf_sha256 sealer salt secret info = Some bytes /\
    str_len bytes = SLATE_SYNC_SECRET_BYTES;
  sl_seed seed : str_len seed = SLATE_SYNC_SECRET_BYTES ->
    is_Some (ed25519_from_seed sealer seed);
  sl_public_key seed pair : ed25519_from_seed sealer seed = Some pair ->
    is_empty (kp_public_key pair) = false;
  sl_seed_verify seed pair payload : ed25519_from_seed sealer seed = Some pair ->
    ed25519_verify codec (kp_public_key pair) payload (kp_sign pair payload) = true;
  sl_pkcs8_verify pkcs8 pair payload : ed25519_from_pkcs8 sealer pkcs8 = Some pair ->
    ed25519_verify codec (kp_public_key pair) payload (kp_sign pair payload) = true;
  sl_base64 bytes : base64_url_decode sealer (base64_url_encode sealer bytes) = Some bytes
}.

(** ** Documents of a reference codec *)

(** A value is written in front of the fields that follow it. *)
Class Document (A : Type) := {
  put : A -> list string -> list string;
  get : list string -> option (A * list string);
  get_put a l : get (put a l) = Some (a, l)
}.

#[export, refine] Instance string_document : Document string := {
  put s l := s :: l;
  get l := match l with s :: l => Some (s, l) | [] => None end;
  get_put := _
}.
Proof. done. Defined.

Fixpoint put_bits (p : positive) : string :=
  match p with
  | xH => ""
  | xO p => String "0" (put_bits p)
  | xI p => String "1" (put_bits p)
  end.
Fixpoint get_bits (s : string) : positive :=
  match s with
  | EmptyString => xH
  | String c s => if Ascii.eqb c "0" then xO (get_bits s) else xI (get_bits s)
  end.

Lemma get_put_bits p : get_bits (put_bits p) = p.
Proof. induction p as [p IH|p IH|]; simpl; by rewrite ?IH. Qed.

#[export, refine] Instance Z_document : Document Z := {
  put z l := put_bits (encode z) :: l;
  get l := match l with
           | s :: l => match decode (get_bits s) with Some z => Some (z, l) | None => None end
           | [] => None
           end;
  get_put := _
}.
Proof. intros z l. by rewrite get_put_bits, decode_encode. Defined.

#[export, refine] Instance prod_document {A B} `{Document A} `{Document B} :
    Document (A * B) := {
  put ab l := put ab.1 (put ab.2 l);
  get l := match get l with
           | Some (a, l) => match get l with Some (b, l) => Some ((a, b), l) | None => None end
           | None => None
           end;
  get_put := _
}.
Proof. intros [a b] l. by rewrite !get_put. Defined.

#[export, refine] Instance option_document {A} `{Document A} : Document (option A) := {
  put o l := match o with Some a => "some" :: put a l | None => "none" :: l end;
  get l := match l with
           | s :: l => if str_eqb s "some"
                       then match get l with Some (a, l) => Some (Some a, l) | None => None end
                       else Some (None, l)
           | [] => None
           end;
  get_put := _
}.
Proof. intros [a|] l; [|done]. simpl. by rewrite get_put. Defined.

Fixpoint put_list {A} `{Document A} (xs : list A) (l : list string) : list string :=
  match xs with
  | [] => "" :: l
  | x :: xs => "," :: put x (put_list xs l)
  end.
Fixpoint get_list {A} `{Document A} (fuel : nat) (l : list string) :
    option (list A * list string) :=
  match fuel, l with
  | S fuel, s :: l =>
      if str_eqb s "," then
        match get l with
        | Some (x, l) => match get_list fuel l with
                         | Some (xs, l) => Some (x :: xs, l)
                         | None => None
                         end
        | None => None
        end
      else Some ([], l)
  | _, _ => None
  end.

Lemma get_put_list {A} `{Document A} (xs : list A) fuel l :
  (length xs < fuel)%nat -> get_list fuel (put_list xs l) = Some (xs, l).
Proof.
  revert fuel. induction xs as [|x xs IH]; intros [|fuel] Hf; simpl in *; try lia; [done|].
  rewrite get_put, IH by lia. done.
Qed.

(** The number of elements is written first, and is the fuel. *)
#[export, refine] Instance list_document {A} `{Document A} : Document (list A) := {
  put xs l := put (Z.of_nat (length xs)) (put_list xs l);
  get l := match get l with
           | Some (n, l) => get_list (S (Z.to_nat n)) l
           | None => None
           end;
  get_put := _
}.
Proof. intros xs l. rewrite get_put, Nat2Z.id. apply get_put_list. lia. Defined.

#[refine] Definition document_iso {A B} `{Document B} (f : A -> B) (g : B -> A)
    (gf : forall a, g (f a) = a) : Document A := {|
  put a l := put (f a) l;
  get l := match get l with Some (b, l) => Some (g b, l) | None => None end;
  get_put := _
|}.
Proof. intros a l. by rewrite get_put, gf. Defined.

(** Fields are closed by a full stop; [x] announces one more byte. *)
Fixpoint put_field (s rest : string) : string :=
  match s with
  | EmptyString => String "." rest
  | String c s => String "x" (String c (put_field s rest))
  end.
Fixpoint put_fields (l : list string) : string :=
  match l with [] => "" | s :: l => put_field s (put_fields l) end.
Fixpoint get_fields (s : string) : list string :=
  match s with
  | EmptyString => []
  | String t s =>
      if Ascii.eqb t "." then "" :: get_fields s
      else match s with
           | String c s => match get_fields s with
                           | field :: l => String c field :: l
                           | [] => [String c ""]
                           end
           | EmptyString => []
           end
  end.

Lemma get_put_field s rest : get_fields (put_field s rest) = s :: get_fields rest.
Proof. induction s as [|c s IH]; simpl; [done|]. by rewrite IH. Qed.

Lemma get_put_fields l : get_fields (put_fields l) = l.
Proof. induction l as [|s l IH]; simpl; [done|]. by rewrite get_put_field, IH. Qed.

Definition document_to_vec {A} `{Document A} (a : A) : result string string :=
  Ok ("{" +:+ put_fields (put a [])).
Definition document_from_slice {A} `{Document A} (s : string) : result string A :=
  match s with
  | EmptyString => Err "EOF while parsing a value"
  | String _ s => match get (get_fields s) with
                  | Some (a, []) => Ok a
                  | _ => Err "expected value"
                  end
  end.

Lemma document_laws_hold {A} `{Document A} :
  document_laws (document_to_vec (A := A)) document_from_slice.
Proof.
  intros a. eexists. split; [done|]. split; [done|]. simpl.
  change (("" +:+ put_fields (put a []))%string) with (put_fields (put a [])).
  by rewrite get_put_fields, get_put.
Qed.

(** The records, as the tuples of their fields. *)
Ltac record_document := intros []; reflexivity.

#[export] Instance signed_sync_object_document : Document SignedSyncObject :=
  document_iso (fun x => (so_version x, so_device_id x, so_public_key x, so_payload x,
    so_signature x)) (fun '(v1, v2, v3, v4, v5) => {| so_version := v1; so_device_id := v2;
    so_public_key := v3; so_payload := v4; so_signature := v5 |}) ltac:(record_document).
#[export] Instance encrypted_sync_object_document : Document EncryptedSyncObject :=
  document_iso (fun x => (eo_version x, eo_profile x, eo_domain x, eo_object_kind x, eo_key_id x,
    eo_nonce x, eo_ciphertext x)) (fun '(v1, v2, v3, v4, v5, v6, v7) => {| eo_version := v1;
    eo_profile := v2; eo_domain := v3; eo_object_kind := v4; eo_key_id := v5; eo_nonce := v6;
    eo_ciphertext := v7 |}) ltac:(record_document).
#[export] Instance profile_sync_device_public_key_document : Document ProfileSyncDevicePublicKey :=
  document_iso (fun x => (pk_device_id x, pk_bytes x)) (fun '(v1, v2) => {| pk_device_id := v1;
    pk_bytes := v2 |}) ltac:(record_document).
#[export] Instance profile_sync_membership_record_document : Document ProfileSyncMembershipRecord :=
  document_iso (fun x => (mr_profile x, mr_record_id x, mr_schema_version x, mr_membership_epoch
    x, mr_record_kind x, mr_device_id x, mr_device_public_key x, mr_created_at x)) (fun '(v1, v2,
    v3, v4, v5, v6, v7, v8) => {| mr_profile := v1; mr_record_id := v2; mr_schema_version := v3;
    mr_membership_epoch := v4; mr_record_kind := v5; mr_device_id := v6; mr_device_public_key := v7;
    mr_created_at := v8 |}) ltac:(record_document).
#[export] Instance slate_sync_secret_export_document : Document SlateSyncSecretExport :=
  document_iso (fun x => (se_profile x, se_schema_version x, se_secret x, se_created_at x)) (fun
    '(v1, v2, v3, v4) => {| se_profile := v1; se_schema_version := v2; se_secret := v3;
    se_created_at := v4 |}) ltac:(record_document).
#[export] Instance profile_sync_enrollment_bundle_document : Document ProfileSyncEnrollmentBundle :=
  document_iso (fun x => (eb_profile x, eb_schema_version x, eb_target_device_id x, eb_created_at
    x, eb_signed_membership_records x)) (fun '(v1, v2, v3, v4, v5) => {| eb_profile := v1;
    eb_schema_version := v2; eb_target_device_id := v3; eb_created_at := v4;
    eb_signed_membership_records := v5 |}) ltac:(record_document).
#[export] Instance profile_sync_secret_handoff_bundle_document : Document ProfileSyncSecretHandoffBundle :=
  document_iso (fun x => (hb_profile x, hb_schema_version x, hb_target_device_id x, hb_created_at
    x, hb_sync_secret_export x, hb_enrollment_bundle x)) (fun '(v1, v2, v3, v4, v5, v6) => {|
    hb_profile := v1; hb_schema_version := v2; hb_target_device_id := v3; hb_created_at := v4;
    hb_sync_secret_export := v5; hb_enrollment_bundle := v6 |}) ltac:(record_document).
#[export] Instance profile_sync_device_enrollment_request_document : Document ProfileSyncDeviceEnrollmentRequest :=
  document_iso (fun x => (er_profile x, er_schema_version x, er_device_id x, er_created_at x))
    (fun '(v1, v2, v3, v4) => {| er_profile := v1; er_schema_version := v2; er_device_id := v3;
    er_created_at := v4 |}) ltac:(record_document).
#[export] Instance profile_sync_device_head_document : Document ProfileSyncDeviceHead :=
  document_iso (fun x => (dh_profile x, dh_device_id x, dh_root_id x, dh_schema_version x,
    dh_membership_epoch x, dh_latest_manifest_object_id x, dh_latest_change_object_id x,
    dh_device_sequence x, dh_logical_clock x, dh_created_at x)) (fun '(v1, v2, v3, v4, v5, v6, v7,
    v8, v9, v10) => {| dh_profile := v1; dh_device_id := v2; dh_root_id := v3; dh_schema_version :=
    v4; dh_membership_epoch := v5; dh_latest_manifest_object_id := v6; dh_latest_change_object_id :=
    v7; dh_device_sequence := v8; dh_logical_clock := v9; dh_created_at := v10 |})
    ltac:(record_document).
#[export] Instance profile_sync_retention_policy_document : Document ProfileSyncRetentionPolicy :=
  document_iso (fun x => (rp_min_tail_change_count x, rp_change_retention_seconds x,
    rp_inactive_device_grace_seconds x)) (fun '(v1, v2, v3) => {| rp_min_tail_change_count := v1;
    rp_change_retention_seconds := v2; rp_inactive_device_grace_seconds := v3 |})
    ltac:(record_document).
#[export] Instance profile_sync_device_frontier_document : Document ProfileSyncDeviceFrontier :=
  document_iso (fun x => (df_device_id x, df_latest_sequence x, df_latest_change_object_id x))
    (fun '(v1, v2, v3) => {| df_device_id := v1; df_latest_sequence := v2;
    df_latest_change_object_id := v3 |}) ltac:(record_document).
#[export] Instance profile_sync_manifest_document : Document ProfileSyncManifest :=
  document_iso (fun x => (mf_profile x, mf_root_id x, mf_schema_version x, mf_membership_epoch x,
    mf_current_snapshot_object_id x, mf_tail_change_object_ids x, mf_included_domains x,
    mf_device_frontiers x, mf_retention_policy x, mf_created_at x)) (fun '(v1, v2, v3, v4, v5, v6,
    v7, v8, v9, v10) => {| mf_profile := v1; mf_root_id := v2; mf_schema_version := v3;
    mf_membership_epoch := v4; mf_current_snapshot_object_id := v5; mf_tail_change_object_ids := v6;
    mf_included_domains := v7; mf_device_frontiers := v8; mf_retention_policy := v9; mf_created_at
    := v10 |}) ltac:(record_document).
#[export] Instance profile_sync_settings_snapshot_value_document : Document ProfileSyncSettingsSnapshotValue :=
  document_iso (fun x => (ss_domain x, ss_key x, ss_value x, ss_value_kind x, ss_revision x)) (fun
    '(v1, v2, v3, v4, v5) => {| ss_domain := v1; ss_key := v2; ss_value := v3; ss_value_kind := v4;
    ss_revision := v5 |}) ltac:(record_document).
#[export] Instance profile_sync_settings_snapshot_document : Document ProfileSyncSettingsSnapshot :=
  document_iso (fun x => (sp_profile x, sp_schema_version x, sp_covers_revision x,
    sp_included_domains x, sp_values x, sp_created_at x)) (fun '(v1, v2, v3, v4, v5, v6) => {|
    sp_profile := v1; sp_schema_version := v2; sp_covers_revision := v3; sp_included_domains := v4;
    sp_values := v5; sp_created_at := v6 |}) ltac:(record_document).
#[export] Instance incoming_sync_setting_text_document : Document IncomingSyncSettingText :=
  document_iso (fun x => (in_profile x, in_domain x, in_key x, in_value x, in_device_id x,
    in_device_sequence x, in_logical_clock x)) (fun '(v1, v2, v3, v4, v5, v6, v7) => {| in_profile
    := v1; in_domain := v2; in_key := v3; in_value := v4; in_device_id := v5; in_device_sequence :=
    v6; in_logical_clock := v7 |}) ltac:(record_document).

(** ** Reference ciphers *)

(** The first [n] bytes of [s], completed with zeros. *)
Fixpoint fixed_bytes (n : nat) (s : string) : string :=
  match n with
  | O => ""
  | S n => match s with
           | EmptyString => String "0" (fixed_bytes n "")
           | String c s => String c (fixed_bytes n s)
           end
  end.

Lemma fixed_bytes_len n s : str_len (fixed_bytes n s) = Z.of_nat n.
Proof.
  unfold str_len. f_equal. revert s. induction n as [|n IH]; intros [|c s]; simpl; by rewrite ?IH.
Qed.

Definition reference_pair (seed : string) : Ed25519KeyPair :=
  {| kp_public_key := "public:" +:+ seed;
     kp_sign := fun payload => "public:" +:+ seed +:+ payload |}.

(** A signature is the public key followed by the payload, a ciphertext the key, the
    associated data and the nonce followed by the plaintext. *)
Definition reference_codec : SyncCodec := {|
  signed_object_from_slice := document_from_slice;
  encrypted_object_from_slice := document_from_slice;
  membership_record_from_slice := document_from_slice;
  device_head_from_slice := document_from_slice;
  manifest_from_slice := document_from_slice;
  settings_snapshot_from_slice := document_from_slice;
  setting_change_from_slice := document_from_slice;
  ed25519_verify := fun key payload signature => str_eqb signature (key +:+ payload);
  chacha20_poly1305_open := fun key ad nonce ciphertext =>
    strip_prefix (key +:+ ad +:+ nonce) ciphertext
|}.

(** The derived bytes begin with the label they are derived for, reversed. *)
Definition reference_sealer : SyncSealer := {|
  signed_object_to_vec := document_to_vec;
  encrypted_object_to_vec := document_to_vec;
  membership_record_to_vec := document_to_vec;
  device_head_to_vec := document_to_vec;
  manifest_to_vec := document_to_vec;
  settings_snapshot_to_vec := document_to_vec;
  setting_change_to_vec := document_to_vec;
  secret_export_to_vec := document_to_vec;
  secret_export_from_slice := document_from_slice;
  enrollment_bundle_to_vec := document_to_vec;
  enrollment_bundle_from_slice := document_from_slice;
  handoff_bundle_to_vec := document_to_vec;
  handoff_bundle_from_slice := document_from_slice;
  enrollment_request_to_vec := document_to_vec;
  enrollment_request_from_slice := document_from_slice;
  chacha20_poly1305_seal := fun key ad nonce plaintext =>
    Some (key +:+ ad +:+ nonce +:+ plaintext);
  hkdf_sha256 := fun salt secret info =>
    Some (fixed_bytes 32 (str_rev (salt +:+ secret +:+ info)));
  ed25519_from_seed := fun seed => Some (reference_pair seed);
  ed25519_from_pkcs8 := fun pkcs8 => Some (reference_pair pkcs8);
  base64_url_encode := fun bytes => bytes;
  base64_url_decode := fun text => Some text
|}.

Lemma reference_laws : SealerLaws reference_codec reference_sealer.
Proof.
  split; simpl; try apply document_laws_hold.
  - intros key ad nonce plaintext c [= <-]. rewrite <-!str_app_assoc. apply strip_prefix_app.
  - intros salt secret info. eexists. split; [reflexivity|]. apply (fixed_bytes_len 32).
  - by intros.
  - by intros seed pair [= <-].
  - intros seed pair payload [= <-]. simpl. apply str_eqb_eq. by rewrite ?str_app_assoc.
  - intros pkcs8 pair payload [= <-]. simpl. apply str_eqb_eq. by rewrite ?str_app_assoc.
  - done.
Qed.

(** ** Opening what was sealed *)

Section Opening.
Context (codec : SyncCodec) (sealer : SyncSealer) (laws : SealerLaws codec sealer).

Lemma signer_verifies signer pair payload :
  key_pair sealer signer = Ok pair ->
  ed25519_verify codec (kp_public_key pair) payload (kp_sign pair payload) = true.
Proof.
  unfold key_pair. destruct (sg_key_material signer) as [pkcs8|seed].
  - destruct (ed25519_from_pkcs8 sealer pkcs8) eqn:E; [|done]. intros [= <-].
    by eapply sl_pkcs8_verify.
  - destruct (ed25519_from_seed sealer seed) eqn:E; [|done]. intros [= <-].
    by eapply sl_seed_verify.
Qed.

(** A signed object reads back as what was signed, and verifies with the signer's key. *)
Lemma signed_reads_back signer pair payload bytes :
  key_pair sealer signer = Ok pair ->
  match sign sealer signer payload with
  | Ok signed => signed_to_bytes sealer signed
  | Err e => Err e
  end = Ok bytes ->
  exists so, signed_object_from_slice codec bytes = Ok so /\ is_empty bytes = false /\
    so_device_id so = sg_device_id signer /\ so_public_key so = kp_public_key pair /\
    so_payload so = payload /\
    verify_with codec so {| pk_device_id := sg_device_id signer;
                            pk_bytes := kp_public_key pair |} = Ok payload.
Proof.
  intros Hpair. unfold sign, signed_to_bytes. rewrite Hpair. simpl. intros Hb.
  match type of Hb with map_err _ (signed_object_to_vec _ ?o) = _ =>
    destruct (sl_signed _ _ laws o) as (b & Hto & He & Hfrom); exists o end.
  rewrite Hto in Hb. injection Hb as <-. split_and!; try done.
  apply verify_with_Ok. split_and!; try done. simpl. by eapply signer_verifies.
Qed.

(** What the seal of a payload answers. *)
Lemma sealed_reads_back profile domain kind key_id payload content_key nonce object :
  seal_with_nonce sealer profile domain kind key_id payload content_key nonce = Ok object ->
  str_len nonce = PROFILE_SYNC_NONCE_BYTES ->
  (eo_profile object, eo_domain object, eo_object_kind object, eo_key_id object)
    = (profile, domain, kind, key_id) /\
  open codec object content_key = Ok payload.
Proof.
  unfold seal_with_nonce, seal_sync_payload. intros Hs Hn. simpl in Hs.
  destruct (chacha20_poly1305_seal _ _ _ _ _) as [c|] eqn:Hc; [|done]. injection Hs as <-.
  split; [done|]. apply open_Ok. split; [done|]. split; [done|].
  by apply (sl_seal _ _ laws) in Hc.
Qed.

(** The document of an encrypted object reads back. *)
Lemma encrypted_reads_back object bytes :
  encrypted_to_bytes sealer object = Ok bytes -> encrypted_from_bytes codec bytes = Ok object.
Proof.
  unfold encrypted_to_bytes, encrypted_from_bytes.
  destruct (sl_encrypted _ _ laws object) as (b & -> & _ & Hfrom). intros [= <-]. by rewrite Hfrom.
Qed.

(** [bytes] are what [sign_encrypted_json_object] makes of [payload]. *)
Definition sealed_for (signer : ProfileSyncDeviceSigner)
    (profile domain kind key_id content_key payload bytes : string) : Prop :=
  exists nonce, str_len nonce = PROFILE_SYNC_NONCE_BYTES /\
    sign_encrypted_json_object sealer profile domain kind key_id payload content_key signer
      (Some nonce) = Ok bytes.

Lemma sealed_object signer pk profile domain kind key_id content_key payload bytes :
  signer_public_key sealer signer = Ok pk ->
  sealed_for signer profile domain kind key_id content_key payload bytes ->
  exists so object, signed_from_bytes codec bytes = Ok so /\ is_empty bytes = false /\
    so_device_id so = sg_device_id signer /\ pk_device_id pk = sg_device_id signer /\
    verify_with codec so pk = Ok (so_payload so) /\
    encrypted_from_bytes codec (so_payload so) = Ok object /\
    (eo_profile object, eo_domain object, eo_object_kind object, eo_key_id object)
      = (profile, domain, kind, key_id) /\
    open codec object content_key = Ok payload.
Proof.
  intros Hpk (nonce & Hnonce & Hbytes).
  unfold signer_public_key in Hpk. destruct (key_pair sealer signer) as [pair|] eqn:Hpair; [|done].
  injection Hpk as <-. unfold sign_encrypted_json_object, seal in Hbytes. simpl in Hbytes.
  destruct (seal_with_nonce sealer profile domain kind key_id payload content_key nonce)
    as [object|] eqn:Hobject; [|done]. simpl in Hbytes.
  destruct (encrypted_to_bytes sealer object) as [document|] eqn:Hdoc; [|done].
  pose proof (signed_reads_back _ _ _ _ Hpair Hbytes)
    as (so & Hso & He & Hd & Hb & Hp & Hv).
  pose proof (sealed_reads_back _ _ _ _ _ _ _ _ Hobject Hnonce) as [Hlabels Hopen].
  apply encrypted_reads_back in Hdoc. exists so, object. unfold signed_from_bytes.
  rewrite Hso, Hp. by split_and!.
Qed.

(** The database trusts the key of the device, since the epoch at the latest. *)
Definition trusts (db : ProfileDb) (profile : string) (pk : ProfileSyncDevicePublicKey)
    (epoch : Z) : Prop :=
  is_valid_sync_identifier (pk_device_id pk) = true /\
  provider_authority_of db profile (pk_device_id pk) = false /\
  exists key, trusted_key db profile (pk_device_id pk) = Some key /\ sk_public_key key = pk /\
    sk_membership_epoch key <= epoch.

Section Sealed.
Context (signer : ProfileSyncDeviceSigner) (pk : ProfileSyncDevicePublicKey) (db : ProfileDb).
Context (profile domain kind key_id content_key payload bytes : string) (epoch : Z).
Context (Hpk : signer_public_key sealer signer = Ok pk).
Context (Hsealed : sealed_for signer profile domain kind key_id content_key payload bytes).

Lemma opens_with_key :
  open_signed_encrypted_sync_payload codec bytes content_key pk profile domain kind key_id
    = Ok payload.
Proof using Hpk Hsealed laws.
  destruct (sealed_object _ _ _ _ _ _ _ _ _ Hpk Hsealed)
    as (so & object & Hso & _ & _ & _ & Hv & He & [= <- <- <- <-] & Ho).
  unfold open_signed_encrypted_sync_payload, open_expected. rewrite Hso, Hv, He.
  assert (validate_expected object (eo_profile object) (eo_domain object) (eo_object_kind object)
            (eo_key_id object) = Ok tt) as -> by (by apply validate_expected_Ok). done.
Qed.

Context (Htrusts : trusts db profile pk epoch).

Lemma trusted_signer_key so :
  so_device_id so = sg_device_id signer -> pk_device_id pk = sg_device_id signer ->
  trusted_profile_state_public_key_for_signed_object profile so db = (db, Ok pk).
Proof using Htrusts.
  intros Hd Hpd. apply trusted_profile_key_spec. rewrite Hd, <-Hpd.
  destruct Htrusts as (H1 & H2 & key & H3 & H4 & _). split_and!; [done..|]. by exists key.
Qed.

Lemma opens_trusted :
  open_trusted_signed_encrypted_sync_payload codec bytes content_key profile domain kind key_id db
    = (db, Ok payload).
Proof using All.
  destruct (sealed_object _ _ _ _ _ _ _ _ _ Hpk Hsealed)
    as (so & object & Hso & _ & Hd & Hpd & Hv & He & Hlabels & Ho).
  unfold open_trusted_signed_encrypted_sync_payload, sr_bind, sync_object, sr_lift.
  rewrite Hso. simpl. rewrite (trusted_signer_key so) by done. rewrite Hv. simpl. rewrite He. simpl.
  unfold open_expected. injection Hlabels as <- <- <- <-.
  assert (validate_expected object (eo_profile object) (eo_domain object) (eo_object_kind object)
            (eo_key_id object) = Ok tt) as -> by (by apply validate_expected_Ok). by rewrite Ho.
Qed.

Lemma opens_in_epoch :
  validate_signed_object_membership_epoch codec bytes profile epoch db = (db, Ok tt).
Proof using All.
  destruct (sealed_object _ _ _ _ _ _ _ _ _ Hpk Hsealed)
    as (so & object & Hso & _ & Hd & Hpd & _).
  destruct Htrusts as (H1 & H2 & key & H3 & H4 & H5).
  unfold validate_signed_object_membership_epoch, sr_bind at 1, sync_object, sr_lift. rewrite Hso.
  simpl. assert (trusted_public_key_record_for_signed_object profile so db = (db, Ok key)) as Hr.
  { apply trusted_record_spec. rewrite Hd, <-Hpd. by split_and!. }
  unfold sr_bind. rewrite Hr. destruct (Z.ltb_spec epoch (sk_membership_epoch key)); [lia|done].
Qed.

(** A change opens when its labels are those it was sealed for. *)
Lemma opens_setting change :
  kind = PROFILE_SYNC_SETTING_CHANGE_OBJECT_KIND ->
  setting_change_from_slice codec payload = Ok change ->
  in_profile change = profile -> in_domain change = domain ->
  open_trusted_signed_sync_setting_text_for_profile codec bytes content_key profile key_id db
    = (db, Ok change).
Proof using All.
  intros Hkind Hdecode Hprofile Hdomain.
  destruct (sealed_object _ _ _ _ _ _ _ _ _ Hpk Hsealed)
    as (so & object & Hso & _ & Hd & Hpd & Hv & He & [= Hl1 Hl2 Hl3 Hl4] & Ho).
  unfold open_trusted_signed_sync_setting_text_for_profile, sr_bind, sync_object, sr_lift.
  rewrite Hso. simpl. rewrite (trusted_signer_key so) by done. rewrite Hv. simpl. rewrite He. simpl.
  unfold open_setting_change. rewrite Hl1, Hl2, Hl3, Hl4, Hkind, !str_eqb_refl. simpl.
  rewrite Ho, Hdecode. simpl. by rewrite Hprofile, Hdomain, !str_eqb_refl.
Qed.

(** A device head opens when it names the profile and the signer. *)
Lemma opens_head_with_key device_head :
  domain = SYNC_DOMAIN_SETTINGS -> kind = PROFILE_SYNC_DEVICE_HEAD_OBJECT_KIND ->
  device_head_from_slice codec payload = Ok device_head ->
  dh_schema_version device_head = PROFILE_SYNC_DEVICE_HEAD_SCHEMA_VERSION ->
  dh_profile device_head = profile -> dh_device_id device_head = pk_device_id pk ->
  open_signed_profile_sync_device_head codec bytes content_key pk profile key_id = Ok device_head.
Proof using Hpk Hsealed laws.
  intros Hdomain Hkind Hdecode Hschema Hprofile Hdevice.
  unfold open_signed_profile_sync_device_head. rewrite <-Hdomain, <-Hkind, opens_with_key.
  rewrite Hdecode. simpl.
  rewrite Hschema, Hprofile, Hdevice, !str_eqb_refl. done.
Qed.
End Sealed.
End Opening.

(** ** Theorems *)

(** C15: (roundtrip) What a device seals and signs, every database that trusts the device's
    key opens with the content key: the payload comes back under the profile, domain, kind
    and key id it was sealed for. Under any other ones it is refused, also by a profile
    that trusts the device. *)
Theorem signed_object_opens codec sealer signer pk nonce profile domain kind key_id payload
    content_key bytes db key :
  SealerLaws codec sealer ->
  signer_public_key sealer signer = Ok pk -> str_len nonce = PROFILE_SYNC_NONCE_BYTES ->
  sign_encrypted_json_object sealer profile domain kind key_id payload content_key signer
    (Some nonce) = Ok bytes ->
  is_valid_sync_identifier (sg_device_id signer) = true ->
  trusted_key db profile (sg_device_id signer) = Some key -> sk_public_key key = pk ->
  provider_authority_of db profile (sg_device_id signer) = false ->
  open_trusted_signed_encrypted_sync_payload codec bytes content_key profile domain kind key_id db
    = (db, Ok payload) /\
  (forall profile' domain' kind' key_id' content_key' db',
   (profile', domain', kind', key_id') <> (profile, domain, kind, key_id) ->
   exists e, (open_trusted_signed_encrypted_sync_payload codec bytes content_key' profile' domain'
                kind' key_id' db').2 = Err e).
Proof.
  intros laws Hpk Hnonce Hbytes Hid Htrusted Hkey Hprov.
  assert (sealed_for sealer signer profile domain kind key_id content_key payload bytes) as Hsealed
    by (by exists nonce).
  destruct (sealed_object _ _ laws _ _ _ _ _ _ _ _ _ Hpk Hsealed)
    as (so & object & Hso & _ & Hd & Hpd & Hv & He & Hlabels & Ho).
  assert (trusts db profile pk (sk_membership_epoch key)) as Ht.
  { split_and!; [by rewrite Hpd|by rewrite Hpd|]. exists key. rewrite Hpd. by split_and!. }
  split; [by eapply opens_trusted|]. intros p d k i ck db' Hne.
  unfold open_trusted_signed_encrypted_sync_payload, sr_bind, sync_object, sr_lift.
  rewrite Hso. simpl.
  destruct (trusted_profile_state_public_key_for_signed_object p so db') as [db1 [pk'|e]];
    [|by exists e].
  destruct (verify_with codec so pk') as [payload'|e] eqn:Hv'; [|by eexists]. simpl.
  apply verify_with_Ok in Hv' as (_ & _ & _ & -> & _). rewrite He. simpl. unfold open_expected.
  destruct (validate_expected object p d k i) as [u|e] eqn:Hval; [|by eexists].
  apply validate_expected_Ok in Hval as (<- & <- & <- & <-). congruence.
Qed.

(** An exported sync secret is read back, from its bytes, as the secret it
    was made of, and only for the profile it was exported for. *)
Theorem secret_export_roundtrip codec sealer secret profile created_at :
  SealerLaws codec sealer -> str_len (secret_bytes secret) = SLATE_SYNC_SECRET_BYTES ->
  exists bytes export,
    export_to_bytes sealer (export_for_profile sealer secret profile created_at) = Ok bytes /\
    export_from_bytes sealer bytes = Ok export /\
    from_export_for_profile sealer export profile = Ok secret /\
    (forall other, other <> profile ->
     from_export_for_profile sealer export other = Err (UnexpectedProfile other profile)).
Proof.
  intros laws Hlen. set (export := export_for_profile sealer secret profile created_at).
  destruct (sl_export _ _ laws export) as (bytes & Hto & _ & Hfrom). exists bytes, export.
  unfold export_to_bytes, export_from_bytes. rewrite Hto, Hfrom. split; [done|]. split; [done|].
  unfold from_export_for_profile, to_sync_secret_for_profile, validate_expected_profile. simpl.
  rewrite str_eqb_refl. simpl. split.
  - unfold to_sync_secret. simpl. rewrite (sl_base64 _ _ laws). simpl. rewrite Hlen.
    by destruct secret.
  - intros other Hne. destruct (str_eqb profile other) eqn:E; [|done].
    apply str_eqb_eq in E. congruence.
Qed.

(** ** Witnesses *)

Definition demo_secret : SlateSyncSecret :=
  {| secret_bytes := "0123456789abcdef0123456789abcdef" |}.
Definition demo_signer : ProfileSyncDeviceSigner :=
  {| sg_device_id := "laptop"; sg_key_material := Seed (secret_bytes demo_secret) |}.
Definition demo_trusted_key : SyncDevicePublicKeyRecord :=
  {| sk_profile := "default";
     sk_public_key := {| pk_device_id := "laptop";
                         pk_bytes := "public:0123456789abcdef0123456789abcdef" |};
     sk_membership_epoch := 1; sk_trusted := true; sk_created_at := 5; sk_updated_at := 5 |}.
Definition demo_trusting_db : ProfileDb :=
  set_db_public_keys {[("default", "laptop") := demo_trusted_key]} empty_db.

Lemma signed_object_opens_witness :
  exists bytes,
    open_trusted_signed_encrypted_sync_payload reference_codec bytes "content key" "default"
      SYNC_DOMAIN_SETTINGS PROFILE_SYNC_MANIFEST_OBJECT_KIND "k1" demo_trusting_db
    = (demo_trusting_db, Ok "payload").
Proof.
  destruct (sign_encrypted_json_object reference_sealer "default" SYNC_DOMAIN_SETTINGS
              PROFILE_SYNC_MANIFEST_OBJECT_KIND "k1" "payload" "content key" demo_signer
              (Some "twelve bytes")) as [bytes|e] eqn:E; [|vm_compute in E; discriminate].
  exists bytes.
  apply (signed_object_opens reference_codec reference_sealer demo_signer
           (sk_public_key demo_trusted_key) "twelve bytes" "default" SYNC_DOMAIN_SETTINGS
           PROFILE_SYNC_MANIFEST_OBJECT_KIND "k1" "payload" "content key" bytes demo_trusting_db
           demo_trusted_key); [exact reference_laws|reflexivity|reflexivity|exact E|reflexivity..].
Defined.

Lemma secret_export_roundtrip_witness :
  exists bytes export,
    export_to_bytes reference_sealer (export_for_profile reference_sealer demo_secret "default" 7)
      = Ok bytes /\
    export_from_bytes reference_sealer bytes = Ok export /\
    from_export_for_profile reference_sealer export "default" = Ok demo_secret /\
    (forall other, other <> "default" ->
     from_export_for_profile reference_sealer export other = Err (UnexpectedProfile other "default")).
Proof.
  apply (secret_export_roundtrip reference_codec reference_sealer demo_secret "default" 7);
    [exact reference_laws|reflexivity].
Defined.
