(* ===== verification/HandoffLaws.v ===== *)
(** * Handing the sync secret to another device

    The bundle a device makes from its secret enrolls the target device when the target
    applies it: the account authority bootstraps the empty roster, signs the target's
    enrollment, and the local activation that follows finds both records applied. *)
From S2P Require Import Prelude RustStr AppViews Database SyncObjects SyncStore.
From S2P Require Import Membership MembershipLaws ProfileTables Snapshots TrustedOpen.
From S2P Require Import SyncSecrets Sealing.

Abbreviation AUTHORITY := DEFAULT_PROFILE_SYNC_ACCOUNT_AUTHORITY_DEVICE_ID.

Lemma valid_app a b :
  is_valid_sync_identifier a = true -> is_valid_sync_identifier b = true ->
  is_valid_sync_identifier (a +:+ b) = true.
Proof.
  unfold is_valid_sync_identifier. rewrite !andb_true_iff, all_bytes_app, andb_true_iff.
  intros [Ha Ha'] [_ Hb]. split_and!; [by destruct a|done|done].
Qed.

Lemma enroll_record_id_valid epoch device_id :
  0 <= epoch -> is_valid_sync_identifier device_id = true ->
  is_valid_sync_identifier (profile_sync_enroll_device_record_id epoch device_id) = true.
Proof.
  intros He Hd. unfold profile_sync_enroll_device_record_id.
  apply valid_app; [done|]. apply valid_app; [|by apply valid_app].
  unfold is_valid_sync_identifier. rewrite andb_true_iff. split.
  - by rewrite show_not_empty.
  - apply show_all_bytes; [done|]. intros d Hd'. by do 10 (destruct d as [|d]; [done|]); lia.
Qed.

Section Handoff.
Context (codec : SyncCodec) (sealer : SyncSealer) (laws : SealerLaws codec sealer).
Context (profile : string) (secret : SlateSyncSecret).

(** The signer derived for a device at an epoch, and its key pair. *)
Definition derived_for (device_id : string) (epoch : Z) (signer : ProfileSyncDeviceSigner)
    (pair : Ed25519KeyPair) : Prop :=
  derive_signer sealer secret profile device_id epoch = Ok signer /\
  sg_device_id signer = device_id /\ key_pair sealer signer = Ok pair /\
  is_empty (kp_public_key pair) = false.

Lemma signer_derived device_id epoch :
  is_valid_sync_identifier device_id = true ->
  exists signer pair, derived_for device_id epoch signer pair.
Proof.
  intros Hid. unfold derived_for, derive_signer, derive_profile_sync_device_signer,
    derive_profile_sync_manifest_signing_secret, derived, derive_profile_sync_secret_bytes.
  rewrite Hid. simpl. destruct (sl_hkdf _ _ laws ("slate/profile-sync/" +:+ profile)
    (secret_bytes secret) (device_label "manifest-signing/v1/" epoch device_id))
    as (seed & -> & Hlen). simpl.
  destruct (sl_seed _ _ laws seed Hlen) as [pair Hpair].
  unfold from_manifest_signing_secret, from_seed, checked_signer, key_pair. simpl.
  rewrite Hid. simpl. rewrite Hpair. simpl. eexists _, pair. split_and!; [done|done| |].
  - simpl. by rewrite Hpair.
  - by apply (sl_public_key _ _ laws seed).
Qed.

(** [s] is the enrollment of [device_id], signed with [pair]. *)
Definition enrollment_of (signer_id device_id : string) (epoch : Z)
    (pair device_pair : Ed25519KeyPair) (s : string) (so : SignedSyncObject)
    (record : ProfileSyncMembershipRecord) : Prop :=
  decode_signed_profile_sync_membership_record codec s = Ok (so, record) /\
  is_empty s = false /\ so_device_id so = signer_id /\ so_public_key so = kp_public_key pair /\
  record = profile_sync_enroll_device_record profile device_id epoch
             {| pk_device_id := device_id; pk_bytes := kp_public_key device_pair |}.

Lemma enrollment_signed signer pair device_id device_signer device_pair epoch signer_id :
  derived_for signer_id epoch signer pair -> derived_for device_id epoch device_signer device_pair ->
  is_valid_sync_identifier signer_id = true -> is_valid_sync_identifier device_id = true ->
  1 <= epoch ->
  exists s so record, signed_enrollment sealer profile signer device_id epoch device_signer = Ok s /\
    enrollment_of signer_id device_id epoch pair device_pair s so record.
Proof.
  intros (_ & Hs & Hpair & _) (_ & Hd & Hdpair & Hne) Hid Hdid He.
  unfold signed_enrollment, signer_public_key. rewrite Hdpair. simpl. rewrite Hd.
  set (record := profile_sync_enroll_device_record profile device_id epoch _).
  unfold signed_profile_sync_membership_record_bytes, membership_to_bytes.
  destruct (sl_membership _ _ laws record) as (payload & -> & _ & Hfrom). simpl.
  destruct (match sign sealer signer payload with Ok signed => _ | Err e => Err e end)
    as [s|e] eqn:Hsigned; simpl.
  - destruct (signed_reads_back codec sealer laws _ _ _ _ Hpair Hsigned)
      as (so & Hso & Hemp & Hsd & Hsp & Hpl & Hv).
    exists s, so, record. split; [done|]. split_and!; [|done|congruence|done|done].
    unfold decode_signed_profile_sync_membership_record, signed_from_bytes. rewrite Hso. simpl.
    rewrite Hsd, Hs, Hid. simpl. rewrite Hsp. rewrite Hs in Hv. rewrite Hv. simpl.
    unfold membership_from_bytes. rewrite Hfrom. simpl.
    unfold validate_profile_sync_membership_record. simpl.
    destruct (Z.ltb_spec epoch 1); [lia|]. rewrite enroll_record_id_valid by (lia || done).
    rewrite Hdid. simpl. unfold validate_membership_record_public_key. simpl.
    by rewrite Hdid, str_eqb_refl, Hne.
  - exfalso. unfold sign in Hsigned. rewrite Hpair in Hsigned. unfold signed_to_bytes in Hsigned.
    match type of Hsigned with context [signed_object_to_vec _ ?o] =>
      destruct (sl_signed _ _ laws o) as (b & Hto & _) end.
    rewrite Hto in Hsigned. done.
Qed.

(** ** The bundle *)

Definition made_bundle (target s1 s2 : string) (created_at : Z) : ProfileSyncSecretHandoffBundle := {|
  hb_profile := profile; hb_schema_version := PROFILE_SYNC_SECRET_HANDOFF_BUNDLE_SCHEMA_VERSION;
  hb_target_device_id := target; hb_created_at := created_at;
  hb_sync_secret_export := export_for_profile sealer secret profile created_at;
  hb_enrollment_bundle := {| eb_profile := profile;
    eb_schema_version := PROFILE_SYNC_ENROLLMENT_BUNDLE_SCHEMA_VERSION;
    eb_target_device_id := target; eb_created_at := created_at;
    eb_signed_membership_records := [s1; s2] |}
|}.

(** The two records of a bundle: the authority enrolls itself, then the target. *)
Record bundle_records (target : string) (epoch : Z) (s1 s2 : string)
    (so1 so2 : SignedSyncObject) (r1 r2 : ProfileSyncMembershipRecord)
    (pair target_pair : Ed25519KeyPair) : Prop := {
  br_signers : exists signer target_signer,
    derived_for AUTHORITY epoch signer pair /\ derived_for target epoch target_signer target_pair /\
    signed_enrollment sealer profile signer AUTHORITY epoch signer = Ok s1 /\
    signed_enrollment sealer profile signer target epoch target_signer = Ok s2;
  br_authority : enrollment_of AUTHORITY AUTHORITY epoch pair pair s1 so1 r1;
  br_enrollment : enrollment_of AUTHORITY target epoch pair target_pair s2 so2 r2
}.

Context (Hprofile : is_empty (trim profile) = false).
Context (Hsecret : str_len (secret_bytes secret) = SLATE_SYNC_SECRET_BYTES).
Context (target : string) (Htarget : is_valid_sync_identifier target = true).
Context (Hother : target <> AUTHORITY).

Lemma export_accepted created_at :
  from_export_for_profile sealer (export_for_profile sealer secret profile created_at) profile
  = Ok secret.
Proof.
  unfold from_export_for_profile, to_sync_secret_for_profile, validate_expected_profile,
    to_sync_secret. simpl. rewrite str_eqb_refl. simpl. rewrite (sl_base64 _ _ laws). simpl.
  rewrite Hsecret. by destruct secret.
Qed.

Lemma enrollment_bundle_valid epoch s1 s2 so1 so2 r1 r2 pair target_pair created_at :
  bundle_records target epoch s1 s2 so1 so2 r1 r2 pair target_pair ->
  validate_profile_sync_enrollment_bundle codec
    (hb_enrollment_bundle (made_bundle target s1 s2 created_at)) = Ok tt.
Proof.
  intros [_ (Hd1 & _ & _ & _ & Hr1) (Hd2 & _ & _ & _ & Hr2)].
  unfold validate_profile_sync_enrollment_bundle. simpl.
  assert (is_empty profile = false) as -> by (by destruct profile).
  rewrite Htarget, Hd1, Hd2. simpl. rewrite Hr1, Hr2. simpl. rewrite str_eqb_refl. simpl.
  by rewrite str_eqb_refl, orb_true_r.
Qed.

Lemma handoff_bundle_valid epoch s1 s2 so1 so2 r1 r2 pair target_pair created_at :
  bundle_records target epoch s1 s2 so1 so2 r1 r2 pair target_pair ->
  validate_profile_sync_secret_handoff_bundle codec sealer (made_bundle target s1 s2 created_at)
  = Ok tt.
Proof.
  intros Hrecords. unfold validate_profile_sync_secret_handoff_bundle. simpl.
  rewrite Hprofile, Htarget, !str_eqb_refl. simpl. rewrite export_accepted. simpl.
  by apply (enrollment_bundle_valid _ _ _ _ _ _ _ _ _ created_at) in Hrecords.
Qed.

Lemma bundle_made epoch created_at :
  1 <= epoch ->
  exists s1 s2 so1 so2 r1 r2 pair target_pair,
    bundle_records target epoch s1 s2 so1 so2 r1 r2 pair target_pair /\
    profile_sync_secret_handoff_bundle_from_secret_with_epoch codec sealer profile secret target
      epoch created_at = Ok (made_bundle target s1 s2 created_at).
Proof.
  intros He.
  destruct (signer_derived AUTHORITY epoch eq_refl) as (signer & pair & Hs).
  destruct (signer_derived target epoch Htarget) as (tsigner & tpair & Ht).
  destruct (enrollment_signed _ _ _ _ _ epoch _ Hs Hs eq_refl eq_refl He)
    as (s1 & so1 & r1 & Hs1 & Hr1).
  destruct (enrollment_signed _ _ _ _ _ epoch _ Hs Ht eq_refl Htarget He)
    as (s2 & so2 & r2 & Hs2 & Hr2).
  exists s1, s2, so1, so2, r1, r2, pair, tpair.
  assert (bundle_records target epoch s1 s2 so1 so2 r1 r2 pair tpair) as Hrecords
    by (split; [by exists signer, tsigner|done|done]).
  split; [done|]. unfold profile_sync_secret_handoff_bundle_from_secret_with_epoch,
    profile_sync_enrollment_bundle_from_secret_with_epoch.
  destruct Hs as [-> _], Ht as [-> _]. rewrite Hs1.
  assert (str_eqb target AUTHORITY = false) as -> by (by apply str_eqb_neq). simpl. rewrite Hs2.
  unfold new_device_enrollment.
  pose proof (enrollment_bundle_valid _ _ _ _ _ _ _ _ _ created_at Hrecords) as Hv. simpl in Hv.
  rewrite Hv. unfold handoff_bundle_new.
  pose proof (handoff_bundle_valid _ _ _ _ _ _ _ _ _ created_at Hrecords) as Hh.
  unfold made_bundle in Hh. by rewrite Hh.
Qed.

(** ** Enrolling on an empty roster *)

Definition no_members (db : ProfileDb) : Prop :=
  (forall device_id, db_public_keys db !! (profile, device_id) = None) /\
  (forall record_id, db_membership db !! (profile, record_id) = None).

Lemma no_members_fresh db record :
  rows_keyed db -> no_members db -> mr_profile record = profile ->
  fresh db record /\ trusted_key db profile (mr_device_id record) = None /\
  (forall s, same_bytes db record s) /\ applied_already db record = None.
Proof.
  intros Hkeyed [Hkeys Hrows] Hp. split_and!.
  - intros r [[key Hr] Ha]. apply applied_for_spec in Ha as (Hrp & _ & _).
    pose proof (Hkeyed _ _ Hr) as <-. rewrite Hrp, Hp, Hrows in Hr. done.
  - unfold trusted_key. by rewrite Hkeys.
  - intros s r. by rewrite Hp, Hrows.
  - unfold applied_already. by rewrite Hp, Hrows.
Qed.

Lemma trusted_signer_congr db so so' record record' :
  so_device_id so' = so_device_id so -> so_public_key so' = so_public_key so ->
  mr_profile record' = mr_profile record ->
  mr_membership_epoch record <= mr_membership_epoch record' ->
  trusted_signer db so record -> trusted_signer db so' record'.
Proof.
  intros Hd Hp Hpr He (k & Hk & Hpk & Hle & Hprov). exists k. rewrite Hd, Hp, Hpr.
  split_and!; [done|done|lia|done].
Qed.

Lemma record_ids_differ epoch a b :
  profile_sync_enroll_device_record_id epoch a = profile_sync_enroll_device_record_id epoch b ->
  a = b.
Proof.
  unfold profile_sync_enroll_device_record_id. by intros H%prefix_inj%prefix_inj%prefix_inj.
Qed.

(** The fields of an enrollment. *)
Lemma enrollment_fields signer_id device_id epoch pair device_pair s so record :
  enrollment_of signer_id device_id epoch pair device_pair s so record ->
  valid_record record /\ mr_profile record = profile /\ mr_device_id record = device_id /\
  mr_record_kind record = ENROLL_DEVICE /\ mr_membership_epoch record = epoch /\
  mr_device_public_key record
    = Some {| pk_device_id := device_id; pk_bytes := kp_public_key device_pair |}.
Proof. intros ((Hv & _)%decode_Ok & _ & _ & _ & ->). done. Qed.

(** The trusted key an enrollment leaves its device with. *)
Definition holds_key (db : ProfileDb) (device_id : string) (epoch : Z) (pair : Ed25519KeyPair) :
    Prop :=
  exists k, trusted_key db profile device_id = Some k /\
    sk_public_key k = {| pk_device_id := device_id; pk_bytes := kp_public_key pair |} /\
    sk_membership_epoch k = epoch.

Lemma enrolled_key signer_id device_id epoch pair device_pair s so record db now :
  enrollment_of signer_id device_id epoch pair device_pair s so record ->
  holds_key (applied_db db so record s now) device_id epoch device_pair.
Proof.
  intros (Hv & Hp & Hd & Hk & He & Hpk)%enrollment_fields.
  pose proof (keys_after_self db (applied_db db so record s now) record now Hv eq_refl) as Hm.
  unfold key_matches in Hm. rewrite Hk in Hm. destruct Hm as (k & Hkey & Hkpk & Hke).
  exists k. rewrite <-Hp, <-Hd at 1. split_and!; [done| |congruence].
  rewrite Hpk in Hkpk. by injection Hkpk.
Qed.

(** The stored record is applied, under its bytes. *)
Definition holds_record (db : ProfileDb) (s : string) (record : ProfileSyncMembershipRecord) :
    Prop :=
  exists row, applied_already db record = Some row /\ same_bytes db record s /\
    sm_device_id row = mr_device_id record.

(** The authority enrolls itself on an empty roster. *)
Lemma authority_enrolled epoch pair s1 so1 r1 db now :
  roster_ok codec db -> no_members db ->
  enrollment_of AUTHORITY AUTHORITY epoch pair pair s1 so1 r1 ->
  let db1 := applied_db db so1 r1 s1 now in
  apply_signed_sync_account_membership_record codec s1 now db
    = (db1, Ok (application_of db so1 r1 s1 true now)) /\
  roster_ok codec db1 /\ trusted_signer db1 so1 r1 /\ holds_record db1 s1 r1.
Proof.
  intros Hok Hnone Henr. pose proof Henr as (Hv & Hp & Hdev & Hk & He & Hpk)%enrollment_fields.
  destruct Henr as (Hd & Hemp & Hsd & Hsp & _). intros db1.
  destruct (no_members_fresh db r1 (roster_rows_keyed _ _ Hok) Hnone Hp) as (Hf & Ht & Hb & Ha).
  assert (bootstrap_record db so1 r1) as Hboot.
  { split_and!; [by rewrite Hp; apply Hnone|done|congruence|]. by rewrite Hpk, Hsd, Hsp. }
  split_and!.
  - apply (membership_record_facts codec s1 so1 r1); [done..|]. exists true.
    split_and!; try done. split; [intros _; by rewrite Hp|by rewrite Hk].
  - by apply applied_db_ok.
  - by apply bootstrap_trusted_signer.
  - eexists. by apply (applied_db_applied codec).
Qed.

(** The records of another device do not touch what is held for one. *)
Lemma record_kept db so2 r1 r2 s1 s2 now :
  (mr_profile r2, mr_record_id r2) <> (mr_profile r1, mr_record_id r1) ->
  holds_record db s1 r1 -> holds_record (applied_db db so2 r2 s2 now) s1 r1.
Proof.
  intros Hne (row & Ha & Hs & Hd). exists row. unfold applied_already, same_bytes, applied_db in *.
  simpl. by rewrite lookup_insert_ne.
Qed.

Lemma key_kept db so record s now device_id epoch pair :
  mr_device_id record <> device_id ->
  holds_key db device_id epoch pair -> holds_key (applied_db db so record s now) device_id epoch pair.
Proof.
  intros Hne (k & Hk & Hrest). exists k. split; [|done]. rewrite <-Hk.
  unfold trusted_key, applied_db. simpl. rewrite keys_after_other; [done|congruence].
Qed.

(** The authority enrolls the target. *)
Lemma target_enrolled epoch pair target_pair s1 s2 so1 so2 r1 r2 db now :
  roster_ok codec db -> no_members db ->
  enrollment_of AUTHORITY AUTHORITY epoch pair pair s1 so1 r1 ->
  enrollment_of AUTHORITY target epoch pair target_pair s2 so2 r2 ->
  (mr_profile r2, mr_record_id r2) <> (mr_profile r1, mr_record_id r1) ->
  let db1 := applied_db db so1 r1 s1 now in
  let db2 := applied_db db1 so2 r2 s2 now in
  apply_signed_sync_account_membership_record codec s2 now db1
    = (db2, Ok (application_of db1 so2 r2 s2 false now)) /\
  roster_ok codec db2 /\ trusted_signer db2 so2 r2 /\ holds_record db2 s2 r2.
Proof.
  intros Hok Hnone H1 H2 Hids db1 db2.
  destruct (authority_enrolled _ _ _ _ _ _ now Hok Hnone H1) as (_ & Hok1 & Hsigner1 & _).
  fold db1 in Hok1, Hsigner1.
  pose proof H1 as (_ & Hp1 & Hdev1 & Hk1 & He1 & _)%enrollment_fields.
  pose proof H2 as (_ & Hp2 & Hdev2 & Hk2 & He2 & _)%enrollment_fields.
  destruct H1 as (Hd1 & _ & Hsd1 & Hsp1 & _), H2 as (Hd2 & Hemp2 & Hsd2 & Hsp2 & _).
  assert (trusted_signer db1 so2 r2) as Hsigner2.
  { eapply trusted_signer_congr; [..|exact Hsigner1]; [congruence..|lia]. }
  destruct (no_members_fresh db r1 (roster_rows_keyed _ _ Hok) Hnone Hp1) as (_ & _ & Hb1 & Ha1).
  assert (trusted_key db1 profile target = None) as Ht2.
  { unfold trusted_key, db1, applied_db. simpl. rewrite keys_after_other by congruence.
    by rewrite (proj1 Hnone). }
  assert (db_membership db1 !! (mr_profile r2, mr_record_id r2) = None) as Hm2.
  { unfold db1, applied_db. simpl. rewrite lookup_insert_ne by done. rewrite Hp2. apply Hnone. }
  assert (fresh db1 r2) as Hf2.
  { intros r Hr. rewrite Hp2, Hdev2 in Hr.
    apply (applied_db_rows codec db so1 r1 s1 now) in Hr; [|done..].
    destruct Hr as [(_ & _ & Hr)|[[key Hr] Ha]]; [congruence|].
    apply applied_for_spec in Ha as (Hrp & _ & _).
    pose proof (roster_rows_keyed _ _ Hok _ _ Hr) as <-. by rewrite Hrp, (proj2 Hnone) in Hr. }
  assert (same_bytes db1 r2 s2) as Hb2 by (intros r; by rewrite Hm2).
  assert (applied_already db1 r2 = None) as Ha2 by (unfold applied_already; by rewrite Hm2).
  split_and!.
  - apply (membership_record_facts codec s2 so2 r2); [done..|]. exists false.
    split_and!; try done; [by split; [apply trusted_signer_no_bootstrap|]|].
    split; [intros _; by rewrite Hp2, Hdev2|by rewrite Hk2].
  - by apply applied_db_ok.
  - apply trusted_signer_kept; [done|congruence].
  - eexists. by apply (applied_db_applied codec).
Qed.

(** What the roster holds once the two records of a bundle were applied. *)
Record enrolled (db : ProfileDb) (epoch : Z) (s1 s2 : string) (so1 so2 : SignedSyncObject)
    (r1 r2 : ProfileSyncMembershipRecord) (pair target_pair : Ed25519KeyPair) : Prop := {
  en_roster : roster_ok codec db;
  en_signer1 : trusted_signer db so1 r1;
  en_signer2 : trusted_signer db so2 r2;
  en_record1 : holds_record db s1 r1;
  en_record2 : holds_record db s2 r2;
  en_key1 : holds_key db AUTHORITY epoch pair;
  en_key2 : holds_key db target epoch target_pair
}.

Lemma bundle_enrolls epoch s1 s2 so1 so2 r1 r2 pair target_pair db now :
  roster_ok codec db -> no_members db ->
  bundle_records target epoch s1 s2 so1 so2 r1 r2 pair target_pair ->
  exists db2 a1 a2,
    apply_signed_sync_account_membership_records codec [s1; s2] now db = (db2, Ok [a1; a2]) /\
    ma_applied a1 = true /\ ma_applied a2 = true /\ db_key_epochs db2 = db_key_epochs db /\
    enrolled db2 epoch s1 s2 so1 so2 r1 r2 pair target_pair.
Proof.
  intros Hok Hnone [_ H1 H2].
  assert ((mr_profile r2, mr_record_id r2) <> (mr_profile r1, mr_record_id r1)) as Hids.
  { destruct H1 as (_ & _ & _ & _ & ->), H2 as (_ & _ & _ & _ & ->). intros H.
    apply (f_equal snd) in H. by apply record_ids_differ in H. }
  destruct (authority_enrolled _ _ _ _ _ _ now Hok Hnone H1) as (Hrun1 & Hok1 & Hsig1 & Hrec1).
  destruct (target_enrolled _ _ _ _ _ _ _ _ _ _ now Hok Hnone H1 H2 Hids)
    as (Hrun2 & Hok2 & Hsig2 & Hrec2).
  eexists _, _, _. split.
  { apply apply_records_spec. eapply applied_next; [exact Hrun1|].
    eapply applied_next; [exact Hrun2|constructor]. }
  do 3 (split; [done|]).
  pose proof H1 as (_ & Hp1 & _ & _ & He1 & _)%enrollment_fields.
  pose proof H2 as (_ & Hp2 & Hdev2 & _ & He2 & _)%enrollment_fields.
  split; [done| |done|by apply record_kept|done| |by eapply enrolled_key].
  - destruct H1 as (_ & _ & Hsd1 & Hsp1 & _), H2 as (_ & _ & Hsd2 & Hsp2 & _).
    eapply trusted_signer_congr; [..|exact Hsig2]; [congruence..|lia].
  - apply key_kept; [congruence|]. by eapply enrolled_key.
Qed.

(** ** The local activation *)

(** Tables the roster depends on, for the devices other than [target]. *)
Definition same_roster (db db' : ProfileDb) : Prop :=
  db_public_keys db' = db_public_keys db /\ db_membership db' = db_membership db /\
  provider_authority_of db' profile AUTHORITY = provider_authority_of db profile AUTHORITY.

Lemma enrolled_kept db db' epoch s1 s2 so1 so2 r1 r2 pair target_pair :
  bundle_records target epoch s1 s2 so1 so2 r1 r2 pair target_pair ->
  same_roster db db' -> enrolled db epoch s1 s2 so1 so2 r1 r2 pair target_pair ->
  enrolled db' epoch s1 s2 so1 so2 r1 r2 pair target_pair.
Proof.
  intros [_ H1 H2] (Hk & Hm & Hprov) [Hok Hs1 Hs2 Hr1 Hr2 Hk1 Hk2].
  pose proof H1 as (_ & Hp1 & _)%enrollment_fields. pose proof H2 as (_ & Hp2 & _)%enrollment_fields.
  destruct H1 as (_ & _ & Hsd1 & _), H2 as (_ & _ & Hsd2 & _).
  assert (forall so r, mr_profile r = profile -> so_device_id so = AUTHORITY ->
            trusted_signer db so r -> trusted_signer db' so r) as Hsig.
  { intros so r Hp Hd (k & Hkey & ? & ? & Hpr). exists k. unfold trusted_key in *.
    rewrite Hp, Hd in *. rewrite Hk, Hprov. done. }
  split; [by apply (roster_ok_same codec db)|by apply Hsig|by apply Hsig| | | |];
    unfold holds_record, applied_already, same_bytes, holds_key, trusted_key in *;
    rewrite ?Hm, ?Hk; done.
Qed.

Lemma seeding_outcome domains now db :
  exists v, seed_app_sync_domains profile domains now db = (set_db_app_domains v db, Ok tt).
Proof.
  revert db. induction domains as [|domain domains IH]; intros db; simpl.
  - exists (db_app_domains db). unfold sr_ret. by destruct db.
  - unfold sr_bind, seed_default_app_sync_domain, execute.
    destruct (match db_app_domains db !! _ with Some d => _ | None => _ end) as [enabled created].
    match goal with |- context [seed_app_sync_domains _ _ _ ?db1] => destruct (IH db1) as [v ->] end.
    by exists v.
Qed.

Lemma metadata_activated key_id epoch now db :
  key_epochs_ok db -> is_valid_sync_identifier key_id = true ->
  exists db' activation key,
    activate_local_profile_sync_metadata_with_key target profile key_id epoch now db
      = (db', Ok activation) /\
    same_roster db db' /\ provider_authority_of db' profile target = false /\
    active_sync_content_key_epoch profile db' = Some key /\
    la_content_key_epoch activation = key /\ ke_key_id key = key_id /\
    ke_membership_epoch key = epoch /\ validate_active_sync_content_key_epoch key = Ok tt.
Proof.
  intros Hok Hid. unfold activate_local_profile_sync_metadata_with_key, sr_bind at 1,
    register_sync_device, execute.
  match goal with |- context [set_db_devices ?v db] => set (devices := v) end.
  set (db1 := set_db_devices devices db). unfold sr_bind at 1, ensure_default_app_sync_domains.
  destruct (seeding_outcome DEFAULT_APP_SYNC_DOMAINS now db1) as [v ->].
  set (db2 := set_db_app_domains v db1). unfold sr_bind.
  match goal with |- context [register_sync_content_key_epoch ?r now db2] =>
    set (registration := r) end.
  assert (key_epochs_ok db2) as Hok2 by (destruct Hok; by split).
  pose proof (register_epochs_ok registration now db2 Hok2) as Hok3.
  rewrite (register_content_key_outcome registration now db2 Hok2 Hid).
  set (db3 := set_db_key_epochs (register_epochs registration now db2) db2).
  eexists db3, _, (registered_key registration now db2). split; [reflexivity|].
  assert (forall device_id, device_id <> target ->
            devices !! (profile, device_id) = db_devices db !! (profile, device_id)) as Hdev
    by (intros d Hd; unfold devices; rewrite lookup_insert_ne; [done|simpl; congruence]).
  split_and!; try done.
  - split; [done|split; [done|]]. unfold provider_authority_of. simpl. by rewrite Hdev.
  - unfold provider_authority_of, db3, db2, db1, devices. simpl. by rewrite lookup_insert_eq.
  - apply active_key_spec; [done|]. split; [|done]. unfold db3, register_epochs. simpl.
    by rewrite lookup_insert_eq.
Qed.

(** Both records of the bundle again, now applied. *)
Lemma replayed db so record s now :
  roster_ok codec db -> decode_signed_profile_sync_membership_record codec s = Ok (so, record) ->
  is_valid_sync_identifier (mr_device_id record) = true ->
  trusted_signer db so record -> holds_record db s record ->
  exists a, apply_signed_sync_account_membership_record codec s now db = (db, Ok a) /\
    ma_applied a = false.
Proof.
  intros Hok Hd Hid Hs (row & Ha & Hb & Hr). eexists. split.
  - apply apply_one_spec. exists so, record. split; [done|].
    apply apply_decoded_spec; [done|by eapply roster_rows_keyed|]. exists false.
    split; [by split; [apply trusted_signer_no_bootstrap|]|]. split; [done|]. rewrite Ha.
    split; [done|]. split; [reflexivity|]. by rewrite Hr.
  - done.
Qed.

Lemma activated epoch s1 s2 so1 so2 r1 r2 pair target_pair key_id db now :
  bundle_records target epoch s1 s2 so1 so2 r1 r2 pair target_pair ->
  enrolled db epoch s1 s2 so1 so2 r1 r2 pair target_pair ->
  key_epochs_ok db -> is_valid_sync_identifier key_id = true ->
  exists db' activation key,
    activate_local_profile_sync_from_secret_with_key codec sealer target profile secret key_id
      epoch now db = (db', Ok activation) /\
    Forall (fun a => ma_applied a = false) (lsa_membership_applications activation) /\
    enrolled db' epoch s1 s2 so1 so2 r1 r2 pair target_pair /\
    provider_authority_of db' profile target = false /\
    active_sync_content_key_epoch profile db' = Some key /\ ke_key_id key = key_id /\
    ke_membership_epoch key = epoch /\ validate_active_sync_content_key_epoch key = Ok tt.
Proof.
  intros Hrecords Henr Hok Hid.
  destruct (metadata_activated key_id epoch now db Hok Hid)
    as (db' & activation & key & Hrun & Hsame & Hprov & Hactive & _ & Hkey).
  pose proof (enrolled_kept _ _ _ _ _ _ _ _ _ _ _ Hrecords Hsame Henr) as Henr'.
  pose proof Hrecords as [(signer & tsigner & (Hd1 & _) & (Hd2 & _) & He1 & He2) H1 H2].
  pose proof H1 as (_ & _ & Hdev1 & _)%enrollment_fields.
  pose proof H2 as (_ & _ & Hdev2 & _)%enrollment_fields.
  destruct H1 as (Hdec1 & _), H2 as (Hdec2 & _).
  destruct (replayed db' so1 r1 s1 now) as (a1 & Ha1 & Hf1);
    [apply Henr'|done|by rewrite Hdev1|apply Henr'|apply Henr'|].
  destruct (replayed db' so2 r2 s2 now) as (a2 & Ha2 & Hf2);
    [apply Henr'|done|by rewrite Hdev2|apply Henr'|apply Henr'|].
  unfold activate_local_profile_sync_from_secret_with_key, sr_bind at 1. rewrite Hrun.
  unfold sr_lift. rewrite Hd1. unfold sr_bind at 1. rewrite He1. unfold sr_bind at 1.
  unfold sr_bind at 1. rewrite Ha1.
  assert (str_eqb target AUTHORITY = false) as -> by (by apply str_eqb_neq). simpl.
  rewrite Hd2. unfold sr_bind. rewrite He2, Ha2.
  eexists db', _, key. split; [reflexivity|]. split_and!; try done; try apply Hkey.
  by repeat constructor.
Qed.

(** ** The application of the bundle *)

Lemma bundle_secret epoch s1 s2 so1 so2 r1 r2 pair target_pair created_at :
  bundle_records target epoch s1 s2 so1 so2 r1 r2 pair target_pair ->
  handoff_to_sync_secret codec sealer (made_bundle target s1 s2 created_at) = Ok secret.
Proof.
  intros Hrecords. unfold handoff_to_sync_secret.
  rewrite (handoff_bundle_valid _ _ _ _ _ _ _ _ _ created_at Hrecords).
  exact (f_equal (map_err profile_sync_secret_handoff_sync_object_error)
           (export_accepted created_at)).
Qed.

(** Up to the activation. *)
Lemma handoff_runs epoch s1 s2 so1 so2 r1 r2 pair target_pair created_at db db2 applications now :
  bundle_records target epoch s1 s2 so1 so2 r1 r2 pair target_pair ->
  apply_signed_sync_account_membership_records codec [s1; s2] now db = (db2, Ok applications) ->
  apply_profile_sync_secret_handoff_bundle codec sealer target (made_bundle target s1 s2 created_at)
    now db
  = sr_bind (activate_local_profile_sync_from_secret codec sealer target profile secret now)
      (fun activation => sr_ret {| sha_enrollment_applications := applications;
                                   sha_activation := activation |}) db2.
Proof.
  intros Hrecords Hrun. unfold apply_profile_sync_secret_handoff_bundle, sr_bind at 1, sr_lift at 1.
  rewrite (handoff_bundle_valid _ _ _ _ _ _ _ _ _ created_at Hrecords).
  simpl hb_target_device_id. rewrite str_eqb_refl. simpl negb. cbv iota.
  unfold sr_bind at 1, sr_lift at 1.
  rewrite (bundle_secret _ _ _ _ _ _ _ _ _ created_at Hrecords).
  unfold sr_bind at 1, apply_profile_sync_enrollment_bundle, sr_bind at 1, sr_lift at 1.
  rewrite (enrollment_bundle_valid _ _ _ _ _ _ _ _ _ created_at Hrecords).
  simpl. rewrite str_eqb_refl. simpl. by rewrite Hrun.
Qed.

(** The device holds the key the secret derives for it. *)
Definition enrolled_from_secret (db : ProfileDb) (epoch : Z) (device_id : string) : Prop :=
  exists signer pk k, derive_signer sealer secret profile device_id epoch = Ok signer /\
    signer_public_key sealer signer = Ok pk /\
    trusted_key db profile device_id = Some k /\ sk_public_key k = pk /\
    sk_membership_epoch k = epoch.

Lemma holds_derived db device_id epoch signer pair :
  derived_for device_id epoch signer pair -> holds_key db device_id epoch pair ->
  enrolled_from_secret db epoch device_id.
Proof.
  intros (Hd & Hid & Hpair & _) (k & Hk & Hpk & He). exists signer.
  unfold signer_public_key. rewrite Hpair, Hid. eauto 10.
Qed.

(** The record of an older epoch than the key of its signer is refused. *)
Lemma older_refused db so record s epoch pair now :
  decode_signed_profile_sync_membership_record codec s = Ok (so, record) ->
  mr_profile record = profile -> so_device_id so = AUTHORITY ->
  holds_key db AUTHORITY epoch pair -> provider_authority_of db profile AUTHORITY = false ->
  mr_membership_epoch record < epoch ->
  exists message, apply_signed_sync_account_membership_record codec s now db
    = (db, Err (InvalidProfileSyncMembershipRecord message)).
Proof.
  intros Hdec Hp Hd (k & Hk & Hpk & He) Hprov Hlt.
  eexists. eapply apply_one_err; [done|].
  unfold apply_decoded_sync_account_membership_record_in_transaction, sr_bind at 1,
    authorize_sync_account_membership_record_in_transaction, sr_bind at 1, query.
  apply trusted_key_Some in Hk as [Hk Ht].
  assert (bootstraps (sync_device_public_keys_in_transaction (mr_profile record) db) so record
          = false) as ->.
  { apply not_true_iff_false. rewrite bootstraps_spec. intros [Hnone _].
    rewrite Hp in Hnone. by rewrite Hnone in Hk. }
  unfold sr_bind at 1, sync_device_public_key_in_transaction. rewrite Hp, Hd. simpl.
  unfold query. rewrite Hk, Ht. simpl. unfold sr_bind at 1,
    sync_device_provider_authority_in_transaction, query. simpl.
  unfold provider_authority_of in Hprov. simpl in Hprov. rewrite Hprov.
  destruct (Z.ltb_spec (mr_membership_epoch record) (sk_membership_epoch k)); [|lia].
  reflexivity.
Qed.
End Handoff.

(** ** Theorems *)

(** C14: (liveness) A handoff succeeds: from a 32-byte secret a device makes a bundle for any
    other device, and the bundle applied on a database without members of the profile
    enrolls the account authority and the target with the keys the secret derives for them,
    activates the content key, and finds both enrollments already there when the activation
    signs them again. *)
Theorem handoff_enrolls codec sealer profile secret target created_at now db :
  SealerLaws codec sealer ->
  is_empty (trim profile) = false -> str_len (secret_bytes secret) = SLATE_SYNC_SECRET_BYTES ->
  is_valid_sync_identifier target = true ->
  target <> DEFAULT_PROFILE_SYNC_ACCOUNT_AUTHORITY_DEVICE_ID ->
  roster_ok codec db -> no_members profile db -> key_epochs_ok db ->
  exists bundle db' application key,
    profile_sync_secret_handoff_bundle_from_secret codec sealer profile secret target created_at
      = Ok bundle /\
    apply_profile_sync_secret_handoff_bundle codec sealer target bundle now db
      = (db', Ok application) /\
    Forall (fun a => ma_applied a = true) (sha_enrollment_applications application) /\
    Forall (fun a => ma_applied a = false)
      (lsa_membership_applications (sha_activation application)) /\
    enrolled_from_secret sealer profile secret db' DEFAULT_PROFILE_SYNC_MEMBERSHIP_EPOCH
      DEFAULT_PROFILE_SYNC_ACCOUNT_AUTHORITY_DEVICE_ID /\
    enrolled_from_secret sealer profile secret db' DEFAULT_PROFILE_SYNC_MEMBERSHIP_EPOCH target /\
    provider_authority_of db' profile target = false /\ roster_ok codec db' /\
    active_sync_content_key_epoch profile db' = Some key /\
    ke_key_id key = DEFAULT_PROFILE_SYNC_CONTENT_KEY_ID /\
    validate_active_sync_content_key_epoch key = Ok tt.
Proof.
  intros laws Hprofile Hsecret Htarget Hother Hok Hnone Hkeys.
  destruct (bundle_made codec sealer laws profile secret Hprofile Hsecret target Htarget Hother
              DEFAULT_PROFILE_SYNC_MEMBERSHIP_EPOCH created_at ltac:(done))
    as (s1 & s2 & so1 & so2 & r1 & r2 & pair & tpair & Hrecords & Hmade).
  destruct (bundle_enrolls codec sealer profile secret target Hother _ _ _ _ _ _ _ _ _ db now
              Hok Hnone Hrecords) as (db2 & a1 & a2 & Hrun & Ha1 & Ha2 & Hsame & Henr).
  assert (key_epochs_ok db2) as Hkeys2 by (destruct Hkeys; split; by rewrite Hsame).
  destruct (activated codec sealer profile secret target Htarget Hother _ _ _ _ _ _ _ _ _
              DEFAULT_PROFILE_SYNC_CONTENT_KEY_ID db2 now Hrecords Henr Hkeys2 eq_refl)
    as (db' & activation & key & Hact & Hfalse & Henr' & Hprov & Hactive & Hid & _ & Hvalid).
  pose proof Hrecords as [(signer & tsigner & Hd1 & Hd2 & _) _ _].
  eexists _, db', _, key. split; [exact Hmade|]. split.
  { rewrite (handoff_runs codec sealer laws profile secret Hprofile Hsecret target Htarget _ _ _ _ _ _
               _ _ _ created_at _ _ _ now Hrecords Hrun).
    unfold sr_bind, activate_local_profile_sync_from_secret. rewrite Hact. reflexivity. }
  destruct Henr' as [Hroster _ _ _ _ Hk1 Hk2]. simpl. split_and!; try done.
  - by repeat constructor.
  - by eapply holds_derived.
  - by eapply holds_derived.
Qed.

(** A bundle made at a later epoch than the default one is accepted up to the
    activation, which always signs at the default epoch and is refused by the authority key
    just enrolled: the call fails, with the devices enrolled and the content key of the
    default epoch active. *)
Theorem handoff_epoch_mismatch codec sealer profile secret target epoch created_at now db :
  SealerLaws codec sealer ->
  is_empty (trim profile) = false -> str_len (secret_bytes secret) = SLATE_SYNC_SECRET_BYTES ->
  is_valid_sync_identifier target = true ->
  target <> DEFAULT_PROFILE_SYNC_ACCOUNT_AUTHORITY_DEVICE_ID ->
  roster_ok codec db -> no_members profile db -> key_epochs_ok db ->
  DEFAULT_PROFILE_SYNC_MEMBERSHIP_EPOCH < epoch ->
  exists bundle db' message key,
    profile_sync_secret_handoff_bundle_from_secret_with_epoch codec sealer profile secret target
      epoch created_at = Ok bundle /\
    apply_profile_sync_secret_handoff_bundle codec sealer target bundle now db
      = (db', Err (InvalidProfileSyncMembershipRecord message)) /\
    enrolled_from_secret sealer profile secret db' epoch target /\
    active_sync_content_key_epoch profile db' = Some key /\
    ke_membership_epoch key = DEFAULT_PROFILE_SYNC_MEMBERSHIP_EPOCH.
Proof.
  intros laws Hprofile Hsecret Htarget Hother Hok Hnone Hkeys Hepoch.
  unfold DEFAULT_PROFILE_SYNC_MEMBERSHIP_EPOCH in Hepoch.
  destruct (bundle_made codec sealer laws profile secret Hprofile Hsecret target Htarget Hother
              epoch created_at ltac:(lia))
    as (s1 & s2 & so1 & so2 & r1 & r2 & pair & tpair & Hrecords & Hmade).
  destruct (bundle_enrolls codec sealer profile secret target Hother _ _ _ _ _ _ _ _ _ db now
              Hok Hnone Hrecords) as (db2 & a1 & a2 & Hrun & _ & _ & Hsame & Henr).
  assert (key_epochs_ok db2) as Hkeys2 by (destruct Hkeys; split; by rewrite Hsame).
  destruct (metadata_activated profile target Hother DEFAULT_PROFILE_SYNC_CONTENT_KEY_ID
              DEFAULT_PROFILE_SYNC_MEMBERSHIP_EPOCH now db2 Hkeys2 eq_refl)
    as (db' & activation & key & Hmeta & Hroster & Hprov & Hactive & _ & _ & Hke & _).
  pose proof (enrolled_kept codec sealer profile secret target _ _ _ _ _ _ _ _ _ _ _ Hrecords
                Hroster Henr) as [_ Hsigner _ _ _ Hk1 Hk2].
  destruct (signer_derived codec sealer laws profile secret AUTHORITY
              DEFAULT_PROFILE_SYNC_MEMBERSHIP_EPOCH eq_refl) as (signer & pair1 & Hs).
  destruct (enrollment_signed codec sealer laws profile secret _ _ _ _ _
              DEFAULT_PROFILE_SYNC_MEMBERSHIP_EPOCH _ Hs Hs eq_refl eq_refl ltac:(done))
    as (s & so & record & Hsigned & Henrolls).
  pose proof Henrolls as (_ & Hp & _ & _ & He & _)%enrollment_fields.
  destruct Henrolls as (Hdec & _ & Hsd & _).
  pose proof Hrecords as [(_ & tsigner & _ & Hd2 & _) H1 _].
  assert (provider_authority_of db' profile AUTHORITY = false) as Hauth.
  { destruct Hsigner as (k & _ & _ & _ & Hpr). pose proof H1 as (_ & Hp1 & _)%enrollment_fields.
    destruct H1 as (_ & _ & Hsd1 & _). by rewrite Hp1, Hsd1 in Hpr. }
  destruct (older_refused codec profile db' so record s epoch pair now Hdec Hp Hsd Hk1 Hauth
              ltac:(rewrite He; exact Hepoch)) as [message Herr].
  eexists _, db', message, key. split; [exact Hmade|]. split.
  { rewrite (handoff_runs codec sealer laws profile secret Hprofile Hsecret target Htarget _ _ _ _ _ _
               _ _ _ created_at _ _ _ now Hrecords Hrun).
    unfold sr_bind at 1, activate_local_profile_sync_from_secret,
      activate_local_profile_sync_from_secret_with_key, sr_bind at 1. rewrite Hmeta.
    unfold sr_lift. destruct Hs as [-> _]. unfold sr_bind at 1. rewrite Hsigned.
    unfold sr_bind at 1. unfold sr_bind at 1. by rewrite Herr. }
  split_and!; try done. by eapply holds_derived.
Qed.

(** ** Witnesses *)

Lemma no_members_empty profile : no_members profile empty_db.
Proof. split; intros; apply lookup_empty. Qed.

Lemma handoff_enrolls_witness :
  exists bundle db' application,
    apply_profile_sync_secret_handoff_bundle reference_codec reference_sealer "phone" bundle 20
      empty_db = (db', Ok application) /\
    provider_authority_of db' "default" "phone" = false.
Proof.
  destruct (handoff_enrolls reference_codec reference_sealer "default" demo_secret "phone" 10 20
              empty_db reference_laws eq_refl eq_refl eq_refl ltac:(discriminate)
              (empty_roster_ok _) (no_members_empty _) key_epochs_ok_empty)
    as (bundle & db' & application & key & _ & Hrun & _ & _ & _ & _ & Hprov & _).
  by exists bundle, db', application.
Defined.

Lemma handoff_epoch_mismatch_witness :
  exists bundle db' message,
    apply_profile_sync_secret_handoff_bundle reference_codec reference_sealer "phone" bundle 20
      empty_db = (db', Err (InvalidProfileSyncMembershipRecord message)).
Proof.
  destruct (handoff_epoch_mismatch reference_codec reference_sealer "default" demo_secret "phone" 2 10
              20 empty_db reference_laws eq_refl eq_refl eq_refl ltac:(discriminate)
              (empty_roster_ok _) (no_members_empty _) key_epochs_ok_empty ltac:(done))
    as (bundle & db' & message & key & _ & Hrun & _).
  by exists bundle, db', message.
Defined.
