(* ===== verification/Pulls.v ===== *)
(** * Pulls of published profile state

    The receiving side of [crates/storage/src/lib.rs]: [ProfileSyncObjectSource], the
    interface to whatever holds the published objects, and the pulls of
    [SlateProfileDatabase] over it.  A source is asked for the object a root names and for
    objects by id; what it answers is opened with the roster ([TrustedOpen]) and applied
    ([Snapshots]).

    A source has a state of its own: two calls may be answered differently. *)
From S2P Require Import Prelude RustStr AppViews Database SyncObjects SyncStore.
From S2P Require Import Membership ProfileTables TrustedOpen Snapshots.

(** ** The interface *)

Class ProfileSyncObjectSource (W E : Type) := {
  resolve_profile_sync_root : string -> string -> state_result W E (option string);
  list_profile_sync_root_candidates : string -> string -> state_result W E (list RootCandidate);
  get_profile_sync_object : string -> string -> state_result W E ProfileSyncObjectBytes
}.

Definition resolved_root (object_id : string) : RootCandidate :=
  {| cand_publisher_id := "resolved-root"; cand_object_id := object_id;
     cand_publish_sequence := 0 |}.

(** The default of [list_profile_sync_root_candidates]. *)
Definition list_resolved_root_candidates {W E}
    (resolve : string -> string -> state_result W E (option string)) (profile root_id : string) :
    state_result W E (list RootCandidate) :=
  let* object_id := resolve profile root_id in
  sr_ret (match object_id with
          | Some object_id => [resolved_root object_id]
          | None => []
          end).

Section Errors.
Context {E : Type}.

Inductive ProfileSyncPullError :=
  | SignedPullSource (error : E)
  | SignedPullSyncObject (error : SyncObjectError)
  | SignedPullObjectIdMismatch (expected actual : string).

Inductive ProfileSyncPullApplyError :=
  | SignedApplyPull (error : ProfileSyncPullError)
  | SignedApplyStorage (error : StorageError).

Inductive ProfileSyncTrustedPullError :=
  | PullSource (error : E)
  | PullOpen (error : ProfileSyncTrustedOpenError)
  | PullObjectIdMismatch (expected actual : string).

Inductive ProfileSyncTrustedPullApplyError :=
  | ApplyPull (error : ProfileSyncTrustedPullError)
  | ApplyStorage (error : StorageError).
End Errors.
Arguments ProfileSyncPullError : clear implicits.
Arguments ProfileSyncPullApplyError : clear implicits.
Arguments ProfileSyncTrustedPullError : clear implicits.
Arguments ProfileSyncTrustedPullApplyError : clear implicits.

(** ** Results *)

Record VerifiedProfileSyncDeviceHead := {
  vd_object_id : string;
  vd_device_head : ProfileSyncDeviceHead
}.

Inductive ProfileSyncSettingsPullApplyStatus :=
  | PullNoPublishedRoot (profile root_id : string)
  | PullUnchanged (profile root_id object_id : string)
  | PullApplied (application : ProfileSyncSettingsManifestApplication).

Inductive ProfileSyncSettingsCandidatePullApplyStatus :=
  | CandidateNoPublishedRoot (profile root_id : string)
  | CandidateUnchanged (profile root_id object_id : string)
  | CandidateApplied (applications : list ProfileSyncSettingsManifestCandidateApplication).

Inductive ProfileSyncDeviceHeadPullRecordStatus :=
  | HeadNoPublishedRoot (profile root_id : string)
  | HeadUnchanged (profile root_id object_id : string)
  | HeadUpdated (device_head : VerifiedProfileSyncDeviceHead) (root : ProfileSyncRootRecord).

(** ** Device heads *)

Definition validate_profile_sync_device_head_root (device_head : ProfileSyncDeviceHead)
    (root_id : string) : result SyncObjectError unit :=
  if str_eqb (dh_root_id device_head) root_id then Ok tt
  else Err (UnexpectedRootId root_id (dh_root_id device_head)).

Definition validate_profile_sync_device_head_manifest (device_head : ProfileSyncDeviceHead)
    (manifest : ProfileSyncManifest) : result SyncObjectError unit :=
  if negb (mf_membership_epoch manifest =? dh_membership_epoch device_head)
  then Err (UnexpectedDeviceHeadManifestEpoch (dh_device_id device_head)
              (dh_membership_epoch device_head) (mf_membership_epoch manifest))
  else
    match list_find_bool (fun frontier => str_eqb (df_device_id frontier)
                                            (dh_device_id device_head))
            (mf_device_frontiers manifest) with
    | None =>
        Err (UnexpectedDeviceFrontier (dh_device_id device_head)
               (dh_device_sequence device_head) None
               (dh_latest_change_object_id device_head) None)
    | Some frontier =>
        if negb (df_latest_sequence frontier =? dh_device_sequence device_head)
           || negb (bool_decide (df_latest_change_object_id frontier
                                 = dh_latest_change_object_id device_head))
        then Err (UnexpectedDeviceFrontier (dh_device_id device_head)
                    (dh_device_sequence device_head) (Some (df_latest_sequence frontier))
                    (dh_latest_change_object_id device_head)
                    (df_latest_change_object_id frontier))
        else Ok tt
    end.

Section Pulls.
Context (codec : SyncCodec) (d : PayloadDecoders) {W E : Type} `{ProfileSyncObjectSource W E}.

(** The database beside the source. *)
Definition pull (A : Type) : Type :=
  state_result (W * ProfileDb) (ProfileSyncTrustedPullError E) A.
Definition pull_apply (A : Type) : Type :=
  state_result (W * ProfileDb) (ProfileSyncTrustedPullApplyError E) A.

Definition on_source {F A} (f : E -> F) (m : state_result W E A) :
    state_result (W * ProfileDb) F A :=
  fun '(w, db) => let '(w, r) := m w in ((w, db), map_err f r).

Definition on_database {E' F A} (f : E' -> F) (m : state_result ProfileDb E' A) :
    state_result (W * ProfileDb) F A :=
  fun '(w, db) => let '(db, r) := m db in ((w, db), map_err f r).

Definition open_error {A} (r : result SyncObjectError A) : pull A :=
  sr_lift (map_err (fun error => PullOpen (SyncObject error)) r).

(** ** Objects *)

Definition fetch_trusted_profile_sync_object (profile object_id : string) :
    pull ProfileSyncObjectBytes :=
  let* object := on_source PullSource (get_profile_sync_object profile object_id) in
  if negb (str_eqb (ob_object_id object) object_id)
  then sr_err (PullObjectIdMismatch object_id (ob_object_id object))
  else sr_ret object.

(** [for object_id in object_ids { objects.push(fetch(object_id)?) }]. *)
Fixpoint fetch_trusted_profile_sync_objects (profile : string) (object_ids : list string) :
    pull (list ProfileSyncObjectBytes) :=
  match object_ids with
  | [] => sr_ret []
  | object_id :: object_ids =>
      let* object := fetch_trusted_profile_sync_object profile object_id in
      let* objects := fetch_trusted_profile_sync_objects profile object_ids in
      sr_ret (object :: objects)
  end.

Definition fetch_optional_profile_sync_object (profile : string) (object_id : option string) :
    pull (option ProfileSyncObjectBytes) :=
  match object_id with
  | None => sr_ret None
  | Some object_id =>
      let* object := fetch_trusted_profile_sync_object profile object_id in
      sr_ret (Some object)
  end.

(** ** Device heads *)

Definition open_pulled_device_head (content_key profile root_id key_id : string)
    (device_head_object : ProfileSyncObjectBytes) : pull ProfileSyncDeviceHead :=
  let* device_head := on_database PullOpen
    (open_trusted_signed_profile_sync_device_head codec (ob_bytes device_head_object)
       content_key profile key_id) in
  do* open_error (validate_profile_sync_device_head_root device_head root_id) in
  sr_ret device_head.

Definition pull_trusted_signed_profile_sync_device_head
    (profile root_id content_key key_id : string) :
    pull (option VerifiedProfileSyncDeviceHead) :=
  let* resolved := on_source PullSource (resolve_profile_sync_root profile root_id) in
  match resolved with
  | None => sr_ret None
  | Some device_head_object_id =>
      let* device_head_object :=
        fetch_trusted_profile_sync_object profile device_head_object_id in
      let* device_head := open_pulled_device_head content_key profile root_id key_id
                            device_head_object in
      sr_ret (Some {| vd_object_id := ob_object_id device_head_object;
                      vd_device_head := device_head |})
  end.

Definition pull_and_record_trusted_signed_profile_sync_device_head_if_changed
    (profile root_id content_key key_id : string) (now : Z) :
    pull_apply ProfileSyncDeviceHeadPullRecordStatus :=
  let* resolved := on_source (fun error => ApplyPull (PullSource error))
                     (resolve_profile_sync_root profile root_id) in
  match resolved with
  | None => sr_ret (HeadNoPublishedRoot profile root_id)
  | Some device_head_object_id =>
      let* local_root := on_database ApplyStorage (profile_sync_root profile root_id) in
      if match local_root with
         | Some local_root => str_eqb (pr_object_id local_root) device_head_object_id
         | None => false
         end
      then sr_ret (HeadUnchanged profile root_id device_head_object_id)
      else
      let* device_head_object := sr_map_err ApplyPull
        (fetch_trusted_profile_sync_object profile device_head_object_id) in
      let* device_head := sr_map_err ApplyPull
        (open_pulled_device_head content_key profile root_id key_id device_head_object) in
      let* root := on_database ApplyStorage
        (set_profile_sync_root profile root_id (ob_object_id device_head_object) now) in
      sr_ret (HeadUpdated {| vd_object_id := ob_object_id device_head_object;
                             vd_device_head := device_head |} root)
  end.

(** ** Manifests *)

Definition pull_trusted_signed_profile_sync_settings_manifest_objects_by_id
    (profile manifest_object_id content_key key_id : string) :
    pull VerifiedProfileSyncSettingsManifestObjects :=
  let* manifest_object := fetch_trusted_profile_sync_object profile manifest_object_id in
  let* manifest := on_database PullOpen
    (open_trusted_signed_profile_sync_manifest codec (ob_bytes manifest_object) content_key
       profile key_id) in
  let* snapshot_object := fetch_optional_profile_sync_object profile
                            (mf_current_snapshot_object_id manifest) in
  let* tail_change_objects := fetch_trusted_profile_sync_objects profile
                                (mf_tail_change_object_ids manifest) in
  on_database PullOpen
    (open_trusted_signed_profile_sync_settings_manifest_objects codec manifest_object
       snapshot_object tail_change_objects content_key profile key_id).

Definition pull_trusted_signed_profile_sync_settings_manifest_objects_from_device_head
    (profile : string) (device_head : VerifiedProfileSyncDeviceHead)
    (content_key key_id : string) : pull VerifiedProfileSyncSettingsManifestObjects :=
  if negb (str_eqb (dh_profile (vd_device_head device_head)) profile)
  then open_error (Err (UnexpectedProfile profile (dh_profile (vd_device_head device_head))))
  else
  let* objects := pull_trusted_signed_profile_sync_settings_manifest_objects_by_id profile
    (dh_latest_manifest_object_id (vd_device_head device_head)) content_key key_id in
  do* open_error (validate_profile_sync_device_head_manifest (vd_device_head device_head)
                    (vm_manifest objects)) in
  sr_ret objects.

Definition pull_trusted_signed_profile_sync_settings_manifest_objects
    (profile root_id content_key key_id : string) :
    pull (option VerifiedProfileSyncSettingsManifestObjects) :=
  let* resolved := on_source PullSource (resolve_profile_sync_root profile root_id) in
  match resolved with
  | None => sr_ret None
  | Some manifest_object_id =>
      let* objects := pull_trusted_signed_profile_sync_settings_manifest_objects_by_id profile
                        manifest_object_id content_key key_id in
      sr_ret (Some objects)
  end.

Definition pull_and_apply_trusted_signed_settings_manifest_objects_from_device_head
    (profile : string) (device_head : VerifiedProfileSyncDeviceHead)
    (content_key key_id : string) (now : Z) :
    pull_apply ProfileSyncSettingsManifestApplication :=
  let* objects := sr_map_err ApplyPull
    (pull_trusted_signed_profile_sync_settings_manifest_objects_from_device_head profile
       device_head content_key key_id) in
  on_database ApplyStorage (apply_verified_settings_manifest_objects d objects now).

Definition pull_and_apply_trusted_signed_settings_manifest_objects
    (profile root_id content_key key_id : string) (now : Z) :
    pull_apply (option ProfileSyncSettingsManifestApplication) :=
  let* objects := sr_map_err ApplyPull
    (pull_trusted_signed_profile_sync_settings_manifest_objects profile root_id content_key
       key_id) in
  match objects with
  | None => sr_ret None
  | Some objects =>
      let* application := on_database ApplyStorage
                            (apply_verified_settings_manifest_objects d objects now) in
      sr_ret (Some application)
  end.

(** The active key of the profile, which has to be of a supported algorithm. *)
Definition active_content_key (profile : string) : storage SyncContentKeyEpochRecord :=
  let* key := query (active_sync_content_key_epoch profile) in
  let* key := sr_lift (ok_or key (MissingActiveSyncContentKey profile)) in
  do* sr_lift (validate_active_sync_content_key_epoch key) in
  sr_ret key.

Definition pull_and_apply_active_trusted_signed_settings_manifest_objects
    (profile root_id content_key : string) (now : Z) :
    pull_apply (option ProfileSyncSettingsManifestApplication) :=
  let* key := on_database ApplyStorage (active_content_key profile) in
  let* objects := sr_map_err ApplyPull
    (pull_trusted_signed_profile_sync_settings_manifest_objects profile root_id content_key
       (ke_key_id key)) in
  match objects with
  | None => sr_ret None
  | Some objects =>
      do* sr_lift (map_err ApplyStorage
            (validate_sync_content_key_epoch_for_manifest key (vm_manifest objects))) in
      let* application := on_database ApplyStorage
                            (apply_verified_settings_manifest_objects d objects now) in
      sr_ret (Some application)
  end.

Definition pull_and_apply_active_trusted_signed_settings_manifest_objects_if_changed
    (profile root_id content_key : string) (now : Z) :
    pull_apply ProfileSyncSettingsPullApplyStatus :=
  let* resolved := on_source (fun error => ApplyPull (PullSource error))
                     (resolve_profile_sync_root profile root_id) in
  match resolved with
  | None => sr_ret (PullNoPublishedRoot profile root_id)
  | Some published_object_id =>
      let* local_root := on_database ApplyStorage (profile_sync_root profile root_id) in
      if match local_root with
         | Some local_root => str_eqb (pr_object_id local_root) published_object_id
         | None => false
         end
      then sr_ret (PullUnchanged profile root_id published_object_id)
      else
      let* applied := pull_and_apply_active_trusted_signed_settings_manifest_objects profile
                        root_id content_key now in
      sr_ret (match applied with
              | Some application => PullApplied application
              | None => PullNoPublishedRoot profile root_id
              end)
  end.

(** ** Candidates *)

Definition pull_candidate (profile content_key key_id : string) (candidate : RootCandidate) :
    pull VerifiedProfileSyncSettingsManifestCandidate :=
  let* objects := pull_trusted_signed_profile_sync_settings_manifest_objects_by_id profile
                    (cand_object_id candidate) content_key key_id in
  sr_ret {| vc_root_candidate := candidate; vc_objects := objects |}.

(** The loop over the candidates: one that does not open ends the pull. *)
Fixpoint pull_candidates (profile content_key key_id : string)
    (candidates : list RootCandidate) :
    pull (list VerifiedProfileSyncSettingsManifestCandidate) :=
  match candidates with
  | [] => sr_ret []
  | candidate :: candidates =>
      let* verified := pull_candidate profile content_key key_id candidate in
      let* verified_candidates := pull_candidates profile content_key key_id candidates in
      sr_ret (verified :: verified_candidates)
  end.

Definition pull_trusted_signed_profile_sync_settings_manifest_candidates
    (profile root_id content_key key_id : string) :
    pull (list VerifiedProfileSyncSettingsManifestCandidate) :=
  let* candidates := on_source PullSource (list_profile_sync_root_candidates profile root_id) in
  pull_candidates profile content_key key_id candidates.

Definition pull_and_apply_trusted_signed_profile_sync_settings_manifest_candidates
    (profile root_id content_key key_id : string) (now : Z) :
    pull_apply (list ProfileSyncSettingsManifestCandidateApplication) :=
  let* candidates := sr_map_err ApplyPull
    (pull_trusted_signed_profile_sync_settings_manifest_candidates profile root_id content_key
       key_id) in
  on_database ApplyStorage (apply_verified_settings_manifest_candidates d candidates now).

Definition frontier_locally_covered (profile : string) (db : ProfileDb)
    (frontier : ProfileSyncDeviceFrontier) : bool :=
  match latest_sync_device_sequence profile (df_device_id frontier) db with
  | None => false
  | Some current_sequence => df_latest_sequence frontier <=? current_sequence
  end.

Definition settings_manifest_frontiers_locally_covered (profile : string)
    (manifest : ProfileSyncManifest) (db : ProfileDb) : bool :=
  match mf_device_frontiers manifest with
  | [] => false
  | frontiers => forallb (frontier_locally_covered profile db) frontiers
  end.

(** The loop over the candidates of the active key. *)
Fixpoint pull_active_candidates (profile content_key : string)
    (key : SyncContentKeyEpochRecord) (candidates : list RootCandidate) :
    pull_apply (list VerifiedProfileSyncSettingsManifestCandidate) :=
  match candidates with
  | [] => sr_ret []
  | candidate :: candidates =>
      let* verified := sr_map_err ApplyPull
                         (pull_candidate profile content_key (ke_key_id key) candidate) in
      do* sr_lift (map_err ApplyStorage (validate_sync_content_key_epoch_for_manifest key
                                           (vm_manifest (vc_objects verified)))) in
      let* verified_candidates := pull_active_candidates profile content_key key candidates in
      sr_ret (verified :: verified_candidates)
  end.

Definition candidates_to_apply (profile : string) (local_root : option ProfileSyncRootRecord)
    (verified_candidates : list VerifiedProfileSyncSettingsManifestCandidate) (db : ProfileDb) :
    list VerifiedProfileSyncSettingsManifestCandidate :=
  List.filter (fun candidate =>
    negb (match local_root with Some _ => true | None => false end
          && settings_manifest_frontiers_locally_covered profile
               (vm_manifest (vc_objects candidate)) db)) verified_candidates.

Definition pull_and_apply_active_trusted_signed_settings_manifest_candidates_if_changed
    (profile root_id content_key : string) (now : Z) :
    pull_apply ProfileSyncSettingsCandidatePullApplyStatus :=
  let* key := on_database ApplyStorage (active_content_key profile) in
  let* candidates := on_source (fun error => ApplyPull (PullSource error))
                       (list_profile_sync_root_candidates profile root_id) in
  match newest_profile_sync_root_candidate candidates with
  | None => sr_ret (CandidateNoPublishedRoot profile root_id)
  | Some newest_candidate =>
      let* local_root := on_database ApplyStorage (profile_sync_root profile root_id) in
      if match local_root with
         | Some local_root => str_eqb (pr_object_id local_root) (cand_object_id newest_candidate)
         | None => false
         end
      then sr_ret (CandidateUnchanged profile root_id (cand_object_id newest_candidate))
      else
      let* verified_candidates := pull_active_candidates profile content_key key candidates in
      let* to_apply := on_database ApplyStorage
        (query (candidates_to_apply profile local_root verified_candidates)) in
      match to_apply, local_root with
      | [], Some local_root =>
          sr_ret (CandidateUnchanged profile root_id (pr_object_id local_root))
      | _, _ =>
          let* applications := on_database ApplyStorage
            (apply_verified_settings_manifest_candidates d to_apply now) in
          sr_ret (CandidateApplied applications)
      end
  end.

(** ** With one known signer *)

Definition signed_pull (A : Type) : Type := state_result W (ProfileSyncPullError E) A.

Definition fetch_profile_sync_object (profile object_id : string) :
    signed_pull ProfileSyncObjectBytes :=
  let* object := sr_map_err SignedPullSource (get_profile_sync_object profile object_id) in
  if negb (str_eqb (ob_object_id object) object_id)
  then sr_err (SignedPullObjectIdMismatch object_id (ob_object_id object))
  else sr_ret object.

Fixpoint fetch_profile_sync_objects (profile : string) (object_ids : list string) :
    signed_pull (list ProfileSyncObjectBytes) :=
  match object_ids with
  | [] => sr_ret []
  | object_id :: object_ids =>
      let* object := fetch_profile_sync_object profile object_id in
      let* objects := fetch_profile_sync_objects profile object_ids in
      sr_ret (object :: objects)
  end.

Definition pull_signed_profile_sync_settings_manifest_objects
    (profile root_id content_key : string) (public_key : ProfileSyncDevicePublicKey)
    (key_id : string) : signed_pull (option VerifiedProfileSyncSettingsManifestObjects) :=
  let* resolved := sr_map_err SignedPullSource (resolve_profile_sync_root profile root_id) in
  match resolved with
  | None => sr_ret None
  | Some manifest_object_id =>
      let* manifest_object := fetch_profile_sync_object profile manifest_object_id in
      let* manifest := sr_lift (map_err SignedPullSyncObject
        (open_signed_profile_sync_manifest codec (ob_bytes manifest_object) content_key public_key
           profile key_id)) in
      let* snapshot_object :=
        match mf_current_snapshot_object_id manifest with
        | None => sr_ret None
        | Some object_id =>
            let* object := fetch_profile_sync_object profile object_id in
            sr_ret (Some object)
        end in
      let* tail_change_objects := fetch_profile_sync_objects profile
                                    (mf_tail_change_object_ids manifest) in
      let* objects := sr_lift (map_err SignedPullSyncObject
        (open_signed_profile_sync_settings_manifest_objects codec manifest_object snapshot_object
           tail_change_objects content_key public_key profile key_id)) in
      sr_ret (Some objects)
  end.

Definition pull_signed_profile_sync_device_head
    (profile root_id content_key : string) (public_key : ProfileSyncDevicePublicKey)
    (key_id : string) : signed_pull (option VerifiedProfileSyncDeviceHead) :=
  let* resolved := sr_map_err SignedPullSource (resolve_profile_sync_root profile root_id) in
  match resolved with
  | None => sr_ret None
  | Some device_head_object_id =>
      let* device_head_object := fetch_profile_sync_object profile device_head_object_id in
      let* device_head := sr_lift (map_err SignedPullSyncObject
        (open_signed_profile_sync_device_head codec (ob_bytes device_head_object) content_key
           public_key profile key_id)) in
      do* sr_lift (map_err SignedPullSyncObject
            (validate_profile_sync_device_head_root device_head root_id)) in
      sr_ret (Some {| vd_object_id := ob_object_id device_head_object;
                      vd_device_head := device_head |})
  end.

Definition pull_and_apply_signed_settings_manifest_objects
    (profile root_id content_key : string) (public_key : ProfileSyncDevicePublicKey)
    (key_id : string) (now : Z) :
    state_result (W * ProfileDb) (ProfileSyncPullApplyError E)
      (option ProfileSyncSettingsManifestApplication) :=
  let* objects := (fun '(w, db) =>
    let '(w, r) := pull_signed_profile_sync_settings_manifest_objects profile root_id content_key
                     public_key key_id w in
    ((w, db), map_err SignedApplyPull r)) in
  match objects with
  | None => sr_ret None
  | Some objects =>
      let* application := on_database SignedApplyStorage
                            (apply_verified_settings_manifest_objects d objects now) in
      sr_ret (Some application)
  end.
End Pulls.
