(* ===== verification/AppOps.v ===== *)
(** * Operations on application data

    The public operations of [crates/storage/src/lib.rs] on bookmarks, calendar events,
    chat conversations, contact cards, downloads, file entries and storage providers: an
    update validates its input, writes the row, records the change for the other devices
    and answers the row; a removal deletes the row and records a tombstone when there was
    one; the lists are ordered and cut as their queries say. *)
From S2P Require Import Prelude RustStr AppViews Database SyncStore AppData.

(** ** Statements *)

(** A statement over the tables of the applications. *)
Definition app_statement (f : AppTables -> result SqlError AppTables) : sql unit :=
  fun db =>
    match f (db_app db) with
    | Ok t => (set_db_app t db, Ok tt)
    | Err e => (db, Err e)
    end.

(** [query_row(sql, params, from_row)]. *)
Definition query_row {P R} (from_row : AppRow P -> result SqlError R)
    (select : ProfileDb -> option (AppRow P)) : sql R :=
  let* row := query select in
  let* row := sr_lift (ok_or row QueryReturnedNoRows) in
  sr_lift (from_row row).

(** [OptionalExtension::optional]. *)
Definition optional {R} (m : sql R) : sql (option R) :=
  fun db =>
    match m db with
    | (db, Ok r) => (db, Ok (Some r))
    | (db, Err QueryReturnedNoRows) => (db, Ok None)
    | (db, Err e) => (db, Err e)
    end.

(** [WHERE profile = ?1 ORDER BY ... LIMIT ?2]. *)
Definition select_rows {P} (order : AppRow P -> AppRow P -> comparison) (profile : string)
    (limit : Z) (rows : gmap (string * string) (AppRow P)) : list (AppRow P) :=
  sql_limit limit (sort_by order (btree_values (filter (fun kv => kv.1.1 = profile) rows))).

Definition query_rows {P R} (from_row : AppRow P -> result SqlError R)
    (select : ProfileDb -> list (AppRow P)) : storage (list R) :=
  let* rows := query select in
  sr_lift (map_err Database (collect_results from_row rows)).

(** [sql] boolean columns are integers. *)
#[export] Instance RustOrd_bool : RustOrd bool :=
  fun a b => Z.compare (if a then 1 else 0) (if b then 1 else 0).

Section Operations.
Context (enc : PayloadEncoders) (local_sync_device_id : string).

(** ** Calendar *)

Definition calendar_event_record_by_id_in_transaction (profile event_id : string) :
    sql CalendarEventRecord :=
  query_row (calendar_event_record_from_row profile)
    (fun db => tbl_calendar_events (db_app db) !! (profile, event_id)).

Definition calendar_event_record_by_id_optional_in_transaction (profile event_id : string) :
    sql (option CalendarEventRecord) :=
  optional (query_row (calendar_event_record_from_row profile)
              (fun db => tbl_calendar_events (db_app db) !! (profile, event_id))).

Definition upsert_calendar_event (event : CalendarEventUpdate) (now : Z) :
    storage CalendarEventRecord :=
  do* sr_lift (validate_calendar_event_id (ceu_event_id event)) in
  let sync_key := calendar_event_sync_key (ceu_event_id event) in
  let* sync_payload := sr_lift (calendar_event_sync_payload enc event) in
  let payload := calendar_event_update_payload event in
  transaction (
    do* database_error (app_statement
          (upsert_calendar_event_in_transaction (ceu_profile event) payload now)) in
    do* database_error (record_sync_setting_text_in_transaction (ceu_profile event)
          SYNC_DOMAIN_CALENDAR sync_key sync_payload local_sync_device_id now) in
    database_error (calendar_event_record_by_id_in_transaction (ceu_profile event)
                      (ceu_event_id event))).

(** [ORDER BY starts_at, event_id]. *)
Definition calendar_events_order (a b : AppRow CalendarEventSyncPayload) : comparison :=
  key_cmp (fun r => (ce_starts_at (row_payload r), ce_event_id (row_payload r))) a b.

Definition calendar_events (profile : string) (limit : Z) : storage (list CalendarEventRecord) :=
  query_rows (calendar_event_record_from_row profile)
    (fun db => select_rows calendar_events_order profile limit (tbl_calendar_events (db_app db))).

Definition remove_calendar_event (profile event_id : string) (now : Z) : storage unit :=
  do* sr_lift (validate_calendar_event_id event_id) in
  transaction (
    let* removed := database_error
      (calendar_event_record_by_id_optional_in_transaction profile event_id) in
    do* execute (fun db => set_db_app
          (set_tbl_calendar_events (delete (profile, event_id) (tbl_calendar_events (db_app db)))
             (db_app db)) db) in
    match removed with
    | None => sr_ret tt
    | Some record =>
        let sync_key := calendar_event_sync_key (cer_event_id record) in
        let* sync_payload := sr_lift (calendar_event_tombstone_sync_payload enc record) in
        do* database_error (record_sync_setting_text_in_transaction profile
              SYNC_DOMAIN_CALENDAR sync_key sync_payload local_sync_device_id now) in
        sr_ret tt
    end).

(** ** Chat *)

Definition chat_conversation_record_by_id_in_transaction (profile conversation_id : string) :
    sql ChatConversationRecord :=
  query_row (chat_conversation_record_from_row profile)
    (fun db => tbl_chat_conversations (db_app db) !! (profile, conversation_id)).

Definition chat_conversation_record_by_id_optional_in_transaction
    (profile conversation_id : string) :
    sql (option ChatConversationRecord) :=
  optional (query_row (chat_conversation_record_from_row profile)
              (fun db => tbl_chat_conversations (db_app db) !! (profile, conversation_id))).

Definition upsert_chat_conversation (conversation : ChatConversationUpdate) (now : Z) :
    storage ChatConversationRecord :=
  do* sr_lift (validate_chat_conversation_update conversation) in
  let sync_key := chat_conversation_sync_key (ccu_conversation_id conversation) in
  let* sync_payload := sr_lift (chat_conversation_sync_payload enc conversation) in
  let payload := chat_conversation_update_payload conversation in
  transaction (
    do* database_error (app_statement
          (upsert_chat_conversation_in_transaction (ccu_profile conversation) payload now)) in
    do* database_error (record_sync_setting_text_in_transaction (ccu_profile conversation)
          SYNC_DOMAIN_CHAT sync_key sync_payload local_sync_device_id now) in
    database_error (chat_conversation_record_by_id_in_transaction (ccu_profile conversation)
                      (ccu_conversation_id conversation))).

(** [ORDER BY archived, last_message_at DESC, display_name, conversation_id]. *)
Definition chat_conversations_order (a b : AppRow ChatConversationSyncPayload) : comparison :=
  then_cmp (key_cmp (fun r => cc_archived (row_payload r)) a b)
    (then_cmp (key_cmp (fun r => cc_last_message_at (row_payload r)) b a)
      (key_cmp (fun r => (cc_display_name (row_payload r), cc_conversation_id (row_payload r)))
         a b)).

Definition chat_conversations (profile : string) (limit : Z) :
    storage (list ChatConversationRecord) :=
  query_rows (chat_conversation_record_from_row profile)
    (fun db => select_rows chat_conversations_order profile limit
                 (tbl_chat_conversations (db_app db))).

Definition remove_chat_conversation (profile conversation_id : string) (now : Z) : storage unit :=
  do* sr_lift (validate_chat_conversation_id conversation_id) in
  transaction (
    let* removed := database_error
      (chat_conversation_record_by_id_optional_in_transaction profile conversation_id) in
    do* execute (fun db => set_db_app
          (set_tbl_chat_conversations
             (delete (profile, conversation_id)
                (tbl_chat_conversations (db_app db)))
             (db_app db)) db) in
    match removed with
    | None => sr_ret tt
    | Some record =>
        let sync_key := chat_conversation_sync_key (ccr_conversation_id record) in
        let* sync_payload := sr_lift (chat_conversation_tombstone_sync_payload enc record) in
        do* database_error (record_sync_setting_text_in_transaction profile
              SYNC_DOMAIN_CHAT sync_key sync_payload local_sync_device_id now) in
        sr_ret tt
    end).

(** ** Contacts *)

Definition contact_card_record_by_id_in_transaction (profile contact_id : string) :
    sql ContactCardRecord :=
  query_row (contact_card_record_from_row profile)
    (fun db => tbl_contact_cards (db_app db) !! (profile, contact_id)).

Definition contact_card_record_by_id_optional_in_transaction (profile contact_id : string) :
    sql (option ContactCardRecord) :=
  optional (query_row (contact_card_record_from_row profile)
              (fun db => tbl_contact_cards (db_app db) !! (profile, contact_id))).

Definition upsert_contact_card (contact : ContactCardUpdate) (now : Z) :
    storage ContactCardRecord :=
  do* sr_lift (validate_contact_id (ctu_contact_id contact)) in
  let sync_key := contact_card_sync_key (ctu_contact_id contact) in
  let* sync_payload := sr_lift (contact_card_sync_payload enc contact) in
  let payload := contact_card_update_payload contact in
  transaction (
    do* database_error (app_statement
          (upsert_contact_card_in_transaction (ctu_profile contact) payload now)) in
    do* database_error (record_sync_setting_text_in_transaction (ctu_profile contact)
          SYNC_DOMAIN_CONTACTS sync_key sync_payload local_sync_device_id now) in
    database_error (contact_card_record_by_id_in_transaction (ctu_profile contact)
                      (ctu_contact_id contact))).

(** [ORDER BY display_name, contact_id]. *)
Definition contact_cards_order (a b : AppRow ContactCardSyncPayload) : comparison :=
  key_cmp (fun r => (ct_display_name (row_payload r), ct_contact_id (row_payload r))) a b.

Definition contact_cards (profile : string) (limit : Z) : storage (list ContactCardRecord) :=
  query_rows (contact_card_record_from_row profile)
    (fun db => select_rows contact_cards_order profile limit (tbl_contact_cards (db_app db))).

Definition remove_contact_card (profile contact_id : string) (now : Z) : storage unit :=
  do* sr_lift (validate_contact_id contact_id) in
  transaction (
    let* removed := database_error
      (contact_card_record_by_id_optional_in_transaction profile contact_id) in
    do* execute (fun db => set_db_app
          (set_tbl_contact_cards (delete (profile, contact_id) (tbl_contact_cards (db_app db)))
             (db_app db)) db) in
    match removed with
    | None => sr_ret tt
    | Some record =>
        let sync_key := contact_card_sync_key (ctr_contact_id record) in
        let* sync_payload := sr_lift (contact_card_tombstone_sync_payload enc record) in
        do* database_error (record_sync_setting_text_in_transaction profile
              SYNC_DOMAIN_CONTACTS sync_key sync_payload local_sync_device_id now) in
        sr_ret tt
    end).

(** ** Downloads *)

Definition download_metadata_record_by_id_in_transaction (profile download_id : string) :
    sql DownloadMetadataRecord :=
  query_row (download_metadata_record_from_row profile)
    (fun db => tbl_downloads (db_app db) !! (profile, download_id)).

Definition download_metadata_record_by_id_optional_in_transaction (profile download_id : string) :
    sql (option DownloadMetadataRecord) :=
  optional (query_row (download_metadata_record_from_row profile)
              (fun db => tbl_downloads (db_app db) !! (profile, download_id))).

Definition record_download_metadata (download : DownloadMetadataUpdate) (now : Z) :
    storage DownloadMetadataRecord :=
  do* sr_lift (validate_download_metadata_update download) in
  let sync_key := download_metadata_sync_key (dmu_download_id download) in
  let* sync_payload := sr_lift (download_metadata_sync_payload enc download) in
  let payload := download_metadata_update_payload download in
  transaction (
    do* database_error (app_statement
          (upsert_download_metadata_in_transaction (dmu_profile download) payload now)) in
    do* database_error (record_sync_setting_text_in_transaction (dmu_profile download)
          SYNC_DOMAIN_DOWNLOADS sync_key sync_payload local_sync_device_id now) in
    database_error (download_metadata_record_by_id_in_transaction (dmu_profile download)
                      (dmu_download_id download))).

(** [ORDER BY updated_at DESC, download_id]. *)
Definition downloads_order (a b : AppRow DownloadMetadataSyncPayload) : comparison :=
  then_cmp (key_cmp row_updated_at b a)
    (key_cmp (fun r => dm_download_id (row_payload r)) a b).

Definition downloads (profile : string) (limit : Z) : storage (list DownloadMetadataRecord) :=
  query_rows (download_metadata_record_from_row profile)
    (fun db => select_rows downloads_order profile limit (tbl_downloads (db_app db))).

Definition remove_download_metadata (profile download_id : string) (now : Z) : storage unit :=
  do* sr_lift (validate_download_id download_id) in
  transaction (
    let* removed := database_error
      (download_metadata_record_by_id_optional_in_transaction profile download_id) in
    do* execute (fun db => set_db_app
          (set_tbl_downloads (delete (profile, download_id) (tbl_downloads (db_app db)))
             (db_app db)) db) in
    match removed with
    | None => sr_ret tt
    | Some record =>
        let sync_key := download_metadata_sync_key (dmr_download_id record) in
        let* sync_payload := sr_lift (download_metadata_tombstone_sync_payload enc record) in
        do* database_error (record_sync_setting_text_in_transaction profile
              SYNC_DOMAIN_DOWNLOADS sync_key sync_payload local_sync_device_id now) in
        sr_ret tt
    end).

(** ** Files *)

Definition file_entry_record_by_id_in_transaction (profile entry_id : string) :
    sql FileEntryRecord :=
  query_row (file_entry_record_from_row profile)
    (fun db => tbl_file_entries (db_app db) !! (profile, entry_id)).

Definition file_entry_record_by_id_optional_in_transaction (profile entry_id : string) :
    sql (option FileEntryRecord) :=
  optional (query_row (file_entry_record_from_row profile)
              (fun db => tbl_file_entries (db_app db) !! (profile, entry_id))).

Definition upsert_file_entry (entry : FileEntryUpdate) (now : Z) :
    storage FileEntryRecord :=
  do* sr_lift (validate_file_entry_update entry) in
  let sync_key := file_entry_sync_key (feu_entry_id entry) in
  let* sync_payload := sr_lift (file_entry_sync_payload enc entry) in
  let payload := file_entry_update_payload entry in
  transaction (
    do* database_error (app_statement
          (upsert_file_entry_in_transaction (feu_profile entry) payload now)) in
    do* database_error (record_sync_setting_text_in_transaction (feu_profile entry)
          SYNC_DOMAIN_FILES sync_key sync_payload local_sync_device_id now) in
    database_error (file_entry_record_by_id_in_transaction (feu_profile entry)
                      (feu_entry_id entry))).

(** [ORDER BY sync_set_id, parent_id, name, entry_id]. *)
Definition file_entries_order (a b : AppRow FileEntrySyncPayload) : comparison :=
  key_cmp (fun r => (fe_sync_set_id (row_payload r), fe_parent_id (row_payload r),
                     fe_name (row_payload r), fe_entry_id (row_payload r))) a b.

Definition file_entries (profile : string) (limit : Z) : storage (list FileEntryRecord) :=
  query_rows (file_entry_record_from_row profile)
    (fun db => select_rows file_entries_order profile limit (tbl_file_entries (db_app db))).

Definition remove_file_entry (profile entry_id : string) (now : Z) : storage unit :=
  do* sr_lift (validate_file_entry_id entry_id) in
  transaction (
    let* removed := database_error
      (file_entry_record_by_id_optional_in_transaction profile entry_id) in
    do* execute (fun db => set_db_app
          (set_tbl_file_entries (delete (profile, entry_id) (tbl_file_entries (db_app db)))
             (db_app db)) db) in
    match removed with
    | None => sr_ret tt
    | Some record =>
        let sync_key := file_entry_sync_key (fer_entry_id record) in
        let* sync_payload := sr_lift (file_entry_tombstone_sync_payload enc record) in
        do* database_error (record_sync_setting_text_in_transaction profile
              SYNC_DOMAIN_FILES sync_key sync_payload local_sync_device_id now) in
        sr_ret tt
    end).

(** ** Storage providers *)

Definition storage_provider_record_by_id_in_transaction (profile provider_id : string) :
    sql StorageProviderRecord :=
  query_row (storage_provider_record_from_row profile)
    (fun db => tbl_storage_providers (db_app db) !! (profile, provider_id)).

Definition storage_provider_record_by_id_optional_in_transaction (profile provider_id : string) :
    sql (option StorageProviderRecord) :=
  optional (query_row (storage_provider_record_from_row profile)
              (fun db => tbl_storage_providers (db_app db) !! (profile, provider_id))).

Definition upsert_storage_provider (provider : StorageProviderUpdate) (now : Z) :
    storage StorageProviderRecord :=
  do* sr_lift (validate_storage_provider_update provider) in
  let sync_key := storage_provider_sync_key (spu_provider_id provider) in
  let* sync_payload := sr_lift (storage_provider_sync_payload enc provider) in
  let payload := storage_provider_update_payload provider in
  transaction (
    do* database_error (app_statement
          (upsert_storage_provider_in_transaction (spu_profile provider) payload now)) in
    do* database_error (record_sync_setting_text_in_transaction (spu_profile provider)
          SYNC_DOMAIN_STORAGE sync_key sync_payload local_sync_device_id now) in
    database_error (storage_provider_record_by_id_in_transaction (spu_profile provider)
                      (spu_provider_id provider))).

(** [ORDER BY enabled DESC, provider_kind, display_name, provider_id]. *)
Definition storage_providers_order (a b : AppRow StorageProviderSyncPayload) : comparison :=
  then_cmp (key_cmp (fun r => sp_enabled (row_payload r)) b a)
    (key_cmp (fun r => (sp_provider_kind (row_payload r), sp_display_name (row_payload r),
                        sp_provider_id (row_payload r))) a b).

Definition storage_providers (profile : string) (limit : Z) :
    storage (list StorageProviderRecord) :=
  query_rows (storage_provider_record_from_row profile)
    (fun db => select_rows storage_providers_order profile limit
                 (tbl_storage_providers (db_app db))).

Definition remove_storage_provider (profile provider_id : string) (now : Z) : storage unit :=
  do* sr_lift (validate_storage_provider_id provider_id) in
  transaction (
    let* removed := database_error
      (storage_provider_record_by_id_optional_in_transaction profile provider_id) in
    do* execute (fun db => set_db_app
          (set_tbl_storage_providers
             (delete (profile, provider_id)
                (tbl_storage_providers (db_app db)))
             (db_app db)) db) in
    match removed with
    | None => sr_ret tt
    | Some record =>
        let sync_key := storage_provider_sync_key (spr_provider_id record) in
        let* sync_payload := sr_lift (storage_provider_tombstone_sync_payload enc record) in
        do* database_error (record_sync_setting_text_in_transaction profile
              SYNC_DOMAIN_STORAGE sync_key sync_payload local_sync_device_id now) in
        sr_ret tt
    end).

(** ** Bookmarks *)

(** [INSERT INTO bookmarks ... ON CONFLICT(profile, url) DO UPDATE SET ...]: a row that
    exists keeps its place and its creation time. *)
Definition upsert_bookmark_row (bookmark : BookmarkUpdate) (now : Z) (rows : list BookmarkRow) :
    list BookmarkRow :=
  let same row := str_eqb (bm_profile row) (bmu_profile bookmark)
                  && str_eqb (bm_url row) (bmu_url bookmark) in
  let updated created_at :=
    {| bm_profile := bmu_profile bookmark; bm_url := bmu_url bookmark;
       bm_title := bmu_title bookmark; bm_folder := bmu_folder bookmark;
       bm_position := bmu_position bookmark; bm_favicon_key := bmu_favicon_key bookmark;
       bm_created_at := created_at; bm_updated_at := now |} in
  if existsb same rows
  then map (fun row => if same row then updated (bm_created_at row) else row) rows
  else rows ++ [updated now].

(** An unsynchronised write. *)
Definition upsert_bookmark (bookmark : BookmarkUpdate) (now : Z) : storage unit :=
  execute (fun db => set_db_app
    (set_tbl_bookmarks (upsert_bookmark_row bookmark now (tbl_bookmarks (db_app db)))
       (db_app db)) db).

(** [DELETE FROM bookmarks WHERE profile = ?1 AND (position = ?2 OR url = ?3 OR ...)]. *)
Definition delete_bookmark_slot (profile : string) (payload : BookmarkSlotSyncPayload)
    (t : AppTables) : result SqlError AppTables :=
  Ok (set_tbl_bookmarks (List.filter (bookmark_slot_kept profile payload) (tbl_bookmarks t)) t).

(** [INSERT INTO bookmarks ...], with [UNIQUE(profile, url)]. *)
Definition insert_bookmark (bookmark : BookmarkUpdate) (now : Z) (t : AppTables) :
    result SqlError AppTables :=
  if existsb (fun row => str_eqb (bm_profile row) (bmu_profile bookmark)
                         && str_eqb (bm_url row) (bmu_url bookmark)) (tbl_bookmarks t)
  then Err (ConstraintViolation "bookmarks.profile, bookmarks.url")
  else Ok (set_tbl_bookmarks
    (tbl_bookmarks t ++
       [{| bm_profile := bmu_profile bookmark; bm_url := bmu_url bookmark;
           bm_title := bmu_title bookmark; bm_folder := bmu_folder bookmark;
           bm_position := bmu_position bookmark; bm_favicon_key := bmu_favicon_key bookmark;
           bm_created_at := now; bm_updated_at := now |}]) t).

Definition set_bookmark_slot (bookmark : BookmarkUpdate) (replaced_url : option string)
    (now : Z) : storage unit :=
  let sync_key := bookmark_home_slot_sync_key (bmu_position bookmark) in
  let* sync_payload := sr_lift (bookmark_home_slot_sync_payload enc bookmark replaced_url) in
  transaction (
    do* database_error (app_statement (delete_bookmark_slot (bmu_profile bookmark)
          (bookmark_home_slot_payload bookmark replaced_url))) in
    do* database_error (app_statement (insert_bookmark bookmark now)) in
    do* database_error (record_sync_setting_text_in_transaction (bmu_profile bookmark)
          SYNC_DOMAIN_BOOKMARKS sync_key sync_payload local_sync_device_id now) in
    sr_ret tt).

(** [ORDER BY folder, position, title, url]. *)
Definition bookmarks (profile : string) (db : ProfileDb) : list BookmarkRecord :=
  sort_by (key_cmp (fun r => (bm_folder r, bm_position r, bm_title r, bm_url r)))
    (List.filter (fun r => str_eqb (bm_profile r) profile) (tbl_bookmarks (db_app db))).

Definition is_bookmark (profile url : string) (row : BookmarkRow) : bool :=
  str_eqb (bm_profile row) profile && str_eqb (bm_url row) url.

(** The tombstone of a row. *)
Definition removed_bookmark_payload (url : string) (row : BookmarkRow) :
    BookmarkSlotSyncPayload :=
  {| bs_url := url; bs_title := bm_title row; bs_folder := bm_folder row;
     bs_position := bm_position row; bs_favicon_key := bm_favicon_key row;
     bs_replaced_url := None; bs_deleted := true |}.

Definition remove_bookmark (profile url : string) (now : Z) : storage unit :=
  transaction (
    let* removed := query (fun db => option_map (removed_bookmark_payload url)
      (list_find_bool (is_bookmark profile url) (tbl_bookmarks (db_app db)))) in
    do* execute (fun db => set_db_app (set_tbl_bookmarks
          (List.filter (fun row => negb (is_bookmark profile url row))
             (tbl_bookmarks (db_app db))) (db_app db)) db) in
    match removed with
    | None => sr_ret tt
    | Some payload =>
        let sync_key := bookmark_home_slot_sync_key (bs_position payload) in
        let* sync_payload := sr_lift (map_err EncodeSyncPayload
                                        (bookmark_slot_to_string enc payload)) in
        do* database_error (record_sync_setting_text_in_transaction profile
              SYNC_DOMAIN_BOOKMARKS sync_key sync_payload local_sync_device_id now) in
        sr_ret tt
    end).
End Operations.
