(* ===== verification/AppKinds.v ===== *)
(** * The interface of the keyed application tables

    Calendar events, chat conversations, contact cards, downloads, file entries and
    storage providers are kept alike: a row per profile and identifier, written by the
    view of a change whose key is a prefix and the identifier.  [AppKind] names what the
    six have in common, [AppKindLaws] what their views promise; the theorems on
    application data are proved against the laws. *)
From S2P Require Import Prelude RustStr AppViews Database SyncStore AppData AppOps.

Record AppKind := {
  ak_payload : Type;
  ak_domain : string;
  ak_prefix : string;
  ak_id : ak_payload -> string;
  ak_deleted : ak_payload -> bool;
  ak_table : AppTables -> gmap (string * string) (AppRow ak_payload);
  ak_delete : string * string -> AppTables -> AppTables;
  ak_decode : PayloadDecoders -> string -> result SqlError ak_payload;
  ak_encode : PayloadEncoders -> ak_payload -> result string string;
  ak_valid : ak_payload -> result SqlError unit;
  ak_apply : string -> ak_payload -> Z -> AppTables -> result SqlError AppTables
}.

(** The changes a kind's view handles. *)
Definition of_kind (k : AppKind) (domain key : string) : bool :=
  str_eqb domain (ak_domain k) && starts_with (ak_prefix k) key.

(** What a payload does to a table. *)
Definition put_payload (k : AppKind) (profile : string) (p : ak_payload k) (now : Z)
    (rows : gmap (string * string) (AppRow (ak_payload k))) :
    gmap (string * string) (AppRow (ak_payload k)) :=
  if ak_deleted k p then delete (profile, ak_id k p) rows
  else upsert_row rows (profile, ak_id k p) p now.

Class AppKindLaws (k : AppKind) : Prop := {
  (** the view of a change of the kind *)
  ak_view d c now t t' : of_kind k (in_domain c) (in_key c) = true ->
    apply_sync_setting_materialized_view_in_transaction d c now t = Ok t' <->
    exists p, ak_decode k d (in_value c) = Ok p /\ ak_valid k p = Ok tt /\
      in_key c = ak_prefix k +:+ ak_id k p /\ ak_apply k (in_profile c) p now t = Ok t';
  (** the view of any other change *)
  ak_view_other d c now t t' : of_kind k (in_domain c) (in_key c) = false ->
    apply_sync_setting_materialized_view_in_transaction d c now t = Ok t' ->
    ak_table k t' = ak_table k t;
  ak_apply_table profile p now t t' : ak_apply k profile p now t = Ok t' ->
    ak_table k t' = put_payload k profile p now (ak_table k t);
  ak_apply_deleted profile p now t : ak_deleted k p = true ->
    ak_apply k profile p now t = Ok (ak_delete k (profile, ak_id k p) t);
  ak_apply_valid profile p now t : ak_valid k p = Ok tt ->
    is_ok (ak_apply k profile p now t) = true;
  ak_delete_absent key t : ak_table k t !! key = None -> ak_delete k key t = t;
  ak_settings s t : ak_table k (set_tbl_settings s t) = ak_table k t;
  ak_bookmarks b t : ak_table k (set_tbl_bookmarks b t) = ak_table k t
}.

(** [serde_json] reads back what it wrote. *)
Class PayloadCodec (d : PayloadDecoders) (enc : PayloadEncoders) : Prop := {
  bookmark_slot_roundtrip p text : bookmark_slot_to_string enc p = Ok text ->
    bookmark_home_slot_sync_payload_from_text d text = Ok p;
  calendar_event_roundtrip p text : calendar_event_to_string enc p = Ok text ->
    calendar_event_sync_payload_from_text d text = Ok p;
  chat_conversation_roundtrip p text : chat_conversation_to_string enc p = Ok text ->
    chat_conversation_sync_payload_from_text d text = Ok p;
  contact_card_roundtrip p text : contact_card_to_string enc p = Ok text ->
    contact_card_sync_payload_from_text d text = Ok p;
  download_metadata_roundtrip p text : download_metadata_to_string enc p = Ok text ->
    download_metadata_sync_payload_from_text d text = Ok p;
  file_entry_roundtrip p text : file_entry_to_string enc p = Ok text ->
    file_entry_sync_payload_from_text d text = Ok p;
  storage_provider_roundtrip p text : storage_provider_to_string enc p = Ok text ->
    storage_provider_sync_payload_from_text d text = Ok p
}.

(** ** The six kinds *)

Definition calendar_kind : AppKind := {|
  ak_payload := CalendarEventSyncPayload; ak_domain := SYNC_DOMAIN_CALENDAR;
  ak_prefix := CALENDAR_EVENT_SYNC_KEY_PREFIX;
  ak_id := ce_event_id; ak_deleted := ce_deleted; ak_table := tbl_calendar_events;
  ak_delete key t := set_tbl_calendar_events (delete key (tbl_calendar_events t)) t;
  ak_decode := calendar_event_sync_payload_from_text;
  ak_encode := calendar_event_to_string;
  ak_valid := fun p => check_or (is_valid_sync_identifier (ce_event_id p))
    (invalid_sync_payload_error ("invalid calendar event id: " +:+ ce_event_id p));
  ak_apply := apply_calendar_event_sync_payload_in_transaction |}.

Definition chat_kind : AppKind := {|
  ak_payload := ChatConversationSyncPayload; ak_domain := SYNC_DOMAIN_CHAT;
  ak_prefix := CHAT_CONVERSATION_SYNC_KEY_PREFIX;
  ak_id := cc_conversation_id; ak_deleted := cc_deleted; ak_table := tbl_chat_conversations;
  ak_delete key t := set_tbl_chat_conversations (delete key (tbl_chat_conversations t)) t;
  ak_decode := chat_conversation_sync_payload_from_text;
  ak_encode := chat_conversation_to_string;
  ak_valid := validate_chat_conversation_sync_payload_for_sql;
  ak_apply := apply_chat_conversation_sync_payload_in_transaction |}.

Definition contact_kind : AppKind := {|
  ak_payload := ContactCardSyncPayload; ak_domain := SYNC_DOMAIN_CONTACTS;
  ak_prefix := CONTACT_CARD_SYNC_KEY_PREFIX;
  ak_id := ct_contact_id; ak_deleted := ct_deleted; ak_table := tbl_contact_cards;
  ak_delete key t := set_tbl_contact_cards (delete key (tbl_contact_cards t)) t;
  ak_decode := contact_card_sync_payload_from_text;
  ak_encode := contact_card_to_string;
  ak_valid := fun p => check_or (is_valid_sync_identifier (ct_contact_id p))
    (invalid_sync_payload_error ("invalid contact id: " +:+ ct_contact_id p));
  ak_apply := apply_contact_card_sync_payload_in_transaction |}.

Definition download_kind : AppKind := {|
  ak_payload := DownloadMetadataSyncPayload; ak_domain := SYNC_DOMAIN_DOWNLOADS;
  ak_prefix := DOWNLOAD_METADATA_SYNC_KEY_PREFIX;
  ak_id := dm_download_id; ak_deleted := dm_deleted; ak_table := tbl_downloads;
  ak_delete key t := set_tbl_downloads (delete key (tbl_downloads t)) t;
  ak_decode := download_metadata_sync_payload_from_text;
  ak_encode := download_metadata_to_string;
  ak_valid := validate_download_metadata_sync_payload_for_sql;
  ak_apply := apply_download_metadata_sync_payload_in_transaction |}.

Definition file_kind : AppKind := {|
  ak_payload := FileEntrySyncPayload; ak_domain := SYNC_DOMAIN_FILES;
  ak_prefix := FILE_ENTRY_SYNC_KEY_PREFIX;
  ak_id := fe_entry_id; ak_deleted := fe_deleted; ak_table := tbl_file_entries;
  ak_delete key t := set_tbl_file_entries (delete key (tbl_file_entries t)) t;
  ak_decode := file_entry_sync_payload_from_text;
  ak_encode := file_entry_to_string;
  ak_valid := validate_file_entry_sync_payload_for_sql;
  ak_apply := apply_file_entry_sync_payload_in_transaction |}.

Definition provider_kind : AppKind := {|
  ak_payload := StorageProviderSyncPayload; ak_domain := SYNC_DOMAIN_STORAGE;
  ak_prefix := STORAGE_PROVIDER_SYNC_KEY_PREFIX;
  ak_id := sp_provider_id; ak_deleted := sp_deleted; ak_table := tbl_storage_providers;
  ak_delete key t := set_tbl_storage_providers (delete key (tbl_storage_providers t)) t;
  ak_decode := storage_provider_sync_payload_from_text;
  ak_encode := storage_provider_to_string;
  ak_valid := validate_storage_provider_sync_payload_for_sql;
  ak_apply := apply_storage_provider_sync_payload_in_transaction |}.

Definition app_kinds : list AppKind :=
  [calendar_kind; chat_kind; contact_kind; download_kind; file_kind; provider_kind].

(** ** Their laws *)

Lemma check_or_Ok {E} (b : bool) (e : E) u : check_or b e = Ok u <-> b = true.
Proof. destruct b, u; simpl; naive_solver. Qed.

Lemma check_key_Ok expected c message u :
  check_key expected c message = Ok u <-> in_key c = expected.
Proof. unfold check_key. by rewrite check_or_Ok, str_eqb_eq. Qed.

(** The chain of views of a change of one domain. *)
Lemma view_when_here domain prefix c f t :
  in_domain c = domain -> starts_with prefix (in_key c) = true ->
  view_when domain prefix c f t = f t.
Proof. intros Hd Hp. unfold view_when. by rewrite Hd, str_eqb_refl, Hp. Qed.

Lemma view_when_elsewhere domain prefix c f t :
  str_eqb (in_domain c) domain = false -> view_when domain prefix c f t = Ok t.
Proof. intros Hd. unfold view_when. by rewrite Hd. Qed.

(** A view keeps the tables its payload does not name. *)
Lemma view_when_keeps {T} (tbl : AppTables -> T) domain prefix c f t t' :
  (forall u u', f u = Ok u' -> tbl u' = tbl u) ->
  view_when domain prefix c f t = Ok t' -> tbl t' = tbl t.
Proof. intros Hf. unfold view_when. case_match; [apply Hf|by intros [= ->]]. Qed.

Lemma result_bind_Ok {E A B} (r : result E A) (f : A -> result E B) b :
  (let? a := r in f a) = Ok b <-> exists a, r = Ok a /\ f a = Ok b.
Proof. destruct r; naive_solver. Qed.

Lemma result_check_Ok {E A B} (r : result E A) (r' : result E B) b :
  (check? r in r') = Ok b <-> is_ok r = true /\ r' = Ok b.
Proof. destruct r; simpl; naive_solver. Qed.

(** Invert a successful view step by step. *)
Ltac invert_views :=
  repeat match goal with
  | H : (let? _ := _ in _) = Ok _ |- _ =>
      let t := fresh "t" in let Hv := fresh "Hv" in
      apply result_bind_Ok in H as (t & Hv & H)
  end.

(** The view of a change of one kind is that kind's step. *)
Ltac view_elsewhere Hd :=
  repeat (rewrite view_when_elsewhere by (by rewrite Hd); cbv beta iota).
Ltac view_of_domain Hd :=
  match goal with |- ?v = _ <-> _ => eassert (v = _) as -> end;
  [ unfold apply_sync_setting_materialized_view_in_transaction; cbv zeta;
    rewrite Hd, andb_false_r; view_elsewhere Hd; rewrite view_when_here by done;
    match goal with
    | |- (let? _ := ?r in view_when _ _ _ _ _) = ?x => unify x r
    | |- (let? _ := ?r in (let? _ := _ in _)) = ?x => unify x r
    | |- ?r = ?x => unify x r
    end;
    first [ reflexivity
          | match goal with
            | |- (let? _ := ?r in _) = ?r => destruct r; [|reflexivity]; cbv beta iota
            end; view_elsewhere Hd; reflexivity ]
  | ].

(** From the equation of the step to the law [ak_view]. *)
Ltac solve_ak_view :=
  split;
  [ intros H; apply result_bind_Ok in H as (p & Hdec & H);
    apply result_check_Ok in H as [Hval H]; apply result_check_Ok in H as [Hkey H];
    exists p; split_and!;
    [ exact Hdec
    | simpl; match type of Hval with is_ok ?r = true => destruct r as [[]|?] end;
      [reflexivity|done]
    | match type of Hkey with is_ok ?r = true =>
        destruct r eqn:Hk; [by apply check_key_Ok in Hk|done] end
    | exact H ]
  | intros (p & Hdec & Hval & Hkey & H); apply result_bind_Ok; exists p; split; [exact Hdec|];
    apply result_check_Ok; split; [simpl in Hval; by rewrite Hval|]; apply result_check_Ok;
    split; [|exact H]; unfold check_key; rewrite Hkey; simpl; by rewrite str_eqb_refl ].

(** The step of a payload, down to its statements. *)
Ltac unfold_apply := unfold
  apply_bookmark_slot_sync_payload_in_transaction, apply_calendar_event_sync_payload_in_transaction,
  apply_chat_conversation_sync_payload_in_transaction, apply_contact_card_sync_payload_in_transaction,
  apply_download_metadata_sync_payload_in_transaction, apply_file_entry_sync_payload_in_transaction,
  apply_storage_provider_sync_payload_in_transaction, upsert_calendar_event_in_transaction,
  upsert_chat_conversation_in_transaction, upsert_contact_card_in_transaction,
  upsert_download_metadata_in_transaction, upsert_file_entry_in_transaction,
  upsert_storage_provider_in_transaction in *.

(** A successful step of another kind keeps the table. *)
Ltac step_keeps :=
  let u := fresh "u" in let u' := fresh "u'" in let H := fresh "H" in
  intros u u' H;
  repeat first [ let p := fresh "p" in let Hp := fresh "Hp" in
                 apply result_bind_Ok in H as (p & Hp & H); clear Hp
               | let Hc := fresh "Hc" in apply result_check_Ok in H as [Hc H]; clear Hc ];
  unfold_apply;
  repeat match type of H with
  | (if ?b then _ else _) = _ => destruct b
  | (check? _ in _) = _ => apply result_check_Ok in H as [_ H]
  end; simplify_eq; reflexivity.

(** The view of a change of another kind, step by step. *)
Ltac solve_ak_view_other tbl :=
  intros d c now t t' Hk H; unfold of_kind in Hk; simpl in *;
  unfold apply_sync_setting_materialized_view_in_transaction in H; cbv zeta in H; invert_views;
  repeat match goal with
  | Hv : view_when _ _ _ _ _ = Ok _ |- _ =>
      first [ apply (view_when_keeps tbl) in Hv; [|step_keeps]
            | unfold view_when in Hv; rewrite Hk in Hv; injection Hv as <- ]
  end;
  match goal with
  | Hv : tbl _ = tbl (if ?b then ?u else t) |- _ =>
      assert (tbl (if b then u else t) = tbl t) by (destruct b; reflexivity); congruence
  end.

(** The laws that only look at the step. *)
Ltac solve_ak_step :=
  intros; unfold put_payload; simpl in *; unfold_apply; repeat case_match; simplify_eq; reflexivity.

(** The size an upsert converts is one the validation has converted. *)
Ltac solve_ak_apply_valid :=
  intros profile p now t Hv; simpl in *; unfold_apply;
  match goal with |- is_ok (if ?b then _ else _) = true => destruct b; [reflexivity|] end;
  first [ reflexivity
        | match goal with |- is_ok (check? ?r in _) = true =>
            destruct r as [?|?] eqn:Hr; [reflexivity|];
            unfold validate_download_metadata_sync_payload_for_sql,
              validate_file_entry_sync_payload_for_sql,
              validate_storage_provider_sync_payload_for_sql in Hv; rewrite Hr in Hv;
            repeat match type of Hv with (check? ?c in _) = _ => destruct c; [|done] end; done
          end ].

Ltac solve_ak_delete_absent :=
  intros key t Hk; simpl in *; rewrite delete_id by done; by destruct t.

#[export] Instance calendar_laws : AppKindLaws calendar_kind.
Proof.
  split; [|solve_ak_view_other tbl_calendar_events|solve_ak_step|solve_ak_step
          |solve_ak_apply_valid|solve_ak_delete_absent|done|done].
  intros d c now t t' [Hd%str_eqb_eq Hp]%andb_true_iff. simpl in Hd, Hp.
  view_of_domain Hd. solve_ak_view.
Qed.

#[export] Instance chat_laws : AppKindLaws chat_kind.
Proof.
  split; [|solve_ak_view_other tbl_chat_conversations|solve_ak_step|solve_ak_step
          |solve_ak_apply_valid|solve_ak_delete_absent|done|done].
  intros d c now t t' [Hd%str_eqb_eq Hp]%andb_true_iff. simpl in Hd, Hp.
  view_of_domain Hd. solve_ak_view.
Qed.

#[export] Instance contact_laws : AppKindLaws contact_kind.
Proof.
  split; [|solve_ak_view_other tbl_contact_cards|solve_ak_step|solve_ak_step
          |solve_ak_apply_valid|solve_ak_delete_absent|done|done].
  intros d c now t t' [Hd%str_eqb_eq Hp]%andb_true_iff. simpl in Hd, Hp.
  view_of_domain Hd. solve_ak_view.
Qed.

#[export] Instance download_laws : AppKindLaws download_kind.
Proof.
  split; [|solve_ak_view_other tbl_downloads|solve_ak_step|solve_ak_step
          |solve_ak_apply_valid|solve_ak_delete_absent|done|done].
  intros d c now t t' [Hd%str_eqb_eq Hp]%andb_true_iff. simpl in Hd, Hp.
  view_of_domain Hd. solve_ak_view.
Qed.

#[export] Instance file_laws : AppKindLaws file_kind.
Proof.
  split; [|solve_ak_view_other tbl_file_entries|solve_ak_step|solve_ak_step
          |solve_ak_apply_valid|solve_ak_delete_absent|done|done].
  intros d c now t t' [Hd%str_eqb_eq Hp]%andb_true_iff. simpl in Hd, Hp.
  view_of_domain Hd. solve_ak_view.
Qed.

#[export] Instance provider_laws : AppKindLaws provider_kind.
Proof.
  split; [|solve_ak_view_other tbl_storage_providers|solve_ak_step|solve_ak_step
          |solve_ak_apply_valid|solve_ak_delete_absent|done|done].
  intros d c now t t' [Hd%str_eqb_eq Hp]%andb_true_iff. simpl in Hd, Hp.
  view_of_domain Hd. solve_ak_view.
Qed.

Lemma app_kinds_laws k : k ∈ app_kinds -> AppKindLaws k.
Proof. unfold app_kinds. rewrite !elem_of_cons, elem_of_nil. intros Hk. destruct_or?; subst; apply _. Qed.
