(* ===== verification/SyncLww.v ===== *)
(** * The settings store implements last-writer-wins

    The abstract specification of the store of [SyncStore.v]: the value of an
    entity is that of the accepted change with the greatest (clock, device,
    sequence) stamp among the changes the replica has made or received.  The
    invariant [store_ok] relates the change log to the current values; the
    histories of a replica are the runs of a step relation over the store's
    public operations. *)
From S2P Require Import Prelude RustStr AppViews Database SyncStore.

(** ** Specification *)

Definition entity : Type := string * string * string.
Definition ch_entity (r : SyncChangeRecord) : entity :=
  (ch_profile r, ch_domain r, ch_entity_key r).
Definition in_entity (c : IncomingSyncSettingText) : entity :=
  (in_profile c, in_domain c, in_key c).

(** The change a log row records, as other devices receive it. *)
Definition change_of (r : SyncChangeRecord) : IncomingSyncSettingText := {|
  in_profile := ch_profile r; in_domain := ch_domain r; in_key := ch_entity_key r;
  in_value := ch_payload r; in_device_id := ch_device_id r;
  in_device_sequence := ch_device_sequence r; in_logical_clock := ch_logical_clock r |}.

Definition entity_eqb (e e' : entity) : bool := bool_decide (e = e').

(** The value of an entity after the changes [l] in any order. *)
Definition lww_value (d : PayloadDecoders) (l : list IncomingSyncSettingText) (e : entity) :
    option string :=
  option_map in_value
    (select_max incoming_stamp
       (List.filter (fun c => view_accepts d c && entity_eqb (in_entity c) e) l)).

(** A device never reuses a sequence number for another change. *)
Definition change_id_of (c : IncomingSyncSettingText) : string * string * Z :=
  (in_profile c, in_device_id c, in_device_sequence c).
Definition consistent (l : list IncomingSyncSettingText) : Prop :=
  forall c c', c ∈ l -> c' ∈ l -> change_id_of c = change_id_of c' -> c = c'.

(** ** Histories of a replica *)

(** One public operation of the store, with the changes it adds to what the
    replica has made or received.  A local write stores a payload of the codec of
    its domain, which the domain's view accepts. *)
Inductive replica_step (d : PayloadDecoders) (device : string) :
    ProfileDb -> list IncomingSyncSettingText -> ProfileDb -> Prop :=
  | step_write profile domain key value now db db' r :
      set_sync_setting_text device profile domain key value now db = (db', Ok r) ->
      view_accepts d (change_of r) = true ->
      replica_step d device db [change_of r] db'
  | step_write_error profile domain key value now db db' e :
      set_sync_setting_text device profile domain key value now db = (db', Err e) ->
      replica_step d device db [] db'
  | step_receive c now db db' r :
      apply_sync_setting_text d c now db = (db', r) ->
      replica_step d device db [c] db'.

Inductive replica_history (d : PayloadDecoders) (device : string) :
    ProfileDb -> list IncomingSyncSettingText -> Prop :=
  | history_start : replica_history d device empty_db []
  | history_step db l k db' :
      replica_history d device db l -> replica_step d device db k db' ->
      replica_history d device db' (k ++ l).

(** ** The invariant of the store *)

Definition change_key (r : SyncChangeRecord) : string * string * Z :=
  (ch_profile r, ch_device_id r, ch_device_sequence r).

Definition winner (e : entity) (db : ProfileDb) : option SyncChangeRecord :=
  sync_setting_winner_in_transaction e.1.1 e.1.2 e.2 db.

Record store_ok (db : ProfileDb) : Prop := {
  (** [UNIQUE(profile, device_id, device_sequence)] *)
  ok_unique r r' : r ∈ db_changes db -> r' ∈ db_changes db ->
    change_key r = change_key r' -> r = r';
  ok_ids r : r ∈ db_changes db -> ch_id r <= db_change_seq db;
  ok_operation r : r ∈ db_changes db -> ch_operation r = "set_text";
  (** a row that was not applied has lost to the winner of its entity *)
  ok_dominated r : r ∈ db_changes db ->
    exists w, winner (ch_entity r) db = Some w /\ rust_le (change_stamp r) (change_stamp w);
  (** the current values are those of the winners *)
  ok_values e : option_map sv_value (db_values db !! e) = option_map ch_payload (winner e db)
}.

(** ** Lemmas on the log *)

Definition candidate (e : entity) (r : SyncChangeRecord) : bool :=
  winner_candidate e.1.1 e.1.2 e.2 r.

Lemma candidate_spec e r :
  candidate e r = true <->
  ch_entity r = e /\ ch_operation r = "set_text" /\ is_Some (ch_applied_at r).
Proof.
  destruct e as [[p dom] k]. unfold candidate, winner_candidate, ch_entity. simpl.
  rewrite !andb_true_iff, !str_eqb_eq.
  split.
  - intros [[[[-> ->] ->] ->] H]. destruct (ch_applied_at r); naive_solver.
  - intros ([= -> -> ->] & -> & [x ->]). done.
Qed.

Lemma winner_unfold e db :
  winner e db = select_max change_order (List.filter (candidate e) (db_changes db)).
Proof. done. Qed.

Lemma winner_Some e db w :
  winner e db = Some w ->
  w ∈ db_changes db /\ candidate e w = true /\
  forall r, r ∈ db_changes db -> candidate e r = true -> rust_le (change_stamp r) (change_stamp w).
Proof.
  intros [Hin Hle]%select_max_Some. apply elem_of_filter_bool in Hin as [Hc Hin].
  split_and!; [done|done|]. intros r Hr Hrc.
  specialize (Hle r). rewrite elem_of_filter_bool in Hle. specialize (Hle (conj Hrc Hr)).
  rewrite rust_le_cases. apply rust_le_cases in Hle. destruct Hle as [[= ???]|Hlt].
  - left. unfold change_stamp. congruence.
  - unfold change_order in Hlt. rewrite rust_cmp_pair in Hlt.
    unfold then_cmp in Hlt. change (ch_logical_clock r, ch_device_id r, ch_device_sequence r)
      with (change_stamp r) in Hlt.
    change (ch_logical_clock w, ch_device_id w, ch_device_sequence w)
      with (change_stamp w) in Hlt.
    destruct (rust_cmp (change_stamp r) (change_stamp w)) eqn:E; [|by right|done].
    left. by apply rust_cmp_eq.
Qed.

Lemma winner_None e db :
  winner e db = None <-> forall r, r ∈ db_changes db -> candidate e r = false.
Proof.
  rewrite winner_unfold, select_max_None. split.
  - intros Hf r Hr. destruct (candidate e r) eqn:E; [|done].
    assert (Hin : r ∈ List.filter (candidate e) (db_changes db)) by by apply elem_of_filter_bool.
    rewrite Hf in Hin. by apply elem_of_nil in Hin.
  - intros Hall. destruct (List.filter _ _) as [|r l] eqn:E; [done|].
    assert (Hin : r ∈ List.filter (candidate e) (db_changes db)) by (rewrite E; left).
    apply elem_of_filter_bool in Hin as [Hc Hin]. by rewrite Hall in Hc.
Qed.

(** The row whose stamp is strictly above those of the other candidates wins. *)
Lemma winner_intro e db w :
  w ∈ db_changes db -> candidate e w = true ->
  (forall r, r ∈ db_changes db -> candidate e r = true -> r <> w ->
     rust_cmp (change_stamp r) (change_stamp w) = Lt) ->
  winner e db = Some w.
Proof.
  intros Hw Hc Hlt. destruct (winner e db) as [x|] eqn:E.
  - apply winner_Some in E as (Hx & Hxc & Hle).
    destruct (decide (x = w)) as [->|Hne]; [done|].
    specialize (Hlt x Hx Hxc Hne). specialize (Hle w Hw Hc).
    rewrite <-rust_cmp_gt_lt in Hlt. by destruct Hle.
  - rewrite winner_None in E. by rewrite E in Hc.
Qed.

Lemma winner_changes e db db' : db_changes db = db_changes db' -> winner e db = winner e db'.
Proof. unfold winner, sync_setting_winner_in_transaction. by intros ->. Qed.

Lemma by_device_sequence_Some p dev n db r :
  sync_change_by_device_sequence_in_transaction p dev n db = Some r ->
  r ∈ db_changes db /\ change_key r = (p, dev, n).
Proof.
  intros [Hr Hk]%list_find_bool_Some. split; [done|].
  rewrite !andb_true_iff, !str_eqb_eq, Z.eqb_eq in Hk.
  unfold change_key. naive_solver.
Qed.

Lemma by_device_sequence_None p dev n db :
  sync_change_by_device_sequence_in_transaction p dev n db = None <->
  forall r, r ∈ db_changes db -> change_key r <> (p, dev, n).
Proof.
  unfold sync_change_by_device_sequence_in_transaction. rewrite list_find_bool_None.
  split; intros H r Hr; specialize (H r Hr).
  - intros [= <- <- <-]. by rewrite !str_eqb_refl, Z.eqb_refl in H.
  - apply not_true_iff_false. rewrite !andb_true_iff, !str_eqb_eq, Z.eqb_eq.
    intros [[<- <-] <-]. by destruct H.
Qed.

Lemma store_ok_ext db db' :
  db_changes db = db_changes db' -> db_change_seq db = db_change_seq db' ->
  db_values db = db_values db' -> store_ok db -> store_ok db'.
Proof.
  intros Hc Hs Hv [H1 H2 H3 H4 H5]. split.
  - by rewrite <-Hc.
  - rewrite <-Hc, <-Hs. auto.
  - rewrite <-Hc. auto.
  - rewrite <-Hc. intros r Hr. rewrite <-(winner_changes _ db db') by done. auto.
  - intros e. rewrite <-Hv, <-(winner_changes _ db db') by done. auto.
Qed.

Lemma store_ok_empty : store_ok empty_db.
Proof. split; [| | | |done]; simpl; intros; exfalso; by eapply not_elem_of_nil. Qed.

(** ** Appending a row *)

(** Both inserts return the row they append. *)
Definition appended (db db' : ProfileDb) (r : SyncChangeRecord) : Prop :=
  db_changes db' = db_changes db ++ [r].

Section Append.
Context (db db' : ProfileDb) (r : SyncChangeRecord).
Hypothesis Hok : store_ok db.
Hypothesis Happ : appended db db' r.
Hypothesis Hseq : db_change_seq db' = ch_id r.
Hypothesis Hid : ch_id r = db_change_seq db + 1.
Hypothesis Hop : ch_operation r = "set_text".
Hypothesis Hfresh : forall r', r' ∈ db_changes db -> change_key r' <> change_key r.

Lemma elem_of_appended r' : r' ∈ db_changes db' <-> r' ∈ db_changes db \/ r' = r.
Proof. by rewrite Happ, elem_of_app, list_elem_of_singleton. Qed.

Lemma winner_other e :
  candidate e r = false -> winner e db' = winner e db.
Proof.
  intros Hc. rewrite !winner_unfold, Happ, filter_bool_app. simpl.
  by rewrite Hc, app_nil_r.
Qed.

(** A row recorded without being applied changes no winner. *)
Lemma append_unapplied_ok :
  ch_applied_at r = None -> db_values db' = db_values db ->
  (exists w, winner (ch_entity r) db = Some w /\ rust_le (change_stamp r) (change_stamp w)) ->
  store_ok db'.
Proof.
  intros Hna Hv Hdom. destruct Hok as [H1 H2 H3 H4 H5].
  assert (Hw : forall e, winner e db' = winner e db).
  { intros e. apply winner_other. apply not_true_iff_false.
    rewrite candidate_spec, Hna. intros (_ & _ & Hs). by apply is_Some_None in Hs. }
  split.
  - intros a b. rewrite !elem_of_appended. intros [Ha| ->] [Hb| ->] Hab; auto;
      exfalso; [by apply (Hfresh a)|by apply (Hfresh b)].
  - intros a. rewrite elem_of_appended. intros [Ha%H2| ->]; lia.
  - intros a. rewrite elem_of_appended. intros [Ha| ->]; auto.
  - intros a. rewrite elem_of_appended, Hw. intros [Ha| ->]; auto.
  - intros e. by rewrite Hv, Hw.
Qed.

(** An applied row with a stamp above the old winner becomes the winner. *)
Lemma append_applied_winner :
  is_Some (ch_applied_at r) ->
  (forall w, winner (ch_entity r) db = Some w ->
     rust_cmp (change_stamp w) (change_stamp r) = Lt) ->
  winner (ch_entity r) db' = Some r.
Proof.
  intros Ha Hwin. apply winner_intro.
  - apply elem_of_appended. by right.
  - by apply candidate_spec.
  - intros x Hx Hc Hne. apply elem_of_appended in Hx as [Hx|?]; [|done].
    destruct (winner (ch_entity r) db) as [w|] eqn:E.
    + specialize (Hwin w eq_refl). apply winner_Some in E as (_ & _ & Hle).
      specialize (Hle x Hx Hc). apply rust_le_cases in Hle as [->|Hle]; [done|].
      by eapply rust_cmp_lt_trans.
    + rewrite winner_None in E. by rewrite E in Hc.
Qed.

Lemma append_applied_ok v :
  is_Some (ch_applied_at r) ->
  db_values db' = <[ch_entity r := v]> (db_values db) -> sv_value v = ch_payload r ->
  (forall w, winner (ch_entity r) db = Some w ->
     rust_cmp (change_stamp w) (change_stamp r) = Lt) ->
  store_ok db'.
Proof.
  intros Ha Hv Hval Hwin. pose proof (append_applied_winner Ha Hwin) as Hw.
  assert (Hoth : forall e, e <> ch_entity r -> winner e db' = winner e db).
  { intros e He. apply winner_other. apply not_true_iff_false.
    rewrite candidate_spec. intros (? & _). congruence. }
  destruct Hok as [H1 H2 H3 H4 H5]. split.
  - intros a b. rewrite !elem_of_appended. intros [Ha'| ->] [Hb| ->] Hab; auto;
      exfalso; [by apply (Hfresh a)|by apply (Hfresh b)].
  - intros a. rewrite elem_of_appended. intros [Ha'%H2| ->]; lia.
  - intros a. rewrite elem_of_appended. intros [Ha'| ->]; auto.
  - intros a. rewrite elem_of_appended. intros [Ha'| ->].
    + destruct (decide (ch_entity a = ch_entity r)) as [Heq|Hne].
      * rewrite Heq. exists r. split; [done|].
        destruct (H4 a Ha') as (w & Hw' & Hle). rewrite Heq in Hw'.
        apply rust_le_cases. right. apply rust_le_cases in Hle as [->|Hle]; [auto|].
        eapply rust_cmp_lt_trans; [exact Hle|]. auto.
      * rewrite Hoth by done. auto.
    + exists r. split; [done|]. apply rust_le_cases. by left.
  - intros e. rewrite Hv. destruct (decide (e = ch_entity r)) as [->|Hne].
    + rewrite lookup_insert_eq, Hw. simpl. by rewrite Hval.
    + rewrite lookup_insert_ne by done. rewrite Hoth by done. auto.
Qed.
End Append.

(** ** The operations preserve the invariant *)

(** What a store operation that appends the change [c] leaves behind. *)
Record logged (db db' : ProfileDb) (c : IncomingSyncSettingText) (r : SyncChangeRecord) : Prop := {
  lg_ok : store_ok db';
  lg_appended : appended db db' r;
  lg_change : change_of r = c
}.

Lemma insert_unapplied_logged db p dom k v dev n clk now w :
  store_ok db ->
  sync_change_by_device_sequence_in_transaction p dev n db = None ->
  winner (p, dom, k) db = Some w -> rust_le (clk, dev, n) (change_stamp w) ->
  exists db' r,
    insert_sync_setting_text_change_record_in_transaction p dom k v dev n clk now None db
      = (db', Ok r) /\
    ch_applied_at r = None /\ db_app db' = db_app db /\
    logged db db' (Build_IncomingSyncSettingText p dom k v dev n clk) r.
Proof.
  intros Hok Hf Hw Hle. unfold insert_sync_setting_text_change_record_in_transaction.
  rewrite Hf. do 2 eexists. split_and!; [done|done|done|]. split; [|done|done].
  rewrite by_device_sequence_None in Hf.
  eapply append_unapplied_ok; try done. simpl. by exists w.
Qed.

Lemma insert_applied_logged db p dom k v dev n clk now :
  store_ok db ->
  sync_change_by_device_sequence_in_transaction p dev n db = None ->
  (forall w, winner (p, dom, k) db = Some w -> rust_cmp (change_stamp w) (clk, dev, n) = Lt) ->
  exists db' r,
    insert_sync_setting_text_change_in_transaction p dom k v dev n clk now db = (db', Ok r) /\
    ch_applied_at r = Some now /\ db_app db' = db_app db /\
    logged db db' (Build_IncomingSyncSettingText p dom k v dev n clk) r /\
    option_map sv_value (get_sync_setting_text p dom k db') = Some v.
Proof.
  intros Hok Hf Hw. unfold insert_sync_setting_text_change_in_transaction, sr_bind.
  unfold insert_sync_setting_text_change_record_in_transaction. rewrite Hf. simpl.
  do 2 eexists. split_and!; [done|done|done| |].
  - split; [|done|done]. rewrite by_device_sequence_None in Hf.
    eapply append_applied_ok; try done.
  - unfold get_sync_setting_text. simpl. by rewrite lookup_insert_eq.
Qed.

Lemma device_sequences_elem p dev db r :
  r ∈ db_changes db -> ch_profile r = p -> ch_device_id r = dev ->
  ch_device_sequence r ∈ device_sequences p dev db.
Proof.
  intros Hr <- <-. unfold device_sequences. apply list_elem_of_fmap_2.
  apply elem_of_filter_bool. by rewrite !str_eqb_refl.
Qed.

Lemma logical_clocks_elem p db r :
  r ∈ db_changes db -> ch_profile r = p -> ch_logical_clock r ∈ logical_clocks p db.
Proof.
  intros Hr <-. unfold logical_clocks. apply list_elem_of_fmap_2.
  apply elem_of_filter_bool. by rewrite !str_eqb_refl.
Qed.

(** The sequence and clock of a local write: the next ones of the device and of
    the profile. *)
Definition local_change (dev p dom k v : string) (n clk : Z) : IncomingSyncSettingText :=
  Build_IncomingSyncSettingText p dom k v dev n clk.

(** A local write is above everything the profile has recorded. *)
Lemma record_local_logged db p dom k v dev now n clk :
  store_ok db ->
  sql_next (device_sequences p dev db) = Ok n -> sql_next (logical_clocks p db) = Ok clk ->
  exists db' r,
    record_sync_setting_text_in_transaction p dom k v dev now db = (db', Ok r) /\
    ch_applied_at r = Some now /\ db_app db' = db_app db /\
    logged db db' (local_change dev p dom k v n clk) r /\
    option_map sv_value (get_sync_setting_text p dom k db') = Some v.
Proof.
  intros Hok Hn Hclk.
  unfold record_sync_setting_text_in_transaction, sr_bind, query, sr_lift. rewrite Hn, Hclk.
  apply insert_applied_logged; [done| |].
  - apply by_device_sequence_None. intros r Hr [= Hp Hd Hs].
    pose proof (sql_next_above _ _ _ Hn (device_sequences_elem _ _ _ _ Hr Hp Hd)). lia.
  - intros w (Hwin & Hc & _)%winner_Some. apply candidate_spec in Hc as ([= Hp _ _] & _).
    pose proof (sql_next_above _ _ _ Hclk (logical_clocks_elem _ _ _ Hwin Hp)) as Hlt.
    unfold change_stamp. rewrite !rust_cmp_pair. unfold rust_cmp at 1, RustOrd_Z.
    apply Z.compare_lt_iff in Hlt. by rewrite Hlt.
Qed.

Lemma record_local_error db p dom k v dev now db' e :
  record_sync_setting_text_in_transaction p dom k v dev now db = (db', Err e) ->
  store_ok db ->
  e = InvalidColumnType 0 /\
  (sql_max (device_sequences p dev db) = Some i64_max \/
   sql_max (logical_clocks p db) = Some i64_max).
Proof.
  intros Hr Hok.
  destruct (sql_next (device_sequences p dev db)) as [n|e1] eqn:En.
  - destruct (sql_next (logical_clocks p db)) as [clk|e2] eqn:Ec.
    + destruct (record_local_logged db p dom k v dev now n clk) as (? & ? & Heq & _); try done.
      congruence.
    + revert Hr. unfold record_sync_setting_text_in_transaction, sr_bind, query, sr_lift.
      rewrite En, Ec. intros [= _ <-]. unfold sql_next in Ec.
      case_match eqn:E; simplify_eq. split; [done|]. right. apply Z.eqb_eq in E.
      destruct (sql_max (logical_clocks p db)); simpl in E; [congruence|done].
  - revert Hr. unfold record_sync_setting_text_in_transaction, sr_bind, query, sr_lift.
    rewrite En. intros [= _ <-]. unfold sql_next in En.
    case_match eqn:E; simplify_eq. split; [done|]. left. apply Z.eqb_eq in E.
    destruct (sql_max (device_sequences p dev db)); simpl in E; [congruence|done].
Qed.

(** The same store with other application tables or devices. *)
Definition same_store (db db' : ProfileDb) : Prop :=
  db_changes db = db_changes db' /\ db_change_seq db = db_change_seq db' /\
  db_values db = db_values db'.

Lemma same_store_ok db db' : same_store db db' -> store_ok db -> store_ok db'.
Proof. intros (? & ? & ?). by apply store_ok_ext. Qed.

Lemma same_store_logged db0 db db' c r :
  same_store db0 db -> logged db db' c r -> logged db0 db' c r.
Proof.
  intros (Hc & _ & _) [H1 H2 H3]. split; [done| |done].
  unfold appended in *. by rewrite Hc.
Qed.

(** The four outcomes of applying a received change. *)
Inductive apply_outcome (d : PayloadDecoders) (c : IncomingSyncSettingText) (now : Z)
    (db db' : ProfileDb) : result StorageError SyncChangeRecord -> Prop :=
  | outcome_replayed r :
      r ∈ db_changes db -> change_key r = change_id_of c -> same_store db db' ->
      db_app db' = db_app db -> apply_outcome d c now db db' (Ok r)
  | outcome_rejected e :
      view_accepts d c = false -> db' = db -> apply_outcome d c now db db' (Err (Database e))
  | outcome_applied r :
      view_accepts d c = true -> ch_applied_at r = Some now -> logged db db' c r ->
      apply_sync_setting_materialized_view_in_transaction d c now (db_app db) = Ok (db_app db') ->
      option_map sv_value (db_values db' !! in_entity c) = Some (in_value c) ->
      apply_outcome d c now db db' (Ok r)
  | outcome_superseded r w :
      winner (in_entity c) db = Some w -> rust_le (incoming_stamp c) (change_stamp w) ->
      ch_applied_at r = None -> db_app db' = db_app db -> logged db db' c r ->
      apply_outcome d c now db db' (Ok r).

Lemma incoming_eta c :
  Build_IncomingSyncSettingText (in_profile c) (in_domain c) (in_key c) (in_value c)
    (in_device_id c) (in_device_sequence c) (in_logical_clock c) = c.
Proof. by destruct c. Qed.

Lemma setting_change_wins_spec c w :
  setting_change_wins c w = true <->
  match w with
  | Some w => rust_cmp (change_stamp w) (incoming_stamp c) = Lt
  | None => True
  end.
Proof.
  destruct w as [w|]; simpl; [|done]. unfold rust_gtb. apply rust_ltb_spec.
Qed.

Lemma device_seen_same_store p dev now db :
  exists db1, record_sync_device_seen_in_transaction p dev now db = (db1, Ok tt) /\
    same_store db db1 /\ db_app db1 = db_app db.
Proof. eexists. by split_and!. Qed.

Lemma apply_outcomes d c now db :
  store_ok db ->
  let '(db', r) := apply_sync_setting_text d c now db in apply_outcome d c now db db' r.
Proof.
  intros Hok. unfold apply_sync_setting_text, database_error, transaction,
    apply_sync_setting_text_in_transaction, sr_bind at 1.
  destruct (device_seen_same_store (in_profile c) (in_device_id c) now db)
    as (db1 & -> & Hs & Ha).
  pose proof (same_store_ok _ _ Hs Hok) as Hok1. unfold sr_bind at 1, query at 1.
  destruct (sync_change_by_device_sequence_in_transaction _ _ _ db1) as [r|] eqn:Hk.
  { apply by_device_sequence_Some in Hk as [Hr Hkey]. simpl.
    destruct Hs as (Hc & Hseq & Hv). rewrite <-Hc in Hr. by apply outcome_replayed. }
  unfold sr_bind at 1, query at 1.
  change (sync_setting_winner_in_transaction (in_profile c) (in_domain c) (in_key c) db1)
    with (winner (in_entity c) db1).
  destruct (setting_change_wins c (winner (in_entity c) db1)) eqn:Hwins.
  - unfold sr_bind at 1, apply_view. pose proof (view_accepts_spec d c now (db_app db1)) as Hacc.
    destruct (apply_sync_setting_materialized_view_in_transaction d c now (db_app db1))
      as [t|e] eqn:Hview; [|by apply outcome_rejected].
    destruct (insert_applied_logged (set_db_app t db1) (in_profile c) (in_domain c) (in_key c)
      (in_value c) (in_device_id c) (in_device_sequence c) (in_logical_clock c) now)
      as (db' & r & -> & Hap & Ht & Hlg & Hv).
    + by eapply store_ok_ext; [..|exact Hok1].
    + done.
    + intros w Hw. rewrite setting_change_wins_spec in Hwins.
      change (winner (in_entity c) db1 = Some w) in Hw. by rewrite Hw in Hwins.
    + rewrite incoming_eta in Hlg. simpl. apply outcome_applied; [done|done| | |exact Hv].
      * eapply same_store_logged; [exact Hs|].
        by eapply same_store_logged; [|exact Hlg].
      * by rewrite Ht, <-Ha.
  - destruct (winner (in_entity c) db1) as [w|] eqn:Hw; [|done].
    destruct (insert_unapplied_logged db1 (in_profile c) (in_domain c) (in_key c)
      (in_value c) (in_device_id c) (in_device_sequence c) (in_logical_clock c) now w)
      as (db' & r & -> & Hap & Ha' & Hlg); [done|done|done| |].
    { apply rust_le_ltb. exact Hwins. }
    rewrite incoming_eta in Hlg. simpl.
    assert (Hw0 : winner (in_entity c) db = Some w).
    { rewrite <-Hw. apply winner_changes. apply Hs. }
    eapply outcome_superseded; [exact Hw0| |done| |].
    + apply rust_le_ltb. exact Hwins.
    + congruence.
    + by eapply same_store_logged.
Qed.

(** The two outcomes of a local write. *)
Lemma set_sync_setting_text_outcomes dev p dom k v now db :
  store_ok db ->
  let '(db', r) := set_sync_setting_text dev p dom k v now db in
  match r with
  | Ok r => exists n clk,
      sql_next (device_sequences p dev db) = Ok n /\ sql_next (logical_clocks p db) = Ok clk /\
      ch_applied_at r = Some now /\ logged db db' (local_change dev p dom k v n clk) r /\
      option_map sv_value (get_sync_setting_text p dom k db') = Some v
  | Err e => db' = db /\ e = Database (InvalidColumnType 0) /\
      (sql_max (device_sequences p dev db) = Some i64_max \/
       sql_max (logical_clocks p db) = Some i64_max)
  end.
Proof.
  intros Hok. unfold set_sync_setting_text, database_error, transaction, sr_bind.
  match goal with
  | |- context [match ?c with _ => _ end] =>
      match c with
      | (if _ then _ else _) db =>
          assert (exists db1, c = (db1, Ok tt) /\ same_store db db1) as (db1 & -> & Hs)
      end
  end.
  { case_match; eexists; by split_and!. }
  pose proof (same_store_ok _ _ Hs Hok) as Hok1.
  assert (device_sequences p dev db = device_sequences p dev db1) as Hds.
  { unfold device_sequences. by destruct Hs as (-> & _). }
  assert (logical_clocks p db = logical_clocks p db1) as Hlc.
  { unfold logical_clocks. by destruct Hs as (-> & _). }
  rewrite Hds, Hlc.
  destruct (record_sync_setting_text_in_transaction p dom k v dev now db1)
    as [db2 [r|e]] eqn:E; simpl.
  - destruct (sql_next (device_sequences p dev db1)) as [n|e] eqn:En;
      [destruct (sql_next (logical_clocks p db1)) as [clk|e] eqn:Ec|].
    + destruct (record_local_logged db1 p dom k v dev now n clk)
        as (db3 & r3 & E3 & H1 & _ & H3 & H4); try done.
      rewrite E3 in E. simplify_eq. exists n, clk. split_and!; try done.
      by eapply same_store_logged.
    + unfold record_sync_setting_text_in_transaction, sr_bind, query, sr_lift in E.
      rewrite En, Ec in E. done.
    + unfold record_sync_setting_text_in_transaction, sr_bind, query, sr_lift in E.
      rewrite En in E. done.
  - apply record_local_error in E as [-> Hmax]; [|done]. done.
Qed.

(** ** What a history leaves in the log *)

Record log_of (d : PayloadDecoders) (db : ProfileDb) (l : list IncomingSyncSettingText) : Prop := {
  lo_ok : store_ok db;
  lo_sound r : r ∈ db_changes db -> change_of r ∈ l;
  lo_applied r : r ∈ db_changes db -> is_Some (ch_applied_at r) ->
    view_accepts d (change_of r) = true;
  lo_complete c : c ∈ l -> view_accepts d c = true ->
    exists r, r ∈ db_changes db /\ change_of r = c
}.

Lemma log_of_extend d db db' l c r :
  log_of d db l -> logged db db' c r ->
  (is_Some (ch_applied_at r) -> view_accepts d c = true) -> log_of d db' (c :: l).
Proof.
  intros [H1 H2 H3 H4] [G1 G2 G3] Hacc. split; [done| | |].
  - intros a. rewrite (elem_of_appended _ _ _ G2). intros [Ha| ->]; [right; auto|].
    rewrite G3. left.
  - intros a. rewrite (elem_of_appended _ _ _ G2). intros [Ha| ->] Hs; [auto|].
    rewrite G3. auto.
  - intros a [->|Ha]%elem_of_cons Hac.
    + exists r. rewrite (elem_of_appended _ _ _ G2). auto.
    + destruct (H4 a Ha Hac) as (r' & ? & ?). exists r'.
      rewrite (elem_of_appended _ _ _ G2). auto.
Qed.

Lemma log_of_same d db db' l :
  same_store db db' -> log_of d db l -> log_of d db' l.
Proof.
  intros Hs [H1 H2 H3 H4]. pose proof (same_store_ok _ _ Hs H1). destruct Hs as (Hc & _).
  rewrite Hc in *. by split.
Qed.

Lemma consistent_app_r k l : consistent (k ++ l) -> consistent l.
Proof. intros Hc c c' H1 H2. apply Hc; set_solver. Qed.

Lemma replica_step_log d dev db k db' l :
  replica_step d dev db k db' -> consistent (k ++ l) -> log_of d db l -> log_of d db' (k ++ l).
Proof.
  intros Hst Hcons Hlog. destruct Hst as [p dom key v now db db1 r E Hacc
    |p dom key v now db db1 e E|c now db db1 r E].
  - pose proof (set_sync_setting_text_outcomes dev p dom key v now db (lo_ok _ _ _ Hlog)) as Ho.
    rewrite E in Ho. destruct Ho as (n & clk & _ & _ & _ & Hlg & _).
    rewrite (lg_change _ _ _ _ Hlg) in Hacc |- *. by eapply log_of_extend.
  - pose proof (set_sync_setting_text_outcomes dev p dom key v now db (lo_ok _ _ _ Hlog)) as Ho.
    rewrite E in Ho. by destruct Ho as (-> & _).
  - pose proof (apply_outcomes d c now db (lo_ok _ _ _ Hlog)) as Ho. rewrite E in Ho. simpl.
    clear E. destruct Ho as [r Hr Hkey Hs _|e Hrej Heq|r Hacc _ Hlg|r w _ _ Hna _ Hlg].
    + apply (log_of_same d db); [done|]. pose proof (lo_sound _ _ _ Hlog r Hr) as Hrl.
      assert (change_of r = c) as <-.
      { apply Hcons; [by right|left|]. exact Hkey. }
      destruct Hlog as [H1 H2 H3 H4]. split; [done| |done|].
      * intros a Ha. right. auto.
      * intros a [->|Ha]%elem_of_cons; eauto.
    + subst db1. destruct Hlog as [H1 H2 H3 H4]. split; [done| |done|].
      * intros a Ha. right. auto.
      * intros a [->|Ha]%elem_of_cons ?; [congruence|auto].
    + by eapply log_of_extend.
    + eapply log_of_extend; [done|done|]. rewrite Hna. intros Hs. by apply is_Some_None in Hs.
Qed.

Lemma replica_history_log d dev db l :
  replica_history d dev db l -> consistent l -> log_of d db l.
Proof.
  induction 1 as [|db l k db2 Hh IH Hst]; intros Hcons.
  - split; [apply store_ok_empty| | |]; simpl; intros ?; intros; exfalso; by eapply not_elem_of_nil.
  - eapply replica_step_log; [done|done|]. apply IH. by eapply consistent_app_r.
Qed.

(** Stamps identify the changes of a profile. *)
Lemma incoming_stamp_inj l c c' :
  consistent l -> c ∈ l -> c' ∈ l -> in_profile c = in_profile c' ->
  incoming_stamp c = incoming_stamp c' -> c = c'.
Proof.
  intros Hcons Hc Hc' Hp [= _ Hd Hn]. apply Hcons; [done|done|].
  unfold change_id_of. congruence.
Qed.

Lemma elem_of_accepted d l e c :
  c ∈ List.filter (fun c => view_accepts d c && entity_eqb (in_entity c) e) l <->
  c ∈ l /\ view_accepts d c = true /\ in_entity c = e.
Proof.
  rewrite elem_of_filter_bool, andb_true_iff. unfold entity_eqb.
  rewrite bool_decide_eq_true. naive_solver.
Qed.

(** The value of an entity when one accepted change is above all the others. *)
Lemma lww_value_Some d l e c :
  consistent l -> c ∈ l -> view_accepts d c = true -> in_entity c = e ->
  (forall c', c' ∈ l -> view_accepts d c' = true -> in_entity c' = e ->
     rust_le (incoming_stamp c') (incoming_stamp c)) ->
  lww_value d l e = Some (in_value c).
Proof.
  intros Hcons Hc Hacc He Hmax. unfold lww_value.
  assert (Hin := proj2 (elem_of_accepted d l e c) (conj Hc (conj Hacc He))).
  destruct (select_max_is_Some incoming_stamp _ _ Hin) as [x Hx]. rewrite Hx. simpl.
  apply select_max_Some in Hx as [Hxin Hxle].
  specialize (Hxle c Hin). apply elem_of_accepted in Hxin as (Hxl & Hxacc & Hxe).
  specialize (Hmax x Hxl Hxacc Hxe).
  rewrite (incoming_stamp_inj l x c); try done.
  - unfold in_entity in *. congruence.
  - by apply rust_le_antisymm.
Qed.

Lemma lww_value_None d l e :
  (forall c, c ∈ l -> view_accepts d c = true -> in_entity c <> e) -> lww_value d l e = None.
Proof.
  intros Hall. unfold lww_value. destruct (select_max _ _) as [c|] eqn:E; [|done].
  apply select_max_Some in E as [(H1 & H2 & H3)%elem_of_accepted _]. by destruct (Hall c).
Qed.

(** The specification depends only on the set of changes. *)
Lemma lww_value_ext d l l' e :
  consistent l -> (forall c, c ∈ l <-> c ∈ l') -> lww_value d l e = lww_value d l' e.
Proof.
  intros Hcons Hll. unfold lww_value at 1. destruct (select_max _ _) as [c|] eqn:E; simpl.
  - apply select_max_Some in E as [(H1 & H2 & H3)%elem_of_accepted Hle].
    symmetry. apply lww_value_Some; [|by apply Hll|done|done|].
    + intros a b Ha Hb. apply Hcons; by apply Hll.
    + intros c' Hc' Hacc He. apply Hle. apply elem_of_accepted. by rewrite Hll.
  - symmetry. apply lww_value_None. intros c Hc Hacc He.
    apply select_max_None in E. apply Hll in Hc.
    assert (Hin := proj2 (elem_of_accepted d l e c) (conj Hc (conj Hacc He))).
    rewrite E in Hin. by apply elem_of_nil in Hin.
Qed.

(** The winner of the log is the specification's. *)
Lemma log_of_value d db l e :
  log_of d db l -> consistent l ->
  option_map sv_value (db_values db !! e) = lww_value d l e.
Proof.
  intros [Hok Hsound Happ Hcomp] Hcons. rewrite (ok_values _ Hok).
  destruct (winner e db) as [w|] eqn:E; simpl.
  - pose proof E as E'. apply winner_Some in E as (Hw & Hc & _).
    apply candidate_spec in Hc as (He & _ & Ha).
    symmetry. apply (lww_value_Some d l e (change_of w)); [done|auto|auto|done|].
    intros c' Hc' Hacc He'. destruct (Hcomp c' Hc' Hacc) as (r & Hr & <-).
    destruct (ok_dominated _ Hok r Hr) as (w' & Hw' & Hle).
    change (ch_entity r = e) in He'. rewrite He' in Hw'. rewrite E' in Hw'. by simplify_eq.
  - symmetry. apply lww_value_None. intros c Hc Hacc He.
    destruct (Hcomp c Hc Hacc) as (r & Hr & <-).
    destruct (ok_dominated _ Hok r Hr) as (w & Hw & _).
    change (ch_entity r = e) in He. congruence.
Qed.

Lemma replica_step_ok d dev db k db' : replica_step d dev db k db' -> store_ok db -> store_ok db'.
Proof.
  intros Hst Hok. destruct Hst as [p dom key v now db db1 r E Hacc
    |p dom key v now db db1 e E|c now db db1 r E].
  1,2: pose proof (set_sync_setting_text_outcomes dev p dom key v now db Hok) as Ho;
    rewrite E in Ho; clear E.
  - by destruct Ho as (n & clk & _ & _ & _ & [? _ _] & _).
  - by destruct Ho as (-> & _).
  - pose proof (apply_outcomes d c now db Hok) as Ho. rewrite E in Ho. clear E.
    destruct Ho as [r Hr Hkey Hs _|e Hrej Heq|r Hacc _ [? _ _]|r w _ _ Hna _ [? _ _]];
      [|by subst|done|done].
    by eapply same_store_ok.
Qed.

(** Receiving a change is a step, whatever its result. *)
Lemma receive_step d dev c now db l :
  replica_history d dev db l ->
  replica_history d dev (apply_sync_setting_text d c now db).1 (c :: l).
Proof.
  intros Hh. apply (history_step d dev db l [c]); [done|].
  eapply step_receive. apply surjective_pairing.
Qed.

(** ** Properties *)

(** C1: (refinement) After any history of local writes, failed writes and received
    changes, in any order and with any repetition, the value the store answers for
    an entity is the last-writer-wins value of the set of changes: that of the
    accepted change with the greatest (clock, device, sequence), and no value when
    there is none. *)
Theorem store_refines_lww d device db l profile domain key :
  replica_history d device db l -> consistent l ->
  option_map sv_value (get_sync_setting_text profile domain key db)
  = lww_value d l (profile, domain, key).
Proof. intros Hh Hcons. apply log_of_value; [by eapply replica_history_log|done]. Qed.

(** C2: (convergence) Two replicas that have made or received the same set of
    changes answer the same value for every entity, however the changes were
    ordered, interleaved with local writes, or redelivered. *)
Theorem replicas_converge d device device' db db' l l' profile domain key :
  replica_history d device db l -> replica_history d device' db' l' ->
  consistent l -> (forall c, c ∈ l <-> c ∈ l') ->
  option_map sv_value (get_sync_setting_text profile domain key db)
  = option_map sv_value (get_sync_setting_text profile domain key db').
Proof.
  intros Hh Hh' Hcons Hll.
  assert (consistent l') by (intros a b Ha Hb; apply Hcons; by apply Hll).
  unfold get_sync_setting_text.
  rewrite (log_of_value d db l), (log_of_value d db' l') by eauto using replica_history_log.
  by apply lww_value_ext.
Qed.

(** C24: (invariant) Every history keeps the store's invariant: log rows unique per
    (profile, device, sequence), row ids below the counter, every row dominated by
    an applied winner of its entity, and the current values those of the winners.
    It holds without any assumption on the received changes. *)
Theorem replica_history_store_ok d device db l :
  replica_history d device db l -> store_ok db.
Proof. induction 1; [apply store_ok_empty|eauto using replica_step_ok]. Qed.

(** Redelivering a change that was answered with a record answers
    the same record and leaves the log, the counters, the values and the
    application tables as they were. *)
Theorem apply_sync_setting_text_idempotent d c now now' db db1 r :
  store_ok db -> apply_sync_setting_text d c now db = (db1, Ok r) ->
  exists db2, apply_sync_setting_text d c now' db1 = (db2, Ok r) /\
    same_store db1 db2 /\ db_app db2 = db_app db1 /\
    db_revisions db2 = db_revisions db1.
Proof.
  intros Hok E. pose proof (apply_outcomes d c now db Hok) as Ho. rewrite E in Ho. clear E.
  assert (store_ok db1 /\ r ∈ db_changes db1 /\ change_key r = change_id_of c)
    as (Hok1 & Hr & Hkey).
  { inversion Ho as [r' Hr Hkey Hs|e Hrej Heq|r' Hacc Hap Hlg|r' w Hw Hle Hap Happ Hlg]; subst.
    1: { destruct Hs as (Hc & Hseq & Hv). rewrite <-Hc.
         split_and!; [by eapply store_ok_ext|done|done]. }
    all: destruct Hlg as [Hok1 Happ' <-]; split_and!; try done;
      apply (elem_of_appended _ _ _ Happ'); by right. }
  clear Ho. unfold apply_sync_setting_text, database_error, transaction,
    apply_sync_setting_text_in_transaction, sr_bind, query.
  unfold record_sync_device_seen_in_transaction, execute.
  set (db2 := set_db_devices _ db1).
  destruct (sync_change_by_device_sequence_in_transaction _ _ _ db2) as [r2|] eqn:Hk.
  - apply by_device_sequence_Some in Hk as [Hr2 Hkey2].
    assert (r2 = r) as -> by (apply (ok_unique _ Hok1); [done|done|by rewrite Hkey]).
    exists db2. by split_and!.
  - rewrite by_device_sequence_None in Hk. by destruct (Hk r).
Qed.

(** A local write succeeds unless the profile's clock or the
    device's sequence has reached the largest [i64]; it takes the next sequence and
    clock, the entity then has the written value, whatever was received before, and
    every change the profile had recorded has a lower stamp.  When it fails it changes nothing. *)
Theorem local_write_wins dev profile domain key value now db :
  store_ok db ->
  let '(db', r) := set_sync_setting_text dev profile domain key value now db in
  match r with
  | Ok r =>
      option_map sv_value (get_sync_setting_text profile domain key db') = Some value /\
      change_of r = local_change dev profile domain key value
        (default 0 (sql_max (device_sequences profile dev db)) + 1)
        (default 0 (sql_max (logical_clocks profile db)) + 1) /\
      db_changes db' = db_changes db ++ [r] /\
      forall r', r' ∈ db_changes db -> ch_profile r' = profile ->
        rust_cmp (change_stamp r') (change_stamp r) = Lt
  | Err e =>
      db' = db /\ e = Database (InvalidColumnType 0) /\
      (sql_max (device_sequences profile dev db) = Some i64_max \/
       sql_max (logical_clocks profile db) = Some i64_max)
  end.
Proof.
  intros Hok. pose proof (set_sync_setting_text_outcomes dev profile domain key value now db Hok).
  destruct (set_sync_setting_text dev profile domain key value now db) as [db' [r|e]]; [|done].
  destruct H as (n & clk & Hn & Hclk & _ & [_ Happ Hch] & Hv).
  assert (n = default 0 (sql_max (device_sequences profile dev db)) + 1) as <-.
  { unfold sql_next in Hn. by case_match; simplify_eq. }
  assert (clk = default 0 (sql_max (logical_clocks profile db)) + 1) as <-.
  { unfold sql_next in Hclk. by case_match; simplify_eq. }
  split_and!; [done|done|done|]. intros r' Hr' Hp.
  pose proof (sql_next_above _ _ _ Hclk (logical_clocks_elem _ _ _ Hr' Hp)) as Hlt.
  change (change_stamp r) with (incoming_stamp (change_of r)). rewrite Hch.
  unfold change_stamp, incoming_stamp. simpl. rewrite !rust_cmp_pair.
  unfold rust_cmp at 1, RustOrd_Z. apply Z.compare_lt_iff in Hlt. by rewrite Hlt.
Qed.

(** A received change is refused only by its materialised view, then
    nothing changes; the log's uniqueness constraint is never the reason.  An
    accepted change is always recorded, or already was. *)
Theorem received_change_total d c now db :
  store_ok db ->
  let '(db', r) := apply_sync_setting_text d c now db in
  match r with
  | Ok r => r ∈ db_changes db' /\ change_key r = change_id_of c
  | Err e => db' = db /\ view_accepts d c = false /\
      exists e', apply_sync_setting_materialized_view_in_transaction d c now (db_app db) = Err e' /\
        e = Database e'
  end.
Proof.
  intros Hok. pose proof (apply_outcomes d c now db Hok) as Ho.
  destruct (apply_sync_setting_text d c now db) as [db' r] eqn:E.
  destruct Ho as [r Hr Hkey (Hc & _)|e Hrej Heq|r Hacc Hap [_ Happ Hch]|r w Hw _ _ _ [_ Happ Hch]];
    [| |subst c|subst c].
  - rewrite <-Hc. done.
  - subst db'. split_and!; [done|done|]. pose proof (view_accepts_spec d c now (db_app db)) as Hv.
    revert E. unfold apply_sync_setting_text, database_error, transaction,
      apply_sync_setting_text_in_transaction, sr_bind, query,
      record_sync_device_seen_in_transaction, execute.
    set (db1 := set_db_devices _ db).
    destruct (sync_change_by_device_sequence_in_transaction _ _ _ db1) as [r|] eqn:Hk; [done|].
    destruct (setting_change_wins c _);
      [|unfold insert_sync_setting_text_change_record_in_transaction; by rewrite Hk].
    change (db_app db) with (db_app db1) in *.
    unfold apply_view.
    destruct (apply_sync_setting_materialized_view_in_transaction d c now (db_app db1)) as [t|e'].
    + simpl in Hv. congruence.
    + intros [= <-]. eauto.
  - split; [|done]. apply (elem_of_appended _ _ _ Happ). by right.
  - split; [|done]. apply (elem_of_appended _ _ _ Happ). by right.
Qed.

(** Once a change carrying the largest clock is in the log, every
    local write of its profile fails and changes nothing: one received change with
    clock 2^63 - 1 ends local writing for the profile. *)
Theorem clock_exhaustion_blocks_writes d c now dev domain key value now' db db1 r :
  store_ok db -> in_logical_clock c = i64_max ->
  Forall (fun r => ch_logical_clock r <= i64_max) (db_changes db) ->
  apply_sync_setting_text d c now db = (db1, Ok r) -> change_of r = c ->
  set_sync_setting_text dev (in_profile c) domain key value now' db1
  = (db1, Err (Database (InvalidColumnType 0))).
Proof.
  intros Hok Hclk HF E <-. pose proof (apply_outcomes d (change_of r) now db Hok) as Ho.
  rewrite E in Ho. clear E.
  assert (store_ok db1 /\ r ∈ db_changes db1 /\
          Forall (fun r => ch_logical_clock r <= i64_max) (db_changes db1)) as (Hok1 & Hr & HF1).
  { inversion Ho as [r' Hr Hkey Hs|e Hrej Heq|r' Hacc Hap Hlg|r' w Hw Hle Hap Happ Hlg]; subst.
    1: { pose proof (same_store_ok _ _ Hs Hok). destruct Hs as (<- & _). done. }
    all: destruct Hlg as [Hok1 Happ' _]; split_and!; [done| |].
    1,3: apply (elem_of_appended _ _ _ Happ'); by right.
    all: rewrite Happ', Forall_app, Forall_singleton; split; [done|];
      change (in_logical_clock (change_of r)) with (ch_logical_clock r) in Hclk; cbv beta; rewrite Hclk; reflexivity. }
  pose proof (set_sync_setting_text_outcomes dev (in_profile (change_of r)) domain key value now'
                db1 Hok1) as Hw.
  destruct (set_sync_setting_text dev (in_profile (change_of r)) domain key value now' db1)
    as [db2 [r2|e]]; [|by destruct Hw as (-> & -> & _)].
  destruct Hw as (n & clk & _ & Hnext & _).
  pose proof (logical_clocks_elem (in_profile (change_of r)) db1 r Hr eq_refl) as Hin.
  pose proof (sql_next_above _ _ _ Hnext Hin) as Hlt.
  change (in_profile (change_of r)) with (ch_profile r) in *. simpl in Hclk.
  unfold sql_next in Hnext. case_match eqn:Em; simplify_eq.
  destruct (sql_max (logical_clocks (ch_profile r) db1)) as [m|] eqn:Hm; simpl in *.
  - apply sql_max_Some in Hm as [Hm _]. unfold logical_clocks in Hm.
    apply list_elem_of_fmap_1 in Hm as (a & -> & [_ Ha]%elem_of_filter_bool).
    rewrite Forall_forall in HF1. specialize (HF1 a Ha).
    apply Z.eqb_neq in Em. exfalso. lia.
  - apply sql_max_None in Hm. rewrite Hm in Hin. by apply elem_of_nil in Hin.
Qed.

(** ** Witnesses *)

(** A decoder that refuses every payload: enough for domains without a view. *)
Definition no_payloads : PayloadDecoders :=
  let refuse {P} (_ : string) : result SqlError P :=
    Err (invalid_sync_payload_error "expected value") in
  Build_PayloadDecoders refuse refuse refuse refuse refuse refuse refuse.

Definition note (value device : string) (sequence clock : Z) : IncomingSyncSettingText :=
  Build_IncomingSyncSettingText "default" "notes" "k" value device sequence clock.

Definition receive (cs : list IncomingSyncSettingText) : ProfileDb :=
  fold_right (fun c db => (apply_sync_setting_text no_payloads c 100 db).1) empty_db cs.

Lemma receive_history dev cs : replica_history no_payloads dev (receive cs) cs.
Proof. induction cs as [|c cs IH]; [constructor|]. by apply receive_step. Qed.

(** A local write after two received changes. *)
Definition written : ProfileDb :=
  (set_sync_setting_text "dev-a" "default" "notes" "k" "mine" 101
     (receive [note "v2" "dev-c" 1 5; note "v1" "dev-b" 1 5])).1.

Lemma written_history :
  replica_history no_payloads "dev-a" written
    [note "mine" "dev-a" 1 6; note "v2" "dev-c" 1 5; note "v1" "dev-b" 1 5].
Proof.
  eapply (history_step _ _ _ _ [_]); [apply receive_history|].
  change (note "mine" "dev-a" 1 6) with (change_of {|
    ch_id := 3; ch_profile := "default"; ch_domain := "notes"; ch_entity_key := "k";
    ch_operation := "set_text"; ch_payload := "mine"; ch_device_id := "dev-a";
    ch_device_sequence := 1; ch_logical_clock := 6; ch_created_at := 101;
    ch_applied_at := Some 101 |}).
  apply (step_write _ _ "default" "notes" "k" "mine" 101); vm_compute; reflexivity.
Qed.

Ltac solve_consistent :=
  intros ? ?; rewrite !elem_of_cons, !elem_of_nil;
  intros ??; destruct_or?; subst; done.

Lemma store_refines_lww_witness :
  option_map sv_value (get_sync_setting_text "default" "notes" "k" written) = Some "mine".
Proof.
  refine (eq_trans (store_refines_lww no_payloads "dev-a" written _ "default" "notes" "k"
                      written_history _) _).
  - solve_consistent.
  - vm_compute. reflexivity.
Defined.

Lemma replicas_converge_witness :
  option_map sv_value (get_sync_setting_text "default" "notes" "k"
    (receive [note "v1" "dev-b" 1 5; note "v2" "dev-c" 1 5]))
  = option_map sv_value (get_sync_setting_text "default" "notes" "k"
      (receive [note "v2" "dev-c" 1 5; note "v1" "dev-b" 1 5; note "v2" "dev-c" 1 5])).
Proof.
  apply (replicas_converge no_payloads "dev-a" "dev-z" _ _ _ _ "default" "notes" "k"
           (receive_history _ _) (receive_history _ _)).
  - solve_consistent.
  - intros c. rewrite !elem_of_cons, !elem_of_nil. naive_solver.
Defined.

Lemma replica_history_store_ok_witness : store_ok written.
Proof. exact (replica_history_store_ok _ _ _ _ written_history). Defined.

Lemma apply_sync_setting_text_idempotent_witness :
  exists r db2, apply_sync_setting_text no_payloads (note "v1" "dev-b" 1 5) 200
    (receive [note "v1" "dev-b" 1 5]) = (db2, Ok r).
Proof.
  destruct (apply_sync_setting_text_idempotent no_payloads (note "v1" "dev-b" 1 5) 100 200
    empty_db (receive [note "v1" "dev-b" 1 5])
    {| ch_id := 1; ch_profile := "default"; ch_domain := "notes"; ch_entity_key := "k";
       ch_operation := "set_text"; ch_payload := "v1"; ch_device_id := "dev-b";
       ch_device_sequence := 1; ch_logical_clock := 5; ch_created_at := 100;
       ch_applied_at := Some 100 |}) as (db2 & E & _).
  - apply store_ok_empty.
  - vm_compute. reflexivity.
  - eauto.
Defined.

Lemma local_write_wins_witness :
  option_map sv_value (get_sync_setting_text "default" "notes" "k" written) = Some "mine".
Proof.
  pose proof (local_write_wins "dev-a" "default" "notes" "k" "mine" 101
    (receive [note "v2" "dev-c" 1 5; note "v1" "dev-b" 1 5])
    (replica_step_ok _ _ _ _ _ (step_receive _ "dev-a" _ _ _ _ _ (surjective_pairing _))
       (replica_step_ok _ _ _ _ _ (step_receive no_payloads "dev-a" _ _ _ _ _
          (surjective_pairing _)) store_ok_empty))) as H.
  revert H. unfold written. destruct (set_sync_setting_text _ _ _ _ _ _ _) as [db' [r|e]] eqn:E.
  - intros [H _]. exact H.
  - apply (f_equal snd) in E. vm_compute in E. discriminate E.
Defined.

Lemma received_change_total_witness :
  exists db' r, apply_sync_setting_text no_payloads (note "v1" "dev-b" 1 5) 100 empty_db
    = (db', Ok r) /\ r ∈ db_changes db'.
Proof.
  pose proof (received_change_total no_payloads (note "v1" "dev-b" 1 5) 100 empty_db
                store_ok_empty) as H.
  destruct (apply_sync_setting_text no_payloads (note "v1" "dev-b" 1 5) 100 empty_db)
    as [db' [r|e]] eqn:E.
  - exists db', r. split; [reflexivity|apply H].
  - apply (f_equal snd) in E. vm_compute in E. discriminate E.
Defined.

Lemma clock_exhaustion_blocks_writes_witness :
  (set_sync_setting_text "dev-a" "default" "notes" "other" "x" 101
     (receive [note "v1" "dev-b" 1 i64_max])).2 = Err (Database (InvalidColumnType 0)).
Proof.
  refine (f_equal snd (clock_exhaustion_blocks_writes no_payloads (note "v1" "dev-b" 1 i64_max) 100 "dev-a"
    "notes" "other" "x" 101 empty_db (receive [note "v1" "dev-b" 1 i64_max])
    {| ch_id := 1; ch_profile := "default"; ch_domain := "notes"; ch_entity_key := "k";
       ch_operation := "set_text"; ch_payload := "v1"; ch_device_id := "dev-b";
       ch_device_sequence := 1; ch_logical_clock := i64_max; ch_created_at := 100;
       ch_applied_at := Some 100 |} store_ok_empty eq_refl (Forall_nil_2 _) _ eq_refl)).
  vm_compute. reflexivity.
Defined.
