(* ===== verification/AppDataLaws.v ===== *)
(** * Application data follows the settings store

    The rows of the application tables are at every moment the payloads of the current
    values of their settings keys, through local updates and removals, received changes
    and other writes; so two replicas with the same changes show the same application
    data. *)
From S2P Require Import Prelude RustStr AppViews Database SyncStore AppData.
From S2P Require Import AppOps AppKinds SyncLww.

(** ** The invariant *)

Definition app_value (db : ProfileDb) (e : entity) : option string :=
  option_map sv_value (db_values db !! e).

(** The payload a value stands for: none when it is missing or a tombstone. *)
Definition live (k : AppKind) (d : PayloadDecoders) (value : option string) :
    option (ak_payload k) :=
  match value with
  | Some text =>
      match ak_decode k d text with
      | Ok p => if ak_deleted k p then None else Some p
      | Err _ => None
      end
  | None => None
  end.

Definition app_entity (k : AppKind) (profile id : string) : entity :=
  (profile, ak_domain k, ak_prefix k +:+ id).

Record app_ok (d : PayloadDecoders) (db : ProfileDb) : Prop := {
  ap_store : store_ok db;
  ap_rows k (profile id : string) : k ∈ app_kinds ->
    row_payload <$> ak_table k (db_app db) !! (profile, id)
    = live k d (app_value db (app_entity k profile id));
  ap_valid k (profile id : string) row : k ∈ app_kinds ->
    ak_table k (db_app db) !! (profile, id) = Some row ->
    ak_id k (row_payload row) = id /\ ak_valid k (row_payload row) = Ok tt
}.

(** A change recorded and applied to the tables. *)
Definition table_step (d : PayloadDecoders) (k : AppKind) (c : IncomingSyncSettingText)
    (t t' : AppTables) : Prop :=
  if of_kind k (in_domain c) (in_key c)
  then exists now p, ak_decode k d (in_value c) = Ok p /\ ak_valid k p = Ok tt /\
    in_key c = ak_prefix k +:+ ak_id k p /\
    ak_table k t' = put_payload k (in_profile c) p now (ak_table k t)
  else ak_table k t' = ak_table k t.

Record recorded (d : PayloadDecoders) (db db' : ProfileDb) (c : IncomingSyncSettingText) :
    Prop := {
  rc_row : exists r, logged db db' c r /\ is_Some (ch_applied_at r);
  rc_accepts : view_accepts d c = true;
  rc_value : app_value db' (in_entity c) = Some (in_value c);
  rc_tables k : k ∈ app_kinds -> table_step d k c (db_app db) (db_app db')
}.

(** A step that touches neither the store nor the keyed tables. *)
Record quiet (db db' : ProfileDb) : Prop := {
  qt_store : same_store db db';
  qt_tables k : k ∈ app_kinds -> ak_table k (db_app db') = ak_table k (db_app db)
}.

(** ** Its preservation *)

Lemma of_kind_entity k id : of_kind k (ak_domain k) (ak_prefix k +:+ id) = true.
Proof.
  unfold of_kind. rewrite str_eqb_refl. unfold starts_with. by rewrite strip_prefix_app.
Qed.

(** Only the entity of the recorded change has a new value. *)
Lemma logged_other_values db db' c r e :
  store_ok db -> logged db db' c r -> e <> in_entity c -> app_value db' e = app_value db e.
Proof.
  intros Hok [Hok' Happ <-] He. unfold app_value. rewrite (ok_values _ Hok), (ok_values _ Hok').
  f_equal. rewrite !winner_unfold, Happ, filter_bool_app. simpl.
  destruct (candidate e r) eqn:Hc; [|by rewrite app_nil_r].
  apply candidate_spec in Hc as [Hc _]. by destruct He.
Qed.

Lemma logged_unapplied_values db db' c r e :
  store_ok db -> logged db db' c r -> ch_applied_at r = None -> app_value db' e = app_value db e.
Proof.
  intros Hok [Hok' Happ _] Ha. unfold app_value. rewrite (ok_values _ Hok), (ok_values _ Hok').
  f_equal. rewrite !winner_unfold, Happ, filter_bool_app. simpl.
  destruct (candidate e r) eqn:Hc; [|by rewrite app_nil_r].
  apply candidate_spec in Hc as (_ & _ & Hs). rewrite Ha in Hs. by apply is_Some_None in Hs.
Qed.

Lemma put_payload_lookup k profile p now rows key :
  row_payload <$> put_payload k profile p now rows !! key
  = if bool_decide (key = (profile, ak_id k p))
    then (if ak_deleted k p then None else Some p) else row_payload <$> rows !! key.
Proof.
  unfold put_payload, upsert_row. case_bool_decide as Hk.
  - subst. destruct (ak_deleted k p); [by rewrite lookup_delete_eq|by rewrite lookup_insert_eq].
  - destruct (ak_deleted k p); [by rewrite lookup_delete_ne|by rewrite lookup_insert_ne].
Qed.

Lemma put_payload_valid k profile p now rows key row :
  ak_valid k p = Ok tt -> put_payload k profile p now rows !! key = Some row ->
  (key = (profile, ak_id k p) /\ row_payload row = p) \/ rows !! key = Some row.
Proof.
  intros Hv. unfold put_payload, upsert_row. destruct (decide (key = (profile, ak_id k p))) as [->|Hk].
  - destruct (ak_deleted k p); [by rewrite lookup_delete_eq|].
    rewrite lookup_insert_eq. intros [= <-]. by left.
  - destruct (ak_deleted k p); [rewrite lookup_delete_ne by done|rewrite lookup_insert_ne by done];
      by right.
Qed.

Lemma recorded_app_ok d db db' c : app_ok d db -> recorded d db db' c -> app_ok d db'.
Proof.
  intros [Hok Hrows Hvalid] [(r & Hlg & _) _ Hval Htab]. split.
  - apply Hlg.
  - intros k profile id Hk. specialize (Htab k Hk). unfold table_step in Htab.
    destruct (of_kind k (in_domain c) (in_key c)) eqn:Hof.
    + destruct Htab as (now & p & Hdec & Hv & Hkey & ->). rewrite put_payload_lookup.
      apply andb_true_iff in Hof as [Hdom%str_eqb_eq _].
      case_bool_decide as Hid.
      * injection Hid as -> ->. assert (app_entity k (in_profile c) (ak_id k p) = in_entity c) as ->.
        { unfold app_entity, in_entity. congruence. }
        rewrite Hval. simpl. by rewrite Hdec.
      * rewrite Hrows by done. f_equal. symmetry. eapply logged_other_values; [done|done|].
        unfold app_entity, in_entity. rewrite Hkey. intros [= -> _ Hi%prefix_inj]. congruence.
    + rewrite Htab, Hrows by done. f_equal. symmetry. eapply logged_other_values; [done|done|].
      unfold app_entity, in_entity. intros [= _ Hd Hi].
      by rewrite <-Hd, <-Hi, of_kind_entity in Hof.
  - intros k profile id row Hk. specialize (Htab k Hk). unfold table_step in Htab.
    destruct (of_kind k (in_domain c) (in_key c)); [|rewrite Htab; eauto].
    destruct Htab as (now & p & _ & Hv & _ & ->).
    intros [[[= -> ->] <-]|?]%put_payload_valid; [|eauto|done]. done.
Qed.

Lemma quiet_app_ok d db db' : app_ok d db -> quiet db db' -> app_ok d db'.
Proof.
  intros [Hok Hrows Hvalid] [Hs Ht]. split.
  - by eapply same_store_ok.
  - intros k profile id Hk. rewrite Ht, Hrows by done. unfold app_value.
    by destruct Hs as (_ & _ & ->).
  - intros k profile id row Hk. rewrite Ht by done. eauto.
Qed.

(** ** The shape of the operations

    The six updates and the six removals are instances of two functions; the theorems
    are proved of these. *)

Section Shapes.
Context (enc : PayloadEncoders) (dev : string) (k : AppKind).

Definition update_shape {R} (valid : result StorageError unit) (profile : string)
    (p : ak_payload k) (read : sql R) (now : Z) : storage R :=
  do* sr_lift valid in
  let* text := sr_lift (map_err EncodeSyncPayload (ak_encode k enc p)) in
  transaction (
    do* database_error (app_statement (ak_apply k profile p now)) in
    do* database_error (record_sync_setting_text_in_transaction profile (ak_domain k)
          (ak_prefix k +:+ ak_id k p) text dev now) in
    database_error read).

Definition remove_shape {R} (valid : result StorageError unit) (profile id : string)
    (from_row : AppRow (ak_payload k) -> result SqlError R) (tombstone : R -> ak_payload k)
    (now : Z) : storage unit :=
  do* sr_lift valid in
  transaction (
    let* removed := database_error (optional (query_row from_row
                      (fun db => ak_table k (db_app db) !! (profile, id)))) in
    do* execute (fun db => set_db_app (ak_delete k (profile, id) (db_app db)) db) in
    match removed with
    | None => sr_ret tt
    | Some record =>
        let* text := sr_lift (map_err EncodeSyncPayload (ak_encode k enc (tombstone record))) in
        do* database_error (record_sync_setting_text_in_transaction profile (ak_domain k)
              (ak_prefix k +:+ ak_id k (tombstone record)) text dev now) in
        sr_ret tt
    end).
End Shapes.

(** ** Views and tables *)

Lemma app_kinds_domain k k' :
  k ∈ app_kinds -> k' ∈ app_kinds -> ak_domain k = ak_domain k' -> k = k'.
Proof.
  unfold app_kinds. rewrite !elem_of_cons, !elem_of_nil.
  intros Hk Hk'. destruct_or?; subst; done.
Qed.

Lemma ak_roundtrip `{PayloadCodec d enc} k p text :
  k ∈ app_kinds -> ak_encode k enc p = Ok text -> ak_decode k d text = Ok p.
Proof.
  unfold app_kinds. rewrite !elem_of_cons, !elem_of_nil. intros Hk.
  destruct_or?; subst; apply H || done.
Qed.

(** An accepted change steps the tables of every kind. *)
Lemma view_table_step d c now t t' k :
  k ∈ app_kinds -> apply_sync_setting_materialized_view_in_transaction d c now t = Ok t' ->
  table_step d k c t t'.
Proof.
  intros Hk Hv. pose proof (app_kinds_laws k Hk) as Hlaws. unfold table_step.
  destruct (of_kind k (in_domain c) (in_key c)) eqn:Hof; [|by eapply ak_view_other].
  apply ak_view in Hv as (p & Hd & Hva & Hkey & Ha); [|done].
  exists now, p. split_and!; [done|done|done|]. by apply ak_apply_table.
Qed.

(** A change recorded and applied as the views of other replicas will apply it. *)
Lemma view_recorded d db db' c r now :
  logged db db' c r -> is_Some (ch_applied_at r) ->
  apply_sync_setting_materialized_view_in_transaction d c now (db_app db) = Ok (db_app db') ->
  app_value db' (in_entity c) = Some (in_value c) -> recorded d db db' c.
Proof.
  intros Hlg Ha Hv Hval. split; [eauto| |done|].
  - rewrite <-(view_accepts_spec d c now (db_app db)). by rewrite Hv.
  - intros k Hk. by eapply view_table_step.
Qed.

(** What recording a local change leaves: the change, its value, the same tables. *)
Lemma record_local_ok p dom key v dev now db db' r :
  store_ok db ->
  record_sync_setting_text_in_transaction p dom key v dev now db = (db', Ok r) ->
  exists c, in_entity c = (p, dom, key) /\ in_value c = v /\ in_device_id c = dev /\
    logged db db' c r /\ is_Some (ch_applied_at r) /\ db_app db' = db_app db /\
    app_value db' (in_entity c) = Some (in_value c).
Proof.
  intros Hok E.
  destruct (sql_next (device_sequences p dev db)) as [n|e] eqn:En;
    [destruct (sql_next (logical_clocks p db)) as [clk|e] eqn:Ec|].
  - destruct (record_local_logged db p dom key v dev now n clk)
      as (db1 & r1 & E1 & Ha & Happ & Hlg & Hv); try done.
    rewrite E1 in E. injection E as <- <-. exists (local_change dev p dom key v n clk).
    split_and!; try done.
  - exfalso. revert E. unfold record_sync_setting_text_in_transaction, sr_bind, query, sr_lift.
    by rewrite En, Ec.
  - exfalso. revert E. unfold record_sync_setting_text_in_transaction, sr_bind, query, sr_lift.
    by rewrite En.
Qed.

Lemma set_db_app_same_store t db : same_store db (set_db_app t db).
Proof. done. Qed.

(** ** Steps of the shapes *)

(** What an operation leaves: nothing changed, nothing that counts changed, or one change
    recorded and applied. *)
Inductive app_outcome (d : PayloadDecoders) (db db' : ProfileDb) : Prop :=
  | outcome_quiet : quiet db db' -> app_outcome d db db'
  | outcome_recorded c : recorded d db db' c -> app_outcome d db db'.

Lemma quiet_refl db : quiet db db.
Proof. by split. Qed.

Section ShapeLaws.
Context (d : PayloadDecoders) (enc : PayloadEncoders) `{Hcodec : PayloadCodec d enc}.
Context (dev : string) (k : AppKind) (Hk : k ∈ app_kinds).

Lemma kind_view p profile c now t t' :
  in_profile c = profile -> in_domain c = ak_domain k -> in_key c = ak_prefix k +:+ ak_id k p ->
  ak_encode k enc p = Ok (in_value c) -> ak_valid k p = Ok tt ->
  ak_apply k profile p now t = Ok t' ->
  apply_sync_setting_materialized_view_in_transaction d c now t = Ok t'.
Proof.
  intros <- Hd Hkey Henc Hv Ha. pose proof (app_kinds_laws k Hk) as Hlaws.
  apply ak_view; [rewrite Hd, Hkey; by apply of_kind_entity|].
  exists p. split_and!; [by eapply ak_roundtrip|done|done|done].
Qed.

Lemma update_shape_outcome {R} valid profile p (read : sql R) now db :
  app_ok d db -> (valid = Ok tt -> ak_valid k p = Ok tt) -> (forall db, (read db).1 = db) ->
  let '(db', r) := update_shape enc dev k valid profile p read now db in
  match r with
  | Ok _ => exists c, recorded d db db' c /\ in_entity c = app_entity k profile (ak_id k p) /\
      ak_decode k d (in_value c) = Ok p
  | Err _ => db' = db
  end.
Proof.
  intros Hok Hvalid Hread. unfold update_shape, sr_bind at 1, sr_lift at 1.
  destruct valid as [[]|e]; [|done]. unfold sr_bind at 1, sr_lift at 1.
  destruct (ak_encode k enc p) as [text|e] eqn:Henc; [|done]. cbn [map_err].
  match goal with |- context [transaction ?m db] =>
    destruct (transaction m db) as [db' [a|e]] eqn:E end; [|by apply transaction_err in E].
  rewrite transaction_ok in E.
  apply sr_bind_ok in E as (db1 & [] & E1 & E). apply sr_bind_ok in E as (db2 & r & E2 & E).
  rewrite database_error_ok in E1. rewrite database_error_ok in E2.
  rewrite database_error_ok in E. unfold app_statement in E1.
  destruct (ak_apply k profile p now (db_app db)) as [t|e] eqn:Ha; [|done].
  injection E1 as <-. pose proof (Hread db2) as Hdb. rewrite E in Hdb. simpl in Hdb. subst db'.
  apply record_local_ok in E2 as (c & He & Hv & _ & Hlg & Hs & Happ & Hval);
    [|eapply same_store_ok; [apply set_db_app_same_store|apply Hok]].
  exists c. split_and!; [|done|rewrite Hv; by eapply ak_roundtrip].
  injection He as Hp Hd Hkey.
  eapply view_recorded; [eapply same_store_logged; [|exact Hlg]; done|done| |done].
  rewrite Happ. eapply kind_view; [done|done|done|by rewrite Hv|by apply Hvalid|exact Ha].
Qed.

(** The tombstone of a record keeps the row's identifier and validity. *)
Definition tombstone_of {R} (from_row : AppRow (ak_payload k) -> result SqlError R)
    (tombstone : R -> ak_payload k) : Prop :=
  forall row record, from_row row = Ok record ->
    ak_id k (tombstone record) = ak_id k (row_payload row) /\
    ak_deleted k (tombstone record) = true /\
    (ak_valid k (row_payload row) = Ok tt -> ak_valid k (tombstone record) = Ok tt).

Lemma optional_query_row {P R} (from_row : AppRow P -> result SqlError R) select db db' o :
  optional (query_row from_row select) db = (db', Ok o) ->
  db' = db /\ match o with
              | Some record => exists row, select db = Some row /\ from_row row = Ok record
              | None => select db = None \/
                  exists row, select db = Some row /\ from_row row = Err QueryReturnedNoRows
              end.
Proof.
  unfold optional, query_row, query, sr_bind, sr_lift.
  destruct (select db) as [row|]; simpl; [|intros [= <- <-]; eauto].
  destruct (from_row row) as [record|[]] eqn:E; intros [= <- <-]; eauto.
Qed.

Lemma remove_shape_outcome {R} valid profile id (from_row : AppRow (ak_payload k) -> result _ R)
    tombstone now db :
  app_ok d db -> tombstone_of from_row tombstone ->
  (forall row, from_row row <> Err QueryReturnedNoRows) ->
  let '(db', r) := remove_shape enc dev k valid profile id from_row tombstone now db in
  match r with
  | Ok _ =>
      (ak_table k (db_app db) !! (profile, id) = None /\ db' = db) \/
      exists c p, recorded d db db' c /\ in_entity c = app_entity k profile id /\
        ak_decode k d (in_value c) = Ok p /\ ak_deleted k p = true
  | Err _ => db' = db
  end.
Proof.
  intros Hok Htomb Hrows. pose proof (app_kinds_laws k Hk) as Hlaws.
  unfold remove_shape, sr_bind at 1, sr_lift at 1. destruct valid as [[]|e]; [|done].
  match goal with |- context [transaction ?m db] =>
    destruct (transaction m db) as [db' [a|e]] eqn:E end; [|by apply transaction_err in E].
  rewrite transaction_ok in E. apply sr_bind_ok in E as (db0 & o & Eo & E).
  rewrite database_error_ok in Eo. apply optional_query_row in Eo as [-> Ho].
  apply sr_bind_ok in E as (db1 & [] & E1 & E). injection E1 as <-.
  destruct o as [record|].
  - right. destruct Ho as (row & Hrow & Hrec).
    destruct (ap_valid _ _ Hok k profile id row Hk Hrow) as [Hid Hvalid].
    destruct (Htomb row record Hrec) as (Hid' & Hdel & Hval').
    apply sr_bind_ok in E as (db1 & text & E1 & E). unfold sr_lift in E1.
    destruct (ak_encode k enc (tombstone record)) as [text'|e] eqn:Henc; [|done].
    injection E1 as <- <-. apply sr_bind_ok in E as (db2 & r & E2 & E). injection E as <- _.
    rewrite database_error_ok in E2.
    apply record_local_ok in E2 as (c & He & Hv & _ & Hlg & Hs & Happ & Hval);
      [|eapply same_store_ok; [apply set_db_app_same_store|apply Hok]].
    exists c, (tombstone record). split_and!; [| |rewrite Hv; by eapply ak_roundtrip|done].
    + injection He as Hp Hd Hkey.
      eapply view_recorded; [eapply same_store_logged; [|exact Hlg]; done|done| |done].
      rewrite Happ. eapply (kind_view (tombstone record)); [done|done|done|by rewrite Hv|auto|].
      rewrite (ak_apply_deleted profile _ now) by done. by rewrite Hid', Hid.
    + rewrite He. unfold app_entity. by rewrite Hid', Hid.
  - left. destruct Ho as [Hnone|(row & _ & Hbad)]; [|by apply Hrows in Hbad].
    injection E as <- _. split; [done|]. rewrite ak_delete_absent by done. by destruct db.
Qed.
End ShapeLaws.
