(* ===== verification/AppHistory.v ===== *)
(** * Histories of application data

    The public operations on application data as steps of one replica, beside the other
    local writes and the changes it receives.  The theorems on its histories: the rows
    of the application tables are at every moment the payloads of the last-writer-wins
    values of their keys, so replicas with the same changes show the same data; and the
    bookmarks, kept by slot and by address at once, are the exception. *)
From S2P Require Import Prelude RustStr AppViews Database SyncStore AppData.
From S2P Require Import AppOps AppKinds SyncLww AppDataLaws.

(** ** Operations *)

Inductive AppOperation :=
  | UpsertCalendarEvent (event : CalendarEventUpdate)
  | RemoveCalendarEvent (profile id : string)
  | UpsertChatConversation (conversation : ChatConversationUpdate)
  | RemoveChatConversation (profile id : string)
  | UpsertContactCard (contact : ContactCardUpdate)
  | RemoveContactCard (profile id : string)
  | RecordDownloadMetadata (download : DownloadMetadataUpdate)
  | RemoveDownloadMetadata (profile id : string)
  | UpsertFileEntry (entry : FileEntryUpdate)
  | RemoveFileEntry (profile id : string)
  | UpsertStorageProvider (provider : StorageProviderUpdate)
  | RemoveStorageProvider (profile id : string)
  | UpsertBookmark (bookmark : BookmarkUpdate)
  | SetBookmarkSlot (bookmark : BookmarkUpdate) (replaced_url : option string)
  | RemoveBookmark (profile url : string)
  | SetSettingText (key value : string)
  | SetSyncSettingText (profile domain key value : string).

Definition run_app_operation (enc : PayloadEncoders) (dev : string) (op : AppOperation) (now : Z)
    (db : ProfileDb) : ProfileDb :=
  match op with
  | UpsertCalendarEvent event => (upsert_calendar_event enc dev event now db).1
  | RemoveCalendarEvent profile id => (remove_calendar_event enc dev profile id now db).1
  | UpsertChatConversation c => (upsert_chat_conversation enc dev c now db).1
  | RemoveChatConversation profile id => (remove_chat_conversation enc dev profile id now db).1
  | UpsertContactCard contact => (upsert_contact_card enc dev contact now db).1
  | RemoveContactCard profile id => (remove_contact_card enc dev profile id now db).1
  | RecordDownloadMetadata download => (record_download_metadata enc dev download now db).1
  | RemoveDownloadMetadata profile id => (remove_download_metadata enc dev profile id now db).1
  | UpsertFileEntry entry => (upsert_file_entry enc dev entry now db).1
  | RemoveFileEntry profile id => (remove_file_entry enc dev profile id now db).1
  | UpsertStorageProvider provider => (upsert_storage_provider enc dev provider now db).1
  | RemoveStorageProvider profile id => (remove_storage_provider enc dev profile id now db).1
  | UpsertBookmark bookmark => (upsert_bookmark bookmark now db).1
  | SetBookmarkSlot bookmark replaced => (set_bookmark_slot enc dev bookmark replaced now db).1
  | RemoveBookmark profile url => (remove_bookmark enc dev profile url now db).1
  | SetSettingText key value => (set_setting_text dev key value now db).1
  | SetSyncSettingText profile domain key value =>
      (set_sync_setting_text dev profile domain key value now db).1
  end.

(** The keys the views of received changes interpret. *)
Definition view_key (domain key : string) : bool :=
  str_eqb domain SYNC_DOMAIN_BOOKMARKS && starts_with BOOKMARK_HOME_SLOT_SYNC_KEY_PREFIX key
  || existsb (fun k => of_kind k domain key) app_kinds.

(** Application data is written through its operations, not as raw settings. *)
Definition op_admissible (op : AppOperation) : bool :=
  match op with
  | SetSyncSettingText _ domain key _ => negb (view_key domain key)
  | _ => true
  end.

(** The changes an operation recorded. *)
Definition new_changes (db db' : ProfileDb) : list IncomingSyncSettingText :=
  map change_of (drop (length (db_changes db)) (db_changes db')).

Inductive app_history (d : PayloadDecoders) (enc : PayloadEncoders) (dev : string) :
    ProfileDb -> list IncomingSyncSettingText -> Prop :=
  | app_start : app_history d enc dev empty_db []
  | app_local db l op now :
      app_history d enc dev db l -> op_admissible op = true ->
      app_history d enc dev (run_app_operation enc dev op now db)
        (new_changes db (run_app_operation enc dev op now db) ++ l)
  | app_receive db l c now :
      app_history d enc dev db l ->
      app_history d enc dev (apply_sync_setting_text d c now db).1 (c :: l).

(** ** The operations as shapes *)

Section Instances.
Context (d : PayloadDecoders) (enc : PayloadEncoders) `{Hcodec : PayloadCodec d enc}.
Context (dev : string).

(** Reads do not write. *)
Lemma query_row_read {P R} (from_row : AppRow P -> result SqlError R) select db :
  (query_row from_row select db).1 = db.
Proof.
  unfold query_row, query, sr_bind, sr_lift. destruct (select db) as [row|]; [|done].
  by destruct (from_row row).
Qed.

(** The outcome of any operation, with the read-back and the kind's key left out. *)
Lemma update_op_outcome {R} k valid profile p (read : sql R) now db :
  k ∈ app_kinds -> app_ok d db -> (valid = Ok tt -> ak_valid k p = Ok tt) ->
  (forall db, (read db).1 = db) ->
  app_outcome d db (update_shape enc dev k valid profile p read now db).1.
Proof.
  intros Hk Hok Hv Hread.
  pose proof (update_shape_outcome d enc dev k Hk valid profile p read now db Hok Hv Hread) as Ho.
  destruct (update_shape enc dev k valid profile p read now db) as [db' [r|e]].
  - destruct Ho as (c & Hrec & _). by eapply outcome_recorded.
  - subst. apply outcome_quiet, quiet_refl.
Qed.

Lemma remove_op_outcome {R} k valid profile id
    (from_row : AppRow (ak_payload k) -> result SqlError R) tombstone now db :
  k ∈ app_kinds -> app_ok d db -> tombstone_of k from_row tombstone ->
  (forall row, from_row row <> Err QueryReturnedNoRows) ->
  app_outcome d db (remove_shape enc dev k valid profile id from_row tombstone now db).1.
Proof.
  intros Hk Hok Ht Hrows.
  pose proof (remove_shape_outcome d enc dev k Hk valid profile id from_row tombstone now db
                Hok Ht Hrows) as Ho.
  destruct (remove_shape enc dev k valid profile id from_row tombstone now db) as [db' [r|e]].
  - destruct Ho as [[_ ->]|(c & p & Hrec & _)]; [apply outcome_quiet, quiet_refl|].
    by eapply outcome_recorded.
  - subst. apply outcome_quiet, quiet_refl.
Qed.
End Instances.

(** A validated update has a payload its view accepts. *)
Ltac solve_valid :=
  simpl; unfold validate_calendar_event_id, validate_chat_conversation_update,
    validate_chat_conversation_id, validate_contact_id, validate_download_metadata_update,
    validate_download_id, validate_file_entry_update, validate_storage_provider_update,
    validate_storage_provider_id, validate_storage_provider_kind, validate_storage_pinning_policy,
    validate_file_entry_id, validate_file_entry_kind, validate_chat_provider_id,
    validate_identifier, validate_option, download_size_to_i64, file_size_to_i64,
    storage_quota_to_i64,
    validate_chat_conversation_sync_payload_for_sql, validate_download_metadata_sync_payload_for_sql,
    validate_file_entry_sync_payload_for_sql, validate_storage_provider_sync_payload_for_sql,
    check_or, check_option, option_try, file_size_to_sql_i64, download_size_to_sql_i64,
    storage_quota_to_sql_i64; simpl; repeat case_match; try done; simplify_eq; done.

(** A tombstone differs from its row in [deleted] alone. *)
Ltac solve_tombstone :=
  intros row record Hrow; simpl in *;
  unfold calendar_event_record_from_row, chat_conversation_record_from_row,
    contact_card_record_from_row, download_metadata_record_from_row, file_entry_record_from_row,
    storage_provider_record_from_row, download_size_from_sql_i64, file_size_from_sql_i64,
    storage_quota_from_sql_i64, u32_from_sql_i64, option_try in Hrow; simpl in Hrow;
  repeat case_match; simplify_eq; split_and!; try done;
  unfold validate_file_entry_sync_payload_for_sql, validate_storage_provider_sync_payload_for_sql;
  simpl; repeat match goal with H : _ (row_payload row) = _ |- _ => rewrite H; clear H end; done.

Ltac solve_row_error :=
  intros row; unfold calendar_event_record_from_row, chat_conversation_record_from_row,
    contact_card_record_from_row, download_metadata_record_from_row, file_entry_record_from_row,
    storage_provider_record_from_row, download_size_from_sql_i64, file_size_from_sql_i64,
    storage_quota_from_sql_i64, u32_from_sql_i64, option_try; simpl; repeat case_match;
  simplify_eq; try done.

Section Outcomes.
Context (d : PayloadDecoders) (enc : PayloadEncoders) `{Hcodec : PayloadCodec d enc}.
Context (dev : string) (db : ProfileDb) (now : Z).
Hypothesis Hok : app_ok d db.

Ltac solve_kind := unfold app_kinds; rewrite !elem_of_cons; tauto.
Ltac solve_update :=
  apply (update_op_outcome d enc dev); [solve_kind|exact Hok|solve_valid|apply query_row_read].
Ltac solve_remove :=
  apply (remove_op_outcome d enc dev); [solve_kind|exact Hok|solve_tombstone|solve_row_error].

Lemma calendar_outcomes :
  (forall event, app_outcome d db (upsert_calendar_event enc dev event now db).1) /\
  (forall p id, app_outcome d db (remove_calendar_event enc dev p id now db).1).
Proof.
  split; intros.
  - change (upsert_calendar_event enc dev event now) with
      (update_shape enc dev calendar_kind (validate_calendar_event_id (ceu_event_id event))
         (ceu_profile event) (calendar_event_update_payload event)
         (calendar_event_record_by_id_in_transaction (ceu_profile event) (ceu_event_id event)) now).
    solve_update.
  - change (remove_calendar_event enc dev p id now) with
      (remove_shape enc dev calendar_kind (validate_calendar_event_id id) p id
         (calendar_event_record_from_row p) calendar_event_tombstone_payload now).
    solve_remove.
Qed.

Lemma chat_outcomes :
  (forall c, app_outcome d db (upsert_chat_conversation enc dev c now db).1) /\
  (forall p id, app_outcome d db (remove_chat_conversation enc dev p id now db).1).
Proof.
  split; intros.
  - change (upsert_chat_conversation enc dev c now) with
      (update_shape enc dev chat_kind (validate_chat_conversation_update c)
         (ccu_profile c) (chat_conversation_update_payload c)
         (chat_conversation_record_by_id_in_transaction (ccu_profile c) (ccu_conversation_id c))
         now).
    solve_update.
  - change (remove_chat_conversation enc dev p id now) with
      (remove_shape enc dev chat_kind (validate_chat_conversation_id id) p id
         (chat_conversation_record_from_row p) chat_conversation_tombstone_payload now).
    solve_remove.
Qed.

Lemma contact_outcomes :
  (forall c, app_outcome d db (upsert_contact_card enc dev c now db).1) /\
  (forall p id, app_outcome d db (remove_contact_card enc dev p id now db).1).
Proof.
  split; intros.
  - change (upsert_contact_card enc dev c now) with
      (update_shape enc dev contact_kind (validate_contact_id (ctu_contact_id c))
         (ctu_profile c) (contact_card_update_payload c)
         (contact_card_record_by_id_in_transaction (ctu_profile c) (ctu_contact_id c)) now).
    solve_update.
  - change (remove_contact_card enc dev p id now) with
      (remove_shape enc dev contact_kind (validate_contact_id id) p id
         (contact_card_record_from_row p) contact_card_tombstone_payload now).
    solve_remove.
Qed.

Lemma download_outcomes :
  (forall x, app_outcome d db (record_download_metadata enc dev x now db).1) /\
  (forall p id, app_outcome d db (remove_download_metadata enc dev p id now db).1).
Proof.
  split; intros.
  - change (record_download_metadata enc dev x now) with
      (update_shape enc dev download_kind (validate_download_metadata_update x)
         (dmu_profile x) (download_metadata_update_payload x)
         (download_metadata_record_by_id_in_transaction (dmu_profile x) (dmu_download_id x)) now).
    solve_update.
  - change (remove_download_metadata enc dev p id now) with
      (remove_shape enc dev download_kind (validate_download_id id) p id
         (download_metadata_record_from_row p) download_metadata_tombstone_payload now).
    solve_remove.
Qed.

Lemma file_outcomes :
  (forall x, app_outcome d db (upsert_file_entry enc dev x now db).1) /\
  (forall p id, app_outcome d db (remove_file_entry enc dev p id now db).1).
Proof.
  split; intros.
  - change (upsert_file_entry enc dev x now) with
      (update_shape enc dev file_kind (validate_file_entry_update x)
         (feu_profile x) (file_entry_update_payload x)
         (file_entry_record_by_id_in_transaction (feu_profile x) (feu_entry_id x)) now).
    solve_update.
  - change (remove_file_entry enc dev p id now) with
      (remove_shape enc dev file_kind (validate_file_entry_id id) p id
         (file_entry_record_from_row p) file_entry_tombstone_payload now).
    solve_remove.
Qed.

Lemma provider_outcomes :
  (forall x, app_outcome d db (upsert_storage_provider enc dev x now db).1) /\
  (forall p id, app_outcome d db (remove_storage_provider enc dev p id now db).1).
Proof.
  split; intros.
  - change (upsert_storage_provider enc dev x now) with
      (update_shape enc dev provider_kind (validate_storage_provider_update x)
         (spu_profile x) (storage_provider_update_payload x)
         (storage_provider_record_by_id_in_transaction (spu_profile x) (spu_provider_id x)) now).
    solve_update.
  - change (remove_storage_provider enc dev p id now) with
      (remove_shape enc dev provider_kind (validate_storage_provider_id id) p id
         (storage_provider_record_from_row p) storage_provider_tombstone_payload now).
    solve_remove.
Qed.

(** ** Bookmarks and settings *)

Lemma of_kind_other_domain k domain key :
  k ∈ app_kinds -> domain ∉ map ak_domain app_kinds -> of_kind k domain key = false.
Proof.
  intros Hk Hd. unfold of_kind. destruct (str_eqb domain (ak_domain k)) eqn:E; [|done].
  apply str_eqb_eq in E as ->. destruct Hd. by apply list_elem_of_fmap_2.
Qed.

(** A change of no kind, recorded beside the same keyed tables. *)
Lemma plain_recorded db0 db' c r :
  same_store db db0 -> logged db0 db' c r -> is_Some (ch_applied_at r) ->
  view_accepts d c = true -> app_value db' (in_entity c) = Some (in_value c) ->
  (forall k, k ∈ app_kinds -> of_kind k (in_domain c) (in_key c) = false /\
     ak_table k (db_app db') = ak_table k (db_app db)) ->
  recorded d db db' c.
Proof.
  intros Hs Hlg Ha Hacc Hval Hk. split; [|done|done|].
  - exists r. split; [|done]. by eapply same_store_logged.
  - intros k Hin. destruct (Hk k Hin) as [Hof Ht]. unfold table_step. by rewrite Hof.
Qed.

Lemma bookmark_view c p t :
  in_domain c = SYNC_DOMAIN_BOOKMARKS -> in_key c = bookmark_home_slot_sync_key (bs_position p) ->
  bookmark_home_slot_sync_payload_from_text d (in_value c) = Ok p ->
  apply_sync_setting_materialized_view_in_transaction d c now t
  = apply_bookmark_slot_sync_payload_in_transaction (in_profile c) p now t.
Proof.
  intros Hd Hk Hdec. unfold apply_sync_setting_materialized_view_in_transaction. cbv zeta.
  rewrite Hd, andb_false_r.
  rewrite view_when_here; [|done|rewrite Hk; apply starts_with_spec; by eexists].
  rewrite Hdec. unfold check_key. rewrite Hk. simpl. rewrite str_eqb_refl. simpl.
  destruct (apply_bookmark_slot_sync_payload_in_transaction (in_profile c) p now t); [|done].
  view_elsewhere Hd. reflexivity.
Qed.

Lemma bookmark_accepted c p :
  in_domain c = SYNC_DOMAIN_BOOKMARKS -> in_key c = bookmark_home_slot_sync_key (bs_position p) ->
  bookmark_slot_to_string enc p = Ok (in_value c) -> view_accepts d c = true.
Proof.
  intros Hd Hk Henc. rewrite <-(view_accepts_spec d c now empty_app_tables).
  rewrite (bookmark_view c p); [|done|done|by eapply bookmark_slot_roundtrip].
  apply apply_bookmark_slot_ok.
Qed.

Lemma bookmarks_keep_kinds b t k :
  k ∈ app_kinds -> ak_table k (set_tbl_bookmarks b t) = ak_table k t.
Proof. intros Hk. apply (ak_bookmarks (AppKindLaws := app_kinds_laws k Hk)). Qed.

Lemma bookmark_other_kind k key : k ∈ app_kinds -> of_kind k SYNC_DOMAIN_BOOKMARKS key = false.
Proof.
  intros Hk. apply of_kind_other_domain; [done|]. simpl. rewrite !not_elem_of_cons.
  split_and!; try done. apply not_elem_of_nil.
Qed.

Lemma set_bookmark_slot_outcome b replaced :
  app_outcome d db (set_bookmark_slot enc dev b replaced now db).1.
Proof.
  unfold set_bookmark_slot, sr_bind at 1, sr_lift at 1, bookmark_home_slot_sync_payload.
  set (p := bookmark_home_slot_payload b replaced).
  destruct (bookmark_slot_to_string enc p) as [text|e] eqn:Henc;
    [|apply outcome_quiet, quiet_refl]. cbn [map_err].
  match goal with |- context [transaction ?m db] =>
    destruct (transaction m db) as [db' [a|e]] eqn:E end;
    [|apply transaction_err in E as ->; apply outcome_quiet, quiet_refl].
  rewrite transaction_ok in E. apply sr_bind_ok in E as (db1 & [] & E1 & E).
  rewrite database_error_ok in E1. injection E1 as <-.
  apply sr_bind_ok in E as (db2 & [] & E2 & E). rewrite database_error_ok in E2.
  apply sr_bind_ok in E as (db3 & r & E3 & E). injection E as <- _.
  cbn [fst].
  rewrite database_error_ok in E3. unfold app_statement, insert_bookmark in E2.
  destruct (existsb _ _); [done|]. injection E2 as <-.
  apply record_local_ok in E3 as (c & He & Hv & _ & Hlg & Hs & Happ & Hval);
    [|eapply same_store_ok; [|apply Hok]; done].
  injection He as Hp Hd Hkey. apply (outcome_recorded _ _ _ c).
  eapply plain_recorded; [|exact Hlg|done| |done|]; [done| |].
  - apply (bookmark_accepted c p); [done|done|by rewrite Hv].
  - intros k Hk. rewrite Hd, bookmark_other_kind, Happ by done. split; [done|]. simpl.
    by rewrite !bookmarks_keep_kinds by done.
Qed.

Lemma remove_bookmark_outcome p url :
  app_outcome d db (remove_bookmark enc dev p url now db).1.
Proof.
  unfold remove_bookmark.
  match goal with |- context [transaction ?m db] =>
    destruct (transaction m db) as [db' [a|e]] eqn:E end;
    [|apply transaction_err in E as ->; apply outcome_quiet, quiet_refl].
  rewrite transaction_ok in E. apply sr_bind_ok in E as (db0 & o & E0 & E).
  injection E0 as <- <-. apply sr_bind_ok in E as (db1 & [] & E1 & E). injection E1 as <-.
  destruct (list_find_bool _ _) as [row|]; simpl in E; cycle 1.
  - injection E as <- _. apply outcome_quiet. split; [done|].
    intros k Hk. by apply bookmarks_keep_kinds.
  - apply sr_bind_ok in E as (db1 & text & E1 & E). unfold sr_lift in E1.
    set (q := removed_bookmark_payload url row) in *.
    destruct (bookmark_slot_to_string enc q) as [text'|e] eqn:Henc; [|done].
    injection E1 as <- <-. apply sr_bind_ok in E as (db2 & r & E2 & E). injection E as <- _.
    cbn [fst]. rewrite database_error_ok in E2.
    apply record_local_ok in E2 as (c & He & Hv & _ & Hlg & Hs & Happ & Hval);
      [|eapply same_store_ok; [|apply Hok]; done].
    injection He as Hp Hd Hkey. apply (outcome_recorded _ _ _ c).
    eapply plain_recorded; [|exact Hlg|done| |done|]; [done| |].
    + apply (bookmark_accepted c q); [done|done|by rewrite Hv].
    + intros k Hk. rewrite Hd, bookmark_other_kind, Happ by done. split; [done|]. simpl.
      by rewrite bookmarks_keep_kinds.
Qed.

Lemma upsert_bookmark_outcome b : app_outcome d db (upsert_bookmark b now db).1.
Proof. apply outcome_quiet. split; [done|]. intros k Hk. by apply bookmarks_keep_kinds. Qed.

Lemma settings_keep_kinds v t k :
  k ∈ app_kinds -> ak_table k (set_tbl_settings v t) = ak_table k t.
Proof. intros Hk. apply (ak_settings (AppKindLaws := app_kinds_laws k Hk)). Qed.

Lemma plain_key_kind k domain key :
  view_key domain key = false -> k ∈ app_kinds -> of_kind k domain key = false.
Proof.
  intros [_ Hv]%orb_false_iff Hk. apply not_true_iff_false. intros Hof.
  apply not_true_iff_false in Hv. destruct Hv. apply existsb_exists. exists k.
  split; [by apply list_elem_of_In|done].
Qed.

(** No view interprets the change: it is accepted. *)
Lemma plain_accepted c : view_key (in_domain c) (in_key c) = false -> view_accepts d c = true.
Proof.
  intros [Hb Hv]%orb_false_iff. simpl in Hv. rewrite !orb_false_iff in Hv.
  destruct Hv as (H1 & H2 & H3 & H4 & H5 & H6 & _).
  unfold of_kind, calendar_kind, chat_kind, contact_kind, download_kind, file_kind,
    provider_kind, ak_domain, ak_prefix in *.
  unfold view_accepts, apply_sync_setting_materialized_view_in_transaction, view_when.
  by rewrite Hb, H1, H2, H3, H4, H5, H6.
Qed.

Lemma set_sync_setting_text_outcome p domain key value :
  view_key domain key = false ->
  app_outcome d db (set_sync_setting_text dev p domain key value now db).1.
Proof.
  intros Hkey. unfold set_sync_setting_text, database_error.
  match goal with |- context [transaction ?m db] =>
    destruct (transaction m db) as [db' [r|e]] eqn:E end; cbn [fst];
    [|apply transaction_err in E as ->; apply outcome_quiet, quiet_refl].
  rewrite transaction_ok in E. apply sr_bind_ok in E as (db0 & [] & E0 & E).
  assert (same_store db db0 /\
    forall k, k ∈ app_kinds -> ak_table k (db_app db0) = ak_table k (db_app db)) as [Hs Ht].
  { destruct (_ && _); injection E0 as <-; [|done]. split; [done|].
    intros k Hk. by apply settings_keep_kinds. }
  apply record_local_ok in E as (c & He & Hv & _ & Hlg & Ha & Happ & Hval);
    [|eapply same_store_ok; [|apply Hok]; done].
  injection He as Hp Hd Hck. apply (outcome_recorded _ _ _ c).
  eapply plain_recorded; [exact Hs|exact Hlg|done| |done|].
  - apply plain_accepted. by rewrite Hd, Hck.
  - intros k Hk. rewrite Hd, Hck, Happ. split; [by apply plain_key_kind|auto].
Qed.

Lemma set_setting_text_outcome key value :
  app_outcome d db (set_setting_text dev key value now db).1.
Proof.
  pose proof (set_sync_setting_text_outcome DEFAULT_PROFILE_ID SYNC_DOMAIN_SETTINGS key value
                eq_refl) as Ho.
  replace (set_setting_text dev key value now db).1 with
    (set_sync_setting_text dev DEFAULT_PROFILE_ID SYNC_DOMAIN_SETTINGS key value now db).1;
    [done|].
  unfold set_setting_text, set_sync_setting_text, database_error, transaction, sr_bind, sr_ret.
  simpl. by destruct (record_sync_setting_text_in_transaction _ _ _ _ _ _ _) as [db' [r|e]].
Qed.

(** ** Steps of a history *)

Lemma run_app_operation_outcome op :
  op_admissible op = true -> app_outcome d db (run_app_operation enc dev op now db).
Proof.
  intros Hop. destruct op; simpl; try apply calendar_outcomes; try apply chat_outcomes;
    try apply contact_outcomes; try apply download_outcomes; try apply file_outcomes;
    try apply provider_outcomes.
  - apply upsert_bookmark_outcome.
  - apply set_bookmark_slot_outcome.
  - apply remove_bookmark_outcome.
  - apply set_setting_text_outcome.
  - apply set_sync_setting_text_outcome. by apply negb_true_iff.
Qed.
End Outcomes.

Lemma app_outcome_ok d db db' : app_ok d db -> app_outcome d db db' -> app_ok d db'.
Proof. intros Hok [Hq|c Hr]; eauto using quiet_app_ok, recorded_app_ok. Qed.

Lemma receive_app_ok d c now db : app_ok d db -> app_ok d (apply_sync_setting_text d c now db).1.
Proof.
  intros Hok. pose proof (apply_outcomes d c now db (ap_store _ _ Hok)) as Ho.
  destruct (apply_sync_setting_text d c now db) as [db' r]. simpl.
  destruct Ho as [r Hr Hkey Hs Happ|e Hrej ->|r Hacc Ha Hlg Hv Hval|r w _ _ Hna Happ Hlg].
  - apply (quiet_app_ok d db); [done|]. split; [done|]. by rewrite Happ.
  - done.
  - eapply recorded_app_ok; [done|]. eapply view_recorded; [done|by rewrite Ha|done|done].
  - destruct Hok as [Hst Hrows Hvalid]. split.
    + apply Hlg.
    + intros k p id Hk. rewrite Happ, Hrows by done. f_equal. symmetry.
      by eapply logged_unapplied_values.
    + rewrite Happ. done.
Qed.

Lemma app_ok_empty d : app_ok d empty_db.
Proof.
  split; [apply store_ok_empty| |].
  - unfold app_kinds. intros k p id Hk. rewrite !elem_of_cons, elem_of_nil in Hk.
    destruct_or?; by subst.
  - unfold app_kinds. intros k p id row Hk. rewrite !elem_of_cons, elem_of_nil in Hk.
    destruct_or?; by subst.
Qed.

(** What an operation records, in the log of the history. *)
Lemma app_outcome_log d db db' l :
  app_outcome d db db' -> log_of d db l -> log_of d db' (new_changes db db' ++ l).
Proof.
  unfold new_changes. intros [[Hs _]|c [(r & Hlg & Ha) Hacc _ _]] Hlog.
  - pose proof Hs as (Hc & _ & _). rewrite <-Hc, drop_all. by eapply log_of_same.
  - rewrite (lg_appended _ _ _ _ Hlg), drop_app_length. simpl.
    rewrite (lg_change _ _ _ _ Hlg). by eapply log_of_extend.
Qed.

Lemma app_history_ok `{PayloadCodec d enc} dev db l : app_history d enc dev db l -> app_ok d db.
Proof.
  induction 1 as [|db l op now Hh IH Hop|db l c now Hh IH].
  - apply app_ok_empty.
  - eapply app_outcome_ok; [done|]. by apply run_app_operation_outcome.
  - by apply receive_app_ok.
Qed.

Lemma app_history_log `{PayloadCodec d enc} dev db l :
  app_history d enc dev db l -> consistent l -> log_of d db l.
Proof.
  induction 1 as [|db l op now Hh IH Hop|db l c now Hh IH]; intros Hcons.
  - split; [apply store_ok_empty| | |]; simpl; intros ?; intros; exfalso;
      by eapply not_elem_of_nil.
  - apply app_outcome_log; [|by eapply IH, consistent_app_r].
    apply run_app_operation_outcome; [done|by eapply app_history_ok|done].
  - eapply (replica_step_log d dev db [c]);
      [eapply step_receive, surjective_pairing|done|by eapply IH, (consistent_app_r [c])].
Qed.

(** ** Properties *)

(** C3: (refinement) After any history of local updates, removals, writes and received
    changes, the row of every calendar event, chat conversation, contact card, download,
    file entry and storage provider is the payload of the last-writer-wins value of its
    key over the set of changes, and there is no row exactly when that value is missing
    or a tombstone. *)
Theorem app_data_refines_lww d enc dev db l k profile id :
  PayloadCodec d enc -> app_history d enc dev db l -> consistent l -> k ∈ app_kinds ->
  row_payload <$> ak_table k (db_app db) !! (profile, id)
  = live k d (lww_value d l (app_entity k profile id)).
Proof.
  intros Hcodec Hh Hcons Hk.
  rewrite (ap_rows d db) by (done || by eapply app_history_ok).
  unfold app_value. by rewrite (log_of_value d db l) by (done || by eapply app_history_log).
Qed.

(** C4: (convergence) Two replicas that have made or received the same set of changes
    hold the same rows, whatever their orders and repetitions and whichever of them made
    which change. *)
Theorem app_data_converges d enc dev dev' db db' l l' k profile id :
  PayloadCodec d enc -> app_history d enc dev db l -> app_history d enc dev' db' l' ->
  consistent l -> (forall c, c ∈ l <-> c ∈ l') -> k ∈ app_kinds ->
  row_payload <$> ak_table k (db_app db) !! (profile, id)
  = row_payload <$> ak_table k (db_app db') !! (profile, id).
Proof.
  intros Hcodec Hh Hh' Hcons Hll Hk.
  assert (consistent l') by (intros a b Ha Hb; apply Hcons; by apply Hll).
  rewrite (ap_rows d db), (ap_rows d db') by (done || by eapply app_history_ok).
  unfold app_value. rewrite (log_of_value d db l), (log_of_value d db' l')
    by (done || by eapply app_history_log).
  by rewrite (lww_value_ext d l l').
Qed.

(** ** Bookmarks *)

(** [c] writes the bookmark [p] to its slot. *)
Record bookmark_change (d : PayloadDecoders) (c : IncomingSyncSettingText)
    (p : BookmarkSlotSyncPayload) : Prop := {
  bc_domain : in_domain c = SYNC_DOMAIN_BOOKMARKS;
  bc_key : in_key c = bookmark_home_slot_sync_key (bs_position p);
  bc_decodes : bookmark_home_slot_sync_payload_from_text d (in_value c) = Ok p;
  bc_kept : bs_deleted p = false
}.

Lemma bookmark_change_accepted d c p : bookmark_change d c p -> view_accepts d c = true.
Proof.
  intros [Hd Hk Hdec _]. rewrite <-(view_accepts_spec d c 0 empty_app_tables).
  rewrite (bookmark_view d 0 c p) by done. apply apply_bookmark_slot_ok.
Qed.

(** A new change of an entity without a value is applied. *)
Lemma receive_bookmark d c p now db :
  store_ok db -> bookmark_change d c p ->
  (forall r, r ∈ db_changes db -> change_key r <> change_id_of c) ->
  winner (in_entity c) db = None ->
  exists r, logged db (apply_sync_setting_text d c now db).1 c r /\
    apply_bookmark_slot_sync_payload_in_transaction (in_profile c) p now (db_app db)
    = Ok (db_app (apply_sync_setting_text d c now db).1).
Proof.
  intros Hok Hc Hnew Hnone. pose proof (apply_outcomes d c now db Hok) as Ho.
  destruct (apply_sync_setting_text d c now db) as [db' r]. simpl.
  destruct Ho as [r Hr Hkey|e Hrej _|r _ _ Hlg Hv _|r w Hw _ _ _ _].
  - by destruct (Hnew r).
  - by rewrite (bookmark_change_accepted d c p) in Hrej.
  - exists r. split; [done|]. destruct Hc as [Hd Hk Hdec _].
    by rewrite <-(bookmark_view d now c p).
  - congruence.
Qed.

Lemma two_bookmarks d c0 c1 p0 p1 now :
  bookmark_change d c0 p0 -> bookmark_change d c1 p1 -> in_profile c0 = in_profile c1 ->
  bs_url p0 = bs_url p1 -> in_key c0 <> in_key c1 -> change_id_of c0 <> change_id_of c1 ->
  map bm_position (tbl_bookmarks (db_app
    (apply_sync_setting_text d c1 now (apply_sync_setting_text d c0 now empty_db).1).1))
  = [bs_position p1].
Proof.
  intros H0 H1 Hp Hurl Hkey Hid.
  destruct (receive_bookmark d c0 p0 now empty_db) as (r0 & [Hok0 Happ0 Hr0] & Hv0);
    [apply store_ok_empty|done|intros r Hr; by apply not_elem_of_nil in Hr|done|].
  set (db0 := (apply_sync_setting_text d c0 now empty_db).1) in *.
  destruct (receive_bookmark d c1 p1 now db0) as (r1 & _ & Hv1); [done|done| | |].
  - rewrite Happ0. intros r ->%list_elem_of_singleton. intros Hk. apply Hid.
    by rewrite <-Hk, <-Hr0.
  - apply winner_None. rewrite Happ0. intros r ->%list_elem_of_singleton.
    apply not_true_iff_false. intros [He _]%candidate_spec. apply Hkey.
    rewrite <-Hr0. change (in_key (change_of r0)) with (ch_entity_key r0).
    unfold ch_entity, in_entity in He. congruence.
  - unfold apply_bookmark_slot_sync_payload_in_transaction in *.
    rewrite (bc_kept _ _ _ H0) in Hv0. rewrite (bc_kept _ _ _ H1) in Hv1. simpl in Hv0.
    injection Hv0 as Hv0. rewrite <-Hv0 in Hv1. simpl in Hv1.
    unfold bookmark_slot_kept in Hv1. simpl in Hv1.
    rewrite Hp, Hurl, !str_eqb_refl, orb_true_r in Hv1. simpl in Hv1. injection Hv1 as <-. done.
Qed.

(** Bookmarks do not converge.  Of two changes that put one address into two
    different slots, a replica keeps the slot of the one it received last, although the
    values of all keys are the same in either order. *)
Theorem bookmark_slots_diverge d c0 c1 p0 p1 now :
  bookmark_change d c0 p0 -> bookmark_change d c1 p1 -> in_profile c0 = in_profile c1 ->
  bs_url p0 = bs_url p1 -> in_key c0 <> in_key c1 -> change_id_of c0 <> change_id_of c1 ->
  let receive c db := (apply_sync_setting_text d c now db).1 in
  let a := receive c1 (receive c0 empty_db) in
  let b := receive c0 (receive c1 empty_db) in
  (forall e, app_value a e = app_value b e) /\
  map bm_position (tbl_bookmarks (db_app a)) = [bs_position p1] /\
  map bm_position (tbl_bookmarks (db_app b)) = [bs_position p0].
Proof.
  intros H0 H1 Hp Hurl Hkey Hid receive a b. split_and!.
  - intros e. unfold app_value, a, b, receive.
    assert (consistent [c1; c0]) as Hcons.
    { intros x y. rewrite !elem_of_cons, !elem_of_nil. intros ?? Hxy.
      destruct_or?; subst; done || by destruct Hid. }
    assert (consistent [c0; c1]) by (intros x y ? ?; apply Hcons; set_solver).
    rewrite (log_of_value d _ [c1; c0]), (log_of_value d _ [c0; c1]); try done.
    + apply lww_value_ext; [done|]. set_solver.
    + apply (replica_history_log d "b"); [|done]. do 2 apply receive_step. constructor.
    + apply (replica_history_log d "a"); [|done]. do 2 apply receive_step. constructor.
  - by apply two_bookmarks with (p0 := p0).
  - apply two_bookmarks with (p0 := p1); done || congruence.
Qed.

(** ** Witnesses *)

(** A codec of one event and its tombstone. *)
Definition meeting (deleted : bool) : CalendarEventSyncPayload := {|
  ce_event_id := "e1"; ce_calendar_id := Some "home"; ce_title := "Meeting"; ce_starts_at := 10;
  ce_ends_at := Some 20; ce_time_zone := None; ce_location := None; ce_notes := None;
  ce_recurrence_rule := None; ce_reminder_minutes := None; ce_deleted := deleted |}.

Definition meeting_update : CalendarEventUpdate := {|
  ceu_profile := "default"; ceu_event_id := "e1"; ceu_calendar_id := Some "home";
  ceu_title := "Meeting"; ceu_starts_at := 10; ceu_ends_at := Some 20; ceu_time_zone := None;
  ceu_location := None; ceu_notes := None; ceu_recurrence_rule := None;
  ceu_reminder_minutes := None |}.

#[export] Instance CalendarEventSyncPayload_eq_dec : EqDecision CalendarEventSyncPayload.
Proof. solve_decision. Defined.

Definition meeting_encoders : PayloadEncoders :=
  let refuse {P} (_ : P) : result string string := Err "not in the fixture" in
  Build_PayloadEncoders refuse
    (fun p => if decide (p = meeting false) then Ok "meeting"
              else if decide (p = meeting true) then Ok "no meeting" else refuse p)
    refuse refuse refuse refuse refuse.

Definition slot (position : Z) : BookmarkSlotSyncPayload := {|
  bs_url := "https://example.org/"; bs_title := None; bs_folder := None;
  bs_position := position; bs_favicon_key := None; bs_replaced_url := None;
  bs_deleted := false |}.

Definition meeting_decoders : PayloadDecoders :=
  let refuse {P} (_ : string) : result SqlError P :=
    Err (invalid_sync_payload_error "expected value") in
  Build_PayloadDecoders
    (fun text => if str_eqb text "slot 0" then Ok (slot 0) else Ok (slot 1))
    (fun text => if str_eqb text "meeting" then Ok (meeting false)
                 else if str_eqb text "no meeting" then Ok (meeting true) else refuse text)
    refuse refuse refuse refuse refuse.

#[export] Instance meeting_codec : PayloadCodec meeting_decoders meeting_encoders.
Proof.
  split; intros p text H; try discriminate H. simpl in H.
  repeat case_match; by simplify_eq.
Qed.

Definition planned : ProfileDb :=
  run_app_operation meeting_encoders "dev-a" (UpsertCalendarEvent meeting_update) 100 empty_db.
Definition cancelled : ProfileDb :=
  run_app_operation meeting_encoders "dev-a" (RemoveCalendarEvent "default" "e1") 101 planned.

Lemma planned_history :
  app_history meeting_decoders meeting_encoders "dev-a" planned (new_changes empty_db planned ++ []).
Proof. by apply app_local; [constructor|]. Qed.

Definition meeting_change (value : string) (sequence : Z) : IncomingSyncSettingText :=
  Build_IncomingSyncSettingText "default" "calendar" "event.e1" value "dev-a" sequence sequence.

Lemma cancelled_history :
  app_history meeting_decoders meeting_encoders "dev-a" cancelled
    [meeting_change "no meeting" 2; meeting_change "meeting" 1].
Proof.
  replace [meeting_change "no meeting" 2; meeting_change "meeting" 1] with
    (new_changes planned cancelled ++ new_changes empty_db planned ++ [])
    by (vm_compute; reflexivity).
  by apply app_local; [apply planned_history|].
Qed.

(** The other device receives the removal first. *)
Definition informed : ProfileDb :=
  (apply_sync_setting_text meeting_decoders (meeting_change "meeting" 1) 200
    (apply_sync_setting_text meeting_decoders (meeting_change "no meeting" 2) 200 empty_db).1).1.

Lemma informed_history :
  app_history meeting_decoders meeting_encoders "dev-b" informed
    [meeting_change "meeting" 1; meeting_change "no meeting" 2].
Proof. do 2 apply app_receive. constructor. Qed.

Lemma app_data_refines_lww_witness :
  row_payload <$> ak_table calendar_kind (db_app planned) !! ("default", "e1") = Some (meeting false).
Proof.
  refine (eq_trans (app_data_refines_lww meeting_decoders meeting_encoders "dev-a" planned
    [meeting_change "meeting" 1] calendar_kind "default" "e1" meeting_codec _ _ _) _).
  - exact planned_history.
  - solve_consistent.
  - left.
  - vm_compute. reflexivity.
Defined.

Lemma app_data_converges_witness :
  row_payload <$> ak_table calendar_kind (db_app cancelled) !! ("default", "e1")
  = row_payload <$> ak_table calendar_kind (db_app informed) !! ("default", "e1").
Proof.
  apply (app_data_converges meeting_decoders meeting_encoders "dev-a" "dev-b" cancelled informed
    _ _ calendar_kind "default" "e1" meeting_codec cancelled_history informed_history).
  - solve_consistent.
  - intros c. rewrite !elem_of_cons, !elem_of_nil. naive_solver.
  - left.
Defined.

Definition slot_change (position : Z) (device : string) : IncomingSyncSettingText :=
  Build_IncomingSyncSettingText "default" "bookmarks" (bookmark_home_slot_sync_key position)
    ("slot " +:+ show position) device 1 1.

Lemma bookmark_slots_diverge_witness :
  map bm_position (tbl_bookmarks (db_app
    (apply_sync_setting_text meeting_decoders (slot_change 1 "dev-b") 100
      (apply_sync_setting_text meeting_decoders (slot_change 0 "dev-a") 100 empty_db).1).1)) = [1].
Proof.
  refine (proj1 (proj2 (bookmark_slots_diverge meeting_decoders (slot_change 0 "dev-a")
    (slot_change 1 "dev-b") (slot 0) (slot 1) 100 _ _ eq_refl eq_refl _ _))).
  1, 2: split; vm_compute; reflexivity.
  all: vm_compute; discriminate.
Defined.
