(* ===== verification/SyncCursor.v ===== *)
(** * Polling the revision log

    Application cursors and domain watchers of [crates/storage/src/lib.rs]: a
    cursor is a row of [sync_state] holding the last revision an application has
    acknowledged for a domain; [poll_sync_setting_text_events_for_app_domain]
    answers the next batch of events after it; [AppSyncDomainWatcher] polls,
    hands the batch to the application, and advances the cursor only when the
    application accepted it. *)
From S2P Require Import Prelude RustStr AppViews Database SyncStore SyncLww.

(** ** Cursors *)

Record AppSyncDomainCursorRecord := {
  cu_profile : string;
  cu_domain : string;
  cu_latest_revision : Z;
  cu_updated_at : Z
}.

Definition APP_SYNC_DOMAIN_CURSOR_KEY_PREFIX : string := "app_sync.cursor.".

Definition validate_sync_domain (domain : string) : result StorageError unit :=
  if is_empty domain then Err (InvalidSyncDomain domain) else Ok tt.

Definition app_sync_domain_cursor_key (domain : string) : string :=
  APP_SYNC_DOMAIN_CURSOR_KEY_PREFIX +:+ domain.

Definition app_sync_domain_from_cursor_key (key : string) : result SqlError string :=
  match strip_prefix APP_SYNC_DOMAIN_CURSOR_KEY_PREFIX key with
  | Some domain =>
      if is_empty domain
      then Err (FromSqlConversionFailure 1 TypeText "malformed app sync domain cursor key")
      else Ok domain
  | None => Err (FromSqlConversionFailure 1 TypeText "malformed app sync domain cursor key")
  end.

Definition app_sync_domain_cursor_record_from_row (profile key value : string) (updated_at : Z) :
    result SqlError AppSyncDomainCursorRecord :=
  let? latest_revision := map_err (FromSqlConversionFailure 2 TypeText) (parse_i64 value) in
  let? domain := app_sync_domain_from_cursor_key key in
  Ok {| cu_profile := profile; cu_domain := domain; cu_latest_revision := latest_revision;
        cu_updated_at := updated_at |}.

Definition app_sync_domain_cursor (profile domain : string) :
    storage (option AppSyncDomainCursorRecord) :=
  do* sr_lift (validate_sync_domain domain) in
  let key := app_sync_domain_cursor_key domain in
  let* row := query (fun db => db_state db !! (profile, key)) in
  match row with
  | None => sr_ret None
  | Some (value, updated_at) =>
      let* cursor := sr_lift (map_err Database
                       (app_sync_domain_cursor_record_from_row profile key value updated_at)) in
      sr_ret (Some cursor)
  end.

(** [cursor.map(|cursor| cursor.latest_revision).unwrap_or(0)]. *)
Definition cursor_revision (cursor : option AppSyncDomainCursorRecord) : Z :=
  match cursor with Some cursor => cu_latest_revision cursor | None => 0 end.

Definition record_app_sync_domain_cursor (profile domain : string) (latest_revision now : Z) :
    storage AppSyncDomainCursorRecord :=
  do* sr_lift (validate_sync_domain domain) in
  if latest_revision <? 0 then sr_err (InvalidSyncRevision latest_revision) else
  let key := app_sync_domain_cursor_key domain in
  let* cursor := app_sync_domain_cursor profile domain in
  let stored_revision := Z.max (cursor_revision cursor) latest_revision in
  do* execute (fun db =>
        set_db_state (<[(profile, key) := (show stored_revision, now)]> (db_state db)) db) in
  sr_ret {| cu_profile := profile; cu_domain := domain; cu_latest_revision := stored_revision;
            cu_updated_at := now |}.

Definition ensure_app_sync_domain_cursor_at_domain_head (profile domain : string) (now : Z) :
    storage AppSyncDomainCursorRecord :=
  let* cursor := app_sync_domain_cursor profile domain in
  match cursor with
  | Some cursor => sr_ret cursor
  | None =>
      let* revision := query (latest_sync_revision_for_domain profile domain) in
      record_app_sync_domain_cursor profile domain revision now
  end.

Definition poll_sync_setting_text_events_for_app_domain (profile domain : string)
    (limit now : Z) : storage SyncSettingTextDomainPoll :=
  let* cursor := ensure_app_sync_domain_cursor_at_domain_head profile domain now in
  query (poll_sync_setting_text_events_for_domain profile domain (cu_latest_revision cursor) limit).

Definition record_app_sync_domain_poll_cursor (poll : SyncSettingTextDomainPoll) (now : Z) :
    storage AppSyncDomainCursorRecord :=
  record_app_sync_domain_cursor (poll_profile poll) (poll_domain poll)
    (poll_latest_revision poll) now.

(** ** Typed polls *)

Record TypedSyncSettingTextEvent (T : Type) := {
  tev_revision : SyncRevisionRecord;
  tev_change : SyncChangeRecord;
  tev_value : T
}.
Arguments tev_revision {T}. Arguments tev_change {T}. Arguments tev_value {T}.
Arguments Build_TypedSyncSettingTextEvent {T}.

Record TypedSyncSettingTextDomainPoll (T : Type) := {
  tpoll_profile : string;
  tpoll_domain : string;
  tpoll_previous_revision : Z;
  tpoll_latest_revision : Z;
  tpoll_events : list (TypedSyncSettingTextEvent T)
}.
Arguments tpoll_profile {T}. Arguments tpoll_domain {T}. Arguments tpoll_previous_revision {T}.
Arguments tpoll_latest_revision {T}. Arguments tpoll_events {T}.
Arguments Build_TypedSyncSettingTextDomainPoll {T}.

(** [from_str] stands for [serde_json::from_str::<T>]. *)
Definition poll_typed_sync_setting_text_events_for_app_domain {T}
    (from_str : string -> result string T) (profile domain : string) (limit now : Z) :
    storage (TypedSyncSettingTextDomainPoll T) :=
  let* poll := poll_sync_setting_text_events_for_app_domain profile domain limit now in
  let* events := sr_lift (collect_results (fun event =>
      let? value := map_err DecodeSyncPayload (from_str (ch_payload (ev_change event))) in
      Ok (Build_TypedSyncSettingTextEvent (ev_revision event) (ev_change event) value))
    (poll_events poll)) in
  sr_ret (Build_TypedSyncSettingTextDomainPoll (poll_profile poll) (poll_domain poll)
            (poll_previous_revision poll) (poll_latest_revision poll) events).

Definition record_typed_app_sync_domain_poll_cursor {T} (poll : TypedSyncSettingTextDomainPoll T)
    (now : Z) : storage AppSyncDomainCursorRecord :=
  record_app_sync_domain_cursor (tpoll_profile poll) (tpoll_domain poll)
    (tpoll_latest_revision poll) now.

(** ** The domain watcher *)

Record AppSyncDomainWatcher := { w_profile : string; w_domain : string; w_batch_limit : Z }.

Definition watcher_new (profile domain : string) (batch_limit now : Z) :
    storage AppSyncDomainWatcher :=
  do* ensure_app_sync_domain_cursor_at_domain_head profile domain now in
  sr_ret {| w_profile := profile; w_domain := domain; w_batch_limit := Z.max batch_limit 1 |}.

Definition watcher_current_revision (w : AppSyncDomainWatcher) : storage Z :=
  let* cursor := app_sync_domain_cursor (w_profile w) (w_domain w) in
  sr_ret (cursor_revision cursor).

Definition watcher_poll_once (w : AppSyncDomainWatcher) (now : Z) :
    storage SyncSettingTextDomainPoll :=
  poll_sync_setting_text_events_for_app_domain (w_profile w) (w_domain w) (w_batch_limit w) now.

Definition watcher_acknowledge (poll : SyncSettingTextDomainPoll) (now : Z) :
    storage AppSyncDomainCursorRecord :=
  record_app_sync_domain_poll_cursor poll now.

Inductive AppSyncDomainWatcherApplyError (E : Type) :=
  | WatcherStorage (error : StorageError)
  | WatcherApply (error : E).
Arguments WatcherStorage {E}. Arguments WatcherApply {E}.

(** [apply] is the application's closure, which may use the database itself. *)
Definition watcher_poll_apply_and_acknowledge {E} (w : AppSyncDomainWatcher)
    (apply : SyncSettingTextDomainPoll -> state_result ProfileDb E unit) (now : Z) :
    state_result ProfileDb (AppSyncDomainWatcherApplyError E)
      (SyncSettingTextDomainPoll * AppSyncDomainCursorRecord) :=
  let* poll := sr_map_err WatcherStorage (watcher_poll_once w now) in
  do* sr_map_err WatcherApply (apply poll) in
  let* cursor := sr_map_err WatcherStorage (watcher_acknowledge poll now) in
  sr_ret (poll, cursor).

(** Repeated polls from a revision, at most [fuel] of them, stopping at the first
    empty one: the batches an application sees that acknowledges every poll. *)
Fixpoint drain (profile domain : string) (after limit : Z) (db : ProfileDb) (fuel : nat) :
    list SyncSettingTextEvent :=
  match fuel with
  | O => []
  | S fuel =>
      let poll := poll_sync_setting_text_events_for_domain profile domain after limit db in
      match poll_events poll with
      | [] => []
      | events => events ++ drain profile domain (poll_latest_revision poll) limit db fuel
      end
  end.

(** Every event of a domain after a revision. *)
Definition events_after (profile domain : string) (after : Z) (db : ProfileDb) :
    list SyncSettingTextEvent :=
  List.filter (domain_event profile domain after) (joined_events db).

(** ** The logs are sorted by row id *)

Definition ids_below (ids : list Z) (counter : Z) : Prop :=
  StronglySorted Z.lt ids /\ Forall (fun id => id <= counter) ids.

Definition logs_sorted (db : ProfileDb) : Prop :=
  ids_below (map ch_id (db_changes db)) (db_change_seq db) /\
  ids_below (map rv_revision (db_revisions db)) (db_revision_seq db).

Lemma ids_below_snoc ids counter :
  ids_below ids counter -> ids_below (ids ++ [counter + 1]) (counter + 1).
Proof.
  intros [Hs Hb]. split.
  - apply StronglySorted_app_2; [|done|by repeat constructor].
    intros x1 x2 Hx1 ->%list_elem_of_singleton. rewrite Forall_forall in Hb.
    specialize (Hb x1 Hx1). simpl in Hb. lia.
  - apply Forall_app. split; [|by repeat constructor; lia].
    eapply Forall_impl; [exact Hb|]. intros; simpl in *; lia.
Qed.

Lemma logs_sorted_insert_record p dom k v dev n clk now a :
  preserves logs_sorted
    (insert_sync_setting_text_change_record_in_transaction p dom k v dev n clk now a).
Proof.
  intros db [H1 H2]. unfold insert_sync_setting_text_change_record_in_transaction.
  case_match; [done|]. split; [|done]. simpl. rewrite map_app. by apply ids_below_snoc.
Qed.

Lemma logs_sorted_insert_revision p dom id now :
  preserves logs_sorted (insert_revision p dom id now).
Proof. intros db [H1 H2]. split; [done|]. simpl. rewrite map_app. by apply ids_below_snoc. Qed.

Lemma logs_sorted_insert p dom k v dev n clk now :
  preserves logs_sorted (insert_sync_setting_text_change_in_transaction p dom k v dev n clk now).
Proof.
  unfold insert_sync_setting_text_change_in_transaction. solve_preserves;
    first [apply logs_sorted_insert_record | apply logs_sorted_insert_revision | by intros ? ?].
Qed.

Lemma logs_sorted_record p dom k v dev now :
  preserves logs_sorted (record_sync_setting_text_in_transaction p dom k v dev now).
Proof.
  unfold record_sync_setting_text_in_transaction. solve_preserves. apply logs_sorted_insert.
Qed.

Lemma logs_sorted_set dev p dom k v now :
  preserves logs_sorted (set_sync_setting_text dev p dom k v now).
Proof.
  unfold set_sync_setting_text. solve_preserves; [by intros ? ?|]. apply logs_sorted_record.
Qed.

Lemma logs_sorted_apply d c now : preserves logs_sorted (apply_sync_setting_text d c now).
Proof.
  unfold apply_sync_setting_text, apply_sync_setting_text_in_transaction. solve_preserves.
  - by intros ? ?.
  - intros db Hdb. unfold apply_view. by case_match.
  - apply logs_sorted_insert.
  - apply logs_sorted_insert_record.
Qed.

Lemma replica_history_logs_sorted d dev db l : replica_history d dev db l -> logs_sorted db.
Proof.
  induction 1 as [|db l k db2 Hh IH Hst].
  - split; by repeat constructor.
  - destruct Hst as [p dom key v now db db1 r E _|p dom key v now db db1 e E|c now db db1 r E].
    + pose proof (logs_sorted_set dev p dom key v now db IH) as H. by rewrite E in H.
    + pose proof (logs_sorted_set dev p dom key v now db IH) as H. by rewrite E in H.
    + pose proof (logs_sorted_apply d c now db IH) as H. by rewrite E in H.
Qed.

(** ** Sorted batches *)

Section Batches.
Context {A : Type} (f : A -> Z).

Definition by_key (x y : A) : Prop := f x < f y.

Lemma sorted_low_above (l : list A) c :
  StronglySorted by_key l ->
  l = List.filter (fun x => f x <=? c) l ++ List.filter (fun x => c <? f x) l.
Proof.
  induction 1 as [|x l Hs IH Hx]; simpl; [done|]. rewrite Forall_forall in Hx.
  destruct (Z.ltb_spec c (f x)) as [Hlt|Hle].
  - rewrite (proj2 (Z.leb_gt (f x) c)) by lia.
    rewrite (filter_bool_none (fun x => f x <=? c)), filter_bool_all; [done|..];
      intros y Hy; specialize (Hx y Hy); unfold by_key in Hx; lia.
  - rewrite (proj2 (Z.leb_le (f x) c)) by lia. simpl. by rewrite <-IH.
Qed.

(** In a sorted list, what is above [c] is a batch of its first [n] elements
    followed by what is above the last of them. *)
Lemma filter_above_split (l : list A) c n :
  StronglySorted by_key l ->
  let above := List.filter (fun x => c <? f x) l in
  let batch := take n above in
  let next := match last batch with Some x => f x | None => c end in
  above = batch ++ List.filter (fun x => next <? f x) l.
Proof.
  intros Hs above batch next. pose proof (sorted_low_above l c Hs) as Hl.
  destruct (last batch) as [x|] eqn:Elast.
  2: { unfold next. apply last_None in Elast. unfold batch in Elast |- *. by rewrite Elast. }
  unfold next. clear next. apply last_Some in Elast as [t Ht].
  assert (Hsplit : above = t ++ [x] ++ drop n above).
  { rewrite <-(take_drop n above) at 1. fold batch. by rewrite Ht, <-app_assoc. }
  rewrite <-(take_drop n above) at 1. fold batch. f_equal. fold above in Hl.
  assert (Hx : x ∈ above) by (rewrite Hsplit; set_solver).
  apply elem_of_filter_bool in Hx as [Hx _].
  rewrite Hl in Hs |- *. rewrite Hsplit in Hs. rewrite Hsplit at 2.
  apply StronglySorted_app_1_r in Hs as Hs'.
  rewrite !filter_bool_app, (filter_bool_none _ (List.filter _ l)), (filter_bool_none _ t),
    (filter_bool_all _ (drop n above)); simpl; [by rewrite Z.ltb_irrefl|..].
  - intros y Hy. apply Z.ltb_lt. apply StronglySorted_app_1_r in Hs'.
    apply (StronglySorted_app_1_elem_of _ [x] _ x y Hs'); [by left|done].
  - intros y Hy. apply Z.ltb_ge. assert (by_key y x) as Hyx; [|unfold by_key in Hyx; lia].
    apply (StronglySorted_app_1_elem_of _ t ([x] ++ drop n above) y x Hs'); [done|]. by left.
  - intros y [Hy _]%elem_of_filter_bool. lia.
Qed.
End Batches.

(** ** The joined events *)

Lemma join_at_most_one x (p : SyncChangeRecord -> bool) l :
  StronglySorted Z.lt (map ch_id l) ->
  List.filter (fun c => (ch_id c =? x) && p c) l = [] \/
  exists c, List.filter (fun c => (ch_id c =? x) && p c) l = [c].
Proof.
  induction l as [|c l IH]; simpl; [by left|]. rewrite StronglySorted_cons.
  intros [Hc Hs]. destruct ((ch_id c =? x) && p c) eqn:E; [|auto].
  right. exists c. rewrite filter_bool_none; [done|]. intros c' Hc'.
  rewrite Forall_forall in Hc. specialize (Hc (ch_id c')).
  rewrite list_elem_of_fmap in Hc. apply andb_true_iff in E as [E _].
  assert (ch_id c < ch_id c') by eauto. rewrite (proj2 (Z.eqb_neq (ch_id c') x)) by lia. done.
Qed.

Definition event_revision (e : SyncSettingTextEvent) : Z := rv_revision (ev_revision e).

Lemma joined_events_sorted db :
  logs_sorted db -> StronglySorted (by_key event_revision) (joined_events db).
Proof.
  intros [[Hc _] [Hr _]]. unfold joined_events. revert Hr.
  induction (db_revisions db) as [|r rs IH]; simpl; [constructor|].
  rewrite StronglySorted_cons. intros [Hrs Hs]. apply StronglySorted_app_2; [|..].
  - intros e e' (c & -> & _)%list_elem_of_fmap.
    intros (r' & Hr' & (c' & -> & _)%list_elem_of_In%list_elem_of_fmap)%list_elem_of_In%in_flat_map.
    unfold by_key, event_revision. simpl. rewrite Forall_forall in Hrs.
    apply Hrs. apply list_elem_of_fmap. exists r'. split; [done|]. by apply list_elem_of_In.
  - destruct (join_at_most_one (rv_change_id r)
      (fun c => str_eqb (ch_profile c) (rv_profile r)) _ Hc) as [->|[c ->]];
      by repeat constructor.
  - by apply IH.
Qed.

(** The per-domain filter, with its revision bound last. *)
Definition of_domain (profile domain : string) (e : SyncSettingTextEvent) : bool :=
  str_eqb (rv_profile (ev_revision e)) profile && str_eqb (rv_domain (ev_revision e)) domain
  && str_eqb (ch_domain (ev_change e)) domain && applied_text (ev_change e).

Lemma events_after_above profile domain after db :
  events_after profile domain after db
  = List.filter (fun e => after <? event_revision e)
      (List.filter (of_domain profile domain) (joined_events db)).
Proof.
  rewrite filter_bool_filter. apply filter_bool_ext. intros e _.
  unfold domain_event, of_domain, event_revision.
  destruct (after <? rv_revision (ev_revision e)), (applied_text (ev_change e));
    by rewrite ?andb_true_r, ?andb_false_r.
Qed.

Lemma StronglySorted_filter_bool {A} (R : relation A) (p : A -> bool) l :
  StronglySorted R l -> StronglySorted R (List.filter p l).
Proof.
  induction 1 as [|x l Hs IH Hx]; simpl; [constructor|]. destruct (p x); [|done].
  constructor; [done|]. rewrite Forall_forall in *. intros y [_ Hy]%elem_of_filter_bool. auto.
Qed.

Lemma poll_events_eq profile domain after limit db :
  poll_events (poll_sync_setting_text_events_for_domain profile domain after limit db)
  = take (Z.to_nat limit) (events_after profile domain after db).
Proof. apply sql_limit_take. Qed.

Lemma poll_split profile domain after limit db :
  logs_sorted db ->
  let poll := poll_sync_setting_text_events_for_domain profile domain after limit db in
  events_after profile domain after db
  = poll_events poll ++ events_after profile domain (poll_latest_revision poll) db.
Proof.
  intros Hs poll. rewrite !events_after_above.
  unfold poll. rewrite poll_events_eq, events_after_above.
  erewrite (filter_above_split event_revision _ after (Z.to_nat limit)) at 1;
    [|by apply StronglySorted_filter_bool, joined_events_sorted].
  do 2 f_equal. unfold poll_sync_setting_text_events_for_domain,
    sync_setting_text_events_after_for_domain. rewrite sql_limit_take. simpl.
  fold (events_after profile domain after db). by rewrite events_after_above.
Qed.

(** ** One event per applied change *)

Definition change_ref (c : SyncChangeRecord) : Z * string * string :=
  (ch_id c, ch_profile c, ch_domain c).
Definition revision_ref (r : SyncRevisionRecord) : Z * string * string :=
  (rv_change_id r, rv_profile r, rv_domain r).

(** The revision log lists the applied changes, in order. *)
Definition revisions_paired (db : ProfileDb) : Prop :=
  map revision_ref (db_revisions db)
  = map change_ref (List.filter applied_text (db_changes db)).

Lemma revisions_paired_insert_record p dom k v dev n clk now :
  preserves revisions_paired
    (insert_sync_setting_text_change_record_in_transaction p dom k v dev n clk now None).
Proof.
  intros db H. unfold insert_sync_setting_text_change_record_in_transaction.
  case_match; [done|]. unfold revisions_paired in *. simpl.
  by rewrite filter_bool_app, app_nil_r.
Qed.

Lemma revisions_paired_insert p dom k v dev n clk now :
  preserves revisions_paired
    (insert_sync_setting_text_change_in_transaction p dom k v dev n clk now).
Proof.
  intros db H. unfold insert_sync_setting_text_change_in_transaction, sr_bind,
    insert_sync_setting_text_change_record_in_transaction.
  destruct (sync_change_by_device_sequence_in_transaction p dev n db); [done|].
  unfold revisions_paired in *. simpl.
  by rewrite filter_bool_app, !map_app, H.
Qed.

Lemma revisions_paired_set dev p dom k v now :
  preserves revisions_paired (set_sync_setting_text dev p dom k v now).
Proof.
  unfold set_sync_setting_text, record_sync_setting_text_in_transaction.
  solve_preserves; [by intros ? ?|]. apply revisions_paired_insert.
Qed.

Lemma revisions_paired_apply d c now : preserves revisions_paired (apply_sync_setting_text d c now).
Proof.
  unfold apply_sync_setting_text, apply_sync_setting_text_in_transaction. solve_preserves.
  - by intros ? ?.
  - intros db Hdb. unfold apply_view. by case_match.
  - apply revisions_paired_insert.
  - apply revisions_paired_insert_record.
Qed.

Lemma replica_history_paired d dev db l : replica_history d dev db l -> revisions_paired db.
Proof.
  induction 1 as [|db l k db2 Hh IH Hst]; [done|].
  destruct Hst as [p dom key v now db db1 r E _|p dom key v now db db1 e E|c now db db1 r E].
  - pose proof (revisions_paired_set dev p dom key v now db IH) as H. by rewrite E in H.
  - pose proof (revisions_paired_set dev p dom key v now db IH) as H. by rewrite E in H.
  - pose proof (revisions_paired_apply d c now db IH) as H. by rewrite E in H.
Qed.

(** The change a revision refers to is found by the join. *)
Lemma join_finds r c l :
  StronglySorted Z.lt (map ch_id l) -> c ∈ l -> revision_ref r = change_ref c ->
  List.filter (fun c => (ch_id c =? rv_change_id r) && str_eqb (ch_profile c) (rv_profile r)) l
  = [c].
Proof.
  intros Hs Hc [= Hid Hp Hd].
  assert (Hin : c ∈ List.filter (fun c => (ch_id c =? rv_change_id r)
                                       && str_eqb (ch_profile c) (rv_profile r)) l).
  { apply elem_of_filter_bool. by rewrite Hid, Hp, Z.eqb_refl, str_eqb_refl. }
  destruct (join_at_most_one (rv_change_id r)
    (fun c => str_eqb (ch_profile c) (rv_profile r)) l Hs) as [E|[c' E]];
    rewrite E in Hin |- *.
  - by apply elem_of_nil in Hin.
  - by apply list_elem_of_singleton in Hin as ->.
Qed.

Lemma joined_events_applied db :
  logs_sorted db -> revisions_paired db ->
  map ev_change (joined_events db) = List.filter applied_text (db_changes db).
Proof.
  intros [[Hs _] _] Hp. unfold joined_events. unfold revisions_paired in Hp.
  assert (Hsub : forall c, c ∈ List.filter applied_text (db_changes db) -> c ∈ db_changes db).
  { by intros c [_ ?]%elem_of_filter_bool. }
  revert Hp Hsub. generalize (List.filter applied_text (db_changes db)) as cs.
  induction (db_revisions db) as [|r rs IH]; intros [|c cs] Hp Hsub; simpl; try done.
  injection Hp as Hid Hpr Hd Hp. rewrite (join_finds r c); [|done|apply Hsub; left|].
  - simpl. f_equal. apply IH; [done|]. intros c' Hc'. apply Hsub. by right.
  - unfold revision_ref, change_ref. congruence.
Qed.

Lemma joined_domain db e :
  logs_sorted db -> revisions_paired db -> e ∈ joined_events db ->
  rv_domain (ev_revision e) = ch_domain (ev_change e).
Proof.
  intros [[Hs _] _] Hp He. unfold joined_events in He.
  apply list_elem_of_In, in_flat_map in He as (r & Hr & He).
  apply list_elem_of_In, list_elem_of_fmap in He as (c & -> & Hc). simpl.
  assert (revision_ref r ∈ map change_ref (List.filter applied_text (db_changes db))) as Href.
  { unfold revisions_paired in Hp. rewrite <-Hp. by apply list_elem_of_fmap_2, list_elem_of_In. }
  apply list_elem_of_fmap in Href as (c' & Href & [_ Hc']%elem_of_filter_bool).
  rewrite (join_finds r c' _ Hs Hc' Href) in Hc. apply list_elem_of_singleton in Hc as ->.
  by injection Href as _ _ ->.
Qed.

(** ** Cursor rows *)

Lemma domain_from_key_spec domain :
  is_empty domain = false ->
  app_sync_domain_from_cursor_key (app_sync_domain_cursor_key domain) = Ok domain.
Proof.
  intros Hd. unfold app_sync_domain_from_cursor_key, app_sync_domain_cursor_key.
  by rewrite strip_prefix_app, Hd.
Qed.

(** The stored cursors hold non-negative [i64]s, as [record_app_sync_domain_cursor]
    writes them. *)
Definition cursor_stored (profile domain : string) (db : ProfileDb) (revision : Z) : Prop :=
  is_empty domain = false /\
  match db_state db !! (profile, app_sync_domain_cursor_key domain) with
  | Some (value, _) => value = show revision /\ 0 <= revision <= i64_max
  | None => revision = 0
  end.

Lemma cursor_read profile domain db revision :
  cursor_stored profile domain db revision ->
  exists cursor, app_sync_domain_cursor profile domain db = (db, Ok cursor) /\
    cursor_revision cursor = revision /\
    (cursor = None <-> db_state db !! (profile, app_sync_domain_cursor_key domain) = None).
Proof.
  intros [Hd Hst]. unfold app_sync_domain_cursor, sr_bind, sr_lift, query, validate_sync_domain.
  rewrite Hd. destruct (db_state db !! _) as [[value updated]|].
  - destruct Hst as [-> Hr]. unfold app_sync_domain_cursor_record_from_row.
    rewrite parse_i64_show by (unfold i64_min, i64_max in *; lia).
    simpl. rewrite domain_from_key_spec by done. eexists. by split_and!.
  - eexists. by split_and!.
Qed.

Lemma cursor_record profile domain db revision latest now :
  cursor_stored profile domain db revision -> 0 <= latest <= i64_max ->
  exists db', record_app_sync_domain_cursor profile domain latest now db
    = (db', Ok {| cu_profile := profile; cu_domain := domain;
                  cu_latest_revision := Z.max revision latest; cu_updated_at := now |}) /\
    db_state db' = <[(profile, app_sync_domain_cursor_key domain)
                     := (show (Z.max revision latest), now)]> (db_state db) /\
    db_changes db' = db_changes db /\ db_revisions db' = db_revisions db.
Proof.
  intros Hst Hl. destruct (cursor_read _ _ _ _ Hst) as (cursor & Hread & Hrev & _).
  unfold record_app_sync_domain_cursor, sr_bind, sr_lift, validate_sync_domain.
  destruct Hst as [Hd Hst]. rewrite Hd. rewrite (proj2 (Z.ltb_ge latest 0)) by lia.
  rewrite Hread, Hrev. eexists. by split_and!.
Qed.

Lemma cursor_stored_ext profile domain db db' revision :
  db_state db = db_state db' ->
  cursor_stored profile domain db revision -> cursor_stored profile domain db' revision.
Proof. unfold cursor_stored. by intros <-. Qed.

Lemma cursor_stored_insert profile domain db revision now :
  is_empty domain = false -> 0 <= revision <= i64_max ->
  db_state db !! (profile, app_sync_domain_cursor_key domain) = Some (show revision, now) ->
  cursor_stored profile domain db revision.
Proof. intros Hd Hr E. split; [done|]. by rewrite E. Qed.

Lemma events_after_ext profile domain after db db' :
  db_changes db = db_changes db' -> db_revisions db = db_revisions db' ->
  events_after profile domain after db = events_after profile domain after db'.
Proof. unfold events_after, joined_events. by intros -> ->. Qed.

Lemma poll_ext profile domain after limit db db' :
  db_changes db = db_changes db' -> db_revisions db = db_revisions db' ->
  poll_sync_setting_text_events_for_domain profile domain after limit db
  = poll_sync_setting_text_events_for_domain profile domain after limit db'.
Proof.
  unfold poll_sync_setting_text_events_for_domain,
    sync_setting_text_events_after_for_domain, joined_events. by intros -> ->.
Qed.

Lemma poll_latest_ge profile domain after limit db :
  let poll := poll_sync_setting_text_events_for_domain profile domain after limit db in
  after <= poll_latest_revision poll /\
  (poll_events poll <> [] -> after < poll_latest_revision poll).
Proof.
  intros poll. unfold poll. rewrite poll_events_eq.
  unfold poll_sync_setting_text_events_for_domain,
    sync_setting_text_events_after_for_domain. rewrite sql_limit_take. simpl.
  fold (events_after profile domain after db).
  destruct (last (take (Z.to_nat limit) (events_after profile domain after db))) as [e|] eqn:E.
  - apply last_Some in E as [t Ht].
    assert (He : e ∈ events_after profile domain after db).
    { apply (subseteq_take (Z.to_nat limit)). rewrite Ht. set_solver. }
    apply elem_of_filter_bool in He as [He _]. unfold domain_event in He. lia.
  - apply last_None in E. rewrite E. split; [lia|done].
Qed.

Lemma poll_latest_le profile domain after limit db m :
  Forall (fun r => rv_revision r <= m) (db_revisions db) -> after <= m ->
  poll_latest_revision (poll_sync_setting_text_events_for_domain profile domain after limit db) <= m.
Proof.
  intros Hmax Ha. unfold poll_sync_setting_text_events_for_domain. simpl.
  destruct (last _) as [e|] eqn:El; [|lia]. apply last_Some in El as [t Ht].
  assert (He : e ∈ events_after profile domain after db).
  { apply (subseteq_take (Z.to_nat limit)).
    unfold sync_setting_text_events_after_for_domain in Ht. rewrite sql_limit_take in Ht.
    fold (events_after profile domain after db) in Ht. rewrite Ht. set_solver. }
  apply elem_of_filter_bool in He as [_ He].
  apply list_elem_of_In, in_flat_map in He as (r & Hr & He).
  apply list_elem_of_In, list_elem_of_fmap in He as (c & -> & _). simpl.
  rewrite Forall_forall in Hmax. apply Hmax. by apply list_elem_of_In.
Qed.

(** ** Properties *)

(** A poll answers the first [limit] events after a revision, in
    revision order, and the revision to resume from: the events after the old
    revision are the batch followed by the events after the new one, so nothing is
    skipped and nothing is repeated; the revision advances exactly when the batch is
    not empty, and with a positive limit an empty batch means there is nothing left. *)
Theorem poll_pages profile domain after limit db :
  logs_sorted db ->
  let poll := poll_sync_setting_text_events_for_domain profile domain after limit db in
  events_after profile domain after db
    = poll_events poll ++ events_after profile domain (poll_latest_revision poll) db /\
  StronglySorted (by_key event_revision) (poll_events poll) /\
  Z.of_nat (length (poll_events poll)) <= Z.max 0 limit /\
  (advanced poll = true <-> poll_events poll <> []) /\
  (0 < limit -> poll_events poll = [] -> events_after profile domain after db = []).
Proof.
  intros Hs poll. split_and!.
  - by apply poll_split.
  - unfold poll. rewrite poll_events_eq.
    pose proof (joined_events_sorted db Hs) as Hj.
    apply (StronglySorted_filter_bool _ (domain_event profile domain after)) in Hj.
    fold (events_after profile domain after db) in Hj.
    rewrite <-(take_drop (Z.to_nat limit)) in Hj. by eapply StronglySorted_app_1_l.
  - unfold poll. rewrite poll_events_eq, length_take. lia.
  - destruct (poll_latest_ge profile domain after limit db) as [H1 H2]. fold poll in H1, H2.
    unfold advanced. rewrite Z.ltb_lt.
    change (poll_previous_revision poll) with after. split; [|done].
    intros Hlt He. unfold poll, poll_sync_setting_text_events_for_domain in Hlt, He.
    simpl in Hlt, He. rewrite He in Hlt. simpl in Hlt. lia.
  - unfold poll. rewrite poll_events_eq. intros Hl.
    destruct (events_after profile domain after db); [done|].
    destruct (Z.to_nat limit) eqn:E; [lia|done].
Qed.

(** Polling repeatedly with a positive limit and resuming from each
    answer delivers every event after the starting revision exactly once, in order,
    and then stops; one poll more than there are events is enough. *)
Theorem drain_complete profile domain limit db fuel after :
  logs_sorted db -> 0 < limit ->
  (length (events_after profile domain after db) < fuel)%nat ->
  drain profile domain after limit db fuel = events_after profile domain after db.
Proof.
  intros Hs Hl. revert after. induction fuel as [|fuel IH]; intros after Hf; [lia|].
  cbn [drain]. pose proof (poll_split profile domain after limit db Hs) as Hsplit.
  cbv zeta in Hsplit |- *.
  destruct (poll_events (poll_sync_setting_text_events_for_domain profile domain after limit db))
    as [|e es] eqn:E.
  - rewrite poll_events_eq in E.
    destruct (events_after profile domain after db) as [|e es]; [done|].
    destruct (Z.to_nat limit) as [|n] eqn:El; [lia|]. discriminate E.
  - rewrite IH; [by rewrite Hsplit|]. rewrite Hsplit, length_app in Hf. cbn [length] in Hf. lia.
Qed.

(** C23: (equivalence) In every history the joined event log is exactly the applied
    changes, one event each, in the order they were applied; the changes that lost
    to an earlier winner produce no event. *)
Theorem event_log_is_applied_changes d device db l :
  replica_history d device db l ->
  map ev_change (joined_events db) = List.filter applied_text (db_changes db) /\
  StronglySorted (by_key event_revision) (joined_events db).
Proof.
  intros Hh. split.
  - apply joined_events_applied; eauto using replica_history_logs_sorted, replica_history_paired.
  - eauto using joined_events_sorted, replica_history_logs_sorted.
Qed.

(** A recorded cursor is read back as the maximum of the old cursor
    and the acknowledged revision, so acknowledging an old poll never moves a cursor
    back; cursors of other domains are untouched; a negative revision is refused
    without a change. *)
Theorem cursor_roundtrip profile domain db revision latest now :
  cursor_stored profile domain db revision -> latest <= i64_max ->
  let '(db', r) := record_app_sync_domain_cursor profile domain latest now db in
  if latest <? 0 then db' = db /\ r = Err (InvalidSyncRevision latest)
  else
    (exists cursor, app_sync_domain_cursor profile domain db' = (db', Ok (Some cursor)) /\
       cu_domain cursor = domain /\ cu_updated_at cursor = now /\
       cu_latest_revision cursor = Z.max revision latest) /\
    forall key, key <> (profile, app_sync_domain_cursor_key domain) ->
      db_state db' !! key = db_state db !! key.
Proof.
  intros Hst Hl. destruct (Z.ltb_spec latest 0) as [Hneg|Hpos].
  - unfold record_app_sync_domain_cursor, sr_bind, sr_lift, validate_sync_domain.
    destruct Hst as [Hd _]. rewrite Hd. rewrite (proj2 (Z.ltb_lt latest 0)) by lia. done.
  - destruct (cursor_record profile domain db revision latest now) as (db' & -> & Hs' & _);
      [done|lia|].
    assert (Hrange : 0 <= Z.max revision latest <= i64_max).
    { destruct Hst as [_ Hst]. destruct (db_state db !! _) as [[v u]|]; lia. }
    split.
    + unfold app_sync_domain_cursor, sr_bind, sr_lift, query, validate_sync_domain.
      destruct Hst as [Hd _]. rewrite Hd, Hs', lookup_insert_eq.
      unfold app_sync_domain_cursor_record_from_row.
      rewrite parse_i64_show by (unfold i64_min, i64_max in *; lia). simpl.
      rewrite domain_from_key_spec by done. eexists. by split_and!.
    + intros key Hkey. rewrite Hs'. by rewrite lookup_insert_ne.
Qed.

(** C20: (safety) A watcher delivers at least once: when the application refuses a
    batch the cursor stays where it was, so the next poll answers the same batch;
    when it accepts, the cursor moves to the end of the batch, and the batch with
    what remains is what was left before.  The application may change the database
    in [apply], but not the logs or the cursors. *)
Theorem watcher_at_least_once {E} w (apply : SyncSettingTextDomainPoll ->
    state_result ProfileDb E unit) now db value updated revision :
  logs_sorted db ->
  cursor_stored (w_profile w) (w_domain w) db revision ->
  db_state db !! (w_profile w, app_sync_domain_cursor_key (w_domain w)) = Some (value, updated) ->
  Forall (fun r => rv_revision r <= i64_max) (db_revisions db) ->
  (forall poll db, db_state (apply poll db).1 = db_state db /\
     db_changes (apply poll db).1 = db_changes db /\
     db_revisions (apply poll db).1 = db_revisions db) ->
  let poll := poll_sync_setting_text_events_for_domain (w_profile w) (w_domain w) revision
                (w_batch_limit w) db in
  let '(db', r) := watcher_poll_apply_and_acknowledge w apply now db in
  match r with
  | Err e => (exists e', (apply poll db).2 = Err e' /\ e = WatcherApply e') /\
      cursor_stored (w_profile w) (w_domain w) db' revision
  | Ok (delivered, cursor) => delivered = poll /\
      cursor_stored (w_profile w) (w_domain w) db' (poll_latest_revision poll) /\
      events_after (w_profile w) (w_domain w) revision db
      = poll_events poll
        ++ events_after (w_profile w) (w_domain w) (poll_latest_revision poll) db'
  end.
Proof.
  intros Hs Hst Hrow Hmax Hap poll. pose proof (eq_refl : poll = _) as Hpoll.
  unfold poll in Hpoll at 2. clearbody poll.
  destruct (cursor_read _ _ _ _ Hst) as (cursor & Hread & Hrev & Hnone).
  destruct cursor as [cursor|]; [|rewrite (proj1 Hnone eq_refl) in Hrow; done].
  unfold watcher_poll_apply_and_acknowledge, watcher_poll_once,
    poll_sync_setting_text_events_for_app_domain, ensure_app_sync_domain_cursor_at_domain_head,
    sr_map_err, sr_bind, query. rewrite Hread. simpl in Hrev |- *. rewrite Hrev, <-Hpoll.
  destruct (Hap poll db) as (Hs1 & Hc1 & Hr1).
  destruct (apply poll db) as [db1 [[]|e]]; simpl in *.
  2: { split; [eauto|]. by eapply cursor_stored_ext. }
  assert (Hst1 : cursor_stored (w_profile w) (w_domain w) db1 revision)
    by by eapply cursor_stored_ext.
  assert (Hlatest : 0 <= revision <= poll_latest_revision poll /\
                    poll_latest_revision poll <= i64_max).
  { pose proof (poll_latest_ge (w_profile w) (w_domain w) revision (w_batch_limit w) db) as [Hge _].
    destruct Hst as [_ Hst]. rewrite Hrow in Hst. cbv zeta in Hge. rewrite <-Hpoll in Hge.
    split; [lia|]. rewrite Hpoll. apply poll_latest_le; [done|lia]. }
  unfold watcher_acknowledge, record_app_sync_domain_poll_cursor.
  assert (poll_profile poll = w_profile w) as -> by by rewrite Hpoll.
  assert (poll_domain poll = w_domain w) as -> by by rewrite Hpoll.
  destruct (cursor_record (w_profile w) (w_domain w) db1 revision (poll_latest_revision poll) now)
    as (db2 & -> & Hs2 & Hc2 & Hr2); [done|lia|]. cbv beta iota.
  rewrite Z.max_r in Hs2 by lia. split_and!; [done|..].
  - eapply cursor_stored_insert; [apply Hst|lia|]. by rewrite Hs2, lookup_insert_eq.
  - rewrite <-(events_after_ext _ _ _ db db2) by congruence. rewrite Hpoll. by apply poll_split.
Qed.

(** ** Witnesses *)

(** Three received changes, the last of which loses. *)
Definition three_changes : list IncomingSyncSettingText :=
  [note "old" "dev-c" 1 2; note "v2" "dev-b" 2 6; note "v1" "dev-b" 1 5].
Definition three_db : ProfileDb := receive three_changes.
Definition three_history := receive_history "dev-a" three_changes.

Lemma poll_pages_witness :
  events_after "default" "notes" 0 three_db
  = poll_events (poll_sync_setting_text_events_for_domain "default" "notes" 0 1 three_db)
    ++ events_after "default" "notes" 1 three_db /\
  events_after "default" "notes" 1 three_db <> [].
Proof.
  split.
  - exact (proj1 (poll_pages "default" "notes" 0 1 three_db
                    (replica_history_logs_sorted _ _ _ _ three_history))).
  - vm_compute. discriminate.
Defined.

Lemma drain_complete_witness :
  map (fun e => ch_payload (ev_change e)) (drain "default" "notes" 0 1 three_db 3) = ["v1"; "v2"].
Proof.
  rewrite (drain_complete "default" "notes" 1 three_db 3 0
             (replica_history_logs_sorted _ _ _ _ three_history)).
  - vm_compute. reflexivity.
  - lia.
  - vm_compute. lia.
Defined.

Lemma event_log_is_applied_changes_witness :
  map ev_change (joined_events three_db) = List.filter applied_text (db_changes three_db) /\
  length (db_changes three_db) = 3%nat /\ length (joined_events three_db) = 2%nat.
Proof.
  split_and!; [|vm_compute; reflexivity|vm_compute; reflexivity].
  exact (proj1 (event_log_is_applied_changes _ _ _ _ three_history)).
Defined.

Definition cursor_db : ProfileDb :=
  (record_app_sync_domain_cursor "default" "notes" 7 50 three_db).1.

Lemma cursor_db_stored : cursor_stored "default" "notes" cursor_db 7.
Proof. split; [reflexivity|]. vm_compute. done. Qed.

(** Acknowledging revision 3 after revision 7 leaves the cursor at 7. *)
Lemma cursor_roundtrip_witness :
  exists db' cursor, app_sync_domain_cursor "default" "notes" db' = (db', Ok (Some cursor)) /\
    cu_latest_revision cursor = 7.
Proof.
  pose proof (cursor_roundtrip "default" "notes" cursor_db 7 3 60 cursor_db_stored
                ltac:(unfold i64_max; lia)) as H.
  destruct (record_app_sync_domain_cursor "default" "notes" 3 60 cursor_db) as [db' r].
  destruct H as [(cursor & H1 & _ & _ & H2) _]. exists db', cursor. split; [exact H1|exact H2].
Defined.

Definition start_db : ProfileDb :=
  (record_app_sync_domain_cursor "default" "notes" 0 50 three_db).1.
Definition start_watcher : AppSyncDomainWatcher :=
  {| w_profile := "default"; w_domain := "notes"; w_batch_limit := 1 |}.

Lemma start_db_sorted : logs_sorted start_db.
Proof. split; split; vm_compute; repeat constructor; discriminate. Qed.

(** An application that accepts everything. *)
Lemma watcher_at_least_once_witness :
  exists delivered cursor db',
    watcher_poll_apply_and_acknowledge start_watcher (fun _ => sr_ret (E := string) tt) 60 start_db
    = (db', Ok (delivered, cursor)) /\
    cursor_stored "default" "notes" db' 1.
Proof.
  pose proof (watcher_at_least_once start_watcher (fun _ => sr_ret (E := string) tt) 60 start_db
    "0" 50 0) as H.
  destruct (watcher_poll_apply_and_acknowledge start_watcher (fun _ => sr_ret (E := string) tt) 60
              start_db) as [db' [[delivered cursor]|e]] eqn:E.
  2: { apply (f_equal snd) in E. vm_compute in E. discriminate E. }
  exists delivered, cursor, db'. split; [reflexivity|].
  assert (Hlatest : poll_latest_revision (poll_sync_setting_text_events_for_domain
    "default" "notes" 0 1 start_db) = 1) by (vm_compute; reflexivity).
  change (poll_sync_setting_text_events_for_domain (w_profile start_watcher)
    (w_domain start_watcher) 0 (w_batch_limit start_watcher) start_db)
    with (poll_sync_setting_text_events_for_domain "default" "notes" 0 1 start_db) in H.
  cbv zeta in H. rewrite Hlatest in H. apply H.
  - exact start_db_sorted.
  - split; [reflexivity|]. vm_compute. split; [reflexivity|split; discriminate].
  - vm_compute. reflexivity.
  - assert (db_revisions start_db = [Build_SyncRevisionRecord 1 "default" "notes" 1 100;
      Build_SyncRevisionRecord 2 "default" "notes" 2 100]) as -> by (vm_compute; reflexivity).
    repeat constructor; unfold i64_max; simpl; lia.
  - intros poll db. exact (conj eq_refl (conj eq_refl eq_refl)).
Defined.
