(* ===== verification/SnapshotLaws.v ===== *)
(** * The laws of snapshots and manifests

    A snapshot of a profile, applied on a new device, shows the values of the
    profile; applied again it changes nothing; compaction keeps the tail it has to
    keep; a manifest lists each device's latest change and is accepted when applied. *)
From S2P Require Import Prelude RustStr AppViews Database SyncObjects SyncStore.
From S2P Require Import Membership MembershipLaws Snapshots SyncLww SyncCursor.

(** ** The current value is that of the last applied change *)

Definition of_entity (e : entity) (r : SyncChangeRecord) : bool := entity_eqb (ch_entity r) e.

Definition last_applied (e : entity) (db : ProfileDb) : option SyncChangeRecord :=
  last (List.filter (of_entity e) (List.filter applied_text (db_changes db))).

Definition values_are_last (db : ProfileDb) : Prop :=
  forall e, option_map sv_value (db_values db !! e) = option_map ch_payload (last_applied e db).

Definition revisions_positive (db : ProfileDb) : Prop :=
  0 <= db_revision_seq db /\ Forall (fun r => 0 < rv_revision r) (db_revisions db).

Lemma last_snoc_filter {A} (p : A -> bool) l x :
  last (List.filter p (l ++ [x])) = if p x then Some x else last (List.filter p l).
Proof.
  rewrite filter_bool_app. simpl. destruct (p x); [by rewrite last_snoc|by rewrite app_nil_r].
Qed.

Lemma values_are_last_insert p dom k v dev n clk now :
  preserves values_are_last
    (insert_sync_setting_text_change_in_transaction p dom k v dev n clk now).
Proof.
  intros db H. unfold insert_sync_setting_text_change_in_transaction, sr_bind,
    insert_sync_setting_text_change_record_in_transaction.
  destruct (sync_change_by_device_sequence_in_transaction p dev n db); [done|].
  intros e. unfold last_applied. simpl. rewrite (filter_bool_app applied_text). simpl.
  rewrite last_snoc_filter. unfold of_entity at 1, entity_eqb, ch_entity. simpl.
  destruct (decide ((p, dom, k) = e)) as [<-|Hne].
  - by rewrite bool_decide_eq_true_2, lookup_insert_eq.
  - rewrite bool_decide_eq_false_2, lookup_insert_ne by done. apply H.
Qed.

Lemma values_are_last_insert_record p dom k v dev n clk now :
  preserves values_are_last
    (insert_sync_setting_text_change_record_in_transaction p dom k v dev n clk now None).
Proof.
  intros db H. unfold insert_sync_setting_text_change_record_in_transaction.
  case_match; [done|]. intros e. unfold last_applied. simpl.
  rewrite (filter_bool_app applied_text). simpl. rewrite app_nil_r. apply H.
Qed.

Lemma revisions_positive_insert p dom k v dev n clk now :
  preserves revisions_positive
    (insert_sync_setting_text_change_in_transaction p dom k v dev n clk now).
Proof.
  intros db [H1 H2]. unfold insert_sync_setting_text_change_in_transaction, sr_bind,
    insert_sync_setting_text_change_record_in_transaction.
  destruct (sync_change_by_device_sequence_in_transaction p dev n db); [done|].
  split; simpl; [lia|]. apply Forall_app. split; [done|]. repeat constructor. simpl. lia.
Qed.

Definition store_sane (db : ProfileDb) : Prop := values_are_last db /\ revisions_positive db.

Lemma store_sane_insert p dom k v dev n clk now :
  preserves store_sane (insert_sync_setting_text_change_in_transaction p dom k v dev n clk now).
Proof.
  intros db [H1 H2]. split; [by apply values_are_last_insert|by apply revisions_positive_insert].
Qed.

Lemma store_sane_set dev p dom k v now :
  preserves store_sane (set_sync_setting_text dev p dom k v now).
Proof.
  unfold set_sync_setting_text, record_sync_setting_text_in_transaction.
  solve_preserves; [by intros ? ?|]. apply store_sane_insert.
Qed.

Lemma store_sane_apply d c now : preserves store_sane (apply_sync_setting_text d c now).
Proof.
  unfold apply_sync_setting_text, apply_sync_setting_text_in_transaction. solve_preserves.
  - by intros ? ?.
  - intros db Hdb. unfold apply_view. by case_match.
  - apply store_sane_insert.
  - intros db [H1 H2]. split; [by apply values_are_last_insert_record|].
    unfold insert_sync_setting_text_change_record_in_transaction. by case_match.
Qed.

Lemma replica_history_sane d dev db l : replica_history d dev db l -> store_sane db.
Proof.
  induction 1 as [|db l k db2 Hh IH Hst].
  - split; [done|]. split; [done|constructor].
  - destruct Hst as [p dom key v now db db1 r E _|p dom key v now db db1 e E|c now db db1 r E].
    + pose proof (store_sane_set dev p dom key v now db IH) as H. by rewrite E in H.
    + pose proof (store_sane_set dev p dom key v now db IH) as H. by rewrite E in H.
    + pose proof (store_sane_apply d c now db IH) as H. by rewrite E in H.
Qed.

(** ** Domains *)

Lemma str_member_spec s l : str_member s l = true <-> s ∈ l.
Proof.
  unfold str_member. rewrite existsb_exists. setoid_rewrite str_eqb_eq.
  rewrite list_elem_of_In. naive_solver.
Qed.

Lemma elem_of_normalized s l :
  s ∈ normalized_snapshot_domains l <-> s ∈ l /\ is_empty s = false.
Proof.
  unfold normalized_snapshot_domains. rewrite elem_of_btree_elems, elem_of_list_to_set.
  rewrite elem_of_filter_bool. destruct (is_empty s); naive_solver.
Qed.

(** ** What a snapshot holds *)

Definition event_key (event : SyncSettingTextEvent) : string * string :=
  (ch_domain (ev_change event), ch_entity_key (ev_change event)).

Definition has_key (k : string * string) (event : SyncSettingTextEvent) : bool :=
  bool_decide (event_key event = k).

Definition by_revision (e e' : SyncSettingTextEvent) : Prop :=
  rv_revision (ev_revision e) <= rv_revision (ev_revision e').

(** Every key whose events are covered holds its last event. *)
Lemma collect_values_lookup covers domains events m k :
  StronglySorted by_revision events ->
  (forall event, event ∈ events -> event_key event = k ->
     rv_revision (ev_revision event) <= covers) ->
  k.1 ∈ domains ->
  collect_values covers domains events m !! k
  = match last (List.filter (has_key k) events) with
    | Some event => Some (snapshot_value event)
    | None => m !! k
    end.
Proof.
  intros Hsorted Hle Hk. revert m. induction Hsorted as [|event events Hs IH Hlater];
    intros m; simpl; [done|].
  assert (forall e, e ∈ events -> event_key e = k -> rv_revision (ev_revision e) <= covers) as Hle'
    by (intros; apply Hle; [by right|done]). specialize (IH Hle').
  destruct (Z.ltb_spec covers (rv_revision (ev_revision event))) as [Hlt|_].
  { rewrite Forall_forall in Hlater. unfold by_revision in Hlater.
    assert (List.filter (has_key k) (event :: events) = []) as Hnil.
    { apply filter_bool_none. intros e He. unfold has_key. apply bool_decide_eq_false_2. intros Hek.
      specialize (Hle e He Hek). apply elem_of_cons in He as [->|He%Hlater]; lia. }
    simpl in Hnil. by rewrite Hnil. }
  destruct (str_member (ch_domain (ev_change event)) domains) eqn:Hm; simpl.
  - rewrite IH. unfold has_key at 2, event_key. case_bool_decide as Heq.
    + rewrite last_cons. destruct (last _); [done|]. subst k. by rewrite lookup_insert_eq.
    + destruct (last _); [done|]. by rewrite lookup_insert_ne.
  - rewrite IH. unfold has_key at 2, event_key. rewrite bool_decide_eq_false_2; [done|].
    intros <-. simpl in Hk. apply str_member_spec in Hk. congruence.
Qed.

(** A value comes from an event of its key, in an included domain. *)
Lemma collect_values_sound covers domains events m k v :
  collect_values covers domains events m !! k = Some v ->
  m !! k = Some v \/
  exists event, event ∈ events /\ event_key event = k /\ v = snapshot_value event /\ k.1 ∈ domains.
Proof.
  revert m. induction events as [|event events IH]; intros m; simpl; [auto|].
  destruct (covers <? _); [auto|].
  destruct (str_member (ch_domain (ev_change event)) domains) eqn:Hm; simpl.
  - intros [Hl|(e & He & H)]%IH; [|right; exists e; split; [by right|done]].
    destruct (decide (event_key event = k)) as [<-|Hne].
    + rewrite lookup_insert_eq in Hl. injection Hl as <-. right. exists event.
      split; [left|]. split; [done|]. split; [done|]. by apply str_member_spec.
    + rewrite lookup_insert_ne in Hl by done. by left.
  - intros [Hl|(e & He & H)]%IH; [by left|right; exists e; split; [by right|done]].
Qed.

(** The events of a profile. *)
Definition profile_events (profile : string) (db : ProfileDb) : list SyncSettingTextEvent :=
  List.filter (fun e => str_eqb (rv_profile (ev_revision e)) profile) (joined_events db).

Lemma joined_event_spec db event :
  event ∈ joined_events db ->
  ev_revision event ∈ db_revisions db /\ ev_change event ∈ db_changes db /\
  ch_profile (ev_change event) = rv_profile (ev_revision event).
Proof.
  unfold joined_events. rewrite list_elem_of_In. intros (r & Hr & He)%in_flat_map.
  apply list_elem_of_In, list_elem_of_fmap in He as (c & -> & Hc).
  apply elem_of_filter_bool in Hc as [Hc Hin]. apply andb_true_iff in Hc as [_ Hp].
  apply str_eqb_eq in Hp. simpl. split_and!; [by apply list_elem_of_In|done|done].
Qed.

Lemma payload_events profile db :
  revisions_positive db -> logs_sorted db -> revisions_paired db ->
  Z.of_nat (length (joined_events db)) <= u32_max ->
  sync_setting_text_events_after profile 0 u32_max db = profile_events profile db.
Proof.
  intros [_ Hpos] Hs Hp Hlen. unfold sync_setting_text_events_after, profile_events.
  rewrite sql_limit_take, take_ge.
  - apply filter_bool_ext. intros e He. pose proof (joined_event_spec db e He) as (Hr & _ & _).
    rewrite Forall_forall in Hpos. specialize (Hpos _ Hr). simpl in Hpos.
    rewrite (proj2 (Z.ltb_lt 0 _)), andb_true_r by done.
    assert (ev_change e ∈ List.filter applied_text (db_changes db)) as [-> _]%elem_of_filter_bool.
    { rewrite <-joined_events_applied by done. by apply list_elem_of_fmap_2. }
    by rewrite andb_true_r.
  - etransitivity; [apply List.filter_length_le|]. lia.
Qed.

Lemma filter_map_comm {A B} (f : A -> B) (p : B -> bool) l :
  List.filter p (map f l) = map f (List.filter (fun x => p (f x)) l).
Proof. induction l as [|x l IH]; simpl; [done|]. rewrite IH. by destruct (p (f x)). Qed.

Lemma last_map {A B} (f : A -> B) l : last (map f l) = option_map f (last l).
Proof. change (map f l) with (f <$> l). rewrite fmap_last. by destruct (last l). Qed.

Lemma profile_events_sorted profile db :
  logs_sorted db -> StronglySorted by_revision (profile_events profile db).
Proof.
  intros Hs. apply StronglySorted_filter_bool.
  induction (joined_events_sorted db Hs) as [|e l Hl IH He]; constructor; [done|].
  eapply Forall_impl; [exact He|]. unfold by_key, by_revision, event_revision. intros e'. lia.
Qed.

(** The last event of a key is the one of the last applied change. *)
Lemma last_event_value profile k db :
  logs_sorted db -> revisions_paired db ->
  option_map ev_change (last (List.filter (has_key k) (profile_events profile db)))
  = last_applied (profile, k.1, k.2) db.
Proof.
  intros Hs Hp. unfold last_applied. rewrite <-joined_events_applied by done.
  rewrite filter_map_comm, last_map. do 2 f_equal. unfold profile_events.
  rewrite filter_bool_filter. apply filter_bool_ext. intros e He.
  apply joined_event_spec in He as (_ & _ & <-).
  unfold has_key, event_key, of_entity, entity_eqb, ch_entity.
  destruct (str_eqb (ch_profile (ev_change e)) profile) eqn:E;
    [apply str_eqb_eq in E|apply str_eqb_neq in E]; simpl.
  - rewrite E. destruct k as [dom key]. simpl.
    repeat case_bool_decide; naive_solver.
  - rewrite bool_decide_eq_false_2; [done|]. congruence.
Qed.

(** ** Applying changes of new entities *)

Lemma apply_sync_setting_text_ok d c now db db' r :
  apply_sync_setting_text d c now db = (db', Ok r) ->
  database_error (apply_sync_setting_text_in_transaction d c now) db = (db', Ok r).
Proof.
  unfold apply_sync_setting_text. rewrite !database_error_ok. by rewrite transaction_ok.
Qed.

(** A change of an entity the store does not know, under a new sequence. *)
Definition unknown_change (db : ProfileDb) (c : IncomingSyncSettingText) : Prop :=
  forall r, r ∈ db_changes db -> change_key r <> change_id_of c /\ ch_entity r <> in_entity c.

Definition value_of (db : ProfileDb) (e : entity) : option string :=
  option_map sv_value (db_values db !! e).

Lemma apply_unknown_change d c now db :
  store_ok db -> view_accepts d c = true -> unknown_change db c ->
  exists db' r, apply_sync_setting_text d c now db = (db', Ok r) /\ logged db db' c r /\
    value_of db' (in_entity c) = Some (in_value c) /\
    forall e, e <> in_entity c -> value_of db' e = value_of db e.
Proof.
  intros Hok Hacc Hnew. pose proof (apply_outcomes d c now db Hok) as Ho.
  destruct (apply_sync_setting_text d c now db) as [db' r0].
  destruct Ho as [r Hr Hkey _ _|e Hrej _|r _ Happ Hlg|r w Hw _ _ _ _].
  - by destruct (Hnew r Hr).
  - congruence.
  - exists db', r. destruct Hlg as [Hok' Hap Hch]. split; [done|]. split; [done|].
    assert (ch_entity r = in_entity c) as He by (by rewrite <-Hch).
    assert (candidate (in_entity c) r = true) as Hc.
    { apply candidate_spec. split_and!; [done| |by eexists].
      apply (ok_operation _ Hok'). rewrite Hap. set_solver. }
    unfold value_of. split.
    + rewrite (ok_values _ Hok'). rewrite (winner_intro _ db' r); [simpl; by rewrite <-Hch| |done|].
      * rewrite Hap. set_solver.
      * intros r' Hr' [He' _]%candidate_spec Hne. rewrite Hap in Hr'.
        apply elem_of_app in Hr' as [Hr'|Hr'%list_elem_of_singleton]; [|done].
        by destruct (Hnew r' Hr').
    + intros e Hne. rewrite (ok_values _ Hok'), (ok_values _ Hok).
      f_equal. unfold winner, sync_setting_winner_in_transaction. rewrite Hap, filter_bool_app.
      simpl. fold (candidate e r). destruct (candidate e r) eqn:Hc'.
      * apply candidate_spec in Hc' as [He' _]. congruence.
      * by rewrite app_nil_r.
  - apply winner_Some in Hw as (Hin & [He _]%candidate_spec & _). by destruct (Hnew w Hin).
Qed.

Lemma apply_unknown_changes d cs now db :
  store_ok db -> (forall c, c ∈ cs -> view_accepts d c = true /\ unknown_change db c) ->
  NoDup (map in_entity cs) -> NoDup (map change_id_of cs) ->
  exists db' rs, apply_changes d cs now db = (db', Ok rs) /\ store_ok db' /\
    (forall c, c ∈ cs -> value_of db' (in_entity c) = Some (in_value c)) /\
    (forall e, e ∉ map in_entity cs -> value_of db' e = value_of db e) /\
    map change_of rs = cs /\ forall r, r ∈ rs \/ r ∈ db_changes db <-> r ∈ db_changes db'.
Proof.
  revert db. induction cs as [|c cs IH]; intros db Hok Hcs Hne Hni.
  { exists db, []. split_and!; try done; [|set_solver].
    intros c Hc. by apply not_elem_of_nil in Hc. }
  simpl in Hne, Hni. apply NoDup_cons in Hne as [Hne1 Hne2], Hni as [Hni1 Hni2].
  destruct (Hcs c ltac:(left)) as [Hacc Hnew].
  destruct (apply_unknown_change d c now db Hok Hacc Hnew) as (db1 & r & Ha & Hlg & Hv & Ho).
  pose proof (lg_ok _ _ _ _ Hlg) as Hok1. pose proof (lg_appended _ _ _ _ Hlg) as Hap.
  pose proof (lg_change _ _ _ _ Hlg) as Hch.
  destruct (IH db1 Hok1) as (db' & rs & Hrs & Hok' & Hin & Hout & Hmap & Hlog); [|done..|].
  { intros c' Hc'. destruct (Hcs c' ltac:(by right)) as [Hacc' Hnew']. split; [done|].
    intros r' Hr'. rewrite Hap in Hr'. apply elem_of_app in Hr' as [Hr'|Hr'%list_elem_of_singleton].
    - by apply Hnew'.
    - subst r'. split; intros Heq.
      + apply Hni1. apply list_elem_of_fmap. exists c'. split; [|done]. by rewrite <-Hch.
      + apply Hne1. apply list_elem_of_fmap. exists c'. split; [|done]. by rewrite <-Hch. }
  exists db', (r :: rs). split_and!; try done.
  - simpl. unfold sr_bind at 1. rewrite (apply_sync_setting_text_ok _ _ _ _ _ _ Ha).
    unfold sr_bind. by rewrite Hrs.
  - intros c' [->|Hc']%elem_of_cons; [|by apply Hin]. rewrite Hout; [done|exact Hne1].
  - intros e [Hn1 Hn2]%not_elem_of_cons. rewrite Hout by exact Hn2. by apply Ho.
  - simpl. by rewrite Hch, Hmap.
  - intros r'. rewrite <-Hlog, Hap. set_solver.
Qed.

(** Acceptance does not depend on who made a change, or when. *)
Lemma view_accepts_ext d c c' :
  in_entity c = in_entity c' -> in_value c = in_value c' -> view_accepts d c = view_accepts d c'.
Proof.
  destruct c, c'. unfold in_entity. simpl. intros [= -> -> ->] ->. reflexivity.
Qed.

(** ** The values of a snapshot *)

Lemma NoDup_filter_bool {A} (p : A -> bool) (l : list A) : NoDup l -> NoDup (List.filter p l).
Proof.
  induction 1 as [|x l Hx Hl IH]; simpl; [constructor|]. destruct (p x); [|done].
  constructor; [|done]. rewrite elem_of_filter_bool. naive_solver.
Qed.

Lemma NoDup_map_on {A B} (f : A -> B) (l : list A) :
  (forall x y, x ∈ l -> y ∈ l -> f x = f y -> x = y) -> NoDup l -> NoDup (map f l).
Proof.
  intros Hinj Hl. induction Hl as [|x l Hx Hl IH]; simpl; constructor.
  - intros (y & Heq & Hy)%list_elem_of_fmap. apply Hx.
    rewrite (Hinj x y); [done|left|by right|done].
  - apply IH. intros y z Hy Hz. apply Hinj; by right.
Qed.

Definition value_key (v : ProfileSyncSettingsSnapshotValue) : string * string :=
  (ss_domain v, ss_key v).

(** The changes a snapshot made at or after the head is applied as. *)
Definition payload_changes (profile : string) (covers : Z) (domains : list string)
    (db : ProfileDb) : list IncomingSyncSettingText :=
  map (snapshot_change profile)
    (sort_by (key_cmp snapshot_value_order)
       (btree_values (collect_values covers (normalized_snapshot_domains domains)
                        (profile_events profile db) ∅))).

Section Payload.
Context (profile : string) (covers : Z) (domains : list string) (db : ProfileDb).
Hypothesis Hsorted : logs_sorted db.
Hypothesis Hpaired : revisions_paired db.
Hypothesis Hvalues : values_are_last db.
Hypothesis Hcovers : forall e, e ∈ profile_events profile db ->
  ch_domain (ev_change e) ∈ normalized_snapshot_domains domains ->
  rv_revision (ev_revision e) <= covers.

Definition snapshot_values : gmap (string * string) ProfileSyncSettingsSnapshotValue :=
  collect_values covers (normalized_snapshot_domains domains) (profile_events profile db) ∅.

Lemma snapshot_values_event k v :
  snapshot_values !! k = Some v ->
  exists event, event ∈ joined_events db /\ rv_profile (ev_revision event) = profile /\
    event_key event = k /\ v = snapshot_value event /\
    k.1 ∈ normalized_snapshot_domains domains.
Proof.
  intros [Hl|(e & He & Hk & Hv & Hd)]%collect_values_sound; [done|].
  apply elem_of_filter_bool in He as [Hp He]. apply str_eqb_eq in Hp. by exists e.
Qed.

Lemma snapshot_values_key k v : snapshot_values !! k = Some v -> value_key v = k.
Proof. by intros (e & _ & _ & <- & -> & _)%snapshot_values_event. Qed.

(** A snapshot holds the current values of the included domains. *)
Lemma snapshot_values_current dom key :
  dom ∈ normalized_snapshot_domains domains ->
  option_map ss_value (snapshot_values !! (dom, key)) = value_of db (profile, dom, key).
Proof.
  intros Hd. unfold snapshot_values. rewrite collect_values_lookup; [| | |done].
  2: by apply profile_events_sorted.
  2: { intros e He Hk. apply Hcovers; [done|]. by injection Hk as -> _. }
  unfold value_of. rewrite Hvalues.
  pose proof (last_event_value profile (dom, key) db Hsorted Hpaired) as Hlast.
  simpl in Hlast. rewrite <-Hlast. by destruct (last _).
Qed.

Lemma elem_of_snapshot_values v :
  v ∈ btree_values snapshot_values <-> snapshot_values !! value_key v = Some v.
Proof.
  rewrite elem_of_btree_values. split; [|by eexists].
  intros [k Hk]. by rewrite (snapshot_values_key k v).
Qed.

(** An event is determined by its revision. *)
Lemma event_revision_inj e e' :
  e ∈ joined_events db -> e' ∈ joined_events db -> event_revision e = event_revision e' -> e = e'.
Proof.
  intros He He' Heq. pose proof (joined_events_sorted db Hsorted) as HS. revert He He'.
  induction HS as [|x l Hl IH Hx]; [by intros ?%not_elem_of_nil|].
  rewrite Forall_forall in Hx. unfold by_key in Hx.
  intros [->|He]%elem_of_cons [->|He']%elem_of_cons; [done| | |by apply IH].
  - specialize (Hx _ He'). lia.
  - specialize (Hx _ He). lia.
Qed.

Lemma snapshot_values_NoDup : NoDup (btree_values snapshot_values).
Proof.
  apply (NoDup_fmap_1 value_key). unfold btree_values.
  assert (value_key <$> (btree_iter snapshot_values).*2 = (btree_iter snapshot_values).*1) as ->.
  { rewrite <-list_fmap_compose. apply list_fmap_ext. intros i [k v] Hi. simpl.
    apply snapshot_values_key, elem_of_btree_iter. by apply list_elem_of_lookup_2 in Hi. }
  apply NoDup_btree_iter_fst.
Qed.

(** The changes are those of the values, each of another entity and sequence. *)
Lemma payload_changes_spec :
  (forall c, c ∈ payload_changes profile covers domains db <->
     exists v, snapshot_values !! value_key v = Some v /\ c = snapshot_change profile v) /\
  NoDup (map in_entity (payload_changes profile covers domains db)) /\
  NoDup (map change_id_of (payload_changes profile covers domains db)).
Proof.
  unfold payload_changes. fold snapshot_values. set (vs := sort_by _ _).
  assert (forall v, v ∈ vs <-> snapshot_values !! value_key v = Some v) as Hvs.
  { intros v. unfold vs. by rewrite elem_of_sort_by, elem_of_snapshot_values. }
  assert (NoDup vs) as Hnd by (unfold vs; rewrite sort_by_Permutation; apply snapshot_values_NoDup).
  split.
  { intros c. rewrite list_elem_of_fmap. setoid_rewrite Hvs. naive_solver. }
  rewrite !map_map. split; (apply NoDup_map_on; [|done]); intros v v' Hv%Hvs Hv'%Hvs Heq.
  - assert (value_key v = value_key v') as Hk by (unfold value_key; by injection Heq as -> ->).
    rewrite Hk in Hv. congruence.
  - apply snapshot_values_event in Hv as (e & He & _ & _ & -> & _).
    apply snapshot_values_event in Hv' as (e' & He' & _ & _ & -> & _).
    injection Heq as Heq. by rewrite (event_revision_inj e e').
Qed.
End Payload.

Lemma latest_revision_covers profile db covers e :
  latest_sync_revision profile db <= covers -> e ∈ profile_events profile db ->
  rv_revision (ev_revision e) <= covers.
Proof.
  intros Hle [Hp He]%elem_of_filter_bool. apply str_eqb_eq in Hp.
  apply joined_event_spec in He as (Hr & _ & _). etransitivity; [|exact Hle]. apply sql_max_upper.
  apply list_elem_of_fmap_2, elem_of_filter_bool. by rewrite Hp, str_eqb_refl.
Qed.

(** What the log of a history satisfies. *)
Record sound_log (d : PayloadDecoders) (db : ProfileDb) : Prop := {
  sd_sorted : logs_sorted db;
  sd_paired : revisions_paired db;
  sd_values : values_are_last db;
  sd_positive : revisions_positive db;
  sd_accepted c : c ∈ db_changes db -> applied_text c = true -> view_accepts d (change_of c) = true
}.

Lemma history_sound d device db l :
  replica_history d device db l -> consistent l -> sound_log d db.
Proof.
  intros Hh Hcons. pose proof (replica_history_sane _ _ _ _ Hh) as [Hval Hpos].
  split; [by eapply replica_history_logs_sorted|by eapply replica_history_paired|done|done|].
  intros c Hc Ha. apply (lo_applied _ _ _ (replica_history_log _ _ _ _ Hh Hcons) _ Hc).
  unfold applied_text in Ha. apply andb_true_iff in Ha as [_ Ha]. by destruct (ch_applied_at c).
Qed.

(** The databases hold the same log and values of settings. *)
Definition same_log (db db' : ProfileDb) : Prop :=
  db_changes db' = db_changes db /\ db_change_seq db' = db_change_seq db /\
  db_revisions db' = db_revisions db /\ db_revision_seq db' = db_revision_seq db /\
  db_values db' = db_values db.

Lemma sound_log_ext d db db' : same_log db db' -> sound_log d db -> sound_log d db'.
Proof.
  intros (H1 & H2 & H3 & H4 & H5) [Hs Hp Hv Hr Ha]. split.
  - unfold logs_sorted. by rewrite H1, H2, H3, H4.
  - unfold revisions_paired. by rewrite H1, H3.
  - intros e. unfold last_applied. rewrite H1, H5. apply Hv.
  - unfold revisions_positive. by rewrite H3, H4.
  - rewrite H1. exact Ha.
Qed.

(** The changes a snapshot is applied as are accepted. *)
Lemma payload_changes_accepted d db profile covers domains c :
  sound_log d db -> c ∈ payload_changes profile covers domains db -> view_accepts d c = true.
Proof.
  intros [Hs Hp _ _ Hacc] Hc.
  unfold payload_changes in Hc. apply list_elem_of_fmap in Hc as (v & -> & Hv).
  rewrite elem_of_sort_by in Hv. apply elem_of_btree_values in Hv as [k Hv].
  apply collect_values_sound in Hv as [Hv|(e & He & _ & -> & _)]; [done|].
  apply elem_of_filter_bool in He as [Hpr He]. apply str_eqb_eq in Hpr.
  pose proof (joined_event_spec db e He) as (_ & _ & Hpe).
  assert (ev_change e ∈ List.filter applied_text (db_changes db)) as [Ha Hin]%elem_of_filter_bool.
  { rewrite <-joined_events_applied by done. by apply list_elem_of_fmap_2. }
  rewrite <-(Hacc _ Hin Ha).
  apply view_accepts_ext; [|done]. unfold in_entity, snapshot_change, snapshot_value, change_of.
  simpl. congruence.
Qed.

Lemma apply_payload d profile covers domains now now2 db db0 :
  revisions_positive db -> logs_sorted db -> revisions_paired db ->
  Z.of_nat (length (joined_events db)) <= u32_max ->
  apply_settings_snapshot_in_transaction d
    (settings_sync_snapshot_payload profile covers domains now db) now2 db0
  = apply_changes d (payload_changes profile covers domains db) now2 db0.
Proof.
  intros Hpos Hs Hp Hlen. unfold apply_settings_snapshot_in_transaction,
    settings_sync_snapshot_payload, payload_changes. simpl.
  rewrite payload_events by done. rewrite filter_bool_all; [done|]. intros v Hv.
  rewrite elem_of_sort_by in Hv. apply elem_of_btree_values in Hv as [k Hv].
  apply collect_values_sound in Hv as [Hv|(e & _ & <- & -> & Hd)]; [done|].
  unfold snapshot_value_applies. simpl. apply str_member_spec, elem_of_normalized.
  split; [done|]. by apply elem_of_normalized in Hd as [_ Hd].
Qed.

(** No change of the profile is recorded. *)
Definition no_changes (profile : string) (db : ProfileDb) : Prop :=
  forall r, r ∈ db_changes db -> ch_profile r <> profile.

Lemma no_changes_no_value profile db dom key :
  store_ok db -> no_changes profile db -> value_of db (profile, dom, key) = None.
Proof.
  intros Hok Hno. unfold value_of. rewrite (ok_values _ Hok).
  destruct (winner (profile, dom, key) db) as [r|] eqn:Hw; [|done].
  apply winner_Some in Hw as (Hin & [He _]%candidate_spec & _).
  exfalso. apply (Hno r Hin).
  by injection He as -> _ _.
Qed.

(** A snapshot applied where the profile has no changes. *)
Lemma payload_applies d profile covers domains now now2 db db0 :
  sound_log d db -> Z.of_nat (length (joined_events db)) <= u32_max ->
  (forall e, e ∈ profile_events profile db ->
     ch_domain (ev_change e) ∈ normalized_snapshot_domains domains ->
     rv_revision (ev_revision e) <= covers) ->
  store_ok db0 -> no_changes profile db0 ->
  exists db' rs,
    apply_settings_snapshot_in_transaction d
      (settings_sync_snapshot_payload profile covers domains now db) now2 db0 = (db', Ok rs) /\
    store_ok db' /\
    forall dom key, value_of db' (profile, dom, key)
      = if str_member dom (normalized_snapshot_domains domains)
        then value_of db (profile, dom, key) else None.
Proof.
  intros Hsound Hlen Hc Hok0 Hno. pose proof Hsound as [Hs Hp Hval Hpos _].
  destruct (payload_changes_spec profile covers domains db Hs) as (Hin & Hne & Hni).
  destruct (apply_unknown_changes d (payload_changes profile covers domains db) now2 db0)
    as (db' & rs & Ha & Hok' & Hv & Hout & _); [done| |done|done|].
  { intros c Hcc. split; [by eapply payload_changes_accepted|].
    intros r Hr%Hno. apply Hin in Hcc as (v & _ & ->). split; intros Heq; apply Hr;
      by injection Heq as -> _. }
  exists db', rs. rewrite apply_payload by done. split; [done|]. split; [done|]. intros dom key.
  assert (forall v, snapshot_values profile covers domains db !! (dom, key) = Some v ->
    value_of db' (profile, dom, key) = Some (ss_value v)) as Hsome.
  { intros v Hl. pose proof (snapshot_values_key profile covers domains db _ _ Hl) as Hk.
    assert (in_entity (snapshot_change profile v) = (profile, dom, key)) as <-
      by (unfold value_key in Hk; by injection Hk as <- <-).
    apply Hv, Hin. exists v. by rewrite Hk. }
  assert (snapshot_values profile covers domains db !! (dom, key) = None ->
    value_of db' (profile, dom, key) = None) as Hnone.
  { intros Hl. rewrite Hout; [by apply no_changes_no_value|].
    intros (c & Heq & (v & Hv' & ->)%Hin)%list_elem_of_fmap.
    injection Heq as -> ->. unfold value_key in Hv'. congruence. }
  destruct (str_member dom (normalized_snapshot_domains domains)) eqn:Hd.
  - apply str_member_spec in Hd.
    rewrite <-(snapshot_values_current profile covers domains db Hs Hp Hval Hc dom key Hd).
    destruct (snapshot_values profile covers domains db !! (dom, key)); simpl; auto.
  - apply Hnone. destruct (snapshot_values profile covers domains db !! (dom, key)) eqn:E; [|done].
    apply snapshot_values_event in E as (_ & _ & _ & _ & _ & Hd').
    apply str_member_spec in Hd'. simpl in Hd'. congruence.
Qed.

(** C5: (roundtrip) A snapshot of the included domains taken at or after the head of a
    profile's log, applied on a new device, is accepted and gives that device, for every
    entity of the profile, the value it has at the source when its domain is included and no
    value otherwise. *)
Theorem snapshot_roundtrip d device db l profile covers domains now now2 :
  replica_history d device db l -> consistent l ->
  Z.of_nat (length (joined_events db)) <= u32_max ->
  latest_sync_revision profile db <= covers ->
  exists db' applied,
    apply_settings_snapshot d (settings_sync_snapshot_payload profile covers domains now db)
      now2 empty_db = (db', Ok applied) /\
    forall domain key,
      option_map sv_value (get_sync_setting_text profile domain key db')
      = if str_member domain (normalized_snapshot_domains domains)
        then option_map sv_value (get_sync_setting_text profile domain key db) else None.
Proof.
  intros Hh Hcons Hlen Hcov.
  destruct (payload_applies d profile covers domains now now2 db empty_db
    (history_sound _ _ _ _ Hh Hcons) Hlen) as (db' & rs & Ha & _ & Hv).
  - intros e He _. by apply (latest_revision_covers profile db covers e).
  - apply store_ok_empty.
  - intros r Hr. by apply not_elem_of_nil in Hr.
  - exists db', rs. split; [by apply transaction_ok|]. intros domain key. apply Hv.
Qed.

(** A change that is recorded already only marks its device as seen. *)
Lemma apply_known_change d c now db r :
  store_ok db -> r ∈ db_changes db -> change_key r = change_id_of c ->
  exists devices, database_error (apply_sync_setting_text_in_transaction d c now) db
    = (set_db_devices devices db, Ok r).
Proof.
  intros Hok Hr Hk. eexists. apply database_error_ok.
  unfold apply_sync_setting_text_in_transaction, sr_bind at 1,
    record_sync_device_seen_in_transaction, execute. unfold sr_bind, query.
  set (devices := <[_ := _]> (db_devices db)).
  destruct (sync_change_by_device_sequence_in_transaction _ _ _ (set_db_devices devices db))
    as [r'|] eqn:E.
  - apply by_device_sequence_Some in E as [Hr' Hk'].
    assert (r' = r) as -> by (apply (ok_unique _ Hok); [done|done|by rewrite Hk']). done.
  - rewrite by_device_sequence_None in E. by destruct (E r Hr).
Qed.

Lemma set_db_devices_ok devices db : store_ok db -> store_ok (set_db_devices devices db).
Proof. by apply store_ok_ext. Qed.

Lemma apply_known_changes d cs rs now db :
  store_ok db ->
  Forall2 (fun c r => r ∈ db_changes db /\ change_key r = change_id_of c) cs rs ->
  exists devices, apply_changes d cs now db = (set_db_devices devices db, Ok rs).
Proof.
  intros Hok HF. revert db Hok HF. revert rs. induction cs as [|c cs IH]; intros rs db Hok HF.
  - apply Forall2_nil_inv_l in HF as ->. exists (db_devices db). by destruct db.
  - apply Forall2_cons_inv_l in HF as (r & rs' & [Hr Hk] & HF & ->).
    destruct (apply_known_change d c now db r Hok Hr Hk) as [devices1 H1].
    destruct (IH rs' (set_db_devices devices1 db)) as [devices2 H2];
      [by apply set_db_devices_ok|done|].
    exists devices2. simpl. unfold sr_bind at 1. rewrite H1. unfold sr_bind. by rewrite H2.
Qed.

(** An accepted change is recorded, and what was recorded stays. *)
Lemma apply_change_recorded d c now db db1 r :
  store_ok db ->
  database_error (apply_sync_setting_text_in_transaction d c now) db = (db1, Ok r) ->
  store_ok db1 /\ r ∈ db_changes db1 /\ change_key r = change_id_of c /\
  forall r', r' ∈ db_changes db -> r' ∈ db_changes db1.
Proof.
  intros Hok Ha. pose proof (apply_outcomes d c now db Hok) as Ho.
  assert (apply_sync_setting_text d c now db = (db1, Ok r)) as E.
  { unfold apply_sync_setting_text. rewrite database_error_ok, transaction_ok.
    by rewrite database_error_ok in Ha. }
  rewrite E in Ho.
  assert (forall db1 r, logged db db1 c r ->
    store_ok db1 /\ r ∈ db_changes db1 /\ change_key r = change_id_of c /\
    forall r', r' ∈ db_changes db -> r' ∈ db_changes db1) as Hlogged.
  { intros db2 r2 [H1 H2 <-]. split; [done|]. unfold appended in H2. rewrite H2.
    split; [apply elem_of_app; right; left|]. split; [done|].
    intros r' Hr'. apply elem_of_app. by left. }
  inversion Ho as [? Hr Hkey Hs| |? ? ? Hlg|? ? ? ? ? ? Hlg]; subst; eauto.
  split; [by apply (same_store_ok db)|]. destruct Hs as (<- & _). done.
Qed.

Lemma apply_changes_recorded d cs now db db1 rs :
  store_ok db -> apply_changes d cs now db = (db1, Ok rs) ->
  store_ok db1 /\
  Forall2 (fun c r => r ∈ db_changes db1 /\ change_key r = change_id_of c) cs rs /\
  forall r', r' ∈ db_changes db -> r' ∈ db_changes db1.
Proof.
  revert db rs. induction cs as [|c cs IH]; intros db rs Hok; simpl.
  - intros [= <- <-]. split_and!; [done|constructor|done].
  - intros (db2 & r & Ha & Hr)%sr_bind_ok.
    apply sr_bind_ok in Hr as (db3 & rs' & Hr & [= <- <-]).
    apply apply_change_recorded in Ha as (Hok2 & Hin & Hk & Hkeep); [|done].
    apply IH in Hr as (Hok3 & HF & Hkeep'); [|done].
    split_and!; [done| |by auto]. constructor; [by auto|done].
Qed.

(** Applying a snapshot that was just applied answers the same changes
    and writes nothing but the time the device was last seen. *)
Theorem snapshot_replay d snapshot now now2 db db1 applied :
  store_ok db -> apply_settings_snapshot d snapshot now db = (db1, Ok applied) ->
  exists devices,
    apply_settings_snapshot d snapshot now2 db1 = (set_db_devices devices db1, Ok applied).
Proof.
  unfold apply_settings_snapshot, apply_settings_snapshot_in_transaction. intros Hok.
  rewrite transaction_ok. destruct (negb _); [done|].
  intros (Hok1 & HF & _)%apply_changes_recorded; [|done].
  destruct (apply_known_changes d _ _ now2 db1 Hok1 HF) as [devices Hd].
  exists devices. by rewrite transaction_ok.
Qed.

(** The values of a snapshot are recorded as changes of the pseudo-device
    [snapshot] under the revision numbers of the device that made it.  A value whose
    revision number is recorded already, from a snapshot of whichever device, is taken for
    that change: the snapshot is accepted and the value is dropped. *)
Theorem snapshot_revision_collision d profile covers domains value now db r :
  store_ok db -> r ∈ db_changes db ->
  change_key r = (profile, PROFILE_SYNC_SNAPSHOT_DEVICE_ID, ss_revision value) ->
  snapshot_value_applies (normalized_snapshot_domains domains) value = true ->
  let snapshot := {| sp_profile := profile;
                     sp_schema_version := PROFILE_SYNC_SETTINGS_SNAPSHOT_SCHEMA_VERSION;
                     sp_covers_revision := covers; sp_included_domains := domains;
                     sp_values := [value]; sp_created_at := now |} in
  exists devices,
    apply_settings_snapshot d snapshot now db = (set_db_devices devices db, Ok [r]).
Proof.
  intros Hok Hr Hk Hv snapshot. unfold apply_settings_snapshot,
    apply_settings_snapshot_in_transaction. simpl. rewrite Hv. simpl.
  destruct (apply_known_changes d [snapshot_change profile value] [r] now db Hok) as [devices Hd].
  { by repeat constructor. }
  exists devices. rewrite transaction_ok. exact Hd.
Qed.

(** ** Compaction *)

Lemma rposition_Some {A} (p : A -> bool) l i :
  rposition p l = Some i ->
  (exists x, l !! i = Some x /\ p x = true) /\
  forall j x, (i < j)%nat -> l !! j = Some x -> p x = false.
Proof.
  revert i. induction l as [|x l IH]; intros i; simpl; [done|].
  destruct (rposition p l) as [k|] eqn:E.
  - intros [= <-]. destruct (IH k eq_refl) as [Hx Hafter]. split; [done|].
    intros [|j] y Hj Hy; [lia|]. apply (Hafter j); [lia|done].
  - destruct (p x) eqn:Hp; [|done]. intros [= <-]. split; [eauto|].
    intros [|j] y Hj Hy; [lia|]. simpl in Hy. clear IH Hj. revert j Hy. clear Hp x.
    induction l as [|z l IHl]; intros j Hy; [done|]. simpl in E.
    destruct (rposition p l) eqn:E2; [done|]. destruct (p z) eqn:Hz; [done|].
    destruct j as [|j]; [simpl in Hy; congruence|]. by apply (IHl eq_refl j).
Qed.

(** The changes of some domains since the latest snapshot, in the order they were applied. *)
Definition changes_since_snapshot (profile : string) (domains : list string) (db : ProfileDb) :
    list SyncSettingTextEvent :=
  List.filter (fun event => bool_decide (ch_domain (ev_change event) ∈ domains)
                            && negb (is_empty (ch_domain (ev_change event))))
    (sync_setting_text_events_after profile (previous_covers_revision profile db) u32_max db).

(** The first [n] of the changes can be covered: enough are left as a tail, and the last of
    them, or one after it, is older than the retention window. *)
Definition coverable (policy : ProfileSyncRetentionPolicy) (now : Z)
    (events : list SyncSettingTextEvent) (n : Z) : Prop :=
  1 <= n /\ n + rp_min_tail_change_count policy <= Z.of_nat (length events) /\
  exists j event, n - 1 <= Z.of_nat j /\ events !! j = Some event /\
    ch_created_at (ev_change event)
    <= saturating_sub_i64 now (Z.max (rp_change_retention_seconds policy) 0).

(** The target covers the greatest number of changes that can be covered, and names the last
    of them; without a target none can. *)
Definition greatest_target (profile : string) (previous : Z) (policy : ProfileSyncRetentionPolicy)
    (now : Z) (events : list SyncSettingTextEvent) (found : option SyncCompactionTarget) : Prop :=
  match found with
  | Some target =>
      let n := ct_covered_change_count target in
      coverable policy now events n /\ (forall m, coverable policy now events m -> m <= n) /\
      ct_retained_tail_change_count target = Z.of_nat (length events) - n /\
      ct_profile target = profile /\ ct_previous_snapshot_covers_revision target = previous /\
      exists event, events !! Z.to_nat (n - 1) = Some event /\
        ct_covers_revision target = rv_revision (ev_revision event) /\
        ct_covers_change_id target = ch_id (ev_change event)
  | None => forall n, ~ coverable policy now events n
  end.

Lemma rposition_None {A} (p : A -> bool) l i x :
  rposition p l = None -> l !! i = Some x -> p x = false.
Proof.
  revert i. induction l as [|y l IH]; intros i; simpl; [done|].
  destruct (rposition p l); [done|]. destruct (p y) eqn:Hp; [done|]. intros _.
  destruct i as [|i]; simpl; [congruence|by apply IH].
Qed.

Lemma compaction_target_greatest profile previous events policy now :
  0 <= rp_min_tail_change_count policy ->
  greatest_target profile previous policy now events
    (compaction_target profile previous events policy now).
Proof.
  intros Hmin. unfold greatest_target, coverable, compaction_target,
    compaction_target_event_index.
  set (cutoff := saturating_sub_i64 now (Z.max (rp_change_retention_seconds policy) 0)).
  set (m := Z.to_nat _). assert (Z.of_nat m = rp_min_tail_change_count policy) as Hm by lia.
  destruct (Nat.leb_spec (length events) m) as [Hshort|Hlong]; [lia|].
  destruct (rposition _ events) as [o|] eqn:Ho.
  - apply rposition_Some in Ho as [(x & Hx & Hold) Hafter]. apply Z.leb_le in Hold.
    set (i := Nat.min o (length events - m - 1)).
    pose proof (lookup_lt_Some _ _ _ Hx) as Hlt.
    destruct (events !! i) as [event|] eqn:Hi; [|apply lookup_ge_None in Hi; lia].
    cbn [ct_covered_change_count ct_retained_tail_change_count ct_profile ct_covers_revision
      ct_previous_snapshot_covers_revision ct_covers_change_id].
    split_and!; [lia|lia| | |lia|done|done|].
    + exists o, x. split_and!; [lia|done|done].
    + intros n (Hn & Hlen & j & event' & Hj & Hl & Hc).
      assert (j <= o)%nat; [|lia]. apply Nat.nlt_ge. intros Hoj.
      specialize (Hafter j event' Hoj Hl). rewrite Z.leb_gt in Hafter. lia.
    + exists event. split; [|done]. by replace (Z.to_nat _) with i by lia.
  - intros n (_ & _ & j & event & _ & Hl & Hc).
    pose proof (rposition_None _ _ _ _ Ho Hl) as Hf. rewrite Z.leb_gt in Hf. lia.
Qed.

(** C40: A compaction covers as many of the changes of the domains since the latest
    snapshot as can be: the configured number of the newest ones is always kept as the tail,
    no change after the last one that is older than the retention window is covered, and there
    is no compaction only when no change can be covered. *)
Theorem compaction_keeps_tail profile policy now domains db :
  0 <= rp_min_tail_change_count policy ->
  greatest_target profile (previous_covers_revision profile db) policy now
    (changes_since_snapshot profile domains db)
    (settings_sync_compaction_target_for_domains profile policy now domains db).
Proof.
  intros Hmin.
  assert (changes_since_snapshot profile domains db
    = List.filter (fun event => str_member (ch_domain (ev_change event))
                                  (normalized_snapshot_domains domains))
        (sync_setting_text_events_after profile (previous_covers_revision profile db) u32_max db))
    as ->.
  { apply List.filter_ext. intros event. apply eq_true_iff_eq.
    rewrite str_member_spec, elem_of_normalized, andb_true_iff, bool_decide_eq_true, negb_true_iff.
    done. }
  unfold settings_sync_compaction_target_for_domains.
  destruct (normalized_snapshot_domains domains) as [|d l]; [|by apply compaction_target_greatest].
  set (events := sync_setting_text_events_after _ _ _ _). clearbody events.
  intros n (H1 & Hn & _). enough (Z.of_nat (length (List.filter
    (fun event => str_member (ch_domain (ev_change event)) []) events)) = 0) by lia.
  clear Hn. by induction events.
Qed.

(** ** Manifests *)

Lemma elem_of_dedup x l : x ∈ dedup l <-> x ∈ l.
Proof.
  induction l as [|y l IH]; simpl; [done|]. rewrite elem_of_cons, <-IH.
  destruct (dedup l) as [|z rest]; [set_solver|].
  destruct (str_eqb y z) eqn:E; [apply str_eqb_eq in E as ->|]; set_solver.
Qed.

Lemma elem_of_sort_dedup x l : x ∈ sort_dedup l <-> x ∈ l.
Proof. unfold sort_dedup. by rewrite elem_of_dedup, elem_of_sort_by. Qed.

(** The frontiers hold, for each device of [seen], the greatest of its entries. *)
Record frontiers_of (seen : list ProfileSyncDeviceFrontier)
    (frontiers : gmap string ProfileSyncDeviceFrontier) : Prop := {
  fo_sound k f : frontiers !! k = Some f -> df_device_id f = k /\ f ∈ seen;
  fo_greatest f : f ∈ seen -> exists f', frontiers !! df_device_id f = Some f' /\
    rust_le (frontier_rank f) (frontier_rank f')
}.

Lemma frontiers_of_upsert seen frontiers next :
  frontiers_of seen frontiers ->
  frontiers_of (seen ++ [next]) (upsert_device_frontier frontiers next).
Proof.
  intros [H1 H2]. unfold upsert_device_frontier.
  assert (frontiers_of (seen ++ [next]) (<[df_device_id next := next]> frontiers) \/
          exists f', frontiers !! df_device_id next = Some f' /\
            rust_ltb (frontier_rank f') (frontier_rank next) = false) as Hcase.
  { destruct (frontiers !! df_device_id next) as [f'|] eqn:E;
      [destruct (rust_ltb (frontier_rank f') (frontier_rank next)) eqn:Hlt; [left|right; eauto]
      |left].
    all: split; [intros k f; destruct (decide (df_device_id next = k)) as [<-|Hne];
      [rewrite lookup_insert_eq; intros [= <-]; set_solver
      |rewrite lookup_insert_ne by done; intros [? ?]%H1; set_solver]|].
    all: intros f [Hf|Hf%list_elem_of_singleton]%elem_of_app;
      [destruct (H2 f Hf) as (f2 & Hl & Hle)
      |subst f; exists next; rewrite lookup_insert_eq, rust_le_cases; by auto].
    all: destruct (decide (df_device_id next = df_device_id f)) as [Heq|Hne];
      [|exists f2; by rewrite lookup_insert_ne].
    - exists next. rewrite Heq, lookup_insert_eq. split; [done|].
      rewrite <-Heq, E in Hl. injection Hl as <-. etransitivity; [exact Hle|].
      apply rust_ltb_spec in Hlt. apply rust_le_cases. by right.
    - rewrite <-Heq, E in Hl. done. }
  destruct (frontiers !! df_device_id next) as [f'|] eqn:E.
  - unfold rust_geb. destruct (rust_ltb (frontier_rank f') (frontier_rank next)) eqn:Hlt; simpl.
    + destruct Hcase as [?|(f2 & [= <-] & ?)]; [done|congruence].
    + split; [intros k f [? ?]%H1; set_solver|].
      intros f [Hf|Hf%list_elem_of_singleton]%elem_of_app; [by apply H2|subst f].
      exists f'. split; [done|]. by apply rust_le_ltb.
  - by destruct Hcase as [?|(f2 & ? & ?)].
Qed.

Definition tail_frontier (tail : ProfileSyncSettingsTailChangePublication) :
    ProfileSyncDeviceFrontier :=
  change_frontier (tp_change tail) (Some (tp_object_id tail)).

Definition tail_valid (profile : string) (tail : ProfileSyncSettingsTailChangePublication) : Prop :=
  is_empty (tp_object_id tail) = false /\ ch_profile (tp_change tail) = profile /\
  ch_operation (tp_change tail) = "set_text".

Lemma check_tail_change_Ok profile tail u :
  check_tail_change profile tail = Ok u <-> tail_valid profile tail.
Proof.
  unfold check_tail_change, tail_valid, invalid_manifest. destruct u.
  destruct (is_empty _); [naive_solver|].
  destruct (str_eqb (ch_profile _) profile) eqn:E1; simpl;
    [apply str_eqb_eq in E1|apply str_eqb_neq in E1; naive_solver].
  destruct (str_eqb (ch_operation _) _) eqn:E2; simpl;
    [apply str_eqb_eq in E2|apply str_eqb_neq in E2]; naive_solver.
Qed.

Lemma add_tail_changes_spec profile tails s s' seen :
  frontiers_of seen (ml_device_frontiers s) ->
  add_tail_changes profile tails s = Ok s' ->
  Forall (tail_valid profile) tails /\
  ml_included_domains s' = ml_included_domains s ++ map (fun t => ch_domain (tp_change t)) tails /\
  ml_tail_change_object_ids s' = ml_tail_change_object_ids s ++ map tp_object_id tails /\
  frontiers_of (seen ++ map tail_frontier tails) (ml_device_frontiers s').
Proof.
  revert s seen. induction tails as [|tail tails IH]; intros s seen Hf; simpl.
  - intros [= <-]. rewrite !app_nil_r. by split_and!.
  - destruct (check_tail_change profile tail) eqn:Hc; [|done].
    apply check_tail_change_Ok in Hc. intros Ha.
    apply (IH _ (seen ++ [tail_frontier tail])) in Ha as (H1 & H2 & H3 & H4);
      [|by apply frontiers_of_upsert].
    simpl in *. rewrite H2, H3, <-!app_assoc. rewrite <-app_assoc in H4. by split_and!; [constructor|..].
Qed.

Lemma add_covered_changes_spec profile domains changes frontiers frontiers' seen :
  frontiers_of seen frontiers ->
  add_covered_changes profile domains changes frontiers = Ok frontiers' ->
  frontiers_of (seen ++ map (fun c => change_frontier c None) changes) frontiers'.
Proof.
  revert frontiers seen. induction changes as [|c changes IH]; intros frontiers seen Hf; simpl.
  - intros [= <-]. by rewrite app_nil_r.
  - do 3 (destruct (negb _); [done|]). intros Ha.
    apply (IH _ (seen ++ [change_frontier c None])) in Ha; [|by apply frontiers_of_upsert].
    by rewrite <-app_assoc in Ha.
Qed.

Lemma frontiers_of_empty : frontiers_of [] ∅.
Proof. split; [done|]. intros f Hf. by apply not_elem_of_nil in Hf. Qed.

Lemma btree_frontiers seen frontiers :
  frontiers_of seen frontiers ->
  NoDup (map df_device_id (btree_values frontiers)) /\
  (forall f, f ∈ btree_values frontiers -> f ∈ seen) /\
  (forall f, f ∈ seen -> exists f', f' ∈ btree_values frontiers /\
     df_device_id f' = df_device_id f /\ rust_le (frontier_rank f) (frontier_rank f')).
Proof.
  intros [H1 H2]. split_and!.
  - unfold btree_values.
    assert (map df_device_id (btree_iter frontiers).*2 = (btree_iter frontiers).*1) as ->;
      [|apply NoDup_btree_iter_fst].
    change (map df_device_id (btree_iter frontiers).*2)
      with (df_device_id <$> (btree_iter frontiers).*2).
    rewrite <-list_fmap_compose. apply list_fmap_ext. intros i [k f] Hi. simpl.
    by apply list_elem_of_lookup_2, elem_of_btree_iter, H1 in Hi as [? _].
  - intros f [k Hk]%elem_of_btree_values. by apply H1 in Hk as [_ ?].
  - intros f Hf. destruct (H2 f Hf) as (f' & Hl & Hle). exists f'. split; [|split; [|done]].
    + apply elem_of_btree_values. eauto.
    + by apply H1 in Hl as [? _].
Qed.

(** The manifest of a list of changes names their objects in order and
    exactly their domains, and has one frontier per device: the greatest (sequence, object)
    of the device's changes. *)
Theorem manifest_frontiers profile root_id tails policy m :
  settings_sync_manifest_for_tail_changes profile root_id tails policy = Ok m ->
  mf_tail_change_object_ids m = map tp_object_id tails /\
  (forall domain, domain ∈ mf_included_domains m <->
     exists t, t ∈ tails /\ ch_domain (tp_change t) = domain) /\
  NoDup (map df_device_id (mf_device_frontiers m)) /\
  (forall f, f ∈ mf_device_frontiers m -> exists t, t ∈ tails /\ f = tail_frontier t) /\
  (forall t, t ∈ tails -> exists f, f ∈ mf_device_frontiers m /\
     df_device_id f = ch_device_id (tp_change t) /\
     rust_le (ch_device_sequence (tp_change t), Some (tp_object_id t)) (frontier_rank f)).
Proof.
  unfold settings_sync_manifest_for_tail_changes. destruct (is_empty root_id); [done|].
  destruct tails as [|t0 tails0] eqn:Et; [done|]. rewrite <-Et. clear Et t0 tails0.
  destruct (add_tail_changes _ _ _) as [s|] eqn:Ha; [|done]. intros [= <-]. simpl.
  apply (add_tail_changes_spec _ _ _ _ []) in Ha as (_ & Hd & Hi & Hf); [|apply frontiers_of_empty].
  simpl in *. apply btree_frontiers in Hf as (H1 & H2 & H3). split_and!; [done| |done| |].
  - intros domain. rewrite elem_of_sort_dedup, Hd, list_elem_of_fmap. naive_solver.
  - intros f Hf%H2. apply list_elem_of_fmap in Hf as (t & -> & Ht). eauto.
  - intros t Ht. destruct (H3 (tail_frontier t)) as (f & Hf & Hdev & Hle).
    + by apply list_elem_of_fmap_2.
    + eauto.
Qed.

(** ** From publication to application *)

(** The change a receiver verifies for a published one. *)
Definition verified_tail (tail : ProfileSyncSettingsTailChangePublication) :
    VerifiedProfileSyncSettingsTailChange :=
  {| vt_object_id := tp_object_id tail; vt_change := change_of (tp_change tail) |}.

Lemma validate_built manifest snapshot tails :
  mf_schema_version manifest = PROFILE_SYNC_MANIFEST_SCHEMA_VERSION ->
  is_empty (mf_profile manifest) = false -> is_empty (mf_root_id manifest) = false ->
  match snapshot with
  | Some s => mf_current_snapshot_object_id manifest = Some (vs_object_id s) /\
      sp_profile (vs_snapshot s) = mf_profile manifest /\
      forall domain, domain ∈ sp_included_domains (vs_snapshot s) ->
        domain ∈ mf_included_domains manifest
  | None => mf_current_snapshot_object_id manifest = None
  end ->
  mf_tail_change_object_ids manifest = map vt_object_id tails ->
  (forall t, t ∈ tails -> in_profile (vt_change t) = mf_profile manifest /\
     in_domain (vt_change t) ∈ mf_included_domains manifest) ->
  validate_settings_manifest_application manifest snapshot tails = Ok tt.
Proof.
  intros H1 H2 H3 H4 H5 H6. unfold validate_settings_manifest_application.
  rewrite H1, H2, H3. simpl.
  assert (match mf_current_snapshot_object_id manifest, snapshot with
          | Some expected, Some s =>
              if str_eqb expected (vs_object_id s) then validate_manifest_snapshot manifest s
              else invalid_manifest ("manifest current snapshot object " +:+ expected
                     +:+ " does not match verified snapshot object " +:+ vs_object_id s)
          | Some expected, None =>
              invalid_manifest ("manifest references missing snapshot object " +:+ expected)
          | None, Some s =>
              invalid_manifest ("verified snapshot object " +:+ vs_object_id s
                                +:+ " is not referenced by manifest")
          | None, None => Ok tt
          end = Ok tt) as ->.
  { destruct snapshot as [s|]; [|by rewrite H4]. destruct H4 as (-> & Hp & Hd).
    rewrite str_eqb_refl. unfold validate_manifest_snapshot. rewrite Hp, str_eqb_refl. simpl.
    apply check_all_ok, Forall_forall. intros domain Hdom.
    by rewrite (proj2 (str_member_spec domain _)) by auto. }
  rewrite bool_decide_eq_true_2 by done. simpl. apply check_all_ok, Forall_forall. intros t Ht.
  destruct (H6 t Ht) as [-> Hd]. rewrite str_eqb_refl. simpl.
  by rewrite (proj2 (str_member_spec _ _)).
Qed.

(** What both builders make of the result of their loop. *)
Lemma built_manifest_accepted profile root_id policy tails s domains frontiers created snap :
  is_empty profile = false -> is_empty root_id = false ->
  match snap with
  | Some v => sp_profile (vs_snapshot v) = profile /\
      forall domain, domain ∈ sp_included_domains (vs_snapshot v) -> domain ∈ domains
  | None => True
  end ->
  add_tail_changes profile tails
    {| ml_included_domains := domains; ml_tail_change_object_ids := [];
       ml_device_frontiers := frontiers; ml_created_at := created |} = Ok s ->
  (exists seen, frontiers_of seen frontiers) ->
  validate_settings_manifest_application
    (manifest_of profile root_id (option_map vs_object_id snap) policy s) snap
    (map verified_tail tails) = Ok tt.
Proof.
  intros Hp Hr Hs Ha [seen Hf].
  destruct (add_tail_changes_spec _ _ (Build_ManifestLoop domains [] frontiers created) s
              seen Hf Ha) as (Hv & Hd & Hi & _). simpl in *.
  apply validate_built; simpl; [done|done|done| | |].
  - destruct snap as [v|]; simpl; [|done]. destruct Hs as [Hsp Hsd]. split_and!; [done|done|].
    intros domain Hdom. apply elem_of_sort_dedup. rewrite Hd. apply elem_of_app. auto.
  - by rewrite Hi, map_map.
  - intros t (t' & -> & Ht')%list_elem_of_fmap. rewrite Forall_forall in Hv. simpl.
    destruct (Hv t' Ht') as (_ & Hpr & _). split; [done|]. apply elem_of_sort_dedup.
    rewrite Hd. apply elem_of_app. right. by apply list_elem_of_fmap_2 with
      (f := fun t => ch_domain (tp_change t)).
Qed.

Lemma snapshot_manifest_accepted profile root_id policy snapshot tails m :
  is_empty profile = false ->
  (forall domain, domain ∈ sp_included_domains (spp_snapshot snapshot) ->
     is_empty domain = false) ->
  settings_sync_manifest_for_snapshot_and_tail_changes profile root_id snapshot tails policy
    = Ok m ->
  validate_settings_manifest_application m
    (Some {| vs_object_id := spp_object_id snapshot; vs_snapshot := spp_snapshot snapshot |})
    (map verified_tail tails) = Ok tt.
Proof.
  intros Hp Hne.
  unfold settings_sync_manifest_for_snapshot_and_tail_changes.
  destruct (is_empty root_id) eqn:Hr; [done|]. destruct (is_empty (spp_object_id _)); [done|].
  destruct (str_eqb (sp_profile _) profile) eqn:Hsp; [|done]. apply str_eqb_eq in Hsp.
  destruct (negb (_ =? _)); [done|]. simpl.
  destruct (add_covered_changes _ _ _ _) as [frontiers|] eqn:Hc; [|done].
  destruct (add_tail_changes _ _ _) as [s|] eqn:Ha; [|done]. intros [= <-].
  eapply (built_manifest_accepted profile root_id policy tails s _ _ _
    (Some {| vs_object_id := spp_object_id snapshot; vs_snapshot := spp_snapshot snapshot |}));
    [done|done| |exact Ha|].
  + split; [done|]. intros domain Hdom. apply elem_of_normalized. auto.
  + eexists. eapply add_covered_changes_spec; [apply frontiers_of_empty|done].
Qed.

(** A manifest the program builds, for changes alone or for a snapshot and
    the changes after it, passes the validation a receiver makes before applying it. *)
Theorem published_manifest_accepted profile root_id policy snapshot tails m :
  is_empty profile = false ->
  (settings_sync_manifest_for_tail_changes profile root_id tails policy = Ok m ->
   validate_settings_manifest_application m None (map verified_tail tails) = Ok tt) /\
  ((forall domain, domain ∈ sp_included_domains (spp_snapshot snapshot) ->
      is_empty domain = false) ->
   settings_sync_manifest_for_snapshot_and_tail_changes profile root_id snapshot tails policy
     = Ok m ->
   validate_settings_manifest_application m
     (Some {| vs_object_id := spp_object_id snapshot; vs_snapshot := spp_snapshot snapshot |})
     (map verified_tail tails) = Ok tt).
Proof.
  intros Hp. split.
  - unfold settings_sync_manifest_for_tail_changes. destruct (is_empty root_id) eqn:Hr; [done|].
    destruct tails as [|t0 tails0] eqn:Et; [done|]. rewrite <-Et in *. clear Et t0 tails0.
    destruct (add_tail_changes _ _ _) as [s|] eqn:Ha; [|done]. intros [= <-].
    apply (built_manifest_accepted profile root_id policy tails s _ _ _ None Hp Hr I Ha).
    exists []. apply frontiers_of_empty.
  - intros Hne Hm. by eapply snapshot_manifest_accepted.
Qed.

(** The query of a root answers, and writes nothing. *)
Lemma profile_sync_root_answers profile root_id db :
  is_empty root_id = false -> exists root, profile_sync_root profile root_id db = (db, Ok root).
Proof.
  intros Hr. unfold profile_sync_root. rewrite Hr. unfold sr_bind, query.
  destruct (db_state db !! _) as [[id at_]|]; [|by eexists].
  unfold profile_sync_root_record_from_row, profile_sync_root_id_from_key, profile_sync_root_key.
  rewrite strip_prefix_app, Hr. by eexists.
Qed.

Lemma profile_sync_root_set profile root_id object_id now db :
  is_empty root_id = false ->
  profile_sync_root profile root_id
    (set_db_state (<[(profile, profile_sync_root_key root_id) := (object_id, now)]> (db_state db))
       db)
  = (set_db_state (<[(profile, profile_sync_root_key root_id) := (object_id, now)]> (db_state db))
       db, Ok (Some {| pr_profile := profile; pr_root_id := root_id; pr_object_id := object_id;
                       pr_updated_at := now |})).
Proof.
  intros Hr. unfold profile_sync_root. rewrite Hr. unfold sr_bind, query. simpl.
  rewrite lookup_insert_eq. unfold profile_sync_root_record_from_row,
    profile_sync_root_id_from_key, profile_sync_root_key.
  by rewrite strip_prefix_app, Hr.
Qed.

Lemma record_snapshot_changes_kept registration now db db' record :
  record_sync_snapshot_in_transaction registration now db = (db', Ok record) ->
  db_changes db' = db_changes db /\ db_change_seq db' = db_change_seq db /\
  db_values db' = db_values db.
Proof.
  unfold record_sync_snapshot_in_transaction, sr_bind, execute, query. simpl.
  rewrite lookup_insert_eq. unfold required_row, sr_lift. simpl. by intros [= <- _].
Qed.

(** ** What a manifest carries *)

(** The change a text value of a snapshot stands for, under the device name of snapshots. *)
Definition snapshot_value_change (snapshot : ProfileSyncSettingsSnapshot)
    (value : ProfileSyncSettingsSnapshotValue) : IncomingSyncSettingText := {|
  in_profile := sp_profile snapshot; in_domain := ss_domain value; in_key := ss_key value;
  in_value := ss_value value; in_device_id := "snapshot";
  in_device_sequence := ss_revision value; in_logical_clock := ss_revision value |}.

(** The changes of a manifest: those of its tail, and those the text values of its snapshot in
    the domains it includes stand for. *)
Definition carried (snapshot : option VerifiedProfileSyncSettingsSnapshot)
    (tails : list VerifiedProfileSyncSettingsTailChange) (c : IncomingSyncSettingText) : Prop :=
  (exists tail, tail ∈ tails /\ vt_change tail = c) \/
  (exists verified value, snapshot = Some verified /\
     value ∈ sp_values (vs_snapshot verified) /\ ss_value_kind value = "text" /\
     ss_domain value ∈ sp_included_domains (vs_snapshot verified) /\ ss_domain value <> "" /\
     snapshot_value_change (vs_snapshot verified) value = c).

(** The changes the code applies, in its order. *)
Definition snapshot_changes (snapshot : option VerifiedProfileSyncSettingsSnapshot) :
    list IncomingSyncSettingText :=
  match snapshot with
  | None => []
  | Some verified =>
      let sn := vs_snapshot verified in
      map (snapshot_change (sp_profile sn))
        (List.filter (snapshot_value_applies
           (normalized_snapshot_domains (sp_included_domains sn)))
           (sort_by (key_cmp snapshot_value_order) (sp_values sn)))
  end.

Lemma carried_spec snapshot tails c :
  carried snapshot tails c <-> c ∈ snapshot_changes snapshot ++ map vt_change tails.
Proof.
  rewrite elem_of_app. unfold carried.
  assert ((exists tail, tail ∈ tails /\ vt_change tail = c) <-> c ∈ map vt_change tails) as ->.
  { rewrite list_elem_of_fmap. naive_solver. }
  rewrite (comm or). apply or_iff_compat_r. destruct snapshot as [verified|]; cbn.
  2:{ split; [by intros (? & ? & [=] & _)|by intros ?%elem_of_nil]. }
  rewrite list_elem_of_fmap. setoid_rewrite elem_of_filter_bool.
  setoid_rewrite elem_of_sort_by. unfold snapshot_value_applies.
  setoid_rewrite andb_true_iff. setoid_rewrite str_eqb_eq. setoid_rewrite str_member_spec.
  setoid_rewrite elem_of_normalized. split.
  - intros (v & value & [= <-] & Hin & Hk & Hd & Hne & <-). exists value.
    split_and!; try done. by destruct (ss_domain value).
  - intros (value & -> & Hvalue). destruct_and? Hvalue. exists verified, value.
    split_and!; try done. by destruct (ss_domain value).
Qed.

(** An applied change adds at most its own row. *)
Lemma apply_change_rows d c now db db1 r :
  store_ok db ->
  database_error (apply_sync_setting_text_in_transaction d c now) db = (db1, Ok r) ->
  forall row, row ∈ db_changes db1 -> row ∈ db_changes db \/ change_of row = c.
Proof.
  intros Hok Ha row. pose proof (apply_outcomes d c now db Hok) as Ho.
  assert (apply_sync_setting_text d c now db = (db1, Ok r)) as E.
  { unfold apply_sync_setting_text. rewrite database_error_ok, transaction_ok.
    by rewrite database_error_ok in Ha. }
  rewrite E in Ho.
  inversion Ho as [? Hr Hkey Hs| |? ? ? Hlg|? ? ? ? ? ? Hlg]; subst;
    [destruct Hs as (<- & _); by left|destruct Hlg as [_ Happ Hc]..];
    unfold appended in Happ; rewrite Happ, elem_of_app;
    intros [Hrow|Hrow%list_elem_of_singleton]; [by left|subst; by right|by left|subst; by right].
Qed.

Lemma apply_changes_rows d cs now db db1 rs :
  store_ok db -> apply_changes d cs now db = (db1, Ok rs) ->
  forall row, row ∈ db_changes db1 -> row ∈ db_changes db \/ change_of row ∈ cs.
Proof.
  revert db rs. induction cs as [|c cs IH]; intros db rs Hok; cbn [apply_changes].
  { intros [= <- <-] row Hrow. by left. }
  intros (db2 & r & Ha & Hr)%sr_bind_ok row Hrow.
  apply sr_bind_ok in Hr as (db3 & rs' & Hr & [= <- <-]).
  pose proof (apply_change_rows _ _ _ _ _ _ Hok Ha) as Hrows.
  apply apply_change_recorded in Ha as (Hok2 & _); [|done].
  destruct (IH _ _ Hok2 Hr row Hrow) as [Hin|Hin]; [|right; by right].
  destruct (Hrows row Hin) as [Hold| <-]; [by left|right; left].
Qed.

(** Applying changes extends the log by them. *)
Lemma log_of_ext d db l l' :
  (forall c, c ∈ l <-> c ∈ l') -> log_of d db l -> log_of d db l'.
Proof.
  intros Hll [H1 H2 H3 H4]. split; [done| |done|].
  - intros r Hr. apply Hll. auto.
  - intros c Hc%Hll. auto.
Qed.

Lemma apply_changes_log d (dev : string) cs now db db1 rs l :
  apply_changes d cs now db = (db1, Ok rs) -> consistent (cs ++ l) ->
  log_of d db l -> log_of d db1 (cs ++ l).
Proof.
  revert db rs l. induction cs as [|c cs IH]; intros db rs l; cbn [apply_changes].
  { by intros [= <- <-]. }
  intros (db2 & r & Ha & Hr)%sr_bind_ok Hcons Hlog.
  apply sr_bind_ok in Hr as (db3 & rs' & Hr & [= <- <-]).
  assert (apply_sync_setting_text d c now db = (db2, Ok r)) as E.
  { unfold apply_sync_setting_text. rewrite database_error_ok, transaction_ok.
    by rewrite database_error_ok in Ha. }
  assert (consistent (c :: l)) as Hcl.
  { intros a b Ha' Hb'. apply Hcons; set_solver. }
  pose proof (replica_step_log d dev db [c] db2 l (step_receive d dev c now db db2 _ E) Hcl Hlog)
    as Hlog2.
  apply (log_of_ext _ _ (cs ++ c :: l)); [set_solver|].
  eapply IH; [exact Hr| |exact Hlog2]. intros a b Ha' Hb'. apply Hcons; set_solver.
Qed.

(** The changes a successful application applied, in order, between which only tables that
    hold no value are written. *)
Lemma manifest_application_changes d object_id manifest snapshot tails now db db' application :
  apply_verified_settings_manifest d object_id manifest snapshot tails now db
  = (db', Ok application) ->
  exists db1 db2 db3 rows,
    apply_changes d (snapshot_changes snapshot) now db = (db1, Ok rows) /\ same_store db1 db2 /\
    apply_changes d (map vt_change tails) now db2 = (db3, Ok (map_tail_changes application)) /\
    same_store db3 db'.
Proof.
  unfold apply_verified_settings_manifest. rewrite transaction_ok.
  unfold apply_verified_settings_manifest_in_transaction.
  intros (db1 & u & [= <- Hval] & Hr)%sr_bind_ok. destruct u.
  apply sr_bind_ok in Hr as (db2 & applied & Hs & Hr).
  assert (exists db1 rows, apply_changes d (snapshot_changes snapshot) now db = (db1, Ok rows) /\
            same_store db1 db2) as (db1 & rows & H1 & H2).
  { destruct snapshot as [verified|]; [|injection Hs as <- _; by exists db, []].
    apply sr_bind_ok in Hs as (db3 & changes & Hs & Hrec).
    apply sr_bind_ok in Hrec as (db4 & record & Hrec & [= <- <-]).
    apply record_snapshot_changes_kept in Hrec as (Hc & Hq & Hv).
    unfold apply_settings_snapshot_in_transaction in Hs. destruct (negb _); [done|].
    by exists db3, changes. }
  apply sr_bind_ok in Hr as (db3 & applied_tail & Ht & Hr).
  apply sr_bind_ok in Hr as (db4 & root & Hroot & [= <- <-]).
  unfold set_profile_sync_root_in_transaction in Hroot.
  destruct (is_empty (mf_root_id manifest)); [done|]. injection Hroot as <- _.
  by exists db1, db2, db3, rows.
Qed.

(** What a manifest's application leaves in the log. *)
Lemma manifest_application_rows d object_id manifest snapshot tails now db db' application :
  store_ok db ->
  apply_verified_settings_manifest d object_id manifest snapshot tails now db
  = (db', Ok application) ->
  (forall c, carried snapshot tails c ->
     exists row, row ∈ db_changes db' /\ change_key row = change_id_of c) /\
  (forall row, row ∈ db_changes db' ->
     row ∈ db_changes db \/ carried snapshot tails (change_of row)).
Proof.
  intros Hok (db1 & db2 & db3 & rows & H1 & Hs1 & H2 & Hs2)%manifest_application_changes.
  pose proof (apply_changes_recorded _ _ _ _ _ _ Hok H1) as (Hok1 & HF1 & _).
  pose proof (same_store_ok _ _ Hs1 Hok1) as Hok2.
  pose proof (apply_changes_recorded _ _ _ _ _ _ Hok2 H2) as (_ & HF2 & Hkeep).
  pose proof (apply_changes_rows _ _ _ _ _ _ Hok H1) as Hrows1.
  pose proof (apply_changes_rows _ _ _ _ _ _ Hok2 H2) as Hrows2.
  destruct Hs1 as (Hc1 & _), Hs2 as (Hc2 & _). rewrite Hc1 in *. rewrite Hc2 in *.
  setoid_rewrite carried_spec. setoid_rewrite elem_of_app. split.
  - intros c [Hc|Hc]; apply list_elem_of_lookup in Hc as [i Hi].
    + destruct (Forall2_lookup_l _ _ _ _ _ HF1 Hi) as (row & _ & Hrow & Hk). eauto.
    + destruct (Forall2_lookup_l _ _ _ _ _ HF2 Hi) as (row & _ & Hrow & Hk). eauto.
  - intros row [Hrow|Hrow]%Hrows2; [|by right; right].
    apply Hrows1 in Hrow as [Hrow|Hrow]; [by left|by right; left].
Qed.

Lemma manifest_application_log d (dev : string) object_id manifest snapshot tails now db db' application l :
  apply_verified_settings_manifest d object_id manifest snapshot tails now db
  = (db', Ok application) ->
  consistent ((snapshot_changes snapshot ++ map vt_change tails) ++ l) -> log_of d db l ->
  log_of d db' ((snapshot_changes snapshot ++ map vt_change tails) ++ l).
Proof.
  intros (db1 & db2 & db3 & rows & H1 & Hs1 & H2 & Hs2)%manifest_application_changes Hcons Hlog.
  apply (log_of_same d db3); [done|].
  apply (log_of_ext _ _ (map vt_change tails ++ snapshot_changes snapshot ++ l)); [set_solver|].
  eapply (apply_changes_log d dev); [exact H2| |].
  - intros a b Ha Hb. apply Hcons; set_solver.
  - apply (log_of_same d db1); [done|]. eapply (apply_changes_log d dev); [exact H1| |done].
    intros a b Ha Hb. apply Hcons; set_solver.
Qed.

Lemma manifest_application_spec d object_id manifest snapshot tails now db db' r :
  store_ok db ->
  apply_verified_settings_manifest d object_id manifest snapshot tails now db = (db', r) ->
  match r with
  | Err _ => db' = db
  | Ok application =>
      validate_settings_manifest_application manifest snapshot tails = Ok tt /\ store_ok db' /\
      Forall2 (fun t row => row ∈ db_changes db' /\ change_key row = change_id_of (vt_change t))
        tails (map_tail_changes application) /\
      (forall row, row ∈ db_changes db -> row ∈ db_changes db') /\
      (profile_sync_root (mf_profile manifest) (mf_root_id manifest) db').2
      = Ok (Some {| pr_profile := mf_profile manifest; pr_root_id := mf_root_id manifest;
                    pr_object_id := object_id; pr_updated_at := now |})
  end.
Proof.
  intros Hok. unfold apply_verified_settings_manifest.
  destruct r as [a|e]; [rewrite transaction_ok|apply transaction_err].
  unfold apply_verified_settings_manifest_in_transaction.
  intros (db1 & u & [= <- Hval] & Hr)%sr_bind_ok. destruct u.
  apply sr_bind_ok in Hr as (db2 & applied & Hs & Hr).
  assert (store_ok db2 /\ forall row, row ∈ db_changes db -> row ∈ db_changes db2) as [Hok2 Hk2].
  { destruct snapshot as [snapshot|]; [|by injection Hs as <- _].
    apply sr_bind_ok in Hs as (db3 & changes & Hs & Hrec).
    apply sr_bind_ok in Hrec as (db4 & record & Hrec & [= <- <-]).
    apply record_snapshot_changes_kept in Hrec as (Hc & Hq & Hv).
    unfold apply_settings_snapshot_in_transaction in Hs. destruct (negb _); [done|].
    apply apply_changes_recorded in Hs as (Hok3 & _ & Hk); [|done].
    split; [by eapply store_ok_ext|]. by rewrite Hc. }
  apply sr_bind_ok in Hr as (db3 & rows & Ht & Hr).
  apply apply_changes_recorded in Ht as (Hok3 & HF & Hk3); [|done].
  apply sr_bind_ok in Hr as (db4 & root & Hroot & [= <- <-]). simpl.
  unfold set_profile_sync_root_in_transaction in Hroot.
  destruct (is_empty (mf_root_id manifest)) eqn:Hre; [done|].
  injection Hroot as <- _. split_and!; [done|by apply (store_ok_ext db3)| |by auto|].
  - apply Forall2_fmap_l in HF. exact HF.
  - by rewrite profile_sync_root_set.
Qed.

(** C21: (safety) Applying a verified manifest either fails and changes nothing, or the manifest
    was valid, every change it carries (of its tail, and of the text values of its snapshot in
    the included domains) has a row in the log afterwards, nothing recorded before is lost,
    every row that is new records exactly one of these changes, and the root it was published
    under answers the manifest's object.  On a replica, each entity then has the
    last-writer-wins value of what the replica had and what the manifest carries, when no two
    of these changes share a device's sequence number. *)
Theorem manifest_applied d object_id manifest snapshot tails now db db' r :
  store_ok db ->
  apply_verified_settings_manifest d object_id manifest snapshot tails now db = (db', r) ->
  match r with
  | Err _ => db' = db
  | Ok application =>
      validate_settings_manifest_application manifest snapshot tails = Ok tt /\ store_ok db' /\
      Forall2 (fun t row => row ∈ db_changes db' /\ change_key row = change_id_of (vt_change t))
        tails (map_tail_changes application) /\
      (forall c, carried snapshot tails c ->
         exists row, row ∈ db_changes db' /\ change_key row = change_id_of c) /\
      (forall row, row ∈ db_changes db -> row ∈ db_changes db') /\
      (forall row, row ∈ db_changes db' ->
         row ∈ db_changes db \/ carried snapshot tails (change_of row)) /\
      (forall device l changes, replica_history d device db l ->
         (forall c, c ∈ changes <-> carried snapshot tails c) -> consistent (changes ++ l) ->
         forall profile domain key,
           option_map sv_value (get_sync_setting_text profile domain key db')
           = lww_value d (changes ++ l) (profile, domain, key)) /\
      (profile_sync_root (mf_profile manifest) (mf_root_id manifest) db').2
      = Ok (Some {| pr_profile := mf_profile manifest; pr_root_id := mf_root_id manifest;
                    pr_object_id := object_id; pr_updated_at := now |})
  end.
Proof.
  intros Hok Happ. pose proof (manifest_application_spec _ _ _ _ _ _ _ _ _ Hok Happ) as Hspec.
  destruct r as [application|e]; [|done]. destruct Hspec as (Hval & Hok' & HF & Hkeep & Hroot).
  destruct (manifest_application_rows _ _ _ _ _ _ _ _ _ Hok Happ) as [Hall Hnew].
  split_and!; try done. intros device l changes Hh Hchanges Hcons profile domain key.
  assert (forall c, c ∈ changes ++ l
            <-> c ∈ (snapshot_changes snapshot ++ map vt_change tails) ++ l) as Hsame.
  { intros c. rewrite !(elem_of_app _ l), Hchanges, carried_spec. done. }
  assert (consistent ((snapshot_changes snapshot ++ map vt_change tails) ++ l)) as Hcons'.
  { intros a b Ha Hb. apply Hcons; by apply Hsame. }
  rewrite (lww_value_ext d _ _ _ Hcons Hsame). apply log_of_value; [|done].
  eapply (manifest_application_log d device); [exact Happ|done|].
  eapply replica_history_log; [exact Hh|]. by eapply consistent_app_r.
Qed.

(** ** Witnesses *)

(** Two devices whose profiles number their revisions alike. *)
Lemma single_write_history d device profile domain key value now db r :
  set_sync_setting_text device profile domain key value now empty_db = (db, Ok r) ->
  view_accepts d (change_of r) = true ->
  exists l, replica_history d device db l /\ consistent l.
Proof.
  intros E Hacc. exists [change_of r]. split.
  - apply (history_step d device empty_db [] [change_of r] db); [constructor|].
    by eapply step_write.
  - intros c c' ->%list_elem_of_singleton ->%list_elem_of_singleton. done.
Qed.

Definition one_value_db (key : string) : ProfileDb :=
  (set_sync_setting_text "a" "default" "notes" key "text" 5 empty_db).1.

Lemma one_value_history key :
  exists l, replica_history no_payloads "a" (one_value_db key) l /\ consistent l.
Proof.
  unfold one_value_db.
  destruct (set_sync_setting_text "a" "default" "notes" key "text" 5 empty_db) as [db' [r|e]] eqn:E.
  - eapply single_write_history; [exact E|]. apply (f_equal snd) in E. vm_compute in E.
    injection E as <-. reflexivity.
  - exfalso. apply (f_equal snd) in E. vm_compute in E. discriminate.
Qed.

Lemma snapshot_roundtrip_witness :
  exists db' applied,
    apply_settings_snapshot no_payloads
      (settings_sync_snapshot_payload "default" 1 ["notes"] 6 (one_value_db "theme")) 7 empty_db
      = (db', Ok applied) /\
    option_map sv_value (get_sync_setting_text "default" "notes" "theme" db') = Some "text".
Proof.
  destruct (one_value_history "theme") as (l & Hh & Hc).
  destruct (snapshot_roundtrip no_payloads "a" (one_value_db "theme") l "default" 1 ["notes"] 6 7
              Hh Hc) as (db' & applied & Ha & Hv).
  - vm_compute. discriminate.
  - vm_compute. discriminate.
  - exists db', applied. split; [exact Ha|].
    refine (eq_trans (Hv "notes" "theme") _). vm_compute. reflexivity.
Defined.

Definition theme_snapshot : ProfileSyncSettingsSnapshot :=
  settings_sync_snapshot_payload "default" 1 ["notes"] 6 (one_value_db "theme").

Definition theme_db : ProfileDb := (apply_settings_snapshot no_payloads theme_snapshot 7 empty_db).1.

Lemma snapshot_replay_witness :
  exists devices applied,
    apply_settings_snapshot no_payloads theme_snapshot 8 theme_db
    = (set_db_devices devices theme_db, Ok applied).
Proof.
  destruct (apply_settings_snapshot no_payloads theme_snapshot 7 empty_db) as [db1 [rs|e]] eqn:E.
  - destruct (snapshot_replay no_payloads theme_snapshot 7 8 empty_db db1 rs store_ok_empty E)
      as [devices H]. exists devices, rs. unfold theme_db. rewrite E. exact H.
  - exfalso. apply (f_equal snd) in E. vm_compute in E. discriminate.
Defined.

(** The change the first snapshot leaves. *)
Definition theme_row : SyncChangeRecord :=
  {| ch_id := 1; ch_profile := "default"; ch_domain := "notes"; ch_entity_key := "theme";
     ch_operation := "set_text"; ch_payload := "text"; ch_device_id := "snapshot";
     ch_device_sequence := 1; ch_logical_clock := 1; ch_created_at := 7;
     ch_applied_at := Some 7 |}.

(** The snapshot of a second device is accepted and its value is lost. *)
Lemma snapshot_revision_collision_witness :
  exists r devices,
    apply_settings_snapshot no_payloads
      {| sp_profile := "default"; sp_schema_version := 1; sp_covers_revision := 1;
         sp_included_domains := ["notes"];
         sp_values := [{| ss_domain := "notes"; ss_key := "homepage"; ss_value := "text";
                          ss_value_kind := "text"; ss_revision := 1 |}];
         sp_created_at := 8 |} 8 theme_db
    = (set_db_devices devices theme_db, Ok [r]) /\ ch_entity_key r = "theme".
Proof.
  assert (store_ok theme_db) as Hok.
  { unfold theme_db. destruct (apply_settings_snapshot no_payloads theme_snapshot 7 empty_db)
      as [db1 [rs|e]] eqn:E.
    - unfold apply_settings_snapshot in E. rewrite transaction_ok in E.
      unfold apply_settings_snapshot_in_transaction in E.
      destruct (negb (sp_schema_version theme_snapshot =? _)) eqn:Hv; [by vm_compute in Hv|].
      by apply apply_changes_recorded in E as (? & _); [|apply store_ok_empty].
    - apply transaction_err in E as ->.
      apply store_ok_empty. }
  assert (head (db_changes theme_db) = Some theme_row) as Hh by (vm_compute; reflexivity).
  assert (theme_row ∈ db_changes theme_db) as Hr.
  { destruct (db_changes theme_db) as [|r l]; [discriminate|]. injection Hh as ->. left. }
  destruct (snapshot_revision_collision no_payloads "default" 1 ["notes"]
    {| ss_domain := "notes"; ss_key := "homepage"; ss_value := "text"; ss_value_kind := "text";
       ss_revision := 1 |} 8 theme_db theme_row Hok Hr) as [devices Hd].
  - reflexivity.
  - vm_compute. reflexivity.
  - exists theme_row, devices. split; [exact Hd|reflexivity].
Defined.

(** Two notes written at 5 and at 6, compacted at 20: the first is covered. *)
Definition two_value_db : ProfileDb :=
  (set_sync_setting_text "a" "default" "notes" "second" "text" 6 (one_value_db "first")).1.

Definition short_policy : ProfileSyncRetentionPolicy :=
  {| rp_min_tail_change_count := 1; rp_change_retention_seconds := 10;
     rp_inactive_device_grace_seconds := 60 |}.

Definition first_target : SyncCompactionTarget :=
  {| ct_profile := "default"; ct_previous_snapshot_covers_revision := 0; ct_covers_revision := 1;
     ct_covers_change_id := 1; ct_covered_change_count := 1; ct_retained_tail_change_count := 1 |}.

Lemma compaction_keeps_tail_witness :
  let events := changes_since_snapshot "default" ["notes"] two_value_db in
  settings_sync_compaction_target_for_domains "default" short_policy 20 ["notes"] two_value_db
    = Some first_target /\
  coverable short_policy 20 events 1 /\ ~ coverable short_policy 20 events 2.
Proof.
  pose proof (compaction_keeps_tail "default" short_policy 20 ["notes"] two_value_db) as H.
  assert (settings_sync_compaction_target_for_domains "default" short_policy 20 ["notes"]
            two_value_db = Some first_target) as Ht by (vm_compute; reflexivity).
  rewrite Ht in H. destruct H as (H1 & H2 & _); [vm_compute; discriminate|].
  split_and!; [exact Ht|exact H1|]. intros Hc%H2. vm_compute in Hc. by apply Hc.
Defined.

(** A change of device [a], published as the object [object_id]. *)
Definition note_change (seq : Z) (domain : string) : SyncChangeRecord :=
  {| ch_id := seq; ch_profile := "default"; ch_domain := domain; ch_entity_key := "theme";
     ch_operation := "set_text"; ch_payload := "text"; ch_device_id := "a";
     ch_device_sequence := seq; ch_logical_clock := seq; ch_created_at := 5 + seq;
     ch_applied_at := Some (5 + seq) |}.

Definition demo_tails : list ProfileSyncSettingsTailChangePublication :=
  [{| tp_object_id := "k2"; tp_change := note_change 2 "notes" |};
   {| tp_object_id := "k3"; tp_change := note_change 3 "bookmarks" |}].

Definition tails_manifest : ProfileSyncManifest :=
  {| mf_profile := "default"; mf_root_id := "settings"; mf_schema_version := 1;
     mf_membership_epoch := 1; mf_current_snapshot_object_id := None;
     mf_tail_change_object_ids := ["k2"; "k3"]; mf_included_domains := ["bookmarks"; "notes"];
     mf_device_frontiers := [{| df_device_id := "a"; df_latest_sequence := 3;
                                df_latest_change_object_id := Some "k3" |}];
     mf_retention_policy := short_policy; mf_created_at := 8 |}.

Lemma manifest_frontiers_witness :
  settings_sync_manifest_for_tail_changes "default" "settings" demo_tails short_policy
    = Ok tails_manifest /\
  mf_tail_change_object_ids tails_manifest = map tp_object_id demo_tails /\
  NoDup (map df_device_id (mf_device_frontiers tails_manifest)).
Proof.
  assert (settings_sync_manifest_for_tail_changes "default" "settings" demo_tails short_policy
          = Ok tails_manifest) as H by (vm_compute; reflexivity).
  destruct (manifest_frontiers "default" "settings" demo_tails short_policy tails_manifest H)
    as (Hi & _ & Hn & _).
  split; [exact H|]. split; [exact Hi|exact Hn].
Defined.

Definition theme_publication : ProfileSyncSettingsSnapshotPublication :=
  {| spp_object_id := "s1"; spp_snapshot := theme_snapshot;
     spp_covered_changes := [note_change 1 "notes"] |}.

Lemma published_manifest_accepted_witness :
  is_empty "default" = false /\
  validate_settings_manifest_application tails_manifest None (map verified_tail demo_tails)
    = Ok tt /\
  exists m,
    settings_sync_manifest_for_snapshot_and_tail_changes "default" "settings" theme_publication
      demo_tails short_policy = Ok m /\
    validate_settings_manifest_application m
      (Some {| vs_object_id := "s1"; vs_snapshot := theme_snapshot |})
      (map verified_tail demo_tails) = Ok tt.
Proof.
  split; [reflexivity|]. split.
  - apply (proj1 (published_manifest_accepted "default" "settings" short_policy theme_publication
      demo_tails tails_manifest eq_refl)). vm_compute. reflexivity.
  - destruct (settings_sync_manifest_for_snapshot_and_tail_changes "default" "settings"
      theme_publication demo_tails short_policy) as [m|e] eqn:E.
    + exists m. split; [reflexivity|].
      refine (proj2 (published_manifest_accepted "default" "settings" short_policy
        theme_publication demo_tails m eq_refl) _ E).
      intros domain Hd. change (domain ∈ ["notes"]) in Hd.
      apply list_elem_of_singleton in Hd as ->. reflexivity.
    + exfalso. vm_compute in E. discriminate.
Defined.

(** A manifest with a snapshot and a tail. *)
Definition theme_verified : VerifiedProfileSyncSettingsSnapshot :=
  {| vs_object_id := spp_object_id theme_publication; vs_snapshot := spp_snapshot theme_publication |}.
Definition full_manifest : ProfileSyncManifest :=
  match settings_sync_manifest_for_snapshot_and_tail_changes "default" "settings"
          theme_publication demo_tails short_policy with
  | Ok m => m
  | Err _ => tails_manifest
  end.
Definition full_changes : list IncomingSyncSettingText :=
  snapshot_changes (Some theme_verified) ++ map vt_change (map verified_tail demo_tails).

Lemma full_changes_consistent : consistent full_changes.
Proof.
  intros c c' Hc Hc'. vm_compute in Hc, Hc'.
  repeat (apply elem_of_cons in Hc as [->|Hc]); try by apply elem_of_nil in Hc.
  all: repeat (apply elem_of_cons in Hc' as [->|Hc']); try by apply elem_of_nil in Hc'.
  all: done.
Qed.

Lemma manifest_applied_witness :
  exists db' application,
    apply_verified_settings_manifest no_payloads "m1" full_manifest (Some theme_verified)
      (map verified_tail demo_tails) 9 empty_db = (db', Ok application) /\
    store_ok db' /\ length (db_changes db') = 3%nat /\
    option_map sv_value (get_sync_setting_text "default" "bookmarks" "theme" db') = Some "text" /\
    (profile_sync_root "default" "settings" db').2
    = Ok (Some {| pr_profile := "default"; pr_root_id := "settings"; pr_object_id := "m1";
                  pr_updated_at := 9 |}).
Proof.
  destruct (apply_verified_settings_manifest no_payloads "m1" full_manifest (Some theme_verified)
      (map verified_tail demo_tails) 9 empty_db) as [db' [application|e]] eqn:E.
  - exists db', application.
    destruct (manifest_applied no_payloads "m1" full_manifest (Some theme_verified)
      (map verified_tail demo_tails) 9 empty_db db' (Ok application) store_ok_empty E)
      as (_ & Hok & _ & _ & _ & _ & Hv & Hr).
    split; [reflexivity|]. split; [exact Hok|]. split; [|split].
    + apply (f_equal fst) in E. cbn [fst] in E. rewrite <- E. vm_compute. reflexivity.
    + rewrite (Hv "a" [] full_changes (history_start no_payloads "a")
                 (fun c => iff_sym (carried_spec _ _ c))).
      * vm_compute. reflexivity.
      * rewrite app_nil_r. exact full_changes_consistent.
    + exact Hr.
  - exfalso. apply (f_equal snd) in E. vm_compute in E. discriminate.
Defined.
