(* ===== verification/PullLaws.v ===== *)
(** * Laws of the pulls

    What a pull applies is what the objects of the source open to; a pull that does not
    apply leaves the database as it was; a published manifest that opens is applied by one
    pull and found unchanged by the next; and the profile a pull writes is the one its
    manifest names. *)
From S2P Require Import Prelude RustStr AppViews Database SyncObjects SyncStore.
From S2P Require Import Membership MembershipLaws ProfileTables TrustedOpen Snapshots Pulls.
From S2P Require Import SyncLww SnapshotLaws.

(** ** Reading *)

(** [m] leaves the state as it is, on its error paths too. *)
Definition read_only {S E A} (m : state_result S E A) : Prop := forall s, (m s).1 = s.

Lemma read_only_preserves {S E A} (m : state_result S E A) :
  (forall s, preserves (fun s' => s' = s) m) <-> read_only m.
Proof. split; [intros H s; by apply (H s)|intros H s s' ->; apply H]. Qed.

Lemma preserves_sync_object {A} (P : ProfileDb -> Prop) (r : result SyncObjectError A) :
  preserves P (sync_object r).
Proof. by intros s Hs. Qed.

Section Reading.
Context (codec : SyncCodec).

Local Ltac solve_read_only :=
  apply read_only_preserves; intros s;
  repeat first [preserves_step | apply preserves_sync_object
               | match goal with H : _ |- _ => apply H end].

Lemma key_record_read_only profile so :
  read_only (trusted_public_key_record_for_signed_object profile so).
Proof.
  unfold trusted_public_key_record_for_signed_object, sync_device_public_key,
    sync_device_public_key_in_transaction. solve_read_only.
Qed.

Lemma profile_key_read_only profile so :
  read_only (trusted_profile_state_public_key_for_signed_object profile so).
Proof.
  unfold trusted_profile_state_public_key_for_signed_object, sync_device_provider_authority,
    sync_device_provider_authority_in_transaction.
  pose proof (proj2 (read_only_preserves _) (key_record_read_only profile so)).
  solve_read_only.
Qed.

Lemma epoch_read_only bytes profile epoch :
  read_only (validate_signed_object_membership_epoch codec bytes profile epoch).
Proof.
  unfold validate_signed_object_membership_epoch.
  pose proof (fun so => proj2 (read_only_preserves _) (key_record_read_only profile so)).
  solve_read_only.
Qed.

Lemma payload_read_only bytes ck profile domain kind key_id :
  read_only (open_trusted_signed_encrypted_sync_payload codec bytes ck profile domain kind key_id).
Proof.
  unfold open_trusted_signed_encrypted_sync_payload.
  pose proof (fun so => proj2 (read_only_preserves _) (profile_key_read_only profile so)).
  solve_read_only.
Qed.

Lemma open_manifest_read_only bytes ck profile key_id :
  read_only (open_trusted_signed_profile_sync_manifest codec bytes ck profile key_id).
Proof.
  unfold open_trusted_signed_profile_sync_manifest.
  pose proof (proj2 (read_only_preserves _)
    (payload_read_only bytes ck profile SYNC_DOMAIN_SETTINGS PROFILE_SYNC_MANIFEST_OBJECT_KIND
       key_id)).
  solve_read_only.
Qed.

Lemma tail_changes_read_only objects epoch ck profile key_id :
  read_only (open_tail_changes codec objects epoch ck profile key_id).
Proof.
  apply read_only_preserves. intros s. induction objects as [|o objects IH]; simpl;
    [by apply preserves_ret|].
  pose proof (proj2 (read_only_preserves _) (epoch_read_only (ob_bytes o) profile epoch)).
  pose proof (fun so => proj2 (read_only_preserves _) (profile_key_read_only profile so)).
  unfold open_trusted_signed_sync_setting_text_for_profile.
  repeat first [preserves_step | apply preserves_sync_object | done
               | match goal with H : _ |- _ => apply H end].
Qed.

Lemma open_objects_read_only o snapshot tails ck profile key_id :
  read_only (open_trusted_signed_profile_sync_settings_manifest_objects codec o snapshot tails ck
    profile key_id).
Proof.
  unfold open_trusted_signed_profile_sync_settings_manifest_objects,
    open_trusted_signed_profile_sync_settings_snapshot.
  pose proof (proj2 (read_only_preserves _) (open_manifest_read_only (ob_bytes o) ck profile key_id)).
  pose proof (fun bytes epoch =>
    proj2 (read_only_preserves _) (epoch_read_only bytes profile epoch)).
  pose proof (fun bytes => proj2 (read_only_preserves _)
    (payload_read_only bytes ck profile SYNC_DOMAIN_SETTINGS
       PROFILE_SYNC_SETTINGS_SNAPSHOT_OBJECT_KIND key_id)).
  pose proof (fun epoch => proj2 (read_only_preserves _)
    (tail_changes_read_only tails epoch ck profile key_id)).
  solve_read_only.
Qed.
End Reading.

(** ** Pulling *)

Section Pulling.
Context (codec : SyncCodec) (d : PayloadDecoders) {W E : Type} `{ProfileSyncObjectSource W E}.

(** The database is [db]. *)
Definition db_is (db : ProfileDb) : W * ProfileDb -> Prop := fun s => s.2 = db.

Lemma on_source_keeps {F A} (f : E -> F) (m : state_result W E A) db :
  preserves (db_is db) (on_source f m).
Proof. intros [w db'] Hs. unfold on_source. destruct (m w) as [w' r]. exact Hs. Qed.

Lemma on_database_keeps {E' F A} (f : E' -> F) (m : state_result ProfileDb E' A) db :
  read_only m -> preserves (db_is db) (on_database (W := W) f m).
Proof.
  intros Hm [w db'] Hs. unfold on_database. specialize (Hm db'). destruct (m db') as [db'' r].
  simpl in Hm. by subst.
Qed.

Lemma open_error_keeps {A} (r : result SyncObjectError A) db :
  preserves (db_is db) (open_error (E := E) r).
Proof. by intros s Hs. Qed.

Local Ltac solve_keeps :=
  repeat first [preserves_step | apply on_source_keeps | apply open_error_keeps
               | apply on_database_keeps; eauto using open_manifest_read_only, open_objects_read_only
               | match goal with H : _ |- _ => apply H end].

Lemma fetch_keeps profile object_id db :
  preserves (db_is db) (fetch_trusted_profile_sync_object profile object_id).
Proof. unfold fetch_trusted_profile_sync_object. solve_keeps. Qed.

Lemma fetch_all_keeps profile object_ids db :
  preserves (db_is db) (fetch_trusted_profile_sync_objects profile object_ids).
Proof.
  induction object_ids as [|id ids IH]; simpl; [by apply preserves_ret|].
  pose proof fetch_keeps. solve_keeps.
Qed.

Lemma pull_by_id_keeps profile id ck key_id db :
  preserves (db_is db)
    (pull_trusted_signed_profile_sync_settings_manifest_objects_by_id codec profile id ck key_id).
Proof.
  unfold pull_trusted_signed_profile_sync_settings_manifest_objects_by_id,
    fetch_optional_profile_sync_object.
  pose proof fetch_keeps. pose proof fetch_all_keeps. solve_keeps.
Qed.

Lemma pull_objects_keeps profile root_id ck key_id db :
  preserves (db_is db)
    (pull_trusted_signed_profile_sync_settings_manifest_objects codec profile root_id ck key_id).
Proof.
  unfold pull_trusted_signed_profile_sync_settings_manifest_objects.
  pose proof pull_by_id_keeps. solve_keeps.
Qed.

Lemma active_content_key_read_only profile : read_only (active_content_key profile).
Proof.
  unfold active_content_key. apply read_only_preserves. intros s. solve_preserves.
Qed.

Lemma profile_sync_root_read_only profile root_id : read_only (profile_sync_root profile root_id).
Proof. unfold profile_sync_root. apply read_only_preserves. intros s. solve_preserves. Qed.

Lemma on_source_ok {F A} (f : E -> F) (m : state_result W E A) s s' a :
  on_source f m s = (s', Ok a) <-> m s.1 = (s'.1, Ok a) /\ s'.2 = s.2.
Proof.
  destruct s as [w db], s' as [w' db']. unfold on_source. simpl.
  destruct (m w) as [w1 [a1|e]]; simpl; naive_solver.
Qed.

Lemma on_database_ok {E' F A} (f : E' -> F) (m : state_result ProfileDb E' A) s s' a :
  on_database (W := W) f m s = (s', Ok a) <-> m s.2 = (s'.2, Ok a) /\ s'.1 = s.1.
Proof.
  destruct s as [w db], s' as [w' db']. unfold on_database. simpl.
  destruct (m db) as [db1 [a1|e]]; simpl; naive_solver.
Qed.

Lemma sr_map_err_ok {S E1 E2 A} (f : E1 -> E2) (m : state_result S E1 A) s s' a :
  sr_map_err f m s = (s', Ok a) <-> m s = (s', Ok a).
Proof. unfold sr_map_err. destruct (m s) as [s1 [a1|e]]; simpl; split; congruence. Qed.

(** The source, asked for objects by id one after the other, answers these. *)
Inductive answers (profile : string) : W -> list string -> list ProfileSyncObjectBytes -> W -> Prop :=
  | answers_nil w : answers profile w [] [] w
  | answers_cons w w1 w' id ids object objects :
      get_profile_sync_object profile id w = (w1, Ok object) -> ob_object_id object = id ->
      answers profile w1 ids objects w' ->
      answers profile w (id :: ids) (object :: objects) w'.

Lemma answers_app profile w w1 w' ids ids' objects objects' :
  answers profile w ids objects w1 -> answers profile w1 ids' objects' w' ->
  answers profile w (ids ++ ids') (objects ++ objects') w'.
Proof. induction 1; [done|]. intros. simpl. econstructor; eauto. Qed.

Lemma answers_ids profile w ids objects w' :
  answers profile w ids objects w' -> map ob_object_id objects = ids.
Proof. induction 1; simpl; congruence. Qed.

Lemma fetch_ok profile id s s' object :
  fetch_trusted_profile_sync_object profile id s = (s', Ok object) ->
  s'.2 = s.2 /\ answers profile s.1 [id] [object] s'.1.
Proof.
  unfold fetch_trusted_profile_sync_object.
  intros (s1 & o & [Hg Hd]%on_source_ok & Hr)%sr_bind_ok.
  destruct (str_eqb (ob_object_id o) id) eqn:Hid; [|done]. apply str_eqb_eq in Hid.
  injection Hr as <- <-. split; [done|]. econstructor; [done..|constructor].
Qed.

Lemma fetch_all_ok profile ids s s' objects :
  fetch_trusted_profile_sync_objects profile ids s = (s', Ok objects) ->
  s'.2 = s.2 /\ answers profile s.1 ids objects s'.1.
Proof.
  revert s s' objects. induction ids as [|id ids IH]; intros s s' objects; simpl.
  - intros [= <- <-]. split; [done|constructor].
  - intros (s1 & o & [Hd Hid]%fetch_ok & Hr)%sr_bind_ok.
    apply sr_bind_ok in Hr as (s2 & os & [Hd2 Hids]%IH & [= <- <-]).
    split; [congruence|]. exact (answers_app profile _ _ _ [id] ids [o] os Hid Hids).
Qed.

(** The objects of a manifest, as a source answers them. *)
Record pulled_objects (profile ck key_id : string) (db : ProfileDb)
    (objects : VerifiedProfileSyncSettingsManifestObjects)
    (manifest_object : ProfileSyncObjectBytes) (snapshot_object : option ProfileSyncObjectBytes)
    (tail_objects : list ProfileSyncObjectBytes) : Prop := {
  po_snapshot_id :
    ob_object_id <$> snapshot_object = mf_current_snapshot_object_id (vm_manifest objects);
  po_tail_ids : map ob_object_id tail_objects = mf_tail_change_object_ids (vm_manifest objects);
  po_opened :
    open_trusted_signed_profile_sync_settings_manifest_objects codec manifest_object
      snapshot_object tail_objects ck profile key_id db = (db, Ok objects)
}.

(** Opening a manifest on its own and with its objects yields the same manifest. *)
Lemma opened_manifest_same o snapshot tails ck profile key_id db manifest objects db' :
  open_trusted_signed_profile_sync_manifest codec (ob_bytes o) ck profile key_id db
    = (db', Ok manifest) ->
  open_trusted_signed_profile_sync_settings_manifest_objects codec o snapshot tails ck profile
    key_id db = (db, Ok objects) ->
  vm_manifest objects = manifest.
Proof.
  intros Hm. unfold open_trusted_signed_profile_sync_settings_manifest_objects.
  intros (db1 & m & Hm' & Hr)%sr_bind_ok. rewrite Hm in Hm'. injection Hm' as <- <-.
  apply sr_bind_ok in Hr as (db2 & u & _ & Hr). apply sr_bind_ok in Hr as (db3 & s & _ & Hr).
  by apply sr_bind_ok in Hr as (db4 & t & _ & [= _ <-]).
Qed.

Lemma pull_by_id_ok profile id ck key_id s s' objects :
  pull_trusted_signed_profile_sync_settings_manifest_objects_by_id codec profile id ck key_id s
    = (s', Ok objects) ->
  s'.2 = s.2 /\ vm_manifest_object_id objects = id /\
  exists manifest_object snapshot_object tail_objects,
    ob_object_id manifest_object = id /\
    answers profile s.1
      (id :: option_list (mf_current_snapshot_object_id (vm_manifest objects))
          ++ mf_tail_change_object_ids (vm_manifest objects))
      (manifest_object :: option_list snapshot_object ++ tail_objects) s'.1 /\
    pulled_objects profile ck key_id s.2 objects manifest_object snapshot_object tail_objects.
Proof.
  unfold pull_trusted_signed_profile_sync_settings_manifest_objects_by_id.
  intros (s1 & o & [Hd1 Hid]%fetch_ok & Hr)%sr_bind_ok.
  apply sr_bind_ok in Hr as (s2 & manifest & [Hm Hw]%on_database_ok & Hr).
  assert (Hd2 : s2.2 = s1.2).
  { pose proof (open_manifest_read_only codec (ob_bytes o) ck profile key_id s1.2) as Hro.
    by rewrite Hm in Hro. }
  apply sr_bind_ok in Hr as (s3 & snapshot & Hs & Hr).
  assert (Hs3 : s3.2 = s2.2 /\ answers profile s2.1
    (option_list (mf_current_snapshot_object_id manifest)) (option_list snapshot) s3.1).
  { unfold fetch_optional_profile_sync_object in Hs.
    destruct (mf_current_snapshot_object_id manifest) as [sid|].
    - by apply sr_bind_ok in Hs as (s4 & so & [Hd Hso]%fetch_ok & [= <- <-]).
    - injection Hs as <- <-. split; [done|constructor]. }
  destruct Hs3 as [Hd3 Hsnap].
  apply sr_bind_ok in Hr as (s4 & tails & [Hd4 Htails]%fetch_all_ok & Hr).
  apply on_database_ok in Hr as [Ho Hw4].
  assert (Hdb : s4.2 = s.2) by congruence. rewrite Hdb in Ho.
  pose proof (open_objects_read_only codec o snapshot tails ck profile key_id s.2) as Hro.
  rewrite Ho in Hro. simpl in Hro. rewrite Hro in Ho.
  rewrite Hd1 in Hm. pose proof (opened_manifest_same _ _ _ _ _ _ _ _ _ _ Hm Ho) as Hmm.
  pose proof (answers_ids _ _ _ _ _ Hid) as Hoid. injection Hoid as Hoid.
  split; [done|]. split.
  { apply opened_objects_authentic in Ho as (_ & -> & _). done. }
  exists o, snapshot, tails. split; [done|]. rewrite Hmm, Hw4. split.
  { apply (answers_app profile _ _ _ [id] _ [o] _ Hid). rewrite <-Hw.
    by eapply answers_app. }
  apply answers_ids in Hsnap, Htails. split; [|congruence|done]. rewrite Hmm.
  by destruct snapshot, (mf_current_snapshot_object_id manifest); simplify_eq/=.
Qed.
End Pulling.

(** ** Theorems *)

Section PullTheorems.
Context (codec : SyncCodec) (d : PayloadDecoders) {W E : Type} `{ProfileSyncObjectSource W E}.

(** A computation that starts by reading fails there, or goes on from the same database. *)
Lemma bind_reading {F A B} (m : state_result (W * ProfileDb) F A)
    (k : A -> state_result (W * ProfileDb) F B) s s' r :
  sr_bind m k s = (s', r) -> preserves (db_is s.2) m ->
  (exists e, r = Err e /\ s'.2 = s.2) \/
  (exists s1 a, m s = (s1, Ok a) /\ s1.2 = s.2 /\ k a s1 = (s', r)).
Proof.
  unfold sr_bind. intros Hb Hm. specialize (Hm s eq_refl). unfold db_is in Hm.
  destruct (m s) as [s1 [a|e]]; simpl in Hm.
  - right. by exists s1, a.
  - left. injection Hb as <- <-. eauto.
Qed.

Lemma active_key_ok profile db db' key :
  active_content_key profile db = (db', Ok key) <->
  db' = db /\ active_sync_content_key_epoch profile db = Some key /\
  ke_algorithm key = PROFILE_SYNC_CONTENT_KEY_ALGORITHM_CHACHA20_POLY1305.
Proof.
  unfold active_content_key, sr_bind, query, sr_lift. simpl.
  destruct (active_sync_content_key_epoch profile db) as [k|]; simpl; [|naive_solver].
  unfold validate_active_sync_content_key_epoch.
  destruct (str_eqb (ke_algorithm k) _) eqn:Ha; simpl;
    [apply str_eqb_eq in Ha|apply str_eqb_neq in Ha]; unfold sr_ret; naive_solver.
Qed.

Lemma key_for_manifest_ok key manifest u :
  validate_sync_content_key_epoch_for_manifest key manifest = Ok u <->
  ke_membership_epoch key <= mf_membership_epoch manifest.
Proof.
  unfold validate_sync_content_key_epoch_for_manifest. destruct u.
  destruct (Z.ltb_spec (mf_membership_epoch manifest) (ke_membership_epoch key)); split;
    try done; lia.
Qed.

Lemma pull_and_apply_active_outcome profile root_id ck now s s' r :
  pull_and_apply_active_trusted_signed_settings_manifest_objects codec d profile root_id ck now s
    = (s', r) ->
  match r with
  | Ok (Some application) =>
      exists key objects manifest_object snapshot_object tail_objects w1,
        active_sync_content_key_epoch profile s.2 = Some key /\
        ke_algorithm key = PROFILE_SYNC_CONTENT_KEY_ALGORITHM_CHACHA20_POLY1305 /\
        ke_membership_epoch key <= mf_membership_epoch (vm_manifest objects) /\
        resolve_profile_sync_root profile root_id s.1
          = (w1, Ok (Some (ob_object_id manifest_object))) /\
        answers profile w1
          (ob_object_id manifest_object
             :: option_list (mf_current_snapshot_object_id (vm_manifest objects))
                ++ mf_tail_change_object_ids (vm_manifest objects))
          (manifest_object :: option_list snapshot_object ++ tail_objects) s'.1 /\
        pulled_objects codec profile ck (ke_key_id key) s.2 objects manifest_object
          snapshot_object tail_objects /\
        apply_verified_settings_manifest_objects d objects now s.2 = (s'.2, Ok application)
  | _ => s'.2 = s.2
  end.
Proof.
  unfold pull_and_apply_active_trusted_signed_settings_manifest_objects. intros Hp.
  apply bind_reading in Hp as [(e & -> & Hs)|(s1 & key & Hk & Hs1 & Hp)]; [done| |].
  2: { apply on_database_keeps, active_content_key_read_only. }
  apply on_database_ok in Hk as [(_ & Hk & Ha)%active_key_ok Hw1].
  apply bind_reading in Hp as [(e & -> & Hs)|(s2 & objects & Ho & Hs2 & Hp)]; [congruence| |].
  2: { apply preserves_map_err, pull_objects_keeps. }
  apply sr_map_err_ok in Ho. destruct objects as [objects|]; [|injection Hp as <- <-; congruence].
  unfold pull_trusted_signed_profile_sync_settings_manifest_objects in Ho.
  apply sr_bind_ok in Ho as (s3 & resolved & [Hres Hs3]%on_source_ok & Ho).
  destruct resolved as [id|]; [|done].
  apply sr_bind_ok in Ho as (s4 & objects' & Ho & [= <- <-]).
  apply pull_by_id_ok in Ho as (_ & _ & o & snapshot & tails & Hoid & Hans & Hpo).
  apply bind_reading in Hp as [(e & -> & Hs)|(s5 & u & Hu & Hs5 & Hp)]; [congruence| |].
  2: { by intros s6 Hs6. }
  rewrite Hw1 in Hres. unfold sr_lift in Hu. injection Hu as <- Hu.
  destruct (validate_sync_content_key_epoch_for_manifest key (vm_manifest objects')) eqn:Hv;
    [|done]. apply key_for_manifest_ok in Hv.
  unfold sr_bind, on_database in Hp. destruct s4 as [w db]. simpl in *.
  destruct (apply_verified_settings_manifest_objects d objects' now db) as [db2 r2] eqn:Happ.
  assert (Hdb : db = s.2) by congruence. rewrite Hdb in Happ.
  assert (Hdb3 : s3.2 = s.2) by congruence. rewrite Hdb3 in Hpo.
  destruct r2 as [application|e]; simpl in Hp; injection Hp as <- <-.
  - exists key, objects', o, snapshot, tails, s3.1. simpl. by rewrite Hoid.
  - simpl. by eapply transaction_err.
Qed.

(** C12: (refinement) A pull either leaves the database as it was, or it applies exactly the
    manifest the source answered: the root named an object that is not the local one, and
    the source gave, for the object the root names and for the ids of the manifest in order,
    the manifest, its snapshot and its tail. Each of them opens under the profile's active
    key, which is of a supported algorithm and no younger than the manifest, and is signed by
    a trusted device that is no storage provider, at an epoch the manifest covers. *)
Theorem pull_applies_authentic profile root_id ck now w db w' db' r :
  pull_and_apply_active_trusted_signed_settings_manifest_objects_if_changed codec d profile
    root_id ck now (w, db) = ((w', db'), r) ->
  match r with
  | Ok (PullApplied application) =>
      exists published local w1 w2 key objects manifest_object snapshot_object tail_objects,
        let manifest := vm_manifest objects in
        let opens {A} (decode : string -> result string A) kind :=
          opened_as codec decode kind db ck profile (ke_key_id key)
            (mf_membership_epoch manifest) in
        resolve_profile_sync_root profile root_id w = (w1, Ok (Some published)) /\
        (profile_sync_root profile root_id db).2 = Ok local /\
        pr_object_id <$> local <> Some published /\
        resolve_profile_sync_root profile root_id w1
          = (w2, Ok (Some (ob_object_id manifest_object))) /\
        answers profile w2
          (ob_object_id manifest_object :: option_list (mf_current_snapshot_object_id manifest)
             ++ mf_tail_change_object_ids manifest)
          (manifest_object :: option_list snapshot_object ++ tail_objects) w' /\
        active_sync_content_key_epoch profile db = Some key /\
        ke_algorithm key = PROFILE_SYNC_CONTENT_KEY_ALGORITHM_CHACHA20_POLY1305 /\
        ke_membership_epoch key <= mf_membership_epoch manifest /\
        opens (manifest_from_slice codec) PROFILE_SYNC_MANIFEST_OBJECT_KIND manifest_object
          manifest /\
        match snapshot_object, vm_snapshot objects with
        | None, None => True
        | Some object, Some snapshot =>
            opens (settings_snapshot_from_slice codec) PROFILE_SYNC_SETTINGS_SNAPSHOT_OBJECT_KIND
              object (vs_snapshot snapshot)
        | _, _ => False
        end /\
        Forall2 (tail_opened codec db ck profile (ke_key_id key) (mf_membership_epoch manifest))
          tail_objects (vm_tail_changes objects) /\
        apply_verified_settings_manifest_objects d objects now db = (db', Ok application)
  | _ => db' = db
  end.
Proof.
  unfold pull_and_apply_active_trusted_signed_settings_manifest_objects_if_changed. intros Hp.
  apply bind_reading in Hp as [(e & -> & Hs)|(s1 & resolved & Hres & Hs1 & Hp)]; [done| |].
  2: { apply on_source_keeps. }
  apply on_source_ok in Hres as [Hres _].
  destruct resolved as [id|]; [|unfold sr_ret in Hp; by simplify_eq/=].
  apply bind_reading in Hp as [(e & -> & Hs)|(s2 & local_root & Hloc & Hs2 & Hp)];
    [simpl in *; congruence| |].
  2: { apply on_database_keeps, profile_sync_root_read_only. }
  apply on_database_ok in Hloc as [Hloc Hw2].
  destruct (match local_root with Some _ => _ | None => _ end) eqn:Hsame;
    [unfold sr_ret in Hp; simplify_eq/=; congruence|].
  assert (pr_object_id <$> local_root <> Some id) as Hother.
  { destruct local_root as [root|]; [|done]. apply str_eqb_neq in Hsame. simpl. congruence. }
  unfold sr_bind in Hp.
  destruct (pull_and_apply_active_trusted_signed_settings_manifest_objects _ _ _ _ _ _ _)
    as [s3 r3] eqn:Hpull.
  apply pull_and_apply_active_outcome in Hpull. simpl in *.
  assert (Hdb : s2.2 = db) by congruence. rewrite Hdb, Hw2 in Hpull. rewrite Hs1 in Hloc.
  destruct r3 as [[application|]|e]; unfold sr_ret in Hp; simplify_eq/=; try done.
  destruct Hpull as (key & objects & o & snapshot & tails & w2 & Hk & Ha & Hkm & Hres2 & Hans
    & [_ _ Ho] & Happ).
  pose proof (opened_objects_authentic _ _ _ _ _ _ _ _ _ _ Ho) as (_ & _ & Hm & Hsnap & Ht).
  exists id, local_root, s1.1, w2, key, objects, o, snapshot, tails. cbn zeta.
  split_and!; try done; [by rewrite Hloc|].
  by destruct snapshot, (vm_snapshot objects); try done; destruct Hsnap.
Qed.

(** The source answers the root with the manifest object, and each object of the manifest
    under its id. *)
Record serves (w : W) (profile root_id : string) (manifest_object : ProfileSyncObjectBytes)
    (snapshot_object : option ProfileSyncObjectBytes)
    (tail_objects : list ProfileSyncObjectBytes) : Prop := {
  sv_root : resolve_profile_sync_root profile root_id w
            = (w, Ok (Some (ob_object_id manifest_object)));
  sv_get object : object ∈ manifest_object :: option_list snapshot_object ++ tail_objects ->
    get_profile_sync_object profile (ob_object_id object) w = (w, Ok object)
}.

Lemma fetch_served profile (w : W) (db : ProfileDb) object :
  get_profile_sync_object profile (ob_object_id object) w = (w, Ok object) ->
  fetch_trusted_profile_sync_object profile (ob_object_id object) (w, db) = ((w, db), Ok object).
Proof.
  intros Hg. unfold fetch_trusted_profile_sync_object, sr_bind, on_source. rewrite Hg. simpl.
  by rewrite str_eqb_refl.
Qed.

Lemma fetch_all_served profile (w : W) (db : ProfileDb) objects :
  (forall object, object ∈ objects ->
     get_profile_sync_object profile (ob_object_id object) w = (w, Ok object)) ->
  fetch_trusted_profile_sync_objects profile (map ob_object_id objects) (w, db)
  = ((w, db), Ok objects).
Proof.
  induction objects as [|o objects IH]; intros Hg; simpl; [done|]. unfold sr_bind at 1.
  rewrite fetch_served by (apply Hg; left). unfold sr_bind. rewrite IH; [done|].
  intros o' Ho'. apply Hg. by right.
Qed.

Lemma pull_by_id_served profile ck key_id w db objects o snapshot tails :
  (forall object, object ∈ o :: option_list snapshot ++ tails ->
     get_profile_sync_object profile (ob_object_id object) w = (w, Ok object)) ->
  pulled_objects codec profile ck key_id db objects o snapshot tails ->
  pull_trusted_signed_profile_sync_settings_manifest_objects_by_id codec profile
    (ob_object_id o) ck key_id (w, db) = ((w, db), Ok objects).
Proof.
  intros Hget [Hsid Htid Ho].
  unfold pull_trusted_signed_profile_sync_settings_manifest_objects_by_id, sr_bind.
  rewrite fetch_served by (apply Hget; left).
  assert (Hm : open_trusted_signed_profile_sync_manifest codec (ob_bytes o) ck profile key_id db
               = (db, Ok (vm_manifest objects))).
  { pose proof Ho as Ho'.
    unfold open_trusted_signed_profile_sync_settings_manifest_objects in Ho'.
    apply sr_bind_ok in Ho' as (db1 & m & Hm & _).
    pose proof (open_manifest_read_only codec (ob_bytes o) ck profile key_id db) as Hro.
    rewrite Hm in Hro. simpl in Hro. subst db1.
    by rewrite (opened_manifest_same codec _ _ _ _ _ _ _ _ _ _ Hm Ho). }
  unfold on_database at 1. rewrite Hm. simpl.
  assert (Hs : fetch_optional_profile_sync_object profile
    (mf_current_snapshot_object_id (vm_manifest objects)) (w, db) = ((w, db), Ok snapshot)).
  { rewrite <-Hsid. destruct snapshot as [s|]; simpl; [|done]. unfold sr_bind.
    rewrite fetch_served; [done|]. apply Hget. right. left. }
  rewrite Hs, <-Htid, fetch_all_served.
  2: { intros x Hx. apply Hget. right. apply elem_of_app. by right. }
  unfold on_database. by rewrite Ho.
Qed.

(** C13: (liveness) A published manifest arrives: when the source answers the root and the
    objects, they open under the active key and apply, the manifest names the profile and the
    root it is published under, and the local root is unset or names another object, one pull
    applies it and every further pull finds it unchanged. *)
Theorem pull_settles profile root_id ck now w db db' key objects o snapshot tails application
    local :
  store_ok db ->
  serves w profile root_id o snapshot tails ->
  active_sync_content_key_epoch profile db = Some key ->
  ke_algorithm key = PROFILE_SYNC_CONTENT_KEY_ALGORITHM_CHACHA20_POLY1305 ->
  ke_membership_epoch key <= mf_membership_epoch (vm_manifest objects) ->
  pulled_objects codec profile ck (ke_key_id key) db objects o snapshot tails ->
  mf_profile (vm_manifest objects) = profile -> mf_root_id (vm_manifest objects) = root_id ->
  apply_verified_settings_manifest_objects d objects now db = (db', Ok application) ->
  (profile_sync_root profile root_id db).2 = Ok local ->
  pr_object_id <$> local <> Some (ob_object_id o) ->
  let pull :=
    pull_and_apply_active_trusted_signed_settings_manifest_objects_if_changed codec d profile
      root_id ck in
  pull now (w, db) = ((w, db'), Ok (PullApplied application)) /\
  forall now', pull now' (w, db')
    = ((w, db'), Ok (PullUnchanged profile root_id (ob_object_id o))).
Proof.
  intros Hok [Hroot Hserves] Hkey Halg Hepoch Hpo Hp Hr Happ Hlocal Hother.
  pose proof (pull_by_id_served _ _ _ _ _ _ _ _ _ Hserves Hpo) as Hpull.
  assert (Hkeep : forall db, (profile_sync_root profile root_id db).1 = db)
    by apply profile_sync_root_read_only.
  split.
  - unfold pull_and_apply_active_trusted_signed_settings_manifest_objects_if_changed, sr_bind,
      on_source. rewrite Hroot. simpl. unfold on_database.
    specialize (Hkeep db). destruct (profile_sync_root profile root_id db) as [db1 r1].
    simpl in Hkeep, Hlocal. subst db1 r1. simpl.
    assert (match local with
            | Some root => str_eqb (pr_object_id root) (ob_object_id o) | None => false end
            = false) as ->.
    { destruct local as [root|]; [|done]. apply str_eqb_neq. simpl in Hother. congruence. }
    unfold pull_and_apply_active_trusted_signed_settings_manifest_objects, sr_bind.
    unfold on_database.
    rewrite (proj2 (active_key_ok profile db db key)) by done. simpl.
    unfold sr_map_err, pull_trusted_signed_profile_sync_settings_manifest_objects, sr_bind,
      on_source. rewrite Hroot. simpl. rewrite Hpull. simpl. unfold sr_lift.
    rewrite (proj2 (key_for_manifest_ok key (vm_manifest objects) tt)) by done. simpl.
    unfold on_database. by rewrite Happ.
  - intros now'.
    unfold pull_and_apply_active_trusted_signed_settings_manifest_objects_if_changed, sr_bind,
      on_source. rewrite Hroot. simpl. unfold on_database.
    specialize (Hkeep db').
    pose proof (manifest_application_spec _ _ _ _ _ _ _ _ _ Hok Happ) as (_ & _ & _ & _ & Hset).
    rewrite Hp, Hr in Hset.
    destruct (profile_sync_root profile root_id db') as [db1 r1]. simpl in Hkeep, Hset.
    subst db1 r1. simpl.
    assert (Hid : vm_manifest_object_id objects = ob_object_id o).
    { destruct Hpo as [_ _ Ho]. by apply opened_objects_authentic in Ho as (_ & -> & _). }
    by rewrite Hid, str_eqb_refl.
Qed.
End PullTheorems.

(** ** Witnesses *)

(** A source that answers one root and a table of objects. *)
Definition table_source (root : string) (objects : list (string * string)) :
    ProfileSyncObjectSource unit string := {|
  resolve_profile_sync_root := fun _ _ => sr_ret (Some root);
  list_profile_sync_root_candidates :=
    list_resolved_root_candidates (fun _ _ => sr_ret (Some root));
  get_profile_sync_object := fun _ object_id =>
    match list_find_bool (fun entry => str_eqb entry.1 object_id) objects with
    | Some (_, bytes) => sr_ret {| ob_object_id := object_id; ob_bytes := bytes |}
    | None => sr_err "no object"
    end
|}.

(** Device [a] is trusted and [k1] is the active key. *)
Definition pull_db : ProfileDb :=
  (register_sync_content_key_epoch (demo_key "k1") 1 (roster_db ["enroll-a"])).1.

Definition demo_source : ProfileSyncObjectSource unit string :=
  table_source "o1" [("o1", PROFILE_SYNC_MANIFEST_OBJECT_KIND);
                     ("o2", PROFILE_SYNC_SETTING_CHANGE_OBJECT_KIND)].

Definition manifest_object_o1 : ProfileSyncObjectBytes :=
  {| ob_object_id := "o1"; ob_bytes := PROFILE_SYNC_MANIFEST_OBJECT_KIND |}.
Definition tail_object_o2 : ProfileSyncObjectBytes :=
  {| ob_object_id := "o2"; ob_bytes := PROFILE_SYNC_SETTING_CHANGE_OBJECT_KIND |}.

Lemma demo_pulled_objects :
  pulled_objects demo_open_codec "default" "content key" "k1" pull_db demo_objects
    manifest_object_o1 None [tail_object_o2].
Proof.
  split; [reflexivity|reflexivity|].
  pose proof (open_objects_read_only demo_open_codec manifest_object_o1 None [tail_object_o2]
    "content key" "default" "k1" pull_db) as Hro.
  destruct (open_trusted_signed_profile_sync_settings_manifest_objects demo_open_codec
    manifest_object_o1 None [tail_object_o2] "content key" "default" "k1" pull_db) as [db r] eqn:E.
  simpl in Hro. subst db. f_equal. refine (eq_trans (eq_sym (f_equal snd E)) _).
  vm_compute. reflexivity.
Qed.

Lemma demo_serves :
  serves (H := demo_source) tt "default" "settings" manifest_object_o1 None [tail_object_o2].
Proof.
  split; [reflexivity|]. intros object Hobject.
  repeat (apply elem_of_cons in Hobject as [->|Hobject]; [reflexivity|]).
  by apply elem_of_nil in Hobject.
Qed.

Lemma pull_db_store_ok : store_ok pull_db.
Proof.
  refine (store_ok_ext empty_db pull_db _ _ _ store_ok_empty); vm_compute; reflexivity.
Qed.

Definition demo_pull (now : Z) (db : ProfileDb) :=
  pull_and_apply_active_trusted_signed_settings_manifest_objects_if_changed demo_open_codec
    no_payloads (H := demo_source) "default" "settings" "content key" now (tt, db).

Lemma pull_settles_witness :
  exists db' application,
    demo_pull 9 pull_db = ((tt, db'), Ok (PullApplied application)) /\
    forall now', demo_pull now' (db')
      = ((tt, db'), Ok (PullUnchanged "default" "settings" "o1")).
Proof.
  destruct (apply_verified_settings_manifest_objects no_payloads demo_objects 9 pull_db)
    as [db' [application|e]] eqn:E.
  - exists db', application.
    refine (pull_settles (H := demo_source) demo_open_codec no_payloads "default" "settings"
      "content key" 9 tt pull_db db'
      (registered_key (demo_key "k1") 1 (roster_db ["enroll-a"])) demo_objects manifest_object_o1
      None [tail_object_o2] application None pull_db_store_ok demo_serves _ _ _
      demo_pulled_objects _ _ E _ _); vm_compute; reflexivity || discriminate.
  - exfalso. apply (f_equal snd) in E. vm_compute in E. discriminate.
Defined.

Lemma pull_applies_authentic_witness :
  exists application db',
    demo_pull 9 pull_db = ((tt, db'), Ok (PullApplied application)) /\
    exists objects,
      apply_verified_settings_manifest_objects no_payloads objects 9 pull_db
      = (db', Ok application).
Proof.
  destruct (demo_pull 9 pull_db) as [[[] db'] r] eqn:E.
  pose proof (pull_applies_authentic (H := demo_source) demo_open_codec no_payloads "default"
    "settings" "content key" 9 tt pull_db tt db' r E) as Hp.
  apply (f_equal snd) in E. simpl in E.
  destruct r as [[|? ? ?|application]|e]; [vm_compute in E; discriminate..| |].
  - exists application, db'. split; [reflexivity|].
    destruct Hp as (? & ? & ? & ? & key & objects & o & s & t & Hp). exists objects. apply Hp.
  - vm_compute in E. discriminate.
Defined.

(** ** The profile of a manifest *)

(** A manifest sealed for the profile [default] whose text names the profile [other]. *)
Definition foreign_manifest : ProfileSyncManifest :=
  {| mf_profile := "other"; mf_root_id := "settings"; mf_schema_version := 1;
     mf_membership_epoch := 1; mf_current_snapshot_object_id := Some "o3";
     mf_tail_change_object_ids := []; mf_included_domains := ["settings"];
     mf_device_frontiers := []; mf_retention_policy := mf_retention_policy demo_manifest;
     mf_created_at := 1 |}.

Definition foreign_snapshot : ProfileSyncSettingsSnapshot :=
  {| sp_profile := "other"; sp_schema_version := 1; sp_covers_revision := 1;
     sp_included_domains := ["settings"];
     sp_values := [{| ss_domain := "settings"; ss_key := "theme"; ss_value := "dark";
                      ss_value_kind := "text"; ss_revision := 1 |}];
     sp_created_at := 1 |}.

Definition foreign_codec : SyncCodec := {|
  signed_object_from_slice := signed_object_from_slice demo_open_codec;
  encrypted_object_from_slice := encrypted_object_from_slice demo_open_codec;
  membership_record_from_slice := membership_record_from_slice demo_open_codec;
  device_head_from_slice := device_head_from_slice demo_open_codec;
  manifest_from_slice := fun _ => Ok foreign_manifest;
  settings_snapshot_from_slice := fun _ => Ok foreign_snapshot;
  setting_change_from_slice := setting_change_from_slice demo_open_codec;
  ed25519_verify := ed25519_verify demo_open_codec;
  chacha20_poly1305_open := chacha20_poly1305_open demo_open_codec
|}.

Definition foreign_source : ProfileSyncObjectSource unit string :=
  table_source "o1" [("o1", PROFILE_SYNC_MANIFEST_OBJECT_KIND);
                     ("o3", PROFILE_SYNC_SETTINGS_SNAPSHOT_OBJECT_KIND)].

(** The profile inside a manifest is not compared with the profile it is pulled
    for: a device that is trusted in one profile writes the settings of another, in which it
    holds no key, and the root of the pulled profile stays unset. *)
Example pull_writes_foreign_profile :
  let '(s', r) := pull_and_apply_active_trusted_signed_settings_manifest_objects_if_changed
    foreign_codec no_payloads (H := foreign_source) "default" "settings" "content key" 9
    (tt, pull_db) in
  (exists application, r = Ok (PullApplied application)) /\
  sync_device_public_keys "other" pull_db = [] /\
  get_sync_setting_text "other" "settings" "theme" pull_db = None /\
  sv_value <$> get_sync_setting_text "other" "settings" "theme" s'.2 = Some "dark" /\
  (profile_sync_root "default" "settings" s'.2).2 = Ok None.
Proof.
  destruct (pull_and_apply_active_trusted_signed_settings_manifest_objects_if_changed
    foreign_codec no_payloads "default" "settings" "content key" 9 (tt, pull_db)) as [s' r] eqn:E.
  vm_compute in E. injection E as <- <-. split; [eauto|]. vm_compute. done.
Qed.
