(* ===== verification/Routing.v ===== *)
(** * Multiaddresses and routing plans

    Models [crates/routing/src/lib.rs], and the socket addresses of [std::net] that the
    endpoints of the daemon and of profile sync are read as. *)
From S2P Require Import Prelude RustStr.

(** ** Multiaddresses *)

(** [Multiaddr(String)]: [parse] is its only constructor. *)
Record Multiaddr := { as_str : string }.
#[export] Instance Multiaddr_eq_dec : EqDecision Multiaddr.
Proof. solve_decision. Defined.

Inductive MultiaddrError :=
  | Empty
  | MissingLeadingSlash
  | EmptySegment
  | InvalidSegment (segment : string).
#[export] Instance MultiaddrError_eq_dec : EqDecision MultiaddrError.
Proof. solve_decision. Defined.

Definition multiaddr_segment_byte (c : ascii) : bool :=
  is_ascii_alphanumeric c || one_of "-_.:~%+=" c.

(** A character outside ASCII is refused, as each of its bytes is. *)
Definition is_valid_multiaddr_segment (segment : string) : bool :=
  negb (is_empty segment) && (str_len segment <=? 512) && all_bytes multiaddr_segment_byte segment.

Definition multiaddr_from_str (input : string) : result MultiaddrError Multiaddr :=
  if is_empty input then Err Empty
  else if negb (starts_with "/" input) then Err MissingLeadingSlash
  else if existsb is_empty (drop 1 (str_split "/" input)) then Err EmptySegment
  else match list_find_bool (fun segment => negb (is_valid_multiaddr_segment segment))
               (drop 1 (str_split "/" input)) with
       | Some segment => Err (InvalidSegment segment)
       | None => Ok {| as_str := input |}
       end.

Definition multiaddr_parse (input : string) : result MultiaddrError Multiaddr :=
  multiaddr_from_str input.

Definition segments (m : Multiaddr) : list string :=
  List.filter (fun segment => negb (is_empty segment)) (str_split "/" (as_str m)).

Definition show_multiaddr_error (e : MultiaddrError) : string :=
  match e with
  | Empty => "multiaddr is empty"
  | MissingLeadingSlash => "multiaddr must start with '/'"
  | EmptySegment => "multiaddr contains an empty segment"
  | InvalidSegment segment => "invalid multiaddr segment: " +:+ segment
  end.

Inductive RoutingMode := Direct | Gateway | Proxy | Internal.

Record RoutingPlan := {
  rp_source : string;
  rp_endpoint : Multiaddr;
  rp_mode : RoutingMode;
  rp_privacy_boundary : string
}.

Definition routing_plan_new (source : string) (endpoint : Multiaddr) (mode : RoutingMode)
    (privacy_boundary : string) : RoutingPlan :=
  {| rp_source := source; rp_endpoint := endpoint; rp_mode := mode;
     rp_privacy_boundary := privacy_boundary |}.

(** ** Socket addresses

    [std::net]'s parser: each reader answers what it read and the rest, or nothing and
    the input is as before. *)

Definition reader (A : Type) : Type := string -> option (A * string).

Definition read_given_char (c : ascii) : reader unit := fun s =>
  match s with
  | String c' s => if Ascii.eqb c' c then Some (tt, s) else None
  | EmptyString => None
  end.

(** The digits at the front: their value, bounded by [max] while it is accumulated, and
    their number; [None] when the bound is passed. *)
Fixpoint read_digits (radix max acc : Z) (count : Z) (s : string) : option (Z * Z * string) :=
  match s with
  | EmptyString => Some (acc, count, s)
  | String c rest =>
      match to_digit radix c with
      | None => Some (acc, count, s)
      | Some digit =>
          let acc := acc * radix + digit in
          if max <? acc then None else read_digits radix max acc (count + 1) rest
      end
  end.

(** [read_number]: [max_digits] bounds the number of digits, [max] is the largest value of
    the type. *)
Definition read_number (radix max : Z) (max_digits : option Z) (allow_zero_prefix : bool) :
    reader Z := fun s =>
  match read_digits radix
          (match max_digits with Some _ => radix ^ 5 | None => max end) 0 0 s with
  | None => None
  | Some (value, count, rest) =>
      let too_many := match max_digits with Some d => d <? count | None => false end in
      if too_many || (count =? 0)
         || (negb allow_zero_prefix && starts_with "0" s && (1 <? count))
         || (max <? value)
      then None else Some (value, rest)
  end.

(** [read_separator(sep, index, inner)]: no separator before the first item. *)
Definition read_separator {A} (sep : ascii) (first : bool) (inner : reader A) : reader A :=
  fun s =>
    if first then inner s
    else match read_given_char sep s with
         | Some (_, s) => inner s
         | None => None
         end.

Definition read_octet (first : bool) : reader Z :=
  read_separator "." first (read_number 10 255 (Some 3) false).

Definition read_ipv4_addr : reader (Z * Z * Z * Z) := fun s =>
  match read_octet true s with
  | Some (a, s) =>
      match read_octet false s with
      | Some (b, s) =>
          match read_octet false s with
          | Some (c, s) =>
              match read_octet false s with
              | Some (d, s) => Some ((a, b, c, d), s)
              | None => None
              end
          | None => None
          end
      | None => None
      end
  | None => None
  end.

(** At most [limit] groups of an IPv6 address, the last two possibly as an IPv4 address:
    the groups, whether they end so, and the rest. *)
Fixpoint read_groups (limit : nat) (first : bool) (s : string) : list Z * bool * string :=
  match limit with
  | O => ([], false, s)
  | S more =>
      let group :=
        match read_separator ":" first (read_number 16 u16_max (Some 4) true) s with
        | Some (g, s) => let '(gs, v4, s) := read_groups more false s in (g :: gs, v4, s)
        | None => ([], false, s)
        end in
      match more with
      | O => group
      | S _ =>
          match read_separator ":" first read_ipv4_addr s with
          | Some ((a, b, c, d), s) => ([a * 256 + b; c * 256 + d], true, s)
          | None => group
          end
      end
  end.

Definition read_ipv6_addr : reader (list Z) := fun s =>
  let '(head, head_ipv4, s) := read_groups 8 true s in
  if Z.of_nat (length head) =? 8 then Some (head, s)
  else if head_ipv4 then None
  else match read_given_char ":" s with
       | Some (_, s) =>
           match read_given_char ":" s with
           | Some (_, s) =>
               let '(tail, _, s) := read_groups (7 - length head) true s in
               Some (head ++ repeat 0 (8 - length head - length tail) ++ tail, s)
           | None => None
           end
       | None => None
       end.

Inductive IpAddr :=
  | V4 (a b c d : Z)
  | V6 (groups : list Z).
#[export] Instance IpAddr_eq_dec : EqDecision IpAddr.
Proof. solve_decision. Defined.

Record SocketAddr := { sa_ip : IpAddr; sa_port : Z; sa_scope_id : Z }.
#[export] Instance SocketAddr_eq_dec : EqDecision SocketAddr.
Proof. solve_decision. Defined.

Definition read_port : reader Z := fun s =>
  match read_given_char ":" s with
  | Some (_, s) => read_number 10 u16_max None true s
  | None => None
  end.

Definition read_scope_id : reader Z := fun s =>
  match read_given_char "%" s with
  | Some (_, s) => read_number 10 u32_max None true s
  | None => None
  end.

Definition read_socket_addr_v4 : reader SocketAddr := fun s =>
  match read_ipv4_addr s with
  | Some ((a, b, c, d), s) =>
      match read_port s with
      | Some (port, s) =>
          Some ({| sa_ip := V4 a b c d; sa_port := port; sa_scope_id := 0 |}, s)
      | None => None
      end
  | None => None
  end.

Definition read_socket_addr_v6 : reader SocketAddr := fun s =>
  match read_given_char "[" s with
  | None => None
  | Some (_, s) =>
      match read_ipv6_addr s with
      | None => None
      | Some (groups, s) =>
          let '(scope_id, s) := default (0, s) (read_scope_id s) in
          match read_given_char "]" s with
          | None => None
          | Some (_, s) =>
              match read_port s with
              | Some (port, s) =>
                  Some ({| sa_ip := V6 groups; sa_port := port; sa_scope_id := scope_id |}, s)
              | None => None
              end
          end
      end
  end.

(** [parse_with]: the whole input. *)
Definition parse_with {A} (r : reader A) (s : string) : option A :=
  match r s with
  | Some (a, EmptyString) => Some a
  | _ => None
  end.

Definition parse_socket_addr (s : string) : option SocketAddr :=
  parse_with (fun s => match read_socket_addr_v4 s with
                       | Some r => Some r
                       | None => read_socket_addr_v6 s
                       end) s.

Definition parse_ip_addr (s : string) : option IpAddr :=
  parse_with (fun s => match read_ipv4_addr s with
                       | Some ((a, b, c, d), s) => Some (V4 a b c d, s)
                       | None => match read_ipv6_addr s with
                                 | Some (groups, s) => Some (V6 groups, s)
                                 | None => None
                                 end
                       end) s.

Definition is_ipv4 (ip : IpAddr) : bool := match ip with V4 _ _ _ _ => true | V6 _ => false end.
Definition is_ipv6 (ip : IpAddr) : bool := negb (is_ipv4 ip).
Definition is_unspecified (ip : IpAddr) : bool :=
  match ip with
  | V4 a b c d => (a =? 0) && (b =? 0) && (c =? 0) && (d =? 0)
  | V6 groups => forallb (Z.eqb 0) groups
  end.

Example parse_socket_addrs :
  map parse_socket_addr ["127.0.0.1:80"; "[::1]:8080"; "127.0.0.01:80"; "[fe80::1%3]:1"; "1.2.3.4"]
  = [Some {| sa_ip := V4 127 0 0 1; sa_port := 80; sa_scope_id := 0 |};
     Some {| sa_ip := V6 [0; 0; 0; 0; 0; 0; 0; 1]; sa_port := 8080; sa_scope_id := 0 |};
     None;
     Some {| sa_ip := V6 [65152; 0; 0; 0; 0; 0; 0; 1]; sa_port := 1; sa_scope_id := 3 |};
     None].
Proof. vm_compute. reflexivity. Qed.
