(* ===== verification/SocketText.v ===== *)
(** * The text of socket addresses

    [Display] of the addresses of [std::net], the unsigned [FromStr] of [core::num], and
    that the parser of [Routing] reads what is displayed. *)
From S2P Require Import Prelude RustStr Routing.

(** ** Unsigned integers *)

(** [from_str] of an unsigned type whose largest value is [max]. *)
Fixpoint parse_unsigned_digits (max acc : Z) (s : string) : result string Z :=
  match s with
  | EmptyString => Ok acc
  | String c s =>
      match to_digit 10 c with
      | None => Err parse_error_digit
      | Some d =>
          let acc := acc * 10 + d in
          if max <? acc then Err parse_error_large else parse_unsigned_digits max acc s
      end
  end.

Definition parse_unsigned (max : Z) (s : string) : result string Z :=
  match s with
  | EmptyString => Err parse_error_empty
  | String c rest =>
      if Ascii.eqb c "+" then
        if is_empty rest then Err parse_error_digit else parse_unsigned_digits max 0 rest
      else parse_unsigned_digits max 0 s
  end.

Definition parse_u16 : string -> result string Z := parse_unsigned u16_max.

(** ** [Display] *)

Definition show_ipv4 (a b c d : Z) : string :=
  show a +:+ "." +:+ show b +:+ "." +:+ show c +:+ "." +:+ show d.

(** The first of the longest runs of zero groups: its start and its length. *)
Fixpoint zero_run (i start len best_start best_len : nat) (groups : list Z) : nat * nat :=
  match groups with
  | [] => (best_start, best_len)
  | g :: groups =>
      if g =? 0 then
        let start := match len with O => i | _ => start end in
        let len := S len in
        if (best_len <? len)%nat then zero_run (S i) start len start len groups
        else zero_run (S i) start len best_start best_len groups
      else zero_run (S i) O O best_start best_len groups
  end.

Definition show_groups (groups : list Z) : string := str_join ":" (map hex_u16 groups).

Definition show_ipv6 (groups : list Z) : string :=
  match groups with
  | [0; 0; 0; 0; 0; 65535; g; h] =>
      "::ffff:" +:+ show_ipv4 (g / 256) (g mod 256) (h / 256) (h mod 256)
  | _ =>
      let '(start, len) := zero_run 0 0 0 0 0 groups in
      if (1 <? len)%nat
      then show_groups (take start groups) +:+ "::" +:+ show_groups (drop (start + len) groups)
      else show_groups groups
  end.

Definition show_ip_addr (ip : IpAddr) : string :=
  match ip with V4 a b c d => show_ipv4 a b c d | V6 groups => show_ipv6 groups end.

Definition show_socket_addr (a : SocketAddr) : string :=
  match sa_ip a with
  | V4 x y z w => show_ipv4 x y z w +:+ ":" +:+ show (sa_port a)
  | V6 groups =>
      "[" +:+ show_ipv6 groups
      +:+ (if sa_scope_id a =? 0 then "" else "%" +:+ show (sa_scope_id a))
      +:+ "]:" +:+ show (sa_port a)
  end.

(** The values an [IpAddr] and a [SocketAddr] can have. *)
Definition octet (z : Z) : Prop := 0 <= z <= 255.
Definition group (z : Z) : Prop := 0 <= z <= u16_max.
Definition ip_ok (ip : IpAddr) : Prop :=
  match ip with
  | V4 a b c d => octet a /\ octet b /\ octet c /\ octet d
  | V6 groups => length groups = 8%nat /\ Forall group groups
  end.
Definition socket_addr_ok (a : SocketAddr) : Prop :=
  ip_ok (sa_ip a) /\ 0 <= sa_port a <= u16_max /\
  match sa_ip a with V4 _ _ _ _ => sa_scope_id a = 0 | V6 _ => 0 <= sa_scope_id a <= u32_max end.

Example show_socket_addrs :
  map show_socket_addr
    [ {| sa_ip := V4 127 0 0 1; sa_port := 80; sa_scope_id := 0 |};
      {| sa_ip := V6 [0; 0; 0; 0; 0; 0; 0; 1]; sa_port := 8080; sa_scope_id := 0 |};
      {| sa_ip := V6 [0; 0; 0; 0; 0; 65535; 258; 772]; sa_port := 1; sa_scope_id := 0 |};
      {| sa_ip := V6 [65152; 0; 0; 5; 0; 0; 0; 1]; sa_port := 1; sa_scope_id := 3 |};
      {| sa_ip := V6 [1; 0; 2; 3; 4; 5; 6; 0]; sa_port := 1; sa_scope_id := 0 |} ]
  = ["127.0.0.1:80"; "[::1]:8080"; "[::ffff:1.2.3.4]:1"; "[fe80:0:0:5::1%3]:1";
     "[1:0:2:3:4:5:6:0]:1"].
Proof. vm_compute. reflexivity. Qed.

(** ** What is displayed is read *)

(** The text ends, or goes on with a character that is no digit. *)
Definition no_digit (radix : Z) (s : string) : Prop :=
  match s with EmptyString => True | String c _ => to_digit radix c = None end.

Lemma read_digits_stop radix max acc count s :
  no_digit radix s -> read_digits radix max acc count s = Some (acc, count, s).
Proof. destruct s as [|c s]; simpl; [done|]. by intros ->. Qed.

Lemma read_digits_pretty max n s :
  Z.of_N n <= max -> forall count, exists k,
  read_digits 10 max 0 count (pretty_N_go n s) = read_digits 10 max (Z.of_N n) (count + k) s /\
  0 <= k /\ ((0 < n)%N -> 1 <= k) /\ forall m, 0 <= m -> Z.of_N n < 10 ^ m -> k <= m.
Proof.
  revert s. induction (N.lt_wf_0 n) as [n _ IH]. intros s Hr count.
  destruct (decide (n = 0)%N) as [->|Hn].
  { exists 0. rewrite pretty_N_go_0, Z.add_0_r. split_and!; try lia; done. }
  rewrite pretty_N_go_step by lia.
  assert (Hdiv : (n / 10 < n)%N) by (apply N.div_lt; lia).
  assert (Hmod : (n = 10 * (n / 10) + n mod 10)%N) by (apply N.div_mod; lia).
  assert (Hlt : (n mod 10 < 10)%N) by (apply N.mod_lt; lia).
  destruct (IH _ Hdiv (String (pretty_N_char (n mod 10)) s) ltac:(lia) count)
    as (k & Hk & Hk0 & _ & Hkm).
  exists (k + 1). rewrite Hk. split_and!; [|lia|lia|].
  - simpl. destruct (pretty_N_char_digit _ Hlt) as [-> _].
    replace (Z.of_N (n / 10) * 10 + Z.of_N (n mod 10)) with (Z.of_N n) by lia.
    destruct (Z.ltb_spec max (Z.of_N n)); [lia|]. by rewrite Z.add_assoc.
  - intros m Hm Hpow. destruct (decide (m = 0)) as [->|].
    { rewrite Z.pow_0_r in Hpow. lia. }
    replace m with (Z.succ (m - 1)) in Hpow by lia. rewrite Z.pow_succ_r in Hpow by lia.
    enough (k <= m - 1) by lia. apply Hkm; [lia|].
    assert (Z.of_N n = 10 * Z.of_N (n / 10) + Z.of_N (n mod 10)) by lia.
    generalize dependent (10 ^ (m - 1)). intros q Hq.
    pose proof (N2Z.is_nonneg (n mod 10)). revert H Hq H0.
    generalize (Z.of_N (n / 10)) (Z.of_N (n mod 10)). lia.
Qed.

Lemma pretty_N_go_no_zero n s :
  (0 < n)%N -> exists c r, pretty_N_go n s = String c r /\ Ascii.eqb "0" c = false.
Proof.
  revert s. induction (N.lt_wf_0 n) as [n _ IH]. intros s Hn.
  rewrite pretty_N_go_step by lia. destruct (decide (n / 10 = 0)%N) as [E|Hd].
  - rewrite E, pretty_N_go_0. do 2 eexists. split; [done|].
    assert (n < 10)%N as Hlt by (by apply N.div_small_iff in E).
    rewrite N.mod_small by done.
    destruct n as [|p]; [done|].
    destruct p as [p|p|]; try destruct p as [p|p|]; try destruct p as [p|p|];
      try destruct p as [p|p|]; try lia; reflexivity.
  - apply IH; [apply N.div_lt; lia|by apply N.neq_0_lt_0].
Qed.

Lemma pretty_app n s : pretty_N_go n "" +:+ s = pretty_N_go n s.
Proof.
  enough (forall t, pretty_N_go n t +:+ s = pretty_N_go n (t +:+ s)) as H by apply H.
  induction (N.lt_wf_0 n) as [n _ IH]. intros t.
  destruct (decide (n = 0)%N) as [->|Hn]; [by rewrite !pretty_N_go_0|].
  rewrite !(pretty_N_go_step n) by lia.
  exact (IH (n / 10)%N ltac:(apply N.div_lt; lia) (String (pretty_N_char (n mod 10)) t)).
Qed.

Lemma show_pos p s : show (Z.pos p) +:+ s = pretty_N_go (N.pos p) s.
Proof. apply (pretty_app (N.pos p)). Qed.

Lemma read_zero max rest :
  0 <= max -> no_digit 10 rest -> read_digits 10 max 0 0 (String "0" rest) = Some (0, 1, rest).
Proof.
  intros Hmax Hrest. cbn [read_digits].
  change (to_digit 10 "0") with (Some 0). cbn iota beta.
  change (0 * 10 + 0) with 0. assert ((max <? 0) = false) as -> by lia.
  by apply read_digits_stop.
Qed.

Lemma read_number_show max digits allow z rest :
  0 <= z <= max -> no_digit 10 rest ->
  match digits with Some d => 1 <= d /\ z < 10 ^ d /\ max <= 10 ^ 5 | None => True end ->
  read_number 10 max digits allow (show z +:+ rest) = Some (z, rest).
Proof.
  intros Hz Hrest Hd. destruct z as [|p|p]; [| |lia].
  - change (show 0 +:+ rest) with (String "0" rest). unfold read_number.
    rewrite read_zero by (destruct digits; lia || done). cbn [fst snd].
    assert ((max <? 0) = false) as -> by lia. rewrite orb_false_r, andb_false_r, orb_false_r.
    destruct digits as [d|]; [|done]. by assert ((d <? 1) = false) as -> by lia.
  - rewrite show_pos. unfold read_number.
    destruct (read_digits_pretty (match digits with Some _ => 10 ^ 5 | None => max end)
      (N.pos p) rest ltac:(destruct digits; [change (10 ^ 5) with 100000 in *|]; lia) 0) as (k & -> & _ & Hk1 & Hkm).
    rewrite read_digits_stop by done. rewrite Z.add_0_l. specialize (Hk1 ltac:(lia)).
    assert (starts_with "0" (pretty_N_go (N.pos p) rest) = false) as ->.
    { destruct (pretty_N_go_no_zero (N.pos p) rest ltac:(lia)) as (c & r & -> & Hc).
      unfold starts_with. cbn [strip_prefix]. by rewrite Hc. }
    rewrite andb_false_r. destruct (Z.eqb_spec k 0); [lia|].
    change (Z.of_N (N.pos p)) with (Z.pos p). assert ((max <? Z.pos p) = false) as -> by lia.
    destruct digits as [d|]; [|done]. destruct Hd as (? & ? & ?).
    pose proof (Hkm d ltac:(lia) ltac:(lia)). destruct (Z.ltb_spec d k); [lia|done].
Qed.

Lemma hex_cases (P : Z -> Prop) d :
  0 <= d < 16 -> Forall P [0; 1; 2; 3; 4; 5; 6; 7; 8; 9; 10; 11; 12; 13; 14; 15] -> P d.
Proof.
  intros Hd H. rewrite Forall_forall in H. apply H.
  assert (d = 0 \/ d = 1 \/ d = 2 \/ d = 3 \/ d = 4 \/ d = 5 \/ d = 6 \/ d = 7 \/ d = 8 \/ d = 9
    \/ d = 10 \/ d = 11 \/ d = 12 \/ d = 13 \/ d = 14 \/ d = 15) as Hcases by lia.
  repeat destruct Hcases as [->|Hcases]; subst; by repeat constructor.
Qed.

Lemma to_digit_hex d : 0 <= d < 16 -> to_digit 16 (hex_lower d) = Some d.
Proof.
  intros Hd. apply (hex_cases (fun d => to_digit 16 (hex_lower d) = Some d)); [done|].
  by repeat constructor.
Qed.

Lemma trim_zeros_hex d s :
  0 < d < 16 -> trim_zeros (String (hex_lower d) s) = String (hex_lower d) s.
Proof.
  intros Hd.
  destruct (hex_cases (fun d => d = 0 \/ trim_zeros (String (hex_lower d) s)
    = String (hex_lower d) s) d) as [->|H]; [lia| |lia|done].
  constructor; [by left|]. repeat (constructor; [by right|]). constructor.
Qed.

Lemma read_hex_digits max n z acc count rest :
  0 <= acc -> acc * 16 ^ Z.of_nat n + z mod 16 ^ Z.of_nat n <= max ->
  read_digits 16 max acc count (hex_digits n z +:+ rest)
  = read_digits 16 max (acc * 16 ^ Z.of_nat n + z mod 16 ^ Z.of_nat n) (count + Z.of_nat n) rest.
Proof.
  revert acc count. induction n as [|n IH]; intros acc count Hacc Hmax.
  - simpl. rewrite Z.pow_0_r, Z.mod_1_r, Z.add_0_r, Z.add_0_r, Z.mul_1_r. done.
  - set (d := (z / 16 ^ Z.of_nat n) mod 16).
    assert (0 <= d < 16) as Hd by (apply Z.mod_pos_bound; lia).
    assert (0 < 16 ^ Z.of_nat n) as Hpow by (apply Z.pow_pos_nonneg; lia).
    assert (z mod 16 ^ Z.of_nat (S n) = d * 16 ^ Z.of_nat n + z mod 16 ^ Z.of_nat n) as Hz.
    { rewrite Nat2Z.inj_succ, Z.pow_succ_r, (Z.mul_comm 16) by lia.
      rewrite Z.rem_mul_r by lia. unfold d. lia. }
    assert (16 ^ Z.of_nat (S n) = 16 * 16 ^ Z.of_nat n) as Hp
      by (rewrite Nat2Z.inj_succ, Z.pow_succ_r; lia).
    rewrite Hz, Hp in Hmax |- *.
    pose proof (Z.mod_pos_bound z _ Hpow).
    change (hex_digits (S n) z +:+ rest) with (String (hex_lower d) (hex_digits n z +:+ rest)).
    cbn [read_digits]. rewrite (to_digit_hex _ Hd).
    assert ((max <? acc * 16 + d) = false) as ->.
    { apply Z.ltb_ge. nia. }
    rewrite IH by nia. f_equal; [nia|lia].
Qed.

Lemma hex_step n z :
  0 <= z < 16 ^ Z.of_nat (S n) -> z < 16 ^ Z.of_nat n \/ 0 < (z / 16 ^ Z.of_nat n) mod 16.
Proof.
  intros Hz. assert (0 < 16 ^ Z.of_nat n) as Hpow by (apply Z.pow_pos_nonneg; lia).
  assert (16 ^ Z.of_nat (S n) = 16 ^ Z.of_nat n * 16) as Hp
    by (rewrite Nat2Z.inj_succ, Z.pow_succ_r; lia).
  rewrite Hp in Hz. destruct (Z.ltb_spec z (16 ^ Z.of_nat n)) as [|Hge]; [by left|right].
  assert (0 <= z / 16 ^ Z.of_nat n < 16) as Hd.
  { split; [apply Z.div_pos; lia|apply Z.div_lt_upper_bound; lia]. }
  rewrite Z.mod_small by done.
  assert (1 <= z / 16 ^ Z.of_nat n); [|lia]. apply Z.div_le_lower_bound; lia.
Qed.

Lemma hex_digits_small n z :
  0 <= z < 16 ^ Z.of_nat n -> hex_digits (S n) z = String "0" (hex_digits n z).
Proof.
  intros Hz. cbn [hex_digits]. rewrite Z.div_small by done. reflexivity.
Qed.

(** Trimming the zeros leaves fewer digits of the same number. *)
Lemma trim_hex n z :
  0 <= z < 16 ^ Z.of_nat (S n) ->
  exists k, (k <= n)%nat /\ trim_zeros (hex_digits (S n) z) = hex_digits (S k) z /\
    z < 16 ^ Z.of_nat (S k).
Proof.
  induction n as [|n IH]; intros Hz.
  - exists 0%nat. split_and!; [lia| |lia]. cbn [hex_digits trim_zeros].
    by destruct (hex_lower _) as [[] [] [] [] [] [] [] []].
  - destruct (hex_step _ _ Hz) as [Hsmall|Hd].
    + rewrite hex_digits_small by lia.
      change (trim_zeros (String "0" (hex_digits (S n) z)))
        with (trim_zeros (hex_digits (S n) z)).
      destruct (IH ltac:(lia)) as (k & Hk & Ht & Hzk). exists k. split_and!; [lia|done..].
    + exists (S n). split_and!; [lia| |lia].
      apply trim_zeros_hex. split; [done|]. by apply Z.mod_pos_bound.
Qed.

Lemma read_group g rest :
  group g -> no_digit 16 rest ->
  read_number 16 u16_max (Some 4) true (hex_u16 g +:+ rest) = Some (g, rest).
Proof.
  unfold group, u16_max, hex_u16. intros Hg Hrest.
  destruct (trim_hex 3 g) as (k & Hk & -> & Hgk).
  { change (16 ^ Z.of_nat 4) with (2 ^ 16). lia. }
  unfold read_number. rewrite read_hex_digits; [| lia |].
  - rewrite Z.mul_0_l, !Z.add_0_l, (Z.mod_small g _ (conj (proj1 Hg) Hgk)).
    rewrite read_digits_stop by done. clear Hgk.
    cbn [negb andb]. rewrite orb_false_r.
    destruct (Z.ltb_spec 4 (Z.of_nat (S k))); [lia|]. destruct (Z.eqb_spec (Z.of_nat (S k)) 0); [lia|].
    by destruct (Z.ltb_spec (2 ^ 16 - 1) g); [lia|].
  - rewrite Z.mul_0_l, Z.add_0_l, (Z.mod_small g _ (conj (proj1 Hg) Hgk)). change (16 ^ 5) with 1048576. lia.
Qed.


(** The text ends, or goes on with neither a digit nor a dot: no number and no IPv4
    address begins here. *)
Definition after_group (s : string) : Prop :=
  no_digit 16 s /\ match s with String "." _ => False | _ => True end.

(** No further group begins here either. *)
Definition after_groups (s : string) : Prop :=
  after_group s /\ match s with String ":" s => after_group s | _ => True end.

Lemma no_digit_10 s : no_digit 16 s -> no_digit 10 s.
Proof.
  destruct s as [|c s]; [done|]. simpl. unfold to_digit.
  destruct (is_ascii_digit c) eqn:E; [|destruct (is_ascii_lowercase c) eqn:E2;
    [|destruct (is_ascii_uppercase c) eqn:E3; [|done]]]; repeat case_match; try done; lia.
Qed.

Lemma read_number_none max digits allow s : no_digit 10 s -> read_number 10 max digits allow s = None.
Proof. intros H. unfold read_number. rewrite read_digits_stop by done. cbn. by rewrite orb_true_r. Qed.

Lemma read_number_16_none max digits allow s :
  no_digit 16 s -> read_number 16 max digits allow s = None.
Proof. intros H. unfold read_number. rewrite read_digits_stop by done. cbn. by rewrite orb_true_r. Qed.

Lemma read_digits_rest radix max acc count s v k r :
  read_digits radix max acc count s = Some (v, k, r) ->
  exists p, s = p +:+ r /\ all_bytes (fun c => bool_decide (is_Some (to_digit radix c))) p = true.
Proof.
  revert acc count. induction s as [|c s IH]; intros acc count; simpl.
  - intros [= <- <- <-]. by exists "".
  - destruct (to_digit radix c) as [d|] eqn:Hd.
    + case_match; [done|]. intros (p & -> & Hp)%IH. exists (String c p). split; [done|].
      simpl. rewrite Hp, Hd. done.
    + intros [= <- <- <-]. by exists "".
Qed.

Lemma str_app_split (a b c d : string) : a +:+ b = c +:+ d ->
  (exists q, a = c +:+ q /\ d = q +:+ b) \/ (exists q, c = a +:+ q /\ b = q +:+ d).
Proof.
  revert c. induction a as [|x a IH]; intros c E; [right; by exists c|].
  destruct c as [|y c]; [left; by exists (String x a)|].
  change (String x (a +:+ b) = String y (c +:+ d)) in E. injection E as -> E.
  destruct (IH _ E) as [(q & -> & ->)|(q & -> & ->)]; [left|right]; by exists q.
Qed.

(** An IPv4 address has a dot after its first digits. *)
Lemma read_ipv4_dot s a : read_ipv4_addr s = Some a ->
  exists p r, s = p +:+ String "." r /\
    all_bytes (fun c => bool_decide (is_Some (to_digit 10 c))) p = true.
Proof.
  unfold read_ipv4_addr, read_octet, read_separator.
  destruct (read_number 10 255 (Some 3) false s) as [[x r]|] eqn:E; [|done].
  destruct (read_given_char "." r) as [[u r']|] eqn:Edot; [|done]. intros _.
  unfold read_number in E. destruct (read_digits _ _ _ _ s) as [[[v k] q]|] eqn:Ed; [|done].
  destruct (_ || _); [done|]. injection E as <- <-.
  apply read_digits_rest in Ed as (p & -> & Hp).
  destruct q as [|c q]; [done|]. simpl in Edot.
  destruct (Ascii.eqb_spec c "."); [|done]. subst. by exists p, q.
Qed.

Lemma read_ipv4_none h s :
  all_bytes (fun c => bool_decide (is_Some (to_digit 16 c))) h = true -> after_group s ->
  read_ipv4_addr (h +:+ s) = None.
Proof.
  intros Hh [Hs Hdot]. destruct (read_ipv4_addr _) as [a|] eqn:E; [exfalso|done].
  apply read_ipv4_dot in E as (p & r & E & Hp).
  apply str_app_split in E as [(q & -> & E)|(q & -> & ->)].
  - rewrite all_bytes_app in Hh. apply andb_prop in Hh as [_ Hh].
    destruct q as [|c q]; [by change ("" +:+ s) with s in E; subst s|].
    change (String "." r = String c (q +:+ s)) in E. injection E as <- _. done.
  - rewrite all_bytes_app in Hp. apply andb_prop in Hp as [_ Hp].
    destruct q as [|c q]; [done|]. apply andb_prop in Hp as [Hc _].
    apply no_digit_10 in Hs. change (to_digit 10 c = None) in Hs. by rewrite Hs in Hc.
Qed.

Lemma hex_u16_bytes g : group g ->
  all_bytes (fun c => bool_decide (is_Some (to_digit 16 c))) (hex_u16 g) = true.
Proof.
  intros Hg. unfold hex_u16. destruct (trim_hex 3 g) as (k & _ & -> & _).
  { unfold group, u16_max in Hg. change (16 ^ Z.of_nat 4) with (2 ^ 16). lia. }
  generalize (S k). intros n. induction n as [|n IH]; [done|]. cbn [hex_digits all_bytes].
  rewrite to_digit_hex by (apply Z.mod_pos_bound; lia). by rewrite IH.
Qed.

Lemma after_group_ipv4 s : after_group s -> read_ipv4_addr s = None.
Proof. exact (read_ipv4_none "" s eq_refl). Qed.

(** The groups as they stand after a first group. *)
Fixpoint more_groups (groups : list Z) : string :=
  match groups with
  | [] => ""
  | g :: groups => String ":" (hex_u16 g +:+ more_groups groups)
  end.

Lemma show_groups_cons g groups : show_groups (g :: groups) = hex_u16 g +:+ more_groups groups.
Proof.
  unfold show_groups. cbn [map]. revert g. induction groups as [|h groups IH]; intros g.
  - change (hex_u16 g = hex_u16 g +:+ ""). induction (hex_u16 g) as [|c s IHs]; [done|]. exact (f_equal (String c) IHs).
  - change (hex_u16 g +:+ ":" +:+ str_join ":" (map hex_u16 (h :: groups))
      = hex_u16 g +:+ more_groups (h :: groups)).
    cbn [map]. by rewrite IH.
Qed.

Lemma hex_digit_no_colon c : is_Some (to_digit 16 c) -> c <> ":"%char /\ c <> "."%char.
Proof. intros [d Hd]. split; intros ->; done. Qed.

Lemma after_more_groups groups rest :
  after_group rest -> after_group (more_groups groups +:+ rest).
Proof. by destruct groups. Qed.

(** No group is read where none begins. *)
Lemma read_groups_none limit first s :
  match limit, first with
  | O, _ => True
  | S _, true => after_group s
  | S _, false => after_groups s
  end -> read_groups limit first s = ([], false, s).
Proof.
  destruct limit as [|more]; [done|]. intros Hs. cbn [read_groups].
  assert (forall A (inner : reader A), (forall s, after_group s -> inner s = None) ->
            read_separator ":" first inner s = None) as Hnone.
  { intros A inner Hinner. unfold read_separator. destruct first; [by apply Hinner|].
    destruct Hs as [_ Hs]. destruct s as [|c s]; [done|]. unfold read_given_char.
    destruct (Ascii.eqb_spec c ":"); [subst c|done]. by apply Hinner. }
  rewrite (Hnone _ (read_number 16 u16_max (Some 4) true))
    by (intros t [Ht _]; by apply read_number_16_none).
  rewrite (Hnone _ read_ipv4_addr) by apply after_group_ipv4. by destruct more.
Qed.


Definition group_text (first : bool) (g : Z) (s : string) : string :=
  if first then hex_u16 g +:+ s else String ":" (hex_u16 g +:+ s).

Lemma read_groups_cons more first g s :
  group g -> after_group s ->
  read_groups (S more) first (group_text first g s)
  = (let '(gs, v4, s) := read_groups more false s in (g :: gs, v4, s)).
Proof.
  intros Hg Hs.
  assert (forall A (inner : reader A),
            read_separator ":" first inner (group_text first g s) = inner (hex_u16 g +:+ s)) as Hsep
    by (by destruct first).
  assert (read_ipv4_addr (hex_u16 g +:+ s) = None) as H4
    by (by apply read_ipv4_none; [apply hex_u16_bytes|]).
  pose proof (read_group g s Hg (proj1 Hs)) as Hnum.
  destruct more as [|more]; unfold read_groups at 1; fold read_groups; rewrite !Hsep.
  - by rewrite Hnum.
  - by rewrite H4, Hnum.
Qed.

Lemma read_more_groups groups limit rest :
  Forall group groups -> after_group rest ->
  length groups = limit \/ ((length groups < limit)%nat /\ after_groups rest) ->
  read_groups limit false (more_groups groups +:+ rest) = (groups, false, rest).
Proof.
  intros Hgroups Hrest. revert limit. induction Hgroups as [|g groups Hg _ IH]; intros limit Hl.
  - change ("" +:+ rest) with rest. apply read_groups_none.
    destruct limit; [done|]. by destruct Hl as [|[_ Hl]].
  - destruct limit as [|limit]; [destruct Hl as [|[]]; simpl in *; lia|].
    change (more_groups (g :: groups) +:+ rest)
      with (String ":" ((hex_u16 g +:+ more_groups groups) +:+ rest)). rewrite str_app_assoc.
    change (String ":" (hex_u16 g +:+ more_groups groups +:+ rest))
      with (group_text false g (more_groups groups +:+ rest)).
    rewrite read_groups_cons by (done || by apply after_more_groups).
    rewrite IH; [done|]. simpl in Hl. destruct Hl as [Hl|[Hl ?]]; [left; lia|right; split; [lia|done]].
Qed.

Lemma read_show_groups groups limit rest :
  Forall group groups -> after_group rest ->
  length groups = limit \/ ((length groups < limit)%nat /\ after_groups rest) ->
  read_groups limit true (show_groups groups +:+ rest) = (groups, false, rest).
Proof.
  intros Hgroups Hrest Hl. destruct Hgroups as [|g groups Hg Hgroups].
  - change ("" +:+ rest) with rest. apply read_groups_none. by destruct limit.
  - destruct limit as [|limit]; [destruct Hl as [|[]]; simpl in *; lia|].
    rewrite show_groups_cons, str_app_assoc.
    change (hex_u16 g +:+ more_groups groups +:+ rest)
      with (group_text true g (more_groups groups +:+ rest)).
    rewrite read_groups_cons by (done || by apply after_more_groups).
    rewrite read_more_groups; [done..|]. simpl in Hl.
    destruct Hl as [Hl|[Hl ?]]; [left; lia|right; split; [lia|done]].
Qed.

(** ** IPv4 *)

Lemma read_octet_show first a s : octet a -> no_digit 10 s ->
  read_octet first ((if first then show a else "." +:+ show a) +:+ s) = Some (a, s).
Proof.
  intros Ha Hs.
  assert (read_number 10 255 (Some 3) false (show a +:+ s) = Some (a, s)) as H
    by (apply read_number_show; unfold octet in Ha; [lia|done|lia]).
  by destruct first.
Qed.

Lemma read_show_ipv4 a b c d s :
  ip_ok (V4 a b c d) -> no_digit 10 s ->
  read_ipv4_addr (show_ipv4 a b c d +:+ s) = Some ((a, b, c, d), s).
Proof.
  intros (Ha & Hb & Hc & Hd) Hs. unfold show_ipv4, read_ipv4_addr.
  rewrite !str_app_assoc.
  rewrite (read_octet_show true a) by done.
  rewrite <-(str_app_assoc "." (show b)). rewrite (read_octet_show false b) by done.
  rewrite <-(str_app_assoc "." (show c)). rewrite (read_octet_show false c) by done.
  rewrite <-(str_app_assoc "." (show d)). by rewrite (read_octet_show false d) by done.
Qed.

(** ** IPv6 *)

(** [len] zeros from [start] on. *)
Definition is_zero_run (groups : list Z) (start len : nat) : Prop :=
  take len (drop start groups) = repeat 0 len.

Lemma zero_run_snoc pre start len groups :
  is_zero_run pre start len -> (start + len = length pre)%nat ->
  is_zero_run (pre ++ 0 :: groups) start (S len).
Proof.
  unfold is_zero_run. intros Hrun Hlen.
  rewrite drop_app_le by lia. rewrite take_ge in Hrun by (rewrite length_drop; lia).
  rewrite Hrun. change (0 :: groups) with ([0] ++ groups). rewrite app_assoc.
  rewrite take_app_le by (rewrite length_app, repeat_length; simpl; lia).
  replace (repeat 0 len ++ [0]) with (repeat 0 (S len)) by apply repeat_cons.
  apply take_ge. by rewrite repeat_length.
Qed.

Lemma is_zero_run_app pre groups start len :
  is_zero_run pre start len -> (start + len <= length pre)%nat ->
  is_zero_run (pre ++ groups) start len.
Proof.
  unfold is_zero_run. intros <- Hlen.
  rewrite drop_app_le by lia. rewrite take_app_le by (rewrite length_drop; lia). done.
Qed.

Lemma zero_run_spec groups : forall pre start len best_start best_len bs bl,
  (len = 0%nat \/ is_zero_run pre start len /\ (start + len = length pre)%nat) ->
  is_zero_run pre best_start best_len -> (best_start + best_len <= length pre)%nat ->
  zero_run (length pre) start len best_start best_len groups = (bs, bl) ->
  is_zero_run (pre ++ groups) bs bl /\ (bs + bl <= length pre + length groups)%nat.
Proof.
  induction groups as [|g groups IH]; intros pre start len bs0 bl0 bs bl Hcur Hbest Hle; simpl.
  - intros [= <- <-]. rewrite app_nil_r. split; [done|lia].
  - assert (pre ++ g :: groups = (pre ++ [g]) ++ groups) as Happ by by rewrite <-app_assoc.
    assert (S (length pre) = length (pre ++ [g])) as Hlen by (rewrite length_app; simpl; lia).
    destruct (Z.eqb_spec g 0) as [->|Hg].
    + set (start' := match len with O => length pre | _ => start end).
      assert (is_zero_run (pre ++ [0]) start' (S len) /\
              (start' + S len)%nat = length (pre ++ [0])) as [Hrun Hl].
      { destruct Hcur as [->|[Hrun Hl]]; subst start'.
        - split; [|rewrite <-Hlen; lia]. apply zero_run_snoc; [done|lia].
        - assert (match len with 0%nat => length pre | S _ => start end = start) as ->
            by (destruct len; [lia|done]).
          split; [by apply zero_run_snoc|lia]. }
      rewrite Hlen, Happ. destruct (_ <? _)%nat; intros Hz; apply IH in Hz as [H1 H2];
        try (right; by split); try done; try lia.
      1, 2: split; [done|rewrite <-Hlen in H2; lia]. by apply is_zero_run_app.
    + rewrite Hlen, Happ. intros Hz. apply IH in Hz as [H1 H2]; [|by left| |lia].
      * split; [done|rewrite <-Hlen in H2; lia].
      * by apply is_zero_run_app.
Qed.

Lemma show_ipv6_cases groups :
  (exists g h, groups = [0; 0; 0; 0; 0; 65535; g; h] /\
     show_ipv6 groups
     = "::ffff:" +:+ show_ipv4 (g / 256) (g mod 256) (h / 256) (h mod 256)) \/
  show_ipv6 groups =
    (let '(start, len) := zero_run 0 0 0 0 0 groups in
     if (1 <? len)%nat
     then show_groups (take start groups) +:+ "::" +:+ show_groups (drop (start + len) groups)
     else show_groups groups).
Proof.
  destruct (decide (take 6 groups = [0; 0; 0; 0; 0; 65535] /\ length groups = 8%nat))
    as [[Htake Hlen]|Hno].
  - left. do 8 (destruct groups as [|? groups]; [done|]). destruct groups; [|done].
    injection Htake as -> -> -> -> -> ->. eexists _, _. by split.
  - right. unfold show_ipv6.
    do 5 (destruct groups as [|[| |] groups]; [done| |done|done]).
    destruct groups as [|[|p|] groups]; [done|done| |done].
    do 16 (destruct p as [p|p|]; try done).
    destruct groups as [|g [|h [|]]]; try done. by destruct Hno.
Qed.

Lemma after_group_colons s : after_group (String ":" s).
Proof. done. Qed.

Lemma read_mapped_groups g h s :
  group g -> group h -> after_groups s ->
  read_groups 7 true ("ffff:" +:+ show_ipv4 (g / 256) (g mod 256) (h / 256) (h mod 256) +:+ s)
  = ([65535; g; h], true, s).
Proof.
  unfold group, u16_max. intros Hg Hh Hs. set (t := show_ipv4 _ _ _ _ +:+ s).
  change ("ffff:" +:+ t) with (group_text true 65535 (String ":" t)).
  rewrite read_groups_cons; [|unfold group, u16_max; lia|done].
  assert (read_ipv4_addr t = Some ((g / 256, g mod 256, h / 256, h mod 256), s)) as Ht.
  { apply read_show_ipv4; [|apply no_digit_10, Hs].
    assert (forall x, 0 <= x <= 2 ^ 16 - 1 -> octet (x / 256) /\ octet (x mod 256)) as Ho.
    { unfold octet. intros x Hx. pose proof (Z.mod_pos_bound x 256). split; [|lia].
      split; [apply Z.div_pos; lia|]. enough (x / 256 < 256) by lia.
      apply Z.div_lt_upper_bound; lia. }
    split_and!; by apply Ho. }
  cbn [read_groups]. unfold read_separator at 1.
  change (read_given_char ":" (String ":" t)) with (Some (tt, t)). cbn iota beta. rewrite Ht.
  by rewrite (Z.mul_comm (g / 256)), (Z.mul_comm (h / 256)), <-!Z.div_mod by lia.
Qed.

Lemma read_show_ipv6 groups s :
  ip_ok (V6 groups) -> after_groups s ->
  read_ipv6_addr (show_ipv6 groups +:+ s) = Some (groups, s).
Proof.
  intros [Hlen Hgroups] Hs.
  destruct (show_ipv6_cases groups) as [(g & h & -> & ->)| ->].
  - rewrite str_app_assoc. unfold read_ipv6_addr.
    rewrite read_groups_none by apply after_group_colons. cbn [length].
    set (t := show_ipv4 _ _ _ _ +:+ s).
    change (read_given_char ":" ("::ffff:" +:+ t)) with (Some (tt, ":ffff:" +:+ t)).
    change (Z.of_nat 0 =? 8) with false. cbn iota beta. change (7 - 0)%nat with 7%nat.
    do 6 (apply Forall_cons in Hgroups as [_ Hgroups]).
    apply Forall_cons in Hgroups as [Hg [Hh _]%Forall_cons].
    change (read_given_char ":" (":ffff:" +:+ t)) with (Some (tt, "ffff:" +:+ t)).
    cbn iota beta. unfold t. by rewrite read_mapped_groups.
  - destruct (zero_run 0 0 0 0 0 groups) as [start len] eqn:E.
    apply (zero_run_spec groups [] 0 0 0 0) in E as [Hrun Hle]; [|by left|done|done].
    cbn in Hle. rewrite Hlen in Hle. unfold read_ipv6_addr.
    destruct (Nat.ltb_spec 1 len).
    + rewrite !str_app_assoc. set (tail := show_groups (drop (start + len) groups) +:+ s).
      rewrite (read_show_groups (take start groups) 8 ("::" +:+ tail));
        [|by apply Forall_take|done|right; split; [rewrite length_take; lia|done]].
      rewrite length_take, Hlen, Nat.min_l by lia.
      assert ((Z.of_nat start =? 8) = false) as -> by lia.
      change (read_given_char ":" ("::" +:+ tail)) with (Some (tt, ":" +:+ tail)).
      cbn iota beta.
      change (read_given_char ":" (":" +:+ tail)) with (Some (tt, tail)). cbn iota beta.
      unfold tail. rewrite (read_show_groups (drop (start + len) groups));
        [|by apply Forall_drop|apply Hs|right; split; [rewrite length_drop; lia|done]].
      rewrite length_drop, Hlen. do 2 f_equal.
      replace (8 - start - (8 - (start + len)))%nat with len by lia.
      rewrite <-(Hrun : take len (drop start groups) = _), <-drop_drop, take_drop.
      apply take_drop.
    + rewrite read_show_groups; [|done|apply Hs|by left].
      by rewrite Hlen.
Qed.

Lemma show_ipv6_no_ipv4 groups s :
  ip_ok (V6 groups) -> read_ipv4_addr (show_ipv6 groups +:+ s) = None.
Proof.
  intros [Hlen Hgroups].
  enough (exists h t, show_ipv6 groups +:+ s = h +:+ String ":" t /\
    all_bytes (fun c => bool_decide (is_Some (to_digit 16 c))) h = true) as (h & t & -> & Hh)
    by (by apply read_ipv4_none).
  assert (forall g gs t, group g -> (exists t', t = String ":" t') ->
    exists h t', show_groups (g :: gs) +:+ t = h +:+ String ":" t' /\
      all_bytes (fun c => bool_decide (is_Some (to_digit 16 c))) h = true) as Hgs.
  { intros g gs t Hg [t' ->]. rewrite show_groups_cons, str_app_assoc.
    destruct gs as [|g' gs]; [exists (hex_u16 g), t'|eexists (hex_u16 g), _];
      (split; [reflexivity|by apply hex_u16_bytes]). }
  destruct (show_ipv6_cases groups) as [(g & h & -> & ->)| ->]; [by eexists "", _|].
  destruct (zero_run 0 0 0 0 0 groups) as [start len]. destruct (1 <? len)%nat.
  - rewrite !str_app_assoc. destruct start as [|start]; [by eexists "", _|].
    destruct Hgroups as [|g gs Hg _]; [done|]. apply Hgs; [done|]. by eexists.
  - destruct Hgroups as [|g gs Hg Hgs']; [done|]. destruct gs as [|g' gs]; [done|].
    rewrite show_groups_cons, str_app_assoc. eexists (hex_u16 g), _.
    split; [reflexivity|by apply hex_u16_bytes].
Qed.

(** ** Addresses *)

Lemma str_app_nil_r (s : string) : s +:+ "" = s.
Proof. induction s as [|c s IH]; [done|]. exact (f_equal (String c) IH). Qed.

Lemma parse_show_ip ip : ip_ok ip -> parse_ip_addr (show_ip_addr ip) = Some ip.
Proof.
  intros Hip. unfold parse_ip_addr, parse_with.
  rewrite <-(str_app_nil_r (show_ip_addr ip)).
  destruct ip as [a b c d|groups]; unfold show_ip_addr.
  - by rewrite read_show_ipv4.
  - rewrite show_ipv6_no_ipv4 by done. by rewrite read_show_ipv6.
Qed.

Lemma read_port_show port : 0 <= port <= u16_max -> read_port (":" +:+ show port) = Some (port, "").
Proof.
  intros Hport. unfold read_port. change (read_given_char ":" (":" +:+ show port))
    with (Some (tt, show port)). cbn iota beta.
  rewrite <-(str_app_nil_r (show port)). by apply read_number_show.
Qed.

Lemma parse_show_socket_addr a :
  socket_addr_ok a -> parse_socket_addr (show_socket_addr a) = Some a.
Proof.
  intros (Hip & Hport & Hscope). destruct a as [ip port scope]; cbn [sa_ip sa_port sa_scope_id] in *.
  unfold parse_socket_addr, parse_with, show_socket_addr. cbn [sa_ip sa_port sa_scope_id].
  destruct ip as [x y z w|groups].
  - unfold read_socket_addr_v4. rewrite read_show_ipv4 by done. rewrite read_port_show by done.
    by subst scope.
  - set (tail := (if scope =? 0 then "" else "%" +:+ show scope) +:+ "]:" +:+ show port).
    assert (read_socket_addr_v4 ("[" +:+ show_ipv6 groups +:+ tail) = None) as ->.
    { unfold read_socket_addr_v4. by rewrite after_group_ipv4. }
    unfold read_socket_addr_v6.
    change (read_given_char "[" ("[" +:+ show_ipv6 groups +:+ tail))
      with (Some (tt, show_ipv6 groups +:+ tail)). cbn iota beta.
    rewrite read_show_ipv6; [|done|unfold tail; by destruct (scope =? 0)].
    assert (default (0, tail) (read_scope_id tail) = (scope, "]:" +:+ show port)) as ->.
    { unfold tail. destruct (Z.eqb_spec scope 0) as [->|Hs]; [done|]. unfold read_scope_id.
      rewrite str_app_assoc.
      change (read_given_char "%" ("%" +:+ show scope +:+ "]:" +:+ show port))
        with (Some (tt, show scope +:+ "]:" +:+ show port)). cbn iota beta.
      by rewrite read_number_show. }
    change (read_given_char "]" ("]:" +:+ show port)) with (Some (tt, ":" +:+ show port)).
    cbn iota beta. by rewrite read_port_show.
Qed.

(** [parse::<u16>] of a number that is displayed. *)
Lemma parse_unsigned_show max z : 0 <= z <= max -> parse_unsigned max (show z) = Ok z.
Proof.
  intros Hz. destruct z as [|p|p]; [| |lia].
  - change ((if max <? 0 then Err parse_error_large else Ok 0) = @Ok string Z 0). assert ((max <? 0) = false) as -> by lia. done.
  - change (show (Z.pos p)) with (pretty_N_go (N.pos p) "").
    destruct (pretty_N_go_head (N.pos p) "" ltac:(lia)) as (d & r & Hd & E).
    unfold parse_unsigned. rewrite E. destruct (pretty_N_char_digit d Hd) as (_ & _ & ->).
    rewrite <-E. clear E Hd d r.
    enough (forall n s, Z.of_N n <= max ->
      parse_unsigned_digits max 0 (pretty_N_go n s) = parse_unsigned_digits max (Z.of_N n) s) as H
      by (rewrite H; [done|lia]).
    intros n. induction (N.lt_wf_0 n) as [n _ IH]. intros s Hr.
    destruct (decide (n = 0)%N) as [->|Hn]; [by rewrite pretty_N_go_0|].
    rewrite pretty_N_go_step by lia.
    assert (Hdiv : (n / 10 < n)%N) by (apply N.div_lt; lia).
    assert (Hmod : (n = 10 * (n / 10) + n mod 10)%N) by (apply N.div_mod; lia).
    assert (Hlt : (n mod 10 < 10)%N) by (apply N.mod_lt; lia).
    rewrite IH by lia. cbn [parse_unsigned_digits].
    destruct (pretty_N_char_digit _ Hlt) as [-> _].
    replace (Z.of_N (n / 10) * 10 + Z.of_N (n mod 10)) with (Z.of_N n) by lia.
    by destruct (Z.ltb_spec max (Z.of_N n)); [lia|].
Qed.

(** ** What is read is an address *)

Lemma to_digit_range radix c d : to_digit radix c = Some d -> 0 <= d.
Proof.
  assert (forall lo hi, in_range lo hi c = true -> byte_val lo <= byte_val c) as Hlo.
  { unfold in_range. intros lo hi Hr. lia. }
  unfold to_digit, is_ascii_digit, is_ascii_lowercase, is_ascii_uppercase.
  destruct (in_range "0" "9" c) eqn:E0; [|destruct (in_range "a" "z" c) eqn:E1;
    [|destruct (in_range "A" "Z" c) eqn:E2; [|done]]]; case_match; try done; intros [= <-].
  - apply Hlo in E0. change (byte_val "0") with 48 in E0. lia.
  - apply Hlo in E1. change (byte_val "a") with 97 in E1. lia.
  - apply Hlo in E2. change (byte_val "A") with 65 in E2. lia.
Qed.

Lemma read_digits_nonneg radix max acc count s v n rest :
  0 <= radix -> 0 <= acc -> read_digits radix max acc count s = Some (v, n, rest) -> 0 <= v.
Proof.
  intros Hradix. revert acc count. induction s as [|c s IH]; intros acc count Hacc;
    cbn [read_digits]; [by intros [= <- _ _]|].
  destruct (to_digit radix c) as [d|] eqn:Hd; [|by intros [= <- _ _]].
  apply to_digit_range in Hd. destruct (_ <? _); [done|]. apply IH. nia.
Qed.

Lemma read_number_range radix max max_digits zero s v rest :
  0 <= radix -> read_number radix max max_digits zero s = Some (v, rest) -> 0 <= v <= max.
Proof.
  unfold read_number. intros Hradix.
  destruct (read_digits _ _ 0 0 s) as [[[value count] rest']|] eqn:E; [|done].
  apply read_digits_nonneg in E; [|done..].
  destruct (Z.ltb_spec max value); [by rewrite orb_true_r|]. case_match; [done|].
  intros [= <- _]. lia.
Qed.

Lemma read_octet_range first s v rest : read_octet first s = Some (v, rest) -> octet v.
Proof.
  unfold read_octet, read_separator. destruct first.
  - by intros ?%read_number_range.
  - destruct (read_given_char _ s) as [[u s1]|]; [|done]. by intros ?%read_number_range.
Qed.

Lemma read_ipv4_ok s a b c d rest :
  read_ipv4_addr s = Some ((a, b, c, d), rest) -> ip_ok (V4 a b c d).
Proof.
  unfold read_ipv4_addr. intros H. repeat case_match; try done. simplify_eq.
  repeat match goal with E : read_octet _ _ = Some _ |- _ => apply read_octet_range in E end.
  cbn. tauto.
Qed.

Lemma read_groups_ok limit first s gs v4 rest :
  read_groups limit first s = (gs, v4, rest) ->
  (length gs <= limit)%nat /\ Forall group gs.
Proof.
  revert first s gs v4 rest. induction limit as [|limit IH]; intros first s gs v4 rest.
  { intros [= <- _ _]. by split. }
  assert (forall r, r = (gs, v4, rest) ->
    (r = match read_separator ":" first (read_number 16 u16_max (Some 4) true) s with
         | Some (g, s) => let '(gs, v4, s) := read_groups limit false s in (g :: gs, v4, s)
         | None => ([], false, s)
         end) -> (length gs <= S limit)%nat /\ Forall group gs) as Hgroup.
  { intros r -> Hr. destruct (read_separator _ first _ s) as [[g s1]|] eqn:E.
    - destruct (read_groups limit false s1) as [[gs1 v1] s2] eqn:E1. simplify_eq.
      apply IH in E1 as [Hlen Hall]. split; [cbn; lia|]. constructor; [|done].
      unfold read_separator in E. destruct first; [by apply read_number_range in E|].
      destruct (read_given_char _ s) as [[u s3]|]; [|done]. by apply read_number_range in E.
    - simplify_eq. split; [cbn; lia|constructor]. }
  cbn [read_groups]. destruct limit as [|limit]; [by intros Hr; eapply Hgroup|].
  destruct (read_separator ":" first read_ipv4_addr s) as [[[[[a b] c] d] s1]|] eqn:E;
    [|by intros Hr; eapply Hgroup].
  intros [= <- _ _]. split; [cbn; lia|].
  assert (ip_ok (V4 a b c d)) as (Ha & Hb & Hc & Hd).
  { unfold read_separator in E. destruct first; [by apply read_ipv4_ok in E|].
    destruct (read_given_char _ s) as [[u s3]|]; [|done]. by apply read_ipv4_ok in E. }
  unfold octet in *. repeat constructor; unfold group, u16_max; lia.
Qed.

Lemma read_ipv6_ok s groups rest : read_ipv6_addr s = Some (groups, rest) -> ip_ok (V6 groups).
Proof.
  unfold read_ipv6_addr. destruct (read_groups 8 true s) as [[head v4] s1] eqn:E.
  apply read_groups_ok in E as [Hlen Hall].
  destruct (Z.eqb_spec (Z.of_nat (length head)) 8) as [H8|H8].
  { intros [= <- _]. split; [lia|done]. }
  destruct v4; [done|]. destruct (read_given_char ":" s1) as [[u s2]|]; [|done].
  destruct (read_given_char ":" s2) as [[u' s3]|]; [|done].
  destruct (read_groups (7 - length head) true s3) as [[tail v4'] s4] eqn:E'.
  apply read_groups_ok in E' as [Hlen' Hall']. intros [= <- _]. split.
  - rewrite !length_app, repeat_length. lia.
  - apply Forall_app. split; [done|]. apply Forall_app. split; [|done].
    apply Forall_forall. intros x Hx%list_elem_of_In%repeat_spec. subst. unfold group, u16_max. lia.
Qed.

Lemma parse_ip_addr_ok s ip : parse_ip_addr s = Some ip -> ip_ok ip.
Proof.
  unfold parse_ip_addr, parse_with.
  destruct (read_ipv4_addr s) as [[[[[a b] c] d] rest]|] eqn:E.
  - apply read_ipv4_ok in E. destruct rest; [by intros [= <-]|done].
  - destruct (read_ipv6_addr s) as [[groups rest]|] eqn:E6; [|done].
    apply read_ipv6_ok in E6. destruct rest; [by intros [= <-]|done].
Qed.

Lemma read_port_range s p rest : read_port s = Some (p, rest) -> 0 <= p <= u16_max.
Proof.
  unfold read_port. destruct (read_given_char ":" s) as [[u s1]|]; [|done].
  by intros ?%read_number_range.
Qed.

Lemma parse_socket_addr_ok s a : parse_socket_addr s = Some a ->
  ip_ok (sa_ip a) /\ 0 <= sa_port a <= u16_max.
Proof.
  unfold parse_socket_addr, parse_with, read_socket_addr_v4, read_socket_addr_v6.
  intros H. repeat case_match; simplify_eq; cbn;
    repeat match goal with
    | E : read_ipv4_addr _ = Some _ |- _ => apply read_ipv4_ok in E
    | E : read_ipv6_addr _ = Some _ |- _ => apply read_ipv6_ok in E
    | E : read_port _ = Some _ |- _ => apply read_port_range in E
    end; done.
Qed.

Lemma parse_unsigned_range max s z : 0 <= max -> parse_unsigned max s = Ok z -> 0 <= z <= max.
Proof.
  intros Hmax.
  assert (forall s acc z, 0 <= acc <= max -> parse_unsigned_digits max acc s = Ok z ->
            0 <= z <= max) as Hdigits.
  { clear s z. intros s. induction s as [|c s IH]; intros acc z Hacc; cbn [parse_unsigned_digits].
    { by intros [= <-]. }
    destruct (to_digit 10 c) as [d|] eqn:Hd; [|done]. apply to_digit_range in Hd.
    destruct (Z.ltb_spec max (acc * 10 + d)); [done|]. apply IH. lia. }
  unfold parse_unsigned. destruct s as [|c rest]; [done|].
  destruct (Ascii.eqb c "+"); [destruct (is_empty rest); [done|]|]; apply Hdigits; lia.
Qed.
