(* ===== verification/Broadwebd.v ===== *)
(** * Shared types of the broadwebd daemon

    Models the request and response types of [crates/broadwebd/src/http.rs], the
    errors of [error.rs], the budget of [budget.rs] and the plugin metadata of
    [health.rs].  A [usize] is an integer of a 64-bit target; a [Vec<u8>] is a byte
    string. *)
From S2P Require Import Prelude RustStr.

(** ** Errors and budgets *)

Inductive BroadwebdError :=
  | Io (error : string)
  | InvalidProfile (profile : string)
  | InvalidUrl (url : string)
  | MissingPlugin (plugin : string)
  | Request (error : string)
  | FrameTooLarge (limit actual : Z)
  | ResponseTooLarge (limit actual : Z)
  | UnsupportedRequest (request : string).
#[export] Instance BroadwebdError_eq_dec : EqDecision BroadwebdError.
Proof. solve_decision. Defined.

(** [Display]. *)
Definition show_broadwebd_error (e : BroadwebdError) : string :=
  match e with
  | Io error => error
  | InvalidProfile profile => "invalid profile id: " +:+ profile
  | InvalidUrl url => "invalid URL: " +:+ url
  | MissingPlugin plugin => "missing broadwebd plugin: " +:+ plugin
  | Request error => error
  | FrameTooLarge limit actual =>
      "service frame too large: " +:+ show actual +:+ " bytes over " +:+ show limit
      +:+ " byte limit"
  | ResponseTooLarge limit actual =>
      "response too large: " +:+ show actual +:+ " bytes over " +:+ show limit +:+ " byte limit"
  | UnsupportedRequest request => "unsupported broadwebd request: " +:+ request
  end.

Record ResourceBudget := {
  max_idle_memory_bytes : Z;
  max_cache_size_per_profile_bytes : Z;
  max_peer_connections : Z;
  max_protocol_workers : Z;
  max_background_bandwidth_bytes_per_second : option Z;
  allow_metered_network : bool;
  allow_background_on_battery : bool;
  allow_inbound_connections : bool;
  allow_reprovide : bool;
  allow_public_gateway_fallback : bool;
  max_http_response_bytes : Z;
  max_profile_sync_object_bytes : Z
}.

Definition default_budget : ResourceBudget := {|
  max_idle_memory_bytes := 128 * 1024 * 1024;
  max_cache_size_per_profile_bytes := 512 * 1024 * 1024;
  max_peer_connections := 64;
  max_protocol_workers := 4;
  max_background_bandwidth_bytes_per_second := None;
  allow_metered_network := false;
  allow_background_on_battery := false;
  allow_inbound_connections := false;
  allow_reprovide := false;
  allow_public_gateway_fallback := false;
  max_http_response_bytes := 8 * 1024 * 1024;
  max_profile_sync_object_bytes := 4 * 1024 * 1024
|}.

(** ** Plugin metadata *)

Inductive PluginKind := ProtocolServiceKind | TransportKind | ApplicationServiceKind.
Inductive ResourceProfile := LowProfile | MediumProfile | HighProfile.

Record PluginMetadata := {
  pm_id : string;
  pm_kind : PluginKind;
  pm_capabilities : list string;
  pm_dependencies : list string;
  pm_privacy_boundary : string;
  pm_resource_profile : ResourceProfile
}.

Definition PROFILE_SYNC_PLUGIN : string := "profile-sync".
Definition CAPABILITY_PROVIDER_DISCOVERY : string := "profile-sync/provider-discovery".
Definition CAPABILITY_LOCAL_CONNECTIVITY : string := "profile-sync/local-connectivity".
Definition CAPABILITY_OBJECT_TRANSFER : string := "profile-sync/object-transfer".
Definition CAPABILITY_LOCAL_RETENTION : string := "profile-sync/local-retention".
Definition CAPABILITY_MUTABLE_ROOT : string := "profile-sync/mutable-root".
Definition CAPABILITY_AVAILABILITY_PROVIDER : string := "profile-sync/availability-provider".

(** ** Profile-sync requests and responses *)

Record ProfileSyncProviderRoles := {
  discovery : bool;
  connectivity : bool;
  object_transfer : bool;
  availability : bool;
  mutable_roots : bool
}.
#[export] Instance ProfileSyncProviderRoles_eq_dec : EqDecision ProfileSyncProviderRoles.
Proof. solve_decision. Defined.

Definition logged_in_device : ProfileSyncProviderRoles :=
  {| discovery := true; connectivity := true; object_transfer := true; availability := true;
     mutable_roots := true |}.
Definition availability_provider : ProfileSyncProviderRoles :=
  {| discovery := true; connectivity := true; object_transfer := true; availability := true;
     mutable_roots := false |}.

Record ProfileSyncPutObjectRequest := { put_profile : string; put_bytes : string }.
Record ProfileSyncObjectRequest := { or_profile : string; or_object_id : string }.
Record ProfileSyncRootRequest := { rr_profile : string; rr_root_id : string }.
Record ProfileSyncRootUpdate := {
  ru_profile : string; ru_root_id : string; ru_object_id : string }.
Record ProfileSyncRootHealthRequest := {
  rh_profile : string; rh_root_id : string; rh_minimum_online_retaining_providers : Z }.
Record ProfileSyncProfileRequest := { pr_profile : string }.

Inductive ProfileSyncRequest :=
  | PutEncryptedObject (request : ProfileSyncPutObjectRequest)
  | GetEncryptedObject (request : ProfileSyncObjectRequest)
  | RetainObject (request : ProfileSyncObjectRequest)
  | ReleaseObject (request : ProfileSyncObjectRequest)
  | ListRetainedObjects (request : ProfileSyncProfileRequest)
  | VerifyRetainedObject (request : ProfileSyncObjectRequest)
  | PublishRoot (request : ProfileSyncRootUpdate)
  | ResolveRoot (request : ProfileSyncRootRequest)
  | ListRootCandidates (request : ProfileSyncRootRequest)
  | DiscoverProviders (request : ProfileSyncProfileRequest)
  | ProviderHealth (request : ProfileSyncProfileRequest)
  | RootHealth (request : ProfileSyncRootHealthRequest).

Record ProfileSyncRootCandidate := {
  rc_publisher_provider_id : string;
  rc_object_id : string;
  rc_publish_sequence : Z
}.

#[export] Instance ProfileSyncRootCandidate_eq_dec : EqDecision ProfileSyncRootCandidate.
Proof. solve_decision. Defined.

Record ProfileSyncProviderRecord := {
  prec_provider_id : string;
  prec_provider_kind : string;
  prec_privacy_boundary : string;
  prec_retained_objects : Z;
  prec_roles : ProfileSyncProviderRoles;
  prec_can_publish_roots : bool
}.

Record ProfileSyncProviderHealth := {
  ph_profile : string;
  ph_known_providers : Z;
  ph_online_providers : Z;
  ph_offline_providers : Z;
  ph_fresh_online_providers : Z;
  ph_stale_online_providers : Z;
  ph_fresh_online_provider_ids : list string;
  ph_stale_online_provider_ids : list string;
  ph_offline_provider_ids : list string;
  ph_minimum_provider_seen_sequence : Z;
  ph_object_transfer_providers : Z;
  ph_availability_providers : Z;
  ph_mutable_root_providers : Z;
  ph_retained_objects : Z;
  ph_degraded : bool;
  ph_message : string
}.

Record ProfileSyncRootHealth := {
  rhl_profile : string;
  rhl_root_id : string;
  rhl_visible_candidates : Z;
  rhl_delayed_candidates : Z;
  rhl_delayed_publisher_provider_ids : list string;
  rhl_latest_object_id : option string;
  rhl_latest_object_available : bool;
  rhl_latest_object_available_provider_ids : list string;
  rhl_latest_object_stale_provider_ids : list string;
  rhl_latest_object_offline_provider_ids : list string;
  rhl_delayed_object_provider_ids : list string;
  rhl_unavailable_retaining_provider_ids : list string;
  rhl_online_retaining_providers : Z;
  rhl_minimum_online_retaining_providers : Z;
  rhl_degraded : bool;
  rhl_message : string
}.

Inductive ProfileSyncResponse :=
  | PutEncryptedObjectResponse (object_id : string)
  | GetEncryptedObjectResponse (object_id bytes : string)
  | RetainObjectResponse (object_id : string) (retained : bool)
  | ReleaseObjectResponse (object_id : string) (retained : bool)
  | RetainedObjectsResponse (object_ids : list string)
  | RetainedObjectStatusResponse (object_id : string) (retained available : bool)
  | RootResponse (root_id : string) (object_id : option string)
  | RootCandidatesResponse (root_id : string) (candidates : list ProfileSyncRootCandidate)
  | ProvidersResponse (providers : list ProfileSyncProviderRecord)
  | ProviderHealthResponse (health : ProfileSyncProviderHealth)
  | RootHealthResponse (health : ProfileSyncRootHealth).

(** [ServiceRequest] and [ServiceResponse]; the HTTP fetch payloads are not looked
    into by the services modelled here. *)
Inductive ServiceRequest (H : Type) :=
  | HttpFetchRequest (request : H)
  | ProfileSyncServiceRequest (request : ProfileSyncRequest).
Arguments HttpFetchRequest {H}. Arguments ProfileSyncServiceRequest {H}.

Inductive ServiceResponse (H : Type) :=
  | HttpFetchServiceResponse (response : H)
  | ProfileSyncServiceResponse (response : ProfileSyncResponse).
Arguments HttpFetchServiceResponse {H}. Arguments ProfileSyncServiceResponse {H}.
