(* ===== verification/Http.v ===== *)
(** * HTTP requests and responses of the daemon

    Models the HTTP part of [crates/broadwebd/src/http.rs]: requests, responses, the
    content type that is inferred for a body and the disposition of a response.

    URLs are parsed by the [url] crate: a parsed URL is the record of what the program
    reads of it, and the parser is a parameter. *)
From S2P Require Import Prelude RustStr Broadwebd.

(** ** URLs *)

Record Url := {
  url_as_str : string;
  url_without_fragment : string;   (** after [set_fragment(None)] *)
  url_scheme : string;
  url_username : string;
  url_password : option string;
  url_host_str : option string;
  url_port : option Z;             (** [None] for the default port of the scheme *)
  url_path : string;
  url_query : option string;
  url_fragment : option string;
  url_path_segments : option (list string)
}.

(** [Url::parse], [Url::join], [set_path], [set_query(None)] and the [append_pair] calls of
    one [query_pairs_mut]; errors are their text. *)
Class UrlCrate := {
  url_parse : string -> result string Url;
  url_join : Url -> string -> result string Url;
  url_set_path : string -> Url -> Url;
  url_clear_query : Url -> Url;
  url_append_pairs : list (string * string) -> Url -> Url
}.

(** ** Requests *)

Inductive FetchPurpose := Navigation | Subresource.
#[export] Instance FetchPurpose_eq_dec : EqDecision FetchPurpose.
Proof. solve_decision. Defined.

Record HttpFetchRequest := {
  hq_profile : string;
  hq_url : string;
  hq_transport_id : option string;
  hq_purpose : FetchPurpose;
  hq_suggested_download_filename : option string
}.

Definition DEFAULT_PROFILE : string := "default".

Definition http_fetch_request_new (profile url : string) : HttpFetchRequest :=
  {| hq_profile := profile; hq_url := url; hq_transport_id := None; hq_purpose := Navigation;
     hq_suggested_download_filename := None |}.
Definition default_profile_request (url : string) : HttpFetchRequest :=
  http_fetch_request_new DEFAULT_PROFILE url.
Definition through_transport (r : HttpFetchRequest) (transport_id : string) : HttpFetchRequest :=
  {| hq_profile := hq_profile r; hq_url := hq_url r; hq_transport_id := Some transport_id;
     hq_purpose := hq_purpose r;
     hq_suggested_download_filename := hq_suggested_download_filename r |}.
Definition for_subresource (r : HttpFetchRequest) : HttpFetchRequest :=
  {| hq_profile := hq_profile r; hq_url := hq_url r; hq_transport_id := hq_transport_id r;
     hq_purpose := Subresource;
     hq_suggested_download_filename := hq_suggested_download_filename r |}.
Definition download_as (r : HttpFetchRequest) (filename : string) : HttpFetchRequest :=
  {| hq_profile := hq_profile r; hq_url := hq_url r; hq_transport_id := hq_transport_id r;
     hq_purpose := hq_purpose r; hq_suggested_download_filename := Some filename |}.

Record TransportHttpRequest := {
  tq_profile : string;
  tq_url : string;
  tq_purpose : FetchPurpose
}.

(** ** Responses *)

Record HttpHeader := { hd_name : string; hd_value : string }.

Inductive FetchDisposition :=
  | RenderHtml
  | Download (suggested_filename : string)
  | ErrorPage (status_code : Z).
#[export] Instance FetchDisposition_eq_dec : EqDecision FetchDisposition.
Proof. solve_decision. Defined.

Record FetchRouteInfo := {
  ri_profile : string;
  ri_transport_id : string;
  ri_privacy_boundary : string;
  ri_purpose : FetchPurpose
}.

(** A path is its text. *)
Record DownloadRecord := {
  dr_profile : string;
  dr_filename : string;
  dr_path : string;
  dr_size_bytes : Z;
  dr_content_type : option string
}.

Record HttpFetchResponse := {
  hr_final_url : string;
  hr_status_code : Z;
  hr_content_type : option string;
  hr_headers : list HttpHeader;
  hr_body : string;
  hr_disposition : FetchDisposition;
  hr_route : option FetchRouteInfo;
  hr_download : option DownloadRecord
}.

Definition with_route (r : HttpFetchResponse) (route : FetchRouteInfo) : HttpFetchResponse :=
  {| hr_final_url := hr_final_url r; hr_status_code := hr_status_code r;
     hr_content_type := hr_content_type r; hr_headers := hr_headers r; hr_body := hr_body r;
     hr_disposition := hr_disposition r; hr_route := Some route; hr_download := hr_download r |}.
Definition with_download (r : HttpFetchResponse) (download : DownloadRecord) : HttpFetchResponse :=
  {| hr_final_url := hr_final_url r; hr_status_code := hr_status_code r;
     hr_content_type := hr_content_type r; hr_headers := hr_headers r; hr_body := hr_body r;
     hr_disposition := hr_disposition r; hr_route := hr_route r;
     hr_download := Some download |}.
Definition with_download_disposition (r : HttpFetchResponse) (filename : string) :
    HttpFetchResponse :=
  {| hr_final_url := hr_final_url r; hr_status_code := hr_status_code r;
     hr_content_type := hr_content_type r; hr_headers := hr_headers r; hr_body := hr_body r;
     hr_disposition := Download filename; hr_route := hr_route r;
     hr_download := hr_download r |}.
Definition is_html (r : HttpFetchResponse) : bool :=
  match hr_disposition r with RenderHtml => true | _ => false end.

(** ** Content types *)

(** [split(c).next()]: the text before the first [c]. *)
Definition before_first (c : ascii) (s : string) : string :=
  (split_at_first (Ascii.eqb c) s).1.

Definition media_type (content_type : string) : string :=
  to_ascii_lowercase (trim (before_first ";" content_type)).

Definition is_html_content_type (content_type : option string) : bool :=
  match content_type with
  | None => false
  | Some content_type =>
      str_eqb (media_type content_type) "text/html"
      || str_eqb (media_type content_type) "application/xhtml+xml"
  end.

Definition is_generic_binary_content_type (content_type : string) : bool :=
  str_eqb (media_type content_type) "application/octet-stream"
  || str_eqb (media_type content_type) "binary/octet-stream".

Definition HTML_PREFIXES : list string :=
  ["<!doctype html"; "<html"; "<head"; "<body"; "<title"; "<main"; "<section"; "<article";
   "<header"; "<nav"; "<div"; "<p"; "<h1"; "<h2"; "<h3"; "<h4"; "<h5"; "<h6"; "<style";
   "<script"].

Definition is_html_body_prefix (prefix : string) : bool :=
  existsb (fun html_prefix => starts_with html_prefix prefix) HTML_PREFIXES.

(** The bytes of a string, from the front. *)
Fixpoint str_take (n : nat) (s : string) : string :=
  match n, s with
  | S n, String c s => String c (str_take n s)
  | _, _ => EmptyString
  end.
Fixpoint str_drop (n : nat) (s : string) : string :=
  match n, s with
  | S n, String _ s => str_drop n s
  | _, _ => s
  end.

(** [std::str::from_utf8], as a test: the encoding of Unicode scalar values. *)
Fixpoint utf8_valid_fuel (fuel : nat) (s : string) : bool :=
  let tail c := in_range "128" "191" c in
  match fuel with
  | O => true
  | S fuel =>
      match s with
      | EmptyString => true
      | String a s =>
          let x := byte_val a in
          if x <? 128 then utf8_valid_fuel fuel s
          else if (194 <=? x) && (x <=? 223) then
            match s with
            | String b s => tail b && utf8_valid_fuel fuel s
            | _ => false
            end
          else if (224 <=? x) && (x <=? 239) then
            match s with
            | String b (String c s) =>
                let y := byte_val b in
                ((if x =? 224 then 160 else 128) <=? y)
                && (y <=? (if x =? 237 then 159 else 191)) && tail c && utf8_valid_fuel fuel s
            | _ => false
            end
          else if (240 <=? x) && (x <=? 244) then
            match s with
            | String b (String c (String d s)) =>
                let y := byte_val b in
                ((if x =? 240 then 144 else 128) <=? y)
                && (y <=? (if x =? 244 then 143 else 191)) && tail c && tail d
                && utf8_valid_fuel fuel s
            | _ => false
            end
          else false
      end
  end.
Definition utf8_valid (s : string) : bool := utf8_valid_fuel (String.length s) s.

Definition content_type_from_html_body (body : string) : option string :=
  let prefix := str_take 256 body in
  if negb (utf8_valid prefix) then None
  else if is_html_body_prefix (to_ascii_lowercase (trim_start prefix))
  then Some "text/html; charset=utf-8" else None.

(** [rsplit(c).next()]: the text after the last [c]. *)
Definition after_last (c : ascii) (s : string) : string := List.last (str_split c s) "".

Definition content_type_of_extension (extension : string) : option string :=
  if str_eqb extension "html" || str_eqb extension "htm" then Some "text/html; charset=utf-8"
  else if str_eqb extension "xhtml" then Some "application/xhtml+xml"
  else if str_eqb extension "css" then Some "text/css"
  else if str_eqb extension "js" || str_eqb extension "mjs" then Some "application/javascript"
  else if str_eqb extension "json" then Some "application/json"
  else if str_eqb extension "svg" then Some "image/svg+xml"
  else if str_eqb extension "png" then Some "image/png"
  else if str_eqb extension "jpg" || str_eqb extension "jpeg" then Some "image/jpeg"
  else if str_eqb extension "gif" then Some "image/gif"
  else if str_eqb extension "webp" then Some "image/webp"
  else if str_eqb extension "ico" then Some "image/x-icon"
  else if str_eqb extension "wasm" then Some "application/wasm"
  else if str_eqb extension "txt" then Some "text/plain; charset=utf-8"
  else None.

Section Http.
Context `{UrlCrate}.

Definition parse_http_url (input : string) : result BroadwebdError Url :=
  map_err InvalidUrl (url_parse input).

Definition content_type_from_path (url : string) : option string :=
  match url_parse url with
  | Err _ => None
  | Ok url => content_type_of_extension (after_last "." (to_ascii_lowercase (url_path url)))
  end.

Definition or_else {A} (a b : option A) : option A := match a with Some _ => a | None => b end.
Definition option_filter {A} (p : A -> bool) (o : option A) : option A :=
  match o with Some a => if p a then Some a else None | None => None end.

Definition infer_content_type (final_url : string) (header_content_type : option string)
    (body : string) : option string :=
  let header_content_type :=
    option_filter (fun s => negb (is_empty s)) (option_map trim header_content_type) in
  or_else (option_filter (fun s => negb (is_generic_binary_content_type s)) header_content_type)
    (or_else (content_type_from_html_body body)
       (or_else (content_type_from_path final_url) header_content_type)).

(** ** Dispositions *)

Definition find_header (name : string) (headers : list HttpHeader) : option HttpHeader :=
  list_find_bool (fun header => eq_ignore_ascii_case (hd_name header) name) headers.

Definition is_attachment_response (headers : list HttpHeader) : bool :=
  match find_header "content-disposition" headers with
  | Some header =>
      eq_ignore_ascii_case (trim (before_first ";" (hd_value header))) "attachment"
  | None => false
  end.

Definition unquote_header_value (value : string) : string :=
  match strip_prefix quote value with
  | Some inner => default value (strip_suffix quote inner)
  | None => value
  end.

(** The first [filename] parameter that is not empty. *)
Fixpoint filename_parameter (parameters : list string) : option string :=
  match parameters with
  | [] => None
  | parameter :: parameters =>
      match split_once "=" parameter with
      | Some (name, value) =>
          let filename := unquote_header_value (trim value) in
          if eq_ignore_ascii_case (trim name) "filename" && negb (is_empty filename)
          then Some filename else filename_parameter parameters
      | None => filename_parameter parameters
      end
  end.

Definition content_disposition_filename (headers : list HttpHeader) : option string :=
  match find_header "content-disposition" headers with
  | None => None
  | Some header => filename_parameter (drop 1 (str_split ";" (hd_value header)))
  end.

Definition suggested_filename (final_url : string) : string :=
  default "download"
    (option_filter (fun segment => negb (is_empty segment))
       (match url_parse final_url with
        | Ok url => match url_path_segments url with
                    | Some segments => last segments
                    | None => None
                    end
        | Err _ => None
        end)).

Definition is_success (status_code : Z) : bool := (200 <=? status_code) && (status_code <=? 299).

Definition response_disposition (status_code : Z) (final_url : string)
    (content_type : option string) (headers : list HttpHeader) : FetchDisposition :=
  if negb (is_success status_code) then ErrorPage status_code
  else if is_attachment_response headers then
    Download (default (suggested_filename final_url) (content_disposition_filename headers))
  else if is_html_content_type content_type then RenderHtml
  else Download (suggested_filename final_url).

Definition http_fetch_response_new (final_url : string) (status_code : Z)
    (content_type : option string) (headers : list HttpHeader) (body : string) :
    HttpFetchResponse :=
  {| hr_final_url := final_url; hr_status_code := status_code; hr_content_type := content_type;
     hr_headers := headers; hr_body := body;
     hr_disposition := response_disposition status_code final_url content_type headers;
     hr_route := None; hr_download := None |}.
End Http.
