(* ===== verification/Downloads.v ===== *)
(** * The state directory of the daemon

    Models [crates/broadwebd/src/state.rs]: the directories of the profiles, the names
    downloads are stored under, and the index of downloads of a profile.

    The file system is explicit: files with their bytes, directories, and the faults the
    operating system will report, one entry per call ([None]: the call is carried out).
    A path is its text; a call that reports a fault changes nothing. *)
From S2P Require Import Prelude RustStr Broadwebd Http.

(** ** The file system *)

Inductive IoErrorKind := AlreadyExists | NotFound | OtherKind.
Record IoError := { io_kind : IoErrorKind; io_text : string }.

Record FileSystem := {
  fs_files : gmap string string;
  fs_dirs : gset string;
  fs_faults : list (option IoError)
}.

Definition fs (A : Type) : Type := state_result FileSystem IoError A.

(** The next call fails, or is carried out. *)
Definition fs_call {A} (call : fs A) : fs A := fun s =>
  match fs_faults s with
  | Some e :: faults =>
      ({| fs_files := fs_files s; fs_dirs := fs_dirs s; fs_faults := faults |}, Err e)
  | None :: faults =>
      call {| fs_files := fs_files s; fs_dirs := fs_dirs s; fs_faults := faults |}
  | [] => call s
  end.

Definition fs_set_file (path bytes : string) (s : FileSystem) : FileSystem :=
  {| fs_files := <[path := bytes]> (fs_files s); fs_dirs := fs_dirs s;
     fs_faults := fs_faults s |}.

Definition not_found : IoError :=
  {| io_kind := NotFound; io_text := "No such file or directory (os error 2)" |}.
Definition file_exists : IoError :=
  {| io_kind := AlreadyExists; io_text := "File exists (os error 17)" |}.
Definition is_a_directory : IoError :=
  {| io_kind := OtherKind; io_text := "Is a directory (os error 21)" |}.
Definition not_a_directory : IoError :=
  {| io_kind := OtherKind; io_text := "Not a directory (os error 20)" |}.
Definition invalid_utf8 : IoError :=
  {| io_kind := OtherKind; io_text := "stream did not contain valid UTF-8" |}.

(** ** Paths *)

(** [Path::join]. *)
Definition path_join (path component : string) : string :=
  if starts_with "/" component then component
  else if is_empty path || ends_with "/" path then path +:+ component
  else path +:+ "/" +:+ component.

(** The directories above a path, and the path itself. *)
Fixpoint path_prefixes (before path : string) : list string :=
  match path with
  | EmptyString => [before]
  | String c path =>
      let prefixes := path_prefixes (before +:+ String c EmptyString) path in
      if Ascii.eqb c "/" && negb (is_empty before) then before :: prefixes else prefixes
  end.

Definition path_parent (path : string) : string :=
  match List.rev (path_prefixes "" path) with _ :: parent :: _ => parent | _ => "" end.

(** [Path::file_name]. *)
Definition path_file_name (path : string) : option string :=
  let name := after_last "/" path in
  if is_empty name || str_eqb name ".." then None else Some name.

(** ** Calls *)

Definition fs_create_dir_all (path : string) : fs unit := fs_call (fun s =>
  let prefixes := path_prefixes "" path in
  if existsb (fun p => bool_decide (is_Some (fs_files s !! p))) prefixes
  then (s, Err (if bool_decide (is_Some (fs_files s !! path)) then file_exists
                else not_a_directory))
  else ({| fs_files := fs_files s; fs_dirs := list_to_set prefixes ∪ fs_dirs s;
           fs_faults := fs_faults s |}, Ok tt)).

(** [OpenOptions::new().write(true).create_new(true).open(path)]. *)
Definition fs_create_new (path : string) : fs unit := fs_call (fun s =>
  if bool_decide (is_Some (fs_files s !! path)) || bool_decide (path ∈ fs_dirs s)
  then (s, Err file_exists)
  else if bool_decide (path_parent path ∈ fs_dirs s) then (fs_set_file path "" s, Ok tt)
  else (s, Err not_found)).

(** [OpenOptions::new().create(true).append(true).open(path)]. *)
Definition fs_open_append (path : string) : fs unit := fs_call (fun s =>
  if bool_decide (path ∈ fs_dirs s) then (s, Err is_a_directory)
  else match fs_files s !! path with
       | Some _ => (s, Ok tt)
       | None => if bool_decide (path_parent path ∈ fs_dirs s)
                 then (fs_set_file path "" s, Ok tt) else (s, Err not_found)
       end).

(** [write_all] at the end of an open file. *)
Definition fs_append (path bytes : string) : fs unit := fs_call (fun s =>
  (fs_set_file path (default "" (fs_files s !! path) +:+ bytes) s, Ok tt)).

Definition fs_read_to_string (path : string) : fs string := fs_call (fun s =>
  match fs_files s !! path with
  | Some bytes => (s, if utf8_valid bytes then Ok bytes else Err invalid_utf8)
  | None => (s, Err (if bool_decide (path ∈ fs_dirs s) then is_a_directory else not_found))
  end).

Record Metadata := { md_is_file : bool; md_len : Z }.

Definition fs_metadata (path : string) : fs Metadata := fs_call (fun s =>
  match fs_files s !! path with
  | Some bytes => (s, Ok {| md_is_file := true; md_len := str_len bytes |})
  | None => (s, if bool_decide (path ∈ fs_dirs s)
                then Ok {| md_is_file := false; md_len := 4096 |} else Err not_found)
  end).

(** The entries of a directory. *)
Definition fs_read_dir (path : string) : fs (list string) := fs_call (fun s =>
  if bool_decide (path ∈ fs_dirs s) then
    (s, Ok (List.filter (fun p => str_eqb (path_parent p) path)
              ((map_to_list (fs_files s)).*1 ++ elements (fs_dirs s))))
  else (s, Err (if bool_decide (is_Some (fs_files s !! path)) then not_a_directory
                else not_found))).

(** A call of an operation of the daemon: [?] turns the error into a [BroadwebdError]. *)
Definition io_error (e : IoError) : BroadwebdError := Io (io_text e).
Definition state_op (A : Type) : Type := state_result FileSystem BroadwebdError A.
Definition on_fs {A} (m : fs A) : state_op A := sr_map_err io_error m.

(** ** Names *)

Definition validate_profile_id (profile : string) : result BroadwebdError unit :=
  if negb (is_empty profile)
     && all_bytes (fun c => is_ascii_alphanumeric c || one_of "-_" c) profile
  then Ok tt else Err (InvalidProfile profile).

Definition filename_char (c : ascii) : bool := is_ascii_alphanumeric c || one_of ".-_" c.

(** The first [n] characters: a byte that continues a character is skipped. *)
Fixpoint sanitize_chars (n : nat) (s : string) : string :=
  match s with
  | EmptyString => EmptyString
  | String c s =>
      if in_range "128" "191" c then sanitize_chars n s
      else match n with
           | O => EmptyString
           | S n => String (if filename_char c then c else "_"%char) (sanitize_chars n s)
           end
  end.

Definition trim_matches (c : ascii) (s : string) : string := trim_end_matches c (drop_leading c s).

Definition sanitized_filename (filename : string) : string :=
  let output := trim_matches "." (sanitize_chars 160 filename) in
  if is_empty output then "download" else output.

(** [rsplit_once]: at the last separator. *)
Definition rsplit_once (sep : ascii) (s : string) : option (string * string) :=
  match split_once (String sep EmptyString) (str_rev s) with
  | Some (after, before) => Some (str_rev before, str_rev after)
  | None => None
  end.

Definition stem_and_extension (filename : string) : string * string :=
  match rsplit_once "." filename with
  | Some (stem, extension) =>
      if negb (is_empty stem) && negb (is_empty extension) then (stem, "." +:+ extension)
      else (filename, "")
  | None => (filename, "")
  end.

(** The first thousand of [download_filename_candidates]. *)
Definition download_filename_candidates (filename : string) : list string :=
  let '(stem, extension) := stem_and_extension filename in
  filename :: map (fun suffix => stem +:+ "-" +:+ show (Z.of_nat suffix) +:+ extension)
                (List.seq 1 999).

(** ** The state root *)

Record StateRoot := { sr_path : string; sr_downloads_root : string }.

Record TemporaryDownloadRecord := {
  td_profile : string;
  td_filename : string;
  td_path : string;
  td_size_bytes : Z
}.

Record DownloadIndexRecord := {
  ix_filename : string;
  ix_path : string;
  ix_size_bytes : Z
}.

(** [serde_json] on the lines of the index. *)
Class DownloadIndexJson := {
  index_to_json : DownloadIndexRecord -> result string string;
  index_from_json : string -> result string DownloadIndexRecord
}.

(** [str::lines]. *)
Fixpoint drop_last_empty (l : list string) : list string :=
  match l with
  | [] => []
  | [s] => if is_empty s then [] else [s]
  | s :: l => s :: drop_last_empty l
  end.
Definition newline : ascii := byte_of 10.
Definition carriage_return : string := String (byte_of 13) "".
Definition str_lines (s : string) : list string :=
  map (fun line => default line (strip_suffix carriage_return line))
    (drop_last_empty (str_split newline s)).

Definition prepare_with_download_root (path downloads_root : string) : state_op StateRoot :=
  do* on_fs (fs_create_dir_all (path_join path "profiles")) in
  do* on_fs (fs_create_dir_all (path_join path "volatile")) in
  sr_ret {| sr_path := path; sr_downloads_root := downloads_root |}.

Section StateRoot.
Context `{DownloadIndexJson} (root : StateRoot).

Definition profile_root (profile : string) : result BroadwebdError string :=
  let? _ := validate_profile_id profile in
  Ok (path_join (path_join (sr_path root) "profiles") profile).

Definition prepare_profile (profile : string) : state_op string :=
  let* path := sr_lift (profile_root profile) in
  do* on_fs (fs_create_dir_all (path_join path "protocol-state")) in
  do* on_fs (fs_create_dir_all (path_join path "temporary")) in
  sr_ret path.

Definition download_index_path (profile : string) : state_op string :=
  let* path := prepare_profile profile in
  sr_ret (path_join path "downloads.jsonl").

Definition append_download_record (profile path : string) (size_bytes : Z) : state_op unit :=
  let record := {| ix_filename := default "download" (path_file_name path);
                   ix_path := path; ix_size_bytes := size_bytes |} in
  let* index_path := download_index_path profile in
  do* on_fs (fs_open_append index_path) in
  let* json := sr_lift (map_err Io (index_to_json record)) in
  do* on_fs (fs_append index_path json) in
  on_fs (fs_append index_path (String newline "")).

(** The first candidate that does not exist yet is created and written. *)
Fixpoint store_candidates (directory filename body : string) (recorded : string -> state_op unit)
    (kind : string) (candidates : list string) : state_op string :=
  match candidates with
  | [] => sr_err (UnsupportedRequest ("could not allocate a " +:+ kind +:+ " filename for "
                    +:+ filename))
  | candidate :: candidates => fun s =>
      let path := path_join directory candidate in
      match fs_create_new path s with
      | (s, Ok _) =>
          (do* on_fs (fs_append path body) in
           do* recorded path in
           sr_ret path) s
      | (s, Err e) =>
          match io_kind e with
          | AlreadyExists => store_candidates directory filename body recorded kind candidates s
          | _ => (s, Err (io_error e))
          end
      end
  end.

Definition store_download (profile filename body : string) : state_op string :=
  do* prepare_profile profile in
  do* on_fs (fs_create_dir_all (sr_downloads_root root)) in
  let filename := sanitized_filename filename in
  store_candidates (sr_downloads_root root) filename body
    (fun path => append_download_record profile path (str_len body)) "download"
    (download_filename_candidates filename).

Definition store_temporary_download (profile filename body : string) : state_op string :=
  let* path := prepare_profile profile in
  let downloads_root := path_join (path_join path "temporary") "downloads" in
  do* on_fs (fs_create_dir_all downloads_root) in
  let filename := sanitized_filename filename in
  store_candidates downloads_root filename body (fun _ => sr_ret tt) "temporary download"
    (download_filename_candidates filename).

(** The listed downloads whose files are still there. *)
Fixpoint read_index (profile : string) (lines : list string) :
    state_op (list TemporaryDownloadRecord) :=
  match lines with
  | [] => sr_ret []
  | line :: lines =>
      let* record := sr_lift (map_err Io (index_from_json line)) in
      fun s => match fs_metadata (ix_path record) s with
      | (s, Ok metadata) =>
          (let* downloads := read_index profile lines in
           sr_ret (if md_is_file metadata
                   then {| td_profile := profile; td_filename := ix_filename record;
                           td_path := ix_path record; td_size_bytes := md_len metadata |}
                        :: downloads
                   else downloads)) s
      | (s, Err e) =>
          match io_kind e with
          | NotFound => read_index profile lines s
          | _ => (s, Err (io_error e))
          end
      end
  end.

Definition sort_downloads (l : list TemporaryDownloadRecord) : list TemporaryDownloadRecord :=
  sort_by (key_cmp td_filename) l.

Definition downloads (profile : string) : state_op (list TemporaryDownloadRecord) :=
  do* sr_lift (profile_root profile) in
  let* index_path := download_index_path profile in
  fun s => match fs_read_to_string index_path s with
  | (s, Err e) => match io_kind e with NotFound => (s, Ok []) | _ => (s, Err (io_error e)) end
  | (s, Ok index) =>
      (let* l := read_index profile
                   (List.filter (fun line => negb (is_empty (trim line))) (str_lines index)) in
       sr_ret (sort_downloads l)) s
  end.

Fixpoint read_entries (profile : string) (entries : list string) :
    state_op (list TemporaryDownloadRecord) :=
  match entries with
  | [] => sr_ret []
  | path :: entries =>
      let* metadata := on_fs (fs_metadata path) in
      let* l := read_entries profile entries in
      sr_ret (match path_file_name path with
              | Some filename =>
                  if md_is_file metadata
                  then {| td_profile := profile; td_filename := filename; td_path := path;
                          td_size_bytes := md_len metadata |} :: l
                  else l
              | None => l
              end)
  end.

Definition temporary_downloads (profile : string) : state_op (list TemporaryDownloadRecord) :=
  let* path := sr_lift (profile_root profile) in
  let downloads_root := path_join (path_join path "temporary") "downloads" in
  fun s => match fs_read_dir downloads_root s with
  | (s, Err e) => match io_kind e with NotFound => (s, Ok []) | _ => (s, Err (io_error e)) end
  | (s, Ok entries) => (let* l := read_entries profile entries in sr_ret (sort_downloads l)) s
  end.
End StateRoot.
