(* ===== verification/StrLaws.v ===== *)
(** * Laws of strings

    The lemmas on the [str] methods of [RustStr] that the components share: reversal,
    splitting, joining, prefixes and lengths. *)
From S2P Require Import Prelude RustStr SocketText Http Downloads.

Lemma str_cons_app c s b : String c s +:+ b = String c (s +:+ b).
Proof. done. Qed.

Lemma str_rev_append_app s acc acc' :
  str_rev_append s (acc +:+ acc') = str_rev_append s acc +:+ acc'.
Proof.
  revert acc. induction s as [|c s IH]; intros acc; [done|]. cbn [str_rev_append].
  exact (IH (String c acc)).
Qed.

Lemma str_rev_cons c s : str_rev (String c s) = str_rev s +:+ String c "".
Proof. exact (str_rev_append_app s "" (String c "")). Qed.

Lemma str_rev_app a b : str_rev (a +:+ b) = str_rev b +:+ str_rev a.
Proof.
  induction a as [|c a IH]; [by rewrite str_app_nil_r|].
  change (String c a +:+ b) with (String c (a +:+ b)).
  by rewrite !str_rev_cons, IH, str_app_assoc.
Qed.

Lemma str_rev_rev s : str_rev (str_rev s) = s.
Proof. induction s as [|c s IH]; [done|]. by rewrite str_rev_cons, str_rev_app, IH. Qed.

Lemma all_bytes_rev p s : all_bytes p (str_rev s) = all_bytes p s.
Proof.
  induction s as [|c s IH]; [done|]. rewrite str_rev_cons, all_bytes_app, IH. cbn.
  rewrite andb_true_r. apply andb_comm.
Qed.

Lemma split_once_Some sep s a b : split_once sep s = Some (a, b) -> s = a +:+ sep +:+ b.
Proof.
  revert a. induction s as [|c s IH]; intros a; cbn [split_once].
  - destruct (strip_prefix sep "") as [rest|] eqn:E; [|done].
    intros [= <- <-]. by apply strip_prefix_Some in E.
  - destruct (strip_prefix sep (String c s)) as [rest|] eqn:E.
    + intros [= <- <-]. by apply strip_prefix_Some in E.
    + destruct (split_once sep s) as [[a' b']|]; [|done]. intros [= <- <-].
      by rewrite (IH a' eq_refl) at 1.
Qed.

Lemma rsplit_once_Some sep s a b :
  rsplit_once sep s = Some (a, b) -> s = a +:+ String sep b.
Proof.
  unfold rsplit_once. destruct (split_once _ _) as [[after before]|] eqn:E; [|done].
  intros [= <- <-]. apply split_once_Some, (f_equal str_rev) in E.
  rewrite str_rev_rev in E. rewrite E, !str_rev_app. by rewrite str_app_assoc.
Qed.

Lemma drop_leading_spec c s :
  exists n, s = n +:+ drop_leading c s /\ starts_with (String c "") (drop_leading c s) = false.
Proof.
  induction s as [|d s IH]; [by exists ""|]. cbn [drop_leading].
  destruct (Ascii.eqb_spec d c) as [->|Hd].
  - destruct IH as (n & Hn & Hs). exists (String c n). split; [|done]. by rewrite Hn at 1.
  - exists "". split; [done|]. unfold starts_with. cbn.
    by destruct (Ascii.eqb_spec c d) as [->|].
Qed.

Lemma all_bytes_drop_leading p c s : all_bytes p s = true -> all_bytes p (drop_leading c s) = true.
Proof.
  destruct (drop_leading_spec c s) as (n & Hn & _). rewrite Hn at 1. rewrite all_bytes_app.
  by intros [_ ?]%andb_prop.
Qed.

(** What is left of a trimmed text is a prefix of it. *)
Lemma trim_end_matches_spec c s : exists n, s = trim_end_matches c s +:+ n.
Proof.
  unfold trim_end_matches. destruct (drop_leading_spec c (str_rev s)) as (n & Hn & _).
  exists (str_rev n). by rewrite <-str_rev_app, <-Hn, str_rev_rev.
Qed.

Lemma str_split_nonempty sep a : str_split sep a <> [].
Proof.
  destruct a as [|c a]; [done|]. cbn [str_split]. destruct (Ascii.eqb c sep); [done|].
  by destruct (str_split sep a).
Qed.

Lemma str_split_app sep a b :
  str_split sep (a +:+ String sep b) = str_split sep a ++ str_split sep b.
Proof.
  induction a as [|c a IH].
  - cbn [str_split]. change ("" +:+ String sep b) with (String sep b). cbn [str_split].
    by rewrite Ascii.eqb_refl.
  - change (String c a +:+ String sep b) with (String c (a +:+ String sep b)).
    cbn [str_split]. rewrite IH. destruct (Ascii.eqb c sep); [done|].
    destruct (str_split sep a) eqn:E; [|done]. by destruct (str_split_nonempty sep a).
Qed.

Lemma str_split_none sep a :
  all_bytes (fun c => negb (Ascii.eqb c sep)) a = true -> str_split sep a = [a].
Proof.
  induction a as [|c a IH]; [done|]. cbn [all_bytes str_split].
  intros [Hc Ha]%andb_prop. apply negb_true_iff in Hc. by rewrite Hc, IH.
Qed.

Lemma str_length_app a b : String.length (a +:+ b) = (String.length a + String.length b)%nat.
Proof.
  induction a as [|c a IH]; [done|]. change (String c a +:+ b) with (String c (a +:+ b)).
  cbn [String.length]. by rewrite IH.
Qed.

Lemma str_join_cons sep a b l : str_join sep (a :: b :: l) = a +:+ sep +:+ str_join sep (b :: l).
Proof. done. Qed.

Lemma str_take_app a b : str_take (String.length a) (a +:+ b) = a.
Proof. induction a as [|c a IH]; [by destruct b|]. rewrite str_cons_app. cbn. by rewrite IH. Qed.

Lemma str_drop_app a b : str_drop (String.length a) (a +:+ b) = b.
Proof. induction a as [|c a IH]; [by destruct b|]. rewrite str_cons_app. cbn. by rewrite IH. Qed.

Lemma str_len_app a b : str_len (a +:+ b) = str_len a + str_len b.
Proof. unfold str_len. rewrite str_length_app. lia. Qed.

Lemma str_len_nonneg a : 0 <= str_len a.
Proof. unfold str_len. lia. Qed.

Lemma str_take_drop n s : s = str_take n s +:+ str_drop n s.
Proof.
  revert s. induction n as [|n IH]; intros [|c s]; try done.
  cbn [str_take str_drop]. rewrite str_cons_app. by rewrite <-IH.
Qed.

Lemma str_take_all s : str_take (String.length s) s = s.
Proof. induction s as [|c s IH]; [done|]. cbn. by rewrite IH. Qed.

Lemma str_take_length n s : (n <= String.length s)%nat -> String.length (str_take n s) = n.
Proof.
  revert s. induction n as [|n IH]; intros [|c s] Hn; try done; cbn in *; [lia|].
  by rewrite IH by lia.
Qed.

Lemma str_app_prefix a b chunk rest :
  a +:+ b = chunk +:+ rest -> (String.length chunk <= String.length a)%nat ->
  exists t, a = chunk +:+ t /\ rest = t +:+ b.
Proof.
  intros [(q & -> & ->)|(q & -> & ->)]%str_app_split Hlen; [by exists q|].
  rewrite str_length_app in Hlen. destruct q; [|cbn in Hlen; lia].
  exists "". by rewrite !str_app_nil_r.
Qed.

Lemma is_empty_spec s : is_empty s = true <-> s = "".
Proof. by destruct s. Qed.

Lemma str_concat_cons piece pieces :
  String.concat "" (piece :: pieces) = piece +:+ String.concat "" pieces.
Proof. destruct pieces; [by rewrite str_app_nil_r|done]. Qed.

Lemma str_take_app_le n a b : (n <= String.length a)%nat -> str_take n (a +:+ b) = str_take n a.
Proof.
  revert a. induction n as [|n IH]; intros [|c a] Hn; cbn in Hn; try done; [lia|].
  rewrite str_cons_app. cbn. by rewrite IH by lia.
Qed.

Lemma strip_suffix_app p a : strip_suffix p (a +:+ p) = Some a.
Proof. unfold strip_suffix. by rewrite str_rev_app, strip_prefix_app; cbn; rewrite str_rev_rev. Qed.

(** ** Splitting and joining *)

Lemma all_bytes_impl (p q : ascii -> bool) s :
  (forall c, p c = true -> q c = true) -> all_bytes p s = true -> all_bytes q s = true.
Proof.
  intros Hpq. induction s as [|c s IH]; [done|]. cbn.
  intros [Hc Hs]%andb_prop. by rewrite (Hpq c Hc), IH.
Qed.

Lemma str_join_split sep s : str_join (String sep "") (str_split sep s) = s.
Proof.
  induction s as [|c s IH]; [done|]. cbn [str_split]. destruct (Ascii.eqb_spec c sep) as [->|Hc].
  - destruct (str_split sep s) as [|piece pieces] eqn:E; [by destruct (str_split_nonempty sep s)|].
    rewrite str_join_cons, IH. done.
  - destruct (str_split sep s) as [|piece [|piece' pieces]] eqn:E.
    + by destruct (str_split_nonempty sep s).
    + cbn in *. by rewrite IH.
    + rewrite str_join_cons in *. by rewrite <- IH.
Qed.

Lemma str_split_join sep labels :
  labels <> [] -> Forall (fun s => all_bytes (fun c => negb (Ascii.eqb c sep)) s = true) labels ->
  str_split sep (str_join (String sep "") labels) = labels.
Proof.
  intros Hne Hl. induction Hl as [|label labels Hlabel Hl IH]; [done|].
  destruct labels as [|label' labels]; [by apply str_split_none|].
  rewrite str_join_cons. change (String sep "" +:+ ?x) with (String sep x).
  by rewrite str_split_app, str_split_none, IH.
Qed.

Lemma str_contains_spec p s : str_contains p s = true <-> exists a b, s = a +:+ p +:+ b.
Proof.
  induction s as [|c s IH].
  - cbn [str_contains]. rewrite orb_false_r, starts_with_spec. split.
    + intros [rest Hs]. by exists "", rest.
    + intros ([|c a] & b & Hs); [by exists b|done].
  - cbn [str_contains]. rewrite orb_true_iff, starts_with_spec, IH. split.
    + intros [[rest Hs]|(a & b & ->)]; [by exists "", rest|by exists (String c a), b].
    + intros ([|c' a] & b & Hs); [left; by exists b|right].
      injection Hs as -> ->. by exists a, b.
Qed.
