(* ===== verification/DownloadLaws.v ===== *)
(** * What is stored is safe and listed

    A download is stored under a new name inside the downloads directory, leaves every
    other file alone, and is listed from then on. *)
From S2P Require Import Prelude RustStr SocketText Broadwebd Http Downloads StrLaws.

(** ** Strings *)

(** ** Names *)

(** A name that stays inside its directory: no separator, not hidden, not empty. *)
Definition safe_name (name : string) : Prop :=
  all_bytes filename_char name = true /\ is_empty name = false /\
  starts_with "." name = false.

Lemma sanitize_chars_bytes n s : all_bytes filename_char (sanitize_chars n s) = true.
Proof.
  revert n. induction s as [|c s IH]; intros n; [done|]. cbn [sanitize_chars].
  destruct (in_range _ _ c); [done|]. destruct n as [|n]; [done|]. cbn [all_bytes].
  rewrite IH, andb_true_r. by destruct (filename_char c) eqn:E.
Qed.

Lemma starts_with_app_l p a b :
  is_empty a = false -> String.length p = 1%nat -> starts_with p (a +:+ b) = starts_with p a.
Proof.
  destruct p as [|c [|]]; try done. destruct a as [|d a]; [done|]. intros _ _.
  unfold starts_with. cbn [strip_prefix String.append].
  change (String d a +:+ b) with (String d (a +:+ b)). cbn [strip_prefix].
  by destruct (Ascii.eqb c d).
Qed.

Lemma sanitized_filename_safe filename : safe_name (sanitized_filename filename).
Proof.
  unfold sanitized_filename. destruct (is_empty _) eqn:Hempty; [by repeat split|].
  revert Hempty. unfold trim_matches.
  set (s := sanitize_chars 160 filename). set (t := drop_leading "." s). intros Hempty.
  destruct (trim_end_matches_spec "." t) as [n Ht].
  destruct (drop_leading_spec "." s) as (_ & _ & Hdot). fold t in Hdot.
  repeat split; [|done|].
  - assert (all_bytes filename_char t = true) as H
      by apply all_bytes_drop_leading, sanitize_chars_bytes.
    rewrite Ht, all_bytes_app in H. by apply andb_prop in H as [H _].
  - by rewrite Ht, starts_with_app_l in Hdot.
Qed.

Lemma safe_name_candidate name candidate :
  safe_name name -> candidate ∈ download_filename_candidates name -> safe_name candidate.
Proof.
  intros Hsafe. unfold download_filename_candidates.
  assert (exists stem extension, stem_and_extension name = (stem, extension) /\
    safe_name stem /\ all_bytes filename_char extension = true) as (stem & ext & -> & Hstem & Hext).
  { unfold stem_and_extension. destruct Hsafe as (Hb & He & Hd).
    destruct (rsplit_once "." name) as [[stem ext]|] eqn:E; [|by exists name, ""].
    destruct (negb (is_empty stem) && negb (is_empty ext)) eqn:Hne; [|by exists name, ""].
    apply andb_prop in Hne as [Hs Hx]. apply negb_true_iff in Hs, Hx.
    apply rsplit_once_Some in E. subst name.
    rewrite all_bytes_app in Hb. apply andb_prop in Hb as [Hb1 Hb2].
    exists stem, ("." +:+ ext). split; [done|]. split; [|done].
    repeat split; [done..|]. by rewrite starts_with_app_l in Hd. }
  intros [->|Hin]%elem_of_cons; [done|].
  apply list_elem_of_fmap in Hin as (n & -> & _).
  destruct Hstem as (Hb & He & Hd). repeat split.
  - rewrite !all_bytes_app, Hb, Hext.
    rewrite (show_all_bytes filename_char (Z.of_nat n)); [done|lia|].
    intros d Hlt. do 10 (destruct d as [|d]; [done|]). lia.
  - by destruct stem.
  - by rewrite starts_with_app_l.
Qed.

Lemma download_filename_candidates_safe filename candidate :
  candidate ∈ download_filename_candidates (sanitized_filename filename) -> safe_name candidate.
Proof. apply safe_name_candidate, sanitized_filename_safe. Qed.

(** ** Calls *)

Lemma fs_call_spec {A} (call : fs A) s s' r :
  fs_call call s = (s', r) ->
  exists s0, fs_files s0 = fs_files s /\ fs_dirs s0 = fs_dirs s /\
    (fs_faults s = [] -> fs_faults s0 = []) /\
    ((call s0 = (s', r)) \/ (s' = s0 /\ exists e, r = Err e)).
Proof.
  unfold fs_call. destruct (fs_faults s) as [|[e|] faults] eqn:E.
  - intros Hc. exists s. split_and!; try done. by left.
  - intros [= <- <-].
    exists {| fs_files := fs_files s; fs_dirs := fs_dirs s; fs_faults := faults |}.
    split_and!; [done|done|done|]. right. split; [done|by eexists].
  - intros Hc. exists {| fs_files := fs_files s; fs_dirs := fs_dirs s; fs_faults := faults |}.
    split_and!; [done|done|done|by left].
Qed.

Ltac fs_step H := apply fs_call_spec in H as (?s0 & ?Hf & ?Hd & ?Hq & [H|[-> [?e ->]]]).

Lemma create_dir_all_files path s s' r :
  fs_create_dir_all path s = (s', r) -> fs_files s' = fs_files s.
Proof.
  unfold fs_create_dir_all. intros H. fs_step H; [|done]. revert H. cbn beta zeta.
  destruct (existsb _ _); intros [= <- <-]; done.
Qed.

Lemma create_new_spec path s s' r :
  fs_create_new path s = (s', r) ->
  match r with
  | Ok _ => fs_files s !! path = None /\ fs_files s' = <[path := ""]> (fs_files s)
  | Err _ => fs_files s' = fs_files s
  end.
Proof.
  unfold fs_create_new. intros H. fs_step H; [|done]. revert H. cbn beta.
  destruct (_ || _) eqn:E; [by intros [= <- <-]|].
  destruct (bool_decide (path_parent _ ∈ _)); intros [= <- <-]; [|done].
  apply orb_false_iff in E as [E _]. apply bool_decide_eq_false, eq_None_not_Some in E.
  rewrite <-Hf. by split.
Qed.

Lemma open_append_spec path s s' r :
  fs_open_append path s = (s', r) ->
  fs_files s' = fs_files s \/ (fs_files s !! path = None /\ fs_files s' = <[path := ""]> (fs_files s)).
Proof.
  unfold fs_open_append. intros H. fs_step H; [|by left]. revert H. cbn beta.
  destruct (bool_decide _); [intros [= <- <-]; by left|].
  destruct (fs_files s0 !! path) eqn:E; [intros [= <- <-]; by left|].
  destruct (bool_decide (path_parent _ ∈ _)); intros [= <- <-]; [right|by left].
  rewrite <-Hf. by split.
Qed.

Lemma append_spec path bytes s s' r :
  fs_append path bytes s = (s', r) ->
  match r with
  | Ok _ => fs_files s' = <[path := default "" (fs_files s !! path) +:+ bytes]> (fs_files s)
  | Err _ => fs_files s' = fs_files s
  end.
Proof.
  unfold fs_append. intros H. fs_step H; [|done]. injection H as <- <-. by rewrite <-Hf.
Qed.

Lemma on_fs_inv {A} (m : fs A) s s' r :
  on_fs m s = (s', r) -> exists r0, m s = (s', r0) /\ r = map_err io_error r0.
Proof. unfold on_fs, sr_map_err. destruct (m s) as [s1 r1]. intros [= <- <-]. by exists r1. Qed.

Lemma on_fs_ok {A} (m : fs A) s s' a : on_fs m s = (s', Ok a) -> m s = (s', Ok a).
Proof. intros ([r|e] & H & E)%on_fs_inv; [|done]. by injection E as ->. Qed.

(** ** A stored download *)

Section Laws.
Context `{DownloadIndexJson} (root : StateRoot).

Definition index_path (profile : string) : string :=
  path_join (path_join (path_join (sr_path root) "profiles") profile) "downloads.jsonl".

Lemma prepare_profile_ok profile s s' path :
  prepare_profile root profile s = (s', Ok path) ->
  fs_files s' = fs_files s /\ validate_profile_id profile = Ok tt /\
  path = path_join (path_join (sr_path root) "profiles") profile.
Proof.
  unfold prepare_profile, profile_root. intros (s1 & p & E & Hr)%sr_bind_ok.
  unfold sr_lift in E. destruct (validate_profile_id profile) as [[]|e]; [|discriminate E].
  injection E as <- <-.
  apply sr_bind_ok in Hr as (s2 & [] & H1%on_fs_ok%create_dir_all_files & Hr).
  apply sr_bind_ok in Hr as (s3 & [] & H2%on_fs_ok%create_dir_all_files & Hr).
  injection Hr as <- <-. split_and!; [congruence|done|done].
Qed.

(** The line that is added to the index. *)
Definition index_line (path : string) (size : Z) : result string string :=
  index_to_json {| ix_filename := default "download" (path_file_name path);
                   ix_path := path; ix_size_bytes := size |}.

Lemma append_download_record_ok profile path size s s' u :
  append_download_record root profile path size s = (s', Ok u) ->
  exists json, index_line path size = Ok json /\
    fs_files s' = <[index_path profile :=
      default "" (fs_files s !! index_path profile) +:+ json +:+ String newline ""]> (fs_files s).
Proof.
  unfold append_download_record, download_index_path. intros (s1 & p & E & Hr)%sr_bind_ok.
  apply sr_bind_ok in E as (s0 & q & (Hf0 & _ & ->)%prepare_profile_ok & E). injection E as <- <-.
  fold (index_path profile) in Hr.
  apply sr_bind_ok in Hr as (s2 & [] & H2%on_fs_ok%open_append_spec & Hr).
  apply sr_bind_ok in Hr as (s3 & json & E & Hr). unfold sr_lift in E.
  fold (index_line path size) in E.
  destruct (index_line path size) as [j|e]; [|discriminate E]. injection E as <- <-.
  apply sr_bind_ok in Hr as (s4 & [] & H4%on_fs_ok%append_spec & H5%on_fs_ok%append_spec).
  exists j. split; [done|]. rewrite H5, H4, lookup_insert_eq, insert_insert_eq. cbn [from_option id].
  rewrite str_app_assoc. rewrite <-Hf0.
  destruct H2 as [->|[Hnone ->]]; [done|].
  rewrite lookup_insert_eq, insert_insert_eq, Hnone. done.
Qed.

Lemma store_candidates_ok directory filename body recorded kind candidates s s' path :
  store_candidates directory filename body recorded kind candidates s = (s', Ok path) ->
  exists candidate s1 u, candidate ∈ candidates /\ path = path_join directory candidate /\
    fs_files s !! path = None /\ fs_files s1 = <[path := body]> (fs_files s) /\
    recorded path s1 = (s', Ok u).
Proof.
  revert s. induction candidates as [|candidate candidates IH]; intros s; [done|].
  cbn [store_candidates]. cbn zeta.
  destruct (fs_create_new _ s) as [s0 [[]|e]] eqn:E.
  - apply create_new_spec in E as [Hnone Hf]. intros (s1 & [] & H1 & Hr)%sr_bind_ok.
    apply on_fs_ok, append_spec in H1. rewrite Hf, lookup_insert_eq, insert_insert_eq in H1.
    apply sr_bind_ok in Hr as (s2 & u & H2 & E). injection E as <- <-.
    exists candidate, s1, u. split_and!; [by left|done|done|done|done].
  - apply create_new_spec in E as Hf. destruct (io_kind e); try done.
    intros (c & s1 & u & Hin & -> & Hnone & Hs1 & Hrec)%IH. rewrite Hf in Hnone, Hs1.
    exists c, s1, u. split_and!; [by right|done..].
Qed.

(** A download is a new file in the downloads directory, under a name with no separator
    that is not hidden; the only other file touched is the profile's index, which gains the
    line of this download. *)
Lemma store_download_spec profile filename body s s' path :
  store_download root profile filename body s = (s', Ok path) ->
  exists name json,
    path = path_join (sr_downloads_root root) name /\ safe_name name /\
    fs_files s !! path = None /\ index_line path (str_len body) = Ok json /\
    fs_files s' =
      (let files := <[path := body]> (fs_files s) in
       <[index_path profile :=
           default "" (files !! index_path profile) +:+ json +:+ String newline ""]> files).
Proof.
  unfold store_download. intros (s1 & p & (Hf1 & _ & _)%prepare_profile_ok & Hr)%sr_bind_ok.
  apply sr_bind_ok in Hr as (s2 & [] & H2%on_fs_ok%create_dir_all_files & Hr). cbn zeta in Hr.
  apply store_candidates_ok in Hr as (name & s3 & u & Hin & -> & Hnone & Hs3 & Hrec).
  apply append_download_record_ok in Hrec as (json & Hjson & Hs').
  exists name, json. rewrite H2, Hf1 in Hnone, Hs3.
  split_and!; [done|by eapply download_filename_candidates_safe|done|done|].
  cbn zeta. by rewrite Hs', Hs3.
Qed.
End Laws.

(** ** Lines *)

Lemma drop_last_empty_snoc l : drop_last_empty (l ++ [""]) = l.
Proof.
  induction l as [|s l IH]; [done|]. cbn [app drop_last_empty]. rewrite IH.
  by destruct l.
Qed.

(** The index is empty, or its last line is complete. *)
Definition complete_lines (text : string) : Prop :=
  text = "" \/ exists t, text = t +:+ String newline "".

Lemma str_lines_snoc text line :
  complete_lines text -> all_bytes (fun c => negb (Ascii.eqb c newline)) line = true ->
  strip_suffix carriage_return line = None ->
  str_lines (text +:+ line +:+ String newline "") = str_lines text ++ [line].
Proof.
  intros Htext Hline Hcr. unfold str_lines.
  assert (drop_last_empty (str_split newline (text +:+ line +:+ String newline ""))
    = drop_last_empty (str_split newline text) ++ [line]) as ->.
  { destruct Htext as [->|[t ->]].
    - change ("" +:+ line +:+ String newline "") with (line +:+ String newline "").
      rewrite str_split_app, (str_split_none newline line Hline).
      change (str_split newline "") with [""]. exact (drop_last_empty_snoc [line]).
    - rewrite str_app_assoc.
      change (String newline "" +:+ line +:+ String newline "")
        with (String newline (line +:+ String newline "")).
      rewrite !str_split_app, (str_split_none newline line Hline).
      change (str_split newline "") with [""].
      by rewrite app_assoc, !drop_last_empty_snoc. }
  rewrite map_app. cbn [map]. by rewrite Hcr.
Qed.

(** ** Listing *)

Class DownloadIndexLaws `{DownloadIndexJson} : Prop := {
  index_json_line record json : index_to_json record = Ok json ->
    index_from_json json = Ok record /\ utf8_valid json = true /\
    all_bytes (fun c => negb (Ascii.eqb c newline)) json = true /\
    strip_suffix carriage_return json = None /\ is_empty (trim json) = false
}.

(** No file is a directory, and no fault is pending. *)
Definition fs_consistent (s : FileSystem) : Prop :=
  fs_faults s = [] /\ forall p, p ∈ fs_dirs s -> fs_files s !! p = None.

(** The entry of a record whose file has these bytes. *)
Definition entry (profile : string) (record : DownloadIndexRecord) (bytes : string) :
    TemporaryDownloadRecord :=
  {| td_profile := profile; td_filename := ix_filename record; td_path := ix_path record;
     td_size_bytes := str_len bytes |}.

Definition listed (profile : string) (files : gmap string string)
    (records : list DownloadIndexRecord) : list TemporaryDownloadRecord :=
  omap (fun record => option_map (entry profile record) (files !! ix_path record)) records.

Section Listing.
Context `{DownloadIndexLaws} (root : StateRoot).

Definition index_lines (profile : string) (s : FileSystem) : list string :=
  List.filter (fun line => negb (is_empty (trim line)))
    (str_lines (default "" (fs_files s !! index_path root profile))).

Lemma read_index_spec profile lines s :
  fs_faults s = [] ->
  read_index profile lines s =
  (s, match collect_results (fun line => map_err Io (index_from_json line)) lines with
      | Ok records => Ok (listed profile (fs_files s) records)
      | Err e => Err e
      end).
Proof.
  intros Hq. induction lines as [|line lines IH]; [done|].
  cbn [read_index collect_results]. unfold sr_bind at 1, sr_lift.
  destruct (index_from_json line) as [record|e]; [|done]. cbn [map_err].
  unfold fs_metadata, fs_call. rewrite Hq.
  destruct (fs_files s !! ix_path record) as [bytes|] eqn:E.
  - unfold sr_bind. rewrite IH.
    destruct (collect_results _ lines) as [records|e]; [|done].
    cbn. by rewrite E.
  - destruct (bool_decide _).
    + unfold sr_bind. rewrite IH. destruct (collect_results _ lines) as [records|e]; [|done].
      cbn. by rewrite E.
    + cbn [not_found io_kind]. rewrite IH.
      destruct (collect_results _ lines) as [records|e]; [|done]. cbn. by rewrite E.
Qed.
End Listing.

(** ** Consistency of the file system *)

Lemma fs_call_quiet {A} (call : fs A) s : fs_faults s = [] -> fs_call call s = call s.
Proof. unfold fs_call. by intros ->. Qed.

(** Calls keep a consistent file system consistent and never remove a directory. *)
Definition keeps (s s' : FileSystem) : Prop :=
  fs_consistent s -> fs_consistent s' /\ fs_dirs s ⊆ fs_dirs s'.
#[export] Instance keeps_preorder : PreOrder keeps.
Proof.
  split; [done|]. intros s1 s2 s3 H12 H23 H1.
  destruct (H12 H1) as [H2 Hd12]. destruct (H23 H2) as [H3 Hd23]. split; [done|set_solver].
Qed.

Lemma prefixes_no_file s path :
  fs_consistent s -> list_to_set (path_prefixes "" path) ⊆ fs_dirs s ->
  existsb (fun p => bool_decide (is_Some (fs_files s !! p))) (path_prefixes "" path) = false.
Proof.
  intros [_ Hc] Hsub. apply not_true_iff_false. intros (p & Hp & Hf)%existsb_exists.
  apply bool_decide_eq_true in Hf as [b Hb]. rewrite Hc in Hb; [done|].
  apply Hsub, elem_of_list_to_set, list_elem_of_In, Hp.
Qed.

Lemma create_dir_all_keeps path s s' r :
  fs_create_dir_all path s = (s', r) ->
  keeps s s' /\
  (fs_consistent s -> is_ok r = true -> list_to_set (path_prefixes "" path) ⊆ fs_dirs s').
Proof.
  intros H. enough (fs_consistent s -> (fs_consistent s' /\ fs_dirs s ⊆ fs_dirs s') /\
    (is_ok r = true -> list_to_set (path_prefixes "" path) ⊆ fs_dirs s')) as Hall.
  { split; [intros Hc; by apply Hall|intros Hc; by apply Hall]. }
  intros Hcs. pose proof Hcs as [Hq Hc].
  unfold fs_create_dir_all in H. rewrite fs_call_quiet in H by done. revert H. cbn beta zeta.
  destruct (existsb _ _) eqn:E; intros [= <- <-]; [done|].
  split; [split; [split; [done|]|set_solver]|set_solver].
  cbn [fs_dirs fs_files]. intros p [Hp|Hp]%elem_of_union; [|by apply Hc].
  apply elem_of_list_to_set in Hp. apply eq_None_not_Some. intros Hsome.
  apply not_true_iff_false in E. apply E, existsb_exists. exists p.
  split; [by apply list_elem_of_In|]. by apply bool_decide_eq_true.
Qed.

Lemma consistent_set_file path bytes s :
  fs_consistent s -> path ∉ fs_dirs s -> fs_consistent (fs_set_file path bytes s).
Proof.
  intros [Hq Hc] Hpath. split; [done|]. cbn. intros p Hp.
  rewrite lookup_insert_ne by set_solver. by apply Hc.
Qed.

Lemma create_new_keeps path s s' r : fs_create_new path s = (s', r) -> keeps s s'.
Proof.
  intros H Hcs. pose proof Hcs as [Hq Hc]. unfold fs_create_new in H.
  rewrite fs_call_quiet in H by done. revert H. cbn beta.
  destruct (_ || _) eqn:E; [by intros [= <- <-]|].
  destruct (bool_decide (path_parent _ ∈ _)); intros [= <- <-]; [|done].
  apply orb_false_iff in E as [_ E]. apply bool_decide_eq_false in E.
  split; [by apply consistent_set_file|done].
Qed.

Lemma open_append_keeps path s s' r :
  fs_open_append path s = (s', r) -> keeps s s' /\ (fs_consistent s -> is_ok r = true ->
    path ∉ fs_dirs s').
Proof.
  intros H. enough (fs_consistent s -> (fs_consistent s' /\ fs_dirs s ⊆ fs_dirs s') /\
    (is_ok r = true -> path ∉ fs_dirs s')) as Hall.
  { split; [intros Hc; by apply Hall|intros Hc; by apply Hall]. }
  intros Hcs. pose proof Hcs as [Hq Hc]. unfold fs_open_append in H.
  rewrite fs_call_quiet in H by done. revert H. cbn beta.
  destruct (bool_decide (path ∈ _)) eqn:E; [by intros [= <- <-]|].
  apply bool_decide_eq_false in E.
  destruct (fs_files s !! path) eqn:El; [by intros [= <- <-]|].
  destruct (bool_decide (path_parent _ ∈ _)); intros [= <- <-]; [|done].
  split; [split; [by apply consistent_set_file|done]|done].
Qed.

Lemma append_keeps path bytes s s' r :
  fs_append path bytes s = (s', r) -> (fs_consistent s -> path ∉ fs_dirs s) -> keeps s s'.
Proof.
  intros H Hpath Hcs. pose proof Hcs as [Hq Hc]. unfold fs_append in H.
  rewrite fs_call_quiet in H by done. injection H as <- <-.
  split; [by apply consistent_set_file; [|apply Hpath]|done].
Qed.

Section Keeps.
Context `{DownloadIndexLaws} (root : StateRoot).

Definition profile_dirs (profile : string) : gset string :=
  let path := path_join (path_join (sr_path root) "profiles") profile in
  list_to_set (path_prefixes "" (path_join path "protocol-state")) ∪
  list_to_set (path_prefixes "" (path_join path "temporary")).

Lemma prepare_profile_keeps profile s s' path :
  prepare_profile root profile s = (s', Ok path) ->
  keeps s s' /\ (fs_consistent s -> profile_dirs profile ⊆ fs_dirs s').
Proof.
  intros H'. pose proof H' as (_ & _ & ->)%prepare_profile_ok. revert H'.
  unfold prepare_profile, profile_root. intros (s1 & p & E & Hr)%sr_bind_ok.
  unfold sr_lift in E. destruct (validate_profile_id profile) as [[]|e]; [|discriminate E].
  injection E as <- <-.
  apply sr_bind_ok in Hr as (s2 & [] & [Hk1 Hp1]%on_fs_ok%create_dir_all_keeps & Hr).
  apply sr_bind_ok in Hr as (s3 & [] & [Hk2 Hp2]%on_fs_ok%create_dir_all_keeps & Hr).
  injection Hr as <-. split; [by etransitivity|].
  intros Hc. destruct (Hk1 Hc) as [Hc2 Hd1]. destruct (Hk2 Hc2) as [Hc3 Hd2].
  specialize (Hp1 Hc eq_refl). specialize (Hp2 Hc2 eq_refl). unfold profile_dirs. set_solver.
Qed.

Lemma prepare_profile_runs profile s :
  fs_consistent s -> validate_profile_id profile = Ok tt -> profile_dirs profile ⊆ fs_dirs s ->
  exists s', prepare_profile root profile s
    = (s', Ok (path_join (path_join (sr_path root) "profiles") profile)) /\
    fs_files s' = fs_files s.
Proof.
  intros Hc Hv Hdirs.
  assert (exists s' r, prepare_profile root profile s = (s', r) /\ is_ok r = true) as (s' & r & E & Hr).
  { unfold prepare_profile, profile_root, sr_lift, sr_bind, on_fs, sr_map_err. rewrite Hv.
    unfold fs_create_dir_all. pose proof Hc as [Hq Hnf].
    rewrite fs_call_quiet by done. cbn beta zeta.
    rewrite prefixes_no_file by (done || set_solver). cbn [map_err].
    rewrite fs_call_quiet by done. cbn [fs_files].
    set (s1 := Build_FileSystem _ _ _).
    rewrite (prefixes_no_file s1); [by do 2 eexists| |cbn; set_solver].
    split; [done|]. cbn. intros p [Hp|Hp]%elem_of_union; apply Hnf; set_solver. }
  destruct r as [path|]; [|done]. exists s'.
  apply prepare_profile_ok in E as Hok. destruct Hok as (Hf & _ & ->). by split.
Qed.

Lemma append_download_record_keeps profile path size s s' u :
  append_download_record root profile path size s = (s', Ok u) -> keeps s s'.
Proof.
  unfold append_download_record, download_index_path. intros (s1 & p & E & Hr)%sr_bind_ok.
  apply sr_bind_ok in E as (s0 & q & Hprep & E). injection E as <- <-.
  apply prepare_profile_keeps in Hprep as [Hk0 _].
  apply sr_bind_ok in Hr as (s2 & [] & [Hk2 Hn2]%on_fs_ok%open_append_keeps & Hr).
  apply sr_bind_ok in Hr as (s3 & json & E & Hr). unfold sr_lift in E.
  destruct (index_to_json _) as [j|e]; [|discriminate E]. injection E as <- <-.
  apply sr_bind_ok in Hr as (s4 & [] & H4%on_fs_ok & H5%on_fs_ok).
  intros Hc. destruct (Hk0 Hc) as [Hc0 Hd0]. destruct (Hk2 Hc0) as [Hc2 Hd2].
  specialize (Hn2 Hc0 eq_refl).
  assert (fs_dirs s4 = fs_dirs s2) as Hd4.
  { unfold fs_append in H4. rewrite fs_call_quiet in H4 by apply Hc2. by injection H4 as <-. }
  destruct (append_keeps _ _ _ _ _ H4 (fun _ => Hn2) Hc2) as [Hc4 _].
  destruct (append_keeps _ _ _ _ _ H5 ltac:(rewrite Hd4; done) Hc4) as [Hc5 Hd5].
  split; [done|set_solver].
Qed.
End Keeps.

(** ** UTF-8 *)

(** The character in front of a text, if it is well-formed: the rest. *)
Definition utf8_char (s : string) : option string :=
  let tail c := in_range "128" "191" c in
  match s with
  | EmptyString => None
  | String a s =>
      let x := byte_val a in
      if x <? 128 then Some s
      else if (194 <=? x) && (x <=? 223) then
        match s with String b s => if tail b then Some s else None | _ => None end
      else if (224 <=? x) && (x <=? 239) then
        match s with
        | String b (String c s) =>
            let y := byte_val b in
            if ((if x =? 224 then 160 else 128) <=? y)
               && (y <=? (if x =? 237 then 159 else 191)) && tail c then Some s else None
        | _ => None
        end
      else if (240 <=? x) && (x <=? 244) then
        match s with
        | String b (String c (String d s)) =>
            let y := byte_val b in
            if ((if x =? 240 then 144 else 128) <=? y)
               && (y <=? (if x =? 244 then 143 else 191)) && tail c && tail d
            then Some s else None
        | _ => None
        end
      else None
  end.

Lemma utf8_fuel_cons n c s :
  utf8_valid_fuel (S n) (String c s)
  = match utf8_char (String c s) with Some s => utf8_valid_fuel n s | None => false end.
Proof.
  cbn [utf8_valid_fuel utf8_char].
  repeat (case_match; try done); subst; repeat case_match; simplify_eq; try done;
    rewrite ?andb_true_r, ?andb_false_r, ?andb_true_l in *; try congruence.
Qed.

Lemma utf8_char_app s t b :
  utf8_char s = Some t ->
  (String.length t < String.length s)%nat /\ utf8_char (s +:+ b) = Some (t +:+ b).
Proof.
  destruct s as [|c1 [|c2 [|c3 [|c4 s]]]]; [done|..]; cbn [utf8_char];
    repeat (case_match; try done); intros [= <-]; (split; [cbn; lia|]);
    rewrite ?str_cons_app; cbn [utf8_char];
    repeat match goal with H : ?x = _ |- context [if ?x then _ else _] => rewrite H end; done.
Qed.

Lemma utf8_fuel n m s :
  (String.length s <= n)%nat -> (String.length s <= m)%nat ->
  utf8_valid_fuel n s = utf8_valid_fuel m s.
Proof.
  revert m s. induction n as [|n IH]; intros m s Hn Hm.
  - destruct s; [by destruct m|simpl in Hn; lia].
  - destruct s as [|c s]; [by destruct m|]. destruct m as [|m]; [simpl in Hm; lia|].
    rewrite !utf8_fuel_cons. destruct (utf8_char (String c s)) as [t|] eqn:E; [|done].
    apply (utf8_char_app _ _ "") in E as [Hlt _]. simpl in *. apply IH; lia.
Qed.

Lemma utf8_valid_app a b : utf8_valid a = true -> utf8_valid b = true -> utf8_valid (a +:+ b) = true.
Proof.
  intros Ha Hb.
  enough (forall n a, (String.length a <= n)%nat -> utf8_valid_fuel n a = true ->
    utf8_valid_fuel (n + String.length b) (a +:+ b) = true) as H.
  { specialize (H (String.length a) a ltac:(lia) Ha). unfold utf8_valid.
    by rewrite str_length_app. }
  clear a Ha. intros n. induction n as [|n IH]; intros a Hlen Ha.
  - destruct a; [exact Hb|simpl in Hlen; lia].
  - destruct a as [|c a].
    + change ("" +:+ b) with b. rewrite (utf8_fuel _ (String.length b)) by lia. done.
    + rewrite utf8_fuel_cons in Ha. change (S n + String.length b)%nat with (S (n + String.length b)).
      change (String c a +:+ b) with (String c (a +:+ b)). rewrite utf8_fuel_cons.
      destruct (utf8_char (String c a)) as [t|] eqn:E; [|done].
      apply (utf8_char_app _ _ b) in E as [Hlt E].
      change (String c a +:+ b) with (String c (a +:+ b)) in E. rewrite E.
      apply IH; [simpl in *; lia|done].
Qed.

Section Listed.
Context `{DownloadIndexLaws} (root : StateRoot).

Definition index_text (profile : string) (s : FileSystem) : string :=
  default "" (fs_files s !! index_path root profile).

(** The records of the index, decoded. *)
Definition index_records (profile : string) (s : FileSystem) :
    result BroadwebdError (list DownloadIndexRecord) :=
  collect_results (fun line => map_err Io (index_from_json line)) (index_lines root profile s).

Lemma downloads_spec profile s s1 l :
  fs_consistent s -> downloads root profile s = (s1, Ok l) ->
  exists records, index_records profile s = Ok records /\
    l = sort_downloads (listed profile (fs_files s) records) /\
    utf8_valid (index_text profile s) = true /\ validate_profile_id profile = Ok tt.
Proof.
  intros Hcs. unfold downloads. intros (s0 & p & E & Hr)%sr_bind_ok.
  unfold sr_lift in E. injection E as <- _.
  apply sr_bind_ok in Hr as (s2 & idx & E & Hr). unfold download_index_path in E.
  apply sr_bind_ok in E as (s3 & q & Hprep & E). injection E as <- <-.
  destruct (prepare_profile_keeps root _ _ _ _ Hprep) as [Hk _].
  destruct (Hk Hcs) as [[Hq2 _] _].
  apply prepare_profile_ok in Hprep as (Hf & Hv & ->). fold (index_path root profile) in Hr.
  unfold index_records, index_lines, index_text. rewrite <-Hf.
  unfold fs_read_to_string in Hr. rewrite fs_call_quiet in Hr by done.
  destruct (fs_files s3 !! index_path root profile) as [bytes|] eqn:El; cbn [from_option id].
  - destruct (utf8_valid bytes) eqn:Hu; [|done].
    apply sr_bind_ok in Hr as (s4 & l0 & E & Hr). injection Hr as <- <-.
    rewrite read_index_spec in E by done.
    destruct (collect_results _ _) as [records|e]; [|done]. injection E as <- <-.
    by exists records.
  - destruct (bool_decide _); [done|]. injection Hr as <- <-. by exists [].
Qed.

Lemma downloads_runs profile s records :
  fs_consistent s -> validate_profile_id profile = Ok tt ->
  profile_dirs root profile ⊆ fs_dirs s ->
  is_Some (fs_files s !! index_path root profile) -> utf8_valid (index_text profile s) = true ->
  index_records profile s = Ok records ->
  exists s', downloads root profile s = (s', Ok (sort_downloads (listed profile (fs_files s) records))).
Proof.
  intros Hcs Hv Hdirs [bytes Hindex] Hutf Hrec.
  destruct (prepare_profile_runs root profile s Hcs Hv Hdirs) as (s1 & Hprep & Hf).
  destruct (prepare_profile_keeps root _ _ _ _ Hprep) as [Hk _].
  destruct (Hk Hcs) as [[Hq1 Hc1] _].
  unfold downloads, sr_bind at 1, profile_root, sr_lift. rewrite Hv.
  unfold download_index_path, sr_bind at 1. unfold sr_bind at 1. rewrite Hprep.
  unfold sr_ret at 1. cbv beta iota. fold (index_path root profile).
  unfold fs_read_to_string. rewrite fs_call_quiet by done.
  unfold index_records, index_lines, index_text in *. rewrite <-Hf in *.
  rewrite Hindex in Hutf, Hrec |- *. cbn [from_option id] in *.
  rewrite Hutf. eexists. unfold sr_bind. rewrite read_index_spec by done. by rewrite Hrec.
Qed.

Lemma collect_results_snoc {E A B} (f : A -> result E B) l a bs b :
  collect_results f l = Ok bs -> f a = Ok b -> collect_results f (l ++ [a]) = Ok (bs ++ [b]).
Proof.
  intros Hl Ha. revert bs Hl. induction l as [|x l IH]; intros bs; cbn [collect_results app].
  - intros [= <-]. by rewrite Ha.
  - destruct (f x) as [y|e]; [|done]. destruct (collect_results f l) as [ys|e]; [|done].
    intros [= <-]. by rewrite (IH ys eq_refl).
Qed.

Lemma listed_insert profile files records path body :
  files !! path = None ->
  listed profile (<[path := body]> files) records
  ≡ₚ map (fun record => entry profile record body)
       (List.filter (fun record => str_eqb (ix_path record) path) records)
     ++ listed profile files records.
Proof.
  intros Hnone. unfold listed. induction records as [|r records IH]; [done|]. cbn.
  destruct (str_eqb (ix_path r) path) eqn:E.
  - apply str_eqb_eq in E. rewrite E, lookup_insert_eq, Hnone. cbn. by rewrite IH.
  - apply str_eqb_neq in E. rewrite lookup_insert_ne by done.
    destruct (files !! ix_path r); cbn; [|done]. rewrite IH. apply Permutation_middle.
Qed.

(** The index is not looked up as a download. *)
Lemma listed_ext profile files files' records :
  (forall r, r ∈ records -> files !! ix_path r = files' !! ix_path r) ->
  listed profile files records = listed profile files' records.
Proof.
  unfold listed. induction records as [|r records IH]; intros Heq; [done|]. cbn.
  rewrite Heq by by left. rewrite IH; [done|]. intros r' Hr'. apply Heq. by right.
Qed.

Lemma store_download_keeps profile filename body s s' path :
  store_download root profile filename body s = (s', Ok path) ->
  fs_consistent s -> fs_consistent s' /\ profile_dirs root profile ⊆ fs_dirs s'.
Proof.
  unfold store_download. intros (s1 & p & Hprep & Hr)%sr_bind_ok Hcs.
  destruct (prepare_profile_keeps root _ _ _ _ Hprep) as [Hk1 Hd1].
  destruct (Hk1 Hcs) as [Hc1 _]. specialize (Hd1 Hcs).
  apply sr_bind_ok in Hr as (s2 & [] & [Hk2 _]%on_fs_ok%create_dir_all_keeps & Hr). cbn zeta in Hr.
  destruct (Hk2 Hc1) as [Hc2 Hd2].
  assert (profile_dirs root profile ⊆ fs_dirs s2) as Hd by set_solver. clear Hprep Hk1 Hd1 Hk2 Hd2.
  revert s2 Hc2 Hd Hr. induction (download_filename_candidates _) as [|candidate l IH];
    intros s2 Hc2 Hd; [done|].
  cbn [store_candidates]. cbn zeta.
  destruct (fs_create_new _ s2) as [s3 [[]|e]] eqn:E.
  - apply create_new_keeps in E as Hk. destruct (Hk Hc2) as [Hc3 Hd3].
    apply create_new_spec in E as [_ Hf].
    intros (s4 & [] & H4%on_fs_ok & Hr)%sr_bind_ok.
    apply sr_bind_ok in Hr as (s5 & u & Hrec%append_download_record_keeps & E5).
    injection E5 as <- _.
    apply append_keeps in H4 as Hk4.
    + destruct (Hk4 Hc3) as [Hc4 Hd4]. destruct (Hrec Hc4) as [Hc5 Hd5]. split; [done|set_solver].
    + intros _ Hin. apply Hc3 in Hin. by rewrite Hf, lookup_insert_eq in Hin.
  - apply create_new_keeps in E as Hk. destruct (Hk Hc2) as [Hc3 Hd3].
    destruct (io_kind e); try done. apply IH; [done|set_solver].
Qed.
End Listed.

Section Theorems.
Context `{DownloadIndexLaws} (root : StateRoot).

(** C35: A stored download is a new file inside the downloads directory, under a name without a
    separator, not empty and not hidden, with the bytes of the body; every other file but the
    index of the profile is as it was.  Whatever calls of the file system fail. *)
Theorem download_stored_safely profile filename body s s' path :
  store_download root profile filename body s = (s', Ok path) ->
  exists name,
    path = path_join (sr_downloads_root root) name /\ safe_name name /\
    fs_files s !! path = None /\
    (path <> index_path root profile -> fs_files s' !! path = Some body) /\
    forall p, p <> path -> p <> index_path root profile -> fs_files s' !! p = fs_files s !! p.
Proof.
  intros (name & json & Hpath & Hname & Hnone & _ & Hs')%store_download_spec.
  exists name. split_and!; [done..| |]; cbn zeta in Hs'; rewrite Hs'.
  - intros Hne. by rewrite lookup_insert_ne, lookup_insert_eq.
  - intros p Hp Hidx. by rewrite !lookup_insert_ne.
Qed.

Lemma index_records_snoc profile filename body s s' path records name json :
  fs_consistent s -> complete_lines (index_text root profile s) ->
  index_records root profile s = Ok records ->
  index_line path (str_len body) = Ok json -> path <> index_path root profile ->
  path = path_join (sr_downloads_root root) name ->
  fs_files s' =
      (let files := <[path := body]> (fs_files s) in
       <[index_path root profile :=
           default "" (files !! index_path root profile) +:+ json +:+ String newline ""]> files) ->
  store_download root profile filename body s = (s', Ok path) ->
  index_records root profile s' =
    Ok (records ++ [{| ix_filename := default "download" (path_file_name path);
                       ix_path := path; ix_size_bytes := str_len body |}]).
Proof.
  intros Hcs Hlines Hrec Hjson Hne Hpath Hs' _. cbn zeta in Hs'.
  rewrite lookup_insert_ne in Hs' by done. fold (index_text root profile s) in Hs'.
  apply index_json_line in Hjson as (Hback & _ & Hnl & Hcr & Hblank).
  unfold index_records, index_lines. rewrite Hs', lookup_insert_eq. cbn [from_option id].
  rewrite str_lines_snoc by done. rewrite filter_bool_app. cbn [List.filter].
  rewrite Hblank. cbn [negb].
  apply collect_results_snoc; [exact Hrec|]. by rewrite Hback.
Qed.

(** After a download was stored, the listing of the profile is the earlier listing with the
    download, and with every record of the index that still named its path: a download that
    was deleted and is stored again is listed once more for each time it was stored. *)
Theorem download_listed profile filename body s s1 s' path l :
  fs_consistent s -> complete_lines (index_text root profile s) ->
  downloads root profile s = (s1, Ok l) ->
  Forall (fun d => td_path d <> index_path root profile) l ->
  store_download root profile filename body s = (s', Ok path) ->
  path <> index_path root profile ->
  exists records s2 l',
    index_records root profile s = Ok records /\
    downloads root profile s' = (s2, Ok l') /\
    l' ≡ₚ {| td_profile := profile; td_filename := default "download" (path_file_name path);
             td_path := path; td_size_bytes := str_len body |}
          :: map (fun record => entry profile record body)
               (List.filter (fun record => str_eqb (ix_path record) path) records) ++ l.
Proof.
  intros Hcs Hlines Hdown Hl Hstore Hne.
  destruct (downloads_spec root _ _ _ _ Hcs Hdown) as (records & Hrec & -> & Hutf & Hv).
  destruct (store_download_keeps root _ _ _ _ _ _ Hstore Hcs) as [Hcs' Hdirs].
  destruct (store_download_spec root _ _ _ _ _ _ Hstore)
    as (name & json & Hpath & _ & Hnone & Hjson & Hs').
  pose proof (index_records_snoc profile filename body s s' path records name json
    Hcs Hlines Hrec Hjson Hne Hpath Hs' Hstore) as Hrec'.
  cbn zeta in Hs'. rewrite lookup_insert_ne in Hs' by done.
  fold (index_text root profile s) in Hs'.
  set (new := {| ix_filename := default "download" (path_file_name path);
                 ix_path := path; ix_size_bytes := str_len body |}) in *.
  destruct (downloads_runs root profile s' (records ++ [new])) as [s2 Hrun]; [done..| | |done|].
  { rewrite Hs', lookup_insert_eq. done. }
  { unfold index_text at 1. rewrite Hs', lookup_insert_eq. cbn [from_option id].
    apply index_json_line in Hjson as (_ & Hu & _).
    apply utf8_valid_app; [done|]. by apply utf8_valid_app. }
  eexists records, s2, _. split_and!; [done|exact Hrun|].
  unfold sort_downloads. rewrite !sort_by_Permutation.
  unfold listed at 1. rewrite omap_app. fold (listed profile (fs_files s') records).
  cbn [omap list_omap]. cbn [ix_path]. rewrite Hs', lookup_insert_ne, lookup_insert_eq by done.
  cbn [option_map entry ix_filename ix_path]. rewrite Permutation_app_comm. cbn [app].
  apply perm_skip. rewrite <-listed_insert by done.
  erewrite listed_ext; [done|]. intros r Hr. apply lookup_insert_ne. intros Heq.
  destruct (fs_files s !! index_path root profile) as [bytes|] eqn:Hi.
  - assert (entry profile r bytes ∈ sort_downloads (listed profile (fs_files s) records)) as Hin.
    { unfold sort_downloads. rewrite sort_by_Permutation. unfold listed.
      apply list_elem_of_omap. exists r. split; [done|]. by rewrite <-Heq, Hi. }
    rewrite Forall_forall in Hl. by specialize (Hl _ Hin).
  - unfold index_records, index_lines, index_text in Hrec. rewrite Hi in Hrec.
    injection Hrec as <-. by apply not_elem_of_nil in Hr.
Qed.
End Theorems.

(** ** Witnesses *)

#[export] Instance DownloadIndexRecord_eq_dec : EqDecision DownloadIndexRecord.
Proof. solve_decision. Defined.

(** A codec of the index: the fields between bars; what it could not read back it refuses. *)
Definition bars_from_json (json : string) : result string DownloadIndexRecord :=
  match str_split "|" json with
  | [filename; path; size] =>
      match parse_i64 size with
      | Ok size => Ok {| ix_filename := filename; ix_path := path; ix_size_bytes := size |}
      | Err e => Err e
      end
  | _ => Err "expected value"
  end.

#[export] Instance bars_index_json : DownloadIndexJson := {|
  index_to_json record :=
    let json := ix_filename record +:+ "|" +:+ ix_path record +:+ "|"
                +:+ show (ix_size_bytes record) in
    if bool_decide (bars_from_json json = Ok record) && utf8_valid json
       && all_bytes (fun c => negb (Ascii.eqb c newline)) json
       && bool_decide (strip_suffix carriage_return json = None) && negb (is_empty (trim json))
    then Ok json else Err "unsupported name";
  index_from_json := bars_from_json
|}.

#[export] Instance bars_index_laws : DownloadIndexLaws.
Proof.
  split. intros record json. cbn. destruct (_ && _) eqn:E; [|done]. intros [= <-].
  repeat (apply andb_prop in E as [E ?]). rewrite ?bool_decide_eq_true, ?negb_true_iff in *.
  by split_and!.
Qed.

Definition demo_root : StateRoot := {| sr_path := "/state"; sr_downloads_root := "/downloads" |}.
Definition empty_fs : FileSystem := {| fs_files := ∅; fs_dirs := ∅; fs_faults := [] |}.

Lemma empty_fs_consistent : fs_consistent empty_fs.
Proof. by split. Qed.

Abbreviation demo_store :=
  (store_download demo_root "default" ".report?.html" "hello" empty_fs).

Lemma demo_store_ok : demo_store.2 = Ok "/downloads/report_.html".
Proof. vm_compute. reflexivity. Qed.

Lemma download_stored_safely_witness :
  exists name, "/downloads/report_.html" = path_join "/downloads" name /\ safe_name name /\
    fs_files demo_store.1 !! "/downloads/report_.html" = Some "hello".
Proof.
  pose proof demo_store_ok as Hok. destruct demo_store as [s' r] eqn:E.
  cbn [snd] in Hok. rewrite Hok in E.
  destruct (download_stored_safely demo_root "default" ".report?.html" "hello" empty_fs s' _ E)
    as (name & Hname & Hsafe & _ & Hbody & _).
  exists name. split_and!; [exact Hname|exact Hsafe|]. apply Hbody. discriminate.
Defined.

Lemma download_listed_witness :
  exists s2 l', downloads demo_root "default" demo_store.1 = (s2, Ok l') /\
    l' ≡ₚ [{| td_profile := "default"; td_filename := "report_.html";
              td_path := "/downloads/report_.html"; td_size_bytes := 5 |}].
Proof.
  pose proof demo_store_ok as Hok. destruct demo_store as [s' r] eqn:E.
  cbn [snd] in Hok. rewrite Hok in E.
  destruct (download_listed demo_root "default" ".report?.html" "hello" empty_fs
    (downloads demo_root "default" empty_fs).1 s' "/downloads/report_.html" []
    empty_fs_consistent (or_introl eq_refl) eq_refl (Forall_nil_2 _) E ltac:(discriminate))
    as (records & s2 & l' & Hrec & Hdown & Hl).
  exists s2, l'. split; [exact Hdown|]. injection Hrec as <-. exact Hl.
Defined.

(** A download that is deleted and stored again is listed twice. *)
Definition redownload : FileSystem * result BroadwebdError (list TemporaryDownloadRecord) :=
  let s1 := demo_store.1 in
  let s2 := {| fs_files := delete "/downloads/report_.html" (fs_files s1);
               fs_dirs := fs_dirs s1; fs_faults := [] |} in
  let s3 := (store_download demo_root "default" ".report?.html" "again" s2).1 in
  downloads demo_root "default" s3.

Example redownload_listed_twice :
  redownload.2 =
  Ok (repeat {| td_profile := "default"; td_filename := "report_.html";
                td_path := "/downloads/report_.html"; td_size_bytes := 5 |} 2).
Proof. vm_compute. reflexivity. Qed.
