(* ===== verification/Daemon.v ===== *)
(** * The daemon: status, plugins and requests

    Models [crates/broadwebd/src/status.rs], [health.rs], [registry.rs], [daemon.rs] and
    [services/http_fetch.rs]: the status reporter, the plugin registry and its health, the
    HTTP fetch service, and the daemon that prepares a profile, dispatches a request and
    records the download of a navigation.

    A plugin is a record of its operations over a world [W] (the network and what the
    plugins keep).  A service sees the protocol services and the transports of the registry
    it is called from; no service calls another service. *)
From S2P Require Import Prelude RustStr Broadwebd Http Downloads.

(** ** Status *)

Inductive BroadwebStatusKind := Idle | Fetching | SwitchingGateway | Complete | StatusError.
#[export] Instance BroadwebStatusKind_eq_dec : EqDecision BroadwebStatusKind.
Proof. solve_decision. Defined.

Record BroadwebStatusSnapshot := {
  st_kind : BroadwebStatusKind;
  st_message : string;
  st_target : option string;
  st_gateway : option string;
  st_sequence : Z
}.

Definition status_idle : BroadwebStatusSnapshot :=
  {| st_kind := Idle; st_message := "Ready"; st_target := None; st_gateway := None;
     st_sequence := 0 |}.

(** [BroadwebStatusReporter::set]. *)
Definition status_set (kind : BroadwebStatusKind) (message : string)
    (target gateway : option string) (state : BroadwebStatusSnapshot) : BroadwebStatusSnapshot :=
  {| st_kind := kind; st_message := message; st_target := target; st_gateway := gateway;
     st_sequence := saturating_add_u64 (st_sequence state) 1 |}.

Definition status_set_idle : BroadwebStatusSnapshot -> BroadwebStatusSnapshot :=
  status_set Idle "Ready" None None.

(** ** Health *)

Inductive DaemonLifecycle := Stopped | Starting | LifecycleReady | LifecycleDegraded | Stopping.
Inductive PluginHealth := Ready | Degraded (reason : string).

Record PluginStatus := { pl_metadata : PluginMetadata; pl_health : PluginHealth }.
Record DaemonHealth := { dh_lifecycle : DaemonLifecycle; dh_plugins : list PluginStatus }.

Definition plugin_metadata_new (id : string) (kind : PluginKind) : PluginMetadata :=
  {| pm_id := id; pm_kind := kind; pm_capabilities := []; pm_dependencies := [];
     pm_privacy_boundary := ""; pm_resource_profile := LowProfile |}.
Definition with_capabilities (capabilities : list string) (m : PluginMetadata) : PluginMetadata :=
  {| pm_id := pm_id m; pm_kind := pm_kind m; pm_capabilities := capabilities;
     pm_dependencies := pm_dependencies m; pm_privacy_boundary := pm_privacy_boundary m;
     pm_resource_profile := pm_resource_profile m |}.
Definition with_dependencies (dependencies : list string) (m : PluginMetadata) : PluginMetadata :=
  {| pm_id := pm_id m; pm_kind := pm_kind m; pm_capabilities := pm_capabilities m;
     pm_dependencies := dependencies; pm_privacy_boundary := pm_privacy_boundary m;
     pm_resource_profile := pm_resource_profile m |}.
Definition with_privacy_boundary (boundary : string) (m : PluginMetadata) : PluginMetadata :=
  {| pm_id := pm_id m; pm_kind := pm_kind m; pm_capabilities := pm_capabilities m;
     pm_dependencies := pm_dependencies m; pm_privacy_boundary := boundary;
     pm_resource_profile := pm_resource_profile m |}.
Definition with_resource_profile (profile : ResourceProfile) (m : PluginMetadata) :
    PluginMetadata :=
  {| pm_id := pm_id m; pm_kind := pm_kind m; pm_capabilities := pm_capabilities m;
     pm_dependencies := pm_dependencies m; pm_privacy_boundary := pm_privacy_boundary m;
     pm_resource_profile := profile |}.

(** ** The registry *)

Definition DIRECT_HTTP_PLUGIN : string := "direct-http".
Definition HTTP_FETCH_PLUGIN : string := "http-fetch".
Definition IPFS_PROTOCOL_SERVICE : string := "ipfs".
Definition IPFS_GATEWAY_PLUGIN : string := "ipfs-gateway".
Definition IPFS_KUBO_RPC_PLUGIN : string := "ipfs-kubo-rpc".
Definition TOR_PROTOCOL_SERVICE : string := "tor".
Definition TOR_ARTI_HTTP_PLUGIN : string := "tor-arti-http".

Section Registry.
Context {W : Type} `{UrlCrate}.

Definition plugin (A : Type) : Type := state_result W BroadwebdError A.

Record TransportPlugin := {
  tp_metadata : PluginMetadata;
  tp_fetch_http : TransportHttpRequest -> ResourceBudget -> plugin HttpFetchResponse
}.

Record ProtocolService := {
  ps_metadata : PluginMetadata;
  ps_http_transport_for_url : Url -> option (result BroadwebdError string)
}.

Record RegistryView := {
  rv_protocol_services : gmap string ProtocolService;
  rv_transports : gmap string TransportPlugin
}.

Record ApplicationServicePlugin := {
  ap_metadata : PluginMetadata;
  ap_call : ServiceRequest HttpFetchRequest -> RegistryView -> ResourceBudget ->
            plugin (ServiceResponse HttpFetchResponse)
}.

Record PluginRegistry := {
  rg_view : RegistryView;
  rg_services : gmap string ApplicationServicePlugin
}.

Record PluginInstallReport := { pi_metadata : PluginMetadata; pi_replaced_existing : bool }.
Record ProtocolInstallReport := {
  pt_metadata : PluginMetadata;
  pt_replaced_existing : bool;
  pt_installed_plugins : list PluginInstallReport
}.

Definition registry_new : PluginRegistry :=
  {| rg_view := {| rv_protocol_services := ∅; rv_transports := ∅ |}; rg_services := ∅ |}.

Definition install_transport (plugin : TransportPlugin) (r : PluginRegistry) :
    PluginRegistry * PluginInstallReport :=
  let id := pm_id (tp_metadata plugin) in
  ({| rg_view := {| rv_protocol_services := rv_protocol_services (rg_view r);
                    rv_transports := <[id := plugin]> (rv_transports (rg_view r)) |};
      rg_services := rg_services r |},
   {| pi_metadata := tp_metadata plugin;
      pi_replaced_existing := bool_decide (is_Some (rv_transports (rg_view r) !! id)) |}).
Definition register_transport (plugin : TransportPlugin) (r : PluginRegistry) : PluginRegistry :=
  (install_transport plugin r).1.

Definition install_service (plugin : ApplicationServicePlugin) (r : PluginRegistry) :
    PluginRegistry * PluginInstallReport :=
  let id := pm_id (ap_metadata plugin) in
  ({| rg_view := rg_view r; rg_services := <[id := plugin]> (rg_services r) |},
   {| pi_metadata := ap_metadata plugin;
      pi_replaced_existing := bool_decide (is_Some (rg_services r !! id)) |}).
Definition register_service (plugin : ApplicationServicePlugin) (r : PluginRegistry) :
    PluginRegistry := (install_service plugin r).1.

(** The plugins a protocol service brings are installed first. *)
Definition install_protocol_service (service : ProtocolService)
    (install_plugins : PluginRegistry -> PluginRegistry * list PluginInstallReport)
    (r : PluginRegistry) : PluginRegistry * ProtocolInstallReport :=
  let id := pm_id (ps_metadata service) in
  let '(r, installed_plugins) := install_plugins r in
  ({| rg_view := {| rv_protocol_services :=
                      <[id := service]> (rv_protocol_services (rg_view r));
                    rv_transports := rv_transports (rg_view r) |};
      rg_services := rg_services r |},
   {| pt_metadata := ps_metadata service;
      pt_replaced_existing := bool_decide (is_Some (rv_protocol_services (rg_view r) !! id));
      pt_installed_plugins := installed_plugins |}).
Definition register_protocol_service (service : ProtocolService)
    (install_plugins : PluginRegistry -> PluginRegistry * list PluginInstallReport)
    (r : PluginRegistry) : PluginRegistry :=
  (install_protocol_service service install_plugins r).1.

Definition remove_protocol_service (id : string) (r : PluginRegistry) :
    PluginRegistry * result BroadwebdError PluginMetadata :=
  ({| rg_view := {| rv_protocol_services := delete id (rv_protocol_services (rg_view r));
                    rv_transports := rv_transports (rg_view r) |};
      rg_services := rg_services r |},
   ok_or (option_map ps_metadata (rv_protocol_services (rg_view r) !! id)) (MissingPlugin id)).
Definition remove_transport (id : string) (r : PluginRegistry) :
    PluginRegistry * result BroadwebdError PluginMetadata :=
  ({| rg_view := {| rv_protocol_services := rv_protocol_services (rg_view r);
                    rv_transports := delete id (rv_transports (rg_view r)) |};
      rg_services := rg_services r |},
   ok_or (option_map tp_metadata (rv_transports (rg_view r) !! id)) (MissingPlugin id)).
Definition remove_service (id : string) (r : PluginRegistry) :
    PluginRegistry * result BroadwebdError PluginMetadata :=
  ({| rg_view := rg_view r; rg_services := delete id (rg_services r) |},
   ok_or (option_map ap_metadata (rg_services r !! id)) (MissingPlugin id)).

Definition list_protocol_services (r : PluginRegistry) : list PluginMetadata :=
  map ps_metadata (btree_values (rv_protocol_services (rg_view r))).
Definition list_transports (r : PluginRegistry) : list PluginMetadata :=
  map tp_metadata (btree_values (rv_transports (rg_view r))).
Definition list_application_services (r : PluginRegistry) : list PluginMetadata :=
  map ap_metadata (btree_values (rg_services r)).
Definition list_plugins (r : PluginRegistry) : list PluginMetadata :=
  list_protocol_services r ++ list_transports r ++ list_application_services r.

Definition has_plugin (r : PluginRegistry) (id : string) : bool :=
  bool_decide (is_Some (rv_protocol_services (rg_view r) !! id))
  || bool_decide (is_Some (rv_transports (rg_view r) !! id))
  || bool_decide (is_Some (rg_services r !! id)).

Definition plugin_status (r : PluginRegistry) (metadata : PluginMetadata) : PluginStatus :=
  let missing := List.filter (fun dependency => negb (has_plugin r dependency))
                   (pm_dependencies metadata) in
  {| pl_metadata := metadata;
     pl_health := match missing with
                  | [] => Ready
                  | _ => Degraded ("missing dependencies: " +:+ str_join ", " missing)
                  end |}.
Definition plugin_statuses (r : PluginRegistry) : list PluginStatus :=
  map (plugin_status r) (list_plugins r).

(** ** Lookups *)

Definition transport (view : RegistryView) (id : string) :
    result BroadwebdError TransportPlugin :=
  ok_or (rv_transports view !! id) (MissingPlugin id).

Definition service (r : PluginRegistry) (id : string) :
    result BroadwebdError ApplicationServicePlugin :=
  ok_or (rg_services r !! id) (MissingPlugin id).

(** The first protocol service, in the order of the ids, that routes the URL. *)
Fixpoint first_route (url : Url) (services : list ProtocolService) :
    option (result BroadwebdError string) :=
  match services with
  | [] => None
  | protocol :: services =>
      match ps_http_transport_for_url protocol url with
      | Some transport => Some transport
      | None => first_route url services
      end
  end.

Definition is_http_scheme (scheme : string) : bool :=
  str_eqb scheme "http" || str_eqb scheme "https".

Definition resolve_http_transport (view : RegistryView) (target : string) :
    result BroadwebdError string :=
  let? url := map_err InvalidUrl (url_parse target) in
  match first_route url (btree_values (rv_protocol_services view)) with
  | Some transport => transport
  | None =>
      if is_http_scheme (url_scheme url) then Ok DIRECT_HTTP_PLUGIN
      else Err (UnsupportedRequest ("no HTTP transport for " +:+ url_scheme url))
  end.

Definition call_service (r : PluginRegistry) (service_id : string)
    (request : ServiceRequest HttpFetchRequest) (budget : ResourceBudget) :
    plugin (ServiceResponse HttpFetchResponse) :=
  let* plugin := sr_lift (service r service_id) in
  ap_call plugin request (rg_view r) budget.

Definition registry_fetch_http (r : PluginRegistry) (request : HttpFetchRequest)
    (budget : ResourceBudget) : plugin HttpFetchResponse :=
  let* plugin := sr_lift (service r HTTP_FETCH_PLUGIN) in
  let* response := ap_call plugin (Broadwebd.HttpFetchRequest request) (rg_view r) budget in
  match response with
  | HttpFetchServiceResponse response => sr_ret response
  | ProfileSyncServiceResponse _ =>
      sr_err (UnsupportedRequest "http-fetch returned a profile-sync response")
  end.

Definition registry_profile_sync (r : PluginRegistry) (request : ProfileSyncRequest)
    (budget : ResourceBudget) : plugin ProfileSyncResponse :=
  let* response := call_service r PROFILE_SYNC_PLUGIN (ProfileSyncServiceRequest request) budget in
  match response with
  | ProfileSyncServiceResponse response => sr_ret response
  | HttpFetchServiceResponse _ =>
      sr_err (UnsupportedRequest "profile-sync returned an HTTP response")
  end.
End Registry.
Arguments TransportPlugin : clear implicits.
Arguments RegistryView : clear implicits.
Arguments ApplicationServicePlugin : clear implicits.
Arguments PluginRegistry : clear implicits.

(** ** The HTTP fetch service *)

Section HttpFetchService.
Context {W : Type} `{UrlCrate}.

Definition http_fetch_metadata : PluginMetadata :=
  with_resource_profile LowProfile
    (with_privacy_boundary "uses an approved transport plugin to produce HTTP-like responses"
       (with_dependencies [DIRECT_HTTP_PLUGIN]
          (with_capabilities ["application/http-response"; "html-render-boundary";
                              "download-boundary"]
             (plugin_metadata_new HTTP_FETCH_PLUGIN ApplicationServiceKind)))).

Definition http_fetch_call (request : ServiceRequest HttpFetchRequest) (view : RegistryView W)
    (budget : ResourceBudget) : state_result W BroadwebdError (ServiceResponse HttpFetchResponse) :=
  match request with
  | Broadwebd.HttpFetchRequest request =>
      let* transport_id := sr_lift (match hq_transport_id request with
                                    | Some transport_id => Ok transport_id
                                    | None => resolve_http_transport view (hq_url request)
                                    end) in
      let* transport := sr_lift (transport view transport_id) in
      let metadata := tp_metadata transport in
      let* response := tp_fetch_http transport
        {| tq_profile := hq_profile request; tq_url := hq_url request;
           tq_purpose := hq_purpose request |} budget in
      sr_ret (HttpFetchServiceResponse
        (match hr_route response with
         | Some _ => response
         | None => with_route response
             {| ri_profile := hq_profile request; ri_transport_id := pm_id metadata;
                ri_privacy_boundary := pm_privacy_boundary metadata;
                ri_purpose := hq_purpose request |}
         end))
  | ProfileSyncServiceRequest _ =>
      sr_err (UnsupportedRequest "http-fetch cannot handle profile-sync requests")
  end.

Definition http_fetch_service : ApplicationServicePlugin W :=
  {| ap_metadata := http_fetch_metadata; ap_call := http_fetch_call |}.
End HttpFetchService.

(** ** The daemon *)

Record BroadwebDaemon (W : Type) := {
  bd_state_root : StateRoot;
  bd_budget : ResourceBudget;
  bd_registry : PluginRegistry W;
  bd_lifecycle : DaemonLifecycle
}.
Arguments bd_state_root {W}. Arguments bd_budget {W}. Arguments bd_registry {W}.
Arguments bd_lifecycle {W}.

Section Daemon.
Context {W : Type} `{UrlCrate, DownloadIndexJson}.

(** What the daemon acts on: the file system, and the world of its plugins. *)
Definition daemon_op (A : Type) : Type := state_result (FileSystem * W) BroadwebdError A.

Definition on_files {A} (m : state_op A) : daemon_op A := fun s =>
  let '(files, r) := m s.1 in ((files, s.2), r).
Definition on_plugins {A} (m : state_result W BroadwebdError A) : daemon_op A := fun s =>
  let '(w, r) := m s.2 in ((s.1, w), r).

Definition start_with_registry_and_download_root (state_root downloads_root : string)
    (budget : ResourceBudget) (registry : PluginRegistry W) : daemon_op (BroadwebDaemon W) :=
  let* state_root := on_files (prepare_with_download_root state_root downloads_root) in
  do* on_files (prepare_profile state_root DEFAULT_PROFILE) in
  sr_ret {| bd_state_root := state_root; bd_budget := budget; bd_registry := registry;
            bd_lifecycle := LifecycleReady |}.

Context (d : BroadwebDaemon W).

Definition daemon_health : DaemonHealth :=
  {| dh_lifecycle := bd_lifecycle d; dh_plugins := plugin_statuses (bd_registry d) |}.

Definition record_download (profile : string) (response : HttpFetchResponse) :
    daemon_op HttpFetchResponse :=
  match hr_disposition response with
  | Download suggested_filename =>
      let* path := on_files (store_download (bd_state_root d) profile suggested_filename
                               (hr_body response)) in
      sr_ret (with_download response
        {| dr_profile := profile;
           dr_filename := default suggested_filename (path_file_name path);
           dr_path := path; dr_size_bytes := str_len (hr_body response);
           dr_content_type := hr_content_type response |})
  | _ => sr_ret response
  end.

(** A requested name makes a successful response a download. *)
Definition requested_disposition (request : HttpFetchRequest) (response : HttpFetchResponse) :
    HttpFetchResponse :=
  match hq_suggested_download_filename request with
  | Some filename =>
      if is_success (hr_status_code response)
      then with_download_disposition response filename else response
  | None => response
  end.

Definition daemon_fetch_http (request : HttpFetchRequest) : daemon_op HttpFetchResponse :=
  do* on_files (prepare_profile (bd_state_root d) (hq_profile request)) in
  let* response := on_plugins (registry_fetch_http (bd_registry d) request (bd_budget d)) in
  let response := requested_disposition request response in
  if bool_decide (hq_purpose request = Navigation)
  then record_download (hq_profile request) response else sr_ret response.

Definition daemon_profile_sync (request : ProfileSyncRequest) : daemon_op ProfileSyncResponse :=
  on_plugins (registry_profile_sync (bd_registry d) request (bd_budget d)).

Definition daemon_dispatch_service_request (request : ServiceRequest HttpFetchRequest) :
    daemon_op (ServiceResponse HttpFetchResponse) :=
  match request with
  | Broadwebd.HttpFetchRequest request =>
      let* response := daemon_fetch_http request in sr_ret (HttpFetchServiceResponse response)
  | ProfileSyncServiceRequest request =>
      let* response := daemon_profile_sync request in
      sr_ret (ProfileSyncServiceResponse response)
  end.

Definition daemon_temporary_downloads (profile : string) :
    daemon_op (list TemporaryDownloadRecord) :=
  on_files (temporary_downloads (bd_state_root d) profile).
Definition daemon_downloads (profile : string) : daemon_op (list TemporaryDownloadRecord) :=
  on_files (downloads (bd_state_root d) profile).
End Daemon.

(** ** Clients of a daemon

    [BroadwebdClient] as an object: its operations over a world [W]. *)
Record Client (W : Type) := {
  cl_health : W -> DaemonHealth;
  cl_status_snapshot : W -> BroadwebStatusSnapshot;
  cl_dispatch_service_request : ServiceRequest HttpFetchRequest ->
    state_result W BroadwebdError (ServiceResponse HttpFetchResponse);
  cl_temporary_downloads : string ->
    state_result W BroadwebdError (list TemporaryDownloadRecord);
  cl_downloads : string -> state_result W BroadwebdError (list TemporaryDownloadRecord)
}.
Arguments cl_health {W}. Arguments cl_status_snapshot {W}.
Arguments cl_dispatch_service_request {W}. Arguments cl_temporary_downloads {W}.
Arguments cl_downloads {W}.

Section Clients.
Context {W : Type} (client : Client W).

Definition client_fetch_http (request : HttpFetchRequest) :
    state_result W BroadwebdError HttpFetchResponse :=
  let* response := cl_dispatch_service_request client (Broadwebd.HttpFetchRequest request) in
  match response with
  | HttpFetchServiceResponse response => sr_ret response
  | ProfileSyncServiceResponse _ =>
      sr_err (UnsupportedRequest "HTTP fetch dispatch returned a non-HTTP response")
  end.

Definition client_profile_sync (request : ProfileSyncRequest) :
    state_result W BroadwebdError ProfileSyncResponse :=
  let* response := cl_dispatch_service_request client (ProfileSyncServiceRequest request) in
  match response with
  | ProfileSyncServiceResponse response => sr_ret response
  | HttpFetchServiceResponse _ =>
      sr_err (UnsupportedRequest "profile-sync dispatch returned a non-profile-sync response")
  end.
End Clients.

(** [impl BroadwebdClient for BroadwebDaemon]; [status] reads the registry's reporter. *)
Definition daemon_client {W} `{UrlCrate, DownloadIndexJson} (status : W -> BroadwebStatusSnapshot)
    (d : BroadwebDaemon W) : Client (FileSystem * W) := {|
  cl_health _ := daemon_health d;
  cl_status_snapshot s := status s.2;
  cl_dispatch_service_request := daemon_dispatch_service_request d;
  cl_temporary_downloads := daemon_temporary_downloads d;
  cl_downloads := daemon_downloads d
|}.
