(* ===== verification/Rendering.v ===== *)
(** * Rendering

    Models [crates/rendering/src/lib.rs]: the surfaces and documents, the pages Slate writes
    itself, what an address is rendered with (a page of Slate, the broadweb daemon, or Servo
    directly), and the protocol handler Servo calls back.

    Servo is the interface [ServoEngine] over a state [E]; the daemon is started when it is
    first needed. *)
From S2P Require Import Prelude RustStr Broadwebd Http Downloads Daemon.

(** ** Surfaces *)

Inductive MetricAccent := Teal | Amber | Blue.
Record RenderMetric := { mt_label : string; mt_value : string; mt_accent : MetricAccent }.
Record ServoFrame := { fr_width : Z; fr_height : Z; fr_pixels : list Z }.
Record RenderViewport := { vp_width : Z; vp_height : Z }.
Inductive ServoDocumentSource := SlateGenerated | LocalFile | Web | Broadweb | Blocked.
Inductive ServoDocumentStatus := Rendered | RenderFailed (error : string).
Record ServoDocument := {
  sd_title : string;
  sd_address : string;
  sd_frame : ServoFrame;
  sd_source : ServoDocumentSource;
  sd_status : ServoDocumentStatus
}.
Inductive RenderDocument := Home | WebDocument (document : ServoDocument).
Record RenderSurface := {
  su_title : string;
  su_address : string;
  su_summary : string;
  su_metrics : list RenderMetric;
  su_document : RenderDocument
}.

Definition DEFAULT_SERVO_VIEWPORT_WIDTH : Z := 1080.
Definition DEFAULT_SERVO_VIEWPORT_HEIGHT : Z := 620.
Definition MAX_SERVO_VIEWPORT_SIZE : Z := 4096.
Definition LOAD_TIMEOUT : Z := 20.
Definition SCREENSHOT_TIMEOUT : Z := 10.

Definition viewport_dimension (value : Z) : Z :=
  let value := Z.max value 1 in
  Z.min MAX_SERVO_VIEWPORT_SIZE
    (Z.max 1 (if value <=? u32_max then value else MAX_SERVO_VIEWPORT_SIZE)).
Definition viewport_new (width height : Z) : RenderViewport :=
  {| vp_width := viewport_dimension width; vp_height := viewport_dimension height |}.
Definition default_viewport : RenderViewport :=
  {| vp_width := DEFAULT_SERVO_VIEWPORT_WIDTH; vp_height := DEFAULT_SERVO_VIEWPORT_HEIGHT |}.

(** A pixel over white. *)
Definition blend (channel alpha : Z) : Z :=
  Z.min u32_max (Z.min u32_max (channel * alpha) + Z.min u32_max (255 * Z.max 0 (255 - alpha)))
  / 255.
Definition rgb_from_rgba (red green blue alpha : Z) : Z :=
  Z.lor (Z.lor (Z.shiftl (blend red alpha) 16) (Z.shiftl (blend green alpha) 8))
    (blend blue alpha).

Record RgbaImage := { im_width : Z; im_height : Z; im_raw : list Z }.
Fixpoint pixels_of (raw : list Z) : list Z :=
  match raw with
  | red :: green :: blue :: alpha :: raw => rgb_from_rgba red green blue alpha :: pixels_of raw
  | _ => []
  end.
Definition frame_from_image (image : RgbaImage) : ServoFrame :=
  {| fr_width := im_width image; fr_height := im_height image;
     fr_pixels := pixels_of (im_raw image) |}.

Definition route_label (source : ServoDocumentSource) : string :=
  match source with
  | SlateGenerated => "Local" | LocalFile => "Disk" | Web => "Web" | Broadweb => "Broadweb"
  | Blocked => "Blocked"
  end.

Definition document_metrics (source : ServoDocumentSource) (rendered : bool) :
    list RenderMetric :=
  [{| mt_label := "HTML"; mt_value := if rendered then "Servo" else "Error"; mt_accent := Teal |};
   {| mt_label := "CSS"; mt_value := if rendered then "Servo" else "Off"; mt_accent := Blue |};
   {| mt_label := "JS"; mt_value := if rendered then "Servo" else "Off"; mt_accent := Amber |};
   {| mt_label := "Route"; mt_value := route_label source; mt_accent := Teal |}].

Definition surface_from_servo_document (document : ServoDocument) : RenderSurface :=
  {| su_title := sd_title document; su_address := sd_address document;
     su_summary := "Rendered by Servo";
     su_metrics := document_metrics (sd_source document) true;
     su_document := WebDocument document |}.

Definition engine_error_surface (address : string) (source : ServoDocumentSource)
    (error : string) : RenderSurface :=
  {| su_title := "Servo Render Error"; su_address := address; su_summary := error;
     su_metrics := document_metrics source false;
     su_document := WebDocument
       {| sd_title := "Servo Render Error"; sd_address := address;
          sd_frame := {| fr_width := 0; fr_height := 0; fr_pixels := [] |};
          sd_source := source; sd_status := RenderFailed error |} |}.

Definition home_surface : RenderSurface :=
  {| su_title := "New Tab"; su_address := "slate://home"; su_summary := "Home";
     su_metrics :=
       [{| mt_label := "Wikipedia on IPFS"; mt_value := "ipns://en.wikipedia-on-ipfs.org";
           mt_accent := Teal |};
        {| mt_label := "OpenStreetMap"; mt_value := "openstreetmap.org"; mt_accent := Amber |};
        {| mt_label := "Add bookmark"; mt_value := "Save a favorite site"; mt_accent := Blue |};
        {| mt_label := "Add another"; mt_value := "Pin your broadweb"; mt_accent := Teal |}];
     su_document := Home |}.

Definition route_boundary_label (privacy_boundary : string) : string :=
  if str_contains "public IPFS gateway" privacy_boundary then "Public IPFS Gateway"
  else if str_contains "local IPFS gateway" privacy_boundary then "Local IPFS Gateway"
  else if str_contains "local Kubo RPC" privacy_boundary then "Local Kubo RPC"
  else if str_contains "direct HTTP" privacy_boundary then "Direct Web"
  else "Broadweb".

Definition append_broadweb_route_metrics (route : option FetchRouteInfo)
    (surface : RenderSurface) : RenderSurface :=
  match route with
  | None => surface
  | Some route =>
      {| su_title := su_title surface; su_address := su_address surface;
         su_summary := su_summary surface;
         su_metrics := su_metrics surface ++
           [{| mt_label := "Profile"; mt_value := ri_profile route; mt_accent := Blue |};
            {| mt_label := "Transport"; mt_value := ri_transport_id route; mt_accent := Teal |};
            {| mt_label := "Boundary";
               mt_value := route_boundary_label (ri_privacy_boundary route);
               mt_accent := Amber |}];
         su_document := su_document surface |}
  end.

(** ** Text *)

Definition escape_html_char (c : ascii) : string :=
  if Ascii.eqb c "&" then "&amp;"
  else if Ascii.eqb c "<" then "&lt;"
  else if Ascii.eqb c ">" then "&gt;"
  else if Ascii.eqb c (byte_of 34) then "&quot;"
  else if Ascii.eqb c "'" then "&#39;"
  else String c EmptyString.
Fixpoint escape_html_text (input : string) : string :=
  match input with
  | EmptyString => EmptyString
  | String c input => escape_html_char c +:+ escape_html_text input
  end.

(** The upper-case hexadecimal escape of a byte. *)
Definition percent_byte (c : ascii) : string :=
  String "%" (String (hex_upper (byte_val c / 16)) (String (hex_upper (byte_val c mod 16)) "")).
Fixpoint percent_encode (keep : ascii -> bool) (input : string) : string :=
  match input with
  | EmptyString => EmptyString
  | String c input =>
      (if keep c then String c EmptyString else percent_byte c) +:+ percent_encode keep input
  end.
Definition percent_encode_data (input : string) : string :=
  percent_encode (fun byte => is_ascii_alphanumeric byte || one_of "-_.~" byte) input.
Definition data_html_url (html : string) : string :=
  "data:text/html;charset=utf-8," +:+ percent_encode_data html.

(** [String::from_utf8_lossy]: every maximal invalid sequence becomes U+FFFD. *)
Definition replacement_character : string := bytes_str [239; 191; 189].
Fixpoint from_utf8_lossy_fuel (fuel : nat) (s : string) : string :=
  let tail c := in_range (byte_of 128) (byte_of 191) c in
  match fuel with
  | O => ""
  | S fuel =>
      match s with
      | EmptyString => ""
      | String a s1 =>
          let x := byte_val a in
          let low := if x =? 224 then 160 else if x =? 240 then 144 else 128 in
          let high := if x =? 237 then 159 else if x =? 244 then 143 else 191 in
          let second b := (low <=? byte_val b) && (byte_val b <=? high) in
          let bad rest := replacement_character +:+ from_utf8_lossy_fuel fuel rest in
          if x <? 128 then String a (from_utf8_lossy_fuel fuel s1)
          else if (194 <=? x) && (x <=? 223) then
            match s1 with
            | String b s2 =>
                if tail b then String a (String b (from_utf8_lossy_fuel fuel s2)) else bad s1
            | _ => bad s1
            end
          else if (224 <=? x) && (x <=? 239) then
            match s1 with
            | String b s2 =>
                if second b then
                  match s2 with
                  | String c s3 =>
                      if tail c then String a (String b (String c (from_utf8_lossy_fuel fuel s3)))
                      else bad s2
                  | _ => bad s2
                  end
                else bad s1
            | _ => bad s1
            end
          else if (240 <=? x) && (x <=? 244) then
            match s1 with
            | String b s2 =>
                if second b then
                  match s2 with
                  | String c s3 =>
                      if tail c then
                        match s3 with
                        | String d s4 =>
                            if tail d
                            then String a (String b (String c (String d
                                   (from_utf8_lossy_fuel fuel s4))))
                            else bad s3
                        | _ => bad s3
                        end
                      else bad s2
                  | _ => bad s2
                  end
                else bad s1
            | _ => bad s1
            end
          else bad s1
      end
  end.
Definition from_utf8_lossy (s : string) : string := from_utf8_lossy_fuel (String.length s) s.
Definition body_text_lossy (r : HttpFetchResponse) : string := from_utf8_lossy (hr_body r).

(** [chars().take(n)]: a byte that continues a character is kept with it. *)
Fixpoint take_chars (n : nat) (s : string) : string :=
  match s with
  | EmptyString => EmptyString
  | String c s =>
      if in_range (byte_of 128) (byte_of 191) c then String c (take_chars n s)
      else match n with O => EmptyString | S n => String c (take_chars n s) end
  end.

(** [replace] of one byte. *)
Definition replace_byte (from to : ascii) (s : string) : string :=
  str_map (fun c => if Ascii.eqb c from then to else c) s.

(** ** Pages *)

Definition render_error_html (title heading : string) (details : list string) : string :=
  let escaped_title := escape_html_text title in
  let escaped_heading := escape_html_text heading in
  "<!doctype html><html><head><meta charset=" +:+ quote +:+ "utf-8" +:+ quote +:+ "><title>"
  +:+ escaped_title +:+ "</title><style>body{font-family:sans-serif;margin:48px;color:#262626;"
  +:+ "background:#fbfaf8}h1{font-size:34px;color:#0b6b68}p{font-size:17px;line-height:1.5}"
  +:+ "</style></head><body><h1>" +:+ escaped_heading +:+ "</h1>"
  +:+ String.concat "" (map (fun detail => "<p>" +:+ escape_html_text detail +:+ "</p>") details)
  +:+ "</body></html>".

Definition builtin_test_html (address : string) : string :=
  let escaped_address := escape_html_text address in
  "<!doctype html><html><head><meta charset=" +:+ quote +:+ "utf-8" +:+ quote
  +:+ "><title>Slate Servo Test</title><style>body{font-family:sans-serif;margin:48px;"
  +:+ "background:#f4fbf8;color:#24302e}h1{color:#0b6b68;font-size:38px}p{font-size:18px;"
  +:+ "line-height:1.5}</style><script>document.addEventListener('DOMContentLoaded',()=>"
  +:+ "{document.body.dataset.servoScript='ready';const marker=document.createElement('p');"
  +:+ "marker.textContent='JavaScript executed inside Servo.';"
  +:+ "document.body.appendChild(marker);});</script></head><body><h1>Hello from Servo</h1>"
  +:+ "<p>This test page is rendered by the vendored Servo engine.</p><p>" +:+ escaped_address
  +:+ "</p></body></html>".

Definition search_html (address : string) : string :=
  let query := match split_once "?q=" address with
               | Some (_, value) => replace_byte "+" " " value
               | None => ""
               end in
  let escaped_query := escape_html_text query in
  "<!doctype html><html><head><meta charset=" +:+ quote +:+ "utf-8" +:+ quote
  +:+ "><title>Search</title><style>body{font-family:sans-serif;margin:48px;color:#262626;"
  +:+ "background:#fbfaf8}h1{font-size:34px;color:#0b6b68}p{font-size:17px}</style></head>"
  +:+ "<body><h1>" +:+ escaped_query
  +:+ "</h1><p>Local search surface.</p><p>No remote search request has been issued.</p>"
  +:+ "</body></html>".

Definition internal_html (address : string) : string :=
  let escaped_address := escape_html_text address in
  "<!doctype html><html><head><meta charset=" +:+ quote +:+ "utf-8" +:+ quote
  +:+ "><title>Slate Internal Page</title><style>body{font-family:sans-serif;margin:48px;"
  +:+ "color:#262626;background:#fbfaf8}h1{font-size:34px;color:#0b6b68}p{font-size:17px}"
  +:+ "</style></head><body><h1>Slate Internal Page</h1><p>" +:+ escaped_address
  +:+ "</p><p>This address is handled locally, then painted by Servo.</p></body></html>".

Definition broadweb_placeholder_html (address : string) : string :=
  let escaped_address := escape_html_text address in
  "<!doctype html><html><head><meta charset=" +:+ quote +:+ "utf-8" +:+ quote
  +:+ "><title>Broadweb Route Pending</title><style>body{font-family:sans-serif;margin:48px;"
  +:+ "color:#262626;background:#f2fbf7}h1{font-size:34px;color:#0b6b68}p{font-size:17px;"
  +:+ "line-height:1.5}code{background:#e5f0ee;padding:4px 6px;border-radius:4px}</style>"
  +:+ "</head><body><h1>Broadweb route pending</h1><p><code>" +:+ escaped_address
  +:+ "</code></p><p>Servo received this address through Slate's broadweb protocol "
  +:+ "callback.</p><p>No I2P, Gemini, magnet, or other pending adapter network request has "
  +:+ "been issued yet.</p></body></html>".

Definition broadweb_fetch_error_html (address error : string) : string :=
  let escaped_address := escape_html_text address in
  let escaped_error := escape_html_text error in
  "<!doctype html><html><head><meta charset=" +:+ quote +:+ "utf-8" +:+ quote
  +:+ "><title>Broadweb Fetch Error</title><style>body{font-family:sans-serif;margin:48px;"
  +:+ "color:#262626;background:#fbfaf8}h1{font-size:34px;color:#0b6b68}p{font-size:17px;"
  +:+ "line-height:1.5}code{background:#e5f0ee;padding:4px 6px;border-radius:4px}</style>"
  +:+ "</head><body><h1>Broadweb fetch error</h1><p><code>" +:+ escaped_address
  +:+ "</code></p><p>" +:+ escaped_error +:+ "</p></body></html>".

Definition response_body_excerpt (response : HttpFetchResponse) : string :=
  let text := trim (body_text_lossy response) in
  if is_empty text then ""
  else "<p>" +:+ escape_html_text (take_chars 280 text) +:+ "</p>".

Definition broadweb_response_error_html (address : string) (code : Z)
    (response : HttpFetchResponse) : string :=
  let status_code := show code in
  let escaped_address := escape_html_text address in
  let escaped_final_url := escape_html_text (hr_final_url response) in
  let escaped_content_type := escape_html_text (default "unknown" (hr_content_type response)) in
  let body_excerpt := response_body_excerpt response in
  "<!doctype html><html><head><meta charset=" +:+ quote +:+ "utf-8" +:+ quote
  +:+ "><title>Broadweb Response Error</title><style>body{font-family:sans-serif;margin:48px;"
  +:+ "color:#262626;background:#fbfaf8}h1{font-size:34px;color:#7a2200}p{font-size:17px;"
  +:+ "line-height:1.5}code{background:#f1e8e2;padding:4px 6px;border-radius:4px}</style>"
  +:+ "</head><body><h1>Broadweb response error</h1><p>Status: <code>" +:+ status_code
  +:+ "</code></p><p>Address: <code>" +:+ escaped_address +:+ "</code></p><p>Final URL: <code>"
  +:+ escaped_final_url +:+ "</code></p><p>Content type: <code>" +:+ escaped_content_type
  +:+ "</code></p>" +:+ body_excerpt +:+ "</body></html>".

Definition download_details_html (download : DownloadRecord) : string :=
  "<p>Saved to <code>" +:+ escape_html_text (dr_path download) +:+ "</code></p><p>Profile: <code>"
  +:+ escape_html_text (dr_profile download) +:+ "</code></p><p>Size: "
  +:+ show (dr_size_bytes download) +:+ " bytes</p>".
Definition download_ready_html (address : string) (content_type : option string)
    (suggested_filename : string) (download : option DownloadRecord) : string :=
  let escaped_address := escape_html_text address in
  let escaped_content_type := escape_html_text (default "unknown" content_type) in
  let escaped_filename := escape_html_text suggested_filename in
  let download_details := match download with
                          | Some download => download_details_html download
                          | None => ""
                          end in
  "<!doctype html><html><head><meta charset=" +:+ quote +:+ "utf-8" +:+ quote
  +:+ "><title>Download Ready</title><style>body{font-family:sans-serif;margin:48px;"
  +:+ "color:#262626;background:#fbfaf8}h1{font-size:34px;color:#0b6b68}p{font-size:17px;"
  +:+ "line-height:1.5}code{background:#e5f0ee;padding:4px 6px;border-radius:4px}</style>"
  +:+ "</head><body><h1>Download ready</h1><p><code>" +:+ escaped_filename +:+ "</code></p><p>"
  +:+ escaped_content_type +:+ "</p><p>" +:+ escaped_address +:+ "</p>" +:+ download_details
  +:+ "<p>The response was fetched through broadwebd and should be handed to Slate's "
  +:+ "download flow.</p></body></html>".

(** ** The base of a document *)

(** [find] of a text, and the text from an index on. *)
Fixpoint find_index (p s : string) : option nat :=
  if starts_with p s then Some 0%nat
  else match s with
       | EmptyString => None
       | String _ s => option_map S (find_index p s)
       end.

Definition contains_base_tag (html : string) : bool :=
  str_contains "<base" (to_ascii_lowercase html).

Definition opening_tag_end (html tag_start : string) : option nat :=
  let lower := to_ascii_lowercase html in
  match find_index tag_start lower with
  | None => None
  | Some start =>
      option_map (fun offset => (start + offset + 1)%nat) (find_index ">" (str_drop start html))
  end.

Definition insert_at_byte (input : string) (index : nat) (value : string) : string :=
  str_take index input +:+ value +:+ str_drop index input.

Definition insert_head_child (html child : string) : string :=
  match opening_tag_end html "<head" with
  | Some insert_at => insert_at_byte html insert_at child
  | None =>
      let head := "<head>" +:+ child +:+ "</head>" in
      match opening_tag_end html "<html" with
      | Some insert_at => insert_at_byte html insert_at head
      | None => head +:+ html
      end
  end.

(** ** Addresses *)

Section Schemes.
Context `{UrlCrate}.

Definition has_scheme (schemes : list string) (address : string) : bool :=
  match url_parse address with
  | Ok url => existsb (str_eqb (url_scheme url)) schemes
  | Err _ => false
  end.
Definition has_servo_supported_scheme : string -> bool :=
  has_scheme ["http"; "https"; "file"; "data"; "about"].
Definition has_http_service_scheme : string -> bool := has_scheme ["http"; "https"].
Definition has_broadwebd_service_scheme : string -> bool :=
  has_scheme ["ipfs"; "ipns"; "tor+http"; "tor+https"].
Definition has_broadweb_scheme : string -> bool :=
  has_scheme ["ipfs"; "ipns"; "tor+http"; "tor+https"; "i2p"; "gemini"; "magnet"].
Definition requires_private_network_host_adapter (address : string) : bool :=
  let lower := to_ascii_lowercase address in
  str_contains ".onion" lower || str_contains ".i2p" lower.

Definition broadweb_document_base_address (address : string) (response : HttpFetchResponse) :
    string :=
  if has_broadwebd_service_scheme (hr_final_url response) then hr_final_url response else address.

Definition broadweb_html_with_document_base (address html : string) : string :=
  if negb (has_broadwebd_service_scheme address) || contains_base_tag html then html
  else insert_head_child html ("<base href=" +:+ quote +:+ escape_html_text address +:+ quote
                               +:+ ">").
End Schemes.

(** ** Servo *)

(** The software context, the loading of a URL (whether it completes in time) and the
    screenshot (whether it comes in time, whether there is one, and the image or its error),
    the title the page announced, its title and its URL. *)
Class ServoEngine (E : Type) := {
  servo_rendering_context : RenderViewport -> state_result E string unit;
  servo_make_current : state_result E string unit;
  servo_load : Url -> E -> E * bool;
  servo_screenshot : E -> E * option (option (result string RgbaImage));
  servo_announced_title : E -> option string;
  servo_page_title : E -> option string;
  servo_page_url : E -> option string
}.

Section Servo.
Context {E : Type} `{UrlCrate, ServoEngine E}.

(** [ServoRenderer::render]. *)
Definition render_with_servo (display_address servo_address : string)
    (source : ServoDocumentSource) (viewport : RenderViewport) :
    state_result E string ServoDocument :=
  let* url := sr_lift (map_err (fun error => "invalid Servo URL: " +:+ error)
                         (url_parse servo_address)) in
  do* sr_map_err (fun error => "software rendering failed: " +:+ error)
        (servo_rendering_context viewport) in
  do* sr_map_err (fun error => "Servo context setup failed: " +:+ error) servo_make_current in
  fun e =>
  let '(e, loaded) := servo_load url e in
  if negb loaded
  then (e, Err ("Servo load timed out after " +:+ show LOAD_TIMEOUT +:+ " seconds"))
  else
    let '(e, screenshot) := servo_screenshot e in
    match screenshot with
    | None =>
        (e, Err ("Servo screenshot timed out after " +:+ show SCREENSHOT_TIMEOUT +:+ " seconds"))
    | Some None => (e, Err "Servo did not return a screenshot")
    | Some (Some (Err error)) => (e, Err error)
    | Some (Some (Ok image)) =>
        let title := match servo_announced_title e with
                     | Some title => Some title
                     | None => servo_page_title e
                     end in
        let title := match title with
                     | Some title => if is_empty title then display_address else title
                     | None => display_address
                     end in
        let address :=
          if starts_with "data:" servo_address then display_address
          else match source with
               | SlateGenerated | Blocked => display_address
               | LocalFile | Web | Broadweb => default display_address (servo_page_url e)
               end in
        (e, Ok {| sd_title := title; sd_address := address; sd_frame := frame_from_image image;
                  sd_source := source; sd_status := Rendered |})
    end.
End Servo.

(** ** The backend *)

(** The daemon once it was started, what it acts on, and Servo. *)
Record RenderWorld (W E : Type) := {
  rw_daemon : option (BroadwebDaemon W);
  rw_services : FileSystem * W;
  rw_engine : E
}.
Arguments rw_daemon {W E}. Arguments rw_services {W E}. Arguments rw_engine {W E}.

Section Backend.
Context {W E : Type} `{UrlCrate, DownloadIndexJson, ServoEngine E}.
Context (start_default_session : daemon_op (W:=W) (BroadwebDaemon W)).

Definition render_op (A : Type) : Type := RenderWorld W E -> RenderWorld W E * A.

Definition fetch_with_default_broadwebd (request : HttpFetchRequest) :
    render_op (result BroadwebdError HttpFetchResponse) := fun w =>
  let '(services, daemon) :=
    match rw_daemon w with
    | Some daemon => (rw_services w, Ok daemon)
    | None => start_default_session (rw_services w)
    end in
  match daemon with
  | Err error =>
      ({| rw_daemon := None; rw_services := services; rw_engine := rw_engine w |}, Err error)
  | Ok daemon =>
      let '(services, response) := daemon_fetch_http daemon request services in
      ({| rw_daemon := Some daemon; rw_services := services; rw_engine := rw_engine w |},
       response)
  end.

Definition render_servo_url (display_address servo_address : string)
    (source : ServoDocumentSource) (viewport : RenderViewport) : render_op RenderSurface := fun w =>
  let '(engine, result) :=
    render_with_servo display_address servo_address source viewport (rw_engine w) in
  ({| rw_daemon := rw_daemon w; rw_services := rw_services w; rw_engine := engine |},
   match result with
   | Ok document => surface_from_servo_document document
   | Err error => engine_error_surface display_address source error
   end).

Definition render_html_with_viewport (address html : string) (source : ServoDocumentSource)
    (viewport : RenderViewport) : render_op RenderSurface :=
  render_servo_url address (data_html_url html) source viewport.
Definition render_html (address html : string) (source : ServoDocumentSource) :
    render_op RenderSurface :=
  render_html_with_viewport address html source default_viewport.

Definition render_error_with_viewport (address title heading : string) (details : list string)
    (source : ServoDocumentSource) (viewport : RenderViewport) : render_op RenderSurface :=
  render_html_with_viewport address (render_error_html title heading details) source viewport.
Definition render_error (address title heading : string) (details : list string)
    (source : ServoDocumentSource) : render_op RenderSurface :=
  render_error_with_viewport address title heading details source default_viewport.

Definition with_route_metrics (route : option FetchRouteInfo)
    (render : render_op RenderSurface) : render_op RenderSurface := fun w =>
  let '(w, surface) := render w in (w, append_broadweb_route_metrics route surface).

Definition render_broadwebd_response (address : string) (response : HttpFetchResponse)
    (source : ServoDocumentSource) (viewport : RenderViewport) : render_op RenderSurface :=
  with_route_metrics (hr_route response)
    match hr_disposition response with
    | RenderHtml =>
        render_html_with_viewport address
          (broadweb_html_with_document_base (broadweb_document_base_address address response)
             (body_text_lossy response)) source viewport
    | Download suggested_filename =>
        render_html_with_viewport address
          (download_ready_html (hr_final_url response) (hr_content_type response)
             suggested_filename (hr_download response)) source viewport
    | ErrorPage status_code =>
        render_html_with_viewport address
          (broadweb_response_error_html address status_code response) Blocked viewport
    end.

Definition render_broadwebd_fetch (address : string) (request : HttpFetchRequest)
    (source : ServoDocumentSource) (viewport : RenderViewport) : render_op RenderSurface := fun w =>
  match fetch_with_default_broadwebd request w with
  | (w, Ok response) => render_broadwebd_response address response source viewport w
  | (w, Err error) =>
      render_error_with_viewport address "Broadweb Fetch Error"
        "Slate could not fetch this page through broadwebd"
        [address; show_broadwebd_error error] Blocked viewport w
  end.

Definition load_home : RenderSurface := home_surface.

Definition load_address_with_viewport (address : string) (viewport : RenderViewport) :
    render_op RenderSurface :=
  if str_eqb address "slate://home" || str_eqb address "slate://new"
  then fun w => (w, home_surface)
  else if starts_with "slate://tests/" address
  then render_html_with_viewport address (builtin_test_html address) SlateGenerated viewport
  else if starts_with "slate://search?" address
  then render_html_with_viewport address (search_html address) SlateGenerated viewport
  else if starts_with "slate://" address
  then render_html_with_viewport address (internal_html address) SlateGenerated viewport
  else if has_broadwebd_service_scheme address
  then render_broadwebd_fetch address (default_profile_request address) Broadweb viewport
  else if requires_private_network_host_adapter address
  then render_error_with_viewport address "Protocol Adapter Required"
         "This route needs a Slate protocol adapter"
         [address; "Slate will not send this address through normal DNS or direct web routing."]
         Blocked viewport
  else if has_broadweb_scheme address
  then render_servo_url address address Broadweb viewport
  else if has_http_service_scheme address
  then render_broadwebd_fetch address (default_profile_request address) Web viewport
  else if has_servo_supported_scheme address
  then render_servo_url address address
         (if starts_with "file://" address then LocalFile else Web) viewport
  else render_error_with_viewport address "Unsupported Address"
         "Servo cannot navigate this address yet" [address] Blocked viewport.
Definition load_address (address : string) : render_op RenderSurface :=
  load_address_with_viewport address default_viewport.

(** ** The protocol handler *)

(** What the handler answers Servo: the status ([None] for an error status), the content
    type header and the body.  [header_value_ok] is [HeaderValue::from_str]. *)
Record ProtocolResponse := {
  pt_status : option Z;
  pt_content_type : option string;
  pt_body : string
}.
Context (header_value_ok : string -> bool) (content_type_html : string) (default_status : Z).

Definition http_status (status_code : Z) : option Z :=
  if (100 <=? status_code) && (status_code <=? 599) then Some status_code else None.

Definition broadweb_fetch_response (response : HttpFetchResponse) : ProtocolResponse :=
  {| pt_status := http_status (hr_status_code response);
     pt_content_type := match hr_content_type response with
                        | Some content_type =>
                            if header_value_ok content_type then Some content_type else None
                        | None => None
                        end;
     pt_body := hr_body response |}.

Definition broadweb_error_protocol_response (address : string) (error : BroadwebdError) :
    ProtocolResponse :=
  {| pt_status := Some 502; pt_content_type := Some content_type_html;
     pt_body := broadweb_fetch_error_html address (show_broadwebd_error error) |}.

Definition broadweb_placeholder_protocol_response (address : string) : ProtocolResponse :=
  {| pt_status := Some default_status; pt_content_type := Some content_type_html;
     pt_body := broadweb_placeholder_html address |}.

Definition broadweb_fetch_protocol_response (address : string) : render_op ProtocolResponse :=
  fun w =>
  match fetch_with_default_broadwebd (for_subresource (default_profile_request address)) w with
  | (w, Ok response) => (w, broadweb_fetch_response response)
  | (w, Err error) => (w, broadweb_error_protocol_response address error)
  end.

Definition protocol_handler_load (address : string) : render_op ProtocolResponse :=
  if has_broadwebd_service_scheme address then broadweb_fetch_protocol_response address
  else fun w => (w, broadweb_placeholder_protocol_response address).
End Backend.
