(* ===== verification/Protocols.v ===== *)
(** * Applications, schemes, page requests and privacy defaults

    Models the small crates [crates/apps/src/lib.rs], [crates/protocols/src/lib.rs],
    [crates/net/src/lib.rs] and [crates/privacy/src/lib.rs]. *)
From S2P Require Import Prelude RustStr Routing Rendering.

(** ** Applications *)

Inductive AppId := Web | Downloads | Calendar | Chat | Contacts | Files | Settings.
#[export] Instance AppId_eq_dec : EqDecision AppId.
Proof. solve_decision. Defined.

Inductive AppIcon :=
  | GlobeIcon | DownloadIcon | CalendarIcon | ChatIcon | ContactsIcon | FilesIcon | SettingsIcon.
Inductive SyncPrivacyClass := LowRisk | Metadata | Sensitive | Content.
Definition privacy_class_as_str (c : SyncPrivacyClass) : string :=
  match c with
  | LowRisk => "low-risk" | Metadata => "metadata" | Sensitive => "sensitive"
  | Content => "content"
  end.

Record AppSyncDescriptor := {
  as_domain : string;
  as_privacy_classification : SyncPrivacyClass;
  as_sync_content : bool;
  as_default_enabled : bool
}.
Record AppDescriptor := {
  app_id : AppId;
  app_label : string;
  app_icon : AppIcon;
  app_sync : AppSyncDescriptor
}.

Definition app_descriptor (id : AppId) (label : string) (icon : AppIcon) (domain : string)
    (classification : SyncPrivacyClass) (content enabled : bool) : AppDescriptor :=
  {| app_id := id; app_label := label; app_icon := icon;
     app_sync := {| as_domain := domain; as_privacy_classification := classification;
                    as_sync_content := content; as_default_enabled := enabled |} |}.
Definition DEFAULT_APPS : list AppDescriptor :=
  [app_descriptor Web "Web" GlobeIcon "bookmarks" LowRisk false true;
   app_descriptor Downloads "Downloads" DownloadIcon "downloads" Metadata false true;
   app_descriptor Calendar "Calendar" CalendarIcon "calendar" Sensitive false false;
   app_descriptor Chat "Chat" ChatIcon "chat" Sensitive false false;
   app_descriptor Contacts "Contacts" ContactsIcon "contacts" Sensitive false false;
   app_descriptor Files "Files" FilesIcon "files" Content true false;
   app_descriptor Settings "Settings" SettingsIcon "settings" LowRisk false true].
Definition FUTURE_SYNC_DOMAINS : list AppSyncDescriptor :=
  [{| as_domain := "storage"; as_privacy_classification := Sensitive; as_sync_content := false;
      as_default_enabled := false |}].

Definition default_apps : list AppDescriptor := DEFAULT_APPS.
Definition app_for_sync_domain (domain : string) : option AppDescriptor :=
  list_find_bool (fun app => str_eqb (as_domain (app_sync app)) domain) default_apps.

(** ** Schemes and routing plans *)

Inductive Scheme := Http | Https | Ipfs | Ipns | Onion | I2p | Slate | Unknown.
#[export] Instance Scheme_eq_dec : EqDecision Scheme.
Proof. solve_decision. Defined.

Inductive ProtocolError := UnsupportedScheme (scheme : string) | InvalidRoute (error : MultiaddrError).
Definition show_protocol_error (e : ProtocolError) : string :=
  match e with
  | UnsupportedScheme scheme => "unsupported scheme: " +:+ scheme
  | InvalidRoute error => "invalid route: " +:+ show_multiaddr_error error
  end.

Definition classify (target : string) : Scheme :=
  let lower := to_ascii_lowercase target in
  if starts_with "slate://" lower then Slate
  else if starts_with "ipfs://" lower then Ipfs
  else if starts_with "ipns://" lower then Ipns
  else if str_contains ".onion" lower then Onion
  else if str_contains ".i2p" lower || starts_with "i2p://" lower then I2p
  else if starts_with "https://" lower then Https
  else if starts_with "http://" lower then Http
  else Unknown.

Definition plan_through (target multiaddr : string) (mode : RoutingMode)
    (privacy_boundary : string) : result ProtocolError RoutingPlan :=
  let? endpoint := map_err InvalidRoute (multiaddr_parse multiaddr) in
  Ok (routing_plan_new target endpoint mode privacy_boundary).
Definition plan_for (target : string) : result ProtocolError RoutingPlan :=
  match classify target with
  | Slate => plan_through target "/memory/slate/chrome" Internal "local-only browser state"
  | Ipfs | Ipns =>
      plan_through target "/ip4/127.0.0.1/tcp/8080/http" Gateway
        "local IPFS gateway; no public fallback"
  | Onion =>
      plan_through target "/ip4/127.0.0.1/tcp/9050/socks5" Proxy
        "Tor SOCKS proxy; DNS must not escape"
  | I2p => plan_through target "/ip4/127.0.0.1/tcp/4444/http" Proxy "I2P local HTTP proxy"
  | Https => plan_through target "/dnsaddr/web/tcp/443/tls/http" Direct "ordinary web route"
  | Http =>
      plan_through target "/dnsaddr/web/tcp/80/http" Direct
        "ordinary web route without transport encryption"
  | Unknown => Err (UnsupportedScheme target)
  end.

(** Every target with a known scheme has a plan, and only web targets without a private host
    name are routed directly. *)
Lemma plan_for_ok target :
  match plan_for target with
  | Ok plan => rp_source plan = target /\ classify target <> Unknown /\
      (rp_mode plan = Direct <-> classify target = Http \/ classify target = Https) /\
      (rp_mode plan = Direct -> str_contains ".onion" (to_ascii_lowercase target) = false /\
                                str_contains ".i2p" (to_ascii_lowercase target) = false)
  | Err e => e = UnsupportedScheme target /\ classify target = Unknown
  end.
Proof.
  assert (classify target = Http \/ classify target = Https ->
    str_contains ".onion" (to_ascii_lowercase target) = false /\
    str_contains ".i2p" (to_ascii_lowercase target) = false) as Hprivate.
  { unfold classify. do 3 (destruct (starts_with _ _); [naive_solver|]).
    destruct (str_contains ".onion" _); [naive_solver|].
    destruct (str_contains ".i2p" _); [naive_solver|done]. }
  unfold plan_for. destruct (classify target) eqn:E; [..|done]; cbn; naive_solver.
Qed.

(** ** Page requests *)

Record RequestPolicy := { allow_startup_network : bool }.
Definition default_request_policy : RequestPolicy := {| allow_startup_network := false |}.
Record PlannedRequest := { pq_route : RoutingPlan; pq_policy : RequestPolicy }.
Definition planned_request_new (route : RoutingPlan) (policy : RequestPolicy) : PlannedRequest :=
  {| pq_route := route; pq_policy := policy |}.

Definition FIREFOX_COMPAT_VERSION : string := "154.0".
Definition MAX_HTML_BYTES : Z := 2 * 1024 * 1024.

Record FetchedPage := { fp_final_url : string; fp_body : string }.
Record RawFetchedPage := { rf_final_url : string; rf_bytes : string }.
Inductive FetchError :=
  | FetchUnsupportedScheme (address : string)
  | FetchRequest (error : string)
  | TooLarge (limit actual : Z).
Definition show_fetch_error (e : FetchError) : string :=
  match e with
  | FetchUnsupportedScheme address => "unsupported web URL: " +:+ address
  | FetchRequest error => error
  | TooLarge limit actual =>
      "response too large: " +:+ show actual +:+ " bytes over " +:+ show limit +:+ " byte limit"
  end.

(** [get]: the transport, with the user agent of the browser. *)
Definition fetch_web_page_with_transport {N} (get : string -> state_result N FetchError RawFetchedPage)
    (address : string) : state_result N FetchError FetchedPage :=
  if negb (starts_with "http://" address) && negb (starts_with "https://" address)
  then sr_err (FetchUnsupportedScheme address)
  else
    let* response := get address in
    if MAX_HTML_BYTES <? str_len (rf_bytes response)
    then sr_err (TooLarge MAX_HTML_BYTES (str_len (rf_bytes response)))
    else sr_ret {| fp_final_url := rf_final_url response;
                   fp_body := from_utf8_lossy (rf_bytes response) |}.

(** ** Privacy *)

Record PrivacyPolicy := {
  telemetry_enabled : bool;
  public_gateway_fallback : bool;
  persist_private_session : bool
}.
Definition default_privacy_policy : PrivacyPolicy :=
  {| telemetry_enabled := false; public_gateway_fallback := false;
     persist_private_session := false |}.
