(* ===== verification/DaemonLaws.v ===== *)
(** * What a fetch leaves behind

    The daemon's entry point for fetches: a profile that is not valid is refused before any
    plugin runs, only a navigation writes files, and a download it records is the file that
    was stored. *)
From S2P Require Import Prelude RustStr SocketText Broadwebd Http Downloads StrLaws.
From S2P Require Import DownloadLaws Daemon UrlReference.

Lemma ends_with_slash p : ends_with "/" p = true -> exists q, p = q +:+ "/".
Proof.
  unfold ends_with. intros [t Ht]%starts_with_spec. exists (str_rev t).
  rewrite <-(str_rev_rev p), Ht. change (str_rev "/" +:+ t) with (String "/" t).
  apply str_rev_cons.
Qed.

Lemma filename_no_slash name :
  safe_name name -> all_bytes (fun c => negb (Ascii.eqb c "/")) name = true.
Proof.
  intros (Hbytes & _ & _). induction name as [|c name IH]; [done|].
  cbn [all_bytes] in *. apply andb_prop in Hbytes as [Hc Hname]. rewrite (IH Hname), andb_true_r.
  destruct (Ascii.eqb_spec c "/") as [->|]; [done|done].
Qed.

Lemma file_name_of_join root name :
  safe_name name -> path_file_name (path_join root name) = Some name.
Proof.
  intros Hsafe. pose proof (filename_no_slash name Hsafe) as Hslash.
  destruct Hsafe as (_ & Hne & Hdot).
  enough (after_last "/" (path_join root name) = name) as Hlast.
  { unfold path_file_name. rewrite Hlast, Hne. cbn.
    destruct (str_eqb name "..") eqn:E; [|done]. apply str_eqb_eq in E. by subst. }
  assert (forall q, after_last "/" (q +:+ String "/" name) = name) as Hq.
  { intros q. unfold after_last. rewrite str_split_app, (str_split_none _ _ Hslash).
    apply last_last. }
  unfold path_join. destruct (starts_with "/" name) eqn:Hs.
  { apply starts_with_spec in Hs as [t ->]. done. }
  destruct (is_empty root) eqn:Hroot.
  { destruct root; [|done]. unfold after_last. cbn [orb]. change ("" +:+ name) with name.
    by rewrite (str_split_none _ _ Hslash). }
  cbn [orb]. destruct (ends_with "/" root) eqn:Hend; [|apply Hq].
  apply ends_with_slash in Hend as [q ->]. rewrite str_app_assoc. apply Hq.
Qed.

Section DaemonLaws.
Context {W : Type} `{UrlCrate, DownloadIndexLaws} (d : BroadwebDaemon W).

Lemma prepare_profile_files root profile s s' r :
  prepare_profile root profile s = (s', r) -> fs_files s' = fs_files s.
Proof.
  unfold prepare_profile, sr_bind, sr_lift, sr_ret.
  destruct (profile_root root profile) as [path|e]; [|by intros [= <- _]].
  destruct (on_fs (fs_create_dir_all (path_join path "protocol-state")) s) as [s1 r1] eqn:E1.
  assert (fs_files s1 = fs_files s) as F1.
  { revert E1. unfold on_fs, sr_map_err.
    destruct (fs_create_dir_all _ s) as [s2 r2] eqn:E; intros [= <- _].
    by eapply create_dir_all_files. }
  destruct r1 as [[]|e]; [|by intros [= <- _]].
  destruct (on_fs (fs_create_dir_all (path_join path "temporary")) s1) as [s2 r2] eqn:E2.
  assert (fs_files s2 = fs_files s1) as F2.
  { revert E2. unfold on_fs, sr_map_err.
    destruct (fs_create_dir_all _ s1) as [s3 r3] eqn:E; intros [= <- _].
    by eapply create_dir_all_files. }
  destruct r2 as [[]|e]; intros [= <- _]; congruence.
Qed.

(** A download [record] of [response] in the files [after], none of it in [before]. *)
Definition recorded (profile : string) (before after : gmap string string)
    (response : HttpFetchResponse) (record : DownloadRecord) : Prop :=
  hr_download response = Some record /\ dr_profile record = profile /\
  dr_size_bytes record = str_len (hr_body response) /\
  dr_content_type record = hr_content_type response /\
  dr_path record = path_join (sr_downloads_root (bd_state_root d)) (dr_filename record) /\
  safe_name (dr_filename record) /\ before !! dr_path record = None /\
  (dr_path record <> index_path (bd_state_root d) profile ->
   after !! dr_path record = Some (hr_body response)) /\
  forall p, p <> dr_path record -> p <> index_path (bd_state_root d) profile ->
    after !! p = before !! p.

Lemma record_download_spec profile response0 s s' response :
  record_download d profile response0 s = (s', Ok response) ->
  match hr_disposition response0 with
  | Download _ => exists record, recorded profile (fs_files s.1) (fs_files s'.1) response record
  | _ => s' = s /\ response = response0
  end.
Proof.
  unfold record_download. destruct (hr_disposition response0) as [|name|code].
  1,3: by intros [= <- <-].
  unfold sr_bind, on_files. destruct (store_download _ _ _ _ s.1) as [files [path|e]] eqn:E;
    [|done]. intros [= <- <-].
  apply store_download_spec in E as (file & json & -> & Hsafe & Hnone & _ & Hfiles).
  rewrite file_name_of_join by done. eexists. unfold recorded. cbn. cbn zeta in Hfiles.
  split_and!; try done; rewrite Hfiles.
  - intros Hne. by rewrite lookup_insert_ne, lookup_insert_eq.
  - intros p Hp Hidx. by rewrite !lookup_insert_ne.
Qed.

(** C26: A fetch of an invalid profile is refused with nothing done; a subresource writes no file;
    a navigation that answers with a download has stored its body as a new file of a safe
    name inside the downloads directory, which its record describes, and changed no other
    file but the profile's index; any other navigation writes no file. *)
Theorem daemon_fetch_contained request s s' r :
  daemon_fetch_http d request s = (s', r) ->
  (forall e, validate_profile_id (hq_profile request) = Err e -> s' = s /\ r = Err e) /\
  (hq_purpose request = Subresource -> fs_files s'.1 = fs_files s.1) /\
  (forall response, r = Ok response -> hq_purpose request = Navigation ->
     (exists record,
        recorded (hq_profile request) (fs_files s.1) (fs_files s'.1) response record) \/
     ((forall name, hr_disposition response <> Download name) /\
      fs_files s'.1 = fs_files s.1)).
Proof.
  unfold daemon_fetch_http. unfold sr_bind at 1, on_files at 1. intros Hrun. split.
  { intros e He. revert Hrun. unfold prepare_profile, profile_root, sr_bind at 1, sr_lift.
    rewrite He. intros [= <- <-]. by destruct s. }
  destruct (prepare_profile _ _ s.1) as [files u] eqn:E.
  apply prepare_profile_files in E as Hfiles.
  destruct u as [path|e].
  2:{ injection Hrun as <- <-. by split. }
  unfold sr_bind at 1, on_plugins at 1 in Hrun. cbn [fst snd] in Hrun.
  destruct (registry_fetch_http _ _ _ s.2) as [w [response0|e]].
  2:{ injection Hrun as <- <-. by split. }
  destruct (bool_decide_reflect (hq_purpose request = Navigation)) as [Hnav|Hsub].
  - split; [by rewrite Hnav|]. intros response -> _.
    apply record_download_spec in Hrun.
    destruct (hr_disposition (requested_disposition request response0)) as [|name|code] eqn:Hd.
    + right. destruct Hrun as [-> ->]. rewrite Hd. split; [done|exact Hfiles].
    + left. destruct Hrun as (record & Hr). exists record. unfold recorded in *.
      cbn [fst] in Hr. by rewrite Hfiles in Hr.
    + right. destruct Hrun as [-> ->]. rewrite Hd. split; [done|exact Hfiles].
  - injection Hrun as <- <-. split; [done|]. by destruct (hq_purpose request).
Qed.
End DaemonLaws.

(** ** A daemon with one transport *)

Section Witness.
#[local] Existing Instance reference_crate.

Definition zip_transport : TransportPlugin unit := {|
  tp_metadata := plugin_metadata_new DIRECT_HTTP_PLUGIN TransportKind;
  tp_fetch_http request _ :=
    sr_ret (http_fetch_response_new (tq_url request) 200 (Some "application/zip") [] "PK")
|}.
Definition zip_daemon : BroadwebDaemon unit := {|
  bd_state_root := demo_root; bd_budget := default_budget;
  bd_registry := register_service http_fetch_service (register_transport zip_transport registry_new);
  bd_lifecycle := LifecycleReady |}.

Abbreviation zip_run :=
  (daemon_fetch_http zip_daemon (default_profile_request "https://a.example/b/c.zip")
     (empty_fs, tt)).

Lemma zip_ok :
  match zip_run.2 with
  | Ok response => hr_disposition response = Download "c.zip"
  | Err _ => False
  end.
Proof. vm_compute. reflexivity. Qed.

Lemma daemon_fetch_contained_witness :
  exists response record, zip_run.2 = Ok response /\
    recorded zip_daemon "default" ∅ (fs_files zip_run.1.1) response record.
Proof.
  pose proof zip_ok as Hok. destruct zip_run as [s' r] eqn:E. cbn [fst snd] in *.
  destruct (daemon_fetch_contained zip_daemon
              (default_profile_request "https://a.example/b/c.zip") (empty_fs, tt) s' r E)
    as (_ & _ & Hnav).
  destruct r as [response|e]; [|destruct Hok].
  destruct (Hnav response eq_refl eq_refl) as [[record Hr]|[Hd _]].
  - exists response, record. split; [reflexivity|exact Hr].
  - destruct (Hd _ Hok).
Defined.
End Witness.
