(* ===== verification/ServiceFrames.v ===== *)
(** * Service frames

    Models [crates/broadwebd/src/service_frame.rs]: requests and responses as JSON frames of
    bounded size behind a length prefix, the streams they travel over, the in-process stream
    that dispatches to a handler when it is flushed, the endpoints and the connectors that
    are chosen for them, and the clients built from a connector.

    [serde_json] and the TCP sockets are parameters.  A handler is a [Client] over a world
    [W]; a stream is the state [S] of its operations, which also act on [W]. *)
From S2P Require Import Prelude RustStr Broadwebd Routing SocketText Http Downloads Daemon.

Definition Request : Type := ServiceRequest HttpFetchRequest.
Definition Response : Type := ServiceResponse HttpFetchResponse.

(** ** Frames *)

Definition DEFAULT_SERVICE_FRAME_MAX_BYTES : Z := 32 * 1024 * 1024.

Record ServiceFrameCodec := { max_frame_bytes : Z }.
Definition default_codec : ServiceFrameCodec :=
  {| max_frame_bytes := DEFAULT_SERVICE_FRAME_MAX_BYTES |}.

(** [serde_json]: [to_writer] as the pieces it writes, which end with an error when the
    value cannot be serialized, and [from_slice]. *)
Class FrameJson := {
  request_pieces : Request -> list string * option string;
  response_pieces : Response -> list string * option string;
  request_from_slice : string -> result string Request;
  response_from_slice : string -> result string Response
}.

(** The pieces through a [BoundedFrameWriter] that holds [bytes]: what it holds in the end,
    or the length that was rejected.  [write_all] of an empty piece writes nothing. *)
Fixpoint bounded_write (max_frame_bytes : Z) (bytes : string) (pieces : list string) :
    string + Z :=
  match pieces with
  | [] => inl bytes
  | piece :: pieces =>
      if is_empty piece then bounded_write max_frame_bytes bytes pieces
      else
        let next_len := saturating_add_u64 (str_len bytes) (str_len piece) in
        if max_frame_bytes <? next_len then inr next_len
        else bounded_write max_frame_bytes (bytes +:+ piece) pieces
  end.

Definition encode_json_frame (value : list string * option string) (max_frame_bytes : Z)
    (label : string) : result BroadwebdError string :=
  match bounded_write max_frame_bytes "" value.1 with
  | inr actual => Err (FrameTooLarge max_frame_bytes actual)
  | inl bytes =>
      match value.2 with
      | Some error => Err (Broadwebd.Request ("encode " +:+ label +:+ " service frame: " +:+ error))
      | None => Ok bytes
      end
  end.

Definition decode_json_frame {A} (from_slice : string -> result string A) (frame : string)
    (max_frame_bytes : Z) (label : string) : result BroadwebdError A :=
  if max_frame_bytes <? str_len frame then Err (FrameTooLarge max_frame_bytes (str_len frame))
  else map_err (fun error =>
         Broadwebd.Request ("decode " +:+ label +:+ " service frame: " +:+ error))
         (from_slice frame).

Section Codec.
Context `{FrameJson} (codec : ServiceFrameCodec).

Definition encode_request (request : Request) : result BroadwebdError string :=
  encode_json_frame (request_pieces request) (max_frame_bytes codec) "request".
Definition decode_request (frame : string) : result BroadwebdError Request :=
  decode_json_frame request_from_slice frame (max_frame_bytes codec) "request".
Definition encode_response (response : Response) : result BroadwebdError string :=
  encode_json_frame (response_pieces response) (max_frame_bytes codec) "response".
Definition decode_response (frame : string) : result BroadwebdError Response :=
  decode_json_frame response_from_slice frame (max_frame_bytes codec) "response".
End Codec.

(** ** Streams *)

(** [Read + Write]: a read answers at most the bytes asked for, and none at the end; a write
    answers how many bytes it took.  A call that the system interrupts is made again by
    [read_exact] and [write_all], so an operation here is the call that was not.  Errors
    are their text. *)
Record IoStream (S : Type) := {
  io_read : nat -> state_result S string string;
  io_write : string -> state_result S string nat;
  io_flush : state_result S string unit
}.
Arguments io_read {S}. Arguments io_write {S}. Arguments io_flush {S}.

Definition WRITE_ZERO : string := "failed to write whole buffer".
Definition UNEXPECTED_EOF : string := "failed to fill whole buffer".

Section Streams.
Context {S : Type} (stream : IoStream S).

(** A write that takes bytes makes the buffer shorter: its length is enough fuel. *)
Fixpoint write_all_fuel (fuel : nat) (buffer : string) : state_result S string unit :=
  match fuel, buffer with
  | _, EmptyString => sr_ret tt
  | O, _ => sr_err WRITE_ZERO
  | Datatypes.S fuel, _ =>
      let* n := io_write stream buffer in
      if (n =? 0)%nat then sr_err WRITE_ZERO else write_all_fuel fuel (str_drop n buffer)
  end.
Definition write_all (buffer : string) : state_result S string unit :=
  write_all_fuel (String.length buffer) buffer.

(** A read that answers bytes makes the rest shorter: [n] is enough fuel. *)
Fixpoint read_exact_fuel (fuel n : nat) (filled : string) : state_result S string string :=
  match fuel, n with
  | _, O => sr_ret filled
  | O, _ => sr_err UNEXPECTED_EOF
  | Datatypes.S fuel, _ =>
      let* chunk := io_read stream n in
      if is_empty chunk then sr_err UNEXPECTED_EOF
      else read_exact_fuel fuel (n - String.length chunk) (filled +:+ chunk)
  end.
Definition read_exact (n : nat) : state_result S string string := read_exact_fuel n n "".

(** [u32::to_be_bytes] and [u32::from_be_bytes]. *)
Definition to_be_bytes (z : Z) : string :=
  bytes_str [Z.shiftr z 24 mod 256; Z.shiftr z 16 mod 256; Z.shiftr z 8 mod 256; z mod 256].
Definition from_be_bytes (s : string) : Z :=
  fold_left (fun acc c => acc * 256 + byte_val c) (list_ascii_of_string s) 0.

Definition write_len_prefixed_frame (frame : string) : state_result S BroadwebdError unit :=
  if u32_max <? str_len frame
  then sr_err (Broadwebd.Request
    ("service frame is too large for length-prefixed transport: " +:+ show (str_len frame)
     +:+ " bytes"))
  else
    do* sr_map_err Io (write_all (to_be_bytes (str_len frame))) in
    do* sr_map_err Io (write_all frame) in
    sr_map_err Io (io_flush stream).

Definition read_len_prefixed_frame (max_frame_bytes : Z) : state_result S BroadwebdError string :=
  let* len_bytes := sr_map_err Io (read_exact 4) in
  let frame_len := from_be_bytes len_bytes in
  if max_frame_bytes <? frame_len then sr_err (FrameTooLarge max_frame_bytes frame_len)
  else sr_map_err Io (read_exact (Z.to_nat frame_len)).

Section Messages.
Context `{FrameJson} (codec : ServiceFrameCodec).

Definition write_request (request : Request) : state_result S BroadwebdError unit :=
  let* frame := sr_lift (encode_request codec request) in write_len_prefixed_frame frame.
Definition read_request : state_result S BroadwebdError Request :=
  let* frame := read_len_prefixed_frame (max_frame_bytes codec) in
  sr_lift (decode_request codec frame).
Definition write_response (response : Response) : state_result S BroadwebdError unit :=
  let* frame := sr_lift (encode_response codec response) in write_len_prefixed_frame frame.
Definition read_response : state_result S BroadwebdError Response :=
  let* frame := read_len_prefixed_frame (max_frame_bytes codec) in
  sr_lift (decode_response codec frame).

Definition dispatch_service_frame_request_over_stream (request : Request) :
    state_result S BroadwebdError Response :=
  do* write_request request in read_response.
End Messages.
End Streams.

(** [Cursor<&[u8]>] as a reader, and [Vec<u8>] as a writer: the bytes that are left, and the
    bytes so far. *)
Definition cursor_reader : IoStream string := {|
  io_read n := fun rest => (str_drop n rest, Ok (str_take n rest));
  io_write _ := sr_err "a cursor over a slice is full";
  io_flush := sr_ret tt
|}.
Definition vec_writer : IoStream string := {|
  io_read _ := sr_err "a vector is not read";
  io_write buffer := fun bytes => (bytes +:+ buffer, Ok (String.length buffer));
  io_flush := sr_ret tt
|}.

(** [serve_one_service_frame_request_over_stream]: the stream's state holds the world of the
    handler. *)
Definition serve_one_service_frame_request_over_stream {W S} `{FrameJson}
    (codec : ServiceFrameCodec) (handler : Client W) (stream : IoStream (W * S)) :
    state_result (W * S) BroadwebdError unit :=
  let* request := read_request stream codec in
  let* response := fun s =>
    let '(w, r) := cl_dispatch_service_request handler request s.1 in ((w, s.2), r) in
  write_response stream codec response.

(** ** The in-process stream *)

(** [InProcessServiceFrameStream] and, with another message, its owned variant. *)
Record InProcessServiceFrameStream (W : Type) := {
  fs_handler : Client W;
  fs_codec : ServiceFrameCodec;
  fs_request_bytes : string;
  fs_response_bytes : string;          (** what the cursor has left *)
  fs_response_ready : bool;
  fs_busy : string
}.
Arguments fs_handler {W}. Arguments fs_codec {W}. Arguments fs_request_bytes {W}.
Arguments fs_response_bytes {W}. Arguments fs_response_ready {W}. Arguments fs_busy {W}.

Section InProcess.
Context {W : Type} `{FrameJson}.

Definition new_stream (busy : string) (handler : Client W) (codec : ServiceFrameCodec) :
    InProcessServiceFrameStream W :=
  {| fs_handler := handler; fs_codec := codec; fs_request_bytes := ""; fs_response_bytes := "";
     fs_response_ready := false; fs_busy := busy |}.
Definition in_process_stream : Client W -> ServiceFrameCodec -> InProcessServiceFrameStream W :=
  new_stream "in-process service-frame stream is one request per connection".
Definition owned_in_process_stream :
    Client W -> ServiceFrameCodec -> InProcessServiceFrameStream W :=
  new_stream "owned in-process service-frame stream is one request per connection".

Definition set_response (ready : bool) (request_bytes response_bytes : string)
    (s : InProcessServiceFrameStream W) : InProcessServiceFrameStream W :=
  {| fs_handler := fs_handler s; fs_codec := fs_codec s; fs_request_bytes := request_bytes;
     fs_response_bytes := response_bytes; fs_response_ready := ready; fs_busy := fs_busy s |}.

Definition stream_op (A : Type) : Type :=
  state_result (W * InProcessServiceFrameStream W) string A.

Definition prepare_response : stream_op unit := fun '(w, s) =>
  if fs_response_ready s then ((w, s), Ok tt)
  else
    match (read_request cursor_reader (fs_codec s) (fs_request_bytes s)).2 with
    | Err e => ((w, s), Err (show_broadwebd_error e))
    | Ok request =>
        match cl_dispatch_service_request (fs_handler s) request w with
        | (w, Err e) => ((w, s), Err (show_broadwebd_error e))
        | (w, Ok response) =>
            match write_response vec_writer (fs_codec s) response "" with
            | (_, Err e) => ((w, s), Err (show_broadwebd_error e))
            | (response_bytes, Ok _) =>
                ((w, set_response true (fs_request_bytes s) response_bytes s), Ok tt)
            end
        end
    end.

Definition in_process_io : IoStream (W * InProcessServiceFrameStream W) := {|
  io_read n :=
    do* prepare_response in
    fun '(w, s) =>
      ((w, set_response (fs_response_ready s) (fs_request_bytes s)
             (str_drop n (fs_response_bytes s)) s),
       Ok (str_take n (fs_response_bytes s)));
  io_write buffer := fun '(w, s) =>
    if fs_response_ready s then ((w, s), Err (fs_busy s))
    else ((w, set_response false (fs_request_bytes s +:+ buffer) (fs_response_bytes s) s),
          Ok (String.length buffer));
  io_flush := prepare_response
|}.
End InProcess.

(** ** Endpoints *)

Inductive ServiceFrameConnectorKind := Tcp | Libp2p | Iroh | Ipns | Dnsaddr.
#[export] Instance ServiceFrameConnectorKind_eq_dec : EqDecision ServiceFrameConnectorKind.
Proof. solve_decision. Defined.

Definition connector_kind_as_str (kind : ServiceFrameConnectorKind) : string :=
  match kind with
  | Tcp => "tcp" | Libp2p => "libp2p" | Iroh => "iroh" | Ipns => "ipns" | Dnsaddr => "dnsaddr"
  end.
Definition is_deferred (kind : ServiceFrameConnectorKind) : bool := negb (bool_decide (kind = Tcp)).

Definition validate_deferred_service_frame_endpoint_target (protocol target : string) :
    result BroadwebdError unit :=
  if negb (is_empty target) && (str_len target <=? 512) && all_bytes multiaddr_segment_byte target
  then Ok tt
  else Err (Broadwebd.Request ("invalid service-frame " +:+ protocol +:+ " endpoint target: "
                               +:+ debug_str target)).

(** [Display] of [AddrParseError]. *)
Definition parse_ip (s : string) : result string IpAddr :=
  ok_or (parse_ip_addr s) "invalid IP address syntax".

Definition multiaddr_ip (network host : string) (endpoint : string) :
    result BroadwebdError IpAddr :=
  let read (name family : string) (accepts : IpAddr -> bool) : result BroadwebdError IpAddr :=
    let? ip := map_err (fun error => Broadwebd.Request
                 ("invalid service-frame TCP /" +:+ name +:+ " endpoint " +:+ endpoint +:+ ": "
                  +:+ error)) (parse_ip host) in
    if accepts ip then Ok ip
    else Err (Broadwebd.Request ("service-frame TCP /" +:+ name +:+ " endpoint contains non-"
                                 +:+ family +:+ " address: " +:+ endpoint)) in
  if str_eqb network "ip4" then read "ip4" "IPv4" is_ipv4
  else if str_eqb network "ip6" then read "ip6" "IPv6" is_ipv6
  else Err (UnsupportedRequest
    ("service-frame TCP connector requires literal /ip4 or /ip6 multiaddr endpoint: "
     +:+ endpoint)).

Definition socket_addr_new (ip : IpAddr) (port : Z) : SocketAddr :=
  {| sa_ip := ip; sa_port := port; sa_scope_id := 0 |}.

Definition service_frame_tcp_socket_addr_from_multiaddr (endpoint : Multiaddr) :
    result BroadwebdError SocketAddr :=
  match segments endpoint with
  | [network; host; transport; port] =>
      if negb (str_eqb transport "tcp")
      then Err (UnsupportedRequest
             ("service-frame TCP connector cannot open non-TCP multiaddr endpoint "
              +:+ as_str endpoint))
      else
        let? ip := multiaddr_ip network host (as_str endpoint) in
        let? port := map_err (fun error => Broadwebd.Request
                       ("invalid service-frame TCP port in multiaddr endpoint "
                        +:+ as_str endpoint +:+ ": " +:+ error)) (parse_u16 port) in
        Ok (socket_addr_new ip port)
  | _ => Err (UnsupportedRequest
           ("service-frame TCP connector cannot open multiaddr endpoint " +:+ as_str endpoint
            +:+ "; use a connector for its transport stack"))
  end.

Definition service_frame_connector_kind_for_multiaddr (endpoint : Multiaddr) :
    result BroadwebdError ServiceFrameConnectorKind :=
  let l := segments endpoint in
  let starts names := match l with
                      | first :: _ :: _ => existsb (str_eqb first) names
                      | _ => false
                      end in
  if is_ok (service_frame_tcp_socket_addr_from_multiaddr endpoint) then Ok Tcp
  else if starts ["ipns"] then Ok Ipns
  else if existsb (fun segment => str_eqb segment "p2p") l then Ok Libp2p
  else if starts ["dnsaddr"] then Ok Dnsaddr
  else if starts ["iroh"; "iroh-node"] then Ok Iroh
  else Err (UnsupportedRequest ("service-frame endpoint " +:+ as_str endpoint
                                +:+ " needs an explicit protocol connector")).

Definition service_frame_connector_kind_for_endpoint (endpoint : string) :
    result BroadwebdError ServiceFrameConnectorKind :=
  let endpoint := trim endpoint in
  if is_empty endpoint then Err (Broadwebd.Request "service-frame endpoint is empty")
  else if bool_decide (is_Some (parse_socket_addr endpoint)) then Ok Tcp
  else
    match strip_prefix "iroh-node:" endpoint with
    | Some target =>
        let? _ := validate_deferred_service_frame_endpoint_target "iroh-node" target in Ok Iroh
    | None =>
        match strip_prefix "ipns:" endpoint with
        | Some target =>
            let? _ := validate_deferred_service_frame_endpoint_target "ipns" target in Ok Ipns
        | None =>
            let? multiaddr := map_err (fun error => Broadwebd.Request
              ("service-frame endpoint must be a literal socket address, deferred protocol endpoint, or multiaddr: "
               +:+ show_multiaddr_error error)) (multiaddr_parse endpoint) in
            service_frame_connector_kind_for_multiaddr multiaddr
        end
    end.

Definition service_frame_tcp_socket_addr_from_endpoint (endpoint : string) :
    result BroadwebdError SocketAddr :=
  match parse_socket_addr endpoint with
  | Some socket_addr => Ok socket_addr
  | None =>
      let? multiaddr := map_err (fun error => Broadwebd.Request
        ("service-frame TCP endpoint must be a literal socket address or /ip4|/ip6/.../tcp/... multiaddr: "
         +:+ show_multiaddr_error error)) (multiaddr_parse endpoint) in
      service_frame_tcp_socket_addr_from_multiaddr multiaddr
  end.

Definition service_frame_tcp_multiaddr_from_socket_addr (a : SocketAddr) : string :=
  (if is_ipv4 (sa_ip a) then "/ip4/" else "/ip6/") +:+ show_ip_addr (sa_ip a) +:+ "/tcp/"
  +:+ show (sa_port a).

(** The address a peer is reached at, when it announced [endpoint] from [source_addr]. *)
Definition service_frame_tcp_endpoint_for_source (endpoint : string) (source_addr : SocketAddr) :
    result BroadwebdError string :=
  let? socket_addr := service_frame_tcp_socket_addr_from_endpoint endpoint in
  let ip := if is_unspecified (sa_ip socket_addr) then sa_ip source_addr
            else sa_ip socket_addr in
  let socket_addr := socket_addr_new ip (sa_port socket_addr) in
  Ok (if starts_with "/" (trim_start endpoint)
      then service_frame_tcp_multiaddr_from_socket_addr socket_addr
      else show_socket_addr socket_addr).

(** ** Connectors *)

(** [ServiceFrameConnector]: a connection is a stream over the world it was made in. *)
Record ServiceFrameConnector (W S : Type) := {
  cn_stream : IoStream (W * S);
  cn_connect : ServiceFrameCodec -> state_result W BroadwebdError S
}.
Arguments cn_stream {W S}. Arguments cn_connect {W S}.

Definition dispatch_service_frame_request_with_connector {W S} `{FrameJson}
    (codec : ServiceFrameCodec) (connector : ServiceFrameConnector W S) (request : Request) :
    state_result W BroadwebdError Response := fun w =>
  match cn_connect connector codec w with
  | (w, Err e) => (w, Err e)
  | (w, Ok s) =>
      let '((w, _), r) :=
        dispatch_service_frame_request_over_stream (cn_stream connector) codec request (w, s) in
      (w, r)
  end.

Section Connectors.
Context {W : Type} `{FrameJson}.

Record DeferredServiceFrameConnector := {
  df_endpoint : string;
  df_kind : ServiceFrameConnectorKind
}.
Definition deferred_connector_new (endpoint : string) :
    result BroadwebdError DeferredServiceFrameConnector :=
  let? kind := service_frame_connector_kind_for_endpoint endpoint in
  if negb (is_deferred kind)
  then Err (UnsupportedRequest
    ("deferred service-frame connector cannot be created for TCP endpoint " +:+ endpoint))
  else Ok {| df_endpoint := endpoint; df_kind := kind |}.
Definition deferred_connect_error (c : DeferredServiceFrameConnector) : BroadwebdError :=
  UnsupportedRequest
    ("service-frame " +:+ connector_kind_as_str (df_kind c)
     +:+ " connector is not implemented yet for endpoint " +:+ df_endpoint c
     +:+ "; enable a protocol-specific connector before using this endpoint").

(** [InProcessServiceFrameConnector]. *)
Definition in_process_connector (handler : Client W) :
    ServiceFrameConnector W (InProcessServiceFrameStream W) :=
  {| cn_stream := in_process_io; cn_connect codec := sr_ret (in_process_stream handler codec) |}.

(** [InProcessServiceFrameEndpoint] and its registry; [InProcessServiceFrameEndpointTransport]
    has the same entries, with owned handlers. *)
Record InProcessServiceFrameEndpoint := {
  ep_handler : Client W;
  ep_kind : ServiceFrameConnectorKind
}.
Definition EndpointRegistry : Type := gmap string InProcessServiceFrameEndpoint.

(** What differs in the messages of the two. *)
Record RegistryLabels := { lb_name : string; lb_entry : string }.
Definition registry_labels : RegistryLabels :=
  {| lb_name := "registry"; lb_entry := "endpoint" |}.
Definition transport_labels : RegistryLabels :=
  {| lb_name := "transport"; lb_entry := "transport endpoint" |}.

Definition register_endpoint (labels : RegistryLabels) (endpoint : string) (handler : Client W)
    (r : EndpointRegistry) : result BroadwebdError EndpointRegistry :=
  let? kind := service_frame_connector_kind_for_endpoint endpoint in
  if negb (is_deferred kind)
  then Err (UnsupportedRequest
    ("in-process service-frame endpoint " +:+ lb_name labels
     +:+ " does not model TCP endpoint " +:+ endpoint +:+ "; use TcpServiceFrameConnector for TCP"))
  else if bool_decide (is_Some (r !! endpoint))
  then Err (Broadwebd.Request ("in-process service-frame " +:+ lb_entry labels
                               +:+ " is already registered: " +:+ endpoint))
  else Ok (<[endpoint := {| ep_handler := handler; ep_kind := kind |}]> r).

Definition contains_endpoint (r : EndpointRegistry) (endpoint : string) : bool :=
  bool_decide (is_Some (r !! endpoint)).

Definition lookup_endpoint (labels : RegistryLabels) (r : EndpointRegistry) (endpoint : string) :
    result BroadwebdError InProcessServiceFrameEndpoint :=
  let? kind := service_frame_connector_kind_for_endpoint endpoint in
  if negb (is_deferred kind)
  then Err (UnsupportedRequest
    ("in-process service-frame endpoint " +:+ lb_name labels
     +:+ " cannot connect TCP endpoint " +:+ endpoint
     +:+ "; use TcpServiceFrameConnector for TCP"))
  else ok_or (r !! endpoint)
         (UnsupportedRequest ("unregistered in-process service-frame " +:+ lb_entry labels
                              +:+ ": " +:+ endpoint)).

(** [ServiceFrameEndpointTransport]: it opens owned in-process streams, as the transport of
    the repository does. *)
Record ServiceFrameEndpointTransport := {
  supports_endpoint : string -> ServiceFrameConnectorKind -> bool;
  connect_endpoint : string -> ServiceFrameCodec ->
    result BroadwebdError (InProcessServiceFrameStream W)
}.
Definition in_process_transport (r : EndpointRegistry) : ServiceFrameEndpointTransport := {|
  supports_endpoint endpoint kind :=
    match r !! endpoint with Some entry => bool_decide (ep_kind entry = kind) | None => false end;
  connect_endpoint endpoint codec :=
    let? entry := lookup_endpoint transport_labels r endpoint in
    Ok (owned_in_process_stream (ep_handler entry) codec)
|}.

(** ** The connector of an endpoint *)

Inductive ServiceFrameEndpointConnector :=
  | ConnectTcp (address : string)
  | ConnectDeferred (connector : DeferredServiceFrameConnector)
  | ConnectInProcess (registry : EndpointRegistry) (endpoint : string)
  | ConnectTransport (endpoint : string) (kind : ServiceFrameConnectorKind)
      (transport : ServiceFrameEndpointTransport).

Record ServiceFrameEndpointConnectorFactory := {
  fc_registry : option EndpointRegistry;
  fc_transports : list ServiceFrameEndpointTransport
}.

Definition factory_connector (f : ServiceFrameEndpointConnectorFactory) (endpoint : string) :
    result BroadwebdError ServiceFrameEndpointConnector :=
  let? kind := service_frame_connector_kind_for_endpoint endpoint in
  if bool_decide (kind = Tcp) then Ok (ConnectTcp endpoint)
  else
    let registered := match fc_registry f with
                      | Some registry =>
                          if contains_endpoint registry endpoint then Some registry else None
                      | None => None
                      end in
    match registered with
    | Some registry =>
        let? _ := lookup_endpoint registry_labels registry endpoint in
        Ok (ConnectInProcess registry endpoint)
    | None =>
        match list_find_bool (fun t => supports_endpoint t endpoint kind) (fc_transports f) with
        | Some transport => Ok (ConnectTransport endpoint kind transport)
        | None => let? connector := deferred_connector_new endpoint in
                  Ok (ConnectDeferred connector)
        end
    end.

Definition connector_endpoint (c : ServiceFrameEndpointConnector) : string :=
  match c with
  | ConnectTcp address => address
  | ConnectDeferred connector => df_endpoint connector
  | ConnectInProcess _ endpoint => endpoint
  | ConnectTransport endpoint _ _ => endpoint
  end.
Definition connector_kind (c : ServiceFrameEndpointConnector) :
    result BroadwebdError ServiceFrameConnectorKind :=
  match c with
  | ConnectTcp _ => Ok Tcp
  | ConnectDeferred connector => Ok (df_kind connector)
  | ConnectInProcess registry endpoint =>
      result_map ep_kind (lookup_endpoint registry_labels registry endpoint)
  | ConnectTransport _ kind _ => Ok kind
  end.

(** TCP sockets [T]: [connect_timeout] with both time limits set, and the stream. *)
Record TcpNetwork (T : Type) := {
  tcp_connect : SocketAddr -> state_result W string T;
  tcp_io : IoStream (W * T)
}.
Arguments tcp_connect {T}. Arguments tcp_io {T}.

Context {T : Type} (tcp : TcpNetwork T).

Definition tcp_connector (address : string) : ServiceFrameConnector W T := {|
  cn_stream := tcp_io tcp;
  cn_connect _ :=
    let* address := sr_lift (service_frame_tcp_socket_addr_from_endpoint address) in
    sr_map_err Io (tcp_connect tcp address)
|}.

(** [ServiceFrameEndpointStream]: the deferred variant is never opened. *)
Definition EndpointStream : Type := T + InProcessServiceFrameStream W.

Definition on_endpoint_stream {A} (left_op : state_result (W * T) string A)
    (right_op : state_result (W * InProcessServiceFrameStream W) string A) :
    state_result (W * EndpointStream) string A := fun '(w, s) =>
  match s with
  | inl t => let '((w, t), r) := left_op (w, t) in ((w, inl t), r)
  | inr p => let '((w, p), r) := right_op (w, p) in ((w, inr p), r)
  end.

Definition endpoint_io : IoStream (W * EndpointStream) := {|
  io_read n := on_endpoint_stream (io_read (tcp_io tcp) n) (io_read in_process_io n);
  io_write buffer :=
    on_endpoint_stream (io_write (tcp_io tcp) buffer) (io_write in_process_io buffer);
  io_flush := on_endpoint_stream (io_flush (tcp_io tcp)) (io_flush in_process_io)
|}.

Definition endpoint_connector (c : ServiceFrameEndpointConnector) :
    ServiceFrameConnector W EndpointStream := {|
  cn_stream := endpoint_io;
  cn_connect codec :=
    match c with
    | ConnectTcp address =>
        let* t := cn_connect (tcp_connector address) codec in sr_ret (inl t)
    | ConnectDeferred connector => sr_err (deferred_connect_error connector)
    | ConnectInProcess registry endpoint =>
        let* entry := sr_lift (lookup_endpoint registry_labels registry endpoint) in
        sr_ret (inr (in_process_stream (ep_handler entry) codec))
    | ConnectTransport endpoint _ transport =>
        let* s := sr_lift (connect_endpoint transport endpoint codec) in sr_ret (inr s)
    end
|}.

(** ** Clients *)

Definition service_frame_client (inner : Client W) (codec : ServiceFrameCodec) : Client W := {|
  cl_health := cl_health inner;
  cl_status_snapshot := cl_status_snapshot inner;
  cl_dispatch_service_request :=
    dispatch_service_frame_request_with_connector codec (in_process_connector inner);
  cl_temporary_downloads := cl_temporary_downloads inner;
  cl_downloads := cl_downloads inner
|}.

Definition connector_client_health : DaemonHealth :=
  {| dh_lifecycle := LifecycleReady; dh_plugins := [] |}.

Definition connector_service_frame_client {S} (connector : ServiceFrameConnector W S)
    (codec : ServiceFrameCodec) : Client W := {|
  cl_health _ := connector_client_health;
  cl_status_snapshot _ := status_idle;
  cl_dispatch_service_request := dispatch_service_frame_request_with_connector codec connector;
  cl_temporary_downloads _ := sr_err (UnsupportedRequest
    "temporary download listing is not exposed through service-frame connectors yet");
  cl_downloads _ := sr_err (UnsupportedRequest
    "download listing is not exposed through service-frame connectors yet")
|}.

Definition tcp_service_frame_client (address : string) (codec : ServiceFrameCodec) : Client W := {|
  cl_health _ := connector_client_health;
  cl_status_snapshot _ := status_idle;
  cl_dispatch_service_request :=
    dispatch_service_frame_request_with_connector codec (tcp_connector address);
  cl_temporary_downloads _ := sr_err (UnsupportedRequest
    "temporary download listing is not exposed through TCP service frames yet");
  cl_downloads _ := sr_err (UnsupportedRequest
    "download listing is not exposed through TCP service frames yet")
|}.
End Connectors.
