(* ===== verification/ServiceFrameLaws.v ===== *)
(** * Frames carry requests and responses

    A frame is read back from a stream however the stream cuts it into reads and writes; the
    in-process client dispatches a request to its handler exactly once and answers what the
    handler answers; a connection reaches the handler the same way; an announced TCP endpoint
    is one that can be connected to; endpoints without a connector fail closed. *)
From S2P Require Import Prelude RustStr Broadwebd Routing SocketText Http Downloads StrLaws.
From S2P Require Import Daemon ServiceFrames.

(** What the theorems rely on of [serde_json]: what it writes it reads. *)
Class FrameJsonLaws `{FrameJson} : Prop := {
  request_round_trip request pieces :
    request_pieces request = (pieces, None) ->
    request_from_slice (String.concat "" pieces) = Ok request;
  response_round_trip response pieces :
    response_pieces response = (pieces, None) ->
    response_from_slice (String.concat "" pieces) = Ok response
}.

(** A [usize] that leaves room for one more byte. *)
Definition codec_ok (codec : ServiceFrameCodec) : Prop := 0 <= max_frame_bytes codec < u64_max.

(** ** Bytes *)

Lemma byte_val_of z : 0 <= z < 256 -> byte_val (byte_of z) = z.
Proof.
  intros Hz. unfold byte_val, byte_of. rewrite N_ascii_embedding by lia. lia.
Qed.

Lemma be_bytes_round_trip z : 0 <= z <= u32_max -> from_be_bytes (to_be_bytes z) = z.
Proof.
  unfold u32_max. intros Hz. unfold from_be_bytes, to_be_bytes, bytes_str.
  cbn [map string_of_list_ascii list_ascii_of_string fold_left].
  rewrite !byte_val_of by (apply Z.mod_pos_bound; lia).
  rewrite !Z.shiftr_div_pow2 by lia.
  change (2 ^ 24) with 16777216. change (2 ^ 16) with 65536. change (2 ^ 8) with 256.
  pose proof (Z.div_mod z 256). pose proof (Z.div_mod (z / 256) 256).
  pose proof (Z.div_mod (z / 65536) 256).
  replace (z / 65536) with (z / 256 / 256) in * by (rewrite Z.div_div by lia; done).
  replace (z / 16777216) with (z / 256 / 256 / 256)
    by (rewrite !Z.div_div by lia; done).
  rewrite (Z.mod_small (z / 256 / 256 / 256)).
  - lia.
  - split; [apply Z.div_pos; [apply Z.div_pos; [apply Z.div_pos|]|]; lia|].
    rewrite !Z.div_div by lia. apply Z.div_lt_upper_bound; lia.
Qed.

Lemma to_be_bytes_length z : String.length (to_be_bytes z) = 4%nat.
Proof. done. Qed.

(** ** Encoding *)

Lemma bounded_write_ok limit bytes pieces out :
  limit < u64_max -> str_len bytes <= limit ->
  bounded_write limit bytes pieces = inl out ->
  out = bytes +:+ String.concat "" pieces /\ str_len out <= limit.
Proof.
  intros Hlimit. revert bytes. induction pieces as [|piece pieces IH]; intros bytes Hb;
    cbn [bounded_write].
  { intros [= <-]. split; [|done]. cbn. by rewrite str_app_nil_r. }
  rewrite str_concat_cons. destruct (is_empty piece) eqn:E.
  { apply is_empty_spec in E as ->. intros Hw. exact (IH bytes Hb Hw). }
  destruct (Z.ltb_spec limit (saturating_add_u64 (str_len bytes) (str_len piece)))
    as [|Hle]; [done|]. unfold saturating_add_u64 in Hle. intros Hw.
  apply IH in Hw as [-> Hlen]; [|rewrite str_len_app; lia]. by rewrite str_app_assoc in *.
Qed.

Lemma encode_json_frame_ok value limit label frame :
  0 <= limit < u64_max -> encode_json_frame value limit label = Ok frame ->
  value = (value.1, None) /\ frame = String.concat "" value.1 /\ str_len frame <= limit.
Proof.
  intros Hlimit. unfold encode_json_frame.
  destruct (bounded_write limit "" value.1) as [bytes|actual] eqn:E; [|done].
  apply bounded_write_ok in E as [-> Hlen]; [|lia|unfold str_len; cbn; lia].
  destruct value as [pieces [error|]]; [done|]. intros [= <-]. by split_and!.
Qed.

Lemma encode_json_frame_bound value limit label frame :
  0 <= limit < u64_max -> encode_json_frame value limit label = Ok frame ->
  str_len frame <= limit.
Proof. by intros Hl (_ & _ & Hlen)%encode_json_frame_ok. Qed.

Section RoundTrip.
Context `{FrameJsonLaws} (codec : ServiceFrameCodec) (Hcodec : codec_ok codec).

Lemma decode_encode_request request frame :
  encode_request codec request = Ok frame -> decode_request codec frame = Ok request.
Proof.
  unfold encode_request, decode_request, decode_json_frame.
  intros (Hp & -> & Hlen)%encode_json_frame_ok; [|exact Hcodec].
  destruct (Z.ltb_spec (max_frame_bytes codec) (str_len (String.concat "" (request_pieces request).1)));
    [lia|]. by rewrite (request_round_trip request _ Hp).
Qed.

Lemma decode_encode_response response frame :
  encode_response codec response = Ok frame -> decode_response codec frame = Ok response.
Proof.
  unfold encode_response, decode_response, decode_json_frame.
  intros (Hp & -> & Hlen)%encode_json_frame_ok; [|exact Hcodec].
  destruct (Z.ltb_spec (max_frame_bytes codec) (str_len (String.concat "" (response_pieces response).1)));
    [lia|]. by rewrite (response_round_trip response _ Hp).
Qed.
End RoundTrip.

(** ** Streams in any pieces *)

(** [holds bytes s]: the stream in state [s] still has [bytes] to read, in whatever pieces;
    [took bytes s]: it has taken [bytes], in whatever pieces. *)
Definition readable {S} (stream : IoStream S) (holds : string -> S -> Prop) : Prop :=
  forall bytes s n, holds bytes s -> (0 < n)%nat -> bytes <> "" ->
    exists chunk rest s', io_read stream n s = (s', Ok chunk) /\ bytes = chunk +:+ rest /\
      chunk <> "" /\ (String.length chunk <= n)%nat /\ holds rest s'.
Definition writable {S} (stream : IoStream S) (took : string -> S -> Prop) : Prop :=
  forall bytes s buffer, took bytes s -> buffer <> "" ->
    exists n s', io_write stream buffer s = (s', Ok n) /\
      (0 < n <= String.length buffer)%nat /\ took (bytes +:+ str_take n buffer) s'.

Section AnyPieces.
Context {S : Type} (stream : IoStream S) (holds took : string -> S -> Prop).
Context (Hread : readable stream holds) (Hwrite : writable stream took).

Lemma read_exact_holds a b s :
  holds (a +:+ b) s ->
  exists s', read_exact stream (String.length a) s = (s', Ok a) /\ holds b s'.
Proof.
  intros Hs. unfold read_exact. change a with ("" +:+ a) at 3. generalize "" as filled.
  assert (String.length a <= String.length a)%nat as Hfuel by lia. revert Hfuel.
  generalize (String.length a) at 2 3 as fuel. intros fuel. revert a s Hs.
  induction fuel as [|fuel IH]; intros a s Hs Hfuel filled.
  { destruct a as [|c a]; cbn in Hfuel; [|lia]. exists s. split; [|exact Hs].
    cbn. by rewrite str_app_nil_r. }
  destruct a as [|c a].
  { exists s. split; [|exact Hs]. cbn. by rewrite str_app_nil_r. }
  set (t := String c a) in *.
  assert (t <> "") as Hne by done. assert (t +:+ b <> "") as Hne' by done.
  assert (0 < String.length t)%nat as Hpos by (cbn; lia).
  destruct (Hread _ s (String.length t) Hs Hpos Hne') as (chunk & rest & s' & Er & Eb & Hc & Hlen & Hs').
  destruct (str_app_prefix t b chunk rest Eb Hlen) as (t' & -> & ->).
  assert (read_exact_fuel stream (Datatypes.S fuel) (String.length (chunk +:+ t')) filled s
          = read_exact_fuel stream fuel (String.length t') (filled +:+ chunk) s') as ->.
  { rewrite str_length_app in *. destruct chunk as [|c' chunk]; [done|].
    cbn [String.length Nat.add read_exact_fuel]. unfold sr_bind at 1.
    cbn [String.length Nat.add] in Er. rewrite Er. cbn [is_empty].
    f_equal. cbn [String.length]. lia. }
  destruct (IH t' s' Hs') with (filled := filled +:+ chunk) as (s2 & E2 & H2).
  { rewrite str_length_app in Hfuel. destruct chunk; [done|]. cbn in Hfuel. lia. }
  exists s2. split; [|exact H2]. by rewrite E2, str_app_assoc.
Qed.

Lemma write_all_took bytes buffer s :
  took bytes s ->
  exists s', write_all stream buffer s = (s', Ok tt) /\ took (bytes +:+ buffer) s'.
Proof.
  unfold write_all. assert (String.length buffer <= String.length buffer)%nat as Hfuel by lia.
  revert Hfuel. generalize (String.length buffer) at 2 3 as fuel. intros fuel.
  revert bytes buffer s. induction fuel as [|fuel IH]; intros bytes buffer s Hfuel Hs.
  { destruct buffer as [|c buffer]; cbn in Hfuel; [|lia]. exists s. by rewrite str_app_nil_r. }
  destruct buffer as [|c buffer]; [exists s; by rewrite str_app_nil_r|].
  destruct (Hwrite bytes s (String c buffer) Hs) as (n & s1 & Ew & Hn & Hs1); [done|].
  destruct (IH (bytes +:+ str_take n (String c buffer)) (str_drop n (String c buffer)) s1)
    as (s2 & E2 & Hs2); [|exact Hs1|].
  { pose proof (f_equal String.length (str_take_drop n (String c buffer))) as Hlen.
    rewrite str_length_app, str_take_length in Hlen by lia. lia. }
  exists s2. split.
  - cbn [write_all_fuel]. unfold sr_bind. rewrite Ew.
    destruct (Nat.eqb_spec n 0); [lia|]. exact E2.
  - by rewrite str_app_assoc, <-str_take_drop in Hs2.
Qed.

(** A length prefix and the frame. *)
Definition framed (frame : string) : string := to_be_bytes (str_len frame) +:+ frame.

Lemma read_frame_holds limit frame rest s :
  str_len frame <= limit -> str_len frame <= u32_max -> holds (framed frame +:+ rest) s ->
  exists s', read_len_prefixed_frame stream limit s = (s', Ok frame) /\ holds rest s'.
Proof.
  intros Hlimit Hmax Hs. unfold framed in Hs. rewrite str_app_assoc in Hs.
  apply read_exact_holds in Hs as (s1 & E1 & Hs1). rewrite to_be_bytes_length in E1.
  apply read_exact_holds in Hs1 as (s2 & E2 & Hs2).
  exists s2. split; [|exact Hs2].
  unfold read_len_prefixed_frame, sr_bind, sr_map_err. rewrite E1. cbn [map_err]. cbn iota beta zeta.
  rewrite be_bytes_round_trip by (split; [apply str_len_nonneg|exact Hmax]).
  destruct (Z.ltb_spec limit (str_len frame)); [lia|].
  replace (Z.to_nat (str_len frame)) with (String.length frame) by (unfold str_len; lia).
  by rewrite E2.
Qed.

Lemma write_frame_took bytes frame s :
  str_len frame <= u32_max -> took bytes s ->
  exists s', write_len_prefixed_frame stream frame s
             = (let '(s, r) := io_flush stream s' in (s, map_err Io r)) /\
    took (bytes +:+ framed frame) s'.
Proof.
  intros Hmax Hs. apply write_all_took with (buffer := to_be_bytes (str_len frame)) in Hs
    as (s1 & E1 & Hs1).
  apply write_all_took with (buffer := frame) in Hs1 as (s2 & E2 & Hs2).
  exists s2. split; [|by rewrite str_app_assoc in Hs2].
  unfold write_len_prefixed_frame. destruct (Z.ltb_spec u32_max (str_len frame)); [lia|].
  unfold sr_bind, sr_map_err. rewrite E1. cbn [map_err]. rewrite E2. cbn [map_err].
  by destruct (io_flush stream s2).
Qed.
End AnyPieces.

(** ** The streams of the program *)

Lemma cursor_readable : readable cursor_reader (fun bytes s => s = bytes).
Proof.
  intros bytes s n -> Hn Hne. exists (str_take n bytes), (str_drop n bytes), (str_drop n bytes).
  split; [done|]. split; [apply str_take_drop|]. split.
  - destruct bytes; [done|]. by destruct n; [lia|].
  - split; [|done]. clear. revert bytes. induction n as [|n IH]; intros [|c bytes]; cbn; try lia.
    specialize (IH bytes). lia.
Qed.

Lemma vec_writable : writable vec_writer (fun bytes s => s = bytes).
Proof.
  intros bytes s buffer -> Hne. exists (String.length buffer), (bytes +:+ buffer).
  split; [done|]. split; [destruct buffer; [done|cbn; lia]|].
  by rewrite str_take_all.
Qed.

Section InProcess.
Context {W : Type} `{FrameJson} (handler : Client W) (codec : ServiceFrameCodec).

(** The states of a stream before and after it is flushed, in a world. *)
Definition collecting (w : W) (bytes : string) (s : W * InProcessServiceFrameStream W) : Prop :=
  s.1 = w /\ fs_handler s.2 = handler /\ fs_codec s.2 = codec /\
  fs_request_bytes s.2 = bytes /\ fs_response_ready s.2 = false.
Definition answering (w : W) (bytes : string) (s : W * InProcessServiceFrameStream W) : Prop :=
  s.1 = w /\ fs_response_bytes s.2 = bytes /\ fs_response_ready s.2 = true.

Lemma in_process_writable w : writable in_process_io (collecting w).
Proof.
  intros bytes [w' s] buffer (Hw & Hh & Hc & Hb & Hready) Hne. cbn in *. subst w'.
  exists (String.length buffer).
  eexists. split; [cbn; by rewrite Hready|]. split; [destruct buffer; [done|cbn; lia]|].
  repeat split; cbn; try done. rewrite Hb.
  by rewrite str_take_all.
Qed.

Lemma in_process_readable w : readable in_process_io (answering w).
Proof.
  intros bytes [w' s] n (Hw & Hb & Hready) Hn Hne. cbn in *. subst w'.
  destruct (cursor_readable bytes bytes n eq_refl Hn Hne)
    as (chunk & rest & s' & [= <- <-] & Heq & Hc & Hlen & <-).
  exists (str_take n bytes), (str_drop n bytes). eexists. split.
  - unfold sr_bind, prepare_response. rewrite Hready. cbn. by rewrite Hb.
  - repeat split; cbn; done.
Qed.
End InProcess.

(** ** Dispatch *)

(** The frame that is sent, or why none is. *)
Definition frame_for (encoded : result BroadwebdError string) : result BroadwebdError string :=
  let? frame := encoded in
  if u32_max <? str_len frame
  then Err (Broadwebd.Request
    ("service frame is too large for length-prefixed transport: " +:+ show (str_len frame)
     +:+ " bytes"))
  else Ok frame.

Lemma frame_for_ok encoded frame :
  frame_for encoded = Ok frame -> encoded = Ok frame /\ str_len frame <= u32_max.
Proof.
  unfold frame_for. destruct encoded as [f|e]; [|done].
  destruct (Z.ltb_spec u32_max (str_len f)); [done|]. by intros [= ->].
Qed.

Lemma write_frame_err {S} (stream : IoStream S) encoded e s :
  frame_for encoded = Err e ->
  (let* frame := sr_lift encoded in write_len_prefixed_frame stream frame) s = (s, Err e).
Proof.
  unfold frame_for, sr_bind, sr_lift, write_len_prefixed_frame.
  destruct encoded as [frame|e']; [|congruence]. cbn.
  destruct (_ <? _); [|done]. by intros [= <-].
Qed.

Section Dispatch.
Context {W : Type} `{FrameJsonLaws} (codec : ServiceFrameCodec) (Hcodec : codec_ok codec).
Context (handler : Client W).

(** What a client of the handler sees through frames: the request reaches the handler once
    if it fits in a frame, and the errors of the handler, and of a response that does not fit,
    come back as the text of an I/O error. *)
Definition dispatch_spec (request : Request) : state_result W BroadwebdError Response := fun w =>
  match frame_for (encode_request codec request) with
  | Err e => (w, Err e)
  | Ok _ =>
      match cl_dispatch_service_request handler request w with
      | (w', Err e) => (w', Err (Io (show_broadwebd_error e)))
      | (w', Ok response) =>
          match frame_for (encode_response codec response) with
          | Err e => (w', Err (Io (show_broadwebd_error e)))
          | Ok _ => (w', Ok response)
          end
      end
  end.

Lemma write_request_took {S} (stream : IoStream S) took bytes request frame s :
  writable stream took -> frame_for (encode_request codec request) = Ok frame -> took bytes s ->
  exists s', write_request stream codec request s
             = (let '(s, r) := io_flush stream s' in (s, map_err Io r)) /\
    took (bytes +:+ framed frame) s'.
Proof.
  intros Hw (E & Hmax)%frame_for_ok Hs. unfold write_request, sr_bind, sr_lift. rewrite E.
  by apply write_frame_took.
Qed.

Lemma write_response_took {S} (stream : IoStream S) took bytes response frame s :
  writable stream took -> frame_for (encode_response codec response) = Ok frame ->
  took bytes s ->
  exists s', write_response stream codec response s
             = (let '(s, r) := io_flush stream s' in (s, map_err Io r)) /\
    took (bytes +:+ framed frame) s'.
Proof.
  intros Hw (E & Hmax)%frame_for_ok Hs. unfold write_response, sr_bind, sr_lift. rewrite E.
  by apply write_frame_took.
Qed.

Lemma read_request_holds {S} (stream : IoStream S) holds request frame rest s :
  readable stream holds -> frame_for (encode_request codec request) = Ok frame ->
  holds (framed frame +:+ rest) s ->
  exists s', read_request stream codec s = (s', Ok request) /\ holds rest s'.
Proof.
  intros Hr (E & Hmax)%frame_for_ok Hs.
  eapply read_frame_holds in Hs as (s' & Er & Hs'); [|done| |exact Hmax].
  2:{ apply encode_json_frame_bound in E; [exact E|exact Hcodec]. }
  exists s'. split; [|done]. unfold read_request, sr_bind, sr_lift. rewrite Er.
  by rewrite (decode_encode_request codec Hcodec _ _ E).
Qed.

Lemma read_response_holds {S} (stream : IoStream S) holds response frame rest s :
  readable stream holds -> frame_for (encode_response codec response) = Ok frame ->
  holds (framed frame +:+ rest) s ->
  exists s', read_response stream codec s = (s', Ok response) /\ holds rest s'.
Proof.
  intros Hr (E & Hmax)%frame_for_ok Hs.
  eapply read_frame_holds in Hs as (s' & Er & Hs'); [|done| |exact Hmax].
  2:{ apply encode_json_frame_bound in E; [exact E|exact Hcodec]. }
  exists s'. split; [|done]. unfold read_response, sr_bind, sr_lift. rewrite Er.
  by rewrite (decode_encode_response codec Hcodec _ _ E).
Qed.

Lemma prepare_response_spec w request frame s :
  frame_for (encode_request codec request) = Ok frame ->
  collecting handler codec w (framed frame) s ->
  match cl_dispatch_service_request handler request w with
  | (w', Err e) =>
      exists s', prepare_response s = (s', Err (show_broadwebd_error e)) /\ s'.1 = w'
  | (w', Ok response) =>
      match frame_for (encode_response codec response) with
      | Err e => exists s', prepare_response s = (s', Err (show_broadwebd_error e)) /\ s'.1 = w'
      | Ok answer =>
          exists s', prepare_response s = (s', Ok tt) /\ answering w' (framed answer) s'
      end
  end.
Proof.
  destruct s as [w0 s]. intros Hframe (Hw & Hh & Hc & Hb & Hready). cbn [fst snd] in *. subst w0.
  unfold prepare_response. rewrite Hready, Hc, Hb, Hh.
  destruct (read_request_holds cursor_reader _ request frame "" (framed frame)
              cursor_readable Hframe) as (rest & Er & _); [by rewrite str_app_nil_r|].
  rewrite Er. cbn [snd].
  destruct (cl_dispatch_service_request handler request w) as [w' [response|e]].
  2:{ eexists. by split; [reflexivity|]. }
  destruct (frame_for (encode_response codec response)) as [answer|e] eqn:E.
  - destruct (write_response_took vec_writer _ "" response answer "" vec_writable E eq_refl)
      as (out & Ew & Hout). rewrite Ew. cbn. eexists. split; [reflexivity|].
    by repeat split.
  - unfold write_response. rewrite (write_frame_err vec_writer _ _ _ E).
    eexists. by split; [reflexivity|].
Qed.

(** C18: The client through in-process frames implements [dispatch_spec]: whatever the handler
    does, it is called once with the request that was sent or not at all, and its response
    comes back unchanged. *)
Theorem service_frame_refines request w :
  cl_dispatch_service_request (service_frame_client handler codec) request w
  = dispatch_spec request w.
Proof.
  unfold service_frame_client, dispatch_service_frame_request_with_connector,
    in_process_connector, dispatch_service_frame_request_over_stream, dispatch_spec.
  cbn [cl_dispatch_service_request cn_connect cn_stream sr_ret].
  destruct (frame_for (encode_request codec request)) as [frame|e] eqn:Hframe.
  2:{ unfold sr_bind at 1, write_request. by rewrite (write_frame_err _ _ _ _ Hframe). }
  destruct (write_request_took in_process_io (collecting handler codec w) "" request frame
              (w, in_process_stream handler codec)) as (s & Ew & Hs);
    [apply in_process_writable|done|by repeat split|].
  unfold sr_bind at 1. rewrite Ew. cbn [io_flush in_process_io].
  apply (prepare_response_spec w request frame s Hframe) in Hs.
  destruct (cl_dispatch_service_request handler request w) as [w' [response|e]].
  2:{ destruct Hs as ([w1 s1] & -> & Hw). cbn in *. by rewrite Hw. }
  destruct (frame_for (encode_response codec response)) as [answer|e] eqn:E.
  2:{ destruct Hs as ([w1 s1] & -> & Hw). cbn in *. by rewrite Hw. }
  destruct Hs as (s1 & -> & Hs1). cbn [map_err].
  destruct (read_response_holds in_process_io (answering w') response answer "" s1)
    as ([w2 s2] & Er & (Hw2 & _)); [apply in_process_readable|done|by rewrite str_app_nil_r|].
  cbn in Hw2. by rewrite Er, Hw2.
Qed.

(** C28: Over a connection that delivers its bytes in any pieces: the request frame the client
    writes makes the server call the handler once with that request, and the frame the
    server writes makes the client answer the handler's response. *)
Theorem wire_dispatch {C S} (client : IoStream C) (server : IoStream (W * S))
    client_holds client_took (server_holds server_took : W -> string -> W * S -> Prop)
    request request_frame response response_frame w w' c s :
  readable client client_holds -> writable client client_took ->
  (forall w, readable server (server_holds w)) -> (forall w, writable server (server_took w)) ->
  (forall w bytes s, server_holds w bytes s -> s.1 = w) ->
  (forall w w' s, server_holds w "" s -> server_took w' "" (w', s.2)) ->
  frame_for (encode_request codec request) = Ok request_frame ->
  cl_dispatch_service_request handler request w = (w', Ok response) ->
  frame_for (encode_response codec response) = Ok response_frame ->
  client_took "" c -> server_holds w (framed request_frame) s ->
  (exists c', write_request client codec request c
              = (let '(c, r) := io_flush client c' in (c, map_err Io r)) /\
     client_took (framed request_frame) c') /\
  (exists s', serve_one_service_frame_request_over_stream codec handler server s
              = (let '(s, r) := io_flush server s' in (s, map_err Io r)) /\
     server_took w' (framed response_frame) s') /\
  (forall c, client_holds (framed response_frame) c ->
     exists c', read_response client codec c = (c', Ok response)).
Proof.
  intros Hcr Hcw Hsr Hsw Hworld Hturn Hreq Hcall Hresp Hc Hs. split_and!.
  - by eapply (write_request_took client client_took "").
  - destruct (read_request_holds server (server_holds w) request request_frame "" s)
      as (s1 & Er & Hs1); [done|done|by rewrite str_app_nil_r|].
    unfold serve_one_service_frame_request_over_stream, sr_bind at 1. rewrite Er.
    unfold sr_bind. rewrite (Hworld _ _ _ Hs1), Hcall.
    by apply (write_response_took server (server_took w') "" response response_frame); [|done|eauto].
  - intros c2 Hc2.
    destruct (read_response_holds client client_holds response response_frame "" c2)
      as (c3 & Er & _); [done|done|by rewrite str_app_nil_r|by exists c3].
Qed.
End Dispatch.

(** ** Announced TCP endpoints *)

Lemma pretty_N_go_length k n s :
  (n < 10 ^ N.of_nat k)%N -> (String.length (pretty_N_go n s) <= k + String.length s)%nat.
Proof.
  revert n s. induction k as [|k IH]; intros n s Hn.
  { assert (n = 0)%N as -> by (cbn in Hn; lia). by rewrite pretty_N_go_0. }
  destruct (decide (n = 0)%N) as [->|Hne]; [rewrite pretty_N_go_0; lia|].
  rewrite pretty_N_go_step by lia.
  eapply Nat.le_trans; [apply IH|cbn; lia].
  apply N.Div0.div_lt_upper_bound. rewrite Nat2N.inj_succ, N.pow_succ_r' in Hn. lia.
Qed.

Lemma show_length z : 0 <= z <= u16_max -> (String.length (show z) <= 5)%nat.
Proof.
  unfold u16_max. intros Hz. destruct z as [|p|p]; [cbn; lia| |lia].
  change (show (Z.pos p)) with (pretty_N_go (N.pos p) "").
  pose proof (pretty_N_go_length 5 (N.pos p) "") as Hl. cbn [String.length Nat.add] in Hl.
  apply Hl. change (10 ^ N.of_nat 5)%N with 100000%N. lia.
Qed.

(** The text of one part of an endpoint: short, and of the bytes of a segment. *)
Definition segment_text (n : nat) (s : string) : Prop :=
  (String.length s <= n)%nat /\ all_bytes multiaddr_segment_byte s = true.

Lemma segment_app a b m n :
  segment_text m a -> segment_text n b -> segment_text (m + n) (a +:+ b).
Proof.
  intros [Ha Ba] [Hb Bb]. split; [rewrite str_length_app; lia|]. by rewrite all_bytes_app, Ba.
Qed.

Lemma segment_weaken m n s : (m <= n)%nat -> segment_text m s -> segment_text n s.
Proof. intros Hmn [Hl Hb]. split; [lia|done]. Qed.

Lemma segment_show z : 0 <= z <= u16_max -> segment_text 5 (show z).
Proof.
  intros Hz. split; [by apply show_length|]. apply show_all_bytes; [lia|].
  intros d Hd. do 10 (destruct d as [|d]; [done|]). lia.
Qed.

Lemma segment_ipv4 a b c d : ip_ok (V4 a b c d) -> segment_text 23 (show_ipv4 a b c d).
Proof.
  intros (Ha & Hb & Hc & Hd). unfold show_ipv4.
  assert (forall z, octet z -> segment_text 5 (show z)) as Hshow.
  { intros z Hz. apply segment_show. unfold octet, u16_max in *. lia. }
  assert (segment_text 1 ".") as Hdot by done.
  change 23%nat with (5 + (1 + (5 + (1 + (5 + (1 + 5))))))%nat.
  repeat apply segment_app; auto.
Qed.

Lemma segment_hex g : group g -> segment_text 4 (hex_u16 g).
Proof.
  intros Hg. split.
  - unfold hex_u16. destruct (trim_hex 3 g) as (k & Hk & -> & _).
    { unfold group, u16_max in Hg. change (16 ^ Z.of_nat 4) with (2 ^ 16). lia. }
    assert (forall n, String.length (hex_digits n g) = n) as ->; [|lia].
    intros n. induction n as [|n IH]; [done|]. cbn. by rewrite IH.
  - pose proof (hex_u16_bytes g Hg) as Hb. revert Hb. generalize (hex_u16 g) as s.
    induction s as [|c s IH]; [done|]. cbn [all_bytes]. intros [Hc Hs]%andb_prop.
    rewrite (IH Hs), andb_true_r. revert Hc.
    unfold to_digit, multiaddr_segment_byte, is_ascii_alphanumeric.
    by destruct (is_ascii_digit c), (is_ascii_lowercase c), (is_ascii_uppercase c).
Qed.

Lemma segment_groups groups :
  Forall group groups -> segment_text (5 * length groups) (show_groups groups).
Proof.
  unfold show_groups. induction 1 as [|g groups Hg Hgroups IH]; [done|].
  destruct groups as [|h groups].
  { cbn [map str_join length]. eapply segment_weaken, segment_hex; [lia|done]. }
  cbn [map] in *. rewrite str_join_cons. cbn [length] in *.
  replace (5 * S (S (length groups)))%nat with (4 + (1 + 5 * S (length groups)))%nat by lia.
  apply segment_app; [by apply segment_hex|]. by apply segment_app.
Qed.

Lemma segment_ip ip : ip_ok ip -> segment_text 100 (show_ip_addr ip).
Proof.
  destruct ip as [a b c d|groups]; intros Hip.
  - eapply segment_weaken, segment_ipv4; [lia|done].
  - destruct Hip as [Hlen Hall]. unfold show_ip_addr.
    destruct (show_ipv6_cases groups) as [(g & h & -> & ->)| ->].
    + change 100%nat with (7 + 93)%nat. apply segment_app; [done|].
      eapply segment_weaken, segment_ipv4; [lia|].
      do 6 apply Forall_inv_tail in Hall. inversion_clear Hall as [|? ? Hg Hh].
      apply Forall_inv in Hh. unfold group, u16_max in *. unfold ip_ok, octet.
      pose proof (Z.mod_pos_bound g 256). pose proof (Z.mod_pos_bound h 256).
      pose proof (Z.div_lt_upper_bound g 256 256). pose proof (Z.div_lt_upper_bound h 256 256).
      pose proof (Z.div_pos g 256). pose proof (Z.div_pos h 256). lia.
    + destruct (zero_run _ _ _ _ _ _) as [start len]. destruct (1 <? len)%nat.
      * change 100%nat with (40 + (2 + 58))%nat.
        apply segment_app; [|apply segment_app; [done|]].
        -- eapply segment_weaken, segment_groups; [rewrite length_take; lia|].
           by apply Forall_take.
        -- eapply segment_weaken, segment_groups; [rewrite length_drop; lia|].
           by apply Forall_drop.
      * eapply segment_weaken, segment_groups; [lia|done].
Qed.

Lemma segment_no_slash n s :
  segment_text n s -> all_bytes (fun c => negb (Ascii.eqb c "/")) s = true.
Proof.
  intros [_ Hb]. induction s as [|c s IH]; [done|]. cbn [all_bytes] in *.
  apply andb_prop in Hb as [Hc Hs]. rewrite (IH Hs), andb_true_r.
  by destruct (Ascii.eqb_spec c "/") as [->|].
Qed.

Lemma segment_valid n s :
  segment_text n s -> (n <= 512)%nat -> s <> "" -> is_valid_multiaddr_segment s = true.
Proof.
  intros [Hl Hb] Hn Hne. unfold is_valid_multiaddr_segment. rewrite Hb.
  destruct s; [done|]. unfold str_len. cbn [is_empty]. lia.
Qed.

Lemma show_ip_not_empty ip : ip_ok ip -> show_ip_addr ip <> "".
Proof. intros Hip Hs. pose proof (parse_show_ip ip Hip) as Hp. by rewrite Hs in Hp. Qed.

(** The multiaddress of a socket address has the four segments it is made of. *)
Lemma multiaddr_of_socket_addr a :
  socket_addr_ok a ->
  multiaddr_parse (service_frame_tcp_multiaddr_from_socket_addr a)
  = Ok {| as_str := service_frame_tcp_multiaddr_from_socket_addr a |} /\
  segments {| as_str := service_frame_tcp_multiaddr_from_socket_addr a |}
  = [if is_ipv4 (sa_ip a) then "ip4" else "ip6"; show_ip_addr (sa_ip a); "tcp"; show (sa_port a)].
Proof.
  intros (Hip & Hport & _).
  pose proof (segment_ip _ Hip) as Hs. pose proof (segment_show _ Hport) as Hp.
  assert (is_empty (show_ip_addr (sa_ip a)) = false) as He.
  { apply show_ip_not_empty in Hip. by destruct (show_ip_addr (sa_ip a)). }
  assert (is_empty (show (sa_port a)) = false) as Hep by (apply show_not_empty; lia).
  set (net := if is_ipv4 (sa_ip a) then "ip4" else "ip6").
  assert (service_frame_tcp_multiaddr_from_socket_addr a
          = "" +:+ String "/" (net +:+ String "/" (show_ip_addr (sa_ip a) +:+ String "/"
              ("tcp" +:+ String "/" (show (sa_port a)))))) as Htext.
  { unfold service_frame_tcp_multiaddr_from_socket_addr, net. by destruct (is_ipv4 (sa_ip a)). }
  assert (str_split "/" (service_frame_tcp_multiaddr_from_socket_addr a)
          = ["";  net; show_ip_addr (sa_ip a); "tcp"; show (sa_port a)]) as Hsplit.
  { rewrite Htext, !str_split_app, (str_split_none _ (show_ip_addr _)), (str_split_none _ (show _))
      by (by eapply segment_no_slash). unfold net. by destruct (is_ipv4 (sa_ip a)). }
  split.
  - unfold multiaddr_parse, multiaddr_from_str. rewrite Hsplit.
    assert (starts_with "/" (service_frame_tcp_multiaddr_from_socket_addr a) = true) as ->
      by (by rewrite Htext).
    assert (is_empty (service_frame_tcp_multiaddr_from_socket_addr a) = false) as ->
      by (by rewrite Htext).
    assert (is_valid_multiaddr_segment net = true) as Hv1
      by (unfold net; by destruct (is_ipv4 (sa_ip a))).
    cbn [drop existsb negb].
    assert (is_empty net = false) as -> by (unfold net; by destruct (is_ipv4 (sa_ip a))).
    rewrite He, Hep. cbn [orb is_empty list_find_bool].
    rewrite Hv1, (segment_valid _ _ Hs), (segment_valid _ _ Hp); try lia.
    + done.
    + by destruct (show (sa_port a)).
    + by destruct (show_ip_addr (sa_ip a)).
  - unfold segments. cbn [as_str]. rewrite Hsplit. cbn [List.filter is_empty negb].
    assert (is_empty net = false) as -> by (unfold net; by destruct (is_ipv4 (sa_ip a))).
    by rewrite He, Hep.
Qed.

Lemma from_multiaddr_text a :
  socket_addr_ok a -> sa_scope_id a = 0 ->
  service_frame_tcp_socket_addr_from_endpoint (service_frame_tcp_multiaddr_from_socket_addr a)
  = Ok a.
Proof.
  intros Ha Hscope. destruct (multiaddr_of_socket_addr a Ha) as [Hparse Hsegments].
  destruct Ha as (Hip & Hport & _).
  unfold service_frame_tcp_socket_addr_from_endpoint.
  assert (parse_socket_addr (service_frame_tcp_multiaddr_from_socket_addr a) = None) as ->.
  { unfold service_frame_tcp_multiaddr_from_socket_addr. by destruct (is_ipv4 (sa_ip a)). }
  rewrite Hparse. cbn [map_err]. unfold service_frame_tcp_socket_addr_from_multiaddr.
  rewrite Hsegments. cbn [negb str_eqb]. change (str_eqb "tcp" "tcp") with true. cbn [negb].
  unfold multiaddr_ip, parse_ip, parse_u16. rewrite (parse_show_ip _ Hip).
  rewrite (parse_unsigned_show _ _ Hport). destruct a as [ip port scope]. cbn in *. subst scope.
  by destruct ip.
Qed.

Lemma show_head z : 0 <= z -> exists d r, (d < 10)%N /\ show z = String (pretty_N_char d) r.
Proof.
  intros Hz. destruct z as [|p|p]; [by exists 0%N, ""| |lia].
  change (show (Z.pos p)) with (pretty_N_go (N.pos p) "").
  destruct (pretty_N_go_head (N.pos p) "" ltac:(lia)) as (d & r & Hd & E). by exists d, r.
Qed.

Lemma show_socket_addr_no_slash a :
  ip_ok (sa_ip a) -> starts_with "/" (trim_start (show_socket_addr a)) = false.
Proof.
  intros Hip. unfold show_socket_addr. destruct (sa_ip a) as [x y z w|groups]; [|done].
  destruct Hip as (Hx & _). unfold show_ipv4.
  destruct (show_head x) as (d & r & Hd & ->); [unfold octet in Hx; lia|].
  rewrite str_cons_app. generalize (r +:+ "." +:+ show y +:+ "." +:+ show z +:+ "." +:+ show w) as t.
  intros t.
  assert (d = 0 \/ d = 1 \/ d = 2 \/ d = 3 \/ d = 4 \/ d = 5 \/ d = 6 \/ d = 7 \/ d = 8 \/ d = 9)%N
    as Hcases by lia.
  clear Hd Hx. by destruct Hcases as [->|[->|[->|[->|[->|[->|[->|[->|[->| ->]]]]]]]]].
Qed.

(** What an endpoint opens is a proper address. *)
Lemma tcp_endpoint_addr_ok endpoint a :
  service_frame_tcp_socket_addr_from_endpoint endpoint = Ok a ->
  ip_ok (sa_ip a) /\ 0 <= sa_port a <= u16_max.
Proof.
  unfold service_frame_tcp_socket_addr_from_endpoint.
  destruct (parse_socket_addr endpoint) as [b|] eqn:Eb.
  { intros [= <-]. by apply parse_socket_addr_ok in Eb. }
  destruct (map_err _ (multiaddr_parse endpoint)) as [m|]; [|done].
  unfold service_frame_tcp_socket_addr_from_multiaddr.
  destruct (segments m) as [|net [|host [|tcp [|port [|]]]]]; try done.
  destruct (negb _); [done|]. unfold multiaddr_ip, parse_ip, parse_u16.
  destruct (parse_ip_addr host) as [ip|] eqn:Eip; cbn.
  2:{ by destruct (str_eqb net "ip4"), (str_eqb net "ip6"). }
  apply parse_ip_addr_ok in Eip.
  destruct (str_eqb net "ip4"), (str_eqb net "ip6"); try done;
    repeat case_match; try done; simplify_eq; intros [= <-]; cbn;
    (split; [done|]); match goal with
    | E : map_err _ (parse_unsigned u16_max port) = Ok _ |- _ =>
        destruct (parse_unsigned u16_max port) eqn:Ep; [|done]; injection E as <-;
        by apply parse_unsigned_range in Ep
    end.
Qed.

(** Either form of the address of an endpoint is read back as that address. *)
Lemma tcp_endpoint_text_opens (slash : bool) a :
  socket_addr_ok a -> sa_scope_id a = 0 ->
  service_frame_tcp_socket_addr_from_endpoint
    (if slash then service_frame_tcp_multiaddr_from_socket_addr a else show_socket_addr a) = Ok a.
Proof.
  intros Ha Hs. destruct slash; [by apply from_multiaddr_text|].
  unfold service_frame_tcp_socket_addr_from_endpoint. by rewrite parse_show_socket_addr.
Qed.

(** An endpoint announced from [source] becomes one that is opened at the announced port and
    at the announced address, or at the source's address when the announced one is
    unspecified; from a source with an address of its own, what results no longer depends on
    who reads it. *)
Theorem tcp_endpoint_for_source_opens endpoint source text :
  socket_addr_ok source ->
  service_frame_tcp_endpoint_for_source endpoint source = Ok text ->
  exists a, service_frame_tcp_socket_addr_from_endpoint endpoint = Ok a /\
    service_frame_tcp_socket_addr_from_endpoint text
    = Ok (socket_addr_new (if is_unspecified (sa_ip a) then sa_ip source else sa_ip a)
            (sa_port a)) /\
    (is_unspecified (sa_ip source) = false ->
     forall other, service_frame_tcp_endpoint_for_source text other = Ok text).
Proof.
  intros (Hsip & _ & _). unfold service_frame_tcp_endpoint_for_source at 1.
  destruct (service_frame_tcp_socket_addr_from_endpoint endpoint) as [a|e] eqn:Ea; [|done].
  intros [= <-]. exists a. split; [done|]. apply tcp_endpoint_addr_ok in Ea as [Hip Hport].
  set (ip := if is_unspecified (sa_ip a) then sa_ip source else sa_ip a).
  assert (ip_ok ip) as Hip' by (unfold ip; by destruct (is_unspecified _)).
  set (b := socket_addr_new ip (sa_port a)) in *.
  assert (socket_addr_ok b) as Hok by (split; [done|]; split; [done|]; cbn; by destruct ip).
  split; [by apply tcp_endpoint_text_opens|]. intros Hu other.
  unfold service_frame_tcp_endpoint_for_source.
  rewrite tcp_endpoint_text_opens by done. cbn beta iota. change (sa_ip b) with ip.
  assert (is_unspecified ip = false) as ->
    by (unfold ip; by destruct (is_unspecified (sa_ip a)) eqn:E).
  change (socket_addr_new ip (sa_port b)) with b. f_equal.
  destruct (starts_with "/" (trim_start endpoint)).
  - assert (starts_with "/" (trim_start (service_frame_tcp_multiaddr_from_socket_addr b)) = true)
      as ->; [|done].
    unfold service_frame_tcp_multiaddr_from_socket_addr. by destruct (is_ipv4 (sa_ip b)).
  - by rewrite show_socket_addr_no_slash.
Qed.

Lemma tcp_endpoint_for_source_opens_witness :
  service_frame_tcp_socket_addr_from_endpoint "/ip4/192.168.1.7/tcp/4001"
  = Ok (socket_addr_new (V4 192 168 1 7) 4001).
Proof.
  destruct (tcp_endpoint_for_source_opens "/ip4/0.0.0.0/tcp/4001"
              (socket_addr_new (V4 192 168 1 7) 50000) "/ip4/192.168.1.7/tcp/4001")
    as (a & Ea & E & _).
  - unfold socket_addr_ok, ip_ok, octet, u16_max; cbn; lia.
  - vm_compute. reflexivity.
  - vm_compute in Ea. injection Ea as <-. exact E.
Defined.

(** ** A concrete run: one kind of request, a stream that moves one byte at a time *)

#[local] Instance demo_json : FrameJson := {
  request_pieces request :=
    match request with
    | ProfileSyncServiceRequest (DiscoverProviders r) => (["D"; pr_profile r], None)
    | _ => ([], Some "unsupported")
    end;
  response_pieces response :=
    match response with
    | ProfileSyncServiceResponse (PutEncryptedObjectResponse object_id) =>
        (["P"; object_id], None)
    | _ => ([], Some "unsupported")
    end;
  request_from_slice s :=
    match s with
    | String "D" profile =>
        Ok (ProfileSyncServiceRequest (DiscoverProviders {| pr_profile := profile |}))
    | _ => Err "unsupported"
    end;
  response_from_slice s :=
    match s with
    | String "P" object_id => Ok (ProfileSyncServiceResponse (PutEncryptedObjectResponse object_id))
    | _ => Err "unsupported"
    end
}.

#[local] Instance demo_json_laws : FrameJsonLaws.
Proof.
  split.
  - intros [h|[r|r|r|r|r|r|r|r|r|[p]|r|r]] pieces; try done. by intros [= <-].
  - intros [h|[]] pieces; try done. by intros [= <-].
Qed.

(** A handler that counts its calls. *)
Definition counting_client : Client nat := {|
  cl_health _ := connector_client_health;
  cl_status_snapshot _ := status_idle;
  cl_dispatch_service_request request calls :=
    (S calls, match request with
              | ProfileSyncServiceRequest (DiscoverProviders r) =>
                  Ok (ProfileSyncServiceResponse (PutEncryptedObjectResponse (pr_profile r)))
              | _ => Err (Broadwebd.Request "unsupported")
              end);
  cl_temporary_downloads _ := sr_ret [];
  cl_downloads _ := sr_ret []
|}.
Definition small_codec : ServiceFrameCodec := {| max_frame_bytes := 64 |}.
Definition demo_request : Request :=
  ProfileSyncServiceRequest (DiscoverProviders {| pr_profile := "default" |}).
Definition demo_response : Response :=
  ProfileSyncServiceResponse (PutEncryptedObjectResponse "default").

Lemma service_frame_refines_witness :
  cl_dispatch_service_request (service_frame_client counting_client small_codec) demo_request 0%nat
  = (1%nat, Ok demo_response).
Proof.
  etransitivity.
  - apply (service_frame_refines small_codec). unfold codec_ok, u64_max; cbn; lia.
  - vm_compute. reflexivity.
Defined.

(** What is still to be read, and what was written, a byte a call. *)
Definition byte_io (W : Type) : IoStream (W * (string * string)) := {|
  io_read _ := fun '(w, (incoming, outgoing)) =>
    match incoming with
    | "" => ((w, ("", outgoing)), Ok "")
    | String c incoming => ((w, (incoming, outgoing)), Ok (String c ""))
    end;
  io_write buffer := fun '(w, (incoming, outgoing)) =>
    match buffer with
    | "" => ((w, (incoming, outgoing)), Ok 0%nat)
    | String c _ => ((w, (incoming, outgoing +:+ String c "")), Ok 1%nat)
    end;
  io_flush s := (s, Ok tt)
|}.

Definition incoming_is {W} (w : W) (bytes : string) (s : W * (string * string)) : Prop :=
  s.1 = w /\ s.2 = (bytes, "").
Definition outgoing_is {W} (w : W) (bytes : string) (s : W * (string * string)) : Prop :=
  s.1 = w /\ s.2.2 = bytes.

Lemma byte_io_readable {W} (w : W) : readable (byte_io W) (incoming_is w).
Proof.
  intros [|c bytes] [w' [i o]] n [Hw [= -> ->]] Hn Hne; [done|]. cbn in Hw. subst w'.
  exists (String c ""), bytes, (w, (bytes, "")). by split_and!.
Qed.

Lemma byte_io_writable {W} (w : W) : writable (byte_io W) (outgoing_is w).
Proof.
  intros bytes [w' [i o]] [|c buffer] [Hw Ho] Hne; [done|]. cbn in Hw, Ho. subst w' o.
  exists 1%nat. eexists. split; [reflexivity|]. split; [cbn; lia|]. by split.
Qed.

Lemma wire_dispatch_witness :
  (exists s', serve_one_service_frame_request_over_stream small_codec counting_client
                (byte_io nat) (0%nat, (framed "Ddefault", ""))
              = (s', Ok tt) /\ s'.1 = 1%nat /\ s'.2.2 = framed "Pdefault") /\
  exists c', read_response (byte_io unit) small_codec (tt, (framed "Pdefault", ""))
             = (c', Ok demo_response).
Proof.
  assert (codec_ok small_codec) as Hcodec by (unfold codec_ok, u64_max; cbn; lia).
  destruct (wire_dispatch small_codec Hcodec counting_client (byte_io unit) (byte_io nat)
              (incoming_is tt) (outgoing_is tt) incoming_is outgoing_is
              demo_request "Ddefault" demo_response "Pdefault" 0%nat 1%nat
              (tt, ("", "")) (0%nat, (framed "Ddefault", "")))
    as (_ & (s & Es & Hw & Ho) & Hread);
    try (vm_compute; reflexivity); try apply byte_io_readable; try apply byte_io_writable.
  - by intros w bytes s [Hw _].
  - intros w w' [w0 [i o]] [_ [= -> ->]]. by split.
  - by split.
  - by split.
  - split.
    + exists s. split; [|by split]. rewrite Es. by destruct s as [w1 [i o]].
    + apply Hread. by split.
Defined.
