(* ===== verification/PeerDiscovery.v ===== *)
(** * Peer discovery

    Models [crates/broadwebd/src/peer_discovery.rs]: the advertisements of profile-sync peers
    and their validation, the queries, the composite of several discovery providers, the
    simulated network, and the messages that are exchanged by UDP.

    [serde_json] is [DiscoveryJson].  A UDP socket, its timeouts and the clock are operations
    on the state [U] of [UdpNetwork]; the clock counts in the unit of the timeouts and does
    not overflow. *)
From S2P Require Import Prelude RustStr Routing SocketText ServiceFrames Broadwebd.

Definition DEFAULT_PROFILE_SYNC_PEER_DISCOVERY_MAX_BYTES : Z := 8 * 1024.
Definition PROFILE_SYNC_PEER_ADVERTISEMENT_SCHEMA_VERSION : Z := 1.
Definition DEFAULT_PROFILE_SYNC_PEER_ADVERTISEMENT_MEMBERSHIP_EPOCH : Z := 1.
Definition SIGNATURE_ALGORITHM_ED25519 : string := "ed25519".
Definition PROFILE_SYNC_PEER_DISCOVERY_CAPABILITY : string := "profile-sync/service-frame-tcp".
Definition PROFILE_SYNC_DISCOVERY_PROTOCOL_LIBP2P_RENDEZVOUS : string := "libp2p-rendezvous".
Definition PROFILE_SYNC_DISCOVERY_PROTOCOL_LIBP2P_KADEMLIA : string := "libp2p-kademlia".
Definition PROFILE_SYNC_DISCOVERY_PROTOCOL_IPNS : string := "ipns".
Definition PROFILE_SYNC_DISCOVERY_PROTOCOL_IROH_RENDEZVOUS : string := "iroh-rendezvous".
Definition PROFILE_SYNC_DISCOVERY_PROTOCOL_LOCAL_SIMULATION : string := "local-simulation".
Definition DEFAULT_PROFILE_SYNC_DISCOVERY_NAMESPACE : string := "slate-profile-sync".

(** ** Data *)

Record ProfileSyncPeerAdvertisementSignature := {
  is_version : Z;
  is_algorithm : string;
  is_device_id : string;
  is_public_key : string;
  is_signature : string
}.

Record ProfileSyncPeerAdvertisement := {
  ad_network_id : string;
  ad_node_id : string;
  ad_provider_id : string;
  ad_service_addr : string;
  ad_capabilities : list string;
  ad_membership_epoch : Z;
  ad_sequence : Z;
  ad_identity_signature : option ProfileSyncPeerAdvertisementSignature
}.

(** What is signed. *)
Record ProfileSyncPeerAdvertisementSigningPayload := {
  sp_schema_version : Z;
  sp_network_id : string;
  sp_node_id : string;
  sp_provider_id : string;
  sp_service_addr : string;
  sp_capabilities : list string;
  sp_membership_epoch : Z;
  sp_sequence : Z
}.

Inductive ProfileSyncPeerDiscoveryProtocol :=
  | Libp2pRendezvous | Libp2pKademlia | IpnsProtocol | IrohRendezvous | LocalSimulation.
#[export] Instance ProfileSyncPeerDiscoveryProtocol_eq_dec :
  EqDecision ProfileSyncPeerDiscoveryProtocol.
Proof. solve_decision. Defined.

(** The order [derive] gives the variants. *)
Definition protocol_index (p : ProfileSyncPeerDiscoveryProtocol) : Z :=
  match p with
  | Libp2pRendezvous => 0 | Libp2pKademlia => 1 | IpnsProtocol => 2 | IrohRendezvous => 3
  | LocalSimulation => 4
  end.
Definition protocol_of_index (z : Z) : ProfileSyncPeerDiscoveryProtocol :=
  if z =? 0 then Libp2pRendezvous else if z =? 1 then Libp2pKademlia
  else if z =? 2 then IpnsProtocol else if z =? 3 then IrohRendezvous else LocalSimulation.
#[export] Instance ProfileSyncPeerDiscoveryProtocol_countable :
  Countable ProfileSyncPeerDiscoveryProtocol.
Proof. refine (inj_countable' protocol_index protocol_of_index _). by intros []. Defined.
#[export] Instance ProfileSyncPeerDiscoveryProtocol_ord :
  RustOrd ProfileSyncPeerDiscoveryProtocol :=
  fun a b => rust_cmp (protocol_index a) (protocol_index b).

Definition protocol_as_str (p : ProfileSyncPeerDiscoveryProtocol) : string :=
  match p with
  | Libp2pRendezvous => PROFILE_SYNC_DISCOVERY_PROTOCOL_LIBP2P_RENDEZVOUS
  | Libp2pKademlia => PROFILE_SYNC_DISCOVERY_PROTOCOL_LIBP2P_KADEMLIA
  | IpnsProtocol => PROFILE_SYNC_DISCOVERY_PROTOCOL_IPNS
  | IrohRendezvous => PROFILE_SYNC_DISCOVERY_PROTOCOL_IROH_RENDEZVOUS
  | LocalSimulation => PROFILE_SYNC_DISCOVERY_PROTOCOL_LOCAL_SIMULATION
  end.

Record ProfileSyncPeerDiscoveryQuery := {
  dq_network_id : string;
  dq_requester_node_id : string;
  dq_namespace : string;
  dq_protocols : list ProfileSyncPeerDiscoveryProtocol;
  dq_max_peers : Z
}.

(** [ProfileSyncPeerDiscoveryPublication] and [ProfileSyncPeerDiscoveryResult]. *)
Record ProfileSyncPeerDiscoveryPublication := {
  pb_protocol : ProfileSyncPeerDiscoveryProtocol;
  pb_namespace : string;
  pb_advertisement : ProfileSyncPeerAdvertisement
}.
Record ProfileSyncPeerDiscoveryResult := {
  dr_protocol : ProfileSyncPeerDiscoveryProtocol;
  dr_namespace : string;
  dr_advertisement : ProfileSyncPeerAdvertisement
}.

Record DiscoveredProfileSyncPeer := {
  dc_advertisement : ProfileSyncPeerAdvertisement;
  dc_source_addr : SocketAddr
}.

Inductive ProfileSyncPeerDiscoveryMessage :=
  | Solicit (network_id requester_node_id : string)
  | Advertisement (advertisement : ProfileSyncPeerAdvertisement).

Class DiscoveryJson := {
  signing_payload_to_vec : ProfileSyncPeerAdvertisementSigningPayload -> result string string;
  discovery_message_to_vec : ProfileSyncPeerDiscoveryMessage -> result string string;
  discovery_message_from_slice : string -> result string ProfileSyncPeerDiscoveryMessage
}.

(** ** Validation *)

Definition token_byte (byte : ascii) : bool := is_ascii_alphanumeric byte || one_of "-_" byte.

(** A text of 1 to [max] bytes of one class. *)
Definition checked_text (max : Z) (byte : ascii -> bool) (label text : string) :
    result BroadwebdError unit :=
  if is_empty text || (max <? str_len text) || negb (all_bytes byte text)
  then Err (Request ("invalid profile-sync peer discovery " +:+ label +:+ ": "
                     +:+ debug_str text))
  else Ok tt.

Definition validate_discovery_token (label token : string) : result BroadwebdError unit :=
  checked_text 128 token_byte label token.
Definition validate_capability (capability : string) : result BroadwebdError unit :=
  checked_text 128 (fun byte => is_ascii_alphanumeric byte || one_of "-_/" byte) "capability"
    capability.
Definition validate_profile_sync_peer_discovery_capability (capability : string) :
    result BroadwebdError unit := validate_capability capability.
Definition validate_namespace (namespace : string) : result BroadwebdError unit :=
  checked_text 256 (fun byte => is_ascii_alphanumeric byte || one_of "-_./" byte) "namespace"
    namespace.

Definition parse_one_socket_addr (input label : string) : result BroadwebdError SocketAddr :=
  ok_or (parse_socket_addr input)
    (Request ("parse " +:+ label +:+ ": invalid socket address syntax")).

Definition validate_service_addr (service_addr : string) : result BroadwebdError unit :=
  if is_ok (parse_one_socket_addr service_addr "service address")
     || is_ok (multiaddr_parse service_addr)
  then Ok tt
  else Err (Request
    ("profile-sync peer discovery service endpoint must be a socket address or multiaddr: "
     +:+ debug_str service_addr)).

(** [ProfileSyncPeerAdvertisementSignature::validate] and [validate_for_node]. *)
Definition signature_validate (s : ProfileSyncPeerAdvertisementSignature) :
    result BroadwebdError unit :=
  let? _ := validate_discovery_token "signature device id" (is_device_id s) in
  if negb (is_version s =? PROFILE_SYNC_PEER_ADVERTISEMENT_SCHEMA_VERSION)
  then Err (Request ("unsupported profile-sync peer advertisement signature version: "
                     +:+ show (is_version s)))
  else if negb (str_eqb (is_algorithm s) SIGNATURE_ALGORITHM_ED25519)
  then Err (Request ("unsupported profile-sync peer advertisement signature algorithm: "
                     +:+ is_algorithm s))
  else if negb (str_len (is_public_key s) =? 32)
  then Err (Request ("profile-sync peer advertisement Ed25519 public key must be 32 bytes, got "
                     +:+ show (str_len (is_public_key s))))
  else if negb (str_len (is_signature s) =? 64)
  then Err (Request ("profile-sync peer advertisement Ed25519 signature must be 64 bytes, got "
                     +:+ show (str_len (is_signature s))))
  else Ok tt.

Definition validate_for_node (s : ProfileSyncPeerAdvertisementSignature) (node_id : string) :
    result BroadwebdError unit :=
  let? _ := signature_validate s in
  if negb (str_eqb (is_device_id s) node_id)
  then Err (Request ("profile-sync peer advertisement signature device " +:+ is_device_id s
                     +:+ " does not match node " +:+ node_id))
  else Ok tt.

Definition signature_ed25519 (device_id public_key signature : string) :
    result BroadwebdError ProfileSyncPeerAdvertisementSignature :=
  let signature := {| is_version := PROFILE_SYNC_PEER_ADVERTISEMENT_SCHEMA_VERSION;
                      is_algorithm := SIGNATURE_ALGORITHM_ED25519; is_device_id := device_id;
                      is_public_key := public_key; is_signature := signature |} in
  let? _ := signature_validate signature in Ok signature.

Definition advertisement_validate (a : ProfileSyncPeerAdvertisement) :
    result BroadwebdError unit :=
  let? _ := validate_discovery_token "network id" (ad_network_id a) in
  let? _ := validate_discovery_token "node id" (ad_node_id a) in
  let? _ := validate_discovery_token "provider id" (ad_provider_id a) in
  let? _ := validate_service_addr (ad_service_addr a) in
  if bool_decide (ad_capabilities a = [])
  then Err (Request "profile-sync peer advertisement requires at least one capability")
  else
    let? _ := check_all validate_capability (ad_capabilities a) in
    if ad_membership_epoch a <? 1
    then Err (Request ("profile-sync peer advertisement membership epoch must be positive, got "
                       +:+ show (ad_membership_epoch a)))
    else if ad_sequence a =? 0
    then Err (Request "profile-sync peer advertisement sequence must be positive")
    else match ad_identity_signature a with
         | Some signature => validate_for_node signature (ad_node_id a)
         | None => Ok tt
         end.

(** ** Advertisements *)

Definition with_capabilities (network_id node_id provider_id service_addr : string)
    (capabilities : list string) (sequence : Z) :
    result BroadwebdError ProfileSyncPeerAdvertisement :=
  let advertisement :=
    {| ad_network_id := network_id; ad_node_id := node_id; ad_provider_id := provider_id;
       ad_service_addr := service_addr; ad_capabilities := capabilities;
       ad_membership_epoch := DEFAULT_PROFILE_SYNC_PEER_ADVERTISEMENT_MEMBERSHIP_EPOCH;
       ad_sequence := sequence; ad_identity_signature := None |} in
  let? _ := advertisement_validate advertisement in Ok advertisement.

Definition advertisement_new (network_id node_id provider_id service_addr : string)
    (sequence : Z) : result BroadwebdError ProfileSyncPeerAdvertisement :=
  with_capabilities network_id node_id provider_id service_addr
    [PROFILE_SYNC_PEER_DISCOVERY_CAPABILITY] sequence.

Definition with_membership_epoch (membership_epoch : Z) (a : ProfileSyncPeerAdvertisement) :
    result BroadwebdError ProfileSyncPeerAdvertisement :=
  let a := {| ad_network_id := ad_network_id a; ad_node_id := ad_node_id a;
              ad_provider_id := ad_provider_id a; ad_service_addr := ad_service_addr a;
              ad_capabilities := ad_capabilities a; ad_membership_epoch := membership_epoch;
              ad_sequence := ad_sequence a;
              ad_identity_signature := ad_identity_signature a |} in
  let? _ := advertisement_validate a in Ok a.

Definition set_identity_signature (signature : option ProfileSyncPeerAdvertisementSignature)
    (a : ProfileSyncPeerAdvertisement) : ProfileSyncPeerAdvertisement :=
  {| ad_network_id := ad_network_id a; ad_node_id := ad_node_id a;
     ad_provider_id := ad_provider_id a; ad_service_addr := ad_service_addr a;
     ad_capabilities := ad_capabilities a; ad_membership_epoch := ad_membership_epoch a;
     ad_sequence := ad_sequence a; ad_identity_signature := signature |}.
Definition with_identity_signature (signature : ProfileSyncPeerAdvertisementSignature)
    (a : ProfileSyncPeerAdvertisement) : result BroadwebdError ProfileSyncPeerAdvertisement :=
  let a := set_identity_signature (Some signature) a in
  let? _ := advertisement_validate a in Ok a.

Definition signing_payload (a : ProfileSyncPeerAdvertisement) :
    ProfileSyncPeerAdvertisementSigningPayload :=
  {| sp_schema_version := PROFILE_SYNC_PEER_ADVERTISEMENT_SCHEMA_VERSION;
     sp_network_id := ad_network_id a; sp_node_id := ad_node_id a;
     sp_provider_id := ad_provider_id a; sp_service_addr := ad_service_addr a;
     sp_capabilities := ad_capabilities a; sp_membership_epoch := ad_membership_epoch a;
     sp_sequence := ad_sequence a |}.
Definition signing_payload_bytes `{DiscoveryJson} (a : ProfileSyncPeerAdvertisement) :
    result BroadwebdError string :=
  let? _ := advertisement_validate a in
  map_err (fun error => Request ("encode profile-sync peer advertisement signing payload: "
                                 +:+ error)) (signing_payload_to_vec (signing_payload a)).

Definition service_socket_addr (a : ProfileSyncPeerAdvertisement) :
    result BroadwebdError SocketAddr :=
  parse_one_socket_addr (ad_service_addr a) "service address".
Definition service_multiaddr (a : ProfileSyncPeerAdvertisement) :
    result BroadwebdError Multiaddr :=
  map_err (fun error => Request ("invalid profile-sync peer discovery service multiaddr: "
                                 +:+ show_multiaddr_error error))
    (multiaddr_parse (ad_service_addr a)).
Definition has_multiaddr_service_endpoint (a : ProfileSyncPeerAdvertisement) : bool :=
  is_ok (service_multiaddr a).
Definition connect_addr_for_source (a : ProfileSyncPeerAdvertisement) (source_addr : SocketAddr) :
    result BroadwebdError string :=
  service_frame_tcp_endpoint_for_source (ad_service_addr a) source_addr.
Definition connect_addr (p : DiscoveredProfileSyncPeer) : result BroadwebdError string :=
  connect_addr_for_source (dc_advertisement p) (dc_source_addr p).

Definition has_capability (a : ProfileSyncPeerAdvertisement) (capability : string) : bool :=
  existsb (str_eqb capability) (ad_capabilities a).
Definition supports_profile_sync_service_frames (a : ProfileSyncPeerAdvertisement) : bool :=
  has_capability a PROFILE_SYNC_PEER_DISCOVERY_CAPABILITY.
Definition supports_profile_sync_provider_discovery (a : ProfileSyncPeerAdvertisement) : bool :=
  has_capability a CAPABILITY_PROVIDER_DISCOVERY.
Definition supports_profile_sync_local_connectivity (a : ProfileSyncPeerAdvertisement) : bool :=
  has_capability a CAPABILITY_LOCAL_CONNECTIVITY.
Definition supports_profile_sync_object_transfer (a : ProfileSyncPeerAdvertisement) : bool :=
  has_capability a CAPABILITY_OBJECT_TRANSFER.
Definition supports_profile_sync_local_retention (a : ProfileSyncPeerAdvertisement) : bool :=
  has_capability a CAPABILITY_LOCAL_RETENTION.
Definition supports_profile_sync_mutable_roots (a : ProfileSyncPeerAdvertisement) : bool :=
  has_capability a CAPABILITY_MUTABLE_ROOT.
Definition supports_durable_profile_sync_retention (a : ProfileSyncPeerAdvertisement) : bool :=
  supports_profile_sync_service_frames a && supports_profile_sync_object_transfer a
  && supports_profile_sync_local_retention a.

(** ** Queries *)

Definition query_validate (q : ProfileSyncPeerDiscoveryQuery) : result BroadwebdError unit :=
  let? _ := validate_discovery_token "network id" (dq_network_id q) in
  let? _ := validate_discovery_token "requester node id" (dq_requester_node_id q) in
  let? _ := validate_namespace (dq_namespace q) in
  if bool_decide (dq_protocols q = [])
  then Err (Request "profile-sync peer discovery query requires at least one protocol")
  else if dq_max_peers q =? 0
  then Err (Request "profile-sync peer discovery query max_peers must be greater than zero")
  else Ok tt.

Definition query_new (network_id requester_node_id namespace : string)
    (protocols : list ProfileSyncPeerDiscoveryProtocol) (max_peers : Z) :
    result BroadwebdError ProfileSyncPeerDiscoveryQuery :=
  let query := {| dq_network_id := network_id; dq_requester_node_id := requester_node_id;
                  dq_namespace := namespace; dq_protocols := protocols;
                  dq_max_peers := max_peers |} in
  let? _ := query_validate query in Ok query.

Definition for_default_namespace (network_id requester_node_id : string)
    (protocols : list ProfileSyncPeerDiscoveryProtocol) (max_peers : Z) :
    result BroadwebdError ProfileSyncPeerDiscoveryQuery :=
  query_new network_id requester_node_id DEFAULT_PROFILE_SYNC_DISCOVERY_NAMESPACE protocols
    max_peers.

(** ** Providers *)

(** [ProfileSyncPeerDiscoveryProvider] over a world [D]. *)
Record ProfileSyncPeerDiscoveryProvider (D : Type) := {
  publish_profile_sync_peer : ProfileSyncPeerDiscoveryProtocol -> string ->
    ProfileSyncPeerAdvertisement ->
    state_result D BroadwebdError ProfileSyncPeerDiscoveryPublication;
  provider_discover : ProfileSyncPeerDiscoveryQuery ->
    state_result D BroadwebdError (list ProfileSyncPeerDiscoveryResult)
}.
Arguments publish_profile_sync_peer {D}. Arguments provider_discover {D}.

Section Composite.
Context {D : Type} (providers : list (ProfileSyncPeerDiscoveryProvider D)).

(** Publishes with every provider; what no provider supports is an error, and any other
    error ends the loop. *)
Fixpoint composite_publish_all (rest : list (ProfileSyncPeerDiscoveryProvider D))
    (protocol : ProfileSyncPeerDiscoveryProtocol) (namespace : string)
    (advertisement : ProfileSyncPeerAdvertisement)
    (first_publication : option ProfileSyncPeerDiscoveryPublication)
    (last_unsupported : option string) :
    state_result D BroadwebdError ProfileSyncPeerDiscoveryPublication :=
  match rest with
  | [] =>
      sr_lift (ok_or first_publication (UnsupportedRequest (default
        ("profile-sync peer discovery composite cannot publish " +:+ protocol_as_str protocol
         +:+ " records") last_unsupported)))
  | provider :: rest => fun d =>
      match publish_profile_sync_peer provider protocol namespace advertisement d with
      | (d, Ok publication) =>
          composite_publish_all rest protocol namespace advertisement
            (Some (default publication first_publication)) last_unsupported d
      | (d, Err (UnsupportedRequest error)) =>
          composite_publish_all rest protocol namespace advertisement first_publication
            (Some error) d
      | (d, Err error) => (d, Err error)
      end
  end.

Definition composite_publish (protocol : ProfileSyncPeerDiscoveryProtocol) (namespace : string)
    (advertisement : ProfileSyncPeerAdvertisement) :
    state_result D BroadwebdError ProfileSyncPeerDiscoveryPublication :=
  do* sr_lift (validate_namespace namespace) in
  do* sr_lift (advertisement_validate advertisement) in
  match providers with
  | [] => sr_err (UnsupportedRequest "profile-sync peer discovery composite has no providers")
  | _ => composite_publish_all providers protocol namespace advertisement None None
  end.

(** The set [seen] of the loops, as the list of its elements. *)
Definition seen_key (r : ProfileSyncPeerDiscoveryResult) : string * string * string * string :=
  (dr_namespace r, ad_network_id (dr_advertisement r), ad_node_id (dr_advertisement r),
   ad_provider_id (dr_advertisement r)).

(** The results of one provider added to [results]; [true] when the limit was met. *)
Fixpoint composite_add (max_peers : Z) (protocol : ProfileSyncPeerDiscoveryProtocol)
    (results : list ProfileSyncPeerDiscoveryResult) (found : list ProfileSyncPeerDiscoveryResult) :
    bool * list ProfileSyncPeerDiscoveryResult :=
  match found with
  | [] => (false, results)
  | r :: found =>
      if max_peers <=? Z.of_nat (length results) then (true, results)
      else if negb (bool_decide (dr_protocol r = protocol))
      then composite_add max_peers protocol results found
      else if bool_decide (seen_key r ∈ map seen_key results)
      then composite_add max_peers protocol results found
      else composite_add max_peers protocol (results ++ [r]) found
  end.

Fixpoint composite_providers (query : ProfileSyncPeerDiscoveryQuery)
    (protocol : ProfileSyncPeerDiscoveryProtocol)
    (rest : list (ProfileSyncPeerDiscoveryProvider D))
    (results : list ProfileSyncPeerDiscoveryResult) :
    state_result D BroadwebdError (bool * list ProfileSyncPeerDiscoveryResult) :=
  match rest with
  | [] => sr_ret (false, results)
  | provider :: rest =>
      let* found := provider_discover provider query in
      match composite_add (dq_max_peers query) protocol results found with
      | (true, results) => sr_ret (true, results)
      | (false, results) => composite_providers query protocol rest results
      end
  end.

Fixpoint composite_protocols (query : ProfileSyncPeerDiscoveryQuery)
    (protocols : list ProfileSyncPeerDiscoveryProtocol)
    (results : list ProfileSyncPeerDiscoveryResult) :
    state_result D BroadwebdError (list ProfileSyncPeerDiscoveryResult) :=
  match protocols with
  | [] => sr_ret results
  | protocol :: protocols =>
      let* protocol_query := sr_lift (query_new (dq_network_id query) (dq_requester_node_id query)
                               (dq_namespace query) [protocol] (dq_max_peers query)) in
      let* found := composite_providers protocol_query protocol providers results in
      match found with
      | (true, results) => sr_ret results
      | (false, results) => composite_protocols query protocols results
      end
  end.

Definition composite_discover (query : ProfileSyncPeerDiscoveryQuery) :
    state_result D BroadwebdError (list ProfileSyncPeerDiscoveryResult) :=
  do* sr_lift (query_validate query) in
  composite_protocols query (dq_protocols query) [].

Definition composite_provider : ProfileSyncPeerDiscoveryProvider D := {|
  publish_profile_sync_peer := composite_publish;
  provider_discover := composite_discover
|}.
End Composite.

(** ** The simulated network *)

(** [SimulatedDiscoveryKey] as the tuple of its fields, which has its order. *)
Definition SimulatedDiscoveryKey : Type :=
  ProfileSyncPeerDiscoveryProtocol * string * string * string * string.
Definition SimulatedProfileSyncPeerDiscoveryNetwork : Type :=
  gmap SimulatedDiscoveryKey ProfileSyncPeerAdvertisement.

Definition simulated_key_new (protocol : ProfileSyncPeerDiscoveryProtocol)
    (network_id namespace node_id provider_id : string) :
    result BroadwebdError SimulatedDiscoveryKey :=
  let? _ := validate_discovery_token "network id" network_id in
  let? _ := validate_namespace namespace in
  let? _ := validate_discovery_token "node id" node_id in
  let? _ := validate_discovery_token "provider id" provider_id in
  Ok (protocol, network_id, namespace, node_id, provider_id).

Definition simulated_publish (protocol : ProfileSyncPeerDiscoveryProtocol) (namespace : string)
    (advertisement : ProfileSyncPeerAdvertisement) :
    state_result SimulatedProfileSyncPeerDiscoveryNetwork BroadwebdError
      ProfileSyncPeerDiscoveryPublication :=
  do* sr_lift (validate_namespace namespace) in
  do* sr_lift (advertisement_validate advertisement) in
  let* key := sr_lift (simulated_key_new protocol (ad_network_id advertisement) namespace
                         (ad_node_id advertisement) (ad_provider_id advertisement)) in
  let* records := sr_get in
  let newer := match records !! key with
               | Some stored => ad_sequence stored <? ad_sequence advertisement
               | None => true
               end in
  do* sr_put (if newer then <[key := advertisement]> records else records) in
  sr_ret {| pb_protocol := protocol; pb_namespace := namespace;
            pb_advertisement := advertisement |}.

(** The records of one protocol added to [results]; [true] when the limit was met. *)
Fixpoint simulated_add (query : ProfileSyncPeerDiscoveryQuery)
    (protocol : ProfileSyncPeerDiscoveryProtocol) (seen : list (string * string))
    (results : list ProfileSyncPeerDiscoveryResult)
    (records : list (SimulatedDiscoveryKey * ProfileSyncPeerAdvertisement)) :
    bool * list (string * string) * list ProfileSyncPeerDiscoveryResult :=
  match records with
  | [] => (false, seen, results)
  | ((key_protocol, key_network_id, key_namespace, _, _), advertisement) :: records =>
      if dq_max_peers query <=? Z.of_nat (length results) then (true, seen, results)
      else if negb (bool_decide (key_protocol = protocol))
              || negb (str_eqb key_network_id (dq_network_id query))
              || negb (str_eqb key_namespace (dq_namespace query))
              || str_eqb (ad_node_id advertisement) (dq_requester_node_id query)
              || negb (supports_profile_sync_service_frames advertisement)
      then simulated_add query protocol seen results records
      else
        let seen_key := (ad_node_id advertisement, ad_provider_id advertisement) in
        if bool_decide (seen_key ∈ seen) then simulated_add query protocol seen results records
        else simulated_add query protocol (seen_key :: seen)
               (results ++ [{| dr_protocol := protocol; dr_namespace := key_namespace;
                               dr_advertisement := advertisement |}]) records
  end.

Fixpoint simulated_protocols (query : ProfileSyncPeerDiscoveryQuery)
    (records : list (SimulatedDiscoveryKey * ProfileSyncPeerAdvertisement))
    (protocols : list ProfileSyncPeerDiscoveryProtocol) (seen : list (string * string))
    (results : list ProfileSyncPeerDiscoveryResult) : list ProfileSyncPeerDiscoveryResult :=
  match protocols with
  | [] => results
  | protocol :: protocols =>
      match simulated_add query protocol seen results records with
      | (true, _, results) => results
      | (false, seen, results) => simulated_protocols query records protocols seen results
      end
  end.

Definition simulated_discover (query : ProfileSyncPeerDiscoveryQuery) :
    state_result SimulatedProfileSyncPeerDiscoveryNetwork BroadwebdError
      (list ProfileSyncPeerDiscoveryResult) :=
  do* sr_lift (query_validate query) in
  let* records := sr_get in
  sr_ret (simulated_protocols query (btree_iter records) (dq_protocols query) [] []).

Definition simulated_provider :
    ProfileSyncPeerDiscoveryProvider SimulatedProfileSyncPeerDiscoveryNetwork := {|
  publish_profile_sync_peer := simulated_publish;
  provider_discover := simulated_discover
|}.

(** ** Messages *)

Definition solicit (network_id requester_node_id : string) :
    result BroadwebdError ProfileSyncPeerDiscoveryMessage :=
  let? _ := validate_discovery_token "network id" network_id in
  let? _ := validate_discovery_token "requester node id" requester_node_id in
  Ok (Solicit network_id requester_node_id).
Definition advertisement_message (advertisement : ProfileSyncPeerAdvertisement) :
    result BroadwebdError ProfileSyncPeerDiscoveryMessage :=
  let? _ := advertisement_validate advertisement in Ok (Advertisement advertisement).

Definition validate_profile_sync_peer_discovery_message
    (message : ProfileSyncPeerDiscoveryMessage) : result BroadwebdError unit :=
  match message with
  | Solicit network_id requester_node_id =>
      let? _ := validate_discovery_token "network id" network_id in
      validate_discovery_token "requester node id" requester_node_id
  | Advertisement advertisement => advertisement_validate advertisement
  end.

Definition within_discovery_limit (bytes : string) : result BroadwebdError unit :=
  if DEFAULT_PROFILE_SYNC_PEER_DISCOVERY_MAX_BYTES <? str_len bytes
  then Err (FrameTooLarge DEFAULT_PROFILE_SYNC_PEER_DISCOVERY_MAX_BYTES (str_len bytes))
  else Ok tt.

Definition is_udp_timeout (error : string) : bool :=
  str_contains "timed out" error || str_contains "would block" error
  || str_contains "Resource temporarily unavailable" error.

Class UdpNetwork (U K : Type) := {
  udp_bind : string -> state_result U string K;
  udp_set_read_timeout : K -> Z -> state_result U string unit;
  udp_send_to : K -> string -> SocketAddr -> state_result U string Z;
  udp_recv_from : K -> Z -> state_result U string (string * SocketAddr);
  udp_now : U -> Z
}.

Section Messages.
Context `{DiscoveryJson}.

Definition encode_profile_sync_peer_discovery_message
    (message : ProfileSyncPeerDiscoveryMessage) : result BroadwebdError string :=
  let? bytes := map_err (fun error => Request ("encode profile-sync peer discovery message: "
                                               +:+ error)) (discovery_message_to_vec message) in
  let? _ := within_discovery_limit bytes in Ok bytes.

Definition decode_profile_sync_peer_discovery_message (bytes : string) :
    result BroadwebdError ProfileSyncPeerDiscoveryMessage :=
  let? _ := within_discovery_limit bytes in
  let? message := map_err (fun error => Request ("decode profile-sync peer discovery message: "
                             +:+ error)) (discovery_message_from_slice bytes) in
  let? _ := validate_profile_sync_peer_discovery_message message in Ok message.

Context {U K : Type} `{UdpNetwork U K}.

Definition udp_op (A : Type) : Type := state_result U BroadwebdError A.

Definition send_profile_sync_peer_discovery_message (socket : K) (target : SocketAddr)
    (message : ProfileSyncPeerDiscoveryMessage) : udp_op Z :=
  let* bytes := sr_lift (encode_profile_sync_peer_discovery_message message) in
  sr_map_err Io (udp_send_to socket bytes target).

Definition recv_profile_sync_peer_discovery_message (socket : K) :
    udp_op (ProfileSyncPeerDiscoveryMessage * SocketAddr) :=
  let* received := sr_map_err Io
                     (udp_recv_from socket DEFAULT_PROFILE_SYNC_PEER_DISCOVERY_MAX_BYTES) in
  let* message := sr_lift (decode_profile_sync_peer_discovery_message received.1) in
  sr_ret (message, received.2).

Definition respond_to_profile_sync_peer_solicit (socket : K)
    (advertisement : ProfileSyncPeerAdvertisement) : udp_op (option SocketAddr) :=
  let* received := recv_profile_sync_peer_discovery_message socket in
  match received with
  | (Solicit network_id _, source_addr) =>
      if negb (str_eqb network_id (ad_network_id advertisement)) then sr_ret None
      else
        let* response := sr_lift (advertisement_message advertisement) in
        do* send_profile_sync_peer_discovery_message socket source_addr response in
        sr_ret (Some source_addr)
  | _ => sr_ret None
  end.

Definition peer_key (p : DiscoveredProfileSyncPeer) : string * string * SocketAddr :=
  (ad_node_id (dc_advertisement p), ad_provider_id (dc_advertisement p), dc_source_addr p).

Definition add_peer (network_id : string) (peers : list DiscoveredProfileSyncPeer)
    (message : ProfileSyncPeerDiscoveryMessage) (source_addr : SocketAddr) :
    list DiscoveredProfileSyncPeer :=
  match message with
  | Advertisement advertisement =>
      if str_eqb (ad_network_id advertisement) network_id
         && supports_profile_sync_service_frames advertisement
      then
        let peer := {| dc_advertisement := advertisement; dc_source_addr := source_addr |} in
        if bool_decide (peer_key peer ∈ map peer_key peers) then peers else peers ++ [peer]
      else peers
  | _ => peers
  end.

(** The loop of [collect_profile_sync_peer_advertisements]: [None] when the fuel runs out. *)
Fixpoint collect_loop (fuel : nat) (socket : K) (network_id : string) (deadline max_peers : Z)
    (peers : list DiscoveredProfileSyncPeer) : udp_op (option (list DiscoveredProfileSyncPeer)) :=
  match fuel with
  | O => sr_ret None
  | S fuel => fun u =>
      if max_peers <=? Z.of_nat (length peers) then (u, Ok (Some peers))
      else
        let now := udp_now u in
        if deadline <=? now then (u, Ok (Some peers))
        else
          match sr_map_err Io (udp_set_read_timeout socket (deadline - now)) u with
          | (u, Err e) => (u, Err e)
          | (u, Ok _) =>
              match recv_profile_sync_peer_discovery_message socket u with
              | (u, Ok (message, source_addr)) =>
                  collect_loop fuel socket network_id deadline max_peers
                    (add_peer network_id peers message source_addr) u
              | (u, Err (Io error)) =>
                  if is_udp_timeout error then (u, Ok (Some peers)) else (u, Err (Io error))
              | (u, Err e) => (u, Err e)
              end
          end
  end.

Definition collect_profile_sync_peer_advertisements (fuel : nat) (socket : K)
    (network_id : string) (timeout max_peers : Z) :
    udp_op (option (list DiscoveredProfileSyncPeer)) :=
  do* sr_lift (validate_discovery_token "network id" network_id) in
  fun u => collect_loop fuel socket network_id (udp_now u + timeout) max_peers [] u.

(** [resolved]: what [to_socket_addrs] gives for the target. *)
Definition first_socket_addr (resolved : result string (list SocketAddr)) (label : string) :
    result BroadwebdError SocketAddr :=
  let? addrs := map_err (fun error => Request ("resolve " +:+ label +:+ ": " +:+ error)) resolved in
  ok_or (head addrs) (Request (label +:+ " resolved no socket addresses")).

Definition discover_profile_sync_peers (fuel : nat)
    (discovery_target : result string (list SocketAddr))
    (network_id requester_node_id : string) (timeout max_peers : Z) :
    udp_op (option (list DiscoveredProfileSyncPeer)) :=
  do* sr_lift (validate_discovery_token "network id" network_id) in
  do* sr_lift (validate_discovery_token "requester node id" requester_node_id) in
  let* target := sr_lift (first_socket_addr discovery_target "discovery target") in
  let* socket := sr_map_err Io
                   (udp_bind (if is_ipv4 (sa_ip target) then "0.0.0.0:0" else "[::]:0")) in
  do* sr_map_err Io (udp_set_read_timeout socket timeout) in
  let* message := sr_lift (solicit network_id requester_node_id) in
  do* send_profile_sync_peer_discovery_message socket target message in
  collect_profile_sync_peer_advertisements fuel socket network_id timeout max_peers.
End Messages.
