(* ===== verification/Network.v ===== *)
(** * Network fetches and IPFS URLs

    Models [fetch_http_url_over_network] of [crates/broadwebd/src/http.rs],
    [transports/direct_http.rs], [protocols/ipfs/address.rs] and [ipfs_gateway_http_url] of
    [protocols/ipfs/gateway.rs]: the requests that leave the machine through [reqwest], the
    transport that sends any HTTP URL there, and the parts of an IPFS URL.

    [reqwest] is a parameter: a request takes the state of the network and answers the final
    response, or the text of an error. *)
From S2P Require Import Prelude RustStr Broadwebd Routing Http Daemon.

(** ** The network *)

(** The final response of a request.  The value of a header is [None] when it is no text
    ([to_str]); the body is read by a second call, which can fail. *)
Record HttpAnswer := {
  an_final_url : string;
  an_status : Z;
  an_headers : list (string * option string);
  an_body : result string string
}.

(** [reqwest]: a GET that follows at most six redirects, and a POST. *)
Class HttpNetwork (N : Type) := {
  http_get : Url -> state_result N string HttpAnswer;
  http_post : Url -> option string -> state_result N string HttpAnswer
}.

(** What the transports share: the network, the status reporter, the index of the gateway
    that worked, and the state of the Tor transport, [Option<TorRuntimeState>]: whether its
    runtime exists, and its client of type [T] once it has bootstrapped. *)
Record NetWorld (N T : Type) := {
  nw_net : N;
  nw_status : BroadwebStatusSnapshot;
  nw_active_gateway : nat;
  nw_tor : option (option T)
}.
Arguments nw_net {N T}. Arguments nw_status {N T}. Arguments nw_active_gateway {N T}.
Arguments nw_tor {N T}. Arguments Build_NetWorld {N T}.

Section NetWorld.
Context {N T : Type}.

Definition set_nw_net (n : N) (w : NetWorld N T) : NetWorld N T :=
  Build_NetWorld n (nw_status w) (nw_active_gateway w) (nw_tor w).
Definition set_nw_status (status : BroadwebStatusSnapshot) (w : NetWorld N T) : NetWorld N T :=
  Build_NetWorld (nw_net w) status (nw_active_gateway w) (nw_tor w).

Definition on_net {A} (m : state_result N BroadwebdError A) :
    state_result (NetWorld N T) BroadwebdError A := fun w =>
  let '(n, r) := m (nw_net w) in (set_nw_net n w, r).
Definition report (kind : BroadwebStatusKind) (message : string) (target gateway : option string) :
    state_result (NetWorld N T) BroadwebdError unit := fun w =>
  (set_nw_status (status_set kind message target gateway (nw_status w)) w, Ok tt).
Definition set_active_gateway_index (index : nat) :
    state_result (NetWorld N T) BroadwebdError unit := fun w =>
  (Build_NetWorld (nw_net w) (nw_status w) index (nw_tor w), Ok tt).
End NetWorld.

(** [header_value] and [response_headers] of a [HeaderMap]. *)
Definition reqwest_header (name : string) (headers : list (string * option string)) :
    option string :=
  match list_find_bool (fun header => eq_ignore_ascii_case header.1 name) headers with
  | Some (_, value) => value
  | None => None
  end.
Fixpoint response_headers (headers : list (string * option string)) : list HttpHeader :=
  match headers with
  | [] => []
  | (name, Some value) :: headers =>
      {| hd_name := name; hd_value := value |} :: response_headers headers
  | (_, None) :: headers => response_headers headers
  end.

(** [if body.len() > limit { return Err(ResponseTooLarge) }]. *)
Definition within_limit (limit : Z) (body : string) : result BroadwebdError unit :=
  if limit <? str_len body then Err (ResponseTooLarge limit (str_len body)) else Ok tt.

Section Network.
Context {N T : Type} `{UrlCrate, HttpNetwork N}.

Definition fetch_http_url_over_network (url : Url) (budget : ResourceBudget) :
    state_result N BroadwebdError HttpFetchResponse :=
  if negb (is_http_scheme (url_scheme url))
  then sr_err (UnsupportedRequest ("unsupported HTTP fetch scheme: " +:+ url_scheme url))
  else
    let* response := sr_map_err Request (http_get url) in
    let header_content_type := reqwest_header "content-type" (an_headers response) in
    let headers := response_headers (an_headers response) in
    let* body := sr_lift (map_err Request (an_body response)) in
    do* sr_lift (within_limit (max_http_response_bytes budget) body) in
    let content_type := infer_content_type (an_final_url response) header_content_type body in
    sr_ret (http_fetch_response_new (an_final_url response) (an_status response) content_type
              headers body).

(** ** The direct transport *)

Definition direct_http_metadata : PluginMetadata :=
  with_resource_profile LowProfile
    (with_privacy_boundary "ordinary direct HTTP(S); uses normal DNS and network routing"
       (with_capabilities ["http"; "https"; "http-fetch"]
          (plugin_metadata_new DIRECT_HTTP_PLUGIN TransportKind))).

Definition direct_fetch_http (request : TransportHttpRequest) (budget : ResourceBudget) :
    state_result (NetWorld N T) BroadwebdError HttpFetchResponse :=
  let* url := sr_lift (parse_http_url (tq_url request)) in
  if negb (is_http_scheme (url_scheme url))
  then sr_err (UnsupportedRequest (DIRECT_HTTP_PLUGIN +:+ " cannot fetch " +:+ tq_url request))
  else on_net (fetch_http_url_over_network url budget).

Definition direct_http_transport : TransportPlugin (NetWorld N T) :=
  {| tp_metadata := direct_http_metadata; tp_fetch_http := direct_fetch_http |}.
End Network.

(** ** IPFS URLs *)

Record IpfsUrlParts := {
  up_namespace : string;
  up_name : string;
  up_path : string;
  up_query : option string
}.

(** The text after the first [c], if there is one. *)
Definition after_first (c : ascii) (s : string) : option string :=
  match (split_at_first (Ascii.eqb c) s).2 with String _ rest => Some rest | EmptyString => None end.

Section Addresses.
Context `{UrlCrate}.

Definition ipfs_url_parts (source : string) : result BroadwebdError IpfsUrlParts :=
  let? parsed := map_err InvalidUrl (url_parse source) in
  if negb (str_eqb (url_scheme parsed) "ipfs" || str_eqb (url_scheme parsed) "ipns")
  then Err (UnsupportedRequest ("unsupported IPFS scheme: " +:+ url_scheme parsed))
  else
    match split_once "://" source with
    | None => Err (InvalidUrl (source +:+ " is missing an authority"))
    | Some (_, authority) =>
        let '(name, remainder) := split_at_first (one_of "/?#") authority in
        if is_empty name then Err (InvalidUrl (source +:+ " is missing a content name"))
        else if str_contains "@" name || str_contains ":" name
        then Err (InvalidUrl (source +:+ " must not include userinfo or a port"))
        else Ok {| up_namespace := url_scheme parsed; up_name := name;
                   up_path := if starts_with "/" remainder
                              then (split_at_first (one_of "?#") remainder).1 else "/";
                   up_query := option_map (before_first "#") (after_first "?" remainder) |}
    end.

Definition ipfs_gateway_http_url (source gateway_base : string) : result BroadwebdError string :=
  let? parts := ipfs_url_parts source in
  Ok (trim_end_matches "/" gateway_base +:+ "/" +:+ up_namespace parts +:+ "/" +:+ up_name parts
      +:+ (if str_eqb (up_path parts) "/" then "" else up_path parts)
      +:+ match up_query parts with Some query => "?" +:+ query | None => "" end).
End Addresses.
