(* ===== verification/SyncHealth.v ===== *)
(** * Health reports and the policy of a settings sync cycle

    Models [crates/profile-sync/src/health.rs], the policy errors of [errors.rs] and
    [SettingsSyncCyclePolicy] of [crates/profile-sync/src/lib.rs]: what the health of the
    providers and roots of a profile has to be before and after a sync cycle. *)
From S2P Require Import Prelude RustStr AppViews Database SyncObjects Broadwebd.

(** ** Health *)

Record SettingsSyncHealthReport := {
  hr_profile : string;
  hr_settings_root_id : string;
  hr_local_device_head_root_id : string;
  hr_provider_health : ProfileSyncProviderHealth;
  hr_settings_root_health : ProfileSyncRootHealth;
  hr_local_device_head_root_health : ProfileSyncRootHealth
}.

Inductive SettingsSyncHealthIssueComponent := Providers | SettingsRoot | LocalDeviceHeadRoot.

Record SettingsSyncHealthIssue := {
  hi_component : SettingsSyncHealthIssueComponent;
  hi_root_id : option string;
  hi_message : string
}.

Inductive SettingsSyncRootObjectProviderIssueKind :=
  Delayed | StaleObject | OfflineObject | RetainedUnavailable.

Record SettingsSyncRootObjectProviderIssue := {
  ri_component : SettingsSyncHealthIssueComponent;
  ri_root_id : string;
  ri_object_id : option string;
  ri_provider_id : string;
  ri_kind : SettingsSyncRootObjectProviderIssueKind
}.

Definition provider_degraded (r : SettingsSyncHealthReport) : bool :=
  ph_degraded (hr_provider_health r).
Definition settings_root_degraded (r : SettingsSyncHealthReport) : bool :=
  rhl_degraded (hr_settings_root_health r).
Definition local_device_head_root_degraded (r : SettingsSyncHealthReport) : bool :=
  rhl_degraded (hr_local_device_head_root_health r).

Definition report_degraded (r : SettingsSyncHealthReport) : bool :=
  ph_degraded (hr_provider_health r) || rhl_degraded (hr_settings_root_health r)
  || rhl_degraded (hr_local_device_head_root_health r).
Definition report_healthy (r : SettingsSyncHealthReport) : bool := negb (report_degraded r).

Definition usize_of_bool (b : bool) : Z := if b then 1 else 0.
Definition usize_len {A} (l : list A) : Z := Z.of_nat (length l).

Definition degraded_root_count (r : SettingsSyncHealthReport) : Z :=
  usize_of_bool (settings_root_degraded r) + usize_of_bool (local_device_head_root_degraded r).

Definition degradation_issues (r : SettingsSyncHealthReport) : list SettingsSyncHealthIssue :=
  (if provider_degraded r
   then [{| hi_component := Providers; hi_root_id := None;
            hi_message := ph_message (hr_provider_health r) |}] else [])
  ++ (if settings_root_degraded r
      then [{| hi_component := SettingsRoot; hi_root_id := Some (hr_settings_root_id r);
               hi_message := rhl_message (hr_settings_root_health r) |}] else [])
  ++ (if local_device_head_root_degraded r
      then [{| hi_component := LocalDeviceHeadRoot;
               hi_root_id := Some (hr_local_device_head_root_id r);
               hi_message := rhl_message (hr_local_device_head_root_health r) |}] else []).

Definition degradation_issue_count (r : SettingsSyncHealthReport) : Z :=
  usize_len (degradation_issues r).

Definition append_settings_sync_root_object_provider_issue_kind
    (component : SettingsSyncHealthIssueComponent) (root_id : string) (object_id : option string)
    (kind : SettingsSyncRootObjectProviderIssueKind) (provider_ids : list string)
    (issues : list SettingsSyncRootObjectProviderIssue) :
    list SettingsSyncRootObjectProviderIssue :=
  issues ++ map (fun provider_id =>
    {| ri_component := component; ri_root_id := root_id; ri_object_id := object_id;
       ri_provider_id := provider_id; ri_kind := kind |}) provider_ids.

Definition append_settings_sync_root_object_provider_issues
    (component : SettingsSyncHealthIssueComponent) (root_id : string)
    (health : ProfileSyncRootHealth) (issues : list SettingsSyncRootObjectProviderIssue) :
    list SettingsSyncRootObjectProviderIssue :=
  let append := append_settings_sync_root_object_provider_issue_kind component root_id
                  (rhl_latest_object_id health) in
  let issues := append Delayed (rhl_delayed_object_provider_ids health) issues in
  let issues := append StaleObject (rhl_latest_object_stale_provider_ids health) issues in
  let issues := append OfflineObject (rhl_latest_object_offline_provider_ids health) issues in
  append RetainedUnavailable (rhl_unavailable_retaining_provider_ids health) issues.

Definition root_object_provider_issues (r : SettingsSyncHealthReport) :
    list SettingsSyncRootObjectProviderIssue :=
  let issues := append_settings_sync_root_object_provider_issues SettingsRoot
                  (hr_settings_root_id r) (hr_settings_root_health r) [] in
  append_settings_sync_root_object_provider_issues LocalDeviceHeadRoot
    (hr_local_device_head_root_id r) (hr_local_device_head_root_health r) issues.

Definition root_object_provider_issue_count (r : SettingsSyncHealthReport) : Z :=
  usize_len (root_object_provider_issues r).

(** ** Policy *)

Inductive ProfileSyncPolicyError :=
  | ProviderHealthDegraded (health : SettingsSyncHealthReport)
  | RootHealthDegraded (root_kind : string) (health : SettingsSyncHealthReport)
  | ProviderMinimumUnmet (provider_role : string) (minimum actual : Z)
      (health : SettingsSyncHealthReport)
  | ProviderMaximumExceeded (provider_role : string) (maximum actual : Z)
      (health : SettingsSyncHealthReport).

Definition show_policy_error (e : ProfileSyncPolicyError) : string :=
  match e with
  | ProviderHealthDegraded health =>
      "profile " +:+ hr_profile health +:+ " provider health is degraded: "
      +:+ ph_message (hr_provider_health health)
  | RootHealthDegraded root_kind health =>
      "profile " +:+ hr_profile health +:+ " " +:+ root_kind +:+ " health is degraded"
  | ProviderMinimumUnmet provider_role minimum actual health =>
      "profile " +:+ hr_profile health +:+ " requires at least " +:+ show minimum +:+ " "
      +:+ provider_role +:+ ", but health reported " +:+ show actual
  | ProviderMaximumExceeded provider_role maximum actual health =>
      "profile " +:+ hr_profile health +:+ " allows at most " +:+ show maximum +:+ " "
      +:+ provider_role +:+ ", but health reported " +:+ show actual
  end.

Record SettingsSyncCyclePolicy := {
  pol_retention_policy : ProfileSyncRetentionPolicy;
  pol_max_publish_steps : Z;
  pol_max_trusted_devices : Z;
  pol_minimum_fresh_online_providers : Z;
  pol_minimum_object_transfer_providers : Z;
  pol_minimum_availability_providers : Z;
  pol_minimum_mutable_root_providers : Z;
  pol_minimum_online_retaining_providers : Z;
  pol_maximum_stale_online_providers : option Z;
  pol_maximum_offline_providers : option Z;
  pol_require_healthy_providers : bool;
  pol_require_healthy_roots_after_cycle : bool;
  pol_require_healthy_settings_root_after_cycle : bool;
  pol_require_healthy_local_device_head_root_after_cycle : bool
}.

Definition cycle_policy_new (retention_policy : ProfileSyncRetentionPolicy)
    (max_publish_steps max_trusted_devices minimum_online_retaining_providers : Z) :
    SettingsSyncCyclePolicy :=
  {| pol_retention_policy := retention_policy;
     pol_max_publish_steps := max_publish_steps;
     pol_max_trusted_devices := max_trusted_devices;
     pol_minimum_fresh_online_providers := 1;
     pol_minimum_object_transfer_providers := 1;
     pol_minimum_availability_providers := 1;
     pol_minimum_mutable_root_providers := 1;
     pol_minimum_online_retaining_providers := minimum_online_retaining_providers;
     pol_maximum_stale_online_providers := None;
     pol_maximum_offline_providers := None;
     pol_require_healthy_providers := true;
     pol_require_healthy_roots_after_cycle := true;
     pol_require_healthy_settings_root_after_cycle := true;
     pol_require_healthy_local_device_head_root_after_cycle := true |}.

(** The builders. *)
Definition with_minimum_fresh_online_providers (minimum : Z) (p : SettingsSyncCyclePolicy) :
    SettingsSyncCyclePolicy :=
  let 'Build_SettingsSyncCyclePolicy rp ps td _ transfer avail roots retaining stale offline hp hr hs hl := p in
  Build_SettingsSyncCyclePolicy rp ps td minimum transfer avail roots retaining stale offline hp hr hs hl.
Definition with_minimum_object_transfer_providers (minimum : Z) (p : SettingsSyncCyclePolicy) :
    SettingsSyncCyclePolicy :=
  let 'Build_SettingsSyncCyclePolicy rp ps td fresh _ avail roots retaining stale offline hp hr hs hl := p in
  Build_SettingsSyncCyclePolicy rp ps td fresh minimum avail roots retaining stale offline hp hr hs hl.
Definition with_minimum_availability_providers (minimum : Z) (p : SettingsSyncCyclePolicy) :
    SettingsSyncCyclePolicy :=
  let 'Build_SettingsSyncCyclePolicy rp ps td fresh transfer _ roots retaining stale offline hp hr hs hl := p in
  Build_SettingsSyncCyclePolicy rp ps td fresh transfer minimum roots retaining stale offline hp hr hs hl.
Definition with_minimum_mutable_root_providers (minimum : Z) (p : SettingsSyncCyclePolicy) :
    SettingsSyncCyclePolicy :=
  let 'Build_SettingsSyncCyclePolicy rp ps td fresh transfer avail _ retaining stale offline hp hr hs hl := p in
  Build_SettingsSyncCyclePolicy rp ps td fresh transfer avail minimum retaining stale offline hp hr hs hl.
Definition with_maximum_stale_online_providers (maximum : Z) (p : SettingsSyncCyclePolicy) :
    SettingsSyncCyclePolicy :=
  let 'Build_SettingsSyncCyclePolicy rp ps td fresh transfer avail roots retaining _ offline hp hr hs hl := p in
  Build_SettingsSyncCyclePolicy rp ps td fresh transfer avail roots retaining (Some maximum) offline hp hr hs hl.
Definition with_maximum_offline_providers (maximum : Z) (p : SettingsSyncCyclePolicy) :
    SettingsSyncCyclePolicy :=
  let 'Build_SettingsSyncCyclePolicy rp ps td fresh transfer avail roots retaining stale _ hp hr hs hl := p in
  Build_SettingsSyncCyclePolicy rp ps td fresh transfer avail roots retaining stale (Some maximum) hp hr hs hl.
Definition with_provider_health_required (required : bool) (p : SettingsSyncCyclePolicy) :
    SettingsSyncCyclePolicy :=
  let 'Build_SettingsSyncCyclePolicy rp ps td fresh transfer avail roots retaining stale offline _ hr hs hl := p in
  Build_SettingsSyncCyclePolicy rp ps td fresh transfer avail roots retaining stale offline required hr hs hl.
Definition with_root_health_required_after_cycle (required : bool) (p : SettingsSyncCyclePolicy) :
    SettingsSyncCyclePolicy :=
  let 'Build_SettingsSyncCyclePolicy rp ps td fresh transfer avail roots retaining stale offline hp _ _ _ := p in
  Build_SettingsSyncCyclePolicy rp ps td fresh transfer avail roots retaining stale offline hp required required required.
Definition with_settings_root_health_required_after_cycle (required : bool) (p : SettingsSyncCyclePolicy) :
    SettingsSyncCyclePolicy :=
  let 'Build_SettingsSyncCyclePolicy rp ps td fresh transfer avail roots retaining stale offline hp hr _ hl := p in
  Build_SettingsSyncCyclePolicy rp ps td fresh transfer avail roots retaining stale offline hp hr required hl.
Definition with_local_device_head_root_health_required_after_cycle (required : bool) (p : SettingsSyncCyclePolicy) :
    SettingsSyncCyclePolicy :=
  let 'Build_SettingsSyncCyclePolicy rp ps td fresh transfer avail roots retaining stale offline hp hr hs _ := p in
  Build_SettingsSyncCyclePolicy rp ps td fresh transfer avail roots retaining stale offline hp hr hs required.

Section Policy.
Context (policy : SettingsSyncCyclePolicy).

(** [saturating_sub(1)]: the local device is one of the providers. *)
Definition minimum_selected_retention_provider_count : Z :=
  Z.max 0 (pol_minimum_online_retaining_providers policy - 1).

Definition check_provider_minimum (provider_role : string) (minimum actual : Z)
    (health : SettingsSyncHealthReport) : result ProfileSyncPolicyError unit :=
  if actual <? minimum then Err (ProviderMinimumUnmet provider_role minimum actual health)
  else Ok tt.

Definition check_provider_maximum (provider_role : string) (maximum actual : Z)
    (health : SettingsSyncHealthReport) : result ProfileSyncPolicyError unit :=
  if maximum <? actual then Err (ProviderMaximumExceeded provider_role maximum actual health)
  else Ok tt.

Definition check_optional_maximum (provider_role : string) (maximum : option Z) (actual : Z)
    (health : SettingsSyncHealthReport) : result ProfileSyncPolicyError unit :=
  match maximum with
  | Some maximum => check_provider_maximum provider_role maximum actual health
  | None => Ok tt
  end.

Definition check_before_cycle (health : SettingsSyncHealthReport) :
    result ProfileSyncPolicyError unit :=
  let providers := hr_provider_health health in
  if negb (pol_require_healthy_providers policy) then Ok tt
  else if ph_degraded providers then Err (ProviderHealthDegraded health)
  else
    check? check_provider_minimum "fresh online providers"
             (pol_minimum_fresh_online_providers policy) (ph_fresh_online_providers providers)
             health in
    check? check_provider_minimum "object-transfer providers"
             (pol_minimum_object_transfer_providers policy)
             (ph_object_transfer_providers providers) health in
    check? check_provider_minimum "availability providers"
             (pol_minimum_availability_providers policy) (ph_availability_providers providers)
             health in
    check? check_provider_minimum "mutable-root providers"
             (pol_minimum_mutable_root_providers policy) (ph_mutable_root_providers providers)
             health in
    check? check_optional_maximum "stale online providers"
             (pol_maximum_stale_online_providers policy) (ph_stale_online_providers providers)
             health in
    check_optional_maximum "offline providers" (pol_maximum_offline_providers policy)
      (ph_offline_providers providers) health.

Definition check_selected_retention_provider_count (actual : Z)
    (health : SettingsSyncHealthReport) : result ProfileSyncPolicyError unit :=
  check_provider_minimum "selected retention providers"
    minimum_selected_retention_provider_count actual health.

Definition check_selected_retention_provider_freshness (stale_selected offline_selected : Z)
    (health : SettingsSyncHealthReport) : result ProfileSyncPolicyError unit :=
  check? check_provider_maximum "stale selected retention providers" 0 stale_selected health in
  check_provider_maximum "offline selected retention providers" 0 offline_selected health.

Definition check_selected_retention_provider_roles (ineligible_selected : Z)
    (health : SettingsSyncHealthReport) : result ProfileSyncPolicyError unit :=
  check_provider_maximum "ineligible selected retention providers" 0 ineligible_selected health.

Definition check_after_cycle (health : SettingsSyncHealthReport) :
    result ProfileSyncPolicyError unit :=
  if negb (pol_require_healthy_roots_after_cycle policy) then Ok tt
  else if pol_require_healthy_settings_root_after_cycle policy
          && rhl_degraded (hr_settings_root_health health)
  then Err (RootHealthDegraded "settings root" health)
  else if pol_require_healthy_local_device_head_root_after_cycle policy
          && rhl_degraded (hr_local_device_head_root_health health)
  then Err (RootHealthDegraded "local device-head root" health)
  else Ok tt.
End Policy.

(** ** Laws *)

Lemma is_ok_check {E A B} (r : result E A) (r' : result E B) :
  is_ok (check? r in r') = is_ok r && is_ok r'.
Proof. by destruct r. Qed.

Lemma is_ok_minimum role minimum actual health :
  is_ok (check_provider_minimum role minimum actual health) = true <-> minimum <= actual.
Proof.
  unfold check_provider_minimum. destruct (actual <? minimum) eqn:E; simpl;
    [apply Z.ltb_lt in E|apply Z.ltb_ge in E]; split; intros; try done; lia.
Qed.

Lemma is_ok_maximum role maximum actual health :
  is_ok (check_provider_maximum role maximum actual health) = true <-> actual <= maximum.
Proof.
  unfold check_provider_maximum. destruct (maximum <? actual) eqn:E; simpl;
    [apply Z.ltb_lt in E|apply Z.ltb_ge in E]; split; intros; try done; lia.
Qed.

Lemma is_ok_optional_maximum role maximum actual health :
  is_ok (check_optional_maximum role maximum actual health) = true <->
  forall m, maximum = Some m -> actual <= m.
Proof.
  destruct maximum as [m|]; simpl; [|naive_solver]. rewrite is_ok_maximum. naive_solver.
Qed.

(** The checks before a cycle pass exactly when provider health is not
    required, or the providers are not degraded and every minimum is reached and every
    maximum kept. *)
Theorem check_before_cycle_spec policy health :
  is_ok (check_before_cycle policy health) = true <->
  (pol_require_healthy_providers policy = true ->
   let p := hr_provider_health health in
   ph_degraded p = false /\
   pol_minimum_fresh_online_providers policy <= ph_fresh_online_providers p /\
   pol_minimum_object_transfer_providers policy <= ph_object_transfer_providers p /\
   pol_minimum_availability_providers policy <= ph_availability_providers p /\
   pol_minimum_mutable_root_providers policy <= ph_mutable_root_providers p /\
   (forall m, pol_maximum_stale_online_providers policy = Some m ->
      ph_stale_online_providers p <= m) /\
   (forall m, pol_maximum_offline_providers policy = Some m -> ph_offline_providers p <= m)).
Proof.
  unfold check_before_cycle. destruct (pol_require_healthy_providers policy); simpl;
    [|naive_solver].
  destruct (ph_degraded (hr_provider_health health)); simpl; [naive_solver|].
  rewrite !is_ok_check, !andb_true_iff, !is_ok_minimum, !is_ok_optional_maximum. naive_solver.
Qed.
