(* ===== verification/Endpoints.v ===== *)
(** * Endpoints of retention providers

    Models the endpoint references of storage providers in
    [crates/profile-sync/src/lib.rs] and the in-process fixture references of
    [crates/broadwebd/src/lib.rs]: their classification, and the plans that group the
    endpoints of the selected providers by what has to open them. *)
From S2P Require Import Prelude RustStr Routing SyncHealth.

(** ** In-process fixtures *)

Definition IN_PROCESS_PROFILE_SYNC_FIXTURE_ENDPOINT_PREFIX : string :=
  "slate-fixture-profile-sync://".

Record InProcessProfileSyncFixtureEndpointRef := {
  fx_network_id : string;
  fx_provider_id : string
}.

Definition is_in_process_profile_sync_fixture_endpoint_token (token : string) : bool :=
  negb (is_empty token) && (str_len token <=? 512)
  && all_bytes (fun c => is_ascii_alphanumeric c || one_of "-_" c) token.

Definition parse_in_process_profile_sync_fixture_endpoint_ref (endpoint_ref : string) :
    option InProcessProfileSyncFixtureEndpointRef :=
  match strip_prefix IN_PROCESS_PROFILE_SYNC_FIXTURE_ENDPOINT_PREFIX endpoint_ref with
  | None => None
  | Some endpoint =>
      match split_once "/" endpoint with
      | None => None
      | Some (network_id, provider_id) =>
          if negb (is_in_process_profile_sync_fixture_endpoint_token network_id)
             || negb (is_in_process_profile_sync_fixture_endpoint_token provider_id)
          then None
          else Some {| fx_network_id := network_id; fx_provider_id := provider_id |}
      end
  end.

(** ** Classification *)

Inductive SettingsSyncStoredProviderEndpointStatus :=
  | MissingEndpoint
  | InProcessFixture
  | MultiaddrEndpoint
  | DeferredProtocol
  | Unsupported.
#[export] Instance SettingsSyncStoredProviderEndpointStatus_eq_dec :
  EqDecision SettingsSyncStoredProviderEndpointStatus.
Proof. solve_decision. Defined.
Definition status_eqb (a b : SettingsSyncStoredProviderEndpointStatus) : bool :=
  bool_decide (a = b).

Definition PROFILE_SYNC_DEFERRED_PROVIDER_PROTOCOL : string := "provider".
Definition PROFILE_SYNC_DEFERRED_IROH_NODE_PROTOCOL : string := "iroh-node".
Definition PROFILE_SYNC_DEFERRED_TOR_ONION_PROTOCOL : string := "tor-onion".
Definition PROFILE_SYNC_DEFERRED_I2P_DESTINATION_PROTOCOL : string := "i2p-destination".

Record DeferredProtocolEndpoint := { de_protocol : string; de_target : string }.

Definition is_endpoint_token (token : string) : bool :=
  negb (is_empty token) && (str_len token <=? 512)
  && all_bytes (fun c => is_ascii_alphanumeric c || one_of "-_.:~%+=" c) token.

Definition deferred_protocols : list (string * string) :=
  [("provider:", PROFILE_SYNC_DEFERRED_PROVIDER_PROTOCOL);
   ("iroh-node:", PROFILE_SYNC_DEFERRED_IROH_NODE_PROTOCOL);
   ("tor-onion:", PROFILE_SYNC_DEFERRED_TOR_ONION_PROTOCOL);
   ("i2p-destination:", PROFILE_SYNC_DEFERRED_I2P_DESTINATION_PROTOCOL)].

(** The first prefix with a target. *)
Fixpoint find_deferred_protocol (protocols : list (string * string)) (endpoint_ref : string) :
    option DeferredProtocolEndpoint :=
  match protocols with
  | [] => None
  | (prefix, protocol) :: protocols =>
      match strip_prefix prefix endpoint_ref with
      | Some target =>
          if is_endpoint_token target
          then Some {| de_protocol := protocol; de_target := target |}
          else find_deferred_protocol protocols endpoint_ref
      | None => find_deferred_protocol protocols endpoint_ref
      end
  end.

Definition parse_deferred_protocol_endpoint (endpoint_ref : string) :
    option DeferredProtocolEndpoint :=
  find_deferred_protocol deferred_protocols endpoint_ref.

Definition is_deferred_protocol_endpoint (endpoint_ref : string) : bool :=
  match parse_deferred_protocol_endpoint endpoint_ref with Some _ => true | None => false end.

Definition is_multiaddr_like_endpoint (endpoint_ref : string) : bool :=
  match multiaddr_parse endpoint_ref with
  | Ok m => 2 <=? usize_len (segments m)
  | Err _ => false
  end.

Definition classify_profile_sync_provider_endpoint (provider_id : string)
    (endpoint_ref : option string) : SettingsSyncStoredProviderEndpointStatus :=
  match option_map trim endpoint_ref with
  | None => MissingEndpoint
  | Some endpoint_ref =>
      if is_empty endpoint_ref then MissingEndpoint
      else if starts_with IN_PROCESS_PROFILE_SYNC_FIXTURE_ENDPOINT_PREFIX endpoint_ref then
        match parse_in_process_profile_sync_fixture_endpoint_ref endpoint_ref with
        | Some endpoint =>
            if str_eqb (fx_provider_id endpoint) provider_id then InProcessFixture
            else Unsupported
        | None => Unsupported
        end
      else if starts_with "fixture:" endpoint_ref then Unsupported
      else if is_multiaddr_like_endpoint endpoint_ref then MultiaddrEndpoint
      else if is_deferred_protocol_endpoint endpoint_ref then DeferredProtocol
      else Unsupported
  end.

Definition classify_stored_provider_endpoint (provider_id : string)
    (endpoint_ref : option string) : SettingsSyncStoredProviderEndpointStatus :=
  classify_profile_sync_provider_endpoint provider_id endpoint_ref.

(** ** Endpoints and requests *)

Record SettingsSyncStoredRetentionProviderEndpoint := {
  ep_provider_id : string;
  ep_endpoint_ref : option string;
  ep_endpoint_status : SettingsSyncStoredProviderEndpointStatus
}.

Record SettingsSyncSelectedEndpointMaterializationRequest := {
  rq_provider_id : string;
  rq_endpoint_ref : option string;
  rq_endpoint_status : SettingsSyncStoredProviderEndpointStatus
}.

Record SettingsSyncSelectedMultiaddrMaterializationRequest := {
  mr_provider_id : string;
  mr_endpoint : Multiaddr
}.

Record SettingsSyncSelectedDeferredProtocolMaterializationRequest := {
  dr_provider_id : string;
  dr_protocol : string;
  dr_target : string
}.

Inductive SettingsSyncProtocolProviderMaterializationTargetKind :=
  | MultiaddrTarget
  | DeferredProtocolTarget (protocol : string).

Record SettingsSyncProtocolProviderMaterializationTarget := {
  mt_provider_id : string;
  mt_endpoint_ref : string;
  mt_kind : SettingsSyncProtocolProviderMaterializationTargetKind
}.

Definition multiaddr_endpoint_ref (r : SettingsSyncSelectedMultiaddrMaterializationRequest) :
    string := as_str (mr_endpoint r).

Definition multiaddr_materialization_target
    (r : SettingsSyncSelectedMultiaddrMaterializationRequest) :
    SettingsSyncProtocolProviderMaterializationTarget :=
  {| mt_provider_id := mr_provider_id r; mt_endpoint_ref := multiaddr_endpoint_ref r;
     mt_kind := MultiaddrTarget |}.

Definition PROFILE_SYNC_PROVIDER_MULTIADDR_PRIVACY_BOUNDARY : string :=
  "profile-sync provider endpoint; no browser navigation or public gateway fallback".

Definition routing_plan (r : SettingsSyncSelectedMultiaddrMaterializationRequest) : RoutingPlan :=
  routing_plan_new ("profile-sync-provider:" +:+ mr_provider_id r) (mr_endpoint r) Direct
    PROFILE_SYNC_PROVIDER_MULTIADDR_PRIVACY_BOUNDARY.

Definition deferred_endpoint_ref
    (r : SettingsSyncSelectedDeferredProtocolMaterializationRequest) : string :=
  dr_protocol r +:+ ":" +:+ dr_target r.

Definition deferred_materialization_target
    (r : SettingsSyncSelectedDeferredProtocolMaterializationRequest) :
    SettingsSyncProtocolProviderMaterializationTarget :=
  {| mt_provider_id := dr_provider_id r; mt_endpoint_ref := deferred_endpoint_ref r;
     mt_kind := DeferredProtocolTarget (dr_protocol r) |}.

Definition fixture_ready (r : SettingsSyncSelectedEndpointMaterializationRequest) : bool :=
  status_eqb (rq_endpoint_status r) InProcessFixture.

Definition pending_materialization (r : SettingsSyncSelectedEndpointMaterializationRequest) :
    bool :=
  match rq_endpoint_status r with
  | MissingEndpoint | MultiaddrEndpoint | DeferredProtocol => true
  | InProcessFixture | Unsupported => false
  end.

Definition fail_closed (r : SettingsSyncSelectedEndpointMaterializationRequest) : bool :=
  status_eqb (rq_endpoint_status r) Unsupported.

Definition parsed_multiaddr (r : SettingsSyncSelectedEndpointMaterializationRequest) :
    option Multiaddr :=
  if negb (status_eqb (rq_endpoint_status r) MultiaddrEndpoint) then None
  else match rq_endpoint_ref r with
       | Some endpoint_ref =>
           match multiaddr_parse endpoint_ref with Ok m => Some m | Err _ => None end
       | None => None
       end.

Definition multiaddr_materialization_request
    (r : SettingsSyncSelectedEndpointMaterializationRequest) :
    option SettingsSyncSelectedMultiaddrMaterializationRequest :=
  option_map (fun endpoint => {| mr_provider_id := rq_provider_id r; mr_endpoint := endpoint |})
    (parsed_multiaddr r).

Definition deferred_protocol_materialization_request
    (r : SettingsSyncSelectedEndpointMaterializationRequest) :
    option SettingsSyncSelectedDeferredProtocolMaterializationRequest :=
  if negb (status_eqb (rq_endpoint_status r) DeferredProtocol) then None
  else match rq_endpoint_ref r with
       | Some endpoint_ref =>
           option_map (fun endpoint =>
             {| dr_provider_id := rq_provider_id r; dr_protocol := de_protocol endpoint;
                dr_target := de_target endpoint |})
             (parse_deferred_protocol_endpoint endpoint_ref)
       | None => None
       end.

(** ** Plans *)

Record SettingsSyncSelectedProtocolMaterializationPlan := {
  pp_multiaddr_requests : list SettingsSyncSelectedMultiaddrMaterializationRequest;
  pp_deferred_protocol_requests : list SettingsSyncSelectedDeferredProtocolMaterializationRequest;
  pp_missing_endpoint_provider_ids : list string;
  pp_fail_closed_provider_ids : list string
}.

Record SettingsSyncSelectedDeferredProtocolMaterializationBatch := {
  db_protocol : string;
  db_requests : list SettingsSyncSelectedDeferredProtocolMaterializationRequest
}.

Definition batch_request_count (b : SettingsSyncSelectedDeferredProtocolMaterializationBatch) :
    Z := usize_len (db_requests b).
Definition batch_provider_ids (b : SettingsSyncSelectedDeferredProtocolMaterializationBatch) :
    list string := map dr_provider_id (db_requests b).

Definition materialization_targets (p : SettingsSyncSelectedProtocolMaterializationPlan) :
    list SettingsSyncProtocolProviderMaterializationTarget :=
  map multiaddr_materialization_target (pp_multiaddr_requests p)
  ++ map deferred_materialization_target (pp_deferred_protocol_requests p).

Definition multiaddr_routing_plans (p : SettingsSyncSelectedProtocolMaterializationPlan) :
    list RoutingPlan := map routing_plan (pp_multiaddr_requests p).

(** [batches.entry(protocol).or_default().push(request)], in a [BTreeMap]. *)
Definition deferred_protocol_batches (p : SettingsSyncSelectedProtocolMaterializationPlan) :
    list SettingsSyncSelectedDeferredProtocolMaterializationBatch :=
  let batches := fold_left (fun batches request =>
    <[dr_protocol request := default [] (batches !! dr_protocol request) ++ [request]]> batches)
    (pp_deferred_protocol_requests p)
    (∅ : gmap string (list SettingsSyncSelectedDeferredProtocolMaterializationRequest)) in
  map (fun '(protocol, requests) => {| db_protocol := protocol; db_requests := requests |})
    (btree_iter batches).

Definition deferred_protocol_batch_count (p : SettingsSyncSelectedProtocolMaterializationPlan) :
    Z := usize_len (deferred_protocol_batches p).
Definition protocol_request_count (p : SettingsSyncSelectedProtocolMaterializationPlan) : Z :=
  usize_len (pp_multiaddr_requests p) + usize_len (pp_deferred_protocol_requests p).
Definition protocol_plan_requires_protocol_materializer
    (p : SettingsSyncSelectedProtocolMaterializationPlan) : bool :=
  0 <? protocol_request_count p.
Definition has_missing_endpoint (p : SettingsSyncSelectedProtocolMaterializationPlan) : bool :=
  negb (usize_len (pp_missing_endpoint_provider_ids p) =? 0).
Definition protocol_plan_has_fail_closed_endpoint
    (p : SettingsSyncSelectedProtocolMaterializationPlan) : bool :=
  negb (usize_len (pp_fail_closed_provider_ids p) =? 0).
Definition ready_for_protocol_materialization
    (p : SettingsSyncSelectedProtocolMaterializationPlan) : bool :=
  protocol_plan_requires_protocol_materializer p && negb (has_missing_endpoint p)
  && negb (protocol_plan_has_fail_closed_endpoint p).

Record SettingsSyncSelectedEndpointMaterializationPlan := {
  plan_requests : list SettingsSyncSelectedEndpointMaterializationRequest
}.

Inductive SettingsSyncSelectedEndpointMaterializationIssueKind :=
  MissingEndpointIssue | UnsupportedEndpointIssue.

Record SettingsSyncSelectedEndpointMaterializationIssue := {
  ei_provider_id : string;
  ei_kind : SettingsSyncSelectedEndpointMaterializationIssueKind
}.

Section EndpointPlan.
Context (plan : SettingsSyncSelectedEndpointMaterializationPlan).

Definition request_count : Z := usize_len (plan_requests plan).

(** The requests with a property, their number and their providers. *)
Definition fixture_ready_requests := List.filter fixture_ready (plan_requests plan).
Definition fixture_ready_request_count : Z := Z.of_nat (count_if fixture_ready (plan_requests plan)).
Definition fixture_ready_provider_ids : list string := map rq_provider_id fixture_ready_requests.

Definition pending_requests := List.filter pending_materialization (plan_requests plan).
Definition pending_request_count : Z :=
  Z.of_nat (count_if pending_materialization (plan_requests plan)).
Definition pending_provider_ids : list string := map rq_provider_id pending_requests.

Definition multiaddr_requests : list SettingsSyncSelectedMultiaddrMaterializationRequest :=
  omap multiaddr_materialization_request (plan_requests plan).
Definition multiaddr_request_count : Z := usize_len multiaddr_requests.
Definition multiaddr_provider_ids : list string := map mr_provider_id multiaddr_requests.

Definition deferred_protocol_requests :
    list SettingsSyncSelectedDeferredProtocolMaterializationRequest :=
  omap deferred_protocol_materialization_request (plan_requests plan).
Definition deferred_protocol_request_count : Z := usize_len deferred_protocol_requests.
Definition deferred_protocol_provider_ids : list string :=
  map dr_provider_id deferred_protocol_requests.

Definition fail_closed_requests := List.filter fail_closed (plan_requests plan).
Definition fail_closed_request_count : Z := Z.of_nat (count_if fail_closed (plan_requests plan)).
Definition fail_closed_provider_ids : list string := map rq_provider_id fail_closed_requests.

Definition endpoint_issue_kind (status : SettingsSyncStoredProviderEndpointStatus) :
    option SettingsSyncSelectedEndpointMaterializationIssueKind :=
  match status with
  | MissingEndpoint => Some MissingEndpointIssue
  | Unsupported => Some UnsupportedEndpointIssue
  | InProcessFixture | MultiaddrEndpoint | DeferredProtocol => None
  end.

Definition endpoint_plan_materialization_issues :
    list SettingsSyncSelectedEndpointMaterializationIssue :=
  omap (fun request =>
    option_map (fun kind => {| ei_provider_id := rq_provider_id request; ei_kind := kind |})
      (endpoint_issue_kind (rq_endpoint_status request))) (plan_requests plan).

Definition endpoint_plan_materialization_issue_count : Z :=
  Z.of_nat (count_if (fun request =>
    match rq_endpoint_status request with MissingEndpoint | Unsupported => true | _ => false end)
    (plan_requests plan)).

Definition endpoint_plan_has_materialization_issue : bool :=
  0 <? endpoint_plan_materialization_issue_count.

Definition endpoint_plan_requires_protocol_materializer : bool :=
  existsb pending_materialization (plan_requests plan).

Definition protocol_materialization_plan : SettingsSyncSelectedProtocolMaterializationPlan :=
  {| pp_multiaddr_requests := multiaddr_requests;
     pp_deferred_protocol_requests := deferred_protocol_requests;
     pp_missing_endpoint_provider_ids :=
       map rq_provider_id
         (List.filter (fun request => status_eqb (rq_endpoint_status request) MissingEndpoint)
            (plan_requests plan));
     pp_fail_closed_provider_ids := fail_closed_provider_ids |}.

Definition has_fail_closed_request : bool := existsb fail_closed (plan_requests plan).

Definition ready_for_fixture_materialization_only : bool :=
  negb endpoint_plan_requires_protocol_materializer && negb has_fail_closed_request.
End EndpointPlan.

(** ** Selected endpoints *)

Definition endpoint_provider_ids_with_status
    (endpoints : list SettingsSyncStoredRetentionProviderEndpoint)
    (status : SettingsSyncStoredProviderEndpointStatus) : list string :=
  map ep_provider_id
    (List.filter (fun endpoint => status_eqb (ep_endpoint_status endpoint) status) endpoints).

Definition endpoint_provider_count_with_status
    (endpoints : list SettingsSyncStoredRetentionProviderEndpoint)
    (status : SettingsSyncStoredProviderEndpointStatus) : Z :=
  Z.of_nat (count_if (fun endpoint => status_eqb (ep_endpoint_status endpoint) status) endpoints).

Definition selected_with_status (endpoints : list SettingsSyncStoredRetentionProviderEndpoint)
    (status : SettingsSyncStoredProviderEndpointStatus) (provider_id : string) : bool :=
  existsb (fun endpoint => str_eqb (ep_provider_id endpoint) provider_id
                           && status_eqb (ep_endpoint_status endpoint) status) endpoints.

Definition selected_endpoint_provider_ids_with_status
    (endpoints : list SettingsSyncStoredRetentionProviderEndpoint)
    (selected_provider_ids : list string) (status : SettingsSyncStoredProviderEndpointStatus) :
    list string :=
  List.filter (selected_with_status endpoints status) selected_provider_ids.

Definition selected_endpoint_provider_count_with_status
    (endpoints : list SettingsSyncStoredRetentionProviderEndpoint)
    (selected_provider_ids : list string) (status : SettingsSyncStoredProviderEndpointStatus) :
    Z :=
  Z.of_nat (count_if (selected_with_status endpoints status) selected_provider_ids).

Record SettingsSyncSelectedEndpointMaterializationPreview := {
  pv_fixture_ready_provider_ids : list string;
  pv_missing_endpoint_provider_ids : list string;
  pv_multiaddr_provider_ids : list string;
  pv_deferred_protocol_provider_ids : list string;
  pv_unsupported_provider_ids : list string
}.

Definition selected_endpoint_materialization_preview
    (endpoints : list SettingsSyncStoredRetentionProviderEndpoint)
    (selected_provider_ids : list string) : SettingsSyncSelectedEndpointMaterializationPreview :=
  let ids := selected_endpoint_provider_ids_with_status endpoints selected_provider_ids in
  {| pv_fixture_ready_provider_ids := ids InProcessFixture;
     pv_missing_endpoint_provider_ids := ids MissingEndpoint;
     pv_multiaddr_provider_ids := ids MultiaddrEndpoint;
     pv_deferred_protocol_provider_ids := ids DeferredProtocol;
     pv_unsupported_provider_ids := ids Unsupported |}.

Definition ready_provider_count (p : SettingsSyncSelectedEndpointMaterializationPreview) : Z :=
  usize_len (pv_fixture_ready_provider_ids p).
Definition pending_materialization_provider_count
    (p : SettingsSyncSelectedEndpointMaterializationPreview) : Z :=
  usize_len (pv_missing_endpoint_provider_ids p) + usize_len (pv_multiaddr_provider_ids p)
  + usize_len (pv_deferred_protocol_provider_ids p).
Definition preview_fail_closed_provider_count
    (p : SettingsSyncSelectedEndpointMaterializationPreview) : Z :=
  usize_len (pv_unsupported_provider_ids p).

Definition append_selected_endpoint_materialization_issues
    (issues : list SettingsSyncSelectedEndpointMaterializationIssue)
    (kind : SettingsSyncSelectedEndpointMaterializationIssueKind) (provider_ids : list string) :
    list SettingsSyncSelectedEndpointMaterializationIssue :=
  issues ++ map (fun provider_id => {| ei_provider_id := provider_id; ei_kind := kind |})
              provider_ids.

Definition preview_materialization_issues
    (p : SettingsSyncSelectedEndpointMaterializationPreview) :
    list SettingsSyncSelectedEndpointMaterializationIssue :=
  let issues := append_selected_endpoint_materialization_issues [] MissingEndpointIssue
                  (pv_missing_endpoint_provider_ids p) in
  append_selected_endpoint_materialization_issues issues UnsupportedEndpointIssue
    (pv_unsupported_provider_ids p).

Definition preview_materialization_issue_count
    (p : SettingsSyncSelectedEndpointMaterializationPreview) : Z :=
  usize_len (pv_missing_endpoint_provider_ids p) + usize_len (pv_unsupported_provider_ids p).

Definition request_of_endpoint (endpoint : SettingsSyncStoredRetentionProviderEndpoint) :
    SettingsSyncSelectedEndpointMaterializationRequest :=
  {| rq_provider_id := ep_provider_id endpoint; rq_endpoint_ref := ep_endpoint_ref endpoint;
     rq_endpoint_status := ep_endpoint_status endpoint |}.

Definition selected_endpoint_materialization_requests
    (endpoints : list SettingsSyncStoredRetentionProviderEndpoint)
    (selected_provider_ids : list string) :
    list SettingsSyncSelectedEndpointMaterializationRequest :=
  omap (fun provider_id =>
    option_map request_of_endpoint
      (list_find_bool (fun endpoint => str_eqb (ep_provider_id endpoint) provider_id) endpoints))
    selected_provider_ids.

Definition selected_endpoint_materialization_plan
    (endpoints : list SettingsSyncStoredRetentionProviderEndpoint)
    (selected_provider_ids : list string) : SettingsSyncSelectedEndpointMaterializationPlan :=
  {| plan_requests := selected_endpoint_materialization_requests endpoints selected_provider_ids |}.
