(* ===== verification/Retention.v ===== *)
(** * Selection and materialisation of retention providers

    Models the choice of retention providers of [crates/profile-sync/src/lib.rs]: which
    of the stored storage providers may hold objects of the profile, which of them are
    fresh candidates, and which can be reached through the handles at hand.  A client of a
    daemon is an element of a type that nothing here looks into. *)
From S2P Require Import Prelude RustStr AppViews Database AppData AppOps SyncObjects.
From S2P Require Import Membership.
From S2P Require Import Broadwebd Routing SyncHealth Endpoints.

(** [push(id)] guarded by [seen.insert(id)]: the set holds the elements of the list. *)
Definition push_unseen (id : string) (l : list string) : list string :=
  if existsb (str_eqb id) l then l else l ++ [id].

Definition contains_id (ids : list string) (id : string) : bool := existsb (str_eqb id) ids.

(** ** Plans of a cycle *)

Record SettingsSyncCyclePreflight := {
  pf_profile : string;
  pf_settings_root_id : string;
  pf_local_device_id : string;
  pf_signer_device_id : string;
  pf_active_key_id : string;
  pf_trusted_remote_device_count : Z;
  pf_retention_provider_candidates : list ProfileSyncProviderRecord;
  pf_before_health : SettingsSyncHealthReport
}.

Record SettingsSyncScheduledCyclePlan := {
  cp_preflight : SettingsSyncCyclePreflight;
  cp_selected_retention_provider_ids : list string;
  cp_stale_retention_provider_ids : list string;
  cp_offline_retention_provider_ids : list string;
  cp_ineligible_retention_provider_ids : list string;
  cp_undiscovered_retention_provider_ids : list string;
  cp_duplicate_retention_provider_ids : list string
}.

Inductive SettingsSyncRetentionProviderSelectionIssueKind :=
  StaleProvider | OfflineProvider | IneligibleProvider | UndiscoveredProvider | DuplicateProvider.

Record SettingsSyncRetentionProviderSelectionIssue := {
  si_provider_id : string;
  si_kind : SettingsSyncRetentionProviderSelectionIssueKind
}.

Definition append_retention_provider_selection_issues
    (kind : SettingsSyncRetentionProviderSelectionIssueKind) (provider_ids : list string)
    (issues : list SettingsSyncRetentionProviderSelectionIssue) :
    list SettingsSyncRetentionProviderSelectionIssue :=
  issues ++ map (fun provider_id => {| si_provider_id := provider_id; si_kind := kind |})
              provider_ids.

Definition retention_provider_selection_issues (stale offline ineligible undiscovered duplicate :
    list string) : list SettingsSyncRetentionProviderSelectionIssue :=
  let issues := append_retention_provider_selection_issues StaleProvider stale [] in
  let issues := append_retention_provider_selection_issues OfflineProvider offline issues in
  let issues := append_retention_provider_selection_issues IneligibleProvider ineligible issues in
  let issues :=
    append_retention_provider_selection_issues UndiscoveredProvider undiscovered issues in
  append_retention_provider_selection_issues DuplicateProvider duplicate issues.

Definition retention_provider_selection_issue_count
    (stale offline ineligible undiscovered duplicate : list string) : Z :=
  usize_len stale + usize_len offline + usize_len ineligible + usize_len undiscovered
  + usize_len duplicate.

Definition plan_selection_issues (p : SettingsSyncScheduledCyclePlan) :
    list SettingsSyncRetentionProviderSelectionIssue :=
  retention_provider_selection_issues (cp_stale_retention_provider_ids p)
    (cp_offline_retention_provider_ids p) (cp_ineligible_retention_provider_ids p)
    (cp_undiscovered_retention_provider_ids p) (cp_duplicate_retention_provider_ids p).

Definition plan_selection_issue_count (p : SettingsSyncScheduledCyclePlan) : Z :=
  retention_provider_selection_issue_count (cp_stale_retention_provider_ids p)
    (cp_offline_retention_provider_ids p) (cp_ineligible_retention_provider_ids p)
    (cp_undiscovered_retention_provider_ids p) (cp_duplicate_retention_provider_ids p).

Definition plan_has_selection_issue (p : SettingsSyncScheduledCyclePlan) : bool :=
  0 <? plan_selection_issue_count p.
Definition plan_retention_candidate_count (p : SettingsSyncScheduledCyclePlan) : Z :=
  usize_len (pf_retention_provider_candidates (cp_preflight p)).
Definition plan_selected_count (p : SettingsSyncScheduledCyclePlan) : Z :=
  usize_len (cp_selected_retention_provider_ids p).
Definition plan_degraded_before (p : SettingsSyncScheduledCyclePlan) : bool :=
  report_degraded (pf_before_health (cp_preflight p)).

(** What a configured provider is to the preflight. *)
Inductive ProviderStanding := Candidate | Stale | Offline | Ineligible | Undiscovered.
#[export] Instance ProviderStanding_eq_dec : EqDecision ProviderStanding.
Proof. solve_decision. Defined.

Definition provider_standing (preflight : SettingsSyncCyclePreflight) (provider_id : string) :
    ProviderStanding :=
  let health := hr_provider_health (pf_before_health preflight) in
  if contains_id (map prec_provider_id (pf_retention_provider_candidates preflight)) provider_id
  then Candidate
  else if contains_id (ph_stale_online_provider_ids health) provider_id then Stale
  else if contains_id (ph_offline_provider_ids health) provider_id then Offline
  else if contains_id (ph_fresh_online_provider_ids health) provider_id then Ineligible
  else Undiscovered.

(** The body of the loop over the configured providers. *)
Definition select_provider (plan : SettingsSyncScheduledCyclePlan) (provider_id : string) :
    SettingsSyncScheduledCyclePlan :=
  let '(Build_SettingsSyncScheduledCyclePlan preflight selected stale offline ineligible
          undiscovered duplicate) := plan in
  let build := Build_SettingsSyncScheduledCyclePlan preflight in
  match provider_standing preflight provider_id with
  | Stale =>
      build selected (push_unseen provider_id stale) offline ineligible undiscovered duplicate
  | Offline =>
      build selected stale (push_unseen provider_id offline) ineligible undiscovered duplicate
  | Ineligible =>
      build selected stale offline (push_unseen provider_id ineligible) undiscovered duplicate
  | Undiscovered =>
      build selected stale offline ineligible (push_unseen provider_id undiscovered) duplicate
  | Candidate =>
      if contains_id selected provider_id
      then build selected stale offline ineligible undiscovered
             (push_unseen provider_id duplicate)
      else build (selected ++ [provider_id]) stale offline ineligible undiscovered duplicate
  end.

Definition empty_cycle_plan (preflight : SettingsSyncCyclePreflight) :
    SettingsSyncScheduledCyclePlan :=
  Build_SettingsSyncScheduledCyclePlan preflight [] [] [] [] [] [].

Definition select_settings_sync_retention_provider_ids (preflight : SettingsSyncCyclePreflight)
    (retention_provider_ids : list string) : SettingsSyncScheduledCyclePlan :=
  fold_left select_provider retention_provider_ids (empty_cycle_plan preflight).

(** ** Stored providers *)

Record StoredRetentionProviderSelection := {
  ss_stored_provider_count : Z;
  ss_enabled_retention_provider_ids : list string;
  ss_enabled_retention_provider_endpoints : list SettingsSyncStoredRetentionProviderEndpoint;
  ss_disabled_provider_ids : list string;
  ss_stored_role_ineligible_provider_ids : list string;
  ss_unauthorized_provider_ids : list string
}.

Definition stored_endpoint (provider : StorageProviderRecord) :
    SettingsSyncStoredRetentionProviderEndpoint :=
  {| ep_provider_id := spr_provider_id provider;
     ep_endpoint_ref := spr_endpoint_ref provider;
     ep_endpoint_status :=
       classify_stored_provider_endpoint (spr_provider_id provider) (spr_endpoint_ref provider) |}.

(** The body of the loop over the stored providers. *)
Definition select_stored_provider (authorized_provider_ids : gset string)
    (s : StoredRetentionProviderSelection) (provider : StorageProviderRecord) :
    StoredRetentionProviderSelection :=
  let '(Build_StoredRetentionProviderSelection count enabled endpoints disabled ineligible
          unauthorized) := s in
  let build := Build_StoredRetentionProviderSelection count in
  if negb (spr_enabled provider)
  then build enabled endpoints (disabled ++ [spr_provider_id provider]) ineligible unauthorized
  else if negb (spr_availability provider && spr_object_transfer provider)
  then build enabled endpoints disabled (ineligible ++ [spr_provider_id provider]) unauthorized
  else if negb (bool_decide (spr_provider_id provider ∈ authorized_provider_ids))
  then build enabled endpoints disabled ineligible (unauthorized ++ [spr_provider_id provider])
  else build (enabled ++ [spr_provider_id provider]) (endpoints ++ [stored_endpoint provider])
         disabled ineligible unauthorized.

Definition select_stored_retention_provider_ids (providers : list StorageProviderRecord)
    (authorized_provider_ids : gset string) : StoredRetentionProviderSelection :=
  fold_left (select_stored_provider authorized_provider_ids) providers
    (Build_StoredRetentionProviderSelection (usize_len providers) [] [] [] [] []).

(** [sync_devices(profile)] and [sync_device_public_keys(profile)]. *)
Definition trusted_provider_authority_device_ids (profile : string) (db : ProfileDb) :
    gset string :=
  let authorities := list_to_set (map sd_device_id
    (List.filter sd_provider_authority (sync_devices profile db))) : gset string in
  list_to_set (map (fun r => pk_device_id (sk_public_key r))
    (List.filter (fun r => sk_trusted r
                           && bool_decide (pk_device_id (sk_public_key r) ∈ authorities))
       (sync_device_public_keys profile db))).

Definition load_stored_retention_provider_selection (profile : string)
    (max_stored_providers : Z) : storage StoredRetentionProviderSelection :=
  let* stored_providers := storage_providers profile max_stored_providers in
  let* authorized_provider_ids := query (trusted_provider_authority_device_ids profile) in
  sr_ret (select_stored_retention_provider_ids stored_providers authorized_provider_ids).

Record SettingsSyncStoredRetentionProviderPlan := {
  srp_max_stored_provider_count : Z;
  srp_stored_provider_count : Z;
  srp_enabled_retention_provider_ids : list string;
  srp_enabled_retention_provider_endpoints : list SettingsSyncStoredRetentionProviderEndpoint;
  srp_disabled_provider_ids : list string;
  srp_stored_role_ineligible_provider_ids : list string;
  srp_unauthorized_provider_ids : list string;
  srp_cycle : SettingsSyncScheduledCyclePlan
}.

Definition settings_sync_stored_retention_provider_plan (preflight : SettingsSyncCyclePreflight)
    (max_stored_provider_count : Z) (stored_selection : StoredRetentionProviderSelection) :
    SettingsSyncStoredRetentionProviderPlan :=
  {| srp_max_stored_provider_count := max_stored_provider_count;
     srp_stored_provider_count := ss_stored_provider_count stored_selection;
     srp_enabled_retention_provider_ids := ss_enabled_retention_provider_ids stored_selection;
     srp_enabled_retention_provider_endpoints :=
       ss_enabled_retention_provider_endpoints stored_selection;
     srp_disabled_provider_ids := ss_disabled_provider_ids stored_selection;
     srp_stored_role_ineligible_provider_ids :=
       ss_stored_role_ineligible_provider_ids stored_selection;
     srp_unauthorized_provider_ids := ss_unauthorized_provider_ids stored_selection;
     srp_cycle := select_settings_sync_retention_provider_ids preflight
                   (ss_enabled_retention_provider_ids stored_selection) |}.

Inductive SettingsSyncStoredRetentionProviderMetadataIssueKind :=
  DisabledIssue | StoredRoleIneligibleIssue | UnauthorizedIssue.

Record SettingsSyncStoredRetentionProviderMetadataIssue := {
  mi_provider_id : string;
  mi_kind : SettingsSyncStoredRetentionProviderMetadataIssueKind
}.

Definition append_stored_provider_metadata_issues
    (kind : SettingsSyncStoredRetentionProviderMetadataIssueKind) (provider_ids : list string)
    (issues : list SettingsSyncStoredRetentionProviderMetadataIssue) :
    list SettingsSyncStoredRetentionProviderMetadataIssue :=
  issues ++ map (fun provider_id => {| mi_provider_id := provider_id; mi_kind := kind |})
              provider_ids.

Definition stored_provider_metadata_issues (disabled role_ineligible unauthorized : list string) :
    list SettingsSyncStoredRetentionProviderMetadataIssue :=
  let issues := append_stored_provider_metadata_issues DisabledIssue disabled [] in
  let issues :=
    append_stored_provider_metadata_issues StoredRoleIneligibleIssue role_ineligible issues in
  append_stored_provider_metadata_issues UnauthorizedIssue unauthorized issues.

Definition stored_provider_metadata_issue_count
    (disabled role_ineligible unauthorized : list string) : Z :=
  usize_len disabled + usize_len role_ineligible + usize_len unauthorized.

(** ** Handles *)

Section Handles.
Context {Daemon : Type}.

Record SettingsSyncRetentionProviderHandle := {
  rh_provider_id : string;
  rh_endpoint_ref : option string;
  rh_daemon : Daemon
}.

Definition handle_new (provider_id : string) (daemon : Daemon) :
    SettingsSyncRetentionProviderHandle :=
  {| rh_provider_id := provider_id; rh_endpoint_ref := None; rh_daemon := daemon |}.
Definition with_endpoint_ref (provider_id endpoint_ref : string) (daemon : Daemon) :
    SettingsSyncRetentionProviderHandle :=
  {| rh_provider_id := provider_id; rh_endpoint_ref := Some endpoint_ref; rh_daemon := daemon |}.

(** The daemons of the first handle of each selected provider. *)
Fixpoint first_selected_daemons (selected seen : list string)
    (handles : list SettingsSyncRetentionProviderHandle) : list Daemon :=
  match handles with
  | [] => []
  | handle :: handles =>
      if contains_id selected (rh_provider_id handle)
         && negb (contains_id seen (rh_provider_id handle))
      then rh_daemon handle
           :: first_selected_daemons selected (rh_provider_id handle :: seen) handles
      else first_selected_daemons selected seen handles
  end.

Record SelectedSettingsSyncRetentionProviders := {
  sel_plan : SettingsSyncScheduledCyclePlan;
  sel_daemons : list Daemon
}.

Definition select_settings_sync_retention_provider_handles
    (preflight : SettingsSyncCyclePreflight)
    (handles : list SettingsSyncRetentionProviderHandle) :
    SelectedSettingsSyncRetentionProviders :=
  let plan := select_settings_sync_retention_provider_ids preflight
                (map rh_provider_id handles) in
  {| sel_plan := plan;
     sel_daemons :=
       first_selected_daemons (cp_selected_retention_provider_ids plan) [] handles |}.

(** ** Materialising stored providers *)

Record MaterializedStoredRetentionProviders := {
  ms_materialized_ids : list string;
  ms_unmaterialized_ids : list string;
  ms_pending_ids : list string;
  ms_endpoint_mismatch_ids : list string;
  ms_duplicate_handle_ids : list string;
  ms_unsupported_endpoint_ids : list string;
  ms_daemons : list Daemon
}.

Record SettingsSyncStoredRetentionProviderHandleMaterialization := {
  hm_materialized_retention_provider_ids : list string;
  hm_unmaterialized_retention_provider_ids : list string;
  hm_pending_endpoint_materialization_retention_provider_ids : list string;
  hm_endpoint_mismatch_retention_provider_ids : list string;
  hm_duplicate_handle_retention_provider_ids : list string;
  hm_unsupported_endpoint_retention_provider_ids : list string
}.

Definition materialized_retention_provider_count (m : MaterializedStoredRetentionProviders) : Z :=
  usize_len (ms_daemons m).

Definition materialized_report (m : MaterializedStoredRetentionProviders) :
    SettingsSyncStoredRetentionProviderHandleMaterialization :=
  {| hm_materialized_retention_provider_ids := ms_materialized_ids m;
     hm_unmaterialized_retention_provider_ids := ms_unmaterialized_ids m;
     hm_pending_endpoint_materialization_retention_provider_ids := ms_pending_ids m;
     hm_endpoint_mismatch_retention_provider_ids := ms_endpoint_mismatch_ids m;
     hm_duplicate_handle_retention_provider_ids := ms_duplicate_handle_ids m;
     hm_unsupported_endpoint_retention_provider_ids := ms_unsupported_endpoint_ids m |}.

Definition endpoint_of (plan : SettingsSyncStoredRetentionProviderPlan) (provider_id : string) :
    option SettingsSyncStoredRetentionProviderEndpoint :=
  list_find_bool (fun endpoint => str_eqb (ep_provider_id endpoint) provider_id)
    (srp_enabled_retention_provider_endpoints plan).

Definition stored_provider_endpoint_status (plan : SettingsSyncStoredRetentionProviderPlan)
    (provider_id : string) : SettingsSyncStoredProviderEndpointStatus :=
  default Unsupported (option_map ep_endpoint_status (endpoint_of plan provider_id)).

Definition stored_provider_endpoint_matches_handle
    (plan : SettingsSyncStoredRetentionProviderPlan) (provider_id : string)
    (handle_endpoint_ref : option string) : bool :=
  match endpoint_of plan provider_id with
  | Some endpoint =>
      match ep_endpoint_ref endpoint with
      | Some stored_endpoint_ref => bool_decide (handle_endpoint_ref = Some stored_endpoint_ref)
      | None => true
      end
  | None => true
  end.

Definition empty_materialized : MaterializedStoredRetentionProviders :=
  Build_MaterializedStoredRetentionProviders [] [] [] [] [] [] [].

(** The body of the loop over the selected providers. *)
Definition materialize_stored_provider (plan : SettingsSyncStoredRetentionProviderPlan)
    (handles : list SettingsSyncRetentionProviderHandle)
    (m : MaterializedStoredRetentionProviders) (provider_id : string) :
    MaterializedStoredRetentionProviders :=
  let '(Build_MaterializedStoredRetentionProviders done unmaterialized pending mismatch duplicate
          unsupported daemons) := m in
  let status := stored_provider_endpoint_status plan provider_id in
  if status_eqb status Unsupported
  then Build_MaterializedStoredRetentionProviders done unmaterialized pending mismatch duplicate
         (unsupported ++ [provider_id]) daemons
  else
    match List.filter (fun handle => str_eqb (rh_provider_id handle) provider_id) handles with
    | handle :: more =>
        match more with
        | _ :: _ =>
            Build_MaterializedStoredRetentionProviders done unmaterialized pending mismatch
              (duplicate ++ [provider_id]) unsupported daemons
        | [] =>
            if negb (stored_provider_endpoint_matches_handle plan provider_id
                       (rh_endpoint_ref handle))
            then Build_MaterializedStoredRetentionProviders done unmaterialized pending
                   (mismatch ++ [provider_id]) duplicate unsupported daemons
            else Build_MaterializedStoredRetentionProviders (done ++ [provider_id])
                   unmaterialized pending mismatch duplicate unsupported
                   (daemons ++ [rh_daemon handle])
        end
    | [] =>
        match status with
        | MissingEndpoint | MultiaddrEndpoint | DeferredProtocol =>
            Build_MaterializedStoredRetentionProviders done unmaterialized
              (pending ++ [provider_id]) mismatch duplicate unsupported daemons
        | _ =>
            Build_MaterializedStoredRetentionProviders done (unmaterialized ++ [provider_id])
              pending mismatch duplicate unsupported daemons
        end
    end.

Definition materialize_stored_retention_provider_daemons
    (plan : SettingsSyncStoredRetentionProviderPlan)
    (handles : list SettingsSyncRetentionProviderHandle) : MaterializedStoredRetentionProviders :=
  fold_left (materialize_stored_provider plan handles)
    (cp_selected_retention_provider_ids (srp_cycle plan)) empty_materialized.

Definition selected_retention_provider_handle_materialization
    (plan : SettingsSyncStoredRetentionProviderPlan)
    (handles : list SettingsSyncRetentionProviderHandle) :
    SettingsSyncStoredRetentionProviderHandleMaterialization :=
  materialized_report (materialize_stored_retention_provider_daemons plan handles).

Definition blocked_retention_provider_count
    (m : SettingsSyncStoredRetentionProviderHandleMaterialization) : Z :=
  usize_len (hm_unmaterialized_retention_provider_ids m)
  + usize_len (hm_pending_endpoint_materialization_retention_provider_ids m)
  + usize_len (hm_endpoint_mismatch_retention_provider_ids m)
  + usize_len (hm_duplicate_handle_retention_provider_ids m)
  + usize_len (hm_unsupported_endpoint_retention_provider_ids m).

Definition all_selected_providers_materialized
    (m : SettingsSyncStoredRetentionProviderHandleMaterialization) : bool :=
  blocked_retention_provider_count m =? 0.

(** ** In-process fixtures *)

Record SettingsSyncInProcessFixtureMaterializationTarget := {
  ft_provider_id : string;
  ft_fixture_network_id : string;
  ft_endpoint_ref : string
}.

Record SettingsSyncInProcessFixtureProviderDaemon := {
  fd_provider_id : string;
  fd_fixture_network_id : string;
  fd_daemon : Daemon
}.

Record SettingsSyncInProcessFixtureMaterializedProvider := {
  fp_provider_id : string;
  fp_fixture_network_id : string;
  fp_endpoint_ref : string;
  fp_daemon : Daemon
}.

Record SettingsSyncInProcessFixtureMaterialization := {
  fm_materialized_providers : list SettingsSyncInProcessFixtureMaterializedProvider;
  fm_missing_provider_ids : list string;
  fm_network_mismatch_provider_ids : list string;
  fm_duplicate_provider_ids : list string
}.

Definition selected_in_process_fixture_materialization_targets
    (endpoints : list SettingsSyncStoredRetentionProviderEndpoint)
    (selected_provider_ids : list string) :
    list SettingsSyncInProcessFixtureMaterializationTarget :=
  omap (fun provider_id =>
    match list_find_bool (fun endpoint =>
            str_eqb (ep_provider_id endpoint) provider_id
            && status_eqb (ep_endpoint_status endpoint) InProcessFixture) endpoints with
    | None => None
    | Some endpoint =>
        match ep_endpoint_ref endpoint with
        | None => None
        | Some endpoint_ref =>
            match parse_in_process_profile_sync_fixture_endpoint_ref endpoint_ref with
            | None => None
            | Some fixture =>
                if negb (str_eqb (fx_provider_id fixture) provider_id) then None
                else Some {| ft_provider_id := provider_id;
                             ft_fixture_network_id := fx_network_id fixture;
                             ft_endpoint_ref := endpoint_ref |}
            end
        end
    end) selected_provider_ids.

Definition materialize_fixture (provider_daemons : list SettingsSyncInProcessFixtureProviderDaemon)
    (m : SettingsSyncInProcessFixtureMaterialization)
    (target : SettingsSyncInProcessFixtureMaterializationTarget) :
    SettingsSyncInProcessFixtureMaterialization :=
  let '(Build_SettingsSyncInProcessFixtureMaterialization done missing mismatch duplicate) := m in
  match List.filter (fun provider => str_eqb (fd_provider_id provider) (ft_provider_id target))
          provider_daemons with
  | [] =>
      Build_SettingsSyncInProcessFixtureMaterialization done
        (missing ++ [ft_provider_id target]) mismatch duplicate
  | _ :: _ :: _ =>
      Build_SettingsSyncInProcessFixtureMaterialization done missing mismatch
        (duplicate ++ [ft_provider_id target])
  | [provider] =>
      if negb (str_eqb (fd_fixture_network_id provider) (ft_fixture_network_id target))
      then Build_SettingsSyncInProcessFixtureMaterialization done missing
             (mismatch ++ [ft_provider_id target]) duplicate
      else Build_SettingsSyncInProcessFixtureMaterialization
             (done ++ [{| fp_provider_id := ft_provider_id target;
                          fp_fixture_network_id := ft_fixture_network_id target;
                          fp_endpoint_ref := ft_endpoint_ref target;
                          fp_daemon := fd_daemon provider |}]) missing mismatch duplicate
  end.

Definition materialize_selected_in_process_fixture_retention_provider_handles
    (targets : list SettingsSyncInProcessFixtureMaterializationTarget)
    (provider_daemons : list SettingsSyncInProcessFixtureProviderDaemon) :
    SettingsSyncInProcessFixtureMaterialization :=
  fold_left (materialize_fixture provider_daemons) targets
    (Build_SettingsSyncInProcessFixtureMaterialization [] [] [] []).

Definition fixture_blocked_provider_count (m : SettingsSyncInProcessFixtureMaterialization) : Z :=
  usize_len (fm_missing_provider_ids m) + usize_len (fm_network_mismatch_provider_ids m)
  + usize_len (fm_duplicate_provider_ids m).

Definition fixture_retention_provider_handles (m : SettingsSyncInProcessFixtureMaterialization) :
    list SettingsSyncRetentionProviderHandle :=
  map (fun provider =>
    with_endpoint_ref (fp_provider_id provider) (fp_endpoint_ref provider) (fp_daemon provider))
    (fm_materialized_providers m).

(** ** Protocol providers *)

Record SettingsSyncProtocolProviderDaemon := {
  pd_provider_id : string;
  pd_endpoint_ref : string;
  pd_daemon : Daemon
}.

Record SettingsSyncProtocolMaterializedProvider := {
  pm_provider_id : string;
  pm_endpoint_ref : string;
  pm_daemon : Daemon
}.

Record SettingsSyncProtocolProviderMaterialization := {
  pm_materialized_providers : list SettingsSyncProtocolMaterializedProvider;
  pm_missing_provider_ids : list string;
  pm_endpoint_mismatch_provider_ids : list string;
  pm_duplicate_provider_ids : list string;
  pm_unsupported_provider_ids : list string;
  pm_capacity_exceeded_provider_ids : list string
}.

Inductive SettingsSyncProtocolProviderMaterializerBoundary :=
  RuntimeAdapter | LocalDeterministicSimulation.

Record SettingsSyncProtocolProviderMaterializerPolicy := {
  mp_supports_multiaddr : bool;
  mp_supported_deferred_protocols : list string;
  mp_boundary : SettingsSyncProtocolProviderMaterializerBoundary;
  mp_max_materialized_providers : option Z
}.

Definition runtime_adapters (supports_multiaddr : bool)
    (supported_deferred_protocols : list string) :
    SettingsSyncProtocolProviderMaterializerPolicy :=
  {| mp_supports_multiaddr := supports_multiaddr;
     mp_supported_deferred_protocols := supported_deferred_protocols;
     mp_boundary := RuntimeAdapter; mp_max_materialized_providers := None |}.

Definition local_simulation (supports_multiaddr : bool)
    (supported_deferred_protocols : list string) :
    SettingsSyncProtocolProviderMaterializerPolicy :=
  {| mp_supports_multiaddr := supports_multiaddr;
     mp_supported_deferred_protocols := supported_deferred_protocols;
     mp_boundary := LocalDeterministicSimulation; mp_max_materialized_providers := None |}.

Definition local_deterministic_simulation : SettingsSyncProtocolProviderMaterializerPolicy :=
  local_simulation true
    [PROFILE_SYNC_DEFERRED_PROVIDER_PROTOCOL; PROFILE_SYNC_DEFERRED_IROH_NODE_PROTOCOL;
     PROFILE_SYNC_DEFERRED_TOR_ONION_PROTOCOL; PROFILE_SYNC_DEFERRED_I2P_DESTINATION_PROTOCOL].

Definition with_max_materialized_providers (maximum : Z)
    (p : SettingsSyncProtocolProviderMaterializerPolicy) :
    SettingsSyncProtocolProviderMaterializerPolicy :=
  {| mp_supports_multiaddr := mp_supports_multiaddr p;
     mp_supported_deferred_protocols := mp_supported_deferred_protocols p;
     mp_boundary := mp_boundary p; mp_max_materialized_providers := Some maximum |}.

Definition supports_deferred_protocol (p : SettingsSyncProtocolProviderMaterializerPolicy)
    (protocol : string) : bool :=
  existsb (fun supported => str_eqb supported protocol) (mp_supported_deferred_protocols p).

Definition supports_target (p : SettingsSyncProtocolProviderMaterializerPolicy)
    (target : SettingsSyncProtocolProviderMaterializationTarget) : bool :=
  match mt_kind target with
  | MultiaddrTarget => mp_supports_multiaddr p
  | DeferredProtocolTarget protocol => supports_deferred_protocol p protocol
  end.

Definition at_capacity (p : SettingsSyncProtocolProviderMaterializerPolicy)
    (m : SettingsSyncProtocolProviderMaterialization) : bool :=
  match mp_max_materialized_providers p with
  | Some maximum => maximum <=? usize_len (pm_materialized_providers m)
  | None => false
  end.

(** The body of the loop over the targets. *)
Definition materialize_target (p : SettingsSyncProtocolProviderMaterializerPolicy)
    (provider_daemons : list SettingsSyncProtocolProviderDaemon)
    (m : SettingsSyncProtocolProviderMaterialization)
    (target : SettingsSyncProtocolProviderMaterializationTarget) :
    SettingsSyncProtocolProviderMaterialization :=
  let '(Build_SettingsSyncProtocolProviderMaterialization done missing mismatch duplicate
          unsupported exceeded) := m in
  let id := mt_provider_id target in
  if negb (supports_target p target)
  then Build_SettingsSyncProtocolProviderMaterialization done missing mismatch duplicate
         (unsupported ++ [id]) exceeded
  else
    match List.filter (fun provider => str_eqb (pd_provider_id provider) id)
            provider_daemons with
    | [] =>
        Build_SettingsSyncProtocolProviderMaterialization done (missing ++ [id]) mismatch
          duplicate unsupported exceeded
    | _ :: _ :: _ =>
        Build_SettingsSyncProtocolProviderMaterialization done missing mismatch
          (duplicate ++ [id]) unsupported exceeded
    | [provider] =>
        if negb (str_eqb (pd_endpoint_ref provider) (mt_endpoint_ref target))
        then Build_SettingsSyncProtocolProviderMaterialization done missing (mismatch ++ [id])
               duplicate unsupported exceeded
        else if at_capacity p m
        then Build_SettingsSyncProtocolProviderMaterialization done missing mismatch duplicate
               unsupported (exceeded ++ [id])
        else Build_SettingsSyncProtocolProviderMaterialization
               (done ++ [{| pm_provider_id := id; pm_endpoint_ref := mt_endpoint_ref target;
                            pm_daemon := pd_daemon provider |}])
               missing mismatch duplicate unsupported exceeded
    end.

Definition materialize_protocol_providers (p : SettingsSyncProtocolProviderMaterializerPolicy)
    (provider_daemons : list SettingsSyncProtocolProviderDaemon)
    (plan : SettingsSyncSelectedProtocolMaterializationPlan) :
    SettingsSyncProtocolProviderMaterialization :=
  fold_left (materialize_target p provider_daemons) (materialization_targets plan)
    (Build_SettingsSyncProtocolProviderMaterialization [] [] [] [] [] []).

Definition protocol_retention_provider_handles (m : SettingsSyncProtocolProviderMaterialization) :
    list SettingsSyncRetentionProviderHandle :=
  map (fun provider =>
    with_endpoint_ref (pm_provider_id provider) (pm_endpoint_ref provider) (pm_daemon provider))
    (pm_materialized_providers m).

Definition protocol_blocked_provider_count (m : SettingsSyncProtocolProviderMaterialization) : Z :=
  usize_len (pm_missing_provider_ids m) + usize_len (pm_endpoint_mismatch_provider_ids m)
  + usize_len (pm_duplicate_provider_ids m) + usize_len (pm_unsupported_provider_ids m)
  + usize_len (pm_capacity_exceeded_provider_ids m).
End Handles.
Arguments SettingsSyncRetentionProviderHandle : clear implicits.
Arguments SettingsSyncProtocolProviderDaemon : clear implicits.
Arguments SettingsSyncProtocolProviderMaterialization : clear implicits.
Arguments MaterializedStoredRetentionProviders : clear implicits.

Section PlanEndpoints.
Context (plan : SettingsSyncStoredRetentionProviderPlan).

Definition plan_selected_endpoint_materialization_plan :
    SettingsSyncSelectedEndpointMaterializationPlan :=
  selected_endpoint_materialization_plan (srp_enabled_retention_provider_endpoints plan)
    (cp_selected_retention_provider_ids (srp_cycle plan)).
Definition selected_protocol_materialization_plan :
    SettingsSyncSelectedProtocolMaterializationPlan :=
  protocol_materialization_plan plan_selected_endpoint_materialization_plan.
Definition plan_selected_endpoint_materialization_preview :
    SettingsSyncSelectedEndpointMaterializationPreview :=
  selected_endpoint_materialization_preview (srp_enabled_retention_provider_endpoints plan)
    (cp_selected_retention_provider_ids (srp_cycle plan)).
Definition plan_selected_in_process_fixture_materialization_targets :
    list SettingsSyncInProcessFixtureMaterializationTarget :=
  selected_in_process_fixture_materialization_targets
    (srp_enabled_retention_provider_endpoints plan)
    (cp_selected_retention_provider_ids (srp_cycle plan)).

(** [materialize_selected_protocol_retention_provider_handles], then the handles. *)
Definition selected_protocol_provider_materialization_preview {Daemon}
    (p : SettingsSyncProtocolProviderMaterializerPolicy)
    (provider_daemons : list (SettingsSyncProtocolProviderDaemon Daemon)) :
    SettingsSyncProtocolProviderMaterialization Daemon *
    SettingsSyncStoredRetentionProviderHandleMaterialization :=
  let protocol_materialization :=
    materialize_protocol_providers p provider_daemons selected_protocol_materialization_plan in
  (protocol_materialization,
   selected_retention_provider_handle_materialization plan
     (protocol_retention_provider_handles protocol_materialization)).
End PlanEndpoints.
