(* ===== verification/RetentionLaws.v ===== *)
(** * Laws of the retention providers

    The lists of a selection classify the configured providers; what is selected from the
    stored providers is authorised; what is materialised is reached through exactly one
    handle at the stored endpoint; the plans account for every request. *)
From S2P Require Import Prelude RustStr AppViews Database SyncStore AppData AppOps SyncObjects.
From S2P Require Import Membership.
From S2P Require Import Broadwebd Routing SyncHealth Endpoints Retention.

(** ** Lists of identifiers *)

Lemma contains_id_spec ids id : contains_id ids id = true <-> id ∈ ids.
Proof.
  unfold contains_id. rewrite existsb_exists. split.
  - intros (x & Hx & ->%str_eqb_eq). by apply list_elem_of_In.
  - intros Hid. exists id. split; [by apply list_elem_of_In|by apply str_eqb_refl].
Qed.

Lemma push_unseen_spec id l x : x ∈ push_unseen id l <-> x ∈ l \/ x = id.
Proof.
  unfold push_unseen. destruct (existsb (str_eqb id) l) eqn:E.
  - apply contains_id_spec in E. naive_solver.
  - by rewrite elem_of_app, list_elem_of_singleton.
Qed.

Lemma NoDup_push_unseen id l : NoDup l -> NoDup (push_unseen id l).
Proof.
  unfold push_unseen. destruct (existsb (str_eqb id) l) eqn:E; [done|].
  intros Hl. apply NoDup_app. split_and!; [done| |apply NoDup_singleton].
  intros x Hx ->%list_elem_of_singleton. apply not_true_iff_false in E.
  by apply E, contains_id_spec.
Qed.

Lemma NoDup_snoc {A} (l : list A) x : NoDup l -> x ∉ l -> NoDup (l ++ [x]).
Proof.
  intros Hl Hx. apply NoDup_app. split_and!; [done| |apply NoDup_singleton].
  by intros y Hy ->%list_elem_of_singleton.
Qed.

(** A loop over a list keeps an invariant indexed by the elements done. *)
Lemma fold_left_invariant {A B} (P : list A -> B -> Prop) (f : B -> A -> B) l b :
  P [] b -> (forall done b x, P done b -> P (done ++ [x]) (f b x)) -> P l (fold_left f l b).
Proof.
  intros H0 Hstep. induction l as [|x l IH] using rev_ind; [done|].
  rewrite fold_left_app. simpl. auto.
Qed.

Lemma usize_len_snoc {A} (l : list A) x : usize_len (l ++ [x]) = usize_len l + 1.
Proof. unfold usize_len. rewrite length_app. simpl. lia. Qed.

(** ** Selection *)

Definition occurrences (id : string) (ids : list string) : nat := count_if (str_eqb id) ids.

Lemma occurrences_snoc id ids x :
  occurrences id (ids ++ [x]) = (occurrences id ids + if str_eqb id x then 1 else 0)%nat.
Proof.
  unfold occurrences, count_if. rewrite filter_bool_app, length_app. simpl.
  by destruct (str_eqb id x).
Qed.

Lemma occurrences_pos id ids : (0 < occurrences id ids)%nat <-> id ∈ ids.
Proof.
  unfold occurrences, count_if. split.
  - intros H. destruct (List.filter (str_eqb id) ids) as [|x l] eqn:E; [simpl in H; lia|].
    assert (x ∈ List.filter (str_eqb id) ids) as Hx by (rewrite E; left).
    by apply elem_of_filter_bool in Hx as [->%str_eqb_eq Hx].
  - intros Hid. destruct (List.filter (str_eqb id) ids) as [|x l] eqn:E; [|simpl; lia].
    assert (id ∈ List.filter (str_eqb id) ids) as Hx
      by (apply elem_of_filter_bool; by rewrite str_eqb_refl).
    rewrite E in Hx. by apply elem_of_nil in Hx.
Qed.

(** What the lists of a plan hold after the providers [ids]. *)
Record classifies (preflight : SettingsSyncCyclePreflight) (ids : list string)
    (p : SettingsSyncScheduledCyclePlan) : Prop := {
  cl_preflight : cp_preflight p = preflight;
  cl_selected id : id ∈ cp_selected_retention_provider_ids p <->
    id ∈ ids /\ provider_standing preflight id = Candidate;
  cl_stale id : id ∈ cp_stale_retention_provider_ids p <->
    id ∈ ids /\ provider_standing preflight id = Stale;
  cl_offline id : id ∈ cp_offline_retention_provider_ids p <->
    id ∈ ids /\ provider_standing preflight id = Offline;
  cl_ineligible id : id ∈ cp_ineligible_retention_provider_ids p <->
    id ∈ ids /\ provider_standing preflight id = Ineligible;
  cl_undiscovered id : id ∈ cp_undiscovered_retention_provider_ids p <->
    id ∈ ids /\ provider_standing preflight id = Undiscovered;
  cl_duplicate id : id ∈ cp_duplicate_retention_provider_ids p <->
    (2 <= occurrences id ids)%nat /\ provider_standing preflight id = Candidate;
  cl_nodup : NoDup (cp_selected_retention_provider_ids p) /\
    NoDup (cp_stale_retention_provider_ids p) /\ NoDup (cp_offline_retention_provider_ids p) /\
    NoDup (cp_ineligible_retention_provider_ids p) /\
    NoDup (cp_undiscovered_retention_provider_ids p) /\
    NoDup (cp_duplicate_retention_provider_ids p)
}.

Lemma select_provider_classifies preflight ids p id :
  classifies preflight ids p -> classifies preflight (ids ++ [id]) (select_provider p id).
Proof.
  intros [Hp Hsel Hst Hof Hin Hun Hdup (N1 & N2 & N3 & N4 & N5 & N6)].
  destruct p as [pf selected stale offline ineligible undiscovered duplicate]. simpl in *. subst pf.
  assert (Hocc : forall x, (2 <= occurrences x (ids ++ [id]))%nat <->
    (2 <= occurrences x ids)%nat \/ x = id /\ x ∈ ids).
  { intros x. rewrite occurrences_snoc. destruct (str_eqb x id) eqn:E.
    - apply str_eqb_eq in E as ->. rewrite <-occurrences_pos. split; [|naive_solver lia].
      intros H. destruct (decide (0 < occurrences id ids)%nat); [auto|lia].
    - apply str_eqb_neq in E. split; [|naive_solver lia]. intros H. left. lia. }
  unfold select_provider. destruct (provider_standing preflight id) eqn:Hs;
    [destruct (contains_id selected id) eqn:Hc|..];
    [apply contains_id_spec in Hc|apply not_true_iff_false in Hc; rewrite contains_id_spec in Hc|..];
    (split; simpl; [done|..|split_and!; auto using NoDup_push_unseen, NoDup_snoc];
     intros x; rewrite ?push_unseen_spec, ?Hocc, ?elem_of_app, ?list_elem_of_singleton;
     rewrite ?Hsel, ?Hst, ?Hof, ?Hin, ?Hun, ?Hdup; try rewrite Hsel in Hc;
     destruct (decide (x = id)) as [->|]; intuition congruence).
Qed.

(** The selection for a cycle classifies the configured providers
    completely and without repetition: a provider is selected when it is a fresh candidate,
    reported as stale, offline, ineligible or undiscovered by the first that applies, and
    as a duplicate when a candidate is configured more than once. *)
Theorem selection_classifies preflight ids :
  classifies preflight ids (select_settings_sync_retention_provider_ids preflight ids).
Proof.
  unfold select_settings_sync_retention_provider_ids.
  apply (fold_left_invariant (fun done p => classifies preflight done p));
    [|intros; by apply select_provider_classifies].
  split; simpl; try done; try (intros id; split; [intros H; by apply elem_of_nil in H|]);
    try (intros [H _]; by apply elem_of_nil in H).
  - intros [H _]. unfold occurrences, count_if in H. simpl in H. lia.
  - split_and!; constructor.
Qed.

(** ** Stored providers *)

(** The providers that may be enabled. *)
Definition retention_eligible (authorized : gset string) (p : StorageProviderRecord) : bool :=
  spr_enabled p && (spr_availability p && spr_object_transfer p)
  && bool_decide (spr_provider_id p ∈ authorized).

Lemma select_stored_eligible authorized providers :
  let s := select_stored_retention_provider_ids providers authorized in
  let eligible := List.filter (retention_eligible authorized) providers in
  ss_enabled_retention_provider_ids s = map spr_provider_id eligible /\
  ss_enabled_retention_provider_endpoints s = map stored_endpoint eligible /\
  usize_len (ss_enabled_retention_provider_ids s) + usize_len (ss_disabled_provider_ids s)
  + usize_len (ss_stored_role_ineligible_provider_ids s)
  + usize_len (ss_unauthorized_provider_ids s) = ss_stored_provider_count s.
Proof.
  unfold select_stored_retention_provider_ids.
  set (total := usize_len providers).
  assert (forall done, let s := fold_left (select_stored_provider authorized) done
      (Build_StoredRetentionProviderSelection total [] [] [] [] []) in
    let eligible := List.filter (retention_eligible authorized) done in
    ss_enabled_retention_provider_ids s = map spr_provider_id eligible /\
    ss_enabled_retention_provider_endpoints s = map stored_endpoint eligible /\
    usize_len (ss_enabled_retention_provider_ids s) + usize_len (ss_disabled_provider_ids s)
    + usize_len (ss_stored_role_ineligible_provider_ids s)
    + usize_len (ss_unauthorized_provider_ids s) = usize_len done /\
    ss_stored_provider_count s = total) as H.
  2: { destruct (H providers) as (H1 & H2 & H3 & H4). by rewrite H4. }
  intros done. apply (fold_left_invariant (fun done s =>
    ss_enabled_retention_provider_ids s
      = map spr_provider_id (List.filter (retention_eligible authorized) done) /\
    ss_enabled_retention_provider_endpoints s
      = map stored_endpoint (List.filter (retention_eligible authorized) done) /\
    usize_len (ss_enabled_retention_provider_ids s) + usize_len (ss_disabled_provider_ids s)
    + usize_len (ss_stored_role_ineligible_provider_ids s)
    + usize_len (ss_unauthorized_provider_ids s) = usize_len done /\
    ss_stored_provider_count s = total)); [done|].
  intros l s p (He & Hep & Hlen & Hc). destruct s. simpl in *.
  rewrite filter_bool_app, !map_app, usize_len_snoc. simpl. unfold retention_eligible.
  destruct (spr_enabled p); simpl; [|rewrite usize_len_snoc, !app_nil_r; split_and!; auto; lia].
  destruct (spr_availability p && spr_object_transfer p); simpl;
    [|rewrite usize_len_snoc, !app_nil_r; split_and!; auto; lia].
  destruct (bool_decide (spr_provider_id p ∈ authorized)); simpl;
    [|rewrite usize_len_snoc, !app_nil_r; split_and!; auto; lia].
  rewrite usize_len_snoc. split_and!; [by rewrite He|by rewrite Hep|lia|done].
Qed.

(** The authority of a provider, in the roster and the keys of the profile. *)
Definition provider_authorized (profile : string) (db : ProfileDb) (id : string) : Prop :=
  (exists device, device ∈ sync_devices profile db /\ sd_device_id device = id /\
     sd_provider_authority device = true) /\
  (exists key, key ∈ sync_device_public_keys profile db /\
     pk_device_id (sk_public_key key) = id /\ sk_trusted key = true).

Lemma trusted_provider_authority_spec profile db id :
  id ∈ trusted_provider_authority_device_ids profile db <-> provider_authorized profile db id.
Proof.
  unfold trusted_provider_authority_device_ids, provider_authorized.
  generalize (sync_devices profile db) (sync_device_public_keys profile db). intros devices keys.
  rewrite elem_of_list_to_set, list_elem_of_fmap. setoid_rewrite elem_of_filter_bool.
  setoid_rewrite andb_true_iff. setoid_rewrite bool_decide_eq_true.
  setoid_rewrite elem_of_list_to_set. setoid_rewrite list_elem_of_fmap.
  setoid_rewrite elem_of_filter_bool. split.
  - intros (key & -> & (Ht & device & Hid & Ha & Hd) & Hk). split; [|by exists key].
    by exists device.
  - intros [(device & Hd & Hid & Ha) (key & Hk & <- & Ht)]. exists key.
    split_and!; [done|done| |done]. by exists device.
Qed.

Lemma collect_results_elem {E A B} (f : A -> result E B) l bs b :
  collect_results f l = Ok bs -> b ∈ bs -> exists a, a ∈ l /\ f a = Ok b.
Proof.
  revert bs. induction l as [|a l IH]; intros bs; simpl.
  - intros [= <-] Hb. by apply elem_of_nil in Hb.
  - destruct (f a) as [b0|e] eqn:Ef; [|done].
    destruct (collect_results f l) as [bs0|e]; [|done]. intros [= <-].
    intros [->|Hb]%elem_of_cons; [exists a; split; [left|done]|].
    destruct (IH bs0 eq_refl Hb) as (a' & Ha & Hf). exists a'. split; [by right|done].
Qed.

Lemma elem_of_select_rows {P} (order : AppRow P -> AppRow P -> comparison) (profile : string)
    (limit : Z) (rows : gmap (string * string) (AppRow P)) (row : AppRow P) :
  row ∈ select_rows order profile limit rows ->
  exists id, rows !! (profile, id) = Some row.
Proof.
  unfold select_rows, sql_limit. intros (i & Hi & _)%elem_of_take.
  apply list_elem_of_lookup_2 in Hi. apply elem_of_sort_by in Hi as Hrow.
  unfold btree_values in Hrow. apply list_elem_of_fmap in Hrow as ([[p id] row'] & -> & Hrow).
  apply elem_of_btree_iter in Hrow. apply map_lookup_filter_Some in Hrow as [Hrow Hp].
  simpl in Hp. subst p. by exists id.
Qed.

Lemma stored_selection_loaded profile max_stored db db' s :
  load_stored_retention_provider_selection profile max_stored db = (db', Ok s) ->
  db' = db /\ exists records,
    storage_providers profile max_stored db = (db, Ok records) /\
    s = select_stored_retention_provider_ids records
          (trusted_provider_authority_device_ids profile db).
Proof.
  unfold load_stored_retention_provider_selection. intros E.
  apply sr_bind_ok in E as (db1 & providers & E1 & E).
  apply sr_bind_ok in E as (db2 & authorized & E2 & E). injection E2 as <- <-.
  injection E as <- <-. pose proof E1 as E1'. unfold storage_providers, query_rows in E1'.
  apply sr_bind_ok in E1' as (db2 & rows & E2 & E1'). injection E2 as <- <-.
  unfold sr_lift in E1'. injection E1' as <- _. eauto.
Qed.

(** An enabled provider is authorised. *)
Lemma eligible_authorized profile db records id :
  id ∈ ss_enabled_retention_provider_ids (select_stored_retention_provider_ids records
         (trusted_provider_authority_device_ids profile db)) ->
  provider_authorized profile db id /\ exists record, record ∈ records /\
    spr_provider_id record = id /\ spr_enabled record = true /\
    spr_availability record = true /\ spr_object_transfer record = true.
Proof.
  destruct (select_stored_eligible (trusted_provider_authority_device_ids profile db) records)
    as (Hen & _). rewrite Hen. intros (record & -> & Hr)%list_elem_of_fmap.
  apply elem_of_filter_bool in Hr as [Hel Hr]. unfold retention_eligible in Hel.
  rewrite !andb_true_iff, bool_decide_eq_true in Hel.
  destruct Hel as ((Hena & Hav & Htr) & Hauth).
  split; [by apply trusted_provider_authority_spec|]. by exists record.
Qed.

(** The profile stores the provider enabled, with availability and object transfer. *)
Definition provider_offered (profile : string) (db : ProfileDb) (id : string) : Prop :=
  exists key row, tbl_storage_providers (db_app db) !! (profile, key) = Some row /\
    sp_provider_id (row_payload row) = id /\ sp_enabled (row_payload row) = true /\
    sp_availability (row_payload row) = true /\ sp_object_transfer (row_payload row) = true.

Lemma loaded_selection_offered profile max_stored db db' s id :
  load_stored_retention_provider_selection profile max_stored db = (db', Ok s) ->
  id ∈ ss_enabled_retention_provider_ids s ->
  provider_authorized profile db id /\ provider_offered profile db id.
Proof.
  intros (_ & records & E1 & ->)%stored_selection_loaded Hid.
  apply eligible_authorized in Hid as (Hauth & record & Hr & <- & Hena & Hav & Htr).
  split; [done|]. unfold storage_providers, query_rows in E1.
  apply sr_bind_ok in E1 as (db2 & rows & E2 & E1). injection E2 as <- <-.
  unfold sr_lift in E1. injection E1 as Hrows.
  destruct (collect_results _ _) as [records'|e] eqn:Hcol; [|done]. injection Hrows as ->.
  destruct (collect_results_elem _ _ _ _ Hcol Hr) as (row & Hrow & Hf).
  apply elem_of_select_rows in Hrow as (key & Hrow). exists key, row. split; [done|].
  unfold storage_provider_record_from_row in Hf. revert Hf.
  destruct (option_try _ (sp_quota_bytes _)); [|done].
  destruct (option_try _ (sp_max_retained_objects _)); [|done]. intros [= <-]. done.
Qed.

(** C29: (safety) A stored provider is used for retention only when it is enabled, offers
    availability and object transfer, and its device is both a provider authority of the
    roster and trusted by a public key; every stored provider read is accounted for. *)
Theorem stored_selection_authorized profile max_stored db db' s :
  load_stored_retention_provider_selection profile max_stored db = (db', Ok s) ->
  db' = db /\
  (forall id, id ∈ ss_enabled_retention_provider_ids s ->
    provider_authorized profile db id /\
    exists key row, tbl_storage_providers (db_app db) !! (profile, key) = Some row /\
      sp_provider_id (row_payload row) = id /\ sp_enabled (row_payload row) = true /\
      sp_availability (row_payload row) = true /\ sp_object_transfer (row_payload row) = true) /\
  usize_len (ss_enabled_retention_provider_ids s) + usize_len (ss_disabled_provider_ids s)
  + usize_len (ss_stored_role_ineligible_provider_ids s)
  + usize_len (ss_unauthorized_provider_ids s) = ss_stored_provider_count s.
Proof.
  intros Hload. split_and!.
  - by apply stored_selection_loaded in Hload as [-> _].
  - intros id Hid. by eapply loaded_selection_offered.
  - apply stored_selection_loaded in Hload as (_ & records & _ & ->).
    apply select_stored_eligible.
Qed.

(** ** Materialisation *)

Section Materialisation.
Context {Daemon : Type}.
Implicit Types (handles : list (SettingsSyncRetentionProviderHandle Daemon)).

Definition handles_of (id : string) handles : list (SettingsSyncRetentionProviderHandle Daemon) :=
  List.filter (fun handle => str_eqb (rh_provider_id handle) id) handles.

(** The provider [id] is reached through the one handle of that provider. *)
Definition reached (plan : SettingsSyncStoredRetentionProviderPlan) handles
    (id : string) (daemon : Daemon) : Prop :=
  exists handle, handles_of id handles = [handle] /\ rh_daemon handle = daemon /\
    stored_provider_endpoint_status plan id <> Unsupported /\
    forall endpoint endpoint_ref, endpoint_of plan id = Some endpoint ->
      ep_endpoint_ref endpoint = Some endpoint_ref -> rh_endpoint_ref handle = Some endpoint_ref.

Lemma matches_handle_spec plan id handle_endpoint_ref :
  stored_provider_endpoint_matches_handle plan id handle_endpoint_ref = true <->
  forall endpoint endpoint_ref, endpoint_of plan id = Some endpoint ->
    ep_endpoint_ref endpoint = Some endpoint_ref -> handle_endpoint_ref = Some endpoint_ref.
Proof.
  unfold stored_provider_endpoint_matches_handle.
  destruct (endpoint_of plan id) as [e|]; [|naive_solver].
  destruct (ep_endpoint_ref e) as [r|] eqn:E; [rewrite bool_decide_eq_true|]; naive_solver.
Qed.

Lemma status_eqb_spec a b : status_eqb a b = true <-> a = b.
Proof. unfold status_eqb. by rewrite bool_decide_eq_true. Qed.

(** Every selected provider is either materialised or reported as blocked, never both or
    neither; a materialised provider has a supported endpoint and exactly one handle, whose
    endpoint is the stored one, and its daemon is that handle's. *)
Lemma materialization_accounts plan handles :
  let m := materialize_stored_retention_provider_daemons plan handles in
  let selected := cp_selected_retention_provider_ids (srp_cycle plan) in
  usize_len (ms_materialized_ids m) + blocked_retention_provider_count (materialized_report m)
    = usize_len selected /\
  materialized_retention_provider_count m = usize_len (ms_materialized_ids m) /\
  Forall2 (reached plan handles) (ms_materialized_ids m) (ms_daemons m) /\
  (forall id, id ∈ selected ->
    id ∈ ms_materialized_ids m <-> exists daemon, reached plan handles id daemon).
Proof.
  unfold materialize_stored_retention_provider_daemons, materialized_retention_provider_count,
    blocked_retention_provider_count.
  apply (fold_left_invariant (fun done (m : MaterializedStoredRetentionProviders Daemon) =>
    usize_len (ms_materialized_ids m)
      + blocked_retention_provider_count (materialized_report m) = usize_len done /\
    usize_len (ms_daemons m) = usize_len (ms_materialized_ids m) /\
    Forall2 (reached plan handles) (ms_materialized_ids m) (ms_daemons m) /\
    (forall id, id ∈ done ->
      id ∈ ms_materialized_ids m <-> exists daemon, reached plan handles id daemon))).
  { split_and!; [done|done|constructor|]. intros id Hid. by apply elem_of_nil in Hid. }
  intros done m x (Hsum & Hcount & Hreach & Hiff). rewrite usize_len_snoc, <-Hsum.
  assert (Hkeep : (forall daemon, ~ reached plan handles x daemon) ->
    (forall id, id ∈ done ++ [x] ->
      id ∈ ms_materialized_ids m <-> exists daemon, reached plan handles id daemon)).
  { intros Hno id [Hid| ->%list_elem_of_singleton]%elem_of_app; [by apply Hiff|].
    split; [|intros [dm Hd]; by apply Hno in Hd].
    intros Hx. apply list_elem_of_lookup in Hx as [i Hx].
    destruct (Forall2_lookup_l _ _ _ _ _ Hreach Hx) as (dm & _ & Hd). by apply Hno in Hd. }
  destruct m as [ids unmat pend mism dup unsup ds]. simpl in *.
  unfold materialize_stored_provider, blocked_retention_provider_count, materialized_report in *.
  destruct (status_eqb (stored_provider_endpoint_status plan x) Unsupported) eqn:Hst.
  { apply status_eqb_spec in Hst. simpl. rewrite usize_len_snoc.
    split_and!; [lia|done|done|]. apply Hkeep. by intros dm (h & _ & _ & Hne & _). }
  assert (Hst' : stored_provider_endpoint_status plan x <> Unsupported).
  { intros He. apply status_eqb_spec in He. congruence. }
  fold (handles_of x handles). destruct (handles_of x handles) as [|h [|h' hs]] eqn:Hh.
  - assert (forall dm, ~ reached plan handles x dm) by (intros dm (h & Hf & _); congruence).
    destruct (stored_provider_endpoint_status plan x) eqn:Hs; try done; simpl;
      rewrite usize_len_snoc; (split_and!; [lia|done|done|by apply Hkeep]).
  - destruct (stored_provider_endpoint_matches_handle plan x (rh_endpoint_ref h)) eqn:Hm; simpl.
    + rewrite matches_handle_spec in Hm. rewrite !usize_len_snoc. assert (Hr : reached plan handles x (rh_daemon h)) by by exists h.
      split_and!; [lia|lia|apply Forall2_app; [done|by constructor]|].
      intros id Hid. rewrite elem_of_app, list_elem_of_singleton.
      apply elem_of_app in Hid as [Hid| ->%list_elem_of_singleton]; [|naive_solver].
      rewrite Hiff by done. split; [intros [?| ->]; [done|eauto]|auto].
    + rewrite usize_len_snoc. split_and!; [lia|done|done|]. apply Hkeep.
      intros dm (h2 & Hf & _ & _ & Hm2). rewrite Hh in Hf. injection Hf as <-.
      apply (proj2 (matches_handle_spec plan x _)) in Hm2. congruence.
  - simpl. rewrite usize_len_snoc. split_and!; [lia|done|done|]. apply Hkeep.
    intros dm (h2 & Hf & _). rewrite Hh in Hf. done.
Qed.

Lemma materialized_selected plan handles id :
  id ∈ ms_materialized_ids (materialize_stored_retention_provider_daemons plan handles) ->
  id ∈ cp_selected_retention_provider_ids (srp_cycle plan).
Proof.
  unfold materialize_stored_retention_provider_daemons. revert id.
  apply (fold_left_invariant (fun done (m : MaterializedStoredRetentionProviders Daemon) =>
    forall id, id ∈ ms_materialized_ids m -> id ∈ done)); [done|].
  intros done [ids unmat pend mism dup unsup ds] x Hin id. simpl in Hin.
  unfold materialize_stored_provider. rewrite elem_of_app.
  repeat case_match; simpl; rewrite ?elem_of_app; naive_solver.
Qed.
End Materialisation.

(** ** Endpoints and plans *)

Lemma starts_with_nonempty p s : starts_with p s = true -> is_empty p = false -> is_empty s = false.
Proof. intros [rest ->]%starts_with_spec Hp. by destruct p. Qed.

Lemma multiaddr_parse_ok e m : multiaddr_parse e = Ok m -> as_str m = e.
Proof.
  unfold multiaddr_parse, multiaddr_from_str. repeat case_match; intros H'; simplify_eq; done.
Qed.

(** A deferred endpoint is rebuilt from its protocol and target. *)
Lemma parse_deferred_endpoint e p :
  parse_deferred_protocol_endpoint e = Some p -> de_protocol p +:+ ":" +:+ de_target p = e.
Proof.
  unfold parse_deferred_protocol_endpoint.
  assert (Hpre : Forall (fun '(prefix, protocol) => prefix = protocol +:+ ":") deferred_protocols)
    by (repeat constructor).
  induction Hpre as [|[prefix protocol] l -> _ IH]; simpl; [done|].
  destruct (strip_prefix (protocol +:+ ":") e) as [target|] eqn:Hs; [|done].
  apply strip_prefix_Some in Hs as ->. destruct (is_endpoint_token target); [|done].
  intros [= <-]. simpl. by rewrite str_app_assoc.
Qed.

(** The classification of an endpoint without surrounding white space. *)
Lemma classify_trimmed id e :
  trim e = e ->
  match classify_profile_sync_provider_endpoint id (Some e) with
  | MultiaddrEndpoint => is_ok (multiaddr_parse e) = true
  | DeferredProtocol => is_Some (parse_deferred_protocol_endpoint e)
  | _ => True
  end.
Proof.
  intros Ht. unfold classify_profile_sync_provider_endpoint. simpl. rewrite Ht.
  destruct (is_empty e); [done|].
  destruct (starts_with IN_PROCESS_PROFILE_SYNC_FIXTURE_ENDPOINT_PREFIX e).
  { destruct (parse_in_process_profile_sync_fixture_endpoint_ref e); [|done].
    by destruct (str_eqb _ _). }
  destruct (starts_with "fixture:" e); [done|].
  destruct (is_multiaddr_like_endpoint e) eqn:Hm.
  { unfold is_multiaddr_like_endpoint in Hm. by destruct (multiaddr_parse e). }
  destruct (is_deferred_protocol_endpoint e) eqn:Hd; [|done].
  unfold is_deferred_protocol_endpoint in Hd. by destruct (parse_deferred_protocol_endpoint e).
Qed.

(** A request as the plans are made of: classified by its endpoint, which has no
    surrounding white space. *)
Definition well_classified (r : SettingsSyncSelectedEndpointMaterializationRequest) : Prop :=
  rq_endpoint_status r
    = classify_profile_sync_provider_endpoint (rq_provider_id r) (rq_endpoint_ref r) /\
  forall e, rq_endpoint_ref r = Some e -> trim e = e.

Lemma request_accounted r :
  well_classified r ->
  (if fixture_ready r then 1 else 0)
  + usize_len (option_list (multiaddr_materialization_request r))
  + usize_len (option_list (deferred_protocol_materialization_request r))
  + (if status_eqb (rq_endpoint_status r) MissingEndpoint then 1 else 0)
  + (if fail_closed r then 1 else 0) = 1.
Proof.
  intros [Hst Htrim]. unfold fixture_ready, fail_closed, multiaddr_materialization_request,
    parsed_multiaddr, deferred_protocol_materialization_request.
  destruct (rq_endpoint_ref r) as [e|] eqn:Hr; [|by rewrite Hst].
  pose proof (classify_trimmed (rq_provider_id r) e (Htrim e eq_refl)) as Hc. rewrite <-Hst in Hc.
  destruct (rq_endpoint_status r); simpl; try done.
  - by destruct (multiaddr_parse e).
  - by destruct Hc as [p ->].
Qed.

Lemma usize_len_omap_cons {A B} (f : A -> option B) x l :
  usize_len (omap f (x :: l)) = usize_len (option_list (f x)) + usize_len (omap f l).
Proof.
  unfold usize_len.
  change (omap f (x :: l)) with (match f x with Some y => y :: omap f l | None => omap f l end).
  destruct (f x); cbn [option_list option_rect length]; lia.
Qed.

Lemma count_if_cons {A} (p : A -> bool) x l :
  Z.of_nat (count_if p (x :: l)) = (if p x then 1 else 0) + Z.of_nat (count_if p l).
Proof. unfold count_if. simpl. destruct (p x); simpl; lia. Qed.

Lemma usize_len_map {A B} (f : A -> B) l : usize_len (map f l) = usize_len l.
Proof. unfold usize_len. by rewrite length_map. Qed.

(** A plan accounts for every request once: it is ready for a fixture, or
    in the protocol plan as a multiaddress request, a deferred request, a missing endpoint
    or a fail-closed one. *)
Theorem protocol_plan_accounts plan :
  Forall well_classified (plan_requests plan) ->
  let p := protocol_materialization_plan plan in
  fixture_ready_request_count plan + protocol_request_count p
  + usize_len (pp_missing_endpoint_provider_ids p) + usize_len (pp_fail_closed_provider_ids p)
  = request_count plan.
Proof.
  destruct plan as [requests]. intros Hall. unfold protocol_materialization_plan,
    fixture_ready_request_count, protocol_request_count, request_count, multiaddr_requests,
    deferred_protocol_requests, fail_closed_provider_ids, fail_closed_requests.
  cbn [plan_requests pp_multiaddr_requests pp_deferred_protocol_requests
       pp_missing_endpoint_provider_ids pp_fail_closed_provider_ids] in *.
  rewrite !usize_len_map. unfold usize_len. fold (count_if fail_closed requests).
  fold (count_if (fun r => status_eqb (rq_endpoint_status r) MissingEndpoint) requests).
  fold (usize_len (omap multiaddr_materialization_request requests)).
  fold (usize_len (omap deferred_protocol_materialization_request requests)).
  induction Hall as [|r l Hr _ IH]; [done|]. rewrite !count_if_cons, !usize_len_omap_cons.
  pose proof (request_accounted r Hr) as Ha. cbn [length]. lia.
Qed.

(** The classification trims an endpoint, but the requests parse it as it is
    stored.  A multiaddress stored with surrounding white space is classified as pending
    and then dropped: the protocol plan is the one without the provider, which is neither
    requested nor reported as missing or fail-closed. *)
Theorem padded_multiaddr_endpoint_dropped id e requests :
  let r := {| rq_provider_id := id; rq_endpoint_ref := Some (" " +:+ e);
              rq_endpoint_status :=
                classify_profile_sync_provider_endpoint id (Some (" " +:+ e)) |} in
  rq_endpoint_status r = MultiaddrEndpoint ->
  pending_materialization r = true /\
  protocol_materialization_plan {| plan_requests := requests ++ [r] |}
  = protocol_materialization_plan {| plan_requests := requests |}.
Proof.
  intros r Hst. split; [unfold pending_materialization; by rewrite Hst|].
  assert (multiaddr_materialization_request r = None) as H1.
  { unfold multiaddr_materialization_request, parsed_multiaddr. by rewrite Hst. }
  assert (deferred_protocol_materialization_request r = None) as H2.
  { unfold deferred_protocol_materialization_request. by rewrite Hst. }
  assert (fail_closed r = false) as H3 by (unfold fail_closed; by rewrite Hst).
  unfold protocol_materialization_plan, multiaddr_requests, deferred_protocol_requests,
    fail_closed_provider_ids, fail_closed_requests. cbn [plan_requests].
  rewrite !omap_app, !filter_bool_app. cbn [omap list_omap List.filter].
  rewrite H1, H2, H3, Hst. by rewrite !app_nil_r.
Qed.

(** ** Protocol providers *)

Section Protocol.
Context {Daemon : Type}.
Context (p : SettingsSyncProtocolProviderMaterializerPolicy).
Context (daemons : list (SettingsSyncProtocolProviderDaemon Daemon)).

(** A provider opened for a target. *)
Definition opened (target : SettingsSyncProtocolProviderMaterializationTarget)
    (provider : SettingsSyncProtocolMaterializedProvider) : Prop :=
  pm_provider_id provider = mt_provider_id target /\
  pm_endpoint_ref provider = mt_endpoint_ref target /\ supports_target p target = true /\
  exists daemon, List.filter (fun d => str_eqb (pd_provider_id d) (mt_provider_id target)) daemons
    = [daemon] /\ pd_endpoint_ref daemon = mt_endpoint_ref target /\
    pd_daemon daemon = pm_daemon provider.

(** What the loop over the targets leaves. *)
Record opens (targets : list SettingsSyncProtocolProviderMaterializationTarget)
    (m : SettingsSyncProtocolProviderMaterialization Daemon) : Prop := {
  op_sum : usize_len (pm_materialized_providers m) + protocol_blocked_provider_count m
    = usize_len targets;
  op_opened : exists opened_targets, opened_targets `sublist_of` targets /\
    Forall2 opened opened_targets (pm_materialized_providers m);
  op_capacity maximum : mp_max_materialized_providers p = Some maximum -> 0 <= maximum ->
    usize_len (pm_materialized_providers m) <= maximum
}.

Lemma materialize_target_opens done m target :
  opens done m -> opens (done ++ [target]) (materialize_target p daemons m target).
Proof.
  intros [Hsum (ts & Hsub & Hop) Hcap]. unfold protocol_blocked_provider_count in Hsum.
  assert (Hskip : exists ts, ts `sublist_of` done ++ [target] /\
    Forall2 opened ts (pm_materialized_providers m)).
  { exists ts. split; [|done]. by apply sublist_inserts_r. }
  destruct m as [ps missing mism dup unsup exc]. simpl in *. unfold materialize_target.
  destruct (supports_target p target) eqn:Hsup; simpl;
    [|split; unfold protocol_blocked_provider_count; simpl; rewrite ?usize_len_snoc; auto; lia].
  destruct (List.filter _ daemons) as [|d [|d' ds]] eqn:Hd;
    [split; unfold protocol_blocked_provider_count; simpl; rewrite ?usize_len_snoc; auto; lia| |
     split; unfold protocol_blocked_provider_count; simpl; rewrite ?usize_len_snoc; auto; lia].
  destruct (str_eqb (pd_endpoint_ref d) (mt_endpoint_ref target)) eqn:He; simpl;
    [|split; unfold protocol_blocked_provider_count; simpl; rewrite ?usize_len_snoc; auto; lia].
  destruct (at_capacity p _) eqn:Hat;
    [split; unfold protocol_blocked_provider_count; simpl; rewrite ?usize_len_snoc; auto; lia|].
  split; unfold protocol_blocked_provider_count; simpl; rewrite ?usize_len_snoc; [lia| |].
  - exists (ts ++ [target]). split; [by apply sublist_app|]. apply Forall2_app; [done|].
    constructor; [|constructor]. split_and!; [done|done|done|]. apply str_eqb_eq in He. by exists d.
  - intros maximum Hm Hpos. unfold at_capacity in Hat. rewrite Hm in Hat.
    apply Z.leb_gt in Hat. simpl in Hat. lia.
Qed.

Lemma materialize_protocol_providers_opens plan :
  opens (materialization_targets plan) (materialize_protocol_providers p daemons plan).
Proof.
  unfold materialize_protocol_providers.
  apply (fold_left_invariant (fun done m => opens done m));
    [|intros; by apply materialize_target_opens].
  split; [done| |intros; simpl; done]. exists []. split; [done|constructor].
Qed.

(** The protocol materialiser opens no more providers than its policy allows
    and accounts for every target; each provider it opens is one of the plan's targets, of a
    supported protocol, with a single daemon at the requested endpoint. *)
Theorem protocol_materialization_bounded plan :
  let m := materialize_protocol_providers p daemons plan in
  (forall maximum, mp_max_materialized_providers p = Some maximum -> 0 <= maximum ->
     usize_len (pm_materialized_providers m) <= maximum) /\
  usize_len (pm_materialized_providers m) + protocol_blocked_provider_count m
    = usize_len (materialization_targets plan) /\
  Forall (fun provider => exists target, target ∈ materialization_targets plan /\
    opened target provider) (pm_materialized_providers m).
Proof.
  destruct (materialize_protocol_providers_opens plan) as [Hsum (ts & Hsub & Hop) Hcap].
  split_and!; [done|done|]. apply Forall_forall. intros provider Hp.
  apply list_elem_of_lookup in Hp as [i Hp].
  destruct (Forall2_lookup_r _ _ _ _ _ Hop Hp) as (t & Ht & Ho). exists t. split; [|done].
  eapply list_elem_of_lookup_2, elem_of_sublist in Ht; done.
Qed.
End Protocol.

(** ** From the protocol plan to the handles *)

Lemma filter_unique {A} (f : A -> string) l x :
  NoDup (map f l) -> x ∈ l -> List.filter (fun y => str_eqb (f y) (f x)) l = [x].
Proof.
  induction l as [|y l IH]; simpl; [by intros _ ?%elem_of_nil|].
  intros [Hy Hl]%NoDup_cons [->|Hx]%elem_of_cons.
  - rewrite str_eqb_refl. f_equal. apply filter_bool_none. intros z Hz.
    apply str_eqb_neq. intros He. apply Hy. rewrite <-He. by apply list_elem_of_fmap_2.
  - destruct (str_eqb (f y) (f x)) eqn:E; [|auto]. apply str_eqb_eq in E.
    destruct Hy. rewrite E. by apply list_elem_of_fmap_2.
Qed.

Lemma map_omap_sublist {A B C} (f : A -> option B) (g : B -> C) (h : A -> C) l :
  (forall a b, f a = Some b -> g b = h a) -> map g (omap f l) `sublist_of` map h l.
Proof.
  intros Hf. induction l as [|a l IH]; [done|].
  change (omap f (a :: l)) with (match f a with Some y => y :: omap f l | None => omap f l end).
  destruct (f a) as [b|] eqn:E; simpl; [rewrite (Hf a b E); by constructor|by constructor].
Qed.

Section Accepted.
Context (plan : SettingsSyncStoredRetentionProviderPlan).
Abbreviation requests := (plan_requests (plan_selected_endpoint_materialization_plan plan)).
Abbreviation targets := (materialization_targets (selected_protocol_materialization_plan plan)).

Lemma request_source r :
  r ∈ requests ->
  rq_provider_id r ∈ cp_selected_retention_provider_ids (srp_cycle plan) /\
  exists endpoint, endpoint_of plan (rq_provider_id r) = Some endpoint /\
    r = request_of_endpoint endpoint.
Proof.
  intros (id & Hid & Hr)%list_elem_of_omap. unfold endpoint_of.
  destruct (list_find_bool _ _) as [endpoint|] eqn:Hf; [|done]. injection Hr as <-.
  pose proof Hf as [_ He%str_eqb_eq]%list_find_bool_Some. simpl. rewrite He.
  split; [done|by exists endpoint].
Qed.

(** A target keeps the stored endpoint of its provider. *)
Lemma target_source t :
  t ∈ targets ->
  exists r, r ∈ requests /\ rq_provider_id r = mt_provider_id t /\
    rq_endpoint_ref r = Some (mt_endpoint_ref t) /\
    match mt_kind t with
    | MultiaddrTarget => rq_endpoint_status r = MultiaddrEndpoint
    | DeferredProtocolTarget _ => rq_endpoint_status r = DeferredProtocol
    end.
Proof.
  intros [Ht|Ht]%elem_of_app; apply list_elem_of_fmap in Ht as (q & -> & Hq);
    apply list_elem_of_omap in Hq as (r & Hr & Hq); exists r; (split; [done|]).
  - unfold multiaddr_materialization_request, parsed_multiaddr in Hq.
    destruct (status_eqb _ _) eqn:Hst; [|done]. apply status_eqb_spec in Hst. simpl in Hq.
    destruct (rq_endpoint_ref r) as [e|]; [|done].
    destruct (multiaddr_parse e) as [m|] eqn:Hm; [|done]. injection Hq as <-.
    apply multiaddr_parse_ok in Hm. split_and!; [done| |done]. f_equal. symmetry. exact Hm.
  - unfold deferred_protocol_materialization_request in Hq.
    destruct (status_eqb _ _) eqn:Hst; [|done]. apply status_eqb_spec in Hst. simpl in Hq.
    destruct (rq_endpoint_ref r) as [e|]; [|done].
    destruct (parse_deferred_protocol_endpoint e) as [de|] eqn:Hm; [|done]. injection Hq as <-.
    apply parse_deferred_endpoint in Hm. split_and!; [done| |done]. f_equal. symmetry. exact Hm.
Qed.

Lemma targets_nodup :
  NoDup (cp_selected_retention_provider_ids (srp_cycle plan)) -> NoDup (map mt_provider_id targets).
Proof.
  intros Hsel. assert (Hreq : NoDup (map rq_provider_id requests)).
  { eapply sublist_NoDup; [exact Hsel|]. rewrite <-(map_id (cp_selected_retention_provider_ids _)).
    apply map_omap_sublist. intros id r Hr.
    destruct (list_find_bool _ _) as [endpoint|] eqn:Hf; [|done]. injection Hr as <-.
    by apply list_find_bool_Some in Hf as [_ He%str_eqb_eq]. }
  unfold materialization_targets. rewrite map_app, !map_map. apply NoDup_app. split_and!.
  - eapply sublist_NoDup; [exact Hreq|]. apply map_omap_sublist. intros r q Hq.
    unfold multiaddr_materialization_request in Hq. destruct (parsed_multiaddr r); [|done].
    by injection Hq as <-.
  - intros id Hm Hd.
    assert (exists t, t ∈ targets /\ mt_provider_id t = id /\ mt_kind t = MultiaddrTarget)
      as (t & Ht & <- & Hkt).
    { apply list_elem_of_fmap in Hm as (q & -> & Hq).
      exists (multiaddr_materialization_target q).
      split_and!; [|done|done]. apply elem_of_app. left. by apply list_elem_of_fmap_2. }
    assert (exists t', t' ∈ targets /\ mt_provider_id t' = mt_provider_id t /\
      exists pr, mt_kind t' = DeferredProtocolTarget pr) as (t' & Ht' & Hid & pr & Hkt').
    { apply list_elem_of_fmap in Hd as (q & Hq0 & Hq).
      exists (deferred_materialization_target q).
      split_and!; [|by rewrite Hq0|by eexists]. apply elem_of_app. right.
      by apply list_elem_of_fmap_2. }
    apply target_source in Ht as (r & Hr & Hri & _ & Hrs).
    apply target_source in Ht' as (r' & Hr' & Hri' & _ & Hrs').
    apply request_source in Hr as (_ & ep & He & ->).
    apply request_source in Hr' as (_ & ep' & He' & ->).
    rewrite Hkt in Hrs. rewrite Hkt' in Hrs'. congruence.
  - eapply sublist_NoDup; [exact Hreq|]. apply map_omap_sublist. intros r q Hq.
    unfold deferred_protocol_materialization_request in Hq.
    destruct (negb _); [done|]. destruct (rq_endpoint_ref r) as [e|]; [|done].
    destruct (parse_deferred_protocol_endpoint e); [|done]. by injection Hq as <-.
Qed.

Lemma Forall2_opened_ids {Daemon} p (daemons : list (SettingsSyncProtocolProviderDaemon Daemon))
    ts ps : Forall2 (opened p daemons) ts ps -> map pm_provider_id ps = map mt_provider_id ts.
Proof. induction 1 as [|t q ts ps (Hid & _) _ IH]; simpl; congruence. Qed.

(** Every provider the protocol materialiser opens is materialised by the
    check against the stored endpoints that follows: the two stages agree on the endpoint
    of each provider, and no provider is opened twice. *)
Theorem protocol_providers_accepted {Daemon} p
    (daemons : list (SettingsSyncProtocolProviderDaemon Daemon)) :
  NoDup (cp_selected_retention_provider_ids (srp_cycle plan)) ->
  let '(m, handles) := selected_protocol_provider_materialization_preview plan p daemons in
  forall id, id ∈ map pm_provider_id (pm_materialized_providers m) ->
    id ∈ hm_materialized_retention_provider_ids handles.
Proof.
  intros Hsel. unfold selected_protocol_provider_materialization_preview. intros id Hid.
  set (m := materialize_protocol_providers p daemons (selected_protocol_materialization_plan plan))
    in *.
  destruct (materialize_protocol_providers_opens p daemons
    (selected_protocol_materialization_plan plan)) as [_ (ts & Hsub & Hop) _]. fold m in Hop.
  assert (Hnd : NoDup (map pm_provider_id (pm_materialized_providers m))).
  { rewrite (Forall2_opened_ids _ _ _ _ Hop).
    eapply sublist_NoDup; [by apply targets_nodup|]. by apply (fmap_sublist mt_provider_id). }
  apply list_elem_of_fmap in Hid as (provider & -> & Hp).
  pose proof Hp as [i Hi]%list_elem_of_lookup.
  destruct (Forall2_lookup_r _ _ _ _ _ Hop Hi) as (t & Ht & Hid & Hep & _).
  assert (Htt : t ∈ targets).
  { eapply elem_of_sublist; [by eapply list_elem_of_lookup_2|done]. }
  apply target_source in Htt as (r & Hr & Hri & Hre & Hrs).
  apply request_source in Hr as (Hin & ep & He & ->). rewrite Hri, <-Hid in Hin, He.
  unfold selected_retention_provider_handle_materialization. simpl.
  apply (proj2 (proj2 (proj2 (materialization_accounts plan
    (protocol_retention_provider_handles m))))); [done|].
  exists (pm_daemon provider), (with_endpoint_ref (pm_provider_id provider)
    (pm_endpoint_ref provider) (pm_daemon provider)). split_and!; [|done| |].
  - unfold handles_of, protocol_retention_provider_handles.
    set (g := fun q : SettingsSyncProtocolMaterializedProvider => _).
    refine (filter_unique rh_provider_id _ (g provider) _ _); [by rewrite map_map|].
    by apply list_elem_of_fmap_2.
  - unfold stored_provider_endpoint_status. rewrite He. simpl. simpl in Hrs.
    destruct (mt_kind t); rewrite Hrs; done.
  - intros endpoint endpoint_ref He' Hr'. simpl in *. congruence.
Qed.
End Accepted.

(** ** Witnesses *)

Definition endpoint_request (id e : string) : SettingsSyncSelectedEndpointMaterializationRequest :=
  {| rq_provider_id := id; rq_endpoint_ref := Some e;
     rq_endpoint_status := classify_profile_sync_provider_endpoint id (Some e) |}.

Definition demo_requests : SettingsSyncSelectedEndpointMaterializationPlan := {|
  plan_requests :=
    [endpoint_request "laptop" "/ip4/10.0.0.2/tcp/9000"; endpoint_request "phone" "iroh-node:abc";
     endpoint_request "tablet" "slate-fixture-profile-sync://lan/tablet";
     endpoint_request "desk" "ftp://desk"] |}.

Lemma protocol_plan_accounts_witness :
  let p := protocol_materialization_plan demo_requests in
  fixture_ready_request_count demo_requests + protocol_request_count p
  + usize_len (pp_missing_endpoint_provider_ids p) + usize_len (pp_fail_closed_provider_ids p)
  = request_count demo_requests.
Proof.
  apply (protocol_plan_accounts demo_requests).
  repeat constructor; intros e [= <-]; vm_compute; reflexivity.
Defined.

Lemma padded_multiaddr_endpoint_dropped_witness :
  protocol_materialization_plan
    {| plan_requests := [endpoint_request "laptop" " /ip4/10.0.0.2/tcp/9000"] |}
  = protocol_materialization_plan {| plan_requests := [] |}.
Proof.
  refine (proj2 (padded_multiaddr_endpoint_dropped "laptop" "/ip4/10.0.0.2/tcp/9000" [] _)).
  vm_compute. reflexivity.
Defined.

Definition demo_provider (id : string) (enabled : bool) : StorageProviderSyncPayload := {|
  sp_provider_id := id; sp_provider_kind := "device"; sp_display_name := id;
  sp_endpoint_ref := Some "/ip4/10.0.0.2/tcp/9000"; sp_discovery := true;
  sp_connectivity := true; sp_object_transfer := true; sp_availability := true;
  sp_mutable_roots := false; sp_quota_bytes := None; sp_max_retained_objects := None;
  sp_pinning_policy := None; sp_enabled := enabled; sp_deleted := false |}.

Definition demo_profile_db : ProfileDb :=
  set_db_devices {[("default", "laptop") := {|
      sd_profile := "default"; sd_device_id := "laptop"; sd_label := None;
      sd_membership_epoch := 1; sd_provider_authority := true; sd_created_at := 1;
      sd_last_seen_at := 1 |}]}
  (set_db_public_keys {[("default", "laptop") := {|
      sk_profile := "default";
      sk_public_key := {| pk_device_id := "laptop"; pk_bytes := "key" |};
      sk_membership_epoch := 1; sk_trusted := true; sk_created_at := 1; sk_updated_at := 1 |}]}
  (set_db_app (set_tbl_storage_providers
      {[("default", "laptop") := Build_AppRow (demo_provider "laptop" true) 1 1;
        ("default", "phone") := Build_AppRow (demo_provider "phone" true) 1 1;
        ("default", "tablet") := Build_AppRow (demo_provider "tablet" false) 1 1]}
      (db_app empty_db)) empty_db)).

Definition demo_selection : StoredRetentionProviderSelection := {|
  ss_stored_provider_count := 3;
  ss_enabled_retention_provider_ids := ["laptop"];
  ss_enabled_retention_provider_endpoints := [{|
    ep_provider_id := "laptop"; ep_endpoint_ref := Some "/ip4/10.0.0.2/tcp/9000";
    ep_endpoint_status := MultiaddrEndpoint |}];
  ss_disabled_provider_ids := ["tablet"];
  ss_stored_role_ineligible_provider_ids := [];
  ss_unauthorized_provider_ids := ["phone"] |}.

Lemma stored_selection_authorized_witness : provider_authorized "default" demo_profile_db "laptop".
Proof.
  refine (proj1 (proj1 (proj2 (stored_selection_authorized "default" 10 demo_profile_db
    demo_profile_db demo_selection _)) "laptop" _)).
  - vm_compute. reflexivity.
  - left.
Defined.

Definition demo_plan : SettingsSyncStoredRetentionProviderPlan := {|
  srp_max_stored_provider_count := 10; srp_stored_provider_count := 1;
  srp_enabled_retention_provider_ids := ["laptop"];
  srp_enabled_retention_provider_endpoints :=
    ss_enabled_retention_provider_endpoints demo_selection;
  srp_disabled_provider_ids := []; srp_stored_role_ineligible_provider_ids := [];
  srp_unauthorized_provider_ids := [];
  srp_cycle := {| cp_preflight := {|
      pf_profile := "default"; pf_settings_root_id := "settings/latest";
      pf_local_device_id := "desk"; pf_signer_device_id := "desk"; pf_active_key_id := "k1";
      pf_trusted_remote_device_count := 1; pf_retention_provider_candidates := [];
      pf_before_health :=
        let providers := Build_ProfileSyncProviderHealth "default" 0 0 0 0 0 [] [] [] 0 0 0 0 0
                           false "" in
        let root := Build_ProfileSyncRootHealth "default" "settings/latest" 0 0 [] None false
                      [] [] [] [] [] 0 0 false "" in
        Build_SettingsSyncHealthReport "default" "settings/latest" "devices/desk" providers root
          root |};
    cp_selected_retention_provider_ids := ["laptop"]; cp_stale_retention_provider_ids := [];
    cp_offline_retention_provider_ids := []; cp_ineligible_retention_provider_ids := [];
    cp_undiscovered_retention_provider_ids := []; cp_duplicate_retention_provider_ids := [] |} |}.

Lemma protocol_providers_accepted_witness :
  "laptop" ∈ hm_materialized_retention_provider_ids
    (selected_protocol_provider_materialization_preview demo_plan local_deterministic_simulation
       [{| pd_provider_id := "laptop"; pd_endpoint_ref := "/ip4/10.0.0.2/tcp/9000";
           pd_daemon := tt |}]).2.
Proof.
  apply (protocol_providers_accepted demo_plan local_deterministic_simulation
    [{| pd_provider_id := "laptop"; pd_endpoint_ref := "/ip4/10.0.0.2/tcp/9000";
        pd_daemon := tt |}]).
  - apply NoDup_singleton.
  - vm_compute. left.
Defined.
