(* ===== verification/ProfileSyncService.v ===== *)
(** * The profile-sync service of broadwebd

    Models [crates/broadwebd/src/services/profile_sync.rs]: the in-memory store of
    encrypted objects, retained references, mutable roots and provider states shared
    by the services of a fixture, every request of [ProfileSyncService::call] with
    its guards in the code's order, the test-fixture operations that change the
    store, and the selection of the runtime backend.  The store's lock is held for
    the whole of each modelled step; lock poisoning is not modelled.  The Kubo RPC
    client ([protocols/ipfs/kubo.rs]) is an argument ([KuboRpc]). *)
From S2P Require Import Prelude RustStr Broadwebd.

(** ** State *)

Record ProfileSyncFixtureCapacity := {
  max_providers : option Z;
  max_objects : option Z;
  max_roots : option Z
}.

Record ProfileSyncRootState := {
  root_object_id : string;
  root_publisher_provider_id : string;
  root_publish_sequence : Z
}.

Record ProfileSyncProviderState := {
  ps_provider_kind : string;
  ps_privacy_boundary : string;
  ps_roles : ProfileSyncProviderRoles;
  ps_last_seen_sequence : Z
}.

(** (provider, profile, object) for objects, (profile, root, provider) for roots. *)
Definition triple : Type := string * string * string.

Record ProfileSyncStore := {
  st_capacity : ProfileSyncFixtureCapacity;
  st_objects : gmap triple string;
  st_retained : gset triple;
  st_roots : gmap triple ProfileSyncRootState;
  st_next_root_sequence : Z;
  st_providers : gmap string ProfileSyncProviderState;
  st_next_seen_sequence : Z;
  st_minimum_seen_sequence : Z;
  st_offline_providers : gset string;
  st_delayed_transfers : gset (string * string);
  st_delayed_roots : gset (string * string * string * string);
  st_retention_blocked_providers : gset string;
  st_retention_quota_by_provider : gmap string Z
}.

Definition default_store : ProfileSyncStore := {|
  st_capacity := {| max_providers := None; max_objects := None; max_roots := None |};
  st_objects := ∅; st_retained := ∅; st_roots := ∅; st_next_root_sequence := 0;
  st_providers := ∅; st_next_seen_sequence := 0; st_minimum_seen_sequence := 0;
  st_offline_providers := ∅; st_delayed_transfers := ∅; st_delayed_roots := ∅;
  st_retention_blocked_providers := ∅; st_retention_quota_by_provider := ∅ |}.

Definition set_st_capacity v st := {|
  st_capacity := v; st_objects := st_objects st; st_retained := st_retained st;
  st_roots := st_roots st; st_next_root_sequence := st_next_root_sequence st;
  st_providers := st_providers st; st_next_seen_sequence := st_next_seen_sequence st;
  st_minimum_seen_sequence := st_minimum_seen_sequence st;
  st_offline_providers := st_offline_providers st;
  st_delayed_transfers := st_delayed_transfers st; st_delayed_roots := st_delayed_roots st;
  st_retention_blocked_providers := st_retention_blocked_providers st;
  st_retention_quota_by_provider := st_retention_quota_by_provider st |}.
Definition set_st_objects v st := {|
  st_capacity := st_capacity st; st_objects := v; st_retained := st_retained st;
  st_roots := st_roots st; st_next_root_sequence := st_next_root_sequence st;
  st_providers := st_providers st; st_next_seen_sequence := st_next_seen_sequence st;
  st_minimum_seen_sequence := st_minimum_seen_sequence st;
  st_offline_providers := st_offline_providers st;
  st_delayed_transfers := st_delayed_transfers st; st_delayed_roots := st_delayed_roots st;
  st_retention_blocked_providers := st_retention_blocked_providers st;
  st_retention_quota_by_provider := st_retention_quota_by_provider st |}.
Definition set_st_retained v st := {|
  st_capacity := st_capacity st; st_objects := st_objects st; st_retained := v;
  st_roots := st_roots st; st_next_root_sequence := st_next_root_sequence st;
  st_providers := st_providers st; st_next_seen_sequence := st_next_seen_sequence st;
  st_minimum_seen_sequence := st_minimum_seen_sequence st;
  st_offline_providers := st_offline_providers st;
  st_delayed_transfers := st_delayed_transfers st; st_delayed_roots := st_delayed_roots st;
  st_retention_blocked_providers := st_retention_blocked_providers st;
  st_retention_quota_by_provider := st_retention_quota_by_provider st |}.
Definition set_st_roots v st := {|
  st_capacity := st_capacity st; st_objects := st_objects st; st_retained := st_retained st;
  st_roots := v; st_next_root_sequence := st_next_root_sequence st;
  st_providers := st_providers st; st_next_seen_sequence := st_next_seen_sequence st;
  st_minimum_seen_sequence := st_minimum_seen_sequence st;
  st_offline_providers := st_offline_providers st;
  st_delayed_transfers := st_delayed_transfers st; st_delayed_roots := st_delayed_roots st;
  st_retention_blocked_providers := st_retention_blocked_providers st;
  st_retention_quota_by_provider := st_retention_quota_by_provider st |}.
Definition set_st_next_root_sequence v st := {|
  st_capacity := st_capacity st; st_objects := st_objects st; st_retained := st_retained st;
  st_roots := st_roots st; st_next_root_sequence := v; st_providers := st_providers st;
  st_next_seen_sequence := st_next_seen_sequence st;
  st_minimum_seen_sequence := st_minimum_seen_sequence st;
  st_offline_providers := st_offline_providers st;
  st_delayed_transfers := st_delayed_transfers st; st_delayed_roots := st_delayed_roots st;
  st_retention_blocked_providers := st_retention_blocked_providers st;
  st_retention_quota_by_provider := st_retention_quota_by_provider st |}.
Definition set_st_providers v st := {|
  st_capacity := st_capacity st; st_objects := st_objects st; st_retained := st_retained st;
  st_roots := st_roots st; st_next_root_sequence := st_next_root_sequence st;
  st_providers := v; st_next_seen_sequence := st_next_seen_sequence st;
  st_minimum_seen_sequence := st_minimum_seen_sequence st;
  st_offline_providers := st_offline_providers st;
  st_delayed_transfers := st_delayed_transfers st; st_delayed_roots := st_delayed_roots st;
  st_retention_blocked_providers := st_retention_blocked_providers st;
  st_retention_quota_by_provider := st_retention_quota_by_provider st |}.
Definition set_st_next_seen_sequence v st := {|
  st_capacity := st_capacity st; st_objects := st_objects st; st_retained := st_retained st;
  st_roots := st_roots st; st_next_root_sequence := st_next_root_sequence st;
  st_providers := st_providers st; st_next_seen_sequence := v;
  st_minimum_seen_sequence := st_minimum_seen_sequence st;
  st_offline_providers := st_offline_providers st;
  st_delayed_transfers := st_delayed_transfers st; st_delayed_roots := st_delayed_roots st;
  st_retention_blocked_providers := st_retention_blocked_providers st;
  st_retention_quota_by_provider := st_retention_quota_by_provider st |}.
Definition set_st_minimum_seen_sequence v st := {|
  st_capacity := st_capacity st; st_objects := st_objects st; st_retained := st_retained st;
  st_roots := st_roots st; st_next_root_sequence := st_next_root_sequence st;
  st_providers := st_providers st; st_next_seen_sequence := st_next_seen_sequence st;
  st_minimum_seen_sequence := v; st_offline_providers := st_offline_providers st;
  st_delayed_transfers := st_delayed_transfers st; st_delayed_roots := st_delayed_roots st;
  st_retention_blocked_providers := st_retention_blocked_providers st;
  st_retention_quota_by_provider := st_retention_quota_by_provider st |}.
Definition set_st_offline_providers v st := {|
  st_capacity := st_capacity st; st_objects := st_objects st; st_retained := st_retained st;
  st_roots := st_roots st; st_next_root_sequence := st_next_root_sequence st;
  st_providers := st_providers st; st_next_seen_sequence := st_next_seen_sequence st;
  st_minimum_seen_sequence := st_minimum_seen_sequence st; st_offline_providers := v;
  st_delayed_transfers := st_delayed_transfers st; st_delayed_roots := st_delayed_roots st;
  st_retention_blocked_providers := st_retention_blocked_providers st;
  st_retention_quota_by_provider := st_retention_quota_by_provider st |}.
Definition set_st_delayed_transfers v st := {|
  st_capacity := st_capacity st; st_objects := st_objects st; st_retained := st_retained st;
  st_roots := st_roots st; st_next_root_sequence := st_next_root_sequence st;
  st_providers := st_providers st; st_next_seen_sequence := st_next_seen_sequence st;
  st_minimum_seen_sequence := st_minimum_seen_sequence st;
  st_offline_providers := st_offline_providers st; st_delayed_transfers := v;
  st_delayed_roots := st_delayed_roots st;
  st_retention_blocked_providers := st_retention_blocked_providers st;
  st_retention_quota_by_provider := st_retention_quota_by_provider st |}.
Definition set_st_delayed_roots v st := {|
  st_capacity := st_capacity st; st_objects := st_objects st; st_retained := st_retained st;
  st_roots := st_roots st; st_next_root_sequence := st_next_root_sequence st;
  st_providers := st_providers st; st_next_seen_sequence := st_next_seen_sequence st;
  st_minimum_seen_sequence := st_minimum_seen_sequence st;
  st_offline_providers := st_offline_providers st;
  st_delayed_transfers := st_delayed_transfers st; st_delayed_roots := v;
  st_retention_blocked_providers := st_retention_blocked_providers st;
  st_retention_quota_by_provider := st_retention_quota_by_provider st |}.
Definition set_st_retention_blocked_providers v st := {|
  st_capacity := st_capacity st; st_objects := st_objects st; st_retained := st_retained st;
  st_roots := st_roots st; st_next_root_sequence := st_next_root_sequence st;
  st_providers := st_providers st; st_next_seen_sequence := st_next_seen_sequence st;
  st_minimum_seen_sequence := st_minimum_seen_sequence st;
  st_offline_providers := st_offline_providers st;
  st_delayed_transfers := st_delayed_transfers st; st_delayed_roots := st_delayed_roots st;
  st_retention_blocked_providers := v;
  st_retention_quota_by_provider := st_retention_quota_by_provider st |}.
Definition set_st_retention_quota_by_provider v st := {|
  st_capacity := st_capacity st; st_objects := st_objects st; st_retained := st_retained st;
  st_roots := st_roots st; st_next_root_sequence := st_next_root_sequence st;
  st_providers := st_providers st; st_next_seen_sequence := st_next_seen_sequence st;
  st_minimum_seen_sequence := st_minimum_seen_sequence st;
  st_offline_providers := st_offline_providers st;
  st_delayed_transfers := st_delayed_transfers st; st_delayed_roots := st_delayed_roots st;
  st_retention_blocked_providers := st_retention_blocked_providers st;
  st_retention_quota_by_provider := v |}.

(** The client of the Kubo node of [protocols/ipfs/kubo.rs], with the executor the
    factory made: each operation sends one HTTP request and checks its answer. *)
Record KuboRpc := {
  rpc_put_encrypted_object : string -> ResourceBudget -> result BroadwebdError string;
  rpc_get_encrypted_object : string -> ResourceBudget -> result BroadwebdError string;
  rpc_retain_object : string -> ResourceBudget -> result BroadwebdError unit;
  rpc_release_object : string -> ResourceBudget -> result BroadwebdError unit;
  rpc_verify_retained_object : string -> ResourceBudget -> result BroadwebdError bool;
  rpc_publish_root : string -> string -> ResourceBudget -> result BroadwebdError string;
  rpc_resolve_root : string -> ResourceBudget -> result BroadwebdError string
}.

Record KuboProfileSyncBackend := {
  kb_rpc : KuboRpc;
  kb_create_executor : result BroadwebdError unit;
  kb_capabilities : list string;
  kb_resource_profile : ResourceProfile
}.

Record ProfileSyncService := {
  provider_id : string;
  provider_kind : string;
  privacy_boundary : string;
  roles : ProfileSyncProviderRoles;
  registration_error : option BroadwebdError;
  kubo_backend : option KuboProfileSyncBackend
}.

Definition LOCAL_PROVIDER_ID : string := "local-preview-profile-sync".
Definition LOCAL_PROVIDER_KIND : string := "local-preview".
Definition LOCAL_PRIVACY_BOUNDARY : string :=
  "local in-memory profile-sync preview backend; no sockets or external network".
Definition MAX_PROFILE_SYNC_OBJECT_ID_BYTES : Z := 2048.
Definition MAX_PROFILE_SYNC_ROOT_ID_BYTES : Z := 256.

Definition default_service : ProfileSyncService := {|
  provider_id := LOCAL_PROVIDER_ID; provider_kind := LOCAL_PROVIDER_KIND;
  privacy_boundary := LOCAL_PRIVACY_BOUNDARY; roles := logged_in_device;
  registration_error := None; kubo_backend := None |}.

Definition service_result (A : Type) : Type := state_result ProfileSyncStore BroadwebdError A.

(** [self.store()?]: the locked store. *)
Definition store : service_result ProfileSyncStore := sr_get.
Definition update (f : ProfileSyncStore -> ProfileSyncStore) : service_result unit :=
  fun st => (f st, Ok tt).
Definition reject {A} (message : string) : service_result A :=
  sr_err (UnsupportedRequest message).

(** ** Validation *)

Definition is_token_byte (byte : ascii) : bool := is_ascii_alphanumeric byte || one_of "-_" byte.

Definition validate_profile (profile : string) : result BroadwebdError unit :=
  if negb (is_empty profile) && all_bytes is_token_byte profile
  then Ok tt else Err (InvalidProfile profile).

Definition validate_profile_sync_root_id (root_id : string) : result BroadwebdError unit :=
  if negb (is_empty root_id)
     && (str_len root_id <=? MAX_PROFILE_SYNC_ROOT_ID_BYTES)
     && all_bytes (fun byte => is_ascii_alphanumeric byte || one_of "-_./" byte) root_id
     && forallb (fun segment => negb (is_empty segment) && negb (str_eqb segment ".")
                                && negb (str_eqb segment "..")
                                && negb (starts_with "." segment)) (str_split "/" root_id)
  then Ok tt else Err (UnsupportedRequest "invalid profile sync root id").

Definition backslash : ascii := byte_of 92.
Definition double_quote : ascii := byte_of 34.

Definition validate_profile_sync_object_id (object_id : string) : result BroadwebdError unit :=
  if negb (is_empty object_id)
     && (str_len object_id <=? MAX_PROFILE_SYNC_OBJECT_ID_BYTES)
     && all_bytes (fun byte => is_ascii_graphic byte
                     && negb (Ascii.eqb byte backslash || Ascii.eqb byte double_quote
                              || one_of "'<>`" byte)) object_id
  then Ok tt else Err (UnsupportedRequest "invalid profile sync object id").

Definition validate_object_budget (size : Z) (budget : ResourceBudget) :
    result BroadwebdError unit :=
  if max_profile_sync_object_bytes budget <? size
  then Err (ResponseTooLarge (max_profile_sync_object_bytes budget) size) else Ok tt.

Definition validate_profile_sync_provider_id (provider_id : string) : result BroadwebdError unit :=
  if negb (is_empty provider_id) && (str_len provider_id <=? 512)
     && all_bytes is_token_byte provider_id
  then Ok tt else Err (InvalidUrl ("invalid profile sync provider id: " +:+ provider_id)).

(** FNV-1a over the bytes. *)
Definition fnv_step (hash : Z) (byte : ascii) : Z :=
  wrapping_mul_u64 (Z.lxor hash (byte_val byte)) 1099511628211.
Fixpoint fnv1a (hash : Z) (bytes : string) : Z :=
  match bytes with
  | EmptyString => hash
  | String byte bytes => fnv1a (fnv_step hash byte) bytes
  end.
Definition local_object_id (bytes : string) : string :=
  "local-broadweb-object:v1:" +:+ show (str_len bytes) +:+ ":"
  +:+ hex_digits 16 (fnv1a 14695981039346656037 bytes).

(** ** Queries of the store *)

Definition gset_contains {K} `{Countable K} (s : gset K) (k : K) : bool := bool_decide (k ∈ s).
Definition gmap_contains {K V} `{Countable K} (m : gmap K V) (k : K) : bool :=
  match m !! k with Some _ => true | None => false end.
(** [iter().filter(p).count()] over a [BTreeSet]. *)
Definition set_count {K} `{Countable K} `{!RustOrd K} (p : K -> bool) (s : gset K) : Z :=
  Z.of_nat (count_if p (btree_elems s)).

Definition provider_is_online (st : ProfileSyncStore) (provider : string)
    (r : ProfileSyncProviderRoles) : bool :=
  connectivity r && negb (gset_contains (st_offline_providers st) provider).

Definition provider_is_fresh (st : ProfileSyncStore) (last_seen_sequence : Z) : bool :=
  st_minimum_seen_sequence st <=? last_seen_sequence.

Definition provider_is_fresh_online_for_role (st : ProfileSyncStore) (provider : string)
    (role : ProfileSyncProviderRoles -> bool) : bool :=
  match st_providers st !! provider with
  | None => true
  | Some state => provider_is_online st provider (ps_roles state)
                  && provider_is_fresh st (ps_last_seen_sequence state) && role (ps_roles state)
  end.

Definition provider_has_role (st : ProfileSyncStore) (provider : string)
    (role : ProfileSyncProviderRoles -> bool) : bool :=
  match st_providers st !! provider with None => true | Some state => role (ps_roles state) end.

Definition provider_has_object (st : ProfileSyncStore) (provider profile object_id : string) :
    bool :=
  gmap_contains (st_objects st) (provider, profile, object_id).

Definition transfer_available (st : ProfileSyncStore) (source requester : string) : bool :=
  str_eqb source requester
  || negb (gset_contains (st_delayed_transfers st) (source, requester)).

Definition root_available (st : ProfileSyncStore)
    (source requester profile root_id : string) : bool :=
  str_eqb source requester
  || negb (gset_contains (st_delayed_roots st) (source, requester, profile, root_id)).

(** The predicate of [find_online_object]. *)
Definition serves_object (st : ProfileSyncStore) (requester profile object_id : string)
    (key : triple) : bool :=
  let '(provider, stored_profile, stored_object_id) := key in
  str_eqb stored_profile profile && str_eqb stored_object_id object_id
  && provider_is_fresh_online_for_role st provider object_transfer
  && transfer_available st provider requester.

Definition find_online_object (st : ProfileSyncStore) (requester profile object_id : string) :
    option string :=
  option_map snd
    (list_find_bool (fun entry => serves_object st requester profile object_id entry.1)
       (btree_iter (st_objects st))).

Definition candidate_of (root : ProfileSyncRootState) : ProfileSyncRootCandidate :=
  {| rc_publisher_provider_id := root_publisher_provider_id root;
     rc_object_id := root_object_id root;
     rc_publish_sequence := root_publish_sequence root |}.

(** [right.publish_sequence.cmp(&left.publish_sequence).then_with(...)]. *)
Definition candidate_cmp (left right : ProfileSyncRootCandidate) : comparison :=
  then_cmp (rust_cmp (rc_publish_sequence right) (rc_publish_sequence left))
    (then_cmp (rust_cmp (rc_publisher_provider_id left) (rc_publisher_provider_id right))
       (rust_cmp (rc_object_id left) (rc_object_id right))).

(** The roots of [(profile, root_id)] whose publishers have the role, filtered by
    whether the root is available to the requester. *)
Definition root_matches (st : ProfileSyncStore) (profile root_id : string)
    (available : string -> bool) (entry : triple * ProfileSyncRootState) : bool :=
  let '((stored_profile, stored_root_id, publisher), _) := entry in
  str_eqb stored_profile profile && str_eqb stored_root_id root_id
  && provider_has_role st publisher mutable_roots && available publisher.

Definition visible_root_candidates (st : ProfileSyncStore) (requester profile root_id : string) :
    list ProfileSyncRootCandidate :=
  sort_by candidate_cmp
    (map (fun entry => candidate_of entry.2)
       (List.filter (root_matches st profile root_id
          (fun publisher => root_available st publisher requester profile root_id))
          (btree_iter (st_roots st)))).

Definition delayed_root_candidates (st : ProfileSyncStore) (requester profile root_id : string) :
    list ProfileSyncRootCandidate :=
  sort_by candidate_cmp
    (map (fun entry => candidate_of entry.2)
       (List.filter (root_matches st profile root_id
          (fun publisher => negb (root_available st publisher requester profile root_id)))
          (btree_iter (st_roots st)))).

Definition latest_visible_root_candidate (st : ProfileSyncStore)
    (requester profile root_id : string) : option ProfileSyncRootCandidate :=
  head (visible_root_candidates st requester profile root_id).

Definition retained_object_count (st : ProfileSyncStore) (provider profile : string) : Z :=
  set_count (fun key => str_eqb key.1.1 provider && str_eqb key.1.2 profile) (st_retained st).

Definition retained_provider_object_count (st : ProfileSyncStore) (provider : string) : Z :=
  set_count (fun key => str_eqb key.1.1 provider) (st_retained st).

Definition retains_fresh_online (st : ProfileSyncStore) (profile object_id : string)
    (key : triple) : bool :=
  str_eqb key.1.2 profile && str_eqb key.2 object_id
  && provider_is_fresh_online_for_role st key.1.1 (fun r => availability r && object_transfer r).

Definition online_retaining_provider_count (st : ProfileSyncStore) (profile object_id : string) :
    Z :=
  set_count (fun key => retains_fresh_online st profile object_id key
                        && provider_has_object st key.1.1 profile object_id) (st_retained st).

Definition unavailable_retaining_provider_ids (st : ProfileSyncStore)
    (profile object_id : string) : list string :=
  map (fun key => key.1.1)
    (List.filter (fun key => retains_fresh_online st profile object_id key
                             && negb (provider_has_object st key.1.1 profile object_id))
       (btree_elems (st_retained st))).

(** ** Capacity *)

Definition check_profile_sync_fixture_provider_capacity (st : ProfileSyncStore)
    (provider : string) : result BroadwebdError unit :=
  if gmap_contains (st_providers st) provider then Ok tt
  else match max_providers (st_capacity st) with
       | Some max =>
           if max <=? Z.of_nat (size (st_providers st))
           then Err (UnsupportedRequest ("profile sync fixture provider capacity exceeded: max "
                                         +:+ show max +:+ " providers"))
           else Ok tt
       | None => Ok tt
       end.

(** The objects held and the retained references without bytes. *)
Definition object_reference_count (st : ProfileSyncStore) : Z :=
  Z.of_nat (size (st_objects st))
  + set_count (fun key => negb (gmap_contains (st_objects st) key)) (st_retained st).

Definition check_profile_sync_fixture_new_object_capacity (st : ProfileSyncStore) :
    result BroadwebdError unit :=
  match max_objects (st_capacity st) with
  | Some max =>
      if max <=? object_reference_count st
      then Err (UnsupportedRequest ("profile sync fixture object capacity exceeded: max "
                                    +:+ show max +:+ " object refs"))
      else Ok tt
  | None => Ok tt
  end.

Definition check_profile_sync_fixture_object_capacity (st : ProfileSyncStore)
    (object_key : triple) : result BroadwebdError unit :=
  if gmap_contains (st_objects st) object_key || gset_contains (st_retained st) object_key
  then Ok tt else check_profile_sync_fixture_new_object_capacity st.

Definition check_profile_sync_fixture_root_capacity (st : ProfileSyncStore) (root_key : triple) :
    result BroadwebdError unit :=
  if gmap_contains (st_roots st) root_key then Ok tt
  else match max_roots (st_capacity st) with
       | Some max =>
           if max <=? Z.of_nat (size (st_roots st))
           then Err (UnsupportedRequest ("profile sync fixture root capacity exceeded: max "
                                         +:+ show max +:+ " roots"))
           else Ok tt
       | None => Ok tt
       end.

(** ** The local backend *)

Definition require_role (self : ProfileSyncService) (enabled : bool) (role : string) :
    result BroadwebdError unit :=
  if enabled then Ok tt
  else Err (UnsupportedRequest ("profile sync provider lacks " +:+ role +:+ " role: "
                                +:+ provider_id self)).

Definition ensure_registered (self : ProfileSyncService) : result BroadwebdError unit :=
  match registration_error self with Some error => Err error | None => Ok tt end.

Definition ensure_online (self : ProfileSyncService) : service_result unit :=
  let* st := store in
  if gset_contains (st_offline_providers st) (provider_id self)
  then sr_err (Request ("profile sync provider is offline: " +:+ provider_id self))
  else sr_lift (require_role self (connectivity (roles self)) "profile-sync/local-connectivity").

Definition put_object (self : ProfileSyncService) (request : ProfileSyncPutObjectRequest)
    (budget : ResourceBudget) : service_result ProfileSyncResponse :=
  do* sr_lift (validate_profile (put_profile request)) in
  do* sr_lift (require_role self (object_transfer (roles self)) "profile-sync/object-transfer") in
  do* sr_lift (validate_object_budget (str_len (put_bytes request)) budget) in
  let object_id := local_object_id (put_bytes request) in
  let* st := store in
  let object_key := (provider_id self, put_profile request, object_id) in
  do* sr_lift (check_profile_sync_fixture_object_capacity st object_key) in
  do* update (fun st => set_st_objects (<[object_key := put_bytes request]> (st_objects st)) st) in
  sr_ret (PutEncryptedObjectResponse object_id).

Definition get_object (self : ProfileSyncService) (request : ProfileSyncObjectRequest)
    (budget : ResourceBudget) : service_result ProfileSyncResponse :=
  do* sr_lift (validate_profile (or_profile request)) in
  do* sr_lift (validate_profile_sync_object_id (or_object_id request)) in
  do* sr_lift (require_role self (object_transfer (roles self)) "profile-sync/object-transfer") in
  let* st := store in
  let object_id := or_object_id request in
  match find_online_object st (provider_id self) (or_profile request) object_id with
  | None => reject ("profile sync object not available from an online provider: " +:+ object_id)
  | Some bytes =>
      do* sr_lift (validate_object_budget (str_len bytes) budget) in
      sr_ret (GetEncryptedObjectResponse object_id bytes)
  end.

(** The retention quota of a provider for one more reference. *)
Definition check_retention_quota (self : ProfileSyncService) (st : ProfileSyncStore)
    (retained_key : triple) : result BroadwebdError unit :=
  if gset_contains (st_retained st) retained_key then Ok tt
  else match st_retention_quota_by_provider st !! provider_id self with
       | Some max_retained_objects =>
           if max_retained_objects <=? retained_provider_object_count st (provider_id self)
           then Err (UnsupportedRequest
                       ("profile sync retention quota exceeded for provider " +:+ provider_id self
                        +:+ ": max " +:+ show max_retained_objects +:+ " retained objects"))
           else Ok tt
       | None => Ok tt
       end.

Definition retain_object (self : ProfileSyncService) (request : ProfileSyncObjectRequest) :
    service_result ProfileSyncResponse :=
  do* sr_lift (validate_profile (or_profile request)) in
  do* sr_lift (validate_profile_sync_object_id (or_object_id request)) in
  do* sr_lift (require_role self (availability (roles self)) "profile-sync/availability") in
  do* sr_lift (require_role self (object_transfer (roles self)) "profile-sync/object-transfer") in
  let* st := store in
  if gset_contains (st_retention_blocked_providers st) (provider_id self)
  then reject ("profile sync retention is blocked by local pinning policy for provider: "
               +:+ provider_id self)
  else
  let key := (provider_id self, or_profile request, or_object_id request) in
  do* sr_lift (check_retention_quota self st key) in
  match find_online_object st (provider_id self) (or_profile request) (or_object_id request) with
  | None => reject ("cannot retain unavailable profile sync object: " +:+ or_object_id request)
  | Some bytes =>
      do* sr_lift (check_profile_sync_fixture_object_capacity st key) in
      do* update (fun st => set_st_objects (<[key := bytes]> (st_objects st)) st) in
      do* update (fun st => set_st_retained ({[ key ]} ∪ st_retained st) st) in
      sr_ret (RetainObjectResponse (or_object_id request) true)
  end.

Definition release_object (self : ProfileSyncService) (request : ProfileSyncObjectRequest) :
    service_result ProfileSyncResponse :=
  do* sr_lift (validate_profile (or_profile request)) in
  do* sr_lift (validate_profile_sync_object_id (or_object_id request)) in
  do* sr_lift (require_role self (availability (roles self)) "profile-sync/availability") in
  do* update (fun st => set_st_retained
        (st_retained st ∖ {[ (provider_id self, or_profile request, or_object_id request) ]}) st) in
  sr_ret (ReleaseObjectResponse (or_object_id request) false).

Definition list_retained_objects (self : ProfileSyncService) (request : ProfileSyncProfileRequest)
    : service_result ProfileSyncResponse :=
  do* sr_lift (validate_profile (pr_profile request)) in
  do* sr_lift (require_role self (availability (roles self)) "profile-sync/availability") in
  let* st := store in
  sr_ret (RetainedObjectsResponse
    (map snd (List.filter (fun key => str_eqb key.1.1 (provider_id self)
                                      && str_eqb key.1.2 (pr_profile request))
                (btree_elems (st_retained st))))).

Definition verify_retained_object (self : ProfileSyncService) (request : ProfileSyncObjectRequest)
    : service_result ProfileSyncResponse :=
  do* sr_lift (validate_profile (or_profile request)) in
  do* sr_lift (validate_profile_sync_object_id (or_object_id request)) in
  do* sr_lift (require_role self (availability (roles self)) "profile-sync/availability") in
  let* st := store in
  let retained := gset_contains (st_retained st)
                    (provider_id self, or_profile request, or_object_id request) in
  let available :=
    if retained
    then provider_has_object st (provider_id self) (or_profile request) (or_object_id request)
    else match find_online_object st (provider_id self) (or_profile request)
                 (or_object_id request) with
         | Some _ => true
         | None => false
         end in
  sr_ret (RetainedObjectStatusResponse (or_object_id request) retained available).

(** [+= 1] on a [u64], which wraps in a release build. *)
Definition next_u64 (n : Z) : Z := (n + 1) mod 2 ^ 64.

Definition publish_root (self : ProfileSyncService) (request : ProfileSyncRootUpdate) :
    service_result ProfileSyncResponse :=
  do* sr_lift (validate_profile (ru_profile request)) in
  do* sr_lift (validate_profile_sync_root_id (ru_root_id request)) in
  do* sr_lift (validate_profile_sync_object_id (ru_object_id request)) in
  do* sr_lift (require_role self (mutable_roots (roles self)) "profile-sync/mutable-root") in
  let* st := store in
  if negb (provider_has_object st (provider_id self) (ru_profile request) (ru_object_id request))
  then reject ("cannot publish missing local profile sync object: " +:+ ru_object_id request)
  else
  let root_key := (ru_profile request, ru_root_id request, provider_id self) in
  do* sr_lift (check_profile_sync_fixture_root_capacity st root_key) in
  let publish_sequence := next_u64 (st_next_root_sequence st) in
  do* update (set_st_next_root_sequence publish_sequence) in
  do* update (fun st => set_st_roots
        (<[root_key := {| root_object_id := ru_object_id request;
                          root_publisher_provider_id := provider_id self;
                          root_publish_sequence := publish_sequence |}]> (st_roots st)) st) in
  sr_ret (RootResponse (ru_root_id request) (Some (ru_object_id request))).

Definition resolve_root (self : ProfileSyncService) (request : ProfileSyncRootRequest) :
    service_result ProfileSyncResponse :=
  do* sr_lift (validate_profile (rr_profile request)) in
  do* sr_lift (validate_profile_sync_root_id (rr_root_id request)) in
  do* sr_lift (require_role self (discovery (roles self)) "profile-sync/provider-discovery") in
  let* st := store in
  sr_ret (RootResponse (rr_root_id request)
    (option_map rc_object_id
       (latest_visible_root_candidate st (provider_id self) (rr_profile request)
          (rr_root_id request)))).

Definition list_root_candidates (self : ProfileSyncService) (request : ProfileSyncRootRequest) :
    service_result ProfileSyncResponse :=
  do* sr_lift (validate_profile (rr_profile request)) in
  do* sr_lift (validate_profile_sync_root_id (rr_root_id request)) in
  do* sr_lift (require_role self (discovery (roles self)) "profile-sync/provider-discovery") in
  let* st := store in
  sr_ret (RootCandidatesResponse (rr_root_id request)
    (visible_root_candidates st (provider_id self) (rr_profile request) (rr_root_id request))).

(** ** Health *)

Record LatestObjectProviderAvailability := {
  available_provider_ids : list string;
  delayed_provider_ids : list string;
  stale_provider_ids : list string;
  offline_provider_ids : list string
}.

Definition no_availability : LatestObjectProviderAvailability := {|
  available_provider_ids := []; delayed_provider_ids := []; stale_provider_ids := [];
  offline_provider_ids := [] |}.

Definition push_available p a := {|
  available_provider_ids := available_provider_ids a ++ [p];
  delayed_provider_ids := delayed_provider_ids a; stale_provider_ids := stale_provider_ids a;
  offline_provider_ids := offline_provider_ids a |}.
Definition push_delayed p a := {|
  available_provider_ids := available_provider_ids a;
  delayed_provider_ids := delayed_provider_ids a ++ [p];
  stale_provider_ids := stale_provider_ids a; offline_provider_ids := offline_provider_ids a |}.
Definition push_stale p a := {|
  available_provider_ids := available_provider_ids a;
  delayed_provider_ids := delayed_provider_ids a;
  stale_provider_ids := stale_provider_ids a ++ [p];
  offline_provider_ids := offline_provider_ids a |}.
Definition push_offline p a := {|
  available_provider_ids := available_provider_ids a;
  delayed_provider_ids := delayed_provider_ids a; stale_provider_ids := stale_provider_ids a;
  offline_provider_ids := offline_provider_ids a ++ [p] |}.

(** One iteration of the loop over the keys of [store.objects]. *)
Definition classify_provider (st : ProfileSyncStore) (requester profile object_id : string)
    (a : LatestObjectProviderAvailability) (key : triple) : LatestObjectProviderAvailability :=
  let '(provider, stored_profile, stored_object_id) := key in
  if negb (str_eqb stored_profile profile) || negb (str_eqb stored_object_id object_id) then a
  else match st_providers st !! provider with
       | None => if transfer_available st provider requester
                 then push_available provider a else push_delayed provider a
       | Some state =>
           if negb (object_transfer (ps_roles state)) then a
           else if negb (provider_is_online st provider (ps_roles state))
           then push_offline provider a
           else if negb (provider_is_fresh st (ps_last_seen_sequence state))
           then push_stale provider a
           else if negb (transfer_available st provider requester)
           then push_delayed provider a
           else push_available provider a
       end.

Definition latest_object_provider_availability (st : ProfileSyncStore)
    (requester profile object_id : string) : LatestObjectProviderAvailability :=
  fold_left (classify_provider st requester profile object_id)
    (map fst (btree_iter (st_objects st))) no_availability.

Definition profile_sync_health_message (online_providers fresh_online_providers
    object_transfer_providers availability_providers mutable_root_providers : Z) :
    bool * string :=
  if online_providers =? 0
  then (true, "profile sync has no online providers in the local fixture")
  else if fresh_online_providers =? 0
  then (true, "profile sync has no fresh online providers in the local fixture")
  else if object_transfer_providers =? 0
  then (true, "profile sync has no fresh online object-transfer provider in the local fixture")
  else if availability_providers =? 0
  then (true, "profile sync has no fresh online availability provider in the local fixture")
  else if mutable_root_providers =? 0
  then (true, "profile sync has no fresh online mutable-root provider in the local fixture")
  else (false, "profile sync providers are ready in the local fixture").

Definition profile_sync_root_health_message (visible_candidates delayed_candidates : Z)
    (latest_object_available : bool)
    (delayed_object_providers stale_object_providers offline_object_providers
     online_retaining_providers minimum_online_retaining_providers : Z) : bool * string :=
  if visible_candidates =? 0 then
    if 0 <? delayed_candidates
    then (true, "profile sync root has no visible candidates in the local fixture; "
                +:+ show delayed_candidates +:+ " candidate(s) are delayed")
    else (true, "profile sync root has no visible candidates in the local fixture")
  else if negb latest_object_available then
    if 0 <? delayed_object_providers
    then (true, "profile sync root object is blocked by " +:+ show delayed_object_providers
                +:+ " delayed object-transfer provider(s) in the local fixture")
    else if 0 <? stale_object_providers
    then (true, "profile sync root object is only held by " +:+ show stale_object_providers
                +:+ " stale object-transfer provider(s) in the local fixture")
    else if 0 <? offline_object_providers
    then (true, "profile sync root object is only held by " +:+ show offline_object_providers
                +:+ " offline object-transfer provider(s) in the local fixture")
    else (true, "profile sync root object is not available from a fresh online provider "
                +:+ "in the local fixture")
  else if online_retaining_providers =? 0
  then (true, "profile sync root object is not retained by a fresh online provider "
              +:+ "in the local fixture")
  else if online_retaining_providers <? minimum_online_retaining_providers
  then (true, "profile sync root has " +:+ show online_retaining_providers
              +:+ " fresh online retaining providers, below the requested quorum of "
              +:+ show minimum_online_retaining_providers)
  else (false, "profile sync root is available and retained by fresh online providers "
               +:+ "in the local fixture").

Definition list_len {A} (l : list A) : Z := Z.of_nat (length l).

(** [option.map(f).unwrap_or_default()]. *)
Definition map_or_default {A B} (o : option A) (f : A -> B) (d : B) : B :=
  match o with Some a => f a | None => d end.

Definition root_health (self : ProfileSyncService) (request : ProfileSyncRootHealthRequest) :
    service_result ProfileSyncResponse :=
  do* sr_lift (validate_profile (rh_profile request)) in
  do* sr_lift (validate_profile_sync_root_id (rh_root_id request)) in
  do* sr_lift (require_role self (discovery (roles self)) "profile-sync/provider-discovery") in
  let* st := store in
  let profile := rh_profile request in
  let candidates := visible_root_candidates st (provider_id self) profile (rh_root_id request) in
  let delayed := delayed_root_candidates st (provider_id self) profile (rh_root_id request) in
  let latest_object_id := option_map rc_object_id (head candidates) in
  let latest := map_or_default latest_object_id
    (latest_object_provider_availability st (provider_id self) profile) no_availability in
  let latest_object_available := negb (list_len (available_provider_ids latest) =? 0) in
  let online_retaining := map_or_default latest_object_id
    (online_retaining_provider_count st profile) 0 in
  let unavailable_retaining := map_or_default latest_object_id
    (unavailable_retaining_provider_ids st profile) [] in
  let '(degraded, message) := profile_sync_root_health_message
    (list_len candidates) (list_len delayed) latest_object_available
    (list_len (delayed_provider_ids latest)) (list_len (stale_provider_ids latest))
    (list_len (offline_provider_ids latest)) online_retaining
    (rh_minimum_online_retaining_providers request) in
  sr_ret (RootHealthResponse {|
    rhl_profile := profile;
    rhl_root_id := rh_root_id request;
    rhl_visible_candidates := list_len candidates;
    rhl_delayed_candidates := list_len delayed;
    rhl_delayed_publisher_provider_ids := map rc_publisher_provider_id delayed;
    rhl_latest_object_id := latest_object_id;
    rhl_latest_object_available := latest_object_available;
    rhl_latest_object_available_provider_ids := available_provider_ids latest;
    rhl_latest_object_stale_provider_ids := stale_provider_ids latest;
    rhl_latest_object_offline_provider_ids := offline_provider_ids latest;
    rhl_delayed_object_provider_ids := delayed_provider_ids latest;
    rhl_unavailable_retaining_provider_ids := unavailable_retaining;
    rhl_online_retaining_providers := online_retaining;
    rhl_minimum_online_retaining_providers := rh_minimum_online_retaining_providers request;
    rhl_degraded := degraded;
    rhl_message := message |}).

Definition provider_record (st : ProfileSyncStore) (profile provider : string)
    (state : ProfileSyncProviderState) : ProfileSyncProviderRecord := {|
  prec_provider_id := provider;
  prec_provider_kind := ps_provider_kind state;
  prec_privacy_boundary := ps_privacy_boundary state;
  prec_retained_objects := retained_object_count st provider profile;
  prec_roles := ps_roles state;
  prec_can_publish_roots := mutable_roots (ps_roles state) |}.

Definition discover_providers (self : ProfileSyncService) (request : ProfileSyncProfileRequest) :
    service_result ProfileSyncResponse :=
  do* sr_lift (validate_profile (pr_profile request)) in
  do* sr_lift (require_role self (discovery (roles self)) "profile-sync/provider-discovery") in
  let* st := store in
  sr_ret (ProvidersResponse
    (match btree_iter (st_providers st) with
     | [] => [{| prec_provider_id := provider_id self;
                 prec_provider_kind := provider_kind self;
                 prec_privacy_boundary := privacy_boundary self;
                 prec_retained_objects :=
                   retained_object_count st (provider_id self) (pr_profile request);
                 prec_roles := roles self;
                 prec_can_publish_roots := mutable_roots (roles self) |}]
     | known =>
         map (fun entry => provider_record st (pr_profile request) entry.1 entry.2)
           (List.filter (fun entry => provider_is_online st entry.1 (ps_roles entry.2)
                                      && provider_is_fresh st (ps_last_seen_sequence entry.2))
              known)
     end)).

Record ProfileSyncProviderHealthEntry := {
  he_provider_id : string;
  he_roles : ProfileSyncProviderRoles;
  he_online : bool;
  he_fresh : bool
}.

Definition provider_health_entries (st : ProfileSyncStore) (default_provider_id : string)
    (default_roles : ProfileSyncProviderRoles) : list ProfileSyncProviderHealthEntry :=
  match btree_iter (st_providers st) with
  | [] => [{| he_provider_id := default_provider_id; he_roles := default_roles;
              he_online := connectivity default_roles; he_fresh := provider_is_fresh st 0 |}]
  | known =>
      map (fun entry => {| he_provider_id := entry.1; he_roles := ps_roles entry.2;
                           he_online := provider_is_online st entry.1 (ps_roles entry.2);
                           he_fresh := provider_is_fresh st (ps_last_seen_sequence entry.2) |})
        known
  end.

(** The counters of the loop of [provider_health]. *)
Record HealthCounters := {
  hc_online : Z;
  hc_fresh_online : Z;
  hc_stale_online : Z;
  hc_fresh_ids : list string;
  hc_stale_ids : list string;
  hc_offline_ids : list string;
  hc_object_transfer : Z;
  hc_availability : Z;
  hc_mutable_root : Z;
  hc_retained : Z
}.

Definition no_counters : HealthCounters := {|
  hc_online := 0; hc_fresh_online := 0; hc_stale_online := 0; hc_fresh_ids := [];
  hc_stale_ids := []; hc_offline_ids := []; hc_object_transfer := 0; hc_availability := 0;
  hc_mutable_root := 0; hc_retained := 0 |}.

Definition bool_count (b : bool) : Z := if b then 1 else 0.

Definition count_provider (st : ProfileSyncStore) (profile : string) (c : HealthCounters)
    (p : ProfileSyncProviderHealthEntry) : HealthCounters :=
  if he_online p then
    if he_fresh p then {|
      hc_online := hc_online c + 1; hc_fresh_online := hc_fresh_online c + 1;
      hc_stale_online := hc_stale_online c;
      hc_fresh_ids := hc_fresh_ids c ++ [he_provider_id p];
      hc_stale_ids := hc_stale_ids c; hc_offline_ids := hc_offline_ids c;
      hc_object_transfer := hc_object_transfer c + bool_count (object_transfer (he_roles p));
      hc_availability := hc_availability c + bool_count (availability (he_roles p));
      hc_mutable_root := hc_mutable_root c + bool_count (mutable_roots (he_roles p));
      hc_retained := hc_retained c + retained_object_count st (he_provider_id p) profile |}
    else {|
      hc_online := hc_online c + 1; hc_fresh_online := hc_fresh_online c;
      hc_stale_online := hc_stale_online c + 1; hc_fresh_ids := hc_fresh_ids c;
      hc_stale_ids := hc_stale_ids c ++ [he_provider_id p];
      hc_offline_ids := hc_offline_ids c; hc_object_transfer := hc_object_transfer c;
      hc_availability := hc_availability c; hc_mutable_root := hc_mutable_root c;
      hc_retained := hc_retained c |}
  else {|
    hc_online := hc_online c; hc_fresh_online := hc_fresh_online c;
    hc_stale_online := hc_stale_online c; hc_fresh_ids := hc_fresh_ids c;
    hc_stale_ids := hc_stale_ids c; hc_offline_ids := hc_offline_ids c ++ [he_provider_id p];
    hc_object_transfer := hc_object_transfer c; hc_availability := hc_availability c;
    hc_mutable_root := hc_mutable_root c; hc_retained := hc_retained c |}.

Definition provider_health (self : ProfileSyncService) (request : ProfileSyncProfileRequest) :
    service_result ProfileSyncResponse :=
  do* sr_lift (validate_profile (pr_profile request)) in
  do* sr_lift (require_role self (discovery (roles self)) "profile-sync/provider-discovery") in
  let* st := store in
  let entries := provider_health_entries st (provider_id self) (roles self) in
  let c := fold_left (count_provider st (pr_profile request)) entries no_counters in
  let '(degraded, message) := profile_sync_health_message (hc_online c) (hc_fresh_online c)
    (hc_object_transfer c) (hc_availability c) (hc_mutable_root c) in
  sr_ret (ProviderHealthResponse {|
    ph_profile := pr_profile request;
    ph_known_providers := list_len entries;
    ph_online_providers := hc_online c;
    ph_offline_providers := Z.max 0 (list_len entries - hc_online c);
    ph_fresh_online_providers := hc_fresh_online c;
    ph_stale_online_providers := hc_stale_online c;
    ph_fresh_online_provider_ids := hc_fresh_ids c;
    ph_stale_online_provider_ids := hc_stale_ids c;
    ph_offline_provider_ids := hc_offline_ids c;
    ph_minimum_provider_seen_sequence := st_minimum_seen_sequence st;
    ph_object_transfer_providers := hc_object_transfer c;
    ph_availability_providers := hc_availability c;
    ph_mutable_root_providers := hc_mutable_root c;
    ph_retained_objects := hc_retained c;
    ph_degraded := degraded;
    ph_message := message |}).

(** ** The Kubo backend *)

Definition kubo_put (self : ProfileSyncService) (rpc : KuboRpc)
    (request : ProfileSyncPutObjectRequest) (budget : ResourceBudget) :
    service_result ProfileSyncResponse :=
  do* sr_lift (validate_profile (put_profile request)) in
  do* sr_lift (require_role self (object_transfer (roles self)) "profile-sync/object-transfer") in
  let* st := store in
  do* sr_lift (check_profile_sync_fixture_new_object_capacity st) in
  let* object_id := sr_lift (rpc_put_encrypted_object rpc (put_bytes request) budget) in
  let* st := store in
  let object_key := (provider_id self, put_profile request, object_id) in
  do* sr_lift (check_profile_sync_fixture_object_capacity st object_key) in
  do* update (fun st => set_st_objects (<[object_key := put_bytes request]> (st_objects st)) st) in
  sr_ret (PutEncryptedObjectResponse object_id).

Definition kubo_get (self : ProfileSyncService) (rpc : KuboRpc)
    (request : ProfileSyncObjectRequest) (budget : ResourceBudget) :
    service_result ProfileSyncResponse :=
  do* sr_lift (validate_profile (or_profile request)) in
  do* sr_lift (validate_profile_sync_object_id (or_object_id request)) in
  do* sr_lift (require_role self (object_transfer (roles self)) "profile-sync/object-transfer") in
  let* bytes := sr_lift (rpc_get_encrypted_object rpc (or_object_id request) budget) in
  do* sr_lift (validate_object_budget (str_len bytes) budget) in
  sr_ret (GetEncryptedObjectResponse (or_object_id request) bytes).

Definition kubo_retain (self : ProfileSyncService) (rpc : KuboRpc)
    (request : ProfileSyncObjectRequest) (budget : ResourceBudget) :
    service_result ProfileSyncResponse :=
  do* sr_lift (validate_profile (or_profile request)) in
  do* sr_lift (validate_profile_sync_object_id (or_object_id request)) in
  do* sr_lift (require_role self (availability (roles self)) "profile-sync/availability") in
  do* sr_lift (require_role self (object_transfer (roles self)) "profile-sync/object-transfer") in
  let retained_key := (provider_id self, or_profile request, or_object_id request) in
  let* st := store in
  do* sr_lift (check_profile_sync_fixture_object_capacity st retained_key) in
  do* sr_lift (rpc_retain_object rpc (or_object_id request) budget) in
  let* st := store in
  do* sr_lift (check_profile_sync_fixture_object_capacity st retained_key) in
  do* update (fun st => set_st_retained ({[ retained_key ]} ∪ st_retained st) st) in
  sr_ret (RetainObjectResponse (or_object_id request) true).

Definition kubo_release (self : ProfileSyncService) (rpc : KuboRpc)
    (request : ProfileSyncObjectRequest) (budget : ResourceBudget) :
    service_result ProfileSyncResponse :=
  do* sr_lift (validate_profile (or_profile request)) in
  do* sr_lift (validate_profile_sync_object_id (or_object_id request)) in
  do* sr_lift (require_role self (availability (roles self)) "profile-sync/availability") in
  do* sr_lift (rpc_release_object rpc (or_object_id request) budget) in
  do* update (fun st => set_st_retained
        (st_retained st ∖ {[ (provider_id self, or_profile request, or_object_id request) ]}) st) in
  sr_ret (ReleaseObjectResponse (or_object_id request) false).

Definition kubo_verify (self : ProfileSyncService) (rpc : KuboRpc)
    (request : ProfileSyncObjectRequest) (budget : ResourceBudget) :
    service_result ProfileSyncResponse :=
  do* sr_lift (validate_profile (or_profile request)) in
  do* sr_lift (validate_profile_sync_object_id (or_object_id request)) in
  do* sr_lift (require_role self (availability (roles self)) "profile-sync/availability") in
  let* retained := sr_lift (rpc_verify_retained_object rpc (or_object_id request) budget) in
  let retained_key := (provider_id self, or_profile request, or_object_id request) in
  do* update (fun st => if retained
        then set_st_retained ({[ retained_key ]} ∪ st_retained st) st
        else set_st_retained (st_retained st ∖ {[ retained_key ]}) st) in
  sr_ret (RetainedObjectStatusResponse (or_object_id request) retained retained).

Definition kubo_publish (self : ProfileSyncService) (rpc : KuboRpc)
    (request : ProfileSyncRootUpdate) (budget : ResourceBudget) :
    service_result ProfileSyncResponse :=
  do* sr_lift (validate_profile (ru_profile request)) in
  do* sr_lift (validate_profile_sync_root_id (ru_root_id request)) in
  do* sr_lift (validate_profile_sync_object_id (ru_object_id request)) in
  do* sr_lift (require_role self (mutable_roots (roles self)) "profile-sync/mutable-root") in
  let root_key := (ru_profile request, ru_root_id request, provider_id self) in
  let* st := store in
  do* sr_lift (check_profile_sync_fixture_root_capacity st root_key) in
  let* object_id := sr_lift (rpc_publish_root rpc (ru_root_id request) (ru_object_id request)
                               budget) in
  let* st := store in
  do* sr_lift (check_profile_sync_fixture_root_capacity st root_key) in
  let publish_sequence := saturating_add_u64 (st_next_root_sequence st) 1 in
  do* update (set_st_next_root_sequence publish_sequence) in
  do* update (fun st => set_st_roots
        (<[root_key := {| root_object_id := object_id;
                          root_publisher_provider_id := provider_id self;
                          root_publish_sequence := publish_sequence |}]> (st_roots st)) st) in
  sr_ret (RootResponse (ru_root_id request) (Some object_id)).

Definition kubo_resolve (self : ProfileSyncService) (rpc : KuboRpc)
    (request : ProfileSyncRootRequest) (budget : ResourceBudget) :
    service_result ProfileSyncResponse :=
  do* sr_lift (validate_profile (rr_profile request)) in
  do* sr_lift (validate_profile_sync_root_id (rr_root_id request)) in
  do* sr_lift (require_role self (discovery (roles self)) "profile-sync/provider-discovery") in
  let* object_id := sr_lift (rpc_resolve_root rpc (rr_root_id request) budget) in
  sr_ret (RootResponse (rr_root_id request) (Some object_id)).

Definition kubo_profile_sync_via_executor (self : ProfileSyncService) (rpc : KuboRpc)
    (request : ProfileSyncRequest) (budget : ResourceBudget) :
    service_result ProfileSyncResponse :=
  match request with
  | PutEncryptedObject request => kubo_put self rpc request budget
  | GetEncryptedObject request => kubo_get self rpc request budget
  | RetainObject request => kubo_retain self rpc request budget
  | ReleaseObject request => kubo_release self rpc request budget
  | ListRetainedObjects request => list_retained_objects self request
  | VerifyRetainedObject request => kubo_verify self rpc request budget
  | PublishRoot request => kubo_publish self rpc request budget
  | ResolveRoot request => kubo_resolve self rpc request budget
  | ListRootCandidates request => list_root_candidates self request
  | DiscoverProviders request => discover_providers self request
  | ProviderHealth request => provider_health self request
  | RootHealth request => root_health self request
  end.

(** ** The service *)

Definition local_dispatch (self : ProfileSyncService) (request : ProfileSyncRequest)
    (budget : ResourceBudget) : service_result ProfileSyncResponse :=
  match request with
  | PutEncryptedObject request => put_object self request budget
  | GetEncryptedObject request => get_object self request budget
  | RetainObject request => retain_object self request
  | ReleaseObject request => release_object self request
  | ListRetainedObjects request => list_retained_objects self request
  | VerifyRetainedObject request => verify_retained_object self request
  | PublishRoot request => publish_root self request
  | ResolveRoot request => resolve_root self request
  | ListRootCandidates request => list_root_candidates self request
  | DiscoverProviders request => discover_providers self request
  | ProviderHealth request => provider_health self request
  | RootHealth request => root_health self request
  end.

Definition call {H R} (self : ProfileSyncService) (request : ServiceRequest H)
    (budget : ResourceBudget) : service_result (ServiceResponse R) :=
  match request with
  | HttpFetchRequest _ => reject "profile-sync cannot handle non-profile-sync requests"
  | ProfileSyncServiceRequest request =>
      do* sr_lift (ensure_registered self) in
      do* ensure_online self in
      match kubo_backend self with
      | Some backend =>
          do* sr_lift (kb_create_executor backend) in
          let* response := kubo_profile_sync_via_executor self (kb_rpc backend) request budget in
          sr_ret (ProfileSyncServiceResponse response)
      | None =>
          let* response := local_dispatch self request budget in
          sr_ret (ProfileSyncServiceResponse response)
      end
  end.

Definition metadata (self : ProfileSyncService) : PluginMetadata :=
  match kubo_backend self with
  | Some backend => {|
      pm_id := PROFILE_SYNC_PLUGIN; pm_kind := ApplicationServiceKind;
      pm_capabilities := ["profile-sync/kubo-rpc"; CAPABILITY_OBJECT_TRANSFER;
                          CAPABILITY_LOCAL_RETENTION; CAPABILITY_MUTABLE_ROOT;
                          CAPABILITY_PROVIDER_DISCOVERY] ++ kb_capabilities backend;
      pm_dependencies := []; pm_privacy_boundary := privacy_boundary self;
      pm_resource_profile := kb_resource_profile backend |}
  | None =>
      let r := roles self in {|
      pm_id := PROFILE_SYNC_PLUGIN; pm_kind := ApplicationServiceKind;
      pm_capabilities := ["profile-sync/local-preview"]
        ++ (if discovery r then [CAPABILITY_PROVIDER_DISCOVERY] else [])
        ++ (if connectivity r then [CAPABILITY_LOCAL_CONNECTIVITY] else [])
        ++ (if object_transfer r then [CAPABILITY_OBJECT_TRANSFER] else [])
        ++ (if availability r then [CAPABILITY_LOCAL_RETENTION] else [])
        ++ (if mutable_roots r then [CAPABILITY_MUTABLE_ROOT]
            else if availability r then [CAPABILITY_AVAILABILITY_PROVIDER] else []);
      pm_dependencies := []; pm_privacy_boundary := privacy_boundary self;
      pm_resource_profile := LowProfile |}
  end.

(** ** Construction *)

(** The sequence is stored and returned. *)
Definition next_provider_seen_sequence : service_result Z :=
  let* st := store in
  let next := saturating_add_u64 (st_next_seen_sequence st) 1 in
  do* update (set_st_next_seen_sequence next) in
  sr_ret next.

Definition insert_provider (provider : string) (state : ProfileSyncProviderState) :
    service_result unit :=
  update (fun st => set_st_providers (<[provider := state]> (st_providers st)) st).

(** A service of a shared store; a refused registration is kept in the service. *)
Definition local_fixture_provider (provider kind : string) (r : ProfileSyncProviderRoles) :
    service_result ProfileSyncService :=
  let service error := {| provider_id := provider; provider_kind := kind;
                          privacy_boundary := LOCAL_PRIVACY_BOUNDARY; roles := r;
                          registration_error := error; kubo_backend := None |} in
  let* st := store in
  match check_profile_sync_fixture_provider_capacity st provider with
  | Err error => sr_ret (service (Some error))
  | Ok _ =>
      let* last_seen_sequence := next_provider_seen_sequence in
      do* insert_provider provider
            {| ps_provider_kind := kind; ps_privacy_boundary := LOCAL_PRIVACY_BOUNDARY;
               ps_roles := r; ps_last_seen_sequence := last_seen_sequence |} in
      sr_ret (service None)
  end.

Definition local_fixture_provider_id (device_id : string) : string :=
  "local-fixture-device-" +:+ device_id.
Definition local_fixture_availability_provider_id (provider : string) : string :=
  "local-fixture-availability-" +:+ provider.

Definition service_for_device (device_id : string) : service_result ProfileSyncService :=
  local_fixture_provider (local_fixture_provider_id device_id) "local-fixture" logged_in_device.
Definition service_for_availability_provider (provider : string) :
    service_result ProfileSyncService :=
  local_fixture_provider (local_fixture_availability_provider_id provider)
    "local-fixture-availability" availability_provider.
Definition service_for_provider_with_roles (provider kind : string)
    (r : ProfileSyncProviderRoles) : service_result ProfileSyncService :=
  local_fixture_provider provider kind r.

(** A Kubo service with a store of its own, which it starts from. *)
Definition kubo_with_rpc_executor_factory_and_capacity (backend : KuboProfileSyncBackend)
    (provider kind boundary : string) (c : ProfileSyncFixtureCapacity) :
    result BroadwebdError (ProfileSyncService * ProfileSyncStore) :=
  check? validate_profile_sync_provider_id provider in
  let st := set_st_capacity c default_store in
  check? check_profile_sync_fixture_provider_capacity st provider in
  let '(st, _) := next_provider_seen_sequence st in
  let '(st, _) := insert_provider provider
    {| ps_provider_kind := kind; ps_privacy_boundary := boundary; ps_roles := logged_in_device;
       ps_last_seen_sequence := st_next_seen_sequence st |} st in
  Ok ({| provider_id := provider; provider_kind := kind; privacy_boundary := boundary;
         roles := logged_in_device; registration_error := None; kubo_backend := Some backend |},
      st).

(** ** The test fixture *)

Definition with_capacity (c : ProfileSyncFixtureCapacity) : ProfileSyncStore :=
  set_st_capacity c default_store.

Definition expire_current_provider_freshness : service_result Z :=
  let* st := store in
  let minimum := saturating_add_u64 (st_next_seen_sequence st) 1 in
  do* update (set_st_minimum_seen_sequence minimum) in
  sr_ret minimum.

Definition require_known_profile_sync_provider (st : ProfileSyncStore) (provider : string) :
    result BroadwebdError unit :=
  if gmap_contains (st_providers st) provider then Ok tt
  else Err (UnsupportedRequest ("unknown profile sync provider: " +:+ provider)).

Definition mark_provider_seen (provider : string) : service_result Z :=
  let* st := store in
  match st_providers st !! provider with
  | None => reject ("unknown profile sync provider: " +:+ provider)
  | Some state =>
      let* last_seen_sequence := next_provider_seen_sequence in
      do* insert_provider provider
            {| ps_provider_kind := ps_provider_kind state;
               ps_privacy_boundary := ps_privacy_boundary state;
               ps_roles := ps_roles state; ps_last_seen_sequence := last_seen_sequence |} in
      sr_ret last_seen_sequence
  end.

Definition set_provider_online (provider : string) (online : bool) : service_result unit :=
  let* st := store in
  do* sr_lift (require_known_profile_sync_provider st provider) in
  update (fun st => set_st_offline_providers
    (if online then st_offline_providers st ∖ {[ provider ]}
     else {[ provider ]} ∪ st_offline_providers st) st).

Definition set_provider_retention_available (provider : string) (available : bool) :
    service_result unit :=
  let* st := store in
  do* sr_lift (require_known_profile_sync_provider st provider) in
  update (fun st => set_st_retention_blocked_providers
    (if available then st_retention_blocked_providers st ∖ {[ provider ]}
     else {[ provider ]} ∪ st_retention_blocked_providers st) st).

Definition set_provider_retention_quota (provider : string) (max_retained_objects : option Z) :
    service_result unit :=
  let* st := store in
  do* sr_lift (require_known_profile_sync_provider st provider) in
  update (fun st => set_st_retention_quota_by_provider
    (match max_retained_objects with
     | Some max => <[provider := max]> (st_retention_quota_by_provider st)
     | None => delete provider (st_retention_quota_by_provider st)
     end) st).

Definition remove_provider_object_bytes (provider profile object_id : string) :
    service_result bool :=
  do* sr_lift (validate_profile profile) in
  do* sr_lift (validate_profile_sync_object_id object_id) in
  let* st := store in
  do* sr_lift (require_known_profile_sync_provider st provider) in
  do* update (fun st => set_st_objects
        (delete (provider, profile, object_id) (st_objects st)) st) in
  sr_ret (gmap_contains (st_objects st) (provider, profile, object_id)).

Definition set_provider_transfer_available (source target : string) (available : bool) :
    service_result unit :=
  let* st := store in
  do* sr_lift (require_known_profile_sync_provider st source) in
  do* sr_lift (require_known_profile_sync_provider st target) in
  update (fun st => set_st_delayed_transfers
    (if available then st_delayed_transfers st ∖ {[ (source, target) ]}
     else {[ (source, target) ]} ∪ st_delayed_transfers st) st).

Definition set_provider_root_available (source target profile root_id : string)
    (available : bool) : service_result unit :=
  do* sr_lift (validate_profile profile) in
  do* sr_lift (validate_profile_sync_root_id root_id) in
  let* st := store in
  do* sr_lift (require_known_profile_sync_provider st source) in
  do* sr_lift (require_known_profile_sync_provider st target) in
  update (fun st => set_st_delayed_roots
    (if available then st_delayed_roots st ∖ {[ (source, target, profile, root_id) ]}
     else {[ (source, target, profile, root_id) ]} ∪ st_delayed_roots st) st).

(** ** Selection of the runtime backend *)

Definition SLATE_PROFILE_SYNC_BACKEND_ENV : string := "SLATE_PROFILE_SYNC_BACKEND".
Definition SLATE_PROFILE_SYNC_KUBO_RPC_ENV : string := "SLATE_PROFILE_SYNC_KUBO_RPC".
Definition SLATE_PROFILE_SYNC_PROVIDER_ID_ENV : string := "SLATE_PROFILE_SYNC_PROVIDER_ID".
Definition DEFAULT_IPFS_KUBO_RPC_API : string := "http://127.0.0.1:5001".
Definition DEFAULT_PROFILE_SYNC_KUBO_PROVIDER_ID : string := "local-kubo-profile".

Inductive ProfileSyncRuntimeBackend :=
  | LocalBackend
  | KuboRpcBackend (api_base_url backend_provider_id : string).
#[export] Instance ProfileSyncRuntimeBackend_eq_dec : EqDecision ProfileSyncRuntimeBackend.
Proof. solve_decision. Defined.

Inductive BackendSelection := SelectLocal | SelectKuboRpc.

Definition non_empty_trimmed (input : option string) : option string :=
  match input with
  | Some value => if is_empty (trim value) then None else Some (trim value)
  | None => None
  end.

Definition option_is_some {A} (o : option A) : bool :=
  match o with Some _ => true | None => false end.

Definition parse_profile_sync_backend (backend kubo_rpc_api provider : option string) :
    result BroadwebdError BackendSelection :=
  match backend with
  | None =>
      if option_is_some kubo_rpc_api then Ok SelectKuboRpc
      else if option_is_some provider
      then Err (UnsupportedRequest
             (SLATE_PROFILE_SYNC_PROVIDER_ID_ENV +:+ " requires "
              +:+ SLATE_PROFILE_SYNC_BACKEND_ENV +:+ "=kubo-rpc or "
              +:+ SLATE_PROFILE_SYNC_KUBO_RPC_ENV))
      else Ok SelectLocal
  | Some backend =>
      if str_eqb backend "local" then Ok SelectLocal
      else if str_eqb backend "kubo" || str_eqb backend "kubo-rpc"
              || str_eqb backend "local-kubo-rpc" then Ok SelectKuboRpc
      else Err (UnsupportedRequest
             ("unsupported " +:+ SLATE_PROFILE_SYNC_BACKEND_ENV +:+ ": " +:+ backend
              +:+ "; expected local or kubo-rpc"))
  end.

Section RuntimeConfig.
(** [IpfsKuboProfileSyncRpc::local], which parses the base URL with the [url]
    crate. *)
Variable kubo_rpc_local : string -> result BroadwebdError unit.

Definition kubo_rpc (api_base_url provider : string) :
    result BroadwebdError ProfileSyncRuntimeBackend :=
  check? kubo_rpc_local api_base_url in
  check? validate_profile_sync_provider_id provider in
  Ok (KuboRpcBackend api_base_url provider).

Definition local_without_kubo_options (kubo_rpc_api provider : option string) :
    result BroadwebdError ProfileSyncRuntimeBackend :=
  if option_is_some kubo_rpc_api || option_is_some provider
  then Err (UnsupportedRequest
         (SLATE_PROFILE_SYNC_BACKEND_ENV +:+ "=local cannot be combined with "
          +:+ SLATE_PROFILE_SYNC_KUBO_RPC_ENV +:+ " or "
          +:+ SLATE_PROFILE_SYNC_PROVIDER_ID_ENV))
  else Ok LocalBackend.

Definition from_runtime_options (backend kubo_rpc_api provider : option string) :
    result BroadwebdError ProfileSyncRuntimeBackend :=
  let backend := non_empty_trimmed backend in
  let kubo_rpc_api := non_empty_trimmed kubo_rpc_api in
  let provider := non_empty_trimmed provider in
  let? selection := parse_profile_sync_backend backend kubo_rpc_api provider in
  match selection with
  | SelectLocal => local_without_kubo_options kubo_rpc_api provider
  | SelectKuboRpc => kubo_rpc (default DEFAULT_IPFS_KUBO_RPC_API kubo_rpc_api)
                       (default DEFAULT_PROFILE_SYNC_KUBO_PROVIDER_ID provider)
  end.
End RuntimeConfig.
