(* ===== verification/Kubo.v ===== *)
(** * The Kubo RPC client

    Models [crates/broadwebd/src/protocols/ipfs/kubo.rs]: the validation of the endpoint, the
    URLs of the calls, the profile-sync operations over an executor of requests, the decoding
    of the node's answers, and the transport that reads IPFS content with [cat].

    The JSON decoders of the answers ([serde_json]) and the executor, which sends one request
    to the node, are parameters. *)
From S2P Require Import Prelude RustStr Broadwebd Routing Http Daemon ProfileSyncService.
From S2P Require Import Network.

(** ** Addresses of this machine *)

Definition is_loopback (ip : IpAddr) : bool :=
  match ip with
  | V4 a _ _ _ => a =? 127
  | V6 groups => bool_decide (groups = [0; 0; 0; 0; 0; 0; 0; 1])
  end.

(** The host without its brackets, [host_for_parse]. *)
Definition unbracketed (host : string) : string :=
  match strip_prefix "[" host with
  | Some inner => default host (strip_suffix "]" inner)
  | None => host
  end.
Definition is_numeric_loopback_host (host : string) : bool :=
  match parse_ip_addr (unbracketed host) with Some ip => is_loopback ip | None => false end.

(** [char::is_control]: C0, DEL and C1, the latter encoded in two bytes. *)
Fixpoint has_control (s : string) : bool :=
  match s with
  | EmptyString => false
  | String c s' =>
      (byte_val c <? 32) || (byte_val c =? 127)
      || (match s' with
          | String d _ => (byte_val c =? 194) && in_range (byte_of 128) (byte_of 159) d
          | EmptyString => false
          end)
      || has_control s'
  end.

Section Endpoint.
Context `{UrlCrate}.

Definition validate_kubo_rpc_url (api_base_url : string) : result BroadwebdError unit :=
  let? url := map_err InvalidUrl (url_parse api_base_url) in
  if negb (is_http_scheme (url_scheme url))
  then Err (UnsupportedRequest ("unsupported Kubo RPC scheme: " +:+ url_scheme url))
  else if bool_decide (is_Some (url_query url)) || bool_decide (is_Some (url_fragment url))
  then Err (InvalidUrl (api_base_url +:+ " must not include a query or fragment"))
  else
    let? host := ok_or (url_host_str url)
                   (InvalidUrl (api_base_url +:+ " is missing a Kubo RPC host")) in
    if is_numeric_loopback_host host then Ok tt
    else Err (UnsupportedRequest
                ("Kubo RPC endpoint must be a numeric loopback address: " +:+ api_base_url)).

Record IpfsKuboRpcEndpoint := { api_base_url : string }.

Definition kubo_endpoint_local (api_base_url : string) : result BroadwebdError IpfsKuboRpcEndpoint :=
  let? _ := validate_kubo_rpc_url api_base_url in Ok {| api_base_url := api_base_url |}.

(** ** URLs of the calls *)

Definition kubo_rpc_api_url_from_validated_base (api_base_url endpoint : string) :
    result BroadwebdError Url :=
  let? url := parse_http_url api_base_url in
  let api_path := trim_end_matches "/" (url_path url) +:+ "/api/v0/"
                  +:+ drop_leading "/" endpoint in
  Ok (url_clear_query (url_set_path api_path url)).

Definition validate_kubo_profile_sync_name_token (label value : string) :
    result BroadwebdError unit :=
  if is_empty value then Err (InvalidUrl (label +:+ " is empty"))
  else if 2048 <? str_len value then Err (InvalidUrl (label +:+ " is too long"))
  else if has_control value
  then Err (InvalidUrl (label +:+ " must not contain control characters"))
  else Ok tt.

Definition validate_kubo_profile_sync_object_id (object_id : string) :
    result BroadwebdError unit :=
  let? _ := validate_kubo_profile_sync_name_token "profile sync object id" object_id in
  if str_contains "/" object_id
  then Err (InvalidUrl ("profile sync object id must not contain a path separator: "
                        +:+ object_id))
  else Ok tt.

Definition with_pairs (base : string) (endpoint : string) (pairs : list (string * string)) :
    result BroadwebdError string :=
  let? url := kubo_rpc_api_url_from_validated_base base endpoint in
  Ok (url_as_str (url_append_pairs pairs url)).

Definition add_url_from_validated_base (base : string) : result BroadwebdError string :=
  with_pairs base "add" [("cid-version", "1"); ("raw-leaves", "true"); ("pin", "false")].
Definition pin_add_url_from_validated_base (object_id base : string) :
    result BroadwebdError string :=
  let? _ := validate_kubo_profile_sync_object_id object_id in
  with_pairs base "pin/add" [("arg", object_id); ("recursive", "true")].
Definition pin_rm_url_from_validated_base (object_id base : string) :
    result BroadwebdError string :=
  let? _ := validate_kubo_profile_sync_object_id object_id in
  with_pairs base "pin/rm" [("arg", object_id); ("recursive", "true")].
Definition pin_ls_url_from_validated_base (object_id base : string) :
    result BroadwebdError string :=
  let? _ := validate_kubo_profile_sync_object_id object_id in
  with_pairs base "pin/ls" [("arg", object_id); ("type", "recursive")].
Definition name_publish_url_from_validated_base (key_id object_id base : string) :
    result BroadwebdError string :=
  let? _ := validate_kubo_profile_sync_name_token "IPNS key id" key_id in
  let? _ := validate_kubo_profile_sync_object_id object_id in
  with_pairs base "name/publish"
    [("arg", "/ipfs/" +:+ object_id); ("key", key_id); ("allow-offline", "true")].
Definition name_resolve_url_from_validated_base (name base : string) :
    result BroadwebdError string :=
  let? _ := validate_kubo_profile_sync_name_token "IPNS name" name in
  with_pairs base "name/resolve"
    [("arg", if starts_with "/ipns/" name then name else "/ipns/" +:+ name);
     ("recursive", "false")].
Definition kubo_cat_url_for_validated_base (content_path base : string) :
    result BroadwebdError string :=
  with_pairs base "cat" [("arg", content_path)].

(** The public builders validate the base first. *)
Definition with_validated_base (base : string) (url : result BroadwebdError string) :
    result BroadwebdError string :=
  let? _ := validate_kubo_rpc_url base in url.
Definition ipfs_kubo_profile_sync_add_url (base : string) : result BroadwebdError string :=
  with_validated_base base (add_url_from_validated_base base).
Definition ipfs_kubo_profile_sync_pin_add_url (object_id base : string) :
    result BroadwebdError string :=
  with_validated_base base (pin_add_url_from_validated_base object_id base).
Definition ipfs_kubo_profile_sync_pin_rm_url (object_id base : string) :
    result BroadwebdError string :=
  with_validated_base base (pin_rm_url_from_validated_base object_id base).
Definition ipfs_kubo_profile_sync_pin_ls_url (object_id base : string) :
    result BroadwebdError string :=
  with_validated_base base (pin_ls_url_from_validated_base object_id base).
Definition ipfs_kubo_profile_sync_name_publish_url (key_id object_id base : string) :
    result BroadwebdError string :=
  with_validated_base base (name_publish_url_from_validated_base key_id object_id base).
Definition ipfs_kubo_profile_sync_name_resolve_url (name base : string) :
    result BroadwebdError string :=
  with_validated_base base (name_resolve_url_from_validated_base name base).
Definition kubo_cat_url_for_path (content_path base : string) : result BroadwebdError string :=
  with_validated_base base (kubo_cat_url_for_validated_base content_path base).
End Endpoint.

(** ** Answers *)

Record IpfsKuboRpcResponse := {
  kr_status_code : Z;
  kr_content_type : string;
  kr_body : string
}.

(** The [Deserialize] structures: [Hash]; [Keys] with the [Type] of each pin; [Name] and
    [Value]; [Path].  Errors are those of [serde_json]. *)
Class KuboJson := {
  decode_add : string -> result string string;
  decode_pin_ls : string -> result string (gmap string string);
  decode_name_publish : string -> result string (string * string);
  decode_name_resolve : string -> result string string
}.

Section Answers.
Context `{KuboJson}.

Definition decode_kubo_json_response {T} (decode : string -> result string T)
    (body operation : string) : result BroadwebdError T :=
  map_err (fun error => Request ("invalid Kubo " +:+ operation +:+ " response: " +:+ error))
    (decode body).

Definition profile_sync_object_id_from_ipfs_path (path : string) : result BroadwebdError string :=
  let? object_id := ok_or (strip_prefix "/ipfs/" path)
                      (InvalidUrl ("expected /ipfs/ path: " +:+ path)) in
  let? _ := validate_kubo_profile_sync_object_id object_id in
  Ok object_id.

Definition ipfs_kubo_profile_sync_added_object_id (body : string) : result BroadwebdError string :=
  let? hash := decode_kubo_json_response decode_add body "add" in
  let? _ := validate_kubo_profile_sync_object_id hash in
  Ok hash.

Definition ipfs_kubo_profile_sync_pin_ls_has_recursive_pin (object_id body : string) :
    result BroadwebdError bool :=
  let? _ := validate_kubo_profile_sync_object_id object_id in
  let? keys := decode_kubo_json_response decode_pin_ls body "pin/ls" in
  Ok (match keys !! object_id with Some kind => str_eqb kind "recursive" | None => false end).

Definition ipfs_kubo_profile_sync_published_object_id (body : string) :
    result BroadwebdError string :=
  let? response := decode_kubo_json_response decode_name_publish body "name/publish" in
  let? object_id := profile_sync_object_id_from_ipfs_path response.2 in
  let? _ := validate_kubo_profile_sync_name_token "IPNS name" response.1 in
  Ok object_id.

Definition ipfs_kubo_profile_sync_resolved_object_id (body : string) :
    result BroadwebdError string :=
  let? path := decode_kubo_json_response decode_name_resolve body "name/resolve" in
  profile_sync_object_id_from_ipfs_path path.

Definition require_kubo_profile_sync_success (operation : string) (status_code : Z) :
    result BroadwebdError unit :=
  if is_success status_code then Ok tt
  else Err (Request ("Kubo profile-sync " +:+ operation +:+ " returned HTTP status "
                     +:+ show status_code)).
End Answers.

(** ** The profile-sync operations *)

Inductive IpfsKuboProfileSyncOperation :=
  | PutEncryptedObject | RetainObject | ReleaseObject | VerifyRetainedObject | PublishRoot
  | ResolveRoot.
#[export] Instance IpfsKuboProfileSyncOperation_eq_dec : EqDecision IpfsKuboProfileSyncOperation.
Proof. solve_decision. Defined.

Record IpfsKuboProfileSyncRpcRequest := {
  rq_operation : IpfsKuboProfileSyncOperation;
  rq_url : string
}.

(** [IpfsKuboProfileSyncRpcExecutor] over a node [N]. *)
Record KuboExecutor (N : Type) := {
  execute_profile_sync_request : IpfsKuboProfileSyncRpcRequest -> ResourceBudget ->
    option string -> state_result N BroadwebdError IpfsKuboRpcResponse;
  execute_content_request : Url -> Z -> state_result N BroadwebdError IpfsKuboRpcResponse
}.
Arguments execute_profile_sync_request {N}. Arguments execute_content_request {N}.

(** The requests of an endpoint, [IpfsKuboProfileSyncRpc::*_request]. *)
Section Requests.
Context `{UrlCrate} (endpoint : IpfsKuboRpcEndpoint).

Definition kubo_request (operation : IpfsKuboProfileSyncOperation)
    (url : result BroadwebdError string) : result BroadwebdError IpfsKuboProfileSyncRpcRequest :=
  let? url := url in Ok {| rq_operation := operation; rq_url := url |}.

Definition put_encrypted_object_request : result BroadwebdError IpfsKuboProfileSyncRpcRequest :=
  kubo_request PutEncryptedObject (add_url_from_validated_base (api_base_url endpoint)).
Definition retain_object_request (object_id : string) :
    result BroadwebdError IpfsKuboProfileSyncRpcRequest :=
  kubo_request RetainObject (pin_add_url_from_validated_base object_id (api_base_url endpoint)).
Definition release_object_request (object_id : string) :
    result BroadwebdError IpfsKuboProfileSyncRpcRequest :=
  kubo_request ReleaseObject (pin_rm_url_from_validated_base object_id (api_base_url endpoint)).
Definition verify_retained_object_request (object_id : string) :
    result BroadwebdError IpfsKuboProfileSyncRpcRequest :=
  kubo_request VerifyRetainedObject
    (pin_ls_url_from_validated_base object_id (api_base_url endpoint)).
Definition publish_root_request (key_id object_id : string) :
    result BroadwebdError IpfsKuboProfileSyncRpcRequest :=
  kubo_request PublishRoot
    (name_publish_url_from_validated_base key_id object_id (api_base_url endpoint)).
Definition resolve_root_request (name : string) :
    result BroadwebdError IpfsKuboProfileSyncRpcRequest :=
  kubo_request ResolveRoot (name_resolve_url_from_validated_base name (api_base_url endpoint)).
End Requests.

Section Operations.
Context {N : Type} `{UrlCrate, KuboJson} (endpoint : IpfsKuboRpcEndpoint)
  (executor : KuboExecutor N).

Definition kubo_result (A : Type) : Type := state_result N BroadwebdError A.

Definition kubo_put_encrypted_object (object_bytes : string) (budget : ResourceBudget) :
    kubo_result string :=
  do* sr_lift (within_limit (max_profile_sync_object_bytes budget) object_bytes) in
  let* request := sr_lift (put_encrypted_object_request endpoint) in
  let* response :=
    execute_profile_sync_request executor request budget (Some object_bytes) in
  do* sr_lift (require_kubo_profile_sync_success "add" (kr_status_code response)) in
  sr_lift (ipfs_kubo_profile_sync_added_object_id (kr_body response)).

Definition kubo_get_encrypted_object (object_id : string) (budget : ResourceBudget) :
    kubo_result string :=
  do* sr_lift (validate_kubo_profile_sync_object_id object_id) in
  let* cat_url := sr_lift (kubo_cat_url_for_validated_base ("/ipfs/" +:+ object_id)
                             (api_base_url endpoint)) in
  let* url := sr_lift (parse_http_url cat_url) in
  let* response :=
    execute_content_request executor url (max_profile_sync_object_bytes budget) in
  do* sr_lift (require_kubo_profile_sync_success "cat" (kr_status_code response)) in
  sr_ret (kr_body response).

Definition kubo_retain_object (object_id : string) (budget : ResourceBudget) :
    kubo_result unit :=
  let* request := sr_lift (retain_object_request endpoint object_id) in
  let* response := execute_profile_sync_request executor request budget None in
  sr_lift (require_kubo_profile_sync_success "pin/add" (kr_status_code response)).

Definition kubo_release_object (object_id : string) (budget : ResourceBudget) :
    kubo_result unit :=
  let* request := sr_lift (release_object_request endpoint object_id) in
  let* response := execute_profile_sync_request executor request budget None in
  sr_lift (require_kubo_profile_sync_success "pin/rm" (kr_status_code response)).

Definition kubo_verify_retained_object (object_id : string) (budget : ResourceBudget) :
    kubo_result bool :=
  let* request := sr_lift (verify_retained_object_request endpoint object_id) in
  let* response := execute_profile_sync_request executor request budget None in
  do* sr_lift (require_kubo_profile_sync_success "pin/ls" (kr_status_code response)) in
  sr_lift (ipfs_kubo_profile_sync_pin_ls_has_recursive_pin object_id (kr_body response)).

Definition kubo_publish_root (key_id object_id : string) (budget : ResourceBudget) :
    kubo_result string :=
  let* request := sr_lift (publish_root_request endpoint key_id object_id) in
  let* response := execute_profile_sync_request executor request budget None in
  do* sr_lift (require_kubo_profile_sync_success "name/publish" (kr_status_code response)) in
  let* published_object_id :=
    sr_lift (ipfs_kubo_profile_sync_published_object_id (kr_body response)) in
  if str_eqb published_object_id object_id then sr_ret published_object_id
  else sr_err (Request ("Kubo profile-sync name/publish returned " +:+ published_object_id
                        +:+ ", expected " +:+ object_id)).

Definition kubo_resolve_root (name : string) (budget : ResourceBudget) : kubo_result string :=
  let* request := sr_lift (resolve_root_request endpoint name) in
  let* response := execute_profile_sync_request executor request budget None in
  do* sr_lift (require_kubo_profile_sync_success "name/resolve" (kr_status_code response)) in
  sr_lift (ipfs_kubo_profile_sync_resolved_object_id (kr_body response)).
End Operations.

(** The client of [ProfileSyncService] at one state of the node. *)
Definition kubo_rpc_at {N} `{UrlCrate, KuboJson} (endpoint : IpfsKuboRpcEndpoint)
    (executor : KuboExecutor N) (n : N) : KuboRpc := {|
  rpc_put_encrypted_object bytes budget :=
    (kubo_put_encrypted_object endpoint executor bytes budget n).2;
  rpc_get_encrypted_object object_id budget :=
    (kubo_get_encrypted_object endpoint executor object_id budget n).2;
  rpc_retain_object object_id budget :=
    (kubo_retain_object endpoint executor object_id budget n).2;
  rpc_release_object object_id budget :=
    (kubo_release_object endpoint executor object_id budget n).2;
  rpc_verify_retained_object object_id budget :=
    (kubo_verify_retained_object endpoint executor object_id budget n).2;
  rpc_publish_root key_id object_id budget :=
    (kubo_publish_root endpoint executor key_id object_id budget n).2;
  rpc_resolve_root name budget := (kubo_resolve_root endpoint executor name budget n).2
|}.

(** ** The executor over the network *)

Section Reqwest.
Context {N : Type} `{UrlCrate, HttpNetwork N}.

Definition kubo_rpc_response_from_reqwest (response : HttpAnswer) (max_response_bytes : Z) :
    result BroadwebdError IpfsKuboRpcResponse :=
  let? body := map_err Request (an_body response) in
  let? _ := within_limit max_response_bytes body in
  Ok {| kr_status_code := an_status response;
        kr_content_type := default "application/octet-stream"
                             (reqwest_header "content-type" (an_headers response));
        kr_body := body |}.

Definition reqwest_profile_sync_executor : KuboExecutor N := {|
  execute_profile_sync_request request budget body :=
    let* url := sr_lift (parse_http_url (rq_url request)) in
    let* response := sr_map_err Request (http_post url body) in
    sr_lift (kubo_rpc_response_from_reqwest response (max_profile_sync_object_bytes budget));
  execute_content_request url max_response_bytes :=
    let* response := sr_map_err Request (http_post url None) in
    sr_lift (kubo_rpc_response_from_reqwest response max_response_bytes)
|}.

Definition reqwest_http_content_request (url : Url) (document_url : string)
    (budget : ResourceBudget) : state_result N BroadwebdError HttpFetchResponse :=
  let* response := sr_map_err Request (http_post url None) in
  let headers := response_headers (an_headers response) in
  let* body := sr_lift (map_err Request (an_body response)) in
  do* sr_lift (within_limit (max_http_response_bytes budget) body) in
  let content_type :=
    infer_content_type document_url
      (option_map hd_value (find_header "content-type" headers)) body in
  sr_ret (http_fetch_response_new document_url (an_status response) content_type headers body).
End Reqwest.

(** ** The content transport *)

Record IpfsContentPathCandidate := { content_path : string; document_url : string }.

Definition index_document_path (path : string) : string :=
  if str_eqb path "/" then "/index.html" else trim_end_matches "/" path +:+ "/index.html".

Definition should_try_directory_index (path : string) : bool :=
  str_eqb path "/" || ends_with "/" path || negb (str_contains "." (after_last "/" path)).

Section Transport.
Context {N : Type} `{UrlCrate}.

Definition ipfs_content_path_candidates (source : string) :
    result BroadwebdError (list IpfsContentPathCandidate) :=
  let? parts := ipfs_url_parts source in
  let path := if str_eqb (up_path parts) "/" then "" else up_path parts in
  let query := match up_query parts with Some query => "?" +:+ query | None => "" end in
  let content := "/" +:+ up_namespace parts +:+ "/" +:+ up_name parts +:+ path in
  let root := up_namespace parts +:+ "://" +:+ up_name parts in
  Ok ({| content_path := content; document_url := root +:+ path +:+ query |}
      :: if should_try_directory_index (up_path parts)
         then [{| content_path := trim_end_matches "/" content +:+ "/index.html";
                  document_url := root +:+ index_document_path (up_path parts) +:+ query |}]
         else []).

Definition ipfs_kubo_cat_url (source api_base_url : string) : result BroadwebdError string :=
  let? candidates := ipfs_content_path_candidates source in
  let? candidate := ok_or (head candidates)
                      (InvalidUrl (source +:+ " is missing a content path")) in
  kubo_cat_url_for_path (content_path candidate) api_base_url.

Context (endpoint : IpfsKuboRpcEndpoint)
  (execute : Url -> string -> ResourceBudget -> state_result N BroadwebdError HttpFetchResponse)
  (request : TransportHttpRequest) (budget : ResourceBudget).

Fixpoint kubo_fetch_candidates (last_response : option HttpFetchResponse)
    (candidates : list IpfsContentPathCandidate) :
    state_result N BroadwebdError HttpFetchResponse :=
  match candidates with
  | [] =>
      sr_lift (ok_or last_response
        (UnsupportedRequest ("no Kubo RPC content path candidates for " +:+ tq_url request)))
  | candidate :: candidates =>
      let* cat_url := sr_lift (kubo_cat_url_for_validated_base (content_path candidate)
                                 (api_base_url endpoint)) in
      let* url := sr_lift (parse_http_url cat_url) in
      let* fetch_response := execute url (document_url candidate) budget in
      if is_success (hr_status_code fetch_response) then sr_ret fetch_response
      else kubo_fetch_candidates (Some fetch_response) candidates
  end.

Definition kubo_fetch_http_with_executor : state_result N BroadwebdError HttpFetchResponse :=
  let* candidates := sr_lift (ipfs_content_path_candidates (tq_url request)) in
  kubo_fetch_candidates None candidates.
End Transport.

Definition kubo_rpc_metadata : PluginMetadata :=
  with_resource_profile MediumProfile
    (with_privacy_boundary
       "local Kubo RPC over HTTP; sends requested CIDs and IPNS names to the local node"
       (with_capabilities ["ipfs"; "ipns"; "http-fetch"; "local-kubo-rpc"]
          (plugin_metadata_new IPFS_KUBO_RPC_PLUGIN TransportKind))).

Definition kubo_rpc_transport {N T} `{UrlCrate, HttpNetwork N} (endpoint : IpfsKuboRpcEndpoint) :
    TransportPlugin (NetWorld N T) := {|
  tp_metadata := kubo_rpc_metadata;
  tp_fetch_http request budget :=
    on_net (kubo_fetch_http_with_executor endpoint reqwest_http_content_request request budget)
|}.
