(* ===== verification/IpnsDiscovery.v ===== *)
(** * Peer discovery through IPNS

    Models [crates/broadwebd/src/protocols/ipfs/discovery.rs]: the records that carry an
    advertisement, and the discovery provider that publishes one under a key of the local
    Kubo node and resolves those of a list of names. *)
From S2P Require Import Prelude RustStr Routing ServiceFrames Broadwebd PeerDiscovery.
From S2P Require Import Http Network Kubo.

Record IpnsProfileSyncPeerDiscoveryRecord := {
  ir_protocol : string;
  ir_namespace : string;
  ir_advertisement : ProfileSyncPeerAdvertisement
}.

(** [serde_json]. *)
Class IpnsRecordJson := {
  ipns_record_to_vec : IpnsProfileSyncPeerDiscoveryRecord -> result string string;
  ipns_record_from_slice : string -> result string IpnsProfileSyncPeerDiscoveryRecord
}.

Definition ipns_record_validate (r : IpnsProfileSyncPeerDiscoveryRecord) :
    result BroadwebdError unit :=
  if negb (str_eqb (ir_protocol r) PROFILE_SYNC_DISCOVERY_PROTOCOL_IPNS)
  then Err (Request ("IPNS profile-sync discovery record has unsupported protocol: "
                     +:+ ir_protocol r))
  else if is_empty (ir_namespace r) || (256 <? str_len (ir_namespace r))
          || negb (all_bytes (fun byte => is_ascii_alphanumeric byte || one_of "-_./" byte)
                     (ir_namespace r))
  then Err (Request ("invalid IPNS profile-sync discovery namespace: "
                     +:+ debug_str (ir_namespace r)))
  else advertisement_validate (ir_advertisement r).

Definition ipns_record_new (namespace : string) (advertisement : ProfileSyncPeerAdvertisement) :
    result BroadwebdError IpnsProfileSyncPeerDiscoveryRecord :=
  let? _ := advertisement_validate advertisement in
  let record := {| ir_protocol := PROFILE_SYNC_DISCOVERY_PROTOCOL_IPNS;
                   ir_namespace := namespace; ir_advertisement := advertisement |} in
  let? _ := ipns_record_validate record in Ok record.

Definition ipns_record_encode `{IpnsRecordJson} (r : IpnsProfileSyncPeerDiscoveryRecord) :
    result BroadwebdError string :=
  let? _ := ipns_record_validate r in
  let? bytes := map_err (fun error => Request ("encode IPNS profile-sync discovery record: "
                                               +:+ error)) (ipns_record_to_vec r) in
  let? _ := within_discovery_limit bytes in Ok bytes.

Definition ipns_record_decode `{IpnsRecordJson} (bytes : string) :
    result BroadwebdError IpnsProfileSyncPeerDiscoveryRecord :=
  let? _ := within_discovery_limit bytes in
  let? record := map_err (fun error => Request ("decode IPNS profile-sync discovery record: "
                            +:+ error)) (ipns_record_from_slice bytes) in
  let? _ := ipns_record_validate record in Ok record.

Record IpnsProfileSyncPeerDiscoveryProvider (N : Type) := {
  ip_endpoint : IpfsKuboRpcEndpoint;
  ip_executor : KuboExecutor N;
  ip_budget : ResourceBudget;
  ip_publish_key_id : option string;
  ip_resolve_names : list string
}.
Arguments ip_endpoint {N}. Arguments ip_executor {N}. Arguments ip_budget {N}.
Arguments ip_publish_key_id {N}. Arguments ip_resolve_names {N}.

Definition ipns_provider_new {N} (endpoint : IpfsKuboRpcEndpoint) (executor : KuboExecutor N)
    (budget : ResourceBudget) : IpnsProfileSyncPeerDiscoveryProvider N :=
  {| ip_endpoint := endpoint; ip_executor := executor; ip_budget := budget;
     ip_publish_key_id := None; ip_resolve_names := [] |}.
Definition with_publish_key_id {N} (key_id : string)
    (p : IpnsProfileSyncPeerDiscoveryProvider N) : IpnsProfileSyncPeerDiscoveryProvider N :=
  {| ip_endpoint := ip_endpoint p; ip_executor := ip_executor p; ip_budget := ip_budget p;
     ip_publish_key_id := Some key_id; ip_resolve_names := ip_resolve_names p |}.
(** [with_resolve_names]; [with_resolve_name] adds one. *)
Definition with_resolve_names {N} (names : list string)
    (p : IpnsProfileSyncPeerDiscoveryProvider N) : IpnsProfileSyncPeerDiscoveryProvider N :=
  {| ip_endpoint := ip_endpoint p; ip_executor := ip_executor p; ip_budget := ip_budget p;
     ip_publish_key_id := ip_publish_key_id p; ip_resolve_names := ip_resolve_names p ++ names |}.

Section Ipns.
Context {N : Type} `{UrlCrate, KuboJson, IpnsRecordJson}.
Context (self : IpnsProfileSyncPeerDiscoveryProvider N).

Definition ipns_publish (protocol : ProfileSyncPeerDiscoveryProtocol) (namespace : string)
    (advertisement : ProfileSyncPeerAdvertisement) :
    state_result N BroadwebdError ProfileSyncPeerDiscoveryPublication :=
  if negb (bool_decide (protocol = IpnsProtocol))
  then sr_err (UnsupportedRequest ("IPNS profile-sync peer discovery cannot publish "
                                   +:+ protocol_as_str protocol +:+ " records"))
  else
    match ip_publish_key_id self with
    | None => sr_err (UnsupportedRequest
        "IPNS profile-sync peer discovery publish requires an IPNS key id")
    | Some key_id =>
        let* record := sr_lift (ipns_record_new namespace advertisement) in
        let* bytes := sr_lift (ipns_record_encode record) in
        let* object_id :=
          kubo_put_encrypted_object (ip_endpoint self) (ip_executor self) bytes (ip_budget self) in
        do* kubo_retain_object (ip_endpoint self) (ip_executor self) object_id
              (ip_budget self) in
        do* kubo_publish_root (ip_endpoint self) (ip_executor self) key_id object_id
              (ip_budget self) in
        sr_ret {| pb_protocol := protocol; pb_namespace := namespace;
                  pb_advertisement := advertisement |}
    end.

(** The peer a result is about, the key of [freshest_by_peer]. *)
Definition peer_of (r : ProfileSyncPeerDiscoveryResult) : string * string :=
  (ad_node_id (dr_advertisement r), ad_provider_id (dr_advertisement r)).

(** The results after one more candidate: the index that [freshest_by_peer] holds for its
    peer is that of the one result of the peer. *)
Definition keep_freshest (max_peers : Z) (results : list ProfileSyncPeerDiscoveryResult)
    (candidate : ProfileSyncPeerDiscoveryResult) : list ProfileSyncPeerDiscoveryResult :=
  match list_find (fun r => peer_of r = peer_of candidate) results with
  | Some (index, stored) =>
      if ad_sequence (dr_advertisement stored) <? ad_sequence (dr_advertisement candidate)
      then <[index := candidate]> results else results
  | None =>
      if Z.of_nat (length results) <? max_peers then results ++ [candidate] else results
  end.

Fixpoint ipns_resolve_all (query : ProfileSyncPeerDiscoveryQuery) (names : list string)
    (results : list ProfileSyncPeerDiscoveryResult) :
    state_result N BroadwebdError (list ProfileSyncPeerDiscoveryResult) :=
  match names with
  | [] => sr_ret results
  | name :: names =>
      let* object_id :=
        kubo_resolve_root (ip_endpoint self) (ip_executor self) name (ip_budget self) in
      let* bytes :=
        kubo_get_encrypted_object (ip_endpoint self) (ip_executor self) object_id
          (ip_budget self) in
      let* record := sr_lift (ipns_record_decode bytes) in
      let advertisement := ir_advertisement record in
      if negb (str_eqb (ir_namespace record) (dq_namespace query))
         || negb (str_eqb (ad_network_id advertisement) (dq_network_id query))
         || str_eqb (ad_node_id advertisement) (dq_requester_node_id query)
         || negb (supports_profile_sync_service_frames advertisement)
      then ipns_resolve_all query names results
      else
        ipns_resolve_all query names
          (keep_freshest (dq_max_peers query) results
             {| dr_protocol := IpnsProtocol; dr_namespace := ir_namespace record;
                dr_advertisement := advertisement |})
  end.

Definition ipns_discover (query : ProfileSyncPeerDiscoveryQuery) :
    state_result N BroadwebdError (list ProfileSyncPeerDiscoveryResult) :=
  do* sr_lift (query_validate query) in
  if bool_decide (IpnsProtocol ∈ dq_protocols query)
  then ipns_resolve_all query (ip_resolve_names self) []
  else sr_ret [].

Definition ipns_provider : ProfileSyncPeerDiscoveryProvider N := {|
  publish_profile_sync_peer := ipns_publish;
  provider_discover := ipns_discover
|}.
End Ipns.
