(* ===== verification/DiscoveryTrust.v ===== *)
(** * Trusted peers

    Models [crates/profile-sync/src/discovery_trust.rs]: the signature of an advertisement by
    the device that announces itself, and the filter that keeps, of the peers a provider
    discovered, those that a trusted device of the roster signed. *)
From S2P Require Import Prelude RustStr Routing ServiceFrames Broadwebd PeerDiscovery.
From S2P Require Import Database SyncObjects Membership SyncSecrets.

Inductive ProfileSyncPeerDiscoveryTrustRejection :=
  | WrongNetwork | LocalDevice | MissingProfileSyncServiceFrameCapability
  | StaleDiscoverySequence | ReplayedDiscoverySequence | UnknownDevicePublicKey
  | UntrustedDevicePublicKey | MissingSignedIdentity | MissingRequiredCapability
  | SignatureDeviceMismatch | SignaturePublicKeyMismatch | SignerMembershipEpochTooNew
  | InvalidSignature.
#[export] Instance ProfileSyncPeerDiscoveryTrustRejection_eq_dec :
  EqDecision ProfileSyncPeerDiscoveryTrustRejection.
Proof. solve_decision. Defined.

Definition rejection_as_str (r : ProfileSyncPeerDiscoveryTrustRejection) : string :=
  match r with
  | WrongNetwork => "wrong_network"
  | LocalDevice => "local_device"
  | MissingProfileSyncServiceFrameCapability => "missing_profile_sync_service_frame_capability"
  | StaleDiscoverySequence => "stale_discovery_sequence"
  | ReplayedDiscoverySequence => "replayed_discovery_sequence"
  | UnknownDevicePublicKey => "unknown_device_public_key"
  | UntrustedDevicePublicKey => "untrusted_device_public_key"
  | MissingSignedIdentity => "missing_signed_identity"
  | MissingRequiredCapability => "missing_required_capability"
  | SignatureDeviceMismatch => "signature_device_mismatch"
  | SignaturePublicKeyMismatch => "signature_public_key_mismatch"
  | SignerMembershipEpochTooNew => "signer_membership_epoch_too_new"
  | InvalidSignature => "invalid_signature"
  end.

Record RejectedProfileSyncPeerDiscoveryCandidate := {
  rj_protocol : ProfileSyncPeerDiscoveryProtocol;
  rj_namespace : string;
  rj_network_id : string;
  rj_node_id : string;
  rj_provider_id : string;
  rj_reason : ProfileSyncPeerDiscoveryTrustRejection
}.

Record TrustedProfileSyncPeerDiscoveryReport := {
  tr_trusted_peers : list ProfileSyncPeerDiscoveryResult;
  tr_rejected_peers : list RejectedProfileSyncPeerDiscoveryCandidate
}.
Definition trusted_peer_count (r : TrustedProfileSyncPeerDiscoveryReport) : nat :=
  length (tr_trusted_peers r).
Definition rejected_peer_count (r : TrustedProfileSyncPeerDiscoveryReport) : nat :=
  length (tr_rejected_peers r).
Definition has_trusted_peer (r : TrustedProfileSyncPeerDiscoveryReport) : bool :=
  negb (bool_decide (tr_trusted_peers r = [])).

Inductive ProfileSyncPeerAdvertisementSignatureError :=
  | SignatureBroadwebd (error : BroadwebdError)
  | SignatureSyncObject (error : SyncObjectError)
  | SignerNodeMismatch (node_id signer_device_id : string).

Inductive ProfileSyncPeerDiscoveryError :=
  | DiscoveryBroadwebd (error : BroadwebdError)
  | DiscoveryStorage (error : StorageError).

(** ** Signing *)

Definition sign_profile_sync_peer_advertisement `{DiscoveryJson} (sealer : SyncSealer)
    (advertisement : ProfileSyncPeerAdvertisement) (signer : ProfileSyncDeviceSigner) :
    result ProfileSyncPeerAdvertisementSignatureError ProfileSyncPeerAdvertisement :=
  if negb (str_eqb (ad_node_id advertisement) (sg_device_id signer))
  then Err (SignerNodeMismatch (ad_node_id advertisement) (sg_device_id signer))
  else
    let? payload := map_err SignatureBroadwebd (signing_payload_bytes advertisement) in
    let? signed := map_err SignatureSyncObject (sign sealer signer payload) in
    let? signature := map_err SignatureBroadwebd
      (signature_ed25519 (so_device_id signed) (so_public_key signed) (so_signature signed)) in
    map_err SignatureBroadwebd (with_identity_signature signature advertisement).

(** ** The filter *)

Definition rejected_discovery_candidate (candidate : ProfileSyncPeerDiscoveryResult)
    (reason : ProfileSyncPeerDiscoveryTrustRejection) :
    RejectedProfileSyncPeerDiscoveryCandidate :=
  {| rj_protocol := dr_protocol candidate; rj_namespace := dr_namespace candidate;
     rj_network_id := ad_network_id (dr_advertisement candidate);
     rj_node_id := ad_node_id (dr_advertisement candidate);
     rj_provider_id := ad_provider_id (dr_advertisement candidate); rj_reason := reason |}.

Section Filter.
Context `{DiscoveryJson} (codec : SyncCodec) (local_sync_device_id : string).

(** What the signature of an advertisement amounts to as a signed sync object. *)
Definition signed_identity (signature : ProfileSyncPeerAdvertisementSignature)
    (payload : string) : SignedSyncObject :=
  {| so_version := is_version signature; so_device_id := is_device_id signature;
     so_public_key := is_public_key signature; so_payload := payload;
     so_signature := is_signature signature |}.

Definition profile_sync_peer_discovery_trust_rejection (profile network_id : string)
    (candidate : ProfileSyncPeerDiscoveryResult) :
    storage (option ProfileSyncPeerDiscoveryTrustRejection) :=
  let advertisement := dr_advertisement candidate in
  if negb (str_eqb (ad_network_id advertisement) network_id) then sr_ret (Some WrongNetwork)
  else if str_eqb (ad_node_id advertisement) local_sync_device_id
  then sr_ret (Some LocalDevice)
  else if negb (supports_profile_sync_service_frames advertisement)
  then sr_ret (Some MissingProfileSyncServiceFrameCapability)
  else
    let* found := sync_device_public_key profile (ad_node_id advertisement) in
    match found with
    | None => sr_ret (Some UnknownDevicePublicKey)
    | Some record =>
        if negb (sk_trusted record) then sr_ret (Some UntrustedDevicePublicKey)
        else if ad_membership_epoch advertisement <? sk_membership_epoch record
        then sr_ret (Some SignerMembershipEpochTooNew)
        else
          match ad_identity_signature advertisement with
          | None => sr_ret (Some MissingSignedIdentity)
          | Some signature =>
              if negb (str_eqb (is_device_id signature) (ad_node_id advertisement))
              then sr_ret (Some SignatureDeviceMismatch)
              else if negb (str_eqb (is_public_key signature) (pk_bytes (sk_public_key record)))
              then sr_ret (Some SignaturePublicKeyMismatch)
              else
                match signing_payload_bytes advertisement with
                | Err _ => sr_ret (Some InvalidSignature)
                | Ok payload =>
                    if is_ok (verify_with codec (signed_identity signature payload)
                                (sk_public_key record))
                    then sr_ret None else sr_ret (Some InvalidSignature)
                end
          end
    end.

(** [ProfileSyncPeerDiscoveryFreshnessKey]. *)
Definition freshness_key (r : ProfileSyncPeerDiscoveryResult) :
    ProfileSyncPeerDiscoveryProtocol * string * string * string * string :=
  (dr_protocol r, dr_namespace r, ad_network_id (dr_advertisement r),
   ad_node_id (dr_advertisement r), ad_provider_id (dr_advertisement r)).

(** One more accepted candidate: the index [freshest_by_key] holds for its key is that of the
    one accepted candidate with that key. *)
Definition accept_freshest (candidate : ProfileSyncPeerDiscoveryResult)
    (freshest : list ProfileSyncPeerDiscoveryResult)
    (rejected : list RejectedProfileSyncPeerDiscoveryCandidate) :
    list ProfileSyncPeerDiscoveryResult * list RejectedProfileSyncPeerDiscoveryCandidate :=
  match list_find (fun r => freshness_key r = freshness_key candidate) freshest with
  | Some (existing_index, existing) =>
      let candidate_sequence := ad_sequence (dr_advertisement candidate) in
      let existing_sequence := ad_sequence (dr_advertisement existing) in
      if existing_sequence <? candidate_sequence
      then (<[existing_index := candidate]> freshest,
            rejected ++ [rejected_discovery_candidate existing StaleDiscoverySequence])
      else if candidate_sequence =? existing_sequence
      then (freshest,
            rejected ++ [rejected_discovery_candidate candidate ReplayedDiscoverySequence])
      else (freshest,
            rejected ++ [rejected_discovery_candidate candidate StaleDiscoverySequence])
  | None => (freshest ++ [candidate], rejected)
  end.

Fixpoint freshest_trusted_profile_sync_peer_discovery_results
    (candidates freshest : list ProfileSyncPeerDiscoveryResult)
    (rejected : list RejectedProfileSyncPeerDiscoveryCandidate) :
    list ProfileSyncPeerDiscoveryResult * list RejectedProfileSyncPeerDiscoveryCandidate :=
  match candidates with
  | [] => (freshest, rejected)
  | candidate :: candidates =>
      let '(freshest, rejected) := accept_freshest candidate freshest rejected in
      freshest_trusted_profile_sync_peer_discovery_results candidates freshest rejected
  end.

(** The candidates without a reason against them, and the rejections of the others. *)
Fixpoint examine_candidates (profile network_id : string)
    (candidates : list ProfileSyncPeerDiscoveryResult)
    (trusted_candidates : list ProfileSyncPeerDiscoveryResult)
    (rejected : list RejectedProfileSyncPeerDiscoveryCandidate) :
    storage (list ProfileSyncPeerDiscoveryResult
             * list RejectedProfileSyncPeerDiscoveryCandidate) :=
  match candidates with
  | [] => sr_ret (trusted_candidates, rejected)
  | candidate :: candidates =>
      let* rejection := profile_sync_peer_discovery_trust_rejection profile network_id candidate in
      match rejection with
      | Some reason =>
          examine_candidates profile network_id candidates trusted_candidates
            (rejected ++ [rejected_discovery_candidate candidate reason])
      | None =>
          examine_candidates profile network_id candidates (trusted_candidates ++ [candidate])
            rejected
      end
  end.

Definition has_required_capabilities (required : list string)
    (peer : ProfileSyncPeerDiscoveryResult) : bool :=
  forallb (has_capability (dr_advertisement peer)) required.

Fixpoint require_each_capability (required : list string)
    (peers trusted : list ProfileSyncPeerDiscoveryResult)
    (rejected : list RejectedProfileSyncPeerDiscoveryCandidate) :
    TrustedProfileSyncPeerDiscoveryReport :=
  match peers with
  | [] => {| tr_trusted_peers := trusted; tr_rejected_peers := rejected |}
  | peer :: peers =>
      if has_required_capabilities required peer
      then require_each_capability required peers (trusted ++ [peer]) rejected
      else require_each_capability required peers trusted
             (rejected ++ [rejected_discovery_candidate peer MissingRequiredCapability])
  end.

Definition require_profile_sync_peer_discovery_capabilities
    (report : TrustedProfileSyncPeerDiscoveryReport) (required_capabilities : list string) :
    TrustedProfileSyncPeerDiscoveryReport :=
  if bool_decide (required_capabilities = []) then report
  else require_each_capability required_capabilities (tr_trusted_peers report) []
         (tr_rejected_peers report).

Definition filter_trusted_profile_sync_peer_discovery_results_with_required_capabilities
    (profile network_id : string) (required_capabilities : list string)
    (candidates : list ProfileSyncPeerDiscoveryResult) :
    storage TrustedProfileSyncPeerDiscoveryReport :=
  let* examined := examine_candidates profile network_id candidates [] [] in
  let '(trusted_peers, rejected_peers) :=
    freshest_trusted_profile_sync_peer_discovery_results examined.1 [] examined.2 in
  sr_ret (require_profile_sync_peer_discovery_capabilities
            {| tr_trusted_peers := trusted_peers; tr_rejected_peers := rejected_peers |}
            required_capabilities).

Definition filter_trusted_profile_sync_peer_discovery_results (profile network_id : string)
    (candidates : list ProfileSyncPeerDiscoveryResult) :
    storage TrustedProfileSyncPeerDiscoveryReport :=
  filter_trusted_profile_sync_peer_discovery_results_with_required_capabilities profile
    network_id [] candidates.

(** The provider acts on its world, the filter reads the profile database. *)
Definition discover_trusted_profile_sync_peers_with_required_capabilities {D : Type}
    (profile : string) (provider : ProfileSyncPeerDiscoveryProvider D)
    (query : ProfileSyncPeerDiscoveryQuery) (required_capabilities : list string) :
    state_result (D * ProfileDb) ProfileSyncPeerDiscoveryError
      TrustedProfileSyncPeerDiscoveryReport := fun '(d, db) =>
  match provider_discover provider query d with
  | (d, Err e) => ((d, db), Err (DiscoveryBroadwebd e))
  | (d, Ok candidates) =>
      let '(db, r) :=
        filter_trusted_profile_sync_peer_discovery_results_with_required_capabilities profile
          (dq_network_id query) required_capabilities candidates db in
      ((d, db), map_err DiscoveryStorage r)
  end.

Definition discover_trusted_profile_sync_peers {D : Type} (profile : string)
    (provider : ProfileSyncPeerDiscoveryProvider D) (query : ProfileSyncPeerDiscoveryQuery) :
    state_result (D * ProfileDb) ProfileSyncPeerDiscoveryError
      TrustedProfileSyncPeerDiscoveryReport :=
  discover_trusted_profile_sync_peers_with_required_capabilities profile provider query [].
End Filter.
