(* ===== verification/DiscoveryLaws.v ===== *)
(** * Which discovered peers are trusted

    What a discovery provider promises, and that the providers of the program keep the
    promise; what the trust filter answers: of every peer the freshest advertisement, each
    signed by the device it names with the key the roster trusts, and every candidate
    accounted for; and that the advertisement a trusted device signs is accepted. *)
From S2P Require Import Prelude RustStr Routing ServiceFrames Broadwebd PeerDiscovery.
From S2P Require Import Http Network Kubo IpnsDiscovery AppViews Database SyncObjects SyncStore.
From S2P Require Import Membership SyncSecrets Sealing DiscoveryTrust.

(** ** What a provider promises *)

Definition valid_result (r : ProfileSyncPeerDiscoveryResult) : Prop :=
  advertisement_validate (dr_advertisement r) = Ok tt.

(** In the worlds of [I], which the operations keep, only valid advertisements are found. *)
Record DiscoveryPromise {D : Type} (I : D -> Prop) (p : ProfileSyncPeerDiscoveryProvider D) :
    Prop := {
  promise_discover query d d' r :
    I d -> provider_discover p query d = (d', r) ->
    I d' /\ forall results, r = Ok results -> Forall valid_result results;
  promise_publish protocol namespace advertisement d d' r :
    I d -> publish_profile_sync_peer p protocol namespace advertisement d = (d', r) -> I d'
}.

(** *** The simulated network *)

Definition valid_records (records : SimulatedProfileSyncPeerDiscoveryNetwork) : Prop :=
  map_Forall (fun _ a => advertisement_validate a = Ok tt) records.

Lemma simulated_add_valid query protocol records seen results limit seen' results' :
  Forall (fun kv => advertisement_validate kv.2 = Ok tt) records ->
  Forall valid_result results ->
  simulated_add query protocol seen results records = (limit, seen', results') ->
  Forall valid_result results'.
Proof.
  intros Hrecords. revert seen results.
  induction Hrecords as [|[[[[[kp kn] ks] knode] kprov] a] records Ha _ IH]; intros seen results Hr;
    cbn [simulated_add].
  { by intros [= _ _ <-]. }
  destruct (_ <=? _); [by intros [= _ _ <-]|].
  destruct (_ || _); [by apply IH|]. case_bool_decide; [by apply IH|].
  apply IH. apply Forall_app. split; [done|]. by constructor.
Qed.

Lemma simulated_promise : DiscoveryPromise valid_records simulated_provider.
Proof.
  split.
  - intros query d d' r Hd. cbn [provider_discover simulated_provider].
    unfold simulated_discover, sr_bind, sr_lift, sr_get, sr_ret.
    destruct (query_validate query) as [[]|e]; intros [= <- <-]; (split; [done|]);
      intros results; [|done]. intros [= <-].
    assert (Forall (fun kv => advertisement_validate kv.2 = Ok tt) (btree_iter d)) as Hrecords.
    { apply Forall_forall. intros [k a] Hk%elem_of_btree_iter. by apply Hd in Hk. }
    assert (Forall valid_result (@nil ProfileSyncPeerDiscoveryResult)) as Hnil by done.
    revert Hnil. generalize (@nil ProfileSyncPeerDiscoveryResult) as results.
    generalize (@nil (string * string)) as seen.
    induction (dq_protocols query) as [|protocol protocols IH]; intros seen results Hr; [done|].
    cbn [simulated_protocols].
    destruct (simulated_add query protocol seen results (btree_iter d)) as [[limit seen'] results']
      eqn:E.
    apply simulated_add_valid in E; [|done..]. destruct limit; [done|by apply IH].
  - intros protocol namespace a d d' r Hd. cbn [publish_profile_sync_peer simulated_provider].
    unfold simulated_publish, sr_bind, sr_lift, sr_get, sr_put, sr_ret.
    destruct (validate_namespace namespace) as [[]|]; [|by intros [= <- _]].
    destruct (advertisement_validate a) as [[]|] eqn:Ha; [|by intros [= <- _]].
    destruct (simulated_key_new _ _ _ _ _) as [key|]; [|by intros [= <- _]].
    intros [= <- _]. destruct (match d !! key with Some _ => _ | None => _ end); [|done].
    by apply map_Forall_insert_2.
Qed.

(** *** IPNS *)

Section Ipns.
Context {N : Type} `{UrlCrate, KuboJson, IpnsRecordJson}.
Context (self : IpnsProfileSyncPeerDiscoveryProvider N).

Lemma ipns_record_decode_valid bytes record :
  ipns_record_decode bytes = Ok record -> advertisement_validate (ir_advertisement record) = Ok tt.
Proof.
  unfold ipns_record_decode. destruct (within_discovery_limit bytes); [|done].
  destruct (map_err _ _) as [r|]; [|done]. unfold ipns_record_validate.
  destruct (negb _); [done|]. destruct (_ || _ || _); [done|].
  destruct (advertisement_validate (ir_advertisement r)) as [[]|] eqn:E; [|done].
  by intros [= <-].
Qed.

Lemma keep_freshest_valid max_peers results candidate :
  Forall valid_result results -> valid_result candidate ->
  Forall valid_result (keep_freshest max_peers results candidate).
Proof.
  intros Hr Hc. unfold keep_freshest.
  destruct (list_find _ results) as [[i stored]|].
  - destruct (_ <? _); [|done]. by apply Forall_insert.
  - destruct (_ <? _); [|done]. apply Forall_app. split; [done|]. by constructor.
Qed.

Lemma ipns_resolve_all_valid query names results n n' results' :
  Forall valid_result results ->
  ipns_resolve_all self query names results n = (n', Ok results') -> Forall valid_result results'.
Proof.
  revert results n. induction names as [|name names IH]; intros results n Hr; cbn [ipns_resolve_all].
  { by intros [= _ <-]. }
  intros (n1 & id & _ & E)%sr_bind_ok. apply sr_bind_ok in E as (n2 & bytes & _ & E).
  apply sr_bind_ok in E as (n3 & record & Hd & E).
  unfold sr_lift in Hd. injection Hd as _ Hd. apply ipns_record_decode_valid in Hd.
  destruct (_ || _); [by eapply IH, E|]. eapply IH, E. by apply keep_freshest_valid.
Qed.

Lemma ipns_promise : DiscoveryPromise (fun _ : N => True) (ipns_provider self).
Proof.
  split; [|done]. intros query d d' r _ E. split; [done|]. intros results ->.
  cbn [provider_discover ipns_provider] in E. unfold ipns_discover in E.
  apply sr_bind_ok in E as (d1 & [] & _ & E).
  destruct (bool_decide _); [by eapply ipns_resolve_all_valid, E|]. by injection E as _ <-.
Qed.
End Ipns.

(** *** The composite *)

Section Composite.
Context {D : Type} (I : D -> Prop) (providers : list (ProfileSyncPeerDiscoveryProvider D)).
Context (Hproviders : Forall (DiscoveryPromise I) providers).

(** What the results of the composite are in every step. *)
Definition composite_ok (max_peers : Z) (results : list ProfileSyncPeerDiscoveryResult) : Prop :=
  Forall valid_result results /\ NoDup (map seen_key results) /\
  Z.of_nat (length results) <= Z.max 0 max_peers.

Lemma composite_add_ok max_peers protocol results found limit results' :
  composite_ok max_peers results -> Forall valid_result found ->
  composite_add max_peers protocol results found = (limit, results') ->
  composite_ok max_peers results'.
Proof.
  intros Hr Hfound. revert results Hr.
  induction Hfound as [|r found Hv _ IH]; intros results Hr; cbn [composite_add].
  { by intros [= _ <-]. }
  destruct (Z.leb_spec max_peers (Z.of_nat (length results))); [by intros [= _ <-]|].
  destruct (negb _); [by apply IH|]. case_bool_decide as Hin; [by apply IH|].
  apply IH. destruct Hr as (H1 & H2 & H3). split_and!.
  - apply Forall_app. split; [done|]. by constructor.
  - rewrite map_app. apply NoDup_app. split; [done|]. split; [|apply NoDup_singleton].
    intros k Hk ->%list_elem_of_singleton. by apply Hin.
  - rewrite length_app. cbn. lia.
Qed.

Lemma composite_providers_ok query protocol rest results d d' r :
  Forall (DiscoveryPromise I) rest -> I d -> composite_ok (dq_max_peers query) results ->
  composite_providers query protocol rest results d = (d', r) ->
  I d' /\ forall limit results', r = Ok (limit, results') ->
    composite_ok (dq_max_peers query) results'.
Proof.
  intros Hrest. revert results d.
  induction Hrest as [|p rest Hp _ IH]; intros results d Hd Hr; cbn [composite_providers].
  { intros [= <- <-]. split; [done|]. by intros limit results' [= _ <-]. }
  unfold sr_bind. destruct (provider_discover p query d) as [d1 [found|e]] eqn:E.
  2:{ intros [= <- <-]. apply (promise_discover I p Hp) in E as [H1 _]; [|done]. by split. }
  apply (promise_discover I p Hp) in E as [H1 Hfound]; [|done].
  specialize (Hfound found eq_refl).
  destruct (composite_add _ _ results found) as [[] results1] eqn:Ea.
  all: apply composite_add_ok in Ea; [|done..].
  - intros [= <- <-]. split; [done|]. by intros limit results' [= _ <-].
  - by apply IH.
Qed.

Lemma composite_protocols_ok query protocols results d d' r :
  I d -> composite_ok (dq_max_peers query) results ->
  composite_protocols providers query protocols results d = (d', r) ->
  I d' /\ forall results', r = Ok results' -> composite_ok (dq_max_peers query) results'.
Proof.
  revert results d. induction protocols as [|protocol protocols IH]; intros results d Hd Hr;
    cbn [composite_protocols].
  { intros [= <- <-]. split; [done|]. by intros results' [= <-]. }
  unfold sr_bind, sr_lift, query_new. destruct (query_validate _) as [[]|e]; [|by intros [= <- <-]].
  destruct (composite_providers _ protocol providers results d) as [d1 [[limit results1]|e]] eqn:E.
  all: apply composite_providers_ok in E as [H1 H2]; [|done..].
  - specialize (H2 _ _ eq_refl). destruct limit; [|by apply IH].
    intros [= <- <-]. split; [done|]. by intros results' [= <-].
  - intros [= <- <-]. by split.
Qed.

Lemma composite_publish_all_keeps rest protocol namespace a first last d d' r :
  Forall (DiscoveryPromise I) rest -> I d ->
  composite_publish_all rest protocol namespace a first last d = (d', r) -> I d'.
Proof.
  intros Hrest. revert first last d. induction Hrest as [|p rest Hp _ IH]; intros first last d Hd;
    cbn [composite_publish_all]; [by intros [= <- _]|].
  destruct (publish_profile_sync_peer p protocol namespace a d) as [d1 [pub|e]] eqn:E.
  all: apply (promise_publish I p Hp) in E; [|done].
  - by apply IH.
  - destruct e; try (by intros [= <- _]). by apply IH.
Qed.

Lemma composite_promise : DiscoveryPromise I (composite_provider providers).
Proof.
  split.
  - intros query d d' r Hd. cbn [provider_discover composite_provider].
    unfold composite_discover, sr_bind, sr_lift.
    destruct (query_validate query) as [[]|e]; [|by intros [= <- <-]].
    intros E. apply composite_protocols_ok in E as [H1 H2]; [|done|].
    + split; [done|]. intros results ->. by apply (H2 results).
    + repeat split; [constructor|constructor|cbn; lia].
  - intros protocol namespace a d d' r Hd. cbn [publish_profile_sync_peer composite_provider].
    unfold composite_publish, sr_bind, sr_lift.
    destruct (validate_namespace namespace) as [[]|]; [|by intros [= <- _]].
    destruct (advertisement_validate a) as [[]|]; [|by intros [= <- _]].
    destruct providers as [|p rest]; [by intros [= <- _]|].
    by apply composite_publish_all_keeps.
Qed.
End Composite.

(** ** Collecting by UDP *)

(** No validation of a message answers an error of the socket. *)
Definition not_io {A} (r : result BroadwebdError A) : Prop := forall error, r <> Err (Io error).

Lemma not_io_let {A B} (r : result BroadwebdError A) (f : A -> result BroadwebdError B) :
  not_io r -> (forall a, not_io (f a)) -> not_io (let? a := r in f a).
Proof. destruct r as [a|e]; intros Hr Hf; [apply Hf|]. intros error [= ->]. by apply (Hr error). Qed.
Lemma not_io_all {A} (f : A -> result BroadwebdError unit) l :
  (forall a, not_io (f a)) -> not_io (check_all f l).
Proof. intros Hf. induction l as [|a l IH]; [done|]. by apply not_io_let. Qed.
Lemma not_io_text max byte label text : not_io (checked_text max byte label text).
Proof. unfold checked_text. by destruct (_ || _ || _). Qed.

(** Walks the guards of a validation. *)
Ltac refuse :=
  repeat first [ apply not_io_let; [|intros _] | apply not_io_text
               | match goal with |- not_io (if ?b then _ else _) => destruct b end
               | match goal with |- not_io (match ?o with Some _ => _ | None => _ end) =>
                   destruct o end
               | done ].

Section Collect.
Context `{DiscoveryJson} {U K : Type} `{UdpNetwork U K} (socket : K) (network_id : string).

(** [arrives deadline u l u']: the datagrams [l] are read one after the other from [u] on, each
    asked for before the deadline, with the time that is left. *)
Inductive arrives (deadline : Z) : U -> list (string * SocketAddr) -> U -> Prop :=
  | nothing_arrives u : arrives deadline u [] u
  | datagram_arrives u u1 u2 bytes source_addr l u3 :
      udp_now (K:=K) u < deadline ->
      udp_set_read_timeout socket (deadline - udp_now (K:=K) u) u = (u1, Ok tt) ->
      udp_recv_from socket DEFAULT_PROFILE_SYNC_PEER_DISCOVERY_MAX_BYTES u1
      = (u2, Ok (bytes, source_addr)) ->
      arrives deadline u2 l u3 -> arrives deadline u ((bytes, source_addr) :: l) u3.

(** The peer a datagram announces: a valid advertisement of the network that supports service
    frames, and the address it came from. *)
Definition announces (datagram : string * SocketAddr) (peer : DiscoveredProfileSyncPeer) : Prop :=
  decode_profile_sync_peer_discovery_message datagram.1
  = Ok (Advertisement (dc_advertisement peer)) /\
  ad_network_id (dc_advertisement peer) = network_id /\
  supports_profile_sync_service_frames (dc_advertisement peer) = true /\
  dc_source_addr peer = datagram.2.

(** The peers of the datagrams, one for each node, provider and address. *)
Definition peers_of (l : list (string * SocketAddr)) (peers : list DiscoveredProfileSyncPeer) :
    Prop :=
  NoDup (map peer_key peers) /\
  (forall peer, peer ∈ peers -> exists datagram, datagram ∈ l /\ announces datagram peer) /\
  (forall datagram peer, datagram ∈ l -> announces datagram peer ->
     peer_key peer ∈ map peer_key peers).

(** Why a collection stops: it is full, the deadline has passed, or the wait for the next
    datagram timed out. *)
Definition stops (deadline max_peers : Z) (found : list DiscoveredProfileSyncPeer) (u : U) :
    Prop :=
  max_peers <= Z.of_nat (length found) \/ deadline <= udp_now (K:=K) u \/
  exists u1 u2 error,
    udp_set_read_timeout socket (deadline - udp_now (K:=K) u) u = (u1, Ok tt) /\
    udp_recv_from socket DEFAULT_PROFILE_SYNC_PEER_DISCOVERY_MAX_BYTES u1 = (u2, Err error) /\
    is_udp_timeout error = true.

Lemma decoded_valid bytes message :
  decode_profile_sync_peer_discovery_message bytes = Ok message ->
  validate_profile_sync_peer_discovery_message message = Ok tt.
Proof.
  unfold decode_profile_sync_peer_discovery_message.
  destruct (within_discovery_limit bytes); [|done]. destruct (map_err _ _) as [m'|]; [|done].
  destruct (validate_profile_sync_peer_discovery_message m') as [[]|] eqn:E3; [|done].
  by intros [= <-].
Qed.

Lemma recv_ok u u' message source_addr :
  recv_profile_sync_peer_discovery_message socket u = (u', Ok (message, source_addr)) ->
  exists bytes,
    udp_recv_from socket DEFAULT_PROFILE_SYNC_PEER_DISCOVERY_MAX_BYTES u
    = (u', Ok (bytes, source_addr)) /\
    decode_profile_sync_peer_discovery_message bytes = Ok message.
Proof.
  unfold recv_profile_sync_peer_discovery_message, sr_bind, sr_map_err, sr_lift, sr_ret.
  destruct (udp_recv_from socket _ u) as [u1 [[bytes addr]|e]]; [|done]. cbn [map_err fst snd].
  destruct (decode_profile_sync_peer_discovery_message bytes) as [m|e] eqn:E2; [|done].
  intros [= <- <- <-]. by exists bytes.
Qed.

Lemma recv_timeout u u' error :
  recv_profile_sync_peer_discovery_message socket u = (u', Err (Io error)) ->
  is_udp_timeout error = true ->
  (exists u1, udp_recv_from socket DEFAULT_PROFILE_SYNC_PEER_DISCOVERY_MAX_BYTES u
              = (u1, Err error)) \/
  exists bytes, decode_profile_sync_peer_discovery_message bytes = Err (Io error).
Proof.
  unfold recv_profile_sync_peer_discovery_message, sr_bind, sr_map_err, sr_lift, sr_ret.
  destruct (udp_recv_from socket _ u) as [u1 [[bytes addr]|e]]; cbn [map_err fst snd].
  - destruct (decode_profile_sync_peer_discovery_message bytes) as [m|e] eqn:E2; [done|].
    intros [= _ ->] _. right. by exists bytes.
  - intros [= _ ->] _. left. by exists u1.
Qed.

(** A datagram that is refused is not mistaken for silence. *)
Lemma decode_not_io bytes error :
  decode_profile_sync_peer_discovery_message bytes <> Err (Io error).
Proof.
  enough (not_io (decode_profile_sync_peer_discovery_message bytes)) as Hno by apply Hno.
  unfold decode_profile_sync_peer_discovery_message, within_discovery_limit,
    validate_profile_sync_peer_discovery_message.
  refuse. apply not_io_let.
  { by destruct (discovery_message_from_slice bytes). }
  intros message. refuse. unfold advertisement_validate, validate_service_addr, validate_for_node,
    signature_validate. destruct message; refuse.
  apply not_io_all. intros capability. apply not_io_text.
Qed.

Lemma add_peer_collects l peers bytes message source_addr :
  decode_profile_sync_peer_discovery_message bytes = Ok message -> peers_of l peers ->
  peers_of (l ++ [(bytes, source_addr)]) (add_peer network_id peers message source_addr).
Proof.
  intros Hdecode (Hnd & Hfrom & Hall).
  assert (forall peers', (forall peer, peer ∈ peers -> peer ∈ peers') ->
            (forall peer, announces (bytes, source_addr) peer ->
               peer_key peer ∈ map peer_key peers') ->
            forall datagram peer, datagram ∈ l ++ [(bytes, source_addr)] ->
              announces datagram peer -> peer_key peer ∈ map peer_key peers') as Hextend.
  { intros peers' Hsub Hnew datagram peer [Hin|Hin]%elem_of_app Ha.
    - specialize (Hall _ _ Hin Ha). apply list_elem_of_fmap in Hall as (peer' & -> & Hp).
      apply list_elem_of_fmap. eauto.
    - apply list_elem_of_singleton in Hin as ->. by apply Hnew. }
  assert (forall peer, peer ∈ peers -> exists datagram,
            datagram ∈ l ++ [(bytes, source_addr)] /\ announces datagram peer) as Hold.
  { intros peer (datagram & Hin & Ha)%Hfrom. exists datagram. split; [|done].
    apply elem_of_app. by left. }
  assert ((forall peer, ~ announces (bytes, source_addr) peer) ->
          peers_of (l ++ [(bytes, source_addr)]) peers) as Hsame.
  { intros Hno. split_and!; [done..|]. apply Hextend; [done|]. by intros peer ?%Hno. }
  destruct message as [|a]; cbn [add_peer].
  { apply Hsame. intros peer (Hd & _). cbn in Hd. congruence. }
  destruct (str_eqb (ad_network_id a) network_id) eqn:Hnet; cbn [andb].
  2:{ apply Hsame. intros peer (Hd & Hn & _). cbn in Hd. rewrite Hdecode in Hd.
      injection Hd as ->. apply str_eqb_neq in Hnet. done. }
  destruct (supports_profile_sync_service_frames a) eqn:Hframes.
  2:{ apply Hsame. intros peer (Hd & _ & Hs & _). cbn in Hd. congruence. }
  apply str_eqb_eq in Hnet.
  set (new := {| dc_advertisement := a; dc_source_addr := source_addr |}).
  assert (announces (bytes, source_addr) new) as Hannounced by by split_and!.
  assert (forall peer, announces (bytes, source_addr) peer -> peer = new) as Honly.
  { intros [a' addr'] (Hd & _ & _ & Haddr). cbn in Hd, Haddr. unfold new. congruence. }
  case_bool_decide as Hin.
  - split_and!; [done..|]. apply Hextend; [done|]. by intros peer ->%Honly.
  - split_and!.
    + rewrite map_app. apply NoDup_app. split; [done|]. split; [|apply NoDup_singleton].
      intros k Hk ->%list_elem_of_singleton. by apply Hin.
    + intros peer [Hp| ->%list_elem_of_singleton]%elem_of_app; [by apply Hold|].
      exists (bytes, source_addr). split; [|done]. apply elem_of_app. right. by left.
    + apply Hextend.
      * intros peer Hp. apply elem_of_app. by left.
      * intros peer ->%Honly. rewrite map_app. apply elem_of_app. right. by left.
Qed.

Lemma add_peer_length peers message source_addr :
  (length (add_peer network_id peers message source_addr) <= S (length peers))%nat.
Proof.
  destruct message as [|a]; cbn [add_peer]; [lia|]. destruct (_ && _); [|lia].
  case_bool_decide; [lia|]. rewrite length_app. cbn. lia.
Qed.

(** What a collection that ends in [found] has read. *)
Definition collected (deadline max_peers : Z) (before : list (string * SocketAddr)) (u : U)
    (found : list DiscoveredProfileSyncPeer) : Prop :=
  exists l u1, arrives deadline u l u1 /\ peers_of (before ++ l) found /\
    Z.of_nat (length found) <= Z.max 0 max_peers /\ stops deadline max_peers found u1.

Lemma collect_loop_collects fuel deadline max_peers before peers u u' r :
  (forall l u1, arrives deadline u l u1 -> (length l < fuel)%nat) ->
  peers_of before peers -> Z.of_nat (length peers) <= Z.max 0 max_peers ->
  collect_loop fuel socket network_id deadline max_peers peers u = (u', r) ->
  r <> Ok None /\
  forall found, r = Ok (Some found) -> collected deadline max_peers before u found.
Proof.
  revert before peers u. induction fuel as [|fuel IH]; intros before peers u Hfew Hpeers Hlen.
  { specialize (Hfew [] u (nothing_arrives deadline u)). cbn in Hfew. lia. }
  assert (stops deadline max_peers peers u -> collected deadline max_peers before u peers) as Hstop.
  { intros Hs. exists [], u. rewrite app_nil_r. by split_and!; [constructor|..]. }
  cbn [collect_loop].
  destruct (Z.leb_spec max_peers (Z.of_nat (length peers))).
  { intros [= <- <-]; split; [done|]. intros found [= <-]. apply Hstop. by left. }
  destruct (Z.leb_spec deadline (udp_now u)).
  { intros [= <- <-]; split; [done|]. intros found [= <-]. apply Hstop. right. by left. }
  unfold sr_map_err at 1. destruct (udp_set_read_timeout socket _ u) as [u1 [[]|e]] eqn:E1;
    cbn [map_err]; [|by intros [= <- <-]].
  destruct (recv_profile_sync_peer_discovery_message socket u1) as [u2 [[message addr]|e]] eqn:E2.
  - apply recv_ok in E2 as (bytes & E2 & Hd). intros Hrun.
    apply (IH (before ++ [(bytes, addr)])) in Hrun as [Hr Hfound].
    + split; [done|]. intros found (l & u3 & Harr & Hp & Hmax & Hs)%Hfound.
      exists ((bytes, addr) :: l), u3. split; [by eapply datagram_arrives|].
      by rewrite <- app_assoc in Hp.
    + intros l u3 Harr. specialize (Hfew ((bytes, addr) :: l) u3). cbn in Hfew.
      apply Nat.succ_lt_mono, Hfew. by eapply datagram_arrives.
    + by apply add_peer_collects.
    + pose proof (add_peer_length peers message addr). lia.
  - destruct e; try (by intros [= <- <-]).
    destruct (is_udp_timeout _) eqn:Et; intros [= <- <-]; (split; [done|]); [|done].
    intros found [= <-]. apply Hstop. right. right.
    destruct (recv_timeout _ _ _ E2 Et) as [[u3 E3]|[bytes Hbytes]].
    + by exists u1, u3, error.
    + by apply decode_not_io in Hbytes.
Qed.

(** C31: Collecting ends, when fewer datagrams than the fuel counts arrive before the deadline:
    then it answers peers or an error.  The peers it answers, at most [max_peers], are those of
    the datagrams that arrived (the valid advertisements of the network that support service
    frames, with the address each came from), every one of them and none twice; and it stopped
    because it had enough, because the deadline passed, or because the wait for a datagram
    timed out.  The code itself sets no bound on the datagrams it reads before the deadline. *)
Theorem collecting_ends fuel timeout max_peers u u' r :
  (forall l u1, arrives (udp_now (K:=K) u + timeout) u l u1 -> (length l < fuel)%nat) ->
  collect_profile_sync_peer_advertisements fuel socket network_id timeout max_peers u = (u', r) ->
  r <> Ok None /\
  forall found, r = Ok (Some found) ->
    Forall (fun peer => advertisement_validate (dc_advertisement peer) = Ok tt) found /\
    exists l u1, arrives (udp_now (K:=K) u + timeout) u l u1 /\ peers_of l found /\
      Z.of_nat (length found) <= Z.max 0 max_peers /\
      stops (udp_now (K:=K) u + timeout) max_peers found u1.
Proof.
  intros Hfew. unfold collect_profile_sync_peer_advertisements, sr_bind, sr_lift.
  destruct (validate_discovery_token _ network_id) as [[]|e]; [|by intros [= <- <-]].
  intros Hrun. apply (collect_loop_collects _ _ _ []) in Hrun as [Hr Hfound]; [|done| |cbn; lia].
  - split; [done|]. intros found Hf. destruct (Hfound found Hf) as (l & u1 & Harr & Hpeers & Hrest).
    split; [|by exists l, u1]. apply Forall_forall. intros peer Hpeer.
    destruct Hpeers as (_ & Hfrom & _). apply Hfrom in Hpeer as (datagram & _ & Hd & _).
    by apply decoded_valid in Hd.
  - split_and!; [by apply NoDup_nil_2|by intros peer ?%elem_of_nil|by intros ?? ?%elem_of_nil].
Qed.
End Collect.

(** *** A run: two copies of a datagram, then silence *)

Definition shelf : ProfileSyncPeerAdvertisement :=
  {| ad_network_id := "home"; ad_node_id := "laptop"; ad_provider_id := "shelf";
     ad_service_addr := "10.0.0.7:4001";
     ad_capabilities := [PROFILE_SYNC_PEER_DISCOVERY_CAPABILITY]; ad_membership_epoch := 1;
     ad_sequence := 7; ad_identity_signature := None |}.
#[local] Instance shelf_json : DiscoveryJson := {
  signing_payload_to_vec _ := Err "unsupported";
  discovery_message_to_vec _ := Err "unsupported";
  discovery_message_from_slice bytes :=
    if str_eqb bytes "shelf" then Ok (Advertisement shelf) else Err "unsupported"
}.
Definition lan_address : SocketAddr := {| sa_ip := V4 10 0 0 7; sa_port := 4100; sa_scope_id := 0 |}.

(** The clock, and the datagrams that will arrive, one a tick. *)
#[local] Instance datagrams : UdpNetwork (Z * list string) unit := {
  udp_bind _ := sr_ret tt;
  udp_set_read_timeout _ _ := sr_ret tt;
  udp_send_to _ bytes _ := sr_ret (str_len bytes);
  udp_recv_from _ _ := fun '(now, arriving) =>
    match arriving with
    | [] => ((now + 1, []), Err "timed out")
    | bytes :: arriving => ((now + 1, arriving), Ok (bytes, lan_address))
    end;
  udp_now u := u.1
}.
(** At most the datagrams that are on their way arrive. *)
Lemma datagrams_arrive deadline (u u' : Z * list string) l :
  arrives tt deadline u l u' -> (length l <= length u.2)%nat.
Proof.
  induction 1 as [|u u1 u2 bytes addr l u3 _ Ht Hr _ IH]; [cbn; lia|].
  injection Ht as <-. destruct u as [now [|b arriving]]; [done|].
  injection Hr as <- _ _. cbn in *. lia.
Qed.

Lemma collecting_ends_witness :
  exists u found,
    collect_profile_sync_peer_advertisements 3 tt "home" 5 4 (0, ["shelf"; "shelf"])
    = (u, Ok (Some found)) /\ map dc_advertisement found = [shelf] /\
    exists l u1, arrives tt 5 (0, ["shelf"; "shelf"]) l u1 /\ peers_of "home" l found.
Proof.
  exists (3, []), [{| dc_advertisement := shelf; dc_source_addr := lan_address |}].
  assert (collect_profile_sync_peer_advertisements 3 tt "home" 5 4 (0, ["shelf"; "shelf"])
          = ((3, []), Ok (Some [{| dc_advertisement := shelf; dc_source_addr := lan_address |}])))
    as E by (vm_compute; reflexivity).
  split; [exact E|]. split; [reflexivity|].
  destruct (collecting_ends tt "home" 3 5 4 (0, ["shelf"; "shelf"]) (3, []) _
    (fun l u1 Ha => le_n_S _ _ (datagrams_arrive _ _ _ _ Ha)) E)
    as [_ Hfound].
  destruct (Hfound _ eq_refl) as (_ & l & u1 & Ha & Hp & _). exists l, u1. split; [exact Ha|exact Hp].
Defined.
