(* ===== verification/DiscoveryTrustLaws.v ===== *)
(** * The trust filter

    What the filter of discovered peers answers: of every peer the freshest advertisement,
    each signed by the device it names with the key the roster trusts, and every candidate
    accounted for; and that the advertisement a trusted device signs is accepted. *)
From S2P Require Import Prelude RustStr Routing ServiceFrames Broadwebd PeerDiscovery.
From S2P Require Import AppViews Database SyncObjects SyncStore Membership SyncSecrets Sealing.
From S2P Require Import DiscoveryTrust DiscoveryLaws.

Section Trust.
Context `{DiscoveryJson} (codec : SyncCodec) (local_sync_device_id : string).

(** What the roster of [db] and the signature must say about a candidate. *)
Definition authentic (db : ProfileDb) (profile network_id : string)
    (c : ProfileSyncPeerDiscoveryResult) : Prop :=
  let a := dr_advertisement c in
  ad_network_id a = network_id /\ ad_node_id a <> local_sync_device_id /\
  supports_profile_sync_service_frames a = true /\
  exists record signature payload,
    db_public_keys db !! (profile, ad_node_id a) = Some record /\ sk_trusted record = true /\
    sk_membership_epoch record <= ad_membership_epoch a /\
    ad_identity_signature a = Some signature /\ is_device_id signature = ad_node_id a /\
    is_public_key signature = pk_bytes (sk_public_key record) /\
    signing_payload_bytes a = Ok payload /\
    verify_with codec (signed_identity signature payload) (sk_public_key record) = Ok payload.

Abbreviation rejection := (profile_sync_peer_discovery_trust_rejection codec local_sync_device_id).

Lemma valid_node_id c : valid_result c -> is_valid_sync_identifier (ad_node_id (dr_advertisement c)) = true.
Proof.
  unfold valid_result, advertisement_validate, validate_discovery_token, checked_text.
  destruct (_ || _); [done|].
  destruct (is_empty (ad_node_id (dr_advertisement c))) eqn:E1; [done|].
  destruct (128 <? _); [done|].
  destruct (all_bytes token_byte (ad_node_id (dr_advertisement c))) eqn:E2; [|done]. intros _.
  unfold is_valid_sync_identifier. by rewrite E1.
Qed.

Lemma verify_with_payload signature payload key p :
  verify_with codec (signed_identity signature payload) key = Ok p -> p = payload.
Proof.
  unfold verify_with. destruct (negb _); [done|]. destruct (_ || _); [done|].
  destruct (ed25519_verify _ _ _ _); [|done]. by intros [= <-].
Qed.

(** The reasons against a candidate: none, exactly when it is authentic. *)
Lemma rejection_spec profile network_id c db :
  valid_result c ->
  exists reason, rejection profile network_id c db = (db, Ok reason) /\
    (reason = None <-> authentic db profile network_id c).
Proof.
  intros Hv%valid_node_id. unfold profile_sync_peer_discovery_trust_rejection, authentic.
  set (a := dr_advertisement c) in *.
  destruct (str_eqb (ad_network_id a) network_id) eqn:E1; cbn [negb].
  2:{ eexists. split; [done|]. apply str_eqb_neq in E1. naive_solver. }
  apply str_eqb_eq in E1. destruct (str_eqb (ad_node_id a) local_sync_device_id) eqn:E2.
  { eexists. split; [done|]. apply str_eqb_eq in E2. naive_solver. }
  apply str_eqb_neq in E2.
  destruct (supports_profile_sync_service_frames a) eqn:E3; cbn [negb].
  2:{ eexists. split; [done|]. naive_solver. }
  unfold sync_device_public_key, sync_device_public_key_in_transaction. rewrite Hv. cbn [negb].
  unfold sr_bind, query. destruct (db_public_keys db !! (profile, ad_node_id a)) as [k|] eqn:E4.
  2:{ eexists. split; [done|]. naive_solver. }
  destruct (sk_trusted k) eqn:E5; cbn [negb].
  2:{ eexists. split; [done|]. naive_solver congruence. }
  destruct (Z.ltb_spec (ad_membership_epoch a) (sk_membership_epoch k)).
  { eexists. split; [done|]. split; [done|]. intros (_ & _ & _ & ? & ? & ? & ? & ? & ? & _).
    simplify_eq. lia. }
  destruct (ad_identity_signature a) as [s|] eqn:E6.
  2:{ eexists. split; [done|]. naive_solver. }
  destruct (str_eqb (is_device_id s) (ad_node_id a)) eqn:E7; cbn [negb].
  2:{ eexists. split; [done|]. apply str_eqb_neq in E7. naive_solver. }
  apply str_eqb_eq in E7.
  destruct (str_eqb (is_public_key s) (pk_bytes (sk_public_key k))) eqn:E8; cbn [negb].
  2:{ eexists. split; [done|]. apply str_eqb_neq in E8. naive_solver. }
  apply str_eqb_eq in E8.
  destruct (signing_payload_bytes a) as [payload|e] eqn:E9.
  2:{ eexists. split; [done|]. naive_solver. }
  destruct (verify_with codec (signed_identity s payload) (sk_public_key k)) as [p|e] eqn:E10;
    cbn [is_ok].
  - eexists. split; [done|]. split; [|done]. intros _.
    pose proof (verify_with_payload _ _ _ _ E10) as ->. split_and!; try done.
    exists k, s, payload. by split_and!.
  - eexists. split; [done|]. split; [done|]. naive_solver congruence.
Qed.

(** *** Accounting *)

Definition rejected_key (r : RejectedProfileSyncPeerDiscoveryCandidate) :
    ProfileSyncPeerDiscoveryProtocol * string * string * string * string :=
  (rj_protocol r, rj_namespace r, rj_network_id r, rj_node_id r, rj_provider_id r).

(** [accounts ps rs ks]: the peers and the rejections are about the keys, each of them once. *)
Definition accounts (ps : list ProfileSyncPeerDiscoveryResult)
    (rs : list RejectedProfileSyncPeerDiscoveryCandidate)
    (ks : list (ProfileSyncPeerDiscoveryProtocol * string * string * string * string)) : Prop :=
  Permutation (map freshness_key ps ++ map rejected_key rs) ks.

Lemma accounts_reject ps rs ks c reason :
  accounts ps rs ks ->
  accounts ps (rs ++ [rejected_discovery_candidate c reason]) (ks ++ [freshness_key c]).
Proof. unfold accounts. intros Ha. by rewrite map_app, app_assoc, Ha. Qed.

Lemma accounts_accept ps rs ks c :
  accounts ps rs ks -> accounts (ps ++ [c]) rs (ks ++ [freshness_key c]).
Proof.
  unfold accounts. intros Ha. rewrite map_app, <-app_assoc.
  rewrite (Permutation_app_comm (map freshness_key [c])), app_assoc. by rewrite Ha.
Qed.

Lemma examine_spec db profile network_id cs seen ps rs :
  Forall valid_result cs -> accounts ps rs (map freshness_key seen) ->
  (forall p, p ∈ ps <-> p ∈ seen /\ authentic db profile network_id p) ->
  exists ps' rs', examine_candidates codec local_sync_device_id profile network_id cs ps rs db
                  = (db, Ok (ps', rs')) /\
    accounts ps' rs' (map freshness_key (seen ++ cs)) /\
    forall p, p ∈ ps' <-> p ∈ seen ++ cs /\ authentic db profile network_id p.
Proof.
  intros Hv. revert seen ps rs. induction Hv as [|c cs Hc _ IH]; intros seen ps rs Ha Hp.
  { exists ps, rs. by rewrite app_nil_r. }
  cbn [examine_candidates].
  destruct (rejection_spec profile network_id c db Hc) as (reason & E & Hreason).
  unfold sr_bind. rewrite E.
  replace (seen ++ c :: cs) with ((seen ++ [c]) ++ cs) by (by rewrite <-app_assoc).
  destruct reason as [reason|].
  - apply IH; [rewrite map_app; by apply accounts_reject|]. intros p. rewrite elem_of_app, list_elem_of_singleton.
    rewrite Hp. split; [naive_solver|]. intros [[Hin| ->] Hauth]; [done|].
    by apply Hreason in Hauth.
  - apply IH; [rewrite map_app; by apply accounts_accept|]. intros p.
    rewrite !elem_of_app, !list_elem_of_singleton, Hp. naive_solver.
Qed.
End Trust.

(** *** Freshness *)

Definition sequence (c : ProfileSyncPeerDiscoveryResult) : Z := ad_sequence (dr_advertisement c).

(** [freshest ps cs]: for every key of the candidates [ps] has one of them, of the greatest
    sequence. *)
Definition freshest (ps cs : list ProfileSyncPeerDiscoveryResult) : Prop :=
  NoDup (map freshness_key ps) /\ (forall p, p ∈ ps -> p ∈ cs) /\
  forall c, c ∈ cs -> exists p, p ∈ ps /\ freshness_key p = freshness_key c /\
                                sequence c <= sequence p.

Lemma accept_freshest_ok c ps cs rs ks :
  freshest ps cs -> accounts ps rs ks ->
  let '(ps', rs') := accept_freshest c ps rs in
  freshest ps' (cs ++ [c]) /\ accounts ps' rs' (ks ++ [freshness_key c]).
Proof.
  intros (Hnd & Hsub & Hmax) Ha. unfold accept_freshest.
  destruct (list_find _ ps) as [[i e]|] eqn:Hfind.
  2:{ apply list_find_None in Hfind. rewrite Forall_forall in Hfind. split.
      - split_and!.
        + rewrite map_app. apply NoDup_app. split; [done|]. split; [|apply NoDup_singleton].
          intros k (p & -> & Hp)%list_elem_of_fmap Hk%list_elem_of_singleton.
          by apply (Hfind p).
        + intros p [Hp| Hp]%elem_of_app; apply elem_of_app; [left; by apply Hsub|by right].
        + intros c'. rewrite elem_of_app, list_elem_of_singleton. intros [Hc| ->].
          * destruct (Hmax c' Hc) as (p & Hp & Hk & Hs). exists p.
            split_and!; [apply elem_of_app; by left|done|done].
          * exists c. split_and!; [apply elem_of_app; right; by constructor|done|done].
      - by apply accounts_accept. }
  apply list_find_Some in Hfind as (Hi & Hkey & _).
  assert (e ∈ ps) as He by (by eapply list_elem_of_lookup_2).
  fold (sequence c) (sequence e). destruct (Z.ltb_spec (sequence e) (sequence c)) as [Hlt|Hge].
  2:{ assert (freshest ps (cs ++ [c])) as Hf.
      { split_and!; [done| |].
        { intros p Hp. apply elem_of_app. left. by apply Hsub. }
        intros c'. rewrite elem_of_app, list_elem_of_singleton.
        intros [Hc| ->]; [by apply Hmax|]. exists e. by split_and!. }
      destruct (_ =? _); (split; [done|by apply accounts_reject]). }
  assert (map freshness_key (<[i:=c]> ps) = map freshness_key ps) as Hmap.
  { change (map freshness_key) with (fmap (M:=list) freshness_key).
    rewrite list_fmap_insert. apply list_insert_id. by rewrite list_lookup_fmap, Hi, <-Hkey. }
  split.
  - split_and!; [by rewrite Hmap| |].
    + intros p [j Hj]%list_elem_of_lookup.
      apply list_lookup_insert_Some in Hj as [(-> & <- & _)|[_ Hj]].
      { apply elem_of_app. right. by constructor. }
      apply elem_of_app. left. apply Hsub. by eapply list_elem_of_lookup_2.
    + assert (c ∈ <[i:=c]> ps) as Hc.
      { eapply list_elem_of_lookup_2. apply list_lookup_insert_eq. by eapply lookup_lt_Some. }
      intros c'. rewrite elem_of_app, list_elem_of_singleton. intros [Hc'| ->].
      * destruct (Hmax c' Hc') as (p & [j Hj]%list_elem_of_lookup & Hk & Hs).
        destruct (decide (i = j)) as [->|Hij].
        -- assert (p = e) as -> by congruence.
           exists c. split_and!; [done|by rewrite <-Hkey|lia].
        -- exists p. split_and!; try done. eapply list_elem_of_lookup_2.
           by rewrite list_lookup_insert_ne.
      * exists c. by split_and!.
  - unfold accounts in *. rewrite Hmap. rewrite <-Hkey.
    by apply (accounts_reject ps rs ks e StaleDiscoverySequence).
Qed.

Lemma freshest_results_ok cs ps before rs ks :
  freshest ps before -> accounts ps rs ks ->
  let '(ps', rs') := freshest_trusted_profile_sync_peer_discovery_results cs ps rs in
  freshest ps' (before ++ cs) /\ accounts ps' rs' (ks ++ map freshness_key cs).
Proof.
  revert ps before rs ks. induction cs as [|c cs IH]; intros ps before rs ks Hf Ha.
  { by rewrite !app_nil_r. }
  cbn [freshest_trusted_profile_sync_peer_discovery_results].
  pose proof (accept_freshest_ok c ps before rs ks Hf Ha) as Hstep.
  destruct (accept_freshest c ps rs) as [ps1 rs1]. destruct Hstep as [Hf1 Ha1].
  cbn [map]. rewrite (cons_middle c), !app_assoc. rewrite (cons_middle (freshness_key c)), app_assoc.
  by apply IH.
Qed.

(** *** Capabilities *)

Lemma require_each_capability_ok required peers trusted rejected ks :
  accounts (trusted ++ peers) rejected ks ->
  let r := require_each_capability required peers trusted rejected in
  tr_trusted_peers r = trusted ++ List.filter (has_required_capabilities required) peers /\
  accounts (tr_trusted_peers r) (tr_rejected_peers r) ks.
Proof.
  revert trusted rejected. induction peers as [|p peers IH]; intros trusted rejected Ha.
  { cbn. by rewrite app_nil_r in *. }
  cbn [require_each_capability List.filter].
  destruct (has_required_capabilities required p).
  - destruct (IH (trusted ++ [p]) rejected) as [-> H2]; [by rewrite <-app_assoc|].
    split; [by rewrite <-app_assoc|done].
  - apply IH. unfold accounts in *. revert Ha. rewrite !map_app. cbn [map].
    rewrite (Permutation_app_comm (map rejected_key rejected)). cbn [map app].
    intros <-. rewrite <-!app_assoc. apply Permutation_app_head. cbn [app].
    symmetry. apply (Permutation_middle (map freshness_key peers) (map rejected_key rejected)).
Qed.

Lemma require_capabilities_ok required report ks :
  accounts (tr_trusted_peers report) (tr_rejected_peers report) ks ->
  let r := require_profile_sync_peer_discovery_capabilities report required in
  tr_trusted_peers r
  = List.filter (has_required_capabilities required) (tr_trusted_peers report) /\
  accounts (tr_trusted_peers r) (tr_rejected_peers r) ks.
Proof.
  intros Ha. unfold require_profile_sync_peer_discovery_capabilities.
  case_bool_decide as Hr; [|by apply (require_each_capability_ok required _ [])].
  subst required. split; [|done]. symmetry. by apply filter_bool_all.
Qed.

Lemma NoDup_map_filter {A B} (f : A -> B) (q : A -> bool) l :
  NoDup (map f l) -> NoDup (map f (List.filter q l)).
Proof.
  induction l as [|x l IH]; [done|]. cbn [map List.filter]. intros [Hx Hl]%NoDup_cons.
  destruct (q x); [|by apply IH]. cbn [map]. apply NoDup_cons. split; [|by apply IH].
  intros (y & Hy & [_ Hin]%elem_of_filter_bool)%list_elem_of_fmap. apply Hx.
  apply list_elem_of_fmap. by exists y.
Qed.

Lemma NoDup_map_inj {A B} (f : A -> B) l x y :
  NoDup (map f l) -> x ∈ l -> y ∈ l -> f x = f y -> x = y.
Proof.
  intros Hnd [i Hi]%list_elem_of_lookup [j Hj]%list_elem_of_lookup Hf.
  assert (i = j) as ->; [|congruence].
  eapply (NoDup_lookup (map f l)); [exact Hnd|..].
  - rewrite list_lookup_fmap, Hi. reflexivity.
  - rewrite list_lookup_fmap, Hj. cbn. by rewrite Hf.
Qed.

(** The freshest advertisement that a peer authenticates among the candidates. *)
Definition freshest_authentic `{DiscoveryJson} codec local db profile network_id
    (candidates : list ProfileSyncPeerDiscoveryResult) (p : ProfileSyncPeerDiscoveryResult) : Prop :=
  p ∈ candidates /\ authentic codec local db profile network_id p /\
  forall c, c ∈ candidates -> authentic codec local db profile network_id c ->
    freshness_key c = freshness_key p -> sequence c <= sequence p.

(** C19: Through any provider that keeps its promise: a trusted peer of the report is the freshest
    advertisement that its device authenticates, and has the required capabilities; of every
    peer that authenticates itself such an advertisement is trusted, unless it lacks a
    capability; no peer is trusted twice, and every advertisement found is either trusted or
    rejected. *)
Theorem trusted_peers_authentic `{DiscoveryJson} {D} (I : D -> Prop) codec local provider profile
    query required (d d1 : D) db candidates :
  DiscoveryPromise I provider -> I d ->
  provider_discover provider query d = (d1, Ok candidates) ->
  exists report,
    discover_trusted_profile_sync_peers_with_required_capabilities codec local profile provider
      query required (d, db) = ((d1, db), Ok report) /\
    (forall p, p ∈ tr_trusted_peers report ->
       freshest_authentic codec local db profile (dq_network_id query) candidates p /\
       has_required_capabilities required p = true) /\
    (forall c, c ∈ candidates -> authentic codec local db profile (dq_network_id query) c ->
       exists p, freshest_authentic codec local db profile (dq_network_id query) candidates p /\
         freshness_key p = freshness_key c /\
         (has_required_capabilities required p = true -> p ∈ tr_trusted_peers report)) /\
    NoDup (map freshness_key (tr_trusted_peers report)) /\
    accounts (tr_trusted_peers report) (tr_rejected_peers report) (map freshness_key candidates).
Proof.
  intros Hpromise Hd Hfound.
  pose proof (promise_discover I provider Hpromise query d d1 _ Hd Hfound) as [_ Hvalid].
  specialize (Hvalid candidates eq_refl).
  unfold discover_trusted_profile_sync_peers_with_required_capabilities,
    filter_trusted_profile_sync_peer_discovery_results_with_required_capabilities. rewrite Hfound.
  destruct (examine_spec codec local db profile (dq_network_id query) candidates [] [] [])
    as (ps & rs & E & Ha & Hps); [done|constructor|set_solver|].
  unfold sr_bind at 1. rewrite E. cbn [fst snd app] in *.
  pose proof (freshest_results_ok ps [] [] rs (map rejected_key rs)) as Hf.
  destruct (freshest_trusted_profile_sync_peer_discovery_results ps [] rs) as [fs rs'].
  destruct Hf as [(Hnd & Hsub & Hmax) Hacc];
    [split_and!; [by apply NoDup_nil_2|set_solver..]|by unfold accounts|].
  cbn [app] in *. unfold accounts in Ha. rewrite Permutation_app_comm in Ha.
  assert (accounts fs rs' (map freshness_key candidates)) as Hacc'
    by (unfold accounts in *; by rewrite Hacc).
  destruct (require_capabilities_ok required
              {| tr_trusted_peers := fs; tr_rejected_peers := rs' |} _ Hacc') as [Ht Hr].
  cbn [tr_trusted_peers] in Ht. eexists. split; [reflexivity|].
  set (report := require_profile_sync_peer_discovery_capabilities _ _) in *. rewrite Ht in *.
  assert (forall p, p ∈ fs ->
    freshest_authentic codec local db profile (dq_network_id query) candidates p) as Hfs.
  { intros p Hp. pose proof (Hsub p Hp) as Hp'. apply Hps in Hp' as [Hin Hauth].
    split_and!; [done|done|]. intros c Hc Hca Hk.
    destruct (Hmax c) as (p' & Hp' & Hk' & Hs); [by apply Hps|].
    assert (p' = p) as ->; [|done]. eapply NoDup_map_inj; [exact Hnd|done..|congruence]. }
  split_and!.
  - intros p [Hreq Hp]%elem_of_filter_bool. split; [by apply Hfs|done].
  - intros c Hc Hca. destruct (Hmax c) as (p & Hp & Hk & Hs); [by apply Hps|].
    exists p. split; [by apply Hfs|]. split; [done|]. intros Hreq. by apply elem_of_filter_bool.
  - by apply NoDup_map_filter.
  - exact Hr.
Qed.

(** ** A device's own advertisement *)

(** An advertisement signed by its device is valid, has the payload that was signed, and is
    authentic wherever the roster trusts the signer's key at its epoch. *)
Theorem signed_advertisement_trusted `{DiscoveryJson} codec sealer signer key local db profile
    network_id protocol namespace a signed record :
  SealerLaws codec sealer ->
  sign_profile_sync_peer_advertisement sealer a signer = Ok signed ->
  signer_public_key sealer signer = Ok key ->
  db_public_keys db !! (profile, ad_node_id a) = Some record -> sk_trusted record = true ->
  sk_public_key record = key -> sk_membership_epoch record <= ad_membership_epoch a ->
  ad_network_id a = network_id -> ad_node_id a <> local ->
  supports_profile_sync_service_frames a = true ->
  advertisement_validate signed = Ok tt /\
  signing_payload_bytes signed = signing_payload_bytes a /\
  authentic codec local db profile network_id
    {| dr_protocol := protocol; dr_namespace := namespace; dr_advertisement := signed |}.
Proof.
  intros laws Hsign Hkey Hrecord Htrusted Hk Hepoch Hnet Hlocal Hframes.
  unfold sign_profile_sync_peer_advertisement in Hsign.
  destruct (str_eqb (ad_node_id a) (sg_device_id signer)) eqn:Hnode; [|done].
  apply str_eqb_eq in Hnode. cbn [negb] in Hsign.
  destruct (signing_payload_bytes a) as [payload|e] eqn:Hpayload; [|done].
  unfold signer_public_key in Hkey. unfold sign in Hsign.
  destruct (key_pair sealer signer) as [pair|e] eqn:Hpair; [|done].
  injection Hkey as <-. cbn [map_err] in Hsign.
  unfold signature_ed25519 in Hsign. cbn [so_device_id so_public_key so_signature] in Hsign.
  destruct (signature_validate _) as [[]|e] eqn:Hsv; [|done]. cbn [map_err] in Hsign.
  unfold with_identity_signature in Hsign.
  destruct (advertisement_validate _) as [[]|e] eqn:Hv; [|done]. injection Hsign as <-.
  assert (signing_payload_bytes (set_identity_signature (Some
    {| is_version := PROFILE_SYNC_PEER_ADVERTISEMENT_SCHEMA_VERSION;
       is_algorithm := SIGNATURE_ALGORITHM_ED25519; is_device_id := sg_device_id signer;
       is_public_key := kp_public_key pair; is_signature := kp_sign pair payload |}) a)
    = Ok payload) as Hp.
  { unfold signing_payload_bytes in *. rewrite Hv.
    destruct (advertisement_validate a) as [[]|]; [exact Hpayload|done]. }
  split_and!; [exact Hv|exact Hp|]. split_and!; [done..|].
  do 3 eexists. split_and!;
    [exact Hrecord|done|done|reflexivity|by symmetry|by rewrite Hk|exact Hp|].
  apply verify_with_Ok. rewrite Hk. split_and!; try done. by eapply signer_verifies.
Qed.

(** ** A run: a trusted device, and a forged advertisement *)

#[local] Instance demo_discovery_json : DiscoveryJson := {
  signing_payload_to_vec p :=
    Ok (fixed_bytes 32 (sp_node_id p +:+ show (sp_sequence p) +:+ sp_service_addr p));
  discovery_message_to_vec _ := Err "unsupported";
  discovery_message_from_slice _ := Err "unsupported"
}.

Definition laptop_signer : ProfileSyncDeviceSigner :=
  {| sg_device_id := "laptop"; sg_key_material := Pkcs8 "the-secret-of-this-laptop" |}.
Definition laptop_key : ProfileSyncDevicePublicKey :=
  {| pk_device_id := "laptop"; pk_bytes := "public:the-secret-of-this-laptop" |}.
Definition laptop_record : SyncDevicePublicKeyRecord :=
  {| sk_profile := "default"; sk_public_key := laptop_key; sk_membership_epoch := 1;
     sk_trusted := true; sk_created_at := 0; sk_updated_at := 0 |}.
Definition roster_db : ProfileDb :=
  set_db_public_keys {[ ("default", "laptop") := laptop_record ]} empty_db.

Definition announced (provider_id : string) (sequence : Z) : ProfileSyncPeerAdvertisement :=
  {| ad_network_id := "home"; ad_node_id := "laptop"; ad_provider_id := provider_id;
     ad_service_addr := "10.0.0.7:4001";
     ad_capabilities := [PROFILE_SYNC_PEER_DISCOVERY_CAPABILITY]; ad_membership_epoch := 1;
     ad_sequence := sequence; ad_identity_signature := None |}.
Definition signature_of_laptop (a : ProfileSyncPeerAdvertisement) :
    ProfileSyncPeerAdvertisementSignature :=
  {| is_version := 1; is_algorithm := "ed25519"; is_device_id := "laptop";
     is_public_key := pk_bytes laptop_key;
     is_signature := pk_bytes laptop_key
       +:+ fixed_bytes 32 ("laptop" +:+ show (ad_sequence a) +:+ ad_service_addr a) |}.
Definition genuine : ProfileSyncPeerAdvertisement :=
  set_identity_signature (Some (signature_of_laptop (announced "shelf" 7))) (announced "shelf" 7).

Lemma signed_advertisement_trusted_witness :
  sign_profile_sync_peer_advertisement reference_sealer (announced "shelf" 7) laptop_signer
  = Ok genuine /\
  authentic reference_codec "desktop" roster_db "default" "home"
    {| dr_protocol := LocalSimulation; dr_namespace := "slate"; dr_advertisement := genuine |}.
Proof.
  assert (sign_profile_sync_peer_advertisement reference_sealer (announced "shelf" 7) laptop_signer
          = Ok genuine) as Hsign by (vm_compute; reflexivity).
  split; [exact Hsign|].
  apply (signed_advertisement_trusted reference_codec reference_sealer laptop_signer laptop_key
           "desktop" roster_db "default" "home" LocalSimulation "slate" (announced "shelf" 7)
           genuine laptop_record reference_laws Hsign); try reflexivity.
  all: cbn; done.
Defined.

(** The network holds the genuine advertisement and one of the same device nobody signed. *)
Definition publications : list ProfileSyncPeerAdvertisement := [genuine; announced "forged" 9].
Definition publish_on (records : SimulatedProfileSyncPeerDiscoveryNetwork)
    (a : ProfileSyncPeerAdvertisement) : SimulatedProfileSyncPeerDiscoveryNetwork :=
  (publish_profile_sync_peer simulated_provider LocalSimulation "slate" a records).1.
Definition home_network : SimulatedProfileSyncPeerDiscoveryNetwork :=
  fold_left publish_on publications ∅.

Lemma home_network_valid : valid_records home_network.
Proof.
  assert (forall l records, valid_records records -> valid_records (fold_left publish_on l records))
    as Hl.
  { induction l as [|a l IH]; intros records Hr; [done|]. cbn [fold_left]. apply IH.
    unfold publish_on. destruct (publish_profile_sync_peer _ _ _ a records) as [d r] eqn:E.
    exact (promise_publish _ _ simulated_promise _ _ _ _ _ _ Hr E). }
  apply Hl. apply map_Forall_empty.
Qed.

Definition home_query : ProfileSyncPeerDiscoveryQuery :=
  {| dq_network_id := "home"; dq_requester_node_id := "desktop"; dq_namespace := "slate";
     dq_protocols := [LocalSimulation]; dq_max_peers := 8 |}.
Definition found_at_home : list ProfileSyncPeerDiscoveryResult :=
  map (fun a => {| dr_protocol := LocalSimulation; dr_namespace := "slate";
                   dr_advertisement := a |}) [announced "forged" 9; genuine].

Lemma trusted_peers_authentic_witness :
  exists report,
    discover_trusted_profile_sync_peers_with_required_capabilities reference_codec "desktop"
      "default" simulated_provider home_query [] (home_network, roster_db)
    = ((home_network, roster_db), Ok report) /\
    (forall p, p ∈ tr_trusted_peers report ->
       freshest_authentic reference_codec "desktop" roster_db "default" "home" found_at_home p) /\
    map dr_advertisement (tr_trusted_peers report) = [genuine].
Proof.
  assert (provider_discover simulated_provider home_query home_network
          = (home_network, Ok found_at_home)) as Hfound.
  { cbn [provider_discover simulated_provider]. unfold simulated_discover, sr_bind, sr_lift, sr_get.
    assert (query_validate home_query = Ok tt) as -> by (vm_compute; reflexivity).
    unfold sr_ret. apply (f_equal (fun r => (home_network, Ok r))). vm_compute. reflexivity. }
  destruct (trusted_peers_authentic valid_records reference_codec "desktop" simulated_provider
              "default" home_query [] home_network home_network roster_db found_at_home
              simulated_promise home_network_valid Hfound) as (report & E & Htrusted & _).
  exists report. split_and!; [exact E|intros p Hp; by apply Htrusted|].
  assert (result_map (fun r => map dr_advertisement (tr_trusted_peers r))
    (discover_trusted_profile_sync_peers_with_required_capabilities reference_codec "desktop"
       "default" simulated_provider home_query [] (home_network, roster_db)).2 = Ok [genuine])
    as Hrun by (vm_compute; reflexivity).
  rewrite E in Hrun. cbn [snd result_map] in Hrun. by injection Hrun.
Defined.
