(* ===== verification/Gateway.v ===== *)
(** * IPFS configuration, gateway transport and protocol service

    Models [crates/broadwebd/src/protocols/ipfs/config.rs], [gateway.rs] and [service.rs]:
    which gateways or Kubo node a configuration names, the transport that tries its gateways
    from the one that worked last, and the protocol service that routes [ipfs:] and [ipns:]
    URLs. *)
From S2P Require Import Prelude RustStr Broadwebd Routing Http Daemon ProfileSyncService.
From S2P Require Import Network Kubo.

(** ** Configuration *)

Inductive IpfsGatewayScope := LocalScope | PublicScope.
#[export] Instance IpfsGatewayScope_eq_dec : EqDecision IpfsGatewayScope.
Proof. solve_decision. Defined.
Inductive IpfsTransportKind := GatewayTransport | KuboRpcTransport.
#[export] Instance IpfsTransportKind_eq_dec : EqDecision IpfsTransportKind.
Proof. solve_decision. Defined.

Record IpfsGatewayEndpoint := { base_url : string; scope : IpfsGatewayScope }.

Record IpfsConfig := {
  ic_gateway : IpfsGatewayEndpoint;
  ic_public_gateway_fallbacks : list IpfsGatewayEndpoint;
  ic_kubo_rpc : option IpfsKuboRpcEndpoint;
  ic_transport : IpfsTransportKind;
  ic_allow_public_gateway_fallback : bool
}.

Definition DEFAULT_IPFS_GATEWAY : string := "http://127.0.0.1:8080".
Definition DEFAULT_PUBLIC_IPFS_GATEWAY : string := "https://ipfs.filebase.io".
Definition DEFAULT_PUBLIC_IPFS_GATEWAYS : list string :=
  [DEFAULT_PUBLIC_IPFS_GATEWAY; "https://w3s.link"; "https://ipfs.io"; "https://dweb.link"].
Definition SLATE_IPFS_GATEWAY_ENV : string := "SLATE_IPFS_GATEWAY".
Definition SLATE_IPFS_GATEWAY_SCOPE_ENV : string := "SLATE_IPFS_GATEWAY_SCOPE".
Definition SLATE_IPFS_TRANSPORT_ENV : string := "SLATE_IPFS_TRANSPORT".
Definition SLATE_IPFS_KUBO_RPC_ENV : string := "SLATE_IPFS_KUBO_RPC".

Definition non_empty_trimmed (input : option string) : option string :=
  option_filter (fun value => negb (is_empty value)) (option_map trim input).

Definition parse_gateway_scope (scope : option string) : result BroadwebdError IpfsGatewayScope :=
  match non_empty_trimmed scope with
  | None => Ok LocalScope
  | Some scope =>
      if eq_ignore_ascii_case scope "local" then Ok LocalScope
      else if eq_ignore_ascii_case scope "public" then Ok PublicScope
      else Err (UnsupportedRequest ("unsupported " +:+ SLATE_IPFS_GATEWAY_SCOPE_ENV +:+ ": "
                                    +:+ scope +:+ "; expected local or public"))
  end.

Definition parse_transport_kind (transport kubo_rpc_api : option string) :
    result BroadwebdError IpfsTransportKind :=
  match non_empty_trimmed transport with
  | None => Ok (match non_empty_trimmed kubo_rpc_api with
                | Some _ => KuboRpcTransport
                | None => GatewayTransport
                end)
  | Some value =>
      if eq_ignore_ascii_case value "gateway" then Ok GatewayTransport
      else if eq_ignore_ascii_case value "kubo-rpc" || eq_ignore_ascii_case value "kubo"
              || eq_ignore_ascii_case value "local-kubo-rpc"
      then Ok KuboRpcTransport
      else Err (UnsupportedRequest ("unsupported " +:+ SLATE_IPFS_TRANSPORT_ENV +:+ ": "
                                    +:+ value +:+ "; expected gateway or kubo-rpc"))
  end.

Section Config.
Context `{UrlCrate}.

Definition validate_gateway_url (gateway_base : string) (scope : IpfsGatewayScope) :
    result BroadwebdError unit :=
  let? url := map_err InvalidUrl (url_parse gateway_base) in
  if negb (is_http_scheme (url_scheme url))
  then Err (UnsupportedRequest ("unsupported IPFS gateway scheme: " +:+ url_scheme url))
  else
    let? host := ok_or (url_host_str url)
                   (InvalidUrl (gateway_base +:+ " is missing a gateway host")) in
    match scope, is_numeric_loopback_host host with
    | LocalScope, true => Ok tt
    | LocalScope, false =>
        Err (UnsupportedRequest
               ("local IPFS gateway must use a numeric loopback address: " +:+ gateway_base))
    | PublicScope, false => Ok tt
    | PublicScope, true =>
        Err (UnsupportedRequest
               ("public IPFS gateway mode requires a non-loopback gateway: " +:+ gateway_base))
    end.

Definition gateway_endpoint (scope : IpfsGatewayScope) (base_url : string) :
    result BroadwebdError IpfsGatewayEndpoint :=
  let? _ := validate_gateway_url base_url scope in
  Ok {| base_url := base_url; scope := scope |}.
Definition gateway_local : string -> result BroadwebdError IpfsGatewayEndpoint :=
  gateway_endpoint LocalScope.
Definition gateway_public : string -> result BroadwebdError IpfsGatewayEndpoint :=
  gateway_endpoint PublicScope.

Fixpoint collect_ok {E A B} (f : A -> result E B) (l : list A) : result E (list B) :=
  match l with
  | [] => Ok []
  | a :: l => let? b := f a in let? bs := collect_ok f l in Ok (b :: bs)
  end.

Definition public_gateway_fallbacks_excluding (primary_gateway : string) :
    result BroadwebdError (list IpfsGatewayEndpoint) :=
  collect_ok gateway_public
    (List.filter (fun gateway => negb (eq_ignore_ascii_case gateway primary_gateway))
       DEFAULT_PUBLIC_IPFS_GATEWAYS).

Definition with_gateway (gateway : result BroadwebdError IpfsGatewayEndpoint) :
    result BroadwebdError IpfsConfig :=
  let? gateway := gateway in
  let? fallbacks := public_gateway_fallbacks_excluding (base_url gateway) in
  Ok {| ic_gateway := gateway; ic_public_gateway_fallbacks := fallbacks; ic_kubo_rpc := None;
        ic_transport := GatewayTransport; ic_allow_public_gateway_fallback := true |}.
Definition with_local_gateway (gateway_base : string) : result BroadwebdError IpfsConfig :=
  with_gateway (gateway_local gateway_base).
Definition with_public_gateway (gateway_base : string) : result BroadwebdError IpfsConfig :=
  with_gateway (gateway_public gateway_base).
Definition with_default_public_gateway : result BroadwebdError IpfsConfig :=
  with_public_gateway DEFAULT_PUBLIC_IPFS_GATEWAY.
Definition ipfs_config_new : string -> result BroadwebdError IpfsConfig := with_local_gateway.
Definition default_local_gateway : result BroadwebdError IpfsConfig :=
  ipfs_config_new DEFAULT_IPFS_GATEWAY.

Definition with_kubo_rpc (api_base_url : string) : result BroadwebdError IpfsConfig :=
  let? gateway := gateway_local DEFAULT_IPFS_GATEWAY in
  let? fallbacks := public_gateway_fallbacks_excluding DEFAULT_IPFS_GATEWAY in
  let? kubo_rpc := kubo_endpoint_local api_base_url in
  Ok {| ic_gateway := gateway; ic_public_gateway_fallbacks := fallbacks;
        ic_kubo_rpc := Some kubo_rpc; ic_transport := KuboRpcTransport;
        ic_allow_public_gateway_fallback := false |}.

Definition from_gateway_options (gateway_base scope : option string) :
    result BroadwebdError IpfsConfig :=
  let? scope := parse_gateway_scope scope in
  match non_empty_trimmed gateway_base, scope with
  | Some gateway_base, LocalScope => with_local_gateway gateway_base
  | Some gateway_base, PublicScope => with_public_gateway gateway_base
  | None, LocalScope => default_local_gateway
  | None, PublicScope => with_default_public_gateway
  end.

Definition from_kubo_rpc_options (gateway_base scope kubo_rpc_api : option string) :
    result BroadwebdError IpfsConfig :=
  if bool_decide (is_Some (non_empty_trimmed gateway_base))
     || bool_decide (is_Some (non_empty_trimmed scope))
  then Err (UnsupportedRequest
              (SLATE_IPFS_TRANSPORT_ENV +:+ "=kubo-rpc cannot be combined with "
               +:+ SLATE_IPFS_GATEWAY_ENV +:+ " or " +:+ SLATE_IPFS_GATEWAY_SCOPE_ENV))
  else with_kubo_rpc (default DEFAULT_IPFS_KUBO_RPC_API kubo_rpc_api).

Definition from_runtime_options (gateway_base scope transport kubo_rpc_api : option string) :
    result BroadwebdError IpfsConfig :=
  let? kind := parse_transport_kind transport kubo_rpc_api in
  match kind with
  | GatewayTransport => from_gateway_options gateway_base scope
  | KuboRpcTransport =>
      from_kubo_rpc_options gateway_base scope (non_empty_trimmed kubo_rpc_api)
  end.

(** [from_environment] over the environment. *)
Definition ipfs_config_from_environment (env : string -> option string) :
    result BroadwebdError IpfsConfig :=
  from_runtime_options (env SLATE_IPFS_GATEWAY_ENV) (env SLATE_IPFS_GATEWAY_SCOPE_ENV)
    (env SLATE_IPFS_TRANSPORT_ENV) (env SLATE_IPFS_KUBO_RPC_ENV).
End Config.

Section Accessors.
Context (config : IpfsConfig).

Definition gateway_candidates : list IpfsGatewayEndpoint :=
  ic_gateway config
  :: if ic_allow_public_gateway_fallback config then ic_public_gateway_fallbacks config else [].
Definition http_transport_id : string :=
  match ic_transport config with
  | GatewayTransport => IPFS_GATEWAY_PLUGIN
  | KuboRpcTransport => IPFS_KUBO_RPC_PLUGIN
  end.
Definition uses_public_gateway : bool :=
  bool_decide (ic_transport config = GatewayTransport)
  && bool_decide (scope (ic_gateway config) = PublicScope).
Definition uses_kubo_rpc : bool := bool_decide (ic_transport config = KuboRpcTransport).
End Accessors.

(** ** The gateway transport *)

Definition rotation (start count : nat) : list nat :=
  map (fun offset => (start + offset) mod count)%nat (seq 0 count).

Section GatewayTransport.
Context {N T : Type} `{UrlCrate} (gateways : list IpfsGatewayEndpoint).
Context (execute : Url -> ResourceBudget -> state_result N BroadwebdError HttpFetchResponse).

Definition active_gateway_index (w : NetWorld N T) : nat :=
  if decide (nw_active_gateway w < length gateways)%nat then nw_active_gateway w else 0%nat.
Definition gateway_attempt_order (w : NetWorld N T) : list nat :=
  rotation (active_gateway_index w) (length gateways).
Definition cached_gateway_base (w : NetWorld N T) : string :=
  match gateways !! active_gateway_index w with
  | Some gateway => base_url gateway
  | None => ""      (** the list is not empty, [from_gateways_with_status] *)
  end.

Definition has_public_gateway_fallback : bool :=
  existsb (fun gateway => bool_decide (scope gateway = PublicScope)) (drop 1 gateways).

Definition gateway_status_label (gateway : IpfsGatewayEndpoint) : string :=
  match scope gateway with
  | LocalScope => "local IPFS gateway"
  | PublicScope =>
      default (base_url gateway)
        (match parse_http_url (base_url gateway) with
         | Ok url => url_host_str url
         | Err _ => None
         end)
  end.

Definition publish_gateway_attempt_status (gateway : IpfsGatewayEndpoint) (target : string) :
    state_result (NetWorld N T) BroadwebdError unit := fun w =>
  let active := str_eqb (base_url gateway) (cached_gateway_base w) in
  report (if active then Fetching else SwitchingGateway)
    (match scope gateway with
     | LocalScope => "Trying local IPFS gateway"
     | PublicScope => "Trying " +:+ gateway_status_label gateway
     end) (Some target) (Some (base_url gateway)) w.
Definition publish_gateway_complete_status (gateway : IpfsGatewayEndpoint) (target : string) :
    state_result (NetWorld N T) BroadwebdError unit :=
  report Complete ("Loaded via " +:+ gateway_status_label gateway) (Some target)
    (Some (base_url gateway)).
Definition publish_gateway_response_failure_status (gateway : IpfsGatewayEndpoint)
    (target : string) (status_code : Z) : state_result (NetWorld N T) BroadwebdError unit :=
  report SwitchingGateway (gateway_status_label gateway +:+ " returned HTTP "
                           +:+ show status_code) (Some target) (Some (base_url gateway)).
Definition publish_gateway_error_status (gateway : IpfsGatewayEndpoint) (target : string) :
    state_result (NetWorld N T) BroadwebdError unit :=
  report SwitchingGateway (gateway_status_label gateway +:+ " unavailable") (Some target)
    (Some (base_url gateway)).

(** Replacing the invalid bytes of the prefix neither adds nor removes ASCII text. *)
Definition is_service_worker_gateway_bootstrap (response : HttpFetchResponse) : bool :=
  let final_url := to_ascii_lowercase (hr_final_url response) in
  if str_contains "://inbrowser.link/" final_url || str_contains ".ipfs.inbrowser.link" final_url
  then true
  else
    match hr_content_type response with
    | Some content_type =>
        if str_contains "text/html" (to_ascii_lowercase content_type) then
          let prefix := str_take 4096 (hr_body response) in
          str_contains "IPFS Service Worker Gateway" prefix
          || str_contains "Service Worker Required" prefix
        else false
    | None => false
    end.

Definition is_usable_gateway_response (response : HttpFetchResponse) : bool :=
  (hr_status_code response =? 200) && negb (is_service_worker_gateway_bootstrap response).

Definition selected_gateway_privacy_boundary (gateway : IpfsGatewayEndpoint) : string :=
  match scope gateway with
  | LocalScope => "local IPFS gateway over HTTP: " +:+ base_url gateway
  | PublicScope =>
      "public IPFS gateway: " +:+ base_url gateway
      +:+ "; requested CIDs, IPNS names, and client network metadata leave the machine"
  end.
Definition selected_gateway_route (request : TransportHttpRequest)
    (gateway : IpfsGatewayEndpoint) : FetchRouteInfo :=
  {| ri_profile := tq_profile request; ri_transport_id := IPFS_GATEWAY_PLUGIN;
     ri_privacy_boundary := selected_gateway_privacy_boundary gateway;
     ri_purpose := tq_purpose request |}.

Context (request : TransportHttpRequest) (budget : ResourceBudget).

(** The requests that would panic on an index out of range do not occur: the order holds
    indexes of [gateways]. *)
Fixpoint gateway_attempts (last_error : option BroadwebdError)
    (last_response : option HttpFetchResponse) (order : list nat) :
    state_result (NetWorld N T) BroadwebdError HttpFetchResponse :=
  match order with
  | [] =>
      do* set_active_gateway_index 0 in
      do* report StatusError "IPFS gateways unavailable" (Some (tq_url request)) None in
      match last_response with
      | Some response => sr_ret response
      | None => sr_err (default (UnsupportedRequest "no IPFS gateways are configured") last_error)
      end
  | index :: order =>
      match gateways !! index with
      | None => gateway_attempts last_error last_response order
      | Some gateway =>
          do* publish_gateway_attempt_status gateway (tq_url request) in
          let* gateway_url := sr_lift (ipfs_gateway_http_url (tq_url request) (base_url gateway)) in
          let* url := sr_lift (parse_http_url gateway_url) in
          fun w =>
          let '(n, answer) := execute url budget (nw_net w) in
          let w := set_nw_net n w in
          match answer with
          | Ok response =>
              if is_usable_gateway_response response then
                (do* set_active_gateway_index index in
                 do* publish_gateway_complete_status gateway (tq_url request) in
                 sr_ret (with_route response (selected_gateway_route request gateway))) w
              else
                (do* publish_gateway_response_failure_status gateway (tq_url request)
                       (hr_status_code response) in
                 gateway_attempts last_error
                   (Some (with_route response (selected_gateway_route request gateway))) order) w
          | Err error =>
              (do* publish_gateway_error_status gateway (tq_url request) in
               gateway_attempts (Some error) last_response order) w
          end
      end
  end.

Definition gateway_fetch_http_with_executor :
    state_result (NetWorld N T) BroadwebdError HttpFetchResponse := fun w =>
  gateway_attempts None None (gateway_attempt_order w) w.
End GatewayTransport.

(** ** The plugins *)

Definition gateway_capabilities (scope : IpfsGatewayScope) (fallback : bool) : list string :=
  ["ipfs"; "ipns"; "http-fetch"]
  ++ [match scope with LocalScope => "local-gateway" | PublicScope => "public-gateway" end]
  ++ [if fallback then "public-gateway-fallback"
      else match scope with
           | LocalScope => "local-gateway-only"
           | PublicScope => "public-gateway-only"
           end].

Definition gateway_privacy_boundary (scope : IpfsGatewayScope) (fallback : bool) : string :=
  match scope, fallback with
  | LocalScope, true =>
      "local IPFS gateway first; falls back to configured public IPFS gateways for IPFS/IPNS requests when local retrieval fails"
  | LocalScope, false => "local IPFS gateway over HTTP"
  | PublicScope, _ =>
      "explicit public IPFS gateway list; requested CIDs, IPNS names, and client network metadata leave the machine"
  end.

Section Plugins.
Context {N T : Type} `{UrlCrate, HttpNetwork N}.

(** [from_gateways_with_status]; the metadata reads the first gateway. *)
Definition gateway_transport (gateways : list IpfsGatewayEndpoint) :
    result BroadwebdError (TransportPlugin (NetWorld N T)) :=
  match gateways with
  | [] => Err (UnsupportedRequest "IPFS gateway transport requires at least one gateway")
  | gateway :: _ =>
      let fallback := has_public_gateway_fallback gateways in
      Ok {| tp_metadata :=
              with_resource_profile MediumProfile
                (with_privacy_boundary (gateway_privacy_boundary (scope gateway) fallback)
                   (with_capabilities (gateway_capabilities (scope gateway) fallback)
                      (plugin_metadata_new IPFS_GATEWAY_PLUGIN TransportKind)));
            tp_fetch_http request budget :=
              gateway_fetch_http_with_executor gateways fetch_http_url_over_network
                request budget |}
  end.

Definition ipfs_capabilities (config : IpfsConfig) : list string :=
  ["ipfs"; "ipns"; "application/http-response"]
  ++ match ic_transport config with
     | GatewayTransport =>
         [if uses_public_gateway config then "public-gateway" else "local-gateway";
          "public-gateway-fallback"]
     | KuboRpcTransport => ["local-kubo-rpc"; "local-only"]
     end.
Definition ipfs_privacy_boundary (config : IpfsConfig) : string :=
  match ic_transport config with
  | GatewayTransport =>
      if uses_public_gateway config
      then "retrieves IPFS/IPNS through an explicitly configured public gateway list"
      else "retrieves IPFS/IPNS through a local gateway first, with configured public gateway fallback when local retrieval fails"
  | KuboRpcTransport =>
      "retrieves IPFS/IPNS through an explicitly configured local Kubo RPC endpoint; no public gateway fallback by default"
  end.

Definition ipfs_service (config : IpfsConfig) : ProtocolService := {|
  ps_metadata :=
    with_resource_profile MediumProfile
      (with_privacy_boundary (ipfs_privacy_boundary config)
         (with_dependencies [http_transport_id config]
            (with_capabilities (ipfs_capabilities config)
               (plugin_metadata_new IPFS_PROTOCOL_SERVICE ProtocolServiceKind))));
  ps_http_transport_for_url url :=
    if str_eqb (url_scheme url) "ipfs" || str_eqb (url_scheme url) "ipns"
    then Some (Ok (http_transport_id config)) else None
|}.

(** The constructors of [IpfsConfig] give the transport what it needs: the two [expect]s do
    not panic, and an unbuildable transport is not installed.  [lift] places the transport in
    the world of the registry. *)
Definition ipfs_install_plugins {W} (lift : TransportPlugin (NetWorld N T) -> TransportPlugin W)
    (config : IpfsConfig) (r : PluginRegistry W) : PluginRegistry W * list PluginInstallReport :=
  let installed :=
    match ic_transport config with
    | GatewayTransport => gateway_transport (gateway_candidates config)
    | KuboRpcTransport =>
        result_map kubo_rpc_transport
          (ok_or (ic_kubo_rpc config) (UnsupportedRequest "no Kubo RPC endpoint"))
    end in
  match installed with
  | Ok plugin => let '(r, report) := install_transport (lift plugin) r in (r, [report])
  | Err _ => (r, [])
  end.
End Plugins.
