(* ===== verification/Tor.v ===== *)
(** * Onion URLs and HTTP over Tor

    Models [crates/broadwebd/src/protocols/tor/address.rs], [service.rs] and [arti_http.rs]:
    which hosts are onion hosts, the [tor+http] URLs, the target of a request, the plain HTTP
    exchange over a Tor stream, the parsing of the response with its chunked bodies, and the
    loop that follows redirects without leaving Tor.

    The Tor client ([arti_client]) is a parameter: a client is made once the network has
    bootstrapped, it connects to a host and a port, and its streams are written and read. *)
From S2P Require Import Prelude RustStr Broadwebd Routing SocketText Http Daemon Network.

(** ** Addresses *)

Definition TOR_HTTP_SCHEME : string := "tor+http".
Definition TOR_HTTPS_SCHEME : string := "tor+https".

Inductive TorNetworkScheme := TorHttp | TorHttps.
#[export] Instance TorNetworkScheme_eq_dec : EqDecision TorNetworkScheme.
Proof. solve_decision. Defined.

Record TorHttpTarget := {
  tt_final_url : string;
  tt_network_scheme : TorNetworkScheme;
  tt_host : string;
  tt_port : Z;
  tt_host_header : string;
  tt_path_and_query : string
}.

Definition from_url_scheme (scheme : string) : option TorNetworkScheme :=
  if str_eqb scheme "http" || str_eqb scheme TOR_HTTP_SCHEME then Some TorHttp
  else if str_eqb scheme "https" || str_eqb scheme TOR_HTTPS_SCHEME then Some TorHttps
  else None.
Definition source_scheme (s : TorNetworkScheme) : string :=
  match s with TorHttp => "http" | TorHttps => "https" end.
Definition tor_scheme (s : TorNetworkScheme) : string :=
  match s with TorHttp => TOR_HTTP_SCHEME | TorHttps => TOR_HTTPS_SCHEME end.
Definition default_port (s : TorNetworkScheme) : Z :=
  match s with TorHttp => 80 | TorHttps => 443 end.

Definition is_tor_http_scheme (scheme : string) : bool :=
  str_eqb scheme TOR_HTTP_SCHEME || str_eqb scheme TOR_HTTPS_SCHEME.

Definition onion_label_byte (byte : ascii) : bool :=
  is_ascii_lowercase byte || is_ascii_digit byte || Ascii.eqb byte "-".

Definition is_onion_host (host : string) : bool :=
  let host := to_ascii_lowercase (trim_end_matches "." host) in
  match strip_suffix ".onion" host with
  | None => false
  | Some name =>
      negb (is_empty name)
      && forallb (fun label => negb (is_empty label) && all_bytes onion_label_byte label)
           (str_split "." name)
  end.

Definition is_onion_url (url : Url) : bool :=
  match url_host_str url with Some host => is_onion_host host | None => false end.

Definition build_tor_url (network_scheme : TorNetworkScheme) (host : string) (port : option Z)
    (path : string) (query : option string) : string :=
  tor_scheme network_scheme +:+ "://" +:+ host
  +:+ match port with Some port => ":" +:+ show port | None => "" end
  +:+ (if is_empty path then "/" else path)
  +:+ match query with Some query => "?" +:+ query | None => "" end.

Definition has_userinfo (url : Url) : bool :=
  negb (is_empty (url_username url)) || bool_decide (is_Some (url_password url)).
Definition userinfo_error : BroadwebdError :=
  UnsupportedRequest "Tor onion URLs must not include userinfo".

Definition tor_url_from_http_url (url : Url) : result BroadwebdError (option string) :=
  match from_url_scheme (url_scheme url) with
  | None => Ok None
  | Some network_scheme =>
      if is_tor_http_scheme (url_scheme url) then Ok (Some (url_without_fragment url))
      else if negb (is_onion_url url) then Ok None
      else if negb (is_http_scheme (url_scheme url)) then Ok None
      else if has_userinfo url then Err userinfo_error
      else
        let? host := ok_or (url_host_str url)
                       (InvalidUrl (url_as_str url +:+ " is missing an onion host")) in
        Ok (Some (build_tor_url network_scheme host (url_port url) (url_path url)
                    (url_query url)))
  end.

Section Targets.
Context `{UrlCrate}.

(** The second test of the scheme in the code repeats the first. *)
Definition tor_http_target (source : string) : result BroadwebdError TorHttpTarget :=
  let? url := map_err InvalidUrl (url_parse source) in
  let? network_scheme := ok_or (from_url_scheme (url_scheme url))
    (UnsupportedRequest ("unsupported Tor URL scheme: " +:+ url_scheme url)) in
  if has_userinfo url then Err userinfo_error
  else
    let? host := ok_or (url_host_str url)
                   (InvalidUrl (source +:+ " is missing an onion host")) in
    let host := to_ascii_lowercase (trim_end_matches "." host) in
    if negb (is_onion_host host)
    then Err (UnsupportedRequest ("Tor transport only accepts .onion hosts: " +:+ host))
    else
      let port := default (default_port network_scheme) (url_port url) in
      let custom := negb (port =? default_port network_scheme) in
      Ok {| tt_final_url := build_tor_url network_scheme host
                              (if custom then Some port else None) (url_path url) (url_query url);
            tt_network_scheme := network_scheme; tt_host := host; tt_port := port;
            tt_host_header := if custom then host +:+ ":" +:+ show port else host;
            tt_path_and_query :=
              (if is_empty (url_path url) then "/" else url_path url)
              +:+ match url_query url with Some query => "?" +:+ query | None => "" end |}.

Definition normalize_tor_navigation_url (source : string) : result BroadwebdError string :=
  let? url := map_err InvalidUrl (url_parse source) in
  let? tor_url := tor_url_from_http_url url in
  match tor_url with
  | Some url => Ok url
  | None => let? target := tor_http_target source in Ok (tt_final_url target)
  end.
End Targets.

(** ** Text of the response *)

Definition crlf : string := String (byte_of 13) (String (byte_of 10) EmptyString).

(** [split] by a separator that is no empty string; each step consumes the separator. *)
Fixpoint split_str_fuel (fuel : nat) (sep s : string) : list string :=
  match fuel with
  | O => [s]
  | S fuel =>
      match split_once sep s with
      | Some (head, rest) => head :: split_str_fuel fuel sep rest
      | None => [s]
      end
  end.
Definition split_str (sep s : string) : list string := split_str_fuel (String.length s) sep s.

(** [split_whitespace]. *)
Fixpoint take_word (s : string) : string * string :=
  match strip_whitespace_char s with
  | Some _ => (EmptyString, s)
  | None =>
      match s with
      | EmptyString => (EmptyString, EmptyString)
      | String c s => let '(word, rest) := take_word s in (String c word, rest)
      end
  end.
Fixpoint split_whitespace_fuel (fuel : nat) (s : string) : list string :=
  match fuel with
  | O => []
  | S fuel =>
      let s := trim_start s in
      if is_empty s then []
      else let '(word, rest) := take_word s in word :: split_whitespace_fuel fuel rest
  end.
Definition split_whitespace (s : string) : list string :=
  split_whitespace_fuel (S (String.length s)) s.

(** [Display] of [Utf8Error]: the length of the valid prefix, and of the invalid sequence
    unless the input ends inside one. *)
Definition utf8_error_at (index : Z) (len : option Z) : string :=
  match len with
  | Some len => "invalid utf-8 sequence of " +:+ show len +:+ " bytes from index " +:+ show index
  | None => "incomplete utf-8 byte sequence from index " +:+ show index
  end.
Fixpoint utf8_error_fuel (fuel : nat) (index : Z) (s : string) : string :=
  let tail c := in_range (byte_of 128) (byte_of 191) c in
  match fuel with
  | O => ""
  | S fuel =>
      match s with
      | EmptyString => ""
      | String a s =>
          let x := byte_val a in
          let low := if x =? 224 then 160 else if x =? 240 then 144 else 128 in
          let high := if x =? 237 then 159 else if x =? 244 then 143 else 191 in
          let width := if x <? 128 then 1 else if (194 <=? x) && (x <=? 223) then 2
                       else if (224 <=? x) && (x <=? 239) then 3
                       else if (240 <=? x) && (x <=? 244) then 4 else 0 in
          if width =? 1 then utf8_error_fuel fuel (index + 1) s
          else if width =? 0 then utf8_error_at index (Some 1)
          else
            match s with
            | EmptyString => utf8_error_at index None
            | String b s =>
                if negb ((low <=? byte_val b) && (byte_val b <=? high))
                then utf8_error_at index (Some 1)
                else if width =? 2 then utf8_error_fuel fuel (index + 2) s
                else
                  match s with
                  | EmptyString => utf8_error_at index None
                  | String c s =>
                      if negb (tail c) then utf8_error_at index (Some 2)
                      else if width =? 3 then utf8_error_fuel fuel (index + 3) s
                      else
                        match s with
                        | EmptyString => utf8_error_at index None
                        | String d s =>
                            if negb (tail d) then utf8_error_at index (Some 3)
                            else utf8_error_fuel fuel (index + 4) s
                        end
                  end
            end
      end
  end.
Definition from_utf8 (s : string) : result string string :=
  if utf8_valid s then Ok s else Err (utf8_error_fuel (String.length s) 0 s).

(** [usize::from_str_radix(_, 16)]. *)
Fixpoint parse_hex_digits (acc : Z) (s : string) : result string Z :=
  match s with
  | EmptyString => Ok acc
  | String c s =>
      match to_digit 16 c with
      | None => Err parse_error_digit
      | Some d =>
          let acc := acc * 16 + d in
          if u64_max <? acc then Err parse_error_large else parse_hex_digits acc s
      end
  end.
Definition parse_usize_hex (s : string) : result string Z :=
  match s with
  | EmptyString => Err parse_error_empty
  | String c rest =>
      if Ascii.eqb c "+" then
        if is_empty rest then Err parse_error_digit else parse_hex_digits 0 rest
      else parse_hex_digits 0 s
  end.

(** ** Responses *)

Definition MAX_HEADER_BYTES : Z := 65536.
Definition MAX_REDIRECTS : nat := 6.
Definition BROWSER_USER_AGENT : string :=
  "Mozilla/5.0 (X11; Linux x86_64; rv:154.0) Gecko/20100101 Firefox/154.0".

Definition status_code (status_line : string) : result BroadwebdError Z :=
  match split_whitespace status_line with
  | [] => Err (Request "missing HTTP version")
  | version :: parts =>
      if negb (starts_with "HTTP/" version)
      then Err (Request ("invalid HTTP status line: " +:+ status_line))
      else
        let? code := ok_or (head parts) (Request "missing HTTP status code") in
        map_err (fun error => Request ("invalid HTTP status code: " +:+ error)) (parse_u16 code)
  end.

Definition http_header (line : string) : option HttpHeader :=
  match split_once ":" line with
  | None => None
  | Some (name, value) =>
      let name := trim name in
      if is_empty name then None else Some {| hd_name := name; hd_value := trim value |}
  end.

Definition header_value (headers : list HttpHeader) (name : string) : option string :=
  option_map hd_value (find_header name headers).

(** The loop of [decode_chunked_body] over the bytes from [offset] on.  An iteration
    consumes a size line, so one more than the length of the body is enough fuel. *)
Fixpoint decode_chunks (fuel : nat) (limit : Z) (output rest : string) :
    result BroadwebdError string :=
  match fuel with
  | O => Err (Request "truncated chunk size")
  | S fuel =>
      match split_once crlf rest with
      | None => Err (Request "truncated chunk size")
      | Some (line, rest) =>
          let invalid error := Request ("invalid chunk size: " +:+ error) in
          let? size_line := map_err invalid (from_utf8 line) in
          let? size := map_err invalid (parse_usize_hex (trim (before_first ";" size_line))) in
          if size =? 0 then Ok output
          else if str_len rest <? size then Err (Request "truncated chunk body")
          else
            let output := output +:+ str_take (Z.to_nat size) rest in
            if limit <? str_len output then Err (ResponseTooLarge limit (str_len output))
            else
              match strip_prefix crlf (str_drop (Z.to_nat size) rest) with
              | None => Err (Request "chunk body missing CRLF terminator")
              | Some rest => decode_chunks fuel limit output rest
              end
      end
  end.
Definition decode_chunked_body (body : string) (limit : Z) : result BroadwebdError string :=
  decode_chunks (S (String.length body)) limit "" body.

Fixpoint filter_map {A B} (f : A -> option B) (l : list A) : list B :=
  match l with
  | [] => []
  | a :: l => match f a with Some b => b :: filter_map f l | None => filter_map f l end
  end.

Definition is_redirect_status (status_code : Z) : bool :=
  existsb (Z.eqb status_code) [301; 302; 303; 307; 308].

Section Responses.
Context `{UrlCrate}.

Definition http_response_from_bytes (final_url response : string) (budget : ResourceBudget) :
    result BroadwebdError HttpFetchResponse :=
  let? header_end := ok_or (split_once (crlf +:+ crlf) response)
    (Request "Tor HTTP response ended before headers completed") in
  let '(header_bytes, body) := header_end in
  let limit := max_http_response_bytes budget in
  if MAX_HEADER_BYTES <? str_len header_bytes
  then Err (ResponseTooLarge limit (str_len header_bytes))
  else
    let? header_text :=
      map_err (fun error => Request ("invalid HTTP headers: " +:+ error))
        (from_utf8 header_bytes) in
    let lines := split_str crlf header_text in
    let? status_line := ok_or (head lines) (Request "missing HTTP status line") in
    let? status_code := status_code status_line in
    let headers := filter_map http_header (drop 1 lines) in
    let chunked :=
      match header_value headers "transfer-encoding" with
      | Some value => str_contains "chunked" (to_ascii_lowercase value)
      | None => false
      end in
    let? body := if chunked then decode_chunked_body body limit else Ok body in
    let? _ := within_limit limit body in
    let content_type := infer_content_type final_url (header_value headers "content-type") body in
    Ok (http_fetch_response_new final_url status_code content_type headers body).

Definition redirect_target (response : HttpFetchResponse) :
    result BroadwebdError (option string) :=
  if negb (is_redirect_status (hr_status_code response)) then Ok None
  else
    match header_value (hr_headers response) "location" with
    | None => Ok None
    | Some location =>
        let? base := map_err InvalidUrl (url_parse (hr_final_url response)) in
        let? joined := map_err InvalidUrl (url_join base (trim location)) in
        let? url := normalize_tor_navigation_url (url_as_str joined) in
        Ok (Some url)
    end.
End Responses.

(** ** The exchange *)

(** A call fails, or the time limit around it runs out. *)
Inductive TorFailure := TimedOut | Failed (error : string).

(** [arti_client] and its runtime: clients [T], streams [S].  [tor_read] answers at most
    8192 bytes, and the empty string at the end of the stream. *)
Class TorNetwork (N T S : Type) := {
  tor_runtime_new : state_result N string unit;
  tor_create_bootstrapped : state_result N TorFailure T;
  tor_connect : T -> string -> Z -> state_result N TorFailure S;
  tor_write_all : S -> string -> state_result N TorFailure unit;
  tor_flush : S -> state_result N TorFailure unit;
  tor_read : S -> state_result N TorFailure string
}.

Definition tor_error (error : string) : BroadwebdError :=
  Request ("Tor request failed: " +:+ error).
Definition on_timeout (message : string) (convert : string -> BroadwebdError) (f : TorFailure) :
    BroadwebdError :=
  match f with TimedOut => Request message | Failed error => convert error end.
Definition bootstrap_failure : TorFailure -> BroadwebdError :=
  on_timeout "Tor bootstrap timed out" tor_error.
Definition connect_failure : TorFailure -> BroadwebdError :=
  on_timeout "Tor HTTP request timed out" tor_error.
Definition stream_failure : TorFailure -> BroadwebdError :=
  on_timeout "Tor HTTP request timed out" Io.

Definition plain_http_request (target : TorHttpTarget) : string :=
  "GET " +:+ tt_path_and_query target +:+ " HTTP/1.1" +:+ crlf
  +:+ "Host: " +:+ tt_host_header target +:+ crlf
  +:+ "User-Agent: " +:+ BROWSER_USER_AGENT +:+ crlf
  +:+ "Accept: */*" +:+ crlf +:+ "Connection: close" +:+ crlf +:+ crlf.

Section Exchange.
Context {N T S : Type} `{TorNetwork N T S}.

(** A read that is not the last adds a byte, and the loop stops above [limit]: fuel
    [limit + 2] is never used up. *)
Fixpoint read_response (fuel : nat) (budget : ResourceBudget) (limit : Z) (stream : S)
    (response : string) : state_result N BroadwebdError string :=
  match fuel with
  | O => sr_ret response
  | Datatypes.S fuel =>
      let* chunk := sr_map_err stream_failure (tor_read stream) in
      if is_empty chunk then sr_ret response
      else
        let response := response +:+ chunk in
        if limit <? str_len response
        then sr_err (ResponseTooLarge (max_http_response_bytes budget) (str_len response))
        else read_response fuel budget limit stream response
  end.

Definition fetch_plain_http_over_tor (client : T) (target : TorHttpTarget)
    (budget : ResourceBudget) : state_result N BroadwebdError string :=
  let* stream := sr_map_err connect_failure
                   (tor_connect client (tt_host target) (tt_port target)) in
  do* sr_map_err stream_failure (tor_write_all stream (plain_http_request target)) in
  do* sr_map_err stream_failure (tor_flush stream) in
  let limit := Z.min u64_max (max_http_response_bytes budget + MAX_HEADER_BYTES) in
  read_response (Z.to_nat (limit + 2)) budget limit stream "".
End Exchange.

(** ** The transport *)

Section Transport.
Context {N T S : Type} `{UrlCrate, TorNetwork N T S}.

Definition tor_op (A : Type) : Type := state_result (NetWorld N T) BroadwebdError A.

Definition set_nw_tor (state : option (option T)) (w : NetWorld N T) : NetWorld N T :=
  Build_NetWorld (nw_net w) (nw_status w) (nw_active_gateway w) state.

(** [tor_runtime_state]: the runtime is made at the first use. *)
Definition tor_runtime_state : tor_op (option T) :=
  let* w := sr_get in
  match nw_tor w with
  | Some client => sr_ret client
  | None =>
      do* on_net (sr_map_err Io tor_runtime_new) in
      do* (fun w => (set_nw_tor (Some None) w, Ok tt)) in
      sr_ret None
  end.

Definition tor_client (target : string) : tor_op T :=
  let* client := tor_runtime_state in
  match client with
  | Some client => sr_ret client
  | None =>
      do* report Fetching "Bootstrapping Tor" (Some target) (Some "arti") in
      fun w =>
      match on_net (sr_map_err bootstrap_failure tor_create_bootstrapped) w with
      | (w, Ok client) => (set_nw_tor (Some (Some client)) w, Ok client)
      | (w, Err error) =>
          (do* report StatusError "Tor bootstrap failed" (Some target) (Some "arti") in
           sr_err error) w
      end
  end.

Definition publish_error_status (target : TorHttpTarget) : tor_op unit :=
  report StatusError "Tor fetch failed" (Some (tt_final_url target)) (Some (tt_host target)).

(** [match m { Ok(a) => a, Err(error) => { self.publish_error_status(&target); return ... } }]. *)
Definition or_error_status {A} (target : TorHttpTarget) (m : tor_op A) : tor_op A := fun w =>
  match m w with
  | (w, Ok a) => (w, Ok a)
  | (w, Err error) => (do* publish_error_status target in sr_err error) w
  end.

Definition TOR_BOUNDARY : string :=
  "embedded Arti Tor client; onion URL and timing metadata stay inside the Tor routing boundary".

Context (request : TransportHttpRequest) (budget : ResourceBudget).

Definition too_many_redirects : BroadwebdError :=
  UnsupportedRequest ("too many Tor redirects while fetching " +:+ tq_url request).

(** One iteration: the response of the target, and where it redirects to. *)
Definition tor_exchange (client : option T) (current : string) :
    tor_op (T * TorHttpTarget * HttpFetchResponse * option string) :=
  let* target := sr_lift (tor_http_target current) in
  if bool_decide (tt_network_scheme target = TorHttps)
  then sr_err (UnsupportedRequest "HTTPS over embedded Tor is not implemented yet")
  else
    let* client := match client with Some client => sr_ret client | None => tor_client current end in
    do* report Fetching "Opening Tor circuit" (Some (tt_final_url target))
          (Some (tt_host target)) in
    let* raw_response := or_error_status target
      (do* tor_runtime_state in on_net (fetch_plain_http_over_tor client target budget)) in
    let* response := or_error_status target
      (sr_lift (http_response_from_bytes (tt_final_url target) raw_response budget)) in
    let* redirect := sr_lift (redirect_target response) in
    sr_ret (client, target, response, redirect).

(** [remaining] redirects may still be followed. *)
Fixpoint tor_fetch_loop (remaining : nat) (client : option T) (current : string) :
    tor_op HttpFetchResponse :=
  let* step := tor_exchange client current in
  let '(client, target, response, redirect) := step in
  match redirect, remaining with
  | Some _, O => sr_err too_many_redirects
  | Some redirect_url, Datatypes.S remaining =>
      do* report Fetching "Following Tor redirect" (Some redirect_url) (Some (tt_host target)) in
      tor_fetch_loop remaining (Some client) redirect_url
  | None, _ =>
      do* report Complete "Loaded via Tor" (Some (hr_final_url response))
            (Some (tt_host target)) in
      sr_ret (with_route response
        {| ri_profile := tq_profile request; ri_transport_id := TOR_ARTI_HTTP_PLUGIN;
           ri_privacy_boundary := TOR_BOUNDARY; ri_purpose := tq_purpose request |})
  end.

Definition tor_fetch_http : tor_op HttpFetchResponse :=
  let* current := sr_lift (normalize_tor_navigation_url (tq_url request)) in
  tor_fetch_loop MAX_REDIRECTS None current.
End Transport.

(** ** The plugins *)

Definition tor_arti_http_metadata : PluginMetadata :=
  with_resource_profile HighProfile
    (with_privacy_boundary
       "embedded Arti Tor client; .onion hosts are reached through Tor circuits and must not fall back to direct DNS"
       (with_capabilities ["tor"; "onion"; "http-fetch"; "arti"; "http-over-tor"]
          (plugin_metadata_new TOR_ARTI_HTTP_PLUGIN TransportKind))).

Definition tor_arti_http_transport {N T S} `{UrlCrate, TorNetwork N T S} :
    TransportPlugin (NetWorld N T) :=
  {| tp_metadata := tor_arti_http_metadata; tp_fetch_http := tor_fetch_http |}.

Definition tor_service : ProtocolService := {|
  ps_metadata :=
    with_resource_profile HighProfile
      (with_privacy_boundary
         "routes .onion HTTP requests through embedded Arti; no direct DNS fallback is permitted"
         (with_dependencies [TOR_ARTI_HTTP_PLUGIN]
            (with_capabilities ["tor"; "onion"; "application/http-response"; "arti";
                                "http-over-tor"]
               (plugin_metadata_new TOR_PROTOCOL_SERVICE ProtocolServiceKind))));
  ps_http_transport_for_url url :=
    if is_tor_http_scheme (url_scheme url) then Some (Ok TOR_ARTI_HTTP_PLUGIN)
    else if is_http_scheme (url_scheme url) && is_onion_url url
    then Some (Ok TOR_ARTI_HTTP_PLUGIN) else None
|}.

Definition tor_install_plugins {N T S W} `{UrlCrate, TorNetwork N T S}
    (lift : TransportPlugin (NetWorld N T) -> TransportPlugin W) (r : PluginRegistry W) :
    PluginRegistry W * list PluginInstallReport :=
  let '(r, report) := install_transport (lift tor_arti_http_transport) r in (r, [report]).
