(* ===== verification/BrowserCore.v ===== *)
(** * Browser core

    Models [crates/browser-core/src/lib.rs]: the tabs, the active application and the surface
    shown, the commands that change them, and what the text a person types in the address bar
    is turned into.

    A command acts on the browser and on the [RenderWorld] its surfaces are loaded in;
    [current_dir] is the working directory, when there is one. *)
From S2P Require Import Prelude RustStr Broadwebd Http Downloads Daemon Tor Rendering Protocols.

(** ** Addresses *)

Inductive NavigationError := EmptyInput.
Definition show_navigation_error (e : NavigationError) : string :=
  match e with EmptyInput => "navigation input is empty" end.

Definition has_supported_scheme (lower : string) : bool :=
  starts_with "slate://" lower || starts_with "https://" lower || starts_with "http://" lower
  || starts_with "tor+http://" lower || starts_with "tor+https://" lower
  || starts_with "ipfs://" lower || starts_with "ipns://" lower || starts_with "i2p://" lower
  || starts_with "gemini://" lower || starts_with "magnet:" lower
  || starts_with "file://" lower.

Definition is_http_url_with_onion_hint (lower : string) : bool :=
  (starts_with "http://" lower || starts_with "https://" lower) && str_contains ".onion" lower.

(** The name an address starts with, and the path, query or fragment after it. *)
Definition split_name : string -> string * string := split_at_first (one_of "/?#").

Definition normalize_ipfs_path_address (input : string) : option string :=
  let path := default input (strip_prefix "/" input) in
  let lower := to_ascii_lowercase path in
  let matched :=
    if starts_with "ipfs/" lower then Some ("ipfs", str_drop 5 path)
    else if starts_with "ipns/" lower then Some ("ipns", str_drop 5 path)
    else None in
  match matched with
  | None => None
  | Some (scheme, rest) =>
      if is_empty rest || has_whitespace rest then None
      else if is_empty (fst (split_name rest)) then None
      else Some (scheme +:+ "://" +:+ rest)
  end.

Definition is_base58_byte (byte : ascii) : bool :=
  one_of "123456789ABCDEFGHJKLMNPQRSTUVWXYZabcdefghijkmnopqrstuvwxyz" byte.
Definition is_cidv0_like (input : string) : bool :=
  (str_len input =? 46) && starts_with "Qm" input && all_bytes is_base58_byte input.
Definition is_base32_byte (byte : ascii) : bool :=
  is_ascii_lowercase byte || in_range "2" "7" byte.
Definition is_cidv1_base32_like (input : string) : bool :=
  (32 <=? str_len input) && (starts_with "bafy" input || starts_with "bafk" input)
  && all_bytes is_base32_byte input.

Definition normalize_bare_ipfs_cid (input : string) : option string :=
  if is_cidv0_like input then Some ("ipfs://" +:+ input)
  else
    let lower := to_ascii_lowercase input in
    if is_cidv1_base32_like lower && all_bytes is_ascii_alphanumeric input
    then Some ("ipfs://" +:+ lower)
    else None.

(** The host of an onion address as its URL has it. *)
Definition onion_host (name : string) : string :=
  to_ascii_lowercase (trim_end_matches "." name).
(** A URL has a path before its query. *)
Definition with_root_path (rest : string) : string :=
  if is_empty rest then "/" else if starts_with "?" rest then "/" +:+ rest else rest.

Definition normalize_onion_address (input : string) : option string :=
  if has_whitespace input then None
  else
    let '(name, rest) := split_name input in
    if negb (is_onion_host name) then None
    else Some ("tor+http://" +:+ onion_host name +:+ with_root_path rest).

Definition normalize_http_onion_url (input : string) : option string :=
  let lower := to_ascii_lowercase input in
  let matched :=
    if starts_with "http://" lower then Some ("http", str_drop 7 input)
    else if starts_with "https://" lower then Some ("https", str_drop 8 input)
    else None in
  match matched with
  | None => None
  | Some (source_scheme, rest) =>
      let '(authority, after_authority) := split_name rest in
      if is_empty authority || str_contains "@" authority then None
      else
        let '(host, port) := default (authority, "") (split_once ":" authority) in
        if negb (is_onion_host host) then None
        else if negb (is_empty port) && negb (all_bytes is_ascii_digit port) then None
        else
          let suffix := match split_once "#" after_authority with
                        | Some (without_fragment, _) => without_fragment
                        | None => after_authority
                        end in
          Some ("tor+" +:+ source_scheme +:+ "://" +:+ onion_host host
                +:+ (if is_empty port then "" else ":" +:+ port) +:+ with_root_path suffix)
  end.

Definition looks_like_local_html_path (lower : string) : bool :=
  ends_with ".html" lower || ends_with ".htm" lower.

Definition percent_encode_file_path : string -> string :=
  percent_encode (fun byte => is_ascii_alphanumeric byte || one_of "/.-_~" byte).

Definition local_file_address (current_dir : option string) (input : string) : string :=
  let absolute :=
    if starts_with "/" input then input else path_join (default "." current_dir) input in
  "file://" +:+ percent_encode_file_path (from_utf8_lossy absolute).

(** Four segments of digits between dots. *)
Definition is_ipv4_like (input : string) : bool :=
  let segments := str_split "." input in
  forallb (fun segment => negb (is_empty segment) && all_bytes is_ascii_digit segment) segments
  && (length segments =? 4)%nat.

Definition looks_like_host (input : string) : bool :=
  negb (has_whitespace input)
  && (str_contains "." input || starts_with "localhost" input
      || match str_split ":" input with host :: _ => is_ipv4_like host | [] => false end).

Definition query_byte (byte : ascii) : bool :=
  is_ascii_alphanumeric byte || one_of "-_.~" byte.
Fixpoint encode_query_fuel (fuel : nat) (input : string) : string :=
  match fuel, input with
  | S fuel, String byte rest =>
      if query_byte byte then String byte (encode_query_fuel fuel rest)
      else match strip_whitespace_char input with
           | Some rest => String "+" (encode_query_fuel fuel rest)
           | None => percent_byte byte +:+ encode_query_fuel fuel rest
           end
  | _, _ => EmptyString
  end.
(** Each step consumes at least one byte, so the length is enough fuel. *)
Definition encode_query (input : string) : string := encode_query_fuel (String.length input) input.
Definition search_address (input : string) : string := "slate://search?q=" +:+ encode_query input.

Definition normalize_navigation_input (current_dir : option string) (input : string) :
    result NavigationError string :=
  let trimmed := trim input in
  if is_empty trimmed then Err EmptyInput
  else
    let lower := to_ascii_lowercase trimmed in
    match normalize_http_onion_url trimmed with
    | Some address => Ok address
    | None =>
    if is_http_url_with_onion_hint lower then Ok (search_address trimmed)
    else if has_supported_scheme lower then Ok trimmed
    else
    match normalize_ipfs_path_address trimmed with
    | Some address => Ok address
    | None =>
    match normalize_bare_ipfs_cid trimmed with
    | Some address => Ok address
    | None =>
    match normalize_onion_address trimmed with
    | Some address => Ok address
    | None =>
    if looks_like_local_html_path lower then Ok (local_file_address current_dir trimmed)
    else if str_contains "://" lower then Ok (search_address trimmed)
    else if looks_like_host trimmed
    then if starts_with "localhost" lower || str_contains ".i2p" lower
         then Ok ("http://" +:+ trimmed)
         else Ok ("https://" +:+ trimmed)
    else Ok (search_address trimmed)
    end end end end.

(** ** Applications of addresses *)

Definition slate_address_matches (address : string) (names : list string) : bool :=
  let route := match strip_prefix "slate://" address with
               | Some route => Some route
               | None => strip_prefix "slate:" address
               end in
  match route with
  | None => false
  | Some route =>
      let route := drop_leading "/" (fst (split_at_first (one_of "?#") route)) in
      let first_segment := fst (split_at_first (one_of "/") route) in
      existsb (str_eqb first_segment) names
  end.

Definition app_for_address (address : string) : AppId :=
  if slate_address_matches address ["calendar"] then Calendar
  else if slate_address_matches address ["downloads"] then Downloads
  else if slate_address_matches address ["chat"; "messages"] then Chat
  else if slate_address_matches address ["contacts"] then Contacts
  else if slate_address_matches address ["files"] then Files
  else if slate_address_matches address ["settings"] then Settings
  else Web.

Definition app_internal_address (app : AppId) : string :=
  match app with
  | Web => "slate://web" | Downloads => "slate://downloads" | Calendar => "slate://calendar"
  | Chat => "slate://chat" | Contacts => "slate://contacts" | Files => "slate://files"
  | Settings => "slate://settings"
  end.

(** ** The browser *)

Record BrowserTab := {
  tab_title : string;
  tab_address : string;
  tab_cached_surface : option RenderSurface
}.
Record BrowserStatus := { bs_privacy : string; bs_sync : string }.
Record BrowserState := {
  br_tabs : list BrowserTab;
  br_active_tab : nat;
  br_active_app : AppId;
  br_backend_name : string;
  br_surface : RenderSurface;
  br_status : BrowserStatus
}.

(** A tab that shows a surface. *)
Definition tab_of_surface (surface : RenderSurface) : BrowserTab :=
  {| tab_title := su_title surface; tab_address := su_address surface;
     tab_cached_surface := Some surface |}.

(** [BrowserState::new], from the name and the home of the backend. *)
Definition browser_new (backend_name : string) (surface : RenderSurface) : BrowserState :=
  {| br_tabs :=
       [tab_of_surface surface;
        {| tab_title := "Research"; tab_address := "https://servo.org";
           tab_cached_surface := None |}];
     br_active_tab := 0%nat; br_active_app := Web; br_backend_name := backend_name;
     br_surface := surface;
     br_status := {| bs_privacy := "Protected. Private. Yours."; bs_sync := "Sync On" |} |}.
Definition SERVO_BACKEND_NAME : string := "Servo engine".

Definition with_tabs (tabs : list BrowserTab) (active_tab : nat) (b : BrowserState) :
    BrowserState :=
  {| br_tabs := tabs; br_active_tab := active_tab; br_active_app := br_active_app b;
     br_backend_name := br_backend_name b; br_surface := br_surface b;
     br_status := br_status b |}.
Definition with_shown (app : AppId) (surface : RenderSurface) (b : BrowserState) : BrowserState :=
  {| br_tabs := br_tabs b; br_active_tab := br_active_tab b; br_active_app := app;
     br_backend_name := br_backend_name b; br_surface := surface; br_status := br_status b |}.

Definition active_tab (b : BrowserState) : option BrowserTab := br_tabs b !! br_active_tab b.

Definition set_active_surface (surface : RenderSurface) (b : BrowserState) : BrowserState :=
  let tab := tab_of_surface surface in
  let b := if decide (br_active_tab b < length (br_tabs b))%nat
           then with_tabs (<[br_active_tab b := tab]> (br_tabs b)) (br_active_tab b) b
           else with_tabs (br_tabs b ++ [tab]) (length (br_tabs b)) b in
  with_shown (app_for_address (su_address surface)) surface b.

Definition active_surface_needs_viewport (viewport : RenderViewport) (b : BrowserState) : bool :=
  match su_document (br_surface b) with
  | Home => false
  | WebDocument document =>
      match sd_status document with
      | RenderFailed _ => false
      | Rendered =>
          negb (fr_width (sd_frame document) =? vp_width viewport)
          || negb (fr_height (sd_frame document) =? vp_height viewport)
      end
  end.
Definition active_web_viewport_needs_refresh (viewport : RenderViewport) (b : BrowserState) :
    bool :=
  bool_decide (br_active_app b = Web) && active_surface_needs_viewport viewport b.

Section Commands.
Context {W E : Type} `{UrlCrate, DownloadIndexJson, ServoEngine E}.
Context (start_default_session : daemon_op (W:=W) (BroadwebDaemon W)).
Context (current_dir : option string).

(** Loading a surface, and a command on the browser. *)
Definition load_op : Type := RenderWorld W E -> RenderWorld W E * RenderSurface.
Definition browser_op (A : Type) : Type :=
  BrowserState * RenderWorld W E -> (BrowserState * RenderWorld W E) * A.

Definition surface_for_address_with_viewport (address : string) (fallback_title : option string)
    (viewport : RenderViewport) : load_op := fun w =>
  let '(w, surface) := load_address_with_viewport start_default_session address viewport w in
  let final_address := if str_eqb address "slate://new" then address else su_address surface in
  let title := match fallback_title with
               | Some title => if is_empty (su_title surface) then title else su_title surface
               | None => su_title surface
               end in
  (w, {| su_title := title; su_address := final_address; su_summary := su_summary surface;
         su_metrics := su_metrics surface; su_document := su_document surface |}).
Definition surface_for_address (address : string) (fallback_title : option string) : load_op :=
  surface_for_address_with_viewport address fallback_title default_viewport.
Definition surface_for_tab (tab : BrowserTab) : load_op :=
  surface_for_address (tab_address tab) (Some (tab_title tab)).
Definition surface_for_web_home : RenderSurface := load_home.

(** The surface of the active tab, loaded when it was not, and kept in the tab. *)
Definition cached_active_tab_surface : browser_op (option RenderSurface) := fun '(b, w) =>
  match active_tab b with
  | None => ((b, w), None)
  | Some tab =>
      let '(w, surface) := match tab_cached_surface tab with
                           | Some surface => (w, surface)
                           | None => surface_for_tab tab w
                           end in
      let tabs := <[br_active_tab b := tab_of_surface surface]> (br_tabs b) in
      ((with_tabs tabs (br_active_tab b) b, w), Some surface)
  end.

Definition open_active_tab_surface : browser_op unit := fun s =>
  match cached_active_tab_surface s with
  | ((b, w), Some surface) =>
      ((with_shown (app_for_address (su_address surface)) surface b, w), tt)
  | (s, None) => (s, tt)
  end.

Definition activate_tab (index : nat) : browser_op bool := fun '(b, w) =>
  if decide (length (br_tabs b) <= index)%nat then ((b, w), false)
  else
    let '(s, _) := open_active_tab_surface (with_tabs (br_tabs b) index b, w) in
    (s, true).

Definition add_mock_tab : browser_op unit := fun '(b, w) =>
  let number := Z.of_nat (length (br_tabs b)) + 1 in
  let tab := {| tab_title := "Tab " +:+ show number; tab_address := "slate://new";
                tab_cached_surface := None |} in
  let '(s, _) := activate_tab (length (br_tabs b))
                   (with_tabs (br_tabs b ++ [tab]) (br_active_tab b) b, w) in
  (s, tt).

Definition select_app_with_surface_loader (app : AppId)
    (load_surface : string -> option string -> load_op) : browser_op unit := fun '(b, w) =>
  let b := with_shown app (br_surface b) b in
  match app with
  | Web =>
      let '((b, w), surface) := cached_active_tab_surface (b, w) in
      ((with_shown app (default surface_for_web_home surface) b, w), tt)
  | _ =>
      let '(w, surface) := load_surface (app_internal_address app) None w in
      ((with_shown app surface b, w), tt)
  end.
Definition select_app (app : AppId) : browser_op unit :=
  select_app_with_surface_loader app surface_for_address.

Definition navigate_with_surface_loader (input : string) (viewport : RenderViewport)
    (load_surface : string -> option string -> RenderViewport -> load_op) :
    browser_op (result NavigationError unit) := fun '(b, w) =>
  match normalize_navigation_input current_dir input with
  | Err e => ((b, w), Err e)
  | Ok address =>
      let '(w, surface) := load_surface address None viewport w in
      ((set_active_surface surface b, w), Ok tt)
  end.
Definition navigate_with_viewport (input : string) (viewport : RenderViewport) :
    browser_op (result NavigationError unit) :=
  navigate_with_surface_loader input viewport surface_for_address_with_viewport.
Definition navigate (input : string) : browser_op (result NavigationError unit) :=
  navigate_with_viewport input default_viewport.

Definition refresh_active_web_viewport (viewport : RenderViewport)
    (load_surface : string -> option string -> RenderViewport -> load_op) : browser_op bool :=
  fun '(b, w) =>
  if negb (active_web_viewport_needs_refresh viewport b) then ((b, w), false)
  else
    match active_tab b with
    | None => ((b, w), false)
    | Some tab =>
        let '(w, surface) := load_surface (tab_address tab) (Some (tab_title tab)) viewport w in
        ((set_active_surface surface b, w), true)
    end.
Definition ensure_active_web_viewport (viewport : RenderViewport) : browser_op bool :=
  refresh_active_web_viewport viewport surface_for_address_with_viewport.

(** ** Commands of a person *)

Inductive BrowserCommand :=
  | ActivateTab (index : nat)
  | SelectApp (app : AppId)
  | AddTab
  | Navigate (input : string) (viewport : RenderViewport)
  | EnsureViewport (viewport : RenderViewport).

Definition run_command (c : BrowserCommand) (s : BrowserState * RenderWorld W E) :
    BrowserState * RenderWorld W E :=
  match c with
  | ActivateTab index => fst (activate_tab index s)
  | SelectApp app => fst (select_app app s)
  | AddTab => fst (add_mock_tab s)
  | Navigate input viewport => fst (navigate_with_viewport input viewport s)
  | EnsureViewport viewport => fst (ensure_active_web_viewport viewport s)
  end.
Definition run_commands (s : BrowserState * RenderWorld W E) (cs : list BrowserCommand) :
    BrowserState * RenderWorld W E :=
  fold_left (fun s c => run_command c s) cs s.
End Commands.
