(* ===== verification/AddressLaws.v ===== *)
(** * Typed addresses

    What the text of the address bar becomes: the examples of the program's tests, and that
    an onion name is always turned into an address of the Tor transport. *)
From S2P Require Import Prelude RustStr Http Tor BrowserCore StrLaws.

Example typed_addresses :
  map (normalize_navigation_input None)
    ["servo.org"; "localhost:8080"; "example.onion"; "example.onion/docs?a=1";
     "http://Example.Onion:8080/docs#client"; "https://example.onion/secure";
     "http://user@example.onion/"; "/ipfs/bafybeigdyrzt/index.html?view=1#top";
     "ipns/example.net/docs"; "QmUKwop8CmB4ictvQyCJQru97NRVakJFVWpV74guJ89tcb"; "/ipfs/";
     "ipns/example docs"; " bafy short "; "file:///tmp/page.html"; "page one.HTML";
     "127.0.0.1:80"; "example.onion:8080"; "  "]
  = map Ok
    ["https://servo.org"; "http://localhost:8080"; "tor+http://example.onion/";
     "tor+http://example.onion/docs?a=1"; "tor+http://example.onion:8080/docs";
     "tor+https://example.onion/secure";
     "slate://search?q=http%3A%2F%2Fuser%40example.onion%2F";
     "ipfs://bafybeigdyrzt/index.html?view=1#top"; "ipns://example.net/docs";
     "ipfs://QmUKwop8CmB4ictvQyCJQru97NRVakJFVWpV74guJ89tcb"; "slate://search?q=%2Fipfs%2F";
     "slate://search?q=ipns%2Fexample+docs"; "slate://search?q=bafy+short";
     "file:///tmp/page.html"; "file://./page%20one.HTML"; "https://127.0.0.1:80";
     "https://example.onion:8080"] ++ [Err EmptyInput].
Proof. vm_compute. reflexivity. Qed.

(** ** Bytes *)

Lemma all_bytes_map p f s : all_bytes p (str_map f s) = all_bytes (fun c => p (f c)) s.
Proof. induction s as [|c s IH]; [done|]. cbn. by rewrite IH. Qed.

Lemma str_map_app f a b : str_map f (a +:+ b) = str_map f a +:+ str_map f b.
Proof.
  induction a as [|c a IH]; [done|]. rewrite str_cons_app. cbn [str_map].
  by rewrite IH, str_cons_app.
Qed.

Lemma all_bytes_drop_leading_inv (p : ascii -> bool) c s :
  p c = true -> all_bytes p (drop_leading c s) = true -> all_bytes p s = true.
Proof.
  intros Hc. induction s as [|d s IH]; [done|]. cbn [drop_leading].
  destruct (Ascii.eqb_spec d c) as [->|]; [|done]. intros Hs. cbn. by rewrite Hc, IH.
Qed.

Lemma all_bytes_trim_end (p : ascii -> bool) c s :
  p c = true -> all_bytes p (trim_end_matches c s) = true -> all_bytes p s = true.
Proof.
  unfold trim_end_matches. rewrite all_bytes_rev. intros Hc Hs.
  rewrite <-all_bytes_rev. by eapply all_bytes_drop_leading_inv.
Qed.

Lemma all_bytes_labels (p : ascii -> bool) sep s :
  forallb (all_bytes p) (str_split sep s) = true ->
  all_bytes (fun c => p c || Ascii.eqb c sep) s = true.
Proof.
  induction s as [|c s IH]; [done|]. cbn [str_split all_bytes].
  destruct (Ascii.eqb_spec c sep) as [->|Hc].
  - cbn. intros Hs. by rewrite orb_true_r, IH.
  - destruct (str_split sep s) as [|h t] eqn:E; [by destruct (str_split_nonempty sep s)|].
    cbn. rewrite <-andb_assoc. intros [-> Hs]%andb_prop. by apply IH.
Qed.

Lemma strip_suffix_Some p s rest : strip_suffix p s = Some rest -> s = rest +:+ p.
Proof.
  unfold strip_suffix. destruct (strip_prefix (str_rev p) (str_rev s)) as [r|] eqn:E; [|done].
  cbn. intros [= <-]. apply strip_prefix_Some in E.
  by rewrite <-(str_rev_rev s), E, str_rev_app, str_rev_rev.
Qed.

(** A text starts with a byte of [p], or is empty. *)
Definition at_boundary (p : ascii -> bool) (s : string) : Prop :=
  match s with EmptyString => True | String c _ => p c = true end.

Lemma split_at_first_app p a b :
  all_bytes (fun c => negb (p c)) a = true -> at_boundary p b ->
  split_at_first p (a +:+ b) = (a, b).
Proof.
  intros Ha Hb. induction a as [|c a IH].
  - change ("" +:+ b) with b. destruct b as [|c b]; [done|]. cbn in *. by rewrite Hb.
  - rewrite str_cons_app. cbn in *. apply andb_prop in Ha as [Hc%negb_true_iff Ha].
    by rewrite Hc, (IH Ha).
Qed.

(** ** White space *)

Lemma has_whitespace_suffix a b : has_whitespace (a +:+ b) = false -> has_whitespace b = false.
Proof.
  induction a as [|c a IH]; [done|]. rewrite str_cons_app. cbn [has_whitespace].
  by destruct (strip_whitespace_char _).
Qed.

Lemma trim_start_id s : has_whitespace s = false -> trim_start s = s.
Proof.
  destruct s as [|c s]; [done|]. unfold trim_start. cbn [has_whitespace String.length].
  intros Hs. cbn [trim_start_fuel]. by destruct (strip_whitespace_char (String c s)).
Qed.

Lemma trim_end_id s : has_whitespace s = false -> trim_end s = s.
Proof.
  intros Hs. unfold trim_end. destruct (String.length s) as [|n]; [done|]. cbn [trim_end_fuel].
  unfold strip_whitespace_char_end.
  destruct (list_find_bool _ whitespace_chars) as [w|] eqn:Hw; [|done].
  destruct (strip_suffix w s) as [rest|] eqn:E; [|done]. exfalso.
  apply list_find_bool_Some in Hw as [Hin%list_elem_of_In _].
  apply strip_suffix_Some in E as ->. apply has_whitespace_suffix in Hs.
  assert (forallb has_whitespace whitespace_chars = true) as Hall by (vm_compute; done).
  rewrite forallb_forall in Hall. by rewrite (Hall w Hin) in Hs.
Qed.

Lemma trim_id s : has_whitespace s = false -> trim s = s.
Proof. intros Hs. unfold trim. by rewrite trim_start_id, trim_end_id. Qed.

(** ** Onion names *)

(** The onion names: labels of lower-case letters, digits and dashes before [.onion], in any
    case and with the dots of a full name. *)
Definition onion_label (label : string) : Prop :=
  label <> "" /\
  Forall (fun c => In c (list_ascii_of_string "abcdefghijklmnopqrstuvwxyz0123456789-"))
    (list_ascii_of_string label).
Definition onion_hostname (host : string) : Prop :=
  exists labels, labels <> [] /\ Forall onion_label labels /\
    to_ascii_lowercase (trim_end_matches "." host) = str_join "." labels +:+ ".onion".

Lemma onion_label_byte_In c :
  onion_label_byte c = true <->
  In c (list_ascii_of_string "abcdefghijklmnopqrstuvwxyz0123456789-").
Proof.
  rewrite <- list_elem_of_In.
  enough (onion_label_byte c
          = bool_decide (c ∈ list_ascii_of_string "abcdefghijklmnopqrstuvwxyz0123456789-"))
    as -> by apply bool_decide_eq_true.
  destruct c as [[] [] [] [] [] [] [] []]; vm_compute; reflexivity.
Qed.

Lemma onion_label_spec label :
  onion_label label <-> negb (is_empty label) && all_bytes onion_label_byte label = true.
Proof.
  unfold onion_label. rewrite andb_true_iff, negb_true_iff.
  assert (label <> "" <-> is_empty label = false) as -> by by destruct label.
  apply and_iff_compat_l. induction label as [|c label IH]; cbn; [by split|].
  by rewrite Forall_cons, IH, andb_true_iff, onion_label_byte_In.
Qed.

(** The code's test is the definition. *)
Lemma is_onion_host_spec host : is_onion_host host = true <-> onion_hostname host.
Proof.
  unfold is_onion_host. split.
  - destruct (strip_suffix ".onion" _) as [name|] eqn:E; [|done].
    apply strip_suffix_Some in E. intros [_ Hl]%andb_prop. exists (str_split "." name).
    rewrite str_join_split. split_and!; [apply str_split_nonempty| |exact E].
    apply Forall_forall. intros label Hin%list_elem_of_In.
    rewrite forallb_forall in Hl. by apply onion_label_spec, Hl.
  - intros (labels & Hne & Hl & ->). rewrite strip_suffix_app.
    rewrite (str_split_join "." labels Hne).
    + apply andb_true_iff. split.
      * destruct Hl as [|label labels [Hlabel _] _]; [done|].
        destruct labels; [by destruct label|]. rewrite str_join_cons. by destruct label.
      * apply forallb_forall. intros label Hin%list_elem_of_In.
        rewrite Forall_forall in Hl. by apply onion_label_spec, Hl.
    + eapply Forall_impl; [exact Hl|]. intros label [_ Hb]%onion_label_spec%andb_prop.
      by eapply all_bytes_impl; [|exact Hb]; intros [[] [] [] [] [] [] [] []].
Qed.

Definition onion_byte (c : ascii) : bool := onion_label_byte c || Ascii.eqb c ".".

(** The bytes of an onion name, and that it has a dot. *)
Lemma onion_name name :
  is_onion_host name = true ->
  all_bytes (fun c => onion_byte (byte_to_ascii_lowercase c)) name = true /\
  all_bytes (fun c => negb (Ascii.eqb c ".")) (to_ascii_lowercase name) = false.
Proof.
  unfold is_onion_host.
  destruct (strip_suffix ".onion" _) as [n|] eqn:E; [|done]. apply strip_suffix_Some in E.
  intros [_ Hlabels]%andb_prop.
  assert (all_bytes onion_byte n = true) as Hn.
  { apply (all_bytes_labels _ "."). rewrite forallb_forall in Hlabels |- *.
    intros label Hin. by destruct (andb_prop _ _ (Hlabels label Hin)). }
  unfold to_ascii_lowercase in *. split.
  - apply (all_bytes_trim_end _ "."); [done|]. rewrite <-all_bytes_map, E, all_bytes_app, Hn.
    done.
  - destruct (trim_end_matches_spec "." name) as [m Hm]. rewrite Hm, str_map_app, E.
    rewrite !all_bytes_app. cbn. by rewrite andb_false_r.
Qed.

(** ** A name, and a path, a query or a fragment *)

Section Typed.
Context (name rest : string).
Context (Hname : is_onion_host name = true) (Hrest : at_boundary (one_of "/?#") rest).

#[local] Definition typed : string := name +:+ rest.

Lemma not_separator c : onion_byte c = true -> negb (one_of ":/?#" c) = true.
Proof. destruct c as [[] [] [] [] [] [] [] []]; vm_compute; congruence. Qed.

Lemma name_no_separator :
  all_bytes (fun c => negb (one_of ":/?#" c)) (to_ascii_lowercase name) = true.
Proof.
  unfold to_ascii_lowercase. rewrite all_bytes_map. destruct (onion_name _ Hname) as [Hbytes _].
  revert Hbytes. apply all_bytes_impl. intros c. apply not_separator.
Qed.

Lemma rest_boundary : at_boundary (one_of ":/?#") (to_ascii_lowercase rest).
Proof.
  revert Hrest. clear. destruct rest as [|c s]; [done|]. cbn.
  destruct c as [[] [] [] [] [] [] [] []]; vm_compute; congruence.
Qed.

Lemma typed_split :
  split_at_first (one_of ":/?#") (to_ascii_lowercase typed)
  = (to_ascii_lowercase name, to_ascii_lowercase rest).
Proof.
  unfold typed, to_ascii_lowercase at 1. rewrite str_map_app.
  exact (split_at_first_app _ _ _ name_no_separator rest_boundary).
Qed.

(** A scheme ends with a colon, which comes before no path. *)
Lemma no_scheme x y :
  all_bytes (fun c => negb (one_of ":/?#" c)) x = true ->
  starts_with (x +:+ String ":" y) (to_ascii_lowercase typed) = false.
Proof.
  intros Hx. destruct (starts_with _ _) eqn:E; [|done]. exfalso.
  apply starts_with_spec in E as [r Hr]. rewrite str_app_assoc in Hr.
  apply (f_equal (split_at_first (one_of ":/?#"))) in Hr. rewrite typed_split in Hr.
  rewrite split_at_first_app in Hr by done. injection Hr as _ Hr.
  revert Hrest. clear - Hr. destruct rest as [|c s]; [done|]. cbn in *.
  injection Hr as Hc _. destruct c as [[] [] [] [] [] [] [] []]; vm_compute in Hc |- *; congruence.
Qed.

Lemma typed_no_scheme :
  has_supported_scheme (to_ascii_lowercase typed) = false /\
  starts_with "http://" (to_ascii_lowercase typed) = false /\
  starts_with "https://" (to_ascii_lowercase typed) = false.
Proof.
  pose proof (fun x y Hx => no_scheme x y Hx) as Hno. split_and!.
  - unfold has_supported_scheme. repeat apply orb_false_intro.
    + exact (Hno "slate" "//" eq_refl).
    + exact (Hno "https" "//" eq_refl).
    + exact (Hno "http" "//" eq_refl).
    + exact (Hno "tor+http" "//" eq_refl).
    + exact (Hno "tor+https" "//" eq_refl).
    + exact (Hno "ipfs" "//" eq_refl).
    + exact (Hno "ipns" "//" eq_refl).
    + exact (Hno "i2p" "//" eq_refl).
    + exact (Hno "gemini" "//" eq_refl).
    + exact (Hno "magnet" "" eq_refl).
    + exact (Hno "file" "//" eq_refl).
  - exact (Hno "http" "//" eq_refl).
  - exact (Hno "https" "//" eq_refl).
Qed.

(** The first segment of a path is no onion name without a dot. *)
Lemma no_path_prefix x y :
  all_bytes (fun c => negb (one_of ":/?#" c) && negb (Ascii.eqb c ".")) x = true ->
  starts_with (x +:+ String "/" y) (to_ascii_lowercase typed) = false.
Proof.
  intros Hx. destruct (starts_with _ _) eqn:E; [|done]. exfalso.
  apply starts_with_spec in E as [r Hr]. rewrite str_app_assoc in Hr.
  apply (f_equal (split_at_first (one_of ":/?#"))) in Hr. rewrite typed_split in Hr.
  rewrite split_at_first_app in Hr;
    [|revert Hx; apply all_bytes_impl; by intros c [? ?]%andb_prop|done].
  injection Hr as Hr _. destruct (onion_name _ Hname) as [_ Hdot].
  rewrite Hr in Hdot.
  assert (all_bytes (fun c => negb (Ascii.eqb c ".")) x = true) as Hx'
    by (revert Hx; apply all_bytes_impl; by intros c [? ?]%andb_prop).
  by rewrite Hx' in Hdot.
Qed.

Lemma name_not_empty : exists c s, name = String c s /\ Ascii.eqb c "/" = false.
Proof.
  destruct (onion_name _ Hname) as [Hbytes Hdot]. destruct name as [|c s]; [done|].
  exists c, s. split; [done|]. cbn in Hbytes. apply andb_prop in Hbytes as [Hc _].
  revert Hc. clear. destruct c as [[] [] [] [] [] [] [] []]; vm_compute; congruence.
Qed.

Lemma typed_not_bytes (p : ascii -> bool) :
  (forall c, p c = true -> negb (Ascii.eqb (byte_to_ascii_lowercase c) ".") = true) ->
  all_bytes p typed = false.
Proof.
  intros Hp. unfold typed. rewrite all_bytes_app. destruct (onion_name _ Hname) as [_ Hdot].
  destruct (all_bytes p name) eqn:E; [|done]. exfalso.
  apply (all_bytes_impl _ _ _ Hp) in E. unfold to_ascii_lowercase in Hdot.
  by rewrite all_bytes_map, E in Hdot.
Qed.

Lemma typed_no_ipfs :
  normalize_ipfs_path_address typed = None /\ normalize_bare_ipfs_cid typed = None.
Proof.
  split.
  - unfold normalize_ipfs_path_address.
    assert (strip_prefix "/" typed = None) as ->.
    { destruct (strip_prefix "/" typed) as [path|] eqn:E; [|done].
      apply strip_prefix_Some in E. destruct name_not_empty as (c & s & Hn & Hc).
      unfold typed in E. rewrite Hn, str_cons_app in E. by injection E as ->. }
    cbn [default]. rewrite (no_path_prefix "ipfs" "" eq_refl : starts_with "ipfs/" _ = false).
    by rewrite (no_path_prefix "ipns" "" eq_refl : starts_with "ipns/" _ = false).
  - unfold normalize_bare_ipfs_cid, is_cidv0_like.
    rewrite (typed_not_bytes is_base58_byte), (typed_not_bytes is_ascii_alphanumeric).
    + by rewrite !andb_false_r.
    + intros c. destruct c as [[] [] [] [] [] [] [] []]; vm_compute; congruence.
    + intros c. destruct c as [[] [] [] [] [] [] [] []]; vm_compute; congruence.
Qed.
End Typed.

(** An onion name typed alone or with a path, a query or a fragment is an address of the Tor
    transport: the name in lower case without the dots at its end, and what came after it. *)
Theorem typed_onion_in_tor current_dir name rest :
  is_onion_host name = true -> at_boundary (one_of "/?#") rest ->
  has_whitespace (name +:+ rest) = false ->
  normalize_navigation_input current_dir (name +:+ rest)
  = Ok ("tor+http://" +:+ onion_host name +:+ with_root_path rest).
Proof.
  intros Hname Hrest Hws. unfold normalize_navigation_input. rewrite (trim_id _ Hws).
  destruct (name_not_empty name Hname) as (c & s & Hcons & _).
  assert (is_empty (name +:+ rest) = false) as -> by (by rewrite Hcons, str_cons_app).
  destruct (typed_no_scheme name rest Hname Hrest) as (Hscheme & Hhttp & Hhttps).
  destruct (typed_no_ipfs name rest Hname Hrest) as [Hpath Hcid].
  unfold typed in *. unfold normalize_http_onion_url, is_http_url_with_onion_hint.
  rewrite Hhttp, Hhttps. cbn [orb andb]. rewrite Hscheme, Hpath, Hcid.
  unfold normalize_onion_address, split_name. rewrite Hws.
  rewrite split_at_first_app; [by rewrite Hname| |done].
  destruct (onion_name _ Hname) as [Hbytes _]. revert Hbytes. apply all_bytes_impl. clear.
  intros c. destruct c as [[] [] [] [] [] [] [] []]; vm_compute; congruence.
Qed.

Lemma typed_onion_in_tor_witness :
  normalize_navigation_input (Some "/home/user") "Example.onion.?q=1"
  = Ok "tor+http://example.onion/?q=1".
Proof.
  exact (typed_onion_in_tor (Some "/home/user") "Example.onion." "?q=1" eq_refl eq_refl eq_refl).
Defined.
