(* ===== verification/BrowserLaws.v ===== *)
(** * What navigating does

    The tabs stay consistent with what is shown, and whatever the commands, the world only
    changes by loads that are contained: Servo is handed Slate's own pages, the documents the
    daemon fetched, and addresses of a few schemes without a private name; the daemon is
    asked for addresses of its own services and for web addresses without a private name. *)
From S2P Require Import Prelude RustStr Broadwebd Http Downloads Daemon Tor Rendering Protocols.
From S2P Require Import StrLaws UrlReference BrowserCore.

(** ** Schemes *)

Section Schemes.
Context `{UrlCrate}.

(** The address parses, with one of the schemes. *)
Definition of_scheme (schemes : list string) (address : string) : Prop :=
  exists url, url_parse address = Ok url /\ In (url_scheme url) schemes.

(** The address has the text somewhere, in any case. *)
Definition mentions (text address : string) : Prop :=
  exists a b, to_ascii_lowercase address = a +:+ text +:+ b.
Definition private_name (address : string) : Prop :=
  mentions ".onion" address \/ mentions ".i2p" address.

Lemma has_scheme_spec schemes address :
  has_scheme schemes address = true <-> of_scheme schemes address.
Proof.
  unfold has_scheme, of_scheme. destruct (url_parse address) as [url|e].
  - rewrite existsb_exists. split.
    + intros (scheme & Hin & Heq%str_eqb_eq). exists url. by rewrite Heq.
    + intros (url' & [= <-] & Hin). exists (url_scheme url). split; [done|apply str_eqb_refl].
  - by split; [|intros (? & ? & _)].
Qed.

Lemma has_private_name address :
  requires_private_network_host_adapter address = true <-> private_name address.
Proof.
  unfold requires_private_network_host_adapter, private_name, mentions.
  by rewrite orb_true_iff, !str_contains_spec.
Qed.

(** The addresses Servo may be handed as they are. *)
Definition servo_contained (address : string) : Prop :=
  of_scheme ["file"; "data"; "about"; "i2p"; "gemini"; "magnet"] address /\
  ~ private_name address.

(** What the daemon may be asked for: an address of one of its services, or a web address
    without a private name. *)
Definition daemon_contained (address : string) : Prop :=
  of_scheme ["ipfs"; "ipns"; "tor+http"; "tor+https"] address \/
  (of_scheme ["http"; "https"] address /\ ~ private_name address).

(** The pages Slate makes up itself. *)
Inductive slate_page : string -> Prop :=
  | test_page address : slate_page (builtin_test_html address)
  | search_page address : slate_page (search_html address)
  | internal_page address : slate_page (internal_html address)
  | error_page title heading details : slate_page (render_error_html title heading details).

(** The page shown for what the daemon answered: the document itself with its base address,
    or what Slate says of a download and of an error status. *)
Definition fetched_page (address : string) (response : HttpFetchResponse) : string :=
  match hr_disposition response with
  | RenderHtml =>
      broadweb_html_with_document_base (broadweb_document_base_address address response)
        (body_text_lossy response)
  | Download suggested_filename =>
      download_ready_html (hr_final_url response) (hr_content_type response)
        suggested_filename (hr_download response)
  | ErrorPage status_code => broadweb_response_error_html address status_code response
  end.
End Schemes.

Section Laws.
Context {W E : Type} `{UrlCrate, DownloadIndexJson, ServoEngine E}.
Context (start_default_session : daemon_op (W:=W) (BroadwebDaemon W)).
Context (current_dir : option string).

Abbreviation fetch := (fetch_with_default_broadwebd (E:=E) start_default_session).
Abbreviation World := (RenderWorld W E).

(** One load of a page: Slate's own; a fetch and the page of its outcome; an address Servo
    loads itself. *)
Inductive world_step : World -> World -> Prop :=
  | own_page html display source viewport w :
      slate_page html ->
      world_step w (fst (render_servo_url display (data_html_url html) source viewport w))
  | page_fetched address display source viewport w w1 response :
      daemon_contained address ->
      fetch (default_profile_request address) w = (w1, Ok response) ->
      world_step w (fst (render_servo_url display
                           (data_html_url (fetched_page address response)) source viewport w1))
  | fetch_failed address html display source viewport w w1 error :
      daemon_contained address ->
      fetch (default_profile_request address) w = (w1, Err error) -> slate_page html ->
      world_step w (fst (render_servo_url display (data_html_url html) source viewport w1))
  | address_opened address display source viewport w :
      servo_contained address ->
      world_step w (fst (render_servo_url display address source viewport w)).

(** A load that changes the world by such steps only. *)
Definition contained {A} (m : World -> World * A) : Prop :=
  forall w, rtc world_step w (fst (m w)).

Lemma contained_page address html source viewport :
  slate_page html -> contained (render_html_with_viewport address html source viewport).
Proof. intros Hhtml w. by apply rtc_once, own_page. Qed.

Lemma contained_error address title heading details source viewport :
  contained (render_error_with_viewport address title heading details source viewport).
Proof. apply contained_page, error_page. Qed.

Lemma contained_servo display address source viewport :
  servo_contained address -> contained (render_servo_url display address source viewport).
Proof. intros Ha w. by apply rtc_once, address_opened. Qed.

Lemma contained_fetch address source viewport :
  daemon_contained address ->
  contained (render_broadwebd_fetch start_default_session address
               (default_profile_request address) source viewport).
Proof.
  intros Ha w. unfold render_broadwebd_fetch.
  destruct (fetch _ w) as [w1 [response|error]] eqn:Hfetch; apply rtc_once.
  - pose proof (fun source => page_fetched address address source viewport w w1 response Ha Hfetch)
      as Hpage.
    unfold render_broadwebd_response, with_route_metrics. unfold fetched_page in Hpage.
    destruct (hr_disposition response);
      match goal with |- context [render_html_with_viewport _ _ ?s _ _] =>
        specialize (Hpage s) end;
      unfold render_html_with_viewport in *;
      by destruct (render_servo_url _ _ _ _ w1) as [w2 surface].
  - eapply fetch_failed; [done..|]. apply error_page.
Qed.

#[local] Create HintDb contained.
#[local] Hint Resolve contained_page contained_error contained_servo contained_fetch : contained.
#[local] Hint Constructors slate_page : contained.

(** What the tests of [load_address_with_viewport] leave for Servo. *)
Lemma opened_schemes schemes address :
  forallb (fun scheme => existsb (str_eqb scheme) ["ipfs"; "ipns"; "tor+http"; "tor+https"]
                         || existsb (str_eqb scheme) ["http"; "https"]
                         || existsb (str_eqb scheme)
                              ["file"; "data"; "about"; "i2p"; "gemini"; "magnet"]) schemes = true ->
  has_scheme ["ipfs"; "ipns"; "tor+http"; "tor+https"] address = false ->
  has_scheme ["http"; "https"] address = false ->
  has_scheme schemes address = true ->
  of_scheme ["file"; "data"; "about"; "i2p"; "gemini"; "magnet"] address.
Proof.
  intros Hall. rewrite <- has_scheme_spec. unfold has_scheme.
  destruct (url_parse address) as [url|e]; [|done]. intros Hd Hh Hs.
  apply existsb_exists in Hs as (scheme & Hin & Heq%str_eqb_eq).
  rewrite forallb_forall in Hall. specialize (Hall scheme Hin). rewrite <- Heq in Hall.
  by rewrite Hd, Hh in Hall.
Qed.

Lemma load_address_contained address viewport :
  contained (load_address_with_viewport start_default_session address viewport).
Proof.
  unfold load_address_with_viewport.
  destruct (str_eqb _ _ || str_eqb _ _); [by intros w|].
  do 3 (destruct (starts_with _ address); [auto with contained|]).
  destruct (has_broadwebd_service_scheme address) eqn:Hd.
  { apply contained_fetch. left. by apply has_scheme_spec. }
  destruct (requires_private_network_host_adapter address) eqn:Hp; [auto with contained|].
  assert (~ private_name address) as Hprivate by by rewrite <- has_private_name, Hp.
  destruct (has_http_service_scheme address) eqn:Hh.
  { destruct (has_broadweb_scheme address) eqn:Hb.
    - exfalso. apply has_scheme_spec in Hb as (url & Hurl & Hb), Hh as (url' & Hurl' & Hh).
      rewrite Hurl in Hurl'. injection Hurl' as <-.
      by destruct Hh as [Hh|[Hh|[]]]; rewrite <- Hh in Hb; repeat destruct Hb as [Hb|Hb].
    - apply contained_fetch. right. split; [by apply has_scheme_spec|done]. }
  destruct (has_broadweb_scheme address) eqn:Hb.
  { apply contained_servo. split; [|done]. by eapply opened_schemes; [|exact Hd|exact Hh|exact Hb]. }
  destruct (has_servo_supported_scheme address) eqn:Hs; [|auto with contained].
  apply contained_servo. split; [|done]. by eapply opened_schemes; [|exact Hd|exact Hh|exact Hs].
Qed.

Lemma surface_contained address title viewport :
  contained (surface_for_address_with_viewport start_default_session address title viewport).
Proof.
  intros w. unfold surface_for_address_with_viewport.
  pose proof (load_address_contained address viewport w) as Hload.
  by destruct (load_address_with_viewport _ address viewport w) as [w' surface].
Qed.

(** ** The tabs *)

Definition tab_ok (tab : BrowserTab) : Prop :=
  forall surface, tab_cached_surface tab = Some surface -> tab = tab_of_surface surface.

(** The active tab exists, a tab is titled as the surface it keeps, and the application for
    pages shows the surface of the active tab. *)
Record browser_ok (b : BrowserState) : Prop := {
  active_in_range : (br_active_tab b < length (br_tabs b))%nat;
  tabs_ok : Forall tab_ok (br_tabs b);
  web_shows_tab : br_active_app b = Web -> active_tab b = Some (tab_of_surface (br_surface b))
}.

(** The invariant but for the surface shown. *)
Definition tabs_consistent (b : BrowserState) : Prop :=
  (br_active_tab b < length (br_tabs b))%nat /\ Forall tab_ok (br_tabs b).

Lemma tab_of_surface_ok surface : tab_ok (tab_of_surface surface).
Proof. by intros s [= ->]. Qed.
Lemma unloaded_tab_ok title address :
  tab_ok {| tab_title := title; tab_address := address; tab_cached_surface := None |}.
Proof. done. Qed.
#[local] Hint Resolve tab_of_surface_ok unloaded_tab_ok : core.

Lemma browser_new_ok name surface : browser_ok (browser_new name surface).
Proof. split; cbn; [lia|auto|done]. Qed.

Lemma shown_tab_ok app surface b :
  tabs_consistent b -> active_tab b = Some (tab_of_surface surface) ->
  browser_ok (with_shown app surface b).
Proof. intros [Hactive Htabs] Htab. by split. Qed.

Lemma set_active_surface_ok surface b :
  tabs_consistent b -> browser_ok (set_active_surface surface b).
Proof.
  intros [Hactive Htabs]. unfold set_active_surface. rewrite decide_True by done.
  apply shown_tab_ok.
  - split; cbn; [by rewrite length_insert|]. by apply Forall_insert.
  - unfold active_tab; cbn. by apply list_lookup_insert_eq.
Qed.

(** A command keeps the invariant, and changes the world by contained loads. *)
Definition keeps {A} (P Q : BrowserState -> Prop)
    (m : BrowserState * World -> (BrowserState * World) * A) : Prop :=
  forall b w, P b -> Q (fst (m (b, w))).1 /\ rtc world_step w (fst (m (b, w))).2.

Lemma cached_tab_ok b w :
  tabs_consistent b ->
  exists b' w' surface,
    cached_active_tab_surface start_default_session (b, w) = ((b', w'), Some surface) /\
    tabs_consistent b' /\ active_tab b' = Some (tab_of_surface surface) /\
    rtc world_step w w'.
Proof.
  intros [Hactive Htabs]. unfold cached_active_tab_surface.
  destruct (active_tab b) as [tab|] eqn:Htab.
  2:{ apply lookup_ge_None in Htab. lia. }
  assert (rtc world_step w (fst (match tab_cached_surface tab with
            | Some surface => (w, surface)
            | None => surface_for_tab start_default_session tab w end))) as Hw.
  { destruct (tab_cached_surface tab); [done|]. apply surface_contained. }
  destruct (match tab_cached_surface tab with Some _ => _ | None => _ end) as [w' surface].
  eexists _, _, _. split_and!; [reflexivity|..|exact Hw].
  - split; cbn; [by rewrite length_insert|]. by apply Forall_insert.
  - unfold active_tab; cbn. by apply list_lookup_insert_eq.
Qed.

Lemma open_tab_keeps :
  keeps tabs_consistent browser_ok (open_active_tab_surface start_default_session).
Proof.
  intros b w Hb. unfold open_active_tab_surface.
  destruct (cached_tab_ok b w Hb) as (b' & w' & surface & -> & Hb' & Htab & Hw).
  split; [by apply shown_tab_ok|done].
Qed.

Lemma ok_consistent b : browser_ok b -> tabs_consistent b.
Proof. by intros [??]. Qed.

Lemma with_tabs_consistent tabs active b :
  (active < length tabs)%nat -> Forall tab_ok tabs -> tabs_consistent (with_tabs tabs active b).
Proof. by split. Qed.

Lemma activate_tab_keeps index P :
  (forall b, P b -> tabs_consistent b) ->
  (forall b, P b -> (length (br_tabs b) <= index)%nat -> browser_ok b) ->
  keeps P browser_ok (activate_tab start_default_session index).
Proof.
  intros HP Hout b w Hb. unfold activate_tab. destruct (decide _) as [Hle|Hlt]; [by split; auto|].
  assert (tabs_consistent (with_tabs (br_tabs b) index b)) as Hc.
  { destruct (HP b Hb). apply with_tabs_consistent; [lia|done]. }
  pose proof (open_tab_keeps _ w Hc) as Hopen.
  by destruct (open_active_tab_surface _ _) as [s' u].
Qed.

Lemma add_tab_keeps : keeps browser_ok browser_ok (add_mock_tab start_default_session).
Proof.
  intros b w [Hactive Htabs _]. unfold add_mock_tab.
  set (b1 := with_tabs _ _ b).
  destruct (activate_tab_keeps (length (br_tabs b)) (fun b => b = b1)) with (b := b1) (w := w)
    as [Hb Hw]; [..|done|].
  - intros b' ->. apply with_tabs_consistent; [rewrite length_app; cbn; lia|].
    apply Forall_app. auto.
  - intros b' ->. cbn. rewrite length_app. cbn. lia.
  - by destruct (activate_tab _ _ (b1, w)) as [s' u].
Qed.

Lemma select_app_keeps app : keeps browser_ok browser_ok (select_app start_default_session app).
Proof.
  intros b w Hb%ok_consistent. unfold select_app, select_app_with_surface_loader.
  destruct (decide (app = Web)) as [->|Happ].
  - destruct (cached_tab_ok (with_shown Web (br_surface b) b) w Hb)
      as (b' & w' & surface & -> & Hb' & Htab & Hw).
    split; [by apply shown_tab_ok|done].
  - pose proof (surface_contained (app_internal_address app) None default_viewport w) as Hw.
    assert (forall surface, browser_ok (with_shown app surface (with_shown app (br_surface b) b)))
      as Hok by (intros surface; destruct Hb; by split).
    unfold surface_for_address.
    destruct app; [done|..];
      destruct (surface_for_address_with_viewport _ _ _ _ w) as [w' surface];
      (split; [apply Hok|done]).
Qed.

Lemma navigate_keeps input viewport :
  keeps browser_ok browser_ok
    (navigate_with_viewport start_default_session current_dir input viewport).
Proof.
  intros b w Hb. unfold navigate_with_viewport, navigate_with_surface_loader.
  destruct (normalize_navigation_input current_dir input) as [address|e]; [|done].
  pose proof (surface_contained address None viewport w) as Hw.
  destruct (surface_for_address_with_viewport _ _ _ _ w) as [w' surface].
  split; [by apply set_active_surface_ok, ok_consistent|done].
Qed.

Lemma ensure_viewport_keeps viewport :
  keeps browser_ok browser_ok (ensure_active_web_viewport start_default_session viewport).
Proof.
  intros b w Hb. unfold ensure_active_web_viewport, refresh_active_web_viewport.
  destruct (negb _); [done|]. destruct (active_tab b) as [tab|]; [|done].
  pose proof (surface_contained (tab_address tab) (Some (tab_title tab)) viewport w) as Hw.
  destruct (surface_for_address_with_viewport _ _ _ _ w) as [w' surface].
  split; [by apply set_active_surface_ok, ok_consistent|done].
Qed.

Lemma run_command_keeps c b w :
  browser_ok b ->
  browser_ok (run_command start_default_session current_dir c (b, w)).1 /\
  rtc world_step w (run_command start_default_session current_dir c (b, w)).2.
Proof.
  intros Hb. destruct c; cbn [run_command].
  - apply (activate_tab_keeps index browser_ok); [by apply ok_consistent|done|done].
  - by apply select_app_keeps.
  - by apply add_tab_keeps.
  - by apply navigate_keeps.
  - by apply ensure_viewport_keeps.
Qed.

(** C17: Whatever commands a person gives the browser, the active tab exists, every tab is titled
    and addressed as the surface it keeps, the application for pages shows the surface of the
    active tab; and the world changed only by contained loads, each of which is one of three.
    Servo is handed a page Slate makes up; or the daemon is asked for an address of one of
    its services ([ipfs], [ipns], [tor+http], [tor+https]) or for a web address whose text has
    neither [.onion] nor [.i2p], and Servo is handed the page of its answer; or Servo is handed
    the address itself, which is a [file], [data], [about], [i2p], [gemini] or [magnet] address
    and has neither name in its text. *)
Theorem navigation_contained name home cs w :
  let s := run_commands start_default_session current_dir (browser_new name home, w) cs in
  browser_ok s.1 /\ rtc world_step w s.2.
Proof.
  cbn zeta. unfold run_commands. generalize (browser_new_ok name home).
  generalize (browser_new name home) as b. revert w.
  induction cs as [|c cs IH]; intros w b Hb; [by split|]. cbn [fold_left].
  pose proof (run_command_keeps c b w Hb) as [Hb' Hw].
  destruct (run_command _ _ c (b, w)) as [b' w'].
  destruct (IH w' b' Hb') as [Hs Hw']. split; [exact Hs|by etransitivity].
Qed.
End Laws.
