(* ===== verification/DefaultDaemon.v ===== *)
(** * The daemon as it is installed

    Models the registries of [crates/broadwebd/src/registry.rs] and the constructors of
    [daemon.rs]: the direct transport, the IPFS and the Tor service with their transports,
    the HTTP fetch service and the profile-sync service, over one world that holds the
    network, the transports' state and the store of the profile-sync service. *)
From S2P Require Import Prelude RustStr Broadwebd Routing Http Downloads Daemon.
From S2P Require Import ProfileSyncService Network Kubo Gateway Tor.

Section DefaultDaemon.
Context {N T S : Type} `{UrlCrate, HttpNetwork N, TorNetwork N T S, DownloadIndexJson}.

Definition World : Type := NetWorld N T * ProfileSyncStore.

Definition on_fst {A B E R} (m : state_result A E R) : state_result (A * B) E R := fun s =>
  let '(a, r) := m s.1 in ((a, s.2), r).
Definition on_snd {A B E R} (m : state_result B E R) : state_result (A * B) E R := fun s =>
  let '(b, r) := m s.2 in ((s.1, b), r).

(** A transport, and the profile-sync service, as plugins of the whole daemon. *)
Definition lift_transport (t : TransportPlugin (NetWorld N T)) : TransportPlugin World :=
  {| tp_metadata := tp_metadata t;
     tp_fetch_http request budget := on_fst (tp_fetch_http t request budget) |}.
Definition profile_sync_plugin (self : ProfileSyncService.ProfileSyncService) :
    ApplicationServicePlugin World :=
  {| ap_metadata := metadata self;
     ap_call request _ budget := on_snd (call self request budget) |}.

Definition with_default_http_and_ipfs_config (ipfs_config : IpfsConfig) : PluginRegistry World :=
  let registry := register_transport (lift_transport direct_http_transport) registry_new in
  let registry := register_protocol_service (ipfs_service ipfs_config)
                    (ipfs_install_plugins lift_transport ipfs_config) registry in
  let registry := register_protocol_service tor_service (tor_install_plugins lift_transport)
                    registry in
  let registry := register_service http_fetch_service registry in
  register_service (profile_sync_plugin default_service) registry.

(** [with_default_http]; the default configuration is valid ([expect]). *)
Definition with_default_http : result BroadwebdError (PluginRegistry World) :=
  result_map with_default_http_and_ipfs_config default_local_gateway.

(** [with_default_http_and_ipfs_config_and_kubo_profile_sync]: [kubo] is the service made by
    [ProfileSyncService::kubo]. *)
Definition with_default_http_and_kubo_profile_sync (ipfs_config : IpfsConfig)
    (kubo : result BroadwebdError ProfileSyncService.ProfileSyncService) :
    result BroadwebdError (PluginRegistry World) :=
  let registry := with_default_http_and_ipfs_config ipfs_config in
  let? kubo := kubo in
  Ok (register_service (profile_sync_plugin kubo) registry).

Definition with_default_http_and_runtime_profile_sync_config (ipfs_config : IpfsConfig)
    (backend : ProfileSyncRuntimeBackend)
    (kubo : string -> string -> result BroadwebdError ProfileSyncService.ProfileSyncService) :
    result BroadwebdError (PluginRegistry World) :=
  let registry := with_default_http_and_ipfs_config ipfs_config in
  match backend with
  | LocalBackend => Ok registry
  | KuboRpcBackend api_base_url provider =>
      let? kubo := kubo api_base_url provider in
      Ok (register_service (profile_sync_plugin kubo) registry)
  end.
End DefaultDaemon.
Arguments World : clear implicits.
