(* ===== verification/TorLaws.v ===== *)
(** * Reading a response from a Tor stream

    A response in the grammar of HTTP/1.1 (a status line, header lines, an empty line, a
    body in one piece or in chunks) is read as what it says: its code, its headers and the
    concatenation of its chunks. *)
From S2P Require Import Prelude RustStr Broadwebd SocketText Http Downloads StrLaws.
From S2P Require Import DownloadLaws Network Tor UrlReference.

Definition cr : ascii := byte_of 13.
Definition no_cr (s : string) : bool := all_bytes (fun c => negb (Ascii.eqb c cr)) s.

Lemma strip_prefix_other d p c s : c <> d -> strip_prefix (String d p) (String c s) = None.
Proof. intros Hne. cbn. by destruct (Ascii.eqb_spec d c) as [->|]. Qed.

(** A separator that starts with a carriage return is not found before the first one. *)
Lemma split_once_skip p a t :
  no_cr a = true ->
  split_once (String cr p) (a +:+ t)
  = match split_once (String cr p) t with
    | Some (b, rest) => Some (a +:+ b, rest)
    | None => None
    end.
Proof.
  unfold no_cr. induction a as [|c a IH]; cbn [all_bytes].
  { intros _. change ("" +:+ t) with t. by destruct (split_once _ t) as [[b r]|]. }
  intros [Hc Ha]%andb_prop. rewrite str_cons_app. cbn [split_once].
  rewrite strip_prefix_other by (by destruct (Ascii.eqb_spec c cr)).
  rewrite (IH Ha). by destruct (split_once _ t) as [[b r]|].
Qed.

Lemma split_once_here sep t : split_once sep (sep +:+ t) = Some ("", t).
Proof.
  destruct (sep +:+ t) as [|c s] eqn:E; cbn [split_once]; rewrite <-E, strip_prefix_app; done.
Qed.

Lemma split_once_cons sep c s :
  strip_prefix sep (String c s) = None ->
  split_once sep (String c s) = match split_once sep s with
                                | Some (a, b) => Some (String c a, b)
                                | None => None
                                end.
Proof. intros Hp. cbn [split_once]. by rewrite Hp. Qed.

Lemma split_once_crlf a t : no_cr a = true -> split_once crlf (a +:+ crlf +:+ t) = Some (a, t).
Proof.
  intros Ha. change crlf with (String cr (String (byte_of 10) "")) at 1.
  rewrite split_once_skip by done. change (String cr (String (byte_of 10) "")) with crlf.
  rewrite split_once_here. by rewrite str_app_nil_r.
Qed.

(** ** The head of a response *)

Definition line_ok (line : string) : Prop := no_cr line = true /\ line <> "".

Lemma split_once_head lines body :
  lines <> [] -> Forall line_ok lines ->
  split_once (crlf +:+ crlf) (str_join crlf lines +:+ crlf +:+ crlf +:+ body)
  = Some (str_join crlf lines, body).
Proof.
  intros Hne Hok. destruct lines as [|line lines]; [done|]. clear Hne.
  inversion_clear Hok as [|? ? [Hcr _] Hrest]. revert line Hcr.
  set (sep := String cr (String (byte_of 10) crlf)).
  change (crlf +:+ crlf) with sep.
  induction Hrest as [|next lines [Hcr' Hne] Hrest IH]; intros line Hcr.
  - cbn [str_join]. change (crlf +:+ crlf +:+ body) with (sep +:+ body).
    unfold sep at 1. rewrite split_once_skip by done. fold sep.
    rewrite split_once_here. by rewrite str_app_nil_r.
  - rewrite str_join_cons, !str_app_assoc.
    unfold sep at 1. rewrite split_once_skip by done. fold sep.
    change (crlf +:+ ?t) with (String cr (String (byte_of 10) t)).
    destruct next as [|c next]; [done|].
    assert (c <> cr) as Hc.
    { intros ->. unfold no_cr in Hcr'. cbn [all_bytes] in Hcr'. by rewrite Ascii.eqb_refl in Hcr'. }
    rewrite split_once_cons.
    2:{ match goal with |- strip_prefix sep (String cr (String _ ?t)) = _ =>
          change (strip_prefix sep (String cr (String (byte_of 10) t))) with (strip_prefix crlf t)
        end.
        destruct lines; rewrite ?str_join_cons, ?str_cons_app; cbn [str_join];
          rewrite ?str_cons_app; by apply strip_prefix_other. }
    specialize (IH (String (byte_of 10) (String c next)) Hcr').
    destruct lines; rewrite ?str_join_cons, ?str_cons_app in *; cbn [str_join] in *;
      rewrite ?str_cons_app in *; by rewrite IH.
Qed.

Lemma split_str_lines fuel lines :
  lines <> [] -> Forall (fun line => no_cr line = true) lines ->
  (length lines <= S fuel)%nat ->
  split_str_fuel fuel crlf (str_join crlf lines) = lines.
Proof.
  intros Hne Hok. revert lines Hne Hok. induction fuel as [|fuel IH]; intros lines Hne Hok Hlen.
  { by destruct lines as [|a [|b l]]; cbn in *; [done|..|lia]. }
  destruct lines as [|a [|b l]]; [done|..]; inversion_clear Hok as [|? ? Ha Hl].
  - cbn [str_join split_str_fuel].
    assert (split_once crlf a = None) as ->; [|done].
    rewrite <-(str_app_nil_r a).
    exact (split_once_skip (String (byte_of 10) "") a "" Ha).
  - rewrite str_join_cons. cbn [split_str_fuel]. rewrite split_once_crlf by done.
    f_equal. apply IH; [done..|]. cbn in *. lia.
Qed.

Lemma str_join_length sep lines :
  (sep <> "" -> length lines <= S (String.length (str_join sep lines)))%nat.
Proof.
  intros Hsep. induction lines as [|a [|b l] IH]; [cbn; lia..|].
  rewrite str_join_cons, !str_length_app. cbn [length] in *.
  destruct sep; [done|]. cbn [String.length] in *. lia.
Qed.

(** ** Chunks *)

(** A chunk: its size line, which may hold an extension, and its bytes. *)
Definition chunk_size (line : string) : result string Z :=
  parse_usize_hex (trim (before_first ";" line)).
Definition chunk_ok (chunk : string * string) : Prop :=
  no_cr chunk.1 = true /\ utf8_valid chunk.1 = true /\
  chunk_size chunk.1 = Ok (str_len chunk.2) /\ chunk.2 <> "".
Definition last_line_ok (line : string) : Prop :=
  no_cr line = true /\ utf8_valid line = true /\ chunk_size line = Ok 0.

Fixpoint render_chunks (chunks : list (string * string)) (last_line trailer : string) : string :=
  match chunks with
  | [] => last_line +:+ crlf +:+ trailer
  | chunk :: chunks =>
      chunk.1 +:+ crlf +:+ chunk.2 +:+ crlf +:+ render_chunks chunks last_line trailer
  end.
Fixpoint chunk_bytes (chunks : list (string * string)) : string :=
  match chunks with [] => "" | chunk :: chunks => chunk.2 +:+ chunk_bytes chunks end.

Lemma decode_chunks_render fuel limit output chunks last_line trailer :
  Forall chunk_ok chunks -> last_line_ok last_line ->
  (length chunks < fuel)%nat -> str_len output + str_len (chunk_bytes chunks) <= limit ->
  decode_chunks fuel limit output (render_chunks chunks last_line trailer)
  = Ok (output +:+ chunk_bytes chunks).
Proof.
  intros Hok (Hcr & Hutf & Hsize). revert fuel output.
  induction Hok as [|[line bytes] chunks (Hcr' & Hutf' & Hsize' & Hne) Hok IH];
    intros fuel output Hfuel Hlimit;
    (destruct fuel as [|fuel]; [cbn in *; lia|]);
    cbn [render_chunks decode_chunks chunk_bytes length fst snd] in *.
  - rewrite split_once_crlf by done. unfold from_utf8. rewrite Hutf. cbn.
    unfold chunk_size in Hsize. rewrite Hsize. cbn. by rewrite str_app_nil_r.
  - rewrite split_once_crlf by done. unfold from_utf8. rewrite Hutf'. cbn [map_err].
    unfold chunk_size in Hsize'. rewrite Hsize'. cbn [map_err].
    rewrite str_len_app in Hlimit. pose proof (str_len_nonneg (chunk_bytes chunks)).
    destruct (Z.eqb_spec (str_len bytes) 0) as [Hz|_].
    { destruct bytes; [done|]. unfold str_len in Hz. cbn in Hz. lia. }
    rewrite str_len_app.
    pose proof (str_len_nonneg (crlf +:+ render_chunks chunks last_line trailer)).
    destruct (Z.ltb_spec (str_len bytes + str_len (crlf +:+ render_chunks chunks last_line trailer))
                (str_len bytes)); [lia|].
    replace (Z.to_nat (str_len bytes)) with (String.length bytes) by (unfold str_len; lia).
    rewrite str_take_app, str_drop_app, str_len_app.
    destruct (Z.ltb_spec limit (str_len output + str_len bytes)); [lia|].
    rewrite strip_prefix_app. rewrite IH, str_app_assoc; [done|lia|].
    rewrite str_len_app. lia.
Qed.

Lemma render_chunks_length chunks last_line trailer :
  (length chunks < S (String.length (render_chunks chunks last_line trailer)))%nat.
Proof.
  induction chunks as [|[line bytes] chunks IH]; cbn [render_chunks length fst snd]; [lia|].
  rewrite !str_length_app. cbn [String.length crlf]. lia.
Qed.

(** ** The status line *)

(** [HTTP/version code], and a reason after a space or nothing. *)
Definition status_line_of (code : Z) (line : string) : Prop :=
  exists version reason,
    all_bytes is_ascii_graphic version = true /\ 0 <= code <= 65535 /\
    line = "HTTP/" +:+ version +:+ " " +:+ show code +:+ reason /\
    (reason = "" \/ exists text, reason = " " +:+ text).

Lemma graphic_no_space c s : is_ascii_graphic c = true -> strip_whitespace_char (String c s) = None.
Proof.
  intros Hc. unfold strip_whitespace_char. rewrite (proj2 (list_find_bool_None _ _)); [done|].
  intros w Hw. apply not_true_iff_false. intros [rest E]%starts_with_spec.
  assert (forallb (fun w => match w with
                            | String d _ => negb (is_ascii_graphic d)
                            | EmptyString => false
                            end) whitespace_chars = true) as Hall by (vm_compute; reflexivity).
  rewrite forallb_forall in Hall. apply list_elem_of_In, Hall in Hw.
  destruct w as [|d w]; [done|]. injection E as <- _. by rewrite Hc in Hw.
Qed.

Lemma trim_start_graphic c s : is_ascii_graphic c = true -> trim_start (String c s) = String c s.
Proof. intros Hc. unfold trim_start. cbn. by rewrite graphic_no_space. Qed.

Lemma split_whitespace_space fuel t :
  split_whitespace_fuel (S fuel) (" " +:+ t) = split_whitespace_fuel (S fuel) t.
Proof. reflexivity. Qed.

Lemma take_word_graphic word t :
  all_bytes is_ascii_graphic word = true -> (t = "" \/ exists text, t = " " +:+ text) ->
  take_word (word +:+ t) = (word, t).
Proof.
  intros Hw Ht. induction word as [|c word IH].
  - destruct Ht as [->|[text ->]]; reflexivity.
  - cbn in Hw. apply andb_prop in Hw as [Hc Hw]. rewrite str_cons_app. cbn [take_word].
    by rewrite graphic_no_space, IH.
Qed.

Lemma split_whitespace_word fuel c word t :
  all_bytes is_ascii_graphic (String c word) = true -> (t = "" \/ exists text, t = " " +:+ text) ->
  split_whitespace_fuel (S fuel) (String c word +:+ t)
  = String c word :: split_whitespace_fuel fuel t.
Proof.
  intros Hw Ht. cbn [split_whitespace_fuel]. pose proof Hw as Hc. cbn in Hc.
  apply andb_prop in Hc as [Hc _]. rewrite str_cons_app, trim_start_graphic by done.
  rewrite <- str_cons_app. rewrite take_word_graphic by done. done.
Qed.

Lemma status_code_read code line : status_line_of code line -> status_code line = Ok code.
Proof.
  intros (version & reason & Hv & Hcode & -> & Hreason). unfold status_code, split_whitespace.
  assert (all_bytes is_ascii_graphic (show code) = true) as Hshow.
  { apply show_all_bytes; [lia|]. intros d Hd. do 10 (destruct d as [|d]; [done|]). lia. }
  assert (exists d digits, show code = String d digits) as (d & digits & Hd).
  { pose proof (show_not_empty code). destruct (show code) as [|d digits]; [done|eauto]. }
  set (word := "TTP/" +:+ version).
  assert (all_bytes is_ascii_graphic (String "H" word) = true) as Hword.
  { unfold word. change (all_bytes is_ascii_graphic version = true). exact Hv. }
  change ("HTTP/" +:+ version +:+ " " +:+ show code +:+ reason)
    with (String "H" word +:+ " " +:+ show code +:+ reason).
  rewrite split_whitespace_word; [|done|by right; eexists].
  change (String.length (String "H" word +:+ ?t)) with (S (String.length (word +:+ t))).
  set (fuel := String.length (word +:+ _)). rewrite Hd in *.
  assert (split_whitespace_fuel (S fuel) (" " +:+ String d digits +:+ reason)
          = String d digits :: split_whitespace_fuel fuel reason) as ->.
  { by rewrite split_whitespace_space, split_whitespace_word. }
  change (starts_with "HTTP/" (String "H" word)) with true. cbn [negb head ok_or].
  rewrite <- Hd. unfold parse_u16. by rewrite parse_unsigned_show.
Qed.

(** ** The fields *)

(** What a line of the head says: a field, between whose parts white space does not count, or
    nothing when it has no colon or no name. *)
Inductive line_says : string -> list HttpHeader -> Prop :=
  | says_field name value :
      str_contains ":" name = false -> trim name <> "" ->
      line_says (name +:+ ":" +:+ value) [{| hd_name := trim name; hd_value := trim value |}]
  | says_unnamed name value :
      str_contains ":" name = false -> trim name = "" -> line_says (name +:+ ":" +:+ value) []
  | says_nothing line : str_contains ":" line = false -> line_says line [].

(** The first field of a name, in any case. *)
Fixpoint field_value (name : string) (fields : list HttpHeader) : option string :=
  match fields with
  | [] => None
  | field :: fields =>
      if decide (to_ascii_lowercase (hd_name field) = name) then Some (hd_value field)
      else field_value name fields
  end.

Lemma first_byte_differs b c t t' :
  starts_with (String b "") (String c t) = false -> strip_prefix (String b "") (String c t') = None.
Proof. unfold starts_with. cbn. by destruct (Ascii.eqb b c). Qed.

Lemma split_once_colon name value :
  str_contains ":" name = false -> split_once ":" (name +:+ ":" +:+ value) = Some (name, value).
Proof.
  induction name as [|c name IH]; [intros _; exact (split_once_here ":" value)|].
  cbn [str_contains]. intros [Hc Hn]%orb_false_iff. rewrite str_cons_app.
  rewrite split_once_cons; [by rewrite IH|].
  exact (first_byte_differs ":" c name _ Hc).
Qed.

Lemma split_once_absent line : str_contains ":" line = false -> split_once ":" line = None.
Proof.
  induction line as [|c line IH]; [done|]. cbn [str_contains].
  intros [Hc Hn]%orb_false_iff. rewrite split_once_cons; [by rewrite IH|].
  exact (first_byte_differs ":" c line _ Hc).
Qed.

Lemma line_says_header line fields :
  line_says line fields -> http_header line = head fields /\ (length fields <= 1)%nat.
Proof.
  intros [name value Hcolon Hname|name value Hcolon Hname|text Hcolon]; unfold http_header.
  - rewrite split_once_colon by done. split; [|cbn; lia]. revert Hname. by destruct (trim name).
  - rewrite split_once_colon by done. rewrite Hname. split; [done|cbn; lia].
  - rewrite split_once_absent by done. split; [done|cbn; lia].
Qed.

Lemma lines_say_headers lines fields :
  Forall2 line_says lines fields -> filter_map http_header lines = concat fields.
Proof.
  induction 1 as [|line fields' lines fields Hline _ IH]; [done|]. cbn [filter_map concat].
  apply line_says_header in Hline as [-> Hlen]. rewrite IH.
  destruct fields' as [|field [|]]; [done..|]. cbn in Hlen. lia.
Qed.

Lemma field_value_header name fields :
  to_ascii_lowercase name = name -> header_value fields name = field_value name fields.
Proof.
  intros Hname. unfold header_value, find_header.
  induction fields as [|field fields IH]; [done|]. cbn [list_find_bool field_value].
  unfold eq_ignore_ascii_case at 1. rewrite Hname.
  destruct (decide _) as [E|E].
  - by apply str_eqb_eq in E as ->.
  - apply str_eqb_neq in E as ->. exact IH.
Qed.

(** ** Responses *)

Section Responses.
Context `{UrlCrate}.

(** A body: its bytes on the wire, and what they mean. *)
Inductive body_of (fields : list HttpHeader) : string -> string -> Prop :=
  | body_plain bytes :
      (forall value, field_value "transfer-encoding" fields = Some value ->
         str_contains "chunked" (to_ascii_lowercase value) = false) ->
      body_of fields bytes bytes
  | body_chunked value chunks last_line trailer :
      field_value "transfer-encoding" fields = Some value ->
      str_contains "chunked" (to_ascii_lowercase value) = true ->
      Forall chunk_ok chunks -> last_line_ok last_line ->
      body_of fields (render_chunks chunks last_line trailer) (chunk_bytes chunks).

Definition render_response (status_line : string) (lines : list string) (body : string) : string :=
  str_join crlf (status_line :: lines) +:+ crlf +:+ crlf +:+ body.

(** C27: A well-formed response within the limits is read back: the code of its status line
    ([HTTP/], a version, the code in decimal and a reason), the name and the value of each of
    its fields in order, and the body, whose chunks are joined whatever their size lines and
    extensions look like; its content type is the one the content-type field, the address and
    the body give. *)
Theorem tor_response_roundtrip final_url budget status_line lines code fields wire body :
  Forall line_ok (status_line :: lines) ->
  utf8_valid (str_join crlf (status_line :: lines)) = true ->
  str_len (str_join crlf (status_line :: lines)) <= MAX_HEADER_BYTES ->
  status_line_of code status_line -> Forall2 line_says lines fields ->
  body_of (concat fields) wire body ->
  str_len body <= max_http_response_bytes budget ->
  http_response_from_bytes final_url (render_response status_line lines wire) budget
  = Ok (http_fetch_response_new final_url code
          (infer_content_type final_url (field_value "content-type" (concat fields)) body)
          (concat fields) body).
Proof.
  intros Hlines Hutf Hhead Hcode%status_code_read Hfields%lines_say_headers Hbody Hlimit.
  unfold http_response_from_bytes, render_response. rewrite split_once_head by done.
  cbn [ok_or]. destruct (Z.ltb_spec MAX_HEADER_BYTES
    (str_len (str_join crlf (status_line :: lines)))); [lia|].
  unfold from_utf8. rewrite Hutf. cbn [map_err]. unfold split_str.
  rewrite split_str_lines; [|done|by eapply Forall_impl; [exact Hlines|intros ? []]|].
  2:{ by apply str_join_length. }
  cbn [head drop ok_or]. change (drop 0 lines) with lines. rewrite Hcode. cbn beta iota zeta.
  rewrite Hfields, !field_value_header by reflexivity.
  assert (forall r, within_limit (max_http_response_bytes budget) body = r -> r = Ok tt) as Hw.
  { intros r <-. unfold within_limit.
    by destruct (Z.ltb_spec (max_http_response_bytes budget) (str_len body)); [lia|]. }
  destruct Hbody as [body Hplain|value chunks last_line trailer Hv Hc Hchunks Hlast].
  - destruct (field_value "transfer-encoding" _) as [value|];
      [rewrite (Hplain value eq_refl)|]; by rewrite (Hw _ eq_refl).
  - rewrite Hv, Hc. unfold decode_chunked_body.
    rewrite decode_chunks_render; [|done|done|apply render_chunks_length|exact Hlimit].
    change ("" +:+ chunk_bytes chunks) with (chunk_bytes chunks).
    cbn beta iota. by rewrite (Hw _ eq_refl).
Qed.
End Responses.

Section Witness.
#[local] Existing Instance reference_crate.

Lemma tor_response_roundtrip_witness :
  http_response_from_bytes "tor+http://a.onion/"
    (render_response "HTTP/1.1 200 OK" ["Transfer-Encoding: gzip, Chunked"; "X-A:  b "; "?"]
       (render_chunks [("5;ext=1", "hello"); ("+B", " wide world")] "00" "ignored"))
    default_budget
  = Ok (http_fetch_response_new "tor+http://a.onion/" 200 None
          [{| hd_name := "Transfer-Encoding"; hd_value := "gzip, Chunked" |};
           {| hd_name := "X-A"; hd_value := "b" |}] "hello wide world").
Proof.
  refine (tor_response_roundtrip "tor+http://a.onion/" default_budget "HTTP/1.1 200 OK"
    ["Transfer-Encoding: gzip, Chunked"; "X-A:  b "; "?"] 200
    [[{| hd_name := "Transfer-Encoding"; hd_value := "gzip, Chunked" |}];
     [{| hd_name := "X-A"; hd_value := "b" |}]; []] _ "hello wide world" _ _ _ _ _ _ _).
  - by repeat constructor.
  - by vm_compute.
  - by vm_compute.
  - exists "1.1", " OK". split; [by vm_compute|]. split; [lia|]. split; [by vm_compute|].
    right. by exists "OK".
  - constructor; [|constructor; [|constructor; [|constructor]]].
    + apply (says_field "Transfer-Encoding" " gzip, Chunked"); by vm_compute.
    + apply (says_field "X-A" "  b "); by vm_compute.
    + by apply says_nothing.
  - apply (body_chunked _ "gzip, Chunked" [("5;ext=1", "hello"); ("+B", " wide world")]);
      try (by vm_compute).
    repeat (constructor; [split_and!; [by vm_compute..|done]|]). constructor.
  - by vm_compute.
Defined.
End Witness.
