(* ===== verification/TransportLaws.v ===== *)
(** * What the transports of the daemon reach

    Onion requests stay inside Tor, through redirects and from the daemon's entry point;
    the responses of a Tor stream are read back as they were written; the gateway transport
    answers with the first usable gateway and remembers it. *)
From S2P Require Import Prelude RustStr Broadwebd Routing SocketText Http Downloads.
From S2P Require Import DownloadLaws Daemon ProfileSyncService Network Kubo Gateway Tor.
From S2P Require Import DefaultDaemon UrlReference StrLaws AddressLaws.

(** ** Onion requests *)

(** The addresses that belong to Tor. *)
Definition onion_url (url : Url) : Prop :=
  In (url_scheme url) ["tor+http"; "tor+https"] \/
  In (url_scheme url) ["http"; "https"] /\
  exists host, url_host_str url = Some host /\ onion_hostname host.

(** [R k n n'] holds for every run of the Tor client that opens [k] connections, all of them
    to onion hosts.  No other use of the network is part of it. *)
Record tor_steps {N T S} `{TorNetwork N T S} (R : nat -> N -> N -> Prop) : Prop := {
  ts_refl n : R 0%nat n n;
  ts_trans j k a b c : R j a b -> R k b c -> R (j + k)%nat a c;
  ts_runtime n : R 0%nat n (tor_runtime_new n).1;
  ts_bootstrap n : R 0%nat n (tor_create_bootstrapped n).1;
  ts_connect client host port n :
    onion_hostname host -> R 1%nat n (tor_connect client host port n).1;
  ts_write stream bytes n : R 0%nat n (tor_write_all stream bytes n).1;
  ts_flush stream n : R 0%nat n (tor_flush stream n).1;
  ts_read stream n : R 0%nat n (tor_read stream n).1
}.

Section Graded.
Context {A E : Type} (P : nat -> A -> A -> Prop).
Context (P_refl : forall a, P 0%nat a a).
Context (P_trans : forall j k a b c, P j a b -> P k b c -> P (j + k)%nat a c).

Definition moves {B} (k : nat) (m : state_result A E B) : Prop :=
  forall s, exists j, (j <= k)%nat /\ P j s (m s).1.

Lemma moves_pure {B} k (m : state_result A E B) : (forall s, (m s).1 = s) -> moves k m.
Proof. intros Hm s. exists 0%nat. split; [lia|]. rewrite Hm. apply P_refl. Qed.

Lemma moves_weaken {B} j k (m : state_result A E B) : (j <= k)%nat -> moves j m -> moves k m.
Proof. intros Hjk Hm s. destruct (Hm s) as (i & Hi & HP). exists i. split; [lia|done]. Qed.

Lemma moves_bind {B C} j k (m : state_result A E B) (f : B -> state_result A E C) :
  moves j m -> (forall b, moves k (f b)) -> moves (j + k) (sr_bind m f).
Proof.
  intros Hm Hf s. unfold sr_bind. destruct (Hm s) as (i & Hi & HP).
  destruct (m s) as [s' [b|e]]; cbn in *.
  - destruct (Hf b s') as (l & Hl & HP'). exists (i + l)%nat. split; [lia|by eapply P_trans].
  - exists i. split; [lia|done].
Qed.

Lemma moves_bind0 {B C} k (m : state_result A E B) (f : B -> state_result A E C) :
  moves 0 m -> (forall b, moves k (f b)) -> moves k (sr_bind m f).
Proof. exact (moves_bind 0 k m f). Qed.

Lemma moves_lift {B} k (r : result E B) : moves k (sr_lift r).
Proof. by apply moves_pure. Qed.
Lemma moves_bind_lift {B C} k (r : result E B) (f : B -> state_result A E C) :
  (forall b, r = Ok b -> moves k (f b)) -> moves k (sr_bind (sr_lift r) f).
Proof.
  intros Hf. destruct r as [b|e]; [exact (Hf b eq_refl)|]. by apply moves_pure.
Qed.
Lemma moves_err {B} k (e : E) : moves k (sr_err e : state_result A E B).
Proof. by apply moves_pure. Qed.
Lemma moves_ret {B} k (b : B) : moves k (sr_ret b).
Proof. by apply moves_pure. Qed.
Lemma moves_get k : moves k sr_get.
Proof. by apply moves_pure. Qed.
End Graded.

Lemma moves_map_err {A E F B} (P : nat -> A -> A -> Prop) k (f : E -> F) (m : state_result A E B) :
  moves P k m -> moves P k (sr_map_err f m).
Proof.
  intros Hm s. destruct (Hm s) as (j & Hj & HP). exists j. split; [done|].
  unfold sr_map_err. by destruct (m s).
Qed.

Section Onion.
Context {N T S : Type} `{UrlCrate, HttpNetwork N, TorNetwork N T S}.
Context (R : nat -> N -> N -> Prop) (HR : tor_steps R).

Lemma tor_http_target_spec source target :
  tor_http_target source = Ok target -> is_onion_host (tt_host target) = true.
Proof.
  unfold tor_http_target. destruct (map_err _ _) as [url|]; [|done]. cbn.
  destruct (from_url_scheme _); [|done]. cbn. destruct (has_userinfo url); [done|].
  destruct (url_host_str url) as [host|]; [|done]. cbn zeta iota beta delta [ok_or].
  destruct (is_onion_host _) eqn:E; cbn; [|done]. intros [= <-]. exact E.
Qed.

(** The relation on the world of the transports. *)
Definition net_moves (k : nat) (w w' : NetWorld N T) : Prop := R k (nw_net w) (nw_net w').

Lemma net_refl w : net_moves 0 w w.
Proof. apply (ts_refl R HR). Qed.
Lemma net_trans j k a b c : net_moves j a b -> net_moves k b c -> net_moves (j + k) a c.
Proof. apply (ts_trans R HR). Qed.

Lemma moves_on_net {B} k (m : state_result N BroadwebdError B) :
  moves R k m -> moves net_moves k (on_net m).
Proof.
  intros Hm w. destruct (Hm (nw_net w)) as (j & Hj & HP). exists j. split; [done|].
  unfold on_net, net_moves. by destruct (m (nw_net w)).
Qed.

Lemma moves_report k kind message target gateway :
  moves net_moves k (report kind message target gateway).
Proof. intros w. exists 0%nat. split; [lia|]. apply (ts_refl R HR). Qed.

Lemma moves_step {E B} (m : state_result N E B) :
  (forall n, R 0%nat n (m n).1) -> moves R 0 m.
Proof. intros Hm n. by exists 0%nat. Qed.

Lemma tor_refl n : R 0%nat n n.
Proof. apply (ts_refl R HR). Qed.
Lemma tor_trans j k a b c : R j a b -> R k b c -> R (j + k)%nat a c.
Proof. apply (ts_trans R HR). Qed.
#[local] Hint Resolve net_refl tor_refl : core.

(** The transitivity a [moves_bind0] asks for. *)
Ltac compose_moves := first [exact tor_trans | exact net_trans].

Lemma read_response_moves fuel budget limit stream response :
  moves R 0 (read_response fuel budget limit stream response).
Proof.
  revert response. induction fuel as [|fuel IH]; intros response; cbn [read_response].
  { by apply moves_ret. }
  apply moves_bind0; [compose_moves| |].
  { apply moves_map_err, moves_step. intros. apply (ts_read R HR). }
  intros chunk. destruct (is_empty chunk); [by apply moves_ret|].
  destruct (_ <? _); [by apply moves_err|]. apply IH.
Qed.

Lemma fetch_plain_http_over_tor_moves client target budget :
  is_onion_host (tt_host target) = true ->
  moves R 1 (fetch_plain_http_over_tor client target budget).
Proof.
  intros Honion. unfold fetch_plain_http_over_tor.
  apply (moves_bind R (ts_trans R HR) 1 0).
  { apply moves_map_err. intros n. exists 1%nat. split; [done|].
    by apply (ts_connect R HR), is_onion_host_spec. }
  intros stream. apply moves_bind0; [compose_moves| |].
  { apply moves_map_err, moves_step. intros. apply (ts_write R HR). }
  intros _. apply moves_bind0; [compose_moves| |].
  { apply moves_map_err, moves_step. intros. apply (ts_flush R HR). }
  intros _. apply read_response_moves.
Qed.

Lemma tor_runtime_state_moves : moves net_moves 0 (tor_runtime_state (N := N) (S := S)).
Proof.
  apply moves_bind0; [compose_moves|by apply moves_get|]. intros w.
  destruct (nw_tor w) as [client|]; [by apply moves_ret|].
  apply moves_bind0; [compose_moves| |].
  { apply moves_on_net, moves_map_err, moves_step. intros. apply (ts_runtime R HR). }
  intros _. apply moves_bind0; [compose_moves| |by intros; apply moves_ret].
  intros w'. exists 0%nat. split; [done|]. apply (ts_refl R HR).
Qed.

Lemma tor_client_moves target : moves net_moves 0 (tor_client (S := S) target).
Proof.
  apply moves_bind0; [compose_moves|apply tor_runtime_state_moves|]. intros [client|].
  { by apply moves_ret. }
  apply moves_bind0; [compose_moves|apply moves_report|]. intros _ w.
  exists 0%nat. split; [done|]. unfold on_net, sr_map_err.
  pose proof (ts_bootstrap R HR (nw_net w)) as Hb.
  by destruct (tor_create_bootstrapped (nw_net w)) as [n [client|e]].
Qed.

Lemma or_error_status_moves {B} k target (m : state_result (NetWorld N T) BroadwebdError B) :
  moves net_moves k m -> moves net_moves k (or_error_status target m).
Proof.
  intros Hm w. destruct (Hm w) as (j & Hj & HP). exists j. split; [done|].
  unfold or_error_status. by destruct (m w) as [w' [b|e]].
Qed.

Lemma tor_exchange_moves budget client current :
  moves net_moves 1 (tor_exchange (S := S) budget client current).
Proof.
  apply moves_bind_lift; [done|]. intros target E%tor_http_target_spec.
  destruct (bool_decide _); [by apply moves_err|].
  apply moves_bind0; [compose_moves| |].
  { destruct client; [by apply moves_ret|apply tor_client_moves]. }
  intros c. apply moves_bind0; [compose_moves|apply moves_report|]. intros _.
  apply (moves_bind net_moves net_trans 1 0).
  { apply or_error_status_moves, moves_bind0; [compose_moves|apply tor_runtime_state_moves|].
    intros _. by apply moves_on_net, fetch_plain_http_over_tor_moves. }
  intros raw. apply moves_bind0; [compose_moves| |].
  { by apply or_error_status_moves, moves_lift. }
  intros response. apply moves_bind0; [compose_moves|by apply moves_lift|].
  intros redirect. by apply moves_ret.
Qed.

Lemma tor_fetch_loop_moves request budget remaining client current :
  moves net_moves (Datatypes.S remaining)
    (tor_fetch_loop (S := S) request budget remaining client current).
Proof.
  revert client current. induction remaining as [|remaining IH]; intros client current;
    cbn [tor_fetch_loop].
  - apply (moves_bind net_moves net_trans 1 0); [apply tor_exchange_moves|].
    intros [[[c target] response] [url|]]; [by apply moves_err|].
    apply moves_bind0; [compose_moves|apply moves_report|]. intros _. by apply moves_ret.
  - apply (moves_bind net_moves net_trans 1 (Datatypes.S remaining));
      [apply tor_exchange_moves|].
    intros [[[c target] response] [url|]].
    + apply moves_bind0; [compose_moves|apply moves_report|]. intros _. apply IH.
    + apply moves_bind0; [compose_moves|apply moves_report|]. intros _. by apply moves_ret.
Qed.

Lemma tor_fetch_http_moves request budget :
  moves net_moves 7 (tor_fetch_http (S := S) request budget).
Proof.
  apply moves_bind0; [compose_moves|by apply moves_lift|]. intros current. apply tor_fetch_loop_moves.
Qed.
End Onion.

Section OnionResult.
Context {N T S : Type} `{UrlCrate, TorNetwork N T S}.

Lemma let_ok {E A B} (r : result E A) (f : A -> result E B) b :
  (let? a := r in f a) = Ok b -> exists a, r = Ok a /\ f a = Ok b.
Proof. destruct r as [a|e]; [|done]. intros Hf. by exists a. Qed.

Lemma within_limit_ok limit body u : within_limit limit body = Ok u -> str_len body <= limit.
Proof. unfold within_limit. destruct (Z.ltb_spec limit (str_len body)); [done|lia]. Qed.

Lemma http_response_from_bytes_ok final_url response budget r :
  http_response_from_bytes final_url response budget = Ok r ->
  hr_final_url r = final_url /\ str_len (hr_body r) <= max_http_response_bytes budget.
Proof.
  intros ([header_bytes body] & _ & Hr)%let_ok. cbn beta iota zeta in Hr.
  destruct (_ <? _); [done|].
  apply let_ok in Hr as (text & _ & Hr). apply let_ok in Hr as (line & _ & Hr).
  apply let_ok in Hr as (code & _ & Hr). apply let_ok in Hr as (body' & _ & Hr).
  apply let_ok in Hr as (u & Hlimit%within_limit_ok & [= <-]). by cbn.
Qed.

(** What a response that came over Tor is. *)
Definition from_onion (budget : ResourceBudget)
    (response : HttpFetchResponse) : Prop :=
  (exists source target, tor_http_target source = Ok target /\
     tt_network_scheme target = TorHttp /\ hr_final_url response = tt_final_url target) /\
  str_len (hr_body response) <= max_http_response_bytes budget /\
  option_map ri_transport_id (hr_route response) = Some TOR_ARTI_HTTP_PLUGIN.

Lemma tor_exchange_ok budget client current w w' c target response redirect :
  tor_exchange (S := S) budget client current w = (w', Ok (c, target, response, redirect)) ->
  tor_http_target current = Ok target /\ tt_network_scheme target = TorHttp /\
  hr_final_url response = tt_final_url target /\
  str_len (hr_body response) <= max_http_response_bytes budget.
Proof.
  unfold tor_exchange. intros (w1 & t & [= <- Ht] & Hk)%sr_bind_ok. rewrite Ht.
  destruct (bool_decide _) eqn:Hs; [done|]. apply bool_decide_eq_false in Hs.
  apply sr_bind_ok in Hk as (w2 & c2 & _ & Hk). apply sr_bind_ok in Hk as (w3 & [] & _ & Hk).
  apply sr_bind_ok in Hk as (w4 & raw & _ & Hk).
  apply sr_bind_ok in Hk as (w5 & r & Hr & Hk).
  unfold or_error_status, sr_lift in Hr.
  destruct (http_response_from_bytes _ raw budget) as [r'|e] eqn:E; [|done].
  injection Hr as <- ->.
  apply sr_bind_ok in Hk as (w6 & u & [= <- Hu] & [= _ -> <- <- <-]).
  apply http_response_from_bytes_ok in E as [Hurl Hlen].
  split_and!; [done| |done..]. by destruct (tt_network_scheme t).
Qed.

Lemma tor_fetch_http_ok request budget w w' response :
  tor_fetch_http (S := S) request budget w = (w', Ok response) ->
  from_onion budget response.
Proof.
  unfold tor_fetch_http. intros (w1 & current & _ & Hk)%sr_bind_ok. revert Hk.
  generalize (None : option T) as client. generalize MAX_REDIRECTS as n.
  intros n. revert current w1. induction n as [|n IH]; intros current w1 client Hk;
    cbn [tor_fetch_loop] in Hk;
    apply sr_bind_ok in Hk as (w2 & [[[c target] r] [url|]] & Hx & Hk); try done;
    apply sr_bind_ok in Hk as (w3 & [] & _ & Hk);
    try (by eapply IH; exact Hk);
    apply tor_exchange_ok in Hx as (Ht & Hs & Hurl & Hlen);
    injection Hk as _ <-; (split; [by exists current, target|done]).
Qed.
End OnionResult.

(** ** The registry *)

Section DefaultRegistry.
Context {N T S : Type} `{UrlCrate, HttpNetwork N, TorNetwork N T S}.

(** The registries the program installs: the default one, and the one whose profile-sync
    service is a Kubo node's. *)
Definition installed_registry (config : IpfsConfig) (registry : PluginRegistry (World N T)) :
    Prop :=
  registry = with_default_http_and_ipfs_config (S := S) config \/
  exists kubo, with_default_http_and_kubo_profile_sync (S := S) config kubo = Ok registry.

(** The URLs that [TorService] claims. *)
Definition claimed_by_tor (url : Url) : bool :=
  is_tor_http_scheme (url_scheme url) || is_http_scheme (url_scheme url) && is_onion_url url.

Lemma onion_url_claimed url : onion_url url -> claimed_by_tor url = true.
Proof.
  unfold claimed_by_tor, is_onion_url. intros [Hs|[Hs (host & -> & Hhost%is_onion_host_spec)]].
  - by destruct Hs as [<-|[<-|[]]].
  - rewrite Hhost. by destruct Hs as [<-|[<-|[]]].
Qed.

Definition default_view (config : IpfsConfig) : RegistryView (World N T) :=
  rg_view (with_default_http_and_ipfs_config (S := S) config).

Lemma default_http_fetch config :
  rg_services (with_default_http_and_ipfs_config (S := S) config) !! HTTP_FETCH_PLUGIN
  = Some http_fetch_service.
Proof.
  unfold with_default_http_and_ipfs_config, register_service, install_service.
  cbn [rg_services fst]. rewrite lookup_insert_ne by done. apply lookup_insert_eq.
Qed.

Lemma default_profile_sync config :
  rg_services (with_default_http_and_ipfs_config (S := S) config) !! PROFILE_SYNC_PLUGIN
  = Some (profile_sync_plugin default_service).
Proof. apply lookup_insert_eq. Qed.

Lemma default_tor_transport config :
  rv_transports (default_view config) !! TOR_ARTI_HTTP_PLUGIN
  = Some (lift_transport tor_arti_http_transport).
Proof. apply lookup_insert_eq. Qed.

Lemma two_services (a b : ProtocolService) :
  btree_values (<[TOR_PROTOCOL_SERVICE := b]> (<[IPFS_PROTOCOL_SERVICE := a]> ∅)) = [a; b].
Proof. vm_compute. reflexivity. Qed.

Lemma default_protocol_services config :
  btree_values (rv_protocol_services (default_view config)) = [ipfs_service config; tor_service].
Proof.
  enough (rv_protocol_services (default_view config)
          = <[TOR_PROTOCOL_SERVICE := tor_service]>
              (<[IPFS_PROTOCOL_SERVICE := ipfs_service config]> ∅)) as -> by apply two_services.
  unfold default_view, with_default_http_and_ipfs_config, register_protocol_service,
    install_protocol_service, ipfs_install_plugins.
  destruct (match ic_transport config with GatewayTransport => _ | _ => _ end); reflexivity.
Qed.

Lemma resolve_onion config target url :
  url_parse target = Ok url -> claimed_by_tor url = true ->
  resolve_http_transport (default_view config) target = Ok TOR_ARTI_HTTP_PLUGIN.
Proof.
  unfold resolve_http_transport, claimed_by_tor. intros -> Hc. cbn [map_err].
  rewrite default_protocol_services. cbn [first_route ps_http_transport_for_url ipfs_service].
  destruct (str_eqb (url_scheme url) "ipfs") eqn:E1.
  { apply str_eqb_eq in E1. by rewrite E1 in Hc. }
  destruct (str_eqb (url_scheme url) "ipns") eqn:E2.
  { apply str_eqb_eq in E2. by rewrite E2 in Hc. }
  cbn. destruct (is_tor_http_scheme _); [done|]. cbn in Hc. by rewrite Hc.
Qed.

Lemma installed_view config registry :
  installed_registry config registry ->
  rg_view registry = default_view config /\
  rg_services registry !! HTTP_FETCH_PLUGIN = Some http_fetch_service.
Proof.
  intros [->|([kubo|e] & Hk)]; [|injection Hk as <-|discriminate].
  - split; [reflexivity|apply default_http_fetch].
  - split; [reflexivity|]. unfold register_service, install_service. cbn [rg_services fst].
    rewrite lookup_insert_ne; [apply default_http_fetch|].
    cbn [profile_sync_plugin ap_metadata]. unfold metadata. by destruct (kubo_backend kubo).
Qed.

(** The transports: the direct one, Tor, and one of the two of IPFS. *)
Lemma installed_transport config id plugin :
  rv_transports (default_view config) !! id = Some plugin ->
  id = DIRECT_HTTP_PLUGIN \/ plugin = lift_transport tor_arti_http_transport \/
  (exists gateways, plugin = lift_transport
     {| tp_metadata := tp_metadata plugin;
        tp_fetch_http request budget :=
          gateway_fetch_http_with_executor gateways fetch_http_url_over_network
            request budget |}) \/
  (exists endpoint, plugin = lift_transport (kubo_rpc_transport endpoint)).
Proof.
  unfold default_view, with_default_http_and_ipfs_config, register_service, register_transport,
    register_protocol_service, install_protocol_service, tor_install_plugins, install_service.
  cbn [rg_view fst snd rv_transports install_transport].
  rewrite lookup_insert_Some. intros [[_ <-]|[_ Hl]]; [by right; left|]. revert Hl.
  unfold ipfs_install_plugins, gateway_transport.
  destruct (ic_transport config); [destruct (gateway_candidates config) as [|g gs]|
    destruct (ic_kubo_rpc config) as [endpoint|]]; cbn;
    rewrite ?lookup_insert_Some; intros Hl; repeat destruct Hl as [[Hid Hp]|[_ Hl]];
    rewrite ?lookup_empty in *; try done; subst; [by left| | by left | | by left | by left].
  - right; right; left. by eexists.
  - right; right; right. by eexists.
Qed.

(** A URL that is not IPFS's is refused before the network is used. *)
Definition no_ipfs (source : string) : Prop := forall parts, ipfs_url_parts source <> Ok parts.

Lemma onion_no_ipfs source url :
  url_parse source = Ok url -> onion_url url -> no_ipfs source.
Proof.
  intros Hurl Ho parts. unfold ipfs_url_parts. rewrite Hurl. cbn [map_err].
  by destruct Ho as [Hs|[Hs _]]; destruct Hs as [<-|[<-|[]]].
Qed.

Lemma gateway_attempts_refused gateways execute request budget error order
    (w w' : NetWorld N T) r :
  no_ipfs (tq_url request) ->
  gateway_attempts gateways execute request budget error None order w = (w', r) ->
  nw_net w' = nw_net w /\ forall response, r <> Ok response.
Proof.
  intros Hno. induction order as [|i order IH]; cbn [gateway_attempts].
  { by intros [= <- <-]. }
  destruct (gateways !! i) as [gateway|]; [|exact IH].
  unfold ipfs_gateway_http_url. destruct (ipfs_url_parts _) as [parts|e] eqn:E.
  { by destruct (Hno parts). }
  by intros [= <- <-].
Qed.

Lemma kubo_fetch_refused (endpoint : IpfsKuboRpcEndpoint)
    (execute : Url -> string -> ResourceBudget -> state_result N BroadwebdError HttpFetchResponse)
    request budget n :
  no_ipfs (tq_url request) ->
  exists e, kubo_fetch_http_with_executor endpoint execute request budget n = (n, Err e).
Proof.
  intros Hno. unfold kubo_fetch_http_with_executor, ipfs_content_path_candidates.
  destruct (ipfs_url_parts _) as [parts|e] eqn:E; [by destruct (Hno parts)|]. by exists e.
Qed.

Section OnionEffect.
Context (R : nat -> N -> N -> Prop) (HR : tor_steps R) (budget : ResourceBudget).

(** What the fetch of an onion URL does to the world, and what it answers. *)
Definition onion_effect (w w' : World N T) (r : result BroadwebdError HttpFetchResponse) :
    Prop :=
  (exists k, (k <= 7)%nat /\ R k (nw_net w.1) (nw_net w'.1)) /\ w'.2 = w.2 /\
  (forall response, r = Ok response -> from_onion budget response).

Lemma onion_effect_refused w w' r :
  nw_net w'.1 = nw_net w.1 -> w'.2 = w.2 -> (forall response, r <> Ok response) ->
  onion_effect w w' r.
Proof.
  intros Hn Hs Hr. split_and!; [|done|by intros response ?%Hr].
  exists 0%nat. rewrite Hn. split; [lia|apply (ts_refl R HR)].
Qed.

Lemma transport_effect config id plugin request url w w' r :
  id <> DIRECT_HTTP_PLUGIN -> rv_transports (default_view config) !! id = Some plugin ->
  url_parse (tq_url request) = Ok url -> onion_url url ->
  tp_fetch_http plugin request budget w = (w', r) -> onion_effect w w' r.
Proof.
  intros Hid Hp Hurl Ho. pose proof (onion_no_ipfs _ _ Hurl Ho) as Hno.
  apply installed_transport in Hp as [?|[->|[[gateways ->]|[endpoint ->]]]]; [done|..];
    cbn [lift_transport tp_fetch_http]; unfold on_fst.
  - change (tp_fetch_http tor_arti_http_transport) with (tor_fetch_http (S := S) (N := N) (T := T)).
    destruct (tor_fetch_http_moves R HR request budget w.1) as (k & Hk & HRk).
    destruct (tor_fetch_http _ _ _) as [n [response|e]] eqn:E; intros [= <- <-];
      (split_and!; [by exists k|done|]); [|done].
    intros ? [= <-]. by eapply tor_fetch_http_ok.
  - unfold gateway_fetch_http_with_executor.
    destruct (gateway_attempts _ _ _ _ _ _ _ _) as [n answer] eqn:E.
    apply gateway_attempts_refused in E as [En Ea]; [|done]. intros [= <- <-].
    by apply onion_effect_refused.
  - unfold kubo_rpc_transport. cbn [tp_fetch_http]. unfold on_net.
    destruct (kubo_fetch_refused endpoint reqwest_http_content_request request budget
                (nw_net w.1) Hno) as [e ->].
    intros [= <- <-]. by apply onion_effect_refused.
Qed.

Lemma registry_effect config registry request url w w' r :
  installed_registry config registry -> hq_transport_id request <> Some DIRECT_HTTP_PLUGIN ->
  url_parse (hq_url request) = Ok url -> onion_url url ->
  registry_fetch_http registry request budget w = (w', r) -> onion_effect w w' r.
Proof.
  intros Hreg Hid Hurl Ho. apply installed_view in Hreg as [Hview Hservice].
  unfold registry_fetch_http, service. rewrite Hview, Hservice.
  unfold sr_bind at 1, sr_lift at 1. cbn [ok_or ap_call http_fetch_service http_fetch_call].
  destruct (match hq_transport_id request with Some id => Ok id | None => _ end)
    as [id|e] eqn:Et; [|by intros [= <- <-]; apply onion_effect_refused].
  assert (id <> DIRECT_HTTP_PLUGIN) as Hne.
  { destruct (hq_transport_id request); [by intros ->; injection Et as ->|].
    rewrite (resolve_onion config _ _ Hurl (onion_url_claimed _ Ho)) in Et.
    by injection Et as <-. }
  unfold sr_bind, sr_lift, transport.
  destruct (rv_transports (default_view config) !! id) as [plugin|] eqn:Hp;
    [|by intros [= <- <-]; apply onion_effect_refused].
  cbn [ok_or]. destruct (tp_fetch_http plugin _ budget w) as [w1 [response|e]] eqn:E;
    eapply transport_effect in E as (Hk & Hs & Hr); try done; intros [= <- <-];
    (split_and!; [done..|]); [|done].
  intros ? [= <-]. specialize (Hr response eq_refl). destruct (Hr) as (_ & _ & Hroute).
  by destruct (hr_route response).
Qed.
End OnionEffect.

(** C16: Whatever the network, the file system and the redirects do: an onion URL (the
    [tor+http] schemes, or [http] and [https] with an onion name for a host) fetched through
    the daemon, by the transport its URL selects or by any transport the request names but
    the direct one, opens at most seven Tor connections, each to an onion name, uses the
    network in no other way, and leaves the profile-sync store alone; an answer has the URL of
    an onion target over plain HTTP, a body within the budget, and the Tor route.  A request
    that names the direct transport itself is taken at its word, onion host or not: that case
    is excluded here, and a finding. *)
Theorem onion_stays_in_tor `{DownloadIndexJson} (R : nat -> N -> N -> Prop) config
    (d : BroadwebDaemon (World N T)) request url (s s' : FileSystem * World N T) r :
  tor_steps R -> installed_registry config (bd_registry d) ->
  hq_transport_id request <> Some DIRECT_HTTP_PLUGIN ->
  url_parse (hq_url request) = Ok url -> onion_url url ->
  daemon_fetch_http d request s = (s', r) ->
  (exists k, (k <= 7)%nat /\ R k (nw_net s.2.1) (nw_net s'.2.1)) /\ s'.2.2 = s.2.2 /\
  (forall response, r = Ok response -> from_onion (bd_budget d) response).
Proof.
  intros HR Hd Hid Hurl Ho. unfold daemon_fetch_http. unfold sr_bind at 1, on_files at 1.
  destruct (prepare_profile _ _ s.1) as [files [u|e]].
  2:{ intros [= <- <-]. by apply (onion_effect_refused R HR (bd_budget d) s.2 s.2). }
  unfold sr_bind at 1, on_plugins at 1. cbn [fst snd].
  destruct (registry_fetch_http _ _ _ _) as [w1 [response|e]] eqn:E;
    eapply registry_effect in E as (Hk & Hs & Hr); try done.
  2:{ by intros [= <- <-]. }
  specialize (Hr response eq_refl).
  assert (forall f, hr_final_url f = hr_final_url response -> hr_body f = hr_body response ->
            hr_route f = hr_route response -> from_onion (bd_budget d) f) as Hsame.
  { intros f H1' H2' H3'. unfold from_onion. by rewrite H1', H2', H3'. }
  assert (from_onion (bd_budget d) (requested_disposition request response)) as Hreq.
  { unfold requested_disposition. apply Hsame;
      destruct (hq_suggested_download_filename request); try done;
      by destruct (is_success _). }
  destruct (bool_decide _).
  2:{ intros [= <- <-]. split_and!; [done..|]. by intros ? [= <-]. }
  unfold record_download. destruct (hr_disposition _).
  1,3: intros [= <- <-]; split_and!; [done..|]; by intros ? [= <-].
  unfold sr_bind, on_files. cbn [fst snd].
  destruct (store_download _ _ _ _ _) as [files' [path|e]]; intros [= <- <-];
    (split_and!; [done..|]); [|done]. intros ? [= <-]. exact Hreq.
Qed.
End DefaultRegistry.

(** ** A scripted network *)

Module Script.
(** The requests so far, the replies of the next connections, and the bytes of the stream
    that are not read yet. *)
Record Net := { log : list string; replies : list string; pending : string }.

Definition logged (entry : string) (n : Net) : Net :=
  {| log := log n ++ [entry]; replies := replies n; pending := pending n |}.

#[export] Instance http : HttpNetwork Net := {|
  http_get url := fun n => (logged ("GET " +:+ url_as_str url) n, Err "unreachable");
  http_post url _ := fun n => (logged ("POST " +:+ url_as_str url) n, Err "unreachable")
|}.

#[export] Instance tor : TorNetwork Net unit unit := {|
  tor_runtime_new := sr_ret tt;
  tor_create_bootstrapped := sr_ret tt;
  tor_connect _ host port := fun n =>
    match replies n with
    | [] => (logged ("tor " +:+ host) n, Err (Failed "no reply"))
    | reply :: rest =>
        ({| log := log n ++ ["tor " +:+ host]; replies := rest; pending := reply |}, Ok tt)
    end;
  tor_write_all _ _ := sr_ret tt;
  tor_flush _ := sr_ret tt;
  tor_read _ := fun n =>
    ({| log := log n; replies := replies n; pending := "" |}, Ok (pending n))
|}.

(** The log grew by connections to onion hosts. *)
Definition onion_log (k : nat) (n n' : Net) : Prop :=
  exists hosts, length hosts = k /\ log n' = log n ++ map (fun host => "tor " +:+ host) hosts /\
    Forall onion_hostname hosts.

Lemma onion_log_steps : tor_steps onion_log.
Proof.
  split.
  - intros n. exists []. split_and!; [done|by rewrite app_nil_r|constructor].
  - intros j k a b c (h1 & <- & H1 & F1) (h2 & <- & H2 & F2). exists (h1 ++ h2).
    split_and!; [by rewrite length_app| |by apply Forall_app].
    by rewrite H2, H1, map_app, app_assoc.
  - intros n. exists []. split_and!; [done|by rewrite app_nil_r|constructor].
  - intros n. exists []. split_and!; [done|by rewrite app_nil_r|constructor].
  - intros c host port n Hh. exists [host].
    split_and!; [done| |by repeat constructor]. cbn. by destruct (replies n).
  - intros. exists []. split_and!; [done|by rewrite app_nil_r|constructor].
  - intros. exists []. split_and!; [done|by rewrite app_nil_r|constructor].
  - intros. exists []. split_and!; [done|by rewrite app_nil_r|constructor].
Qed.

#[export] Existing Instance reference_crate.
#[export] Existing Instance bars_index_json.

Definition lines (l : list string) : string := String.concat crlf l.
Definition config : IpfsConfig :=
  match default_local_gateway with
  | Ok config => config
  | Err _ => {| ic_gateway := {| base_url := ""; scope := LocalScope |};
                ic_public_gateway_fallbacks := []; ic_kubo_rpc := None;
                ic_transport := GatewayTransport; ic_allow_public_gateway_fallback := false |}
  end.
Definition daemon : BroadwebDaemon (World Net unit) :=
  {| bd_state_root := demo_root; bd_budget := default_budget;
     bd_registry := with_default_http_and_ipfs_config config;
     bd_lifecycle := LifecycleReady |}.

(** An onion site that redirects to another one. *)
Definition script : Net := {|
  log := []; pending := "";
  replies := [lines ["HTTP/1.1 302 Found"; "Location: http://b.onion/x"; ""; ""];
              lines ["HTTP/1.1 200 OK"; "Content-Type: text/html";
                     "Transfer-Encoding: chunked"; ""; "5"; "hello"; "0"; ""; ""]] |}.
Definition world : World Net unit := (Build_NetWorld script status_idle 0 None, default_store).
Definition onion_request : HttpFetchRequest := default_profile_request "http://a.onion/".
End Script.

Section Witnesses.
Import Script.

Abbreviation onion_run := (daemon_fetch_http daemon onion_request (empty_fs, world)).

Lemma onion_stays_in_tor_witness :
  (exists k, (k <= 7)%nat /\ onion_log k script (nw_net onion_run.1.2.1)) /\
  onion_run.1.2.2 = default_store /\
  (forall response, onion_run.2 = Ok response -> from_onion default_budget response).
Proof.
  destruct (reference_parse "http://a.onion/") as [url|] eqn:E; [|by vm_compute in E].
  refine (onion_stays_in_tor onion_log config daemon onion_request url (empty_fs, world)
            onion_run.1 onion_run.2 onion_log_steps (or_introl eq_refl) _ E _
            (surjective_pairing onion_run)).
  - by vm_compute.
  - assert (is_onion_host "a.onion" = true) as Ha%is_onion_host_spec by by vm_compute.
    right. revert E. vm_compute. intros [= <-]. split; [by left|]. by exists "a.onion".
Defined.

Example onion_run_log :
  (log (nw_net onion_run.1.2.1),
   result_map (fun r => (hr_final_url r, hr_status_code r, hr_body r)) onion_run.2)
  = (["tor a.onion"; "tor b.onion"], Ok ("tor+http://b.onion/x", 200, "hello")).
Proof. vm_compute. reflexivity. Qed.
End Witnesses.
