(* ===== verification/GatewayLaws.v ===== *)
(** * The gateway transport settles

    A fetch asks each candidate gateway at most once, answers with a usable response when a
    candidate has one, and starts the next fetch at the gateway that worked. *)
From S2P Require Import Prelude RustStr Broadwebd Routing Http Daemon Network Gateway.
From S2P Require Import UrlReference.

(** ** Rotations *)

Lemma rotation_length start count : length (rotation start count) = count.
Proof. unfold rotation. by rewrite length_map, length_seq. Qed.

Lemma rotation_bound start count i : i ∈ rotation start count -> (i < count)%nat.
Proof.
  unfold rotation. intros (offset & -> & Ho%elem_of_seq)%list_elem_of_fmap.
  apply Nat.mod_upper_bound. lia.
Qed.

Lemma rotation_complete start count i :
  (start < count)%nat -> (i < count)%nat -> i ∈ rotation start count.
Proof.
  intros Hs Hi. apply list_elem_of_fmap.
  exists (if decide (start <= i)%nat then i - start else i + count - start)%nat.
  split; [|apply elem_of_seq; destruct (decide _); lia].
  destruct (decide _).
  - rewrite Nat.mod_small by lia. lia.
  - replace (start + (i + count - start))%nat with (i + 1 * count)%nat by lia.
    rewrite Nat.Div0.mod_add, Nat.mod_small; lia.
Qed.

Lemma rotation_head start count :
  (start < count)%nat -> exists rest, rotation start count = start :: rest.
Proof.
  intros Hs. destruct count as [|count]; [lia|]. eexists. unfold rotation. cbn [seq map].
  f_equal. rewrite Nat.add_0_r. by apply Nat.mod_small.
Qed.

(** ** The transport *)

Section GatewayLaws.
Context {N T : Type} `{UrlCrate} (gateways : list IpfsGatewayEndpoint).
Context (execute : Url -> ResourceBudget -> state_result N BroadwebdError HttpFetchResponse).
Context (request : TransportHttpRequest) (budget : ResourceBudget).

(** The URL a gateway is asked for. *)
Definition gateway_target (g : IpfsGatewayEndpoint) : result BroadwebdError Url :=
  let? gateway_url := ipfs_gateway_http_url (tq_url request) (base_url g) in
  parse_http_url gateway_url.

(** [R k n n'] holds for every run of [k] requests, each to a gateway that may be asked. *)
Record gateway_steps (may_ask : IpfsGatewayEndpoint -> Prop) (R : nat -> N -> N -> Prop) :
    Prop := {
  gs_refl n : R 0%nat n n;
  gs_trans j k a b c : R j a b -> R k b c -> R (j + k)%nat a c;
  gs_execute g url n :
    may_ask g -> gateway_target g = Ok url -> R 1%nat n (execute url budget n).1
}.

(** A gateway that answers with a usable response, whatever the network did before. *)
Definition healthy (g : IpfsGatewayEndpoint) : Prop :=
  exists url, gateway_target g = Ok url /\
    forall n, exists n' response,
      execute url budget n = (n', Ok response) /\ is_usable_gateway_response response = true.

Definition settled (w' : NetWorld N T) (r : result BroadwebdError HttpFetchResponse) : Prop :=
  exists g response usable,
    r = Ok response /\ gateways !! nw_active_gateway w' = Some g /\
    is_usable_gateway_response usable = true /\
    response = with_route usable (selected_gateway_route request g) /\
    st_kind (nw_status w') = Complete.

(** Runs the statements of an attempt, up to the next opaque call. *)
Ltac run_attempt :=
  cbv [sr_bind sr_lift sr_ret publish_gateway_attempt_status publish_gateway_complete_status
       publish_gateway_response_failure_status publish_gateway_error_status report
       set_active_gateway_index set_nw_status set_nw_net];
  cbn [nw_net nw_status nw_active_gateway nw_tor].

(** One attempt: the fetch ends there with a usable response, or goes on. *)
Lemma gateway_attempts_step e lr i order (w : NetWorld N T) g url :
  gateways !! i = Some g -> gateway_target g = Ok url ->
  let n := (execute url budget (nw_net w)).1 in
  (exists status response,
     (execute url budget (nw_net w)).2 = Ok response /\
     is_usable_gateway_response response = true /\
     st_kind status = Complete /\
     gateway_attempts gateways execute request budget e lr (i :: order) w
     = (Build_NetWorld n status i (nw_tor w),
        Ok (with_route response (selected_gateway_route request g)))) \/
  (exists status e' lr',
     (forall response, (execute url budget (nw_net w)).2 = Ok response ->
        is_usable_gateway_response response = false) /\
     gateway_attempts gateways execute request budget e lr (i :: order) w
     = gateway_attempts gateways execute request budget e' lr' order
         (Build_NetWorld n status (nw_active_gateway w) (nw_tor w))).
Proof.
  unfold gateway_target. intros Hg Ht. cbn [gateway_attempts]. rewrite Hg.
  destruct (ipfs_gateway_http_url _ _) as [text|]; [|done]. cbn in Ht.
  run_attempt. rewrite Ht.
  destruct (execute url budget (nw_net w)) as [n [response|error]]; cbn [fst snd].
  - destruct (is_usable_gateway_response response) eqn:E.
    + left. do 2 eexists. split; [reflexivity|]. split; [done|]. split; [|reflexivity].
      reflexivity.
    + right. eexists _, _, _. split; [by intros ? [= <-]|reflexivity].
  - right. eexists _, _, _. split; [done|reflexivity].
Qed.

Lemma gateway_attempts_reach may_ask R e lr order (w w' : NetWorld N T) r :
  gateway_steps may_ask R -> (forall g, g ∈ gateways -> may_ask g) ->
  gateway_attempts gateways execute request budget e lr order w = (w', r) ->
  exists k, (k <= length order)%nat /\ R k (nw_net w) (nw_net w').
Proof.
  intros HR Hask. revert e lr w. induction order as [|i order IH]; intros e lr w Hrun.
  { exists 0%nat. split; [done|]. replace (nw_net w') with (nw_net w).
    - apply (gs_refl _ R HR).
    - cbn in Hrun. by destruct lr; injection Hrun as <- _. }
  destruct (gateways !! i) as [g|] eqn:Hg.
  2:{ cbn [gateway_attempts] in Hrun. rewrite Hg in Hrun.
      destruct (IH _ _ _ Hrun) as (k & Hk & HRk). exists k. cbn. split; [lia|done]. }
  destruct (gateway_target g) as [url|error] eqn:Ht.
  2:{ exists 0%nat. split; [lia|]. cbn [gateway_attempts] in Hrun. rewrite Hg in Hrun.
      unfold gateway_target in Ht.
      revert Hrun. destruct (ipfs_gateway_http_url _ _) as [text|]; cbn in Ht;
        run_attempt; [rewrite Ht|]; intros [= <- _]; apply (gs_refl _ R HR). }
  assert (R 1%nat (nw_net w) (execute url budget (nw_net w)).1) as H1.
  { apply (gs_execute _ R HR g); [by eapply Hask, list_elem_of_lookup_2|done]. }
  destruct (gateway_attempts_step e lr i order w g url Hg Ht)
    as [(status & response & _ & _ & _ & E)|(status & e' & lr' & _ & E)]; rewrite E in Hrun.
  - injection Hrun as <- _. exists 1%nat. cbn. split; [lia|done].
  - destruct (IH _ _ _ Hrun) as (k & Hk & HRk). exists (S k). cbn. split; [lia|].
    by eapply (gs_trans _ R HR 1 k).
Qed.

Lemma gateway_attempts_settle e lr order (w : NetWorld N T) j g :
  (forall g, g ∈ gateways -> exists url, gateway_target g = Ok url) ->
  (forall i, i ∈ order -> (i < length gateways)%nat) ->
  j ∈ order -> gateways !! j = Some g -> healthy g ->
  settled (gateway_attempts gateways execute request budget e lr order w).1
          (gateway_attempts gateways execute request budget e lr order w).2.
Proof.
  intros Hall. revert e lr w. induction order as [|i order IH]; intros e lr w Hi Hj Hg Hh.
  { by apply elem_of_nil in Hj. }
  destruct (lookup_lt_is_Some_2 gateways i) as [gi Hgi]; [apply Hi; left|].
  destruct (Hall gi) as [url Ht]; [by eapply list_elem_of_lookup_2|].
  destruct (gateway_attempts_step e lr i order w gi url Hgi Ht)
    as [(status & response & Hr & Hu & Hs & ->)|(status & e' & lr' & Hbad & ->)].
  - by exists gi, (with_route response (selected_gateway_route request gi)), response.
  - apply IH; [set_solver| |done..].
    apply elem_of_cons in Hj as [->|Hj]; [|done]. exfalso.
    rewrite Hg in Hgi. injection Hgi as <-.
    destruct Hh as (url' & Ht' & Hh). rewrite Ht in Ht'. injection Ht' as <-.
    destruct (Hh (nw_net w)) as (n' & response & Hx & Hu).
    specialize (Hbad response). rewrite Hx in Hbad. rewrite (Hbad eq_refl) in Hu. done.
Qed.

End GatewayLaws.

(** The gateways of a configuration: its own, and the public fallbacks when it enables them. *)
Definition configured (config : IpfsConfig) (g : IpfsGatewayEndpoint) : Prop :=
  g = ic_gateway config \/
  (ic_allow_public_gateway_fallback config = true /\ g ∈ ic_public_gateway_fallbacks config).

(** Those a budget allows: the public fallback is one of its limits. *)
Definition allowed (config : IpfsConfig) (budget : ResourceBudget) (g : IpfsGatewayEndpoint) :
    Prop :=
  configured config g /\
  (g = ic_gateway config \/ allow_public_gateway_fallback budget = true).

Lemma elem_of_candidates config g : g ∈ gateway_candidates config <-> configured config g.
Proof.
  unfold gateway_candidates, configured. rewrite elem_of_cons.
  destruct (ic_allow_public_gateway_fallback config); [naive_solver|].
  rewrite elem_of_nil. naive_solver.
Qed.

(** C25: A fetch asks gateways of the configuration only, each at most once, and uses the network
    in no other way.  When every one of them can be asked and one that the budget allows (the
    configured gateway, or a public fallback under a budget that allows the fallback) is
    healthy, the fetch answers with a usable response, labelled with the gateway that the next
    fetch starts at; when that start is itself healthy, the fetch is one request.  Nothing is
    claimed of the public fallbacks under a budget that forbids them: the transport does not
    read that limit and asks them all the same, against docs/architecture/broadwebd.md, which
    is a finding ([Fallback.fallback_ignores_budget]). *)
Theorem gateway_fetch_settles {N T} `{UrlCrate} config
    (execute : Url -> ResourceBudget -> state_result N BroadwebdError HttpFetchResponse)
    request budget R (w w' : NetWorld N T) r :
  let gateways := gateway_candidates config in
  let start := active_gateway_index gateways w in
  gateway_steps execute request budget (configured config) R ->
  (forall g, configured config g -> exists url, gateway_target request g = Ok url) ->
  gateway_fetch_http_with_executor gateways execute request budget w = (w', r) ->
  (exists k, (k <= length gateways)%nat /\ R k (nw_net w) (nw_net w')) /\
  (forall g, allowed config budget g -> healthy execute request budget g ->
     settled gateways request w' r) /\
  (forall g url, gateways !! start = Some g -> allowed config budget g ->
     healthy execute request budget g -> gateway_target request g = Ok url ->
     nw_active_gateway w' = start /\ nw_net w' = (execute url budget (nw_net w)).1).
Proof.
  cbn zeta. intros HR Hall. pose proof (elem_of_candidates config) as Hask.
  unfold gateway_fetch_http_with_executor, gateway_attempt_order.
  set (gateways := gateway_candidates config) in *.
  assert (active_gateway_index gateways w < length gateways)%nat as Hactive.
  { unfold active_gateway_index. destruct (decide _); [done|]. cbn. lia. }
  intros Hrun. split_and!.
  - destruct (gateway_attempts_reach gateways _ _ _ _ _ _ _ _ _ _ _ HR
                (fun g => proj1 (Hask g)) Hrun) as (k & Hk & HRk).
    exists k. by rewrite rotation_length in Hk.
  - intros g [[j Hj]%Hask%list_elem_of_lookup _] Hh.
    enough (settled gateways request (w', r).1 (w', r).2) by done. rewrite <-Hrun.
    apply gateway_attempts_settle with (j := j) (g := g); try done.
    + intros g' Hg'. by apply Hall, Hask.
    + intros i. apply rotation_bound.
    + apply rotation_complete; [done|]. by eapply lookup_lt_Some.
  - intros g url Hg _ (url' & Ht' & Hh) Ht. rewrite Ht in Ht'. injection Ht' as <-.
    destruct (rotation_head _ _ Hactive) as [rest Hrest]. rewrite Hrest in Hrun.
    destruct (gateway_attempts_step gateways execute request budget None None _ rest w g url Hg Ht)
      as [(status & response & _ & _ & _ & E)|(status & e' & lr' & Hbad & _)].
    + rewrite E in Hrun. by injection Hrun as <- _.
    + destruct (Hh (nw_net w)) as (n' & response & Hx & Hu).
      specialize (Hbad response). rewrite Hx in Hbad. by rewrite (Hbad eq_refl) in Hu.
Qed.

(** ** A network whose local gateway is down *)

Module Fallback.
#[local] Existing Instance reference_crate.

Definition page (url : Url) : HttpFetchResponse :=
  http_fetch_response_new (url_as_str url) 200 (Some "text/html") [] "<p>page</p>".
Definition execute (url : Url) (_ : ResourceBudget) :
    state_result (list string) BroadwebdError HttpFetchResponse := fun log =>
  (log ++ [url_as_str url],
   if bool_decide (url_host_str url = Some "127.0.0.1") then Err (Request "refused")
   else Ok (page url)).
Definition config : IpfsConfig := Eval vm_compute in
  match default_local_gateway with
  | Ok config => config
  | Err _ => {| ic_gateway := {| base_url := ""; scope := LocalScope |};
                ic_public_gateway_fallbacks := []; ic_kubo_rpc := None;
                ic_transport := GatewayTransport; ic_allow_public_gateway_fallback := false |}
  end.
Abbreviation candidates := (gateway_candidates config).
Definition request : TransportHttpRequest :=
  {| tq_profile := "default"; tq_url := "ipfs://bafy/a"; tq_purpose := Navigation |}.
Definition start : NetWorld (list string) unit := Build_NetWorld [] status_idle 0 None.

(** The default budget, with the public fallback allowed. *)
Definition open_budget : ResourceBudget := {|
  max_idle_memory_bytes := max_idle_memory_bytes default_budget;
  max_cache_size_per_profile_bytes := max_cache_size_per_profile_bytes default_budget;
  max_peer_connections := max_peer_connections default_budget;
  max_protocol_workers := max_protocol_workers default_budget;
  max_background_bandwidth_bytes_per_second := max_background_bandwidth_bytes_per_second default_budget;
  allow_metered_network := allow_metered_network default_budget;
  allow_background_on_battery := allow_background_on_battery default_budget;
  allow_inbound_connections := allow_inbound_connections default_budget;
  allow_reprovide := allow_reprovide default_budget;
  allow_public_gateway_fallback := true;
  max_http_response_bytes := max_http_response_bytes default_budget;
  max_profile_sync_object_bytes := max_profile_sync_object_bytes default_budget |}.

Abbreviation first budget :=
  (gateway_fetch_http_with_executor candidates execute request budget start).
Abbreviation second budget :=
  (gateway_fetch_http_with_executor candidates execute request budget (first budget).1).

Definition grows (k : nat) (log log' : list string) : Prop :=
  exists urls, length urls = k /\ log' = log ++ urls.

Lemma grows_steps :
  gateway_steps execute request open_budget (configured config) grows.
Proof.
  split.
  - intros n. exists []. by rewrite app_nil_r.
  - intros j k a b c (u & <- & ->) (v & <- & ->). exists (u ++ v).
    by rewrite length_app, app_assoc.
  - intros g url n _ _. by exists [url_as_str url].
Qed.

Lemma candidates_askable g :
  configured config g -> exists url, gateway_target request g = Ok url.
Proof.
  assert (forallb (fun g => is_ok (gateway_target request g)) candidates = true) as Hall
    by (vm_compute; reflexivity).
  intros Hg%elem_of_candidates%list_elem_of_In.
  rewrite forallb_forall in Hall. specialize (Hall g Hg).
  destruct (gateway_target request g) as [url|]; [by exists url|done].
Qed.

(** The first fetch falls back to a public gateway; the second one asks it alone. *)
Lemma gateway_fetch_settles_witness :
  (exists k, (k <= length candidates)%nat /\ grows k [] (nw_net (first open_budget).1)) /\
  settled candidates request (first open_budget).1 (first open_budget).2 /\
  nw_active_gateway (second open_budget).1 = 1%nat.
Proof.
  assert (healthy execute request open_budget
            {| base_url := "https://ipfs.filebase.io"; scope := PublicScope |}) as Hh.
  { eexists. split; [vm_compute; reflexivity|]. intros n. do 2 eexists.
    split; [reflexivity|]. vm_compute. reflexivity. }
  destruct (gateway_fetch_settles config execute request open_budget grows start
              (first open_budget).1 (first open_budget).2) as (H1 & H2 & _);
    [exact grows_steps|exact candidates_askable|apply surjective_pairing|].
  split; [exact H1|]. split; [apply (H2 _) in Hh; [exact Hh|]|].
  - split; [right|by right]. split; [reflexivity|].
    apply list_elem_of_lookup. exists 0%nat. vm_compute. reflexivity.
  - vm_compute. reflexivity.
Defined.

(** The default budget forbids the public fallback; the request leaves the machine. *)
Example fallback_ignores_budget :
  allow_public_gateway_fallback default_budget = false /\
  nw_net (second default_budget).1
  = ["http://127.0.0.1:8080/ipfs/bafy/a"; "https://ipfs.filebase.io/ipfs/bafy/a";
     "https://ipfs.filebase.io/ipfs/bafy/a"].
Proof. split; vm_compute; reflexivity. Qed.
End Fallback.
