(* ===== verification/ProfileSyncLaws.v ===== *)
(** * Properties of the profile-sync service

    The invariants of the store of [ProfileSyncService.v] over the histories of a
    shared fixture store, and the behaviour of its operations: atomicity of errors,
    content addressing, capacities and quotas, roots, health, retention. *)
From S2P Require Import Prelude RustStr Broadwebd ProfileSyncService.

(** ** Histories of a shared store *)

(** One operation by any service of the store, or by the fixture. *)
Inductive store_step : ProfileSyncStore -> ProfileSyncStore -> Prop :=
  | step_call self request budget st :
      store_step st (local_dispatch self request budget st).1
  | step_register provider kind r st :
      store_step st (local_fixture_provider provider kind r st).1
  | step_expire st : store_step st (expire_current_provider_freshness st).1
  | step_seen provider st : store_step st (mark_provider_seen provider st).1
  | step_online provider online st : store_step st (set_provider_online provider online st).1
  | step_retention provider available st :
      store_step st (set_provider_retention_available provider available st).1
  | step_quota provider max st : store_step st (set_provider_retention_quota provider max st).1
  | step_remove provider profile object_id st :
      store_step st (remove_provider_object_bytes provider profile object_id st).1
  | step_transfer source target available st :
      store_step st (set_provider_transfer_available source target available st).1
  | step_root source target profile root_id available st :
      store_step st (set_provider_root_available source target profile root_id available st).1.

(** The stores reached from a new fixture in [n] operations. *)
Inductive store_history (c : ProfileSyncFixtureCapacity) : nat -> ProfileSyncStore -> Prop :=
  | history_new : store_history c 0 (with_capacity c)
  | history_next n st st' :
      store_history c n st -> store_step st st' -> store_history c (S n) st'.

(** ** Effects of an operation *)

(** [m] does not fail; a failure of [m] has not written the store. *)
Definition never_fails {A} (m : service_result A) : Prop := forall st, is_ok (m st).2 = true.
Definition fails_clean {A} (m : service_result A) : Prop :=
  forall st st' e, m st = (st', Err e) -> st' = st.

Section Effects.
Context {A B : Type}.
Implicit Types (m : service_result A) (k : A -> service_result B).

Lemma never_fails_bind m k :
  never_fails m -> (forall a, never_fails (k a)) -> never_fails (sr_bind m k).
Proof.
  intros Hm Hk st. specialize (Hm st). unfold sr_bind.
  destruct (m st) as [st1 [a|e]]; simpl in *; [apply Hk|done].
Qed.

(** Guards first, then updates that cannot fail. *)
Lemma fails_clean_reads m k :
  reads m -> (forall a, fails_clean (k a)) -> fails_clean (sr_bind m k).
Proof.
  intros Hm Hk st st' e. specialize (Hm st). unfold sr_bind.
  destruct (m st) as [st1 [a|e1]]; simpl in *; subst; [apply Hk|congruence].
Qed.

Lemma never_fails_clean m : never_fails m -> fails_clean m.
Proof. intros Hm st st' e E. specialize (Hm st). by rewrite E in Hm. Qed.

Lemma reads_clean m : reads m -> fails_clean m.
Proof. intros Hm st st' e E. specialize (Hm st). by rewrite E in Hm. Qed.
End Effects.

Lemma reads_store : reads store.
Proof. by intros st. Qed.
Lemma never_fails_update f : never_fails (update f).
Proof. by intros st. Qed.
Lemma never_fails_ret {A} (a : A) : never_fails (sr_ret a).
Proof. by intros st. Qed.

Ltac effects_step :=
  match goal with
  | |- fails_clean (sr_bind (update _) _) =>
      apply never_fails_clean
  | |- fails_clean (sr_bind _ _) => apply fails_clean_reads; [|intros ?]
  | |- fails_clean (match ?c with _ => _ end) => destruct c
  | |- fails_clean (sr_ret _) => apply reads_clean
  | |- fails_clean (reject _) => apply reads_clean
  | |- fails_clean (sr_err _) => apply reads_clean
  | |- fails_clean (sr_lift _) => apply reads_clean
  | |- never_fails (sr_bind _ _) => apply never_fails_bind; [|intros ?]
  | |- never_fails (update _) => apply never_fails_update
  | |- never_fails (sr_ret _) => apply never_fails_ret
  | |- reads (sr_bind _ _) => apply reads_bind; [|intros ?]
  | |- reads (match ?c with _ => _ end) => destruct c
  | |- reads (sr_lift _) => apply reads_lift
  | |- reads (sr_ret _) => apply reads_ret
  | |- reads (reject _) => apply reads_err
  | |- reads (sr_err _) => apply reads_err
  | |- reads store => apply reads_store
  end; cbv beta zeta.
Ltac solve_effects := cbv zeta; repeat effects_step.

Lemma local_dispatch_fails_clean self request budget :
  fails_clean (local_dispatch self request budget).
Proof.
  destruct request; cbn [local_dispatch];
    unfold put_object, get_object, retain_object, release_object, list_retained_objects,
      verify_retained_object, publish_root, resolve_root, list_root_candidates,
      discover_providers, provider_health, root_health; solve_effects.
Qed.

Lemma kubo_fails_clean self rpc request budget :
  fails_clean (kubo_profile_sync_via_executor self rpc request budget).
Proof.
  destruct request; cbn [kubo_profile_sync_via_executor];
    unfold kubo_put, kubo_get, kubo_retain, kubo_release, list_retained_objects,
      kubo_verify, kubo_publish, kubo_resolve, list_root_candidates,
      discover_providers, provider_health, root_health; solve_effects.
Qed.

Lemma ensure_online_reads self : reads (ensure_online self).
Proof. unfold ensure_online. solve_effects. Qed.

Lemma fails_clean_map {A B} (m : service_result A) (f : A -> B) :
  fails_clean m -> fails_clean (let* a := m in sr_ret (f a)).
Proof.
  intros Hm st st' e. unfold sr_bind. destruct (m st) as [st1 [a|e1]] eqn:E; [done|].
  intros [= <- <-]. by eapply Hm.
Qed.

(** ** The object keys *)

Definition content_addressed (st : ProfileSyncStore) : Prop :=
  forall provider profile object_id bytes,
    st_objects st !! (provider, profile, object_id) = Some bytes ->
    object_id = local_object_id bytes.

Lemma find_online_object_Some st requester profile object_id bytes :
  find_online_object st requester profile object_id = Some bytes ->
  exists provider, st_objects st !! (provider, profile, object_id) = Some bytes /\
    provider_is_fresh_online_for_role st provider object_transfer = true /\
    transfer_available st provider requester = true.
Proof.
  unfold find_online_object.
  destruct (list_find_bool _ _) as [[[[provider p] o] b]|] eqn:E; [|done].
  intros [= <-]. apply list_find_bool_Some in E as [Hin Hs].
  apply elem_of_btree_iter in Hin. unfold serves_object in Hs. simpl in Hs.
  rewrite !andb_true_iff, !str_eqb_eq in Hs. destruct Hs as [[[-> ->] Hf] Ht].
  exists provider. done.
Qed.

Lemma find_online_object_is_Some st requester profile object_id provider bytes :
  st_objects st !! (provider, profile, object_id) = Some bytes ->
  provider_is_fresh_online_for_role st provider object_transfer = true ->
  transfer_available st provider requester = true ->
  is_Some (find_online_object st requester profile object_id).
Proof.
  intros Ho Hf Ht. apply elem_of_btree_iter in Ho.
  unfold find_online_object. destruct (list_find_bool _ _) eqn:E; [done|].
  rewrite list_find_bool_None in E. specialize (E _ Ho). unfold serves_object in E. simpl in E.
  by rewrite !str_eqb_refl, Hf, Ht in E.
Qed.

(** ** References are a set *)

Definition references (st : ProfileSyncStore) : gset triple :=
  dom (st_objects st) ∪ st_retained st.

Lemma gmap_contains_dom {V} (m : gmap triple V) k : gmap_contains m k = bool_decide (k ∈ dom m).
Proof.
  unfold gmap_contains. symmetry. destruct (m !! k) eqn:E.
  - apply bool_decide_eq_true, elem_of_dom. by rewrite E.
  - apply bool_decide_eq_false, not_elem_of_dom. done.
Qed.

Lemma set_count_size (p : triple -> bool) (s : gset triple) :
  set_count p s = Z.of_nat (size (filter (fun k => p k = true) s)).
Proof.
  unfold set_count, count_if. f_equal.
  rewrite <-(size_list_to_set (C := gset triple) (List.filter p (btree_elems s))).
  - f_equal. apply set_eq. intros k. rewrite elem_of_list_to_set, elem_of_filter.
    rewrite elem_of_filter_bool, elem_of_btree_elems. done.
  - assert (Hnd := NoDup_btree_elems s).
    induction Hnd as [|k l Hk Hnd IH]; simpl; [constructor|].
    destruct (p k); [|done]. constructor; [|done]. rewrite elem_of_filter_bool. naive_solver.
Qed.

Lemma object_reference_count_size st :
  object_reference_count st = Z.of_nat (size (references st)).
Proof.
  unfold object_reference_count, references. rewrite set_count_size.
  rewrite <-(size_dom (st_objects st)), <-Nat2Z.inj_add, size_union_alt. do 3 f_equal.
  apply set_eq. intros k. rewrite elem_of_filter, elem_of_difference, gmap_contains_dom.
  rewrite negb_true_iff, bool_decide_eq_false. naive_solver.
Qed.

(** ** The invariant of the store *)

Definition within (max : option Z) (n : Z) : Prop :=
  match max with Some max => n <= Z.max 0 max | None => True end.

Record store_wf (c : ProfileSyncFixtureCapacity) (n : nat) (st : ProfileSyncStore) : Prop := {
  wf_capacity : st_capacity st = c;
  (** objects are stored under the hash of their bytes *)
  wf_addressed : content_addressed st;
  wf_objects : within (max_objects c) (object_reference_count st);
  wf_roots : within (max_roots c) (Z.of_nat (size (st_roots st)));
  wf_providers : within (max_providers c) (Z.of_nat (size (st_providers st)));
  (** a root row carries its publisher and a sequence below the counter *)
  wf_root_rows profile root_id provider root :
    st_roots st !! (profile, root_id, provider) = Some root ->
    root_publisher_provider_id root = provider /\
    root_publish_sequence root <= st_next_root_sequence st;
  wf_next_root : 0 <= st_next_root_sequence st <= Z.of_nat n
}.

Lemma store_wf_S c n st : store_wf c n st -> store_wf c (S n) st.
Proof. intros [? ? ? ? ? ? ?]. split; try done. lia. Qed.

(** Fields the invariant does not mention. *)
Lemma store_wf_same c n st st' :
  st_capacity st' = st_capacity st -> st_objects st' = st_objects st ->
  st_retained st' = st_retained st -> st_roots st' = st_roots st ->
  st_providers st' = st_providers st -> st_next_root_sequence st' = st_next_root_sequence st ->
  store_wf c n st -> store_wf c (S n) st'.
Proof.
  intros E1 E2 E3 E4 E5 E6 [H1 H2 H3 H4 H5 H6 H7]. split.
  - by rewrite E1.
  - unfold content_addressed. by rewrite E2.
  - unfold object_reference_count. by rewrite E2, E3.
  - by rewrite E4.
  - by rewrite E5.
  - rewrite E4, E6. done.
  - rewrite E6. lia.
Qed.

Lemma check_object_capacity_ok c n st key :
  store_wf c n st -> check_profile_sync_fixture_object_capacity st key = Ok tt ->
  within (max_objects c) (Z.of_nat (size ({[ key ]} ∪ references st))).
Proof.
  intros Hwf. unfold check_profile_sync_fixture_object_capacity.
  rewrite gmap_contains_dom. unfold gset_contains.
  destruct (decide (key ∈ references st)) as [Hin|Hin].
  - intros _. assert (({[ key ]} ∪ references st) = references st) as -> by set_solver.
    rewrite <-object_reference_count_size. apply Hwf.
  - assert ((key ∉ dom (st_objects st)) /\ (key ∉ st_retained st)) as [Hd Hr].
    { unfold references in Hin. set_solver. }
    rewrite (bool_decide_eq_false_2 _ Hd), (bool_decide_eq_false_2 _ Hr). simpl.
    unfold check_profile_sync_fixture_new_object_capacity, within.
    rewrite (wf_capacity _ _ _ Hwf). destruct (max_objects c) as [m|]; [|done].
    rewrite size_union, size_singleton by set_solver.
    rewrite object_reference_count_size. case_match eqn:E; [done|]. intros _. lia.
Qed.

Lemma store_wf_put c n st provider profile bytes :
  store_wf c n st ->
  check_profile_sync_fixture_object_capacity st (provider, profile, local_object_id bytes) = Ok tt ->
  store_wf c (S n) (set_st_objects
    (<[(provider, profile, local_object_id bytes) := bytes]> (st_objects st)) st).
Proof.
  intros Hwf Hcheck. pose proof (check_object_capacity_ok _ _ _ _ Hwf Hcheck) as Hcap.
  destruct Hwf as [H1 H2 H3 H4 H5 H6 H7]. split; try done; [| |simpl; lia].
  - intros p pr o b Hl. simpl in Hl. apply lookup_insert_Some in Hl as [[[= <- <- <-] <-]|[_ Hl]];
      [done|by eapply H2].
  - rewrite object_reference_count_size. unfold references in *. simpl.
    rewrite dom_insert_L. by rewrite <-union_assoc_L.
Qed.

Lemma store_wf_retain c n st provider profile object_id bytes :
  store_wf c n st -> object_id = local_object_id bytes ->
  check_profile_sync_fixture_object_capacity st (provider, profile, object_id) = Ok tt ->
  store_wf c (S n) (set_st_retained ({[ (provider, profile, object_id) ]} ∪ st_retained st)
    (set_st_objects (<[(provider, profile, object_id) := bytes]> (st_objects st)) st)).
Proof.
  intros Hwf Hid Hcheck. pose proof (check_object_capacity_ok _ _ _ _ Hwf Hcheck) as Hcap.
  destruct Hwf as [H1 H2 H3 H4 H5 H6 H7]. split; try done; [| |simpl; lia].
  - intros p pr o b Hl. simpl in Hl. apply lookup_insert_Some in Hl as [[[= <- <- <-] <-]|[_ Hl]];
      [done|by eapply H2].
  - rewrite object_reference_count_size. unfold references in *. simpl.
    rewrite dom_insert_L.
    assert (({[ (provider, profile, object_id) ]} ∪ dom (st_objects st)
             ∪ ({[ (provider, profile, object_id) ]} ∪ st_retained st))
            = {[ (provider, profile, object_id) ]} ∪ (dom (st_objects st) ∪ st_retained st))
      as -> by set_solver. done.
Qed.

(** Dropping references. *)
Lemma store_wf_fewer c n st objects retained :
  store_wf c n st -> objects ⊆ st_objects st -> retained ⊆ st_retained st ->
  store_wf c (S n) (set_st_retained retained (set_st_objects objects st)).
Proof.
  intros [H1 H2 H3 H4 H5 H6 H7] Ho Hr. split; try done; [| |simpl; lia].
  - intros p pr o b Hl. simpl in Hl. eapply H2. by eapply lookup_weaken.
  - rewrite object_reference_count_size in H3 |- *. unfold references in *. simpl.
    assert (size (dom objects ∪ retained) <= size (dom (st_objects st) ∪ st_retained st))%nat.
    { apply subseteq_size. apply subseteq_dom in Ho. set_solver. }
    destruct (max_objects c); simpl in *; [lia|done].
Qed.

Lemma store_wf_publish c n st profile root_id provider object_id :
  store_wf c n st -> Z.of_nat n < u64_max ->
  check_profile_sync_fixture_root_capacity st (profile, root_id, provider) = Ok tt ->
  store_wf c (S n) (set_st_roots
    (<[(profile, root_id, provider) :=
         {| root_object_id := object_id; root_publisher_provider_id := provider;
            root_publish_sequence := next_u64 (st_next_root_sequence st) |}]> (st_roots st))
    (set_st_next_root_sequence (next_u64 (st_next_root_sequence st)) st)).
Proof.
  intros [H1 H2 H3 H4 H5 H6 H7] Hn Hcheck.
  assert (Hnext : next_u64 (st_next_root_sequence st) = st_next_root_sequence st + 1).
  { unfold next_u64. rewrite Z.mod_small; [done|]. unfold u64_max in Hn. lia. }
  split; try done; simpl.
  - unfold check_profile_sync_fixture_root_capacity, within in *. rewrite H1 in Hcheck.
    destruct (max_roots c) as [m|]; [|done]. rewrite map_size_insert.
    unfold gmap_contains in Hcheck. destruct (st_roots st !! _) eqn:E; [done|].
    simpl in *. case_match eqn:Em; [done|]. lia.
  - intros p r q root Hl. rewrite Hnext in *.
    apply lookup_insert_Some in Hl as [[[= <- <- <-] <-]|[_ Hl]]; simpl;
      [split; [done|lia]|].
    destruct (H6 p r q root Hl). split; [done|lia].
  - lia.
Qed.

Lemma store_wf_register c n st provider state next :
  store_wf c n st ->
  gmap_contains (st_providers st) provider = true \/
  check_profile_sync_fixture_provider_capacity st provider = Ok tt ->
  store_wf c (S n) (set_st_providers (<[provider := state]> (st_providers st))
                      (set_st_next_seen_sequence next st)).
Proof.
  intros [H1 H2 H3 H4 H5 H6 H7] Hcheck. split; try done; simpl; [|lia].
  unfold check_profile_sync_fixture_provider_capacity, gmap_contains, within in *.
  rewrite H1 in Hcheck. destruct (max_providers c) as [m|]; [|done]. rewrite map_size_insert.
  destruct (st_providers st !! provider) eqn:E; simpl; [done|].
  destruct Hcheck as [|Hcheck]; [done|]. simpl in Hcheck. case_match eqn:Em; [done|]. lia.
Qed.

(** An operation that only reads keeps the invariant. *)
Lemma reads_wf {A} c n (m : service_result A) st :
  reads m -> store_wf c n st -> store_wf c (S n) (m st).1.
Proof. intros Hm Hwf. rewrite Hm. by apply store_wf_S. Qed.

(** A clean failure or the state of a success. *)
Lemma guarded_wf {A B} c n (m : service_result A) (k : A -> service_result B) st :
  reads m -> store_wf c n st ->
  (forall a, (m st).2 = Ok a -> store_wf c (S n) (k a st).1) ->
  store_wf c (S n) (sr_bind m k st).1.
Proof.
  intros Hm Hwf Hk. specialize (Hm st). unfold sr_bind.
  destruct (m st) as [st1 [a|e]]; simpl in *; subst; [by apply Hk|by apply store_wf_S].
Qed.

(** Pass one guard, keeping what it established. *)
Ltac wf_guard :=
  apply guarded_wf; [first [apply reads_lift | apply reads_store]|done|];
  let a := fresh "a" in let Hg := fresh "Hg" in
  intros a Hg; cbv beta iota zeta; simpl in Hg;
  first [injection Hg as <- | destruct a].

Lemma put_object_wf c n self request budget st :
  store_wf c n st -> store_wf c (S n) (put_object self request budget st).1.
Proof.
  intros Hwf. unfold put_object. cbv zeta. do 5 wf_guard. by apply store_wf_put.
Qed.

Lemma retain_object_wf c n self request st :
  store_wf c n st -> store_wf c (S n) (retain_object self request st).1.
Proof.
  intros Hwf. unfold retain_object. cbv zeta. do 5 wf_guard.
  destruct (gset_contains (st_retention_blocked_providers st) (provider_id self));
    [by apply store_wf_S|]. wf_guard.
  destruct (find_online_object st (provider_id self) (or_profile request) (or_object_id request))
    as [bytes|] eqn:Ef; [|by apply store_wf_S].
  wf_guard. apply find_online_object_Some in Ef as (p & Hl & _).
  apply (store_wf_retain c n st (provider_id self) (or_profile request) (or_object_id request) bytes);
    [done| |done]. by eapply (wf_addressed _ _ _ Hwf).
Qed.

Lemma release_object_wf c n self request st :
  store_wf c n st -> store_wf c (S n) (release_object self request st).1.
Proof.
  intros Hwf. unfold release_object. do 3 wf_guard.
  assert (Hst : forall x, set_st_retained x st
                          = set_st_retained x (set_st_objects (st_objects st) st)) by done.
  simpl. rewrite Hst. apply store_wf_fewer; [done|done|set_solver].
Qed.

Lemma publish_root_wf c n self request st :
  store_wf c n st -> Z.of_nat n < u64_max ->
  store_wf c (S n) (publish_root self request st).1.
Proof.
  intros Hwf Hn. unfold publish_root. do 5 wf_guard.
  destruct (negb _); [by apply store_wf_S|]. wf_guard. simpl. by apply store_wf_publish.
Qed.

Lemma local_dispatch_wf c n self request budget st :
  store_wf c n st -> Z.of_nat n < u64_max ->
  store_wf c (S n) (local_dispatch self request budget st).1.
Proof.
  intros Hwf Hn. destruct request; cbn [local_dispatch];
    auto using put_object_wf, retain_object_wf, release_object_wf, publish_root_wf;
    apply reads_wf; try done;
    unfold get_object, list_retained_objects, verify_retained_object, resolve_root,
      list_root_candidates, discover_providers, provider_health, root_health; solve_effects.
Qed.

Ltac wf_same :=
  match goal with H : store_wf ?c ?n ?st |- _ => by apply (store_wf_same c n st) end.

Lemma local_fixture_provider_wf c n provider kind r st :
  store_wf c n st -> store_wf c (S n) (local_fixture_provider provider kind r st).1.
Proof.
  intros Hwf. unfold local_fixture_provider. cbv zeta. wf_guard.
  destruct (check_profile_sync_fixture_provider_capacity st provider) as [[]|e] eqn:E;
    [|by apply store_wf_S].
  by apply (store_wf_register c n st provider); [|right].
Qed.

Lemma store_step_wf c n st st' :
  store_wf c n st -> Z.of_nat n < u64_max -> store_step st st' -> store_wf c (S n) st'.
Proof.
  intros Hwf Hn Hst. destruct Hst.
  - by apply local_dispatch_wf.
  - by apply local_fixture_provider_wf.
  - wf_same.
  - unfold mark_provider_seen. wf_guard.
    destruct (st_providers st !! provider) as [state|] eqn:E; [|by apply store_wf_S].
    apply (store_wf_register c n st provider); [done|]. left. unfold gmap_contains. by rewrite E.
  - unfold set_provider_online. do 2 wf_guard. wf_same.
  - unfold set_provider_retention_available. do 2 wf_guard. wf_same.
  - unfold set_provider_retention_quota. do 2 wf_guard. wf_same.
  - unfold remove_provider_object_bytes. do 4 wf_guard.
    assert (Hst : forall x, set_st_objects x st
                            = set_st_retained (st_retained st) (set_st_objects x st)) by done.
    simpl. rewrite Hst. apply store_wf_fewer; [done|apply delete_subseteq|done].
  - unfold set_provider_transfer_available. do 3 wf_guard. wf_same.
  - unfold set_provider_root_available. do 5 wf_guard. wf_same.
Qed.

Lemma store_history_wf c n st :
  store_history c n st -> Z.of_nat n <= u64_max -> store_wf c n st.
Proof.
  induction 1 as [|n st st' Hh IH Hst]; intros Hn.
  - split; try done; unfold within; cbn [with_capacity set_st_capacity st_capacity].
    + destruct (max_objects c); [|done]. assert (object_reference_count (with_capacity c) = 0)
        as -> by reflexivity. lia.
    + destruct (max_roots c) as [m|]; [|done]. change (0 <= Z.max 0 m). lia.
    + destruct (max_providers c) as [m|]; [|done]. change (0 <= Z.max 0 m). lia.
  - eapply store_step_wf; [apply IH|..|done]; lia.
Qed.

(** ** Root candidates *)

(** The order of candidates: latest first, then by publisher and object. *)
Definition candidate_key (c : ProfileSyncRootCandidate) : Z * string * string :=
  (- rc_publish_sequence c, rc_publisher_provider_id c, rc_object_id c).

Lemma candidate_cmp_key x y : candidate_cmp x y = key_cmp candidate_key x y.
Proof.
  unfold candidate_cmp, key_cmp, candidate_key. rewrite !rust_cmp_pair.
  assert (rust_cmp (rc_publish_sequence y) (rc_publish_sequence x)
          = rust_cmp (- rc_publish_sequence x) (- rc_publish_sequence y)) as ->.
  { unfold rust_cmp, RustOrd_Z. symmetry. apply Z.compare_opp. }
  unfold then_cmp. by destruct (rust_cmp (- rc_publish_sequence x) (- rc_publish_sequence y)).
Qed.

(** An element strictly below all the others comes first. *)
Lemma head_sort_candidates l x :
  x ∈ l ->
  (forall y, y ∈ l -> y <> x -> rc_publish_sequence y < rc_publish_sequence x) ->
  head (sort_by candidate_cmp l) = Some x.
Proof.
  intros Hx Hmax.
  pose proof (sort_by_StronglySorted candidate_key candidate_cmp candidate_cmp_key l) as Hs.
  pose proof (sort_by_Permutation candidate_cmp l) as Hp.
  destruct (sort_by candidate_cmp l) as [|y k].
  { apply Permutation_nil_l in Hp. subst. by apply elem_of_nil in Hx. }
  simpl. f_equal. destruct (decide (y = x)) as [|Hne].
  { done. }
  exfalso. assert (Hy : y ∈ l) by (rewrite <-Hp; left). specialize (Hmax y Hy Hne).
  assert (Hxk : x ∈ k).
  { rewrite <-Hp in Hx. apply elem_of_cons in Hx as [->|]; done. }
  apply StronglySorted_cons in Hs as [Hle _]. rewrite Forall_forall in Hle.
  specialize (Hle x Hxk). unfold rust_le, candidate_key in Hle. rewrite !rust_cmp_pair in Hle.
  apply Hle. unfold rust_cmp at 1, RustOrd_Z.
  assert ((- rc_publish_sequence y ?= - rc_publish_sequence x) = Gt) as ->; [|done].
  apply Z.compare_gt_iff. lia.
Qed.

Lemma elem_of_visible st requester profile root_id x :
  x ∈ visible_root_candidates st requester profile root_id <->
  exists provider root, st_roots st !! (profile, root_id, provider) = Some root /\
    x = candidate_of root /\ provider_has_role st provider mutable_roots = true /\
    root_available st provider requester profile root_id = true.
Proof.
  unfold visible_root_candidates. rewrite elem_of_sort_by, list_elem_of_fmap. split.
  - intros ([[[p r] provider] root] & -> & Hin). apply elem_of_filter_bool in Hin as [Hm Hin].
    apply elem_of_btree_iter in Hin. unfold root_matches in Hm.
    rewrite !andb_true_iff, !str_eqb_eq in Hm. destruct Hm as [[[-> ->] Hr] Ha].
    exists provider, root. done.
  - intros (provider & root & Hl & -> & Hr & Ha). exists ((profile, root_id, provider), root).
    split; [done|]. apply elem_of_filter_bool. rewrite elem_of_btree_iter.
    split; [|done]. unfold root_matches. by rewrite !str_eqb_refl, Hr, Ha.
Qed.

(** ** Availability of an object *)

Lemma classify_available st requester profile object_id keys a :
  available_provider_ids (fold_left (classify_provider st requester profile object_id) keys a)
  = available_provider_ids a
    ++ map (fun key => key.1.1) (List.filter (serves_object st requester profile object_id) keys).
Proof.
  revert a. induction keys as [|[[provider p] o] keys IH]; intros a; cbn [fold_left List.filter].
  { by rewrite app_nil_r. }
  rewrite IH. unfold classify_provider, serves_object at 2, provider_is_fresh_online_for_role.
  destruct (str_eqb p profile), (str_eqb o object_id); simpl; try done.
  destruct (st_providers st !! provider) as [state|]; simpl.
  - destruct (object_transfer (ps_roles state)), (provider_is_online st provider (ps_roles state)),
      (provider_is_fresh st (ps_last_seen_sequence state)),
      (transfer_available st provider requester); simpl; try done; by rewrite <-app_assoc.
  - destruct (transfer_available st provider requester); simpl; [by rewrite <-app_assoc|done].
Qed.

(** Some provider is listed as available exactly when the object can be fetched. *)
Lemma available_iff_found st requester profile object_id :
  available_provider_ids (latest_object_provider_availability st requester profile object_id) <> []
  <-> is_Some (find_online_object st requester profile object_id).
Proof.
  unfold latest_object_provider_availability. rewrite classify_available. simpl. split.
  - intros Hne. destruct (List.filter _ _) as [|key keys] eqn:E; [done|].
    assert (Hin : key ∈ List.filter (serves_object st requester profile object_id)
                          (map fst (btree_iter (st_objects st)))) by (rewrite E; left).
    apply elem_of_filter_bool in Hin as [Hs Hin]. apply list_elem_of_fmap in Hin.
    destruct Hin as ([k bytes] & -> & Hin). unfold find_online_object.
    destruct (list_find_bool _ _) eqn:Ef; [done|].
    rewrite list_find_bool_None in Ef. specialize (Ef _ Hin). simpl in *. congruence.
  - intros [bytes Hb] Hnil. apply find_online_object_Some in Hb as (provider & Hl & Hf & Ht).
    apply elem_of_btree_iter in Hl.
    assert (Hin : (provider, profile, object_id) ∈ List.filter
              (serves_object st requester profile object_id) (map fst (btree_iter (st_objects st)))).
    { apply elem_of_filter_bool. split.
      - unfold serves_object. by rewrite !str_eqb_refl, Hf, Ht.
      - apply list_elem_of_fmap. by exists ((provider, profile, object_id), bytes). }
    destruct (List.filter _ _); [by apply elem_of_nil in Hin|done].
Qed.

(** Unfold an operation whose guards are known to pass. *)
Lemma sr_bind_lift_ok {A B} (r : result BroadwebdError A) a (k : A -> service_result B) st :
  r = Ok a -> sr_bind (sr_lift r) k st = k a st.
Proof. by intros ->. Qed.

Lemma sr_bind_lift_inv {A B} (r : result BroadwebdError A) (k : A -> service_result B) st st' b :
  sr_bind (sr_lift r) k st = (st', Ok b) -> exists a, r = Ok a /\ k a st = (st', Ok b).
Proof. unfold sr_bind, sr_lift. destruct r; [eauto|done]. Qed.

Lemma sr_bind_store {B} (k : ProfileSyncStore -> service_result B) st :
  sr_bind store k st = k st st.
Proof. done. Qed.

(** Invert the success of the next guard. *)
Ltac inv_guard H :=
  first
    [ rewrite sr_bind_store in H
    | apply sr_bind_lift_inv in H as ([] & ? & H) ]; cbv beta zeta in H.

Lemma require_role_ok self enabled role : require_role self enabled role = Ok tt <-> enabled = true.
Proof. unfold require_role. by destruct enabled. Qed.

Lemma get_object_found self request budget st bytes :
  validate_profile (or_profile request) = Ok tt ->
  validate_profile_sync_object_id (or_object_id request) = Ok tt ->
  object_transfer (roles self) = true ->
  find_online_object st (provider_id self) (or_profile request) (or_object_id request)
    = Some bytes ->
  str_len bytes <= max_profile_sync_object_bytes budget ->
  get_object self request budget st
  = (st, Ok (GetEncryptedObjectResponse (or_object_id request) bytes)).
Proof.
  intros H1 H2 H3 H4 H5. unfold get_object.
  rewrite (sr_bind_lift_ok _ tt), (sr_bind_lift_ok _ tt), (sr_bind_lift_ok _ tt)
    by (try done; by apply require_role_ok).
  rewrite sr_bind_store. cbv zeta. rewrite H4.
  rewrite (sr_bind_lift_ok _ tt); [done|].
  unfold validate_object_budget. by rewrite (proj2 (Z.ltb_ge _ _)).
Qed.

(** ** The counters of provider health *)

(** The providers counted so far, split by state. *)
Definition counters_ok (st : ProfileSyncStore) (c : HealthCounters)
    (seen : list ProfileSyncProviderHealthEntry) : Prop :=
  hc_online c = hc_fresh_online c + hc_stale_online c /\
  hc_fresh_online c = list_len (hc_fresh_ids c) /\
  hc_stale_online c = list_len (hc_stale_ids c) /\
  Permutation (map he_provider_id seen)
    (hc_fresh_ids c ++ hc_stale_ids c ++ hc_offline_ids c) /\
  0 <= hc_object_transfer c <= hc_fresh_online c /\
  0 <= hc_availability c <= hc_fresh_online c /\
  0 <= hc_mutable_root c <= hc_fresh_online c.

Lemma count_provider_ok st profile c seen p :
  counters_ok st c seen -> counters_ok st (count_provider st profile c p) (seen ++ [p]).
Proof.
  unfold counters_ok, count_provider, bool_count, list_len. rewrite map_app. simpl.
  intros (H1 & H2 & H3 & Hp & H4 & H5 & H6).
  destruct (he_online p); [destruct (he_fresh p)|]; simpl;
    rewrite ?length_app; simpl; split_and!;
    first [ lia
          | destruct (object_transfer _); lia | destruct (availability _); lia
          | destruct (mutable_roots _); lia
          | rewrite Hp; solve_Permutation ].
Qed.

Lemma count_providers_ok st profile entries c seen :
  counters_ok st c seen ->
  counters_ok st (fold_left (count_provider st profile) entries c) (seen ++ entries).
Proof.
  revert c seen. induction entries as [|p entries IH]; intros c seen Hok; simpl.
  { by rewrite app_nil_r. }
  rewrite cons_middle, app_assoc. apply IH. by apply count_provider_ok.
Qed.

Lemma provider_health_inv self request st st' r :
  provider_health self request st = (st', Ok r) ->
  st' = st /\ exists h, r = ProviderHealthResponse h /\
    let entries := provider_health_entries st (provider_id self) (roles self) in
    let c := fold_left (count_provider st (pr_profile request)) entries no_counters in
    ph_known_providers h = list_len entries /\ ph_online_providers h = hc_online c /\
    ph_offline_providers h = Z.max 0 (list_len entries - hc_online c) /\
    ph_fresh_online_providers h = hc_fresh_online c /\
    ph_stale_online_providers h = hc_stale_online c /\
    ph_fresh_online_provider_ids h = hc_fresh_ids c /\
    ph_stale_online_provider_ids h = hc_stale_ids c /\
    ph_offline_provider_ids h = hc_offline_ids c /\
    ph_object_transfer_providers h = hc_object_transfer c /\
    ph_availability_providers h = hc_availability c /\
    ph_mutable_root_providers h = hc_mutable_root c /\
    ph_degraded h = (profile_sync_health_message (hc_online c) (hc_fresh_online c)
      (hc_object_transfer c) (hc_availability c) (hc_mutable_root c)).1.
Proof.
  unfold provider_health. intros H. do 3 inv_guard H.
  destruct (profile_sync_health_message _ _ _ _ _) as [degraded message] eqn:E.
  injection H as <- <-. split; [done|]. eexists. split; [done|]. cbv zeta.
  by split_and!.
Qed.

(** ** Properties *)

(** C38: (error) A call that fails, for whatever reason and with either backend,
    leaves the store as it was: every guard runs before the first write. *)
Theorem call_error_atomic {H} self (request : ServiceRequest H) budget st st' e :
  call (R := H) self request budget st = (st', Err e) -> st' = st.
Proof.
  enough (fails_clean (call (R := H) self request budget)) as Hc by apply Hc.
  destruct request as [h|request]; [by apply reads_clean, reads_err|]. cbn [call].
  apply fails_clean_reads; [apply reads_lift|intros ?].
  apply fails_clean_reads; [apply ensure_online_reads|intros ?].
  destruct (kubo_backend self) as [backend|].
  - apply fails_clean_reads; [apply reads_lift|intros ?].
    apply fails_clean_map, kubo_fails_clean.
  - apply fails_clean_map, local_dispatch_fails_clean.
Qed.

(** In every fixture history, the bytes a service answers for an object
    id hash to that id, fit the budget, and come from a provider that is known to
    be online, fresh, able to transfer and not delayed towards the requester (or is
    not registered at all); reading changes nothing. *)
Theorem get_object_safe c n st self request budget st' object_id bytes :
  store_history c n st -> Z.of_nat n <= u64_max ->
  get_object self request budget st = (st', Ok (GetEncryptedObjectResponse object_id bytes)) ->
  st' = st /\ object_id = or_object_id request /\ object_id = local_object_id bytes /\
  str_len bytes <= max_profile_sync_object_bytes budget /\
  exists provider,
    st_objects st !! (provider, or_profile request, object_id) = Some bytes /\
    provider_is_fresh_online_for_role st provider object_transfer = true /\
    transfer_available st provider (provider_id self) = true.
Proof.
  intros Hh Hn H. pose proof (store_history_wf _ _ _ Hh Hn) as Hwf. unfold get_object in H.
  do 4 inv_guard H.
  destruct (find_online_object st (provider_id self) (or_profile request) (or_object_id request))
    as [b|] eqn:Ef; [|done].
  inv_guard H. injection H as <- <- <-.
  apply find_online_object_Some in Ef as (provider & Hl & Hf & Ht).
  assert (str_len b <= max_profile_sync_object_bytes budget).
  { unfold validate_object_budget in *. by case_match eqn:E; [done|apply Z.ltb_ge in E]. }
  split_and!; try done; [by eapply (wf_addressed _ _ _ Hwf)|by exists provider].
Qed.

(** C39: (bounds) In every fixture history of fewer than 2^64 operations the store
    keeps its capacities: the object references (objects held and references
    retained without bytes), the roots and the providers never exceed their limits. *)
Theorem fixture_capacity_kept c n st :
  store_history c n st -> Z.of_nat n <= u64_max ->
  within (max_objects c) (object_reference_count st) /\
  within (max_roots c) (Z.of_nat (size (st_roots st))) /\
  within (max_providers c) (Z.of_nat (size (st_providers st))).
Proof. intros Hh Hn. destruct (store_history_wf _ _ _ Hh Hn). done. Qed.

(** A published root is what every reader resolves: after
    [publish_root] answers, [resolve_root] at any service with the discovery role
    answers the published object, as long as the publisher has the mutable-root role
    in the store and the root is not delayed towards the reader.  The new sequence
    is above those of all other candidates. *)
Theorem publish_then_resolve c n st self request st' r reader :
  store_history c n st -> Z.of_nat n < u64_max ->
  publish_root self request st = (st', Ok r) ->
  provider_has_role st (provider_id self) mutable_roots = true ->
  discovery (roles reader) = true ->
  root_available st (provider_id self) (provider_id reader) (ru_profile request)
    (ru_root_id request) = true ->
  r = RootResponse (ru_root_id request) (Some (ru_object_id request)) /\
  resolve_root reader {| rr_profile := ru_profile request; rr_root_id := ru_root_id request |} st'
  = (st', Ok (RootResponse (ru_root_id request) (Some (ru_object_id request)))).
Proof.
  intros Hh Hn H Hrole Hdisc Hav.
  assert (Hn' : Z.of_nat n <= u64_max) by lia.
  pose proof (store_history_wf _ _ _ Hh Hn') as Hwf. unfold publish_root in H.
  do 5 inv_guard H. destruct (negb _); [done|]. inv_guard H.
  injection H as <- <-. split; [done|].
  set (st1 := set_st_roots _ _).
  assert (Hnext : next_u64 (st_next_root_sequence st) = st_next_root_sequence st + 1).
  { pose proof (wf_next_root _ _ _ Hwf). unfold next_u64. rewrite Z.mod_small; [done|].
    unfold u64_max in Hn. lia. }
  unfold resolve_root. cbn [rr_profile rr_root_id].
  rewrite !(sr_bind_lift_ok _ tt) by (try done; by apply require_role_ok).
  rewrite sr_bind_store. unfold latest_visible_root_candidate, visible_root_candidates.
  rewrite (head_sort_candidates _ {| rc_publisher_provider_id := provider_id self;
    rc_object_id := ru_object_id request;
    rc_publish_sequence := next_u64 (st_next_root_sequence st) |}); [done|..].
  - apply (elem_of_sort_by candidate_cmp), elem_of_visible. eexists (provider_id self), _.
    split_and!; [apply lookup_insert_eq|done|exact Hrole|exact Hav].
  - intros y Hy Hne. apply (elem_of_sort_by candidate_cmp), elem_of_visible in Hy.
    destruct Hy as (provider & root & Hl & -> & _). simpl in Hl |- *.
    apply lookup_insert_Some in Hl as [[_ <-]|[_ Hl]]; [done|].
    pose proof (wf_root_rows _ _ _ Hwf _ _ _ _ Hl) as [_ Hle]. rewrite Hnext. lia.
Qed.

(** The root candidates a requester sees and the delayed ones
    partition the roots of (profile, root) whose publishers hold the mutable-root
    role; both lists are ordered by descending sequence, then publisher, then object. *)
Theorem root_candidates_partition st requester profile root_id :
  let visible := visible_root_candidates st requester profile root_id in
  let delayed := delayed_root_candidates st requester profile root_id in
  Permutation (visible ++ delayed)
    (map (fun entry => candidate_of entry.2)
       (List.filter (root_matches st profile root_id (fun _ => true)) (btree_iter (st_roots st)))) /\
  StronglySorted (fun x y => rust_le (candidate_key x) (candidate_key y)) visible /\
  StronglySorted (fun x y => rust_le (candidate_key x) (candidate_key y)) delayed.
Proof.
  cbv zeta. split; [|split; apply sort_by_StronglySorted; apply candidate_cmp_key].
  unfold visible_root_candidates, delayed_root_candidates.
  rewrite !sort_by_Permutation, <-map_app. apply Permutation_map.
  induction (btree_iter (st_roots st)) as [|[[[p r] provider] root] l IH]; simpl; [done|].
  destruct (str_eqb p profile && str_eqb r root_id
            && provider_has_role st provider mutable_roots); simpl; [|exact IH].
  destruct (root_available st provider requester profile root_id); simpl.
  - by constructor.
  - rewrite <-Permutation_middle. by constructor.
Qed.

Lemma root_health_not_degraded v d avail dop sop oop n m :
  (profile_sync_root_health_message v d avail dop sop oop n m).1 = false ->
  v <> 0 /\ avail = true /\ n <> 0 /\ m <= n.
Proof.
  unfold profile_sync_root_health_message.
  destruct (v =? 0) eqn:?; [by destruct (0 <? d)|].
  destruct avail; simpl; [|by repeat case_match].
  destruct (n =? 0) eqn:?; [done|]. destruct (n <? m) eqn:?; [done|]. lia.
Qed.

(** A root reported healthy can be used: when [root_health] answers a
    report that is not degraded, the same service resolves the root to an object it
    can then fetch, the object is held by at least one online retaining provider and
    by as many as were asked for, and the fetched bytes hash to its id. *)
Theorem healthy_root_is_fetchable c n st self request st' h :
  store_history c n st -> Z.of_nat n <= u64_max ->
  root_health self request st = (st', Ok (RootHealthResponse h)) -> rhl_degraded h = false ->
  st' = st /\
  exists object_id bytes,
    resolve_root self {| rr_profile := rh_profile request; rr_root_id := rh_root_id request |} st
      = (st, Ok (RootResponse (rh_root_id request) (Some object_id))) /\
    rhl_latest_object_id h = Some object_id /\
    1 <= online_retaining_provider_count st (rh_profile request) object_id /\
    rh_minimum_online_retaining_providers request
      <= online_retaining_provider_count st (rh_profile request) object_id /\
    object_id = local_object_id bytes /\
    (forall budget, validate_profile_sync_object_id object_id = Ok tt ->
       object_transfer (roles self) = true ->
       str_len bytes <= max_profile_sync_object_bytes budget ->
       get_object self {| or_profile := rh_profile request; or_object_id := object_id |} budget st
       = (st, Ok (GetEncryptedObjectResponse object_id bytes))).
Proof.
  intros Hh Hn H Hdeg. pose proof (store_history_wf _ _ _ Hh Hn) as Hwf. unfold root_health in H.
  do 4 inv_guard H.
  destruct (profile_sync_root_health_message _ _ _ _ _ _ _ _) as [degraded message] eqn:E.
  injection H as <- <-. simpl in Hdeg. subst degraded. split; [done|].
  apply (f_equal fst), root_health_not_degraded in E as (Hv & Hav & Hret & Hmin).
  destruct (visible_root_candidates st (provider_id self) (rh_profile request) (rh_root_id request))
    as [|candidate candidates] eqn:Ec; [done|]. simpl in Hav, Hret, Hmin.
  assert (is_Some (find_online_object st (provider_id self) (rh_profile request)
                     (rc_object_id candidate))) as [bytes Hb].
  { apply available_iff_found. intros Hnil. by rewrite Hnil in Hav. }
  exists (rc_object_id candidate), bytes. split_and!.
  - unfold resolve_root, latest_visible_root_candidate. cbn [rr_profile rr_root_id].
    rewrite !(sr_bind_lift_ok _ tt) by done. by rewrite sr_bind_store, Ec.
  - done.
  - assert (0 <= online_retaining_provider_count st (rh_profile request) (rc_object_id candidate)).
    { unfold online_retaining_provider_count, set_count. lia. }
    lia.
  - done.
  - apply find_online_object_Some in Hb as (provider & Hl & _).
    by eapply (wf_addressed _ _ _ Hwf).
  - intros budget Hid Htr Hlen. by apply get_object_found.
Qed.

(** The provider health report adds up: every known provider is
    counted once as fresh online, stale online or offline, the three id lists list
    them, the role counters count fresh online providers only, and the report is
    degraded exactly when some needed role has no fresh online provider. *)
Theorem provider_health_adds_up self request st st' h :
  provider_health self request st = (st', Ok (ProviderHealthResponse h)) ->
  st' = st /\
  ph_known_providers h = ph_online_providers h + ph_offline_providers h /\
  ph_online_providers h = ph_fresh_online_providers h + ph_stale_online_providers h /\
  ph_fresh_online_providers h = list_len (ph_fresh_online_provider_ids h) /\
  ph_stale_online_providers h = list_len (ph_stale_online_provider_ids h) /\
  ph_offline_providers h = list_len (ph_offline_provider_ids h) /\
  Permutation
    (map he_provider_id (provider_health_entries st (provider_id self) (roles self)))
    (ph_fresh_online_provider_ids h ++ ph_stale_online_provider_ids h
     ++ ph_offline_provider_ids h) /\
  (ph_degraded h = false <->
     0 < ph_object_transfer_providers h /\ 0 < ph_availability_providers h /\
     0 < ph_mutable_root_providers h).
Proof.
  intros H. apply provider_health_inv in H as (-> & h' & [= <-] & H). cbv zeta in H.
  set (entries := provider_health_entries st (provider_id self) (roles self)) in *.
  assert (Hok : counters_ok st no_counters []) by (unfold counters_ok; simpl; split_and!; done || lia).
  apply (count_providers_ok st (pr_profile request) entries) in Hok. simpl in Hok.
  set (c := fold_left _ entries no_counters) in *.
  destruct Hok as (Hon & Hfr & Hst & Hp & Hot & Hav & Hmr).
  destruct H as (-> & -> & -> & -> & -> & -> & -> & -> & -> & -> & -> & ->).
  assert (Hlen : list_len entries = list_len (hc_fresh_ids c) + list_len (hc_stale_ids c)
                                    + list_len (hc_offline_ids c)).
  { unfold list_len. apply Permutation_length in Hp.
    rewrite length_map, !length_app in Hp. lia. }
  assert (0 <= list_len (hc_offline_ids c) /\ 0 <= list_len (hc_stale_ids c)) as [? ?]
    by (unfold list_len; lia).
  split_and!; try done; try lia.
  unfold profile_sync_health_message. split.
  - intros Hd. repeat case_match; simpl in Hd; try done. lia.
  - intros (H1 & H2 & H3). rewrite !(proj2 (Z.eqb_neq _ 0)) by lia. done.
Qed.

Lemma retain_object_inv self request st st' r :
  retain_object self request st = (st', Ok r) ->
  let key := (provider_id self, or_profile request, or_object_id request) in
  validate_profile (or_profile request) = Ok tt /\
  validate_profile_sync_object_id (or_object_id request) = Ok tt /\
  availability (roles self) = true /\ object_transfer (roles self) = true /\
  (provider_id self ∉ st_retention_blocked_providers st) /\
  check_retention_quota self st key = Ok tt /\
  r = RetainObjectResponse (or_object_id request) true /\
  exists bytes,
    find_online_object st (provider_id self) (or_profile request) (or_object_id request)
      = Some bytes /\
    st' = set_st_retained ({[ key ]} ∪ st_retained st)
            (set_st_objects (<[key := bytes]> (st_objects st)) st).
Proof.
  unfold retain_object. intros H. do 5 inv_guard H.
  destruct (gset_contains (st_retention_blocked_providers st) (provider_id self)) eqn:Eb;
    [done|]. inv_guard H.
  destruct (find_online_object st (provider_id self) (or_profile request) (or_object_id request))
    as [bytes|] eqn:Ef; [|done].
  inv_guard H. injection H as <- <-. cbv zeta.
  split_and!; try done; try (by eapply require_role_ok).
  - unfold gset_contains in Eb. by apply bool_decide_eq_false in Eb.
  - by exists bytes.
Qed.

Lemma retained_count_insert st provider key :
  key ∉ st_retained st -> key.1.1 = provider ->
  set_count (fun k => str_eqb k.1.1 provider) ({[ key ]} ∪ st_retained st)
  = retained_provider_object_count st provider + 1.
Proof.
  intros Hk <-. unfold retained_provider_object_count. rewrite !set_count_size.
  rewrite filter_union_L by apply _. rewrite filter_singleton_L by apply _.
  rewrite decide_True by apply str_eqb_refl.
  rewrite size_union, size_singleton; [lia|].
  intros k ->%elem_of_singleton [_ Hin]%elem_of_filter. done.
Qed.

(** Retention respects the provider's quota and policy: a successful
    [retain_object] is never by a blocked provider, and when it adds a reference the
    provider has at most its quota of references afterwards. *)
Theorem retain_within_quota self request st st' r max :
  retain_object self request st = (st', Ok r) ->
  st_retention_quota_by_provider st !! provider_id self = Some max ->
  (provider_id self ∉ st_retention_blocked_providers st) /\
  retained_provider_object_count st' (provider_id self)
    <= Z.max max (retained_provider_object_count st (provider_id self)).
Proof.
  intros (_ & _ & _ & _ & Hb & Hq & _ & bytes & _ & ->)%retain_object_inv Hmax.
  split; [done|]. unfold check_retention_quota, gset_contains in Hq.
  set (key := (provider_id self, or_profile request, or_object_id request)) in *.
  unfold retained_provider_object_count at 1.
  change (st_retained (set_st_retained ({[ key ]} ∪ st_retained st)
    (set_st_objects (<[key := bytes]> (st_objects st)) st))) with ({[ key ]} ∪ st_retained st).
  case_bool_decide as Hin.
  - assert (({[ key ]} ∪ st_retained st) = st_retained st) as -> by set_solver.
    fold (retained_provider_object_count st (provider_id self)). lia.
  - rewrite retained_count_insert by done. rewrite Hmax in Hq.
    case_match eqn:E; [done|]. lia.
Qed.

(** Retaining, verifying, listing and releasing agree: after a
    successful [retain_object] the provider holds the bytes, reports the reference
    as retained and available, and lists it; after [release_object] it no longer
    does either, and the bytes stay. *)
Theorem retain_verify_release self request st st' r :
  retain_object self request st = (st', Ok r) ->
  let profile := {| pr_profile := or_profile request |} in
  verify_retained_object self request st'
    = (st', Ok (RetainedObjectStatusResponse (or_object_id request) true true)) /\
  (exists ids, list_retained_objects self profile st' = (st', Ok (RetainedObjectsResponse ids)) /\
     or_object_id request ∈ ids) /\
  exists st'', release_object self request st'
    = (st'', Ok (ReleaseObjectResponse (or_object_id request) false)) /\
    st_objects st'' = st_objects st' /\
    (exists available, verify_retained_object self request st''
       = (st'', Ok (RetainedObjectStatusResponse (or_object_id request) false available))) /\
    exists ids, list_retained_objects self profile st'' = (st'', Ok (RetainedObjectsResponse ids)) /\
      or_object_id request ∉ ids.
Proof.
  intros (Hp & Ho & Ha & _ & _ & _ & _ & bytes & _ & ->)%retain_object_inv.
  set (key := (provider_id self, or_profile request, or_object_id request)).
  set (st' := set_st_retained _ _). cbv zeta.
  assert (Hin : key ∈ st_retained st') by (unfold st'; simpl; set_solver).
  assert (Hlist : forall s, list_retained_objects self {| pr_profile := or_profile request |} s
    = (s, Ok (RetainedObjectsResponse
        (map snd (List.filter (fun k => str_eqb k.1.1 (provider_id self)
                                      && str_eqb k.1.2 (or_profile request))
                    (btree_elems (st_retained s))))))).
  { intros s. unfold list_retained_objects. cbn [pr_profile].
    by rewrite !(sr_bind_lift_ok _ tt) by (try done; by apply require_role_ok). }
  assert (Hmem : forall s, or_object_id request ∈ map snd (List.filter
      (fun k => str_eqb k.1.1 (provider_id self) && str_eqb k.1.2 (or_profile request))
      (btree_elems (st_retained s))) <-> key ∈ st_retained s).
  { intros s. rewrite list_elem_of_fmap. split.
    - intros ([[p q] o] & Heq & Hk). apply elem_of_filter_bool in Hk as [Hk Hel].
      apply elem_of_btree_elems in Hel. simpl in Heq, Hk. subst o.
      rewrite andb_true_iff, !str_eqb_eq in Hk. by destruct Hk as [-> ->].
    - intros Hk. exists key. split; [done|]. apply elem_of_filter_bool.
      rewrite elem_of_btree_elems. simpl. by rewrite !str_eqb_refl. }
  split_and!.
  - unfold verify_retained_object.
    rewrite !(sr_bind_lift_ok _ tt) by (try done; by apply require_role_ok).
    rewrite sr_bind_store. unfold gset_contains. fold key. rewrite bool_decide_eq_true_2 by done.
    unfold provider_has_object, gmap_contains. fold key. unfold st'. simpl.
    by rewrite lookup_insert_eq.
  - eexists. split; [apply Hlist|]. by apply Hmem.
  - eexists. split_and!.
    + unfold release_object.
      rewrite !(sr_bind_lift_ok _ tt) by (try done; by apply require_role_ok). reflexivity.
    + done.
    + eexists. unfold verify_retained_object.
      rewrite !(sr_bind_lift_ok _ tt) by (try done; by apply require_role_ok).
      rewrite sr_bind_store. unfold gset_contains. fold key. simpl.
      rewrite (bool_decide_eq_false_2 (key ∈ _)) by set_solver. reflexivity.
    + eexists. split; [apply Hlist|]. rewrite Hmem. simpl. set_solver.
Qed.

(** A provider that is offline, or a service whose registration was
    refused, answers no request and changes nothing. *)
Theorem unavailable_service_refuses {H} self (request : ProfileSyncRequest) budget st :
  provider_id self ∈ st_offline_providers st \/ registration_error self <> None ->
  exists e, call (H := H) (R := H) self (ProfileSyncServiceRequest request) budget st = (st, Err e) /\
    (registration_error self = Some e \/
     e = Broadwebd.Request ("profile sync provider is offline: " +:+ provider_id self)).
Proof.
  intros Hcase. cbn [call]. unfold sr_bind at 1, sr_lift at 1, ensure_registered.
  destruct (registration_error self) as [e|]; [by eauto|].
  destruct Hcase as [Hoff|Hne]; [|done]. eexists. split; [|by right].
  unfold ensure_online. unfold sr_bind at 1. rewrite sr_bind_store. unfold gset_contains.
  rewrite bool_decide_eq_true_2 by done. reflexivity.
Qed.

(** The runtime options select the backend the code documents: no
    option selects the local backend; an RPC address alone selects Kubo; a provider
    id alone is refused; [local] refuses the Kubo options; a Kubo selection is
    accepted exactly when the address and the provider id are valid. *)
Theorem runtime_backend_selection kubo_rpc_local backend api provider :
  let b := non_empty_trimmed backend in
  let a := non_empty_trimmed api in
  let p := non_empty_trimmed provider in
  let url := default DEFAULT_IPFS_KUBO_RPC_API a in
  let id := default DEFAULT_PROFILE_SYNC_KUBO_PROVIDER_ID p in
  (from_runtime_options kubo_rpc_local backend api provider = Ok LocalBackend <->
     (b = None \/ b = Some "local") /\ a = None /\ p = None) /\
  (forall u i, from_runtime_options kubo_rpc_local backend api provider
               = Ok (KuboRpcBackend u i) <->
     (b = None /\ a <> None \/ b = Some "kubo" \/ b = Some "kubo-rpc"
      \/ b = Some "local-kubo-rpc") /\
     u = url /\ i = id /\ kubo_rpc_local url = Ok tt /\
     validate_profile_sync_provider_id id = Ok tt).
Proof.
  cbv zeta. unfold from_runtime_options, parse_profile_sync_backend, local_without_kubo_options,
    kubo_rpc. generalize (non_empty_trimmed backend) (non_empty_trimmed api)
      (non_empty_trimmed provider).
  intros b a p. destruct b as [b|]; [|destruct a as [a|]; [|destruct p as [p|]]]; simpl.
  - destruct (str_eqb b "local") eqn:E1; [apply str_eqb_eq in E1 as ->|apply str_eqb_neq in E1].
    { destruct a, p; simpl; split; try (intros u i); naive_solver. }
    destruct (str_eqb b "kubo" || str_eqb b "kubo-rpc" || str_eqb b "local-kubo-rpc") eqn:E2.
    + rewrite !orb_true_iff, !str_eqb_eq in E2.
      destruct (kubo_rpc_local _) as [[]|], (validate_profile_sync_provider_id _) as [[]|];
        split; try (intros u i); naive_solver.
    + rewrite !orb_false_iff, !str_eqb_neq in E2. split; try (intros u i); naive_solver.
  - destruct (kubo_rpc_local _) as [[]|], (validate_profile_sync_provider_id _) as [[]|];
      split; try (intros u i); naive_solver.
  - split; try (intros u i); naive_solver.
  - split; try (intros u i); naive_solver.
Qed.

(** The Kubo backend's [VerifyRetainedObject] is the one request that
    adds an object reference without the capacity check: whenever the node answers
    that an unknown object is pinned, the store gains a reference, even when it
    already holds as many as its capacity allows. *)
Theorem kubo_verify_ignores_capacity self rpc request budget st :
  validate_profile (or_profile request) = Ok tt ->
  validate_profile_sync_object_id (or_object_id request) = Ok tt ->
  availability (roles self) = true ->
  rpc_verify_retained_object rpc (or_object_id request) budget = Ok true ->
  (provider_id self, or_profile request, or_object_id request) ∉ references st ->
  exists st', kubo_verify self rpc request budget st
    = (st', Ok (RetainedObjectStatusResponse (or_object_id request) true true)) /\
    st_capacity st' = st_capacity st /\
    object_reference_count st' = object_reference_count st + 1.
Proof.
  intros Hp Ho Ha Hrpc Hnew. eexists. split_and!.
  - unfold kubo_verify.
    rewrite !(sr_bind_lift_ok _ tt) by (try done; by apply require_role_ok).
    rewrite (sr_bind_lift_ok _ true) by done. reflexivity.
  - done.
  - rewrite !object_reference_count_size. unfold references in *. simpl.
    set (key := (provider_id self, or_profile request, or_object_id request)) in *.
    assert ((dom (st_objects st) ∪ ({[ key ]} ∪ st_retained st))
            = {[ key ]} ∪ (dom (st_objects st) ∪ st_retained st)) as -> by set_solver.
    rewrite size_union, size_singleton by set_solver. lia.
Qed.

(** ** Witnesses *)

Definition small_capacity : ProfileSyncFixtureCapacity :=
  {| max_providers := Some 3; max_objects := Some 2; max_roots := Some 1 |}.

(** A fixture with one device. *)
Definition registered : ProfileSyncStore := (service_for_device "a" (with_capacity small_capacity)).1.
Definition device (id : string) : ProfileSyncService := {|
  provider_id := local_fixture_provider_id id; provider_kind := "local-fixture";
  privacy_boundary := LOCAL_PRIVACY_BOUNDARY; roles := logged_in_device;
  registration_error := None; kubo_backend := None |}.

Definition sample_id : string := local_object_id "sealed".
Definition sample_put : ProfileSyncRequest :=
  PutEncryptedObject {| put_profile := "default"; put_bytes := "sealed" |}.
Definition sample_object : ProfileSyncObjectRequest :=
  {| or_profile := "default"; or_object_id := sample_id |}.
Definition sample_root : ProfileSyncRootUpdate :=
  {| ru_profile := "default"; ru_root_id := "settings/head"; ru_object_id := sample_id |}.
Definition stored : ProfileSyncStore :=
  (local_dispatch (device "a") sample_put default_budget registered).1.
Definition published : ProfileSyncStore :=
  (local_dispatch (device "a") (PublishRoot sample_root) default_budget stored).1.
Definition kept : ProfileSyncStore :=
  (local_dispatch (device "a") (RetainObject sample_object) default_budget published).1.

Lemma registered_history : store_history small_capacity 1 registered.
Proof. eapply history_next; [apply history_new|apply step_register]. Qed.
Lemma stored_history : store_history small_capacity 2 stored.
Proof. eapply history_next; [apply registered_history|apply step_call]. Qed.
Lemma published_history : store_history small_capacity 3 published.
Proof. eapply history_next; [apply stored_history|apply step_call]. Qed.
Lemma kept_history : store_history small_capacity 4 kept.
Proof. eapply history_next; [apply published_history|apply step_call]. Qed.

Lemma call_error_atomic_witness :
  (call (H := unit) (R := unit) (device "b") (ProfileSyncServiceRequest (GetEncryptedObject
     {| or_profile := ""; or_object_id := "x" |})) default_budget kept).1 = kept.
Proof.
  destruct (call (H := unit) (R := unit) (device "b") (ProfileSyncServiceRequest (GetEncryptedObject
     {| or_profile := ""; or_object_id := "x" |})) default_budget kept) as [st' [r|e]] eqn:E.
  - apply (f_equal snd) in E. vm_compute in E. discriminate E.
  - exact (call_error_atomic _ _ _ _ _ _ E).
Defined.

Lemma get_object_safe_witness :
  exists bytes, (get_object (device "b") sample_object default_budget stored).2
    = Ok (GetEncryptedObjectResponse sample_id bytes) /\ sample_id = local_object_id bytes.
Proof.
  destruct (get_object (device "b") sample_object default_budget stored) as [st' r] eqn:E.
  assert (r = Ok (GetEncryptedObjectResponse sample_id "sealed")) as ->.
  { apply (f_equal snd) in E. vm_compute in E. rewrite <-E. vm_compute. reflexivity. }
  exists "sealed". split; [reflexivity|].
  apply (get_object_safe _ _ _ _ _ _ _ _ _ stored_history ltac:(vm_compute; discriminate) E).
Defined.

Lemma fixture_capacity_kept_witness :
  within (Some 2) (object_reference_count kept) /\ object_reference_count kept = 1.
Proof.
  split.
  - exact (proj1 (fixture_capacity_kept _ _ _ kept_history ltac:(vm_compute; discriminate))).
  - vm_compute. reflexivity.
Defined.

Lemma publish_then_resolve_witness :
  exists st', publish_root (device "a") sample_root stored
    = (st', Ok (RootResponse "settings/head" (Some sample_id))) /\
  resolve_root (device "b") {| rr_profile := "default"; rr_root_id := "settings/head" |} st'
    = (st', Ok (RootResponse "settings/head" (Some sample_id))).
Proof.
  destruct (publish_root (device "a") sample_root stored) as [st' [r|e]] eqn:E.
  2: { apply (f_equal snd) in E. vm_compute in E. discriminate E. }
  destruct (publish_then_resolve _ _ _ _ _ _ _ (device "b") stored_history
    ltac:(vm_compute; reflexivity) E) as [-> Hr];
    [vm_compute; reflexivity|reflexivity|vm_compute; reflexivity|].
  exists st'. split; [reflexivity|exact Hr].
Defined.

Lemma healthy_root_is_fetchable_witness :
  exists object_id, resolve_root (device "b")
    {| rr_profile := "default"; rr_root_id := "settings/head" |} kept
    = (kept, Ok (RootResponse "settings/head" (Some object_id))).
Proof.
  destruct (root_health (device "b") {| rh_profile := "default"; rh_root_id := "settings/head";
    rh_minimum_online_retaining_providers := 1 |} kept) as [st' r] eqn:E.
  destruct r as [r|e]; [|apply (f_equal snd) in E; vm_compute in E; discriminate E].
  destruct r as [ | | | | | | | | | |h]; try (apply (f_equal snd) in E; vm_compute in E; discriminate E).
  assert (Hd : rhl_degraded h = false).
  { apply (f_equal snd) in E. vm_compute in E. injection E as <-. reflexivity. }
  destruct (healthy_root_is_fetchable _ _ _ _ _ _ _ kept_history ltac:(vm_compute; discriminate)
    E Hd) as (_ & object_id & bytes & Hres & _).
  exists object_id. exact Hres.
Defined.

Lemma provider_health_adds_up_witness :
  exists h, (provider_health (device "a") {| pr_profile := "default" |} kept).2
    = Ok (ProviderHealthResponse h) /\
    ph_known_providers h = ph_online_providers h + ph_offline_providers h.
Proof.
  destruct (provider_health (device "a") {| pr_profile := "default" |} kept) as [st' r] eqn:E.
  destruct r as [r|e]; [|apply (f_equal snd) in E; vm_compute in E; discriminate E].
  destruct r as [ | | | | | | | | |h|]; try (apply (f_equal snd) in E; vm_compute in E; discriminate E).
  exists h. split; [reflexivity|].
  apply (provider_health_adds_up _ _ _ _ _ E).
Defined.

(** [published] with a quota of one reference for the device. *)
Definition with_quota : ProfileSyncStore :=
  (set_provider_retention_quota (local_fixture_provider_id "a") (Some 1) published).1.

Lemma retain_within_quota_witness :
  exists st' r, retain_object (device "a") sample_object with_quota = (st', Ok r) /\
    retained_provider_object_count st' (local_fixture_provider_id "a") <= 1.
Proof.
  destruct (retain_object (device "a") sample_object with_quota) as [st' [r|e]] eqn:E.
  2: { apply (f_equal snd) in E. vm_compute in E. discriminate E. }
  exists st', r. split; [reflexivity|].
  destruct (retain_within_quota _ _ _ _ _ 1 E) as [_ H]; [vm_compute; reflexivity|].
  exact H.
Defined.

Lemma retain_verify_release_witness :
  exists st', retain_object (device "a") sample_object published
    = (st', Ok (RetainObjectResponse sample_id true)) /\
  verify_retained_object (device "a") sample_object st'
    = (st', Ok (RetainedObjectStatusResponse sample_id true true)).
Proof.
  destruct (retain_object (device "a") sample_object published) as [st' [r|e]] eqn:E.
  2: { apply (f_equal snd) in E. vm_compute in E. discriminate E. }
  exists st'. split.
  - apply (f_equal snd) in E. vm_compute in E. injection E as <-. vm_compute. reflexivity.
  - exact (proj1 (retain_verify_release _ _ _ _ _ E)).
Defined.

Lemma unavailable_service_refuses_witness :
  let st := (set_provider_online (local_fixture_provider_id "a") false stored).1 in
  exists e, call (H := unit) (R := unit) (device "a") (ProfileSyncServiceRequest sample_put) default_budget st
    = (st, Err e).
Proof.
  destruct (unavailable_service_refuses (H := unit) (device "a") sample_put default_budget
    (set_provider_online (local_fixture_provider_id "a") false stored).1) as (e & He & _).
  - left. apply (bool_decide_unpack _). vm_compute. exact I.
  - exists e. exact He.
Defined.

(** A node that has everything pinned. *)
Definition pinning_node : KuboRpc := {|
  rpc_put_encrypted_object _ _ := Ok "id"; rpc_get_encrypted_object _ _ := Ok "bytes";
  rpc_retain_object _ _ := Ok tt; rpc_release_object _ _ := Ok tt;
  rpc_verify_retained_object _ _ := Ok true; rpc_publish_root _ object_id _ := Ok object_id;
  rpc_resolve_root _ _ := Ok "id" |}.
Definition full_store : ProfileSyncStore :=
  with_capacity {| max_providers := None; max_objects := Some 0; max_roots := None |}.

Lemma kubo_verify_ignores_capacity_witness :
  exists st', (kubo_verify (device "a") pinning_node sample_object default_budget full_store).1 = st'
    /\ object_reference_count full_store = 0 /\ object_reference_count st' = 1.
Proof.
  destruct (kubo_verify_ignores_capacity (device "a") pinning_node sample_object default_budget
    full_store) as (st' & E & _ & Hc); [vm_compute; reflexivity|vm_compute; reflexivity|
    reflexivity|reflexivity| |].
  - apply (bool_decide_unpack _). vm_compute. exact I.
  - exists st'. rewrite E. split_and!; [reflexivity|vm_compute; reflexivity|].
    rewrite Hc. vm_compute. reflexivity.
Defined.
