(* ===== verification/SyncClient.v ===== *)
(** * The profile-sync client of a broadwebd daemon

    [BroadwebdClient] of [crates/broadwebd/src/daemon.rs], as far as profile sync uses it,
    and the wrappers of [crates/profile-sync/src/lib.rs] over it: the object source from
    which profile state is pulled and the object requests of the publisher.

    A daemon has a state of its own, and may answer any response to any request: the
    wrappers refuse a response of the wrong kind. *)
From S2P Require Import Prelude RustStr Broadwebd.
From S2P Require Import AppViews Database SyncObjects SyncStore Membership.
From S2P Require Import TrustedOpen Snapshots Pulls.

(** ** The interface *)

Class BroadwebdClient (W : Type) := {
  dispatch_service_request {H} : ServiceRequest H -> state_result W BroadwebdError (ServiceResponse H)
}.

Section Client.
Context {W : Type} `{BroadwebdClient W}.

Definition client (A : Type) : Type := state_result W BroadwebdError A.

Definition profile_sync (request : ProfileSyncRequest) : client ProfileSyncResponse :=
  let* response := dispatch_service_request (ProfileSyncServiceRequest (H := Empty_set) request) in
  match response with
  | ProfileSyncServiceResponse response => sr_ret response
  | HttpFetchServiceResponse _ =>
      sr_err (UnsupportedRequest "profile-sync dispatch returned a non-profile-sync response")
  end.

(** ** The object source *)

Definition source_resolve_profile_sync_root (profile root_id : string) : client (option string) :=
  let* response := profile_sync (ResolveRoot {| rr_profile := profile; rr_root_id := root_id |}) in
  match response with
  | RootResponse _ object_id => sr_ret object_id
  | _ => sr_err (UnsupportedRequest "profile-sync resolve root returned a non-root response")
  end.

Definition storage_candidate (candidate : ProfileSyncRootCandidate) : RootCandidate :=
  {| cand_publisher_id := rc_publisher_provider_id candidate;
     cand_object_id := rc_object_id candidate;
     cand_publish_sequence := rc_publish_sequence candidate |}.

Definition source_list_profile_sync_root_candidates (profile root_id : string) :
    client (list RootCandidate) :=
  let* response := profile_sync
    (ListRootCandidates {| rr_profile := profile; rr_root_id := root_id |}) in
  match response with
  | RootCandidatesResponse _ candidates => sr_ret (map storage_candidate candidates)
  | _ => sr_err (UnsupportedRequest
           "profile-sync list root candidates returned a non-candidate response")
  end.

Definition source_get_profile_sync_object (profile object_id : string) :
    client ProfileSyncObjectBytes :=
  let* response := profile_sync
    (GetEncryptedObject {| or_profile := profile; or_object_id := object_id |}) in
  match response with
  | GetEncryptedObjectResponse object_id bytes =>
      sr_ret {| ob_object_id := object_id; ob_bytes := bytes |}
  | _ => sr_err (UnsupportedRequest "profile-sync get object returned a non-object response")
  end.

#[export] Instance BroadwebdProfileSyncObjectSource : ProfileSyncObjectSource W BroadwebdError := {|
  resolve_profile_sync_root := source_resolve_profile_sync_root;
  list_profile_sync_root_candidates := source_list_profile_sync_root_candidates;
  get_profile_sync_object := source_get_profile_sync_object
|}.

(** ** The object requests of the publisher *)

Record BroadwebdProfileSyncRetentionStatus := {
  rst_object_id : string;
  rst_retained : bool;
  rst_available : bool
}.

Record BroadwebdProfileSyncRootPublication := {
  rpub_profile : string;
  rpub_root_id : string;
  rpub_root_object_id : string;
  rpub_dependency_object_ids : list string
}.

Definition put_encrypted_object (profile bytes : string) : client string :=
  let* response := profile_sync
    (PutEncryptedObject {| put_profile := profile; put_bytes := bytes |}) in
  match response with
  | PutEncryptedObjectResponse object_id => sr_ret object_id
  | _ => sr_err (UnsupportedRequest "profile-sync put object returned a non-put response")
  end.

Definition client_retain_object (profile object_id : string) : client bool :=
  let* response := profile_sync
    (RetainObject {| or_profile := profile; or_object_id := object_id |}) in
  match response with
  | RetainObjectResponse _ retained => sr_ret retained
  | _ => sr_err (UnsupportedRequest "profile-sync retain object returned a non-retain response")
  end.

Definition client_release_object (profile object_id : string) : client bool :=
  let* response := profile_sync
    (ReleaseObject {| or_profile := profile; or_object_id := object_id |}) in
  match response with
  | ReleaseObjectResponse _ retained => sr_ret retained
  | _ => sr_err (UnsupportedRequest "profile-sync release object returned a non-release response")
  end.

Definition client_verify_retained_object (profile object_id : string) :
    client BroadwebdProfileSyncRetentionStatus :=
  let* response := profile_sync
    (VerifyRetainedObject {| or_profile := profile; or_object_id := object_id |}) in
  match response with
  | RetainedObjectStatusResponse object_id retained available =>
      sr_ret {| rst_object_id := object_id; rst_retained := retained;
                rst_available := available |}
  | _ => sr_err (UnsupportedRequest
           "profile-sync verify retained object returned a non-status response")
  end.

Fixpoint retain_profile_sync_objects (profile : string) (object_ids : list string) :
    client (list BroadwebdProfileSyncRetentionStatus) :=
  match object_ids with
  | [] => sr_ret []
  | object_id :: object_ids =>
      do* client_retain_object profile object_id in
      let* status := client_verify_retained_object profile object_id in
      let* statuses := retain_profile_sync_objects profile object_ids in
      sr_ret (status :: statuses)
  end.

Definition client_publish_root (profile root_id object_id : string) : client string :=
  let* response := profile_sync
    (PublishRoot {| ru_profile := profile; ru_root_id := root_id; ru_object_id := object_id |}) in
  match response with
  | RootResponse _ (Some published_object_id) => sr_ret published_object_id
  | _ => sr_err (UnsupportedRequest "profile-sync publish root returned a non-root response")
  end.

Definition put_retained_object (profile bytes : string) : client string :=
  let* object_id := put_encrypted_object profile bytes in
  do* client_retain_object profile object_id in
  sr_ret object_id.

Definition put_retained_root (profile root_id bytes : string) : client string :=
  let* object_id := put_retained_object profile bytes in
  do* client_publish_root profile root_id object_id in
  sr_ret object_id.

Fixpoint put_retained_objects (profile : string) (objects : list string) : client (list string) :=
  match objects with
  | [] => sr_ret []
  | bytes :: objects =>
      let* object_id := put_retained_object profile bytes in
      let* object_ids := put_retained_objects profile objects in
      sr_ret (object_id :: object_ids)
  end.

Definition put_retained_root_with_dependencies (profile root_id : string)
    (dependency_objects : list string) (root_bytes : string) :
    client BroadwebdProfileSyncRootPublication :=
  let* dependency_object_ids := put_retained_objects profile dependency_objects in
  let* root_object_id := put_retained_root profile root_id root_bytes in
  sr_ret {| rpub_profile := profile; rpub_root_id := root_id;
            rpub_root_object_id := root_object_id;
            rpub_dependency_object_ids := dependency_object_ids |}.
End Client.
