(* ===== verification/Publisher.v ===== *)
(** * The settings publisher

    [BroadwebdProfileSyncPublisher] of [crates/profile-sync/src/lib.rs]: the settings of a
    profile published as sealed objects over a broadwebd client.  A first publication puts
    a snapshot of every value and a manifest; later ones put the local changes after the
    snapshot; each is announced by the device's head object.

    The daemon's state stands beside the database.  [random_nonce] is the generator that
    [seal] reads; the clock is an argument. *)
From S2P Require Import Prelude RustStr Broadwebd.
From S2P Require Import AppViews Database SyncObjects SyncStore Membership ProfileTables.
From S2P Require Import Snapshots SyncSecrets Pulls SyncClient.

(** ** Published objects *)

(** [push_unique_object_id]: the first of equal ids stays. *)
Definition push_unique_object_id (object_ids : list string) (object_id : string) : list string :=
  if str_member object_id object_ids then object_ids else object_ids ++ [object_id].

Definition extend_unique_object_ids (object_ids incoming : list string) : list string :=
  fold_left push_unique_object_id incoming object_ids.

Definition settings_device_head_root_id (device_id : string) : string :=
  "settings/devices/" +:+ device_id +:+ "/head".

Definition sync_membership_record_root_id (record_id : string) : string :=
  "account/membership/" +:+ record_id.

Record PublishedSettingsTailManifest := {
  ptm_manifest_object_id : string;
  ptm_manifest : ProfileSyncManifest;
  ptm_tail_change_object_ids : list string
}.

Definition tail_manifest_object_ids (self : PublishedSettingsTailManifest) : list string :=
  push_unique_object_id (extend_unique_object_ids [] (ptm_tail_change_object_ids self))
    (ptm_manifest_object_id self).

Record PublishedSettingsSnapshotManifest := {
  psm_manifest_object_id : string;
  psm_manifest : ProfileSyncManifest;
  psm_snapshot_object_id : string;
  psm_tail_change_object_ids : list string
}.

Definition snapshot_manifest_object_ids (self : PublishedSettingsSnapshotManifest) : list string :=
  push_unique_object_id
    (extend_unique_object_ids (push_unique_object_id [] (psm_snapshot_object_id self))
       (psm_tail_change_object_ids self))
    (psm_manifest_object_id self).

Record PublishedSettingsCompaction := {
  pcm_target : SyncCompactionTarget;
  pcm_publication : PublishedSettingsSnapshotManifest;
  pcm_snapshot_record : SyncSnapshotRecord;
  pcm_settings_root : ProfileSyncRootRecord
}.

Definition compaction_object_ids (self : PublishedSettingsCompaction) : list string :=
  push_unique_object_id (snapshot_manifest_object_ids (pcm_publication self))
    (pr_object_id (pcm_settings_root self)).

Record PublishedProfileSyncDeviceHead := {
  pdh_root_id : string;
  pdh_object_id : string;
  pdh_device_head : ProfileSyncDeviceHead
}.

Definition device_head_object_ids (self : PublishedProfileSyncDeviceHead) : list string :=
  [pdh_object_id self].

Record PublishedLocalSettingsSnapshotHead := {
  psh_publication : PublishedSettingsSnapshotManifest;
  psh_device_head : PublishedProfileSyncDeviceHead;
  psh_snapshot_record : SyncSnapshotRecord;
  psh_settings_root : ProfileSyncRootRecord;
  psh_device_head_root : ProfileSyncRootRecord
}.

Record PublishedLocalSettingsTailHead := {
  pth_publication : PublishedSettingsSnapshotManifest;
  pth_device_head : PublishedProfileSyncDeviceHead;
  pth_snapshot_record : SyncSnapshotRecord;
  pth_settings_root : ProfileSyncRootRecord;
  pth_device_head_root : ProfileSyncRootRecord
}.

(** The ids of a manifest, its device head and the two roots. *)
Definition head_object_ids (publication : PublishedSettingsSnapshotManifest)
    (device_head : PublishedProfileSyncDeviceHead)
    (settings_root device_head_root : ProfileSyncRootRecord) : list string :=
  let object_ids := extend_unique_object_ids [] (snapshot_manifest_object_ids publication) in
  let object_ids := extend_unique_object_ids object_ids (device_head_object_ids device_head) in
  let object_ids := push_unique_object_id object_ids (pr_object_id settings_root) in
  push_unique_object_id object_ids (pr_object_id device_head_root).

Definition snapshot_head_object_ids (self : PublishedLocalSettingsSnapshotHead) : list string :=
  head_object_ids (psh_publication self) (psh_device_head self) (psh_settings_root self)
    (psh_device_head_root self).

Definition tail_head_object_ids (self : PublishedLocalSettingsTailHead) : list string :=
  head_object_ids (pth_publication self) (pth_device_head self) (pth_settings_root self)
    (pth_device_head_root self).

Inductive LocalSettingsHeadPublishStatus :=
  | PublishedFullSnapshot (published : PublishedLocalSettingsSnapshotHead)
  | PublishedIncrementalTail (published : PublishedLocalSettingsTailHead)
  | NoLocalSettingsChanges
  | UpToDate (snapshot_record : SyncSnapshotRecord).

Definition status_is_idle (self : LocalSettingsHeadPublishStatus) : bool :=
  match self with
  | NoLocalSettingsChanges | UpToDate _ => true
  | _ => false
  end.

Definition published_manifest_object_id (self : LocalSettingsHeadPublishStatus) : option string :=
  match self with
  | PublishedFullSnapshot published =>
      Some (psm_manifest_object_id (psh_publication published))
  | PublishedIncrementalTail published =>
      Some (psm_manifest_object_id (pth_publication published))
  | NoLocalSettingsChanges | UpToDate _ => None
  end.

Definition status_object_ids (self : LocalSettingsHeadPublishStatus) : list string :=
  match self with
  | PublishedFullSnapshot published => snapshot_head_object_ids published
  | PublishedIncrementalTail published => tail_head_object_ids published
  | NoLocalSettingsChanges | UpToDate _ => []
  end.

Record LocalSettingsSyncRun := {
  lr_profile : string;
  lr_settings_root_id : string;
  lr_steps : list LocalSettingsHeadPublishStatus
}.

Definition run_is_idle (self : LocalSettingsSyncRun) : bool :=
  match last (lr_steps self) with
  | Some step => status_is_idle step
  | None => false
  end.

Definition run_published_step_count (self : LocalSettingsSyncRun) : Z :=
  Z.of_nat (length (List.filter
    (fun step => match published_manifest_object_id step with Some _ => true | None => false end)
    (lr_steps self))).

Definition run_published_object_ids (self : LocalSettingsSyncRun) : list string :=
  fold_left (fun object_ids step => extend_unique_object_ids object_ids (status_object_ids step))
    (lr_steps self) [].

Inductive ProfileSyncPublishError :=
  | PublishBroadwebd (error : BroadwebdError)
  | PublishStorage (error : StorageError)
  | PublishSyncObject (error : SyncObjectError)
  | MembershipLogTooLarge (profile : string) (max_records actual_records : Z)
  | LocalSyncLoopExhausted (profile settings_root_id : string) (max_steps : Z).

(** ** Checks before a publication *)

Definition change_label (label : string) (change : SyncChangeRecord) : string :=
  label +:+ " " +:+ show (ch_id change).

Definition validate_setting_changes_for_publish (profile : string)
    (changes : list SyncChangeRecord) (label : string) : result StorageError unit :=
  check_all (fun change =>
    if negb (str_eqb (ch_profile change) profile)
    then invalid_manifest (change_label label change +:+ " profile " +:+ ch_profile change
           +:+ " does not match manifest profile " +:+ profile)
    else if negb (str_eqb (ch_operation change) "set_text")
    then invalid_manifest (change_label label change +:+ " operation " +:+ ch_operation change
           +:+ " is not supported by settings manifests")
    else Ok tt) changes.

Definition validate_tail_changes_for_publish (profile : string)
    (changes : list SyncChangeRecord) : result StorageError unit :=
  match changes with
  | [] => invalid_manifest "settings manifest tail is empty"
  | _ => validate_setting_changes_for_publish profile changes "tail change"
  end.

Definition validate_snapshot_for_publish (profile : string)
    (snapshot : ProfileSyncSettingsSnapshot) : result StorageError unit :=
  if negb (str_eqb (sp_profile snapshot) profile)
  then invalid_manifest ("snapshot profile " +:+ sp_profile snapshot
                         +:+ " does not match manifest profile " +:+ profile)
  else if negb (sp_schema_version snapshot =? PROFILE_SYNC_SETTINGS_SNAPSHOT_SCHEMA_VERSION)
  then Err (UnsupportedSyncSnapshotSchema (sp_schema_version snapshot))
  else Ok tt.

Definition validate_snapshot_covered_changes_for_publish (profile : string)
    (snapshot : ProfileSyncSettingsSnapshot) (changes : list SyncChangeRecord) :
    result StorageError unit :=
  check? validate_setting_changes_for_publish profile changes "snapshot-covered change" in
  check_all (fun change =>
    if negb (str_member (ch_domain change) (sp_included_domains snapshot))
    then invalid_manifest (change_label "snapshot-covered change" change +:+ " domain "
           +:+ ch_domain change +:+ " is not included in snapshot")
    else Ok tt) changes.

(** [max_by] by sequence, clock, time and id; of equal maxima the last. *)
Definition latest_local_device_change_for_head (device_id : string)
    (changes : list SyncChangeRecord) : option SyncChangeRecord :=
  select_max (fun change => (ch_device_sequence change, ch_logical_clock change,
                             ch_created_at change, ch_id change))
    (rev (List.filter (fun change => str_eqb (ch_device_id change) device_id) changes)).

Definition incoming_setting_from_change (change : SyncChangeRecord) : IncomingSyncSettingText :=
  {| in_profile := ch_profile change; in_domain := ch_domain change;
     in_key := ch_entity_key change; in_value := ch_payload change;
     in_device_id := ch_device_id change; in_device_sequence := ch_device_sequence change;
     in_logical_clock := ch_logical_clock change |}.

(** [map(|change| change.domain).collect::<BTreeSet<_>>().into_iter().collect()]. *)
Definition change_domains (changes : list SyncChangeRecord) : list string :=
  btree_elems (list_to_set (map ch_domain changes) : gset string).

(** ** Events of the enabled domains *)

Definition enabled_settings_sync_domain_ids (profile : string) (now : Z) :
    storage (list string) :=
  let* domains := query (app_sync_domains profile) in
  do* match domains with
      | [] => ensure_default_app_sync_domains profile now
      | _ => sr_ret tt
      end in
  let* enabled := query (enabled_app_sync_domains profile) in
  sr_ret (btree_elems (list_to_set (map ad_domain enabled) : gset string)).

Definition event_order (event : SyncSettingTextEvent) : Z * Z * Z :=
  (rv_revision (ev_revision event), rv_created_at (ev_revision event),
   rv_change_id (ev_revision event)).

Definition enabled_settings_sync_text_events_after (profile : string) (after_revision limit now : Z) :
    storage (list SyncSettingTextEvent) :=
  let* enabled_domain_ids := enabled_settings_sync_domain_ids profile now in
  let* events := query (fun db =>
    flat_map (fun domain => sync_setting_text_events_after_for_domain profile domain
                              after_revision limit db) enabled_domain_ids) in
  sr_ret (sql_limit limit (sort_by (key_cmp event_order) events)).

(** ** The publisher *)

Definition ok_or_manifest {A} (o : option A) (message : string) : result StorageError A :=
  ok_or o (InvalidProfileSyncManifest message).

Section Publisher.
Context (codec : SyncCodec) (sealer : SyncSealer) {W : Type} `{BroadwebdClient W}.
Context (random_nonce : W -> W * option string) (local_sync_device_id : string).

Definition publish (A : Type) : Type := state_result (W * ProfileDb) ProfileSyncPublishError A.

Definition on_client {A} (m : client (W := W) A) : publish A := on_source PublishBroadwebd m.
Definition on_storage {A} (m : storage A) : publish A := on_database PublishStorage m.
Definition storage_result {A} (r : result StorageError A) : publish A :=
  sr_lift (map_err PublishStorage r).
Definition object_result {A} (r : result SyncObjectError A) : publish A :=
  sr_lift (map_err PublishSyncObject r).

(** [serde_json::to_vec(payload).map_err(Encode)?]. *)
Definition to_vec (r : result string string) : publish string := object_result (map_err Encode r).

(** [sign_encrypted_json_object] with a nonce of the generator. *)
Definition sign_encrypted_object (profile domain object_kind key_id payload content_key : string)
    (signer : ProfileSyncDeviceSigner) : publish string :=
  fun '(w, db) =>
    let '(w, nonce) := random_nonce w in
    ((w, db), map_err PublishSyncObject
       (sign_encrypted_json_object sealer profile domain object_kind key_id payload content_key
          signer nonce)).

(** The loop over the changes: each is sealed, put and retained in turn. *)
Fixpoint publish_settings_tail_change_publications (profile : string)
    (changes : list SyncChangeRecord) (content_key key_id : string)
    (signer : ProfileSyncDeviceSigner) :
    publish (list ProfileSyncSettingsTailChangePublication) :=
  match changes with
  | [] => sr_ret []
  | change :: changes =>
      let incoming := incoming_setting_from_change change in
      let* payload := to_vec (setting_change_to_vec sealer incoming) in
      let* object_bytes := sign_encrypted_object (in_profile incoming) (in_domain incoming)
        PROFILE_SYNC_SETTING_CHANGE_OBJECT_KIND key_id payload content_key signer in
      let* object_id := on_client (put_retained_object profile object_bytes) in
      let* tail_publications :=
        publish_settings_tail_change_publications profile changes content_key key_id signer in
      sr_ret ({| tp_object_id := object_id; tp_change := change |} :: tail_publications)
  end.

(** The manifest sealed, put and published as the root. *)
Definition publish_manifest (profile root_id : string) (manifest : ProfileSyncManifest)
    (content_key key_id : string) (signer : ProfileSyncDeviceSigner) : publish string :=
  let* payload := to_vec (manifest_to_vec sealer manifest) in
  let* manifest_bytes := sign_encrypted_object (mf_profile manifest) SYNC_DOMAIN_SETTINGS
    PROFILE_SYNC_MANIFEST_OBJECT_KIND key_id payload content_key signer in
  on_client (put_retained_root profile root_id manifest_bytes).

Definition publish_signed_settings_tail_changes (profile root_id : string)
    (changes : list SyncChangeRecord) (content_key key_id : string)
    (signer : ProfileSyncDeviceSigner) (retention_policy : ProfileSyncRetentionPolicy) :
    publish PublishedSettingsTailManifest :=
  do* storage_result (validate_tail_changes_for_publish profile changes) in
  let* tail_publications :=
    publish_settings_tail_change_publications profile changes content_key key_id signer in
  let* manifest := storage_result
    (settings_sync_manifest_for_tail_changes profile root_id tail_publications
       retention_policy) in
  let* manifest_object_id :=
    publish_manifest profile root_id manifest content_key key_id signer in
  sr_ret {| ptm_manifest_object_id := manifest_object_id; ptm_manifest := manifest;
            ptm_tail_change_object_ids := mf_tail_change_object_ids manifest |}.

(** The checks of a snapshot with the changes it covers and the tail after it. *)
Definition validate_snapshot_publication (profile : string)
    (snapshot : ProfileSyncSettingsSnapshot)
    (covered_changes tail_changes : list SyncChangeRecord) : publish unit :=
  do* storage_result (validate_snapshot_for_publish profile snapshot) in
  do* storage_result (validate_snapshot_covered_changes_for_publish profile snapshot
                        covered_changes) in
  storage_result (validate_setting_changes_for_publish profile tail_changes "tail change").

(** The tail, then the manifest, of a snapshot that has been put. *)
Definition publish_snapshot_tail_and_manifest (profile root_id snapshot_object_id : string)
    (snapshot : ProfileSyncSettingsSnapshot)
    (covered_changes tail_changes : list SyncChangeRecord) (content_key key_id : string)
    (signer : ProfileSyncDeviceSigner) (retention_policy : ProfileSyncRetentionPolicy) :
    publish PublishedSettingsSnapshotManifest :=
  let* tail_publications :=
    publish_settings_tail_change_publications profile tail_changes content_key key_id signer in
  let snapshot_publication := {| spp_object_id := snapshot_object_id; spp_snapshot := snapshot;
                                 spp_covered_changes := covered_changes |} in
  let* manifest := storage_result
    (settings_sync_manifest_for_snapshot_and_tail_changes profile root_id snapshot_publication
       tail_publications retention_policy) in
  let* manifest_object_id :=
    publish_manifest profile root_id manifest content_key key_id signer in
  sr_ret {| psm_manifest_object_id := manifest_object_id; psm_manifest := manifest;
            psm_snapshot_object_id := snapshot_object_id;
            psm_tail_change_object_ids := mf_tail_change_object_ids manifest |}.

Definition publish_signed_settings_snapshot_manifest (profile root_id : string)
    (snapshot : ProfileSyncSettingsSnapshot)
    (covered_changes tail_changes : list SyncChangeRecord) (content_key key_id : string)
    (signer : ProfileSyncDeviceSigner) (retention_policy : ProfileSyncRetentionPolicy) :
    publish PublishedSettingsSnapshotManifest :=
  do* validate_snapshot_publication profile snapshot covered_changes tail_changes in
  let* payload := to_vec (settings_snapshot_to_vec sealer snapshot) in
  let* snapshot_bytes := sign_encrypted_object (sp_profile snapshot) SYNC_DOMAIN_SETTINGS
    PROFILE_SYNC_SETTINGS_SNAPSHOT_OBJECT_KIND key_id payload content_key signer in
  let* snapshot_object_id := on_client (put_retained_object profile snapshot_bytes) in
  publish_snapshot_tail_and_manifest profile root_id snapshot_object_id snapshot covered_changes
    tail_changes content_key key_id signer retention_policy.

Definition publish_signed_existing_settings_snapshot_manifest
    (profile root_id snapshot_object_id : string) (snapshot : ProfileSyncSettingsSnapshot)
    (covered_changes tail_changes : list SyncChangeRecord) (content_key key_id : string)
    (signer : ProfileSyncDeviceSigner) (retention_policy : ProfileSyncRetentionPolicy) :
    publish PublishedSettingsSnapshotManifest :=
  if is_empty snapshot_object_id
  then storage_result (invalid_manifest "settings snapshot backend object id is empty")
  else
  do* validate_snapshot_publication profile snapshot covered_changes tail_changes in
  do* on_client (client_retain_object profile snapshot_object_id) in
  publish_snapshot_tail_and_manifest profile root_id snapshot_object_id snapshot covered_changes
    tail_changes content_key key_id signer retention_policy.

(** ** Compaction *)

Definition compact_and_publish_settings (profile root_id content_key key_id : string)
    (signer : ProfileSyncDeviceSigner) (retention_policy : ProfileSyncRetentionPolicy)
    (now clock : Z) : publish (option PublishedSettingsCompaction) :=
  let* enabled_domain_ids := on_storage (enabled_settings_sync_domain_ids profile clock) in
  let* target := on_storage (query
    (settings_sync_compaction_target_for_domains profile retention_policy now
       enabled_domain_ids)) in
  match target with
  | None => sr_ret None
  | Some target =>
      let* events := on_storage (query (fun db =>
        List.filter (fun event => str_member (ch_domain (ev_change event)) enabled_domain_ids)
          (sync_setting_text_events_after profile (ct_previous_snapshot_covers_revision target)
             u32_max db))) in
      let covered_changes := map ev_change (sql_limit (ct_covered_change_count target) events) in
      let tail_changes :=
        map ev_change (drop (length covered_changes) events) in
      let included_domains := change_domains covered_changes in
      let* snapshot := on_storage (query
        (settings_sync_snapshot_payload profile (ct_covers_revision target) included_domains
           clock)) in
      let* publication := publish_signed_settings_snapshot_manifest profile root_id snapshot
        covered_changes tail_changes content_key key_id signer retention_policy in
      let snapshot_registration :=
        {| snr_profile := profile;
           snr_snapshot_id := settings_sync_snapshot_id (ct_covers_revision target);
           snr_backend_object_id := Some (psm_snapshot_object_id publication);
           snr_covers_revision := ct_covers_revision target;
           snr_included_domains := sp_included_domains snapshot |} in
      let root_registrations :=
        [{| prr_profile := profile; prr_root_id := root_id;
            prr_object_id := psm_manifest_object_id publication |}] in
      let* records := on_storage (record_sync_snapshot_and_set_profile_sync_roots
                                    snapshot_registration root_registrations clock) in
      let* settings_root := storage_result (ok_or_manifest (last (snd records))
        "published compaction did not record settings root") in
      sr_ret (Some {| pcm_target := target; pcm_publication := publication;
                      pcm_snapshot_record := fst records; pcm_settings_root := settings_root |})
  end.

(** ** Device heads *)

Definition validate_device_head_for_publish (profile root_id : string)
    (device_head : ProfileSyncDeviceHead) (signer : ProfileSyncDeviceSigner) :
    result ProfileSyncPublishError unit :=
  if is_empty root_id then Err (PublishStorage (InvalidSyncRootId root_id))
  else if negb (str_eqb (dh_profile device_head) profile)
  then map_err PublishStorage
    (invalid_manifest ("device head profile " +:+ dh_profile device_head
                       +:+ " does not match publish profile " +:+ profile))
  else if negb (str_eqb (dh_root_id device_head) root_id)
  then map_err PublishStorage
    (invalid_manifest ("device head root " +:+ dh_root_id device_head
                       +:+ " does not match publish root " +:+ root_id))
  else if negb (dh_schema_version device_head =? PROFILE_SYNC_DEVICE_HEAD_SCHEMA_VERSION)
  then Err (PublishSyncObject (UnsupportedSchema PROFILE_SYNC_DEVICE_HEAD_OBJECT_KIND
                                 (dh_schema_version device_head)))
  else
  let? public_key := map_err PublishSyncObject (signer_public_key sealer signer) in
  if negb (str_eqb (dh_device_id device_head) (pk_device_id public_key))
  then Err (PublishSyncObject (DeviceKeyMismatch (pk_device_id public_key)
                                 (dh_device_id device_head)))
  else if is_empty (dh_latest_manifest_object_id device_head)
  then map_err PublishStorage
    (invalid_manifest "device head latest manifest object id is empty")
  else Ok tt.

Definition publish_signed_profile_sync_device_head (profile root_id : string)
    (device_head : ProfileSyncDeviceHead) (content_key key_id : string)
    (signer : ProfileSyncDeviceSigner) : publish PublishedProfileSyncDeviceHead :=
  do* sr_lift (validate_device_head_for_publish profile root_id device_head signer) in
  let* payload := to_vec (device_head_to_vec sealer device_head) in
  let* object_bytes := sign_encrypted_object (dh_profile device_head) SYNC_DOMAIN_SETTINGS
    PROFILE_SYNC_DEVICE_HEAD_OBJECT_KIND key_id payload content_key signer in
  let* object_id := on_client (put_retained_root profile root_id object_bytes) in
  sr_ret {| pdh_root_id := root_id; pdh_object_id := object_id; pdh_device_head := device_head |}.

(** The head that announces a manifest of the local device. *)
Definition local_device_head (profile manifest_object_id : string)
    (latest_change_object_id : option string) (device_sequence : Z)
    (head_change : SyncChangeRecord) : ProfileSyncDeviceHead :=
  {| dh_profile := profile; dh_device_id := local_sync_device_id;
     dh_root_id := settings_device_head_root_id local_sync_device_id;
     dh_schema_version := PROFILE_SYNC_DEVICE_HEAD_SCHEMA_VERSION;
     dh_membership_epoch := DEFAULT_PROFILE_SYNC_MEMBERSHIP_EPOCH;
     dh_latest_manifest_object_id := manifest_object_id;
     dh_latest_change_object_id := latest_change_object_id;
     dh_device_sequence := device_sequence; dh_logical_clock := ch_logical_clock head_change;
     dh_created_at := ch_created_at head_change |}.

(** The settings root and the root of the device head. *)
Definition head_root_registrations (profile settings_root_id manifest_object_id : string)
    (device_head : PublishedProfileSyncDeviceHead) : list ProfileSyncRootRegistration :=
  [{| prr_profile := profile; prr_root_id := settings_root_id;
      prr_object_id := manifest_object_id |};
   {| prr_profile := profile; prr_root_id := pdh_root_id device_head;
      prr_object_id := pdh_object_id device_head |}].

Definition publish_full_local_settings_snapshot_head
    (profile settings_root_id content_key key_id : string) (signer : ProfileSyncDeviceSigner)
    (retention_policy : ProfileSyncRetentionPolicy) (now : Z) :
    publish (option PublishedLocalSettingsSnapshotHead) :=
  let* events := on_storage (enabled_settings_sync_text_events_after profile 0 u32_max now) in
  match last events with
  | None => sr_ret None
  | Some latest_event =>
      let covered_changes := map ev_change events in
      match latest_local_device_change_for_head local_sync_device_id covered_changes with
      | None => sr_ret None
      | Some head_change =>
          let covers_revision := rv_revision (ev_revision latest_event) in
          let included_domains := change_domains covered_changes in
          let* snapshot := on_storage (query
            (settings_sync_snapshot_payload profile covers_revision included_domains now)) in
          let* publication := publish_signed_settings_snapshot_manifest profile settings_root_id
            snapshot covered_changes [] content_key key_id signer retention_policy in
          let* device_head := publish_signed_profile_sync_device_head profile
            (settings_device_head_root_id local_sync_device_id)
            (local_device_head profile (psm_manifest_object_id publication) None
               (ch_device_sequence head_change) head_change) content_key key_id signer in
          let snapshot_registration :=
            {| snr_profile := profile;
               snr_snapshot_id := settings_sync_snapshot_id covers_revision;
               snr_backend_object_id := Some (psm_snapshot_object_id publication);
               snr_covers_revision := covers_revision;
               snr_included_domains := sp_included_domains snapshot |} in
          let* records := on_storage (record_sync_snapshot_and_set_profile_sync_roots
            snapshot_registration
            (head_root_registrations profile settings_root_id
               (psm_manifest_object_id publication) device_head) now) in
          let* settings_root := storage_result (ok_or_manifest (snd records !! 0%nat)
            "published full snapshot did not record settings root") in
          let* device_head_root := storage_result (ok_or_manifest (snd records !! 1%nat)
            "published full snapshot did not record device-head root") in
          sr_ret (Some {| psh_publication := publication; psh_device_head := device_head;
                          psh_snapshot_record := fst records; psh_settings_root := settings_root;
                          psh_device_head_root := device_head_root |})
      end
  end.

(** The local changes among the events. *)
Definition local_changes (events : list SyncSettingTextEvent) : list SyncChangeRecord :=
  map ev_change (List.filter (fun event => str_eqb (ch_device_id (ev_change event))
                                             local_sync_device_id) events).

(** [take_while]: the changes up to a revision. *)
Fixpoint changes_through (covers_revision : Z) (events : list SyncSettingTextEvent) :
    list SyncChangeRecord :=
  match events with
  | [] => []
  | event :: events =>
      if rv_revision (ev_revision event) <=? covers_revision
      then ev_change event :: changes_through covers_revision events
      else []
  end.

Definition publish_local_settings_tail_head
    (profile settings_root_id content_key key_id : string) (signer : ProfileSyncDeviceSigner)
    (retention_policy : ProfileSyncRetentionPolicy) (now : Z) :
    publish (option PublishedLocalSettingsTailHead) :=
  let* snapshot_record := on_storage (query (latest_sync_snapshot profile)) in
  match snapshot_record with
  | None => sr_ret None
  | Some snapshot_record =>
      let* snapshot_object_id := storage_result
        (ok_or_manifest (sn_backend_object_id snapshot_record)
           ("latest settings snapshot " +:+ sn_snapshot_id snapshot_record
            +:+ " has no backend object id")) in
      let* tail_events := on_storage (enabled_settings_sync_text_events_after profile
        (sn_covers_revision snapshot_record) u32_max now) in
      let tail_changes := local_changes tail_events in
      match latest_local_device_change_for_head local_sync_device_id tail_changes with
      | None => sr_ret None
      | Some head_change =>
          let* all_events := on_storage
            (enabled_settings_sync_text_events_after profile 0 u32_max now) in
          let covered_changes := changes_through (sn_covers_revision snapshot_record)
                                   all_events in
          let* snapshot := on_storage (query
            (settings_sync_snapshot_payload profile (sn_covers_revision snapshot_record)
               (sn_included_domains snapshot_record) now)) in
          let* publication := publish_signed_existing_settings_snapshot_manifest profile
            settings_root_id snapshot_object_id snapshot covered_changes tail_changes content_key
            key_id signer retention_policy in
          let* device_head_frontier := storage_result (ok_or_manifest
            (list_find_bool (fun frontier => str_eqb (df_device_id frontier)
                                               local_sync_device_id)
               (mf_device_frontiers (psm_manifest publication)))
            ("settings manifest has no frontier for local device " +:+ local_sync_device_id)) in
          let* device_head := publish_signed_profile_sync_device_head profile
            (settings_device_head_root_id local_sync_device_id)
            (local_device_head profile (psm_manifest_object_id publication)
               (df_latest_change_object_id device_head_frontier)
               (df_latest_sequence device_head_frontier) head_change)
            content_key key_id signer in
          let* records := on_storage (set_profile_sync_roots
            (head_root_registrations profile settings_root_id
               (psm_manifest_object_id publication) device_head) now) in
          let* settings_root := storage_result (ok_or_manifest (records !! 0%nat)
            "published settings tail did not record settings root") in
          let* device_head_root := storage_result (ok_or_manifest (records !! 1%nat)
            "published settings tail did not record device-head root") in
          sr_ret (Some {| pth_publication := publication; pth_device_head := device_head;
                          pth_snapshot_record := snapshot_record;
                          pth_settings_root := settings_root;
                          pth_device_head_root := device_head_root |})
      end
  end.

(** ** The pending publication *)

Definition local_settings_device_head (profile content_key key_id : string)
    (signer : ProfileSyncDeviceSigner) : publish (option ProfileSyncDeviceHead) :=
  let root_id := settings_device_head_root_id local_sync_device_id in
  let* root := on_storage (profile_sync_root profile root_id) in
  match root with
  | None => sr_ret None
  | Some root =>
      let* object := on_client (get_profile_sync_object profile (pr_object_id root)) in
      if negb (str_eqb (ob_object_id object) (pr_object_id root))
      then storage_result (invalid_manifest ("stored local device head root "
             +:+ pr_object_id root +:+ " resolved to mismatched object " +:+ ob_object_id object))
      else
      let* public_key := object_result (signer_public_key sealer signer) in
      let* device_head := object_result (open_signed_profile_sync_device_head codec
        (ob_bytes object) content_key public_key profile key_id) in
      do* sr_lift (validate_device_head_for_publish profile root_id device_head signer) in
      sr_ret (Some device_head)
  end.

(** The published head reaches the sequence of the change. *)
Definition head_covers (device_head : option ProfileSyncDeviceHead)
    (change : SyncChangeRecord) : bool :=
  match device_head with
  | Some device_head => ch_device_sequence change <=? dh_device_sequence device_head
  | None => false
  end.

(** The local changes after a published snapshot. *)
Definition publish_pending_tail (profile settings_root_id content_key key_id : string)
    (signer : ProfileSyncDeviceSigner) (retention_policy : ProfileSyncRetentionPolicy)
    (snapshot_record : SyncSnapshotRecord) (now : Z) : publish LocalSettingsHeadPublishStatus :=
  let* local_tail_events := on_storage (enabled_settings_sync_text_events_after profile
    (sn_covers_revision snapshot_record) u32_max now) in
  match latest_local_device_change_for_head local_sync_device_id
          (local_changes local_tail_events) with
  | None => sr_ret (UpToDate snapshot_record)
  | Some latest_local_tail_change =>
      let* device_head := local_settings_device_head profile content_key key_id signer in
      if head_covers device_head latest_local_tail_change
      then sr_ret (UpToDate snapshot_record)
      else
      let* publication := publish_local_settings_tail_head profile settings_root_id content_key
                            key_id signer retention_policy now in
      sr_ret (match publication with
              | Some publication => PublishedIncrementalTail publication
              | None => UpToDate snapshot_record
              end)
  end.

Definition publish_first_snapshot (profile settings_root_id content_key key_id : string)
    (signer : ProfileSyncDeviceSigner) (retention_policy : ProfileSyncRetentionPolicy)
    (now : Z) : publish LocalSettingsHeadPublishStatus :=
  let* publication := publish_full_local_settings_snapshot_head profile settings_root_id
                        content_key key_id signer retention_policy now in
  sr_ret (match publication with
          | Some publication => PublishedFullSnapshot publication
          | None => NoLocalSettingsChanges
          end).

Definition publish_pending_local_settings_head
    (profile settings_root_id content_key key_id : string) (signer : ProfileSyncDeviceSigner)
    (retention_policy : ProfileSyncRetentionPolicy) (now : Z) :
    publish LocalSettingsHeadPublishStatus :=
  let* latest_snapshot := on_storage (query (latest_sync_snapshot profile)) in
  match latest_snapshot with
  | Some snapshot_record =>
      match sn_backend_object_id snapshot_record with
      | Some _ => publish_pending_tail profile settings_root_id content_key key_id signer
                    retention_policy snapshot_record now
      | None => publish_first_snapshot profile settings_root_id content_key key_id signer
                  retention_policy now
      end
  | None => publish_first_snapshot profile settings_root_id content_key key_id signer
              retention_policy now
  end.

(** [for _ in 0..max_steps]: [steps] are those taken so far. *)
Fixpoint run_steps (profile settings_root_id content_key key_id : string)
    (signer : ProfileSyncDeviceSigner) (retention_policy : ProfileSyncRetentionPolicy)
    (max_steps : Z) (remaining : nat) (steps : list LocalSettingsHeadPublishStatus) (now : Z) :
    publish LocalSettingsSyncRun :=
  match remaining with
  | O => sr_err (LocalSyncLoopExhausted profile settings_root_id max_steps)
  | S remaining =>
      let* step := publish_pending_local_settings_head profile settings_root_id content_key
                     key_id signer retention_policy now in
      if status_is_idle step
      then sr_ret {| lr_profile := profile; lr_settings_root_id := settings_root_id;
                     lr_steps := steps ++ [step] |}
      else run_steps profile settings_root_id content_key key_id signer retention_policy
             max_steps remaining (steps ++ [step]) now
  end.

Definition run_pending_local_settings_sync
    (profile settings_root_id content_key key_id : string) (signer : ProfileSyncDeviceSigner)
    (retention_policy : ProfileSyncRetentionPolicy) (max_steps now : Z) :
    publish LocalSettingsSyncRun :=
  run_steps profile settings_root_id content_key key_id signer retention_policy max_steps
    (Z.to_nat max_steps) [] now.
End Publisher.
