(* ===== verification/MembershipLog.v ===== *)
(** * The published membership log

    [crates/profile-sync/src/membership_log.rs] and its users in
    [crates/profile-sync/src/lib.rs]: the membership records of an account published, each
    under a root of its own and all listed in a log under the root of the log, and the log
    pulled, validated against the records it lists and applied as one batch.

    The JSON codec of the log is a pair of functions. *)
From S2P Require Import Prelude RustStr Broadwebd.
From S2P Require Import AppViews Database SyncObjects SyncStore Membership.
From S2P Require Import Snapshots SyncSecrets Pulls SyncClient Publisher.

Definition PROFILE_SYNC_MEMBERSHIP_LOG_SCHEMA_VERSION : Z := 1.
Definition PROFILE_SYNC_MEMBERSHIP_LOG_ROOT_ID : string := "account/membership/log".
Definition PROFILE_SYNC_MEMBERSHIP_LOG_MAX_RECORDS : Z := 512.

(** ** Data *)

Record PublishedProfileSyncMembershipRecord := {
  pmr_profile : string;
  pmr_root_id : string;
  pmr_object_id : string;
  pmr_signed_record : string
}.

Record ProfileSyncMembershipLogEntry := {
  le_record_id : string;
  le_root_id : string;
  le_object_id : string;
  le_membership_epoch : Z;
  le_record_kind : string;
  le_device_id : string;
  le_signer_device_id : string
}.

Record ProfileSyncMembershipLog := {
  ml_profile : string;
  ml_schema_version : Z;
  ml_records : list ProfileSyncMembershipLogEntry
}.

Record PublishedProfileSyncMembershipLog := {
  pml_profile : string;
  pml_root_id : string;
  pml_object_id : string;
  pml_log : ProfileSyncMembershipLog
}.

Definition membership_log_object_ids (self : PublishedProfileSyncMembershipLog) : list string :=
  push_unique_object_id (extend_unique_object_ids [] (map le_object_id (ml_records (pml_log self))))
    (pml_object_id self).

Inductive ProfileSyncMembershipLogPublicationPlanStatus := PlanEmpty | Publishable | TooLarge.
#[export] Instance plan_status_eq_dec :
  EqDecision ProfileSyncMembershipLogPublicationPlanStatus.
Proof. solve_decision. Defined.

Record ProfileSyncMembershipLogPublicationPlan := {
  lp_profile : string;
  lp_root_id : string;
  lp_record_count : Z;
  lp_max_records : Z;
  lp_status : ProfileSyncMembershipLogPublicationPlanStatus
}.

Definition for_record_count (profile root_id : string) (record_count : Z) :
    ProfileSyncMembershipLogPublicationPlan :=
  {| lp_profile := profile; lp_root_id := root_id; lp_record_count := record_count;
     lp_max_records := PROFILE_SYNC_MEMBERSHIP_LOG_MAX_RECORDS;
     lp_status := if record_count =? 0 then PlanEmpty
                  else if PROFILE_SYNC_MEMBERSHIP_LOG_MAX_RECORDS <? record_count then TooLarge
                  else Publishable |}.

Definition plan_is_empty (self : ProfileSyncMembershipLogPublicationPlan) : bool :=
  bool_decide (lp_status self = PlanEmpty).
Definition plan_is_publishable (self : ProfileSyncMembershipLogPublicationPlan) : bool :=
  bool_decide (lp_status self = Publishable).
Definition plan_requires_compaction (self : ProfileSyncMembershipLogPublicationPlan) : bool :=
  bool_decide (lp_status self = TooLarge).

Inductive ProfileSyncMembershipLogPreviewStatus :=
  PreviewNoPublishedRoot | PreviewUnchanged | PreviewAvailable.
#[export] Instance preview_status_eq_dec : EqDecision ProfileSyncMembershipLogPreviewStatus.
Proof. solve_decision. Defined.

Record ProfileSyncMembershipLogPreview := {
  lv_profile : string;
  lv_root_id : string;
  lv_object_id : option string;
  lv_record_count : Z;
  lv_max_records : Z;
  lv_status : ProfileSyncMembershipLogPreviewStatus
}.

Definition preview_no_published_root (profile root_id : string) :
    ProfileSyncMembershipLogPreview :=
  {| lv_profile := profile; lv_root_id := root_id; lv_object_id := None; lv_record_count := 0;
     lv_max_records := PROFILE_SYNC_MEMBERSHIP_LOG_MAX_RECORDS;
     lv_status := PreviewNoPublishedRoot |}.
Definition preview_unchanged (profile root_id object_id : string) :
    ProfileSyncMembershipLogPreview :=
  {| lv_profile := profile; lv_root_id := root_id; lv_object_id := Some object_id;
     lv_record_count := 0; lv_max_records := PROFILE_SYNC_MEMBERSHIP_LOG_MAX_RECORDS;
     lv_status := PreviewUnchanged |}.
Definition preview_available (profile root_id object_id : string) (record_count : Z) :
    ProfileSyncMembershipLogPreview :=
  {| lv_profile := profile; lv_root_id := root_id; lv_object_id := Some object_id;
     lv_record_count := record_count; lv_max_records := PROFILE_SYNC_MEMBERSHIP_LOG_MAX_RECORDS;
     lv_status := PreviewAvailable |}.

Definition preview_requires_pull (self : ProfileSyncMembershipLogPreview) : bool :=
  bool_decide (lv_status self = PreviewAvailable).
Definition preview_is_unchanged (self : ProfileSyncMembershipLogPreview) : bool :=
  bool_decide (lv_status self = PreviewUnchanged).

Inductive ProfileSyncMembershipRecordPullStatus :=
  | RecordNoPublishedRoot (profile root_id : string)
  | RecordUnchanged (profile root_id object_id : string)
  | RecordApplied (root : ProfileSyncRootRecord)
      (application : SyncAccountMembershipRecordApplication).

Inductive ProfileSyncMembershipLogPullStatus :=
  | LogNoPublishedRoot (profile root_id : string)
  | LogUnchanged (profile root_id object_id : string)
  | LogApplied (root : ProfileSyncRootRecord) (log : ProfileSyncMembershipLog)
      (applications : list SyncAccountMembershipRecordApplication).

Definition log_applied_count (self : ProfileSyncMembershipLogPullStatus) : Z :=
  match self with
  | LogApplied _ _ applications => Z.of_nat (length applications)
  | LogNoPublishedRoot _ _ | LogUnchanged _ _ _ => 0
  end.

Inductive ProfileSyncReceiveError :=
  | ReceiveBroadwebd (error : BroadwebdError)
  | ReceiveStorage (error : StorageError)
  | ReceiveSyncObject (error : SyncObjectError)
  | ReceivePullApply (error : ProfileSyncTrustedPullApplyError BroadwebdError)
  | InvalidMembershipLog (reason : string)
  | TrustedDeviceLimitExceeded (profile : string) (trusted_device_count max_devices : Z).

Record MembershipLogCodec := {
  membership_log_to_vec : ProfileSyncMembershipLog -> result string string;
  membership_log_from_slice : string -> result string ProfileSyncMembershipLog
}.

(** ** Validation *)

Definition invalid_log {A} (reason : string) : result ProfileSyncReceiveError A :=
  Err (InvalidMembershipLog reason).

Definition is_supported_membership_log_record_kind (record_kind : string) : bool :=
  str_eqb record_kind PROFILE_SYNC_MEMBERSHIP_RECORD_KIND_ENROLL_DEVICE
  || str_eqb record_kind PROFILE_SYNC_MEMBERSHIP_RECORD_KIND_ENROLL_PROVIDER
  || str_eqb record_kind PROFILE_SYNC_MEMBERSHIP_RECORD_KIND_REVOKE_DEVICE
  || str_eqb record_kind PROFILE_SYNC_MEMBERSHIP_RECORD_KIND_ROTATE_DEVICE_KEY.

Definition is_valid_membership_log_identifier (value : string) : bool :=
  negb (is_empty value)
  && all_bytes (fun byte => is_ascii_alphanumeric byte || one_of "-_" byte) value.

Definition validate_log_entry (entry : ProfileSyncMembershipLogEntry) :
    result ProfileSyncReceiveError unit :=
  if is_empty (le_record_id entry) then invalid_log "record id must not be empty"
  else if negb (is_valid_membership_log_identifier (le_record_id entry))
  then invalid_log ("record id " +:+ le_record_id entry +:+ " is invalid")
  else if negb (str_eqb (le_root_id entry) (sync_membership_record_root_id (le_record_id entry)))
  then invalid_log ("record " +:+ le_record_id entry +:+ " has unexpected root "
                    +:+ le_root_id entry)
  else if is_empty (le_object_id entry)
  then invalid_log ("record " +:+ le_record_id entry +:+ " has an empty object id")
  else if le_membership_epoch entry <? 1
  then invalid_log ("record " +:+ le_record_id entry +:+ " has invalid membership epoch "
                    +:+ show (le_membership_epoch entry))
  else if negb (is_supported_membership_log_record_kind (le_record_kind entry))
  then invalid_log ("record " +:+ le_record_id entry +:+ " has unsupported record kind "
                    +:+ le_record_kind entry)
  else if negb (is_valid_membership_log_identifier (le_device_id entry))
  then invalid_log ("record " +:+ le_record_id entry +:+ " has invalid device id "
                    +:+ le_device_id entry)
  else if negb (is_valid_membership_log_identifier (le_signer_device_id entry))
  then invalid_log ("record " +:+ le_record_id entry +:+ " has invalid signer device id "
                    +:+ le_signer_device_id entry)
  else Ok tt.

(** The loop over the entries: the ids seen, and the key of the entry before. *)
Fixpoint validate_log_entries (entries : list ProfileSyncMembershipLogEntry)
    (seen_record_ids : gset string) (previous_key : option (Z * string)) :
    result ProfileSyncReceiveError unit :=
  match entries with
  | [] => Ok tt
  | entry :: entries =>
      check? validate_log_entry entry in
      if bool_decide (le_record_id entry ∈ seen_record_ids)
      then invalid_log ("record " +:+ le_record_id entry +:+ " is duplicated")
      else
      let current_key := (le_membership_epoch entry, le_record_id entry) in
      if match previous_key with
         | Some previous => rust_gtb previous current_key
         | None => false
         end
      then invalid_log "records must be ordered by membership epoch and record id"
      else validate_log_entries entries ({[ le_record_id entry ]} ∪ seen_record_ids)
             (Some current_key)
  end.

Definition validate_profile_sync_membership_log (log : ProfileSyncMembershipLog)
    (expected_profile : string) : result ProfileSyncReceiveError unit :=
  if negb (ml_schema_version log =? PROFILE_SYNC_MEMBERSHIP_LOG_SCHEMA_VERSION)
  then invalid_log ("unsupported schema version " +:+ show (ml_schema_version log))
  else if negb (str_eqb (ml_profile log) expected_profile)
  then invalid_log ("expected profile " +:+ expected_profile +:+ ", got " +:+ ml_profile log)
  else if PROFILE_SYNC_MEMBERSHIP_LOG_MAX_RECORDS <? Z.of_nat (length (ml_records log))
  then invalid_log ("too many records: max " +:+ show PROFILE_SYNC_MEMBERSHIP_LOG_MAX_RECORDS
                    +:+ ", got " +:+ show (Z.of_nat (length (ml_records log))))
  else validate_log_entries (ml_records log) ∅ None.

Section Log.
Context (codec : SyncCodec) (log_codec : MembershipLogCodec) {W : Type} `{BroadwebdClient W}.

Definition decode_profile_sync_membership_log (bytes expected_profile : string) :
    result ProfileSyncReceiveError ProfileSyncMembershipLog :=
  let? log := map_err (fun error => ReceiveSyncObject (Decode error))
                (membership_log_from_slice log_codec bytes) in
  check? validate_profile_sync_membership_log log expected_profile in
  Ok log.

Definition decode_signed_membership_record_for_membership_log (signed_record : string) :
    result SyncObjectError (string * ProfileSyncMembershipRecord) :=
  let? signed_object := signed_from_bytes codec signed_record in
  let signer_key := {| pk_device_id := so_device_id signed_object;
                       pk_bytes := so_public_key signed_object |} in
  let? payload := verify_with codec signed_object signer_key in
  let? membership_record := membership_from_bytes codec payload in
  Ok (so_device_id signed_object, membership_record).

Definition validate_membership_log_entry_object (expected_profile : string)
    (entry : ProfileSyncMembershipLogEntry) (signed_record : string) :
    result ProfileSyncReceiveError unit :=
  let? decoded := map_err ReceiveSyncObject
                    (decode_signed_membership_record_for_membership_log signed_record) in
  let '(signer_device_id, membership_record) := decoded in
  let expected_root_id := sync_membership_record_root_id (mr_record_id membership_record) in
  if negb (str_eqb (mr_profile membership_record) expected_profile)
     || negb (str_eqb (le_record_id entry) (mr_record_id membership_record))
     || negb (str_eqb (le_root_id entry) expected_root_id)
     || negb (le_membership_epoch entry =? mr_membership_epoch membership_record)
     || negb (str_eqb (le_record_kind entry) (mr_record_kind membership_record))
     || negb (str_eqb (le_device_id entry) (mr_device_id membership_record))
     || negb (str_eqb (le_signer_device_id entry) signer_device_id)
  then invalid_log ("entry " +:+ le_record_id entry
                    +:+ " does not match its signed membership record")
  else Ok tt.

(** ** Publication *)

Definition publish_signed_sync_account_membership_record
    (profile root_id signed_record : string) :
    publish (W := W) PublishedProfileSyncMembershipRecord :=
  let* object_id := on_client (put_retained_root profile root_id signed_record) in
  sr_ret {| pmr_profile := profile; pmr_root_id := root_id; pmr_object_id := object_id;
            pmr_signed_record := signed_record |}.

Definition plan_local_sync_account_membership_log (profile root_id : string) :
    publish (W := W) ProfileSyncMembershipLogPublicationPlan :=
  let* record_count := on_storage (query (sync_account_membership_record_count profile)) in
  sr_ret (for_record_count profile root_id record_count).

(** The loop over the records: each is published under its own root. *)
Fixpoint publish_log_records (profile : string) (records : list SyncAccountMembershipRecord) :
    publish (W := W) (list ProfileSyncMembershipLogEntry) :=
  match records with
  | [] => sr_ret []
  | record :: records =>
      let record_root_id := sync_membership_record_root_id (sm_record_id record) in
      let* publication := publish_signed_sync_account_membership_record profile record_root_id
                            (sm_signed_record record) in
      let* entries := publish_log_records profile records in
      sr_ret ({| le_record_id := sm_record_id record; le_root_id := record_root_id;
                 le_object_id := pmr_object_id publication;
                 le_membership_epoch := sm_membership_epoch record;
                 le_record_kind := sm_record_kind record; le_device_id := sm_device_id record;
                 le_signer_device_id := sm_signer_device_id record |} :: entries)
  end.

Definition too_large {A} (plan : ProfileSyncMembershipLogPublicationPlan) :
    publish (W := W) A :=
  sr_err (MembershipLogTooLarge (lp_profile plan) (lp_max_records plan) (lp_record_count plan)).

Definition publish_local_sync_account_membership_log (profile root_id : string) :
    publish (W := W) (option PublishedProfileSyncMembershipLog) :=
  let* plan := plan_local_sync_account_membership_log profile root_id in
  if plan_is_empty plan then sr_ret None
  else if plan_requires_compaction plan then too_large plan
  else
  let* records := on_storage (query (sync_account_membership_records profile)) in
  let loaded_plan := for_record_count profile root_id (Z.of_nat (length records)) in
  if plan_is_empty loaded_plan then sr_ret None
  else if plan_requires_compaction loaded_plan then too_large loaded_plan
  else
  let* entries := publish_log_records profile records in
  let log := {| ml_profile := profile;
                ml_schema_version := PROFILE_SYNC_MEMBERSHIP_LOG_SCHEMA_VERSION;
                ml_records := entries |} in
  let* log_bytes := to_vec (membership_log_to_vec log_codec log) in
  let* object_id := on_client (put_retained_root profile root_id log_bytes) in
  sr_ret (Some {| pml_profile := profile; pml_root_id := root_id; pml_object_id := object_id;
                  pml_log := log |}).

(** ** Pulls *)

Definition receive (A : Type) : Type := state_result (W * ProfileDb) ProfileSyncReceiveError A.

Definition from_client {A} (m : client (W := W) A) : receive A := on_source ReceiveBroadwebd m.
Definition from_storage {A} (m : storage A) : receive A := on_database ReceiveStorage m.

(** The local root of the profile names the object already. *)
Definition root_is (object_id : string) (root : option ProfileSyncRootRecord) : bool :=
  match root with
  | Some root => str_eqb (pr_object_id root) object_id
  | None => false
  end.

Definition preview_sync_account_membership_log (profile root_id : string) :
    receive ProfileSyncMembershipLogPreview :=
  let* resolved := from_client (resolve_profile_sync_root profile root_id) in
  match resolved with
  | None => sr_ret (preview_no_published_root profile root_id)
  | Some object_id =>
      let* local_root := from_storage (profile_sync_root profile root_id) in
      if root_is object_id local_root
      then sr_ret (preview_unchanged profile root_id object_id)
      else
      let* log_object := from_client (get_profile_sync_object profile object_id) in
      let* log := sr_lift (decode_profile_sync_membership_log (ob_bytes log_object) profile) in
      sr_ret (preview_available profile root_id object_id (Z.of_nat (length (ml_records log))))
  end.

Definition pull_and_apply_sync_account_membership_record_if_changed
    (profile root_id : string) (now : Z) : receive ProfileSyncMembershipRecordPullStatus :=
  let* resolved := from_client (resolve_profile_sync_root profile root_id) in
  match resolved with
  | None => sr_ret (RecordNoPublishedRoot profile root_id)
  | Some object_id =>
      let* local_root := from_storage (profile_sync_root profile root_id) in
      if root_is object_id local_root
      then sr_ret (RecordUnchanged profile root_id object_id)
      else
      let* signed_record := from_client (get_profile_sync_object profile object_id) in
      let* applied := from_storage
        (apply_signed_sync_account_membership_record_and_set_profile_sync_root codec profile
           root_id object_id (ob_bytes signed_record) now) in
      sr_ret (RecordApplied (fst applied) (snd applied))
  end.

(** The loop over the entries: each record is fetched and compared with its entry. *)
Fixpoint fetch_log_records (profile : string) (entries : list ProfileSyncMembershipLogEntry) :
    receive (list string) :=
  match entries with
  | [] => sr_ret []
  | entry :: entries =>
      let* signed_record := from_client (get_profile_sync_object profile (le_object_id entry)) in
      do* sr_lift (validate_membership_log_entry_object profile entry (ob_bytes signed_record)) in
      let* signed_records := fetch_log_records profile entries in
      sr_ret (ob_bytes signed_record :: signed_records)
  end.

Definition pull_and_apply_sync_account_membership_log_if_changed
    (profile root_id : string) (now : Z) : receive ProfileSyncMembershipLogPullStatus :=
  let* resolved := from_client (resolve_profile_sync_root profile root_id) in
  match resolved with
  | None => sr_ret (LogNoPublishedRoot profile root_id)
  | Some object_id =>
      let* local_root := from_storage (profile_sync_root profile root_id) in
      if root_is object_id local_root
      then sr_ret (LogUnchanged profile root_id object_id)
      else
      let* log_object := from_client (get_profile_sync_object profile object_id) in
      let* log := sr_lift (decode_profile_sync_membership_log (ob_bytes log_object) profile) in
      let* signed_records := fetch_log_records profile (ml_records log) in
      let* applied := from_storage
        (apply_signed_sync_account_membership_records_and_set_profile_sync_root codec profile
           root_id object_id signed_records now) in
      sr_ret (LogApplied (fst applied) log (snd applied))
  end.
End Log.
