(* ===== verification/SyncRunner.v ===== *)
(** * The settings sync runner

    The receiving side of [crates/profile-sync/src/lib.rs], from the head of a trusted device
    to the settings it announces, and [BroadwebdSettingsSyncRunner]: a sync cycle publishes
    the pending local settings, then receives those of the registered devices; around it
    the health of the profile is read and held against a policy, and the published objects
    are handed to retention providers.

    The daemons of retention providers are clients over the same world. *)
From S2P Require Import Prelude RustStr Broadwebd.
From S2P Require Import AppViews Database SyncObjects SyncStore Membership ProfileTables.
From S2P Require Import Snapshots SyncSecrets Pulls SyncHealth Endpoints Retention.
From S2P Require Import SyncClient Publisher MembershipLog.

(** ** Data *)

Inductive BroadwebdTrustedDeviceHeadSyncStatus :=
  | SyncNoPublishedRoot (profile root_id : string)
  | SyncUnchanged (profile root_id object_id : string)
  | SyncStale (profile root_id object_id device_id : string)
      (current_device_sequence incoming_device_sequence : Z)
  | SyncApplied (device_head : VerifiedProfileSyncDeviceHead) (root : ProfileSyncRootRecord)
      (application : ProfileSyncSettingsManifestApplication).

Record TrustedSettingsDeviceSyncResult := {
  dr_device_id : string;
  dr_root_id : string;
  dr_status : BroadwebdTrustedDeviceHeadSyncStatus
}.

Record TrustedSettingsSyncRun := {
  tr_profile : string;
  tr_devices : list TrustedSettingsDeviceSyncResult
}.

Definition is_applied (status : BroadwebdTrustedDeviceHeadSyncStatus) : bool :=
  match status with SyncApplied _ _ _ => true | _ => false end.

Definition trusted_applied_count (self : TrustedSettingsSyncRun) : Z :=
  Z.of_nat (length (List.filter (fun device => is_applied (dr_status device)) (tr_devices self))).

Record SettingsSyncCycleRun := {
  cr_profile : string;
  cr_settings_root_id : string;
  cr_publish : LocalSettingsSyncRun;
  cr_receive : TrustedSettingsSyncRun
}.

Definition cycle_published_step_count (self : SettingsSyncCycleRun) : Z :=
  run_published_step_count (cr_publish self).
Definition cycle_applied_count (self : SettingsSyncCycleRun) : Z :=
  trusted_applied_count (cr_receive self).
Definition cycle_published_object_ids (self : SettingsSyncCycleRun) : list string :=
  run_published_object_ids (cr_publish self).

Record SettingsSyncCycleWithMembershipLogRun := {
  cm_pulled_membership_log : ProfileSyncMembershipLogPullStatus;
  cm_cycle : SettingsSyncCycleRun;
  cm_published_membership_log : option PublishedProfileSyncMembershipLog
}.

Definition pulled_membership_application_count (self : SettingsSyncCycleWithMembershipLogRun) : Z :=
  log_applied_count (cm_pulled_membership_log self).

Definition membership_cycle_object_ids (self : SettingsSyncCycleWithMembershipLogRun) :
    list string :=
  let object_ids := cycle_published_object_ids (cm_cycle self) in
  match cm_published_membership_log self with
  | Some published => extend_unique_object_ids object_ids (membership_log_object_ids published)
  | None => object_ids
  end.

Inductive SettingsSyncCycleProviderRetentionIssueKind := NotRetained | NotAvailable.

Record SettingsSyncCycleProviderRetentionIssue := {
  pri_provider_index : Z;
  pri_object_id : string;
  pri_kind : SettingsSyncCycleProviderRetentionIssueKind
}.

Record SettingsSyncCycleProviderRetentionRun := {
  prn_provider_index : Z;
  prn_object_statuses : list BroadwebdProfileSyncRetentionStatus
}.

Section RetentionRun.
Context (self : SettingsSyncCycleProviderRetentionRun).

Definition object_count : Z := Z.of_nat (length (prn_object_statuses self)).
Definition retained_count : Z :=
  Z.of_nat (length (List.filter rst_retained (prn_object_statuses self))).
Definition available_count : Z :=
  Z.of_nat (length (List.filter rst_available (prn_object_statuses self))).

Definition status_issues (status : BroadwebdProfileSyncRetentionStatus) :
    list SettingsSyncCycleProviderRetentionIssue :=
  (if rst_retained status then []
   else [{| pri_provider_index := prn_provider_index self; pri_object_id := rst_object_id status;
            pri_kind := NotRetained |}])
  ++ (if rst_available status then []
      else [{| pri_provider_index := prn_provider_index self; pri_object_id := rst_object_id status;
               pri_kind := NotAvailable |}]).

Definition provider_retention_issues : list SettingsSyncCycleProviderRetentionIssue :=
  flat_map status_issues (prn_object_statuses self).

Definition provider_retention_issue_count : Z :=
  fold_left (fun count status => count + (usize_of_bool (negb (rst_retained status))
                                          + usize_of_bool (negb (rst_available status))))
    (prn_object_statuses self) 0.

Definition provider_has_retention_issue : bool := 0 <? provider_retention_issue_count.
End RetentionRun.

Definition cycle_provider_retention_issues
    (retention : list SettingsSyncCycleProviderRetentionRun) :
    list SettingsSyncCycleProviderRetentionIssue :=
  flat_map provider_retention_issues retention.

Definition cycle_provider_retention_issue_count
    (retention : list SettingsSyncCycleProviderRetentionRun) : Z :=
  fold_left (fun count provider => count + provider_retention_issue_count provider) retention 0.

(** [retained_provider_count] of every run with a [retention]. *)
Definition retained_provider_count (retention : list SettingsSyncCycleProviderRetentionRun) : Z :=
  Z.of_nat (length (List.filter
    (fun provider => (0 <? object_count provider)
                     && (object_count provider =? retained_count provider)) retention)).

Record SettingsSyncCycleWithMembershipLogRetentionRun := {
  cml_cycle : SettingsSyncCycleWithMembershipLogRun;
  cml_retained_object_ids : list string;
  cml_retention : list SettingsSyncCycleProviderRetentionRun
}.

Record SettingsSyncCycleWithHealthRun := {
  ch_before_health : SettingsSyncHealthReport;
  ch_cycle : SettingsSyncCycleRun;
  ch_after_health : SettingsSyncHealthReport
}.

Record SettingsSyncCycleWithRetentionRun := {
  crr_before_health : SettingsSyncHealthReport;
  crr_cycle : SettingsSyncCycleRun;
  crr_retention : list SettingsSyncCycleProviderRetentionRun;
  crr_after_health : SettingsSyncHealthReport
}.

Record SettingsSyncCompactionWithRetentionRun := {
  cc_before_health : SettingsSyncHealthReport;
  cc_compaction : option PublishedSettingsCompaction;
  cc_retained_object_ids : list string;
  cc_retention : list SettingsSyncCycleProviderRetentionRun;
  cc_after_health : SettingsSyncHealthReport
}.

Definition compacted (self : SettingsSyncCompactionWithRetentionRun) : bool :=
  match cc_compaction self with Some _ => true | None => false end.

Record SettingsSyncCycleWithSharedRootCandidatesRun := {
  cs_before_health : SettingsSyncHealthReport;
  cs_cycle : SettingsSyncCycleRun;
  cs_shared_root_candidates : ProfileSyncSettingsCandidatePullApplyStatus;
  cs_after_health : SettingsSyncHealthReport
}.

Record SettingsSyncCycleWithSharedRootRetentionRun := {
  csr_before_health : SettingsSyncHealthReport;
  csr_cycle : SettingsSyncCycleRun;
  csr_shared_root_candidates : ProfileSyncSettingsCandidatePullApplyStatus;
  csr_retained_object_ids : list string;
  csr_retention : list SettingsSyncCycleProviderRetentionRun;
  csr_after_health : SettingsSyncHealthReport
}.

Definition shared_root_candidate_application_count
    (status : ProfileSyncSettingsCandidatePullApplyStatus) : Z :=
  match status with
  | CandidateApplied applications => Z.of_nat (length applications)
  | CandidateNoPublishedRoot _ _ | CandidateUnchanged _ _ _ => 0
  end.

Definition shared_root_candidate_object_ids
    (status : ProfileSyncSettingsCandidatePullApplyStatus) : list string :=
  match status with
  | CandidateApplied applications =>
      fold_left (fun object_ids application =>
        extend_unique_object_ids object_ids (map_sync_object_ids (ca_application application)))
        applications []
  | CandidateNoPublishedRoot _ _ | CandidateUnchanged _ _ _ => []
  end.

Record SettingsSyncCyclePreflightWithMembershipLog := {
  pm_pulled_membership_log : ProfileSyncMembershipLogPullStatus;
  pm_preflight : SettingsSyncCyclePreflight
}.

Inductive ProfileSyncCredentialError :=
  | CredentialStorage (error : StorageError)
  | CredentialSyncObject (error : SyncObjectError)
  | InactiveContentKey (profile expected_key_id active_key_id : string)
  | UntrustedLocalDevice (profile device_id : string)
  | LocalDevicePublicKeyMismatch (profile device_id : string)
  | LocalDeviceSignerMismatch (profile local_device_id signer_device_id : string).

Inductive ProfileSyncCycleError :=
  | CycleCredentials (error : ProfileSyncCredentialError)
  | CyclePublish (error : ProfileSyncPublishError)
  | CycleReceive (error : ProfileSyncReceiveError).

Inductive ProfileSyncCycleWithHealthError :=
  | HealthFailed (error : BroadwebdError)
  | RetentionFailed (error : BroadwebdError)
  | PolicyFailed (error : ProfileSyncPolicyError)
  | CycleFailed (error : ProfileSyncCycleError).

(** ** Credentials *)

Section Runner.
Context (codec : SyncCodec) (sealer : SyncSealer) (d : PayloadDecoders).
Context (log_codec : MembershipLogCodec) {W : Type} `{BroadwebdClient W}.
Context (random_nonce : W -> W * option string) (local_sync_device_id : string).

Definition credential (A : Type) : Type := state_result ProfileDb ProfileSyncCredentialError A.

Definition active_settings_sync_content_key_id (profile : string) : credential string :=
  let* active_key := query (active_sync_content_key_epoch profile) in
  let* active_key := sr_lift (ok_or active_key
    (CredentialStorage (MissingActiveSyncContentKey profile))) in
  if negb (str_eqb (ke_algorithm active_key) PROFILE_SYNC_CONTENT_KEY_ALGORITHM_CHACHA20_POLY1305)
  then sr_err (CredentialStorage (UnsupportedSyncContentKeyAlgorithm (ke_key_id active_key)
                                    (ke_algorithm active_key)))
  else sr_ret (ke_key_id active_key).

Definition validate_settings_sync_cycle_credentials (profile key_id : string)
    (signer : ProfileSyncDeviceSigner) : credential unit :=
  let* active_key_id := active_settings_sync_content_key_id profile in
  if negb (str_eqb active_key_id key_id)
  then sr_err (InactiveContentKey profile key_id active_key_id)
  else
  let* public_key := sr_lift (map_err CredentialSyncObject (signer_public_key sealer signer)) in
  if negb (str_eqb (pk_device_id public_key) local_sync_device_id)
  then sr_err (LocalDeviceSignerMismatch profile local_sync_device_id (pk_device_id public_key))
  else
  let* trusted_key := sr_map_err CredentialStorage
                        (sync_device_public_key profile (pk_device_id public_key)) in
  match trusted_key with
  | None => sr_err (UntrustedLocalDevice profile (pk_device_id public_key))
  | Some trusted_key =>
      if negb (sk_trusted trusted_key)
      then sr_err (UntrustedLocalDevice profile (pk_device_id public_key))
      else if negb (bool_decide (sk_public_key trusted_key = public_key))
      then sr_err (LocalDevicePublicKeyMismatch profile
                     (pk_device_id (sk_public_key trusted_key)))
      else sr_ret tt
  end.

Definition derive_settings_sync_content_key_from_secret (profile key_id : string)
    (sync_secret : SlateSyncSecret) : result ProfileSyncCredentialError string :=
  map_err CredentialSyncObject
    (derive_profile_sync_content_key sealer sync_secret profile key_id).

Definition trusted_remote_device_public_keys (profile : string) (max_devices : Z) :
    state_result ProfileDb ProfileSyncReceiveError (list SyncDevicePublicKeyRecord) :=
  let* provider_authority_device_ids := query (fun db =>
    list_to_set (map sd_device_id (List.filter sd_provider_authority (sync_devices profile db)))
    : gset string) in
  let* trusted_devices := query (fun db => List.filter (fun record =>
    sk_trusted record
    && negb (str_eqb (pk_device_id (sk_public_key record)) local_sync_device_id)
    && negb (bool_decide (pk_device_id (sk_public_key record)
                          ∈ provider_authority_device_ids)))
    (sync_device_public_keys profile db)) in
  if max_devices <? Z.of_nat (length trusted_devices)
  then sr_err (TrustedDeviceLimitExceeded profile (Z.of_nat (length trusted_devices)) max_devices)
  else sr_ret trusted_devices.

(** ** Receiving *)

(** The sequence of the device in the local log, when the announced head is older than it:
    a head of the same sequence is stale when another one was recorded. *)
Definition stale_sequence (profile : string) (local_object_id : option string)
    (device_head : VerifiedProfileSyncDeviceHead) (db : ProfileDb) : option Z :=
  if bool_decide (local_object_id = Some (vd_object_id device_head)) then None else
  match latest_sync_device_sequence profile (dh_device_id (vd_device_head device_head)) db with
  | None => None
  | Some current =>
      let incoming := dh_device_sequence (vd_device_head device_head) in
      if (incoming <? current)
         || (current =? incoming) && match local_object_id with Some _ => true | None => false end
      then Some current else None
  end.

Definition pull_record_and_apply_trusted_settings_from_device_head
    (profile root_id content_key key_id : string) (now : Z) :
    pull_apply (W := W) (E := BroadwebdError) BroadwebdTrustedDeviceHeadSyncStatus :=
  let* device_head := sr_map_err ApplyPull
    (pull_trusted_signed_profile_sync_device_head codec profile root_id content_key key_id) in
  match device_head with
  | None => sr_ret (SyncNoPublishedRoot profile root_id)
  | Some device_head =>
      let* local_root := on_database ApplyStorage (profile_sync_root profile root_id) in
      let local_object_id := option_map pr_object_id local_root in
      let* stale := on_database ApplyStorage
        (query (stale_sequence profile local_object_id device_head)) in
      match stale with
      | Some current_device_sequence =>
          sr_ret (SyncStale profile root_id (vd_object_id device_head)
                    (dh_device_id (vd_device_head device_head)) current_device_sequence
                    (dh_device_sequence (vd_device_head device_head)))
      | None =>
          let* objects := sr_map_err ApplyPull
            (pull_trusted_signed_profile_sync_settings_manifest_objects_from_device_head codec
               profile device_head content_key key_id) in
          let device_head_root_is_current :=
            bool_decide (local_object_id = Some (vd_object_id device_head)) in
          let* settings_root := on_database ApplyStorage
            (profile_sync_root profile (mf_root_id (vm_manifest objects))) in
          let settings_root_is_current := root_is (vm_manifest_object_id objects) settings_root in
          if device_head_root_is_current && settings_root_is_current
          then sr_ret (SyncUnchanged profile root_id (vd_object_id device_head))
          else
          let* applied := on_database ApplyStorage
            (apply_verified_settings_manifest_objects_and_set_profile_sync_root d objects profile
               root_id (vd_object_id device_head) now) in
          sr_ret (SyncApplied device_head (fst applied) (snd applied))
      end
  end.

(** The loop over the devices: the first that fails ends it. *)
Fixpoint receive_from_devices (profile content_key key_id : string)
    (trusted_devices : list SyncDevicePublicKeyRecord) (now : Z) :
    receive (W := W) (list TrustedSettingsDeviceSyncResult) :=
  match trusted_devices with
  | [] => sr_ret []
  | trusted_device :: trusted_devices =>
      let device_id := pk_device_id (sk_public_key trusted_device) in
      let root_id := settings_device_head_root_id device_id in
      let* status := sr_map_err ReceivePullApply
        (pull_record_and_apply_trusted_settings_from_device_head profile root_id content_key
           key_id now) in
      let* devices := receive_from_devices profile content_key key_id trusted_devices now in
      sr_ret ({| dr_device_id := device_id; dr_root_id := root_id; dr_status := status |}
                :: devices)
  end.

Definition pull_and_apply_trusted_settings_from_registered_devices
    (profile content_key key_id : string) (max_devices now : Z) :
    receive (W := W) TrustedSettingsSyncRun :=
  let* trusted_devices := on_database (fun e => e)
    (trusted_remote_device_public_keys profile max_devices) in
  let* devices := receive_from_devices profile content_key key_id trusted_devices now in
  sr_ret {| tr_profile := profile; tr_devices := devices |}.

(** ** Health *)

Definition profile_sync_provider_health (profile : string) : client (W := W)
    ProfileSyncProviderHealth :=
  let* response := profile_sync (ProviderHealth {| Broadwebd.pr_profile := profile |}) in
  match response with
  | ProviderHealthResponse health => sr_ret health
  | _ => sr_err (UnsupportedRequest
           "profile-sync provider health returned a non-health response")
  end.

Definition profile_sync_providers (profile : string) : client (W := W)
    (list ProfileSyncProviderRecord) :=
  let* response := profile_sync (DiscoverProviders {| Broadwebd.pr_profile := profile |}) in
  match response with
  | ProvidersResponse providers => sr_ret providers
  | _ => sr_err (UnsupportedRequest
           "profile-sync provider discovery returned a non-provider response")
  end.

Definition profile_sync_retention_provider_candidates (profile : string) : client (W := W)
    (list ProfileSyncProviderRecord) :=
  let* providers := profile_sync_providers profile in
  sr_ret (List.filter (fun provider => availability (prec_roles provider)
                                       && object_transfer (prec_roles provider)) providers).

Definition profile_sync_root_health (profile root_id : string)
    (minimum_online_retaining_providers : Z) : client (W := W) ProfileSyncRootHealth :=
  let* response := profile_sync (RootHealth
    {| rh_profile := profile; rh_root_id := root_id;
       rh_minimum_online_retaining_providers := minimum_online_retaining_providers |}) in
  match response with
  | RootHealthResponse health => sr_ret health
  | _ => sr_err (UnsupportedRequest "profile-sync root health returned a non-health response")
  end.

Definition settings_sync_health (profile settings_root_id : string)
    (minimum_online_retaining_providers : Z) : client (W := W) SettingsSyncHealthReport :=
  let local_device_head_root_id := settings_device_head_root_id local_sync_device_id in
  let* provider_health := profile_sync_provider_health profile in
  let* settings_root_health := profile_sync_root_health profile settings_root_id
                                 minimum_online_retaining_providers in
  let* local_device_head_root_health := profile_sync_root_health profile
    local_device_head_root_id minimum_online_retaining_providers in
  sr_ret {| hr_profile := profile; hr_settings_root_id := settings_root_id;
            hr_local_device_head_root_id := local_device_head_root_id;
            hr_provider_health := provider_health;
            hr_settings_root_health := settings_root_health;
            hr_local_device_head_root_health := local_device_head_root_health |}.

(** ** Cycles *)

Definition cycle (A : Type) : Type := state_result (W * ProfileDb) ProfileSyncCycleError A.

Definition cycle_credentials {A} (m : credential A) : cycle A := on_database CycleCredentials m.
Definition cycle_publish {A} (m : publish (W := W) A) : cycle A := sr_map_err CyclePublish m.
Definition cycle_receive {A} (m : receive (W := W) A) : cycle A := sr_map_err CycleReceive m.

(** The keys in their database, as the receiving side reads them. *)
Definition trusted_remote_devices (profile : string) (max_devices : Z) :
    receive (W := W) (list SyncDevicePublicKeyRecord) :=
  on_database (fun e => e) (trusted_remote_device_public_keys profile max_devices).

Definition run_settings_sync_cycle (profile settings_root_id content_key key_id : string)
    (signer : ProfileSyncDeviceSigner) (retention_policy : ProfileSyncRetentionPolicy)
    (max_publish_steps max_trusted_devices now : Z) : cycle SettingsSyncCycleRun :=
  do* cycle_credentials (validate_settings_sync_cycle_credentials profile key_id signer) in
  do* cycle_receive (trusted_remote_devices profile max_trusted_devices) in
  let* publish := cycle_publish (run_pending_local_settings_sync codec sealer random_nonce
    local_sync_device_id profile settings_root_id content_key key_id signer retention_policy
    max_publish_steps now) in
  let* receive := cycle_receive (pull_and_apply_trusted_settings_from_registered_devices profile
    content_key key_id max_trusted_devices now) in
  sr_ret {| cr_profile := profile; cr_settings_root_id := settings_root_id;
            cr_publish := publish; cr_receive := receive |}.

(** The log is planned before anything is pulled: one too large to publish ends the cycle. *)
Definition check_membership_log_size (profile membership_log_root_id : string) : cycle unit :=
  let* plan := cycle_publish
    (plan_local_sync_account_membership_log profile membership_log_root_id) in
  if plan_requires_compaction plan
  then sr_err (CyclePublish (MembershipLogTooLarge (lp_profile plan) (lp_max_records plan)
                               (lp_record_count plan)))
  else sr_ret tt.

Definition run_settings_sync_cycle_with_membership_log
    (profile settings_root_id membership_log_root_id content_key key_id : string)
    (signer : ProfileSyncDeviceSigner) (retention_policy : ProfileSyncRetentionPolicy)
    (max_publish_steps max_trusted_devices now : Z) :
    cycle SettingsSyncCycleWithMembershipLogRun :=
  do* check_membership_log_size profile membership_log_root_id in
  let* pulled_membership_log := cycle_receive
    (pull_and_apply_sync_account_membership_log_if_changed codec log_codec profile
       membership_log_root_id now) in
  let* cycle := run_settings_sync_cycle profile settings_root_id content_key key_id signer
                  retention_policy max_publish_steps max_trusted_devices now in
  let* published_membership_log := cycle_publish
    (publish_local_sync_account_membership_log log_codec profile membership_log_root_id) in
  sr_ret {| cm_pulled_membership_log := pulled_membership_log; cm_cycle := cycle;
            cm_published_membership_log := published_membership_log |}.

Definition run_settings_sync_cycle_with_membership_log_and_sync_secret
    (profile settings_root_id membership_log_root_id : string) (sync_secret : SlateSyncSecret)
    (signer : ProfileSyncDeviceSigner) (retention_policy : ProfileSyncRetentionPolicy)
    (max_publish_steps max_trusted_devices now : Z) :
    cycle SettingsSyncCycleWithMembershipLogRun :=
  do* check_membership_log_size profile membership_log_root_id in
  let* pulled_membership_log := cycle_receive
    (pull_and_apply_sync_account_membership_log_if_changed codec log_codec profile
       membership_log_root_id now) in
  let* active_key_id := cycle_credentials (active_settings_sync_content_key_id profile) in
  let* content_key := sr_lift (map_err CycleCredentials
    (derive_settings_sync_content_key_from_secret profile active_key_id sync_secret)) in
  let* cycle := run_settings_sync_cycle profile settings_root_id content_key active_key_id signer
                  retention_policy max_publish_steps max_trusted_devices now in
  let* published_membership_log := cycle_publish
    (publish_local_sync_account_membership_log log_codec profile membership_log_root_id) in
  sr_ret {| cm_pulled_membership_log := pulled_membership_log; cm_cycle := cycle;
            cm_published_membership_log := published_membership_log |}.

(** ** Cycles under a policy *)

Definition checked (A : Type) : Type :=
  state_result (W * ProfileDb) ProfileSyncCycleWithHealthError A.

Definition of_cycle {A} (m : cycle A) : checked A := sr_map_err CycleFailed m.
Definition of_health {A} (m : client (W := W) A) : checked A := on_source HealthFailed m.
Definition of_policy (r : result ProfileSyncPolicyError unit) : checked unit :=
  sr_lift (map_err PolicyFailed r).

Definition health_of (profile settings_root_id : string) (policy : SettingsSyncCyclePolicy) :
    checked SettingsSyncHealthReport :=
  of_health (settings_sync_health profile settings_root_id
               (pol_minimum_online_retaining_providers policy)).

(** The health after the cycle, held against the policy. *)
Definition checked_after_health (profile settings_root_id : string)
    (policy : SettingsSyncCyclePolicy) : checked SettingsSyncHealthReport :=
  let* after_health := health_of profile settings_root_id policy in
  do* of_policy (check_after_cycle policy after_health) in
  sr_ret after_health.

(** [run_settings_sync_cycle] with the numbers of the policy. *)
Definition policy_cycle (profile settings_root_id content_key key_id : string)
    (signer : ProfileSyncDeviceSigner) (policy : SettingsSyncCyclePolicy) (now : Z) :
    checked SettingsSyncCycleRun :=
  of_cycle (run_settings_sync_cycle profile settings_root_id content_key key_id signer
    (pol_retention_policy policy) (pol_max_publish_steps policy)
    (pol_max_trusted_devices policy) now).

Definition run_settings_sync_cycle_with_policy
    (profile settings_root_id content_key key_id : string) (signer : ProfileSyncDeviceSigner)
    (policy : SettingsSyncCyclePolicy) (now : Z) : checked SettingsSyncCycleWithHealthRun :=
  let* before_health := health_of profile settings_root_id policy in
  do* of_policy (check_before_cycle policy before_health) in
  let* cycle := policy_cycle profile settings_root_id content_key key_id signer policy now in
  let* after_health := checked_after_health profile settings_root_id policy in
  sr_ret {| ch_before_health := before_health; ch_cycle := cycle;
            ch_after_health := after_health |}.

Definition run_settings_sync_cycle_with_health
    (profile settings_root_id content_key key_id : string) (signer : ProfileSyncDeviceSigner)
    (retention_policy : ProfileSyncRetentionPolicy)
    (max_publish_steps max_trusted_devices minimum_online_retaining_providers now : Z) :
    checked SettingsSyncCycleWithHealthRun :=
  let policy := with_root_health_required_after_cycle false
    (with_provider_health_required false
       (cycle_policy_new retention_policy max_publish_steps max_trusted_devices
          minimum_online_retaining_providers)) in
  run_settings_sync_cycle_with_policy profile settings_root_id content_key key_id signer policy
    now.

Definition settings_sync_cycle_preflight_with_active_key_policy
    (profile settings_root_id : string) (signer : ProfileSyncDeviceSigner)
    (policy : SettingsSyncCyclePolicy) : checked SettingsSyncCyclePreflight :=
  let* before_health := health_of profile settings_root_id policy in
  do* of_policy (check_before_cycle policy before_health) in
  let* retention_provider_candidates :=
    of_health (profile_sync_retention_provider_candidates profile) in
  let* active_key_id := of_cycle (cycle_credentials
    (active_settings_sync_content_key_id profile)) in
  do* of_cycle (cycle_credentials
        (validate_settings_sync_cycle_credentials profile active_key_id signer)) in
  let* trusted_remote := of_cycle (cycle_receive
    (trusted_remote_devices profile (pol_max_trusted_devices policy))) in
  sr_ret {| pf_profile := profile; pf_settings_root_id := settings_root_id;
            pf_local_device_id := local_sync_device_id;
            pf_signer_device_id := sg_device_id signer; pf_active_key_id := active_key_id;
            pf_trusted_remote_device_count := Z.of_nat (length trusted_remote);
            pf_retention_provider_candidates := retention_provider_candidates;
            pf_before_health := before_health |}.

Definition settings_sync_cycle_preflight_with_membership_log_and_active_key_policy
    (profile settings_root_id membership_log_root_id : string) (signer : ProfileSyncDeviceSigner)
    (policy : SettingsSyncCyclePolicy) (now : Z) :
    checked SettingsSyncCyclePreflightWithMembershipLog :=
  let* pulled_membership_log := of_cycle (cycle_receive
    (pull_and_apply_sync_account_membership_log_if_changed codec log_codec profile
       membership_log_root_id now)) in
  let* preflight := settings_sync_cycle_preflight_with_active_key_policy profile
                      settings_root_id signer policy in
  sr_ret {| pm_pulled_membership_log := pulled_membership_log; pm_preflight := preflight |}.

Definition run_settings_sync_cycle_with_active_key_policy
    (profile settings_root_id content_key : string) (signer : ProfileSyncDeviceSigner)
    (policy : SettingsSyncCyclePolicy) (now : Z) : checked SettingsSyncCycleWithHealthRun :=
  let* preflight := settings_sync_cycle_preflight_with_active_key_policy profile
                      settings_root_id signer policy in
  let* cycle := policy_cycle profile settings_root_id content_key (pf_active_key_id preflight)
                  signer policy now in
  let* after_health := checked_after_health profile settings_root_id policy in
  sr_ret {| ch_before_health := pf_before_health preflight; ch_cycle := cycle;
            ch_after_health := after_health |}.

Definition run_settings_sync_cycle_with_sync_secret_active_key_policy
    (profile settings_root_id : string) (sync_secret : SlateSyncSecret)
    (signer : ProfileSyncDeviceSigner) (policy : SettingsSyncCyclePolicy) (now : Z) :
    checked SettingsSyncCycleWithHealthRun :=
  let* preflight := settings_sync_cycle_preflight_with_active_key_policy profile
                      settings_root_id signer policy in
  let* content_key := of_cycle (sr_lift (map_err CycleCredentials
    (derive_settings_sync_content_key_from_secret profile (pf_active_key_id preflight)
       sync_secret))) in
  let* cycle := policy_cycle profile settings_root_id content_key (pf_active_key_id preflight)
                  signer policy now in
  let* after_health := checked_after_health profile settings_root_id policy in
  sr_ret {| ch_before_health := pf_before_health preflight; ch_cycle := cycle;
            ch_after_health := after_health |}.

(** ** Retention providers *)

Context {Daemon : Type} (client_of : Daemon -> BroadwebdClient W).

(** [for (provider_index, provider_daemon) in daemons.iter().enumerate()]. *)
Fixpoint retain_with_providers (profile : string) (object_ids : list string)
    (provider_index : Z) (retention_provider_daemons : list Daemon) :
    checked (list SettingsSyncCycleProviderRetentionRun) :=
  match retention_provider_daemons with
  | [] => sr_ret []
  | provider_daemon :: daemons =>
      let* object_statuses := on_source RetentionFailed
        (retain_profile_sync_objects (H := client_of provider_daemon) profile object_ids) in
      let* retention := retain_with_providers profile object_ids (provider_index + 1) daemons in
      sr_ret ({| prn_provider_index := provider_index; prn_object_statuses := object_statuses |}
                :: retention)
  end.

Definition run_settings_sync_cycle_with_active_key_policy_and_retention_providers
    (profile settings_root_id content_key : string) (signer : ProfileSyncDeviceSigner)
    (policy : SettingsSyncCyclePolicy) (retention_provider_daemons : list Daemon) (now : Z) :
    checked SettingsSyncCycleWithRetentionRun :=
  let* preflight := settings_sync_cycle_preflight_with_active_key_policy profile
                      settings_root_id signer policy in
  let* cycle := policy_cycle profile settings_root_id content_key (pf_active_key_id preflight)
                  signer policy now in
  let* retention := retain_with_providers (cr_profile cycle) (cycle_published_object_ids cycle) 0
                      retention_provider_daemons in
  let* after_health := checked_after_health profile settings_root_id policy in
  sr_ret {| crr_before_health := pf_before_health preflight; crr_cycle := cycle;
            crr_retention := retention; crr_after_health := after_health |}.

Definition compact_settings_after_preflight (content_key : string)
    (signer : ProfileSyncDeviceSigner) (policy : SettingsSyncCyclePolicy)
    (compaction_now : Z) (retention_provider_daemons : list Daemon)
    (preflight : SettingsSyncCyclePreflight) (now : Z) :
    checked SettingsSyncCompactionWithRetentionRun :=
  let* compaction := of_cycle (cycle_publish (compact_and_publish_settings sealer random_nonce
    (pf_profile preflight) (pf_settings_root_id preflight) content_key
    (pf_active_key_id preflight) signer (pol_retention_policy policy) compaction_now now)) in
  let retained_object_ids := match compaction with
                             | Some compaction => compaction_object_ids compaction
                             | None => []
                             end in
  let* retention := retain_with_providers (pf_profile preflight) retained_object_ids 0
                      retention_provider_daemons in
  let* after_health := checked_after_health (pf_profile preflight)
                         (pf_settings_root_id preflight) policy in
  sr_ret {| cc_before_health := pf_before_health preflight; cc_compaction := compaction;
            cc_retained_object_ids := retained_object_ids; cc_retention := retention;
            cc_after_health := after_health |}.

Definition compact_settings_with_active_key_policy_and_retention_providers
    (profile settings_root_id content_key : string) (signer : ProfileSyncDeviceSigner)
    (policy : SettingsSyncCyclePolicy) (compaction_now : Z)
    (retention_provider_daemons : list Daemon) (now : Z) :
    checked SettingsSyncCompactionWithRetentionRun :=
  let* preflight := settings_sync_cycle_preflight_with_active_key_policy profile
                      settings_root_id signer policy in
  compact_settings_after_preflight content_key signer policy compaction_now
    retention_provider_daemons preflight now.

(** The candidates of the shared root. *)
Definition pull_shared_root_candidates (profile settings_root_id content_key : string)
    (now : Z) : checked ProfileSyncSettingsCandidatePullApplyStatus :=
  of_cycle (cycle_receive (sr_map_err ReceivePullApply
    (pull_and_apply_active_trusted_signed_settings_manifest_candidates_if_changed codec d profile
       settings_root_id content_key now))).

Definition run_settings_sync_cycle_with_active_key_policy_and_shared_root_candidates
    (profile settings_root_id content_key : string) (signer : ProfileSyncDeviceSigner)
    (policy : SettingsSyncCyclePolicy) (now : Z) :
    checked SettingsSyncCycleWithSharedRootCandidatesRun :=
  let* preflight := settings_sync_cycle_preflight_with_active_key_policy profile
                      settings_root_id signer policy in
  let* cycle := policy_cycle profile settings_root_id content_key (pf_active_key_id preflight)
                  signer policy now in
  let* shared_root_candidates := pull_shared_root_candidates profile settings_root_id content_key
                                   now in
  let* after_health := checked_after_health profile settings_root_id policy in
  sr_ret {| cs_before_health := pf_before_health preflight; cs_cycle := cycle;
            cs_shared_root_candidates := shared_root_candidates;
            cs_after_health := after_health |}.

Definition shared_root_cycle_after_preflight (content_key : string)
    (signer : ProfileSyncDeviceSigner) (policy : SettingsSyncCyclePolicy)
    (retention_provider_daemons : list Daemon) (preflight : SettingsSyncCyclePreflight)
    (now : Z) : checked SettingsSyncCycleWithSharedRootRetentionRun :=
  let* cycle := policy_cycle (pf_profile preflight) (pf_settings_root_id preflight) content_key
                  (pf_active_key_id preflight) signer policy now in
  let* shared_root_candidates := pull_shared_root_candidates (pf_profile preflight)
    (pf_settings_root_id preflight) content_key now in
  let retained_object_ids := extend_unique_object_ids
    (extend_unique_object_ids [] (cycle_published_object_ids cycle))
    (shared_root_candidate_object_ids shared_root_candidates) in
  let* retention := retain_with_providers (pf_profile preflight) retained_object_ids 0
                      retention_provider_daemons in
  let* after_health := checked_after_health (pf_profile preflight)
                         (pf_settings_root_id preflight) policy in
  sr_ret {| csr_before_health := pf_before_health preflight; csr_cycle := cycle;
            csr_shared_root_candidates := shared_root_candidates;
            csr_retained_object_ids := retained_object_ids; csr_retention := retention;
            csr_after_health := after_health |}.

Definition run_settings_sync_cycle_with_active_key_policy_shared_root_candidates_and_retention_providers
    (profile settings_root_id content_key : string) (signer : ProfileSyncDeviceSigner)
    (policy : SettingsSyncCyclePolicy) (retention_provider_daemons : list Daemon) (now : Z) :
    checked SettingsSyncCycleWithSharedRootRetentionRun :=
  let* preflight := settings_sync_cycle_preflight_with_active_key_policy profile
                      settings_root_id signer policy in
  shared_root_cycle_after_preflight content_key signer policy retention_provider_daemons
    preflight now.

Definition retain_membership_log_cycle_publications (profile : string)
    (cycle : SettingsSyncCycleWithMembershipLogRun) (retention_provider_daemons : list Daemon) :
    checked SettingsSyncCycleWithMembershipLogRetentionRun :=
  let retained_object_ids := membership_cycle_object_ids cycle in
  let* retention := retain_with_providers profile retained_object_ids 0
                      retention_provider_daemons in
  sr_ret {| cml_cycle := cycle; cml_retained_object_ids := retained_object_ids;
            cml_retention := retention |}.

Definition run_settings_sync_cycle_with_membership_log_and_retention_providers
    (profile settings_root_id membership_log_root_id content_key key_id : string)
    (signer : ProfileSyncDeviceSigner) (retention_policy : ProfileSyncRetentionPolicy)
    (max_publish_steps max_trusted_devices : Z) (retention_provider_daemons : list Daemon)
    (now : Z) : checked SettingsSyncCycleWithMembershipLogRetentionRun :=
  let* cycle := of_cycle (run_settings_sync_cycle_with_membership_log profile settings_root_id
    membership_log_root_id content_key key_id signer retention_policy max_publish_steps
    max_trusted_devices now) in
  retain_membership_log_cycle_publications profile cycle retention_provider_daemons.

Definition membership_log_cycle_after_preflight (content_key : string)
    (signer : ProfileSyncDeviceSigner) (policy : SettingsSyncCyclePolicy)
    (membership_log_root_id : string) (retention_provider_daemons : list Daemon)
    (preflight : SettingsSyncCyclePreflightWithMembershipLog) (now : Z) :
    checked SettingsSyncCycleWithMembershipLogRetentionRun :=
  let checked_preflight := pm_preflight preflight in
  let* cycle := policy_cycle (pf_profile checked_preflight)
    (pf_settings_root_id checked_preflight) content_key (pf_active_key_id checked_preflight)
    signer policy now in
  let* published_membership_log := of_cycle (cycle_publish
    (publish_local_sync_account_membership_log log_codec (pf_profile checked_preflight)
       membership_log_root_id)) in
  retain_membership_log_cycle_publications (pf_profile checked_preflight)
    {| cm_pulled_membership_log := pm_pulled_membership_log preflight; cm_cycle := cycle;
       cm_published_membership_log := published_membership_log |} retention_provider_daemons.
End Runner.
