(* ===== verification/SyncErrors.v ===== *)
(** * The texts of the errors of profile sync

    The [Display] implementations of [StorageError] and of the pull errors in
    [crates/storage/src/lib.rs], and of the publish, receive, credential and cycle errors in
    [crates/profile-sync/src/errors.rs].

    [database_path] is the path of the database as it is displayed, [show_sql_error] the text
    of an error of rusqlite. *)
From S2P Require Import Prelude RustStr AppViews Database SyncObjects Broadwebd TrustedOpen.
From S2P Require Import Pulls SyncHealth Publisher MembershipLog SyncRunner.

Section Texts.
Context (database_path : string) (show_sql_error : SqlError -> string).

Definition show_storage_error (e : StorageError) : string :=
  match e with
  | Database source =>
      "database operation failed for " +:+ database_path +:+ ": " +:+ show_sql_error source
  | EncodeSyncPayload error => "failed to encode sync payload: " +:+ error
  | DecodeSyncPayload error => "failed to decode sync payload: " +:+ error
  | EncodeSnapshotDomains error => "failed to encode sync snapshot domains: " +:+ error
  | InvalidSyncDeviceId device_id => "invalid sync device id: " +:+ device_id
  | InvalidSyncMembershipRecordId record_id =>
      "invalid sync membership record id: " +:+ record_id
  | InvalidSyncMembershipRecordKind record_kind =>
      "invalid sync membership record kind: " +:+ record_kind
  | InvalidSyncMembershipEpoch membership_epoch =>
      "invalid sync membership epoch: " +:+ show membership_epoch
  | InvalidProfileSyncMembershipRecord reason =>
      "invalid profile sync membership record: " +:+ reason
  | InvalidProfileSyncEnrollmentBundle reason =>
      "invalid profile sync enrollment bundle: " +:+ reason
  | InvalidProfileSyncDeviceEnrollmentRequest reason =>
      "invalid profile sync device enrollment request: " +:+ reason
  | InvalidProfileSyncSecretHandoffBundle reason =>
      "invalid profile sync secret handoff bundle: " +:+ reason
  | UntrustedSyncMembershipSigner profile device_id =>
      "profile " +:+ profile +:+ " has no trusted sync membership signer " +:+ device_id
  | InvalidSyncContentKeyId key_id => "invalid sync content key id: " +:+ key_id
  | InvalidSyncDomain domain => "invalid sync domain: " +:+ domain
  | InvalidSyncRevision revision => "invalid sync revision: " +:+ show revision
  | InvalidCalendarEventId event_id => "invalid calendar event id: " +:+ event_id
  | InvalidChatConversationId conversation_id =>
      "invalid chat conversation id: " +:+ conversation_id
  | InvalidChatProviderId provider_id => "invalid chat provider id: " +:+ provider_id
  | InvalidContactId contact_id => "invalid contact id: " +:+ contact_id
  | InvalidDownloadId download_id => "invalid download id: " +:+ download_id
  | InvalidDownloadSize size_bytes =>
      "download metadata size exceeds SQLite integer range: " +:+ show size_bytes
  | InvalidFileEntryId entry_id => "invalid file entry id: " +:+ entry_id
  | InvalidFileEntryKind entry_kind => "invalid file entry kind: " +:+ entry_kind
  | InvalidFileSize size_bytes =>
      "file metadata size exceeds SQLite integer range: " +:+ show size_bytes
  | InvalidStorageProviderId provider_id => "invalid storage provider id: " +:+ provider_id
  | InvalidStorageProviderKind provider_kind =>
      "invalid storage provider kind: " +:+ provider_kind
  | InvalidStorageProviderQuota quota_bytes =>
      "storage provider quota exceeds SQLite integer range: " +:+ show quota_bytes
  | InvalidStoragePinningPolicy pinning_policy =>
      "invalid storage provider pinning policy: " +:+ pinning_policy
  | MissingActiveSyncContentKey profile =>
      "profile " +:+ profile +:+ " has no active sync content key epoch"
  | UnsupportedSyncContentKeyAlgorithm key_id algorithm =>
      "unsupported sync content key algorithm for " +:+ key_id +:+ ": " +:+ algorithm
  | UnauthorizedSyncContentKeyEpoch profile key_id key_membership_epoch
      manifest_membership_epoch =>
      "profile " +:+ profile +:+ " sync content key " +:+ key_id
      +:+ " was introduced at membership epoch " +:+ show key_membership_epoch
      +:+ ", after manifest epoch " +:+ show manifest_membership_epoch
  | InvalidSyncRootId root_id => "invalid sync root id: " +:+ root_id
  | InvalidProfileSyncManifest reason => "invalid profile sync manifest: " +:+ reason
  | UnsupportedProfileSyncManifestSchema schema_version =>
      "unsupported profile sync manifest schema version: " +:+ show schema_version
  | UnsupportedProfileSyncMembershipRecordSchema schema_version =>
      "unsupported profile sync membership record schema version: " +:+ show schema_version
  | UnsupportedProfileSyncEnrollmentBundleSchema schema_version =>
      "unsupported profile sync enrollment bundle schema version: " +:+ show schema_version
  | UnsupportedProfileSyncDeviceEnrollmentRequestSchema schema_version =>
      "unsupported profile sync device enrollment request schema version: "
      +:+ show schema_version
  | UnsupportedProfileSyncSecretHandoffBundleSchema schema_version =>
      "unsupported profile sync secret handoff bundle schema version: " +:+ show schema_version
  | UnsupportedSyncSnapshotSchema schema_version =>
      "unsupported sync settings snapshot schema version: " +:+ show schema_version
  end.

(** ** Pulls *)

Definition show_trusted_open_error (e : ProfileSyncTrustedOpenError) : string :=
  match e with
  | Storage error => "failed to read trusted profile sync key: " +:+ show_storage_error error
  | SyncObject error => "profile sync object failed: " +:+ sync_object_error_to_string error
  | UntrustedDevice profile device_id =>
      "profile " +:+ profile +:+ " has no trusted public key for sync device " +:+ device_id
  | ProviderAuthoritySigner profile device_id =>
      "profile " +:+ profile +:+ " sync device " +:+ device_id
      +:+ " is marked as provider authority and cannot authorize profile sync state"
  | UnauthorizedDeviceEpoch profile device_id key_membership_epoch manifest_membership_epoch =>
      "profile " +:+ profile +:+ " sync device " +:+ device_id
      +:+ " was trusted at membership epoch " +:+ show key_membership_epoch
      +:+ ", after manifest epoch " +:+ show manifest_membership_epoch
  end.

Section SourceErrors.
Context {E : Type} (show_source_error : E -> string).

Definition id_mismatch (expected actual : string) : string :=
  "profile sync source returned object id " +:+ actual +:+ ", expected " +:+ expected.

Definition show_pull_error (e : ProfileSyncPullError E) : string :=
  match e with
  | SignedPullSource error => "profile sync object source failed: " +:+ show_source_error error
  | SignedPullSyncObject error =>
      "profile sync object failed: " +:+ sync_object_error_to_string error
  | SignedPullObjectIdMismatch expected actual => id_mismatch expected actual
  end.

Definition show_pull_apply_error (e : ProfileSyncPullApplyError E) : string :=
  match e with
  | SignedApplyPull error => "failed to pull profile sync data: " +:+ show_pull_error error
  | SignedApplyStorage error =>
      "failed to apply profile sync data: " +:+ show_storage_error error
  end.

Definition show_trusted_pull_error (e : ProfileSyncTrustedPullError E) : string :=
  match e with
  | PullSource error => "profile sync object source failed: " +:+ show_source_error error
  | PullOpen error => "trusted profile sync object failed: " +:+ show_trusted_open_error error
  | PullObjectIdMismatch expected actual => id_mismatch expected actual
  end.

Definition show_trusted_pull_apply_error (e : ProfileSyncTrustedPullApplyError E) : string :=
  match e with
  | ApplyPull error =>
      "failed to pull trusted profile sync data: " +:+ show_trusted_pull_error error
  | ApplyStorage error => "failed to apply profile sync data: " +:+ show_storage_error error
  end.
End SourceErrors.

(** ** Publishing, receiving and cycles *)

Definition show_publish_error (e : ProfileSyncPublishError) : string :=
  match e with
  | PublishBroadwebd error => "profile sync backend error: " +:+ show_broadwebd_error error
  | PublishStorage error => "profile sync storage error: " +:+ show_storage_error error
  | PublishSyncObject error =>
      "profile sync object error: " +:+ sync_object_error_to_string error
  | MembershipLogTooLarge profile max_records actual_records =>
      "profile sync membership log for profile " +:+ profile +:+ " has "
      +:+ show actual_records +:+ " records, exceeding max " +:+ show max_records
  | LocalSyncLoopExhausted profile settings_root_id max_steps =>
      "local settings sync loop for profile " +:+ profile +:+ " root " +:+ settings_root_id
      +:+ " did not reach idle after " +:+ show max_steps +:+ " steps"
  end.

Definition show_receive_error (e : ProfileSyncReceiveError) : string :=
  match e with
  | ReceiveBroadwebd error => "profile sync backend error: " +:+ show_broadwebd_error error
  | ReceiveStorage error => "profile sync storage error: " +:+ show_storage_error error
  | ReceiveSyncObject error =>
      "profile sync object error: " +:+ sync_object_error_to_string error
  | ReceivePullApply error =>
      "profile sync receive error: " +:+ show_trusted_pull_apply_error show_broadwebd_error error
  | InvalidMembershipLog reason => "invalid profile sync membership log: " +:+ reason
  | TrustedDeviceLimitExceeded profile trusted_device_count max_devices =>
      "trusted settings sync for profile " +:+ profile +:+ " has " +:+ show trusted_device_count
      +:+ " remote trusted devices, exceeding max " +:+ show max_devices
  end.

Definition show_credential_error (e : ProfileSyncCredentialError) : string :=
  match e with
  | CredentialStorage error =>
      "profile sync credential storage error: " +:+ show_storage_error error
  | CredentialSyncObject error =>
      "profile sync credential object error: " +:+ sync_object_error_to_string error
  | InactiveContentKey profile expected_key_id active_key_id =>
      "profile " +:+ profile +:+ " active sync content key is " +:+ active_key_id
      +:+ ", not requested key " +:+ expected_key_id
  | UntrustedLocalDevice profile device_id =>
      "profile " +:+ profile +:+ " has no trusted public key for local sync device "
      +:+ device_id
  | LocalDevicePublicKeyMismatch profile device_id =>
      "profile " +:+ profile +:+ " trusted public key for local sync device " +:+ device_id
      +:+ " does not match the supplied signer"
  | LocalDeviceSignerMismatch profile local_device_id signer_device_id =>
      "profile " +:+ profile +:+ " local sync device is " +:+ local_device_id
      +:+ ", but supplied signer is for " +:+ signer_device_id
  end.

Definition show_cycle_error (e : ProfileSyncCycleError) : string :=
  match e with
  | CycleCredentials error =>
      "profile sync credential preflight failed: " +:+ show_credential_error error
  | CyclePublish error => "profile sync publish cycle failed: " +:+ show_publish_error error
  | CycleReceive error => "profile sync receive cycle failed: " +:+ show_receive_error error
  end.

Definition show_cycle_with_health_error (e : ProfileSyncCycleWithHealthError) : string :=
  match e with
  | HealthFailed error => "profile sync health check failed: " +:+ show_broadwebd_error error
  | RetentionFailed error => "profile sync retention failed: " +:+ show_broadwebd_error error
  | PolicyFailed error => "profile sync policy check failed: " +:+ show_policy_error error
  | CycleFailed error => "profile sync cycle failed: " +:+ show_cycle_error error
  end.
End Texts.
