(* ===== verification/Scheduler.v ===== *)
(** * The settings sync scheduler

    Models [BroadwebdSettingsSyncScheduler] of [crates/profile-sync/src/lib.rs] with the
    plans and runs it answers: a preflight, the selection of retention providers (given by
    handles, stored in the profile or discovered and trusted), the checks of the policy on the
    selection, and the cycle or the compaction of the runner with the daemons selected.

    A materializer is a function of its plan; [now] is the time the clock gives. *)
From S2P Require Import Prelude RustStr Routing ServiceFrames Broadwebd PeerDiscovery.
From S2P Require Import AppViews Database SyncObjects Membership SyncSecrets Pulls SyncHealth.
From S2P Require Import Endpoints Retention SyncClient Publisher MembershipLog SyncRunner.
From S2P Require Import SyncErrors DiscoveryTrust.

Record SettingsSyncSchedulerConfig := {
  sc_profile : string;
  sc_settings_root_id : string;
  sc_policy : SettingsSyncCyclePolicy
}.
Definition scheduler_config_new (profile settings_root_id : string)
    (policy : SettingsSyncCyclePolicy) : SettingsSyncSchedulerConfig :=
  {| sc_profile := profile; sc_settings_root_id := settings_root_id; sc_policy := policy |}.

Record SettingsSyncRuntimeSecrets := {
  rs_content_key : string;
  rs_signer : ProfileSyncDeviceSigner
}.

(** ** Discovered and trusted providers *)

Definition settings_sync_retention_discovery_required_capabilities : list string :=
  [CAPABILITY_OBJECT_TRANSFER; CAPABILITY_LOCAL_RETENTION].

Definition is_discovery_service_addr_comparable (endpoint_ref : string) : bool :=
  bool_decide (is_Some (parse_socket_addr endpoint_ref))
  || is_multiaddr_like_endpoint endpoint_ref.

Definition peer_provider_id (peer : ProfileSyncPeerDiscoveryResult) : string :=
  ad_provider_id (dr_advertisement peer).
Definition peer_service_addr (peer : ProfileSyncPeerDiscoveryResult) : string :=
  ad_service_addr (dr_advertisement peer).

(** The first peer of each provider. *)
Fixpoint first_of_each_provider (seen : gset string)
    (peers : list ProfileSyncPeerDiscoveryResult) : list ProfileSyncPeerDiscoveryResult :=
  match peers with
  | [] => []
  | peer :: peers =>
      if bool_decide (peer_provider_id peer ∈ seen) then first_of_each_provider seen peers
      else peer :: first_of_each_provider ({[peer_provider_id peer]} ∪ seen) peers
  end.

Definition trusted_discovered_settings_sync_retention_provider_ids
    (discovery_report : TrustedProfileSyncPeerDiscoveryReport) : list string :=
  map peer_provider_id (first_of_each_provider ∅ (tr_trusted_peers discovery_report)).

Definition add_endpoint_ref (refs : gmap string (gset string))
    (peer : ProfileSyncPeerDiscoveryResult) : gmap string (gset string) :=
  <[peer_provider_id peer :=
      {[peer_service_addr peer]} ∪ default ∅ (refs !! peer_provider_id peer)]> refs.
Definition trusted_discovered_settings_sync_retention_provider_endpoint_refs
    (discovery_report : TrustedProfileSyncPeerDiscoveryReport) : gmap string (gset string) :=
  fold_left add_endpoint_ref (tr_trusted_peers discovery_report) ∅.

Definition trusted_discovered_endpoint_matches_handle_endpoint_ref
    (trusted_endpoint_refs : gset string) (handle_endpoint_ref : option string) : bool :=
  match handle_endpoint_ref with
  | None => true
  | Some endpoint_ref =>
      negb (is_discovery_service_addr_comparable endpoint_ref)
      || bool_decide (endpoint_ref ∈ trusted_endpoint_refs)
  end.

Definition trusted_discovered_settings_sync_retention_provider_handles {Daemon}
    (discovery_report : TrustedProfileSyncPeerDiscoveryReport)
    (handles : list (SettingsSyncRetentionProviderHandle Daemon)) :
    list (SettingsSyncRetentionProviderHandle Daemon) :=
  let refs :=
    trusted_discovered_settings_sync_retention_provider_endpoint_refs discovery_report in
  List.filter (fun handle =>
    match refs !! rh_provider_id handle with
    | None => false
    | Some trusted_endpoint_refs =>
        trusted_discovered_endpoint_matches_handle_endpoint_ref trusted_endpoint_refs
          (rh_endpoint_ref handle)
    end) handles.

Definition discovered_endpoint (peer : ProfileSyncPeerDiscoveryResult) :
    SettingsSyncStoredRetentionProviderEndpoint :=
  let endpoint_ref := trim (peer_service_addr peer) in
  {| ep_provider_id := peer_provider_id peer; ep_endpoint_ref := Some endpoint_ref;
     ep_endpoint_status :=
       classify_profile_sync_provider_endpoint (peer_provider_id peer) (Some endpoint_ref) |}.
Definition trusted_discovered_settings_sync_retention_provider_endpoints
    (discovery_report : TrustedProfileSyncPeerDiscoveryReport) :
    list SettingsSyncStoredRetentionProviderEndpoint :=
  map discovered_endpoint (first_of_each_provider ∅ (tr_trusted_peers discovery_report)).

Definition trusted_discovered_settings_sync_selected_endpoint_materialization_plan
    (discovery_report : TrustedProfileSyncPeerDiscoveryReport)
    (selected_provider_ids : list string) : SettingsSyncSelectedEndpointMaterializationPlan :=
  selected_endpoint_materialization_plan
    (trusted_discovered_settings_sync_retention_provider_endpoints discovery_report)
    selected_provider_ids.

Definition profile_sync_peer_discovery_error_to_cycle_with_health
    (error : ProfileSyncPeerDiscoveryError) : ProfileSyncCycleWithHealthError :=
  match error with
  | DiscoveryBroadwebd error => HealthFailed error
  | DiscoveryStorage error => CycleFailed (CycleCredentials (CredentialStorage error))
  end.

(** ** Plans *)

Record SettingsSyncTrustedDiscoveryCyclePlan := {
  td_discovery_report : TrustedProfileSyncPeerDiscoveryReport;
  td_cycle : SettingsSyncScheduledCyclePlan
}.
Definition discovery_selected_endpoint_materialization_plan
    (plan : SettingsSyncTrustedDiscoveryCyclePlan) :
    SettingsSyncSelectedEndpointMaterializationPlan :=
  trusted_discovered_settings_sync_selected_endpoint_materialization_plan
    (td_discovery_report plan) (cp_selected_retention_provider_ids (td_cycle plan)).
Definition discovery_selected_protocol_materialization_plan
    (plan : SettingsSyncTrustedDiscoveryCyclePlan) :
    SettingsSyncSelectedProtocolMaterializationPlan :=
  protocol_materialization_plan (discovery_selected_endpoint_materialization_plan plan).

Record SettingsSyncMembershipLogPlan := {
  lg_local_publication : ProfileSyncMembershipLogPublicationPlan;
  lg_remote_preview : ProfileSyncMembershipLogPreview
}.

(** The plan of a cycle with a membership log, [C] the plan of the cycle: the records
    [SettingsSyncScheduledMembershipCyclePlan], [..StoredRetentionProviderMembershipPlan] and
    their attempts. *)
Record SettingsSyncMembershipPlan (C : Type) := {
  mp_membership_log_publication : ProfileSyncMembershipLogPublicationPlan;
  mp_membership_log_preview : ProfileSyncMembershipLogPreview;
  mp_cycle : C
}.
Arguments mp_membership_log_publication {C}. Arguments mp_membership_log_preview {C}.
Arguments mp_cycle {C}.
Definition unpublishable_membership_log {C} (plan : SettingsSyncMembershipPlan C) : bool :=
  plan_requires_compaction (mp_membership_log_publication plan).

Inductive PlanAttemptCycle (C : Type) :=
  | Ready (cycle : C)
  | CredentialBlocked (reason : string).
Arguments Ready {C}. Arguments CredentialBlocked {C}.
Definition cycle_ready {C} (attempt : SettingsSyncMembershipPlan (PlanAttemptCycle C)) : bool :=
  match mp_cycle attempt with Ready _ => true | CredentialBlocked _ => false end.
Definition credential_blocked {C} (attempt : SettingsSyncMembershipPlan (PlanAttemptCycle C)) :
    bool :=
  match mp_cycle attempt with Ready _ => false | CredentialBlocked _ => true end.

(** ** Runs *)

(** What a run with given handles answers, [P] its preflight and [R] what the runner
    answered: [SettingsSyncScheduledCycleRun], [..CompactionRun] and [..MembershipCycleRun]. *)
Record SettingsSyncScheduledRun (P R : Type) := {
  sd_preflight : P;
  sd_selected_retention_provider_ids : list string;
  sd_stale_retention_provider_ids : list string;
  sd_offline_retention_provider_ids : list string;
  sd_ineligible_retention_provider_ids : list string;
  sd_undiscovered_retention_provider_ids : list string;
  sd_duplicate_retention_provider_ids : list string;
  sd_result : R
}.
Arguments sd_preflight {P R}. Arguments sd_selected_retention_provider_ids {P R}.
Arguments sd_stale_retention_provider_ids {P R}.
Arguments sd_offline_retention_provider_ids {P R}.
Arguments sd_ineligible_retention_provider_ids {P R}.
Arguments sd_undiscovered_retention_provider_ids {P R}.
Arguments sd_duplicate_retention_provider_ids {P R}. Arguments sd_result {P R}.

Definition scheduled_run {P R} (preflight : P) (plan : SettingsSyncScheduledCyclePlan)
    (result : R) : SettingsSyncScheduledRun P R :=
  {| sd_preflight := preflight;
     sd_selected_retention_provider_ids := cp_selected_retention_provider_ids plan;
     sd_stale_retention_provider_ids := cp_stale_retention_provider_ids plan;
     sd_offline_retention_provider_ids := cp_offline_retention_provider_ids plan;
     sd_ineligible_retention_provider_ids := cp_ineligible_retention_provider_ids plan;
     sd_undiscovered_retention_provider_ids := cp_undiscovered_retention_provider_ids plan;
     sd_duplicate_retention_provider_ids := cp_duplicate_retention_provider_ids plan;
     sd_result := result |}.

Definition run_selection_issues {P R} (run : SettingsSyncScheduledRun P R) :
    list SettingsSyncRetentionProviderSelectionIssue :=
  retention_provider_selection_issues (sd_stale_retention_provider_ids run)
    (sd_offline_retention_provider_ids run) (sd_ineligible_retention_provider_ids run)
    (sd_undiscovered_retention_provider_ids run) (sd_duplicate_retention_provider_ids run).
Definition run_selection_issue_count {P R} (run : SettingsSyncScheduledRun P R) : Z :=
  retention_provider_selection_issue_count (sd_stale_retention_provider_ids run)
    (sd_offline_retention_provider_ids run) (sd_ineligible_retention_provider_ids run)
    (sd_undiscovered_retention_provider_ids run) (sd_duplicate_retention_provider_ids run).

(** What a run with stored providers answers: [SettingsSyncStoredRetentionProviderRun],
    [SettingsSyncStoredCompactionRun] and [SettingsSyncStoredRetentionProviderMembershipRun].
    Only the last has a field for its preflight, that of the membership log; in the others
    [st_preflight] is the preflight of the plan. *)
Record SettingsSyncStoredRun (P R : Type) := {
  st_preflight : P;
  st_stored_provider_plan : SettingsSyncStoredRetentionProviderPlan;
  st_unmaterialized_retention_provider_ids : list string;
  st_pending_endpoint_materialization_retention_provider_ids : list string;
  st_endpoint_mismatch_retention_provider_ids : list string;
  st_duplicate_handle_retention_provider_ids : list string;
  st_unsupported_endpoint_retention_provider_ids : list string;
  st_result : R
}.
Arguments st_preflight {P R}. Arguments st_stored_provider_plan {P R}.
Arguments st_unmaterialized_retention_provider_ids {P R}.
Arguments st_pending_endpoint_materialization_retention_provider_ids {P R}.
Arguments st_endpoint_mismatch_retention_provider_ids {P R}.
Arguments st_duplicate_handle_retention_provider_ids {P R}.
Arguments st_unsupported_endpoint_retention_provider_ids {P R}. Arguments st_result {P R}.

Definition stored_run {P R Daemon} (preflight : P)
    (plan : SettingsSyncStoredRetentionProviderPlan)
    (materialized : MaterializedStoredRetentionProviders Daemon) (result : R) :
    SettingsSyncStoredRun P R :=
  {| st_preflight := preflight; st_stored_provider_plan := plan;
     st_unmaterialized_retention_provider_ids := ms_unmaterialized_ids materialized;
     st_pending_endpoint_materialization_retention_provider_ids := ms_pending_ids materialized;
     st_endpoint_mismatch_retention_provider_ids := ms_endpoint_mismatch_ids materialized;
     st_duplicate_handle_retention_provider_ids := ms_duplicate_handle_ids materialized;
     st_unsupported_endpoint_retention_provider_ids := ms_unsupported_endpoint_ids materialized;
     st_result := result |}.

(** [saturating_sub] of one count after the other. *)
Definition run_materialized_retention_provider_count {P R} (run : SettingsSyncStoredRun P R) : Z :=
  let sub a ids := Z.max 0 (a - usize_len ids) in
  let count := usize_len (cp_selected_retention_provider_ids
                            (srp_cycle (st_stored_provider_plan run))) in
  let count := sub count (st_unmaterialized_retention_provider_ids run) in
  let count := sub count (st_pending_endpoint_materialization_retention_provider_ids run) in
  let count := sub count (st_endpoint_mismatch_retention_provider_ids run) in
  let count := sub count (st_duplicate_handle_retention_provider_ids run) in
  sub count (st_unsupported_endpoint_retention_provider_ids run).

(** ** The scheduler *)

Section Scheduler.
Context `{DiscoveryJson} (codec : SyncCodec) (sealer : SyncSealer) (d : PayloadDecoders).
Context (log_codec : MembershipLogCodec) {W : Type} `{BroadwebdClient W}.
Context (random_nonce : W -> W * option string) (local_sync_device_id : string).
Context {Daemon : Type} (client_of : Daemon -> BroadwebdClient W).
Context (database_path : string) (show_sql_error : SqlError -> string).

Abbreviation Handle := (SettingsSyncRetentionProviderHandle Daemon).
Abbreviation Materialized := (MaterializedStoredRetentionProviders Daemon).
Abbreviation ProtocolMaterialization := (SettingsSyncProtocolProviderMaterialization Daemon).
Abbreviation checked := (SyncRunner.checked (W := W)).

Implicit Types (config : SettingsSyncSchedulerConfig) (signer : ProfileSyncDeviceSigner).
Implicit Types (handles : list Handle).

(** [SettingsSyncProtocolProviderMaterializer::materialize_protocol_providers]. *)
Definition Materializer : Type :=
  SettingsSyncSelectedProtocolMaterializationPlan -> ProtocolMaterialization.

Definition scheduler_preflight config signer : checked SettingsSyncCyclePreflight :=
  settings_sync_cycle_preflight_with_active_key_policy sealer local_sync_device_id
    (sc_profile config) (sc_settings_root_id config) signer (sc_policy config).

Definition load_stored_selection config (max_stored_providers : Z) :
    checked StoredRetentionProviderSelection :=
  of_cycle (cycle_credentials (sr_map_err CredentialStorage
    (load_stored_retention_provider_selection (sc_profile config) max_stored_providers))).

(** [discover_trusted_profile_sync_peers_with_required_capabilities] for the retention of
    settings; the provider acts on the same world as the daemons. *)
Definition discover_retention_peers config
    (discovery_provider : ProfileSyncPeerDiscoveryProvider W)
    (discovery_query : ProfileSyncPeerDiscoveryQuery) :
    checked TrustedProfileSyncPeerDiscoveryReport :=
  sr_map_err profile_sync_peer_discovery_error_to_cycle_with_health
    (discover_trusted_profile_sync_peers_with_required_capabilities codec local_sync_device_id
       (sc_profile config) discovery_provider discovery_query
       settings_sync_retention_discovery_required_capabilities).

(** *** Planning *)

Definition plan_once_selecting_retention_providers config signer handles :
    checked SettingsSyncScheduledCyclePlan :=
  let* preflight := scheduler_preflight config signer in
  sr_ret (sel_plan (select_settings_sync_retention_provider_handles preflight handles)).

Definition plan_once_selecting_trusted_discovered_retention_provider_endpoints config signer
    (discovery_report : TrustedProfileSyncPeerDiscoveryReport) :
    checked SettingsSyncTrustedDiscoveryCyclePlan :=
  let* preflight := scheduler_preflight config signer in
  let provider_ids :=
    trusted_discovered_settings_sync_retention_provider_ids discovery_report in
  sr_ret {| td_discovery_report := discovery_report;
            td_cycle := select_settings_sync_retention_provider_ids preflight provider_ids |}.

Definition plan_once_selecting_trusted_discovered_retention_providers config signer
    (discovery_report : TrustedProfileSyncPeerDiscoveryReport) handles :
    checked SettingsSyncScheduledCyclePlan :=
  plan_once_selecting_retention_providers config signer
    (trusted_discovered_settings_sync_retention_provider_handles discovery_report handles).

Definition plan_once_discovering_trusted_retention_provider_endpoints config signer
    (discovery_provider : ProfileSyncPeerDiscoveryProvider W)
    (discovery_query : ProfileSyncPeerDiscoveryQuery) :
    checked SettingsSyncTrustedDiscoveryCyclePlan :=
  let* discovery_report := discover_retention_peers config discovery_provider discovery_query in
  plan_once_selecting_trusted_discovered_retention_provider_endpoints config signer
    discovery_report.

Definition plan_once_discovering_trusted_retention_providers config signer
    (discovery_provider : ProfileSyncPeerDiscoveryProvider W)
    (discovery_query : ProfileSyncPeerDiscoveryQuery) handles :
    checked SettingsSyncTrustedDiscoveryCyclePlan :=
  let* discovery_report := discover_retention_peers config discovery_provider discovery_query in
  let* cycle := plan_once_selecting_trusted_discovered_retention_providers config signer
                  discovery_report handles in
  sr_ret {| td_discovery_report := discovery_report; td_cycle := cycle |}.

Definition plan_once_with_stored_retention_providers config signer (max_stored_providers : Z) :
    checked SettingsSyncStoredRetentionProviderPlan :=
  let* preflight := scheduler_preflight config signer in
  let* stored_selection := load_stored_selection config max_stored_providers in
  sr_ret (settings_sync_stored_retention_provider_plan preflight max_stored_providers
            stored_selection).

(** The plan, and the preview of what the materializer would do with it. *)
Definition plan_once_with_stored_protocol_materializer_retention_provider_handles config signer
    (max_stored_providers : Z) (materializer : Materializer) :
    checked (SettingsSyncStoredRetentionProviderPlan *
             (ProtocolMaterialization *
              SettingsSyncStoredRetentionProviderHandleMaterialization)) :=
  let* plan := plan_once_with_stored_retention_providers config signer max_stored_providers in
  let protocol_materialization := materializer (selected_protocol_materialization_plan plan) in
  sr_ret (plan,
          (protocol_materialization,
           selected_retention_provider_handle_materialization plan
             (protocol_retention_provider_handles protocol_materialization))).

Definition plan_membership_log (profile membership_log_root_id : string) :
    checked SettingsSyncMembershipLogPlan :=
  let* local_publication := of_cycle (cycle_publish
    (plan_local_sync_account_membership_log profile membership_log_root_id)) in
  let* remote_preview := of_cycle (cycle_receive
    (preview_sync_account_membership_log log_codec profile membership_log_root_id)) in
  sr_ret {| lg_local_publication := local_publication; lg_remote_preview := remote_preview |}.

(** A plan of the membership log, then the plan of the cycle. *)
Definition with_membership_log_plan {C} config (membership_log_root_id : string)
    (plan_cycle : checked C) : checked (SettingsSyncMembershipPlan C) :=
  let* log_plan := plan_membership_log (sc_profile config) membership_log_root_id in
  let* cycle := plan_cycle in
  sr_ret {| mp_membership_log_publication := lg_local_publication log_plan;
            mp_membership_log_preview := lg_remote_preview log_plan; mp_cycle := cycle |}.

(** A plan that fails for the credentials is blocked, with the text of the error. *)
Definition attempt_cycle {C} (plan_cycle : checked C) : checked (PlanAttemptCycle C) := fun s =>
  match plan_cycle s with
  | (s, Ok cycle) => (s, Ok (Ready cycle))
  | (s, Err (CycleFailed (CycleCredentials e))) =>
      (s, Ok (CredentialBlocked (show_cycle_with_health_error database_path show_sql_error
                                   (CycleFailed (CycleCredentials e)))))
  | (s, Err e) => (s, Err e)
  end.

Definition plan_once_with_membership_log_selecting_retention_providers config
    (membership_log_root_id : string) signer handles :
    checked (SettingsSyncMembershipPlan SettingsSyncScheduledCyclePlan) :=
  with_membership_log_plan config membership_log_root_id
    (plan_once_selecting_retention_providers config signer handles).

Definition try_plan_once_with_membership_log_selecting_retention_providers config
    (membership_log_root_id : string) signer handles :
    checked (SettingsSyncMembershipPlan (PlanAttemptCycle SettingsSyncScheduledCyclePlan)) :=
  with_membership_log_plan config membership_log_root_id
    (attempt_cycle (plan_once_selecting_retention_providers config signer handles)).

Definition plan_once_with_membership_log_and_stored_retention_providers config
    (membership_log_root_id : string) signer (max_stored_providers : Z) :
    checked (SettingsSyncMembershipPlan SettingsSyncStoredRetentionProviderPlan) :=
  with_membership_log_plan config membership_log_root_id
    (plan_once_with_stored_retention_providers config signer max_stored_providers).

Definition try_plan_once_with_membership_log_and_stored_retention_providers config
    (membership_log_root_id : string) signer (max_stored_providers : Z) :
    checked (SettingsSyncMembershipPlan
               (PlanAttemptCycle SettingsSyncStoredRetentionProviderPlan)) :=
  with_membership_log_plan config membership_log_root_id
    (attempt_cycle (plan_once_with_stored_retention_providers config signer
                      max_stored_providers)).

(** *** What every run does *)

(** The content key is given, or derived from the secret for the active key. *)
Inductive SyncKey :=
  | GivenContentKey (content_key : string)
  | FromSyncSecret (sync_secret : SlateSyncSecret).

Definition content_key_of config (key : SyncKey) (active_key_id : string) : checked string :=
  match key with
  | GivenContentKey content_key => sr_ret content_key
  | FromSyncSecret sync_secret =>
      of_cycle (sr_lift (map_err CycleCredentials
        (derive_settings_sync_content_key_from_secret sealer (sc_profile config) active_key_id
           sync_secret)))
  end.

(** No stale, offline or ineligible provider may be selected. *)
Definition check_plan_providers (plan : SettingsSyncScheduledCyclePlan)
    (before_health : SettingsSyncHealthReport) : checked unit :=
  do* of_policy (check_selected_retention_provider_freshness
        (usize_len (cp_stale_retention_provider_ids plan))
        (usize_len (cp_offline_retention_provider_ids plan)) before_health) in
  of_policy (check_selected_retention_provider_roles
    (usize_len (cp_ineligible_retention_provider_ids plan)) before_health).

Definition check_provider_count config (actual : Z) (before_health : SettingsSyncHealthReport) :
    checked unit :=
  of_policy (check_selected_retention_provider_count (sc_policy config) actual before_health).

Section Act.
Context {P R : Type} (preflight_of : P -> SettingsSyncCyclePreflight).
(** What the runner does after the preflight, with the content key and the daemons. *)
Context (act : string -> list Daemon -> P -> checked R).

(** With given handles. *)
Definition act_selecting_handles config (key : SyncKey) (preflight : checked P) handles :
    checked (SettingsSyncScheduledRun P R) :=
  let* p := preflight in
  let before_health := pf_before_health (preflight_of p) in
  let* content_key := content_key_of config key (pf_active_key_id (preflight_of p)) in
  let selection := select_settings_sync_retention_provider_handles (preflight_of p) handles in
  let plan := sel_plan selection in
  do* check_plan_providers plan before_health in
  do* check_provider_count config (plan_selected_count plan) before_health in
  let* result := act content_key (sel_daemons selection) p in
  sr_ret (scheduled_run p plan result).

(** With stored providers: [materialize] gives the handles the plan's providers have. *)
Definition act_materialized {A} config (p : P) (content_key : string)
    (plan : SettingsSyncStoredRetentionProviderPlan)
    (materialize : SettingsSyncStoredRetentionProviderPlan -> A * list Handle) :
    checked (A * SettingsSyncStoredRun P R) :=
  let before_health := pf_before_health (preflight_of p) in
  do* check_plan_providers (srp_cycle plan) before_health in
  let '(materialization, handles) := materialize plan in
  let materialized := materialize_stored_retention_provider_daemons plan handles in
  do* check_provider_count config (materialized_retention_provider_count materialized)
        before_health in
  let* result := act content_key (ms_daemons materialized) p in
  sr_ret (materialization, stored_run p plan materialized result).

Definition act_with_stored_providers {A} config (key : SyncKey) (preflight : checked P)
    (max_stored_providers : Z)
    (materialize : SettingsSyncStoredRetentionProviderPlan -> A * list Handle) :
    checked (A * SettingsSyncStoredRun P R) :=
  let* p := preflight in
  let* content_key := content_key_of config key (pf_active_key_id (preflight_of p)) in
  let* stored_selection := load_stored_selection config max_stored_providers in
  act_materialized config p content_key
    (settings_sync_stored_retention_provider_plan (preflight_of p) max_stored_providers
       stored_selection) materialize.
End Act.

(** The plan is made before the key is derived. *)
Definition act_after_stored_plan {A R} config (key : SyncKey) signer (max_stored_providers : Z)
    (act : string -> list Daemon -> SettingsSyncCyclePreflight -> checked R)
    (materialize : SettingsSyncStoredRetentionProviderPlan -> A * list Handle) :
    checked (A * SettingsSyncStoredRun SettingsSyncCyclePreflight R) :=
  let* plan := plan_once_with_stored_retention_providers config signer max_stored_providers in
  let preflight := cp_preflight (srp_cycle plan) in
  let* content_key := content_key_of config key (pf_active_key_id preflight) in
  act_materialized (fun preflight => preflight) act config preflight content_key plan materialize.

(** The three ways to materialize: the handles are given, the fixtures of the plan are looked
    up among daemons, or the protocol endpoints go to a materializer. *)
Definition given_handles handles (_ : SettingsSyncStoredRetentionProviderPlan) :
    unit * list Handle := (tt, handles).
Definition fixture_handles (provider_daemons : list SettingsSyncInProcessFixtureProviderDaemon)
    (plan : SettingsSyncStoredRetentionProviderPlan) :
    SettingsSyncInProcessFixtureMaterialization (Daemon := Daemon) * list Handle :=
  let materialization := materialize_selected_in_process_fixture_retention_provider_handles
    (plan_selected_in_process_fixture_materialization_targets plan) provider_daemons in
  (materialization, fixture_retention_provider_handles materialization).
Definition protocol_handles (materializer : Materializer)
    (plan : SettingsSyncStoredRetentionProviderPlan) : ProtocolMaterialization * list Handle :=
  let materialization := materializer (selected_protocol_materialization_plan plan) in
  (materialization, protocol_retention_provider_handles materialization).

Definition without_materialization {A} (m : checked (unit * A)) : checked A :=
  let* r := m in sr_ret r.2.

(** What the runner does: a cycle, a compaction, or a cycle with the membership log. *)
Definition cycle_act config signer (now : Z) (content_key : string) (daemons : list Daemon)
    (preflight : SettingsSyncCyclePreflight) :
    checked SettingsSyncCycleWithSharedRootRetentionRun :=
  shared_root_cycle_after_preflight codec sealer d random_nonce local_sync_device_id client_of
    content_key signer (sc_policy config) daemons preflight now.
Definition compaction_act config signer (compaction_now now : Z) (content_key : string)
    (daemons : list Daemon) (preflight : SettingsSyncCyclePreflight) :
    checked SettingsSyncCompactionWithRetentionRun :=
  compact_settings_after_preflight sealer random_nonce local_sync_device_id client_of
    content_key signer (sc_policy config) compaction_now daemons preflight now.
Definition membership_act config signer (membership_log_root_id : string) (now : Z)
    (content_key : string) (daemons : list Daemon)
    (preflight : SettingsSyncCyclePreflightWithMembershipLog) :
    checked SettingsSyncCycleWithMembershipLogRetentionRun :=
  membership_log_cycle_after_preflight codec sealer d log_codec random_nonce
    local_sync_device_id client_of content_key signer (sc_policy config) membership_log_root_id
    daemons preflight now.

(** The membership log is planned first: one too large to publish ends the run. *)
Definition membership_preflight config signer (membership_log_root_id : string) (now : Z) :
    checked SettingsSyncCyclePreflightWithMembershipLog :=
  do* of_cycle (check_membership_log_size (sc_profile config) membership_log_root_id) in
  settings_sync_cycle_preflight_with_membership_log_and_active_key_policy codec sealer log_codec
    local_sync_device_id (sc_profile config) (sc_settings_root_id config)
    membership_log_root_id signer (sc_policy config) now.

(** *** Runs with given handles *)

Definition run_once_selecting_retention_providers config (secrets : SettingsSyncRuntimeSecrets)
    (now : Z) handles :
    checked (SettingsSyncScheduledRun SettingsSyncCyclePreflight
               SettingsSyncCycleWithSharedRootRetentionRun) :=
  act_selecting_handles (fun preflight => preflight) (cycle_act config (rs_signer secrets) now)
    config (GivenContentKey (rs_content_key secrets))
    (scheduler_preflight config (rs_signer secrets)) handles.

Definition run_once_selecting_trusted_discovered_retention_providers config
    (secrets : SettingsSyncRuntimeSecrets) (now : Z)
    (discovery_report : TrustedProfileSyncPeerDiscoveryReport) handles :
    checked (SettingsSyncScheduledRun SettingsSyncCyclePreflight
               SettingsSyncCycleWithSharedRootRetentionRun) :=
  run_once_selecting_retention_providers config secrets now
    (trusted_discovered_settings_sync_retention_provider_handles discovery_report handles).

Definition run_once_selecting_trusted_discovered_protocol_retention_providers config
    (secrets : SettingsSyncRuntimeSecrets) (now : Z)
    (discovery_report : TrustedProfileSyncPeerDiscoveryReport) (materializer : Materializer) :
    checked (SettingsSyncTrustedDiscoveryCyclePlan * ProtocolMaterialization *
             SettingsSyncScheduledRun SettingsSyncCyclePreflight
               SettingsSyncCycleWithSharedRootRetentionRun) :=
  let* discovery_plan :=
    plan_once_selecting_trusted_discovered_retention_provider_endpoints config
      (rs_signer secrets) discovery_report in
  let preflight := cp_preflight (td_cycle discovery_plan) in
  do* check_plan_providers (td_cycle discovery_plan) (pf_before_health preflight) in
  let protocol_materialization :=
    materializer (discovery_selected_protocol_materialization_plan discovery_plan) in
  let* run := act_selecting_handles (fun preflight => preflight)
    (cycle_act config (rs_signer secrets) now) config
    (GivenContentKey (rs_content_key secrets)) (sr_ret preflight)
    (protocol_retention_provider_handles protocol_materialization) in
  sr_ret (discovery_plan, protocol_materialization, run).

Definition run_once_discovering_trusted_retention_providers config
    (secrets : SettingsSyncRuntimeSecrets) (now : Z)
    (discovery_provider : ProfileSyncPeerDiscoveryProvider W)
    (discovery_query : ProfileSyncPeerDiscoveryQuery) handles :
    checked (TrustedProfileSyncPeerDiscoveryReport *
             SettingsSyncScheduledRun SettingsSyncCyclePreflight
               SettingsSyncCycleWithSharedRootRetentionRun) :=
  let* discovery_report := discover_retention_peers config discovery_provider discovery_query in
  let* cycle := run_once_selecting_trusted_discovered_retention_providers config secrets now
                  discovery_report handles in
  sr_ret (discovery_report, cycle).

Definition run_once_discovering_trusted_protocol_retention_providers config
    (secrets : SettingsSyncRuntimeSecrets) (now : Z)
    (discovery_provider : ProfileSyncPeerDiscoveryProvider W)
    (discovery_query : ProfileSyncPeerDiscoveryQuery) (materializer : Materializer) :
    checked (SettingsSyncTrustedDiscoveryCyclePlan * ProtocolMaterialization *
             SettingsSyncScheduledRun SettingsSyncCyclePreflight
               SettingsSyncCycleWithSharedRootRetentionRun) :=
  let* discovery_report := discover_retention_peers config discovery_provider discovery_query in
  run_once_selecting_trusted_discovered_protocol_retention_providers config secrets now
    discovery_report materializer.

Definition compact_once_selecting_retention_providers config
    (secrets : SettingsSyncRuntimeSecrets) (compaction_now now : Z) handles :
    checked (SettingsSyncScheduledRun SettingsSyncCyclePreflight
               SettingsSyncCompactionWithRetentionRun) :=
  act_selecting_handles (fun preflight => preflight)
    (compaction_act config (rs_signer secrets) compaction_now now) config
    (GivenContentKey (rs_content_key secrets))
    (scheduler_preflight config (rs_signer secrets)) handles.

Definition run_once_with_membership_log_selecting_retention_providers config
    (membership_log_root_id : string) (secrets : SettingsSyncRuntimeSecrets) (now : Z) handles :
    checked (SettingsSyncScheduledRun SettingsSyncCyclePreflightWithMembershipLog
               SettingsSyncCycleWithMembershipLogRetentionRun) :=
  act_selecting_handles pm_preflight
    (membership_act config (rs_signer secrets) membership_log_root_id now) config
    (GivenContentKey (rs_content_key secrets))
    (membership_preflight config (rs_signer secrets) membership_log_root_id now) handles.

Definition run_once_with_membership_log_selecting_retention_providers_and_sync_secret config
    (membership_log_root_id : string) (sync_secret : SlateSyncSecret) signer (now : Z) handles :
    checked (SettingsSyncScheduledRun SettingsSyncCyclePreflightWithMembershipLog
               SettingsSyncCycleWithMembershipLogRetentionRun) :=
  act_selecting_handles pm_preflight (membership_act config signer membership_log_root_id now)
    config (FromSyncSecret sync_secret)
    (membership_preflight config signer membership_log_root_id now) handles.

(** *** Runs with stored providers *)

Definition run_once_with_stored_retention_provider_handles
    config (secrets : SettingsSyncRuntimeSecrets)
    (max_stored_providers now : Z) handles :
    checked (SettingsSyncStoredRun SettingsSyncCyclePreflight
               SettingsSyncCycleWithSharedRootRetentionRun) :=
  without_materialization
    (act_with_stored_providers (fun preflight => preflight)
       (cycle_act config (rs_signer secrets) now) config
       (GivenContentKey (rs_content_key secrets))
       (scheduler_preflight config (rs_signer secrets))
       max_stored_providers (given_handles handles)).

Definition run_once_with_stored_retention_provider_handles_and_sync_secret
    config (sync_secret : SlateSyncSecret) signer
    (max_stored_providers now : Z) handles :
    checked (SettingsSyncStoredRun SettingsSyncCyclePreflight
               SettingsSyncCycleWithSharedRootRetentionRun) :=
  without_materialization
    (act_with_stored_providers (fun preflight => preflight)
       (cycle_act config signer now) config
       (FromSyncSecret sync_secret)
       (scheduler_preflight config signer)
       max_stored_providers (given_handles handles)).

Definition run_once_with_stored_in_process_fixture_retention_provider_daemons
    config (secrets : SettingsSyncRuntimeSecrets)
    (max_stored_providers now : Z)
    (provider_daemons : list SettingsSyncInProcessFixtureProviderDaemon) :
    checked (SettingsSyncInProcessFixtureMaterialization *
             SettingsSyncStoredRun SettingsSyncCyclePreflight
               SettingsSyncCycleWithSharedRootRetentionRun) :=
  act_after_stored_plan config
    (GivenContentKey (rs_content_key secrets)) (rs_signer secrets) max_stored_providers
    (cycle_act config (rs_signer secrets) now)
    (fixture_handles provider_daemons).

Definition run_once_with_stored_in_process_fixture_retention_provider_daemons_and_sync_secret
    config (sync_secret : SlateSyncSecret) signer
    (max_stored_providers now : Z)
    (provider_daemons : list SettingsSyncInProcessFixtureProviderDaemon) :
    checked (SettingsSyncInProcessFixtureMaterialization *
             SettingsSyncStoredRun SettingsSyncCyclePreflight
               SettingsSyncCycleWithSharedRootRetentionRun) :=
  act_after_stored_plan config
    (FromSyncSecret sync_secret) signer max_stored_providers
    (cycle_act config signer now)
    (fixture_handles provider_daemons).

Definition run_once_with_stored_protocol_materializer_retention_provider_handles
    config (secrets : SettingsSyncRuntimeSecrets)
    (max_stored_providers now : Z) (materializer : Materializer) :
    checked (ProtocolMaterialization *
             SettingsSyncStoredRun SettingsSyncCyclePreflight
               SettingsSyncCycleWithSharedRootRetentionRun) :=
  act_after_stored_plan config
    (GivenContentKey (rs_content_key secrets)) (rs_signer secrets) max_stored_providers
    (cycle_act config (rs_signer secrets) now)
    (protocol_handles materializer).

Definition run_once_with_stored_protocol_materializer_retention_provider_handles_and_sync_secret
    config (sync_secret : SlateSyncSecret) signer
    (max_stored_providers now : Z) (materializer : Materializer) :
    checked (ProtocolMaterialization *
             SettingsSyncStoredRun SettingsSyncCyclePreflight
               SettingsSyncCycleWithSharedRootRetentionRun) :=
  act_after_stored_plan config
    (FromSyncSecret sync_secret) signer max_stored_providers
    (cycle_act config signer now)
    (protocol_handles materializer).

Definition compact_once_with_stored_retention_provider_handles
    config (secrets : SettingsSyncRuntimeSecrets)
    (max_stored_providers compaction_now now : Z) handles :
    checked (SettingsSyncStoredRun SettingsSyncCyclePreflight
               SettingsSyncCompactionWithRetentionRun) :=
  without_materialization
    (act_with_stored_providers (fun preflight => preflight)
       (compaction_act config (rs_signer secrets) compaction_now now) config
       (GivenContentKey (rs_content_key secrets))
       (scheduler_preflight config (rs_signer secrets))
       max_stored_providers (given_handles handles)).

Definition compact_once_with_stored_retention_provider_handles_and_sync_secret
    config (sync_secret : SlateSyncSecret) signer
    (max_stored_providers compaction_now now : Z) handles :
    checked (SettingsSyncStoredRun SettingsSyncCyclePreflight
               SettingsSyncCompactionWithRetentionRun) :=
  without_materialization
    (act_with_stored_providers (fun preflight => preflight)
       (compaction_act config signer compaction_now now) config
       (FromSyncSecret sync_secret)
       (scheduler_preflight config signer)
       max_stored_providers (given_handles handles)).

Definition compact_once_with_stored_in_process_fixture_retention_provider_daemons
    config (secrets : SettingsSyncRuntimeSecrets)
    (max_stored_providers compaction_now now : Z)
    (provider_daemons : list SettingsSyncInProcessFixtureProviderDaemon) :
    checked (SettingsSyncInProcessFixtureMaterialization *
             SettingsSyncStoredRun SettingsSyncCyclePreflight
               SettingsSyncCompactionWithRetentionRun) :=
  act_after_stored_plan config
    (GivenContentKey (rs_content_key secrets)) (rs_signer secrets) max_stored_providers
    (compaction_act config (rs_signer secrets) compaction_now now)
    (fixture_handles provider_daemons).

Definition compact_once_with_stored_in_process_fixture_retention_provider_daemons_and_sync_secret
    config (sync_secret : SlateSyncSecret) signer
    (max_stored_providers compaction_now now : Z)
    (provider_daemons : list SettingsSyncInProcessFixtureProviderDaemon) :
    checked (SettingsSyncInProcessFixtureMaterialization *
             SettingsSyncStoredRun SettingsSyncCyclePreflight
               SettingsSyncCompactionWithRetentionRun) :=
  act_after_stored_plan config
    (FromSyncSecret sync_secret) signer max_stored_providers
    (compaction_act config signer compaction_now now)
    (fixture_handles provider_daemons).

Definition compact_once_with_stored_protocol_materializer_retention_provider_handles
    config (secrets : SettingsSyncRuntimeSecrets)
    (max_stored_providers compaction_now now : Z) (materializer : Materializer) :
    checked (ProtocolMaterialization *
             SettingsSyncStoredRun SettingsSyncCyclePreflight
               SettingsSyncCompactionWithRetentionRun) :=
  act_after_stored_plan config
    (GivenContentKey (rs_content_key secrets)) (rs_signer secrets) max_stored_providers
    (compaction_act config (rs_signer secrets) compaction_now now)
    (protocol_handles materializer).

Definition compact_once_with_stored_protocol_materializer_retention_provider_handles_and_sync_secret
    config (sync_secret : SlateSyncSecret) signer
    (max_stored_providers compaction_now now : Z) (materializer : Materializer) :
    checked (ProtocolMaterialization *
             SettingsSyncStoredRun SettingsSyncCyclePreflight
               SettingsSyncCompactionWithRetentionRun) :=
  act_after_stored_plan config
    (FromSyncSecret sync_secret) signer max_stored_providers
    (compaction_act config signer compaction_now now)
    (protocol_handles materializer).

Definition run_once_with_membership_log_and_stored_retention_provider_handles
    config (membership_log_root_id : string) (secrets : SettingsSyncRuntimeSecrets)
    (max_stored_providers now : Z) handles :
    checked (SettingsSyncStoredRun SettingsSyncCyclePreflightWithMembershipLog
               SettingsSyncCycleWithMembershipLogRetentionRun) :=
  without_materialization (act_with_stored_providers pm_preflight
    (membership_act config (rs_signer secrets) membership_log_root_id now) config
    (GivenContentKey (rs_content_key secrets))
    (membership_preflight config (rs_signer secrets) membership_log_root_id now)
    max_stored_providers (given_handles handles)).

Definition run_once_with_membership_log_and_stored_retention_provider_handles_and_sync_secret
    config (membership_log_root_id : string) (sync_secret : SlateSyncSecret) signer
    (max_stored_providers now : Z) handles :
    checked (SettingsSyncStoredRun SettingsSyncCyclePreflightWithMembershipLog
               SettingsSyncCycleWithMembershipLogRetentionRun) :=
  without_materialization (act_with_stored_providers pm_preflight
    (membership_act config signer membership_log_root_id now) config
    (FromSyncSecret sync_secret)
    (membership_preflight config signer membership_log_root_id now)
    max_stored_providers (given_handles handles)).

Definition run_once_with_membership_log_and_stored_in_process_fixture_retention_provider_daemons
    config (membership_log_root_id : string) (secrets : SettingsSyncRuntimeSecrets)
    (max_stored_providers now : Z)
    (provider_daemons : list SettingsSyncInProcessFixtureProviderDaemon) :
    checked (SettingsSyncInProcessFixtureMaterialization *
             SettingsSyncStoredRun SettingsSyncCyclePreflightWithMembershipLog
               SettingsSyncCycleWithMembershipLogRetentionRun) :=
  act_with_stored_providers pm_preflight
    (membership_act config (rs_signer secrets) membership_log_root_id now) config
    (GivenContentKey (rs_content_key secrets))
    (membership_preflight config (rs_signer secrets) membership_log_root_id now)
    max_stored_providers (fixture_handles provider_daemons).

Definition run_once_with_membership_log_and_stored_in_process_fixture_retention_provider_daemons_and_sync_secret
    config (membership_log_root_id : string) (sync_secret : SlateSyncSecret) signer
    (max_stored_providers now : Z)
    (provider_daemons : list SettingsSyncInProcessFixtureProviderDaemon) :
    checked (SettingsSyncInProcessFixtureMaterialization *
             SettingsSyncStoredRun SettingsSyncCyclePreflightWithMembershipLog
               SettingsSyncCycleWithMembershipLogRetentionRun) :=
  act_with_stored_providers pm_preflight
    (membership_act config signer membership_log_root_id now) config
    (FromSyncSecret sync_secret)
    (membership_preflight config signer membership_log_root_id now)
    max_stored_providers (fixture_handles provider_daemons).

Definition run_once_with_membership_log_and_stored_protocol_materializer_retention_provider_handles
    config (membership_log_root_id : string) (secrets : SettingsSyncRuntimeSecrets)
    (max_stored_providers now : Z) (materializer : Materializer) :
    checked (ProtocolMaterialization *
             SettingsSyncStoredRun SettingsSyncCyclePreflightWithMembershipLog
               SettingsSyncCycleWithMembershipLogRetentionRun) :=
  act_with_stored_providers pm_preflight
    (membership_act config (rs_signer secrets) membership_log_root_id now) config
    (GivenContentKey (rs_content_key secrets))
    (membership_preflight config (rs_signer secrets) membership_log_root_id now)
    max_stored_providers (protocol_handles materializer).

Definition run_once_with_membership_log_and_stored_protocol_materializer_retention_provider_handles_and_sync_secret
    config (membership_log_root_id : string) (sync_secret : SlateSyncSecret) signer
    (max_stored_providers now : Z) (materializer : Materializer) :
    checked (ProtocolMaterialization *
             SettingsSyncStoredRun SettingsSyncCyclePreflightWithMembershipLog
               SettingsSyncCycleWithMembershipLogRetentionRun) :=
  act_with_stored_providers pm_preflight
    (membership_act config signer membership_log_root_id now) config
    (FromSyncSecret sync_secret)
    (membership_preflight config signer membership_log_root_id now)
    max_stored_providers (protocol_handles materializer).

(** *** Runs with given daemons *)

Definition run_once config (secrets : SettingsSyncRuntimeSecrets) (now : Z)
    (retention_provider_daemons : list Daemon) :
    checked SettingsSyncCycleWithSharedRootRetentionRun :=
  run_settings_sync_cycle_with_active_key_policy_shared_root_candidates_and_retention_providers
    codec sealer d random_nonce local_sync_device_id client_of (sc_profile config)
    (sc_settings_root_id config) (rs_content_key secrets) (rs_signer secrets)
    (sc_policy config) retention_provider_daemons now.

Definition run_once_with_sync_secret config (sync_secret : SlateSyncSecret) signer (now : Z)
    (retention_provider_daemons : list Daemon) :
    checked SettingsSyncCycleWithSharedRootRetentionRun :=
  let* preflight := scheduler_preflight config signer in
  let* content_key := content_key_of config (FromSyncSecret sync_secret)
                        (pf_active_key_id preflight) in
  cycle_act config signer now content_key retention_provider_daemons preflight.
End Scheduler.
