(* ===== verification/SchedulerLaws.v ===== *)
(** * Laws of the settings sync scheduler

    A run with the stored retention providers is refined by [run_once] with given daemons: the
    scheduler only chooses the daemons, among the providers the profile stores, authorises and
    can reach, and refuses a plan its policy does not admit before anything is published. *)
From S2P Require Import Prelude RustStr Routing ServiceFrames Broadwebd PeerDiscovery.
From S2P Require Import AppViews Database SyncObjects Membership SyncSecrets Pulls SyncHealth.
From S2P Require Import AppOps Endpoints Retention RetentionLaws SyncClient Publisher.
From S2P Require Import MembershipLog SyncRunner DiscoveryTrust Scheduler.

(** ** Reading the database *)

Lemma reads_query {E A} (f : ProfileDb -> A) : reads (E := E) (query f).
Proof. done. Qed.

(** The same beside the world of the clients. *)
Definition keeps_database {W E A} (m : state_result (W * ProfileDb) E A) : Prop :=
  forall w db, (m (w, db)).1.2 = db.

Section Keeps.
Context {W : Type}.

Lemma keeps_ret {E A} (a : A) : keeps_database (W := W) (E := E) (sr_ret a).
Proof. done. Qed.
Lemma keeps_lift {E A} (r : result E A) : keeps_database (W := W) (sr_lift r).
Proof. done. Qed.
Lemma keeps_bind {E A B} (m : state_result (W * ProfileDb) E A)
    (k : A -> state_result (W * ProfileDb) E B) :
  keeps_database m -> (forall a, keeps_database (k a)) -> keeps_database (sr_bind m k).
Proof.
  intros Hm Hk w db. unfold sr_bind. specialize (Hm w db).
  destruct (m (w, db)) as [[w1 db1] [a|e]]; simpl in *; subst; [apply Hk|done].
Qed.
Lemma keeps_map_err {E F A} (f : E -> F) (m : state_result (W * ProfileDb) E A) :
  keeps_database m -> keeps_database (sr_map_err f m).
Proof.
  intros Hm w db. unfold sr_map_err. specialize (Hm w db). by destruct (m (w, db)).
Qed.
Lemma keeps_on_source {E F A} (f : E -> F) (m : state_result W E A) :
  keeps_database (on_source f m).
Proof. intros w db. unfold on_source. by destruct (m w). Qed.
Lemma keeps_on_database {E F A} (f : E -> F) (m : state_result ProfileDb E A) :
  reads m -> keeps_database (W := W) (on_database f m).
Proof. intros Hm w db. unfold on_database. specialize (Hm db). by destruct (m db). Qed.
End Keeps.

Create HintDb slate_reads.
#[export] Hint Resolve reads_query reads_lift reads_ret reads_err reads_bind reads_map_err
  keeps_ret keeps_lift keeps_bind keeps_map_err keeps_on_source keeps_on_database : slate_reads.

Lemma reads_active_key profile : reads (active_settings_sync_content_key_id profile).
Proof.
  unfold active_settings_sync_content_key_id. apply reads_bind; [done|]. intros key.
  apply reads_bind; [done|]. intros k. by case_match.
Qed.

Lemma reads_trusted_remote device profile max_devices :
  reads (trusted_remote_device_public_keys device profile max_devices).
Proof.
  unfold trusted_remote_device_public_keys. do 2 (apply reads_bind; [done|intros ?]).
  by case_match.
Qed.

Lemma reads_public_key profile device_id : reads (sync_device_public_key profile device_id).
Proof.
  unfold sync_device_public_key, sync_device_public_key_in_transaction. by case_match.
Qed.

Lemma reads_credentials sealer device profile key_id signer :
  reads (validate_settings_sync_cycle_credentials sealer device profile key_id signer).
Proof.
  unfold validate_settings_sync_cycle_credentials.
  apply reads_bind; [apply reads_active_key|]. intros active. case_match; [done|].
  apply reads_bind; [done|]. intros key. case_match; [done|].
  apply reads_bind; [apply reads_map_err, reads_public_key|].
  intros [trusted|]; by repeat case_match.
Qed.

Lemma reads_stored_selection profile max_stored :
  reads (load_stored_retention_provider_selection profile max_stored).
Proof.
  unfold load_stored_retention_provider_selection, storage_providers, query_rows.
  auto 10 with slate_reads.
Qed.

#[export] Hint Resolve reads_active_key reads_trusted_remote reads_credentials
  reads_stored_selection : slate_reads.

(** ** Runs with stored providers *)

Section Stored.
Context (codec : SyncCodec) (sealer : SyncSealer) (d : PayloadDecoders).
Context {W : Type} `{BroadwebdClient W} (random_nonce : W -> W * option string).
Context (local_sync_device_id : string) {Daemon : Type} (client_of : Daemon -> BroadwebdClient W).

Implicit Types (handles : list (SettingsSyncRetentionProviderHandle Daemon)).

Lemma preflight_keeps_database config signer :
  keeps_database (scheduler_preflight sealer local_sync_device_id config signer).
Proof.
  unfold scheduler_preflight, settings_sync_cycle_preflight_with_active_key_policy, health_of,
    of_health, of_policy, of_cycle, cycle_credentials, cycle_receive, trusted_remote_devices.
  repeat first [apply keeps_bind; [|intros ?]]; auto 10 with slate_reads.
Qed.

(** What the policy of a cycle admits: no selected provider is stale, offline or without the
    roles of retention, and enough providers are at hand. *)
Definition admitted (policy : SettingsSyncCyclePolicy) (plan : SettingsSyncScheduledCyclePlan)
    (count : Z) : bool :=
  (usize_len (cp_stale_retention_provider_ids plan) =? 0)
  && (usize_len (cp_offline_retention_provider_ids plan) =? 0)
  && (usize_len (cp_ineligible_retention_provider_ids plan) =? 0)
  && (minimum_selected_retention_provider_count policy <=? count).

(** The daemon of a provider the profile stores enabled, with availability and object transfer,
    and authorises, whose health makes it a candidate, and which exactly one handle reaches at
    the stored endpoint. *)
Definition usable_daemon (profile : string) (db : ProfileDb)
    (preflight : SettingsSyncCyclePreflight) (plan : SettingsSyncStoredRetentionProviderPlan)
    handles (daemon : Daemon) : Prop :=
  exists id, reached plan handles id daemon /\ provider_authorized profile db id /\
    provider_offered profile db id /\ provider_standing preflight id = Candidate.

(** The checks decide whether the runner acts. *)
Lemma act_materialized_runs {P R A} (preflight_of : P -> SettingsSyncCyclePreflight)
    (act : string -> list Daemon -> P -> SyncRunner.checked (W := W) R)
    config p content_key (plan : SettingsSyncStoredRetentionProviderPlan)
    (materialize : SettingsSyncStoredRetentionProviderPlan ->
       A * list (SettingsSyncRetentionProviderHandle Daemon)) s :
  let '(materialization, handles) := materialize plan in
  let m := materialize_stored_retention_provider_daemons plan handles in
  let '(s', r) := act_materialized preflight_of act config p content_key plan materialize s in
  if admitted (sc_policy config) (srp_cycle plan) (usize_len (ms_daemons m))
  then (s', r) = let '(s', r) := act content_key (ms_daemons m) p s in
                 (s', result_map (fun a => (materialization, stored_run p plan m a)) r)
  else s' = s /\ exists error, r = Err (PolicyFailed error).
Proof.
  unfold act_materialized. destruct (materialize plan) as [materialization handles].
  unfold admitted, check_plan_providers, check_selected_retention_provider_freshness,
    check_selected_retention_provider_roles, check_provider_count,
    check_selected_retention_provider_count, materialized_retention_provider_count,
    check_provider_maximum, check_provider_minimum, usize_len, of_policy, sr_bind, sr_lift.
  repeat match goal with
    | |- context [?a <? ?b] => destruct (Z.ltb_spec a b)
    | |- context [?a =? ?b] => destruct (Z.eqb_spec a b)
    | |- context [?a <=? ?b] => destruct (Z.leb_spec a b)
    end; simpl; eauto; try lia.
  by destruct (act content_key _ p s) as [s' [a|]].
Qed.

Lemma selected_usable profile max_stored db stored preflight handles :
  load_stored_retention_provider_selection profile max_stored db = (db, Ok stored) ->
  let plan := settings_sync_stored_retention_provider_plan preflight max_stored stored in
  Forall (usable_daemon profile db preflight plan handles)
    (ms_daemons (materialize_stored_retention_provider_daemons plan handles)).
Proof.
  intros Hload plan.
  destruct (materialization_accounts plan handles) as (_ & _ & Hreach & _).
  apply Forall_forall. intros daemon [i Hd]%list_elem_of_lookup.
  destruct (Forall2_lookup_r _ _ _ _ _ Hreach Hd) as (id & Hid & Hr).
  exists id. apply list_elem_of_lookup_2, materialized_selected in Hid.
  pose proof Hload as (_ & records & _ & Hstored)%stored_selection_loaded. unfold plan in Hid.
  rewrite Hstored in Hid. apply (cl_selected _ _ _ (selection_classifies _ _)) in Hid as [Hid Hs].
  rewrite <- Hstored in Hid.
  apply (loaded_selection_offered _ _ _ _ _ _ Hload) in Hid as [Hauth Hoffered]. done.
Qed.

(** C30: (refinement) A run with the stored retention providers only reads until its plan is
    admitted: a failed preflight or selection is its answer, and a plan with stale, offline or
    ineligible providers, or with too few reached, is refused by the policy before anything is
    published. An admitted run is exactly [run_once] with the daemons materialised, each of
    them the daemon of an enabled, authorised and healthy provider. *)
Theorem stored_run_refines_run_once config secrets max_stored now handles w db :
  let '(s, r) := run_once_with_stored_retention_provider_handles codec sealer d random_nonce
    local_sync_device_id client_of config secrets max_stored now handles (w, db) in
  match scheduler_preflight sealer local_sync_device_id config (rs_signer secrets) (w, db) with
  | (s1, Err e) => s = s1 /\ s1.2 = db /\ r = Err e
  | (s1, Ok preflight) =>
      s1.2 = db /\
      match (load_stored_retention_provider_selection (sc_profile config) max_stored db).2 with
      | Err e => s = s1 /\ r = Err (CycleFailed (CycleCredentials (CredentialStorage e)))
      | Ok stored =>
          let plan := settings_sync_stored_retention_provider_plan preflight max_stored stored in
          let m := materialize_stored_retention_provider_daemons plan handles in
          Forall (usable_daemon (sc_profile config) db preflight plan handles) (ms_daemons m) /\
          if admitted (sc_policy config) (srp_cycle plan) (usize_len (ms_daemons m))
          then (s, r) = let '(s, r) := run_once codec sealer d random_nonce local_sync_device_id
                          client_of config secrets now (ms_daemons m) (w, db) in
                        (s, result_map (stored_run preflight plan m) r)
          else s = s1 /\ exists error, r = Err (PolicyFailed error)
      end
  end.
Proof.
  pose proof (preflight_keeps_database config (rs_signer secrets) w db) as Hkeep.
  pose proof (reads_stored_selection (sc_profile config) max_stored db) as Hread.
  unfold run_once_with_stored_retention_provider_handles, without_materialization,
    act_with_stored_providers, run_once,
    run_settings_sync_cycle_with_active_key_policy_shared_root_candidates_and_retention_providers.
  change (settings_sync_cycle_preflight_with_active_key_policy sealer local_sync_device_id
    (sc_profile config) (sc_settings_root_id config) (rs_signer secrets) (sc_policy config))
    with (scheduler_preflight sealer local_sync_device_id config (rs_signer secrets)).
  unfold load_stored_selection, of_cycle, cycle_credentials, on_database, sr_map_err, content_key_of,
    sr_bind, sr_ret.
  destruct (scheduler_preflight _ _ _ _ (w, db)) as [[w1 db1] [preflight|e]];
    simpl in Hkeep; subst db1; [|done].
  destruct (load_stored_retention_provider_selection _ _ db) as [db1 [stored|e]] eqn:Hload;
    simpl in Hread; subst db1; simpl; [|done].
  pose proof (act_materialized_runs (fun preflight => preflight)
    (cycle_act codec sealer d random_nonce local_sync_device_id client_of config
       (rs_signer secrets) now) config preflight (rs_content_key secrets)
    (settings_sync_stored_retention_provider_plan preflight max_stored stored)
    (given_handles handles) (w1, db)) as Hrun.
  simpl in Hrun. pose proof (selected_usable _ _ _ _ preflight handles Hload) as Husable.
  unfold cycle_act in Hrun.
  destruct (act_materialized _ _ _ _ _ _ _ _) as [s' r], (admitted _ _ _).
  - destruct (shared_root_cycle_after_preflight _ _ _ _ _ _ _ _ _ _ _ _ _) as [s1 [a|e]];
      injection Hrun as -> ->; simpl; eauto.
  - destruct Hrun as [-> [error ->]]. eauto.
Qed.
End Stored.
