(* ===== verification/Readiness.v ===== *)
(** * The local preview provider and the readiness of a profile

    Models the end of the profile-sync activation in [crates/storage/src/lib.rs]: the preview
    provider a device enrolls for itself, and [profile_sync_local_readiness], the report that
    says whether a manual sync can run and what blocks it. The theorem compares the report with
    the selection of the settings sync scheduler, which is written apart from it. *)
From S2P Require Import Prelude RustStr AppViews Database AppData SyncObjects SyncStore.
From S2P Require Import Membership SyncHealth.
From S2P Require Import ProfileTables Snapshots SyncSecrets AppOps Endpoints Retention RetentionLaws.

Definition DEFAULT_PROFILE_SYNC_PREVIEW_PROVIDER_ID : string := "local-preview-provider".
Definition DEFAULT_PROFILE_SYNC_PREVIEW_PROVIDER_KIND : string := "local-fixture".

(** ** Data *)

Record ProfileSyncPreviewProviderActivationRecord := {
  ppa_provider : StorageProviderRecord;
  ppa_membership_application : SyncAccountMembershipRecordApplication
}.

Record AppSyncDomainReadinessRecord := {
  adr_profile : string;
  adr_domain : string;
  adr_latest_revision : Z
}.

Record ProfileSyncLocalReadinessReport := {
  lr_profile : string;
  lr_local_device_id : string;
  lr_local_device_registered : bool;
  lr_local_device_trusted : bool;
  lr_account_authority_trusted : bool;
  lr_trusted_device_count : Z;
  lr_provider_authority_device_count : Z;
  lr_trusted_provider_authority_device_count : Z;
  lr_metadata_ready : bool;
  lr_active_key_id : option string;
  lr_app_domain_count : Z;
  lr_enabled_app_domain_count : Z;
  lr_enabled_sync_content_domain_count : Z;
  lr_app_domains : list AppSyncDomainRecord;
  lr_app_domain_readiness : list AppSyncDomainReadinessRecord;
  lr_storage_provider_count : Z;
  lr_enabled_storage_provider_count : Z;
  lr_retention_capable_provider_count : Z;
  lr_authorized_retention_provider_count : Z;
  lr_authorized_retention_provider_ids : list string;
  lr_storage_providers : list StorageProviderRecord;
  lr_ready_for_manual_sync : bool;
  lr_blocked_reason : option string
}.

Section Readiness.
Context (codec : SyncCodec) (sealer : SyncSealer) (enc : PayloadEncoders).
Context (local_sync_device_id : string).

(** ** The preview provider *)

Definition preview_provider_update (profile : string) (endpoint_ref : option string) :
    StorageProviderUpdate :=
  {| spu_profile := profile; spu_provider_id := DEFAULT_PROFILE_SYNC_PREVIEW_PROVIDER_ID;
     spu_provider_kind := DEFAULT_PROFILE_SYNC_PREVIEW_PROVIDER_KIND;
     spu_display_name := "Local Preview Provider"; spu_endpoint_ref := endpoint_ref;
     spu_discovery := true; spu_connectivity := true; spu_object_transfer := true;
     spu_availability := true; spu_mutable_roots := false; spu_quota_bytes := None;
     spu_max_retained_objects := Some 128; spu_pinning_policy := Some "manual";
     spu_enabled := true |}.

Definition upsert_local_profile_sync_preview_provider (profile : string)
    (endpoint_ref : option string) (now : Z) : storage StorageProviderRecord :=
  upsert_storage_provider enc local_sync_device_id (preview_provider_update profile endpoint_ref)
    now.

(** [random_pkcs8] is the key pair the generator gives, [None] a failing generator. *)
Definition activate_local_profile_sync_preview_provider (profile : string)
    (endpoint_ref : option string) (random_pkcs8 : option string) (now : Z) :
    storage StorageProviderRecord :=
  let key_error (action : string) (error : SyncObjectError) :=
    InvalidProfileSyncMembershipRecord
      ("failed to " +:+ action +:+ ": " +:+ sync_object_error_to_string error) in
  let* provider_signer := sr_lift (map_err (key_error "create preview provider key")
    (signer_generate DEFAULT_PROFILE_SYNC_PREVIEW_PROVIDER_ID random_pkcs8)) in
  do* register_sync_device
        {| sdr_profile := profile; sdr_device_id := DEFAULT_PROFILE_SYNC_PREVIEW_PROVIDER_ID;
           sdr_label := Some "Local Preview Provider";
           sdr_membership_epoch := DEFAULT_PROFILE_SYNC_MEMBERSHIP_EPOCH;
           sdr_provider_authority := true |} now in
  let* public_key := sr_lift (map_err (key_error "read preview provider public key")
                                (signer_public_key sealer provider_signer)) in
  do* register_sync_device_public_key
        {| skr_profile := profile; skr_public_key := public_key;
           skr_membership_epoch := DEFAULT_PROFILE_SYNC_MEMBERSHIP_EPOCH |} now in
  upsert_local_profile_sync_preview_provider profile endpoint_ref now.

(** The membership record and the provider are committed one after the other. *)
Definition activate_local_profile_sync_preview_provider_from_secret (profile : string)
    (sync_secret : SlateSyncSecret) (endpoint_ref : option string) (now : Z) :
    storage ProfileSyncPreviewProviderActivationRecord :=
  let membership_epoch := DEFAULT_PROFILE_SYNC_MEMBERSHIP_EPOCH in
  let* account_authority_signer := sr_lift (derive_signer sealer sync_secret profile
         DEFAULT_PROFILE_SYNC_ACCOUNT_AUTHORITY_DEVICE_ID membership_epoch) in
  let* provider_signer := sr_lift (derive_signer sealer sync_secret profile
         DEFAULT_PROFILE_SYNC_PREVIEW_PROVIDER_ID membership_epoch) in
  let* public_key := sr_lift (map_err profile_sync_membership_record_error
                                (signer_public_key sealer provider_signer)) in
  let* signed_provider_record := sr_lift (signed_profile_sync_membership_record_bytes sealer
         account_authority_signer
         (profile_sync_enroll_provider_record profile DEFAULT_PROFILE_SYNC_PREVIEW_PROVIDER_ID
            membership_epoch public_key)) in
  let* membership_application :=
    apply_signed_sync_account_membership_record codec signed_provider_record now in
  let* provider := upsert_local_profile_sync_preview_provider profile endpoint_ref now in
  sr_ret {| ppa_provider := provider; ppa_membership_application := membership_application |}.

(** ** Readiness *)

Definition provider_is_capable (provider : StorageProviderRecord) : bool :=
  spr_enabled provider && spr_availability provider && spr_object_transfer provider.

Definition readiness_blocked_reason (active_key_id : option string)
    (local_device_registered local_device_trusted : bool)
    (enabled_app_domain_count authorized_retention_provider_count : Z) : option string :=
  match active_key_id with
  | None => Some "missing active content-key metadata"
  | Some _ =>
      if negb local_device_registered
      then Some "local device is not registered for profile sync"
      else if negb local_device_trusted then Some "local device sync key is not trusted"
      else if enabled_app_domain_count =? 0 then Some "no enabled app sync domains"
      else if authorized_retention_provider_count =? 0
      then Some "no authorized retention provider configured"
      else None
  end.

Definition profile_sync_local_readiness (profile : string) :
    storage ProfileSyncLocalReadinessReport :=
  let* active_key := query (active_sync_content_key_epoch profile) in
  let active_key_id := option_map ke_key_id active_key in
  let* devices := query (sync_devices profile) in
  let local_device_registered := existsb (fun device =>
    str_eqb (sd_device_id device) local_sync_device_id
    && negb (sd_provider_authority device)) devices in
  let provider_authority_device_ids : gset string :=
    list_to_set (map sd_device_id (List.filter sd_provider_authority devices)) in
  let* public_keys := query (sync_device_public_keys profile) in
  let key_device record := pk_device_id (sk_public_key record) in
  let local_device_trusted := existsb (fun record =>
    sk_trusted record && str_eqb (key_device record) local_sync_device_id) public_keys in
  let account_authority_trusted := existsb (fun record =>
    sk_trusted record
    && str_eqb (key_device record) DEFAULT_PROFILE_SYNC_ACCOUNT_AUTHORITY_DEVICE_ID)
    public_keys in
  let trusted_provider_authority_device_ids : gset string :=
    list_to_set (map key_device (List.filter (fun record =>
      sk_trusted record && bool_decide (key_device record ∈ provider_authority_device_ids))
      public_keys)) in
  let* app_domains := query (app_sync_domains profile) in
  let enabled_app_domain_count := Z.of_nat (count_if ad_enabled app_domains) in
  let* app_domain_readiness := query (fun db => map (fun domain =>
    {| adr_profile := profile; adr_domain := ad_domain domain;
       adr_latest_revision := latest_sync_revision_for_domain profile (ad_domain domain) db |})
    app_domains) in
  let* storage_providers := storage_providers profile u32_max in
  let authorized_retention_provider_ids := map spr_provider_id (List.filter (fun provider =>
    provider_is_capable provider
    && bool_decide (spr_provider_id provider ∈ trusted_provider_authority_device_ids))
    storage_providers) in
  let authorized_retention_provider_count := usize_len authorized_retention_provider_ids in
  let metadata_ready :=
    bool_decide (is_Some active_key_id) && local_device_registered
    && (0 <? enabled_app_domain_count) in
  let blocked_reason := readiness_blocked_reason active_key_id local_device_registered
    local_device_trusted enabled_app_domain_count authorized_retention_provider_count in
  sr_ret {|
    lr_profile := profile; lr_local_device_id := local_sync_device_id;
    lr_local_device_registered := local_device_registered;
    lr_local_device_trusted := local_device_trusted;
    lr_account_authority_trusted := account_authority_trusted;
    lr_trusted_device_count := Z.of_nat (count_if sk_trusted public_keys);
    lr_provider_authority_device_count := Z.of_nat (size provider_authority_device_ids);
    lr_trusted_provider_authority_device_count :=
      Z.of_nat (size trusted_provider_authority_device_ids);
    lr_metadata_ready := metadata_ready; lr_active_key_id := active_key_id;
    lr_app_domain_count := usize_len app_domains;
    lr_enabled_app_domain_count := enabled_app_domain_count;
    lr_enabled_sync_content_domain_count :=
      Z.of_nat (count_if (fun domain => ad_enabled domain && ad_sync_content domain) app_domains);
    lr_app_domains := app_domains; lr_app_domain_readiness := app_domain_readiness;
    lr_storage_provider_count := usize_len storage_providers;
    lr_enabled_storage_provider_count := Z.of_nat (count_if spr_enabled storage_providers);
    lr_retention_capable_provider_count :=
      Z.of_nat (count_if provider_is_capable storage_providers);
    lr_authorized_retention_provider_count := authorized_retention_provider_count;
    lr_authorized_retention_provider_ids := authorized_retention_provider_ids;
    lr_storage_providers := storage_providers;
    lr_ready_for_manual_sync := metadata_ready && bool_decide (blocked_reason = None);
    lr_blocked_reason := blocked_reason |}.

(** ** The report and the scheduler *)

(** A device of the profile that is no provider, and one whose key is trusted. *)
Definition registered (profile : string) (db : ProfileDb) (device_id : string) : Prop :=
  exists device, device ∈ sync_devices profile db /\ sd_device_id device = device_id /\
    sd_provider_authority device = false.
Definition key_trusted (profile : string) (db : ProfileDb) (device_id : string) : Prop :=
  exists record, record ∈ sync_device_public_keys profile db /\ sk_trusted record = true /\
    pk_device_id (sk_public_key record) = device_id.

Lemma existsb_spec {A} (p : A -> bool) (P : A -> Prop) l :
  (forall a, p a = true <-> P a) -> existsb p l = true <-> exists a, a ∈ l /\ P a.
Proof.
  intros Hp. rewrite existsb_exists. setoid_rewrite Hp.
  by setoid_rewrite list_elem_of_In.
Qed.

Lemma blocked_reason_none key registered trusted domains providers :
  readiness_blocked_reason key registered trusted domains providers = None <->
  is_Some key /\ registered = true /\ trusted = true /\ domains <> 0 /\ providers <> 0.
Proof.
  unfold readiness_blocked_reason. destruct key as [k|]; [|naive_solver].
  destruct registered, trusted; simpl;
    repeat match goal with
      | |- context [?a =? 0] => destruct (Z.eqb_spec a 0)
      end; naive_solver.
Qed.

Lemma count_if_pos {A} (p : A -> bool) l :
  0 < Z.of_nat (count_if p l) <-> exists a, a ∈ l /\ p a = true.
Proof.
  unfold count_if. destruct (List.filter p l) as [|a l'] eqn:E; cbn; split; try lia.
  - intros (a & Ha & Hp). assert (a ∈ List.filter p l) as Hin by by apply elem_of_filter_bool.
    rewrite E in Hin. by apply elem_of_nil in Hin.
  - intros _. assert (a ∈ List.filter p l) as Hin by (rewrite E; left).
    apply elem_of_filter_bool in Hin as [Hp Hin]. by exists a.
Qed.

Lemma usize_len_pos {A} (l : list A) : usize_len l <> 0 <-> l <> [].
Proof. unfold usize_len. destruct l; cbn; split; try done; lia. Qed.

Lemma device_registered profile db :
  existsb (fun device => str_eqb (sd_device_id device) local_sync_device_id
                         && negb (sd_provider_authority device)) (sync_devices profile db) = true
  <-> registered profile db local_sync_device_id.
Proof.
  apply existsb_spec. intros device.
  by rewrite andb_true_iff, str_eqb_eq, negb_true_iff.
Qed.

Lemma device_trusted profile db :
  existsb (fun record => sk_trusted record
             && str_eqb (pk_device_id (sk_public_key record)) local_sync_device_id)
    (sync_device_public_keys profile db) = true
  <-> key_trusted profile db local_sync_device_id.
Proof.
  apply existsb_spec. intros record. by rewrite andb_true_iff, str_eqb_eq.
Qed.

Lemma reads_storage_providers profile limit db : (storage_providers profile limit db).1 = db.
Proof. done. Qed.

(** The report against the selection over all the stored providers. *)
Lemma readiness_full_selection profile db :
  match profile_sync_local_readiness profile db,
        load_stored_retention_provider_selection profile u32_max db with
  | (db1, Ok report), (db2, Ok selection) =>
      db1 = db /\ db2 = db /\
      lr_authorized_retention_provider_ids report = ss_enabled_retention_provider_ids selection /\
      (lr_ready_for_manual_sync report = true <->
        is_Some (active_sync_content_key_epoch profile db) /\
        registered profile db local_sync_device_id /\
        key_trusted profile db local_sync_device_id /\
        (exists domain, domain ∈ app_sync_domains profile db /\ ad_enabled domain = true) /\
        ss_enabled_retention_provider_ids selection <> []) /\
      (lr_ready_for_manual_sync report = true <-> lr_blocked_reason report = None)
  | (db1, Err e1), (db2, Err e2) => db1 = db /\ db2 = db /\ e1 = e2
  | _, _ => False
  end.
Proof.
  unfold profile_sync_local_readiness, load_stored_retention_provider_selection, query, sr_bind.
  cbn [fst snd]. pose proof (reads_storage_providers profile u32_max db) as Hreads.
  destruct (storage_providers profile u32_max db) as [db' [providers|e]]; cbn in Hreads |- *;
    subst db'; [|by split_and!].
  change (list_to_set (map _ (List.filter _ (sync_device_public_keys profile db))))
    with (trusted_provider_authority_device_ids profile db).
  set (authorized := trusted_provider_authority_device_ids profile db).
  destruct (select_stored_eligible authorized providers) as (Hen & _). rewrite Hen.
  assert (List.filter (fun provider => provider_is_capable provider
    && bool_decide (spr_provider_id provider ∈ authorized)) providers
    = List.filter (retention_eligible authorized) providers) as ->.
  { apply filter_ext. intros provider. unfold provider_is_capable, retention_eligible.
    by rewrite andb_assoc. }
  pose proof (device_registered profile db) as Hreg. pose proof (device_trusted profile db) as Htr.
  pose proof (count_if_pos ad_enabled (app_sync_domains profile db)) as Hdom.
  pose proof (usize_len_pos (map spr_provider_id
    (List.filter (retention_eligible authorized) providers))) as Hprov.
  rewrite andb_true_iff, bool_decide_eq_true, !andb_true_iff, bool_decide_eq_true, Z.ltb_lt,
    blocked_reason_none, fmap_is_Some.
  split_and!; [done|done|done|..]; rewrite ?Hreg, ?Htr; naive_solver lia.
Qed.

(** The providers the profile stores are at most [limit]. *)
Definition stores_at_most (profile : string) (db : ProfileDb) (limit : Z) : Prop :=
  Z.of_nat (size (filter (fun kv : (string * string) * AppRow StorageProviderSyncPayload =>
                            kv.1.1 = profile) (tbl_storage_providers (db_app db)))) <= limit.

Lemma collect_prefix {E A B} (f : A -> result E B) n l :
  match collect_results f l, collect_results f (take n l) with
  | Ok all, Ok some => exists unread, all = some ++ unread
  | Err e, Err e' => e = e'
  | Err _, Ok _ => True
  | Ok _, Err _ => False
  end.
Proof.
  revert n. induction l as [|a l IH]; intros n.
  { rewrite take_nil. by exists []. }
  destruct n as [|n]; cbn [take collect_results].
  { destruct (match f a with Ok _ => _ | Err _ => _ end) as [all|e]; [by exists all|done]. }
  destruct (f a) as [b|e]; [|done]. specialize (IH n).
  destruct (collect_results f l) as [all|e], (collect_results f (take n l)) as [some|e'];
    try done. destruct IH as [unread ->]. by exists unread.
Qed.

(** A selection over the first stored providers is the beginning of the one over all. *)
Lemma selection_prefix profile limit db :
  0 <= limit <= u32_max ->
  match load_stored_retention_provider_selection profile u32_max db,
        load_stored_retention_provider_selection profile limit db with
  | (db1, Ok all), (db2, Ok some) => db1 = db /\ db2 = db /\ exists unread,
      ss_enabled_retention_provider_ids all = ss_enabled_retention_provider_ids some ++ unread /\
      (stores_at_most profile db limit -> unread = [])
  | (db1, Err e), (db2, Err e') => db1 = db /\ db2 = db /\ e = e'
  | (db1, Err _), (db2, Ok _) => db1 = db /\ db2 = db /\ ~ stores_at_most profile db limit
  | (_, Ok _), (_, Err _) => False
  end.
Proof.
  intros Hlimit. set (rows := tbl_storage_providers (db_app db)).
  assert (select_rows storage_providers_order profile limit rows
          = take (Z.to_nat limit) (select_rows storage_providers_order profile u32_max rows)) as Htake.
  { unfold select_rows. rewrite !sql_limit_take, take_take. f_equal. lia. }
  assert (stores_at_most profile db limit ->
    load_stored_retention_provider_selection profile limit db
    = load_stored_retention_provider_selection profile u32_max db) as Hsame.
  { intros Hfew. unfold load_stored_retention_provider_selection, storage_providers.
    assert (select_rows storage_providers_order profile limit rows
            = select_rows storage_providers_order profile u32_max rows) as Hrows.
    { unfold select_rows. rewrite !sql_limit_take, !take_ge; [done|..];
        unfold sort_by, btree_values; rewrite merge_sort_Permutation, length_fmap,
          btree_iter_length; unfold stores_at_most in Hfew; fold rows in Hfew; lia. }
    unfold query_rows, sr_bind, query. fold rows. by rewrite Hrows. }
  revert Hsame. unfold load_stored_retention_provider_selection, storage_providers, query_rows,
    query, sr_bind, sr_lift, sr_ret. fold rows. rewrite Htake.
  pose proof (collect_prefix (storage_provider_record_from_row profile) (Z.to_nat limit)
                (select_rows storage_providers_order profile u32_max rows)) as Hprefix.
  destruct (collect_results _ (select_rows _ _ _ _)) as [all|e],
    (collect_results _ (take _ _)) as [some|e']; cbn; intros Hsame;
    [|done| |by subst; split_and!].
  - split_and!; [done..|]. destruct Hprefix as [unread ->].
    set (authorized := trusted_provider_authority_device_ids profile db) in *.
    destruct (select_stored_eligible authorized (some ++ unread)) as (Hall & _).
    destruct (select_stored_eligible authorized some) as (Hsome & _).
    exists (map spr_provider_id (List.filter (retention_eligible authorized) unread)).
    rewrite Hall, Hsome, List.filter_app, map_app. split; [done|]. intros Hfew.
    specialize (Hsame Hfew). injection Hsame as Hs.
    apply (f_equal ss_enabled_retention_provider_ids) in Hs. rewrite Hall, Hsome in Hs.
    rewrite List.filter_app, map_app in Hs.
    by apply (app_inv_head (map spr_provider_id (List.filter (retention_eligible authorized) some)));
      rewrite app_nil_r.
  - split_and!; [done..|]. intros Hfew. by specialize (Hsame Hfew).
Qed.

(** C37: (equivalence) The readiness report reads the database only and names as authorised
    retention providers those the scheduler selects when it reads [max_stored] of the stored
    providers, followed by those that it leaves unread, of which there are none when the
    profile stores no more than that many.  A manual sync is called ready exactly when there is
    an active content key, this device is registered and trusted, some app domain is enabled,
    and a retention provider is authorised.  A provider that cannot be read fails both with the
    same error, unless it is among the unread ones. *)
Theorem readiness_agrees_with_selection profile max_stored db :
  0 <= max_stored <= u32_max ->
  match profile_sync_local_readiness profile db,
        load_stored_retention_provider_selection profile max_stored db with
  | (db1, Ok report), (db2, Ok selection) =>
      db1 = db /\ db2 = db /\
      (exists unread,
        lr_authorized_retention_provider_ids report
        = ss_enabled_retention_provider_ids selection ++ unread /\
        (stores_at_most profile db max_stored -> unread = [])) /\
      (lr_ready_for_manual_sync report = true <->
        is_Some (active_sync_content_key_epoch profile db) /\
        registered profile db local_sync_device_id /\
        key_trusted profile db local_sync_device_id /\
        (exists domain, domain ∈ app_sync_domains profile db /\ ad_enabled domain = true) /\
        lr_authorized_retention_provider_ids report <> []) /\
      (lr_ready_for_manual_sync report = true <-> lr_blocked_reason report = None)
  | (db1, Err e1), (db2, Err e2) => db1 = db /\ db2 = db /\ e1 = e2
  | (db1, Err _), (db2, Ok _) => db1 = db /\ db2 = db /\ ~ stores_at_most profile db max_stored
  | (_, Ok _), (_, Err _) => False
  end.
Proof.
  intros Hlimit. pose proof (readiness_full_selection profile db) as Hfull.
  pose proof (selection_prefix profile max_stored db Hlimit) as Hprefix.
  destruct (profile_sync_local_readiness profile db) as [db1 [report|e1]],
    (load_stored_retention_provider_selection profile u32_max db) as [db2 [all|e2]]; try done;
    destruct (load_stored_retention_provider_selection profile max_stored db) as [db3 [some|e3]];
    try done.
  - destruct Hfull as (-> & -> & Hids & Hready & Hblocked), Hprefix as (_ & -> & Hunread).
    rewrite Hids. by split_and!.
  - by destruct Hfull as (-> & _ & _), Hprefix as (_ & -> & Hmany).
  - destruct Hfull as (-> & _ & ->), Hprefix as (_ & -> & ->). done.
Qed.
End Readiness.

(** ** Witnesses *)

Lemma readiness_agrees_with_selection_witness :
  exists report, profile_sync_local_readiness "desk" "default" demo_profile_db
                 = (demo_profile_db, Ok report) /\
    lr_authorized_retention_provider_ids report = ["laptop"].
Proof.
  assert (0 <= 4 <= u32_max) as Hlimit by (vm_compute; split; discriminate).
  pose proof (readiness_agrees_with_selection "desk" "default" 4 demo_profile_db Hlimit) as H.
  assert (is_ok (profile_sync_local_readiness "desk" "default" demo_profile_db).2 = true) as Hok
    by (vm_compute; reflexivity).
  destruct (profile_sync_local_readiness "desk" "default" demo_profile_db) as [db1 [report|e]];
    [|discriminate Hok].
  destruct (load_stored_retention_provider_selection "default" 4 demo_profile_db)
    as [db2 [selection|e2]] eqn:Hs; [|destruct H].
  destruct H as (-> & _ & (unread & Hids & Hnone) & _).
  exists report. split; [reflexivity|]. rewrite Hids, Hnone by (vm_compute; discriminate).
  apply (f_equal snd) in Hs. vm_compute in Hs. injection Hs as <-. vm_compute. reflexivity.
Defined.

(** Four providers the profile does not authorise come before the one it does, and everything
    else a manual sync needs is there: the report calls it ready, and a scheduler that reads
    four providers, as the one of the settings preview does, selects none. *)
Definition crowded_db : ProfileDb :=
  set_db_devices (<[("default", "desk") := {|
      sd_profile := "default"; sd_device_id := "desk"; sd_label := None;
      sd_membership_epoch := 1; sd_provider_authority := false; sd_created_at := 1;
      sd_last_seen_at := 1 |}]> (db_devices demo_profile_db))
  (set_db_public_keys (<[("default", "desk") := {|
      sk_profile := "default";
      sk_public_key := {| pk_device_id := "desk"; pk_bytes := "key" |};
      sk_membership_epoch := 1; sk_trusted := true; sk_created_at := 1; sk_updated_at := 1 |}]>
      (db_public_keys demo_profile_db))
  (set_db_key_epochs {[("default", "k1") := {|
      ke_profile := "default"; ke_key_id := "k1"; ke_membership_epoch := 1;
      ke_algorithm := "chacha20"; ke_active := true; ke_created_at := 1; ke_updated_at := 1 |}]}
  (set_db_app_domains {[("default", "settings") := {|
      ad_profile := "default"; ad_domain := "settings"; ad_schema_version := 1;
      ad_enabled := true; ad_privacy_classification := "private"; ad_sync_content := true;
      ad_created_at := 1; ad_updated_at := 1 |}]}
  (set_db_app (set_tbl_storage_providers
    {[("default", "a1") := Build_AppRow (demo_provider "a1" true) 1 1;
      ("default", "a2") := Build_AppRow (demo_provider "a2" true) 1 1;
      ("default", "a3") := Build_AppRow (demo_provider "a3" true) 1 1;
      ("default", "a4") := Build_AppRow (demo_provider "a4" true) 1 1;
      ("default", "laptop") := Build_AppRow (demo_provider "laptop" true) 1 1]}
    (db_app demo_profile_db)) demo_profile_db)))).
Example ready_with_unread_providers :
  result_map lr_ready_for_manual_sync
    (profile_sync_local_readiness "desk" "default" crowded_db).2 = Ok true /\
  result_map lr_authorized_retention_provider_ids
    (profile_sync_local_readiness "desk" "default" crowded_db).2 = Ok ["laptop"] /\
  result_map ss_enabled_retention_provider_ids
    (load_stored_retention_provider_selection "default" 4 crowded_db).2 = Ok [].
Proof. split_and!; vm_compute; reflexivity. Qed.
