(* ===== verification/KeyBindings.v ===== *)
(** * Key bindings of the browser shell

    Models [crates/chrome/src/desktop/key_bindings.rs]: the text of a binding and its parser,
    which action a keyboard event has, and the bindings kept in the settings of the profile
    database, with the defaults that are written when a setting is missing, invalid or the
    default of an older version.

    Keys, codes and modifiers are those of the [keyboard_types] crate: the constructors the
    program names, and one for the others. The bindings in use are a state of the process,
    passed explicitly; the warnings that are logged are not modelled. A character is the text
    of its UTF-8 bytes. *)
From S2P Require Import Prelude RustStr SocketText Http AppViews Database SyncStore.

(** ** Keys and events *)

(** [keyboard_types::Modifiers]; [mod_other] are the flags the program does not name. *)
Record Modifiers := {
  mod_shift : bool;
  mod_control : bool;
  mod_alt : bool;
  mod_meta : bool;
  mod_other : N
}.
#[export] Instance Modifiers_eq_dec : EqDecision Modifiers.
Proof. solve_decision. Defined.

Definition mod_empty : Modifiers := Build_Modifiers false false false false 0.
Definition SHIFT : Modifiers := Build_Modifiers true false false false 0.
Definition CONTROL : Modifiers := Build_Modifiers false true false false 0.
Definition ALT : Modifiers := Build_Modifiers false false true false 0.
Definition META : Modifiers := Build_Modifiers false false false true 0.
Definition mod_or (a b : Modifiers) : Modifiers :=
  {| mod_shift := mod_shift a || mod_shift b; mod_control := mod_control a || mod_control b;
     mod_alt := mod_alt a || mod_alt b; mod_meta := mod_meta a || mod_meta b;
     mod_other := N.lor (mod_other a) (mod_other b) |}.
Definition mod_and (a b : Modifiers) : Modifiers :=
  {| mod_shift := mod_shift a && mod_shift b; mod_control := mod_control a && mod_control b;
     mod_alt := mod_alt a && mod_alt b; mod_meta := mod_meta a && mod_meta b;
     mod_other := N.land (mod_other a) (mod_other b) |}.

Definition modifier_mask : Modifiers := mod_or SHIFT (mod_or CONTROL (mod_or ALT META)).

Inductive NamedKey :=
  | PageUp | PageDown | ArrowLeft | ArrowRight | ArrowUp | ArrowDown
  | Tab | Escape | Enter | Backspace | Delete | Insert | Home | End
  | F1 | F2 | F3 | F4 | F5 | F6 | F7 | F8 | F9 | F10 | F11 | F12
  | F13 | F14 | F15 | F16 | F17 | F18 | F19 | F20 | F21 | F22 | F23 | F24
  | OtherNamedKey (name : string).
#[export] Instance NamedKey_eq_dec : EqDecision NamedKey.
Proof. solve_decision. Defined.

Inductive Key := CharacterKey (text : string) | NamedKeyKey (key : NamedKey).
Inductive Code := QuoteCode | OtherCode (name : string).
#[export] Instance Code_eq_dec : EqDecision Code.
Proof. solve_decision. Defined.

Record KeyboardEvent := {
  ev_key : Key;
  ev_code : Code;
  ev_modifiers : Modifiers
}.

(** ** Actions *)

Inductive KeyBindingAction :=
  | NewTab | CloseTab | NextTab | PreviousTab | NextApp | PreviousApp
  | Cut | Copy | Paste | SelectAll.
#[export] Instance KeyBindingAction_eq_dec : EqDecision KeyBindingAction.
Proof. solve_decision. Defined.

Definition KEY_BINDING_ACTIONS : list KeyBindingAction :=
  [NewTab; CloseTab; NextTab; PreviousTab; NextApp; PreviousApp; Cut; Copy; Paste; SelectAll].

Definition action_id (action : KeyBindingAction) : string :=
  match action with
  | NewTab => "new_tab" | CloseTab => "close_tab" | NextTab => "next_tab"
  | PreviousTab => "previous_tab" | NextApp => "next_app" | PreviousApp => "previous_app"
  | Cut => "cut" | Copy => "copy" | Paste => "paste" | SelectAll => "select_all"
  end.

Definition action_label (action : KeyBindingAction) : string :=
  match action with
  | NewTab => "New tab" | CloseTab => "Close tab" | NextTab => "Next tab"
  | PreviousTab => "Previous tab" | NextApp => "Next app" | PreviousApp => "Previous app"
  | Cut => "Cut" | Copy => "Copy" | Paste => "Paste" | SelectAll => "Select all"
  end.

Definition setting_key (action : KeyBindingAction) : string :=
  match action with
  | NewTab => "keybindings.new_tab" | CloseTab => "keybindings.close_tab"
  | NextTab => "keybindings.next_tab" | PreviousTab => "keybindings.previous_tab"
  | NextApp => "keybindings.next_app" | PreviousApp => "keybindings.previous_app"
  | Cut => "keybindings.cut" | Copy => "keybindings.copy" | Paste => "keybindings.paste"
  | SelectAll => "keybindings.select_all"
  end.

Definition query_parameter (action : KeyBindingAction) : string :=
  match action with
  | NewTab => "key_new_tab" | CloseTab => "key_close_tab" | NextTab => "key_next_tab"
  | PreviousTab => "key_previous_tab" | NextApp => "key_next_app"
  | PreviousApp => "key_previous_app" | Cut => "key_cut" | Copy => "key_copy"
  | Paste => "key_paste" | SelectAll => "key_select_all"
  end.

Definition default_setting_value (action : KeyBindingAction) : string :=
  match action with
  | NewTab => "Primary+T" | CloseTab => "Primary+W" | NextTab => "Ctrl+Tab"
  | PreviousTab => "Ctrl+Shift+Tab" | NextApp => "Ctrl+'" | PreviousApp => "Ctrl+Shift+'"
  | Cut => "Primary+X" | Copy => "Primary+C" | Paste => "Primary+V" | SelectAll => "Primary+A"
  end.

Definition legacy_default_setting_value (action : KeyBindingAction) : option string :=
  match action with
  | NextTab => Some "Ctrl+PageDown"
  | PreviousTab => Some "Ctrl+PageUp"
  | PreviousApp => Some ("Ctrl+Shift+" +:+ quote)
  | _ => None
  end.

Definition key_binding_action_from_setting_key (key : string) : option KeyBindingAction :=
  list_find_bool (fun action => str_eqb (setting_key action) key) KEY_BINDING_ACTIONS.

(** ** Bindings *)

Inductive BindingKey := BindCharacter (key : string) | BindNamed (key : NamedKey).
#[export] Instance BindingKey_eq_dec : EqDecision BindingKey.
Proof. solve_decision. Defined.

Record KeyBinding := {
  kb_modifiers : Modifiers;
  kb_key : BindingKey
}.
#[export] Instance KeyBinding_eq_dec : EqDecision KeyBinding.
Proof. solve_decision. Defined.

(** [to_ascii_uppercase] of a character or a text. *)
Definition byte_to_ascii_uppercase (c : ascii) : ascii :=
  if is_ascii_lowercase c then byte_of (byte_val c - 32) else c.
Definition to_ascii_uppercase (s : string) : string := str_map byte_to_ascii_uppercase s.

(** [s.chars().count()] of a UTF-8 text: the bytes that do not continue a character. *)
Fixpoint chars_count (s : string) : Z :=
  match s with
  | EmptyString => 0
  | String c s =>
      (if (128 <=? byte_val c) && (byte_val c <? 192) then 0 else 1) + chars_count s
  end.

Definition key_binding_character (modifiers : Modifiers) (key : string) : KeyBinding :=
  {| kb_modifiers := mod_and modifiers modifier_mask;
     kb_key := BindCharacter (to_ascii_uppercase key) |}.
Definition key_binding_named (modifiers : Modifiers) (key : NamedKey) : KeyBinding :=
  {| kb_modifiers := mod_and modifiers modifier_mask; kb_key := BindNamed key |}.

Definition matches_physical_code (key : BindingKey) (event : KeyboardEvent) : bool :=
  bool_decide (key = BindCharacter "'") && bool_decide (ev_code event = QuoteCode).
Definition key_matches_event (key : BindingKey) (event : KeyboardEvent) : bool :=
  match key, ev_key event with
  | BindCharacter expected, CharacterKey actual =>
      eq_ignore_ascii_case actual expected || matches_physical_code key event
  | BindNamed expected, NamedKeyKey actual => bool_decide (expected = actual)
  | _, _ => matches_physical_code key event
  end.
Definition matches_event (binding : KeyBinding) (event : KeyboardEvent) : bool :=
  bool_decide (mod_and (ev_modifiers event) modifier_mask = kb_modifiers binding)
  && key_matches_event (kb_key binding) event.

(** ** The text of a binding *)

Definition named_key_label (key : NamedKey) : string :=
  match key with
  | PageUp => "PageUp" | PageDown => "PageDown" | ArrowLeft => "ArrowLeft"
  | ArrowRight => "ArrowRight" | ArrowUp => "ArrowUp" | ArrowDown => "ArrowDown"
  | Tab => "Tab" | Escape => "Escape" | Enter => "Enter" | Backspace => "Backspace"
  | Delete => "Delete" | Insert => "Insert" | Home => "Home" | End => "End"
  | F1 => "F1" | F2 => "F2" | F3 => "F3" | F4 => "F4" | F5 => "F5" | F6 => "F6" | F7 => "F7"
  | F8 => "F8" | F9 => "F9" | F10 => "F10" | F11 => "F11" | F12 => "F12" | F13 => "F13"
  | F14 => "F14" | F15 => "F15" | F16 => "F16" | F17 => "F17" | F18 => "F18" | F19 => "F19"
  | F20 => "F20" | F21 => "F21" | F22 => "F22" | F23 => "F23" | F24 => "F24"
  | OtherNamedKey _ => "Unidentified"
  end.
Definition key_label (key : BindingKey) : string :=
  match key with BindCharacter key => key | BindNamed key => named_key_label key end.

Definition setting_value_tokens (binding : KeyBinding) : list string :=
  (if mod_control (kb_modifiers binding) then ["Ctrl"] else [])
  ++ (if mod_shift (kb_modifiers binding) then ["Shift"] else [])
  ++ (if mod_alt (kb_modifiers binding) then ["Alt"] else [])
  ++ (if mod_meta (kb_modifiers binding) then ["Meta"] else [])
  ++ [key_label (kb_key binding)].
Definition setting_value (binding : KeyBinding) : string :=
  str_join "+" (setting_value_tokens binding).
Definition display_label (binding : KeyBinding) : string := setting_value binding.

Definition function_key_from_token (token : string) : option NamedKey :=
  match match strip_prefix "F" token with
        | Some rest => Some rest
        | None => strip_prefix "f" token
        end with
  | None => None
  | Some rest =>
      match parse_unsigned 255 rest with
      | Err _ => None
      | Ok number =>
          match number with
          | 1 => Some F1 | 2 => Some F2 | 3 => Some F3 | 4 => Some F4 | 5 => Some F5
          | 6 => Some F6 | 7 => Some F7 | 8 => Some F8 | 9 => Some F9 | 10 => Some F10
          | 11 => Some F11 | 12 => Some F12 | 13 => Some F13 | 14 => Some F14 | 15 => Some F15
          | 16 => Some F16 | 17 => Some F17 | 18 => Some F18 | 19 => Some F19 | 20 => Some F20
          | 21 => Some F21 | 22 => Some F22 | 23 => Some F23 | 24 => Some F24
          | _ => None
          end
      end
  end.

(** The names of a key, in the order they are tried. *)
Definition named_key_tokens : list (list string * NamedKey) :=
  [(["PageUp"; "Page Up"], PageUp); (["PageDown"; "Page Down"], PageDown);
   (["ArrowLeft"; "Left"], ArrowLeft); (["ArrowRight"; "Right"], ArrowRight);
   (["ArrowUp"; "Up"], ArrowUp); (["ArrowDown"; "Down"], ArrowDown); (["Tab"], Tab);
   (["Escape"; "Esc"], Escape); (["Enter"; "Return"], Enter); (["Backspace"], Backspace);
   (["Delete"; "Del"], Delete); (["Insert"; "Ins"], Insert); (["Home"], Home); (["End"], End)].
Definition token_is_one_of (names : list string) (token : string) : bool :=
  existsb (eq_ignore_ascii_case token) names.

Definition named_key_from_token (token : string) : option NamedKey :=
  match function_key_from_token token with
  | Some function_key => Some function_key
  | None => option_map snd (list_find_bool (fun '(names, _) => token_is_one_of names token)
                              named_key_tokens)
  end.

Definition binding_key_from_token (token : string) : option BindingKey :=
  let normalized := trim token in
  if chars_count normalized =? 1 then Some (BindCharacter (to_ascii_uppercase normalized))
  else option_map BindNamed (named_key_from_token normalized).

Section Platform.
(** [cfg(target_os = "macos")]. *)
Context (macos : bool).

Definition CMD_OR_CONTROL : Modifiers := if macos then META else CONTROL.

Definition modifier_from_token (token : string) : option Modifiers :=
  if eq_ignore_ascii_case token "primary" then Some CMD_OR_CONTROL
  else if token_is_one_of ["ctrl"; "control"] token then Some CONTROL
  else if eq_ignore_ascii_case token "shift" then Some SHIFT
  else if token_is_one_of ["alt"; "option"] token then Some ALT
  else if token_is_one_of ["meta"; "cmd"; "command"; "super"] token then Some META
  else None.

(** The loop over the tokens: one that names no key leaves the key unset. *)
Fixpoint parse_tokens (modifiers : Modifiers) (key : option BindingKey) (tokens : list string) :
    option (Modifiers * option BindingKey) :=
  match tokens with
  | [] => Some (modifiers, key)
  | token :: tokens =>
      match modifier_from_token token with
      | Some modifier => parse_tokens (mod_or modifiers modifier) key tokens
      | None =>
          match key with
          | Some _ => None
          | None => parse_tokens modifiers (binding_key_from_token token) tokens
          end
      end
  end.

Definition key_binding_tokens (value : string) : list string :=
  List.filter (fun token => negb (is_empty token)) (map trim (str_split "+" value)).
Definition key_binding_parse (value : string) : option KeyBinding :=
  match parse_tokens mod_empty None (key_binding_tokens value) with
  | Some (modifiers, Some key) =>
      Some {| kb_modifiers := mod_and modifiers modifier_mask; kb_key := key |}
  | _ => None
  end.

Definition default_key_binding (action : KeyBindingAction) : KeyBinding :=
  match action with
  | NewTab => key_binding_character CMD_OR_CONTROL "T"
  | CloseTab => key_binding_character CMD_OR_CONTROL "W"
  | NextTab => key_binding_named CONTROL Tab
  | PreviousTab => key_binding_named (mod_or CONTROL SHIFT) Tab
  | NextApp => key_binding_character CONTROL "'"
  | PreviousApp => key_binding_character (mod_or CONTROL SHIFT) "'"
  | Cut => key_binding_character CMD_OR_CONTROL "X"
  | Copy => key_binding_character CMD_OR_CONTROL "C"
  | Paste => key_binding_character CMD_OR_CONTROL "V"
  | SelectAll => key_binding_character CMD_OR_CONTROL "A"
  end.

(** ** The bindings of the shell *)

Record SlateKeyBindings := {
  kbs_new_tab : KeyBinding;
  kbs_close_tab : KeyBinding;
  kbs_next_tab : KeyBinding;
  kbs_previous_tab : KeyBinding;
  kbs_next_app : KeyBinding;
  kbs_previous_app : KeyBinding;
  kbs_cut : KeyBinding;
  kbs_copy : KeyBinding;
  kbs_paste : KeyBinding;
  kbs_select_all : KeyBinding
}.
#[local] Instance SlateKeyBindings_eq_dec : EqDecision SlateKeyBindings.
Proof. solve_decision. Defined.

Definition default_key_bindings : SlateKeyBindings := {|
  kbs_new_tab := default_key_binding NewTab; kbs_close_tab := default_key_binding CloseTab;
  kbs_next_tab := default_key_binding NextTab;
  kbs_previous_tab := default_key_binding PreviousTab;
  kbs_next_app := default_key_binding NextApp;
  kbs_previous_app := default_key_binding PreviousApp; kbs_cut := default_key_binding Cut;
  kbs_copy := default_key_binding Copy; kbs_paste := default_key_binding Paste;
  kbs_select_all := default_key_binding SelectAll |}.

Definition binding (bindings : SlateKeyBindings) (action : KeyBindingAction) : KeyBinding :=
  match action with
  | NewTab => kbs_new_tab bindings | CloseTab => kbs_close_tab bindings
  | NextTab => kbs_next_tab bindings | PreviousTab => kbs_previous_tab bindings
  | NextApp => kbs_next_app bindings | PreviousApp => kbs_previous_app bindings
  | Cut => kbs_cut bindings | Copy => kbs_copy bindings | Paste => kbs_paste bindings
  | SelectAll => kbs_select_all bindings
  end.

Definition set_binding (action : KeyBindingAction) (b : KeyBinding)
    (bindings : SlateKeyBindings) : SlateKeyBindings :=
  let '(Build_SlateKeyBindings new_tab close_tab next_tab previous_tab next_app previous_app
          cut copy paste select_all) := bindings in
  match action with
  | NewTab => Build_SlateKeyBindings b close_tab next_tab previous_tab next_app previous_app
                cut copy paste select_all
  | CloseTab => Build_SlateKeyBindings new_tab b next_tab previous_tab next_app previous_app
                  cut copy paste select_all
  | NextTab => Build_SlateKeyBindings new_tab close_tab b previous_tab next_app previous_app
                 cut copy paste select_all
  | PreviousTab => Build_SlateKeyBindings new_tab close_tab next_tab b next_app previous_app
                     cut copy paste select_all
  | NextApp => Build_SlateKeyBindings new_tab close_tab next_tab previous_tab b previous_app
                 cut copy paste select_all
  | PreviousApp => Build_SlateKeyBindings new_tab close_tab next_tab previous_tab next_app b
                     cut copy paste select_all
  | Cut => Build_SlateKeyBindings new_tab close_tab next_tab previous_tab next_app previous_app
             b copy paste select_all
  | Copy => Build_SlateKeyBindings new_tab close_tab next_tab previous_tab next_app
              previous_app cut b paste select_all
  | Paste => Build_SlateKeyBindings new_tab close_tab next_tab previous_tab next_app
               previous_app cut copy b select_all
  | SelectAll => Build_SlateKeyBindings new_tab close_tab next_tab previous_tab next_app
                   previous_app cut copy paste b
  end.

Definition action_for_event (bindings : SlateKeyBindings) (event : KeyboardEvent) :
    option KeyBindingAction :=
  list_find_bool (fun action => matches_event (binding bindings action) event)
    KEY_BINDING_ACTIONS.

(** One entry of the JSON value of the bindings, the fields under the names of its keys. *)
Record KeyBindingEntry := {
  entry_id : string;
  entry_label : string;
  entry_query : string;
  entry_value : string;
  entry_display : string;
  entry_default_value : string;
  entry_default_display : string
}.
Definition json_value (bindings : SlateKeyBindings) : list KeyBindingEntry :=
  map (fun action => {|
    entry_id := action_id action; entry_label := action_label action;
    entry_query := query_parameter action;
    entry_value := setting_value (binding bindings action);
    entry_display := display_label (binding bindings action);
    entry_default_value := default_setting_value action;
    entry_default_display := display_label (default_key_binding action) |}) KEY_BINDING_ACTIONS.

Definition parse_or_default (action : KeyBindingAction) (value : string) : KeyBinding :=
  default (default_key_binding action) (key_binding_parse value).

(** A setting of the profile, as another device changed it: the bindings in use, and whether
    the setting is one of a binding. *)
Definition apply_key_binding_setting (key value : string) (current : SlateKeyBindings) :
    SlateKeyBindings * bool :=
  match key_binding_action_from_setting_key key with
  | None => (current, false)
  | Some action => (set_binding action (parse_or_default action value) current, true)
  end.

Definition key_binding_action_for_event (event : KeyboardEvent) (current : SlateKeyBindings) :
    option KeyBindingAction :=
  action_for_event current event.

(** [url.query_pairs()], of the [url] crate. *)
Context (query_pairs : Url -> list (string * string)).

Definition query_value (url : Url) (key : string) : option string :=
  option_map snd (list_find_bool (fun '(name, _) => str_eqb name key) (query_pairs url)).

Fixpoint bindings_from_query (url : Url) (actions : list KeyBindingAction)
    (bindings : SlateKeyBindings) (found : bool) : SlateKeyBindings * bool :=
  match actions with
  | [] => (bindings, found)
  | action :: actions =>
      match query_value url (query_parameter action) with
      | None => bindings_from_query url actions bindings found
      | Some value =>
          bindings_from_query url actions
            (set_binding action (parse_or_default action value) bindings) true
      end
  end.
Definition key_bindings_from_settings_url (url : Url) (current : SlateKeyBindings) :
    option SlateKeyBindings :=
  let '(bindings, found) := bindings_from_query url KEY_BINDING_ACTIONS current false in
  if found then Some bindings else None.

(** ** The settings of the profile *)

Context (local_sync_device_id : string).

(** [if let Err(error) = database.set_setting_text(key, value) { warn!(...) }]. *)
Definition try_set_setting_text (key value : string) (now : Z) (db : ProfileDb) : ProfileDb :=
  (set_setting_text local_sync_device_id key value now db).1.

Definition load_key_binding_from_database (action : KeyBindingAction) (now : Z)
    (db : ProfileDb) : ProfileDb * KeyBinding :=
  match ensure_setting_text local_sync_device_id (setting_key action)
          (default_setting_value action) now db with
  | (db, Err _) => (db, default_key_binding action)
  | (db, Ok stored) =>
      let reset := try_set_setting_text (setting_key action) (default_setting_value action)
                     now db in
      if bool_decide (legacy_default_setting_value action = Some stored)
      then (reset, default_key_binding action)
      else
        match key_binding_parse stored with
        | Some binding => (db, binding)
        | None => (reset, default_key_binding action)
        end
  end.

Fixpoint load_key_bindings (actions : list KeyBindingAction) (now : Z)
    (bindings : SlateKeyBindings) (db : ProfileDb) : ProfileDb * SlateKeyBindings :=
  match actions with
  | [] => (db, bindings)
  | action :: actions =>
      let '(db, b) := load_key_binding_from_database action now db in
      load_key_bindings actions now (set_binding action b bindings) db
  end.
(** The bindings become the ones in use. *)
Definition initialize_key_bindings_from_database (now : Z) (db : ProfileDb) :
    ProfileDb * SlateKeyBindings :=
  load_key_bindings KEY_BINDING_ACTIONS now default_key_bindings db.

Definition persist_key_bindings_to_database (bindings : SlateKeyBindings) (now : Z)
    (db : ProfileDb) : ProfileDb :=
  fold_left (fun db action =>
    try_set_setting_text (setting_key action) (setting_value (binding bindings action)) now db)
    KEY_BINDING_ACTIONS db.
End Platform.

(** ** Examples *)

Definition key_press (key : Key) (modifiers : Modifiers) : KeyboardEvent :=
  {| ev_key := key; ev_code := OtherCode ""; ev_modifiers := modifiers |}.

Example common_shortcuts_parse :
  option_map setting_value (key_binding_parse false "Ctrl+Shift+T") = Some "Ctrl+Shift+T" /\
  option_map setting_value (key_binding_parse false "Ctrl+Page Down") = Some "Ctrl+PageDown" /\
  option_map kb_key (key_binding_parse false "Primary+W") = Some (BindCharacter "W") /\
  key_binding_parse false "Ctrl+PageDown+T" = None.
Proof. split_and!; vm_compute; reflexivity. Qed.

(** A misspelt modifier is left out of the binding, which then lacks it. *)
Example misspelt_modifier_dropped :
  key_binding_parse false "Crtl+T" = Some (key_binding_character mod_empty "T") /\
  action_for_event
    (set_binding CloseTab (parse_or_default false CloseTab "Crtl+K") (default_key_bindings false))
    (key_press (CharacterKey "k") mod_empty) = Some CloseTab.
Proof. split; vm_compute; reflexivity. Qed.

Example shifted_quote_is_previous_app :
  action_for_event (default_key_bindings false)
    {| ev_key := CharacterKey quote; ev_code := QuoteCode;
       ev_modifiers := mod_or CONTROL SHIFT |} = Some PreviousApp.
Proof. vm_compute. reflexivity. Qed.
