(* ===== verification/KeyBindingLaws.v ===== *)
(** * Laws of the key bindings

    The text of a binding is read back as the binding, and the bindings kept in the settings
    are the ones in use after a restart. *)
From S2P Require Import Prelude RustStr StrLaws SocketText Http AppViews Database SyncStore.
From S2P Require Import AddressLaws KeyBindings.

(** ** White space at the ends *)

Lemma strip_whitespace_char_rest s rest :
  strip_whitespace_char s = Some rest -> exists w, w ∈ whitespace_chars /\ s = w +:+ rest.
Proof.
  unfold strip_whitespace_char. destruct (list_find_bool _ _) as [w|] eqn:Hw; [|done].
  apply list_find_bool_Some in Hw as [Hin _]. intros ->%strip_prefix_Some. eauto.
Qed.

Lemma strip_whitespace_char_end_rest s rest :
  strip_whitespace_char_end s = Some rest -> exists w, w ∈ whitespace_chars /\ s = rest +:+ w.
Proof.
  unfold strip_whitespace_char_end. destruct (list_find_bool _ _) as [w|] eqn:Hw; [|done].
  apply list_find_bool_Some in Hw as [Hin _]. intros ->%strip_suffix_Some. eauto.
Qed.

Lemma whitespace_char_nonempty w : w ∈ whitespace_chars -> (0 < String.length w)%nat.
Proof.
  intros Hw%list_elem_of_In.
  assert (forallb (fun w => (0 <? String.length w)%nat) whitespace_chars = true) as Hall
    by (vm_compute; done).
  rewrite forallb_forall in Hall. by apply Nat.ltb_lt, Hall.
Qed.

Lemma trim_start_fuel_none fuel s :
  (String.length s <= fuel)%nat -> strip_whitespace_char (trim_start_fuel fuel s) = None.
Proof.
  revert s. induction fuel as [|fuel IH]; intros s Hlen; cbn [trim_start_fuel].
  - destruct s; [done|simpl in Hlen; lia].
  - destruct (strip_whitespace_char s) as [rest|] eqn:E; [|done]. apply IH.
    apply strip_whitespace_char_rest in E as (w & Hw%whitespace_char_nonempty & ->).
    rewrite str_length_app in Hlen. lia.
Qed.

Lemma trim_end_fuel_none fuel s :
  (String.length s <= fuel)%nat -> strip_whitespace_char_end (trim_end_fuel fuel s) = None.
Proof.
  revert s. induction fuel as [|fuel IH]; intros s Hlen; cbn [trim_end_fuel].
  - destruct s; [done|simpl in Hlen; lia].
  - destruct (strip_whitespace_char_end s) as [rest|] eqn:E; [|done]. apply IH.
    apply strip_whitespace_char_end_rest in E as (w & Hw%whitespace_char_nonempty & ->).
    rewrite str_length_app in Hlen. lia.
Qed.

Lemma trim_end_prefix fuel s : exists n, s = trim_end_fuel fuel s +:+ n.
Proof.
  revert s. induction fuel as [|fuel IH]; intros s; cbn [trim_end_fuel].
  - exists "". by rewrite str_app_nil_r.
  - destruct (strip_whitespace_char_end s) as [rest|] eqn:E.
    + apply strip_whitespace_char_end_rest in E as (w & _ & ->). destruct (IH rest) as [n Hn].
      exists (n +:+ w). by rewrite Hn at 1; rewrite str_app_assoc.
    + exists "". by rewrite str_app_nil_r.
Qed.

Lemma starts_with_app w a b : starts_with w a = true -> starts_with w (a +:+ b) = true.
Proof.
  rewrite !starts_with_spec. intros [rest ->]. exists (rest +:+ b). by rewrite str_app_assoc.
Qed.

Lemma strip_whitespace_char_none s :
  strip_whitespace_char s = None <-> list_find_bool (fun w => starts_with w s) whitespace_chars = None.
Proof.
  unfold strip_whitespace_char. destruct (list_find_bool _ _) as [w|] eqn:Hw; [|done].
  apply list_find_bool_Some in Hw as [_ Hw]. unfold starts_with in Hw. by destruct (strip_prefix w s).
Qed.

Lemma strip_whitespace_char_end_none s :
  strip_whitespace_char_end s = None <->
  list_find_bool (fun w => ends_with w s) whitespace_chars = None.
Proof.
  unfold strip_whitespace_char_end. destruct (list_find_bool _ _) as [w|] eqn:Hw; [|done].
  apply list_find_bool_Some in Hw as [_ Hw]. unfold ends_with, starts_with, strip_suffix in *.
  by destruct (strip_prefix _ _).
Qed.

(** No white space at either end. *)
Definition trimmed (s : string) : Prop :=
  strip_whitespace_char s = None /\ strip_whitespace_char_end s = None.

Lemma trim_trimmed s : trimmed (trim s).
Proof.
  unfold trim, trim_end. set (t := trim_start s).
  assert (strip_whitespace_char t = None) as Ht by (by apply trim_start_fuel_none).
  split; [|by apply trim_end_fuel_none].
  rewrite strip_whitespace_char_none, list_find_bool_None in *. intros w Hw.
  destruct (starts_with w _) eqn:E; [|done]. destruct (trim_end_prefix (String.length t) t) as [n Hn].
  apply (starts_with_app _ _ n) in E. rewrite <-Hn in E. by rewrite Ht in E.
Qed.

Lemma trimmed_trim s : trimmed s -> trim s = s.
Proof.
  intros [Hs He]. unfold trim, trim_start, trim_end.
  assert (trim_start_fuel (String.length s) s = s) as ->.
  { destruct (String.length s); [done|]. cbn. by rewrite Hs. }
  destruct (String.length s); [done|]. cbn. by rewrite He.
Qed.

(** ** Upper case *)

Lemma byte_upper_cases c :
  byte_to_ascii_uppercase c = c \/
  is_ascii_lowercase c = true /\ is_ascii_uppercase (byte_to_ascii_uppercase c) = true.
Proof. destruct c as [[] [] [] [] [] [] [] []]; vm_compute; auto. Qed.

Lemma byte_lower_upper c :
  byte_to_ascii_lowercase (byte_to_ascii_uppercase c) = byte_to_ascii_lowercase c.
Proof. by destruct c as [[] [] [] [] [] [] [] []]. Qed.

Lemma byte_upper_upper c :
  byte_to_ascii_uppercase (byte_to_ascii_uppercase c) = byte_to_ascii_uppercase c.
Proof. by destruct c as [[] [] [] [] [] [] [] []]. Qed.

Lemma byte_upper_continues c :
  (128 <=? byte_val (byte_to_ascii_uppercase c)) && (byte_val (byte_to_ascii_uppercase c) <? 192)
  = (128 <=? byte_val c) && (byte_val c <? 192).
Proof. by destruct c as [[] [] [] [] [] [] [] []]. Qed.

Definition is_letter (c : ascii) : bool := is_ascii_lowercase c || is_ascii_uppercase c.

Lemma eqb_byte_upper b c :
  is_letter b = false -> Ascii.eqb b (byte_to_ascii_uppercase c) = Ascii.eqb b c.
Proof.
  unfold is_letter. intros [Hl Hu]%orb_false_iff.
  destruct (byte_upper_cases c) as [->|[Hc Huc]]; [done|].
  destruct (Ascii.eqb_spec b (byte_to_ascii_uppercase c)), (Ascii.eqb_spec b c);
    subst; congruence.
Qed.

Lemma lower_upper s : to_ascii_lowercase (to_ascii_uppercase s) = to_ascii_lowercase s.
Proof.
  induction s as [|c s IH]; [done|]. unfold to_ascii_uppercase, to_ascii_lowercase in *. cbn.
  by rewrite byte_lower_upper, IH.
Qed.

Lemma upper_upper s : to_ascii_uppercase (to_ascii_uppercase s) = to_ascii_uppercase s.
Proof.
  induction s as [|c s IH]; [done|]. unfold to_ascii_uppercase in *. cbn.
  by rewrite byte_upper_upper, IH.
Qed.

Lemma eq_ignore_upper s t : eq_ignore_ascii_case (to_ascii_uppercase s) t = eq_ignore_ascii_case s t.
Proof. unfold eq_ignore_ascii_case. by rewrite lower_upper. Qed.

Lemma one_of_upper names s :
  token_is_one_of names (to_ascii_uppercase s) = token_is_one_of names s.
Proof.
  induction names as [|name names IH]; [done|]. cbn in *. unfold token_is_one_of in *. cbn.
  by rewrite eq_ignore_upper, IH.
Qed.

Lemma chars_count_upper s : chars_count (to_ascii_uppercase s) = chars_count s.
Proof.
  induction s as [|c s IH]; [done|]. unfold to_ascii_uppercase in *. cbn.
  by rewrite byte_upper_continues, IH.
Qed.

Lemma all_bytes_upper b s :
  is_letter b = false ->
  all_bytes (fun c => negb (Ascii.eqb c b)) (to_ascii_uppercase s)
  = all_bytes (fun c => negb (Ascii.eqb c b)) s.
Proof.
  intros Hb. induction s as [|c s IH]; [done|]. unfold to_ascii_uppercase in *. cbn.
  by rewrite IH, (Ascii.eqb_sym _ b), eqb_byte_upper, (Ascii.eqb_sym b).
Qed.

Lemma is_empty_upper s : is_empty (to_ascii_uppercase s) = is_empty s.
Proof. by destruct s. Qed.

Lemma starts_with_upper w s :
  all_bytes (fun c => negb (is_letter c)) w = true ->
  starts_with w (to_ascii_uppercase s) = starts_with w s.
Proof.
  unfold starts_with, to_ascii_uppercase. revert s.
  induction w as [|b w IH]; intros [|c s]; try done. cbn.
  intros [Hb%negb_true_iff Hw]%andb_prop. rewrite eqb_byte_upper by done.
  destruct (Ascii.eqb b c); [by apply IH|done].
Qed.

Lemma str_rev_map f s : str_rev (str_map f s) = str_map f (str_rev s).
Proof.
  induction s as [|c s IH]; [done|]. cbn [str_map].
  by rewrite !str_rev_cons, str_map_app, IH.
Qed.

Lemma whitespace_char_letters w :
  w ∈ whitespace_chars -> all_bytes (fun c => negb (is_letter c)) w = true.
Proof.
  intros Hw%list_elem_of_In.
  assert (forallb (all_bytes (fun c => negb (is_letter c))) whitespace_chars = true) as Hall
    by (vm_compute; done).
  rewrite forallb_forall in Hall. by apply Hall.
Qed.

Lemma trimmed_upper s : trimmed s -> trimmed (to_ascii_uppercase s).
Proof.
  unfold trimmed. rewrite !strip_whitespace_char_none, !strip_whitespace_char_end_none,
    !list_find_bool_None. intros [Hs He]. split; intros w Hw.
  - rewrite starts_with_upper by by apply whitespace_char_letters. by apply Hs.
  - unfold ends_with, to_ascii_uppercase. rewrite str_rev_map.
    fold (to_ascii_uppercase (str_rev s)).
    rewrite starts_with_upper; [by apply He|]. rewrite all_bytes_rev.
    by apply whitespace_char_letters.
Qed.

(** ** Tokens *)

(** A token as [key_binding_tokens] gives it. *)
Record is_token (token : string) : Prop := {
  tk_trimmed : trimmed token;
  tk_nonempty : is_empty token = false;
  tk_plus : all_bytes (fun c => negb (Ascii.eqb c "+")) token = true
}.

Lemma str_split_pieces sep s piece :
  piece ∈ str_split sep s -> all_bytes (fun c => negb (Ascii.eqb c sep)) piece = true.
Proof.
  revert piece. induction s as [|c s IH]; intros piece; cbn [str_split].
  - by intros ->%list_elem_of_singleton.
  - destruct (Ascii.eqb_spec c sep) as [->|Hc].
    + intros [->|Hp]%elem_of_cons; [done|by apply IH].
    + destruct (str_split sep s) as [|h t] eqn:E; [by destruct (str_split_nonempty sep s)|].
      apply Ascii.eqb_neq in Hc. intros [->|Hp]%elem_of_cons.
      * cbn. rewrite Hc. apply IH. left.
      * apply IH. by right.
Qed.

Lemma all_bytes_trim p s : all_bytes p s = true -> all_bytes p (trim s) = true.
Proof.
  intros Hs. unfold trim.
  assert (all_bytes p (trim_start s) = true) as Ht.
  { unfold trim_start. generalize (String.length s). intros fuel. revert s Hs.
    induction fuel as [|fuel IH]; intros s Hs; cbn [trim_start_fuel]; [done|].
    destruct (strip_whitespace_char s) as [rest|] eqn:E; [|done].
    apply strip_whitespace_char_rest in E as (w & _ & ->).
    rewrite all_bytes_app in Hs. apply andb_prop in Hs as [_ Hs]. by apply IH. }
  destruct (trim_end_prefix (String.length (trim_start s)) (trim_start s)) as [n Hn].
  rewrite Hn, all_bytes_app in Ht. by apply andb_prop in Ht as [Ht _].
Qed.

Lemma key_binding_tokens_ok value : Forall is_token (key_binding_tokens value).
Proof.
  apply Forall_forall. intros token. unfold key_binding_tokens.
  intros [Hne%negb_true_iff Ht]%elem_of_filter_bool.
  apply list_elem_of_fmap in Ht as (piece & -> & Hp). split; [apply trim_trimmed|done|].
  apply all_bytes_trim. by eapply str_split_pieces.
Qed.

(** The tokens of a joined text. *)
Lemma tokens_of_join tokens :
  tokens <> [] -> Forall is_token tokens -> key_binding_tokens (str_join "+" tokens) = tokens.
Proof.
  intros Hne Htok. unfold key_binding_tokens.
  assert (str_split "+" (str_join "+" tokens) = tokens) as ->.
  { induction Htok as [|t tokens Ht Htok IH]; [done|]. destruct tokens as [|t' tokens].
    - by apply str_split_none, tk_plus.
    - rewrite str_join_cons. change ("+" +:+ ?r) with (String "+" r).
      rewrite str_split_app, IH by done. rewrite str_split_none by by apply tk_plus. done. }
  clear Hne. induction Htok as [|t tokens Ht Htok IH]; [done|]. cbn.
  rewrite trimmed_trim by apply Ht. rewrite (tk_nonempty t Ht). cbn. by rewrite IH.
Qed.

(** ** Keys *)

(** A key whose label is read back as the key. *)
Record key_reads (macos : bool) (key : BindingKey) : Prop := {
  kr_token : is_token (key_label key);
  kr_modifier : modifier_from_token macos (key_label key) = None;
  kr_key : binding_key_from_token (key_label key) = Some key
}.

Definition named_keys : list NamedKey :=
  [PageUp; PageDown; ArrowLeft; ArrowRight; ArrowUp; ArrowDown; Tab; Escape; Enter; Backspace;
   Delete; Insert; Home; End; F1; F2; F3; F4; F5; F6; F7; F8; F9; F10; F11; F12; F13; F14; F15;
   F16; F17; F18; F19; F20; F21; F22; F23; F24].

Lemma named_key_reads macos key : key ∈ named_keys -> key_reads macos (BindNamed key).
Proof.
  intros Hkey. assert (forallb (fun key =>
    let label := named_key_label key in
    bool_decide (strip_whitespace_char label = None)
    && bool_decide (strip_whitespace_char_end label = None)
    && negb (is_empty label) && all_bytes (fun c => negb (Ascii.eqb c "+")) label
    && bool_decide (modifier_from_token macos label = None)
    && bool_decide (binding_key_from_token label = Some (BindNamed key))) named_keys = true)
    as Hall by (destruct macos; vm_compute; done).
  rewrite forallb_forall in Hall. apply list_elem_of_In, Hall in Hkey. cbv zeta in Hkey.
  rewrite !andb_true_iff, !bool_decide_eq_true, negb_true_iff in Hkey.
  destruct Hkey as (((((H1 & H2) & H3) & H4) & H5) & H6). by repeat split.
Qed.

Lemma named_key_known token key : named_key_from_token token = Some key -> key ∈ named_keys.
Proof.
  assert (forall l : list NamedKey, forallb (fun k => bool_decide (k ∈ named_keys)) l = true ->
    forall k, k ∈ l -> k ∈ named_keys) as Hin.
  { intros l Hl k Hk. rewrite forallb_forall in Hl.
    apply list_elem_of_In, Hl, bool_decide_eq_true in Hk. done. }
  unfold named_key_from_token. destruct (function_key_from_token token) as [k|] eqn:E.
  - intros [= <-]. unfold function_key_from_token in E.
    apply (Hin named_keys); [by vm_compute|].
    destruct (match strip_prefix "F" token with Some rest => _ | None => _ end); [|done].
    destruct (parse_unsigned 255 _) as [number|]; [|done].
    destruct number as [|p|p]; [done| |done].
    repeat (destruct p as [p|p|]; try done);
      injection E as <-; apply (bool_decide_unpack _); vm_compute; done.
  - intros Hk. destruct (list_find_bool _ named_key_tokens) as [[names k]|] eqn:Hf; [|done].
    apply list_find_bool_Some in Hf as [Hf _]. injection Hk as <-.
    apply (Hin (map snd named_key_tokens)); [by vm_compute|].
    by apply (list_elem_of_fmap_2 snd _ (names, k)).
Qed.

Lemma token_key_reads macos token key :
  is_token token -> modifier_from_token macos token = None ->
  binding_key_from_token token = Some key -> key_reads macos key.
Proof.
  intros [Htrim Hne Hplus] Hmod. unfold binding_key_from_token. rewrite trimmed_trim by done.
  destruct (chars_count token =? 1) eqn:Hc.
  - intros [= <-]. cbn. split; cbn [key_label].
    + split; [by apply trimmed_upper|by rewrite is_empty_upper|by rewrite all_bytes_upper].
    + unfold modifier_from_token in *. by rewrite !eq_ignore_upper, !one_of_upper.
    + unfold binding_key_from_token. rewrite trimmed_trim by by apply trimmed_upper.
      by rewrite chars_count_upper, Hc, upper_upper.
  - destruct (named_key_from_token token) as [k|] eqn:Hk; [|done]. intros [= <-].
    by eapply named_key_reads, named_key_known.
Qed.

Lemma parse_tokens_key macos modifiers key tokens modifiers' key' :
  Forall is_token tokens -> mod_other modifiers = 0%N ->
  (forall k, key = Some k -> key_reads macos k) ->
  parse_tokens macos modifiers key tokens = Some (modifiers', Some key') ->
  mod_other modifiers' = 0%N /\ key_reads macos key'.
Proof.
  intros Htok. revert modifiers key.
  induction Htok as [|token tokens Ht Htok IH]; intros modifiers key Hm Hkey; cbn.
  - intros [= <- ->]. auto.
  - destruct (modifier_from_token macos token) as [m|] eqn:Hmod.
    + apply IH; [|done]. cbn. rewrite Hm. unfold modifier_from_token, CMD_OR_CONTROL in Hmod.
      revert Hmod. repeat case_match; intros [= <-]; done.
    + destruct key; [done|]. apply IH; [done|]. intros k Hk. by eapply token_key_reads.
Qed.

(** A binding that [key_binding_parse] can give. *)
Definition readable (macos : bool) (b : KeyBinding) : Prop :=
  mod_other (kb_modifiers b) = 0%N /\ key_reads macos (kb_key b).

Lemma parsed_readable macos value b : key_binding_parse macos value = Some b -> readable macos b.
Proof.
  unfold key_binding_parse. destruct (parse_tokens _ _ _ _) as [[m [key|]]|] eqn:E; try done.
  intros [= <-].
  apply parse_tokens_key in E as [Hm Hk]; [|apply key_binding_tokens_ok|done|done].
  split; [|done]. cbn. by rewrite Hm.
Qed.

Lemma default_value_parses macos action :
  key_binding_parse macos (default_setting_value action) = Some (default_key_binding macos action).
Proof. destruct macos, action; vm_compute; reflexivity. Qed.

Lemma setting_value_parses macos b : readable macos b -> key_binding_parse macos (setting_value b) = Some b.
Proof.
  intros [Hm [Htok Hmod Hkey]]. unfold key_binding_parse, setting_value.
  assert (Hlit : Forall is_token ["Ctrl"; "Shift"; "Alt"; "Meta"])
    by (repeat constructor; vm_compute; reflexivity).
  rewrite !Forall_cons in Hlit. destruct Hlit as (H1 & H2 & H3 & H4 & _).
  rewrite tokens_of_join.
  2: { unfold setting_value_tokens. repeat case_match; done. }
  2: { unfold setting_value_tokens. repeat case_match; repeat constructor; try done; by apply Htok. }
  destruct b as [[shift control alt meta other] key]. cbn in *. subst other.
  destruct control, shift, alt, meta; cbn; by rewrite Hmod, Hkey.
Qed.

(** The text of a binding that was read is read back as the same binding: what
    the settings page and the database keep of a binding is the binding. *)
Theorem key_binding_roundtrip macos value b :
  key_binding_parse macos value = Some b -> key_binding_parse macos (setting_value b) = Some b.
Proof. intros Hb. by apply setting_value_parses, (parsed_readable _ value). Qed.

(** ** Writing a setting *)

Section Settings.
Context (device : string).

(** [n] more changes of this device can be recorded before the sequences run out. *)
Definition room (n : Z) (db : ProfileDb) : Prop :=
  Forall (fun z => z <= i64_max - n) (device_sequences DEFAULT_PROFILE_ID device db) /\
  Forall (fun z => z <= i64_max - n) (logical_clocks DEFAULT_PROFILE_ID db).

Lemma sql_next_room n l :
  0 < n < i64_max -> Forall (fun z => z <= i64_max - n) l ->
  exists m, sql_next l = Ok m /\ m <= i64_max - (n - 1) /\ forall z, z ∈ l -> z < m.
Proof.
  intros Hn Hl. destruct (sql_next_ok l) as [m Hm].
  { intros Hm%sql_max_Some. destruct Hm as [Hin _]. rewrite Forall_forall in Hl.
    apply Hl in Hin. lia. }
  exists m. split_and!; [done| |by intros z; apply sql_next_above].
  unfold sql_next in Hm. destruct (_ =? _); [done|]. injection Hm as <-.
  destruct (sql_max l) as [x|] eqn:Hx; cbn; [|lia].
  apply sql_max_Some in Hx as [Hin _]. rewrite Forall_forall in Hl. apply Hl in Hin. lia.
Qed.

Lemma fresh_sequence profile sequence db :
  (forall z, z ∈ device_sequences profile device db -> z < sequence) ->
  sync_change_by_device_sequence_in_transaction profile device sequence db = None.
Proof.
  intros Hlt. unfold sync_change_by_device_sequence_in_transaction. apply list_find_bool_None.
  intros r Hr. destruct (_ && _) eqn:E; [|done].
  apply andb_true_iff in E as [E Hs%Z.eqb_eq]. enough (ch_device_sequence r < sequence) by lia.
  apply Hlt. unfold device_sequences. apply list_elem_of_fmap_2. by apply elem_of_filter_bool.
Qed.

(** A setting is written, or the database is left as it is; no other setting changes. *)
Lemma set_setting_text_effect key value now db :
  let '(db', r) := set_setting_text device key value now db in
  match r with
  | Ok _ => forall key', get_setting_text key' db'
              = if str_eqb key' key then Some value else get_setting_text key' db
  | Err _ => db' = db
  end.
Proof.
  unfold set_setting_text, database_error, transaction, upsert_setting,
    record_sync_setting_text_in_transaction, insert_sync_setting_text_change_in_transaction,
    insert_sync_setting_text_change_record_in_transaction, sr_bind, query, execute, sr_lift.
  destruct (sql_next _) as [sequence|]; [|done]. destruct (sql_next _) as [clock|]; [|done].
  destruct (sync_change_by_device_sequence_in_transaction _ _ _ _); [done|].
  cbn. intros key'. unfold get_setting_text. cbn. destruct (str_eqb key' key) eqn:E.
  - apply str_eqb_eq in E as ->. by rewrite lookup_insert_eq.
  - apply str_eqb_neq in E. by rewrite lookup_insert_ne.
Qed.

Lemma set_setting_text_room n key value now db :
  0 < n < i64_max -> room n db ->
  exists db', set_setting_text device key value now db = (db', Ok tt) /\ room (n - 1) db'.
Proof.
  intros Hn [Hs Hc]. destruct (sql_next_room n _ Hn Hs) as (sequence & Eseq & Hseq & Hfresh).
  destruct (sql_next_room n _ Hn Hc) as (clock & Eclock & Hclock & _).
  apply fresh_sequence in Hfresh.
  unfold set_setting_text, database_error, transaction, upsert_setting,
    record_sync_setting_text_in_transaction, insert_sync_setting_text_change_in_transaction,
    insert_sync_setting_text_change_record_in_transaction, sr_bind, query, execute, sr_lift.
  unfold device_sequences, logical_clocks, sync_change_by_device_sequence_in_transaction in *.
  cbn. rewrite Eseq. cbn. rewrite Eclock. cbn. rewrite Hfresh. eexists. split; [done|].
  unfold room, device_sequences, logical_clocks. cbn.
  rewrite !filter_bool_app, !map_app, !Forall_app. cbn.
  rewrite !str_eqb_refl. cbn. rewrite !Forall_singleton.
  split_and!; try done; (eapply Forall_impl; [eassumption|]; cbn; intros; lia).
Qed.

(** ** The bindings of a database *)

Context (macos : bool).

Abbreviation initialize := (initialize_key_bindings_from_database macos device).
Abbreviation load := (load_key_binding_from_database macos device).

(** The binding a stored setting stands for. *)
Definition stored_binding (action : KeyBindingAction) (stored : option string) : KeyBinding :=
  match stored with
  | None => default_key_binding macos action
  | Some stored =>
      if bool_decide (legacy_default_setting_value action = Some stored)
      then default_key_binding macos action else parse_or_default macos action stored
  end.

Lemma stored_default action :
  stored_binding action (Some (default_setting_value action)) = default_key_binding macos action.
Proof.
  unfold stored_binding, parse_or_default. rewrite default_value_parses.
  by case_bool_decide.
Qed.

(** Loading gives the binding the database stands for, and leaves it standing for it. *)
Lemma load_effect action now db :
  let '(db', b) := load action now db in
  b = stored_binding action (get_setting_text (setting_key action) db) /\
  stored_binding action (get_setting_text (setting_key action) db') = b /\
  forall key, key <> setting_key action -> get_setting_text key db' = get_setting_text key db.
Proof.
  assert (forall db, let db' := try_set_setting_text device (setting_key action)
      (default_setting_value action) now db in
    (get_setting_text (setting_key action) db' = Some (default_setting_value action) \/ db' = db) /\
    forall key, key <> setting_key action -> get_setting_text key db' = get_setting_text key db)
    as Hset.
  { intros db0. unfold try_set_setting_text.
    pose proof (set_setting_text_effect (setting_key action) (default_setting_value action) now db0)
      as He. destruct (set_setting_text _ _ _ _ db0) as [db' [u|e]]; cbn; [|subst; auto].
    rewrite He, str_eqb_refl. split; [auto|]. intros key Hkey%str_eqb_neq. by rewrite He, Hkey. }
  unfold load_key_binding_from_database, ensure_setting_text, query, sr_bind, sr_ret.
  destruct (get_setting_text (setting_key action) db) as [stored|] eqn:Hg; cbn.
  - specialize (Hset db) as [Hown Hother].
    case_bool_decide as Hl; [|unfold parse_or_default; destruct (key_binding_parse _ _) eqn:Hp].
    + split_and!; [done| |done]. destruct Hown as [->| ->]; [apply stored_default|].
      rewrite Hg. cbn. by rewrite bool_decide_eq_true_2.
    + rewrite Hg. cbn. rewrite bool_decide_eq_false_2 by done.
      unfold parse_or_default. by rewrite Hp.
    + split_and!; [done| |done]. destruct Hown as [->| ->]; [apply stored_default|].
      rewrite Hg. cbn. rewrite bool_decide_eq_false_2 by done.
      unfold parse_or_default. by rewrite Hp.
  - pose proof (Hset db) as [Hown Hother]. unfold try_set_setting_text in Hown, Hother.
    pose proof (set_setting_text_effect (setting_key action) (default_setting_value action) now db)
      as He. destruct (set_setting_text _ _ _ _ db) as [db' [u|e]]; cbn in *.
    + rewrite bool_decide_eq_false_2 by by destruct action.
      rewrite default_value_parses. cbn. rewrite He, str_eqb_refl.
      split_and!; [done|apply stored_default|].
      intros key Hkey%str_eqb_neq. by rewrite He, Hkey.
    + subst db'. by rewrite Hg.
Qed.
Lemma setting_key_inj a b : setting_key a = setting_key b -> a = b.
Proof. by destruct a, b. Qed.

Lemma binding_set_binding a b k bs :
  binding (set_binding a k bs) b = if bool_decide (b = a) then k else binding bs b.
Proof. by destruct bs, a, b. Qed.

Lemma bindings_ext bs bs' : (forall a, binding bs a = binding bs' a) -> bs = bs'.
Proof.
  intros Hb. destruct bs, bs'.
  f_equal; [apply (Hb NewTab)|apply (Hb CloseTab)|apply (Hb NextTab)|apply (Hb PreviousTab)
           |apply (Hb NextApp)|apply (Hb PreviousApp)|apply (Hb Cut)|apply (Hb Copy)
           |apply (Hb Paste)|apply (Hb SelectAll)].
Qed.

Lemma load_key_bindings_effect actions now bs db :
  NoDup actions ->
  let '(db', bs') := load_key_bindings macos device actions now bs db in
  (forall a, binding bs' a = if bool_decide (a ∈ actions)
     then stored_binding a (get_setting_text (setting_key a) db) else binding bs a) /\
  (forall a, stored_binding a (get_setting_text (setting_key a) db')
             = stored_binding a (get_setting_text (setting_key a) db)).
Proof.
  revert bs db. induction actions as [|action actions IH]; intros bs db Hnd; cbn.
  - split; [|done]. intros a. by rewrite bool_decide_eq_false_2 by set_solver.
  - apply NoDup_cons in Hnd as [Hnin Hnd]. pose proof (load_effect action now db) as Hload.
    destruct (load action now db) as [db1 b]. destruct Hload as (-> & Hown & Hother).
    specialize (IH (set_binding action (stored_binding action
      (get_setting_text (setting_key action) db)) bs) db1 Hnd).
    destruct (load_key_bindings _ _ _ _ _ db1) as [db2 bs2]. destruct IH as [Hbs Hdb].
    assert (forall a, stored_binding a (get_setting_text (setting_key a) db1)
      = stored_binding a (get_setting_text (setting_key a) db)) as Hsame.
    { intros a. destruct (decide (a = action)) as [->|Hne]; [done|].
      rewrite Hother; [done|]. by intros ?%setting_key_inj. }
    split; intros a; [|by rewrite Hdb].
    rewrite Hbs, binding_set_binding, Hsame.
    repeat case_bool_decide; set_solver.
Qed.

(** What the shell starts with is what the database stands for, and stays so. *)
Lemma initialize_effect now db :
  let '(db', bs) := initialize now db in
  (forall a, binding bs a = stored_binding a (get_setting_text (setting_key a) db)) /\
  (forall a, stored_binding a (get_setting_text (setting_key a) db')
             = stored_binding a (get_setting_text (setting_key a) db)).
Proof.
  unfold initialize_key_bindings_from_database.
  pose proof (load_key_bindings_effect KEY_BINDING_ACTIONS now (default_key_bindings macos) db)
    as Hload. destruct (load_key_bindings _ _ _ _ _ _) as [db' bs].
  destruct Hload as [Hbs Hdb]; [by apply (bool_decide_unpack _); vm_compute|].
  split; [|done]. intros a. rewrite Hbs, bool_decide_eq_true_2; [done|].
  destruct a; apply (bool_decide_unpack _); vm_compute; done.
Qed.

Lemma persist_effect actions bs now db :
  NoDup actions -> room (Z.of_nat (length actions)) db -> (length actions <= 10)%nat ->
  let db' := fold_left (fun db action => try_set_setting_text device (setting_key action)
                          (setting_value (binding bs action)) now db) actions db in
  forall a, get_setting_text (setting_key a) db'
    = if bool_decide (a ∈ actions) then Some (setting_value (binding bs a))
      else get_setting_text (setting_key a) db.
Proof.
  revert db. induction actions as [|action actions IH]; intros db Hnd Hroom Hlen db' a.
  - subst db'. by rewrite bool_decide_eq_false_2 by set_solver.
  - subst db'. cbn [fold_left]. apply NoDup_cons in Hnd as [Hnin Hnd]. cbn [length] in *.
    destruct (set_setting_text_room (Z.of_nat (S (length actions))) (setting_key action)
      (setting_value (binding bs action)) now db) as (db1 & Hset & Hroom1);
      [unfold i64_max; lia|done|].
    pose proof (set_setting_text_effect (setting_key action)
      (setting_value (binding bs action)) now db) as He. rewrite Hset in He.
    unfold try_set_setting_text at 2. rewrite Hset. cbn [fst].
    rewrite IH; [|done|by replace (Z.of_nat (S (length actions)) - 1)
                        with (Z.of_nat (length actions)) in Hroom1 by lia|lia].
    rewrite He. destruct (decide (a = action)) as [->|Hne].
    + rewrite bool_decide_eq_false_2, str_eqb_refl, bool_decide_eq_true_2 by set_solver. done.
    + replace (str_eqb (setting_key a) (setting_key action)) with false.
      2: { symmetry. apply str_eqb_neq. by intros ?%setting_key_inj. }
      repeat case_bool_decide; set_solver.
Qed.

(** The bindings that were saved are the ones in use after a restart, and
    after any further restart; only a choice that reads like the default of an older version
    is replaced by the present default. *)
Theorem key_bindings_survive_restart bs now now' now'' db :
  (forall a, exists value, key_binding_parse macos value = Some (binding bs a)) ->
  room 10 db ->
  let '(db1, bs1) := initialize now' (persist_key_bindings_to_database device bs now db) in
  (forall a, binding bs1 a =
    if bool_decide (legacy_default_setting_value a = Some (setting_value (binding bs a)))
    then default_key_binding macos a else binding bs a) /\
  (initialize now'' db1).2 = bs1.
Proof.
  intros Hread Hroom.
  assert (forall a, get_setting_text (setting_key a)
    (persist_key_bindings_to_database device bs now db)
    = Some (setting_value (binding bs a))) as Hstored.
  { intros a. unfold persist_key_bindings_to_database.
    rewrite (persist_effect KEY_BINDING_ACTIONS);
      [|by apply (bool_decide_unpack _); vm_compute|done|cbn; lia].
    rewrite bool_decide_eq_true_2; [done|].
    destruct a; apply (bool_decide_unpack _); vm_compute; done. }
  pose proof (initialize_effect now' (persist_key_bindings_to_database device bs now db)) as Hi.
  destruct (initialize now' _) as [db1 bs1]. destruct Hi as [Hbs Hdb]. split.
  - intros a. rewrite Hbs, Hstored. cbn. case_bool_decide; [done|].
    destruct (Hread a) as [value Hv]. unfold parse_or_default.
    by rewrite (setting_value_parses _ _ (parsed_readable _ _ _ Hv)).
  - pose proof (initialize_effect now'' db1) as Hi. destruct (initialize now'' db1) as [db2 bs2].
    destruct Hi as [Hbs2 _]. apply bindings_ext. intros a. cbn. by rewrite Hbs2, Hdb, Hbs.
Qed.
End Settings.

(** ** Witnesses *)

Lemma key_binding_roundtrip_witness :
  key_binding_parse false "shift+ctrl+page down"
    = Some (key_binding_named (mod_or CONTROL SHIFT) PageDown) /\
  key_binding_parse false
    (setting_value (key_binding_named (mod_or CONTROL SHIFT) PageDown))
    = Some (key_binding_named (mod_or CONTROL SHIFT) PageDown).
Proof.
  split; [vm_compute; reflexivity|].
  apply (key_binding_roundtrip false "shift+ctrl+page down"). vm_compute. reflexivity.
Defined.

(** The next tab was put on the key of an older version, which does not survive. *)
Definition chosen_bindings : SlateKeyBindings :=
  set_binding NextTab (key_binding_named CONTROL PageDown)
    (set_binding CloseTab (key_binding_named ALT F4) (default_key_bindings false)).

Lemma key_bindings_survive_restart_witness :
  let bs1 := (initialize_key_bindings_from_database false "desk" 2
                (persist_key_bindings_to_database "desk" chosen_bindings 1 empty_db)).2 in
  binding bs1 CloseTab = key_binding_named ALT F4 /\
  binding bs1 NextTab = default_key_binding false NextTab.
Proof.
  pose proof (key_bindings_survive_restart "desk" false chosen_bindings 1 2 3 empty_db) as H.
  destruct (initialize_key_bindings_from_database _ _ _ _) as [db1 bs1].
  destruct H as [Hbs _].
  - intros a.
    exists (match a with CloseTab => "Alt+F4" | NextTab => "Ctrl+PageDown"
            | _ => default_setting_value a end).
    destruct a; vm_compute; reflexivity.
  - split; constructor.
  - cbn [snd]. rewrite !Hbs. split; vm_compute; reflexivity.
Defined.
