(* ===== verification/LocationBar.v ===== *)
(** * The location bar of the browser shell

    Models [crates/chrome/src/parser.rs]: what the text typed into the location bar, or given on
    the command line, loads. [ServoUrl] wraps a URL of the [url] crate, whose parser is
    [UrlCrate]; its file paths and Servo's list of registered domains are a second interface. *)
From S2P Require Import Prelude RustStr StrLaws SocketText Http Downloads Daemon Tor BrowserCore.
From S2P Require Import UrlReference AddressLaws.

(** [Url::to_file_path], [Url::from_file_path] and [servo::is_reg_domain]. *)
Class ShellUrls := {
  to_file_path : Url -> option string;
  from_file_path : string -> option Url;
  is_reg_domain : string -> bool
}.

(** [url::ParseError::RelativeUrlWithoutBase]. *)
Definition relative_url_without_base : string := "relative URL without a base".

(** [Result::ok]. *)
Definition result_ok {E A} (r : result E A) : option A :=
  match r with Ok a => Some a | Err _ => None end.

(** [str::replace] of a pattern that is not empty. *)
Fixpoint str_replace_fuel (fuel : nat) (from to s : string) : string :=
  match fuel, s with
  | S fuel, String c rest =>
      match strip_prefix from s with
      | Some rest => to +:+ str_replace_fuel fuel from to rest
      | None => String c (str_replace_fuel fuel from to rest)
      end
  | _, _ => s
  end.
(** Each step consumes at least one byte, so the length is enough fuel. *)
Definition str_replace (from to s : string) : string :=
  str_replace_fuel (String.length s) from to s.

Definition is_localhost (s : string) : bool := str_eqb s "localhost".

Definition is_domain_like (s : string) : bool :=
  (negb (starts_with "/" s) && str_contains "/" s)
  || (negb (str_contains " " s) && negb (starts_with "." s)
      && (1 <? Z.of_nat (length (str_split "." s)))).

(** The name, and what comes after it when something does. *)
Definition split_address_name (input : string) : string * option string :=
  let '(name, rest) := split_at_first (one_of "/?#") input in
  (name, if is_empty rest then None else Some rest).

(** The same code as in the browser core. *)
Definition chrome_ipfs_path_address (input : string) : option string :=
  normalize_ipfs_path_address input.

Definition chrome_bare_ipfs_cid (input : string) : option string :=
  let '(name, rest) := split_address_name input in
  if match rest with Some suffix => has_whitespace suffix | None => false end then None
  else if is_cidv0_like name then Some ("ipfs://" +:+ input)
  else
    let lower := to_ascii_lowercase name in
    if is_cidv1_base32_like lower && all_bytes is_ascii_alphanumeric name
    then Some ("ipfs://" +:+ lower +:+ default "" rest)
    else None.

Section Shell.
Context `{UrlCrate} `{ShellUrls}.

Definition servo_url_parse (address : string) : option Url := result_ok (url_parse address).

Definition try_as_ipfs_address (request : string) : option Url :=
  match match chrome_ipfs_path_address request with
        | Some address => Some address
        | None => chrome_bare_ipfs_cid request
        end with
  | Some address => servo_url_parse address
  | None => None
  end.

Definition try_as_onion_address (request : string) : option Url :=
  if has_whitespace request then None
  else
    let '(name, rest) := split_address_name request in
    if negb (is_onion_host name) then None
    else
      let address := TOR_HTTP_SCHEME +:+ "://" +:+ to_ascii_lowercase (trim_end_matches "." name) in
      servo_url_parse
        (match rest with
         | Some rest => if starts_with "?" rest then address +:+ "/" +:+ rest else address +:+ rest
         | None => address +:+ "/"
         end).

Definition try_as_file (request : string) : option Url :=
  if starts_with "/" request then servo_url_parse ("file://" +:+ request) else None.

Definition try_as_domain (request : string) : option Url :=
  if (negb (str_contains " " request) && is_reg_domain request) || is_domain_like request
  then servo_url_parse ("https://" +:+ request) else None.

Definition try_as_search_page (request searchpage : string) : option Url :=
  if is_empty request then None else servo_url_parse (str_replace "%s" request searchpage).

(** A URL whose scheme is the name of a host, as [localhost:8080] is read. *)
Definition scheme_is_host (url : Url) : bool :=
  bool_decide (url_host_str url = None) && bool_decide (to_file_path url = None)
  && (is_localhost (url_scheme url) || is_domain_like (url_scheme url)).
Definition host_scheme_url (url : Url) : option Url :=
  servo_url_parse ("http://" +:+ url_scheme url +:+ ":" +:+ url_path url).

Definition location_bar_input_to_url (request searchpage : string) : option Url :=
  let request := trim request in
  match servo_url_parse request with
  | Some url =>
      if scheme_is_host url then host_scheme_url url
      else if str_eqb (url_scheme url) "http" || str_eqb (url_scheme url) "https" then
        match tor_url_from_http_url url with
        | Ok (Some address) => servo_url_parse address
        | Ok None => Some url
        | Err _ => try_as_search_page request searchpage
        end
      else Some url
  | None =>
      or_else (try_as_ipfs_address request)
        (or_else (try_as_onion_address request)
          (or_else (try_as_file request)
            (or_else (try_as_domain request) (try_as_search_page request searchpage))))
  end.

(** ** The command line *)

Definition parse_url_or_filename (cwd input : string) : option Url :=
  match url_parse input with
  | Ok url => Some url
  | Err e => if str_eqb e relative_url_without_base then from_file_path (path_join cwd input)
             else None
  end.

(** [unwrap] of the blank page: [None] is the panic when not even it can be parsed. *)
Definition get_default_url (url_opt : option string) (cwd : string) (exists_ : string -> bool)
    (homepage searchpage : string) : option Url :=
  let cmdline_url := match url_opt with
                     | Some url => parse_url_or_filename cwd url
                     | None => None
                     end in
  let new_url :=
    match cmdline_url with
    | Some url =>
        match url_host_str url, to_file_path url with
        | None, Some path =>
            if str_eqb (url_scheme url) "file" && exists_ path then cmdline_url else None
        | None, None => if scheme_is_host url then host_scheme_url url else None
        | Some _, _ => None
        end
    | None => None
    end in
  let new_url := match new_url, url_opt with
                 | None, Some url => location_bar_input_to_url url searchpage
                 | _, _ => new_url
                 end in
  or_else new_url
    (or_else (parse_url_or_filename cwd homepage) (servo_url_parse "about:blank")).
End Shell.

(** * Onion addresses in the location bar

    The examples of the program's tests, and what an onion address typed into the location bar
    loads: an address of the Tor transport, unless the name is followed by a port and no scheme
    comes before it. *)

(** ** Texts *)

Lemma str_contains_byte (b : ascii) s :
  str_contains (String b EmptyString) s = negb (all_bytes (fun c => negb (Ascii.eqb c b)) s).
Proof.
  induction s as [|c s IH]; [done|]. cbn [str_contains all_bytes]. unfold starts_with. cbn.
  rewrite (Ascii.eqb_sym b c), IH. by destruct (Ascii.eqb c b), s.
Qed.

Lemma str_split_several sep s :
  all_bytes (fun c => negb (Ascii.eqb c sep)) s = false ->
  1 < Z.of_nat (length (str_split sep s)).
Proof.
  induction s as [|c s IH]; [done|]. cbn [all_bytes str_split].
  destruct (Ascii.eqb c sep); cbn.
  - intros _. destruct (str_split sep s) eqn:E; [by destruct (str_split_nonempty sep s)|].
    cbn. lia.
  - intros Hs%IH. destruct (str_split sep s); cbn in *; lia.
Qed.

Section Names.
Context (name : string) (Hname : is_onion_host name = true).

Lemma onion_not_bytes (b : ascii) :
  onion_byte (byte_to_ascii_lowercase b) = false ->
  all_bytes (fun c => negb (Ascii.eqb c b)) name = true.
Proof.
  intros Hb. destruct (onion_name _ Hname) as [Hbytes _]. revert Hbytes. apply all_bytes_impl.
  intros c Hc. destruct (Ascii.eqb_spec c b) as [->|]; [congruence|done].
Qed.

Lemma onion_has_dot : all_bytes (fun c => negb (Ascii.eqb c ".")) name = false.
Proof.
  destruct (onion_name _ Hname) as [_ Hdot]. unfold to_ascii_lowercase in Hdot.
  rewrite all_bytes_map in Hdot.
  destruct (all_bytes (fun c => negb (Ascii.eqb c ".")) name) eqn:E; [|done].
  apply (all_bytes_impl _ (fun c => negb (Ascii.eqb (byte_to_ascii_lowercase c) "."))) in E;
    [congruence|].
  intros c. by destruct c as [[] [] [] [] [] [] [] []].
Qed.

Lemma onion_first_byte : starts_with "." name = false.
Proof.
  destruct (starts_with "." name) eqn:E; [|done]. exfalso.
  apply starts_with_spec in E as [s ->]. revert Hname. unfold is_onion_host.
  destruct (strip_suffix ".onion" _) as [n|] eqn:E; [|done]. apply strip_suffix_Some in E.
  intros [Hne Hl]%andb_prop. destruct (trim_end_matches_spec "." ("." +:+ s)) as [m Hm].
  destruct (trim_end_matches "." ("." +:+ s)) as [|c t].
  { destruct n as [|? n]; [done|]. by rewrite str_cons_app in E. }
  injection Hm as <- _. destruct n as [|c n]; [done|]. rewrite str_cons_app in E.
  injection E as <- _. by cbn in Hl.
Qed.

Lemma onion_domain_like : is_domain_like name = true.
Proof.
  unfold is_domain_like. rewrite !str_contains_byte, onion_first_byte.
  rewrite (onion_not_bytes " ") by done.
  rewrite (proj2 (Z.ltb_lt _ _) (str_split_several "." _ onion_has_dot)).
  by rewrite orb_true_r.
Qed.
End Names.

(** ** The location bar *)

Lemma starts_with_base p a b c d e :
  starts_with p a = true -> starts_with p (a +:+ b +:+ c +:+ d +:+ e) = true.
Proof.
  rewrite !starts_with_spec. intros [r ->]. exists (r +:+ b +:+ c +:+ d +:+ e).
  by rewrite !str_app_assoc.
Qed.

Section Shell.
Context `{UrlCrate} `{ShellUrls}.

(** The address of the Tor transport for a web URL: its host, port, path and query. *)
Definition tor_address_of (url : Url) (address : string) : Prop :=
  exists host, url_host_str url = Some host /\
    address = "tor+" +:+ url_scheme url +:+ "://" +:+ host
      +:+ match url_port url with Some port => ":" +:+ show port | None => "" end
      +:+ match url_path url with EmptyString => "/" | path => path end
      +:+ match url_query url with Some query => "?" +:+ query | None => "" end.

Lemma tor_url_address url :
  str_eqb (url_scheme url) "http" || str_eqb (url_scheme url) "https" = true ->
  is_onion_url url = true -> has_userinfo url = false ->
  exists address, tor_url_from_http_url url = Ok (Some address) /\ tor_address_of url address.
Proof.
  intros Hscheme Honion Huser. unfold tor_url_from_http_url, from_url_scheme, is_tor_http_scheme,
    is_http_scheme, is_onion_url in *.
  destruct (url_host_str url) as [host|] eqn:Hhost; [|done].
  unfold tor_address_of, build_tor_url. rewrite Hhost.
  apply orb_true_iff in Hscheme as [Hs|Hs]; apply str_eqb_eq in Hs; rewrite Hs in *; cbn;
    rewrite Honion, Huser; cbn; eexists; (split; [reflexivity|]); exists host; (split; [done|]);
    by destruct (url_path url).
Qed.

Lemma tor_url_userinfo url :
  str_eqb (url_scheme url) "http" || str_eqb (url_scheme url) "https" = true ->
  is_onion_url url = true -> has_userinfo url = true ->
  tor_url_from_http_url url = Err userinfo_error.
Proof.
  intros Hscheme Honion Huser. unfold tor_url_from_http_url, from_url_scheme, is_tor_http_scheme,
    is_http_scheme.
  apply orb_true_iff in Hscheme as [Hs|Hs]; apply str_eqb_eq in Hs; rewrite Hs; cbn;
    by rewrite Honion, Huser.
Qed.

Lemma split_name_rest name rest :
  is_onion_host name = true -> at_boundary (one_of "/?#") rest ->
  split_at_first (one_of "/?#") (name +:+ rest) = (name, rest).
Proof.
  intros Hname Hrest. apply split_at_first_app; [|done].
  destruct (onion_name _ Hname) as [Hbytes _]. revert Hbytes. apply all_bytes_impl. clear.
  intros c. destruct c as [[] [] [] [] [] [] [] []]; vm_compute; congruence.
Qed.

Lemma typed_not_ipfs name rest :
  is_onion_host name = true -> at_boundary (one_of "/?#") rest ->
  try_as_ipfs_address (name +:+ rest) = None.
Proof.
  intros Hname Hrest. unfold try_as_ipfs_address, chrome_ipfs_path_address.
  destruct (typed_no_ipfs name rest Hname Hrest) as [Hpath _]. unfold AddressLaws.typed in Hpath.
  rewrite Hpath.
  unfold chrome_bare_ipfs_cid, split_address_name. rewrite split_name_rest by done.
  assert (forall p, (forall c, p c = true -> negb (Ascii.eqb (byte_to_ascii_lowercase c) ".") = true) ->
    all_bytes p name = false) as Hnot.
  { intros p Hp. pose proof (typed_not_bytes name "" Hname p Hp) as Hb.
    by rewrite str_app_nil_r in Hb. }
  unfold is_cidv0_like. rewrite (Hnot is_base58_byte), (Hnot is_ascii_alphanumeric).
  - rewrite !andb_false_r. by repeat case_match; simplify_eq.
  - intros c. destruct c as [[] [] [] [] [] [] [] []]; vm_compute; congruence.
  - intros c. destruct c as [[] [] [] [] [] [] [] []]; vm_compute; congruence.
Qed.

(** C34: (safety) An onion address typed into the location bar is loaded through Tor. Text that is
    an [http] or [https] URL whose host is an onion name loads the address of the Tor transport
    with the same host, port, path and query, or a search when it has user information. Text
    that is no URL but starts with an onion name, up to a path, a query or a fragment, and has no
    white space, loads the [tor+http] address of that name and what follows it. *)
Theorem location_bar_onion request searchpage :
  let loaded := location_bar_input_to_url request searchpage in
  let text := trim request in
  match url_parse text with
  | Ok url => forall host,
      In (url_scheme url) ["http"; "https"] -> url_host_str url = Some host ->
      onion_hostname host ->
      if has_userinfo url then loaded = try_as_search_page text searchpage
      else exists address, tor_address_of url address /\ loaded = result_ok (url_parse address)
  | Err _ => forall name rest tor_url,
      text = name +:+ rest -> onion_hostname name ->
      (rest = "" \/ exists c after, rest = String c after /\ In c ["/"; "?"; "#"]%char) ->
      has_whitespace text = false ->
      url_parse ("tor+http://" +:+ to_ascii_lowercase (trim_end_matches "." name)
                 +:+ match rest with
                     | "" => "/"
                     | String "?" _ => "/" +:+ rest
                     | _ => rest
                     end) = Ok tor_url ->
      loaded = Some tor_url
  end.
Proof.
  intros loaded text. subst loaded. unfold location_bar_input_to_url. fold text.
  change (servo_url_parse text) with (result_ok (url_parse text)).
  destruct (url_parse text) as [url|e]; cbn [result_ok].
  - intros host Hs Hhost Honion%is_onion_host_spec.
    assert (str_eqb (url_scheme url) "http" || str_eqb (url_scheme url) "https" = true) as Hscheme
      by by destruct Hs as [<-|[<-|[]]].
    assert (is_onion_url url = true) as Hurl by (unfold is_onion_url; by rewrite Hhost).
    assert (scheme_is_host url = false) as -> by (unfold scheme_is_host; by rewrite Hhost).
    rewrite Hscheme. destruct (has_userinfo url) eqn:Huser.
    + by rewrite tor_url_userinfo.
    + destruct (tor_url_address url Hscheme Hurl Huser) as (address & -> & Htor). by exists address.
  - intros name rest tor_url Htext Hname%is_onion_host_spec Hrest Hws Htor.
    assert (at_boundary (one_of "/?#") rest) as Hboundary.
    { destruct Hrest as [->|(c & after & -> & Hc)]; [done|].
      by destruct Hc as [<-|[<-|[<-|[]]]]. }
    unfold or_else. rewrite Htext in *. rewrite typed_not_ipfs by done.
    unfold try_as_onion_address, split_address_name. rewrite Hws, split_name_rest, Hname by done.
    cbn [negb]. unfold servo_url_parse.
    assert (forall x, TOR_HTTP_SCHEME +:+ "://" +:+ x = "tor+http://" +:+ x) as -> by done.
    destruct Hrest as [->|(c & after & -> & Hc)]; cbn [is_empty] in *.
    { by rewrite str_app_assoc, Htor. }
    by destruct Hc as [<-|[<-|[<-|[]]]]; cbn in Htor |- *; rewrite !str_app_assoc, Htor.
Qed.
End Shell.

(** ** Witnesses *)

(** The reference parser, with the URLs that have no authority, like [name:rest]. *)
Definition opaque_url (scheme path : string) : Url := {|
  url_as_str := scheme +:+ ":" +:+ path; url_without_fragment := scheme +:+ ":" +:+ path;
  url_scheme := scheme; url_username := ""; url_password := None; url_host_str := None;
  url_port := None; url_path := path; url_query := None; url_fragment := None;
  url_path_segments := None |}.
Definition is_scheme_byte (c : ascii) : bool := is_ascii_alphanumeric c || one_of "+-." c.

#[local] Instance shell_crate : UrlCrate := {|
  url_parse input :=
    match reference_parse input, split_once ":" input with
    | Ok url, _ => Ok url
    | Err e, Some (scheme, path) =>
        if all_bytes is_scheme_byte scheme
        then Ok (opaque_url (to_ascii_lowercase scheme) path) else Err e
    | Err e, None => Err e
    end;
  url_join := url_join (UrlCrate := reference_crate);
  url_set_path := url_set_path (UrlCrate := reference_crate);
  url_clear_query := url_clear_query (UrlCrate := reference_crate);
  url_append_pairs := url_append_pairs (UrlCrate := reference_crate)
|}.
#[local] Instance shell_urls : ShellUrls := {|
  to_file_path _ := None; from_file_path _ := None; is_reg_domain _ := false
|}.

Definition typed_into_bar (text : string) : option string :=
  option_map url_as_str
    (location_bar_input_to_url text "https://duckduckgo.com/html/?q=%s").

(** The program's tests, and the two ways out of Tor: a name with a port is read as a URL whose
    scheme is the name, and a name after user information as a domain. *)
Example location_bar_tests :
  map typed_into_bar
    ["example.onion"; "Example.Onion/docs?a=1"; "http://Example.Onion:8080/docs#client";
     "https://example.onion/secure"; "http://user@example.onion/"; "/ipfs/bafybeigdyrzt/index.html";
     "ipns/example.net/docs"; "BAFYBEIGDYRZT5SFP7UDM7HU76UH7Y26NF3EFUYLQABF3OCLGTQY55FBZDI";
     "leah.chromebooks.lol"; ".leah"; "foo/bar"]
  = map Some
    ["tor+http://example.onion/"; "tor+http://example.onion/docs?a=1";
     "tor+http://example.onion:8080/docs"; "tor+https://example.onion/secure";
     "https://duckduckgo.com/html/?q=http://user@example.onion/";
     "ipfs://bafybeigdyrzt/index.html"; "ipns://example.net/docs";
     "ipfs://bafybeigdyrzt5sfp7udm7hu76uh7y26nf3efuylqabf3oclgtqy55fbzdi";
     "https://leah.chromebooks.lol/"; "https://duckduckgo.com/html/?q=.leah"; "https://foo/bar"]
  /\ map typed_into_bar ["example.onion:8080/docs"; "user@example.onion"]
     = map Some ["http://example.onion:8080/docs"; "https://user@example.onion/"].
Proof. split; vm_compute; reflexivity. Qed.

Lemma location_bar_onion_witness :
  typed_into_bar "Example.onion/docs" = Some "tor+http://example.onion/docs" /\
  typed_into_bar "https://example.onion/secure" = Some "tor+https://example.onion/secure".
Proof.
  set (searchpage := "https://duckduckgo.com/html/?q=%s"). unfold typed_into_bar. split.
  - pose proof (location_bar_onion "Example.onion/docs" searchpage) as H. cbv zeta in H.
    assert (url_parse (trim "Example.onion/docs") = Err "relative URL without a base") as Hp
      by (vm_compute; reflexivity).
    rewrite Hp in H. fold searchpage.
    destruct (url_parse "tor+http://example.onion/docs") as [url|e] eqn:Hurl; [|by vm_compute in Hurl].
    rewrite (H "Example.onion" "/docs" url).
    + revert Hurl. vm_compute. by intros [= <-].
    + vm_compute. reflexivity.
    + apply is_onion_host_spec. vm_compute. reflexivity.
    + right. exists "/"%char, "docs". split; [reflexivity|by left].
    + vm_compute. reflexivity.
    + exact Hurl.
  - pose proof (location_bar_onion "https://example.onion/secure" searchpage) as H. cbv zeta in H.
    destruct (url_parse (trim "https://example.onion/secure")) as [url|e] eqn:Hp;
      [|by vm_compute in Hp].
    assert (url_scheme url = "https" /\ url_host_str url = Some "example.onion" /\
            has_userinfo url = false /\ url_port url = None /\ url_path url = "/secure" /\
            url_query url = None) as (Hs & Hhost & Huser & Hport & Hpath & Hquery).
    { revert Hp. vm_compute. by intros [= <-]. }
    specialize (H "example.onion"). rewrite Hs, Huser in H.
    destruct H as (address & (host & Hh & ->) & Hl).
    + right. by left.
    + exact Hhost.
    + apply is_onion_host_spec. vm_compute. reflexivity.
    + rewrite Hhost in Hh. injection Hh as <-. rewrite Hs, Hport, Hpath, Hquery in Hl.
      fold searchpage. rewrite Hl. vm_compute. reflexivity.
Defined.
