(* ===== verification/ShellResponses.v ===== *)
(** * Responses of the shell's protocol handlers

    JSON values, the responses of a protocol handler, and
    [crates/chrome/src/desktop/protocols/broadweb.rs]: the handler of the broadweb addresses,
    which asks the default daemon and answers its page, its download or an error page.

    A JSON value is what [serde_json] prints; the text is not modelled. *)
From Stdlib Require Import SpecFloat.
From S2P Require Import Prelude RustStr Broadwebd Http Downloads Daemon Rendering.

(** ** JSON *)

Inductive Json :=
  | JNull
  | JBool (b : bool)
  | JInteger (z : Z)
  | JFloat (x : spec_float)
  | JString (s : string)
  | JArray (l : list Json)
  | JObject (fields : list (string * Json)).

Definition json_option {A} (f : A -> Json) (o : option A) : Json :=
  match o with Some a => f a | None => JNull end.
Definition json_text (o : option string) : Json := json_option JString o.

(** [Map::get] of an object. *)
Definition json_field (name : string) (json : Json) : option Json :=
  match json with
  | JObject fields => option_map snd (list_find_bool (fun '(n, _) => str_eqb n name) fields)
  | _ => None
  end.

(** [Map::insert] of a name the object does not have. *)
Definition json_insert (name : string) (value : Json) (json : Json) : Json :=
  match json with
  | JObject fields => JObject (fields ++ [(name, value)])
  | _ => json
  end.

(** ** Responses *)

Inductive HttpStatus := StatusRaw (code : Z) | StatusError.

Inductive ResponseBody :=
  | JsonBody (json : Json)
  | TextBody (text : string).

Record Response := {
  rp_status : HttpStatus;
  rp_content_type : option string;
  rp_content_disposition : option string;
  rp_body : ResponseBody
}.

(** What a handler answers: a response, a file of the resource directory, which is read and
    sent by the resource handler, or a network error. *)
Inductive Answer :=
  | Respond (response : Response)
  | ServeResource (path : string)
  | NetworkError (message : string).

Definition http_status (status_code : Z) : HttpStatus :=
  if (100 <=? status_code) && (status_code <=? 599) then StatusRaw status_code else StatusError.

Definition CONTENT_TYPE_HTML : string := "text/html".
Definition CONTENT_TYPE_JSON : string := "application/json".

(** [HeaderValue::from_str]: visible ASCII and the tab. *)
Definition is_visible_ascii (c : ascii) : bool :=
  in_range " " "~" c || Ascii.eqb c (byte_of 9).
Definition header_value (text : string) : option string :=
  if all_bytes is_visible_ascii text then Some text else None.

Definition html_response (status_code : Z) (html : string) : Response :=
  {| rp_status := http_status status_code; rp_content_type := Some CONTENT_TYPE_HTML;
     rp_content_disposition := None; rp_body := TextBody html |}.

(** ** The broadweb pages *)

Definition html_head : string :=
  "<!doctype html><html><head><meta charset=" +:+ quote +:+ "utf-8" +:+ quote +:+ ">".
Definition downloads_link : string :=
  "<p><a href=" +:+ quote +:+ "slate://downloads" +:+ quote +:+ ">Open Downloads</a></p>".

Definition broadweb_fetch_error_html (address error : string) : string :=
  html_head +:+ "<title>Broadweb Fetch Error</title></head>"
  +:+ "<body><h1>Broadweb Fetch Error</h1><p><code>" +:+ escape_html_text address
  +:+ "</code></p><pre>" +:+ escape_html_text error +:+ "</pre></body></html>".

Definition broadweb_response_error_html (status_code : Z) (response : HttpFetchResponse) : string :=
  html_head +:+ "<title>Broadweb Response Error</title></head>"
  +:+ "<body><h1>Broadweb Response Error</h1><p>Status: " +:+ show status_code
  +:+ "</p><p>Address: <code>" +:+ escape_html_text (hr_final_url response) +:+ "</code></p><pre>"
  +:+ escape_html_text (body_text_lossy response) +:+ "</pre></body></html>".

Definition broadweb_download_ready_html (response : HttpFetchResponse) : string :=
  match hr_download response with
  | None =>
      html_head +:+ "<title>Download Ready</title></head><body><h1>Download Ready</h1>"
      +:+ "<p>Slate received a downloadable response from <code>"
      +:+ escape_html_text (hr_final_url response) +:+ "</code>.</p>" +:+ downloads_link
      +:+ "</body></html>"
  | Some download =>
      html_head +:+ "<title>Download Saved</title></head><body><h1>Download Saved</h1>"
      +:+ "<p><strong>" +:+ escape_html_text (dr_filename download) +:+ "</strong></p><p><code>"
      +:+ escape_html_text (dr_path download) +:+ "</code></p><p>"
      +:+ show (dr_size_bytes download) +:+ " bytes</p>" +:+ downloads_link +:+ "</body></html>"
  end.

(** An error page or a download that was navigated to is answered with a page about it. *)
Definition broadweb_fetch_response (fetch_response : HttpFetchResponse) (is_navigation : bool) :
    Response :=
  let content_type := hr_content_type fetch_response ≫= header_value in
  let page html := {| rp_status := http_status (hr_status_code fetch_response);
                      rp_content_type := Some CONTENT_TYPE_HTML; rp_content_disposition := None;
                      rp_body := TextBody html |} in
  let body := {| rp_status := http_status (hr_status_code fetch_response);
                 rp_content_type := content_type; rp_content_disposition := None;
                 rp_body := TextBody (hr_body fetch_response) |} in
  if is_navigation then
    match hr_disposition fetch_response with
    | ErrorPage status_code => page (broadweb_response_error_html status_code fetch_response)
    | Download _ => page (broadweb_download_ready_html fetch_response)
    | RenderHtml => body
    end
  else body.

Definition broadweb_error_response (address : string) (error : BroadwebdError) : Response :=
  html_response 502 (broadweb_fetch_error_html address (show_broadwebd_error error)).

(** ** The default daemon *)

Section DefaultSession.
Context {W : Type} `{UrlCrate, DownloadIndexJson}.
(** [BroadwebDaemon::start_default_session]. *)
Context (start_default_session : state_result (FileSystem * W) BroadwebdError (BroadwebDaemon W)).

(** The daemon of the thread, started by the first fetch. *)
Definition fetch_with_default_broadwebd (request : HttpFetchRequest) :
    state_result (option (BroadwebDaemon W) * (FileSystem * W)) BroadwebdError
      HttpFetchResponse := fun s =>
  match s.1 with
  | Some daemon =>
      let '(w, r) := daemon_fetch_http daemon request s.2 in ((Some daemon, w), r)
  | None =>
      match start_default_session s.2 with
      | (w, Err e) => ((None, w), Err e)
      | (w, Ok daemon) =>
          let '(w, r) := daemon_fetch_http daemon request w in ((Some daemon, w), r)
      end
  end.

(** [BroadwebProtocolHandler::load]. *)
Definition broadweb_load (address : string) (is_navigation : bool)
    (s : option (BroadwebDaemon W) * (FileSystem * W)) :
    (option (BroadwebDaemon W) * (FileSystem * W)) * Response :=
  let fetch_request := default_profile_request address in
  let fetch_request := if is_navigation then fetch_request else for_subresource fetch_request in
  match fetch_with_default_broadwebd fetch_request s with
  | (s, Ok fetch_response) => (s, broadweb_fetch_response fetch_response is_navigation)
  | (s, Err error) => (s, broadweb_error_response address error)
  end.
End DefaultSession.
