(* ===== verification/ChromeSettings.v ===== *)
(** * The settings of the browser shell

    Models the settings part of [crates/chrome/src/desktop/protocols/slate.rs]: the zoom of
    the shell's elements, kept as a percentage in an atomic, its texts in the profile
    database and in the query of the settings page, and the settings another device changed;
    [crates/chrome/src/desktop/settings_watcher.rs], which polls those; and the [f32]
    settings of [crates/storage/src/lib.rs].

    A number [f32] is a [spec_float] of the Standard Library with the precision and the
    exponents of IEEE 754 binary32; the operations the program uses are modelled with
    [clamp], [round], the saturating conversion to an integer, and the texts of
    [str::parse::<f32>] and of the format [{:.2}].

    The settings in use are a state of the process, passed explicitly.  The warnings that are
    logged are not modelled. *)
From Stdlib Require Import SpecFloat.
From S2P Require Import Prelude RustStr Http AppViews Database SyncStore SyncCursor.
From S2P Require Import KeyBindings.

(** ** 32-bit floating point numbers *)

Definition f32 : Type := spec_float.
Definition f32_mul : f32 -> f32 -> f32 := SFmul 24 128.
Definition f32_div : f32 -> f32 -> f32 := SFdiv 24 128.
(** [z as f32]. *)
Definition f32_of_Z (z : Z) : f32 := binary_normalize 24 128 z 0 false.

(** The number nearest to the decimal [m * 10^e]. *)
Definition f32_of_decimal (negative : bool) (m e : Z) : f32 :=
  match m with
  | Zpos p =>
      if 0 <=? e then binary_normalize 24 128 ((if negative then -1 else 1) * m * 10 ^ e) 0 negative
      else match 10 ^ (- e) with
           | Zpos q => SFdiv 24 128 (S754_finite negative p 0) (S754_finite false q 0)
           | _ => S754_zero negative
           end
  | _ => S754_zero negative
  end.

Definition f32_is_finite (x : f32) : bool :=
  match x with S754_finite _ _ _ | S754_zero _ => true | _ => false end.
Definition f32_ltb (x y : f32) : bool := SFltb x y.

(** [f32::clamp]: NaN stays NaN. *)
Definition f32_clamp (x lo hi : f32) : f32 :=
  if f32_ltb x lo then lo else if f32_ltb hi x then hi else x.

(** The magnitude [m * 2^e] rounded to an integer, halves upwards. *)
Definition round_half_up (m : positive) (e : Z) : Z :=
  if 0 <=? e then Zpos m * 2 ^ e else (Zpos m + 2 ^ (- e - 1)) / 2 ^ (- e).

(** [x.round() as u32]: [round] rounds halves away from zero; the conversion saturates, and
    is 0 for NaN. *)
Definition f32_round_to_u32 (x : f32) : Z :=
  match x with
  | S754_finite false m e => Z.min u32_max (round_half_up m e)
  | S754_infinity false => u32_max
  | _ => 0
  end.

(** *** Texts *)

Definition digits_value (digits : string) : Z :=
  fold_left (fun acc c => 10 * acc + default 0 (to_digit 10 c)) (list_ascii_of_string digits) 0.

(** A run of digits, and what follows it. *)
Definition take_digits (s : string) : string * string :=
  split_at_first (fun c => negb (is_ascii_digit c)) s.

Definition split_sign (s : string) : bool * string :=
  match s with
  | String "-" s => (true, s)
  | String "+" s => (false, s)
  | _ => (false, s)
  end.

(** [Exp ::= ('e' | 'E') Sign? Digit+], or nothing. *)
Definition parse_exponent (s : string) : option Z :=
  match s with
  | EmptyString => Some 0
  | String c s =>
      if one_of "eE" c then
        let '(negative, s) := split_sign s in
        let '(digits, rest) := take_digits s in
        if is_empty digits || negb (is_empty rest) then None
        else Some (if negative then - digits_value digits else digits_value digits)
      else None
  end.

(** [Number ::= (Digit+ | Digit+ '.' Digit* | Digit* '.' Digit+) Exp?]. *)
Definition parse_number (negative : bool) (s : string) : option f32 :=
  let '(whole, rest) := take_digits s in
  let '(fraction, rest) := match rest with
                           | String "." rest => take_digits rest
                           | _ => ("", rest)
                           end in
  if is_empty (whole +:+ fraction) then None
  else
    match parse_exponent rest with
    | None => None
    | Some exponent =>
        Some (f32_of_decimal negative (digits_value (whole +:+ fraction))
                (exponent - str_len fraction))
    end.

(** [value.parse::<f32>().ok()]. *)
Definition parse_f32 (s : string) : option f32 :=
  let '(negative, number) := split_sign s in
  if eq_ignore_ascii_case number "inf" || eq_ignore_ascii_case number "infinity"
  then Some (S754_infinity negative)
  else if eq_ignore_ascii_case number "nan" then Some S754_nan
  else parse_number negative number.

(** [m * 2^e] in hundredths, rounded to the nearest and halves to the even one. *)
Definition hundredths (m : positive) (e : Z) : Z :=
  if 0 <=? e then 100 * Zpos m * 2 ^ e
  else
    let n := 100 * Zpos m in
    let d := 2 ^ (- e) in
    let q := n / d in
    let r := n mod d in
    if 2 * r <? d then q else if d <? 2 * r then q + 1 else if Z.even q then q else q + 1.

Definition show_hundredths (negative : bool) (n : Z) : string :=
  (if negative then "-" else "") +:+ show (n / 100) +:+ "."
  +:+ show (n mod 100 / 10) +:+ show (n mod 10).

(** [format!("{x:.2}")]. *)
Definition format_f32_2 (x : f32) : string :=
  match x with
  | S754_nan => "NaN"
  | S754_infinity negative => if negative then "-inf" else "inf"
  | S754_zero negative => show_hundredths negative 0
  | S754_finite negative m e => show_hundredths negative (hundredths m e)
  end.

Example f32_texts :
  parse_f32 "0.9" = Some (S754_finite false 15099494 (-24)) /\
  map (option_map format_f32_2 ∘ parse_f32)
    ["0.9"; "1.15"; "+.5"; "5."; "1e1"; "-1.005"; "12.345E-1"; "0"; "inf"; "-Infinity"; "nan"]
  = map Some ["0.90"; "1.15"; "0.50"; "5.00"; "10.00"; "-1.00"; "1.23"; "0.00"; "inf"; "-inf"; "NaN"]
  /\ map parse_f32 [""; "."; "-"; "1.2.3"; "e5"; "1e"; " 1"; "0x10"]
     = [None; None; None; None; None; None; None; None].
Proof. split_and!; vm_compute; reflexivity. Qed.

(** ** Settings that are numbers *)

Section FloatSettings.
Context (local_sync_device_id : string).

Definition get_setting_f32 (key : string) (db : ProfileDb) : option f32 :=
  get_setting_text key db ≫= parse_f32.

Definition get_setting_f32_or_default (key : string) (value : f32) (db : ProfileDb) : f32 :=
  default value (get_setting_f32 key db).

Definition set_setting_f32 (key : string) (value : f32) (now : Z) : storage unit :=
  set_setting_text local_sync_device_id key (format_f32_2 value) now.

Definition ensure_setting_f32 (key : string) (value : f32) (now : Z) : storage f32 :=
  let* stored := ensure_setting_text local_sync_device_id key (format_f32_2 value) now in
  sr_ret (default value (parse_f32 stored)).

Definition ensure_setting_f32_or_default (key : string) (value : f32) (now : Z)
    (db : ProfileDb) : ProfileDb * f32 :=
  match ensure_setting_f32 key value now db with
  | (db, Ok stored) => (db, stored)
  | (db, Err _) => (db, value)
  end.
End FloatSettings.

(** ** The zoom *)

Definition CHROME_ELEMENT_ZOOM_SETTING_DEFAULT : f32 := f32_of_decimal false 9 (-1).
Definition CHROME_ELEMENT_ZOOM_SETTING_MIN : f32 := f32_of_decimal false 75 (-2).
Definition CHROME_ELEMENT_ZOOM_SETTING_MAX : f32 := f32_of_decimal false 115 (-2).
Definition CHROME_ELEMENT_ZOOM_PERCENT_DEFAULT : Z := 90.
Definition CHROME_ELEMENT_ZOOM_PERCENT_MIN : Z := 75.
Definition CHROME_ELEMENT_ZOOM_PERCENT_MAX : Z := 115.
Definition CHROME_ELEMENT_ZOOM_SETTING_KEY : string := "chrome.zoom".

Definition clamp_chrome_element_zoom_setting (zoom : f32) : f32 :=
  if f32_is_finite zoom
  then f32_clamp zoom CHROME_ELEMENT_ZOOM_SETTING_MIN CHROME_ELEMENT_ZOOM_SETTING_MAX
  else CHROME_ELEMENT_ZOOM_SETTING_DEFAULT.

(** [Ord::clamp] on [u32]. *)
Definition clamp_percent (percent : Z) : Z :=
  Z.max CHROME_ELEMENT_ZOOM_PERCENT_MIN (Z.min CHROME_ELEMENT_ZOOM_PERCENT_MAX percent).

Definition chrome_element_zoom_percent (zoom : f32) : Z :=
  clamp_percent (f32_round_to_u32 (f32_mul (clamp_chrome_element_zoom_setting zoom)
                                     (f32_of_Z 100))).

Definition chrome_element_zoom_from_percent (percent : Z) : f32 :=
  f32_div (f32_of_Z (clamp_percent percent)) (f32_of_Z 100).

(** ** The settings in use *)

Record ChromeSettings := {
  cs_zoom_percent : Z;
  cs_key_bindings : SlateKeyBindings
}.

Definition current_chrome_element_zoom_setting (settings : ChromeSettings) : f32 :=
  chrome_element_zoom_from_percent (cs_zoom_percent settings).

(** The new zoom is answered as it is kept. *)
Definition set_current_chrome_element_zoom_setting (zoom : f32) (settings : ChromeSettings) :
    ChromeSettings * f32 :=
  let percent := chrome_element_zoom_percent zoom in
  ({| cs_zoom_percent := percent; cs_key_bindings := cs_key_bindings settings |},
   chrome_element_zoom_from_percent percent).

Definition set_current_key_bindings (bindings : SlateKeyBindings) (settings : ChromeSettings) :
    ChromeSettings :=
  {| cs_zoom_percent := cs_zoom_percent settings; cs_key_bindings := bindings |}.

Section Shell.
Context (macos : bool) (local_sync_device_id : string).

Definition initial_chrome_settings : ChromeSettings :=
  {| cs_zoom_percent := CHROME_ELEMENT_ZOOM_PERCENT_DEFAULT;
     cs_key_bindings := default_key_bindings macos |}.

Definition initialize_chrome_settings_from_database (now : Z) (settings : ChromeSettings)
    (db : ProfileDb) : ProfileDb * ChromeSettings :=
  let '(db, bindings) :=
    initialize_key_bindings_from_database macos local_sync_device_id now db in
  let settings := set_current_key_bindings bindings settings in
  let '(db, zoom) := ensure_setting_f32 local_sync_device_id CHROME_ELEMENT_ZOOM_SETTING_KEY
                       CHROME_ELEMENT_ZOOM_SETTING_DEFAULT now db in
  let zoom := match zoom with Ok zoom => zoom | Err _ => CHROME_ELEMENT_ZOOM_SETTING_DEFAULT end in
  (db, (set_current_chrome_element_zoom_setting zoom settings).1).

(** ** Settings of another device *)

Definition apply_synced_chrome_setting_event (event : SyncSettingTextEvent)
    (settings : ChromeSettings) : ChromeSettings :=
  let change := ev_change event in
  if negb (str_eqb (ch_profile change) DEFAULT_PROFILE_ID)
     || negb (str_eqb (ch_domain change) SYNC_DOMAIN_SETTINGS)
  then settings
  else if str_eqb (ch_entity_key change) CHROME_ELEMENT_ZOOM_SETTING_KEY then
    match parse_f32 (ch_payload change) with
    | Some zoom => (set_current_chrome_element_zoom_setting zoom settings).1
    | None => settings
    end
  else
    set_current_key_bindings
      (apply_key_binding_setting macos (ch_entity_key change) (ch_payload change)
         (cs_key_bindings settings)).1 settings.

Fixpoint apply_synced_chrome_settings_events (after_revision : Z)
    (events : list SyncSettingTextEvent) (settings : ChromeSettings) : ChromeSettings * Z :=
  match events with
  | [] => (settings, after_revision)
  | event :: events =>
      apply_synced_chrome_settings_events (Z.max after_revision (rv_revision (ev_revision event)))
        events (apply_synced_chrome_setting_event event settings)
  end.

Definition apply_synced_chrome_settings_from_database (after_revision limit : Z)
    (settings : ChromeSettings) (db : ProfileDb) : ChromeSettings * Z :=
  apply_synced_chrome_settings_events after_revision
    (sync_setting_text_events_after_for_domain DEFAULT_PROFILE_ID SYNC_DOMAIN_SETTINGS
       after_revision limit db) settings.

(** ** The watcher *)

Definition DEFAULT_SETTINGS_EVENT_BATCH_LIMIT : Z := 64.

Record SyncedChromeSettingsPoll := {
  sp_previous_revision : Z;
  sp_latest_revision : Z
}.
Definition synced_poll_advanced (poll : SyncedChromeSettingsPoll) : bool :=
  sp_previous_revision poll <? sp_latest_revision poll.

(** The profile database and the settings in use. *)
Definition shell (A : Type) : Type := state_result (ProfileDb * ChromeSettings) StorageError A.
Definition on_profile {A} (m : storage A) : shell A := fun s =>
  let '(db, r) := m s.1 in ((db, s.2), r).
Definition on_settings (f : ChromeSettings -> ChromeSettings) : shell unit := fun s =>
  ((s.1, f s.2), Ok tt).

Definition try_with_batch_limit (batch_limit now : Z) : shell AppSyncDomainWatcher := fun s =>
  let '(db, settings) := initialize_chrome_settings_from_database now s.2 s.1 in
  on_profile (watcher_new DEFAULT_PROFILE_ID SYNC_DOMAIN_SETTINGS batch_limit now) (db, settings).

Definition synced_settings_watcher_new (now : Z) : shell AppSyncDomainWatcher :=
  try_with_batch_limit DEFAULT_SETTINGS_EVENT_BATCH_LIMIT now.

Definition synced_settings_current_revision (watcher : AppSyncDomainWatcher) (db : ProfileDb) : Z :=
  match (watcher_current_revision watcher db).2 with Ok revision => revision | Err _ => 0 end.

(** The events are applied before they are acknowledged; applying them does not fail. *)
Definition synced_settings_poll_once (watcher : AppSyncDomainWatcher) (now : Z) :
    shell SyncedChromeSettingsPoll :=
  let* poll := on_profile (watcher_poll_once watcher now) in
  do* on_settings (fun settings =>
    (apply_synced_chrome_settings_events (poll_previous_revision poll) (poll_events poll)
       settings).1) in
  let* cursor := on_profile (watcher_acknowledge poll now) in
  sr_ret {| sp_previous_revision := poll_previous_revision poll;
            sp_latest_revision := cu_latest_revision cursor |}.
End Shell.

Example zoom_limits :
  map (fun text => option_map chrome_element_zoom_percent (parse_f32 text))
    ["0.9"; "0.2"; "7"; "nan"; "-inf"; "1.004"; "1.0051"; "1e-40"; "x"]
  = [Some 90; Some 75; Some 115; Some 90; Some 90; Some 100; Some 101; Some 75; None].
Proof. vm_compute. reflexivity. Qed.
