(* ===== verification/ProfileSyncPages.v ===== *)
(** * The profile-sync requests of the settings page

    Models the profile-sync part of [crates/chrome/src/desktop/protocols/slate.rs]: the state
    of the page (the loaded secret export, the handoff bundle, the last results), what it
    shows as JSON, and the handlers that create, import and export the enrollment key, make
    and apply a handoff bundle, add the local provider and run the local cycles.

    A handler is one step on the state of the shell: the lock of the page's state is held and
    released several times by some of them, and the interleaving of two requests is not
    modelled.  An early [return] of a response is an error of the monad.  The cycles a request
    runs are those of the feature [local-preview-fixtures], an argument of the handlers. *)
From S2P Require Import Prelude RustStr Broadwebd Http Downloads Daemon AppViews Database AppData.
From S2P Require Import SyncObjects SyncStore Membership ProfileTables SyncSecrets SyncErrors.
From S2P Require Import Endpoints Readiness KeyBindings ChromeSettings ShellResponses.

(** ** URLs *)

(** A page is named by the host, or by the path. *)
Definition names_page (names : list string) (url : Url) : bool :=
  str_eqb (url_scheme url) "slate"
  && (existsb (fun name => bool_decide (url_host_str url = Some name)) names
      || existsb (str_eqb (drop_leading "/" (url_path url))) names).
Definition names_action (host action : string) (url : Url) : bool :=
  str_eqb (url_scheme url) "slate" && bool_decide (url_host_str url = Some host)
  && str_eqb (drop_leading "/" (url_path url)) action.

Definition is_slate_blank_url : Url -> bool := names_page ["blank"].
Definition is_slate_home_url : Url -> bool := names_page ["home"].
Definition is_slate_web_url : Url -> bool := names_page ["web"].
Definition is_slate_downloads_url : Url -> bool := names_page ["downloads"].
Definition is_slate_calendar_url : Url -> bool := names_page ["calendar"].
Definition is_slate_chat_url : Url -> bool := names_page ["chat"; "messages"].
Definition is_slate_contacts_url : Url -> bool := names_page ["contacts"].
Definition is_slate_files_url : Url -> bool := names_page ["files"].
Definition is_slate_settings_url : Url -> bool := names_page ["settings"].
Definition is_slate_downloads_state_url : Url -> bool := names_action "downloads" "state".
Definition is_slate_download_request_url : Url -> bool := names_page ["download"].
Definition is_slate_settings_state_url : Url -> bool := names_action "settings" "state".
Definition is_slate_settings_preview_url : Url -> bool := names_action "settings" "preview".
Definition is_slate_settings_save_url : Url -> bool := names_action "settings" "save".
Definition is_slate_settings_apply_url : Url -> bool := names_action "settings" "apply".
Definition is_slate_settings_profile_sync_state_url : Url -> bool :=
  names_action "settings" "profile-sync/state".
Definition is_slate_settings_profile_sync_create_url : Url -> bool :=
  names_action "settings" "profile-sync/create".
Definition is_slate_settings_profile_sync_check_url : Url -> bool :=
  names_action "settings" "profile-sync/check".
Definition is_slate_settings_profile_sync_local_provider_url : Url -> bool :=
  names_action "settings" "profile-sync/local-provider".
Definition is_slate_settings_profile_sync_key_export_url : Url -> bool :=
  names_action "settings" "profile-sync/key/export".
Definition is_slate_settings_profile_sync_key_import_url : Url -> bool :=
  names_action "settings" "profile-sync/key/import".
Definition is_slate_settings_profile_sync_handoff_create_url : Url -> bool :=
  names_action "settings" "profile-sync/handoff/create".
Definition is_slate_settings_profile_sync_handoff_import_url : Url -> bool :=
  names_action "settings" "profile-sync/handoff/import".
Definition is_slate_settings_profile_sync_run_current_url : Url -> bool :=
  names_action "settings" "profile-sync/run-current".
Definition is_slate_settings_profile_sync_run_local_url : Url -> bool :=
  names_action "settings" "profile-sync/run-local".
Definition is_slate_settings_profile_sync_run_local_two_device_url : Url -> bool :=
  names_action "settings" "profile-sync/run-local-two-device".

(** ** File names *)

Definition filename_token_byte (c : ascii) : bool := is_ascii_alphanumeric c || one_of "-_" c.

(** Each character that is not kept becomes one dash: the continuation bytes of UTF-8 are
    dropped. *)
Definition is_continuation_byte (c : ascii) : bool := in_range (byte_of 128) (byte_of 191) c.
Fixpoint dash_token (s : string) : string :=
  match s with
  | EmptyString => EmptyString
  | String c s =>
      if is_continuation_byte c then dash_token s
      else String (if filename_token_byte c then c else "-"%char) (dash_token s)
  end.
Definition sanitized_profile_sync_filename_token (value : string) : string :=
  let token := trim_matches "-" (dash_token value) in
  if is_empty token then "default" else token.

Definition profile_sync_key_filename (profile : string) : string :=
  "slate-profile-enrollment-key-" +:+ sanitized_profile_sync_filename_token profile +:+ ".json".
Definition profile_sync_handoff_filename (target_device_id : string) : string :=
  "slate-profile-enrollment-" +:+ target_device_id +:+ ".json".

(** ** Readiness as JSON *)

Definition profile_sync_app_domain_json (domain : AppSyncDomainRecord) : Json := JObject
  [("domain", JString (ad_domain domain));
   ("schema_version", JInteger (ad_schema_version domain));
   ("enabled", JBool (ad_enabled domain));
   ("privacy_classification", JString (ad_privacy_classification domain));
   ("sync_content", JBool (ad_sync_content domain))].
Definition profile_sync_app_domains_json (domains : list AppSyncDomainRecord) : Json :=
  JArray (map profile_sync_app_domain_json domains).

Definition profile_sync_app_domain_readiness_record_json (domain : AppSyncDomainReadinessRecord) :
    Json := JObject
  [("domain", JString (adr_domain domain));
   ("latest_revision", JInteger (adr_latest_revision domain))].
Definition profile_sync_app_domain_readiness_json (domains : list AppSyncDomainReadinessRecord) :
    Json := JArray (map profile_sync_app_domain_readiness_record_json domains).

Definition profile_sync_storage_provider_json (provider : StorageProviderRecord) : Json := JObject
  [("provider_id", JString (spr_provider_id provider));
   ("provider_kind", JString (spr_provider_kind provider));
   ("display_name", JString (spr_display_name provider));
   ("endpoint_ref", json_text (spr_endpoint_ref provider));
   ("enabled", JBool (spr_enabled provider));
   ("discovery", JBool (spr_discovery provider));
   ("connectivity", JBool (spr_connectivity provider));
   ("object_transfer", JBool (spr_object_transfer provider));
   ("availability", JBool (spr_availability provider));
   ("mutable_roots", JBool (spr_mutable_roots provider));
   ("quota_bytes", json_option JInteger (spr_quota_bytes provider));
   ("max_retained_objects", json_option JInteger (spr_max_retained_objects provider));
   ("pinning_policy", json_text (spr_pinning_policy provider))].
Definition profile_sync_storage_providers_json (providers : list StorageProviderRecord) : Json :=
  JArray (map profile_sync_storage_provider_json providers).

Definition profile_sync_local_readiness_json (r : ProfileSyncLocalReadinessReport) : Json := JObject
  [("profile", JString (lr_profile r));
   ("local_device_id", JString (lr_local_device_id r));
   ("local_device_registered", JBool (lr_local_device_registered r));
   ("local_device_trusted", JBool (lr_local_device_trusted r));
   ("account_authority_trusted", JBool (lr_account_authority_trusted r));
   ("trusted_device_count", JInteger (lr_trusted_device_count r));
   ("provider_authority_device_count", JInteger (lr_provider_authority_device_count r));
   ("trusted_provider_authority_device_count",
    JInteger (lr_trusted_provider_authority_device_count r));
   ("metadata_ready", JBool (lr_metadata_ready r));
   ("active_key_id", json_text (lr_active_key_id r));
   ("app_domain_count", JInteger (lr_app_domain_count r));
   ("enabled_app_domain_count", JInteger (lr_enabled_app_domain_count r));
   ("enabled_sync_content_domain_count", JInteger (lr_enabled_sync_content_domain_count r));
   ("app_domains", profile_sync_app_domains_json (lr_app_domains r));
   ("app_domain_readiness", profile_sync_app_domain_readiness_json (lr_app_domain_readiness r));
   ("storage_provider_count", JInteger (lr_storage_provider_count r));
   ("enabled_storage_provider_count", JInteger (lr_enabled_storage_provider_count r));
   ("retention_capable_provider_count", JInteger (lr_retention_capable_provider_count r));
   ("authorized_retention_provider_count", JInteger (lr_authorized_retention_provider_count r));
   ("authorized_retention_provider_ids",
    JArray (map JString (lr_authorized_retention_provider_ids r)));
   ("storage_providers", profile_sync_storage_providers_json (lr_storage_providers r));
   ("ready_for_manual_sync", JBool (lr_ready_for_manual_sync r));
   ("blocked_reason", json_text (lr_blocked_reason r))].

(** ** The state of the page *)

(** The three local cycles over a world [W] of the network: their reports, the device a report
    names, its JSON, and the runs for a profile, a secret and a directory. *)
Definition cycle (W A : Type) : Type :=
  string -> SlateSyncSecret -> string -> state_result (ProfileDb * (FileSystem * W)) string A.
Class LocalCycles (W : Type) := {
  CurrentReport : Type;
  TrialReport : Type;
  TwoDeviceReport : Type;
  current_local_device_id : CurrentReport -> string;
  trial_local_device_id : TrialReport -> string;
  two_device_publisher_device_id : TwoDeviceReport -> string;
  current_report_json : CurrentReport -> Z -> Json;
  trial_report_json : TrialReport -> Z -> Json;
  two_device_report_json : TwoDeviceReport -> Z -> Json;
  run_local_settings_sync_current_cycle : cycle W CurrentReport;
  run_local_settings_sync_preview_cycle : cycle W TrialReport;
  run_local_settings_sync_two_device_preview_cycle : cycle W TwoDeviceReport
}.

(** What the handlers are given: the libraries of the secrets and of the tables, the device and
    the path of the database, the texts of SQL errors, [url.query_pairs()] of the [url] crate,
    and [default_session_state_root()]. *)
Class ShellEnv := {
  shell_codec : SyncCodec;
  shell_sealer : SyncSealer;
  shell_encoders : PayloadEncoders;
  shell_device_id : string;
  shell_database_path : string;
  shell_sql_error : SqlError -> string;
  query_pairs : Url -> list (string * string);
  default_session_state_root : string
}.

Section Pages.
Context {W : Type} `{LocalCycles W, ShellEnv}.

Record ProfileSyncPreviewState := {
  pv_active_export : option SlateSyncSecretExport;
  pv_metadata_ready : bool;
  pv_active_key_id : option string;
  pv_local_device_id : option string;
  pv_active_handoff_bundle : option ProfileSyncSecretHandoffBundle;
  pv_last_current_sync : option (CurrentReport * Z);
  pv_last_trial : option (TrialReport * Z);
  pv_last_two_device_trial : option (TwoDeviceReport * Z);
  pv_last_error : option string
}.

Definition default_preview_state : ProfileSyncPreviewState :=
  {| pv_active_export := None; pv_metadata_ready := false; pv_active_key_id := None;
     pv_local_device_id := None; pv_active_handoff_bundle := None; pv_last_current_sync := None;
     pv_last_trial := None; pv_last_two_device_trial := None; pv_last_error := None |}.

Definition set_last_error (error : option string) (p : ProfileSyncPreviewState) :
    ProfileSyncPreviewState :=
  {| pv_active_export := pv_active_export p; pv_metadata_ready := pv_metadata_ready p;
     pv_active_key_id := pv_active_key_id p; pv_local_device_id := pv_local_device_id p;
     pv_active_handoff_bundle := pv_active_handoff_bundle p;
     pv_last_current_sync := pv_last_current_sync p; pv_last_trial := pv_last_trial p;
     pv_last_two_device_trial := pv_last_two_device_trial p; pv_last_error := error |}.

(** A new secret: everything else of the state is reset. *)
Definition load_export (export : SlateSyncSecretExport) : ProfileSyncPreviewState :=
  {| pv_active_export := Some export; pv_metadata_ready := false; pv_active_key_id := None;
     pv_local_device_id := None; pv_active_handoff_bundle := None; pv_last_current_sync := None;
     pv_last_trial := None; pv_last_two_device_trial := None; pv_last_error := None |}.

(** [random] are the bytes the generator gives, [None] a failing generator. *)
Definition create_secret (profile : string) (created_at : Z) (random : option string)
    (p : ProfileSyncPreviewState) :
    ProfileSyncPreviewState * result SyncObjectError SlateSyncSecret :=
  match secret_generate random with
  | Err e => (p, Err e)
  | Ok secret =>
      (load_export (export_for_profile shell_sealer secret profile created_at), Ok secret)
  end.

Definition create_secret_export_for_unenrolled_profile (profile : string) (created_at : Z)
    (random : option string) (p : ProfileSyncPreviewState) : ProfileSyncPreviewState *
      result SyncObjectError (SlateSyncSecret * SlateSyncSecretExport) :=
  match create_secret profile created_at random p with
  | (p, Err e) => (p, Err e)
  | (p, Ok secret) =>
      (p, Ok (secret, default (export_for_profile shell_sealer secret profile created_at)
                        (pv_active_export p)))
  end.

Definition import_secret (expected_profile export_text : string) (p : ProfileSyncPreviewState) :
    ProfileSyncPreviewState * result SyncObjectError SlateSyncSecret :=
  let imported :=
    let? export := export_from_bytes shell_sealer export_text in
    let? sync_secret := from_export_for_profile shell_sealer export expected_profile in
    Ok (export, sync_secret) in
  match imported with
  | Err e => (p, Err e)
  | Ok (export, sync_secret) => (load_export export, Ok sync_secret)
  end.

Definition active_sync_secret (expected_profile : string) (p : ProfileSyncPreviewState) :
    result SyncObjectError (option SlateSyncSecret) :=
  match pv_active_export p with
  | None => Ok None
  | Some export => result_map Some (from_export_for_profile shell_sealer export expected_profile)
  end.

Definition mark_secret_activation_ready (activation : ProfileSyncLocalSecretActivationRecord)
    (p : ProfileSyncPreviewState) : ProfileSyncPreviewState :=
  {| pv_active_export := pv_active_export p; pv_metadata_ready := true;
     pv_active_key_id := Some (ke_key_id (la_content_key_epoch (lsa_activation activation)));
     pv_local_device_id := Some (lsa_local_device_id activation);
     pv_active_handoff_bundle := pv_active_handoff_bundle p;
     pv_last_current_sync := pv_last_current_sync p; pv_last_trial := pv_last_trial p;
     pv_last_two_device_trial := pv_last_two_device_trial p; pv_last_error := None |}.

Definition mark_current_sync_result (report : CurrentReport) (completed_at : Z)
    (p : ProfileSyncPreviewState) : ProfileSyncPreviewState :=
  {| pv_active_export := pv_active_export p; pv_metadata_ready := true;
     pv_active_key_id := pv_active_key_id p;
     pv_local_device_id := Some (current_local_device_id report);
     pv_active_handoff_bundle := pv_active_handoff_bundle p;
     pv_last_current_sync := Some (report, completed_at); pv_last_trial := pv_last_trial p;
     pv_last_two_device_trial := pv_last_two_device_trial p; pv_last_error := None |}.
Definition mark_trial_result (report : TrialReport) (completed_at : Z)
    (p : ProfileSyncPreviewState) : ProfileSyncPreviewState :=
  {| pv_active_export := pv_active_export p; pv_metadata_ready := true;
     pv_active_key_id := pv_active_key_id p;
     pv_local_device_id := Some (trial_local_device_id report);
     pv_active_handoff_bundle := pv_active_handoff_bundle p;
     pv_last_current_sync := pv_last_current_sync p;
     pv_last_trial := Some (report, completed_at);
     pv_last_two_device_trial := pv_last_two_device_trial p; pv_last_error := None |}.
Definition mark_two_device_trial_result (report : TwoDeviceReport) (completed_at : Z)
    (p : ProfileSyncPreviewState) : ProfileSyncPreviewState :=
  {| pv_active_export := pv_active_export p; pv_metadata_ready := true;
     pv_active_key_id := pv_active_key_id p;
     pv_local_device_id := Some (two_device_publisher_device_id report);
     pv_active_handoff_bundle := pv_active_handoff_bundle p;
     pv_last_current_sync := pv_last_current_sync p; pv_last_trial := pv_last_trial p;
     pv_last_two_device_trial := Some (report, completed_at); pv_last_error := None |}.

Definition mark_secret_handoff_bundle (bundle : ProfileSyncSecretHandoffBundle)
    (p : ProfileSyncPreviewState) : ProfileSyncPreviewState :=
  {| pv_active_export := pv_active_export p; pv_metadata_ready := pv_metadata_ready p;
     pv_active_key_id := pv_active_key_id p; pv_local_device_id := pv_local_device_id p;
     pv_active_handoff_bundle := Some bundle; pv_last_current_sync := pv_last_current_sync p;
     pv_last_trial := pv_last_trial p; pv_last_two_device_trial := pv_last_two_device_trial p;
     pv_last_error := None |}.

Definition mark_secret_handoff_application (bundle : ProfileSyncSecretHandoffBundle)
    (application : ProfileSyncSecretHandoffApplication) (p : ProfileSyncPreviewState) :
    ProfileSyncPreviewState :=
  mark_secret_activation_ready (sha_activation application)
    {| pv_active_export := Some (hb_sync_secret_export bundle);
       pv_metadata_ready := pv_metadata_ready p; pv_active_key_id := pv_active_key_id p;
       pv_local_device_id := pv_local_device_id p; pv_active_handoff_bundle := Some bundle;
       pv_last_current_sync := pv_last_current_sync p; pv_last_trial := pv_last_trial p;
       pv_last_two_device_trial := pv_last_two_device_trial p;
       pv_last_error := pv_last_error p |}.

(** ** The state as JSON *)

(** The texts of an export and of a bundle, when they can be written. *)
Definition utf8_text {E} (bytes : result E string) : option string :=
  match bytes with
  | Ok bytes => if utf8_valid bytes then Some bytes else None
  | Err _ => None
  end.

Definition to_json_with_exports (p : ProfileSyncPreviewState)
    (readiness : option ProfileSyncLocalReadinessReport)
    (include_handoff_export include_key_export : bool) : Json :=
  let key_export_text :=
    if include_key_export
    then pv_active_export p ≫= (fun export => utf8_text (export_to_bytes shell_sealer export))
    else None in
  let handoff_export_text :=
    if include_handoff_export
    then pv_active_handoff_bundle p ≫= (fun bundle =>
           utf8_text (handoff_bundle_to_bytes shell_codec shell_sealer bundle))
    else None in
  let state_json := JObject
    [("profile", JString DEFAULT_PROFILE_ID);
     ("status", JString (if bool_decide (is_Some (pv_active_export p)) then "ready"
                         else if pv_metadata_ready p then "metadata_ready" else "not_enrolled"));
     ("has_secret", JBool (bool_decide (is_Some (pv_active_export p))));
     ("metadata_ready", JBool (pv_metadata_ready p));
     ("active_key_id", json_text (pv_active_key_id p));
     ("local_device_id", json_text (pv_local_device_id p));
     ("key_export_filename",
      json_text (option_map (fun export => profile_sync_key_filename (se_profile export))
                   (pv_active_export p)));
     ("local_sync", json_option profile_sync_local_readiness_json readiness);
     ("last_current_sync", json_option (fun run => current_report_json run.1 run.2)
                             (pv_last_current_sync p));
     ("last_trial", json_option (fun run => trial_report_json run.1 run.2) (pv_last_trial p));
     ("last_two_device_trial", json_option (fun run => two_device_report_json run.1 run.2)
                                 (pv_last_two_device_trial p));
     ("handoff_export_filename",
      json_text (option_map (fun bundle =>
        profile_sync_handoff_filename (hb_target_device_id bundle))
                   (pv_active_handoff_bundle p)));
     ("handoff_target_device_id",
      json_text (option_map hb_target_device_id (pv_active_handoff_bundle p)));
     ("last_error", json_text (pv_last_error p))] in
  let state_json := match handoff_export_text with
                    | Some text => json_insert "handoff_export_text" (JString text) state_json
                    | None => state_json
                    end in
  match key_export_text with
  | Some text => json_insert "key_export_text" (JString text) state_json
  | None => state_json
  end.

Definition to_json p readiness : Json := to_json_with_exports p readiness false false.
Definition to_json_with_handoff_export p readiness : Json :=
  to_json_with_exports p readiness true false.
Definition to_json_with_key_export p readiness : Json :=
  to_json_with_exports p readiness false true.

(** ** The shell *)

Record ShellState := {
  sh_database : option ProfileDb;
  sh_preview : ProfileSyncPreviewState;
  sh_settings : ChromeSettings;
  sh_daemon : option (BroadwebDaemon W);
  sh_files : FileSystem;
  sh_world : W
}.
Definition set_sh_database v s := {| sh_database := v; sh_preview := sh_preview s;
  sh_settings := sh_settings s; sh_daemon := sh_daemon s; sh_files := sh_files s;
  sh_world := sh_world s |}.
Definition set_sh_preview v s := {| sh_database := sh_database s; sh_preview := v;
  sh_settings := sh_settings s; sh_daemon := sh_daemon s; sh_files := sh_files s;
  sh_world := sh_world s |}.
Definition set_sh_settings v s := {| sh_database := sh_database s; sh_preview := sh_preview s;
  sh_settings := v; sh_daemon := sh_daemon s; sh_files := sh_files s;
  sh_world := sh_world s |}.
Definition set_sh_daemon v s := {| sh_database := sh_database s; sh_preview := sh_preview s;
  sh_settings := sh_settings s; sh_daemon := v; sh_files := sh_files s;
  sh_world := sh_world s |}.
Definition set_sh_outside (v : FileSystem * W) s := {| sh_database := sh_database s;
  sh_preview := sh_preview s; sh_settings := sh_settings s; sh_daemon := sh_daemon s;
  sh_files := v.1; sh_world := v.2 |}.

(** A step of a handler; an error is a response that is returned early. *)
Definition page (A : Type) : Type := state_result ShellState Response A.

Definition preview : page ProfileSyncPreviewState := fun s => (s, Ok (sh_preview s)).
Definition on_preview {A} (f : ProfileSyncPreviewState -> ProfileSyncPreviewState * A) : page A :=
  fun s => let '(p, a) := f (sh_preview s) in (set_sh_preview p s, Ok a).
Definition update_preview (f : ProfileSyncPreviewState -> ProfileSyncPreviewState) : page unit :=
  on_preview (fun p => (f p, tt)).
Definition fail_with (message : string) : page unit :=
  update_preview (set_last_error (Some message)).

(** [self.database.as_ref().map(|database| ...).transpose()]. *)
Definition with_database {A} (m : storage A) : page (result StorageError (option A)) := fun s =>
  match sh_database s with
  | None => (s, Ok (Ok None))
  | Some db => let '(db, r) := m db in (set_sh_database (Some db) s, Ok (result_map Some r))
  end.

Definition json_response (status_code : Z) (body : Json) : Response :=
  {| rp_status := http_status status_code; rp_content_type := Some CONTENT_TYPE_JSON;
     rp_content_disposition := None; rp_body := JsonBody body |}.
Definition profile_sync_json_attachment_response (filename body : string) : Response :=
  {| rp_status := http_status 200; rp_content_type := Some CONTENT_TYPE_JSON;
     rp_content_disposition :=
       header_value ("attachment; filename=" +:+ quote +:+ filename +:+ quote);
     rp_body := TextBody body |}.

(** The state of the page as the body. *)
Definition state_response (status_code : Z)
    (readiness : option ProfileSyncLocalReadinessReport) : page Response :=
  let* p := preview in sr_ret (json_response status_code (to_json p readiness)).

Definition profile_sync_local_readiness_report :
    page (result StorageError (option ProfileSyncLocalReadinessReport)) :=
  with_database (profile_sync_local_readiness shell_device_id DEFAULT_PROFILE_ID).
(** [.ok().flatten()]. *)
Definition current_readiness : page (option ProfileSyncLocalReadinessReport) :=
  let* readiness := profile_sync_local_readiness_report in
  sr_ret (match readiness with Ok readiness => readiness | Err _ => None end).

Definition storage_error_text : StorageError -> string :=
  show_storage_error shell_database_path shell_sql_error.

(** A failure and the state it leaves, with and without the readiness of the database. *)
Definition failure_response {A} (status_code : Z) (message : string) : page A :=
  do* fail_with message in
  let* readiness := current_readiness in
  let* response := state_response status_code readiness in
  sr_err response.
Definition bare_failure_response {A} (status_code : Z) (message : string) : page A :=
  do* fail_with message in
  let* response := state_response status_code None in
  sr_err response.

Definition refresh_profile_sync_preview_metadata : page unit := fun s =>
  match sh_database s with
  | None => (s, Ok tt)
  | Some db =>
      let p := sh_preview s in
      let refreshed metadata_ready active_key_id :=
        {| pv_active_export := pv_active_export p; pv_metadata_ready := metadata_ready;
           pv_active_key_id := active_key_id; pv_local_device_id := Some shell_device_id;
           pv_active_handoff_bundle := pv_active_handoff_bundle p;
           pv_last_current_sync := pv_last_current_sync p; pv_last_trial := pv_last_trial p;
           pv_last_two_device_trial := pv_last_two_device_trial p;
           pv_last_error := pv_last_error p |} in
      let p' :=
        if pv_metadata_ready p then refreshed true (pv_active_key_id p)
        else match active_sync_content_key_epoch DEFAULT_PROFILE_ID db with
             | Some content_key_epoch => refreshed true (Some (ke_key_id content_key_epoch))
             | None => refreshed false (pv_active_key_id p)
             end in
      (set_sh_preview p' s, Ok tt)
  end.

Definition activate_profile_sync_preview_from_secret (sync_secret : SlateSyncSecret) (now : Z) :
    page (result StorageError (option ProfileSyncLocalSecretActivationRecord)) :=
  with_database (activate_local_profile_sync_from_secret shell_codec shell_sealer shell_device_id
                   DEFAULT_PROFILE_ID sync_secret now).

Definition activate_profile_sync_preview_provider (sync_secret : SlateSyncSecret) (now : Z) :
    page (result StorageError unit) :=
  let endpoint_ref := IN_PROCESS_PROFILE_SYNC_FIXTURE_ENDPOINT_PREFIX +:+ "preview/"
                      +:+ DEFAULT_PROFILE_SYNC_PREVIEW_PROVIDER_ID in
  let* activated := with_database (activate_local_profile_sync_preview_provider_from_secret
         shell_codec shell_sealer shell_encoders shell_device_id DEFAULT_PROFILE_ID sync_secret
         (Some endpoint_ref) now) in
  sr_ret (result_map (fun _ => tt) activated).

Definition apply_handoff_bundle (bundle : ProfileSyncSecretHandoffBundle) (now : Z) :
    page (result StorageError ProfileSyncSecretHandoffApplication) :=
  let* applied := with_database (apply_profile_sync_secret_handoff_bundle shell_codec shell_sealer
                                   shell_device_id bundle now) in
  sr_ret (match applied with
          | Ok (Some application) => Ok application
          | Ok None => Err (InvalidProfileSyncSecretHandoffBundle
                              "settings database is not available")
          | Err e => Err e
          end).

(** [self.run_profile_sync_preview_...]: a cycle on the database, the files and the network. *)
Definition run_cycle {A} (run : cycle W A) (sync_secret : SlateSyncSecret) :
    page (result string (option A)) := fun s =>
  match sh_database s with
  | None => (s, Ok (Ok None))
  | Some db =>
      let '((db, outside), r) :=
        run DEFAULT_PROFILE_ID sync_secret
          (path_join default_session_state_root "profile-sync-preview")
          (db, (sh_files s, sh_world s)) in
      (set_sh_outside outside (set_sh_database (Some db) s), Ok (result_map Some r))
  end.

(** ** The handlers *)

Definition profile_sync_preview_json_response : page Response :=
  do* refresh_profile_sync_preview_metadata in
  let* readiness := profile_sync_local_readiness_report in
  match readiness with
  | Ok readiness => state_response 200 readiness
  | Err error => bare_failure_response 500 (storage_error_text error)
  end.

Definition check_profile_sync_preview_response : page Response :=
  do* refresh_profile_sync_preview_metadata in
  let* readiness := profile_sync_local_readiness_report in
  match readiness with
  | Ok readiness => do* update_preview (set_last_error None) in state_response 200 readiness
  | Err error => bare_failure_response 500 (storage_error_text error)
  end.

(** The new secret replaces the loaded one before it is activated. *)
Definition create_profile_sync_preview_secret_response (random : option string) (now : Z) :
    page Response :=
  let* created := on_preview (create_secret DEFAULT_PROFILE_ID now random) in
  match created with
  | Err error => bare_failure_response 500 (sync_object_error_to_string error)
  | Ok sync_secret =>
      let* activated := activate_profile_sync_preview_from_secret sync_secret now in
      match activated with
      | Ok (Some activation) =>
          do* update_preview (mark_secret_activation_ready activation) in
          let* readiness := current_readiness in
          state_response 200 readiness
      | Ok None => state_response 200 None
      | Err error => bare_failure_response 500 (storage_error_text error)
      end
  end.

(** The loaded secret, or the response [missing] when there is none. *)
Definition require_sync_secret (missing : string) : page SlateSyncSecret :=
  do* refresh_profile_sync_preview_metadata in
  let* p := preview in
  match active_sync_secret DEFAULT_PROFILE_ID p with
  | Ok (Some sync_secret) => sr_ret sync_secret
  | Ok None => failure_response 400 missing
  | Err error => bare_failure_response 400 (sync_object_error_to_string error)
  end.

Definition activate_profile_sync_preview_provider_response (now : Z) : page Response :=
  let* sync_secret := require_sync_secret
    "create a local profile or import an enrollment file before adding a provider" in
  let* activated := activate_profile_sync_preview_provider sync_secret now in
  match activated with
  | Err error => bare_failure_response 500 (storage_error_text error)
  | Ok _ =>
      let* readiness := profile_sync_local_readiness_report in
      match readiness with
      | Ok readiness => do* update_preview (set_last_error None) in state_response 200 readiness
      | Err error => bare_failure_response 500 (storage_error_text error)
      end
  end.

(** A secret is made when the profile is not enrolled and none is loaded. *)
Definition profile_sync_key_export (random : option string) (now : Z) :
    page (result (Z * string) SlateSyncSecretExport) :=
  do* refresh_profile_sync_preview_metadata in
  let* p := preview in
  let fail (status_code : Z) (message : string) :=
    do* fail_with message in sr_ret (Err (status_code, message)) in
  match pv_active_export p with
  | Some export => do* update_preview (set_last_error None) in sr_ret (Ok export)
  | None =>
      if negb (pv_metadata_ready p) then
        let* created := on_preview (create_secret_export_for_unenrolled_profile
                                      DEFAULT_PROFILE_ID now random) in
        match created with
        | Err error => fail 500 (sync_object_error_to_string error)
        | Ok (sync_secret, export) =>
            let* activated := activate_profile_sync_preview_from_secret sync_secret now in
            match activated with
            | Ok (Some activation) =>
                do* update_preview (mark_secret_activation_ready activation) in
                do* update_preview (set_last_error None) in
                sr_ret (Ok export)
            | Ok None => fail 500 "settings database is not available"
            | Err error => fail 500 (storage_error_text error)
            end
        end
      else fail 400 ("profile enrollment key is not loaded on this device; "
                     +:+ "import it before downloading it again")
  end.

Definition query_pair (url : Url) (key : string) : option string :=
  option_map snd (list_find_bool (fun '(name, _) => str_eqb name key) (query_pairs url)).

Definition profile_sync_download_requested (url : Url) : bool :=
  existsb (fun '(name, value) => str_eqb name "download"
                                 && existsb (str_eqb value) ["1"; "true"; "yes"]) (query_pairs url).

Definition export_profile_sync_key_response (url : Url) (random : option string) (now : Z) :
    page Response :=
  let* export := profile_sync_key_export random now in
  match export with
  | Err (status_code, _) =>
      let* readiness := current_readiness in
      state_response status_code readiness
  | Ok export =>
      let* readiness := current_readiness in
      do* update_preview (set_last_error None) in
      if profile_sync_download_requested url then
        match export_to_bytes shell_sealer export with
        | Ok bytes => sr_ret (profile_sync_json_attachment_response
                                (profile_sync_key_filename (se_profile export)) bytes)
        | Err error =>
            do* fail_with (sync_object_error_to_string error) in
            state_response 500 readiness
        end
      else
        let* p := preview in
        sr_ret (json_response 200 (to_json_with_key_export p readiness))
  end.

(** A parameter of the query, trimmed, if it is not empty. *)
Definition trimmed_query_pair (url : Url) (key : string) : option string :=
  match query_pair url key with
  | Some value => let value := trim value in if is_empty value then None else Some value
  | None => None
  end.

Definition bounded_query_text (what key : string) (applies : Url -> bool) (url : Url) :
    result string (option string) :=
  if negb (applies url) then Ok None
  else
    match trimmed_query_pair url key with
    | None => Ok None
    | Some text =>
        if PROFILE_SYNC_SECRET_HANDOFF_BUNDLE_MAX_BYTES <? str_len text
        then Err ("profile sync enrollment " +:+ what +:+ " is too large; maximum is "
                  +:+ show PROFILE_SYNC_SECRET_HANDOFF_BUNDLE_MAX_BYTES +:+ " bytes")
        else Ok (Some text)
    end.
Definition profile_sync_key_text_from_url : Url -> result string (option string) :=
  bounded_query_text "key" "key" is_slate_settings_profile_sync_key_import_url.
Definition profile_sync_handoff_bundle_text_from_url : Url -> result string (option string) :=
  bounded_query_text "file" "handoff" is_slate_settings_profile_sync_handoff_import_url.
Definition profile_sync_handoff_target_device_id_from_url (url : Url) : option string :=
  if negb (is_slate_settings_profile_sync_handoff_create_url url) then None
  else trimmed_query_pair url "target_device".

Definition import_profile_sync_key_response (url : Url) (now : Z) : page Response :=
  let* key_text := match profile_sync_key_text_from_url url with
                   | Ok (Some key_text) => sr_ret key_text
                   | Ok None => failure_response 400 "missing profile sync enrollment key contents"
                   | Err error => failure_response 413 error
                   end in
  let* imported := on_preview (import_secret DEFAULT_PROFILE_ID key_text) in
  match imported with
  | Err secret_error => failure_response 400 (sync_object_error_to_string secret_error)
  | Ok sync_secret =>
      let* activated := activate_profile_sync_preview_from_secret sync_secret now in
      match activated with
      | Ok (Some activation) =>
          do* update_preview (mark_secret_activation_ready activation) in
          let* readiness := current_readiness in
          state_response 200 readiness
      | Ok None => bare_failure_response 500 "settings database is not available"
      | Err error => failure_response 500 (storage_error_text error)
      end
  end.

Definition create_profile_sync_secret_handoff_bundle_response (url : Url) (now : Z) :
    page Response :=
  do* refresh_profile_sync_preview_metadata in
  let* p := preview in
  let* request :=
    match profile_sync_handoff_target_device_id_from_url url,
          active_sync_secret DEFAULT_PROFILE_ID p with
    | None, _ =>
        failure_response 400 "enter a target device id before downloading an enrollment file"
    | Some target_device_id, Ok (Some sync_secret) => sr_ret (target_device_id, sync_secret)
    | Some _, Ok None =>
        failure_response 400 "create a local profile before downloading an enrollment file"
    | Some _, Err error => bare_failure_response 400 (sync_object_error_to_string error)
    end in
  let '(target_device_id, sync_secret) := request in
  match profile_sync_secret_handoff_bundle_from_secret shell_codec shell_sealer
          DEFAULT_PROFILE_ID sync_secret target_device_id now with
  | Ok bundle =>
      do* update_preview (mark_secret_handoff_bundle bundle) in
      let* readiness := current_readiness in
      let* p := preview in
      sr_ret (json_response 200 (to_json_with_handoff_export p readiness))
  | Err error => failure_response 400 (storage_error_text error)
  end.

Definition import_profile_sync_secret_handoff_bundle_response (url : Url) (now : Z) :
    page Response :=
  let* bundle_text := match profile_sync_handoff_bundle_text_from_url url with
                      | Ok (Some bundle_text) => sr_ret bundle_text
                      | Ok None =>
                          failure_response 400 "missing profile sync enrollment file contents"
                      | Err error => failure_response 413 error
                      end in
  match handoff_bundle_from_bytes shell_codec shell_sealer bundle_text with
  | Err error => failure_response 400 (storage_error_text error)
  | Ok bundle =>
      let* applied := apply_handoff_bundle bundle now in
      match applied with
      | Ok application =>
          do* update_preview (mark_secret_handoff_application bundle application) in
          let* readiness := current_readiness in
          state_response 200 readiness
      | Err error => failure_response 400 (storage_error_text error)
      end
  end.

(** The requests that run a cycle: its result is kept with the time it ended. *)
Definition run_cycle_response {A} (missing : string) (run : cycle W A)
    (mark : A -> Z -> ProfileSyncPreviewState -> ProfileSyncPreviewState) (now : Z) :
    page Response :=
  let* sync_secret := require_sync_secret missing in
  let* report := run_cycle run sync_secret in
  match report with
  | Ok (Some report) =>
      do* update_preview (mark report now) in
      let* readiness := current_readiness in
      state_response 200 readiness
  | Ok None => bare_failure_response 500 "settings database is not available"
  | Err error => failure_response 500 error
  end.

Definition run_profile_sync_preview_current_sync_response : Z -> page Response :=
  run_cycle_response ("create a local profile or import an enrollment file "
                      +:+ "before syncing current settings")
    run_local_settings_sync_current_cycle mark_current_sync_result.
Definition run_profile_sync_preview_local_trial_response : Z -> page Response :=
  run_cycle_response ("create a local profile or import an enrollment file "
                      +:+ "before running a local trial")
    run_local_settings_sync_preview_cycle mark_trial_result.
Definition run_profile_sync_preview_two_device_local_trial_response : Z -> page Response :=
  run_cycle_response ("create a local profile or import an enrollment file "
                      +:+ "before running a two-device trial")
    run_local_settings_sync_two_device_preview_cycle mark_two_device_trial_result.
End Pages.
