(* ===== verification/SlatePages.v ===== *)
(** * The internal pages of the shell

    Models the rest of [crates/chrome/src/desktop/protocols/slate.rs]: the handler of the
    [slate] scheme that dispatches a request, the settings requests, the download requests and
    the page of downloads.

    The directory the process runs in, where downloads are stored, and [Url::from_file_path]
    are arguments; so is the start of the default daemon.  [escape_html_text] is the one of
    the rendering crate, whose text is the same. *)
From Stdlib Require Import SpecFloat.
From S2P Require Import Prelude RustStr Broadwebd Http Downloads Daemon Rendering.
From S2P Require Import AppViews Database SyncObjects SyncSecrets KeyBindings ChromeSettings.
From S2P Require Import LocationBar ShellResponses ProfileSyncPages.

Section SlatePages.
Context {W : Type} `{LocalCycles W, ShellEnv, UrlCrate, DownloadIndexJson, ShellUrls}.
Context (macos : bool) (current_dir : string).
Context (start_default_session : state_result (FileSystem * W) BroadwebdError (BroadwebDaemon W)).

(** ** Settings *)

Definition chrome_element_zoom_setting_from_url (url : Url) : option f32 :=
  if negb (is_slate_settings_url url || is_slate_settings_apply_url url) then None
  else option_map clamp_chrome_element_zoom_setting (query_pair url "chrome_zoom" ≫= parse_f32).

Definition key_binding_entry_json (entry : KeyBindingEntry) : Json := JObject
  [("id", JString (entry_id entry)); ("label", JString (entry_label entry));
   ("query", JString (entry_query entry)); ("value", JString (entry_value entry));
   ("display", JString (entry_display entry));
   ("default_value", JString (entry_default_value entry));
   ("default_display", JString (entry_default_display entry))].

(** [((zoom as f64) * 100.0).round() / 100.0]. *)
Definition f64_of_f32 (x : f32) : spec_float :=
  match x with
  | S754_finite negative m e =>
      binary_normalize 53 1024 (if negative then Zneg m else Zpos m) e negative
  | x => x
  end.
Definition f64_round (x : spec_float) : spec_float :=
  match x with
  | S754_finite negative m e =>
      binary_normalize 53 1024 (if negative then - round_half_up m e else round_half_up m e) 0
        negative
  | x => x
  end.
Definition rounded_zoom (zoom : f32) : spec_float :=
  let hundred := binary_normalize 53 1024 100 0 false in
  SFdiv 53 1024 (f64_round (SFmul 53 1024 (f64_of_f32 zoom) hundred)) hundred.

Definition settings_state_json (zoom : f32) (settings : ChromeSettings) : Json := JObject
  [("chrome_zoom", JFloat (rounded_zoom zoom));
   ("key_bindings", JArray (map key_binding_entry_json
                              (json_value macos (cs_key_bindings settings))))].

Definition settings_json_response (zoom : f32) : page Response := fun s =>
  (s, Ok (json_response 200 (settings_state_json zoom (sh_settings s)))).

Definition on_shell_settings {A} (f : ChromeSettings -> ChromeSettings * A) : page A := fun s =>
  let '(settings, a) := f (sh_settings s) in (set_sh_settings settings s, Ok a).

(** The zoom of the query is put to use; without one the zoom in use is answered. *)
Definition requested_zoom (url : Url) : page f32 :=
  match chrome_element_zoom_setting_from_url url with
  | Some zoom => on_shell_settings (set_current_chrome_element_zoom_setting zoom)
  | None => on_shell_settings (fun settings =>
      (settings, current_chrome_element_zoom_setting settings))
  end.

Definition settings_preview_response (url : Url) : page Response :=
  let* zoom := requested_zoom url in settings_json_response zoom.

(** [self.persist_...]: a write that fails is logged and the settings stay in use. *)
Definition persist_settings (write : ProfileDb -> ProfileDb) : page unit := fun s =>
  match sh_database s with
  | None => (s, Ok tt)
  | Some db => (set_sh_database (Some (write db)) s, Ok tt)
  end.
Definition persist_chrome_element_zoom_setting (zoom : f32) (now : Z) : page unit :=
  persist_settings (fun db =>
    (set_setting_f32 shell_device_id CHROME_ELEMENT_ZOOM_SETTING_KEY zoom now db).1).
Definition persist_key_bindings (bindings : SlateKeyBindings) (now : Z) : page unit :=
  persist_settings (persist_key_bindings_to_database shell_device_id bindings now).

Definition settings_save_response (url : Url) (now : Z) : page Response :=
  let* zoom := requested_zoom url in
  do* persist_chrome_element_zoom_setting zoom now in
  let* settings := (fun s => (s, Ok (sh_settings s))) in
  do* match key_bindings_from_settings_url macos query_pairs url (cs_key_bindings settings) with
      | None => sr_ret tt
      | Some key_bindings =>
          do* on_shell_settings (fun settings =>
            (set_current_key_bindings key_bindings settings, tt)) in
          persist_key_bindings key_bindings now
      end in
  settings_json_response zoom.

(** ** Downloads *)

Definition slate_download_error_html (title message : string) : string :=
  html_head +:+ "<title>" +:+ escape_html_text title +:+ "</title></head><body><h1>"
  +:+ escape_html_text title +:+ "</h1><pre>" +:+ escape_html_text message +:+ "</pre>"
  +:+ downloads_link +:+ "</body></html>".
Definition slate_download_error_response (title message : string) (status_code : Z) : Response :=
  html_response status_code (slate_download_error_html title message).

Definition download_fetch_response (fetch_response : HttpFetchResponse) : Response :=
  let not_saved := (502, slate_download_error_html "Download Not Saved"
    ("Slate fetched the requested URL, but broadwebd did not classify it as a download.")) in
  let '(status_code, body) :=
    match hr_disposition fetch_response, hr_download fetch_response with
    | Download _, Some _ => (200, broadweb_download_ready_html fetch_response)
    | ErrorPage status_code, _ =>
        (status_code, slate_download_error_html "Download Failed"
           ("HTTP status " +:+ show status_code +:+ " for " +:+ hr_final_url fetch_response))
    | _, _ => not_saved
    end in
  html_response status_code body.

Definition is_supported_download_target (url : Url) : bool :=
  existsb (str_eqb (url_scheme url)) ["http"; "https"; "ipfs"; "ipns"; "tor+http"; "tor+https"].

Definition non_empty_download_filename (value : string) : option string :=
  let value := trim value in if is_empty value then None else Some value.

(** The last segment of the path that is not empty, else the host. *)
Definition suggested_download_filename (url : Url) : string :=
  let segment := url_path_segments url ≫= (fun segments =>
    list_find_bool (fun segment => negb (is_empty segment)) (rev segments)) in
  let name := match segment with Some segment => Some segment | None => url_host_str url end in
  match name with
  | Some name => if is_empty name then "download" else name
  | None => "download"
  end.

(** The URL a download request asks for. *)
Definition download_target (url : Url) : result string (string * Url) :=
  let? target := ok_or (query_pair url "url") "missing url query parameter" in
  let? target_url := map_err (fun error => "invalid download URL: " +:+ error)
                       (url_parse target) in
  Ok (target, target_url).
Definition requested_filename (url : Url) (otherwise : string) : string :=
  default otherwise (query_pair url "filename" ≫= non_empty_download_filename).

Definition download_request_from_url (url : Url) : result string HttpFetchRequest :=
  if negb (is_slate_download_request_url url) then Err "not a Slate download request"
  else
    let? target := download_target url in
    let '(target, target_url) := target in
    if negb (is_supported_download_target target_url)
    then Err ("unsupported download scheme: " +:+ url_scheme target_url)
    else
      Ok (download_as (default_profile_request target)
            (requested_filename url (suggested_download_filename target_url))).

Definition profile_sync_key_download_filename_from_url (url : Url) :
    result string (option string) :=
  if negb (is_slate_download_request_url url) then Ok None
  else
    let? target := download_target url in
    let '(_, target_url) := target in
    if negb (str_eqb (url_scheme target_url) "slate") then Ok None
    else if negb (is_slate_settings_profile_sync_key_export_url target_url)
    then Err ("unsupported internal download target: slate://"
              +:+ default "" (url_host_str target_url) +:+ url_path target_url)
    else if negb (profile_sync_download_requested target_url)
    then Err "profile sync key export download flag is required"
    else Ok (Some (requested_filename url (profile_sync_key_filename DEFAULT_PROFILE_ID))).

(** An operation of the state root, prepared anew: [StateRoot::prepare]. *)
Definition with_state_root {A} (m : StateRoot -> state_op A) : page (result BroadwebdError A) :=
  fun s =>
    let '(files, r) :=
      (let* root := prepare_with_download_root default_session_state_root current_dir in m root)
        (sh_files s) in
    (set_sh_outside (files, sh_world s) s, Ok r).

(** The export is written to the directory of downloads, and the page of a saved download
    answered. *)
Definition profile_sync_key_download_response (filename : string) (random : option string)
    (now : Z) : page Response :=
  let failed message status_code := slate_download_error_response "Download Failed" message
                                      status_code in
  let* exported := profile_sync_key_export random now in
  match exported with
  | Err (status_code, error) => sr_ret (failed error status_code)
  | Ok export =>
      match export_to_bytes shell_sealer export with
      | Err error =>
          do* fail_with (sync_object_error_to_string error) in
          sr_ret (failed (sync_object_error_to_string error) 500)
      | Ok body =>
          let* stored := with_state_root (fun root =>
            store_download root DEFAULT_PROFILE_ID filename body) in
          match stored with
          | Err error =>
              do* fail_with (show_broadwebd_error error) in
              sr_ret (failed (show_broadwebd_error error) 500)
          | Ok path =>
              let saved_filename := default filename (path_file_name path) in
              let download := {| dr_profile := DEFAULT_PROFILE_ID; dr_filename := saved_filename;
                                 dr_path := path; dr_size_bytes := str_len body;
                                 dr_content_type := Some "application/json" |} in
              let fetch_response := http_fetch_response_new
                "slate://settings/profile-sync/key/export" 200 (Some "application/json") [] body in
              do* update_preview (set_last_error None) in
              sr_ret (download_fetch_response
                (with_download (with_download_disposition fetch_response filename) download))
          end
      end
  end.

Definition fetch_page (request : HttpFetchRequest) :
    page (result BroadwebdError HttpFetchResponse) := fun s =>
  let '((daemon, outside), r) :=
    fetch_with_default_broadwebd start_default_session request
      (sh_daemon s, (sh_files s, sh_world s)) in
  (set_sh_outside outside (set_sh_daemon daemon s), Ok r).

Definition download_url_response (url : Url) (random : option string) (now : Z) : page Response :=
  let invalid error := slate_download_error_response "Invalid Download Request" error 400 in
  match profile_sync_key_download_filename_from_url url with
  | Err error => sr_ret (invalid error)
  | Ok (Some filename) => profile_sync_key_download_response filename random now
  | Ok None =>
      match download_request_from_url url with
      | Err error => sr_ret (invalid error)
      | Ok fetch_request =>
          let* fetched := fetch_page fetch_request in
          match fetched with
          | Ok fetch_response => sr_ret (download_fetch_response fetch_response)
          | Err error => sr_ret (slate_download_error_response "Download Failed"
                                   (show_broadwebd_error error) 502)
          end
      end
  end.

Definition download_json (download : TemporaryDownloadRecord) : Json := JObject
  [("profile", JString (td_profile download)); ("filename", JString (td_filename download));
   ("path", JString (td_path download));
   ("file_url", json_text (option_map url_as_str (from_file_path (td_path download))));
   ("size_bytes", JInteger (td_size_bytes download))].
Definition downloads_json (downloads : list TemporaryDownloadRecord) : Json :=
  JObject [("downloads", JArray (map download_json downloads))].

Definition current_downloads : page (result BroadwebdError (list TemporaryDownloadRecord)) :=
  with_state_root (fun root => downloads root DEFAULT_PROFILE_ID).
Definition current_downloads_json : page Json :=
  let* downloads := current_downloads in
  sr_ret (match downloads with
          | Ok downloads => downloads_json downloads
          | Err error => JObject [("downloads", JArray []);
                                  ("error", JString (show_broadwebd_error error))]
          end).
Definition downloads_json_response : page Response :=
  let* json := current_downloads_json in sr_ret (json_response 200 json).

(** ** The handler *)

(** [SlateProtocolHandler::new]: the settings in use are those of the database. *)
Definition slate_handler_new (db : ProfileDb) (daemon : option (BroadwebDaemon W))
    (files : FileSystem) (world : W) (settings : ChromeSettings) (now : Z) : ShellState :=
  let '(db, settings) :=
    initialize_chrome_settings_from_database macos shell_device_id now settings db in
  {| sh_database := Some db; sh_preview := default_preview_state; sh_settings := settings;
     sh_daemon := daemon; sh_files := files; sh_world := world |}.

(** The requests that are answered by a handler, in the order they are tested. *)
Definition slate_handlers (url : Url) (random : option string) (now : Z) :
    list ((Url -> bool) * page Response) :=
  [(is_slate_settings_state_url, fun s =>
      settings_json_response (current_chrome_element_zoom_setting (sh_settings s)) s);
   (is_slate_settings_profile_sync_state_url, profile_sync_preview_json_response);
   (is_slate_settings_profile_sync_create_url,
    create_profile_sync_preview_secret_response random now);
   (is_slate_settings_profile_sync_check_url, check_profile_sync_preview_response);
   (is_slate_settings_profile_sync_local_provider_url,
    activate_profile_sync_preview_provider_response now);
   (is_slate_settings_profile_sync_key_export_url,
    export_profile_sync_key_response url random now);
   (is_slate_settings_profile_sync_key_import_url, import_profile_sync_key_response url now);
   (is_slate_settings_profile_sync_handoff_create_url,
    create_profile_sync_secret_handoff_bundle_response url now);
   (is_slate_settings_profile_sync_handoff_import_url,
    import_profile_sync_secret_handoff_bundle_response url now);
   (is_slate_settings_profile_sync_run_current_url,
    run_profile_sync_preview_current_sync_response now);
   (is_slate_settings_profile_sync_run_local_url,
    run_profile_sync_preview_local_trial_response now);
   (is_slate_settings_profile_sync_run_local_two_device_url,
    run_profile_sync_preview_two_device_local_trial_response now);
   (is_slate_downloads_state_url, downloads_json_response);
   (is_slate_download_request_url, download_url_response url random now);
   (is_slate_settings_preview_url, settings_preview_response url);
   (fun url => is_slate_settings_save_url url || is_slate_settings_apply_url url,
    settings_save_response url now)].

(** The pages that are files of the resource directory. *)
Definition slate_resources : list ((Url -> bool) * string) :=
  [(is_slate_blank_url, "/slate-blank.html"); (is_slate_home_url, "/slate-home.html");
   (is_slate_web_url, "/slate-web.html"); (is_slate_calendar_url, "/slate-calendar.html");
   (is_slate_chat_url, "/slate-chat.html"); (is_slate_contacts_url, "/slate-contacts.html");
   (is_slate_files_url, "/slate-files.html"); (is_slate_downloads_url, "/slate-downloads.html");
   (is_slate_settings_url, "/slate-settings.html")].

Definition first_match {A} (url : Url) (table : list ((Url -> bool) * A)) : option A :=
  option_map snd (list_find_bool (fun entry => entry.1 url) table).

(** [SlateProtocolHandler::load]. *)
Definition slate_load (url : Url) (random : option string) (now : Z) (s : ShellState) :
    ShellState * Answer :=
  match first_match url (slate_handlers url random now) with
  | Some handler =>
      match handler s with
      | (s, Ok response) | (s, Err response) => (s, Respond response)
      end
  | None =>
      match first_match url slate_resources with
      | Some resource_path => (s, ServeResource resource_path)
      | None => (s, NetworkError "Invalid Slate internal page")
      end
  end.

Definition privileged_paths : list string :=
  ["blank"; "home"; "web"; "calendar"; "chat"; "messages"; "contacts"; "files"; "settings";
   "settings/state"; "settings/preview"; "settings/save"; "settings/apply";
   "settings/profile-sync/state"; "settings/profile-sync/create"; "settings/profile-sync/check";
   "settings/profile-sync/local-provider"; "settings/profile-sync/key/export";
   "settings/profile-sync/key/import"; "settings/profile-sync/handoff/create";
   "settings/profile-sync/handoff/import"; "settings/profile-sync/run-current";
   "settings/profile-sync/run-local"; "settings/profile-sync/run-local-two-device";
   "downloads"; "downloads/state"; "download"].
End SlatePages.
