(* ===== verification/SlateLaws.v ===== *)
(** * What the internal pages show, and which secret they keep

    The enrollment key leaves the shell only in the answer to a request for it, and the secret
    a request leaves loaded can be used by the requests that follow. *)
From S2P Require Import Prelude RustStr Broadwebd Http Downloads Daemon Rendering.
From S2P Require Import AppViews Database SyncObjects SyncSecrets Membership Sealing HandoffLaws.
From S2P Require Import SyncErrors Endpoints ProfileTables.
From S2P Require Import Readiness KeyBindings ChromeSettings LocationBar ShellResponses.
From S2P Require Import AppData UrlReference DownloadLaws ProfileSyncPages SlatePages.

(** ** Which handler answers *)

(** Two actions of one host are different requests. *)
Lemma actions_exclusive host host' action action' url :
  names_action host action url = true -> (host, action) <> (host', action') ->
  names_action host' action' url = false.
Proof.
  unfold names_action. rewrite !andb_true_iff, bool_decide_eq_true, !str_eqb_eq.
  intros [[-> Hhost] Haction] Hne. cbn. apply andb_false_iff.
  rewrite Hhost. destruct (decide (host = host')) as [->|Hh].
  - right. apply str_eqb_neq. intros E. apply Hne. f_equal. congruence.
  - left. apply bool_decide_eq_false. congruence.
Qed.

(** ** Computations whose responses all have a property *)

Section Responses.
Context {W : Type} `{LocalCycles W, ShellEnv, UrlCrate, DownloadIndexJson, ShellUrls}.
Context (macos : bool) (current_dir : string).
Context (start_default_session : state_result (FileSystem * W) BroadwebdError (BroadwebDaemon W)).

(** The responses [m] returns early, and those it answers. *)
Definition early {A} (P : Response -> Prop) (m : page (W := W) A) : Prop :=
  forall s, match (m s).2 with Ok _ => True | Err r => P r end.
Definition answers (P : Response -> Prop) (m : page (W := W) Response) : Prop :=
  forall s, match (m s).2 with Ok r | Err r => P r end.

Lemma answers_early P m : answers P m -> early P m.
Proof. intros Hm s. specialize (Hm s). by destruct (m s).2. Qed.
Lemma answers_bind {A} P (m : page (W := W) A) k :
  early P m -> (forall a, answers P (k a)) -> answers P (sr_bind m k).
Proof.
  intros Hm Hk s. unfold sr_bind. specialize (Hm s). destruct (m s) as [s1 [a|r]]; [|done].
  apply Hk.
Qed.
Lemma early_bind {A B} P (m : page (W := W) A) (k : A -> page (W := W) B) :
  early P m -> (forall a, early P (k a)) -> early P (sr_bind m k).
Proof.
  intros Hm Hk s. unfold sr_bind. specialize (Hm s). destruct (m s) as [s1 [a|r]]; [|done].
  apply Hk.
Qed.
Lemma answers_ret P r : P r -> answers P (sr_ret r).
Proof. by intros ? s. Qed.
Lemma early_ret {A} P (a : A) : early P (sr_ret a).
Proof. done. Qed.
Lemma early_err P r : P r -> early (A := Response) P (sr_err r).
Proof. by intros ? s. Qed.

(** ** Shown secrets *)

(** A response with no attachment and no text of a key or of a handoff bundle. *)
Definition shows_no_secret (r : Response) : Prop :=
  rp_content_disposition r = None /\
  match rp_body r with
  | JsonBody json => json_field "key_export_text" json = None /\
                     json_field "handoff_export_text" json = None
  | TextBody _ => True
  end.

Lemma state_shows_no_secret status p readiness :
  shows_no_secret (json_response status (to_json (W := W) p readiness)).
Proof. done. Qed.
Lemma answers_state status readiness :
  answers shows_no_secret (state_response (W := W) status readiness).
Proof. intros s. apply state_shows_no_secret. Qed.
Lemma reads_nothing {A} P (m : storage A) : early P (with_database (W := W) m).
Proof. intros s. unfold with_database. destruct (sh_database s); [|done]. by destruct (m _). Qed.
Lemma early_update P f : early P (update_preview (W := W) f).
Proof. done. Qed.
Lemma early_on_preview {A} P (f : ProfileSyncPreviewState -> ProfileSyncPreviewState * A) :
  early P (on_preview (W := W) f).
Proof. intros s. unfold on_preview. by destruct (f _). Qed.
Lemma early_refresh P : early P (refresh_profile_sync_preview_metadata (W := W)).
Proof. intros s. unfold refresh_profile_sync_preview_metadata. by destruct (sh_database s). Qed.
Lemma early_readiness P : early P (current_readiness (W := W)).
Proof. apply early_bind; [apply reads_nothing|done]. Qed.
Lemma early_preview P : early P (preview (W := W)).
Proof. done. Qed.

Lemma readiness_outcome (s : ShellState (W := W)) :
  exists s' readiness, current_readiness s = (s', Ok readiness) /\ sh_preview s' = sh_preview s.
Proof.
  unfold current_readiness, profile_sync_local_readiness_report, with_database, sr_bind.
  destruct (sh_database s) as [db|]; [destruct (profile_sync_local_readiness _ _ db) as [db' r]|];
    cbn; by eexists _, _.
Qed.

(** What a failure leaves and answers. *)
Lemma failure_outcome {A} status message s :
  exists s' readiness,
    failure_response (A := A) status message s
      = (s', Err (json_response status (to_json (sh_preview s') readiness))) /\
    sh_preview s' = set_last_error (Some message) (sh_preview s).
Proof.
  unfold failure_response, sr_bind. cbn.
  destruct (readiness_outcome (set_sh_preview (set_last_error (Some message) (sh_preview s)) s))
    as (s' & readiness & -> & Hp). cbn. by eexists _, _.
Qed.

Lemma early_failure {A} status message :
  early shows_no_secret (failure_response (W := W) (A := A) status message).
Proof.
  intros s. destruct (failure_outcome (A := A) status message s) as (s' & r & -> & _).
  apply state_shows_no_secret.
Qed.
Lemma early_bare_failure {A} status message :
  early shows_no_secret (bare_failure_response (W := W) (A := A) status message).
Proof. intros s. apply state_shows_no_secret. Qed.
Lemma answers_failure status message :
  answers shows_no_secret (failure_response (W := W) status message).
Proof.
  intros s. destruct (failure_outcome (A := Response) status message s) as (s' & r & -> & _).
  apply state_shows_no_secret.
Qed.
Lemma answers_bare_failure status message :
  answers shows_no_secret (bare_failure_response (W := W) status message).
Proof. intros s. apply state_shows_no_secret. Qed.

Create HintDb slate_answers.
#[local] Hint Resolve answers_state answers_failure answers_bare_failure early_failure
  early_bare_failure reads_nothing early_update early_on_preview early_refresh early_readiness
  early_preview early_ret answers_ret : slate_answers.
#[local] Hint Extern 1 (early _ (sr_bind _ _)) => apply early_bind; [|intros ?] : slate_answers.
#[local] Hint Extern 1 (answers _ (sr_bind _ _)) => apply answers_bind; [|intros ?] : slate_answers.
#[local] Hint Extern 2 (early _ (match ?x with _ => _ end)) => destruct x : slate_answers.
#[local] Hint Extern 2 (answers _ (match ?x with _ => _ end)) => destruct x : slate_answers.

#[local] Hint Extern 3 (early _ (fun _ => _)) => intros ?; exact I : slate_answers.

Lemma answers_page_state :
  answers shows_no_secret (profile_sync_preview_json_response (W := W)).
Proof. unfold profile_sync_preview_json_response. eauto 20 with slate_answers. Qed.
Lemma answers_check : answers shows_no_secret (check_profile_sync_preview_response (W := W)).
Proof. unfold check_profile_sync_preview_response. eauto 20 with slate_answers. Qed.
Lemma answers_create random now :
  answers shows_no_secret (create_profile_sync_preview_secret_response (W := W) random now).
Proof. unfold create_profile_sync_preview_secret_response. eauto 20 with slate_answers. Qed.
Lemma early_secret missing : early shows_no_secret (require_sync_secret (W := W) missing).
Proof. unfold require_sync_secret. eauto 20 with slate_answers. Qed.
#[local] Hint Resolve early_secret : slate_answers.
Lemma answers_provider now :
  answers shows_no_secret (activate_profile_sync_preview_provider_response (W := W) now).
Proof.
  unfold activate_profile_sync_preview_provider_response, activate_profile_sync_preview_provider,
    profile_sync_local_readiness_report. eauto 20 with slate_answers.
Qed.
Lemma early_activate secret now :
  early shows_no_secret (activate_profile_sync_preview_from_secret (W := W) secret now).
Proof. apply reads_nothing. Qed.
Lemma early_apply_bundle bundle now :
  early shows_no_secret (apply_handoff_bundle (W := W) bundle now).
Proof. unfold apply_handoff_bundle. auto with slate_answers. Qed.
Lemma early_run_cycle {A} (run : cycle W A) secret :
  early shows_no_secret (run_cycle run secret).
Proof.
  intros s. unfold run_cycle. destruct (sh_database s); [|done].
  by destruct (run _ _ _ _) as [[? ?] ?].
Qed.
Lemma early_key_export random now :
  early shows_no_secret (profile_sync_key_export (W := W) random now).
Proof.
  unfold profile_sync_key_export. eauto 20 using early_activate with slate_answers.
Qed.
#[local] Hint Resolve early_activate early_apply_bundle early_run_cycle early_key_export :
  slate_answers.

Lemma answers_import_key url now :
  answers shows_no_secret (import_profile_sync_key_response (W := W) url now).
Proof. unfold import_profile_sync_key_response. eauto 20 with slate_answers. Qed.
Lemma answers_import_handoff url now :
  answers shows_no_secret (import_profile_sync_secret_handoff_bundle_response (W := W) url now).
Proof.
  unfold import_profile_sync_secret_handoff_bundle_response. eauto 20 with slate_answers.
Qed.
Lemma answers_cycle {A} missing (run : cycle W A) mark now :
  answers shows_no_secret (run_cycle_response missing run mark now).
Proof. unfold run_cycle_response. eauto 20 with slate_answers. Qed.
Lemma answers_settings zoom : answers shows_no_secret (settings_json_response (W := W) macos zoom).
Proof. by intros s. Qed.
Lemma early_settings {A} (f : ChromeSettings -> ChromeSettings * A) :
  early shows_no_secret (on_shell_settings (W := W) f).
Proof. intros s. unfold on_shell_settings. by destruct (f _). Qed.
Lemma early_persist write : early shows_no_secret (persist_settings (W := W) write).
Proof. intros s. unfold persist_settings. by destruct (sh_database s). Qed.
Lemma early_requested_zoom url : early shows_no_secret (requested_zoom (W := W) url).
Proof. unfold requested_zoom. case_match; apply early_settings. Qed.
#[local] Hint Resolve answers_settings early_settings early_persist early_requested_zoom :
  slate_answers.
Lemma answers_settings_preview url :
  answers shows_no_secret (settings_preview_response (W := W) macos url).
Proof. unfold settings_preview_response. auto with slate_answers. Qed.
Lemma answers_settings_save url now :
  answers shows_no_secret (settings_save_response (W := W) macos url now).
Proof.
  unfold settings_save_response, persist_key_bindings, persist_chrome_element_zoom_setting.
  eauto 20 with slate_answers.
Qed.

Lemma answers_html status html : shows_no_secret (html_response status html).
Proof. done. Qed.
Lemma answers_download_error title message status :
  shows_no_secret (slate_download_error_response title message status).
Proof. done. Qed.
Lemma answers_downloaded fetch_response : shows_no_secret (download_fetch_response fetch_response).
Proof. unfold download_fetch_response. by case_match. Qed.
Lemma early_state_root {A} (m : StateRoot -> state_op A) :
  early shows_no_secret (with_state_root (W := W) current_dir m).
Proof. intros s. unfold with_state_root. by destruct (sr_bind _ _ _). Qed.
Lemma early_fetch request :
  early shows_no_secret (fetch_page (W := W) start_default_session request).
Proof.
  intros s. unfold fetch_page. by destruct (fetch_with_default_broadwebd _ _ _) as [[? ?] ?].
Qed.
#[local] Hint Resolve answers_html answers_download_error answers_downloaded early_state_root
  early_fetch : slate_answers.
Lemma answers_key_download filename random now :
  answers shows_no_secret
    (profile_sync_key_download_response (W := W) current_dir filename random now).
Proof. unfold profile_sync_key_download_response. eauto 20 with slate_answers. Qed.
Lemma answers_download url random now :
  answers shows_no_secret
    (download_url_response (W := W) current_dir start_default_session url random now).
Proof.
  pose proof answers_key_download. unfold download_url_response. eauto 20 with slate_answers.
Qed.
Lemma answers_downloads : answers shows_no_secret (downloads_json_response (W := W) current_dir).
Proof.
  intros s. unfold downloads_json_response, current_downloads_json, current_downloads, sr_bind.
  pose proof (early_state_root (fun root => downloads root DEFAULT_PROFILE_ID) s) as He.
  destruct (with_state_root current_dir _ s) as [s1 [[listed|e]|r]]; cbn in *; [done..|].
  by apply He.
Qed.

(** A request for the key or for a handoff bundle, or one whose answers show none. *)
Lemma handler_answers url random now handler :
  first_match url (slate_handlers (W := W) macos current_dir start_default_session url random now)
    = Some handler ->
  (is_slate_settings_profile_sync_key_export_url url = true /\
   handler = export_profile_sync_key_response url random now) \/
  (is_slate_settings_profile_sync_handoff_create_url url = true /\
   handler = create_profile_sync_secret_handoff_bundle_response url now) \/
  answers shows_no_secret handler.
Proof.
  unfold first_match, slate_handlers. cbn [list_find_bool fst snd option_map].
  repeat match goal with
    | |- option_map snd (if ?test then _ else _) = Some _ -> _ => destruct test eqn:?
    end; cbn [option_map snd]; intros [= <-];
    solve [ by left | by right; left
          | right; right; first
              [ apply answers_page_state | apply answers_create | apply answers_check
              | apply answers_provider | apply answers_import_key | apply answers_import_handoff
              | apply answers_cycle | apply answers_downloads | apply answers_download
              | apply answers_settings_preview | apply answers_settings_save | by intros s ] ].
Qed.

(** The text of the loaded key. *)
Definition loaded_key_text (s : ShellState (W := W)) : option string :=
  pv_active_export (sh_preview s) ≫= fun export => utf8_text (export_to_bytes shell_sealer export).

(** What a response may show after a request. *)
Definition shown_on_request (url : Url) (s : ShellState (W := W)) (r : Response) : Prop :=
  (rp_content_disposition r <> None ->
   is_slate_settings_profile_sync_key_export_url url = true /\
   profile_sync_download_requested url = true) /\
  forall json, rp_body r = JsonBody json ->
    (json_field "key_export_text" json <> None ->
     is_slate_settings_profile_sync_key_export_url url = true /\
     profile_sync_download_requested url = false /\
     json_field "key_export_text" json = option_map JString (loaded_key_text s)) /\
    (json_field "handoff_export_text" json <> None ->
     is_slate_settings_profile_sync_handoff_create_url url = true /\
     exists target bundle, profile_sync_handoff_target_device_id_from_url url = Some target /\
       pv_active_handoff_bundle (sh_preview s) = Some bundle /\ hb_target_device_id bundle = target).

Lemma no_secret_shown url s r : shows_no_secret r -> shown_on_request url s r.
Proof.
  intros [Hd Hb]. split; [by rewrite Hd|]. intros json Hj. rewrite Hj in Hb.
  destruct Hb as [-> ->]. done.
Qed.

Lemma key_text_field p readiness :
  json_field "key_export_text" (to_json_with_key_export (W := W) p readiness)
  = option_map JString (pv_active_export p ≫= fun export =>
      utf8_text (export_to_bytes shell_sealer export)) /\
  json_field "handoff_export_text" (to_json_with_key_export (W := W) p readiness) = None.
Proof.
  unfold to_json_with_key_export, to_json_with_exports.
  destruct (pv_active_export p ≫= _) as [text|]; done.
Qed.
Lemma handoff_text_field p readiness :
  json_field "key_export_text" (to_json_with_handoff_export (W := W) p readiness) = None.
Proof.
  unfold to_json_with_handoff_export, to_json_with_exports.
  destruct (pv_active_handoff_bundle p ≫= _) as [text|]; done.
Qed.

Lemma key_export_shows url random now s :
  is_slate_settings_profile_sync_key_export_url url = true ->
  match export_profile_sync_key_response url random now s with
  | (s', Ok r) | (s', Err r) => shown_on_request url s' r
  end.
Proof.
  intros Hurl. unfold export_profile_sync_key_response, sr_bind at 1.
  pose proof (early_key_export random now s) as He.
  destruct (profile_sync_key_export random now s) as [s1 [[export|[status e]]|r]]; cbn in He;
    [|unfold sr_bind|by apply no_secret_shown].
  - unfold sr_bind at 1. destruct (readiness_outcome s1) as (s2 & readiness & -> & _).
    unfold sr_bind at 1. cbn [update_preview on_preview].
    destruct (profile_sync_download_requested url) eqn:Hd.
    + destruct (export_to_bytes shell_sealer export) as [bytes|e]; cbn.
      * split; [by intros _|]. by intros json.
      * by apply no_secret_shown.
    + cbn. split; [done|]. intros json [= <-].
      match goal with |- context [to_json_with_key_export ?p readiness] =>
        destruct (key_text_field p readiness) as [Hk Hh] end.
      split; [|by rewrite Hh]. intros _. by rewrite Hk.
  - destruct (readiness_outcome s1) as (s2 & readiness & -> & _). by apply no_secret_shown.
Qed.

Lemma bundle_target profile secret target now bundle :
  profile_sync_secret_handoff_bundle_from_secret shell_codec shell_sealer profile secret target now
    = Ok bundle -> hb_target_device_id bundle = target.
Proof.
  unfold profile_sync_secret_handoff_bundle_from_secret,
    profile_sync_secret_handoff_bundle_from_secret_with_epoch, handoff_bundle_new.
  destruct (profile_sync_enrollment_bundle_from_secret_with_epoch _ _ _ _ _ _); [|done].
  destruct (validate_profile_sync_secret_handoff_bundle _ _); by intros [= <-].
Qed.

Lemma handoff_create_shows url now s :
  is_slate_settings_profile_sync_handoff_create_url url = true ->
  match create_profile_sync_secret_handoff_bundle_response url now s with
  | (s', Ok r) | (s', Err r) => shown_on_request url s' r
  end.
Proof.
  intros Hurl. unfold create_profile_sync_secret_handoff_bundle_response.
  unfold sr_bind at 1. pose proof (early_refresh shows_no_secret s) as He.
  destruct (refresh_profile_sync_preview_metadata s) as [s0 [u|r]]; [|by apply no_secret_shown].
  unfold sr_bind at 1. cbn [preview]. clear He.
  destruct (profile_sync_handoff_target_device_id_from_url url) as [target|] eqn:Ht.
  2: { unfold sr_bind. edestruct (failure_outcome (A := string * SlateSyncSecret))
         as (s' & readiness & -> & _). by apply no_secret_shown. }
  destruct (active_sync_secret DEFAULT_PROFILE_ID (sh_preview s0)) as [[secret|]|e].
  2: { unfold sr_bind. edestruct (failure_outcome (A := string * SlateSyncSecret))
         as (s' & readiness & -> & _). by apply no_secret_shown. }
  2: by apply no_secret_shown.
  unfold sr_bind at 1, sr_ret.
  destruct (profile_sync_secret_handoff_bundle_from_secret _ _ _ _ _ _) as [bundle|e] eqn:Hb.
  2: { edestruct (failure_outcome (A := Response)) as (s' & readiness & -> & _).
       by apply no_secret_shown. }
  unfold sr_bind at 1. cbn [update_preview on_preview]. unfold sr_bind.
  edestruct readiness_outcome as (s2 & readiness & Hr & Hp). rewrite Hr.
  unfold preview, sr_ret. cbn beta iota.
  split; [done|]. intros json [= <-]. rewrite handoff_text_field. split; [done|]. intros _.
  split; [done|]. exists target, bundle. split_and!; [done| |by apply (bundle_target _ _ _ _ _ Hb)].
  by rewrite Hp.
Qed.

(** C32: (safety) A response carries the text of the enrollment key or an attachment only if the
    request is for the key: the text is that of the loaded key and is not shown with a
    download, the attachment only on a request to download. The text of a handoff bundle is
    only in the answer to a request to make one, for the device the request names. *)
Theorem slate_secret_on_request url random now s :
  let '(s', answer) := slate_load macos current_dir start_default_session url random now s in
  match answer with
  | Respond r => shown_on_request url s' r
  | ServeResource path => exists file, path = "/slate-" +:+ file +:+ ".html" /\ s' = s
  | NetworkError _ => s' = s
  end.
Proof.
  unfold slate_load. destruct (first_match url (slate_handlers _ _ _ _ _ _)) as [handler|] eqn:Hh.
  - apply handler_answers in Hh as [[Hurl ->]|[[Hurl ->]|Hanswers]].
    + pose proof (key_export_shows url random now s Hurl) as Hk.
      by destruct (export_profile_sync_key_response url random now s) as [s' [r|r]].
    + pose proof (handoff_create_shows url now s Hurl) as Hk.
      by destruct (create_profile_sync_secret_handoff_bundle_response url now s) as [s' [r|r]].
    + specialize (Hanswers s). destruct (handler s) as [s' [r|r]]; by apply no_secret_shown.
  - unfold first_match, slate_resources. cbn [list_find_bool fst snd option_map].
    repeat match goal with
      | |- context [if ?test then _ else _] => destruct test
      end; cbn; try done;
      match goal with
      | |- exists file, ?path = _ /\ _ =>
          exists (substring 7 (String.length path - 12) path); by split
      end.
Qed.
End Responses.

(** ** The loaded secret *)

Section Loaded.
Context {W : Type} `{LocalCycles W, ShellEnv, UrlCrate, DownloadIndexJson, ShellUrls}.
Context (macos : bool) (current_dir : string).
Context (start_default_session : state_result (FileSystem * W) BroadwebdError (BroadwebDaemon W)).
Context (laws : SealerLaws shell_codec shell_sealer).

Abbreviation Shell := (ShellState (W := W)).

(** The export can be used for the profile of the shell. *)
Definition export_usable (export : SlateSyncSecretExport) : Prop :=
  exists secret, from_export_for_profile shell_sealer export DEFAULT_PROFILE_ID = Ok secret.
Definition loaded (s : Shell) : option SlateSyncSecretExport := pv_active_export (sh_preview s).

(** [m] changes the state along [R]. *)
Definition moves {A} (R : Shell -> Shell -> Prop) (m : page (W := W) A) : Prop :=
  forall s, R s (m s).1.

(** A relation that holds whenever the loaded export is the same. *)
Class KeepsLoaded (R : Shell -> Shell -> Prop) : Prop := {
  keeps_preorder :: PreOrder R;
  keeps_same s s' : loaded s' = loaded s -> R s s'
}.

Definition same_loaded (s s' : Shell) : Prop := loaded s' = loaded s.
#[local] Instance same_loaded_keeps : KeepsLoaded same_loaded.
Proof. split; [split; [done|unfold same_loaded; congruence]|done]. Qed.

(** The pages that load no secret themselves, whatever they call does to it. *)
Section Pages.
Context (R : Shell -> Shell -> Prop) `{!KeepsLoaded R}.

Lemma page_moves_bind {A B} (m : page (W := W) A) (k : A -> page (W := W) B) :
  moves R m -> (forall a, moves R (k a)) -> moves R (sr_bind m k).
Proof.
  intros Hm Hk s. unfold sr_bind. specialize (Hm s). destruct (m s) as [s1 [a|r]]; [|done].
  transitivity s1; [done|apply Hk].
Qed.
Lemma page_moves_ret {A} (a : A) : moves R (sr_ret a).
Proof. intros s. done. Qed.
Lemma page_moves_err {A} r : moves (A := A) R (sr_err r).
Proof. intros s. done. Qed.
Lemma moves_preview : moves R preview.
Proof. intros s. done. Qed.

Lemma loads_same {A} (m : page (W := W) A) :
  (forall s, loaded (m s).1 = loaded s) -> moves R m.
Proof. intros Hm s. apply keeps_same, Hm. Qed.

Lemma moves_database {A} (m : storage A) : moves R (with_database m).
Proof.
  apply loads_same. intros s. unfold with_database. destruct (sh_database s); [|done].
  by destruct (m _).
Qed.
Lemma moves_update f : (forall p, pv_active_export (f p) = pv_active_export p) ->
  moves R (update_preview f).
Proof. intros Hf. apply loads_same. intros s. apply Hf. Qed.
Lemma moves_fail message : moves R (fail_with message).
Proof. by apply moves_update. Qed.
Lemma moves_activation_ready activation :
  moves R (update_preview (mark_secret_activation_ready activation)).
Proof. by apply moves_update. Qed.
Lemma moves_no_error : moves R (update_preview (set_last_error None)).
Proof. by apply moves_update. Qed.
Lemma moves_refresh : moves R refresh_profile_sync_preview_metadata.
Proof.
  apply loads_same. intros s. unfold refresh_profile_sync_preview_metadata.
  destruct (sh_database s); [|done]. cbn. repeat case_match; done.
Qed.
Lemma moves_cycle {A} (run : cycle W A) secret : moves R (run_cycle run secret).
Proof.
  apply loads_same. intros s. unfold run_cycle. destruct (sh_database s); [|done].
  by destruct (run _ _ _ _) as [[? ?] ?].
Qed.
Lemma moves_root {A} (m : StateRoot -> state_op A) : moves R (with_state_root current_dir m).
Proof. apply loads_same. intros s. unfold with_state_root. by destruct (sr_bind _ _ _). Qed.
Lemma moves_fetch request : moves R (fetch_page start_default_session request).
Proof.
  apply loads_same. intros s. unfold fetch_page.
  by destruct (fetch_with_default_broadwebd _ _ _) as [[? ?] ?].
Qed.
Lemma moves_settings {A} (f : ChromeSettings -> ChromeSettings * A) :
  moves R (on_shell_settings f).
Proof. apply loads_same. intros s. unfold on_shell_settings. by destruct (f _). Qed.
Lemma moves_persist write : moves R (persist_settings write).
Proof. apply loads_same. intros s. unfold persist_settings. by destruct (sh_database s). Qed.

#[local] Create HintDb slate_moves.
#[local] Hint Resolve page_moves_ret page_moves_err moves_preview moves_database moves_fail
  moves_activation_ready moves_no_error moves_refresh moves_cycle moves_root moves_fetch
  moves_settings moves_persist : slate_moves.
#[local] Hint Extern 1 (moves _ (sr_bind _ _)) =>
  apply page_moves_bind; [|intros ?] : slate_moves.
#[local] Hint Extern 2 (moves _ (match ?x with _ => _ end)) => destruct x : slate_moves.
#[local] Hint Extern 3 (moves _ (update_preview _)) => by apply moves_update : slate_moves.
#[local] Hint Extern 3 (moves _ (fun _ => _)) => by apply loads_same : slate_moves.

Lemma moves_state status readiness : moves R (state_response status readiness).
Proof. unfold state_response. auto with slate_moves. Qed.
Lemma moves_readiness : moves R current_readiness.
Proof. unfold current_readiness, profile_sync_local_readiness_report. auto with slate_moves. Qed.
#[local] Hint Resolve moves_state moves_readiness : slate_moves.
Lemma moves_failure {A} status message : moves R (failure_response (A := A) status message).
Proof. unfold failure_response. auto with slate_moves. Qed.
Lemma moves_bare_failure {A} status message :
  moves R (bare_failure_response (A := A) status message).
Proof. unfold bare_failure_response. auto with slate_moves. Qed.
#[local] Hint Resolve moves_failure moves_bare_failure : slate_moves.
Lemma moves_secret missing : moves R (require_sync_secret missing).
Proof. unfold require_sync_secret. auto 20 with slate_moves. Qed.
#[local] Hint Resolve moves_secret : slate_moves.
Lemma moves_run_cycle {A} missing (run : cycle W A) mark now :
  (forall a n p, pv_active_export (mark a n p) = pv_active_export p) ->
  moves R (run_cycle_response missing run mark now).
Proof. intros ?. unfold run_cycle_response. auto 20 with slate_moves. Qed.
Lemma moves_activate secret now : moves R (activate_profile_sync_preview_from_secret secret now).
Proof. unfold activate_profile_sync_preview_from_secret. auto 20 with slate_moves. Qed.
#[local] Hint Resolve moves_activate : slate_moves.

(** The pages that load one. *)
Lemma moves_create_page random now :
  moves R (on_preview (create_secret DEFAULT_PROFILE_ID now random)) ->
  moves R (create_profile_sync_preview_secret_response random now).
Proof.
  intros ?. unfold create_profile_sync_preview_secret_response. auto 30 with slate_moves.
Qed.
Lemma moves_key_import_page url now :
  (forall text, moves R (on_preview (import_secret DEFAULT_PROFILE_ID text))) ->
  moves R (import_profile_sync_key_response url now).
Proof. intros ?. unfold import_profile_sync_key_response. auto 30 with slate_moves. Qed.
Lemma moves_key_export random now :
  moves R (on_preview (create_secret_export_for_unenrolled_profile DEFAULT_PROFILE_ID now random)) ->
  moves R (profile_sync_key_export random now).
Proof. intros ?. unfold profile_sync_key_export. auto 20 with slate_moves. Qed.
Lemma moves_key_export_page url random now :
  moves R (profile_sync_key_export random now) ->
  moves R (export_profile_sync_key_response url random now).
Proof. intros ?. unfold export_profile_sync_key_response. auto 30 with slate_moves. Qed.
Lemma moves_download_page url random now :
  moves R (profile_sync_key_export random now) ->
  moves R (download_url_response current_dir start_default_session url random now).
Proof.
  intros ?. unfold download_url_response, profile_sync_key_download_response.
  auto 30 with slate_moves.
Qed.
Lemma moves_handoff_import_page url now :
  (forall bundle application,
     validate_profile_sync_secret_handoff_bundle shell_codec shell_sealer bundle = Ok tt ->
     moves R (update_preview (mark_secret_handoff_application bundle application))) ->
  moves R (import_profile_sync_secret_handoff_bundle_response url now).
Proof.
  intros Hbundle. unfold import_profile_sync_secret_handoff_bundle_response.
  apply page_moves_bind; [auto with slate_moves|intros text].
  destruct (handoff_bundle_from_bytes _ _ text) as [bundle|e] eqn:Hb; [|auto with slate_moves].
  apply page_moves_bind; [|intros [application|e]; [|auto with slate_moves]].
  { unfold apply_handoff_bundle. auto with slate_moves. }
  apply page_moves_bind; [apply Hbundle|auto with slate_moves].
  unfold handoff_bundle_from_bytes in Hb.
  destruct (validate_profile_sync_secret_handoff_bundle_size _); [|done]. cbn in Hb.
  destruct (handoff_bundle_from_slice _ _) as [b|e]; [|done]. cbn in Hb.
  destruct (validate_profile_sync_secret_handoff_bundle _ _ b) as [[]|e] eqn:Hv; [|done].
  by injection Hb as <-.
Qed.

(** A request is answered by one of these pages, or by one that keeps the loaded secret. *)
Lemma handler_moves url random now handler :
  first_match url (slate_handlers macos current_dir start_default_session url random now)
    = Some handler ->
  (is_slate_settings_profile_sync_handoff_import_url url = true /\
   handler = import_profile_sync_secret_handoff_bundle_response url now) \/
  (is_slate_settings_profile_sync_create_url url = true /\
   handler = create_profile_sync_preview_secret_response random now) \/
  (is_slate_settings_profile_sync_key_import_url url = true /\
   handler = import_profile_sync_key_response url now) \/
  (is_slate_settings_profile_sync_key_export_url url = true /\
   handler = export_profile_sync_key_response url random now) \/
  (is_slate_download_request_url url = true /\
   handler = download_url_response current_dir start_default_session url random now) \/
  moves R handler.
Proof.
  unfold first_match, slate_handlers. cbn [list_find_bool fst snd option_map].
  repeat match goal with
    | |- option_map snd (if ?test then _ else _) = Some _ -> _ => destruct test eqn:?
    end; cbn [option_map snd]; intros [= <-]; [..|].
  all: try (by auto 10); do 5 right.
  all: try (by apply moves_run_cycle).
  all: unfold profile_sync_preview_json_response, check_profile_sync_preview_response,
    activate_profile_sync_preview_provider_response, activate_profile_sync_preview_provider,
    create_profile_sync_secret_handoff_bundle_response, settings_preview_response,
    settings_save_response, downloads_json_response, current_downloads_json, current_downloads,
    requested_zoom, persist_key_bindings, persist_chrome_element_zoom_setting,
    profile_sync_local_readiness_report.
  all: auto 30 with slate_moves.
Qed.
End Pages.

(** The loaded export stays, or becomes one that can be used. *)
Definition keeps_usable (s s' : Shell) : Prop :=
  loaded s' = loaded s \/ exists export, loaded s' = Some export /\ export_usable export.

#[local] Instance keeps_usable_keeps : KeepsLoaded keeps_usable.
Proof.
  split; [split; [by left|]|by left].
  intros s1 s2 s3 [H12|H12] [H23|H23]; unfold keeps_usable; rewrite ?H23; auto.
Qed.

(** A secret that is made, and one that is imported, can be used. *)
Definition full_random (random : option string) : Prop :=
  forall bytes, random = Some bytes -> str_len bytes = SLATE_SYNC_SECRET_BYTES.

Lemma created_usable now random p :
  full_random random ->
  let '(p', r) := create_secret DEFAULT_PROFILE_ID now random p in
  p' = p \/ exists export, pv_active_export p' = Some export /\ export_usable export.
Proof.
  intros Hrandom. unfold create_secret, secret_generate. destruct random as [bytes|]; [|by left].
  right. eexists. split; [done|]. eexists.
  apply (export_accepted shell_codec shell_sealer laws). by apply Hrandom.
Qed.
Lemma moves_create now random :
  full_random random ->
  moves keeps_usable (on_preview (create_secret DEFAULT_PROFILE_ID now random)).
Proof.
  intros Hrandom s. pose proof (created_usable now random (sh_preview s) Hrandom) as Hc.
  unfold on_preview. destruct (create_secret _ _ _ _) as [p' r].
  destruct Hc as [->|Hc]; [by left|by right].
Qed.
Lemma moves_create_export now random :
  full_random random ->
  moves keeps_usable
    (on_preview (create_secret_export_for_unenrolled_profile DEFAULT_PROFILE_ID now random)).
Proof.
  intros Hrandom s. pose proof (created_usable now random (sh_preview s) Hrandom) as Hc.
  unfold on_preview, create_secret_export_for_unenrolled_profile.
  destruct (create_secret _ _ _ _) as [p' [secret|e]]; cbn;
    (destruct Hc as [->|Hc]; [by left|by right]).
Qed.
Lemma moves_import text :
  moves keeps_usable (on_preview (import_secret DEFAULT_PROFILE_ID text)).
Proof.
  intros s. unfold on_preview, import_secret.
  destruct (export_from_bytes shell_sealer text) as [export|e]; [|by left]. cbn.
  destruct (from_export_for_profile shell_sealer export DEFAULT_PROFILE_ID) as [secret|e] eqn:E;
    [|by left].
  right. exists export. split; [done|by exists secret].
Qed.

(** The loaded export stays, or becomes one that can be used when there was none. *)
Definition fills (s s' : Shell) : Prop :=
  loaded s' = loaded s \/
  loaded s = None /\ exists export, loaded s' = Some export /\ export_usable export.

#[local] Instance fills_keeps : KeepsLoaded fills.
Proof.
  split; [split; [by left|]|by left].
  intros s1 s2 s3 [H12|[H12 Hu]] [H23|[H23 Hu']]; unfold fills; rewrite ?H23, <- ?H12; auto.
Qed.

(** Exporting the key makes one only when none is loaded. *)
Lemma key_export_fills random now :
  full_random random -> moves fills (profile_sync_key_export random now).
Proof.
  intros Hrandom s.
  destruct (loaded s) as [export|] eqn:Hl.
  - left. unfold profile_sync_key_export, sr_bind at 1.
    pose proof (moves_refresh same_loaded s) as Hs. unfold same_loaded in Hs.
    destruct (refresh_profile_sync_preview_metadata s) as [s1 [u|r]]; [|exact Hs].
    cbn in Hs |- *. unfold loaded in Hs, Hl |- *. rewrite Hs, Hl. cbn. by rewrite Hs, Hl.
  - pose proof (moves_key_export keeps_usable random now (moves_create_export now random Hrandom) s)
      as [Hk|Hk]; [by left|by right].
Qed.

(** A valid bundle carries an export of its own profile. *)
Lemma bundle_export bundle :
  validate_profile_sync_secret_handoff_bundle shell_codec shell_sealer bundle = Ok tt ->
  se_profile (hb_sync_secret_export bundle) = hb_profile bundle /\
  exists secret, from_export_for_profile shell_sealer (hb_sync_secret_export bundle)
                   (hb_profile bundle) = Ok secret.
Proof.
  unfold validate_profile_sync_secret_handoff_bundle.
  destruct (negb (hb_schema_version bundle =? _)); [done|].
  destruct (is_empty _); [done|]. destruct (negb (is_valid_sync_identifier _)); [done|].
  destruct (str_eqb (se_profile _) (hb_profile bundle)) eqn:Hp; [|done]. cbn.
  destruct (negb (str_eqb (eb_profile _) _)); [done|].
  destruct (negb (str_eqb (eb_target_device_id _) _)); [done|].
  destruct (from_export_for_profile _ _ _) as [secret|e]; [|done]. intros _.
  split; [by apply str_eqb_eq|by exists secret].
Qed.

Lemma foreign_export export profile other secret :
  from_export_for_profile shell_sealer export profile = Ok secret ->
  se_profile export = profile -> profile <> other ->
  from_export_for_profile shell_sealer export other = Err (UnexpectedProfile other profile).
Proof.
  unfold from_export_for_profile, to_sync_secret_for_profile, validate_expected_profile.
  destruct (validate_export_schema export) as [[]|e]; [|done]. cbn. intros _ <- Hne.
  by rewrite (proj2 (str_eqb_neq _ _) Hne).
Qed.

(** The loaded secret is one of another profile. *)
Definition foreign_secret (s : Shell) : Prop :=
  exists bundle, loaded s = Some (hb_sync_secret_export bundle) /\
    hb_profile bundle <> DEFAULT_PROFILE_ID /\
    active_sync_secret DEFAULT_PROFILE_ID (sh_preview s)
      = Err (UnexpectedProfile DEFAULT_PROFILE_ID (hb_profile bundle)).

Definition usable_or_foreign (s s' : Shell) : Prop := keeps_usable s s' \/ foreign_secret s'.

#[local] Instance usable_or_foreign_keeps : KeepsLoaded usable_or_foreign.
Proof.
  split; [|by left; left]. split; [by left; left|]. intros s1 s2 s3 H12 [H23|H23]; [|by right].
  destruct H12 as [H12|(bundle & Hl & Hne & He)]; [left; by transitivity s2|].
  destruct H23 as [H23|H23]; [|by left; right]. right. exists bundle.
  unfold loaded, active_sync_secret in *. by rewrite H23.
Qed.

Lemma moves_bundle bundle application :
  validate_profile_sync_secret_handoff_bundle shell_codec shell_sealer bundle = Ok tt ->
  moves usable_or_foreign (update_preview (mark_secret_handoff_application bundle application)).
Proof.
  intros Hv s. apply bundle_export in Hv as [Hp [secret Hs]]. cbn.
  destruct (decide (hb_profile bundle = DEFAULT_PROFILE_ID)) as [E|Hne].
  - left. right. exists (hb_sync_secret_export bundle). split; [done|]. exists secret. by rewrite <-E.
  - right. exists bundle. split_and!; [done|done|]. cbn. unfold active_sync_secret. cbn.
    by rewrite (foreign_export _ _ _ _ Hs Hp Hne).
Qed.

(** The requests that may replace the loaded secret, and those that may make a first one. *)
Definition replaces_secret (url : Url) : bool :=
  is_slate_settings_profile_sync_create_url url
  || is_slate_settings_profile_sync_key_import_url url
  || is_slate_settings_profile_sync_handoff_import_url url.
Definition makes_secret (url : Url) : bool :=
  is_slate_settings_profile_sync_key_export_url url || is_slate_download_request_url url.

(** What a request does to the loaded secret. *)
Definition secret_effect (url : Url) (s s' : Shell) : Prop :=
  same_loaded s s' \/ (replaces_secret url = true /\ keeps_usable s s') \/
  (makes_secret url = true /\ fills s s') \/
  (is_slate_settings_profile_sync_handoff_import_url url = true /\ foreign_secret s').

Lemma slate_load_effect url random now s :
  full_random random ->
  secret_effect url s (slate_load macos current_dir start_default_session url random now s).1.
Proof.
  intros Hrandom. unfold slate_load, secret_effect, replaces_secret, makes_secret.
  destruct (first_match url (slate_handlers _ _ _ _ _ _)) as [handler|] eqn:Hh;
    [|left; by destruct (first_match url slate_resources)].
  assert (forall (r : ShellState * result Response Response),
    (match r with (s', Ok response) | (s', Err response) => (s', Respond response) end).1 = r.1)
    as Hfst by by intros [? [?|?]].
  rewrite Hfst. clear Hfst. pose proof (moves_create_export now random Hrandom) as Hexport.
  apply (handler_moves same_loaded) in Hh as [[-> ->]|[[-> ->]|[[-> ->]|[[-> ->]|[[-> ->]|Hm]]]]].
  - destruct (moves_handoff_import_page usable_or_foreign url now moves_bundle s) as [Hm|Hm].
    + right; left. by rewrite orb_true_r.
    + by right; right; right.
  - right; left. split; [done|].
    exact (moves_create_page keeps_usable random now (moves_create now random Hrandom) s).
  - right; left. rewrite orb_true_r. split; [done|].
    exact (moves_key_import_page keeps_usable url now moves_import s).
  - right; right; left. split; [done|].
    exact (moves_key_export_page fills url random now (key_export_fills random now Hrandom) s).
  - right; right; left. rewrite orb_true_r. split; [done|].
    exact (moves_download_page fills url random now (key_export_fills random now Hrandom) s).
  - left. apply Hm.
Qed.

(** C33: (invariant) Whatever is requested, a loaded secret is never lost: every request leaves
    the loaded secret as it is, but the requests to create a secret and to import a key or a
    handoff bundle, which may replace it, and, when none is loaded, those to export or download
    the key, which may make one. The secret that is then loaded can be used for the profile of
    the shell, if the one before could. The exception is a handoff bundle of another profile,
    which replaces the loaded secret by one that is refused as a secret of this profile. *)
Theorem loaded_secret_usable url random now s :
  (forall bytes, random = Some bytes -> str_len bytes = SLATE_SYNC_SECRET_BYTES) ->
  (forall export, loaded s = Some export -> export_usable export) ->
  let s' := (slate_load macos current_dir start_default_session url random now s).1 in
  (is_Some (loaded s) -> is_Some (loaded s')) /\
  (loaded s' = loaded s \/ replaces_secret url = true \/
   (loaded s = None /\ makes_secret url = true)) /\
  ((forall export, loaded s' = Some export ->
     export_usable export /\ exists secret,
     active_sync_secret DEFAULT_PROFILE_ID (sh_preview s') = Ok (Some secret)) \/
   (is_slate_settings_profile_sync_handoff_import_url url = true /\ foreign_secret s')).
Proof.
  intros Hrandom Hs. cbn zeta. pose proof (slate_load_effect url random now s Hrandom) as He.
  set (s' := (slate_load _ _ _ _ _ _ s).1) in *. clearbody s'.
  assert (keeps_usable s s' -> forall export, loaded s' = Some export ->
    export_usable export /\ exists secret,
    active_sync_secret DEFAULT_PROFILE_ID (sh_preview s') = Ok (Some secret)) as Hkept.
  { intros Hk export Hl. assert (export_usable export) as Hu.
    { destruct Hk as [Hk|(export' & Hk & Hu)]; [apply Hs; congruence|congruence]. }
    split; [done|]. destruct Hu as [secret Hu]. exists secret.
    unfold active_sync_secret, loaded in *. rewrite Hl. by rewrite Hu. }
  destruct He as [He|[[Hurl He]|[[Hurl He]|[Hurl (bundle & Hl & Hforeign)]]]].
  - unfold same_loaded in He. split_and!; [by rewrite He|by left|left; apply Hkept; by left].
  - split_and!; [|by right; left|by left; apply Hkept].
    by destruct He as [->|(export & -> & _)].
  - destruct He as [He|[Hnone He]].
    + split_and!; [by rewrite He|by left|left; apply Hkept; by left].
    + split_and!; [by destruct He as (export & -> & _)|by right; right|].
      left. apply Hkept. by right.
  - split_and!; [by rewrite Hl|right; left; unfold replaces_secret; by rewrite Hurl, orb_true_r|].
    right. split; [done|]. by exists bundle.
Qed.
End Loaded.

(** ** Concrete requests *)

#[local] Instance no_cycles : LocalCycles unit := {|
  CurrentReport := unit; TrialReport := unit; TwoDeviceReport := unit;
  current_local_device_id _ := ""; trial_local_device_id _ := "";
  two_device_publisher_device_id _ := "";
  current_report_json _ _ := JNull; trial_report_json _ _ := JNull;
  two_device_report_json _ _ := JNull;
  run_local_settings_sync_current_cycle _ _ _ s := (s, Ok tt);
  run_local_settings_sync_preview_cycle _ _ _ s := (s, Ok tt);
  run_local_settings_sync_two_device_preview_cycle _ _ _ s := (s, Ok tt)
|}.

(** Derived bytes that depend on the secret. *)
Definition secret_sealer : SyncSealer := {|
  signed_object_to_vec := document_to_vec;
  encrypted_object_to_vec := document_to_vec;
  membership_record_to_vec := document_to_vec;
  device_head_to_vec := document_to_vec;
  manifest_to_vec := document_to_vec;
  settings_snapshot_to_vec := document_to_vec;
  setting_change_to_vec := document_to_vec;
  secret_export_to_vec := document_to_vec;
  secret_export_from_slice := document_from_slice;
  enrollment_bundle_to_vec := document_to_vec;
  enrollment_bundle_from_slice := document_from_slice;
  handoff_bundle_to_vec := document_to_vec;
  handoff_bundle_from_slice := document_from_slice;
  enrollment_request_to_vec := document_to_vec;
  enrollment_request_from_slice := document_from_slice;
  chacha20_poly1305_seal := chacha20_poly1305_seal reference_sealer;
  hkdf_sha256 := fun salt secret info =>
    Some (fixed_bytes 32 (fixed_bytes 8 secret +:+ str_rev (salt +:+ info)));
  ed25519_from_seed := ed25519_from_seed reference_sealer;
  ed25519_from_pkcs8 := ed25519_from_pkcs8 reference_sealer;
  base64_url_encode := fun bytes => bytes;
  base64_url_decode := fun text => Some text
|}.

#[local] Instance no_files : ShellUrls := {|
  to_file_path _ := None; from_file_path _ := None; is_reg_domain _ := false
|}.
Definition no_encoders : PayloadEncoders :=
  let refuse {P} (_ : P) : result string string := Err "not in the fixture" in
  Build_PayloadEncoders refuse refuse refuse refuse refuse refuse refuse.

Definition demo_env (sealer : SyncSealer) (pairs : list (string * string)) : ShellEnv := {|
  shell_codec := reference_codec; shell_sealer := sealer; shell_encoders := no_encoders;
  shell_device_id := "desk"; shell_database_path := "slate.db"; shell_sql_error _ := "SQL error";
  query_pairs _ := pairs; default_session_state_root := "/tmp/slate"
|}.

Definition settings_url (action : string) : Url := {|
  url_as_str := "slate://settings/" +:+ action;
  url_without_fragment := "slate://settings/" +:+ action; url_scheme := "slate";
  url_username := ""; url_password := None; url_host_str := Some "settings"; url_port := None;
  url_path := "/" +:+ action; url_query := None; url_fragment := None;
  url_path_segments := Some (str_split "/" action)
|}.

Definition start_shell : ShellState (W := unit) := {|
  sh_database := Some empty_db; sh_preview := default_preview_state;
  sh_settings := initial_chrome_settings false; sh_daemon := None;
  sh_files := {| fs_files := ∅; fs_dirs := ∅; fs_faults := [] |}; sh_world := tt
|}.

(** No daemon is started by the requests below. *)
Definition no_daemon : state_result (FileSystem * unit) BroadwebdError (BroadwebDaemon unit) :=
  fun s => (s, Err (UnsupportedRequest "no daemon")).

Definition demo_load (sealer : SyncSealer) (pairs : list (string * string)) (action : string)
    (random : option string) (now : Z) (s : ShellState) : ShellState * Answer :=
  @slate_load unit no_cycles (demo_env sealer pairs) reference_crate bars_index_json no_files
    false "/home" no_daemon (settings_url action) random now s.

(** The status of an answer, and the key it shows. *)
Definition answer_status (answer : Answer) : option HttpStatus :=
  match answer with Respond r => Some (rp_status r) | _ => None end.
Definition shown_key (answer : Answer) : option Json :=
  match answer with
  | Respond r => match rp_body r with
                 | JsonBody json => json_field "key_export_text" json
                 | TextBody _ => None
                 end
  | _ => None
  end.

Definition first_random : string := "aaaaaaaaaaaaaaaabbbbbbbbbbbbbbbb".
Definition second_random : string := "ccccccccccccccccdddddddddddddddd".
Definition created_shell : ShellState :=
  (demo_load secret_sealer [] "profile-sync/create" (Some first_random) 1 start_shell).1.

(** A second request to create a secret fails, since the roster keeps the authority of the
    first; the secret the profile is enrolled with is gone, and the new one, which no device
    of the profile accepts, is exported as the key of the profile. *)
Example second_create_loses_key :
  let '(s, answer) := demo_load secret_sealer [] "profile-sync/create" (Some second_random) 2
                        created_shell in
  let '(_, exported) := demo_load secret_sealer [] "profile-sync/key/export" None 3 s in
  option_map se_secret (loaded created_shell) = Some first_random /\
  answer_status answer = Some (StatusRaw 500) /\
  option_map se_secret (loaded s) = Some second_random /\
  answer_status exported = Some (StatusRaw 200) /\ is_Some (shown_key exported).
Proof. vm_compute. by eauto 10. Qed.

(** A handoff bundle of the profile [other], imported with a secret loaded. *)
Definition foreign_bundle_text : string :=
  match profile_sync_secret_handoff_bundle_from_secret reference_codec secret_sealer "other"
          demo_secret "desk" 10 with
  | Ok bundle => match handoff_bundle_to_bytes reference_codec secret_sealer bundle with
                 | Ok bytes => bytes
                 | Err _ => ""
                 end
  | Err _ => ""
  end.
Example foreign_bundle_replaces_key :
  let '(s, answer) := demo_load secret_sealer [("handoff", foreign_bundle_text)]
                        "profile-sync/handoff/import" None 2 created_shell in
  let '(_, added) := demo_load secret_sealer [] "profile-sync/local-provider" None 3 s in
  answer_status answer = Some (StatusRaw 200) /\
  option_map se_profile (loaded s) = Some "other" /\
  answer_status added = Some (StatusRaw 400).
Proof. vm_compute. by split_and!. Qed.

Lemma loaded_secret_usable_witness :
  let s := (demo_load reference_sealer [] "profile-sync/create" (Some first_random) 1
              start_shell).1 in
  exists secret, @active_sync_secret unit no_cycles (demo_env reference_sealer [])
                   DEFAULT_PROFILE_ID (sh_preview s) = Ok (Some secret).
Proof.
  cbn zeta.
  destruct (@loaded_secret_usable unit no_cycles (demo_env reference_sealer []) reference_crate
              bars_index_json no_files false "/home" no_daemon reference_laws
              (settings_url "profile-sync/create") (Some first_random) 1 start_shell)
    as (_ & _ & [H|[Hurl _]]).
  - intros bytes [= <-]. vm_compute. reflexivity.
  - intros export [=].
  - destruct (H {| se_profile := "default"; se_schema_version := 1; se_secret := first_random;
                   se_created_at := 1 |}) as [_ Hs]; [vm_compute; reflexivity|exact Hs].
  - vm_compute in Hurl. discriminate.
Defined.
