(* ===== verification/ChromeSettingsLaws.v ===== *)
(** * Laws of the shell's settings

    The zoom is kept between its limits whatever text it comes from, what the settings page
    saves is in use after a restart, and the changes of another device are in use once they
    are polled. *)
From S2P Require Import Prelude RustStr Broadwebd Http Downloads Daemon.
From S2P Require Import AppViews Database SyncStore SyncCursor SyncObjects SyncSecrets Sealing.
From S2P Require Import KeyBindings KeyBindingLaws ChromeSettings LocationBar ShellResponses.
From S2P Require Import AppData UrlReference DownloadLaws ProfileSyncPages SlatePages SlateLaws.

(** ** The zoom *)

Definition zoom_percents : list Z := map Z.of_nat (seq 75 41).

Lemma zoom_percent_in percent : 75 <= percent <= 115 <-> percent ∈ zoom_percents.
Proof.
  unfold zoom_percents. rewrite list_elem_of_fmap. setoid_rewrite elem_of_seq. split.
  - intros Hp. exists (Z.to_nat percent). lia.
  - intros (n & -> & Hn). lia.
Qed.

Lemma clamp_percent_range percent : 75 <= clamp_percent percent <= 115.
Proof.
  unfold clamp_percent, CHROME_ELEMENT_ZOOM_PERCENT_MIN, CHROME_ELEMENT_ZOOM_PERCENT_MAX. lia.
Qed.

Lemma zoom_percent_range zoom : 75 <= chrome_element_zoom_percent zoom <= 115.
Proof. apply clamp_percent_range. Qed.

(** A percentage is read back from the number it stands for, and from its text. *)
Lemma zoom_percent_kept percent :
  75 <= percent <= 115 ->
  chrome_element_zoom_percent (chrome_element_zoom_from_percent percent) = percent /\
  exists zoom, parse_f32 (format_f32_2 (chrome_element_zoom_from_percent percent)) = Some zoom
    /\ chrome_element_zoom_percent zoom = percent.
Proof.
  intros Hp%zoom_percent_in.
  assert (forallb (fun percent =>
    (chrome_element_zoom_percent (chrome_element_zoom_from_percent percent) =? percent)
    && match parse_f32 (format_f32_2 (chrome_element_zoom_from_percent percent)) with
       | Some zoom => chrome_element_zoom_percent zoom =? percent
       | None => false
       end) zoom_percents = true) as Hall by (vm_compute; reflexivity).
  rewrite forallb_forall in Hall. specialize (Hall percent).
  apply list_elem_of_In in Hp. specialize (Hall Hp).
  apply andb_true_iff in Hall as [H1%Z.eqb_eq H2]. split; [done|].
  destruct (parse_f32 _) as [zoom|]; [|done]. exists zoom. split; [done|by apply Z.eqb_eq].
Qed.

#[local] Opaque chrome_element_zoom_percent chrome_element_zoom_from_percent format_f32_2 parse_f32.

(** ** Other settings of the database *)

Section Other.
Context (device : string) (macos : bool).

Lemma load_bindings_other actions now bs db key :
  (forall action, action ∈ actions -> key <> setting_key action) ->
  get_setting_text key (load_key_bindings macos device actions now bs db).1
  = get_setting_text key db.
Proof.
  revert bs db. induction actions as [|action actions IH]; intros bs db Hkey; [done|].
  cbn [load_key_bindings]. pose proof (load_effect device macos action now db) as Hload.
  destruct (load_key_binding_from_database _ _ action now db) as [db1 b].
  destruct Hload as (_ & _ & Hother). rewrite IH by set_solver. apply Hother. set_solver.
Qed.

Lemma persist_other actions bs now db key :
  (forall action, action ∈ actions -> key <> setting_key action) ->
  get_setting_text key
    (fold_left (fun db action => try_set_setting_text device (setting_key action)
                 (setting_value (binding bs action)) now db) actions db)
  = get_setting_text key db.
Proof.
  revert db. induction actions as [|action actions IH]; intros db Hkey; [done|].
  cbn [fold_left]. rewrite IH by set_solver. unfold try_set_setting_text.
  pose proof (set_setting_text_effect device (setting_key action)
    (setting_value (binding bs action)) now db) as He.
  destruct (set_setting_text _ _ _ _ db) as [db1 [u|e]]; cbn; [|by subst].
  rewrite He. by rewrite (proj2 (str_eqb_neq _ _) (Hkey action ltac:(left))).
Qed.

Lemma zoom_key_other action : CHROME_ELEMENT_ZOOM_SETTING_KEY <> setting_key action.
Proof. by destruct action. Qed.

Lemma initialize_keeps_zoom now db :
  get_setting_text CHROME_ELEMENT_ZOOM_SETTING_KEY
    (initialize_key_bindings_from_database macos device now db).1
  = get_setting_text CHROME_ELEMENT_ZOOM_SETTING_KEY db.
Proof.
  exact (load_bindings_other KEY_BINDING_ACTIONS now (default_key_bindings macos) db
    CHROME_ELEMENT_ZOOM_SETTING_KEY (fun action _ => zoom_key_other action)).
Qed.
End Other.

(** ** Saving *)

(** Every binding is one a text is read as. *)
Definition readable_bindings (macos : bool) (bs : SlateKeyBindings) : Prop :=
  forall action, exists value, key_binding_parse macos value = Some (binding bs action).

Lemma readable_set macos action value bs :
  readable_bindings macos bs ->
  readable_bindings macos (set_binding action (parse_or_default macos action value) bs).
Proof.
  intros Hbs a. rewrite binding_set_binding. case_bool_decide as E; [|apply Hbs].
  unfold parse_or_default. destruct (key_binding_parse macos value) as [b|] eqn:Hp.
  - by exists value.
  - exists (default_setting_value action). by rewrite default_value_parses.
Qed.

Lemma readable_query macos pairs url actions bs found :
  readable_bindings macos bs ->
  readable_bindings macos (bindings_from_query macos pairs url actions bs found).1.
Proof.
  revert bs found. induction actions as [|action actions IH]; intros bs found Hbs; [done|].
  cbn. case_match; [|by apply IH]. apply IH. by apply readable_set.
Qed.

Section Saved.
Context {W : Type} `{LocalCycles W, ShellEnv, UrlCrate, DownloadIndexJson, ShellUrls}.
Context (macos : bool) (current_dir : string).
Context (start_default_session : state_result (FileSystem * W) BroadwebdError (BroadwebDaemon W)).

(** The requests that save: [settings/save] and [settings/apply]. *)
Definition saves_settings (url : Url) : Prop :=
  is_slate_settings_save_url url = true \/ is_slate_settings_apply_url url = true.

Lemma save_handler url random now :
  saves_settings url ->
  first_match url (slate_handlers macos current_dir start_default_session url random now)
  = Some (settings_save_response macos url now).
Proof.
  unfold saves_settings, is_slate_settings_save_url, is_slate_settings_apply_url, names_action.
  rewrite !andb_true_iff, !bool_decide_eq_true, !str_eqb_eq.
  unfold first_match, slate_handlers. cbn [list_find_bool fst snd option_map].
  intros [[[Hs Hh] Hp]|[[Hs Hh] Hp]];
    (repeat match goal with
    | |- context [if ?test url then _ else _] =>
        replace (test url) with false
          by (unfold test, names_action, names_page; rewrite Hs, Hh, Hp; reflexivity)
    end);
    unfold is_slate_settings_save_url at 1, is_slate_settings_apply_url at 1, names_action at 1 2;
    by rewrite Hs, Hh, Hp.
Qed.

(** The zoom a request asks for, or the one in use. *)
Definition asked_percent (url : Url) (settings : ChromeSettings) : Z :=
  match chrome_element_zoom_setting_from_url url with
  | Some zoom => chrome_element_zoom_percent zoom
  | None => cs_zoom_percent settings
  end.

Lemma requested_zoom_outcome url (s : ShellState (W := W)) :
  75 <= cs_zoom_percent (sh_settings s) <= 115 ->
  let percent := asked_percent url (sh_settings s) in
  75 <= percent <= 115 /\
  requested_zoom url s
  = (set_sh_settings {| cs_zoom_percent := percent;
                        cs_key_bindings := cs_key_bindings (sh_settings s) |} s,
     Ok (chrome_element_zoom_from_percent percent)).
Proof.
  intros Hp. unfold requested_zoom, asked_percent, on_shell_settings.
  destruct (chrome_element_zoom_setting_from_url url) as [zoom|]; cbn.
  - split; [apply zoom_percent_range|done].
  - split; [done|]. unfold current_chrome_element_zoom_setting. by destruct s as [? ? [? ?]].
Qed.

(** What saving leaves: the zoom is written, and the bindings when the request has one. *)
Lemma save_outcome url now s db :
  sh_database s = Some db -> 75 <= cs_zoom_percent (sh_settings s) <= 115 ->
  let asked := key_bindings_from_settings_url macos query_pairs url
                 (cs_key_bindings (sh_settings s)) in
  let percent := asked_percent url (sh_settings s) in
  let db1 := (set_setting_f32 shell_device_id CHROME_ELEMENT_ZOOM_SETTING_KEY
                (chrome_element_zoom_from_percent percent) now db).1 in
  let s' := (settings_save_response macos url now s).1 in
  sh_database s' = Some (match asked with
                         | Some bindings =>
                             persist_key_bindings_to_database shell_device_id bindings now db1
                         | None => db1
                         end) /\
  sh_settings s' = {| cs_zoom_percent := percent;
                      cs_key_bindings := default (cs_key_bindings (sh_settings s)) asked |} /\
  is_ok (settings_save_response macos url now s).2 = true.
Proof.
  intros Hdb Hp asked percent db1.
  destruct (requested_zoom_outcome url s Hp) as [_ Hzoom].
  unfold settings_save_response, persist_chrome_element_zoom_setting, persist_key_bindings,
    persist_settings, on_shell_settings, sr_bind. rewrite Hzoom. cbn. rewrite Hdb. cbn.
  fold asked. by destruct asked as [bindings|]; cbn; split_and!.
Qed.

Lemma ensure_existing device key value now db stored :
  get_setting_text key db = Some stored ->
  ensure_setting_f32 device key value now db = (db, Ok (default value (parse_f32 stored))).
Proof.
  intros Hs. unfold ensure_setting_f32, ensure_setting_text, sr_bind, query, sr_ret. by rewrite Hs.
Qed.

Lemma initialize_outcome now settings db db1 db2 bs zoom :
  initialize_key_bindings_from_database macos shell_device_id now db = (db1, bs) ->
  ensure_setting_f32 shell_device_id CHROME_ELEMENT_ZOOM_SETTING_KEY
    CHROME_ELEMENT_ZOOM_SETTING_DEFAULT now db1 = (db2, Ok zoom) ->
  initialize_chrome_settings_from_database macos shell_device_id now settings db
  = (db2, {| cs_zoom_percent := chrome_element_zoom_percent zoom; cs_key_bindings := bs |}).
Proof. intros Hb Hz. unfold initialize_chrome_settings_from_database. by rewrite Hb, Hz. Qed.

(** The zoom that is stored, and the bindings the database stands for, are in use. *)
Lemma restart_zoom percent now settings db :
  75 <= percent <= 115 ->
  get_setting_text CHROME_ELEMENT_ZOOM_SETTING_KEY db
    = Some (format_f32_2 (chrome_element_zoom_from_percent percent)) ->
  (initialize_chrome_settings_from_database macos shell_device_id now settings db).2
  = {| cs_zoom_percent := percent;
       cs_key_bindings := (initialize_key_bindings_from_database macos shell_device_id now db).2 |}.
Proof.
  intros Hp Hzoom. pose proof (initialize_keeps_zoom shell_device_id macos now db) as Hother.
  destruct (zoom_percent_kept percent Hp) as [_ (zoom & Hparse & Hz)].
  destruct (initialize_key_bindings_from_database _ _ now db) as [db1 bs1] eqn:Hload.
  cbn [fst snd] in *. rewrite Hzoom in Hother.
  assert (ensure_setting_f32 shell_device_id CHROME_ELEMENT_ZOOM_SETTING_KEY
            CHROME_ELEMENT_ZOOM_SETTING_DEFAULT now db1 = (db1, Ok zoom)) as Hensure.
  { by rewrite (ensure_existing _ _ _ _ _ _ Hother), Hparse. }
  rewrite (initialize_outcome _ _ _ _ _ _ _ Hload Hensure). by rewrite Hz.
Qed.

(** The bindings a database stands for when the shell starts. *)
Lemma started_binding now settings db action :
  binding (cs_key_bindings
    (initialize_chrome_settings_from_database macos shell_device_id now settings db).2) action
  = stored_binding macos action (get_setting_text (setting_key action) db).
Proof.
  pose proof (initialize_effect shell_device_id macos now db) as Hi.
  unfold initialize_chrome_settings_from_database.
  destruct (initialize_key_bindings_from_database _ _ now db) as [db1 bs1].
  destruct Hi as [Hbs _]. rewrite <- Hbs.
  by destruct (ensure_setting_f32 _ _ _ _ db1) as [db2 [zoom|e]].
Qed.

(** The zoom as it is written. *)
Lemma zoom_written percent now db :
  room shell_device_id 11 db ->
  let db1 := (set_setting_f32 shell_device_id CHROME_ELEMENT_ZOOM_SETTING_KEY
                (chrome_element_zoom_from_percent percent) now db).1 in
  room shell_device_id 10 db1 /\
  get_setting_text CHROME_ELEMENT_ZOOM_SETTING_KEY db1
    = Some (format_f32_2 (chrome_element_zoom_from_percent percent)) /\
  forall action,
    get_setting_text (setting_key action) db1 = get_setting_text (setting_key action) db.
Proof.
  intros Hroom. unfold set_setting_f32.
  set (value := format_f32_2 (chrome_element_zoom_from_percent percent)).
  destruct (set_setting_text_room shell_device_id 11 CHROME_ELEMENT_ZOOM_SETTING_KEY value now db)
    as (db1 & Hwrite & Hroom1); [unfold i64_max; lia|done|].
  pose proof (set_setting_text_effect shell_device_id CHROME_ELEMENT_ZOOM_SETTING_KEY value now db)
    as Heff. rewrite Hwrite in Heff |- *. cbn [fst].
  split_and!; [exact Hroom1|by rewrite Heff, str_eqb_refl|].
  intros action. rewrite Heff. by destruct action.
Qed.

(** The zoom is written before the bindings; both are there when the shell starts again. *)
Lemma restart_after_save percent bindings now now' settings db :
  75 <= percent <= 115 -> readable_bindings macos bindings -> room shell_device_id 11 db ->
  let db1 := (set_setting_f32 shell_device_id CHROME_ELEMENT_ZOOM_SETTING_KEY
                (chrome_element_zoom_from_percent percent) now db).1 in
  let restarted := (initialize_chrome_settings_from_database macos shell_device_id now' settings
    (persist_key_bindings_to_database shell_device_id bindings now db1)).2 in
  cs_zoom_percent restarted = percent /\
  forall action, binding (cs_key_bindings restarted) action
    = if bool_decide (legacy_default_setting_value action
                      = Some (setting_value (binding bindings action)))
      then default_key_binding macos action else binding bindings action.
Proof.
  intros Hp Hreadable Hroom db1.
  destruct (zoom_written percent now db Hroom) as (Hroom1 & Hzoom & _). fold db1 in Hroom1, Hzoom.
  cbn zeta. rewrite (restart_zoom percent); [|done|].
  - split; [done|]. cbn [cs_key_bindings].
    pose proof (key_bindings_survive_restart shell_device_id macos bindings now now' now' db1
                  Hreadable Hroom1) as Hb.
    destruct (initialize_key_bindings_from_database _ _ now' _) as [db2 bs2]. apply Hb.
  - unfold persist_key_bindings_to_database.
    rewrite persist_other; [exact Hzoom|]. intros; apply zoom_key_other.
Qed.

(** Without a binding, the zoom is written and the bindings are those of before. *)
Lemma restart_after_zoom percent now now' settings db :
  75 <= percent <= 115 -> room shell_device_id 11 db ->
  let db1 := (set_setting_f32 shell_device_id CHROME_ELEMENT_ZOOM_SETTING_KEY
                (chrome_element_zoom_from_percent percent) now db).1 in
  let started db :=
    (initialize_chrome_settings_from_database macos shell_device_id now' settings db).2 in
  cs_zoom_percent (started db1) = percent /\
  forall action, binding (cs_key_bindings (started db1)) action
                 = binding (cs_key_bindings (started db)) action.
Proof.
  intros Hp Hroom db1 started.
  destruct (zoom_written percent now db Hroom) as (_ & Hzoom & Hother).
  fold db1 in Hzoom, Hother. split.
  - unfold started. by rewrite (restart_zoom percent).
  - intros action. unfold started. by rewrite !started_binding, Hother.
Qed.

Lemma saved_readable url current bindings :
  readable_bindings macos current ->
  key_bindings_from_settings_url macos query_pairs url current = Some bindings ->
  readable_bindings macos bindings.
Proof.
  intros Hcurrent. unfold key_bindings_from_settings_url.
  pose proof (readable_query macos query_pairs url KEY_BINDING_ACTIONS _ false Hcurrent) as Hq.
  destruct (bindings_from_query _ _ _ _ _ _) as [bs []]; [|done]. by intros [= <-].
Qed.

Lemma load_save_state url random now s :
  saves_settings url ->
  (slate_load macos current_dir start_default_session url random now s).1
  = (settings_save_response macos url now s).1.
Proof.
  intros Hurl. unfold slate_load. rewrite save_handler by done.
  by destruct (settings_save_response macos url now s) as [s' [r|r]].
Qed.

Lemma new_handler_settings db daemon files world settings now :
  sh_settings (slate_handler_new (W := W) macos db daemon files world settings now)
  = (initialize_chrome_settings_from_database macos shell_device_id now settings db).2.
Proof.
  unfold slate_handler_new. by destruct (initialize_chrome_settings_from_database _ _ _ _ _).
Qed.

(** C36: (functional) What a request to save or to apply the settings puts in use is in use after
    a restart, if the shell has a database with room for eleven more changes: the zoom it asks
    for, within its limits, whether or not it changes a binding; when it does, every binding it
    leaves in use, but one that reads like the default of an older version; when it does not,
    the bindings a restart would have loaded without it. *)
Theorem saved_settings_survive_restart url random now now' s db :
  saves_settings url ->
  sh_database s = Some db -> room shell_device_id 11 db ->
  75 <= cs_zoom_percent (sh_settings s) <= 115 ->
  readable_bindings macos (cs_key_bindings (sh_settings s)) ->
  let asked := key_bindings_from_settings_url macos query_pairs url
                 (cs_key_bindings (sh_settings s)) in
  let restart db := sh_settings (slate_handler_new macos db (sh_daemon s) (sh_files s)
                      (sh_world s) (initial_chrome_settings macos) now') in
  let s' := (slate_load macos current_dir start_default_session url random now s).1 in
  sh_settings s' = {| cs_zoom_percent := asked_percent url (sh_settings s);
                      cs_key_bindings := default (cs_key_bindings (sh_settings s)) asked |} /\
  75 <= asked_percent url (sh_settings s) <= 115 /\
  exists db', sh_database s' = Some db' /\
    cs_zoom_percent (restart db') = asked_percent url (sh_settings s) /\
    forall action, binding (cs_key_bindings (restart db')) action
      = match asked with
        | Some bindings =>
            if bool_decide (legacy_default_setting_value action
                            = Some (setting_value (binding bindings action)))
            then default_key_binding macos action else binding bindings action
        | None => binding (cs_key_bindings (restart db)) action
        end.
Proof.
  intros Hurl Hdb Hroom Hp Hreadable asked restart. rewrite load_save_state by done.
  destruct (requested_zoom_outcome url s Hp) as [Hrange _].
  destruct (save_outcome url now s db Hdb Hp) as (Hdb' & Hset & _). cbn zeta in *.
  fold asked in Hdb', Hset. rewrite Hset, Hdb'. split; [done|]. split; [exact Hrange|].
  eexists. split; [reflexivity|]. unfold restart. rewrite !new_handler_settings.
  destruct asked as [bindings|] eqn:Hasked.
  - apply restart_after_save; [exact Hrange| |exact Hroom].
    by apply (saved_readable url _ _ Hreadable).
  - exact (restart_after_zoom _ now now' (initial_chrome_settings macos) db Hrange Hroom).
Qed.
End Saved.

(** A zoom and a binding are saved. *)
Definition saved_pairs : list (string * string) :=
  [("chrome_zoom", "1.1"); (query_parameter CloseTab, "Alt+F4")].
(** Only the zoom is saved. *)
Definition zoom_pairs : list (string * string) := [("chrome_zoom", "1.03")].

(** The settings in use after a request to save, and after a restart. *)
Abbreviation saved_by pairs :=
  (demo_load reference_sealer pairs "save" None 1 start_shell).1.
Abbreviation restarted_by pairs db :=
  (sh_settings (@slate_handler_new unit no_cycles (demo_env reference_sealer pairs) false db
     (sh_daemon start_shell) (sh_files start_shell) (sh_world start_shell)
     (initial_chrome_settings false) 2)).

Lemma saved_settings_survive_restart_witness :
  (exists db', sh_database (saved_by saved_pairs) = Some db' /\
    cs_zoom_percent (restarted_by saved_pairs db') = 110 /\
    binding (cs_key_bindings (restarted_by saved_pairs db')) CloseTab = key_binding_named ALT F4 /\
    binding (cs_key_bindings (restarted_by saved_pairs db')) NextTab
    = default_key_binding false NextTab) /\
  (exists db', sh_database (saved_by zoom_pairs) = Some db' /\
    cs_zoom_percent (restarted_by zoom_pairs db') = 103 /\
    binding (cs_key_bindings (restarted_by zoom_pairs db')) CloseTab
    = binding (cs_key_bindings (restarted_by zoom_pairs empty_db)) CloseTab).
Proof.
  assert (readable_bindings false (cs_key_bindings (sh_settings start_shell))) as Hreadable.
  { intros action. exists (default_setting_value action). destruct action; vm_compute; reflexivity. }
  split.
  - destruct (@saved_settings_survive_restart unit no_cycles
                (demo_env reference_sealer saved_pairs) reference_crate bars_index_json no_files
                false "/home" no_daemon (settings_url "save") None 1 2 start_shell empty_db)
      as (_ & _ & db' & Hdb & Hzoom & Hbs);
      [left; vm_compute; reflexivity|reflexivity|split; constructor
      |vm_compute; split; discriminate|exact Hreadable|].
    + exists db'. split; [exact Hdb|]. split_and!.
      * etransitivity; [exact Hzoom|]. vm_compute. reflexivity.
      * etransitivity; [exact (Hbs CloseTab)|]. vm_compute. reflexivity.
      * etransitivity; [exact (Hbs NextTab)|]. vm_compute. reflexivity.
  - destruct (@saved_settings_survive_restart unit no_cycles
                (demo_env reference_sealer zoom_pairs) reference_crate bars_index_json no_files
                false "/home" no_daemon (settings_url "save") None 1 2 start_shell empty_db)
      as (_ & _ & db' & Hdb & Hzoom & Hbs);
      [left; vm_compute; reflexivity|reflexivity|split; constructor
      |vm_compute; split; discriminate|exact Hreadable|].
    + exists db'. split; [exact Hdb|]. split_and!.
      * etransitivity; [exact Hzoom|]. vm_compute. reflexivity.
      * etransitivity; [exact (Hbs CloseTab)|]. vm_compute. reflexivity.
Defined.
