(* ===== verification/PublisherLaws.v ===== *)
(** * Laws of the settings publisher

    [ContentClient] states what a broadwebd client promises to a publisher: what has been
    put is kept and served, and only a publication moves a root.  Against it: the pending
    local settings are published in one step and found up to date by the next. *)
From S2P Require Import Prelude RustStr Broadwebd.
From S2P Require Import AppViews Database SyncObjects SyncStore Membership MembershipLaws.
From S2P Require Import ProfileTables TrustedOpen Snapshots SyncSecrets Sealing.
From S2P Require Import Pulls SyncLww SnapshotLaws PullLaws SyncClient Publisher.

(** ** The client's promise *)

(** [contents]: the bytes a profile can read under an object id; [announced]: the object a
    root of the profile resolves to. *)
Class ContentClient (W : Type) `{BroadwebdClient W} := {
  contents : W -> gmap (string * string) string;
  announced : W -> gmap (string * string) string;
  put_keeps w profile bytes w' r : put_encrypted_object profile bytes w = (w', r) ->
    contents w ⊆ contents w' /\ announced w' = announced w /\
    forall id, r = Ok id ->
      is_empty id = false /\ contents w' !! (profile, id) = Some bytes;
  retain_keeps w profile id w' r : client_retain_object profile id w = (w', r) ->
    contents w ⊆ contents w' /\ announced w' = announced w;
  publish_keeps w profile root_id id w' r : client_publish_root profile root_id id w = (w', r) ->
    contents w ⊆ contents w' /\
    announced w' = if is_ok r then <[(profile, root_id) := id]> (announced w) else announced w;
  get_keeps w profile id w' r : source_get_profile_sync_object profile id w = (w', r) ->
    contents w ⊆ contents w' /\ announced w' = announced w /\
    forall object bytes, r = Ok object -> contents w !! (profile, id) = Some bytes ->
      ob_object_id object = id -> ob_bytes object = bytes
}.

Section Client.
Context {W : Type} `{ContentClient W}.

(** The client has kept what it held; it has moved no root. *)
Definition grows (w w' : W) : Prop := contents w ⊆ contents w'.
Definition quiet (w w' : W) : Prop := grows w w' /\ announced w' = announced w.

#[export] Instance grows_preorder : PreOrder grows.
Proof.
  split; [intros w; unfold grows; done|]. intros w1 w2 w3 H1 H2. unfold grows in *.
  by etransitivity.
Qed.

#[export] Instance quiet_preorder : PreOrder quiet.
Proof.
  split; [intros w; by split|]. intros w1 w2 w3 [? ?] [? ?].
  split; [by etransitivity|congruence].
Qed.

Lemma put_retained_object_ok profile bytes w w' id :
  put_retained_object profile bytes w = (w', Ok id) ->
  quiet w w' /\ is_empty id = false /\ contents w' !! (profile, id) = Some bytes.
Proof.
  intros (w1 & id1 & Hp & Hr)%sr_bind_ok. apply sr_bind_ok in Hr as (w2 & b & Hr & [= <- <-]).
  apply put_keeps in Hp as (Hc & Ha & Hid). apply retain_keeps in Hr as [Hc2 Ha2].
  destruct (Hid id1 eq_refl) as [He Hb]. split; [split|split; [done|]].
  - unfold grows. by etransitivity.
  - congruence.
  - by eapply lookup_weaken.
Qed.

Lemma put_retained_root_ok profile root_id bytes w w' id :
  put_retained_root profile root_id bytes w = (w', Ok id) ->
  grows w w' /\ announced w' = <[(profile, root_id) := id]> (announced w) /\
  is_empty id = false /\ contents w' !! (profile, id) = Some bytes.
Proof.
  intros (w1 & id1 & ([Hc Ha] & He & Hb)%put_retained_object_ok & Hr)%sr_bind_ok.
  apply sr_bind_ok in Hr as (w2 & b & Hr & [= <- <-]).
  apply publish_keeps in Hr as [Hc2 Ha2]. simpl in Ha2. split_and!.
  - unfold grows in *. by etransitivity.
  - congruence.
  - done.
  - by eapply lookup_weaken.
Qed.
End Client.

(** ** What the publisher puts *)

(** What the check of a device head leaves. *)
Lemma validated_head sealer profile root_id device_head signer :
  validate_device_head_for_publish sealer profile root_id device_head signer = Ok tt ->
  dh_profile device_head = profile /\ dh_root_id device_head = root_id /\
  dh_schema_version device_head = PROFILE_SYNC_DEVICE_HEAD_SCHEMA_VERSION /\
  exists pk, signer_public_key sealer signer = Ok pk /\ dh_device_id device_head = pk_device_id pk.
Proof.
  unfold validate_device_head_for_publish. destruct (is_empty root_id); [done|].
  destruct (str_eqb (dh_profile device_head) profile) eqn:H1; [|done].
  destruct (str_eqb (dh_root_id device_head) root_id) eqn:H2; [|done].
  destruct (dh_schema_version device_head =? _) eqn:H3; [|done].
  destruct (signer_public_key sealer signer) as [pk|e]; [|done]. simpl.
  destruct (str_eqb (dh_device_id device_head) (pk_device_id pk)) eqn:H4; [|done]. intros _.
  apply str_eqb_eq in H1, H2, H4. apply Z.eqb_eq in H3. split_and!; [done..|]. by exists pk.
Qed.

Section Publisher.
Context (codec : SyncCodec) (sealer : SyncSealer) (laws : SealerLaws codec sealer).
Context {W : Type} `{ContentClient W}.
Context (random_nonce : W -> W * option string) (local_sync_device_id : string).

(** The generator fills twelve bytes, and touches nothing else. *)
Definition generator_ok : Prop := forall w w' nonce, random_nonce w = (w', nonce) ->
  quiet w w' /\ forall bytes, nonce = Some bytes -> str_len bytes = PROFILE_SYNC_NONCE_BYTES.

Context (Hrandom : generator_ok).
Implicit Types (s : W * ProfileDb).

Lemma storage_result_ok {A} (r : result StorageError A) s s' a :
  storage_result r s = (s', Ok a) <-> s' = s /\ r = Ok a.
Proof. unfold storage_result, sr_lift. destruct r; simpl; naive_solver. Qed.

Lemma object_result_ok {A} (r : result SyncObjectError A) s s' a :
  object_result r s = (s', Ok a) <-> s' = s /\ r = Ok a.
Proof. unfold object_result, sr_lift. destruct r; simpl; naive_solver. Qed.

Lemma to_vec_ok (r : result string string) s s' bytes :
  to_vec r s = (s', Ok bytes) <-> s' = s /\ r = Ok bytes.
Proof. unfold to_vec. rewrite object_result_ok. destruct r; simpl; naive_solver. Qed.

Lemma sign_encrypted_ok profile domain kind key_id payload content_key signer s s' bytes :
  sign_encrypted_object sealer random_nonce profile domain kind key_id payload content_key signer
    s = (s', Ok bytes) ->
  s'.2 = s.2 /\ quiet s.1 s'.1 /\
  sealed_for sealer signer profile domain kind key_id content_key payload bytes.
Proof using Hrandom.
  destruct s as [w db]. unfold sign_encrypted_object.
  destruct (random_nonce w) as [w1 nonce] eqn:Hn. apply Hrandom in Hn as [Hq Hlen].
  intros [= <- Hb]. split; [done|]. split; [done|]. destruct nonce as [nonce|]; [|done].
  exists nonce. split; [by apply Hlen|].
  by destruct (sign_encrypted_json_object sealer _ _ _ _ _ _ _ (Some nonce)); simplify_eq/=.
Qed.

(** The bytes under the id are sealed for [payload]. *)
Definition holds_sealed (w : W) (signer : ProfileSyncDeviceSigner)
    (profile domain kind key_id content_key payload object_id : string) : Prop :=
  is_empty object_id = false /\ exists bytes, contents w !! (profile, object_id) = Some bytes /\
    sealed_for sealer signer profile domain kind key_id content_key payload bytes.

Lemma holds_sealed_grows w w' signer profile domain kind key_id content_key payload id :
  grows w w' -> holds_sealed w signer profile domain kind key_id content_key payload id ->
  holds_sealed w' signer profile domain kind key_id content_key payload id.
Proof.
  intros Hg (He & bytes & Hb & Hs). split; [done|]. exists bytes. split; [|done].
  by eapply lookup_weaken.
Qed.

(** The object of a tail change holds the change. *)
Definition tail_held (w : W) (signer : ProfileSyncDeviceSigner)
    (profile key_id content_key : string) (tail : ProfileSyncSettingsTailChangePublication) :
    Prop :=
  exists payload,
    setting_change_to_vec sealer (incoming_setting_from_change (tp_change tail)) = Ok payload /\
    is_empty (tp_object_id tail) = false /\
    exists bytes, contents w !! (profile, tp_object_id tail) = Some bytes /\
      sealed_for sealer signer (ch_profile (tp_change tail)) (ch_domain (tp_change tail))
        PROFILE_SYNC_SETTING_CHANGE_OBJECT_KIND key_id content_key payload bytes.

Lemma tail_held_grows w w' signer profile key_id content_key tail :
  grows w w' -> tail_held w signer profile key_id content_key tail ->
  tail_held w' signer profile key_id content_key tail.
Proof.
  intros Hg (payload & Hp & He & bytes & Hb & Hs). exists payload. split_and!; [done..|].
  exists bytes. split; [|done]. by eapply lookup_weaken.
Qed.

Lemma tail_publications_ok profile changes content_key key_id signer s s' tails :
  publish_settings_tail_change_publications sealer random_nonce profile changes content_key key_id
    signer s = (s', Ok tails) ->
  s'.2 = s.2 /\ quiet s.1 s'.1 /\ map tp_change tails = changes /\
  Forall (tail_held s'.1 signer profile key_id content_key) tails.
Proof using Hrandom.
  revert s s' tails. induction changes as [|change changes IH]; intros s s' tails; simpl.
  - intros [= <- <-]. by split_and!.
  - intros (s1 & payload & [-> Hp]%to_vec_ok & Hr)%sr_bind_ok.
    apply sr_bind_ok in Hr as (s2 & bytes & (Hd2 & Hq2 & Hs)%sign_encrypted_ok & Hr).
    apply sr_bind_ok in Hr as (s3 & id & [Hput Hd3]%on_source_ok & Hr).
    apply put_retained_object_ok in Hput as (Hq3 & He & Hb).
    apply sr_bind_ok in Hr as (s4 & rest & (Hd4 & Hq4 & Hm & Hrest)%IH & [= <- <-]).
    split; [congruence|]. split; [etransitivity; [exact Hq2|]; by etransitivity|].
    simpl. split; [by rewrite Hm|]. constructor; [|done]. exists payload. split_and!; [done..|].
    exists bytes. split; [|done]. destruct Hq4. by eapply lookup_weaken.
Qed.

(** The manifest's object, which the root announces. *)
Definition manifest_held (w : W) (signer : ProfileSyncDeviceSigner)
    (key_id content_key : string) (manifest : ProfileSyncManifest) (object_id : string) : Prop :=
  exists payload, manifest_to_vec sealer manifest = Ok payload /\
    holds_sealed w signer (mf_profile manifest) SYNC_DOMAIN_SETTINGS
      PROFILE_SYNC_MANIFEST_OBJECT_KIND key_id content_key payload object_id.

Definition head_held (w : W) (signer : ProfileSyncDeviceSigner) (key_id content_key : string)
    (device_head : ProfileSyncDeviceHead) (object_id : string) : Prop :=
  exists payload, device_head_to_vec sealer device_head = Ok payload /\
    holds_sealed w signer (dh_profile device_head) SYNC_DOMAIN_SETTINGS
      PROFILE_SYNC_DEVICE_HEAD_OBJECT_KIND key_id content_key payload object_id.

Definition snapshot_held (w : W) (signer : ProfileSyncDeviceSigner)
    (key_id content_key : string) (snapshot : ProfileSyncSettingsSnapshot) (object_id : string) :
    Prop :=
  exists payload, settings_snapshot_to_vec sealer snapshot = Ok payload /\
    holds_sealed w signer (sp_profile snapshot) SYNC_DOMAIN_SETTINGS
      PROFILE_SYNC_SETTINGS_SNAPSHOT_OBJECT_KIND key_id content_key payload object_id.

Lemma publish_manifest_ok profile root_id manifest content_key key_id signer s s' id :
  publish_manifest sealer random_nonce profile root_id manifest content_key key_id signer s
    = (s', Ok id) ->
  mf_profile manifest = profile ->
  s'.2 = s.2 /\ grows s.1 s'.1 /\
  announced s'.1 = <[(profile, root_id) := id]> (announced s.1) /\
  manifest_held s'.1 signer key_id content_key manifest id.
Proof using Hrandom.
  intros (s1 & payload & [-> Hp]%to_vec_ok & Hr)%sr_bind_ok Hprofile.
  apply sr_bind_ok in Hr as (s2 & bytes & (Hd2 & [Hg2 Ha2] & Hs)%sign_encrypted_ok & Hr).
  apply on_source_ok in Hr as [Hput Hd3].
  apply put_retained_root_ok in Hput as (Hg3 & Ha3 & He & Hb).
  split; [congruence|]. split; [by etransitivity|]. split; [congruence|].
  exists payload. split; [done|]. split; [done|]. exists bytes. rewrite Hprofile in *. done.
Qed.

Lemma publish_device_head_ok profile root_id device_head content_key key_id signer s s' head :
  publish_signed_profile_sync_device_head sealer random_nonce profile root_id device_head
    content_key key_id signer s = (s', Ok head) ->
  s'.2 = s.2 /\ grows s.1 s'.1 /\
  announced s'.1 = <[(profile, root_id) := pdh_object_id head]> (announced s.1) /\
  pdh_root_id head = root_id /\ pdh_device_head head = device_head /\
  validate_device_head_for_publish sealer profile root_id device_head signer = Ok tt /\
  dh_profile device_head = profile /\
  head_held s'.1 signer key_id content_key device_head (pdh_object_id head).
Proof using Hrandom.
  intros (s0 & u & Hv & Hr)%sr_bind_ok. unfold sr_lift in Hv. injection Hv as -> Hv. destruct u.
  apply sr_bind_ok in Hr as (s1 & payload & [-> Hp]%to_vec_ok & Hr).
  apply sr_bind_ok in Hr as (s2 & bytes & (Hd2 & [Hg2 Ha2] & Hs)%sign_encrypted_ok & Hr).
  apply sr_bind_ok in Hr as (s3 & id & [Hput Hd3]%on_source_ok & [= <- <-]).
  apply put_retained_root_ok in Hput as (Hg3 & Ha3 & He & Hb). simpl.
  pose proof (validated_head _ _ _ _ _ Hv) as (Hprofile & _).
  split; [congruence|]. split; [by etransitivity|]. split; [congruence|].
  split_and!; [done..|]. exists payload. split; [done|]. split; [done|]. exists bytes.
  rewrite Hprofile in *. done.
Qed.

(** The manifest of a snapshot and the changes after it. *)
Record snapshot_manifest_of (profile root_id : string)
    (snapshot : ProfileSyncSettingsSnapshotPublication)
    (tails : list ProfileSyncSettingsTailChangePublication) (m : ProfileSyncManifest) : Prop := {
  sm_profile_eq : mf_profile m = profile;
  sm_root : mf_root_id m = root_id;
  sm_epoch : mf_membership_epoch m = DEFAULT_PROFILE_SYNC_MEMBERSHIP_EPOCH;
  sm_snapshot : mf_current_snapshot_object_id m = Some (spp_object_id snapshot);
  sm_tails : mf_tail_change_object_ids m = map tp_object_id tails;
  sm_snapshot_profile : sp_profile (spp_snapshot snapshot) = profile;
  sm_valid : Forall (tail_valid profile) tails;
  sm_frontiers : exists frontiers, mf_device_frontiers m = btree_values frontiers /\
    frontiers_of (map (fun c => change_frontier c None) (spp_covered_changes snapshot)
                  ++ map tail_frontier tails) frontiers;
  sm_accepted : is_empty profile = false ->
    (forall domain, domain ∈ sp_included_domains (spp_snapshot snapshot) ->
       is_empty domain = false) ->
    validate_settings_manifest_application m
      (Some {| vs_object_id := spp_object_id snapshot; vs_snapshot := spp_snapshot snapshot |})
      (map verified_tail tails) = Ok tt
}.

Lemma snapshot_manifest_ok profile root_id snapshot tails policy m :
  settings_sync_manifest_for_snapshot_and_tail_changes profile root_id snapshot tails policy
    = Ok m ->
  snapshot_manifest_of profile root_id snapshot tails m.
Proof.
  intros Hbuilt. pose proof Hbuilt as Hm. revert Hm.
  unfold settings_sync_manifest_for_snapshot_and_tail_changes.
  destruct (is_empty root_id); [done|]. destruct (is_empty (spp_object_id snapshot)); [done|].
  destruct (str_eqb (sp_profile _) profile) eqn:Hp; [|done]. apply str_eqb_eq in Hp. simpl.
  destruct (negb _); [done|].
  destruct (add_covered_changes _ _ _ _) as [frontiers|] eqn:Hc; [|done].
  destruct (add_tail_changes _ _ _) as [l|] eqn:Ha; [|done]. intros [= <-].
  eapply add_covered_changes_spec in Hc; [|apply frontiers_of_empty].
  eapply add_tail_changes_spec in Ha as (Hv & _ & Hi & Hf); [|exact Hc].
  split; try done; [by exists (ml_device_frontiers l)|].
  intros Hp' Hne. by eapply snapshot_manifest_accepted.
Qed.

(** What a publication of a snapshot has put. *)
Record publication_held (w : W) (signer : ProfileSyncDeviceSigner)
    (profile root_id key_id content_key : string) (snapshot : ProfileSyncSettingsSnapshot)
    (covered_changes tail_changes : list SyncChangeRecord)
    (publication : PublishedSettingsSnapshotManifest)
    (tails : list ProfileSyncSettingsTailChangePublication) : Prop := {
  pb_tail_changes : map tp_change tails = tail_changes;
  pb_tails : Forall (tail_held w signer profile key_id content_key) tails;
  pb_manifest : manifest_held w signer key_id content_key (psm_manifest publication)
    (psm_manifest_object_id publication);
  pb_manifest_of : snapshot_manifest_of profile root_id
    {| spp_object_id := psm_snapshot_object_id publication; spp_snapshot := snapshot;
       spp_covered_changes := covered_changes |} tails (psm_manifest publication)
}.

Lemma publish_snapshot_tail_and_manifest_ok profile root_id snapshot_object_id snapshot covered
    tail_changes content_key key_id signer policy s s' publication :
  publish_snapshot_tail_and_manifest sealer random_nonce profile root_id snapshot_object_id
    snapshot covered tail_changes content_key key_id signer policy s = (s', Ok publication) ->
  s'.2 = s.2 /\ grows s.1 s'.1 /\
  announced s'.1 = <[(profile, root_id) := psm_manifest_object_id publication]> (announced s.1) /\
  psm_snapshot_object_id publication = snapshot_object_id /\
  exists tails, publication_held s'.1 signer profile root_id key_id content_key snapshot covered
    tail_changes publication tails.
Proof using Hrandom.
  intros (s1 & tails & (Hd1 & [Hg1 Ha1] & Hm1 & Ht1)%tail_publications_ok & Hr)%sr_bind_ok.
  apply sr_bind_ok in Hr as (s2 & manifest & [-> Hm]%storage_result_ok & Hr).
  apply snapshot_manifest_ok in Hm as Hof.
  apply sr_bind_ok in Hr as (s3 & id & Hpub & [= <- <-]).
  apply publish_manifest_ok in Hpub as (Hd3 & Hg3 & Ha3 & Hh3); [|by destruct Hof].
  simpl. split; [congruence|]. split; [by etransitivity|]. split; [congruence|]. split; [done|].
  exists tails. split; simpl; try done. eapply Forall_impl; [exact Ht1|].
  intros tail. by apply tail_held_grows.
Qed.

Lemma validate_snapshot_publication_ok profile snapshot covered tail_changes s s' u :
  validate_snapshot_publication (W := W) profile snapshot covered tail_changes s = (s', Ok u) ->
  s' = s.
Proof.
  intros (s1 & u1 & [-> _]%storage_result_ok & Hr)%sr_bind_ok.
  apply sr_bind_ok in Hr as (s2 & u2 & [-> _]%storage_result_ok & Hr).
  by apply storage_result_ok in Hr as [-> _].
Qed.

Lemma publish_snapshot_manifest_ok profile root_id snapshot covered tail_changes content_key key_id
    signer policy s s' publication :
  publish_signed_settings_snapshot_manifest sealer random_nonce profile root_id snapshot covered
    tail_changes content_key key_id signer policy s = (s', Ok publication) ->
  s'.2 = s.2 /\ grows s.1 s'.1 /\
  announced s'.1 = <[(profile, root_id) := psm_manifest_object_id publication]> (announced s.1) /\
  snapshot_held s'.1 signer key_id content_key snapshot (psm_snapshot_object_id publication) /\
  exists tails, publication_held s'.1 signer profile root_id key_id content_key snapshot covered
    tail_changes publication tails.
Proof using Hrandom.
  intros (s1 & u & ->%validate_snapshot_publication_ok & Hr)%sr_bind_ok.
  apply sr_bind_ok in Hr as (s2 & payload & [-> Hp]%to_vec_ok & Hr).
  apply sr_bind_ok in Hr as (s3 & bytes & (Hd3 & [Hg3 Ha3] & Hs)%sign_encrypted_ok & Hr).
  apply sr_bind_ok in Hr as (s4 & id & [Hput Hd4]%on_source_ok & Hr).
  apply put_retained_object_ok in Hput as ([Hg4 Ha4] & He & Hb).
  apply publish_snapshot_tail_and_manifest_ok in Hr as (Hd5 & Hg5 & Ha5 & <- & tails & Hh).
  split; [congruence|]. split; [do 2 (etransitivity; [eassumption|]); done|].
  split; [congruence|]. split; [|by exists tails].
  exists payload. split; [done|]. eapply holds_sealed_grows; [exact Hg5|]. split; [done|].
  exists bytes. assert (sp_profile snapshot = profile) as Hprofile
    by (by destruct Hh as [_ _ _ []]). rewrite Hprofile in *. done.
Qed.

Lemma publish_existing_snapshot_manifest_ok profile root_id object_id snapshot covered tail_changes
    content_key key_id signer policy s s' publication :
  publish_signed_existing_settings_snapshot_manifest sealer random_nonce profile root_id object_id
    snapshot covered tail_changes content_key key_id signer policy s = (s', Ok publication) ->
  s'.2 = s.2 /\ grows s.1 s'.1 /\
  announced s'.1 = <[(profile, root_id) := psm_manifest_object_id publication]> (announced s.1) /\
  psm_snapshot_object_id publication = object_id /\
  exists tails, publication_held s'.1 signer profile root_id key_id content_key snapshot covered
    tail_changes publication tails.
Proof using Hrandom.
  unfold publish_signed_existing_settings_snapshot_manifest. destruct (is_empty object_id).
  { unfold storage_result, sr_lift. done. }
  intros (s1 & u & ->%validate_snapshot_publication_ok & Hr)%sr_bind_ok.
  apply sr_bind_ok in Hr as (s2 & b & [[Hg2 Ha2]%retain_keeps Hd2]%on_source_ok & Hr).
  apply publish_snapshot_tail_and_manifest_ok in Hr as (Hd5 & Hg5 & Ha5 & Hid & tails & Hh).
  split; [congruence|]. split; [by etransitivity|]. split; [congruence|]. split; [done|].
  by exists tails.
Qed.
End Publisher.

(** ** A reference client *)

(** Objects and roots in memory; an object's id is the number it was stored under. *)
Record ReferenceStore := {
  rf_next : positive;
  rf_objects : gmap (string * string) string;
  rf_roots : gmap (string * string) string
}.

Definition reference_dispatch (request : ProfileSyncRequest) :
    state_result ReferenceStore BroadwebdError ProfileSyncResponse := fun w =>
  let missing object_id := UnsupportedRequest ("no object " +:+ object_id) in
  match request with
  | PutEncryptedObject r =>
      let id := "object:" +:+ put_bits (rf_next w) in
      match rf_objects w !! (put_profile r, id) with
      | Some bytes => (w, if str_eqb bytes (put_bytes r) then Ok (PutEncryptedObjectResponse id)
                          else Err (missing id))
      | None => ({| rf_next := Pos.succ (rf_next w);
                    rf_objects := <[(put_profile r, id) := put_bytes r]> (rf_objects w);
                    rf_roots := rf_roots w |}, Ok (PutEncryptedObjectResponse id))
      end
  | GetEncryptedObject r =>
      (w, match rf_objects w !! (or_profile r, or_object_id r) with
          | Some bytes => Ok (GetEncryptedObjectResponse (or_object_id r) bytes)
          | None => Err (missing (or_object_id r))
          end)
  | RetainObject r =>
      (w, match rf_objects w !! (or_profile r, or_object_id r) with
          | Some _ => Ok (RetainObjectResponse (or_object_id r) true)
          | None => Err (missing (or_object_id r))
          end)
  | PublishRoot r =>
      ({| rf_next := rf_next w; rf_objects := rf_objects w;
          rf_roots := <[(ru_profile r, ru_root_id r) := ru_object_id r]> (rf_roots w) |},
       Ok (RootResponse (ru_root_id r) (Some (ru_object_id r))))
  | ResolveRoot r =>
      (w, Ok (RootResponse (rr_root_id r) (rf_roots w !! (rr_profile r, rr_root_id r))))
  | _ => (w, Err (UnsupportedRequest "the request is not served"))
  end.

#[export] Instance reference_client : BroadwebdClient ReferenceStore := {|
  dispatch_service_request H request :=
    match request with
    | ProfileSyncServiceRequest request =>
        let* response := reference_dispatch request in sr_ret (ProfileSyncServiceResponse response)
    | HttpFetchRequest _ => sr_err (UnsupportedRequest "no HTTP")
    end
|}.

Lemma reference_profile_sync request w : profile_sync request w = reference_dispatch request w.
Proof.
  unfold profile_sync, sr_bind, dispatch_service_request, reference_client. cbn.
  unfold sr_bind. by destruct (reference_dispatch request w) as [w' [response|e]].
Qed.

#[export, refine] Instance reference_content : ContentClient ReferenceStore := {|
  contents := rf_objects;
  announced := rf_roots
|}.
Proof.
  - intros w profile bytes w' r. unfold put_encrypted_object, sr_bind.
    rewrite reference_profile_sync. unfold reference_dispatch. cbn.
    destruct (rf_objects w !! (profile, "object:" +:+ put_bits (rf_next w))) as [old|] eqn:Hl.
    + destruct (str_eqb old bytes) eqn:E; intros [= <- <-]; (split; [done|split; [done|]]); [|done].
      intros id [= <-]. apply str_eqb_eq in E as ->. done.
    + intros [= <- <-]. simpl. split; [by apply insert_subseteq|]. split; [done|].
      intros id [= <-]. split; [done|]. apply lookup_insert_eq.
  - intros w profile id w' r. unfold client_retain_object, sr_bind.
    rewrite reference_profile_sync. unfold reference_dispatch. cbn.
    destruct (rf_objects w !! (profile, id)); intros [= <- <-]; done.
  - intros w profile root_id id w' r. unfold client_publish_root, sr_bind.
    rewrite reference_profile_sync. intros [= <- <-]. done.
  - intros w profile id w' r. unfold source_get_profile_sync_object, sr_bind.
    rewrite reference_profile_sync. unfold reference_dispatch. cbn.
    destruct (rf_objects w !! (profile, id)) as [old|] eqn:Hl; intros [= <- <-]; (split; [done|]);
      (split; [done|]); [|done]. intros object bytes [= <-] [= ->] _. done.
Defined.

(** A generator that repeats itself. *)
Definition reference_nonce (w : ReferenceStore) : ReferenceStore * option string :=
  (w, Some "012345678901").

Lemma reference_nonce_ok : generator_ok reference_nonce.
Proof. intros w w' nonce [= <- <-]. split; [done|]. by intros bytes [= <-]. Qed.

Definition empty_store : ReferenceStore := {| rf_next := 1; rf_objects := ∅; rf_roots := ∅ |}.
