(* ===== verification/PendingLaws.v ===== *)
(** * The pending local settings

    What [publish_pending_local_settings_head] and [run_pending_local_settings_sync] of the
    publisher do: the local changes are published in one step, the next step finds them
    published; and the situations in which they are never published. *)
From S2P Require Import Prelude RustStr Broadwebd.
From S2P Require Import AppViews Database SyncObjects SyncStore Membership MembershipLaws.
From S2P Require Import ProfileTables TrustedOpen Snapshots SyncSecrets Sealing.
From S2P Require Import Pulls SyncLww SyncCursor SnapshotLaws PullLaws SyncClient.
From S2P Require Import Publisher PublisherLaws.

(** ** Orders *)

Lemma rust_le_fst {A B} `{RustOrd A, RustOrd B} (a c : A) (b d : B) :
  rust_le (a, b) (c, d) -> rust_le a c.
Proof. unfold rust_le. rewrite rust_cmp_pair. by destruct (rust_cmp a c). Qed.

Lemma rust_le_Z (a b : Z) : rust_le a b <-> a <= b.
Proof. done. Qed.

Lemma elem_of_rev_iff {A} (x : A) l : x ∈ l <-> x ∈ rev l.
Proof. rewrite !list_elem_of_In. apply in_rev. Qed.

(** ** Events of the enabled domains *)

Definition enabled_ids (profile : string) (db : ProfileDb) : list string :=
  btree_elems (list_to_set (map ad_domain (enabled_app_sync_domains profile db)) : gset string).

(** The database with the default domains, if the profile had none. *)
Definition seeded (profile : string) (now : Z) (db : ProfileDb) : ProfileDb :=
  match app_sync_domains profile db with
  | [] => (ensure_default_app_sync_domains profile now db).1
  | _ => db
  end.

Definition enabled_events (profile : string) (after limit : Z) (db : ProfileDb) :
    list SyncSettingTextEvent :=
  sql_limit limit (sort_by (key_cmp event_order)
    (flat_map (fun domain => sync_setting_text_events_after_for_domain profile domain after limit
                               db) (enabled_ids profile db))).

Lemma seed_domains_run profile domains now db :
  exists v, seed_app_sync_domains profile domains now db = (set_db_app_domains v db, Ok tt).
Proof.
  revert db. induction domains as [|domain domains IH]; intros db; simpl.
  - exists (db_app_domains db). by destruct db.
  - unfold sr_bind, seed_default_app_sync_domain, execute.
    destruct (match db_app_domains db !! _ with Some d => _ | None => _ end) as [enabled created].
    simpl. edestruct IH as [v ->]. by exists v.
Qed.

Lemma seeded_app_domains profile now db :
  exists v, seeded profile now db = set_db_app_domains v db.
Proof.
  unfold seeded, ensure_default_app_sync_domains.
  destruct (seed_domains_run profile DEFAULT_APP_SYNC_DOMAINS now db) as [v ->]. simpl.
  destruct (app_sync_domains profile db); [by exists v|exists (db_app_domains db)]. by destruct db.
Qed.

Lemma seeded_not_empty profile now db : app_sync_domains profile (seeded profile now db) <> [].
Proof.
  unfold seeded. destruct (app_sync_domains profile db) as [|a l] eqn:E; [|congruence].
  intros Hnil. pose proof (default_domains_seeded profile now db SYNC_DOMAIN_SETTINGS) as Hs.
  assert (is_Some (seeded_enabled DEFAULT_APP_SYNC_DOMAINS
            (db_app_domains db !! (profile, SYNC_DOMAIN_SETTINGS)) SYNC_DOMAIN_SETTINGS)) as Hsome.
  { generalize (db_app_domains db !! (profile, SYNC_DOMAIN_SETTINGS)). intros [d|]; [by eexists|].
    vm_compute. by eexists. }
  rewrite <-Hs, fmap_is_Some in Hsome. destruct Hsome as [d Hd]. clear Hs.
  assert (d ∈ app_sync_domains profile (ensure_default_app_sync_domains profile now db).1) as Hin.
  { unfold app_sync_domains. apply elem_of_btree_values. exists (profile, SYNC_DOMAIN_SETTINGS).
    by apply map_lookup_filter_Some. }
  rewrite Hnil in Hin. by apply not_elem_of_nil in Hin.
Qed.

Lemma seeded_seeded profile now now' db :
  seeded profile now (seeded profile now' db) = seeded profile now' db.
Proof.
  unfold seeded at 1. pose proof (seeded_not_empty profile now' db).
  by destruct (app_sync_domains profile (seeded profile now' db)).
Qed.

Lemma enabled_domain_ids_run profile now db :
  enabled_settings_sync_domain_ids profile now db
  = (seeded profile now db, Ok (enabled_ids profile (seeded profile now db))).
Proof.
  unfold enabled_settings_sync_domain_ids, seeded. unfold sr_bind at 1, query at 1.
  destruct (app_sync_domains profile db) as [|a l]; [|reflexivity].
  unfold ensure_default_app_sync_domains.
  destruct (seed_domains_run profile DEFAULT_APP_SYNC_DOMAINS now db) as [v Hv].
  unfold sr_bind at 1. rewrite Hv. reflexivity.
Qed.

Lemma enabled_events_run profile after limit now db :
  enabled_settings_sync_text_events_after profile after limit now db
  = (seeded profile now db, Ok (enabled_events profile after limit (seeded profile now db))).
Proof.
  unfold enabled_settings_sync_text_events_after, sr_bind. by rewrite enabled_domain_ids_run.
Qed.

(** Filters of disjoint predicates, put together. *)
Lemma filter_orb_disjoint {A} (p q : A -> bool) l :
  (forall x, x ∈ l -> p x = true -> q x = false) ->
  Permutation (List.filter p l ++ List.filter q l) (List.filter (fun x => p x || q x) l).
Proof.
  induction l as [|x l IH]; intros Hd; simpl; [done|].
  specialize (IH (fun y Hy => Hd y (list_elem_of_further _ _ _ Hy))).
  pose proof (Hd x (list_elem_of_here _ _)) as Hx.
  destruct (p x); simpl; [by rewrite Hx, IH|]. destruct (q x); [|done].
  by rewrite <-Permutation_middle, IH.
Qed.

Lemma flat_map_filters {K A} (p : K -> A -> bool) ks l :
  NoDup ks -> (forall k k' x, p k x = true -> p k' x = true -> k = k') ->
  Permutation (flat_map (fun k => List.filter (p k) l) ks)
    (List.filter (fun x => existsb (fun k => p k x) ks) l).
Proof.
  intros Hnd Hd. induction Hnd as [|k ks Hk Hnd IH]; simpl.
  - clear. induction l as [|x l IH]; simpl; done.
  - rewrite IH. apply filter_orb_disjoint. intros x _ Hp.
    apply existsb_false. intros k' Hk'. apply not_true_is_false. intros Hp'.
    by rewrite (Hd _ _ _ Hp Hp') in Hk.
Qed.

Definition enabled_event (profile : string) (after : Z) (db : ProfileDb)
    (e : SyncSettingTextEvent) : bool :=
  existsb (fun domain => domain_event profile domain after e) (enabled_ids profile db).

(** The events are few enough for the queries to answer all of them. *)
Definition few_events (db : ProfileDb) : Prop := Z.of_nat (length (joined_events db)) <= u32_max.

Lemma domain_event_domain profile domain after e :
  domain_event profile domain after e = true -> ch_domain (ev_change e) = domain.
Proof.
  unfold domain_event. intros (((_ & H)%andb_true_iff & _)%andb_true_iff & _)%andb_true_iff.
  by apply str_eqb_eq.
Qed.

Lemma enabled_events_perm profile after db :
  few_events db ->
  enabled_events profile after u32_max db
  = sort_by (key_cmp event_order)
      (flat_map (fun domain => List.filter (domain_event profile domain after) (joined_events db))
         (enabled_ids profile db)) /\
  Permutation (enabled_events profile after u32_max db)
    (List.filter (enabled_event profile after db) (joined_events db)).
Proof.
  intros Hfew. unfold enabled_events.
  assert (flat_map (fun domain => sync_setting_text_events_after_for_domain profile domain after
                      u32_max db) (enabled_ids profile db)
          = flat_map (fun domain => List.filter (domain_event profile domain after)
                      (joined_events db)) (enabled_ids profile db)) as ->.
  { apply flat_map_ext. intros domain. unfold sync_setting_text_events_after_for_domain.
    rewrite sql_limit_take, take_ge; [done|]. unfold few_events in Hfew.
    etransitivity; [apply List.filter_length_le|]. lia. }
  pose proof (flat_map_filters (fun domain => domain_event profile domain after)
    (enabled_ids profile db) (joined_events db) (NoDup_btree_elems _)
    (fun k k' x H1 H2 => eq_trans (eq_sym (domain_event_domain _ _ _ _ H1))
                           (domain_event_domain _ _ _ _ H2))) as Hperm.
  rewrite sql_limit_take, take_ge.
  - split; [done|]. rewrite sort_by_Permutation. exact Hperm.
  - rewrite sort_by_length, (Permutation_length Hperm). unfold few_events in Hfew.
    etransitivity; [apply List.filter_length_le|]. lia.
Qed.

Lemma elem_of_enabled_events profile after db e :
  few_events db ->
  e ∈ enabled_events profile after u32_max db <->
  e ∈ joined_events db /\ exists domain, domain ∈ enabled_ids profile db /\
    domain_event profile domain after e = true.
Proof.
  intros Hfew. destruct (enabled_events_perm profile after db Hfew) as [_ Hperm].
  rewrite Hperm, elem_of_filter_bool. unfold enabled_event. rewrite existsb_exists.
  setoid_rewrite <-list_elem_of_In. naive_solver.
Qed.

(** The last event has the greatest revision. *)
Lemma last_event_greatest profile after db e e' :
  few_events db -> last (enabled_events profile after u32_max db) = Some e ->
  e' ∈ enabled_events profile after u32_max db ->
  rv_revision (ev_revision e') <= rv_revision (ev_revision e).
Proof.
  intros Hfew Hlast He'. destruct (enabled_events_perm profile after db Hfew) as [Heq _].
  rewrite Heq in *. set (l := flat_map _ _) in *.
  pose proof (sort_by_StronglySorted event_order (key_cmp event_order) (fun _ _ => eq_refl) l) as Hs.
  apply last_Some in Hlast as [l' Hl']. rewrite Hl' in *.
  apply elem_of_app in He' as [He'| ->%list_elem_of_singleton]; [|done].
  eapply StronglySorted_app_1_elem_of in Hs; [|exact He'|by apply list_elem_of_singleton].
  by apply rust_le_fst, rust_le_fst, rust_le_Z in Hs.
Qed.

(** ** What a publication records *)

Lemma two_roots_set profile root1 id1 root2 id2 now db db' records :
  set_profile_sync_roots_in_transaction
    [{| prr_profile := profile; prr_root_id := root1; prr_object_id := id1 |};
     {| prr_profile := profile; prr_root_id := root2; prr_object_id := id2 |}] now db
    = (db', Ok records) ->
  exists st, db' = set_db_state (<[(profile, profile_sync_root_key root2) := (id2, now)]> st) db.
Proof.
  simpl. unfold set_profile_sync_root_in_transaction, sr_bind, execute, sr_err, sr_ret. simpl.
  destruct (is_empty root1); [done|]. destruct (is_empty root2); [done|]. intros [= <- _].
  by eexists.
Qed.

Lemma record_snapshot_db registration now db db' record :
  record_sync_snapshot_in_transaction registration now db = (db', Ok record) ->
  db' = set_db_snapshots
    (<[(snr_profile registration, snr_snapshot_id registration) := record]> (db_snapshots db)) db /\
  sn_profile record = snr_profile registration /\
  sn_backend_object_id record = snr_backend_object_id registration /\
  sn_covers_revision record = snr_covers_revision registration.
Proof.
  unfold record_sync_snapshot_in_transaction, sr_bind, execute, query. simpl.
  rewrite lookup_insert_eq. unfold required_row, sr_lift. simpl. by intros [= <- <-].
Qed.

(** The first snapshot of a profile is its latest. *)
Lemma first_snapshot_latest profile snapshot_id record db :
  latest_sync_snapshot profile db = None ->
  latest_sync_snapshot profile
    (set_db_snapshots (<[(profile, snapshot_id) := record]> (db_snapshots db)) db) = Some record.
Proof.
  intros Hnone. apply select_max_None in Hnone.
  assert (forall r, r ∈ profile_snapshots profile
            (set_db_snapshots (<[(profile, snapshot_id) := record]> (db_snapshots db)) db) <->
          r = record) as Hall.
  { intros r. unfold profile_snapshots. rewrite elem_of_btree_values.
    setoid_rewrite map_lookup_filter_Some. simpl. split.
    - intros ([p i] & Hl & Hp). simpl in *. subst p.
      destruct (decide (i = snapshot_id)) as [->|Hne].
      + rewrite lookup_insert_eq in Hl. congruence.
      + rewrite lookup_insert_ne in Hl by congruence.
        assert (r ∈ profile_snapshots profile db) as Hin.
        { unfold profile_snapshots. apply elem_of_btree_values. exists (profile, i).
          by apply map_lookup_filter_Some. }
        rewrite Hnone in Hin. by apply not_elem_of_nil in Hin.
    - intros ->. exists (profile, snapshot_id). by rewrite lookup_insert_eq. }
  destruct (latest_sync_snapshot profile _) as [r|] eqn:Hl.
  - apply select_max_Some in Hl as [Hin _]. by apply Hall in Hin as ->.
  - apply select_max_None in Hl. assert (record ∈ @nil SyncSnapshotRecord) as Hin.
    { rewrite <-Hl. by apply Hall. }
    by apply not_elem_of_nil in Hin.
Qed.

Lemma latest_local_change device changes change :
  latest_local_device_change_for_head device changes = Some change ->
  change ∈ changes /\ ch_device_id change = device /\
  forall c, c ∈ changes -> ch_device_id c = device ->
    ch_device_sequence c <= ch_device_sequence change.
Proof.
  unfold latest_local_device_change_for_head. intros [Hin Hmax]%select_max_Some.
  rewrite <-elem_of_rev_iff, elem_of_filter_bool in Hin. destruct Hin as [Hd Hin].
  apply str_eqb_eq in Hd. split_and!; [done..|]. intros c Hc Hcd.
  assert (c ∈ rev (List.filter (fun change => str_eqb (ch_device_id change) device) changes)) as Hr.
  { rewrite <-elem_of_rev_iff, elem_of_filter_bool. split; [by apply str_eqb_eq|done]. }
  apply Hmax in Hr. by apply rust_le_fst, rust_le_fst, rust_le_fst, rust_le_Z in Hr.
Qed.

Lemma latest_local_change_None device changes :
  latest_local_device_change_for_head device changes = None ->
  forall c, c ∈ changes -> ch_device_id c <> device.
Proof.
  unfold latest_local_device_change_for_head. intros Hnone%select_max_None c Hc Hcd.
  assert (c ∈ rev (List.filter (fun change => str_eqb (ch_device_id change) device) changes)) as Hr.
  { rewrite <-elem_of_rev_iff, elem_of_filter_bool. split; [by apply str_eqb_eq|done]. }
  rewrite Hnone in Hr. by apply not_elem_of_nil in Hr.
Qed.

(** ** The loop's own error *)

Section Exhausted.
Context (codec : SyncCodec) (sealer : SyncSealer) {W : Type} `{BroadwebdClient W}.
Context (random_nonce : W -> W * option string) (local_sync_device_id : string).

Definition is_exhausted {A} (r : result ProfileSyncPublishError A) : bool :=
  match r with Err (LocalSyncLoopExhausted _ _ _) => true | _ => false end.

(** [m] fails with no [LocalSyncLoopExhausted]. *)
Definition never_exhausted {A} (m : publish (W := W) A) : Prop :=
  forall s, is_exhausted (m s).2 = false.

Lemma never_exhausted_bind {A B} (m : publish A) (k : A -> publish (W := W) B) :
  never_exhausted m -> (forall a, never_exhausted (k a)) -> never_exhausted (sr_bind m k).
Proof.
  intros Hm Hk s. unfold sr_bind. specialize (Hm s). destruct (m s) as [s1 [a|e]]; [apply Hk|].
  by destruct e.
Qed.

Lemma never_exhausted_ret {A} (a : A) : never_exhausted (sr_ret a).
Proof. by intros s. Qed.
Lemma never_exhausted_client {A} (m : client (W := W) A) : never_exhausted (on_client m).
Proof. intros [w db]. unfold on_client, on_source. by destruct (m w) as [w' [a|e]]. Qed.
Lemma never_exhausted_storage {A} (m : storage A) : never_exhausted (on_storage m).
Proof. intros [w db]. unfold on_storage, on_database. by destruct (m db) as [db' [a|e]]. Qed.
Lemma never_exhausted_storage_result {A} (r : result StorageError A) :
  never_exhausted (storage_result r).
Proof. intros s. by destruct r. Qed.
Lemma never_exhausted_object_result {A} (r : result SyncObjectError A) :
  never_exhausted (object_result r).
Proof. intros s. by destruct r. Qed.
Lemma never_exhausted_to_vec r : never_exhausted (to_vec r).
Proof. apply never_exhausted_object_result. Qed.

Lemma never_exhausted_sign profile domain kind key_id payload content_key signer :
  never_exhausted (sign_encrypted_object sealer random_nonce profile domain kind key_id payload
                     content_key signer).
Proof.
  intros [w db]. unfold sign_encrypted_object. destruct (random_nonce w) as [w' nonce]. simpl.
  by destruct (sign_encrypted_json_object _ _ _ _ _ _ _ _ _).
Qed.

Lemma never_exhausted_validate_head profile root_id device_head signer :
  never_exhausted (sr_lift (validate_device_head_for_publish sealer profile root_id device_head
                              signer)).
Proof.
  intros s. unfold sr_lift, validate_device_head_for_publish. simpl.
  destruct (signer_public_key sealer signer); simpl; by repeat (case_match; simpl).
Qed.

Ltac solve_never :=
  repeat first
    [ match goal with H : forall s, _ |- never_exhausted _ => apply H end
    | apply never_exhausted_bind; [|intros ?] | apply never_exhausted_ret
    | apply never_exhausted_client | apply never_exhausted_storage
    | apply never_exhausted_storage_result | apply never_exhausted_object_result
    | apply never_exhausted_to_vec | apply never_exhausted_sign
    | apply never_exhausted_validate_head
    | match goal with |- never_exhausted (match ?c with _ => _ end) => destruct c end ].

Lemma never_exhausted_tails profile changes content_key key_id signer :
  never_exhausted (publish_settings_tail_change_publications sealer random_nonce profile changes
                     content_key key_id signer).
Proof. induction changes as [|change changes IH]; simpl; solve_never. exact IH. Qed.

Lemma never_exhausted_manifest profile root_id manifest content_key key_id signer :
  never_exhausted (publish_manifest sealer random_nonce profile root_id manifest content_key key_id
                     signer).
Proof. unfold publish_manifest. solve_never. Qed.

Lemma never_exhausted_snapshot_tail profile root_id id snapshot covered tail_changes content_key
    key_id signer policy :
  never_exhausted (publish_snapshot_tail_and_manifest sealer random_nonce profile root_id id
    snapshot covered tail_changes content_key key_id signer policy).
Proof.
  unfold publish_snapshot_tail_and_manifest. pose proof never_exhausted_tails.
  pose proof never_exhausted_manifest. solve_never.
Qed.

Lemma never_exhausted_head profile root_id device_head content_key key_id signer :
  never_exhausted (publish_signed_profile_sync_device_head sealer random_nonce profile root_id
                     device_head content_key key_id signer).
Proof. unfold publish_signed_profile_sync_device_head. solve_never. Qed.

Lemma never_exhausted_pending profile settings_root_id content_key key_id signer policy now :
  never_exhausted (publish_pending_local_settings_head codec sealer random_nonce
    local_sync_device_id profile settings_root_id content_key key_id signer policy now).
Proof.
  unfold publish_pending_local_settings_head, publish_pending_tail, publish_first_snapshot,
    publish_full_local_settings_snapshot_head, publish_local_settings_tail_head,
    local_settings_device_head, publish_signed_settings_snapshot_manifest,
    publish_signed_existing_settings_snapshot_manifest, validate_snapshot_publication.
  pose proof never_exhausted_snapshot_tail. pose proof never_exhausted_head. solve_never.
Qed.
End Exhausted.

(** ** One step, then idle *)

Section Pending.
Context (codec : SyncCodec) (sealer : SyncSealer) (laws : SealerLaws codec sealer).
Context {W : Type} `{ContentClient W}.
Context (random_nonce : W -> W * option string) (Hrandom : generator_ok random_nonce).
Context (local_sync_device_id profile settings_root_id content_key key_id : string).
Context (signer : ProfileSyncDeviceSigner) (policy : ProfileSyncRetentionPolicy) (now : Z).
Implicit Types (s : W * ProfileDb).

Lemma on_storage_ok {A} (m : storage A) s s' a :
  on_storage m s = (s', Ok a) <-> m s.2 = (s'.2, Ok a) /\ s'.1 = s.1.
Proof. apply on_database_ok. Qed.

Lemma on_client_ok {A} (m : client (W := W) A) s s' a :
  on_client m s = (s', Ok a) <-> m s.1 = (s'.1, Ok a) /\ s'.2 = s.2.
Proof. apply on_source_ok. Qed.

Lemma on_storage_query {A B} (f : ProfileDb -> A) (k : A -> publish (W := W) B) s :
  sr_bind (on_storage (query f)) k s = k (f s.2) s.
Proof. by destruct s. Qed.

Lemma on_storage_events {B} after limit (k : list SyncSettingTextEvent -> publish (W := W) B) s :
  sr_bind (on_storage (enabled_settings_sync_text_events_after profile after limit now)) k s
  = k (enabled_events profile after limit (seeded profile now s.2)) (s.1, seeded profile now s.2).
Proof.
  destruct s as [w db]. unfold sr_bind, on_storage, on_database. simpl.
  by rewrite enabled_events_run.
Qed.

Local Abbreviation head_root := (settings_device_head_root_id local_sync_device_id).

(** The database after a first publication. *)
Definition first_published (db db' : ProfileDb) (event : SyncSettingTextEvent)
    (record : SyncSnapshotRecord) : Prop :=
  exists st snapshot_id,
    db' = set_db_state st (set_db_snapshots
            (<[(profile, snapshot_id) := record]> (db_snapshots db)) (seeded profile now db)) /\
    last (enabled_events profile 0 u32_max (seeded profile now db)) = Some event /\
    is_Some (sn_backend_object_id record) /\
    sn_covers_revision record = rv_revision (ev_revision event).

Lemma first_snapshot_ok s s' publication :
  publish_first_snapshot sealer random_nonce local_sync_device_id profile settings_root_id
    content_key key_id signer policy now s = (s', Ok (PublishedFullSnapshot publication)) ->
  exists event record, first_published s.2 s'.2 event record.
Proof using Hrandom.
  intros (s1 & p & Hp & Hr)%sr_bind_ok. destruct p as [p|]; [|done]. injection Hr as <- <-.
  unfold publish_full_local_settings_snapshot_head in Hp. rewrite on_storage_events in Hp.
  set (events := enabled_events _ _ _ _) in *.
  destruct (last events) as [event|] eqn:Hlast; [|done].
  destruct (latest_local_device_change_for_head _ _) as [change|]; [|done].
  rewrite on_storage_query in Hp.
  apply sr_bind_ok in Hp as (s2 & published & Hpub & Hp).
  eapply publish_snapshot_manifest_ok in Hpub as (Hd2 & _); [|exact Hrandom].
  apply sr_bind_ok in Hp as (s3 & head & Hhead & Hp).
  eapply publish_device_head_ok in Hhead as (Hd3 & _); [|exact Hrandom].
  apply sr_bind_ok in Hp as (s4 & records & [Hrec Hw4]%on_storage_ok & Hp).
  apply sr_bind_ok in Hp as (s5 & r1 & [-> _]%storage_result_ok & Hp).
  apply sr_bind_ok in Hp as (s6 & r2 & [-> _]%storage_result_ok & [= <- _]).
  unfold record_sync_snapshot_and_set_profile_sync_roots in Hrec. rewrite transaction_ok in Hrec.
  apply sr_bind_ok in Hrec as (db1 & record & (-> & _ & Hb & Hc)%record_snapshot_db & Hrec).
  apply sr_bind_ok in Hrec as (db2 & roots & [st Hst]%two_roots_set & [= <- <-]).
  exists event, record. simpl in *. rewrite Hst, Hd3, Hd2. simpl.
  destruct (seeded_app_domains profile now s.2) as [v Hv].
  eexists _, _. split; [|split; [exact Hlast|split; [by rewrite Hb|done]]].
  rewrite Hv. reflexivity.
Qed.

Lemma seeded_kept st snaps db :
  seeded profile now (set_db_state st (set_db_snapshots snaps (seeded profile now db)))
  = set_db_state st (set_db_snapshots snaps (seeded profile now db)).
Proof.
  unfold seeded at 1. change (app_sync_domains profile (set_db_state st (set_db_snapshots snaps
    (seeded profile now db)))) with (app_sync_domains profile (seeded profile now db)).
  pose proof (seeded_not_empty profile now db).
  by destruct (app_sync_domains profile (seeded profile now db)).
Qed.

Lemma nothing_after_last db event :
  few_events db -> last (enabled_events profile 0 u32_max db) = Some event ->
  enabled_events profile (rv_revision (ev_revision event)) u32_max db = [].
Proof.
  intros Hfew Hlast.
  destruct (enabled_events profile (rv_revision (ev_revision event)) u32_max db) as [|e l] eqn:E;
    [done|]. exfalso.
  assert (e ∈ enabled_events profile (rv_revision (ev_revision event)) u32_max db) as He
    by (rewrite E; left).
  apply elem_of_enabled_events in He as (Hin & domain & Hd & Hev); [|done].
  assert (event ∈ enabled_events profile 0 u32_max db) as Hevent.
  { apply last_Some in Hlast as [l' ->]. apply elem_of_app. right. by left. }
  apply elem_of_enabled_events in Hevent as (_ & domain' & _ & Hev'); [|done].
  assert (forall a b x, domain_event profile a b x = true -> b < rv_revision (ev_revision x)) as Habove.
  { unfold domain_event. intros a b x [[_ Hlt]%andb_true_iff _]%andb_true_iff.
    by apply Z.ltb_lt. }
  pose proof (Habove _ _ _ Hev). pose proof (Habove _ _ _ Hev').
  assert (e ∈ enabled_events profile 0 u32_max db) as He0.
  { apply elem_of_enabled_events; [done|]. split; [done|]. exists domain. split; [done|].
    revert Hev. unfold domain_event. rewrite !andb_true_iff, !Z.ltb_lt. naive_solver lia. }
  pose proof (last_event_greatest profile 0 db event e Hfew Hlast He0). lia.
Qed.

Lemma after_first_snapshot db db' event record w s' r :
  few_events db -> latest_sync_snapshot profile db = None ->
  first_published db db' event record ->
  publish_pending_local_settings_head codec sealer random_nonce local_sync_device_id profile
    settings_root_id content_key key_id signer policy now (w, db') = (s', r) ->
  r = Ok (UpToDate record).
Proof.
  intros Hfew Hnone (st & snapshot_id & -> & Hlast & [object_id Hb] & Hc) Hr.
  unfold publish_pending_local_settings_head in Hr. rewrite on_storage_query in Hr. simpl in Hr.
  destruct (seeded_app_domains profile now db) as [v Hv].
  assert (latest_sync_snapshot profile (set_db_state st (set_db_snapshots
            (<[(profile, snapshot_id) := record]> (db_snapshots db)) (seeded profile now db)))
          = Some record) as Hlatest.
  { change (latest_sync_snapshot profile (set_db_snapshots
      (<[(profile, snapshot_id) := record]> (db_snapshots db)) db) = Some record).
    by apply first_snapshot_latest. }
  rewrite Hlatest, Hb in Hr. unfold publish_pending_tail in Hr.
  rewrite on_storage_events in Hr. cbn [fst snd] in Hr. rewrite seeded_kept in Hr.
  change (enabled_events profile (sn_covers_revision record) u32_max
    (set_db_state st (set_db_snapshots _ (seeded profile now db))))
    with (enabled_events profile (sn_covers_revision record) u32_max (seeded profile now db)) in Hr.
  rewrite Hc, nothing_after_last in Hr; [by injection Hr|by rewrite Hv|done].
Qed.

(** The database after a tail publication: the device's root names a head that covers the
    change. *)
Definition tail_published (w : W) (db db' : ProfileDb) (change : SyncChangeRecord) : Prop :=
  exists st object_id device_head,
    db' = set_db_state (<[(profile, profile_sync_root_key head_root) := (object_id, now)]> st)
            (seeded profile now db) /\
    head_held sealer w signer key_id content_key device_head object_id /\
    validate_device_head_for_publish sealer profile head_root device_head signer = Ok tt /\
    dh_profile device_head = profile /\ dh_device_id device_head = local_sync_device_id /\
    ch_device_sequence change <= dh_device_sequence device_head.

(** The frontier of the local device reaches its last published change. *)
Lemma local_frontier_reaches root_id snapshot tails m change f :
  snapshot_manifest_of profile root_id snapshot tails m ->
  change ∈ map tp_change tails -> ch_device_id change = local_sync_device_id ->
  list_find_bool (fun frontier => str_eqb (df_device_id frontier) local_sync_device_id)
    (mf_device_frontiers m) = Some f ->
  ch_device_sequence change <= df_latest_sequence f.
Proof.
  intros [_ _ _ _ _ _ _ (frontiers & Hf & Hfo) _] (t & -> & Ht)%list_elem_of_fmap Hd Hfind.
  apply list_find_bool_Some in Hfind as [Hin Hdev%str_eqb_eq]. rewrite Hf in Hin.
  assert (tail_frontier t ∈ map (fun c => change_frontier c None) (spp_covered_changes snapshot)
            ++ map tail_frontier tails) as Hseen.
  { apply elem_of_app. right. by apply list_elem_of_fmap_2. }
  destruct (fo_greatest _ _ Hfo _ Hseen) as (f' & Hl & Hle). simpl in Hl. rewrite Hd in Hl.
  apply elem_of_btree_values in Hin as [k Hk]. apply (fo_sound _ _ Hfo) in Hk as Hk'.
  destruct Hk' as [<- _]. rewrite Hdev in Hk. rewrite Hk in Hl. injection Hl as <-.
  by apply rust_le_fst, rust_le_Z in Hle.
Qed.

Lemma local_change_device change events :
  change ∈ local_changes local_sync_device_id events -> ch_device_id change = local_sync_device_id.
Proof.
  unfold local_changes. intros (e & -> & [He _]%elem_of_filter_bool)%list_elem_of_fmap.
  by apply str_eqb_eq.
Qed.

Lemma tail_head_ok s s' publication record :
  latest_sync_snapshot profile s.2 = Some record ->
  publish_local_settings_tail_head sealer random_nonce local_sync_device_id profile
    settings_root_id content_key key_id signer policy now s = (s', Ok (Some publication)) ->
  exists change, tail_published s'.1 s.2 s'.2 change /\
    latest_local_device_change_for_head local_sync_device_id
      (local_changes local_sync_device_id
         (enabled_events profile (sn_covers_revision record) u32_max (seeded profile now s.2)))
    = Some change.
Proof using Hrandom.
  intros Hlatest Hp. unfold publish_local_settings_tail_head in Hp.
  rewrite on_storage_query, Hlatest in Hp.
  apply sr_bind_ok in Hp as (s1 & snapshot_id & [-> _]%storage_result_ok & Hp).
  rewrite on_storage_events in Hp.
  destruct (latest_local_device_change_for_head _ _) as [change|] eqn:Hchange; [|done].
  rewrite on_storage_events, on_storage_query in Hp. cbn [fst snd] in Hp.
  rewrite seeded_seeded in Hp.
  apply sr_bind_ok in Hp as (s2 & published & Hpub & Hp).
  eapply publish_existing_snapshot_manifest_ok in Hpub
    as (Hd2 & Hg2 & _ & _ & tails & [Ht _ _ Hof]); [|exact Hrandom].
  apply sr_bind_ok in Hp as (s3 & f & [-> Hf]%storage_result_ok & Hp).
  unfold ok_or_manifest in Hf. destruct (list_find_bool _ _) as [f'|] eqn:Hfind; [|done].
  injection Hf as ->.
  apply sr_bind_ok in Hp as (s4 & head & Hhead & Hp).
  eapply publish_device_head_ok in Hhead
    as (Hd4 & Hg4 & _ & Hroot & Hhd & Hval & Hprof & Hheld); [|exact Hrandom].
  apply sr_bind_ok in Hp as (s5 & records & [Hrec Hw5]%on_storage_ok & Hp).
  apply sr_bind_ok in Hp as (s6 & r1 & [-> _]%storage_result_ok & Hp).
  apply sr_bind_ok in Hp as (s7 & r2 & [-> _]%storage_result_ok & [= <- _]).
  unfold set_profile_sync_roots in Hrec. rewrite transaction_ok in Hrec.
  apply two_roots_set in Hrec as [st Hst]. exists change. split; [|done].
  apply latest_local_change in Hchange as (Hin & Hdev & _). rewrite <-Ht in Hin.
  exists st, (pdh_object_id head), (pdh_device_head head). rewrite Hhd.
  split; [rewrite Hst, Hroot, Hd4, Hd2; done|]. rewrite Hw5.
  split_and!; try done. simpl. by eapply local_frontier_reaches.
Qed.

Lemma pending_tail_ok s s' publication record :
  latest_sync_snapshot profile s.2 = Some record ->
  publish_pending_tail codec sealer random_nonce local_sync_device_id profile settings_root_id
    content_key key_id signer policy record now s
    = (s', Ok (PublishedIncrementalTail publication)) ->
  exists change, tail_published s'.1 s.2 s'.2 change /\
    latest_local_device_change_for_head local_sync_device_id
      (local_changes local_sync_device_id
         (enabled_events profile (sn_covers_revision record) u32_max (seeded profile now s.2)))
    = Some change.
Proof using Hrandom.
  intros Hlatest Hp. unfold publish_pending_tail in Hp. rewrite on_storage_events in Hp.
  destruct (latest_local_device_change_for_head _ _) as [change|] eqn:Hchange; [|done].
  apply sr_bind_ok in Hp as (s1 & device_head & Hhead & Hp).
  destruct (head_covers device_head change); [done|].
  apply sr_bind_ok in Hp as (s2 & p & Htail & Hp). destruct p as [p|]; [|done].
  injection Hp as <- <-.
  assert (s1.2 = seeded profile now s.2) as Hd1.
  { assert (preserves (db_is (seeded profile now s.2)) (local_settings_device_head codec sealer
      local_sync_device_id profile content_key key_id signer)) as Hkeep.
    { unfold local_settings_device_head, on_storage, on_client, storage_result, object_result.
      repeat first [preserves_step | apply on_source_keeps
                   | apply on_database_keeps, profile_sync_root_read_only]. }
    specialize (Hkeep (s.1, seeded profile now s.2) eq_refl). by rewrite Hhead in Hkeep. }
  destruct (seeded_app_domains profile now s.2) as [v Hv].
  apply (tail_head_ok _ _ _ record) in Htail as (change' & Hpub & Hlast);
    [|by rewrite Hd1, Hv].
  rewrite Hd1, seeded_seeded in *. rewrite Hchange in Hlast. exists change. split; [|done].
  injection Hlast as <-. destruct Hpub as (st & id & head & Hdb & Hrest).
  rewrite seeded_seeded in Hdb. by exists st, id, head.
Qed.

(** The published head opens again. *)
Lemma published_head_opens w db db' change s' head :
  tail_published w db db' change ->
  local_settings_device_head codec sealer local_sync_device_id profile content_key key_id signer
    (w, db') = (s', Ok head) ->
  head_covers head change = true.
Proof using laws.
  intros (st & id & device_head & -> & (payload & Hvec & He & bytes & Hb & Hsealed) & Hval & Hprof
          & Hdev & Hseq) Hopen.
  unfold local_settings_device_head in Hopen.
  apply sr_bind_ok in Hopen as (s1 & root & [Hroot Hw1]%on_storage_ok & Hopen).
  cbn [snd] in Hroot. set (db1 := set_db_state _ _) in *.
  assert (profile_sync_root profile head_root db1
          = (db1, Ok (Some {| pr_profile := profile; pr_root_id := head_root; pr_object_id := id;
                              pr_updated_at := now |}))) as Hset.
  { exact (profile_sync_root_set profile head_root id now
             (set_db_state st (seeded profile now db)) eq_refl). }
  rewrite Hset in Hroot. injection Hroot as Hs1 <-. cbn [pr_object_id] in Hopen.
  apply sr_bind_ok in Hopen as (s2 & object & [Hget Hd2]%on_client_ok & Hopen).
  rewrite Hw1 in Hget.
  destruct (str_eqb (ob_object_id object) id) eqn:Hid; [|done]. apply str_eqb_eq in Hid.
  apply sr_bind_ok in Hopen as (s3 & pk & [-> Hpk]%object_result_ok & Hopen).
  apply sr_bind_ok in Hopen as (s4 & opened & [-> Ho]%object_result_ok & Hopen).
  apply sr_bind_ok in Hopen as (s5 & u & Hv & [= _ <-]).
  apply get_keeps in Hget as (_ & _ & Hbytes). rewrite Hprof in Hb, Hsealed.
  specialize (Hbytes object bytes eq_refl Hb Hid). rewrite Hbytes in Ho.
  destruct (sl_device_head _ _ laws device_head) as (doc & Hdoc & _ & Hfrom).
  rewrite Hdoc in Hvec. injection Hvec as ->.
  apply validated_head in Hval as (_ & _ & Hschema & pk' & Hpk' & Hpkd).
  rewrite Hpk in Hpk'. injection Hpk' as <-.
  rewrite (opens_head_with_key codec sealer laws signer pk _ _ _ _ _ _ _ Hpk Hsealed device_head
             eq_refl eq_refl Hfrom Hschema Hprof Hpkd) in Ho.
  injection Ho as <-. unfold head_covers. by apply Z.leb_le.
Qed.

Lemma after_tail db db' record change w s' r :
  latest_sync_snapshot profile db = Some record -> is_Some (sn_backend_object_id record) ->
  tail_published w db db' change ->
  latest_local_device_change_for_head local_sync_device_id
    (local_changes local_sync_device_id
       (enabled_events profile (sn_covers_revision record) u32_max (seeded profile now db)))
  = Some change ->
  publish_pending_local_settings_head codec sealer random_nonce local_sync_device_id profile
    settings_root_id content_key key_id signer policy now (w, db') = (s', Ok r) ->
  r = UpToDate record.
Proof using laws.
  intros Hlatest [object_id Hb] Hpub Hchange Hr.
  destruct (seeded_app_domains profile now db) as [v Hv].
  pose proof Hpub as (st & id & head & Hdb & _).
  assert (latest_sync_snapshot profile db' = Some record) as Hlatest'.
  { rewrite Hdb, Hv. exact Hlatest. }
  assert (seeded profile now db' = db') as Hseeded.
  { rewrite Hdb. exact (seeded_kept _ (db_snapshots (seeded profile now db)) db). }
  unfold publish_pending_local_settings_head in Hr. rewrite on_storage_query in Hr.
  cbn [fst snd] in Hr. rewrite Hlatest', Hb in Hr. unfold publish_pending_tail in Hr.
  rewrite on_storage_events in Hr. cbn [fst snd] in Hr. rewrite Hseeded in Hr.
  replace (enabled_events profile (sn_covers_revision record) u32_max db')
    with (enabled_events profile (sn_covers_revision record) u32_max (seeded profile now db)) in Hr
    by (by rewrite Hdb).
  rewrite Hchange in Hr.
  apply sr_bind_ok in Hr as (s1 & opened & Hopen & Hr).
  rewrite (published_head_opens _ _ _ _ _ _ Hpub Hopen) in Hr. by injection Hr as _ <-.
Qed.

(** A step that published something is followed by an idle one. *)
Lemma published_then_idle s s1 s2 step1 step2 :
  few_events s.2 ->
  (forall record, latest_sync_snapshot profile s.2 = Some record ->
     is_Some (sn_backend_object_id record)) ->
  publish_pending_local_settings_head codec sealer random_nonce local_sync_device_id profile
    settings_root_id content_key key_id signer policy now s = (s1, Ok step1) ->
  status_is_idle step1 = false ->
  publish_pending_local_settings_head codec sealer random_nonce local_sync_device_id profile
    settings_root_id content_key key_id signer policy now s1 = (s2, Ok step2) ->
  exists record, step2 = UpToDate record.
Proof using laws Hrandom.
  intros Hfew Hbackend H1 Hidle H2. unfold publish_pending_local_settings_head in H1.
  rewrite on_storage_query in H1. destruct (latest_sync_snapshot profile s.2) as [record|] eqn:Hl.
  - destruct (Hbackend record eq_refl) as [object_id Hb]. rewrite Hb in H1.
    assert (exists publication, step1 = PublishedIncrementalTail publication) as [publication ->].
    { unfold publish_pending_tail in H1. rewrite on_storage_events in H1.
      destruct (latest_local_device_change_for_head _ _); [|by injection H1 as _ <-].
      apply sr_bind_ok in H1 as (s3 & head & _ & H1).
      destruct (head_covers head _); [by injection H1 as _ <-|].
      apply sr_bind_ok in H1 as (s4 & [p|] & _ & [= _ <-]); [by eexists|done]. }
    apply pending_tail_ok in H1 as (change & Hpub & Hchange); [|done].
    destruct s1 as [w1 db1]. exists record. by eapply (after_tail s.2 db1).
  - assert (exists publication, step1 = PublishedFullSnapshot publication) as [publication ->].
    { apply sr_bind_ok in H1 as (s4 & [p|] & _ & [= _ <-]); [by eexists|done]. }
    apply first_snapshot_ok in H1 as (event & record & Hfirst). destruct s1 as [w1 db1].
    exists record. eapply after_first_snapshot in H2; [by injection H2|done..].
Qed.
End Pending.

(** ** Theorems *)

(** C10: (liveness) A run of the pending publications that may take two steps never exhausts
    them: it fails with the error of the client, the store or the sealing, or it reaches an
    idle step after publishing at most once. *)
Theorem pending_run_settles codec sealer {W} `{ContentClient W}
    (random_nonce : W -> W * option string) device profile root_id content_key key_id signer policy
    max_steps now s s' r :
  SealerLaws codec sealer -> generator_ok random_nonce -> few_events s.2 ->
  (forall record, latest_sync_snapshot profile s.2 = Some record ->
     is_Some (sn_backend_object_id record)) ->
  2 <= max_steps ->
  run_pending_local_settings_sync codec sealer random_nonce device profile root_id content_key
    key_id signer policy max_steps now s = (s', r) ->
  match r with
  | Ok run => run_is_idle run = true /\ run_published_step_count run <= 1 /\
      (length (lr_steps run) <= 2)%nat
  | Err e => forall p q n, e <> LocalSyncLoopExhausted p q n
  end.
Proof.
  intros laws Hrandom Hfew Hbackend Hsteps Hrun. unfold run_pending_local_settings_sync in Hrun.
  assert (exists n, Z.to_nat max_steps = S (S n)) as [n Hn].
  { exists (Z.to_nat max_steps - 2)%nat. lia. }
  rewrite Hn in Hrun. simpl in Hrun. unfold sr_bind in Hrun.
  pose proof (never_exhausted_pending codec sealer random_nonce device profile root_id content_key
    key_id signer policy now) as Hnever.
  pose proof (Hnever s) as Hnever1.
  destruct (publish_pending_local_settings_head codec sealer random_nonce device profile root_id
    content_key key_id signer policy now s) as [s1 [step1|e]] eqn:H1.
  2: { injection Hrun as _ <-. intros p q m ->. done. }
  destruct (status_is_idle step1) eqn:Hidle.
  { injection Hrun as _ <-. unfold run_is_idle, run_published_step_count. simpl.
    split_and!; [done|by destruct step1|lia]. }
  pose proof (Hnever s1) as Hnever2.
  destruct (publish_pending_local_settings_head codec sealer random_nonce device profile root_id
    content_key key_id signer policy now s1) as [s2 [step2|e]] eqn:H2.
  2: { injection Hrun as _ <-. intros p q m ->. done. }
  destruct (published_then_idle codec sealer laws random_nonce Hrandom device profile root_id
    content_key key_id signer policy now s s1 s2 step1 step2 Hfew Hbackend H1 Hidle H2)
    as [record ->].
  simpl in Hrun. injection Hrun as _ <-. unfold run_is_idle, run_published_step_count. simpl.
  split_and!; [done| |lia]. by destruct step1.
Qed.

(** ** Witnesses *)

(** One setting written on this device. *)
Definition one_setting_db : ProfileDb :=
  (set_sync_setting_text "laptop" "default" "settings" "theme" "dark" 5 empty_db).1.

Definition keep_all : ProfileSyncRetentionPolicy :=
  {| rp_min_tail_change_count := 0; rp_change_retention_seconds := 0;
     rp_inactive_device_grace_seconds := 0 |}.

Definition demo_run : (ReferenceStore * ProfileDb) *
    result ProfileSyncPublishError LocalSettingsSyncRun :=
  run_pending_local_settings_sync reference_codec reference_sealer reference_nonce "laptop"
    "default" "settings" "content key" "k1" demo_signer keep_all 2 7 (empty_store, one_setting_db).

Lemma few_demo_events : few_events one_setting_db.
Proof. unfold few_events. vm_compute. discriminate. Qed.

Lemma demo_db_unpublished record :
  latest_sync_snapshot "default" one_setting_db = Some record ->
  is_Some (sn_backend_object_id record).
Proof. intros H. vm_compute in H. discriminate. Qed.

Lemma demo_run_succeeds : is_ok demo_run.2 = true.
Proof. vm_compute. reflexivity. Qed.

Lemma pending_run_settles_witness :
  exists s' run, demo_run = (s', Ok run) /\ run_is_idle run = true /\
    run_published_step_count run <= 1.
Proof.
  pose proof demo_run_succeeds as Hok.
  destruct demo_run as [s' [run|e]] eqn:E; [|discriminate Hok].
  exists s', run. split; [reflexivity|].
  destruct (pending_run_settles reference_codec reference_sealer reference_nonce "laptop"
    "default" "settings" "content key" "k1" demo_signer keep_all 2 7 (empty_store, one_setting_db)
    s' (Ok run) reference_laws reference_nonce_ok few_demo_events demo_db_unpublished
    (Z.le_refl 2) E) as (H1 & H2 & _). by split.
Defined.
