(* ===== verification/Exchange.v ===== *)
(** * From the publisher to the receiver

    What one device publishes through a broadwebd client another device pulls: the head,
    the manifest, the snapshot and the tail come out as they went in, and a device without
    the profile ends with the values of the publisher.

    The client may be any that serves what it holds ([ServingClient]); the receiver's
    database may be any that trusts the publisher's key. *)
From S2P Require Import Prelude RustStr Broadwebd.
From S2P Require Import AppViews Database SyncObjects SyncStore Membership MembershipLaws.
From S2P Require Import ProfileTables TrustedOpen Snapshots SyncSecrets Sealing.
From S2P Require Import Pulls SyncLww SyncCursor SnapshotLaws PullLaws SyncClient.
From S2P Require Import Publisher MembershipLog SyncRunner PublisherLaws PendingLaws.

(** The daemon answers its roots and its objects. *)
Class ServingClient (W : Type) `{ContentClient W} := {
  resolve_announced w profile root_id :
    source_resolve_profile_sync_root profile root_id w
    = (w, Ok (announced w !! (profile, root_id)));
  get_contents w profile object_id bytes :
    contents w !! (profile, object_id) = Some bytes ->
    source_get_profile_sync_object profile object_id w
    = (w, Ok {| ob_object_id := object_id; ob_bytes := bytes |})
}.

#[export, refine] Instance reference_serves : ServingClient ReferenceStore := {}.
Proof.
  - intros w profile root_id. unfold source_resolve_profile_sync_root, sr_bind.
    by rewrite reference_profile_sync.
  - intros w profile object_id bytes Hb. unfold source_get_profile_sync_object, sr_bind.
    rewrite reference_profile_sync. unfold reference_dispatch. cbn. cbn in Hb. by rewrite Hb.
Defined.

(** ** Opening what was published *)

Section Exchange.
Context (codec : SyncCodec) (sealer : SyncSealer) (laws : SealerLaws codec sealer).
Context {W : Type} `{ServingClient W}.
Context (signer : ProfileSyncDeviceSigner) (pk : ProfileSyncDevicePublicKey).
Context (Hpk : signer_public_key sealer signer = Ok pk).
Context (profile content_key key_id : string) (db : ProfileDb) (epoch : Z).
Context (Htrusts : trusts db profile pk epoch).
Implicit Types (w : W).

(** The bytes of a held object, served. *)
Lemma held_served w domain kind payload object_id :
  holds_sealed sealer w signer profile domain kind key_id content_key payload object_id ->
  exists bytes, sealed_for sealer signer profile domain kind key_id content_key payload bytes /\
    get_profile_sync_object profile object_id w
    = (w, Ok {| ob_object_id := object_id; ob_bytes := bytes |}).
Proof. intros (_ & bytes & Hb & Hs). exists bytes. split; [done|]. by apply get_contents. Qed.

Lemma manifest_opens manifest payload bytes :
  manifest_to_vec sealer manifest = Ok payload ->
  sealed_for sealer signer profile SYNC_DOMAIN_SETTINGS PROFILE_SYNC_MANIFEST_OBJECT_KIND key_id
    content_key payload bytes ->
  open_trusted_signed_profile_sync_manifest codec bytes content_key profile key_id db
    = (db, Ok manifest).
Proof using Hpk Htrusts laws.
  intros Hp Hs. unfold open_trusted_signed_profile_sync_manifest, sr_bind.
  rewrite (opens_trusted codec sealer laws _ _ _ _ _ _ _ _ _ _ _ Hpk Hs Htrusts).
  destruct (sl_manifest _ _ laws manifest) as (doc & Hdoc & _ & Hfrom).
  rewrite Hdoc in Hp. injection Hp as ->. unfold sync_object, sr_lift. by rewrite Hfrom.
Qed.

Lemma snapshot_opens snapshot payload bytes :
  settings_snapshot_to_vec sealer snapshot = Ok payload ->
  sealed_for sealer signer profile SYNC_DOMAIN_SETTINGS
    PROFILE_SYNC_SETTINGS_SNAPSHOT_OBJECT_KIND key_id content_key payload bytes ->
  open_trusted_signed_profile_sync_settings_snapshot codec bytes content_key profile key_id db
    = (db, Ok snapshot).
Proof using Hpk Htrusts laws.
  intros Hp Hs. unfold open_trusted_signed_profile_sync_settings_snapshot, sr_bind.
  rewrite (opens_trusted codec sealer laws _ _ _ _ _ _ _ _ _ _ _ Hpk Hs Htrusts).
  destruct (sl_snapshot _ _ laws snapshot) as (doc & Hdoc & _ & Hfrom).
  rewrite Hdoc in Hp. injection Hp as ->. unfold sync_object, sr_lift. by rewrite Hfrom.
Qed.

Lemma device_head_opens device_head payload bytes :
  device_head_to_vec sealer device_head = Ok payload ->
  sealed_for sealer signer profile SYNC_DOMAIN_SETTINGS PROFILE_SYNC_DEVICE_HEAD_OBJECT_KIND
    key_id content_key payload bytes ->
  dh_schema_version device_head = PROFILE_SYNC_DEVICE_HEAD_SCHEMA_VERSION ->
  dh_profile device_head = profile -> dh_device_id device_head = pk_device_id pk ->
  dh_membership_epoch device_head = epoch ->
  open_trusted_signed_profile_sync_device_head codec bytes content_key profile key_id db
    = (db, Ok device_head).
Proof using Hpk Htrusts laws.
  intros Hp Hs Hschema Hprofile Hdevice Hepoch.
  destruct (sl_device_head _ _ laws device_head) as (doc & Hdoc & _ & Hfrom).
  rewrite Hdoc in Hp. injection Hp as ->.
  destruct (sealed_object codec sealer laws _ _ _ _ _ _ _ _ _ Hpk Hs)
    as (so & object & Hso & _ & Hd & Hpd & _).
  unfold open_trusted_signed_profile_sync_device_head, sr_bind, sync_object, sr_lift. rewrite Hso.
  simpl. rewrite (trusted_signer_key signer pk db profile epoch Htrusts so Hd Hpd).
  rewrite (opens_head_with_key codec sealer laws signer pk _ _ _ _ _ _ _ Hpk Hs device_head
             eq_refl eq_refl Hfrom Hschema Hprofile Hdevice). simpl.
  rewrite Hepoch.
  by rewrite (opens_in_epoch codec sealer laws _ _ _ _ _ _ _ _ _ _ _ Hpk Hs Htrusts).
Qed.

(** The objects of the tail, served and opened. *)
Lemma tails_open w tails :
  Forall (tail_held sealer w signer profile key_id content_key) tails ->
  Forall (tail_valid profile) tails ->
  exists objects, map ob_object_id objects = map tp_object_id tails /\
    (forall object, object ∈ objects ->
       get_profile_sync_object profile (ob_object_id object) w = (w, Ok object)) /\
    open_tail_changes codec objects epoch content_key profile key_id db
    = (db, Ok (map verified_tail tails)).
Proof using Hpk Htrusts laws H1.
  intros Hheld Hvalid. induction Hheld as [|tail tails Ht Hheld IH].
  { exists []. split_and!; [done| |done]. intros object Ho. by apply not_elem_of_nil in Ho. }
  apply Forall_cons in Hvalid as [(_ & Hprofile & _) Hvalid].
  destruct (IH Hvalid) as (objects & Hids & Hget & Hopen).
  destruct Ht as (payload & Hvec & _ & bytes & Hb & Hs). rewrite Hprofile in Hs.
  exists ({| ob_object_id := tp_object_id tail; ob_bytes := bytes |} :: objects).
  split_and!; [simpl; by rewrite Hids| |].
  - intros object [->|Ho]%elem_of_cons; [by apply get_contents|by apply Hget].
  - destruct (sl_change _ _ laws (incoming_setting_from_change (tp_change tail)))
      as (doc & Hdoc & _ & Hfrom). rewrite Hdoc in Hvec. injection Hvec as ->.
    simpl. unfold sr_bind.
    rewrite (opens_in_epoch codec sealer laws _ _ _ _ _ _ _ _ _ _ _ Hpk Hs Htrusts).
    rewrite (opens_setting codec sealer laws _ _ _ _ _ _ _ _ _ _ _ Hpk Hs Htrusts
               (incoming_setting_from_change (tp_change tail)) eq_refl Hfrom Hprofile eq_refl).
    by rewrite Hopen.
Qed.

(** What the receiver verifies of a publication. *)
Definition published_objects (publication : PublishedSettingsSnapshotManifest)
    (snapshot : ProfileSyncSettingsSnapshot)
    (tails : list ProfileSyncSettingsTailChangePublication) :
    VerifiedProfileSyncSettingsManifestObjects :=
  {| vm_manifest_object_id := psm_manifest_object_id publication;
     vm_manifest := psm_manifest publication;
     vm_snapshot := Some {| vs_object_id := psm_snapshot_object_id publication;
                            vs_snapshot := snapshot |};
     vm_tail_changes := map verified_tail tails |}.

(** A held publication is pulled as it was published; the snapshot may be one that has been
    put before. *)
Lemma publication_pulled w root_id published_snapshot covered tail_changes publication tails
    snapshot :
  publication_held sealer w signer profile root_id key_id content_key published_snapshot covered
    tail_changes publication tails ->
  snapshot_held sealer w signer key_id content_key snapshot
    (psm_snapshot_object_id publication) ->
  sp_profile snapshot = profile -> epoch = DEFAULT_PROFILE_SYNC_MEMBERSHIP_EPOCH ->
  pull_trusted_signed_profile_sync_settings_manifest_objects_by_id codec profile
    (psm_manifest_object_id publication) content_key key_id (w, db)
  = ((w, db), Ok (published_objects publication snapshot tails)).
Proof using Hpk Htrusts laws H1.
  intros [_ Htails (mp & Hmvec & Hmheld) Hof] (sp & Hsvec & Hsheld) Hprofile Hepoch.
  destruct Hof as [Hmprofile _ Hmepoch Hmsnapshot Hmtails _ Hvalid _ _].
  rewrite Hmprofile in Hmheld. rewrite Hprofile in Hsheld.
  destruct (held_served w _ _ _ _ Hmheld) as (mbytes & Hmseal & Hmget).
  destruct (held_served w _ _ _ _ Hsheld) as (sbytes & Hsseal & Hsget).
  destruct (tails_open w tails Htails Hvalid) as (objects & Hids & Hget & Hopen).
  set (mo := {| ob_object_id := psm_manifest_object_id publication; ob_bytes := mbytes |}) in *.
  set (so := {| ob_object_id := psm_snapshot_object_id publication; ob_bytes := sbytes |}) in *.
  apply (pull_by_id_served codec profile content_key key_id w db
           (published_objects publication snapshot tails) mo (Some so) objects).
  { intros object Hobject. apply elem_of_cons in Hobject as [->|Hobject]; [done|].
    simpl in Hobject. apply elem_of_cons in Hobject as [->|Hobject]; [done|by apply Hget]. }
  split; simpl.
  - by rewrite Hmsnapshot.
  - by rewrite Hids, Hmtails.
  - unfold open_trusted_signed_profile_sync_settings_manifest_objects, sr_bind.
    unfold mo, so. cbn [ob_bytes ob_object_id].
    rewrite (manifest_opens _ _ _ Hmvec Hmseal). rewrite Hmepoch, <-Hepoch.
    rewrite (opens_in_epoch codec sealer laws _ _ _ _ _ _ _ _ _ _ _ Hpk Hmseal Htrusts).
    rewrite (opens_in_epoch codec sealer laws _ _ _ _ _ _ _ _ _ _ _ Hpk Hsseal Htrusts).
    rewrite (snapshot_opens _ _ _ Hsvec Hsseal). cbn [sr_ret].
    by rewrite Hopen.
Qed.

(** A published head is pulled under its root. *)
Lemma head_pulled w root_id device_head object_id :
  announced w !! (profile, root_id) = Some object_id ->
  head_held sealer w signer key_id content_key device_head object_id ->
  validate_device_head_for_publish sealer profile root_id device_head signer = Ok tt ->
  dh_membership_epoch device_head = epoch ->
  pull_trusted_signed_profile_sync_device_head codec profile root_id content_key key_id (w, db)
  = ((w, db), Ok (Some {| vd_object_id := object_id; vd_device_head := device_head |})).
Proof using Hpk Htrusts laws H1.
  intros Hroot (payload & Hvec & Hheld) Hval Hepoch.
  apply validated_head in Hval as (Hprofile & Hrootid & Hschema & pk' & Hpk' & Hdevice).
  rewrite Hpk in Hpk'. injection Hpk' as <-. rewrite Hprofile in Hheld.
  destruct (held_served w _ _ _ _ Hheld) as (bytes & Hseal & Hget).
  unfold pull_trusted_signed_profile_sync_device_head, sr_bind, on_source.
  cbn [resolve_profile_sync_root BroadwebdProfileSyncObjectSource].
  rewrite resolve_announced, Hroot. cbn [map_err].
  pose proof (fetch_served profile w db {| ob_object_id := object_id; ob_bytes := bytes |} Hget)
    as Hfetch. cbn [ob_object_id] in Hfetch. rewrite Hfetch.
  unfold open_pulled_device_head, sr_bind, on_database. cbn [ob_bytes].
  rewrite (device_head_opens _ _ _ Hvec Hseal Hschema Hprofile Hdevice Hepoch). cbn [map_err].
  unfold validate_profile_sync_device_head_root. by rewrite Hrootid, str_eqb_refl.
Qed.
End Exchange.

(** ** What a first publication leaves *)

Section First.
Context (sealer : SyncSealer) {W : Type} `{ContentClient W}.
Context (random_nonce : W -> W * option string) (Hrandom : generator_ok random_nonce).
Context (local_sync_device_id profile settings_root_id content_key key_id : string).
Context (signer : ProfileSyncDeviceSigner) (policy : ProfileSyncRetentionPolicy) (now : Z).

Local Abbreviation head_root := (settings_device_head_root_id local_sync_device_id).

(** The frontier a manifest without tail has for a device. *)
Lemma covered_frontier root_id publication m device change :
  snapshot_manifest_of profile root_id publication [] m ->
  latest_local_device_change_for_head device (spp_covered_changes publication) = Some change ->
  exists f, list_find_bool (fun f => str_eqb (df_device_id f) device) (mf_device_frontiers m)
              = Some f /\
    df_latest_sequence f = ch_device_sequence change /\ df_latest_change_object_id f = None.
Proof.
  intros [_ _ _ _ _ _ _ (frontiers & Hf & Hfo) _] (Hin & Hdev & Hmax)%latest_local_change.
  simpl in Hfo. rewrite app_nil_r in Hfo. destruct (fo_greatest _ _ Hfo (change_frontier change None))
    as (f & Hl & Hle); [by apply (list_elem_of_fmap_2 (fun c => change_frontier c None))|].
  simpl in Hl. rewrite Hdev in Hl. rewrite Hf.
  assert (f ∈ btree_values frontiers) as Hfin by (apply elem_of_btree_values; eauto).
  destruct (fo_sound _ _ Hfo _ _ Hl) as [Hfd Hfs].
  destruct (list_find_bool _ _) as [f'|] eqn:Hfind.
  2: { eapply list_find_bool_None in Hfind; [|exact Hfin]. by rewrite Hfd, str_eqb_refl in Hfind. }
  apply list_find_bool_Some in Hfind as [Hf'in Hf'd%str_eqb_eq].
  apply elem_of_btree_values in Hf'in as [k Hk].
  destruct (fo_sound _ _ Hfo _ _ Hk) as [<- _]. rewrite Hf'd, Hl in Hk. injection Hk as <-.
  exists f. split; [done|]. apply list_elem_of_fmap in Hfs as (c & -> & Hc). simpl in *.
  apply rust_le_fst in Hle. simpl in Hle. rewrite rust_le_Z in Hle. specialize (Hmax c Hc Hfd).
  split; [lia|done].
Qed.

Lemma publication_held_grows w w' root_id snapshot covered tail_changes publication tails :
  grows w w' ->
  publication_held sealer w signer profile root_id key_id content_key snapshot covered
    tail_changes publication tails ->
  publication_held sealer w' signer profile root_id key_id content_key snapshot covered
    tail_changes publication tails.
Proof.
  intros Hg [H1 H2 (p & Hp & Hh) H4]. split; [done| | |done].
  - eapply Forall_impl; [exact H2|]. intros tail. by apply tail_held_grows.
  - exists p. split; [done|]. by eapply holds_sealed_grows.
Qed.

Lemma snapshot_held_grows w w' snapshot object_id :
  grows w w' -> snapshot_held sealer w signer key_id content_key snapshot object_id ->
  snapshot_held sealer w' signer key_id content_key snapshot object_id.
Proof. intros Hg (p & Hp & Hh). exists p. split; [done|]. by eapply holds_sealed_grows. Qed.

(** The head of the publication names its manifest. *)
Record head_announced (w : W) (head : PublishedProfileSyncDeviceHead)
    (publication : PublishedSettingsSnapshotManifest) : Prop := {
  ha_announced : announced w !! (profile, head_root) = Some (pdh_object_id head);
  ha_held : head_held sealer w signer key_id content_key (pdh_device_head head)
              (pdh_object_id head);
  ha_valid : validate_device_head_for_publish sealer profile head_root (pdh_device_head head)
               signer = Ok tt;
  ha_epoch : dh_membership_epoch (pdh_device_head head) = DEFAULT_PROFILE_SYNC_MEMBERSHIP_EPOCH;
  ha_manifest : dh_latest_manifest_object_id (pdh_device_head head)
                = psm_manifest_object_id publication;
  ha_frontier : validate_profile_sync_device_head_manifest (pdh_device_head head)
                  (psm_manifest publication) = Ok tt
}.

(** A first publication holds the snapshot of the enabled events, and no tail. *)
Lemma full_snapshot_ok s s' p :
  publish_full_local_settings_snapshot_head sealer random_nonce local_sync_device_id profile
    settings_root_id content_key key_id signer policy now s = (s', Ok (Some p)) ->
  let events := enabled_events profile 0 u32_max (seeded profile now s.2) in
  exists event, last events = Some event /\
    let snapshot := settings_sync_snapshot_payload profile (rv_revision (ev_revision event))
                      (change_domains (map ev_change events)) now (seeded profile now s.2) in
    publication_held sealer s'.1 signer profile settings_root_id key_id content_key snapshot
      (map ev_change events) [] (psh_publication p) [] /\
    snapshot_held sealer s'.1 signer key_id content_key snapshot
      (psm_snapshot_object_id (psh_publication p)) /\
    head_announced s'.1 (psh_device_head p) (psh_publication p).
Proof using Hrandom.
  intros Hp events. unfold publish_full_local_settings_snapshot_head in Hp.
  rewrite on_storage_events in Hp. fold events in Hp.
  destruct (last events) as [event|]; [|done]. exists event. split; [done|].
  destruct (latest_local_device_change_for_head _ _) as [change|] eqn:Hchange; [|done].
  rewrite on_storage_query in Hp. apply sr_bind_ok in Hp as (s2 & publication & Hpub & Hp).
  eapply publish_snapshot_manifest_ok in Hpub as (_ & _ & _ & Hsnap & tails & Hheld);
    [|exact Hrandom].
  assert (tails = []) as -> by (destruct Hheld as [Ht _ _ _]; by destruct tails).
  apply sr_bind_ok in Hp as (s3 & head & Hhead & Hp).
  eapply publish_device_head_ok in Hhead as (_ & Hg & Hann & _ & Hhd & Hval & _ & Hhheld);
    [|exact Hrandom].
  apply sr_bind_ok in Hp as (s4 & records & [_ Hw4]%on_storage_ok & Hp).
  apply sr_bind_ok in Hp as (s5 & r1 & [-> _]%storage_result_ok & Hp).
  apply sr_bind_ok in Hp as (s6 & r2 & [-> _]%storage_result_ok & [= <- <-]).
  cbn [psh_publication psh_device_head]. rewrite Hw4. split_and!.
  - by eapply publication_held_grows.
  - by eapply snapshot_held_grows.
  - split; rewrite ?Hhd; [by rewrite Hann, lookup_insert_eq|done|done|done|done|].
    pose proof Hheld as [_ _ _ Hof].
    destruct (covered_frontier _ _ _ _ _ Hof Hchange) as (f & Hf & Hseq & Hid).
    unfold validate_profile_sync_device_head_manifest. rewrite (sm_epoch _ _ _ _ _ Hof).
    cbn [dh_membership_epoch dh_device_id local_device_head]. rewrite Z.eqb_refl. cbn [negb].
    rewrite Hf. cbn. rewrite Hseq, Hid, Z.eqb_refl. done.
Qed.

(** A tail publication names the latest snapshot and holds the local changes after it. *)
Lemma tail_head_held s s' p :
  publish_local_settings_tail_head sealer random_nonce local_sync_device_id profile
    settings_root_id content_key key_id signer policy now s = (s', Ok (Some p)) ->
  exists record snapshot covered tails,
    latest_sync_snapshot profile s.2 = Some record /\
    sn_backend_object_id record = Some (psm_snapshot_object_id (pth_publication p)) /\
    map tp_change tails
    = local_changes local_sync_device_id
        (enabled_events profile (sn_covers_revision record) u32_max (seeded profile now s.2)) /\
    publication_held sealer s'.1 signer profile settings_root_id key_id content_key snapshot
      covered (map tp_change tails) (pth_publication p) tails /\
    grows s.1 s'.1 /\ head_announced s'.1 (pth_device_head p) (pth_publication p).
Proof using Hrandom.
  intros Hp. unfold publish_local_settings_tail_head in Hp. rewrite on_storage_query in Hp.
  destruct (latest_sync_snapshot profile s.2) as [record|]; [|done].
  apply sr_bind_ok in Hp as (s1 & snapshot_id & [-> Hid]%storage_result_ok & Hp).
  unfold ok_or_manifest in Hid. destruct (sn_backend_object_id record) as [id|] eqn:Hbackend; [|done].
  injection Hid as ->. rewrite on_storage_events in Hp.
  set (tail_changes := local_changes _ _) in *.
  destruct (latest_local_device_change_for_head _ _) as [change|] eqn:Hchange; [|done].
  rewrite on_storage_events, on_storage_query in Hp. cbn [fst snd] in Hp.
  apply sr_bind_ok in Hp as (s2 & published & Hpub & Hp).
  eapply publish_existing_snapshot_manifest_ok in Hpub
    as (_ & Hg2 & _ & Hsid & tails & Hheld); [|exact Hrandom].
  pose proof Hheld as [Htails _ _ Hof].
  apply sr_bind_ok in Hp as (s3 & f & [-> Hf]%storage_result_ok & Hp).
  unfold ok_or_manifest in Hf. destruct (list_find_bool _ _) as [f'|] eqn:Hfind; [|done].
  injection Hf as ->. apply sr_bind_ok in Hp as (s4 & head & Hhead & Hp).
  eapply publish_device_head_ok in Hhead as (_ & Hg4 & Hann & _ & Hhd & Hval & _ & Hhh);
    [|exact Hrandom].
  apply sr_bind_ok in Hp as (s5 & records & [_ Hw5]%on_storage_ok & Hp).
  apply sr_bind_ok in Hp as (s6 & r1 & [-> _]%storage_result_ok & Hp).
  apply sr_bind_ok in Hp as (s7 & r2 & [-> _]%storage_result_ok & [= <- <-]).
  cbn [pth_publication pth_device_head]. rewrite Hw5.
  exists record. do 2 eexists. exists tails. split; [done|]. split; [by rewrite Hsid|].
  split; [done|]. rewrite Htails. split; [by eapply publication_held_grows|].
  split; [etransitivity; [exact Hg2|exact Hg4]|].
  split; rewrite ?Hhd; [by rewrite Hann, lookup_insert_eq|done|done|done|done|].
  unfold validate_profile_sync_device_head_manifest. rewrite (sm_epoch _ _ _ _ _ Hof).
  cbn [dh_membership_epoch dh_device_id local_device_head]. rewrite Z.eqb_refl. cbn [negb].
  rewrite Hfind. cbn. rewrite Z.eqb_refl, bool_decide_eq_true_2 by done. done.
Qed.
End First.

(** ** Receiving a first publication *)

(** A change of an enabled domain is among the events. *)
Lemma applied_change_event profile d db c :
  sound_log d db -> few_events db -> c ∈ db_changes db -> applied_text c = true ->
  ch_profile c = profile -> ch_domain c ∈ enabled_ids profile db ->
  exists e, e ∈ enabled_events profile 0 u32_max db /\ ev_change e = c.
Proof.
  intros [Hs Hp _ [_ Hpos] _] Hfew Hc Ha Hprofile Hd.
  assert (c ∈ List.filter applied_text (db_changes db)) as Hin by (by apply elem_of_filter_bool).
  rewrite <-joined_events_applied in Hin by done.
  apply list_elem_of_fmap in Hin as (e & -> & He). exists e. split; [|done].
  apply elem_of_enabled_events; [done|]. split; [done|]. exists (ch_domain (ev_change e)).
  split; [done|]. pose proof (joined_event_spec db e He) as (Hr & _ & Hep).
  rewrite Forall_forall in Hpos. specialize (Hpos _ Hr). simpl in Hpos.
  pose proof (joined_domain db e Hs Hp He) as Hdom.
  unfold domain_event. rewrite Ha, Hdom, <-Hep, Hprofile, !str_eqb_refl.
  by rewrite (proj2 (Z.ltb_lt _ _) Hpos).
Qed.

(** The included domains of a first snapshot lose no value. *)
Lemma included_values profile d db dom key :
  sound_log d db -> few_events db -> is_empty dom = false -> dom ∈ enabled_ids profile db ->
  value_of db (profile, dom, key) <> None ->
  dom ∈ normalized_snapshot_domains
          (change_domains (map ev_change (enabled_events profile 0 u32_max db))).
Proof.
  intros Hsound Hfew Hne Hd Hv. pose proof Hsound as [_ _ Hval _ _].
  apply elem_of_normalized. split; [|done].
  unfold change_domains. rewrite elem_of_btree_elems, elem_of_list_to_set.
  unfold value_of in Hv. rewrite Hval in Hv.
  destruct (last_applied (profile, dom, key) db) as [c|] eqn:Hlast; [|done].
  unfold last_applied in Hlast. apply last_Some in Hlast as [l Hl].
  assert (c ∈ List.filter (of_entity (profile, dom, key))
            (List.filter applied_text (db_changes db))) as Hc.
  { rewrite Hl. apply elem_of_app. right. by left. }
  apply elem_of_filter_bool in Hc as [Hent [Ha Hc]%elem_of_filter_bool].
  unfold of_entity, entity_eqb in Hent. apply bool_decide_eq_true in Hent. injection Hent as <- <- <-.
  destruct (applied_change_event (ch_profile c) d db c) as (e & He & Hec); [done..|].
  apply list_elem_of_fmap. exists c. split; [done|]. apply list_elem_of_fmap. by exists e.
Qed.

(** The database without the profile accepts the snapshot, and the head's root is recorded. *)
Lemma first_snapshot_applies profile d db1 covers domains now now2 m snapshot_id manifest_id root_id
    object_id db :
  sound_log d db1 -> few_events db1 ->
  (forall e, e ∈ profile_events profile db1 ->
     ch_domain (ev_change e) ∈ normalized_snapshot_domains domains ->
     rv_revision (ev_revision e) <= covers) ->
  store_ok db -> no_changes profile db -> is_empty root_id = false ->
  mf_profile m = profile -> is_empty (mf_root_id m) = false ->
  let snapshot := {| vs_object_id := snapshot_id;
                     vs_snapshot := settings_sync_snapshot_payload profile covers domains now db1
                  |} in
  validate_settings_manifest_application m (Some snapshot) [] = Ok tt ->
  exists db' root application,
    apply_verified_settings_manifest_objects_and_set_profile_sync_root d
      {| vm_manifest_object_id := manifest_id; vm_manifest := m; vm_snapshot := Some snapshot;
         vm_tail_changes := [] |} profile root_id object_id now2 db
    = (db', Ok (root, application)) /\
    (forall dom key, value_of db' (profile, dom, key)
       = if str_member dom (normalized_snapshot_domains domains)
         then value_of db1 (profile, dom, key) else None) /\
    profile_sync_root profile root_id db'
    = (db', Ok (Some {| pr_profile := profile; pr_root_id := root_id; pr_object_id := object_id;
                        pr_updated_at := now2 |})).
Proof.
  intros Hsound Hfew Hcov Hok Hno Hroot Hmp Hmr snapshot Hval.
  destruct (payload_applies d profile covers domains now now2 db1 db Hsound Hfew Hcov Hok Hno)
    as (db2 & rs & Happ & _ & Hv).
  unfold apply_verified_settings_manifest_objects_and_set_profile_sync_root.
  setoid_rewrite transaction_ok.
  unfold apply_verified_settings_manifest_in_transaction. cbn [vm_manifest_object_id vm_manifest
    vm_snapshot vm_tail_changes map vs_snapshot].
  unfold sr_lift, snapshot in *. rewrite Hval. unfold sr_bind at 1. unfold sr_bind at 1.
  unfold sr_bind at 1. cbn [vs_snapshot vs_object_id]. unfold sr_bind at 1. unfold sr_bind at 1.
  rewrite Happ. unfold sr_bind at 1. unfold record_sync_snapshot_in_transaction.
  unfold sr_bind at 1, execute at 1. unfold sr_bind at 1, query.
  cbn [db_snapshots set_db_snapshots]. rewrite lookup_insert_eq. unfold required_row, sr_lift.
  cbn [apply_changes]. unfold sr_bind, set_profile_sync_root_in_transaction, execute.
  rewrite Hmr, Hroot. unfold sr_bind, sr_ret. eexists _, _, _. split; [reflexivity|].
  split; [exact Hv|]. by apply profile_sync_root_set.
Qed.

(** The sequence of a device of which nothing is recorded. *)
Lemma no_changes_no_sequence profile device db :
  no_changes profile db -> latest_sync_device_sequence profile device db = None.
Proof.
  intros Hno. unfold latest_sync_device_sequence, device_sequences.
  assert (List.filter (fun r => str_eqb (ch_profile r) profile && str_eqb (ch_device_id r) device)
            (db_changes db) = []) as ->; [|done].
  apply filter_bool_none. intros r Hr%Hno. by destruct (str_eqb (ch_profile r) profile) eqn:E;
    [apply str_eqb_eq in E|].
Qed.

Lemma same_log_seeded profile now db : same_log db (seeded profile now db).
Proof. destruct (seeded_app_domains profile now db) as [v ->]. done. Qed.

Lemma few_events_seeded profile now db : few_events db -> few_events (seeded profile now db).
Proof. by destruct (seeded_app_domains profile now db) as [v ->]. Qed.

(** The last event covers the events of the domains that have some. *)
Lemma last_event_covers profile d db event e :
  sound_log d db -> few_events db ->
  last (enabled_events profile 0 u32_max db) = Some event ->
  e ∈ profile_events profile db ->
  ch_domain (ev_change e) ∈ normalized_snapshot_domains
    (change_domains (map ev_change (enabled_events profile 0 u32_max db))) ->
  rv_revision (ev_revision e) <= rv_revision (ev_revision event).
Proof.
  intros Hsound Hfew Hlast [Hp He]%elem_of_filter_bool [Hd _]%elem_of_normalized.
  apply str_eqb_eq in Hp. pose proof Hsound as [Hs Hpair _ [_ Hpos] _].
  unfold change_domains in Hd. rewrite elem_of_btree_elems, elem_of_list_to_set in Hd.
  apply list_elem_of_fmap in Hd as (c & Hdom & (e2 & -> & He2)%list_elem_of_fmap).
  apply elem_of_enabled_events in He2 as (_ & domain & Hen & Hdomain%domain_event_domain); [|done].
  apply (last_event_greatest profile 0 db event e Hfew Hlast).
  apply elem_of_enabled_events; [done|]. split; [done|]. exists domain. split; [done|].
  pose proof (joined_event_spec db e He) as (Hr & _ & _).
  rewrite Forall_forall in Hpos. specialize (Hpos _ Hr). simpl in Hpos.
  assert (ev_change e ∈ List.filter applied_text (db_changes db)) as [Ha _]%elem_of_filter_bool.
  { rewrite <-joined_events_applied by done. by apply list_elem_of_fmap_2. }
  unfold domain_event. rewrite (joined_domain db e Hs Hpair He), Hp, Ha, Hdom, Hdomain,
    !str_eqb_refl. by rewrite (proj2 (Z.ltb_lt _ _) Hpos).
Qed.

(** ** Theorems *)

(** C9: (roundtrip) Settings reach a new device: after the first publication of a device,
    any database that trusts its key, has no changes of the profile and has not seen the
    device's head, pulls the head, accepts the snapshot, and holds for every key of an
    enabled domain the value of the publisher, and no other value. *)
Theorem settings_reach_new_device codec sealer d {W} `{ServingClient W}
    (random_nonce : W -> W * option string) device profile root_id content_key key_id signer pk
    policy now s s' p dbh l db now2 :
  SealerLaws codec sealer -> generator_ok random_nonce ->
  replica_history d device dbh l -> consistent l -> same_log dbh s.2 -> few_events s.2 ->
  publish_full_local_settings_snapshot_head sealer random_nonce device profile root_id content_key
    key_id signer policy now s = (s', Ok (Some p)) ->
  signer_public_key sealer signer = Ok pk -> is_empty profile = false ->
  trusts db profile pk DEFAULT_PROFILE_SYNC_MEMBERSHIP_EPOCH ->
  store_ok db -> no_changes profile db ->
  let head_root := settings_device_head_root_id device in
  profile_sync_root profile head_root db = (db, Ok None) ->
  exists db' root application,
    pull_record_and_apply_trusted_settings_from_device_head codec d profile head_root content_key
      key_id now2 (s'.1, db)
    = ((s'.1, db'),
       Ok (SyncApplied {| vd_object_id := pdh_object_id (psh_device_head p);
                          vd_device_head := pdh_device_head (psh_device_head p) |}
             root application)) /\
    forall domain key, is_empty domain = false ->
      option_map sv_value (get_sync_setting_text profile domain key db')
      = if str_member domain (enabled_ids profile (seeded profile now s.2))
        then option_map sv_value (get_sync_setting_text profile domain key s.2) else None.
Proof.
  intros laws Hrandom Hh Hcons Hsame Hfew Hpub Hpk Hprofile Htrusts Hok Hno head_root Hlocal.
  eapply full_snapshot_ok in Hpub
    as (event & Hlast & Hheld & Hsnap & [Hann Hhh Hval Hep Hman Hfr]); [|exact Hrandom].
  set (db1 := seeded profile now s.2) in *.
  assert (sound_log d db1) as Hsound.
  { eapply sound_log_ext; [apply same_log_seeded|]. eapply sound_log_ext; [exact Hsame|].
    by eapply history_sound. }
  apply (few_events_seeded profile now) in Hfew as Hfew1. fold db1 in Hfew1.
  set (domains := change_domains _) in *. set (covers := rv_revision _) in *.
  pose proof Hheld as [_ _ _ Hof]. pose proof Hof as [Hmp Hmr Hme _ _ _ _ _ Hacc].
  specialize (Hacc Hprofile). cbn [spp_snapshot spp_object_id map] in Hacc.
  specialize (Hacc (fun dom Hd => proj2 (proj1 (elem_of_normalized dom domains) Hd))).
  assert (is_empty (mf_root_id (psm_manifest (psh_publication p))) = false) as Hmroot.
  { unfold validate_settings_manifest_application in Hacc.
    destruct (mf_schema_version _ =? _); [|done]. destruct (is_empty (mf_profile _)); [done|].
    by destruct (is_empty (mf_root_id _)). }
  destruct (first_snapshot_applies profile d db1 covers domains now now2
    (psm_manifest (psh_publication p)) (psm_snapshot_object_id (psh_publication p))
    (psm_manifest_object_id (psh_publication p)) head_root (pdh_object_id (psh_device_head p)) db)
    as (db' & root & application & Happ & Hvals & _); try done.
  { intros e He Hd. by apply (last_event_covers profile d db1 event e). }
  exists db', root, application. split.
  - unfold pull_record_and_apply_trusted_settings_from_device_head, sr_bind at 1, sr_map_err.
    rewrite (head_pulled codec sealer laws signer pk Hpk profile content_key key_id db _ Htrusts
               s'.1 head_root _ _ Hann Hhh Hval Hep).
    cbn [map_err]. unfold sr_bind at 1, on_database at 1. rewrite Hlocal. cbn [map_err option_map].
    unfold sr_bind at 1, on_database at 1, query, stale_sequence.
    rewrite bool_decide_eq_false_2 by done. rewrite no_changes_no_sequence by done. cbn [map_err].
    unfold sr_bind at 1, pull_trusted_signed_profile_sync_settings_manifest_objects_from_device_head.
    cbn [vd_device_head]. apply validated_head in Hval as (Hdp & _). rewrite Hdp, str_eqb_refl.
    cbn [negb]. unfold sr_bind at 1. rewrite Hman.
    rewrite (publication_pulled codec sealer laws signer pk Hpk profile content_key key_id db _
               Htrusts s'.1 _ _ _ _ _ _ _ Hheld Hsnap eq_refl eq_refl).
    unfold sr_bind at 1, open_error, sr_lift, published_objects. cbn [vm_manifest]. rewrite Hfr.
    cbn [map_err sr_ret vm_manifest_object_id].
    destruct (profile_sync_root_answers profile _ db Hmroot) as [local Hlr].
    unfold sr_bind at 1, on_database at 1. cbn [vm_manifest].
    rewrite Hlr. cbn [map_err andb].
    unfold sr_bind, on_database. cbn [vd_object_id map]. by rewrite Happ.
  - intros dom key Hne. change (option_map sv_value (get_sync_setting_text profile dom key db'))
      with (value_of db' (profile, dom, key)). rewrite Hvals.
    change (option_map sv_value (get_sync_setting_text profile dom key s.2))
      with (value_of s.2 (profile, dom, key)).
    assert (value_of db1 (profile, dom, key) = value_of s.2 (profile, dom, key)) as Hv1.
    { unfold value_of. destruct (same_log_seeded profile now s.2) as (_ & _ & _ & _ & H5).
      unfold db1. by rewrite H5. }
    destruct (str_member dom (normalized_snapshot_domains domains)) eqn:Hin.
    + apply str_member_spec in Hin. rewrite Hv1.
      assert (str_member dom (enabled_ids profile db1) = true) as ->; [|done].
      apply str_member_spec. apply elem_of_normalized in Hin as [Hin _].
      unfold domains, change_domains in Hin.
      rewrite elem_of_btree_elems, elem_of_list_to_set in Hin.
      apply list_elem_of_fmap in Hin as (c & -> & (e & -> & He)%list_elem_of_fmap).
      apply elem_of_enabled_events in He as (_ & domain & Hen & Hdd%domain_event_domain); [|done].
      by rewrite Hdd.
    + destruct (str_member dom (enabled_ids profile db1)) eqn:Hen; [|done].
      apply str_member_spec in Hen. rewrite <-Hv1.
      destruct (value_of db1 (profile, dom, key)) as [v|] eqn:Hv; [|done]. exfalso.
      assert (dom ∈ normalized_snapshot_domains domains) as Hd.
      { apply (included_values profile d db1 dom key); [done..|]. by rewrite Hv. }
      apply str_member_spec in Hd. congruence.
Qed.

(** C11: (roundtrip) After a publication of changes, every database that trusts the device's
    key pulls the announced head and, from it, the manifest, the snapshot it names and exactly
    the publisher's changes after that snapshot, in their order. *)
Theorem published_tail_pulled codec sealer {W} `{ServingClient W}
    (random_nonce : W -> W * option string) device profile root_id content_key key_id signer pk
    policy now s s' p snapshot db :
  SealerLaws codec sealer -> generator_ok random_nonce ->
  publish_local_settings_tail_head sealer random_nonce device profile root_id content_key key_id
    signer policy now s = (s', Ok (Some p)) ->
  snapshot_held sealer s.1 signer key_id content_key snapshot
    (psm_snapshot_object_id (pth_publication p)) -> sp_profile snapshot = profile ->
  signer_public_key sealer signer = Ok pk ->
  trusts db profile pk DEFAULT_PROFILE_SYNC_MEMBERSHIP_EPOCH ->
  let head := {| vd_object_id := pdh_object_id (pth_device_head p);
                 vd_device_head := pdh_device_head (pth_device_head p) |} in
  pull_trusted_signed_profile_sync_device_head codec profile (settings_device_head_root_id device)
    content_key key_id (s'.1, db) = ((s'.1, db), Ok (Some head)) /\
  exists record objects,
    pull_trusted_signed_profile_sync_settings_manifest_objects_from_device_head codec profile head
      content_key key_id (s'.1, db) = ((s'.1, db), Ok objects) /\
    latest_sync_snapshot profile s.2 = Some record /\
    vm_manifest objects = psm_manifest (pth_publication p) /\
    vm_snapshot objects
    = Some {| vs_object_id := psm_snapshot_object_id (pth_publication p);
              vs_snapshot := snapshot |} /\
    map vt_change (vm_tail_changes objects)
    = map change_of (local_changes device
        (enabled_events profile (sn_covers_revision record) u32_max (seeded profile now s.2))).
Proof.
  intros laws Hrandom Hpub Hsnap Hprofile Hpk Htrusts head.
  eapply tail_head_held in Hpub as (record & snapshot' & covered & tails & Hlatest & _ & Htails & Hheld
    & Hg & [Hann Hhh Hval Hep Hman Hfr]); [|exact Hrandom].
  assert (pull_trusted_signed_profile_sync_device_head codec profile
    (settings_device_head_root_id device) content_key key_id (s'.1, db)
    = ((s'.1, db), Ok (Some head))) as Hpull by (by eapply head_pulled).
  split; [exact Hpull|].
  exists record, (published_objects (pth_publication p) snapshot tails). split.
  - unfold pull_trusted_signed_profile_sync_settings_manifest_objects_from_device_head.
    cbn [vd_device_head head]. apply validated_head in Hval as (Hdp & _).
    rewrite Hdp, str_eqb_refl. cbn [negb]. unfold sr_bind at 1. rewrite Hman.
    rewrite (publication_pulled codec sealer laws signer pk Hpk profile content_key key_id db _
               Htrusts s'.1 _ _ _ _ _ _ _ Hheld (snapshot_held_grows _ _ _ _ _ _ _ _ Hg Hsnap)
               Hprofile eq_refl).
    unfold sr_bind, open_error, sr_lift, published_objects. cbn [vm_manifest]. by rewrite Hfr.
  - split_and!; [done..|]. rewrite <-Htails. cbn [vm_tail_changes published_objects].
    by rewrite !map_map.
Qed.

(** ** Witnesses *)

Lemma one_setting_history :
  exists l, replica_history no_payloads "laptop" one_setting_db l /\ consistent l.
Proof.
  unfold one_setting_db.
  destruct (set_sync_setting_text "laptop" "default" "settings" "theme" "dark" 5 empty_db)
    as [db' [r|e]] eqn:E.
  - eapply single_write_history; [exact E|]. apply (f_equal snd) in E. vm_compute in E.
    injection E as <-. reflexivity.
  - exfalso. apply (f_equal snd) in E. vm_compute in E. discriminate.
Qed.

Lemma demo_trusts :
  trusts demo_trusting_db "default" (sk_public_key demo_trusted_key)
    DEFAULT_PROFILE_SYNC_MEMBERSHIP_EPOCH.
Proof. split; [reflexivity|]. split; [reflexivity|]. exists demo_trusted_key. by split_and!. Qed.

Definition demo_publication :=
  publish_full_local_settings_snapshot_head reference_sealer reference_nonce "laptop" "default"
    "settings" "content key" "k1" demo_signer keep_all 7 (empty_store, one_setting_db).

Lemma demo_publication_succeeds :
  match demo_publication.2 with Ok (Some _) => true | _ => false end = true.
Proof. vm_compute. reflexivity. Qed.

Lemma demo_theme_enabled :
  (if str_member "settings" (enabled_ids "default" (seeded "default" 7 one_setting_db))
   then option_map sv_value (get_sync_setting_text "default" "settings" "theme" one_setting_db)
   else None) = Some "dark".
Proof. vm_compute. reflexivity. Qed.

Lemma settings_reach_new_device_witness :
  exists w db' status,
    pull_record_and_apply_trusted_settings_from_device_head reference_codec no_payloads "default"
      "settings/devices/laptop/head" "content key" "k1" 9 (w, demo_trusting_db)
    = ((w, db'), Ok status) /\
    option_map sv_value (get_sync_setting_text "default" "settings" "theme" db') = Some "dark".
Proof.
  pose proof demo_publication_succeeds as Hok.
  destruct demo_publication as [s' [[p|]|e]] eqn:E; [|discriminate Hok..].
  destruct one_setting_history as (l & Hh & Hc).
  destruct (settings_reach_new_device reference_codec reference_sealer no_payloads reference_nonce
    "laptop" "default" "settings" "content key" "k1" demo_signer (sk_public_key demo_trusted_key)
    keep_all 7 (empty_store, one_setting_db) s' p one_setting_db l demo_trusting_db 9
    reference_laws reference_nonce_ok Hh Hc) as (db' & root & application & Hrun & Hvals).
  - split_and!; reflexivity.
  - exact few_demo_events.
  - exact E.
  - reflexivity.
  - reflexivity.
  - exact demo_trusts.
  - apply (store_ok_ext empty_db); [reflexivity..|exact store_ok_empty].
  - intros r Hr. exfalso. exact (not_elem_of_nil r Hr).
  - reflexivity.
  - eexists s'.1, db', _. split; [exact Hrun|].
    exact (eq_trans (Hvals "settings" "theme" eq_refl) demo_theme_enabled).
Defined.

(** A second setting is written after the first publication. *)
Definition demo_state : ReferenceStore * ProfileDb :=
  (demo_publication.1.1,
   (set_sync_setting_text "laptop" "default" "settings" "font" "mono" 8 demo_publication.1.2).1).

Definition demo_tail :=
  publish_local_settings_tail_head reference_sealer reference_nonce "laptop" "default" "settings"
    "content key" "k1" demo_signer keep_all 9 demo_state.

Lemma demo_tail_succeeds :
  match demo_publication.2, demo_tail.2 with
  | Ok (Some p), Ok (Some q) => str_eqb (psm_snapshot_object_id (psh_publication p))
                                  (psm_snapshot_object_id (pth_publication q))
  | _, _ => false
  end = true.
Proof. vm_compute. reflexivity. Qed.

Lemma demo_tail_keys :
  option_map (fun record => map in_key (map change_of (local_changes "laptop"
    (enabled_events "default" (sn_covers_revision record) u32_max
       (seeded "default" 9 demo_state.2))))) (latest_sync_snapshot "default" demo_state.2)
  = Some ["font"].
Proof. vm_compute. reflexivity. Qed.

Lemma published_tail_pulled_witness :
  exists w head objects,
    pull_trusted_signed_profile_sync_settings_manifest_objects_from_device_head reference_codec
      "default" head "content key" "k1" (w, demo_trusting_db)
    = ((w, demo_trusting_db), Ok objects) /\
    map in_key (map vt_change (vm_tail_changes objects)) = ["font"].
Proof.
  pose proof demo_tail_succeeds as Hok. pose proof demo_tail_keys as Hkeys.
  destruct demo_publication as [s' [[p|]|e]] eqn:E; [|discriminate Hok..].
  destruct demo_tail as [s2 [[q|]|e]] eqn:E2; [|discriminate Hok..].
  apply str_eqb_eq in Hok.
  destruct (full_snapshot_ok reference_sealer reference_nonce reference_nonce_ok "laptop" "default"
    "settings" "content key" "k1" demo_signer keep_all 7 (empty_store, one_setting_db) s' p E)
    as (event & _ & _ & Hsnap & _).
  rewrite Hok in Hsnap.
  assert (demo_state.1 = s'.1) as Hw by (unfold demo_state; rewrite E; reflexivity).
  rewrite <-Hw in Hsnap.
  destruct (published_tail_pulled reference_codec reference_sealer reference_nonce "laptop"
    "default" "settings" "content key" "k1" demo_signer (sk_public_key demo_trusted_key) keep_all 9
    demo_state s2 q _ demo_trusting_db reference_laws reference_nonce_ok E2 Hsnap eq_refl eq_refl
    demo_trusts) as (_ & record & objects & Hrun & Hlatest & _ & _ & Htails).
  eexists _, _, objects. split; [exact Hrun|]. rewrite Htails. rewrite Hlatest in Hkeys.
  cbn [option_map] in Hkeys. congruence.
Defined.
